(* ===== verification/_CoqProject ===== *)
-Q . S2P
Prelude.v
Bytes.v
Upsert.v
GLib.v
NDiscData.v
NDiscTimers.v
StablePrivacy.v
HexStr.v
Utf8Safe.v
ShQuote.v
ShFile.v
DmiTable.v
DmiDump.v
DmiEntry.v
CmpOrder.v
IpAddr.v
NMHash.v
PlatformLink.v
PlatformLnk.v
PlatformIp.v
PlatformRule.v
NmpObject.v
HashTable.v
RulesManager.v
RulesTrack.v
RulesSync.v
RulesRun.v
DeviceFlags.v
DeviceBase.v
DeviceQueue.v
DeviceState.v
DeviceStateInv.v
DeviceOps.v
DeviceRun.v
DeviceCleanup.v
DeviceSpec.v
AddrBase.v
AddrSync6.v
AddrSample.v
AddrOrder6.v
AddrSync4.v
AddrRoles4.v
AddrKernel4.v
RouteSync.v
RouteSpec.v
DedupObj.v
DedupMulti.v
DedupInv.v
DedupLinks.v
DedupOps.v
DedupSweep.v
DedupSpec.v
CacheObj.v
NmpCache.v
NmpCacheOps.v
NmpCacheInv.v
NmpCacheSync.v
NmpCacheUpdate.v
NmpCacheSpec.v
NmpCacheNetlink.v
NmpCacheRoute.v
NmpCacheLookup.v
NmpCacheLink.v
NmpCacheLinkOps.v
NmpCacheUdev.v
NmpCacheEvents.v
NmpCacheRun.v
NmpCacheMsg.v
NmpCacheDump.v
NmpCacheKernel.v
NmpCacheProps.v
NlRequest.v
NlRequestInv.v
NlRequestCheck.v
NlRequestRun.v
NlRequestEnd.v
NlRequestProps.v
