(* ===== verification/Prelude.v ===== *)
(** * NetworkManager and dmidecode: the algorithmic core

    The repository holds the NetworkManager daemon (src/NetworkManager) and
    dmidecode 3.2 with a callback interface added to it (src/dmidecode).  Most of
    the daemon moves data between D-Bus, netlink and GObject properties.  This
    development models the parts that decide something: tables with an order
    and a limit, state machines on a clock, parsers and their inverses, and the
    decoders that read memory they do not control.

    ** Files

    - Prelude (this file): machine integers, comparison steps, list operations,
      the tactics and hint databases.
    - Bytes, GLib: bytes and C strings; what the code takes from GLib, as type
      classes of operations with their documented laws.
    - Upsert: merging an element into a table with unique keys, the operation
      the router discovery tables share.
    - NDiscData: the tables of src/ndisc/nm-ndisc.c (gateways, addresses,
      routes, DNS servers and domains) and the functions that add to them.
    - NDiscTimers: the timers of nm-ndisc.c: router solicitations, router
      advertisements, expiry; a state monad whose log of events stands for the
      calls to the main loop and to the platform.
    - StablePrivacy: RFC 7217 identifiers of src/nm-core-utils.c.
    - HexStr, Utf8Safe: byte strings in hexadecimal and in UTF-8 with escapes, of
      shared/nm-glib-aux/nm-shared-utils.c.
    - ShQuote, ShFile: the shell dialect of ifcfg-rh files, of
      src/settings/plugins/ifcfg-rh/shvar.c: quoting of a value, and the file as
      a list of lines with get, set, parse and write.
    - DmiTable, DmiDump, DmiEntry: the walk over a DMI table and its strings
      (dmi_ext/dmi_decode_ext.c and dmidecode.c), what dmidecode prints of it, and
      the entry points and dump files around it.
    - CmpOrder, NMHash: compare functions as orders with a key (CmpKey), and hash
      functions that depend on the same key (HashKey); shared/nm-glib-aux/nm-hash-utils.h.
    - IpAddr: addresses as bytes, network masks and the order of prefixes.
    - PlatformLink, PlatformLnk, PlatformIp, PlatformRule: the objects of
      src/platform/nm-platform.c (links, qdiscs, filters, the kinds of links,
      addresses, routes, policy routing rules) with their compare and hash functions.
    - NmpObject: the objects of src/platform/nmp-object.c: comparison, hashing,
      identity, the partitions of the cache they belong to.
    - HashTable: GHashTable and CList as used by the rules manager.
    - RulesManager, RulesTrack, RulesSync, RulesRun: src/nmp-rules-manager.c:
      the data and its invariant, tracking and untracking, the
      synchronization with the kernel, and runs of these operations.
    - DeviceFlags: how flags decide whether a device is managed, of src/devices/nm-device.c.
    - DeviceBase, DeviceQueue: the private data of a device, its pending actions and
      its queued state; what the pending actions say (an invariant of worlds).
    - DeviceState, DeviceStateInv: _set_state_full () with the clean-up and the
      dispatcher calls; what it keeps.
    - DeviceOps, DeviceRun: the functions that lead to a change of the state, and
      runs of the main loop.
    - DeviceCleanup, DeviceSpec: what the log of a run shows of the kernel's
      configuration; the properties of the state machine.
    - AddrBase, AddrSync6, AddrSync4: the synchronization of the addresses of an
      interface with the known ones, of src/platform/nm-platform.c, with the
      lifetimes of src/nm-core-utils.c; AddrSample is a small kernel for witnesses.
    - AddrOrder6, AddrRoles4, AddrKernel4: the order of IPv6 addresses after it; the
      IPv4 addresses it deletes; the addresses it leaves, and the flush.
    - RouteSync, RouteSpec: the synchronization of routes of nm-platform.c, and the
      routes it leaves.
    - DedupObj, DedupMulti: shared/nm-glib-aux/nm-dedup-multi.c: objects with
      reference counts in a pool without duplicates, and the index that keeps
      ordered lists of them under several handles.
    - DedupInv, DedupLinks, DedupOps, DedupSweep: the invariant of the index, and that
      its operations keep it.
    - DedupSpec: what users of the index rely on.
    - CacheObj: the objects of NmpObject and the handles of their cache as an instance
      of the classes of the index.
    - NmpCache, NmpCacheOps: NMPCache of src/platform/nmp-object.c: its selectors and
      lookups, and all its updates, from messages of the kernel and devices of udev.
    - NmpCacheInv, NmpCacheSync, NmpCacheUpdate: the invariant that the handles of the
      cache agree, and that _idxcache_update () keeps it.
    - NmpCacheSpec, NmpCacheNetlink, NmpCacheRoute: what an update reports of the object
      of an identity; messages about objects that are not links, and about routes,
      whose order is kept.
    - NmpCacheLookup: what a selector finds; when a master is to be toggled.
    - NmpCacheLink, NmpCacheLinkOps, NmpCacheUdev: links, which netlink and udev tell
      together.
    - NmpCacheEvents: what src/platform/nm-linux-platform.c does with messages, devices
      and scheduled masters, and what a change schedules.
    - NmpCacheRun, NmpCacheMsg, NmpCacheDump, NmpCacheKernel: what holds between events;
      messages about routes and whole messages; the mark and the removal of a
      refresh; the cache after the refresh of a type.
    - NmpCacheProps: the theorems on the cache and the platform, and a sample.
    - NlRequest: requests to the kernel in src/platform/nm-linux-platform.c: what waits
      for an answer, sequence numbers, refreshes in progress, receiving messages,
      waiting with timeouts, and the loop that handles what is scheduled.
    - NlRequestInv, NlRequestCheck, NlRequestRun: the bookkeeping agrees with itself, what
      completes a request, and that all of the loops keep it.
    - NlRequestEnd: handling what is scheduled ends, at any clock, when each of its waits
      does.
    - NlRequestProps: the theorems on requests, and a sample.

    ** Interfaces

    NDiscTimers runs the operations of NDiscData in its monad and keeps their
    invariant.  ShFile writes values with ShQuote.svEscape and reads them with
    svUnescape.  DmiDump walks with DmiTable.find_next and prints with
    DmiTable.dmi_string; DmiEntry hands the bytes of a table to DmiDump as an
    event.  NmpObject composes the compare and hash functions of the Platform files
    by the instances of CmpKey and HashKey.  RulesSync runs against the class
    Platform, and RulesTrack on HashTable; its laws PlatformOk describe a kernel that may
    confuse rules, so that an addition is refused or another rule is deleted, and are exact
    only for rules that it tells apart.  The
    synchronizations run against the classes AddressPlatform and RoutePlatform (the
    lookups of the cache and the virtual functions of the platform), with the laws
    of the kernel in Kernel4, Kernel6 and RouteKernel; identities of addresses and
    routes are those of NmpObject and PlatformIp.  The multi-index runs on classes of
    objects and of handles (NMDedupMultiObjClass, NMDedupMultiIdxTypeClass), whose laws
    (DedupObjLaws, DedupIdxLaws) say that their functions look at keys; the cache of the
    platform is an instance (CacheObj), its laws follow from the theorems of NmpObject,
    and the proofs about the cache use the theorems of the index.  A device runs
    against the class DeviceHandlers: for each call it makes (a signal, a virtual
    function, a call of another component) the class says what the callees do to
    the device in turn; the class Emitter ties the knot, to a depth n of such calls.

    What is not in the repository, or belongs to the operating system, is a
    parameter: the classes of GLib, the digest and the host id of StablePrivacy,
    the formatter of DmiDump, the files of DmiEntry, the byte order, SipHash, the
    addresses of objects in memory and the kernel's features of the Platform files,
    the drivers that udev and ethtool tell (LinkDriver),
    the kernel behind Platform, AddressPlatform and RoutePlatform, GLib's sort, the
    clock and the callees of a device.

    ** Theorems

    - Invariants: every operation keeps the order, the uniqueness and the bound
      of the tables (NDiscData, NDiscTimers), the well-formedness of a file
      (ShFile), the indexes of the rules manager (RulesRun), and, for a device, that
      its pending actions say what is scheduled (DeviceSpec).
    - Functional behaviour on every branch: the merge of a route, the two-hours
      rule of RFC 4862, the expiry of an entry, the setting of a variable, the
      strings and the walk of a DMI table, the entry into a state of a device, the
      effect of the unmanaged flags.
    - Orders: the compare functions are total orders on a key, equal objects have
      the same hash, and equal identities the same partition of the cache.
    - Refinement: the rules manager implements the set of rules its users want
      with their priorities, on a kernel that tells apart the rules in question (on others
      RulesSync has an example of what is lost); there, a synchronization settles, so that
      a second one does nothing.
    - Synchronization with the kernel: addresses and routes end as asked for, in the
      order that the kernel is meant to have, whatever was there before; what has to be
      deleted for it, and that nothing is where they are in place already.
    - The multi-index: exact reference counts and no use after free, whatever its
      users do; marking and sweeping as the synchronization of a set; its end.
    - The cache of the platform: whatever events come, no reference leaks or is used after
      its end and the handles agree; a refresh makes the cache what the kernel dumped; a
      link is what netlink and udev tell together; masters are as their slaves tell when
      none is scheduled; lookups find what they are meant to; the order of routes.
    - Requests: flags, arrays and counters agree with what waits, and no assertion fails
      (where more assertions are compiled, as long as the clock is positive after it is
      stored in an int, in nanoseconds; without them at any clock); who sends a request has
      a result when handling ended, and handling ends if each of its waits is answered,
      fails or is over by the stored clock; a check completes what it is meant to by that
      clock, and what is late by the real one only may stay.
    - Round trips: hexadecimal, UTF-8 escapes, shell quoting, a written and read
      ifcfg file, a dumped and decoded SMBIOS system.
    - Bounds: what the decoders of DMI read is inside their buffer.  There the
      functions have the result None on an access outside of it, so that a
      theorem with Some is a theorem of memory safety.
    - Safety and liveness of devices: the kernel's configuration is removed only by
      a clean-up that is meant to (DeviceCleanup), and a device in
      DEACTIVATING or FAILED gets to DISCONNECTED by its own queue (DeviceSpec).
    - Findings: places where the code does not do what it means to, each with
      the theorem that shows it.

    ** Fuel

    Loops that are not structural have fuel.  find_next takes the length of the
    table, decode_ext_loop and table_decode_loop too (a turn consumes six bytes);
    read_all what is received and one; the rounds of waiting and the steps of handling
    are given with what the system does in them (handling_ends tells how many are
    enough); rehash_loop the number of reserved identifiers; obj_unref the depth of an object;
    remove_everything the number of entries; dmi_dump a number the
    theorems bound by the number of strings.  Theorems on termination state
    that such fuel gives a result.  The calls of a device nest to a depth n
    (emit_at): callees at depth 0 do nothing to the device; the theorems hold for
    every n.

    ** Not modelled

    Netlink, D-Bus, GObject signals and properties, the settings plugins other
    than the ifcfg-rh file format, the clients, and the vendored libraries:
    input and output or third-party code.  Within the modelled files: the printing
    of DMI structures field by field, the to-string functions of platform objects,
    and log messages.  Of the platform: the parser of messages (an event has the object
    that was parsed, complete, and whether a dump is in progress), building messages,
    the signals (handlers do not call the platform), the references of udev
    devices, the extended data of Wi-Fi; the cache is the only user of its index, and the
    removal at the end of a refresh is modelled for lookups of the main handle in the
    theorems (not for the rules of one family).  The cache and the requests are two
    models that meet in what is scheduled: of a message NlRequest has what its change
    of the cache schedules, which NmpCacheEvents tells; what is received, how poll ()
    ends and what the clock says are given, round by round, and the counters of pruning
    are unbounded.  Of nm-device.c: the virtual
    functions of the subclasses, the stages of the activation and the IP
    configuration, which are calls the log records; callees do not change the
    state of a device at once (the code warns of such re-entry), they may queue a
    change.  The laws of the kernel take one call after another: changes by others
    between two calls are not modelled.  Of the multi-index: reference counts are
    unbounded, the hash of its entries is left out (only what equality finds matters),
    and there is one index.  Allocation does not fail. *)

From Stdlib Require Export ZArith Lia Bool ZifyBool.
From stdpp Require Export base list gmap sorting.

#[global] Open Scope Z_scope.

Declare Scope nm_scope.
Delimit Scope nm_scope with nm.
#[global] Open Scope nm_scope.

(** ** Machine integers *)

(** GLib's names for the limits of the fixed-width types. *)
Abbreviation G_MAXINT32 := (2147483647%Z) (only parsing).
Abbreviation G_MININT32 := (-2147483648%Z) (only parsing).
Abbreviation G_MAXUINT32 := (4294967295%Z) (only parsing).
Abbreviation G_MAXINT64 := (9223372036854775807%Z) (only parsing).

(** Conversions to the unsigned types (C11 6.3.1.3: reduction modulo 2^w). *)
Definition u8 (z : Z) : Z := z mod 256.
Definition u16 (z : Z) : Z := z mod 65536.
Definition u32 (z : Z) : Z := z mod 4294967296.
Definition u64 (z : Z) : Z := z mod 18446744073709551616.

(** NM_FLAGS_HAS asserts at compile time that check is a single bit. *)
Definition NM_FLAGS_ANY (flags check : Z) : bool := negb (Z.land flags check =? 0).
Definition NM_FLAGS_HAS (flags check : Z) : bool := NM_FLAGS_ANY flags check.

Definition CLAMP (x lo hi : Z) : Z :=
  if hi <? x then hi else if x <? lo then lo else x.

(** ** Lexicographic comparison, the NM_CMP_* macros

    A compare function is a sequence of steps, each of which returns from the
    function unless its operands are equal. *)
Definition NM_CMP_DIRECT (a b : Z) : Z :=
  if a =? b then 0 else if a <? b then -1 else 1.

Definition cmp_then (c k : Z) : Z := if c =? 0 then k else c.

Notation "c ;;? k" := (cmp_then c k) (at level 55, right associativity) : nm_scope.

(** ** Lists updated by index, as GArray *)

Section list_ops.
Context {A : Type}.
Implicit Types l : list A.

(** g_array_insert_val *)
Definition insert_at (i : nat) (x : A) (l : list A) : list A :=
  take i l ++ x :: drop i l.

Fixpoint take_while (p : A -> bool) (l : list A) : list A :=
  match l with
  | [] => []
  | x :: l' => if p x then x :: take_while p l' else []
  end.

Fixpoint drop_while (p : A -> bool) (l : list A) : list A :=
  match l with
  | [] => []
  | x :: l' => if p x then drop_while p l' else l
  end.

Lemma take_drop_while p l : take_while p l ++ drop_while p l = l.
Proof. induction l as [|x l IH]; simpl; [done|]. destruct (p x); simpl; congruence. Qed.

Lemma take_while_app p l1 l2 :
  take_while p (l1 ++ l2) =
  if forallb p l1 then l1 ++ take_while p l2 else take_while p l1.
Proof.
  induction l1 as [|x l1 IH]; simpl; [done|].
  destruct (p x); simpl; [|done]. rewrite IH. by destruct (forallb p l1).
Qed.

Lemma drop_while_app p l1 l2 :
  drop_while p (l1 ++ l2) =
  if forallb p l1 then drop_while p l2 else drop_while p l1 ++ l2.
Proof.
  induction l1 as [|x l1 IH]; simpl; [done|]. by destruct (p x).
Qed.

Lemma take_while_all p l : forallb p l = true -> take_while p l = l.
Proof. induction l as [|x l IH]; simpl; [done|]. intros [-> H]%andb_true_iff. by rewrite IH. Qed.

Lemma drop_while_all p l : forallb p l = true -> drop_while p l = [].
Proof. induction l as [|x l IH]; simpl; [done|]. intros [-> H]%andb_true_iff. by rewrite IH. Qed.

Lemma Forall_take_while p l : Forall (fun x => p x = true) (take_while p l).
Proof. induction l as [|x l IH]; simpl; [done|]. destruct (p x) eqn:E; auto. Qed.

Lemma forallb_Forall_true p l : forallb p l = true <-> Forall (fun x => p x = true) l.
Proof. rewrite List.forallb_forall, Forall_forall. by setoid_rewrite list_elem_of_In. Qed.

Lemma filter_all p l : forallb p l = true -> List.filter p l = l.
Proof. induction l as [|x l IH]; simpl; [done|]. intros [-> H]%andb_true_iff. by rewrite IH. Qed.

Lemma elem_of_filter_b p l x : x ∈ List.filter p l <-> p x = true /\ x ∈ l.
Proof. rewrite !list_elem_of_In, List.filter_In. tauto. Qed.

Lemma sublist_filter_b p l : List.filter p l `sublist_of` l.
Proof. induction l as [|x l IH]; simpl; [done|]. destruct (p x); by constructor. Qed.

Lemma StronglySorted_filter (R : A -> A -> Prop) p l :
  StronglySorted R l -> StronglySorted R (List.filter p l).
Proof.
  induction 1 as [|x l Hs IH Hx]; simpl; [constructor|]. destruct (p x); [|done].
  constructor; [done|]. apply Forall_forall. intros y [_ Hy]%elem_of_filter_b.
  by eapply Forall_forall in Hx.
Qed.
End list_ops.

Lemma sublist_fmap {A B} (f : A -> B) (l1 l2 : list A) :
  l1 `sublist_of` l2 -> (f <$> l1) `sublist_of` (f <$> l2).
Proof. induction 1; csimpl; by constructor. Qed.

Lemma NoDup_fmap_filter_b {A B} (f : A -> B) (p : A -> bool) (l : list A) :
  NoDup (f <$> l) -> NoDup (f <$> List.filter p l).
Proof. intros H. eapply sublist_NoDup; [exact H|]. apply sublist_fmap, sublist_filter_b. Qed.

Lemma filter_swap {A} (p q : A -> bool) l : List.filter p (List.filter q l) = List.filter q (List.filter p l).
Proof. induction l as [|x l IH]; cbn; [done|]. destruct (p x) eqn:E, (q x) eqn:F; cbn; rewrite ?E, ?F, ?IH; done. Qed.

Lemma filter_none {A} (p : A -> bool) l : Forall (fun x => p x = false) l -> List.filter p l = [].
Proof. induction 1 as [|x l Hx _ IH]; cbn; [done|]. by rewrite Hx. Qed.

Lemma filter_rev_b {A} (p : A -> bool) l : List.filter p (rev l) = rev (List.filter p l).
Proof. induction l as [|x l IH]; cbn; [done|]. rewrite List.filter_app, IH. cbn. destruct (p x); cbn; [done|by rewrite app_nil_r]. Qed.

Lemma existsb_filter {A} (p : A -> bool) l : existsb p l = negb (bool_decide (List.filter p l = [])).
Proof.
  induction l as [|x l IH]; cbn; [done|]. destruct (p x); cbn; [|done]. done.
Qed.

Lemma elem_of_rev {A} (x : A) l : x ∈ rev l <-> x ∈ l.
Proof. by rewrite !list_elem_of_In, <- List.in_rev. Qed.

Lemma fmap_inj_on {A B} (f : A -> B) l x y : NoDup (f <$> l) -> x ∈ l -> y ∈ l -> f x = f y -> x = y.
Proof.
  induction l as [|z l IH]; csimpl; [by intros _ ?%not_elem_of_nil|]. rewrite NoDup_cons. intros [Hz Hl] Hx Hy E.
  apply elem_of_cons in Hx as [->|Hx], Hy as [->|Hy]; [done| | |by apply IH].
  - destruct Hz. rewrite E. by apply list_elem_of_fmap_2.
  - destruct Hz. rewrite <- E. by apply list_elem_of_fmap_2.
Qed.

Section without.
Context {A : Type} `{!EqDecision A}.
Implicit Types l : list A.

(** [l] without the elements of [r]. *)
Definition without l (r : list A) : list A := List.filter (fun x => bool_decide (x ∉ r)) l.

Lemma without_nil l : without l [] = l.
Proof. apply filter_all, forallb_Forall_true, Forall_forall. intros x _. apply bool_decide_true, not_elem_of_nil. Qed.

Lemma without_cons l x r : without (without l [x]) r = without l (x :: r).
Proof.
  unfold without. induction l as [|y l IH]; cbn; [done|]. rewrite (bool_decide_ext (y ∉ (x :: r)) ((y ∉ [x]) /\ (y ∉ r))).
  - rewrite bool_decide_and. destruct (bool_decide (y ∉ [x])); cbn; [|done]. by destruct (bool_decide _); rewrite IH.
  - rewrite !not_elem_of_cons. pose proof (not_elem_of_nil y). tauto.
Qed.

Lemma without_disjoint l r : (forall x, x ∈ l -> x ∉ r) -> without l r = l.
Proof. intros Hl. apply filter_all, forallb_Forall_true, Forall_forall. intros x Hx. by apply bool_decide_true, Hl. Qed.

Lemma without_app l l' r : without (l ++ l') r = without l r ++ without l' r.
Proof. apply List.filter_app. Qed.

Lemma without_all l r : (forall x, x ∈ l -> x ∈ r) -> without l r = [].
Proof. intros Hl. apply filter_none, Forall_forall. intros x Hx. apply bool_decide_false. intros Hn. by apply Hn, Hl. Qed.

Lemma elem_of_without x l r : x ∈ without l r <-> x ∈ l /\ x ∉ r.
Proof. unfold without. rewrite elem_of_filter_b, bool_decide_eq_true. tauto. Qed.

Lemma without_mono l l' r : l ⊆ l' -> without l r ⊆ without l' r.
Proof. intros Hl x. rewrite !elem_of_without. intros [? ?]. auto. Qed.
End without.

Lemma without_filter {A B} `{!EqDecision B} (f : A -> B) (p q : A -> bool) l :
  NoDup (f <$> l) ->
  without (f <$> List.filter p l) (f <$> List.filter q l) = f <$> List.filter (fun x => p x && negb (q x)) l.
Proof.
  intros Hl. assert (Hq : forall x, x ∈ l -> bool_decide (f x ∉ f <$> List.filter q l) = negb (q x)).
  { intros x Hx. destruct (q x) eqn:E; cbn.
    - apply bool_decide_false. intros Hn. by apply Hn, list_elem_of_fmap_2, elem_of_filter_b.
    - apply bool_decide_true. intros (y & Ey & Hy)%list_elem_of_fmap. apply elem_of_filter_b in Hy as [Hq Hy].
      assert (x = y) by (by apply (fmap_inj_on f l)). congruence. }
  clear Hl. unfold without. revert Hq. generalize (f <$> List.filter q l) as ks. intros ks Hq. induction l as [|x l IH]; cbn; [done|].
  assert (IH' := IH (fun y Hy => Hq y (list_elem_of_further _ _ _ Hy))).
  destruct (p x); cbn; [|done]. rewrite Hq by apply list_elem_of_here. destruct (negb (q x)); cbn; by rewrite IH'.
Qed.

(** ** Automation *)

(** Splits every conditional and match in the goal, closing what computes. *)
Ltac case_ifs :=
  repeat (match goal with
          | |- context [if ?b then _ else _] => destruct b eqn:?
          | H : context [if ?b then _ else _] |- _ => destruct b eqn:?
          end; simpl in *; try done).

(** Turns the boolean tests of the code into propositions for [lia]. *)
Ltac bools :=
  repeat match goal with
         | H : (_ && _) = true |- _ => apply andb_true_iff in H; destruct H
         | H : (_ || _) = false |- _ => apply orb_false_iff in H; destruct H
         | H : negb _ = true |- _ => apply negb_true_iff in H
         | H : negb _ = false |- _ => apply negb_false_iff in H
         | H : (_ =? _) = true |- _ => apply Z.eqb_eq in H
         | H : (_ =? _) = false |- _ => apply Z.eqb_neq in H
         | H : (_ <? _) = true |- _ => apply Z.ltb_lt in H
         | H : (_ <? _) = false |- _ => apply Z.ltb_ge in H
         | H : (_ <=? _) = true |- _ => apply Z.leb_le in H
         | H : (_ <=? _) = false |- _ => apply Z.leb_gt in H
         | H : bool_decide _ = true |- _ => apply bool_decide_eq_true in H
         | H : bool_decide _ = false |- _ => apply bool_decide_eq_false in H
         end.

(** Walks through the branches of unfolded code. *)
Ltac code_cases := repeat (case_match; simplify_eq/=; bools).

Create HintDb nm.
Create Rewrite HintDb nm.
#[export] Hint Resolve take_drop_while StronglySorted_filter sublist_filter_b NoDup_fmap_filter_b : nm.
#[export] Hint Rewrite @take_while_app @drop_while_app : nm.
