(* ===== verification/Bytes.v ===== *)
(** * Bytes and C strings *)

From Stdlib Require Export Strings.Byte.
From stdpp Require Export strings.
From S2P Require Export Prelude.

#[global] Open Scope Z_scope.
#[global] Open Scope nm_scope.

#[export] Instance byte_eq_decision : EqDecision byte := byte_eq_dec.

(** The value of a byte read as unsigned char, and the store of an integer
    into a byte (modulo 256). *)
Definition b2z (b : byte) : Z := Z.of_N (Byte.to_N b).
Definition z2b (z : Z) : byte :=
  match Byte.of_N (Z.to_N (u8 z)) with Some b => b | None => x00 end.

(** A literal of the source. *)
Definition bs (s : string) : list byte := String.list_byte_of_string s.

(** NM_IN_SET (ch, ...) *)
Definition byte_in (b : byte) (l : list byte) : bool := existsb (Byte.eqb b) l.

(** The value of a byte string in network order. *)
Definition be (l : list byte) : Z := fold_left (fun acc b => 256 * acc + b2z b) l 0.

Lemma b2z_range b : 0 <= b2z b < 256.
Proof. unfold b2z. pose proof (Byte.to_N_bounded b). lia. Qed.

Lemma b2z_inj a b : b2z a = b2z b -> a = b.
Proof.
  unfold b2z. intros H%N2Z.inj. apply (f_equal Byte.of_N) in H. rewrite !Byte.of_to_N in H. congruence.
Qed.

Lemma z2b_b2z b : z2b (b2z b) = b.
Proof.
  unfold z2b, u8. rewrite Z.mod_small by apply b2z_range. unfold b2z. by rewrite N2Z.id, Byte.of_to_N.
Qed.

Lemma b2z_z2b z : b2z (z2b z) = z mod 256.
Proof.
  unfold z2b, u8, b2z. pose proof (Z.mod_pos_bound z 256).
  destruct (Byte.of_N (Z.to_N (z mod 256))) as [b|] eqn:E.
  - apply Byte.to_of_N in E. rewrite E. lia.
  - apply Byte.of_N_None_iff in E. lia.
Qed.

(** A test of all 256 bytes. *)
Lemma forall_byte (p : byte -> bool) :
  forallb (fun n => match Byte.of_N (N.of_nat n) with Some b => p b | None => true end) (seq 0 256) = true ->
  forall b, p b = true.
Proof.
  intros H b. rewrite List.forallb_forall in H.
  specialize (H (N.to_nat (Byte.to_N b))). rewrite N2Nat.id, Byte.of_to_N in H. apply H.
  apply List.in_seq. pose proof (Byte.to_N_bounded b). lia.
Qed.
