(* ===== verification/Upsert.v ===== *)
(** * Upsert: merging an entry into a table kept as an array

    The merge functions of nm-ndisc.c (nm_ndisc_add_gateway(), .._add_route(),
    .._add_dns_server(), .._add_dns_domain()) share one shape: walk the array,
    stop at the element with the key of the new entry, remember where a less
    preferred element was passed.  [upsert_loop] is that shape over an arbitrary
    element type; [upsert] is what it computes on a table in which at most one
    element has the key.  The lemmas describe [upsert] for a table identified by
    a key, and are applied to each of the four tables. *)

From S2P Require Import Prelude.

Section definitions.
Context {A : Type} (same lower same_pref unchanged : A -> bool) (withdrawn : bool)
        (replace : A -> A) (new : A) (front : bool).

(** The index of the first element of lower preference. *)
Definition lower_idx (passed : list A) : option nat :=
  if forallb (fun x => negb (lower x)) passed then None
  else Some (length (take_while (fun x => negb (lower x)) passed)).

(** The new entry goes before that element; without one, to the front or to
    the end. *)
Definition place (l : list A) : list A :=
  insert_at (default (if front then 0%nat else length l) (lower_idx l)) new l.

Fixpoint upsert_loop (passed rest : list A) (idx : option nat) : list A * bool :=
  match rest with
  | [] =>
      if negb withdrawn
      then (insert_at (default (if front then 0%nat else length passed) idx) new passed, true)
      else (passed, false)
  | item :: rest' =>
      if same item then
        if withdrawn then (passed ++ rest', true)
        else if negb (same_pref item) then upsert_loop passed rest' idx
        else if unchanged item then (passed ++ item :: rest', false)
        else (passed ++ replace item :: rest', true)
      else
        upsert_loop (passed ++ [item]) rest'
          (if lower item && bool_decide (idx = None) then Some (length passed) else idx)
  end.

Definition upsert (l : list A) : list A * bool :=
  match List.find same l with
  | Some item =>
      if withdrawn then (List.filter (fun x => negb (same x)) l, true)
      else if negb (same_pref item) then (place (List.filter (fun x => negb (same x)) l), true)
      else if unchanged item then (l, false)
      else (map (fun x => if same x then replace x else x) l, true)
  | None => if withdrawn then (l, false) else (place l, true)
  end.

Definition at_most_one_same (l : list A) : Prop :=
  forall l1 x l2, l = l1 ++ x :: l2 -> same x = true ->
  forallb (fun y => negb (same y)) (l1 ++ l2) = true.
End definitions.

Section keys.
Context {A K : Type} `{!EqDecision K} (key : A -> K).

Definition has_key (k : K) (x : A) : bool := bool_decide (key x = k).
Definition find_key (k : K) (l : list A) : option A := List.find (has_key k) l.

(** What merging [new] into the table [l] promises: the keys stay unique, the
    other entries are found as before, a withdrawn entry is gone, any other is
    found in a form that [agree]s with the new one, and the returned flag tells
    whether the table is different. *)
Record merge_spec (withdrawn : bool) (new : A) (agree : A -> Prop) (l l' : list A)
    (changed : bool) : Prop := {
  merge_nodup : NoDup (key <$> l');
  merge_others : forall k, k <> key new -> find_key k l' = find_key k l;
  merge_withdrawn : withdrawn = true -> find_key (key new) l' = None;
  merge_present : withdrawn = false -> exists x, find_key (key new) l' = Some x /\ agree x;
  merge_changed : changed = true <-> l' <> l
}.
End keys.

Section place.
Context {A : Type} (lower : A -> bool) (new : A) (front : bool).
Implicit Types l passed : list A.

Abbreviation lower_idx := (lower_idx lower).
Abbreviation place := (place lower new front).

Lemma lower_idx_snoc passed item :
  lower_idx (passed ++ [item]) =
  if lower item && bool_decide (lower_idx passed = None) then Some (length passed)
  else lower_idx passed.
Proof.
  unfold Upsert.lower_idx. rewrite forallb_app, take_while_app. simpl.
  destruct (forallb _ passed) eqn:E; simpl.
  - rewrite andb_true_r. destruct (lower item); simpl; [|done].
    by rewrite app_nil_r.
  - by rewrite andb_false_r.
Qed.

Lemma place_split l : exists l1 l2, l = l1 ++ l2 /\ place l = l1 ++ new :: l2.
Proof. unfold Upsert.place, insert_at. do 2 eexists. split; [symmetry; apply take_drop|done]. Qed.

Lemma elem_of_place l x : x ∈ place l <-> x = new \/ x ∈ l.
Proof.
  destruct (place_split l) as (l1 & l2 & -> & ->).
  rewrite !elem_of_app, elem_of_cons. tauto.
Qed.

(** Without a front fallback the new element goes before the first less
    preferred one, or to the end. *)
Lemma place_eq l :
  front = false ->
  place l = take_while (fun x => negb (lower x)) l
            ++ new :: drop_while (fun x => negb (lower x)) l.
Proof.
  intros Hfr. unfold Upsert.place, insert_at, Upsert.lower_idx. rewrite Hfr. destruct (forallb _ l) eqn:E; simpl.
  - rewrite take_while_all, drop_while_all by done.
    by rewrite firstn_all, skipn_all.
  - pose proof (take_drop_while (fun x => negb (lower x)) l) as Hl. revert Hl.
    generalize (take_while (fun x => negb (lower x)) l), (drop_while (fun x => negb (lower x)) l).
    intros t d Hl. by rewrite <- Hl, take_app_length, drop_app_length.
Qed.
End place.

Section find_first.
Context {A : Type} (same : A -> bool).
Implicit Types l : list A.

Lemma map_id_absent (replace : A -> A) l :
  forallb (fun y => negb (same y)) l = true ->
  map (fun x => if same x then replace x else x) l = l.
Proof.
  induction l as [|x l IH]; simpl; [done|]. intros [Hx H]%andb_true_iff.
  apply negb_true_iff in Hx. by rewrite Hx, IH.
Qed.

Lemma find_absent l : forallb (fun y => negb (same y)) l = true -> List.find same l = None.
Proof.
  induction l as [|x l IH]; simpl; [done|]. intros [Hx H]%andb_true_iff.
  apply negb_true_iff in Hx. by rewrite Hx, IH.
Qed.

Lemma find_split l x :
  List.find same l = Some x ->
  exists l1 l2, l = l1 ++ x :: l2 /\ same x = true /\ forallb (fun y => negb (same y)) l1 = true.
Proof.
  induction l as [|y l IH]; simpl; [done|]. destruct (same y) eqn:E.
  - intros [= ->]. by exists [], l.
  - intros (l1 & l2 & -> & Hx & Hl)%IH. exists (y :: l1), l2. simpl. by rewrite E.
Qed.
End find_first.

Section upsert.
Context {A : Type} (same lower same_pref unchanged : A -> bool) (withdrawn : bool)
        (replace : A -> A) (new : A) (front : bool).
Implicit Types l passed rest : list A.

Abbreviation lower_idx := (lower_idx lower).
Abbreviation place := (place lower new front).
Abbreviation upsert_loop := (upsert_loop same lower same_pref unchanged withdrawn replace new front).
Abbreviation upsert := (upsert same lower same_pref unchanged withdrawn replace new front).
Abbreviation at_most_one_same := (at_most_one_same same).

Lemma upsert_loop_absent rest : forall passed,
  forallb (fun y => negb (same y)) rest = true ->
  upsert_loop passed rest (lower_idx passed) =
  if withdrawn then (passed ++ rest, false) else (place (passed ++ rest), true).
Proof.
  induction rest as [|x rest IH]; intros passed H; simpl in *.
  - rewrite app_nil_r. by destruct withdrawn.
  - apply andb_true_iff in H as [Hx H]. apply negb_true_iff in Hx. rewrite Hx.
    rewrite <- lower_idx_snoc, IH by done. by rewrite <- app_assoc.
Qed.

(** Reaching the element with the new key after [l1]. *)
Lemma upsert_loop_found l1 item l2 : forall passed,
  forallb (fun y => negb (same y)) l1 = true -> same item = true ->
  upsert_loop passed (l1 ++ item :: l2) (lower_idx passed) =
  upsert_loop (passed ++ l1) (item :: l2) (lower_idx (passed ++ l1)).
Proof.
  induction l1 as [|x l1 IH]; intros passed H Hi; cbn [app].
  - by rewrite app_nil_r.
  - cbn in H. apply andb_true_iff in H as [Hx H]. apply negb_true_iff in Hx.
    cbn [Upsert.upsert_loop]. rewrite Hx, <- lower_idx_snoc, IH by done. by rewrite <- app_assoc.
Qed.

Theorem upsert_loop_spec l : at_most_one_same l -> upsert_loop [] l None = upsert l.
Proof.
  intros Hu. unfold Upsert.upsert. change None with (lower_idx []) at 1.
  destruct (List.find same l) as [item|] eqn:Hf.
  - apply find_split in Hf as (l1 & l2 & -> & Hi & Hl1).
    pose proof (Hu _ _ _ eq_refl Hi) as Hboth. rewrite forallb_app, Hl1 in Hboth. simpl in Hboth.
    rewrite upsert_loop_found by done. cbn [app Upsert.upsert_loop]. rewrite Hi.
    rewrite List.filter_app, List.map_app. cbn. rewrite Hi. cbn.
    rewrite !filter_all, !map_id_absent by done. rewrite upsert_loop_absent by done.
    destruct withdrawn; [done|]. destruct (same_pref item); simpl; [by destruct (unchanged item)|done].
  - rewrite upsert_loop_absent; [done|]. apply forallb_Forall_true, Forall_forall.
    intros x Hx. rewrite (List.find_none _ _ Hf); [done|]. by apply list_elem_of_In.
Qed.

(** Elements with another key are kept, in order and unchanged. *)
Lemma upsert_others p l :
  (forall x, same x = true -> p x = false) ->
  (forall x, same x = true -> p (replace x) = false) -> p new = false ->
  List.filter p (upsert l).1 = List.filter p l.
Proof.
  intros Hs Hr Hn.
  assert (Hf : List.filter p (List.filter (fun x => negb (same x)) l) = List.filter p l).
  { induction l as [|x l IH]; [done|]. simpl. destruct (same x) eqn:E; simpl.
    - by rewrite (Hs x E).
    - by rewrite IH. }
  assert (Hp : forall k, List.filter p (place k) = List.filter p k).
  { intros k. destruct (place_split lower new front k) as (l1 & l2 & -> & ->).
    rewrite !List.filter_app. simpl. by rewrite Hn. }
  unfold Upsert.upsert. destruct (List.find same l).
  - destruct withdrawn; [done|]. destruct (same_pref a); simpl; [|by rewrite Hp].
    destruct (unchanged a); simpl; [done|].
    clear -Hs Hr. induction l as [|x l IH]; [done|]. simpl. destruct (same x) eqn:E.
    + by rewrite (Hr x E), (Hs x E).
    + by rewrite IH.
  - destruct withdrawn; simpl; [done|]. apply Hp.
Qed.
End upsert.

(** The same with the elements identified by a key, in a table without
    duplicate keys. *)
Section keyed_upsert.
Context {A K : Type} `{!EqDecision K} (key : A -> K).
Context (lower same_pref unchanged : A -> bool) (withdrawn : bool) (replace : A -> A) (new : A)
        (front : bool).
Hypothesis replace_key : forall x, key x = key new -> key (replace x) = key new.

Abbreviation has_key := (has_key key).
Abbreviation find_key := (find_key key).

Abbreviation upsert_tbl := (upsert (has_key (key new)) lower same_pref unchanged withdrawn replace new front).
Abbreviation place_tbl := (place lower new front).
Abbreviation drop_key := (List.filter (fun x => negb (has_key (key new) x))).

Lemma has_key_true k x : has_key k x = true <-> key x = k.
Proof. apply bool_decide_eq_true. Qed.

Lemma absent_key k l : forallb (fun y => negb (has_key k y)) l = true <-> k ∉ (key <$> l).
Proof.
  rewrite forallb_Forall_true, Forall_forall, list_elem_of_fmap. split.
  - intros H (y & -> & Hy). specialize (H y Hy). apply negb_true_iff, bool_decide_eq_false in H. done.
  - intros H y Hy. apply negb_true_iff, bool_decide_eq_false. intros <-. apply H. eauto.
Qed.

Lemma keyed_at_most_one k l : NoDup (key <$> l) -> at_most_one_same (has_key k) l.
Proof.
  intros Hnd l1 x l2 -> Hx%has_key_true. rewrite absent_key, fmap_app.
  rewrite fmap_app in Hnd. apply NoDup_app in Hnd as (_ & H1 & [H2 _]%NoDup_cons).
  rewrite <- Hx. intros [H|H]%elem_of_app; [|done].
  apply (H1 _ H), elem_of_cons. by left.
Qed.

Lemma find_key_Some k l x : find_key k l = Some x -> x ∈ l /\ key x = k.
Proof.
  intros (H & Hx%has_key_true)%List.find_some. split; [by apply list_elem_of_In|done].
Qed.

Lemma find_key_None k l : find_key k l = None <-> k ∉ (key <$> l).
Proof.
  rewrite <- absent_key. split; [|apply find_absent].
  intros H. apply forallb_Forall_true, Forall_forall. intros y Hy.
  rewrite (List.find_none _ _ H); [done|]. by apply list_elem_of_In.
Qed.

Lemma find_key_unique k l x :
  NoDup (key <$> l) -> x ∈ l -> key x = k -> find_key k l = Some x.
Proof.
  intros Hnd [l1 [l2 ->]]%list_elem_of_split <-. unfold Upsert.find_key.
  pose proof (keyed_at_most_one (key x) _ Hnd _ _ _ eq_refl ltac:(by apply has_key_true)) as H.
  rewrite forallb_app in H. apply andb_true_iff in H as [H _].
  induction l1 as [|y l1 IH]; cbn in *.
  - by rewrite (proj2 (has_key_true _ _) eq_refl).
  - apply andb_true_iff in H as [Hy H]. apply negb_true_iff in Hy. rewrite Hy.
    apply NoDup_cons in Hnd as [_ Hnd]. auto.
Qed.

Lemma elem_of_drop_key x l : x ∈ drop_key l <-> key x <> key new /\ x ∈ l.
Proof.
  rewrite elem_of_filter_b, negb_true_iff. unfold Upsert.has_key. rewrite bool_decide_eq_false. done.
Qed.

Lemma elem_of_upsert x l :
  x ∈ (upsert_tbl l).1 -> x = new \/ x ∈ l \/ exists y, y ∈ l /\ key y = key new /\ x = replace y.
Proof.
  unfold Upsert.upsert. destruct (List.find _ l) as [item|] eqn:Hf.
  - destruct withdrawn; simpl; [intros [_ ?]%elem_of_drop_key; eauto|].
    destruct (same_pref item); simpl.
    + destruct (unchanged item); simpl; [eauto|]. intros (y & -> & Hy)%list_elem_of_fmap.
      destruct (has_key (key new) y) eqn:E; [|eauto]. apply has_key_true in E. eauto 6.
    + intros [->|[_ ?]%elem_of_drop_key]%elem_of_place; eauto.
  - destruct withdrawn; simpl; [eauto|]. intros [->|?]%elem_of_place; eauto.
Qed.

Lemma upsert_Forall (P : A -> Prop) l :
  Forall P l -> (withdrawn = false -> P new) ->
  (forall y, P y -> key y = key new -> withdrawn = false -> P (replace y)) ->
  Forall P (upsert_tbl l).1.
Proof.
  rewrite !Forall_forall. intros Hl Hn Hr x. unfold Upsert.upsert.
  destruct (List.find _ l) as [item|] eqn:Hf.
  - destruct withdrawn; simpl; [intros [_ ?]%elem_of_drop_key; eauto|].
    destruct (same_pref item); simpl.
    + destruct (unchanged item); simpl; [eauto|]. intros (y & -> & Hy)%list_elem_of_fmap.
      destruct (has_key (key new) y) eqn:E; [|eauto]. apply has_key_true in E. eauto.
    + intros [->|[_ ?]%elem_of_drop_key]%elem_of_place; eauto.
  - destruct withdrawn; simpl; [eauto|]. intros [->|?]%elem_of_place; eauto.
Qed.

Lemma NoDup_drop_key l : NoDup (key <$> l) -> NoDup (key <$> drop_key l).
Proof. apply NoDup_fmap_filter_b. Qed.

Lemma NoDup_place l : key new ∉ (key <$> l) -> NoDup (key <$> l) -> NoDup (key <$> place_tbl l).
Proof.
  destruct (place_split lower new front l) as (l1 & l2 & -> & ->).
  rewrite !fmap_app, fmap_cons. intros Hn Hnd.
  rewrite <- Permutation_middle, NoDup_cons. done.
Qed.

Lemma drop_key_gone l : key new ∉ (key <$> drop_key l).
Proof. intros (x & E & [Hx _]%elem_of_drop_key)%list_elem_of_fmap. done. Qed.

Lemma map_replace_keys l :
  (key <$> map (fun x => if has_key (key new) x then replace x else x) l) = (key <$> l).
Proof.
  rewrite <- list_fmap_compose. apply list_fmap_ext. intros i x _. simpl.
  destruct (has_key (key new) x) eqn:E; [|done]. apply has_key_true in E.
  rewrite E. by apply replace_key.
Qed.

Lemma upsert_NoDup l : NoDup (key <$> l) -> NoDup (key <$> (upsert_tbl l).1).
Proof.
  intros Hnd. unfold Upsert.upsert. destruct (List.find _ l) as [item|] eqn:Hf.
  - destruct withdrawn; simpl; [by apply NoDup_drop_key|].
    destruct (same_pref item); simpl.
    + destruct (unchanged item); simpl; [done|]. by rewrite map_replace_keys.
    + apply NoDup_place; [apply drop_key_gone|by apply NoDup_drop_key].
  - destruct withdrawn; simpl; [done|]. apply NoDup_place; [|done].
    by apply find_key_None in Hf.
Qed.

Lemma upsert_find_other k l :
  NoDup (key <$> l) -> k <> key new ->
  find_key k (upsert_tbl l).1 = find_key k l.
Proof.
  intros Hnd Hk. pose proof (upsert_NoDup l Hnd) as Hnd'.
  assert (Hsame : forall x, has_key (key new) x = true -> has_key k x = false).
  { intros x Hx%has_key_true. apply bool_decide_eq_false. congruence. }
  assert (Hfl : List.filter (has_key k) (upsert_tbl l).1 = List.filter (has_key k) l).
  { apply upsert_others; [exact Hsame| |].
    - intros x Hx%has_key_true. apply Hsame, has_key_true. by apply replace_key.
    - by apply Hsame, has_key_true. }
  destruct (find_key k l) as [x|] eqn:E.
  - apply find_key_Some in E as [Hx <-]. apply find_key_unique; [done| |done].
    assert (x ∈ List.filter (has_key (key x)) l) as H.
    { apply elem_of_filter_b. split; [by apply has_key_true|done]. }
    rewrite <- Hfl in H. by apply elem_of_filter_b in H as [_ H].
  - apply find_key_None in E. apply find_key_None. intros (x & -> & Hx)%list_elem_of_fmap.
    assert (x ∈ List.filter (has_key (key x)) (upsert_tbl l).1) as H.
    { apply elem_of_filter_b. split; [by apply has_key_true|done]. }
    rewrite Hfl in H. apply elem_of_filter_b in H as [_ H].
    apply E, list_elem_of_fmap. eauto.
Qed.

Lemma upsert_find_withdrawn l :
  withdrawn = true -> find_key (key new) (upsert_tbl l).1 = None.
Proof.
  intros Hw. unfold Upsert.upsert. rewrite Hw. destruct (List.find _ l) eqn:E; simpl; [|done].
  apply find_key_None, drop_key_gone.
Qed.

(** What the table holds for the key of the new element. *)
Lemma upsert_find_new l :
  NoDup (key <$> l) -> withdrawn = false ->
  find_key (key new) (upsert_tbl l).1 =
  Some match find_key (key new) l with
       | Some old => if same_pref old then if unchanged old then old else replace old else new
       | None => new
       end.
Proof.
  intros Hnd Hw. apply find_key_unique; [by apply upsert_NoDup| |].
  - unfold upsert, find_key. rewrite Hw. change (List.find _ l) with (find_key (key new) l). destruct (find_key (key new) l) as [old|] eqn:E; simpl.
    + apply find_key_Some in E as [Hold Hk].
      destruct (same_pref old); simpl; cycle 1.
      { rewrite elem_of_place. by left. }
      destruct (unchanged old); simpl; [done|]. rewrite list_elem_of_In, List.in_map_iff. exists old.
      rewrite (proj2 (has_key_true _ _) Hk). by rewrite <- list_elem_of_In.
    + rewrite elem_of_place. by left.
  - destruct (find_key (key new) l) as [old|] eqn:E; [|done].
    apply find_key_Some in E as [_ Hk]. destruct (same_pref old); [|done].
    destruct (unchanged old); [done|by apply replace_key].
Qed.

(** The flag tells whether the table is different. *)
Lemma upsert_changed_iff l :
  NoDup (key <$> l) -> same_pref new = true ->
  (forall x, x ∈ l -> unchanged x = false -> replace x <> x) ->
  ((upsert_tbl l).2 = true <-> (upsert_tbl l).1 <> l).
Proof.
  intros Hnd Hsp Hneq. pose proof (upsert_find_new l Hnd) as Hnew. unfold upsert, find_key in *.
  destruct (List.find _ l) as [item|] eqn:Hf; simpl in *.
  - apply find_key_Some in Hf as [Hit Hk]. destruct withdrawn; simpl in *.
    + split; [|done]. intros _ Heq. rewrite <- Heq in Hit. apply elem_of_drop_key in Hit. naive_solver.
    + specialize (Hnew eq_refl). destruct (same_pref item) eqn:Hsi; simpl in *.
      * destruct (unchanged item) eqn:Hu; simpl in *; [done|]. split; [|done]. intros _ Heq.
        rewrite Heq in Hnew. apply find_key_Some in Hnew as [Hin _].
        assert (Hr : find_key (key new) l = Some (replace item)).
        { apply find_key_unique; auto. }
        rewrite (find_key_unique _ _ item) in Hr by done. injection Hr as Hr.
        by apply (Hneq item Hit Hu).
      * split; [|done]. intros _ Heq. rewrite Heq in Hnew. apply find_key_Some in Hnew as [Hin _].
        pose proof (find_key_unique _ _ _ Hnd Hin eq_refl) as Hr.
        rewrite (find_key_unique _ _ item) in Hr by done. congruence.
  - destruct withdrawn; simpl in *; [done|]. split; [|done]. intros _ Heq.
    apply find_key_None in Hf. apply Hf, list_elem_of_fmap. exists new. split; [done|].
    rewrite <- Heq. rewrite elem_of_place. by left.
Qed.

Lemma upsert_merge_spec (agree : A -> Prop) l :
  NoDup (key <$> l) -> same_pref new = true ->
  (forall x, x ∈ l -> unchanged x = false -> replace x <> x) ->
  agree new -> (forall x, key x = key new -> same_pref x = true -> agree (replace x)) ->
  (forall x, same_pref x = true -> unchanged x = true -> agree x) ->
  merge_spec key withdrawn new agree l (upsert_tbl l).1 (upsert_tbl l).2.
Proof.
  intros Hnd Hsp Hneq Hn Hr Hu. split.
  - by apply upsert_NoDup.
  - intros k Hk. by apply upsert_find_other.
  - apply upsert_find_withdrawn.
  - intros Hw. rewrite upsert_find_new by done. eexists. split; [done|].
    destruct (find_key (key new) l) as [old|] eqn:E; [|done].
    apply find_key_Some in E as [_ Hk].
    destruct (same_pref old) eqn:?; [|done]. destruct (unchanged old) eqn:?; auto.
  - by apply upsert_changed_iff.
Qed.
End keyed_upsert.
