(* ===== verification/GLib.v ===== *)
(** * GLib: what the code takes from GLib

    GLib is not part of the repository: its functions are parameters, as type
    classes, with the documented behaviour the code relies on as laws.  Each
    class has a concrete sample that meets the laws. *)

From S2P Require Import Bytes.

(** ** UTF-8 *)

(** g_utf8_validate (s, len, &p): p - s.  The result is TRUE when p is the end;
    with a length given, a NUL byte is not valid. *)
Class GUtf8 := utf8_validate : list byte -> nat.
Class GUtf8Ok `{GUtf8} : Prop := {
  utf8_validate_le : forall s, (utf8_validate s <= length s)%nat;
  utf8_validate_nul : forall s, x00 ∉ take (utf8_validate s) s
}.

Class CharSign := char_signed : bool.

(** The value of a char. *)
Definition char_val `{CharSign} (b : byte) : Z :=
  if char_signed && (128 <=? b2z b) then b2z b - 256 else b2z b.

(** g_string_append_unichar (): the bytes appended for a code point. *)
Class GUnichar := unichar_to_utf8 : Z -> list byte.

(** ** ASCII character classes *)

Class GLibAscii := {
  g_ascii_isspace : byte -> bool;
  g_ascii_isalpha : byte -> bool;
  g_ascii_isdigit : byte -> bool;
  g_ascii_isxdigit : byte -> bool;
  g_ascii_isalnum : byte -> bool;
  g_ascii_tolower : byte -> byte
}.

Definition in_range (lo hi : Z) (b : byte) : bool := (lo <=? b2z b) && (b2z b <=? hi).

(** The classes of the C locale; NM_ASCII_SPACES of nm-shared-utils.h lists the
    spaces and says that they are those of g_ascii_isspace(). *)
Class GLibAsciiOk `{GLibAscii} : Prop := {
  g_ascii_isspace_eq : forall b, g_ascii_isspace b = byte_in b [x20; x09; x0a; x0c; x0d];
  g_ascii_isalpha_eq : forall b, g_ascii_isalpha b = in_range 65 90 b || in_range 97 122 b;
  g_ascii_isdigit_eq : forall b, g_ascii_isdigit b = in_range 48 57 b;
  g_ascii_isxdigit_eq : forall b,
    g_ascii_isxdigit b = in_range 48 57 b || in_range 65 70 b || in_range 97 102 b;
  g_ascii_isalnum_eq : forall b, g_ascii_isalnum b = g_ascii_isalpha b || g_ascii_isdigit b;
  g_ascii_tolower_eq : forall b, g_ascii_tolower b = if in_range 65 90 b then z2b (b2z b + 32) else b
}.

(** g_ascii_strcasecmp (a, b) == 0 *)
Definition g_ascii_strcaseeq `{GLibAscii} (a b : list byte) : bool :=
  bool_decide (map g_ascii_tolower a = map g_ascii_tolower b).

(** ** Numbers *)

(** g_ascii_strtoll (str, &end, base): the value, the rest of the string from
    [end] on, and whether errno was set. *)
Class GStrtoll := g_ascii_strtoll : list byte -> Z -> Z * list byte * bool.

(** ** Samples *)

(** Everything but NUL and the bytes from 128 on is valid. *)
Definition sample_utf8 : GUtf8 :=
  fun s => length (take_while (fun b => negb (bool_decide (b = x00)) && (b2z b <? 128)) s).

Definition sample_unichar : GUnichar := fun c => [z2b c].

Definition sample_ascii : GLibAscii := {|
  g_ascii_isspace b := byte_in b [x20; x09; x0a; x0c; x0d];
  g_ascii_isalpha b := in_range 65 90 b || in_range 97 122 b;
  g_ascii_isdigit b := in_range 48 57 b;
  g_ascii_isxdigit b := in_range 48 57 b || in_range 65 70 b || in_range 97 102 b;
  g_ascii_isalnum b := in_range 65 90 b || in_range 97 122 b || in_range 48 57 b;
  g_ascii_tolower b := if in_range 65 90 b then z2b (b2z b + 32) else b
|}.

(** Unsigned decimal numbers that fit. *)
Fixpoint sample_digits (v : Z) (s : list byte) : Z * list byte :=
  match s with
  | c :: s' => if in_range 48 57 c then sample_digits (v * 10 + (b2z c - 48)) s' else (v, s)
  | [] => (v, [])
  end.
Definition sample_strtoll : GStrtoll := fun s _ =>
  let '(v, rest) := sample_digits 0 s in
  if G_MAXINT64 <? v then (G_MAXINT64, rest, true) else (v, rest, false).

Lemma sample_utf8_ok : @GUtf8Ok sample_utf8.
Proof.
  split; intros s; unfold utf8_validate, sample_utf8.
  - induction s as [|c s IH]; cbn; [lia|]. destruct (_ && _); cbn; lia.
  - induction s as [|c s IH]; cbn; [apply not_elem_of_nil|]. case_bool_decide; cbn; [apply not_elem_of_nil|].
    destruct (b2z c <? 128); cbn; [|apply not_elem_of_nil]. by rewrite not_elem_of_cons.
Qed.

Lemma sample_ascii_ok : @GLibAsciiOk sample_ascii.
Proof. by split. Qed.
