(* ===== verification/NDiscData.v ===== *)
(** * NDiscData: the tables of a router-discovery instance

    Models the data half of src/NetworkManager/src/ndisc/nm-ndisc.c: what has
    been learned from router advertisements, kept in five GArrays, and the
    functions that merge one received option into its array. *)

From S2P Require Import Bytes Upsert.

#[local] Open Scope Z_scope.

(** ** Data *)

(** struct in6_addr: 16 bytes in network order. *)
Abbreviation in6_addr := (list byte).

Definition in6_zero : in6_addr := replicate 16 x00.
Definition IN6_ARE_ADDR_EQUAL (a b : in6_addr) : bool := bool_decide (a = b).
Definition IN6_IS_ADDR_UNSPECIFIED (a : in6_addr) : bool := bool_decide (a = in6_zero).

Definition NM_NDISC_INFINITY : Z := G_MAXUINT32.
Definition _EXPIRY_INFINITY : Z := G_MAXINT64.

Inductive NMIcmpv6RouterPref :=
| NM_ICMPV6_ROUTER_PREF_LOW
| NM_ICMPV6_ROUTER_PREF_MEDIUM
| NM_ICMPV6_ROUTER_PREF_HIGH
| NM_ICMPV6_ROUTER_PREF_INVALID.

#[export] Instance router_pref_eq_dec : EqDecision NMIcmpv6RouterPref.
Proof. solve_decision. Defined.

Definition _preference_to_priority (pref : NMIcmpv6RouterPref) : Z :=
  match pref with
  | NM_ICMPV6_ROUTER_PREF_LOW => 1
  | NM_ICMPV6_ROUTER_PREF_MEDIUM => 2
  | NM_ICMPV6_ROUTER_PREF_HIGH => 3
  | NM_ICMPV6_ROUTER_PREF_INVALID => 0
  end.

Record NMNDiscGateway := mk_gateway {
  gw_address : in6_addr;
  gw_timestamp : Z;
  gw_lifetime : Z;
  gw_preference : NMIcmpv6RouterPref
}.

Record NMNDiscAddress := mk_address {
  ad_address : in6_addr;
  ad_dad_counter : Z;
  ad_timestamp : Z;
  ad_lifetime : Z;
  ad_preferred : Z
}.

Record NMNDiscRoute := mk_route {
  rt_network : in6_addr;
  rt_plen : Z;
  rt_gateway : in6_addr;
  rt_timestamp : Z;
  rt_lifetime : Z;
  rt_preference : NMIcmpv6RouterPref
}.

Record NMNDiscDNSServer := mk_dns_server {
  ds_address : in6_addr;
  ds_timestamp : Z;
  ds_lifetime : Z
}.

Record NMNDiscDNSDomain := mk_dns_domain {
  dd_domain : list byte;
  dd_timestamp : Z;
  dd_lifetime : Z
}.

(** The macros get_expiry(), get_expiry_half() take any item with the fields
    [timestamp] and [lifetime]. *)
Class NDiscItem (A : Type) := {
  it_timestamp : A -> Z;
  it_lifetime : A -> Z
}.

#[export] Instance gateway_item : NDiscItem NMNDiscGateway :=
  {| it_timestamp := gw_timestamp; it_lifetime := gw_lifetime |}.
#[export] Instance address_item : NDiscItem NMNDiscAddress :=
  {| it_timestamp := ad_timestamp; it_lifetime := ad_lifetime |}.
#[export] Instance route_item : NDiscItem NMNDiscRoute :=
  {| it_timestamp := rt_timestamp; it_lifetime := rt_lifetime |}.
#[export] Instance dns_server_item : NDiscItem NMNDiscDNSServer :=
  {| it_timestamp := ds_timestamp; it_lifetime := ds_lifetime |}.
#[export] Instance dns_domain_item : NDiscItem NMNDiscDNSDomain :=
  {| it_timestamp := dd_timestamp; it_lifetime := dd_lifetime |}.

Definition get_expiry_time (timestamp lifetime : Z) : Z :=
  if lifetime =? NM_NDISC_INFINITY then _EXPIRY_INFINITY else timestamp + lifetime.

Definition get_expiry {A} `{NDiscItem A} (item : A) : Z :=
  get_expiry_time (it_timestamp item) (it_lifetime item).

Definition get_expiry_half {A} `{NDiscItem A} (item : A) : Z :=
  if it_lifetime item =? NM_NDISC_INFINITY then _EXPIRY_INFINITY
  else get_expiry_time (it_timestamp item) (it_lifetime item / 2).

Definition get_expiry_preferred (item : NMNDiscAddress) : Z :=
  get_expiry_time (ad_timestamp item) (ad_preferred item).

(** ** Default routers *)

(** The loop of nm_ndisc_add_gateway(): [passed] are the elements before index
    [i], [rest] those from [i] on, [insert_idx] is [None] for G_MAXUINT. *)
Fixpoint add_gateway_loop (new : NMNDiscGateway) (passed rest : list NMNDiscGateway)
    (insert_idx : option nat) : list NMNDiscGateway * bool :=
  match rest with
  | [] =>
      if negb (gw_lifetime new =? 0)
      then (insert_at (default (length passed) insert_idx) new passed, true)
      else (passed, false)
  | item :: rest' =>
      if IN6_ARE_ADDR_EQUAL (gw_address item) (gw_address new) then
        if gw_lifetime new =? 0 then (passed ++ rest', true)
        else if negb (bool_decide (gw_preference item = gw_preference new))
        then add_gateway_loop new passed rest' insert_idx
        else if get_expiry item =? get_expiry new then (passed ++ item :: rest', false)
        else (passed ++ new :: rest', true)
      else
        let insert_idx' :=
          if (_preference_to_priority (gw_preference item)
                <? _preference_to_priority (gw_preference new))
             && bool_decide (insert_idx = None)
          then Some (length passed) else insert_idx in
        add_gateway_loop new (passed ++ [item]) rest' insert_idx'
  end.

Definition add_gateway (gateways : list NMNDiscGateway) (new : NMNDiscGateway) :=
  add_gateway_loop new [] gateways None.

(** ** Routes *)

Fixpoint add_route_loop (new : NMNDiscRoute) (passed rest : list NMNDiscRoute)
    (insert_idx : option nat) : list NMNDiscRoute * bool :=
  match rest with
  | [] =>
      if negb (rt_lifetime new =? 0)
      then (insert_at (default 0%nat insert_idx) new passed, true)
      else (passed, false)
  | item :: rest' =>
      if IN6_ARE_ADDR_EQUAL (rt_network item) (rt_network new)
         && (rt_plen item =? rt_plen new) then
        if rt_lifetime new =? 0 then (passed ++ rest', true)
        else if negb (bool_decide (rt_preference item = rt_preference new))
        then add_route_loop new passed rest' insert_idx
        else if (get_expiry item =? get_expiry new)
                && IN6_ARE_ADDR_EQUAL (rt_gateway item) (rt_gateway new)
        then (passed ++ item :: rest', false)
        else (passed ++ new :: rest', true)
      else
        let insert_idx' :=
          if (_preference_to_priority (rt_preference item)
                <? _preference_to_priority (rt_preference new))
             && bool_decide (insert_idx = None)
          then Some (length passed) else insert_idx in
        add_route_loop new (passed ++ [item]) rest' insert_idx'
  end.

(** A route with plen 0 or beyond 128 is refused (g_return_val_if_reached). *)
Definition add_route (routes : list NMNDiscRoute) (new : NMNDiscRoute) :=
  if (rt_plen new =? 0) || (128 <? rt_plen new) then (routes, false)
  else add_route_loop new [] routes None.

(** ** DNS servers and search domains *)

Fixpoint add_dns_server_loop (new : NMNDiscDNSServer)
    (passed rest : list NMNDiscDNSServer) : list NMNDiscDNSServer * bool :=
  match rest with
  | [] =>
      if negb (ds_lifetime new =? 0) then (passed ++ [new], true) else (passed, false)
  | item :: rest' =>
      if IN6_ARE_ADDR_EQUAL (ds_address item) (ds_address new) then
        if ds_lifetime new =? 0 then (passed ++ rest', true)
        else if get_expiry item =? get_expiry new then (passed ++ item :: rest', false)
        else (passed ++ new :: rest', true)
      else add_dns_server_loop new (passed ++ [item]) rest'
  end.

Definition add_dns_server (dns_servers : list NMNDiscDNSServer) (new : NMNDiscDNSServer) :=
  add_dns_server_loop new [] dns_servers.

Fixpoint add_dns_domain_loop (new : NMNDiscDNSDomain)
    (passed rest : list NMNDiscDNSDomain) : list NMNDiscDNSDomain * bool :=
  match rest with
  | [] =>
      if negb (dd_lifetime new =? 0) then (passed ++ [new], true) else (passed, false)
  | item :: rest' =>
      if bool_decide (dd_domain item = dd_domain new) then
        if dd_lifetime new =? 0 then (passed ++ rest', true)
        else if get_expiry item =? get_expiry new then (passed ++ item :: rest', false)
        else
          (passed ++ mk_dns_domain (dd_domain item) (dd_timestamp new) (dd_lifetime new)
                  :: rest', true)
      else add_dns_domain_loop new (passed ++ [item]) rest'
  end.

Definition add_dns_domain (dns_domains : list NMNDiscDNSDomain) (new : NMNDiscDNSDomain) :=
  add_dns_domain_loop new [] dns_domains.

(** ** Autoconfigured addresses *)

Inductive addr_gen_mode :=
| NM_SETTING_IP6_CONFIG_ADDR_GEN_MODE_EUI64
| NM_SETTING_IP6_CONFIG_ADDR_GEN_MODE_STABLE_PRIVACY.

#[export] Instance addr_gen_mode_eq_dec : EqDecision addr_gen_mode.
Proof. solve_decision. Defined.

(** The fields of NMNDiscPrivate that address generation reads. *)
Record ndisc_addr_cfg := mk_addr_cfg {
  cfg_addr_gen_mode : addr_gen_mode;
  cfg_stable_type : Z;
  cfg_ifname : list byte;
  cfg_network_id : list byte;
  cfg_iid : list byte;
  cfg_max_addresses : Z
}.

(** nm_utils_ipv6_addr_set_stable_privacy() as nm-ndisc.c calls it: the new
    address, or [None] when it reports an error.  StablePrivacy.v models the
    implementation. *)
Class StablePrivacyGen := {
  addr_set_stable_privacy :
    Z -> in6_addr -> list byte -> list byte -> Z -> option in6_addr
}.

Class StablePrivacyGenOk `{StablePrivacyGen} : Prop := {
  stable_privacy_length : forall ty a ifn net n a',
    addr_set_stable_privacy ty a ifn net n = Some a' -> length a = 16%nat -> length a' = 16%nat;
  stable_privacy_prefix : forall ty a ifn net n a',
    addr_set_stable_privacy ty a ifn net n = Some a' -> length a = 16%nat -> take 8 a' = take 8 a;
  stable_privacy_retries : forall ty a ifn net n,
    3 <= n -> addr_set_stable_privacy ty a ifn net n = None
}.

Definition nm_utils_ipv6_addr_set_interface_identifier (a : in6_addr) (iid : list byte) : in6_addr :=
  take 8 a ++ iid.

Definition iid_is_zero (iid : list byte) : bool := bool_decide (iid = replicate 8 x00).

Section addresses.
Context `{StablePrivacyGen}.

(** The address as complete_address() leaves it, and its return value. *)
Definition complete_address (cfg : ndisc_addr_cfg) (addr : NMNDiscAddress)
    : NMNDiscAddress * bool :=
  if bool_decide (cfg_addr_gen_mode cfg = NM_SETTING_IP6_CONFIG_ADDR_GEN_MODE_STABLE_PRIVACY) then
    let bumped a := mk_address a (u8 (ad_dad_counter addr + 1)) (ad_timestamp addr)
                      (ad_lifetime addr) (ad_preferred addr) in
    match addr_set_stable_privacy (cfg_stable_type cfg) (ad_address addr)
            (cfg_ifname cfg) (cfg_network_id cfg) (ad_dad_counter addr) with
    | Some a => (bumped a, true)
    | None => (bumped (ad_address addr), false)
    end
  else if iid_is_zero (cfg_iid cfg) then (addr, false)
  else if bool_decide (drop 8 (ad_address addr) = replicate 8 x00) then
    (mk_address (nm_utils_ipv6_addr_set_interface_identifier (ad_address addr) (cfg_iid cfg))
       (ad_dad_counter addr) (ad_timestamp addr) (ad_lifetime addr) (ad_preferred addr), true)
  else (addr, false).

Definition NM_NDISC_PREFIX_LFT_MIN : Z := 7200.

(** RFC 4862, 5.5.3.e: the update of an existing address by an advertised
    prefix (the branch [from_ra] of nm_ndisc_add_address()), its timestamp and
    lifetime first. *)
Definition update_lifetime_from_ra (existing new : NMNDiscAddress) (now_s : Z) : Z * Z :=
  if ad_lifetime new =? NM_NDISC_INFINITY
  then (ad_timestamp existing, NM_NDISC_INFINITY)
  else
    let remaining_lifetime :=
      if ad_lifetime existing =? NM_NDISC_INFINITY then G_MAXINT64
      else ad_timestamp existing + ad_lifetime existing - now_s in
    let new_lifetime := ad_timestamp new + ad_lifetime new - now_s in
    if (NM_NDISC_PREFIX_LFT_MIN <? new_lifetime) || (remaining_lifetime <? new_lifetime)
    then (u32 now_s, CLAMP new_lifetime 0 (G_MAXUINT32 - 1))
    else if remaining_lifetime <=? NM_NDISC_PREFIX_LFT_MIN
    then (ad_timestamp existing, ad_lifetime existing)
    else (u32 now_s, NM_NDISC_PREFIX_LFT_MIN).

Definition update_preferred_from_ra (new : NMNDiscAddress) (timestamp lifetime : Z) : Z :=
  if ad_preferred new =? NM_NDISC_INFINITY then ad_preferred new
  else
    let preferred := CLAMP (ad_timestamp new + ad_preferred new - timestamp) 0 (G_MAXUINT32 - 1) in
    if negb (lifetime =? NM_NDISC_INFINITY) then Z.min preferred lifetime else preferred.

Definition update_address_from_ra (existing new : NMNDiscAddress) (now_s : Z)
    : NMNDiscAddress :=
  let tl := update_lifetime_from_ra existing new now_s in
  mk_address (ad_address existing) (ad_dad_counter existing) tl.1 tl.2
    (update_preferred_from_ra new tl.1 tl.2).

Definition address_matches (from_ra : bool) (new item : NMNDiscAddress) : bool :=
  if from_ra then bool_decide (take 8 (ad_address item) = take 8 (ad_address new))
  else IN6_ARE_ADDR_EQUAL (ad_address item) (ad_address new).

Definition add_address (cfg : ndisc_addr_cfg) (addresses : list NMNDiscAddress)
    (new : NMNDiscAddress) (now_s : Z) (from_ra : bool) : list NMNDiscAddress * bool :=
  match list_find (fun item => address_matches from_ra new item = true) addresses with
  | Some (i, existing) =>
      if from_ra then
        let existing' := update_address_from_ra existing new now_s in
        (<[i := existing']> addresses,
         negb (get_expiry existing =? get_expiry existing')
         || negb (get_expiry_preferred existing =? get_expiry_preferred existing'))
      else if ad_lifetime new =? 0 then (delete i addresses, true)
      else if (get_expiry existing =? get_expiry new)
              && (get_expiry_preferred existing =? get_expiry_preferred new)
      then (addresses, false)
      else
        (<[i := mk_address (ad_address existing) (ad_dad_counter existing)
                  (ad_timestamp new) (ad_lifetime new) (ad_preferred new)]> addresses, true)
  | None =>
      if negb (cfg_max_addresses cfg =? 0)
         && (cfg_max_addresses cfg <=? Z.of_nat (length addresses))
      then (addresses, false)
      else if ad_lifetime new =? 0 then (addresses, false)
      else if from_ra then
        let new2 := mk_address (ad_address new) 0 (ad_timestamp new)
                      (ad_lifetime new) (ad_preferred new) in
        match complete_address cfg new2 with
        | (new2', true) => (addresses ++ [new2'], true)
        | (_, false) => (addresses, false)
        end
      else (addresses ++ [new], true)
  end.

(** nm_ndisc_complete_and_add_address *)
Definition complete_and_add_address cfg addresses new now_s :=
  add_address cfg addresses new now_s true.

(** The loop of nm_ndisc_dad_failed(): every entry that holds the failed address
    is completed again, or removed when that fails. *)
Fixpoint dad_failed_loop (cfg : ndisc_addr_cfg) (address : in6_addr)
    (addresses : list NMNDiscAddress) : list NMNDiscAddress * bool :=
  match addresses with
  | [] => ([], false)
  | item :: rest =>
      let '(rest', changed) := dad_failed_loop cfg address rest in
      if IN6_ARE_ADDR_EQUAL (ad_address item) address then
        match complete_address cfg item with
        | (item', true) => (item' :: rest', true)
        | (_, false) => (rest', true)
        end
      else (item :: rest', changed)
  end.
End addresses.

(** ** The four tables as keyed upserts *)

Definition gateway_upsert (new : NMNDiscGateway) : list NMNDiscGateway -> list NMNDiscGateway * bool :=
  upsert (has_key gw_address (gw_address new))
    (fun item => _preference_to_priority (gw_preference item) <? _preference_to_priority (gw_preference new))
    (fun item => bool_decide (gw_preference item = gw_preference new))
    (fun item => get_expiry item =? get_expiry new)
    (gw_lifetime new =? 0) (fun _ => new) new false.

Definition route_key (r : NMNDiscRoute) : in6_addr * Z := (rt_network r, rt_plen r).

Definition route_upsert (new : NMNDiscRoute) : list NMNDiscRoute -> list NMNDiscRoute * bool :=
  upsert (has_key route_key (route_key new))
    (fun item => _preference_to_priority (rt_preference item) <? _preference_to_priority (rt_preference new))
    (fun item => bool_decide (rt_preference item = rt_preference new))
    (fun item => (get_expiry item =? get_expiry new) && IN6_ARE_ADDR_EQUAL (rt_gateway item) (rt_gateway new))
    (rt_lifetime new =? 0) (fun _ => new) new true.

Definition dns_server_upsert (new : NMNDiscDNSServer) : list NMNDiscDNSServer -> list NMNDiscDNSServer * bool :=
  upsert (has_key ds_address (ds_address new)) (fun _ => false) (fun _ => true)
    (fun item => get_expiry item =? get_expiry new)
    (ds_lifetime new =? 0) (fun _ => new) new false.

Definition dns_domain_upsert (new : NMNDiscDNSDomain) : list NMNDiscDNSDomain -> list NMNDiscDNSDomain * bool :=
  upsert (has_key dd_domain (dd_domain new)) (fun _ => false) (fun _ => true)
    (fun item => get_expiry item =? get_expiry new)
    (dd_lifetime new =? 0)
    (fun item => mk_dns_domain (dd_domain item) (dd_timestamp new) (dd_lifetime new)) new false.

Definition gateway_valid (g : NMNDiscGateway) : Prop :=
  gw_address g <> in6_zero /\ 0 < gw_timestamp g <= G_MAXINT32 /\ 0 < gw_lifetime g.

Definition gateway_prefer (a b : NMNDiscGateway) : Prop :=
  _preference_to_priority (gw_preference b) <= _preference_to_priority (gw_preference a).

Record gateways_ok (l : list NMNDiscGateway) : Prop := {
  gateways_valid : Forall gateway_valid l;
  gateways_nodup : NoDup (gw_address <$> l);
  gateways_sorted : StronglySorted gateway_prefer l
}.

(** ** Invariants and specifications *)

Definition route_prefer (a b : NMNDiscRoute) : Prop :=
  _preference_to_priority (rt_preference b) <= _preference_to_priority (rt_preference a).

(** What nm_ndisc_add_address() asserts of an address. *)
Definition address_ok (a : NMNDiscAddress) : Prop :=
  length (ad_address a) = 16%nat /\
  0 < ad_timestamp a <= G_MAXINT32 /\
  0 <= ad_preferred a <= ad_lifetime a /\ ad_lifetime a <= NM_NDISC_INFINITY.

Definition ad_prefix (a : NMNDiscAddress) : list byte := take 8 (ad_address a).

(** The table of addresses learned from router advertisements. *)
Record addresses_ok (cfg : ndisc_addr_cfg) (l : list NMNDiscAddress) : Prop := {
  addresses_valid : Forall address_ok l;
  addresses_prefixes : NoDup (ad_prefix <$> l);
  addresses_max : cfg_max_addresses cfg <> 0 -> Z.of_nat (length l) <= cfg_max_addresses cfg
}.

(** What RFC 4862, 5.5.3.e allows an advertisement to do to the expiry of an
    address: an expiry beyond two hours, or beyond the current one, is taken;
    otherwise it is cut to two hours at most. *)
Definition rfc4862_expiry (now expiry_old expiry_new : Z) : Z :=
  if (now + NM_NDISC_PREFIX_LFT_MIN <? expiry_new) || (expiry_old <? expiry_new)
  then Z.max now expiry_new
  else Z.min expiry_old (now + NM_NDISC_PREFIX_LFT_MIN).

(** ** Sample data for the concrete instances *)

Definition sample_addr (b : byte) : in6_addr := [x20; x01; x0d; xb8; x00; x00; x00; b] ++ replicate 8 x01.
Definition sample_gateway b pref lifetime := mk_gateway (sample_addr b) 10 lifetime pref.
Definition sample_gateways : list NMNDiscGateway :=
  [sample_gateway x01 NM_ICMPV6_ROUTER_PREF_HIGH 600; sample_gateway x02 NM_ICMPV6_ROUTER_PREF_LOW 600].
Definition sample_route b pref lifetime := mk_route (sample_addr b) 64 (sample_addr x09) 10 lifetime pref.
Definition sample_routes : list NMNDiscRoute :=
  [sample_route x01 NM_ICMPV6_ROUTER_PREF_HIGH 600; sample_route x02 NM_ICMPV6_ROUTER_PREF_MEDIUM 600].
Definition sample_address b timestamp lifetime := mk_address (sample_addr b) 0 timestamp lifetime lifetime.

Definition sample_spg : StablePrivacyGen :=
  {| addr_set_stable_privacy _ a _ _ n := if 3 <=? n then None else Some (take 8 a ++ replicate 8 (z2b (n + 7))) |}.

Definition sample_cfg : ndisc_addr_cfg :=
  mk_addr_cfg NM_SETTING_IP6_CONFIG_ADDR_GEN_MODE_STABLE_PRIVACY 0 (bs "eth0") (bs "net") (replicate 8 x11) 3.

Lemma add_gateway_loop_upsert new rest : forall passed idx,
  add_gateway_loop new passed rest idx =
  upsert_loop (has_key gw_address (gw_address new))
    (fun item => _preference_to_priority (gw_preference item) <? _preference_to_priority (gw_preference new))
    (fun item => bool_decide (gw_preference item = gw_preference new))
    (fun item => get_expiry item =? get_expiry new)
    (gw_lifetime new =? 0) (fun _ => new) new false passed rest idx.
Proof. induction rest as [|x rest IH]; intros; cbn; [done|]. unfold has_key, IN6_ARE_ADDR_EQUAL. case_ifs. Qed.

Lemma add_route_loop_upsert new rest : forall passed idx,
  add_route_loop new passed rest idx =
  upsert_loop (has_key route_key (route_key new))
    (fun item => _preference_to_priority (rt_preference item) <? _preference_to_priority (rt_preference new))
    (fun item => bool_decide (rt_preference item = rt_preference new))
    (fun item => (get_expiry item =? get_expiry new) && IN6_ARE_ADDR_EQUAL (rt_gateway item) (rt_gateway new))
    (rt_lifetime new =? 0) (fun _ => new) new true passed rest idx.
Proof.
  induction rest as [|x rest IH]; intros; cbn; [done|].
  replace (has_key route_key (route_key new) x)
    with (IN6_ARE_ADDR_EQUAL (rt_network x) (rt_network new) && (rt_plen x =? rt_plen new)).
  - by rewrite !IH.
  - unfold has_key, route_key, IN6_ARE_ADDR_EQUAL. apply eq_true_iff_eq.
    rewrite andb_true_iff, !bool_decide_eq_true, Z.eqb_eq. split; [intros [-> ->]|intros [= -> ->]]; done.
Qed.

Lemma add_dns_server_loop_upsert new rest : forall passed,
  add_dns_server_loop new passed rest =
  upsert_loop (has_key ds_address (ds_address new)) (fun _ => false) (fun _ => true)
    (fun item => get_expiry item =? get_expiry new)
    (ds_lifetime new =? 0) (fun _ => new) new false passed rest None.
Proof.
  induction rest as [|x rest IH]; intros; cbn.
  - unfold insert_at. by rewrite firstn_all, skipn_all.
  - by rewrite IH.
Qed.

Lemma add_dns_domain_loop_upsert new rest : forall passed,
  add_dns_domain_loop new passed rest =
  upsert_loop (has_key dd_domain (dd_domain new)) (fun _ => false) (fun _ => true)
    (fun item => get_expiry item =? get_expiry new)
    (dd_lifetime new =? 0)
    (fun item => mk_dns_domain (dd_domain item) (dd_timestamp new) (dd_lifetime new))
    new false passed rest None.
Proof.
  induction rest as [|x rest IH]; intros; cbn.
  - unfold insert_at. by rewrite firstn_all, skipn_all.
  - by rewrite IH.
Qed.

Lemma add_gateway_upsert l new :
  NoDup (gw_address <$> l) -> add_gateway l new = gateway_upsert new l.
Proof.
  intros. unfold add_gateway. rewrite add_gateway_loop_upsert. by apply upsert_loop_spec, keyed_at_most_one.
Qed.

Lemma add_route_upsert l new :
  NoDup (route_key <$> l) -> 0 < rt_plen new <= 128 -> add_route l new = route_upsert new l.
Proof.
  intros Hnd Hp. unfold add_route.
  replace ((rt_plen new =? 0) || (128 <? rt_plen new)) with false by lia.
  rewrite add_route_loop_upsert. by apply upsert_loop_spec, keyed_at_most_one.
Qed.

Lemma add_dns_server_upsert l new :
  NoDup (ds_address <$> l) -> add_dns_server l new = dns_server_upsert new l.
Proof.
  intros. unfold add_dns_server. rewrite add_dns_server_loop_upsert.
  by apply upsert_loop_spec, keyed_at_most_one.
Qed.

Lemma add_dns_domain_upsert l new :
  NoDup (dd_domain <$> l) -> add_dns_domain l new = dns_domain_upsert new l.
Proof.
  intros. unfold add_dns_domain. rewrite add_dns_domain_loop_upsert.
  by apply upsert_loop_spec, keyed_at_most_one.
Qed.

Lemma StronglySorted_ext {A} (R : A -> A -> Prop) (f : A -> Z) (l l' : list A) :
  (forall a b, R a b <-> f b <= f a) -> map f l' = map f l -> StronglySorted R l -> StronglySorted R l'.
Proof.
  intros HR Hf Hs. revert l' Hf.
  induction Hs as [|x l Hs IH Hx]; intros [|y l'] Hf; try done; [constructor|].
  simpl in Hf. injection Hf as Hy Hf. constructor; [by apply IH|].
  apply Forall_forall. intros z Hz%list_elem_of_In. apply HR. rewrite Hy.
  apply (List.in_map f) in Hz. rewrite Hf in Hz. apply List.in_map_iff in Hz as (w & <- & Hw).
  apply list_elem_of_In in Hw. apply HR. by eapply Forall_forall in Hx.
Qed.

(** Inserting before the first element of lower rank keeps a descending list
    descending. *)
Lemma StronglySorted_place {A} (R : A -> A -> Prop) (f : A -> Z) (new : A) (l : list A) :
  (forall a b, R a b <-> f b <= f a) -> StronglySorted R l ->
  StronglySorted R (place (fun x => f x <? f new) new false l).
Proof.
  intros HR Hs. rewrite place_eq by done.
  pose proof (take_drop_while (fun x => negb (f x <? f new)) l) as Hl.
  pose proof (Forall_take_while (fun x => negb (f x <? f new)) l) as Ht.
  assert (Hd : forall y, y ∈ drop_while (fun x => negb (f x <? f new)) l -> f y < f new \/ exists z, z ∈ l /\ f z < f new /\ f y <= f z).
  { intros y Hy. clear -Hs HR Hy. induction Hs as [|x l Hs IH Hx]; simpl in Hy; [by apply elem_of_nil in Hy|].
    destruct (f x <? f new) eqn:E; simpl in Hy.
    - apply elem_of_cons in Hy as [->|Hy]; [left; lia|]. right. exists x.
      split; [apply elem_of_cons; by left|]. split; [lia|]. apply HR. by eapply Forall_forall in Hx.
    - destruct (IH Hy) as [?|(z & ? & ?)]; [by left|]. right. exists z. split; [apply elem_of_cons; by right|done]. }
  rewrite <- Hl in Hs. apply StronglySorted_app in Hs as (Htd & Hst & Hsd).
  apply StronglySorted_app_2; [|done|].
  - intros a b Ha Hb. apply elem_of_cons in Hb as [->|Hb]; [|by apply Htd].
    eapply Forall_forall in Ht; [|exact Ha]. simpl in Ht. apply HR. bools. lia.
  - constructor; [done|]. apply Forall_forall. intros y Hy. apply HR.
    destruct (Hd y Hy) as [?|(z & _ & ? & ?)]; lia.
Qed.

(** Replacing the element of a key by one of the same rank keeps the ranks. *)
Lemma map_replace_rank {A K} `{EqDecision K} (key : A -> K) (f : A -> Z) new item l :
  NoDup (key <$> l) -> find_key key (key new) l = Some item -> f item = f new ->
  map f (map (fun x => if has_key key (key new) x then new else x) l) = map f l.
Proof.
  intros Hnd Hf Hr. rewrite List.map_map. apply List.map_ext_in. intros x Hx%list_elem_of_In.
  destruct (has_key key (key new) x) eqn:E; [|done]. apply bool_decide_eq_true in E.
  rewrite (find_key_unique key _ _ x Hnd Hx E) in Hf. by injection Hf as ->.
Qed.

Lemma gateway_upsert_sorted new l :
  NoDup (gw_address <$> l) -> StronglySorted gateway_prefer l ->
  StronglySorted gateway_prefer (gateway_upsert new l).1.
Proof.
  intros Hnd Hs. unfold gateway_upsert, upsert.
  change (List.find _ l) with (find_key gw_address (gw_address new) l).
  assert (Hpl : forall k, StronglySorted gateway_prefer k -> StronglySorted gateway_prefer
    (place (fun item => _preference_to_priority (gw_preference item) <? _preference_to_priority (gw_preference new)) new false k)).
  { intros k. by apply (StronglySorted_place gateway_prefer (fun g => _preference_to_priority (gw_preference g))). }
  destruct (find_key _ _ l) as [item|] eqn:Hf.
  - destruct (gw_lifetime new =? 0); simpl; [by apply StronglySorted_filter|].
    destruct (bool_decide (gw_preference item = gw_preference new)) eqn:Hp; simpl.
    + destruct (get_expiry item =? get_expiry new); simpl; [done|]. bools.
      eapply (StronglySorted_ext _ (fun g => _preference_to_priority (gw_preference g))); [done| |exact Hs].
      eapply map_replace_rank; [done|exact Hf|by rewrite Hp].
    + by apply Hpl, StronglySorted_filter.
  - destruct (gw_lifetime new =? 0); simpl; [done|]. by apply Hpl.
Qed.

(** C1: merging a valid router into a valid table of default routers leaves a valid
    table: what _ASSERT_data_gateways() states (addresses unique and set,
    lifetimes positive, descending preference) is an invariant of
    nm_ndisc_add_gateway(). *)
Theorem add_gateway_preserves_ok l new :
  gateways_ok l -> gw_address new <> in6_zero -> 0 < gw_timestamp new <= G_MAXINT32 ->
  0 <= gw_lifetime new -> gateways_ok (add_gateway l new).1.
Proof.
  intros [Hv Hnd Hs] Ha Ht Hl. rewrite add_gateway_upsert by done.
  assert (Hok : (gw_lifetime new =? 0) = false -> gateway_valid new).
  { intros H. bools. unfold gateway_valid. auto with lia. }
  split.
  - apply upsert_Forall; auto.
  - by apply upsert_NoDup.
  - by apply gateway_upsert_sorted.
Qed.

(** C2: nm_ndisc_add_gateway() changes the entry of the advertised router only: a
    withdrawn router (lifetime 0) is gone, any other is in the table with the
    preference and the expiry of the advertisement, and the return value is
    TRUE exactly when the table is different. *)
Theorem add_gateway_functional l new :
  gateways_ok l ->
  merge_spec gw_address (gw_lifetime new =? 0) new
    (fun g => gw_preference g = gw_preference new /\ get_expiry g = get_expiry new)
    l (add_gateway l new).1 (add_gateway l new).2.
Proof.
  intros [Hv Hnd Hs]. rewrite add_gateway_upsert by done. apply upsert_merge_spec; simpl.
  - done.
  - done.
  - by apply bool_decide_eq_true.
  - intros x _ Hx%Z.eqb_neq Heq. congruence.
  - done.
  - done.
  - intros x Hp He. bools. auto.
Qed.

(** the same contract for nm_ndisc_add_route(), whose entries are identified
    by network and prefix length and also carry a gateway. *)
Theorem add_route_functional l new :
  NoDup (route_key <$> l) -> 0 < rt_plen new <= 128 ->
  merge_spec route_key (rt_lifetime new =? 0) new
    (fun r => rt_preference r = rt_preference new /\ get_expiry r = get_expiry new /\
              rt_gateway r = rt_gateway new)
    l (add_route l new).1 (add_route l new).2.
Proof.
  intros Hnd Hp. rewrite add_route_upsert by done. apply upsert_merge_spec; simpl; auto.
  - by apply bool_decide_eq_true.
  - intros x _ Hx Heq. rewrite <- Heq, Z.eqb_refl in Hx. simpl in Hx.
    unfold IN6_ARE_ADDR_EQUAL in Hx. by apply bool_decide_eq_false in Hx.
  - intros x Hpr He. unfold IN6_ARE_ADDR_EQUAL in He. bools. auto.
Qed.

(** the route table is not kept in order of preference: nm_ndisc_add_route()
    puts a new route before the first less preferable one, but at the front
    (not at the end, as for gateways) when there is none, so that the order
    survives exactly when a less preferable route exists or when all routes
    have the preference of the new one. *)
Theorem add_route_keeps_order_iff l new :
  NoDup (route_key <$> l) -> StronglySorted route_prefer l -> 0 < rt_plen new <= 128 ->
  rt_lifetime new <> 0 -> route_key new ∉ (route_key <$> l) ->
  (StronglySorted route_prefer (add_route l new).1 <->
   Exists (fun r => _preference_to_priority (rt_preference r) < _preference_to_priority (rt_preference new)) l
   \/ Forall (fun r => rt_preference r = rt_preference new) l).
Proof.
  intros Hnd Hs Hp Hl Hk. rewrite add_route_upsert by done. unfold route_upsert, upsert.
  rewrite find_absent by (by apply absent_key). apply Z.eqb_neq in Hl. rewrite Hl. simpl.
  set (f := fun r => _preference_to_priority (rt_preference r)).
  assert (Hinj : forall r, f r = f new <-> rt_preference r = rt_preference new).
  { intros r. unfold f. destruct (rt_preference r), (rt_preference new); simpl; split; intros; (done || lia). }
  unfold place. destruct (lower_idx _ l) as [i|] eqn:Hi; simpl.
  - assert (Hex : Exists (fun r => f r < f new) l).
    { unfold lower_idx in Hi. destruct (forallb _ l) eqn:Hfb; [done|].
      apply not_true_iff_false in Hfb. rewrite forallb_Forall_true in Hfb.
      apply not_Forall_Exists in Hfb; [|solve_decision].
      eapply Exists_impl; [exact Hfb|]. intros r Hr. simpl in Hr. unfold f.
      apply not_true_is_false, negb_false_iff in Hr. bools. done. }
    split; [by left|]. intros _.
    assert (Hpl : insert_at i new l = place (fun x => f x <? f new) new false l).
    { unfold place. fold f in Hi. unfold f. by rewrite Hi. }
    rewrite Hpl. by apply (StronglySorted_place route_prefer f).
  - assert (Hall : Forall (fun r => f new <= f r) l).
    { unfold lower_idx in Hi. destruct (forallb _ l) eqn:Hfb; [|done].
      apply forallb_Forall_true in Hfb. eapply Forall_impl; [exact Hfb|].
      intros r Hr. simpl in Hr. unfold f. bools. done. }
    unfold insert_at. simpl. rewrite drop_0. rewrite Forall_forall in Hall. split.
    + intros Hs'. right. apply StronglySorted_inv in Hs' as [_ Hs']. apply Forall_forall.
      intros r Hr. apply Hinj. eapply Forall_forall in Hs'; [|exact Hr]. specialize (Hall r Hr).
      unfold route_prefer in Hs'. fold (f r) (f new) in Hs'. lia.
    + intros [(r & Hr & Hlt)%Exists_exists|Heq].
      { specialize (Hall r Hr). fold (f r) (f new) in Hlt. lia. }
      constructor; [done|]. apply Forall_forall. intros r Hr. rewrite Forall_forall in Heq.
      unfold route_prefer. by rewrite (Heq r Hr).
Qed.

(** the contract for nm_ndisc_add_dns_server(). *)
Theorem add_dns_server_functional l new :
  NoDup (ds_address <$> l) ->
  merge_spec ds_address (ds_lifetime new =? 0) new (fun d => get_expiry d = get_expiry new)
    l (add_dns_server l new).1 (add_dns_server l new).2.
Proof.
  intros Hnd. rewrite add_dns_server_upsert by done. apply upsert_merge_spec; simpl; auto.
  - intros x _ Hx%Z.eqb_neq Heq. congruence.
  - intros x _ He. by bools.
Qed.

(** the contract for nm_ndisc_add_dns_domain(). *)
Theorem add_dns_domain_functional l new :
  NoDup (dd_domain <$> l) ->
  merge_spec dd_domain (dd_lifetime new =? 0) new (fun d => get_expiry d = get_expiry new)
    l (add_dns_domain l new).1 (add_dns_domain l new).2.
Proof.
  intros Hnd. rewrite add_dns_domain_upsert by done. apply upsert_merge_spec; simpl; auto.
  - intros x _ Hx%Z.eqb_neq Heq. rewrite <- Heq in Hx. done.
  - intros x _ He. by bools.
Qed.

(** ** Autoconfigured addresses *)

Lemma u32_small z : 0 <= z <= G_MAXUINT32 -> u32 z = z.
Proof. intros. unfold u32. apply Z.mod_small. lia. Qed.

Lemma update_lifetime_range existing new now :
  address_ok existing -> address_ok new -> 0 < now <= G_MAXINT32 ->
  let '(t, l) := update_lifetime_from_ra existing new now in
  0 < t <= G_MAXINT32 /\ 0 <= l <= NM_NDISC_INFINITY /\
  (ad_lifetime new = NM_NDISC_INFINITY -> l = NM_NDISC_INFINITY).
Proof.
  intros (_ & Ht & Hp & Hl) (_ & Ht' & Hp' & Hl') Hn.
  unfold update_lifetime_from_ra, NM_NDISC_INFINITY, CLAMP, NM_NDISC_PREFIX_LFT_MIN in *.
  rewrite (u32_small now) by lia. code_cases; lia.
Qed.

Lemma update_preferred_range new t l :
  address_ok new -> 0 <= l <= NM_NDISC_INFINITY ->
  (ad_lifetime new = NM_NDISC_INFINITY -> l = NM_NDISC_INFINITY) ->
  0 <= update_preferred_from_ra new t l <= l.
Proof.
  intros (_ & _ & Hp & Hl) Hr Hi.
  unfold update_preferred_from_ra, NM_NDISC_INFINITY, CLAMP in *. code_cases; lia.
Qed.

Lemma update_address_ok existing new now :
  address_ok existing -> address_ok new -> 0 < now <= G_MAXINT32 ->
  address_ok (update_address_from_ra existing new now).
Proof.
  intros He Hn Hnow. pose proof (update_lifetime_range _ _ _ He Hn Hnow) as Hr.
  unfold update_address_from_ra, address_ok. destruct (update_lifetime_from_ra _ _ _) as [t l].
  destruct Hr as (Ht & Hl & Hi). pose proof (update_preferred_range new t l Hn Hl Hi). cbn.
  destruct He. tauto.
Qed.

Lemma update_address_expiry existing new now :
  address_ok existing -> address_ok new -> ad_timestamp new <= now <= G_MAXINT32 ->
  get_expiry (update_address_from_ra existing new now)
  = rfc4862_expiry now (get_expiry existing) (get_expiry new).
Proof.
  intros (_ & Ht & Hp & Hl) (_ & Ht' & Hp' & Hl') Hn.
  unfold update_address_from_ra, get_expiry. cbn [it_timestamp it_lifetime address_item ad_timestamp ad_lifetime].
  unfold update_lifetime_from_ra, rfc4862_expiry, get_expiry_time,
    _EXPIRY_INFINITY, NM_NDISC_INFINITY, CLAMP, NM_NDISC_PREFIX_LFT_MIN in *.
  rewrite (u32_small now) by lia.
  code_cases; lia.
Qed.

Lemma update_address_same existing new now :
  ad_address (update_address_from_ra existing new now) = ad_address existing /\
  ad_dad_counter (update_address_from_ra existing new now) = ad_dad_counter existing.
Proof. done. Qed.

Lemma address_matches_ra new item :
  address_matches true new item = has_key ad_prefix (ad_prefix new) item.
Proof. done. Qed.

Lemma find_list_find {A} (p : A -> bool) l :
  List.find p l = snd <$> list_find (fun x => p x = true) l.
Proof.
  induction l as [|x l IH]; simpl; [done|]. case_decide as E.
  - by rewrite E.
  - apply not_true_is_false in E. rewrite E, IH. by destruct (list_find _ l) as [[? ?]|].
Qed.

Lemma list_find_has_key l new :
  list_find (fun item => address_matches true new item = true) l
  = list_find (fun item => has_key ad_prefix (ad_prefix new) item = true) l.
Proof. apply list_find_ext. done. Qed.

Lemma insert_prefixes (l : list NMNDiscAddress) (i : nat) old old' :
  l !! i = Some old -> ad_prefix old' = ad_prefix old -> ad_prefix <$> <[i:=old']> l = ad_prefix <$> l.
Proof.
  intros Hi Hp. rewrite list_fmap_insert, Hp. apply list_insert_id. by rewrite list_lookup_fmap, Hi.
Qed.

(** The entry of a prefix, and its position. *)
Lemma list_find_prefix l new i old :
  list_find (fun item => address_matches true new item = true) l = Some (i, old) ->
  l !! i = Some old /\ ad_prefix old = ad_prefix new.
Proof.
  intros (Hi & Hm & _)%list_find_Some. split; [done|]. by apply bool_decide_eq_true in Hm.
Qed.

Lemma list_find_prefix_None l new :
  list_find (fun item => address_matches true new item = true) l = None ->
  ad_prefix new ∉ (ad_prefix <$> l).
Proof.
  intros H. rewrite <- find_key_None. unfold find_key. rewrite find_list_find.
  transitivity (snd <$> list_find (fun item => address_matches true new item = true) l);
    [done|by rewrite H].
Qed.

Section completion.
Context `{SPG : StablePrivacyGen} `{!StablePrivacyGenOk} (cfg : ndisc_addr_cfg).
Context (iid_length : length (cfg_iid cfg) = 8%nat).

Lemma complete_address_ok a a' :
  address_ok a -> complete_address cfg a = (a', true) ->
  address_ok a' /\ ad_prefix a' = ad_prefix a /\ get_expiry a' = get_expiry a.
Proof.
  intros Ha. destruct Ha as [Hl Ha]. unfold complete_address, nm_utils_ipv6_addr_set_interface_identifier.
  repeat case_match; intros; simplify_eq; unfold address_ok, ad_prefix; simpl.
  - repeat split; try apply Ha; [by eapply stable_privacy_length|by eapply stable_privacy_prefix].
  - repeat split; try apply Ha.
    + rewrite length_app, length_take. lia.
    + by rewrite take_app_le, take_take by (rewrite length_take; lia).
Qed.

Lemma add_address_ra_ok l new now :
  addresses_ok cfg l -> address_ok new -> 0 < now <= G_MAXINT32 ->
  addresses_ok cfg (add_address cfg l new now true).1.
Proof.
  intros [Hv Hp Hm] Hn Hnow. unfold add_address.
  destruct (list_find _ l) as [[i old]|] eqn:Hf.
  - apply list_find_prefix in Hf as [Hi Hpr]. cbn. split.
    + apply Forall_insert; [done|]. apply update_address_ok; [|done|done]. by eapply Forall_lookup.
    + by rewrite (insert_prefixes _ _ old).
    + by rewrite length_insert.
  - apply list_find_prefix_None in Hf. case_ifs.
    destruct (complete_address cfg _) as [new2 []] eqn:Hc; [|done].
    apply complete_address_ok in Hc as (Hok & Hpr & _); [|by destruct Hn as (? & ? & ?)]. cbn. split.
    + apply Forall_app; auto.
    + rewrite fmap_app. apply NoDup_app. split_and!; [done| |apply NoDup_singleton].
      intros x Hx Hx'. apply list_elem_of_singleton in Hx' as ->. rewrite Hpr in Hx. done.
    + intros H0. rewrite length_app. simpl. lia.
Qed.
End completion.

Lemma map_replace_insert {A K} `{EqDecision K} (key : A -> K) (l : list A) i old new :
  NoDup (key <$> l) -> l !! i = Some old ->
  <[i:=new]> l = map (fun x => if has_key key (key old) x then new else x) l.
Proof.
  intros Hnd Hi. rewrite <- (take_drop_middle l i old Hi) in Hnd. rewrite <- (take_drop_middle l i old Hi).
  assert (i < length l)%nat by by eapply lookup_lt_Some.
  assert (length (take i l) = i) as Hlen by (rewrite length_take; lia).
  rewrite insert_app_r_alt by lia. rewrite Hlen, Nat.sub_diag. simpl. rewrite List.map_app. cbn.
  pose proof (keyed_at_most_one key _ _ Hnd _ _ _ eq_refl ltac:(by apply has_key_true)) as Hab.
  rewrite forallb_app in Hab. apply andb_true_iff in Hab as [H1 H2].
  rewrite (proj2 (has_key_true key _ _) eq_refl). by rewrite !map_id_absent.
Qed.

Section dad.
Context `{SPG : StablePrivacyGen} `{!StablePrivacyGenOk} (cfg : ndisc_addr_cfg).
Context (iid_length : length (cfg_iid cfg) = 8%nat).

Lemma dad_failed_changed address l :
  (dad_failed_loop cfg address l).2 = true <-> address ∈ (ad_address <$> l).
Proof.
  induction l as [|x l IH]; csimpl; [split; [done|by intros ?%elem_of_nil]|].
  destruct (dad_failed_loop cfg address l) as [l' c]. unfold IN6_ARE_ADDR_EQUAL. simpl in *.
  rewrite elem_of_cons. case_bool_decide as E.
  - destruct (complete_address cfg x) as [x' []]; simpl; split; auto.
  - simpl. rewrite IH. split; [by right|]. intros [?|?]; [congruence|done].
Qed.

Lemma dad_failed_sublists address l :
  Forall address_ok l ->
  Forall address_ok (dad_failed_loop cfg address l).1 /\
  (ad_prefix <$> (dad_failed_loop cfg address l).1) `sublist_of` (ad_prefix <$> l) /\
  List.filter (fun x => negb (IN6_ARE_ADDR_EQUAL (ad_address x) address)) l
    `sublist_of` (dad_failed_loop cfg address l).1.
Proof.
  induction 1 as [|x l Hx Hl IH]; [by repeat constructor|]. cbn [dad_failed_loop List.filter].
  destruct (dad_failed_loop cfg address l) as [l' c]. cbn in IH. destruct IH as (IH1 & IH2 & IH3).
  destruct (IN6_ARE_ADDR_EQUAL (ad_address x) address); csimpl;
    [|split_and!; [by constructor|by apply sublist_skip|by apply sublist_skip]].
  destruct (complete_address cfg x) as [x' []] eqn:Hc; csimpl.
  - apply complete_address_ok in Hc as (Hok & -> & _); [|done..].
    split_and!; [by constructor|by apply sublist_skip|by apply sublist_cons].
  - split_and!; [done|by apply sublist_cons|done].
Qed.

(** C4: adding an advertised prefix keeps the table of autoconfigured addresses
    valid: one address for each /64 prefix, never more than max_addresses, and
    for each preferred <= lifetime and timestamp and lifetime in range. *)
Theorem add_address_preserves_ok l new now :
  addresses_ok cfg l -> address_ok new -> 0 < now <= G_MAXINT32 ->
  addresses_ok cfg (add_address cfg l new now true).1.
Proof. apply add_address_ra_ok; done. Qed.

(** nm_ndisc_dad_failed() keeps the table valid, reports a change exactly when
    the failed address was in it, and keeps the other addresses as they are
    and in order. *)
Theorem dad_failed_spec address l :
  addresses_ok cfg l ->
  let '(l', changed) := dad_failed_loop cfg address l in
  addresses_ok cfg l' /\
  (changed = true <-> address ∈ (ad_address <$> l)) /\
  List.filter (fun x => negb (IN6_ARE_ADDR_EQUAL (ad_address x) address)) l `sublist_of` l'.
Proof.
  intros [Hv Hp Hm]. pose proof (dad_failed_changed address l) as Hc.
  pose proof (dad_failed_sublists address l Hv) as (Hv' & Hs & Hf).
  destruct (dad_failed_loop cfg address l) as [l' c]. simpl in *. split_and!; [|done|done].
  split; [done| |].
  - by eapply sublist_NoDup.
  - intros H0%Hm. apply sublist_length in Hs. rewrite !length_fmap in Hs. lia.
Qed.
End dad.

(** C3: an advertisement of a known prefix updates that address alone, and moves
    its expiry as RFC 4862 5.5.3.e prescribes: never below the smaller of the
    old expiry and two hours from now, whatever lifetime is advertised; the
    preferred lifetime stays within the lifetime. *)
Theorem add_address_rfc4862 `{SPG : StablePrivacyGen} cfg l new now old :
  addresses_ok cfg l -> address_ok new -> ad_timestamp new <= now <= G_MAXINT32 ->
  find_key ad_prefix (ad_prefix new) l = Some old ->
  exists upd,
    add_address cfg l new now true =
      (map (fun x => if has_key ad_prefix (ad_prefix new) x then upd else x) l,
       negb ((get_expiry old =? get_expiry upd)
             && (get_expiry_preferred old =? get_expiry_preferred upd))) /\
    ad_address upd = ad_address old /\
    get_expiry upd = rfc4862_expiry now (get_expiry old) (get_expiry new) /\
    Z.min (get_expiry old) (now + 7200) <= get_expiry upd /\
    ad_preferred upd <= ad_lifetime upd.
Proof.
  intros [Hv Hp Hm] Hn Hnow Hf. exists (update_address_from_ra old new now).
  assert (Hin : old ∈ l /\ ad_prefix old = ad_prefix new) by by apply find_key_Some.
  destruct Hin as [Hin Hpr].
  assert (Hok : address_ok old) by by eapply Forall_forall in Hv.
  assert (Hnow' : 0 < now <= G_MAXINT32) by (destruct Hn as (_ & ? & _); lia).
  pose proof (update_address_expiry old new now Hok Hn Hnow) as He.
  pose proof (update_address_ok old new now Hok Hn Hnow') as (_ & _ & Hpl & _).
  split_and!; [|done|done| |lia].
  - unfold find_key in Hf. rewrite find_list_find in Hf. unfold add_address.
    change (snd <$> list_find (fun item => address_matches true new item = true) l = Some old) in Hf.
    destruct (list_find _ l) as [[i old']|] eqn:Hl; simplify_eq/=.
    apply list_find_prefix in Hl as [Hi _]. f_equal; [|by rewrite negb_andb].
    rewrite <- Hpr. by apply map_replace_insert.
  - rewrite He. unfold rfc4862_expiry, NM_NDISC_PREFIX_LFT_MIN. code_cases; lia.
Qed.

Lemma sample_spg_ok : @StablePrivacyGenOk sample_spg.
Proof.
  split; cbn; intros ty a ifn net n; [intros a'|intros a'|]; destruct (3 <=? n) eqn:E; intros; simplify_eq.
  - rewrite length_app, length_take. replace (length a) with 16%nat by done. done.
  - rewrite take_app_le by (rewrite length_take; lia). by rewrite take_take.
  - done.
  - bools. lia.
Qed.

(** ** Concrete instances *)

Lemma add_gateway_preserves_ok_witness :
  gateways_ok (add_gateway sample_gateways (sample_gateway x05 NM_ICMPV6_ROUTER_PREF_HIGH 30)).1.
Proof.
  apply (add_gateway_preserves_ok sample_gateways (sample_gateway x05 NM_ICMPV6_ROUTER_PREF_HIGH 30)).
  - split; [repeat constructor; done| |repeat constructor; done].
    apply (bool_decide_unpack _). vm_compute. done.
  - done.
  - simpl. lia.
  - simpl. lia.
Defined.

Lemma add_gateway_functional_witness :
  find_key gw_address (sample_addr x02)
    (add_gateway sample_gateways (sample_gateway x02 NM_ICMPV6_ROUTER_PREF_HIGH 30)).1
  <> None.
Proof.
  destruct (add_gateway_functional sample_gateways (sample_gateway x02 NM_ICMPV6_ROUTER_PREF_HIGH 30))
    as [_ _ _ (g & Hg & _) _].
  - split; [repeat constructor; done| |repeat constructor; done].
    apply (bool_decide_unpack _). vm_compute. done.
  - reflexivity.
  - intros Hn. change (find_key gw_address (gw_address (sample_gateway x02 NM_ICMPV6_ROUTER_PREF_HIGH 30))
      (add_gateway sample_gateways (sample_gateway x02 NM_ICMPV6_ROUTER_PREF_HIGH 30)).1 = None) in Hn.
    congruence.
Defined.

Lemma add_route_functional_witness :
  find_key route_key (sample_addr x02, 64)
    (add_route sample_routes (sample_route x02 NM_ICMPV6_ROUTER_PREF_LOW 0)).1 = None.
Proof.
  destruct (add_route_functional sample_routes (sample_route x02 NM_ICMPV6_ROUTER_PREF_LOW 0))
    as [_ _ Hw _ _].
  - apply (bool_decide_unpack _). vm_compute. done.
  - simpl. lia.
  - apply Hw. reflexivity.
Defined.

(** A less preferable route is put first. *)
Lemma add_route_keeps_order_iff_witness :
  ~ StronglySorted route_prefer
      (add_route sample_routes (sample_route x07 NM_ICMPV6_ROUTER_PREF_LOW 30)).1.
Proof.
  rewrite (add_route_keeps_order_iff sample_routes (sample_route x07 NM_ICMPV6_ROUTER_PREF_LOW 30)).
  - intros [H|H].
    + apply Exists_exists in H as (r & Hr & H). simpl in H. destruct (rt_preference r) eqn:E; simpl in H; try lia.
      repeat (apply elem_of_cons in Hr as [->|Hr]; [discriminate|]). by apply elem_of_nil in Hr.
    + apply Forall_cons in H as [H _]. discriminate.
  - apply (bool_decide_unpack _). vm_compute. done.
  - repeat constructor; done.
  - simpl. lia.
  - discriminate.
  - apply (bool_decide_unpack _). vm_compute. done.
Defined.

Lemma add_dns_server_functional_witness :
  (add_dns_server [mk_dns_server (sample_addr x01) 10 600] (mk_dns_server (sample_addr x01) 20 600)).2 = true.
Proof.
  apply (add_dns_server_functional [mk_dns_server (sample_addr x01) 10 600]
           (mk_dns_server (sample_addr x01) 20 600)).
  - apply (bool_decide_unpack _). vm_compute. done.
  - vm_compute. discriminate.
Defined.

Lemma add_dns_domain_functional_witness :
  find_key dd_domain (bs "b.example")
    (add_dns_domain [mk_dns_domain (bs "b.example") 10 600] (mk_dns_domain (bs "a.example") 20 600)).1
  = Some (mk_dns_domain (bs "b.example") 10 600).
Proof.
  destruct (add_dns_domain_functional [mk_dns_domain (bs "b.example") 10 600]
              (mk_dns_domain (bs "a.example") 20 600)) as [_ Ho _ _ _].
  - apply (bool_decide_unpack _). vm_compute. done.
  - rewrite Ho by discriminate. reflexivity.
Defined.

Lemma add_address_preserves_ok_witness :
  addresses_ok sample_cfg
    (@add_address sample_spg sample_cfg [sample_address x01 10 600] (sample_address x02 20 0) 20 true).1.
Proof.
  apply (@add_address_preserves_ok sample_spg sample_spg_ok sample_cfg eq_refl).
  - split; [repeat constructor; done| |intros _; simpl; lia].
    apply (bool_decide_unpack _). vm_compute. done.
  - repeat split; simpl; unfold NM_NDISC_INFINITY; lia.
  - lia.
Defined.

Lemma dad_failed_spec_witness :
  let '(l', changed) :=
    @dad_failed_loop sample_spg sample_cfg (sample_addr x01) [sample_address x01 10 600] in
  addresses_ok sample_cfg l' /\ changed = true.
Proof.
  pose proof (@dad_failed_spec sample_spg sample_spg_ok sample_cfg eq_refl (sample_addr x01)
                [sample_address x01 10 600]) as H.
  destruct (dad_failed_loop _ _ _) as [l' changed]. destruct H as (H1 & H2 & _).
  - split; [repeat constructor; done| |intros _; simpl; lia].
    apply (bool_decide_unpack _). vm_compute. done.
  - split; [exact H1|]. apply H2. by apply elem_of_cons; left.
Defined.

(** An advertisement that cuts a lifetime of a day to one second leaves two hours. *)
Lemma add_address_rfc4862_witness :
  exists upd,
    get_expiry upd = 1000 + 7200 /\
    (@add_address sample_spg sample_cfg [sample_address x01 10 86400] (sample_address x01 1000 1) 1000 true).1
    = [upd].
Proof.
  destruct (@add_address_rfc4862 sample_spg sample_cfg [sample_address x01 10 86400]
              (sample_address x01 1000 1) 1000 (sample_address x01 10 86400))
    as (upd & Heq & _ & Hexp & _).
  - split; [repeat constructor; done| |intros _; simpl; lia].
    apply (bool_decide_unpack _). vm_compute. done.
  - repeat split; simpl; unfold NM_NDISC_INFINITY; lia.
  - simpl. lia.
  - reflexivity.
  - exists upd. split; [rewrite Hexp; reflexivity|]. rewrite Heq. reflexivity.
Defined.
