(* ===== verification/NDiscTimers.v ===== *)
(** * NDiscTimers: solicitations, announcements and expiry

    Models the stateful half of src/NetworkManager/src/ndisc/nm-ndisc.c: the
    timers of a router-discovery instance and the handlers that run when one
    fires, when a message arrives or when the owner calls in.

    A handler is a function of the instance in a state monad that also records
    the externally visible effects ([event]).  The GLib main loop, the clock,
    the random numbers, the network namespace and the virtual methods of the
    class (send_rs, send_ra, start) are outside: a handler takes the [env] it
    runs in, with the results they have.  The three C unions of NMNDiscPrivate
    (a host solicits, a router announces) are single fields here too. *)

From S2P Require Import Bytes Upsert NDiscData.

(** ** The monad *)

Inductive event :=
| EvStart                              (* klass->start *)
| EvSendRS                             (* klass->send_rs, successful *)
| EvSendRA                             (* klass->send_ra, successful *)
| EvConfigReceived (changed : Z)       (* signal config-received *)
| EvRaTimeout                          (* signal ra-timeout-signal *)
| EvCritical.                          (* g_return_if_reached *)

#[export] Instance event_eq_dec : EqDecision event.
Proof. solve_decision. Defined.

Inductive NMNDiscNodeType :=
| NM_NDISC_NODE_TYPE_INVALID
| NM_NDISC_NODE_TYPE_HOST
| NM_NDISC_NODE_TYPE_ROUTER.

#[export] Instance node_type_eq_dec : EqDecision NMNDiscNodeType.
Proof. solve_decision. Defined.

(** struct _NMNDiscPrivate.  A source id is the delay in milliseconds of the
    pending source, [None] for 0. *)
Record NMNDiscPrivate := mk_priv {
  gateways : list NMNDiscGateway;
  addresses : list NMNDiscAddress;
  routes : list NMNDiscRoute;
  dns_servers : list NMNDiscDNSServer;
  dns_domains : list NMNDiscDNSDomain;
  hop_limit : Z;
  solicitations_left : Z;              (* union announcements_left *)
  send_rs_id : option Z;               (* union send_ra_id *)
  last_rs : Z;                         (* union last_ra *)
  ra_timeout_id : option Z;
  timeout_id : option Z;
  last_error : option (list byte);
  addr_cfg : ndisc_addr_cfg;
  ra_timeout : Z;
  router_solicitations : Z;
  router_solicitation_interval : Z;
  node_type : NMNDiscNodeType
}.

Abbreviation announcements_left := solicitations_left (only parsing).
Abbreviation send_ra_id := send_rs_id (only parsing).
Abbreviation last_ra := last_rs (only parsing).

(** The results of the outside world during one handler. *)
Record env := mk_env {
  monotonic_timestamp_s : Z;
  netns_push : bool;
  klass_send : option (list byte);     (* the error message, None for success *)
  random_int_range : Z -> Z -> Z
}.

Definition ND (A : Type) : Type := NMNDiscPrivate -> A * NMNDiscPrivate * list event.

#[export] Instance nd_ret : MRet ND := fun A x p => (x, p, []).
#[export] Instance nd_bind : MBind ND := fun A B f m p =>
  let '(x, p1, ev1) := m p in
  let '(y, p2, ev2) := f x p1 in
  (y, p2, ev1 ++ ev2).

Definition get : ND NMNDiscPrivate := fun p => (p, p, []).
Definition modify (f : NMNDiscPrivate -> NMNDiscPrivate) : ND unit := fun p => (tt, f p, []).
Definition emit (ev : event) : ND unit := fun p => (tt, p, [ev]).
Definition when (b : bool) (m : ND unit) : ND unit := if b then m else mret tt.

(** Field updates. *)
Definition set_gateways v (p : NMNDiscPrivate) := mk_priv v (addresses p) (routes p) (dns_servers p) (dns_domains p) (hop_limit p) (solicitations_left p) (send_rs_id p) (last_rs p) (ra_timeout_id p) (timeout_id p) (last_error p) (addr_cfg p) (ra_timeout p) (router_solicitations p) (router_solicitation_interval p) (node_type p).
Definition set_addresses v (p : NMNDiscPrivate) := mk_priv (gateways p) v (routes p) (dns_servers p) (dns_domains p) (hop_limit p) (solicitations_left p) (send_rs_id p) (last_rs p) (ra_timeout_id p) (timeout_id p) (last_error p) (addr_cfg p) (ra_timeout p) (router_solicitations p) (router_solicitation_interval p) (node_type p).
Definition set_routes v (p : NMNDiscPrivate) := mk_priv (gateways p) (addresses p) v (dns_servers p) (dns_domains p) (hop_limit p) (solicitations_left p) (send_rs_id p) (last_rs p) (ra_timeout_id p) (timeout_id p) (last_error p) (addr_cfg p) (ra_timeout p) (router_solicitations p) (router_solicitation_interval p) (node_type p).
Definition set_dns_servers v (p : NMNDiscPrivate) := mk_priv (gateways p) (addresses p) (routes p) v (dns_domains p) (hop_limit p) (solicitations_left p) (send_rs_id p) (last_rs p) (ra_timeout_id p) (timeout_id p) (last_error p) (addr_cfg p) (ra_timeout p) (router_solicitations p) (router_solicitation_interval p) (node_type p).
Definition set_dns_domains v (p : NMNDiscPrivate) := mk_priv (gateways p) (addresses p) (routes p) (dns_servers p) v (hop_limit p) (solicitations_left p) (send_rs_id p) (last_rs p) (ra_timeout_id p) (timeout_id p) (last_error p) (addr_cfg p) (ra_timeout p) (router_solicitations p) (router_solicitation_interval p) (node_type p).
Definition set_solicitations_left v (p : NMNDiscPrivate) := mk_priv (gateways p) (addresses p) (routes p) (dns_servers p) (dns_domains p) (hop_limit p) v (send_rs_id p) (last_rs p) (ra_timeout_id p) (timeout_id p) (last_error p) (addr_cfg p) (ra_timeout p) (router_solicitations p) (router_solicitation_interval p) (node_type p).
Definition set_send_rs_id v (p : NMNDiscPrivate) := mk_priv (gateways p) (addresses p) (routes p) (dns_servers p) (dns_domains p) (hop_limit p) (solicitations_left p) v (last_rs p) (ra_timeout_id p) (timeout_id p) (last_error p) (addr_cfg p) (ra_timeout p) (router_solicitations p) (router_solicitation_interval p) (node_type p).
Definition set_last_rs v (p : NMNDiscPrivate) := mk_priv (gateways p) (addresses p) (routes p) (dns_servers p) (dns_domains p) (hop_limit p) (solicitations_left p) (send_rs_id p) v (ra_timeout_id p) (timeout_id p) (last_error p) (addr_cfg p) (ra_timeout p) (router_solicitations p) (router_solicitation_interval p) (node_type p).
Definition set_ra_timeout_id v (p : NMNDiscPrivate) := mk_priv (gateways p) (addresses p) (routes p) (dns_servers p) (dns_domains p) (hop_limit p) (solicitations_left p) (send_rs_id p) (last_rs p) v (timeout_id p) (last_error p) (addr_cfg p) (ra_timeout p) (router_solicitations p) (router_solicitation_interval p) (node_type p).
Definition set_timeout_id v (p : NMNDiscPrivate) := mk_priv (gateways p) (addresses p) (routes p) (dns_servers p) (dns_domains p) (hop_limit p) (solicitations_left p) (send_rs_id p) (last_rs p) (ra_timeout_id p) v (last_error p) (addr_cfg p) (ra_timeout p) (router_solicitations p) (router_solicitation_interval p) (node_type p).
Definition set_last_error v (p : NMNDiscPrivate) := mk_priv (gateways p) (addresses p) (routes p) (dns_servers p) (dns_domains p) (hop_limit p) (solicitations_left p) (send_rs_id p) (last_rs p) (ra_timeout_id p) (timeout_id p) v (addr_cfg p) (ra_timeout p) (router_solicitations p) (router_solicitation_interval p) (node_type p).
Definition set_addr_cfg v (p : NMNDiscPrivate) := mk_priv (gateways p) (addresses p) (routes p) (dns_servers p) (dns_domains p) (hop_limit p) (solicitations_left p) (send_rs_id p) (last_rs p) (ra_timeout_id p) (timeout_id p) (last_error p) v (ra_timeout p) (router_solicitations p) (router_solicitation_interval p) (node_type p).

(** ** Constants *)

Definition NM_NDISC_CONFIG_NONE : Z := 0.
Definition NM_NDISC_CONFIG_DHCP_LEVEL : Z := Z.shiftl 1 0.
Definition NM_NDISC_CONFIG_GATEWAYS : Z := Z.shiftl 1 1.
Definition NM_NDISC_CONFIG_ADDRESSES : Z := Z.shiftl 1 2.
Definition NM_NDISC_CONFIG_ROUTES : Z := Z.shiftl 1 3.
Definition NM_NDISC_CONFIG_DNS_SERVERS : Z := Z.shiftl 1 4.
Definition NM_NDISC_CONFIG_DNS_DOMAINS : Z := Z.shiftl 1 5.
Definition NM_NDISC_CONFIG_HOP_LIMIT : Z := Z.shiftl 1 6.
Definition NM_NDISC_CONFIG_MTU : Z := Z.shiftl 1 7.
Definition NM_NDISC_CONFIG_REACHABLE_TIME : Z := Z.shiftl 1 8.
Definition NM_NDISC_CONFIG_RETRANS_TIMER : Z := Z.shiftl 1 9.

Definition NM_NDISC_ROUTER_ADVERTISEMENTS_DEFAULT : Z := 3.
Definition NM_NDISC_ROUTER_ADVERT_DELAY : Z := 3.
Definition NM_NDISC_ROUTER_ADVERT_INITIAL_INTERVAL : Z := 16.
Definition NM_NDISC_ROUTER_ADVERT_DELAY_MS : Z := 500.
Definition NM_NDISC_ROUTER_ADVERT_MAX_INTERVAL : Z := 600.
Definition NM_RA_TIMEOUT_DEFAULT : Z := 0.
Definition NM_RA_TIMEOUT_INFINITY : Z := G_MAXINT32.

(** The value a gint32 holds after an assignment or a subtraction that may not
    fit (two's complement). *)
Definition s32 (z : Z) : Z := (z + 2147483648) mod 4294967296 - 2147483648.

(** ** Sending *)

(** The part of _MAYBE_WARN() that is state: the message is remembered. *)
Definition maybe_warn (msg : list byte) : ND unit :=
  modify (fun p => if bool_decide (last_error p = Some msg) then p else set_last_error (Some msg) p).

Definition send_rs_timeout (e : env) : ND unit :=
  modify (set_send_rs_id None);;
  if negb (netns_push e) then mret tt
  else
    match klass_send e with
    | None =>
        emit EvSendRS;;
        modify (fun p => set_solicitations_left (solicitations_left p - 1) p);;
        modify (set_last_error None)
    | Some msg => maybe_warn msg
    end;;
    modify (set_last_rs (monotonic_timestamp_s e));;
    p ← get;
    when (0 <? solicitations_left p)
      (modify (set_send_rs_id (Some (1000 * router_solicitation_interval p)))).

Definition solicit_routers (e : env) : ND unit :=
  p ← get;
  match send_rs_id p with
  | Some _ => mret tt
  | None =>
      let now := monotonic_timestamp_s e in
      modify (fun p => set_solicitations_left (router_solicitations p) p);;
      let t := last_rs p + router_solicitation_interval p - now in
      let next := CLAMP t 0 G_MAXINT32 in
      modify (set_send_rs_id (Some (1000 * next)))
  end.

(** On a failure to enter the namespace the id of the source, which is removed
    on return, is left in place. *)
Definition announce_router (e : env) : ND unit :=
  if negb (netns_push e) then mret tt
  else
    modify (set_last_rs (monotonic_timestamp_s e));;
    match klass_send e with
    | None => emit EvSendRA;; modify (set_last_error None)
    | Some msg => maybe_warn msg
    end;;
    modify (fun p => set_solicitations_left (solicitations_left p - 1) p);;
    p ← get;
    if negb (solicitations_left p =? 0) then
      modify (set_send_rs_id (Some (1000 *
        random_int_range e NM_NDISC_ROUTER_ADVERT_DELAY NM_NDISC_ROUTER_ADVERT_INITIAL_INTERVAL)))
    else
      modify (set_solicitations_left 1);;
      modify (set_send_rs_id (Some (1000 * NM_NDISC_ROUTER_ADVERT_MAX_INTERVAL))).

Definition announce_router_initial (e : env) : ND unit :=
  modify (set_solicitations_left NM_NDISC_ROUTER_ADVERTISEMENTS_DEFAULT);;
  p ← get;
  when (NM_NDISC_ROUTER_ADVERT_DELAY <? s32 (monotonic_timestamp_s e - last_rs p))
    (modify (set_send_rs_id None));;
  p ← get;
  when (bool_decide (send_rs_id p = None))
    (modify (set_send_rs_id (Some (1000 * random_int_range e 0 NM_NDISC_ROUTER_ADVERT_DELAY)))).

Definition announce_router_solicited (e : env) : ND unit :=
  p ← get;
  when (NM_NDISC_ROUTER_ADVERT_DELAY <? s32 (monotonic_timestamp_s e - last_rs p))
    (modify (set_send_rs_id None));;
  p ← get;
  when (bool_decide (send_rs_id p = None))
    (modify (set_send_rs_id (Some (random_int_range e 0 NM_NDISC_ROUTER_ADVERT_DELAY_MS)))).

(** ** Calls of the owner *)

Section config.
Context `{StablePrivacyGen}.

(** Runs a merge function of NDiscData.v for each element of an array and tells
    whether one of them changed the table. *)
Fixpoint merge_all {A} (merge : list A -> A -> list A * bool) (table news : list A) : list A * bool :=
  match news with
  | [] => (table, false)
  | new :: news' =>
      let '(table1, c1) := merge table new in
      let '(table2, c2) := merge_all merge table1 news' in
      (table2, c1 || c2)
  end.

Definition set_config (e : env) (new_addresses : list NMNDiscAddress)
    (new_servers : list NMNDiscDNSServer) (new_domains : list NMNDiscDNSDomain) : ND unit :=
  p ← get;
  let '(a, c1) := merge_all (fun l new => add_address (addr_cfg p) l new 0 false) (addresses p) new_addresses in
  modify (set_addresses a);;
  let '(s, c2) := merge_all add_dns_server (dns_servers p) new_servers in
  modify (set_dns_servers s);;
  let '(d, c3) := merge_all add_dns_domain (dns_domains p) new_domains in
  modify (set_dns_domains d);;
  when (c1 || c2 || c3) (announce_router_initial e).

Definition emit_config_change (changed : Z) : ND unit := emit (EvConfigReceived changed).

Definition set_iid (e : env) (iid : list byte) : ND bool :=
  p ← get;
  if negb (bool_decide (cfg_iid (addr_cfg p) = iid)) then
    modify (set_addr_cfg (mk_addr_cfg (cfg_addr_gen_mode (addr_cfg p)) (cfg_stable_type (addr_cfg p))
      (cfg_ifname (addr_cfg p)) (cfg_network_id (addr_cfg p)) iid (cfg_max_addresses (addr_cfg p))));;
    if bool_decide (cfg_addr_gen_mode (addr_cfg p) = NM_SETTING_IP6_CONFIG_ADDR_GEN_MODE_STABLE_PRIVACY)
    then mret false
    else
      when (negb (Nat.eqb (length (addresses p)) 0))
        (modify (set_addresses []);;
         emit_config_change NM_NDISC_CONFIG_ADDRESSES;;
         solicit_routers e);;
      mret true
  else mret false.

Definition ndisc_ra_timeout_cb : ND unit :=
  modify (set_ra_timeout_id None);; emit EvRaTimeout.

(** The RA timeout of nm_ndisc_start() in seconds, as the gint32 holds it. *)
Definition start_ra_timeout (p : NMNDiscPrivate) : Z :=
  if ra_timeout p =? NM_RA_TIMEOUT_DEFAULT
  then s32 (Z.max (router_solicitations p * router_solicitation_interval p + 1) 30)
  else ra_timeout p.

Definition start (e : env) : ND unit :=
  if negb (netns_push e) then mret tt
  else
    emit EvStart;;
    p ← get;
    if bool_decide (node_type p = NM_NDISC_NODE_TYPE_HOST) then
      when (negb (ra_timeout p =? NM_RA_TIMEOUT_INFINITY))
        (modify (set_ra_timeout_id (Some (1000 * start_ra_timeout p))));;
      solicit_routers e
    else announce_router_initial e.

Definition dad_failed (address : in6_addr) (emit_changed_signal : bool) : ND Z :=
  p ← get;
  let '(a, changed) := dad_failed_loop (addr_cfg p) address (addresses p) in
  modify (set_addresses a);;
  when (emit_changed_signal && changed) (emit_config_change NM_NDISC_CONFIG_ADDRESSES);;
  mret (if changed then NM_NDISC_CONFIG_ADDRESSES else NM_NDISC_CONFIG_NONE).
End config.

(** ** Log strings *)

Definition CONFIG_MAP_MAX_STR : Z := 7.

(** The characters written before the terminating NUL. *)
Definition config_map_to_string (map : Z) : list byte :=
  (if negb (Z.land map NM_NDISC_CONFIG_DHCP_LEVEL =? 0) then bs "d" else []) ++
  (if negb (Z.land map NM_NDISC_CONFIG_GATEWAYS =? 0) then bs "G" else []) ++
  (if negb (Z.land map NM_NDISC_CONFIG_ADDRESSES =? 0) then bs "A" else []) ++
  (if negb (Z.land map NM_NDISC_CONFIG_ROUTES =? 0) then bs "R" else []) ++
  (if negb (Z.land map NM_NDISC_CONFIG_DNS_SERVERS =? 0) then bs "S" else []) ++
  (if negb (Z.land map NM_NDISC_CONFIG_DNS_DOMAINS =? 0) then bs "D" else []).

(** ** Expiry *)

(** The return value and *nextevent; [None] is a NULL nextevent. *)
Definition expiry_next (now_s expiry_timestamp : Z) (nextevent : option Z) : bool * option Z :=
  if expiry_timestamp =? _EXPIRY_INFINITY then (true, nextevent)
  else
    let e := Z.min expiry_timestamp (G_MAXINT32 - 1) in
    if e <=? now_s then (false, nextevent)
    else
      (true, match nextevent with
             | Some ne => Some (if e <? ne then e else ne)
             | None => None
             end).

(** The loop of clean_gateways(), clean_addresses() and clean_routes(): the
    remaining items, whether one was removed, and *nextevent. *)
Fixpoint clean_loop {A} `{NDiscItem A} (now : Z) (items : list A) (nextevent : Z) : list A * bool * Z :=
  match items with
  | [] => ([], false, nextevent)
  | item :: rest =>
      match expiry_next now (get_expiry item) (Some nextevent) with
      | (false, ne) =>
          let '(rest', _, ne') := clean_loop now rest (default nextevent ne) in
          (rest', true, ne')
      | (true, ne) =>
          let '(rest', changed, ne') := clean_loop now rest (default nextevent ne) in
          (item :: rest', changed, ne')
      end
  end.

Definition flag_if (b : bool) (flag changed : Z) : Z := if b then Z.lor changed flag else changed.

Definition clean_gateways (now changed nextevent : Z) : ND (Z * Z) :=
  p ← get;
  let '(l, c, ne) := clean_loop now (gateways p) nextevent in
  modify (set_gateways l);; mret (flag_if c NM_NDISC_CONFIG_GATEWAYS changed, ne).

Definition clean_addresses (now changed nextevent : Z) : ND (Z * Z) :=
  p ← get;
  let '(l, c, ne) := clean_loop now (addresses p) nextevent in
  modify (set_addresses l);; mret (flag_if c NM_NDISC_CONFIG_ADDRESSES changed, ne).

Definition clean_routes (now changed nextevent : Z) : ND (Z * Z) :=
  p ← get;
  let '(l, c, ne) := clean_loop now (routes p) nextevent in
  modify (set_routes l);; mret (flag_if c NM_NDISC_CONFIG_ROUTES changed, ne).

(** The loop of clean_dns_servers() and clean_dns_domains(): an entry beyond
    half its lifetime asks for a router solicitation. *)
Fixpoint clean_dns_loop {A} `{NDiscItem A} (e : env) (now : Z) (items : list A) (nextevent : Z)
    : ND (list A * bool * Z) :=
  match items with
  | [] => mret ([], false, nextevent)
  | item :: rest =>
      let refresh := get_expiry_half item in
      if refresh =? _EXPIRY_INFINITY then
        '(rest', changed, ne) ← clean_dns_loop e now rest nextevent;
        mret (item :: rest', changed, ne)
      else if negb (expiry_next now (get_expiry item) None).1 then
        '(rest', _, ne) ← clean_dns_loop e now rest nextevent;
        mret (rest', true, ne)
      else if refresh <=? now then
        solicit_routers e;;
        '(rest', changed, ne) ← clean_dns_loop e now rest nextevent;
        mret (item :: rest', changed, ne)
      else
        '(rest', changed, ne) ← clean_dns_loop e now rest (if refresh <? nextevent then refresh else nextevent);
        mret (item :: rest', changed, ne)
  end.

Definition clean_dns_servers (e : env) (now changed nextevent : Z) : ND (Z * Z) :=
  p ← get;
  '(l, c, ne) ← clean_dns_loop e now (dns_servers p) nextevent;
  modify (set_dns_servers l);; mret (flag_if c NM_NDISC_CONFIG_DNS_SERVERS changed, ne).

Definition clean_dns_domains (e : env) (now changed nextevent : Z) : ND (Z * Z) :=
  p ← get;
  '(l, c, ne) ← clean_dns_loop e now (dns_domains p) nextevent;
  modify (set_dns_domains l);; mret (flag_if c NM_NDISC_CONFIG_DNS_DOMAINS changed, ne).

(** [check_timestamps]: the early g_return_if_reached() also skips the signal. *)
Definition check_timestamps (e : env) (now changed : Z) : ND unit :=
  modify (set_timeout_id None);;
  '(changed, nextevent) ← clean_gateways now changed G_MAXINT32;
  '(changed, nextevent) ← clean_addresses now changed nextevent;
  '(changed, nextevent) ← clean_routes now changed nextevent;
  '(changed, nextevent) ← clean_dns_servers e now changed nextevent;
  '(changed, nextevent) ← clean_dns_domains e now changed nextevent;
  if negb (nextevent =? G_MAXINT32) then
    if nextevent <=? now then emit EvCritical
    else
      modify (set_timeout_id (Some (1000 * (nextevent - now))));;
      when (negb (changed =? 0)) (emit_config_change changed)
  else when (negb (changed =? 0)) (emit_config_change changed).

Definition timeout_cb (e : env) : ND unit :=
  modify (set_timeout_id None);; check_timestamps e (monotonic_timestamp_s e) 0.

Definition ra_received (e : env) (now changed : Z) : ND unit :=
  modify (set_ra_timeout_id None);;
  modify (set_send_rs_id None);;
  modify (set_last_error None);;
  check_timestamps e now changed.

Definition rs_received (e : env) : ND unit :=
  modify (set_last_error None);; announce_router_solicited e.

(** nm_ndisc_init() followed by the construct-only properties. *)
Definition init (cfg : ndisc_addr_cfg) (ra_timeout router_solicitations router_solicitation_interval : Z)
    (node_type : NMNDiscNodeType) : NMNDiscPrivate :=
  mk_priv [] [] [] [] [] 64 0 None G_MININT32 None None None cfg ra_timeout router_solicitations
    router_solicitation_interval node_type.

(** dispose() *)
Definition dispose : ND unit :=
  modify (set_ra_timeout_id None);;
  modify (set_send_rs_id None);;
  modify (set_last_error None);;
  modify (set_timeout_id None).

(** ** Specification of the periodic check *)

Section spec_items.
Context {A : Type} `{NDiscItem A}.

(** A timestamp and a lifetime in the ranges of their types. *)
Definition item_ok (item : A) : Prop :=
  0 < it_timestamp item <= G_MAXINT32 /\ 0 <= it_lifetime item <= NM_NDISC_INFINITY.

(** The last second before the clock overflows ends every finite lifetime. *)
Definition unexpired (now : Z) (item : A) : bool :=
  (get_expiry item =? _EXPIRY_INFINITY) || (now <? Z.min (get_expiry item) (G_MAXINT32 - 1)).

Definition wakeup (item : A) : option Z :=
  if get_expiry item =? _EXPIRY_INFINITY then None else Some (Z.min (get_expiry item) (G_MAXINT32 - 1)).

Definition past_half (now : Z) (item : A) : bool :=
  negb (get_expiry_half item =? _EXPIRY_INFINITY) && (get_expiry_half item <=? now).

Definition dns_wakeup (now : Z) (item : A) : option Z :=
  if (get_expiry_half item =? _EXPIRY_INFINITY) || (get_expiry_half item <=? now) then None
  else Some (get_expiry_half item).

Definition removes (now : Z) (l : list A) : bool := existsb (fun x => negb (unexpired now x)) l.
Abbreviation kept now l := (List.filter (unexpired now) l).
End spec_items.

#[global] Arguments removes : simpl never.
#[global] Arguments flag_if : simpl never.
Abbreviation kept now l := (List.filter (unexpired now) l).

(** The times at which an entry that stays asks to be looked at again. *)
Definition wakeups (now : Z) (p : NMNDiscPrivate) : list Z :=
  omap wakeup (kept now (gateways p)) ++ omap wakeup (kept now (addresses p)) ++
  omap wakeup (kept now (routes p)) ++ omap (dns_wakeup now) (kept now (dns_servers p)) ++
  omap (dns_wakeup now) (kept now (dns_domains p)).

Definition next_check (now : Z) (p : NMNDiscPrivate) : Z := foldl Z.min G_MAXINT32 (wakeups now p).

Definition removed_mask (now : Z) (p : NMNDiscPrivate) (changed : Z) : Z :=
  flag_if (removes now (dns_domains p)) NM_NDISC_CONFIG_DNS_DOMAINS
    (flag_if (removes now (dns_servers p)) NM_NDISC_CONFIG_DNS_SERVERS
       (flag_if (removes now (routes p)) NM_NDISC_CONFIG_ROUTES
          (flag_if (removes now (addresses p)) NM_NDISC_CONFIG_ADDRESSES
             (flag_if (removes now (gateways p)) NM_NDISC_CONFIG_GATEWAYS changed)))).

Record tables_ok (p : NMNDiscPrivate) : Prop := {
  tables_gateways : Forall item_ok (gateways p);
  tables_addresses : Forall item_ok (addresses p);
  tables_routes : Forall item_ok (routes p);
  tables_dns_servers : Forall item_ok (dns_servers p);
  tables_dns_domains : Forall item_ok (dns_domains p)
}.

(** Whether a kept DNS entry is beyond half its lifetime. *)
Definition wants_refresh (now : Z) (p : NMNDiscPrivate) : bool :=
  existsb (past_half now) (kept now (dns_servers p)) || existsb (past_half now) (kept now (dns_domains p)).

Definition solicited (e : env) (b : bool) (p : NMNDiscPrivate) : NMNDiscPrivate :=
  if b then (solicit_routers e p).1.2 else p.

(** The instance after the tables are cleaned, before the timer is set. *)
Definition cleaned (e : env) (now : Z) (p : NMNDiscPrivate) : NMNDiscPrivate :=
  set_dns_domains (kept now (dns_domains p)) (set_dns_servers (kept now (dns_servers p))
    (set_routes (kept now (routes p)) (set_addresses (kept now (addresses p))
      (set_gateways (kept now (gateways p)) (set_timeout_id None (solicited e (wants_refresh now p) p)))))).

(** ** Runs of a timer *)

(** The main loop fires the source of a host or of a router, if it is still
    scheduled, once for each element of the list. *)
Fixpoint run_timers (handler : env -> ND unit) (es : list env) : ND unit :=
  match es with
  | [] => mret tt
  | e :: es' =>
      p ← get;
      match send_rs_id p with
      | Some _ => handler e;; run_timers handler es'
      | None => mret tt
      end
  end.

(** The chances of a timer until the namespace cannot be entered, and how many of them
    send a message. *)
Fixpoint entered (es : list env) : list env :=
  match es with [] => [] | e :: es => if netns_push e then e :: entered es else [] end.
Definition successes (es : list env) : nat := length (List.filter (fun e => bool_decide (klass_send e = None)) (entered es)).

Definition sample_env (now : Z) : env := mk_env now true None (fun lo hi => lo).
Definition sample_host : NMNDiscPrivate := init sample_cfg 0 3 4 NM_NDISC_NODE_TYPE_HOST.
Definition sample_router : NMNDiscPrivate := init sample_cfg 0 3 4 NM_NDISC_NODE_TYPE_ROUTER.
Definition sample_tables : NMNDiscPrivate :=
  set_gateways sample_gateways
    (set_dns_servers [mk_dns_server (sample_addr x01) 10 600] sample_host).

(** The messages a run sends: one for each time the class method succeeds. *)
Definition sends (ev : event) (es : list env) : list event :=
  omap (fun e => match klass_send e with None => Some ev | Some _ => None end) es.

(** ** Lemmas *)

Ltac nd_step := unfold mbind, nd_bind, mret, nd_ret, get, modify, emit, when, emit_config_change in *; cbn in *.

Lemma solicit_routers_run e p : solicit_routers e p = (tt, solicited e true p, []).
Proof. unfold solicited, solicit_routers. nd_step. by destruct (send_rs_id p). Qed.

Lemma solicited_pending e p : send_rs_id (solicited e true p) <> None.
Proof. unfold solicited, solicit_routers. nd_step. by destruct (send_rs_id p) eqn:E; cbn; rewrite ?E. Qed.

Lemma solicited_again e p : solicited e true (solicited e true p) = solicited e true p.
Proof. unfold solicited, solicit_routers. nd_step. by destruct (send_rs_id p) eqn:E; cbn; rewrite ?E. Qed.

Lemma solicited_or e b c p : solicited e c (solicited e b p) = solicited e (b || c) p.
Proof. destruct b, c; try done. apply solicited_again. Qed.

(** A solicitation touches its own fields only. *)
Lemma solicited_tables e b p :
  gateways (solicited e b p) = gateways p /\ addresses (solicited e b p) = addresses p /\
  routes (solicited e b p) = routes p /\ dns_servers (solicited e b p) = dns_servers p /\
  dns_domains (solicited e b p) = dns_domains p /\ timeout_id (solicited e b p) = timeout_id p.
Proof. unfold solicited, solicit_routers. nd_step. by destruct b, (send_rs_id p). Qed.

Lemma solicited_comm e b p ss :
  solicited e b (set_dns_servers ss p) = set_dns_servers ss (solicited e b p).
Proof. unfold solicited, solicit_routers. nd_step. by destruct b, (send_rs_id p). Qed.

Lemma foldl_min_le (l : list Z) : forall a, foldl Z.min a l <= a.
Proof. induction l as [|x l IH]; intros a; simpl; [lia|]. specialize (IH (Z.min a x)). lia. Qed.

Lemma foldl_min_in (l : list Z) : forall a, foldl Z.min a l = a \/ foldl Z.min a l ∈ l.
Proof.
  induction l as [|x l IH]; intros a; simpl; [by left|].
  destruct (IH (Z.min a x)) as [->|H]; [|right; by apply elem_of_cons; right].
  destruct (Z.min_spec a x) as [[_ ->]|[_ ->]]; [by left|right; by apply elem_of_cons; left].
Qed.

Section items.
Context {A : Type} `{NDiscItem A}.
Implicit Types (l : list A) (x : A).

Lemma expiry_infinite x : item_ok x ->
  (get_expiry x =? _EXPIRY_INFINITY) = (it_lifetime x =? NM_NDISC_INFINITY) /\
  (get_expiry_half x =? _EXPIRY_INFINITY) = (it_lifetime x =? NM_NDISC_INFINITY) /\
  (it_lifetime x <> NM_NDISC_INFINITY -> get_expiry_half x <= get_expiry x).
Proof.
  intros [Ht Hl]. unfold get_expiry, get_expiry_half, get_expiry_time, _EXPIRY_INFINITY, NM_NDISC_INFINITY in *.
  pose proof (Z.div_pos (it_lifetime x) 2). pose proof (Z.div_le_upper_bound (it_lifetime x) 2 (it_lifetime x)).
  code_cases; repeat split; lia.
Qed.

Lemma expiry_next_eq now x ne :
  expiry_next now (get_expiry x) ne =
  (unexpired now x,
   if unexpired now x
   then (fun n => match wakeup x with Some t => Z.min n t | None => n end) <$> ne else ne).
Proof.
  unfold expiry_next, unexpired, wakeup. destruct (get_expiry x =? _EXPIRY_INFINITY); cbn -[Z.min].
  - by destruct ne.
  - rewrite Z.ltb_antisym. destruct (_ <=? now); cbn -[Z.min]; [done|]. destruct ne; cbn -[Z.min]; [|done].
    do 2 f_equal. case_ifs; lia.
Qed.

Lemma dns_cases now x : item_ok x ->
  (get_expiry_half x =? _EXPIRY_INFINITY) = true /\ unexpired now x = true /\
    past_half now x = false /\ dns_wakeup now x = None
  \/ (get_expiry_half x =? _EXPIRY_INFINITY) = false /\
    past_half now x = (get_expiry_half x <=? now) /\
    dns_wakeup now x = if get_expiry_half x <=? now then None else Some (get_expiry_half x).
Proof.
  intros (Hi & Hh & _)%expiry_infinite. unfold past_half, dns_wakeup, unexpired. rewrite Hh, Hi.
  destruct (it_lifetime x =? NM_NDISC_INFINITY); [by left|by right].
Qed.

Lemma clean_loop_eq now l : forall ne,
  clean_loop now l ne = (kept now l, removes now l, foldl Z.min ne (omap wakeup (kept now l))).
Proof.
  unfold removes. induction l as [|x l IH]; intros ne; [done|]. cbn -[Z.min]. rewrite expiry_next_eq.
  destruct (unexpired now x); cbn -[Z.min]; rewrite IH; [|done]. by destruct (wakeup x).
Qed.

Lemma clean_dns_loop_eq e now l : forall ne p, Forall item_ok l ->
  clean_dns_loop e now l ne p =
  ((kept now l, removes now l, foldl Z.min ne (omap (dns_wakeup now) (kept now l))),
   solicited e (existsb (past_half now) (kept now l)) p, []).
Proof.
  unfold removes. induction l as [|x l IH]; intros ne p Hok; [done|]. apply Forall_cons in Hok as [Hx Hl].
  cbn -[Z.min]. rewrite expiry_next_eq.
  destruct (dns_cases now x Hx) as [(-> & -> & Hp & Hd)|(-> & Hp & Hd)]; cbn -[Z.min].
  - nd_step. rewrite IH by done. by rewrite Hp, Hd.
  - destruct (unexpired now x); cbn -[Z.min]; [|nd_step; by rewrite IH]. rewrite Hp, Hd.
    destruct (get_expiry_half x <=? now); cbn -[Z.min]; nd_step.
    + rewrite solicit_routers_run, IH by done. by rewrite solicited_or.
    + rewrite IH by done. do 3 f_equal. case_ifs; f_equal; lia.
Qed.

Lemma wakeup_later now x t : unexpired now x = true -> wakeup x = Some t -> now < t.
Proof. unfold unexpired, wakeup. intros. code_cases. lia. Qed.

Lemma dns_wakeup_later now x t : dns_wakeup now x = Some t -> now < t.
Proof. unfold dns_wakeup. intros. code_cases. lia. Qed.
End items.

Lemma wakeups_later now p t : t ∈ wakeups now p -> now < t.
Proof.
  unfold wakeups. rewrite !elem_of_app, !list_elem_of_omap.
  intros [H|[H|[H|[H|H]]]]; destruct H as (x & [Hx _]%elem_of_filter_b & Ht);
    first [exact (wakeup_later now x t Hx Ht)|exact (dns_wakeup_later now x t Ht)].
Qed.

(** ** The handlers *)

Lemma next_check_later now p : next_check now p <> G_MAXINT32 -> now < next_check now p.
Proof.
  intros Hne. destruct (foldl_min_in (wakeups now p) G_MAXINT32) as [|Hin]; [done|].
  by eapply wakeups_later.
Qed.

Lemma check_timestamps_run e now changed p :
  tables_ok p ->
  check_timestamps e now changed p =
  (tt,
   if next_check now p =? G_MAXINT32 then cleaned e now p
   else set_timeout_id (Some (1000 * (next_check now p - now))) (cleaned e now p),
   if removed_mask now p changed =? 0 then []
   else [EvConfigReceived (removed_mask now p changed)]).
Proof.
  intros [H1 H2 H3 H4 H5]. pose proof (next_check_later now p) as Hlater.
  unfold check_timestamps, clean_gateways, clean_addresses, clean_routes, clean_dns_servers, clean_dns_domains.
  nd_step. rewrite !clean_loop_eq. cbn. rewrite clean_dns_loop_eq by done. cbn.
  set (b1 := existsb (past_half now) (kept now (dns_servers p))).
  destruct (solicited_tables e b1 p) as (_ & _ & _ & _ & D1 & _).
  assert (Hc : forall b q, solicited e b (set_routes (kept now (routes p)) (set_addresses (kept now (addresses p))
      (set_gateways (kept now (gateways p)) (set_timeout_id None q)))) =
    set_routes (kept now (routes p)) (set_addresses (kept now (addresses p))
      (set_gateways (kept now (gateways p)) (set_timeout_id None (solicited e b q))))).
  { intros b q. unfold solicited, solicit_routers. nd_step. by destruct b, (send_rs_id q). }
  rewrite Hc. cbn. rewrite D1, clean_dns_loop_eq by done. cbn.
  rewrite solicited_comm, Hc, solicited_or.
  rewrite <- !foldl_app. fold (wakeups now p) (next_check now p) (removed_mask now p changed).
  fold (wants_refresh now p) (cleaned e now p).
  destruct (next_check now p =? G_MAXINT32) eqn:En; cbn.
  - by destruct (removed_mask now p changed =? 0).
  - apply Z.eqb_neq in En. rewrite (proj2 (Z.leb_gt _ _) (Hlater En)).
    by destruct (removed_mask now p changed =? 0).
Qed.

(** C15: check_timestamps() drops from each of the five tables exactly the
    entries that have expired, keeping the others in order; it emits
    config-received once, with the flags of the tables that lost an entry added
    to those it was given, and only when there are any; it asks for a router
    solicitation exactly when a remaining DNS entry is beyond half its
    lifetime; and it schedules itself for the earliest moment a remaining entry
    asked for, which always lies in the future, so that the assertion on
    nextevent is never hit. *)
Theorem check_timestamps_spec e now changed p :
  tables_ok p ->
  let '(_, p', evs) := check_timestamps e now changed p in
  gateways p' = kept now (gateways p) /\ addresses p' = kept now (addresses p) /\
  routes p' = kept now (routes p) /\ dns_servers p' = kept now (dns_servers p) /\
  dns_domains p' = kept now (dns_domains p) /\
  evs = (if removed_mask now p changed =? 0 then []
         else [EvConfigReceived (removed_mask now p changed)]) /\
  send_rs_id p' = (if wants_refresh now p then send_rs_id (solicited e true p) else send_rs_id p) /\
  (if next_check now p =? G_MAXINT32 then timeout_id p' = None
   else now < next_check now p /\ timeout_id p' = Some (1000 * (next_check now p - now))).
Proof.
  intros Hok. rewrite check_timestamps_run by done.
  pose proof (next_check_later now p) as Hlater.
  destruct (next_check now p =? G_MAXINT32) eqn:En; cbn; split_and!; try done;
    try (by destruct (wants_refresh now p)).
  apply Hlater. by apply Z.eqb_neq.
Qed.

Lemma send_rs_timeout_netns e p :
  netns_push e = false -> exists p', send_rs_timeout e p = (tt, p', []) /\ send_rs_id p' = None.
Proof. intros Hn. unfold send_rs_timeout. rewrite Hn. nd_step. by eexists. Qed.

Lemma send_rs_timeout_step e p :
  netns_push e = true ->
  let ok := bool_decide (klass_send e = None) in
  exists p', send_rs_timeout e p = (tt, p', if ok then [EvSendRS] else []) /\
  solicitations_left p' = solicitations_left p - Z.b2z ok /\
  send_rs_id p' = if 0 <? solicitations_left p'
                  then Some (1000 * router_solicitation_interval p) else None.
Proof.
  intros Hn. unfold send_rs_timeout, maybe_warn. rewrite Hn.
  destruct (klass_send e) as [msg|]; nd_step; rewrite ?Z.sub_0_r; [case_bool_decide; cbn|];
    match goal with |- context [0 <? ?n] => destruct (0 <? n) eqn:E end; cbn; eexists; split_and!; try done; cbn; rewrite ?Z.sub_0_r, ?E; done.
Qed.

(** A timer that is gone does not fire. *)
Lemma run_timers_gone handler es p : send_rs_id p = None -> run_timers handler es p = (tt, p, []).
Proof. intros Hn. destruct es; [done|]. cbn [run_timers]. nd_step. by rewrite Hn. Qed.

Lemma run_solicitations es : forall p d,
  send_rs_id p = Some d -> 0 < solicitations_left p ->
  exists p', run_timers send_rs_timeout es p = (tt, p', replicate (successes es `min` Z.to_nat (solicitations_left p)) EvSendRS) /\
    (send_rs_id p' = None <-> solicitations_left p <= Z.of_nat (successes es) \/ entered es <> es).
Proof.
  unfold successes. induction es as [|e es IH]; intros p d Hp Hl.
  - exists p. split; [done|]. rewrite Hp. cbn. split; [done|]. intros [|]; [lia|done].
  - cbn [run_timers entered]. nd_step. rewrite Hp. destruct (netns_push e) eqn:Hn.
    2:{ destruct (send_rs_timeout_netns e p Hn) as (p1 & -> & Hg). rewrite run_timers_gone by done. exists p1. split; [done|]. split; [by right|done]. }
    destruct (send_rs_timeout_step e p Hn) as (p1 & -> & Hl1 & Hs1). cbn [List.filter].
    assert (Hent : e :: entered es <> e :: es <-> entered es <> es) by (split; intros Hne E; apply Hne; congruence).
    destruct (bool_decide (klass_send e = None)); cbn [Z.b2z length app] in *; setoid_rewrite Hent.
    + destruct (Z.ltb_spec 0 (solicitations_left p1)) as [Hlt|Hge].
      * destruct (IH p1 _ Hs1 Hlt) as (p2 & -> & Hiff). exists p2. split; [|rewrite Hiff; apply or_iff_compat_r; lia].
        replace (Z.to_nat (solicitations_left p)) with (S (Z.to_nat (solicitations_left p1))) by lia. done.
      * rewrite run_timers_gone by done. exists p1. replace (Z.to_nat (solicitations_left p)) with 1%nat by lia. split; [by rewrite Nat.min_r by lia|].
        split; [intros _; left; lia|done].
    + rewrite Z.sub_0_r in Hl1. rewrite <-Hl1 in Hl |- *. rewrite (proj2 (Z.ltb_lt _ _) Hl) in Hs1.
      destruct (IH p1 _ Hs1 Hl) as (p2 & -> & Hiff). by exists p2.
Qed.

(** The messages that a host which is asked to solicit has left to send: it goes on if
    it is soliciting already. *)
Definition to_solicit (p : NMNDiscPrivate) : Z :=
  match send_rs_id p with None => router_solicitations p | Some _ => solicitations_left p end.

(** C16: a host that is asked to solicit sends as many messages as its timer is given
    chances at which sending succeeds, and router_solicitations at most (if it was
    soliciting already, those that were left): a send that fails is not counted and
    is tried again.  The timer is gone after the last message and not before, unless
    the namespace could not be entered: then it is gone without more messages. *)
Theorem solicitations_exact e es p :
  0 < to_solicit p ->
  let '(_, p', evs) := (solicit_routers e;; run_timers send_rs_timeout es) p in
  evs = replicate (successes es `min` Z.to_nat (to_solicit p)) EvSendRS /\
  (send_rs_id p' = None <-> to_solicit p <= Z.of_nat (successes es) \/ entered es <> es).
Proof.
  unfold to_solicit. intros Hr. unfold solicit_routers at 1. nd_step. destruct (send_rs_id p) as [d|] eqn:Hp; cbn.
  - by destruct (run_solicitations es p d Hp Hr) as (p' & -> & Hiff).
  - match goal with |- context [run_timers _ _ ?q] => set (p1 := q) end.
    by destruct (run_solicitations es p1 _ eq_refl Hr) as (p' & -> & Hiff).
Qed.

(** The second message cannot be sent at first. *)
Definition failing_env (now : Z) : env := mk_env now true (Some []) (fun lo hi => lo).

Lemma solicitations_exact_witness :
  let '(_, p', evs) :=
    (solicit_routers (sample_env 5);; run_timers send_rs_timeout (sample_env 9 :: failing_env 10 :: replicate 7 (sample_env 11))) sample_host in
  evs = [EvSendRS; EvSendRS; EvSendRS] /\ send_rs_id p' = None.
Proof.
  pose proof (solicitations_exact (sample_env 5) (sample_env 9 :: failing_env 10 :: replicate 7 (sample_env 11)) sample_host eq_refl) as H.
  destruct ((solicit_routers (sample_env 5);; run_timers send_rs_timeout (sample_env 9 :: failing_env 10 :: replicate 7 (sample_env 11))) sample_host)
    as [[u p'] evs]. split; [exact (proj1 H)|]. apply (proj2 H). left. cbn. lia.
Defined.

Lemma check_timestamps_spec_witness :
  let '(_, p', evs) := check_timestamps (sample_env 620) 620 0 sample_tables in
  gateways p' = [] /\ evs = [EvConfigReceived (Z.lor NM_NDISC_CONFIG_GATEWAYS NM_NDISC_CONFIG_DNS_SERVERS)].
Proof.
  pose proof (check_timestamps_spec (sample_env 620) 620 0 sample_tables) as H.
  destruct (check_timestamps (sample_env 620) 620 0 sample_tables) as [[u p'] evs].
  destruct H as (Hg & _ & _ & _ & _ & He & _).
  - split; repeat constructor; cbn; unfold NM_NDISC_INFINITY; lia.
  - split; [exact Hg|exact He].
Defined.

(** a DNS entry beyond half its lifetime has no timer of its own: when only
    such entries are left, check_timestamps() keeps them but schedules nothing,
    so that no timer removes them when they expire. *)
Theorem check_timestamps_dns_no_timer e now changed p :
  tables_ok p -> gateways p = [] -> addresses p = [] -> routes p = [] -> dns_domains p = [] ->
  Forall (fun d => past_half now d = true /\ unexpired now d = true) (dns_servers p) ->
  dns_servers p <> [] ->
  let p' := (check_timestamps e now changed p).1.2 in
  dns_servers p' = dns_servers p /\ timeout_id p' = None /\ send_rs_id p' <> None.
Proof.
  intros Hok Hg Ha Hr Hd Hs Hne. rewrite check_timestamps_run by done. cbn [fst snd].
  assert (Hkept : kept now (dns_servers p) = dns_servers p).
  { apply filter_all, forallb_Forall_true. eapply Forall_impl; [exact Hs|]. by intros d [_ ?]. }
  assert (Hw : next_check now p = G_MAXINT32).
  { unfold next_check, wakeups. rewrite Hg, Ha, Hr, Hd, Hkept. cbn. rewrite app_nil_r.
    assert (omap (dns_wakeup now) (dns_servers p) = []) as ->; [|done].
    clear Hkept Hok Hne. induction Hs as [|d l [Hp _] _ IH]; [done|]. cbn.
    apply andb_true_iff in Hp as [Hp1%negb_true_iff Hp2].
    unfold dns_wakeup at 1. by rewrite Hp1, Hp2. }
  rewrite Hw. cbn. rewrite Hkept. split_and!; [done|done|].
  assert (wants_refresh now p = true) as ->; [|apply solicited_pending].
  unfold wants_refresh. rewrite Hkept. destruct Hs as [|d l [Hp _] _]; [done|]. cbn. by rewrite Hp.
Qed.

Lemma check_timestamps_dns_no_timer_witness :
  timeout_id (check_timestamps (sample_env 400) 400 0
    (set_dns_servers [mk_dns_server (sample_addr x01) 10 600] sample_host)).1.2 = None.
Proof.
  apply (check_timestamps_dns_no_timer (sample_env 400) 400 0
    (set_dns_servers [mk_dns_server (sample_addr x01) 10 600] sample_host)); try reflexivity.
  - split; repeat constructor; cbn; unfold NM_NDISC_INFINITY; lia.
  - repeat constructor.
  - discriminate.
Defined.

Lemma announce_router_step e p :
  netns_push e = true ->
  exists p', announce_router e p = (tt, p', sends EvSendRA [e]) /\
  solicitations_left p' = (if solicitations_left p - 1 =? 0 then 1 else solicitations_left p - 1) /\
  send_rs_id p' = Some (1000 *
    if solicitations_left p - 1 =? 0 then NM_NDISC_ROUTER_ADVERT_MAX_INTERVAL
    else random_int_range e NM_NDISC_ROUTER_ADVERT_DELAY NM_NDISC_ROUTER_ADVERT_INITIAL_INTERVAL).
Proof.
  intros Hn. unfold announce_router, maybe_warn, sends. rewrite Hn. nd_step.
  destruct (klass_send e) as [msg|]; nd_step; [case_bool_decide; cbn|];
    destruct (solicitations_left p - 1 =? 0) eqn:E; cbn; eexists; split; done.
Qed.

Lemma run_announcements es : forall p d,
  Forall (fun e => netns_push e = true) es -> send_rs_id p = Some d -> 1 <= solicitations_left p ->
  exists p', run_timers announce_router es p = (tt, p', sends EvSendRA es) /\
  (es = [] -> p' = p) /\
  solicitations_left p' = Z.max 1 (solicitations_left p - Z.of_nat (length es)) /\
  exists d', send_rs_id p' = Some d' /\
    (es <> [] -> solicitations_left p <= Z.of_nat (length es) -> d' = 1000 * NM_NDISC_ROUTER_ADVERT_MAX_INTERVAL).
Proof.
  induction es as [|e es IH]; intros p d Hes Hp Hl.
  - exists p. split_and!; [done|done|cbn; lia|]. exists d. by split.
  - apply Forall_cons in Hes as [He Hes]. cbn [run_timers]. nd_step. rewrite Hp.
    destruct (announce_router_step e p He) as (p1 & -> & Hl1 & Hs1).
    destruct (IH p1 _ Hes Hs1) as (p2 & -> & Hnil & Hl2 & d2 & Hd2 & Hlast); [code_cases; lia|].
    exists p2. split; [by unfold sends; cbn; destruct (klass_send e)|].
    split; [done|]. split; [rewrite Hl2, Hl1; code_cases; lia|].
    exists d2. split; [done|]. intros _ Hle. destruct es as [|e2 es].
    + rewrite (Hnil eq_refl), Hs1 in Hd2. injection Hd2 as <-. cbn in Hle.
      by rewrite (proj2 (Z.eqb_eq _ _)) by lia.
    + apply Hlast; [done|]. cbn [length] in *. rewrite Hl1. code_cases; lia.
Qed.

(** a router never stops announcing itself.  After announce_router_initial()
    each firing of its timer sends one advertisement (unless sending fails) and
    leaves the timer scheduled; once the three initial announcements are done it
    is the interval for unsolicited ones, 600 seconds. *)
Theorem announcements_forever e es p :
  Forall (fun e => netns_push e = true) es ->
  let '(_, p', evs) := (announce_router_initial e;; run_timers announce_router es) p in
  evs = sends EvSendRA es /\ send_rs_id p' <> None /\
  solicitations_left p' = Z.max 1 (3 - Z.of_nat (length es)) /\
  ((3 <= length es)%nat -> send_rs_id p' = Some 600000).
Proof.
  intros Hes. pose proof (fun p1 d => run_announcements es p1 d Hes) as Hrun.
  assert (exists p1 d, announce_router_initial e p = (tt, p1, []) /\ send_rs_id p1 = Some d /\
    solicitations_left p1 = 3) as (p1 & d & Hp1 & Hd & Hl).
  { unfold announce_router_initial. nd_step. destruct (_ <? s32 _); cbn; [eauto|].
    case_bool_decide as E; cbn; [eauto|]. destruct (send_rs_id p) eqn:E2; [|done].
    eexists _, _. split_and!; [reflexivity|exact E2|reflexivity]. }
  nd_step. rewrite Hp1. destruct (Hrun p1 d Hd) as (p2 & -> & _ & Hl2 & d2 & Hd2 & Hlast); [lia|].
  split_and!; [done|by rewrite Hd2|lia|]. intros Hlen. rewrite Hd2, Hlast; [done| |lia].
  destruct es; [cbn in Hlen; lia|done].
Qed.

Lemma announcements_forever_witness :
  send_rs_id ((announce_router_initial (sample_env 9);; run_timers announce_router (replicate 4 (sample_env 20)))
    sample_router).1.2 = Some 600000.
Proof.
  pose proof (announcements_forever (sample_env 9) (replicate 4 (sample_env 20)) sample_router
                ltac:(repeat constructor)) as H.
  destruct ((announce_router_initial (sample_env 9);; run_timers announce_router (replicate 4 (sample_env 20)))
    sample_router) as [[u p'] evs]. destruct H as (_ & _ & _ & H). apply H. cbn. lia.
Defined.

(** on the first announcement of a router the age of the last one is
    computed from the G_MININT32 that nm_ndisc_init() stores (for the unrelated
    solicitation time of hosts): at no clock reading does the difference fit a
    gint32, and once wrapped it is below the minimum delay, as if an
    announcement had just been sent.  Nothing is scheduled then, so the initial
    announcement is still scheduled, with a delay below three seconds. *)
Theorem router_first_announcement e cfg ra rs rsi :
  0 <= monotonic_timestamp_s e <= G_MAXINT32 ->
  let p := init cfg ra rs rsi NM_NDISC_NODE_TYPE_ROUTER in
  G_MAXINT32 < monotonic_timestamp_s e - last_rs p /\
  s32 (monotonic_timestamp_s e - last_rs p) < NM_NDISC_ROUTER_ADVERT_DELAY /\
  send_rs_id (announce_router_initial e p).1.2 = Some (1000 * random_int_range e 0 3).
Proof.
  intros Hn. cbn [init last_rs].
  assert (Hs : s32 (monotonic_timestamp_s e - G_MININT32) = monotonic_timestamp_s e - 2147483648).
  { unfold s32. rewrite <- (Z.mod_small (monotonic_timestamp_s e) 4294967296) at 2 by lia.
    rewrite <- (Z.mod_add (monotonic_timestamp_s e) 1) by lia. do 2 f_equal; lia. }
  split_and!; [lia|rewrite Hs; unfold NM_NDISC_ROUTER_ADVERT_DELAY; lia|].
  unfold announce_router_initial. nd_step. rewrite Hs. unfold NM_NDISC_ROUTER_ADVERT_DELAY.
  rewrite (proj2 (Z.ltb_ge _ _)) by lia. done.
Qed.

Lemma router_first_announcement_witness :
  G_MAXINT32 < monotonic_timestamp_s (sample_env 5) - last_rs sample_router.
Proof. apply (router_first_announcement (sample_env 5) sample_cfg 0 3 4). cbn. lia. Defined.

(** a host without an explicit timeout waits for its solicitations to be
    over and at least 30 seconds, and the timer is set to that delay exactly
    when the 64-bit product fits the gint32 it is stored in. *)
Theorem start_ra_timeout_exact p :
  ra_timeout p = NM_RA_TIMEOUT_DEFAULT -> 0 < router_solicitations p -> 0 < router_solicitation_interval p ->
  let wanted := Z.max (router_solicitations p * router_solicitation_interval p + 1) 30 in
  (start_ra_timeout p = wanted <-> wanted <= G_MAXINT32).
Proof.
  intros Hd Hs Hi wanted. unfold start_ra_timeout. rewrite Hd. cbn -[s32]. fold wanted.
  assert (Hw : 30 <= wanted) by (unfold wanted; lia). clearbody wanted. unfold s32.
  pose proof (Z.mod_pos_bound (wanted + 2147483648) 4294967296). split; [lia|].
  intros. rewrite Z.mod_small by lia. lia.
Qed.

(** 65536 solicitations, 65536 seconds apart: the RA timeout is one second. *)
Lemma start_ra_timeout_exact_witness :
  start_ra_timeout (init sample_cfg 0 65536 65536 NM_NDISC_NODE_TYPE_HOST) <> 65536 * 65536 + 1.
Proof.
  intros H. pose proof (proj1 (start_ra_timeout_exact
    (init sample_cfg 0 65536 65536 NM_NDISC_NODE_TYPE_HOST) eq_refl eq_refl eq_refl) H) as Hle. cbn in Hle. lia.
Defined.

(** whatever the flags, config_map_to_string() stays within the buffer of
    CONFIG_MAP_MAX_STR bytes of its caller, terminating NUL included. *)
Theorem config_map_to_string_fits map :
  Z.of_nat (length (config_map_to_string map)) + 1 <= CONFIG_MAP_MAX_STR.
Proof.
  unfold config_map_to_string, CONFIG_MAP_MAX_STR. rewrite !length_app.
  repeat match goal with |- context [if ?b then _ else _] => destruct b end; cbn; lia.
Qed.
