(* ===== verification/StablePrivacy.v ===== *)
(** * StablePrivacy: RFC 7217 interface identifiers

    Models _is_reserved_ipv6_iid(), _set_stable_privacy() and
    nm_utils_ipv6_addr_set_stable_privacy() of
    src/NetworkManager/src/nm-core-utils.c, and gives router discovery
    (NDiscData.v) the generator it asks for.  SHA-256 and the host id are
    outside: a function from the hashed bytes to 32 bytes and a byte string. *)

From S2P Require Import Bytes NDiscData.

(** ** Data *)

Inductive NMUtilsStableType :=
| NM_UTILS_STABLE_TYPE_UUID
| NM_UTILS_STABLE_TYPE_STABLE_ID
| NM_UTILS_STABLE_TYPE_GENERATED
| NM_UTILS_STABLE_TYPE_RANDOM.

#[export] Instance stable_type_eq_dec : EqDecision NMUtilsStableType.
Proof. solve_decision. Defined.

Definition stable_type_uint8 (t : NMUtilsStableType) : byte :=
  match t with
  | NM_UTILS_STABLE_TYPE_UUID => x00
  | NM_UTILS_STABLE_TYPE_STABLE_ID => x01
  | NM_UTILS_STABLE_TYPE_GENERATED => x02
  | NM_UTILS_STABLE_TYPE_RANDOM => x03
  end.

(** The bytes of htonl (z) in memory. *)
Definition htonl (z : Z) : list byte := [z2b (z / 16777216); z2b (z / 65536); z2b (z / 256); z2b z].

(** g_checksum_new (G_CHECKSUM_SHA256), updated with all parts in turn. *)
Class Sha256 := sha256 : list byte -> list byte.
Class Sha256Ok `{Sha256} : Prop := sha256_length : forall l, length (sha256 l) = 32%nat.

Definition RFC7217_IDGEN_RETRIES : Z := 3.

(** ** Operations *)

Definition _is_reserved_ipv6_iid (iid : list byte) : bool :=
  if bool_decide (take 8 iid = replicate 8 x00) then true
  else if bool_decide (take 5 iid = [x02; x00; x5e; xff; xfe]) then true
  else if bool_decide (take 7 iid = [xfd; xff; xff; xff; xff; xff; xff]) then
    negb (Z.land (b2z (nth 7 iid x00)) 128 =? 0)
  else false.

(** The bytes hashed first.  The C strings are hashed with their NUL. *)
Definition hash_input (stable_type : NMUtilsStableType) (addr ifname network_id : list byte)
    (dad_counter : Z) (host_id : list byte) : list byte :=
  let host_id_len := Z.min (Z.of_nat (length host_id)) G_MAXUINT32 in
  (if bool_decide (stable_type = NM_UTILS_STABLE_TYPE_UUID) then [] else [stable_type_uint8 stable_type])
  ++ take 8 addr ++ (ifname ++ [x00]) ++ (network_id ++ [x00])
  ++ htonl dad_counter ++ htonl host_id_len ++ take (Z.to_nat host_id_len) host_id.

Section operations.
Context `{Sha256}.

(** One turn of the loop: the digest of the digest and the next counter. *)
Definition rehash (digest : list byte) (dad_counter : Z) : list byte :=
  sha256 (digest ++ htonl dad_counter).

(** The while loop; [None] when the fuel runs out. *)
Fixpoint rehash_loop (fuel : nat) (digest : list byte) (dad_counter : Z) : option (list byte) :=
  match fuel with
  | O => None
  | S fuel =>
      if _is_reserved_ipv6_iid digest
      then rehash_loop fuel (rehash digest (u32 (dad_counter + 1))) (u32 (dad_counter + 1))
      else Some digest
  end.

Definition _set_stable_privacy (fuel : nat) (stable_type : NMUtilsStableType)
    (addr ifname network_id : list byte) (dad_counter : Z) (host_id : list byte) : option (list byte) :=
  digest ← rehash_loop fuel (sha256 (hash_input stable_type addr ifname network_id dad_counter host_id)) dad_counter;
  Some (take 8 addr ++ take 8 digest).

(** [None] when the function returns FALSE. *)
Definition nm_utils_ipv6_addr_set_stable_privacy (fuel : nat) (host_id : list byte)
    (stable_type : NMUtilsStableType) (addr ifname network_id : list byte) (dad_counter : Z)
    : option (list byte) :=
  if RFC7217_IDGEN_RETRIES <=? dad_counter then None
  else _set_stable_privacy fuel stable_type addr ifname network_id dad_counter host_id.

(** ** The chain of digests, as a specification of the loop *)

Fixpoint digest_chain (digest : list byte) (dad_counter : Z) (n : nat) : list byte :=
  match n with
  | O => digest
  | S n => digest_chain (rehash digest (u32 (dad_counter + 1))) (u32 (dad_counter + 1)) n
  end.
End operations.

(** The generator as nm-ndisc.c calls it: the stable type is an int there. *)
Definition stable_type_of_Z (z : Z) : NMUtilsStableType :=
  if z =? 0 then NM_UTILS_STABLE_TYPE_UUID
  else if z =? 1 then NM_UTILS_STABLE_TYPE_STABLE_ID
  else if z =? 2 then NM_UTILS_STABLE_TYPE_GENERATED
  else NM_UTILS_STABLE_TYPE_RANDOM.

Definition stable_privacy_gen `{Sha256} (fuel : nat) (host_id : list byte) : StablePrivacyGen :=
  {| addr_set_stable_privacy ty a ifn net n :=
       nm_utils_ipv6_addr_set_stable_privacy fuel host_id (stable_type_of_Z ty) a ifn net n |}.

(** A stand-in for SHA-256 in the concrete instances. *)
Definition sample_sha : Sha256 := fun l => replicate 32 (z2b (Z.of_nat (length l))).

(** ** Reserved identifiers *)

Lemma byte_high_bit b : negb (Z.land (b2z b) 128 =? 0) = (128 <=? b2z b).
Proof.
  apply eqb_prop. revert b. apply (forall_byte (fun b => eqb (negb (Z.land (b2z b) 128 =? 0)) (128 <=? b2z b))).
  by vm_compute.
Qed.

Lemma byte_eq_z (b : byte) (c : byte) : b = c <-> b2z b = b2z c.
Proof. split; [by intros ->|apply b2z_inj]. Qed.

Lemma cons_eq {A} (x y : A) l k : x :: l = y :: k <-> x = y /\ l = k.
Proof. split; [by intros [= -> ->]|by intros [-> ->]]. Qed.

(** _is_reserved_ipv6_iid() decides exactly the ranges its comments quote
    from the IANA registry: the zero identifier, 0200:5EFF:FE00:0000 to
    0200:5EFF:FEFF:FFFF, and FDFF:FFFF:FFFF:FF80 to FDFF:FFFF:FFFF:FFFF. *)
Theorem is_reserved_ranges iid :
  length iid = 8%nat ->
  _is_reserved_ipv6_iid iid = true <->
  be iid = 0 \/ 0x02005EFFFE000000 <= be iid <= 0x02005EFFFEFFFFFF
  \/ 0xFDFFFFFFFFFFFF80 <= be iid <= 0xFDFFFFFFFFFFFFFF.
Proof.
  intros Hl. do 8 (destruct iid as [|? iid]; [done|]). destruct iid; [|done]. clear Hl.
  unfold _is_reserved_ipv6_iid, be. cbn [take replicate nth fold_left]. rewrite byte_high_bit.
  assert (E1 : [b; b0; b1; b2; b3; b4; b5; b6] = [x00; x00; x00; x00; x00; x00; x00; x00] <->
    b2z b = 0 /\ b2z b0 = 0 /\ b2z b1 = 0 /\ b2z b2 = 0 /\ b2z b3 = 0 /\ b2z b4 = 0 /\ b2z b5 = 0 /\ b2z b6 = 0)
    by (rewrite !cons_eq, !byte_eq_z; change (b2z x00) with 0; tauto).
  assert (E2 : [b; b0; b1; b2; b3] = [x02; x00; x5e; xff; xfe] <->
    b2z b = 2 /\ b2z b0 = 0 /\ b2z b1 = 94 /\ b2z b2 = 255 /\ b2z b3 = 254)
    by (rewrite !cons_eq, !byte_eq_z; change (b2z x00) with 0; change (b2z x02) with 2;
        change (b2z x5e) with 94; change (b2z xff) with 255; change (b2z xfe) with 254; tauto).
  assert (E3 : [b; b0; b1; b2; b3; b4; b5] = [xfd; xff; xff; xff; xff; xff; xff] <->
    b2z b = 253 /\ b2z b0 = 255 /\ b2z b1 = 255 /\ b2z b2 = 255 /\ b2z b3 = 255 /\ b2z b4 = 255 /\ b2z b5 = 255)
    by (rewrite !cons_eq, !byte_eq_z; change (b2z xfd) with 253; change (b2z xff) with 255; tauto).
  rewrite (bool_decide_ext _ _ E1), (bool_decide_ext _ _ E2), (bool_decide_ext _ _ E3). clear E1 E2 E3.
  repeat match goal with |- context [b2z ?c] => generalize (b2z_range c); generalize (b2z c); intros ? ? end.
  repeat case_bool_decide; rewrite ?Z.leb_le; lia.
Qed.

(** ** The loop *)

Section loop.
Context `{HS : Sha256}.

Lemma rehash_loop_chain fuel : forall digest c n,
  (forall m, (m < n)%nat -> _is_reserved_ipv6_iid (digest_chain digest c m) = true) ->
  _is_reserved_ipv6_iid (digest_chain digest c n) = false -> (n < fuel)%nat ->
  rehash_loop fuel digest c = Some (digest_chain digest c n).
Proof.
  induction fuel as [|fuel IH]; intros digest c n Hm Hn Hlt; [lia|]. destruct n as [|n]; cbn in *.
  - by rewrite Hn.
  - assert (_is_reserved_ipv6_iid digest = true) as -> by (apply (Hm 0%nat); lia).
    apply IH; [|done|lia]. intros m Hlt'. apply (Hm (S m)). lia.
Qed.

Lemma rehash_loop_not_reserved fuel : forall digest c d,
  rehash_loop fuel digest c = Some d -> _is_reserved_ipv6_iid d = false.
Proof.
  induction fuel as [|fuel IH]; intros digest c d; cbn; [done|].
  destruct (_is_reserved_ipv6_iid digest) eqn:E; [apply IH|]. by intros [= <-].
Qed.

Lemma rehash_loop_length `{!Sha256Ok} fuel : forall digest c d,
  length digest = 32%nat -> rehash_loop fuel digest c = Some d -> length d = 32%nat.
Proof.
  induction fuel as [|fuel IH]; intros digest c d Hd; cbn; [done|].
  destruct (_is_reserved_ipv6_iid digest); [|by intros [= <-]]. apply IH, sha256_length.
Qed.

Lemma is_reserved_take digest : _is_reserved_ipv6_iid (take 8 digest) = _is_reserved_ipv6_iid digest.
Proof.
  do 8 (destruct digest as [|? digest]; [done|]). done.
Qed.

Lemma set_stable_privacy_shape `{!Sha256Ok} fuel host_id t a ifn net n a' :
  length a = 16%nat ->
  nm_utils_ipv6_addr_set_stable_privacy fuel host_id t a ifn net n = Some a' ->
  length a' = 16%nat /\ take 8 a' = take 8 a /\ _is_reserved_ipv6_iid (drop 8 a') = false.
Proof.
  intros Ha. unfold nm_utils_ipv6_addr_set_stable_privacy, _set_stable_privacy.
  destruct (_ <=? n); [done|]. destruct (rehash_loop _ _ _) as [d|] eqn:Hd; cbn; [|done]. intros [= <-].
  pose proof (rehash_loop_length _ _ _ _ (sha256_length _) Hd) as Hl.
  apply rehash_loop_not_reserved in Hd.
  rewrite length_app, take_app_le, take_take, !length_take by (rewrite length_take; lia).
  rewrite drop_app_length' by (rewrite length_take; lia). rewrite is_reserved_take. split_and!; [lia|done..].
Qed.

(** The generator meets what router discovery relies on. *)
#[export] Instance stable_privacy_gen_ok `{!Sha256Ok} fuel host_id :
  @StablePrivacyGenOk (stable_privacy_gen fuel host_id).
Proof.
  split; cbn.
  - intros ty a ifn net n a' Hs Ha. by apply set_stable_privacy_shape in Hs as (? & ? & ?).
  - intros ty a ifn net n a' Hs Ha. by apply set_stable_privacy_shape in Hs as (? & ? & ?).
  - intros ty a ifn net n Hn. unfold nm_utils_ipv6_addr_set_stable_privacy, RFC7217_IDGEN_RETRIES.
    by rewrite (proj2 (Z.leb_le _ _) Hn).
Qed.

(** C28: a stable-privacy address keeps the /64 prefix and gets an identifier
    that is not reserved: when the first [n] digests of the chain are reserved
    and the next is not, it is the first eight bytes of that one, and any fuel
    above [n] is enough.  With three collisions already the function fails. *)
Theorem set_stable_privacy_spec `{!Sha256Ok} fuel host_id t a ifn net dad n :
  length a = 16%nat ->
  let digest := sha256 (hash_input t a ifn net dad host_id) in
  (forall m, (m < n)%nat -> _is_reserved_ipv6_iid (digest_chain digest dad m) = true) ->
  _is_reserved_ipv6_iid (digest_chain digest dad n) = false -> (n < fuel)%nat ->
  nm_utils_ipv6_addr_set_stable_privacy fuel host_id t a ifn net dad =
    (if RFC7217_IDGEN_RETRIES <=? dad then None
     else Some (take 8 a ++ take 8 (digest_chain digest dad n))) /\
  forall a', nm_utils_ipv6_addr_set_stable_privacy fuel host_id t a ifn net dad = Some a' ->
    length a' = 16%nat /\ take 8 a' = take 8 a /\ _is_reserved_ipv6_iid (drop 8 a') = false.
Proof.
  intros Ha digest Hm Hn Hf. split.
  - unfold nm_utils_ipv6_addr_set_stable_privacy, _set_stable_privacy. fold digest.
    by rewrite (rehash_loop_chain fuel digest dad n).
  - intros a' Hs. by eapply set_stable_privacy_shape.
Qed.
End loop.

(** ** What is hashed *)

Lemma z2b_mod_eq a b : z2b a = z2b b -> a mod 256 = b mod 256.
Proof. intros H. by rewrite <- !b2z_z2b, H. Qed.

Lemma htonl_inj a b : 0 <= a <= G_MAXUINT32 -> 0 <= b <= G_MAXUINT32 -> htonl a = htonl b -> a = b.
Proof.
  intros Ha Hb [= H1%z2b_mod_eq H2%z2b_mod_eq H3%z2b_mod_eq H4%z2b_mod_eq].
  Z.div_mod_to_equations. lia.
Qed.

Lemma nul_terminated_inj (s1 s2 r1 r2 : list byte) :
  x00 ∉ s1 -> x00 ∉ s2 -> (s1 ++ [x00]) ++ r1 = (s2 ++ [x00]) ++ r2 -> s1 = s2 /\ r1 = r2.
Proof.
  revert s2. induction s1 as [|c s1 IH]; intros [|d s2] H1 H2 H; cbn in *.
  - by injection H as ->.
  - injection H as <- _. exfalso. apply H2, elem_of_cons. by left.
  - injection H as -> _. exfalso. apply H1, elem_of_cons. by left.
  - injection H as -> H. apply not_elem_of_cons in H1 as [_ H1], H2 as [_ H2].
    by destruct (IH s2 H1 H2 H) as [-> ->].
Qed.

(** the hashed bytes determine what they are made of.  Within one format
    (with the byte of the stable type, or without it for UUID) two inputs are
    the same only when stable type, prefix, names, counter and host id are, so
    that different connections, networks or retries never hash the same text. *)
Theorem hash_input_inj t1 a1 if1 n1 d1 h1 t2 a2 if2 n2 d2 h2 :
  length a1 = 16%nat -> length a2 = 16%nat ->
  x00 ∉ if1 -> x00 ∉ if2 -> x00 ∉ n1 -> x00 ∉ n2 ->
  0 <= d1 <= G_MAXUINT32 -> 0 <= d2 <= G_MAXUINT32 ->
  Z.of_nat (length h1) <= G_MAXUINT32 -> Z.of_nat (length h2) <= G_MAXUINT32 ->
  (t1 = NM_UTILS_STABLE_TYPE_UUID <-> t2 = NM_UTILS_STABLE_TYPE_UUID) ->
  hash_input t1 a1 if1 n1 d1 h1 = hash_input t2 a2 if2 n2 d2 h2 ->
  t1 = t2 /\ take 8 a1 = take 8 a2 /\ if1 = if2 /\ n1 = n2 /\ d1 = d2 /\ h1 = h2.
Proof.
  intros La1 La2 Hi1 Hi2 Hn1 Hn2 Hd1 Hd2 Hh1 Hh2 Ht. unfold hash_input.
  rewrite !Z.min_l by done. rewrite !Nat2Z.id, !firstn_all.
  assert (Hrest : take 8 a1 ++ (if1 ++ [x00]) ++ (n1 ++ [x00]) ++ htonl d1 ++ htonl (Z.of_nat (length h1)) ++ h1
    = take 8 a2 ++ (if2 ++ [x00]) ++ (n2 ++ [x00]) ++ htonl d2 ++ htonl (Z.of_nat (length h2)) ++ h2 ->
    take 8 a1 = take 8 a2 /\ if1 = if2 /\ n1 = n2 /\ d1 = d2 /\ h1 = h2).
  { intros H. apply app_inj_1 in H as [Ha H]; [|by rewrite !length_take, La1, La2].
    apply nul_terminated_inj in H as [-> H]; [|done..]. apply nul_terminated_inj in H as [-> H]; [|done..].
    apply app_inj_1 in H as [Hd H]; [|done]. apply app_inj_1 in H as [_ ->]; [|done].
    apply htonl_inj in Hd as ->; done. }
  intros H. destruct (decide (t1 = NM_UTILS_STABLE_TYPE_UUID)) as [E1|E1].
  - assert (E2 : t2 = NM_UTILS_STABLE_TYPE_UUID) by tauto. rewrite E1, E2 in H. split; [congruence|auto].
  - assert (E2 : t2 <> NM_UTILS_STABLE_TYPE_UUID) by tauto.
    rewrite !bool_decide_false in H by done. injection H as Ht' H. split; [|auto].
    by destruct t1, t2.
Qed.

(** across the two formats the text is ambiguous, contrary to the comment
    in _set_stable_privacy(): the byte of the stable type can be read as the
    first byte of the prefix, and the last byte of the prefix as the first
    character of the interface name. *)
Theorem hash_input_ambiguous t p1 p2 p3 p4 p5 p6 p7 c iid1 iid2 ifn net dad host_id :
  t <> NM_UTILS_STABLE_TYPE_UUID ->
  hash_input t ([p1; p2; p3; p4; p5; p6; p7; c] ++ iid1) ifn net dad host_id =
  hash_input NM_UTILS_STABLE_TYPE_UUID ([stable_type_uint8 t; p1; p2; p3; p4; p5; p6; p7] ++ iid2)
    (c :: ifn) net dad host_id.
Proof. intros Ht. unfold hash_input. by rewrite bool_decide_false. Qed.

(** ** Concrete instances *)

Lemma sample_sha_ok : @Sha256Ok sample_sha.
Proof. intros l. reflexivity. Qed.

Lemma is_reserved_ranges_witness :
  be [xfd; xff; xff; xff; xff; xff; xff; x81] = 0
  \/ 0x02005EFFFE000000 <= be [xfd; xff; xff; xff; xff; xff; xff; x81] <= 0x02005EFFFEFFFFFF
  \/ 0xFDFFFFFFFFFFFF80 <= be [xfd; xff; xff; xff; xff; xff; xff; x81] <= 0xFDFFFFFFFFFFFFFF.
Proof. apply (is_reserved_ranges [xfd; xff; xff; xff; xff; xff; xff; x81] eq_refl). reflexivity. Defined.

Lemma set_stable_privacy_spec_witness :
  @nm_utils_ipv6_addr_set_stable_privacy sample_sha 1 (bs "host") NM_UTILS_STABLE_TYPE_UUID
    (sample_addr x01) (bs "eth0") (bs "net") 0
  = Some (take 8 (sample_addr x01) ++ replicate 8 x1d).
Proof.
  exact (proj1 (@set_stable_privacy_spec sample_sha sample_sha_ok 1 (bs "host") NM_UTILS_STABLE_TYPE_UUID
    (sample_addr x01) (bs "eth0") (bs "net") 0 0 eq_refl ltac:(intros m Hm; lia) eq_refl ltac:(lia))).
Defined.

Lemma hash_input_inj_witness :
  hash_input NM_UTILS_STABLE_TYPE_UUID (sample_addr x01) (bs "eth0") (bs "a") 0 (bs "h") <>
  hash_input NM_UTILS_STABLE_TYPE_UUID (sample_addr x01) (bs "eth0a") (bs "") 0 (bs "h").
Proof.
  intros H. apply (hash_input_inj NM_UTILS_STABLE_TYPE_UUID (sample_addr x01) (bs "eth0") (bs "a") 0 (bs "h")
    NM_UTILS_STABLE_TYPE_UUID (sample_addr x01) (bs "eth0a") (bs "") 0 (bs "h")) in H; try done; try (cbn; lia);
    try (apply (bool_decide_unpack _); vm_compute; done).
  destruct H as (_ & _ & H & _). discriminate H.
Defined.

Lemma hash_input_ambiguous_witness :
  hash_input NM_UTILS_STABLE_TYPE_GENERATED ([xfe; x80; x00; x00; x00; x00; x00; x65] ++ replicate 8 x00)
    (bs "th0") (bs "net") 0 (bs "h") =
  hash_input NM_UTILS_STABLE_TYPE_UUID ([x02; xfe; x80; x00; x00; x00; x00; x00] ++ replicate 8 x00)
    (bs "eth0") (bs "net") 0 (bs "h").
Proof.
  apply (hash_input_ambiguous NM_UTILS_STABLE_TYPE_GENERATED xfe x80 x00 x00 x00 x00 x00 x65).
  discriminate.
Defined.
