(* ===== verification/HexStr.v ===== *)
(** * HexStr: byte strings written in hexadecimal

    Models nm_utils_hexchar_to_int() of
    src/NetworkManager/shared/nm-glib-aux/nm-shared-utils.h and
    nm_utils_bin2hexstr_full(), nm_utils_hexstr2bin_full(),
    nm_utils_hexstr2bin_alloc() of nm-shared-utils.c.  A C string is the list
    of its bytes without the terminating NUL; reading at its end gives NUL.  An
    output buffer is the list of the bytes written so far, so that the length of
    the list is the number of bytes written, also when the function fails. *)

From S2P Require Import Bytes.

(** ** Operations *)

(** For a byte of 128 or more the result is -1 whether char is signed or not. *)
Definition nm_utils_hexchar_to_int (b : byte) : Z :=
  let ch := b2z b in
  if 48 <=? ch then
    if ch <=? 57 then ch - 48
    else if 65 <=? ch then
      if ch <=? 70 then ch + (10 - 65)
      else if (97 <=? ch) && (ch <=? 102) then ch + (10 - 97)
      else -1
    else -1
  else -1.

Definition hex_lookup (upper_case : bool) (v : Z) : byte :=
  nth (Z.to_nat v) (bs (if upper_case then "0123456789ABCDEF" else "0123456789abcdef")) x00.

Fixpoint bin2hexstr_loop (delimiter : byte) (upper_case : bool) (l : list byte) : list byte :=
  match l with
  | [] => []
  | v :: rest =>
      hex_lookup upper_case (Z.shiftr (b2z v) 4) :: hex_lookup upper_case (Z.land (b2z v) 15) ::
      match rest with
      | [] => []
      | _ :: _ =>
          (if bool_decide (delimiter = x00) then [] else [delimiter])
          ++ bin2hexstr_loop delimiter upper_case rest
      end
  end.

(** The string without its NUL. *)
Definition nm_utils_bin2hexstr_full (l : list byte) (delimiter : byte) (upper_case : bool) : list byte :=
  bin2hexstr_loop delimiter upper_case l.

(** The size of the buffer the function allocates when it is given none. *)
Definition bin2hexstr_alloc_len (length : Z) (delimiter : byte) : Z :=
  if length =? 0 then 1 else if bool_decide (delimiter = x00) then length * 2 + 1 else length * 3.

(** What the delimiter logic decides on the byte [d2] that follows a number:
    [None] to fail, else the new [delimiter_has] and [delimiter], and whether
    the byte is skipped. *)
Definition delimiter_step (delimiter_required : bool) (delimiter_candidates : option (list byte))
    (delimiter_has : bool) (delimiter d2 : byte) : option (bool * byte * bool) :=
  if delimiter_has then
    if negb (bool_decide (d2 = delimiter)) then
      if negb (bool_decide (delimiter = x00)) then None
      else if byte_in d2 (default [] delimiter_candidates) then Some (true, d2, true)
      else if delimiter_required then None
      else Some (false, delimiter, false)
    else Some (true, delimiter, true)
  else Some (false, delimiter, false).

(** The loop of nm_utils_hexstr2bin_full(): the bytes written and whether it
    ended with [break] (and not [goto fail]). *)
Fixpoint hexstr2bin_loop (delimiter_required : bool) (delimiter_candidates : option (list byte))
    (delimiter_has : bool) (delimiter : byte) (buffer_len : Z) (inp out : list byte) : list byte * bool :=
  match inp with
  | [] => (out, false)
  | d1 :: t1 =>
      let i1 := nm_utils_hexchar_to_int d1 in
      if i1 <? 0 then (out, false)
      else
        match t1 with
        | [] => (out ++ [z2b i1], delimiter_has)
        | d2 :: t2 =>
            let i2 := nm_utils_hexchar_to_int d2 in
            if 0 <=? i2 then
              let out := out ++ [z2b (Z.shiftl i1 4 + i2)] in
              match t2 with
              | [] => (out, true)
              | d3 :: t3 =>
                  if buffer_len - 1 =? 0 then (out, false)
                  else
                    match delimiter_step delimiter_required delimiter_candidates delimiter_has delimiter d3 with
                    | None => (out, false)
                    | Some (has, delim, skip) =>
                        if skip
                        then hexstr2bin_loop delimiter_required delimiter_candidates has delim (buffer_len - 1) t3 out
                        else hexstr2bin_loop delimiter_required delimiter_candidates has delim (buffer_len - 1) t2 out
                    end
              end
            else
              let out := out ++ [z2b i1] in
              if buffer_len - 1 =? 0 then (out, false)
              else
                match delimiter_step delimiter_required delimiter_candidates delimiter_has delimiter d2 with
                | None => (out, false)
                | Some (has, delim, skip) =>
                    if skip
                    then hexstr2bin_loop delimiter_required delimiter_candidates has delim (buffer_len - 1) t2 out
                    else hexstr2bin_loop delimiter_required delimiter_candidates has delim (buffer_len - 1) t1 out
                end
        end
  end.

Definition skip_0x (hexstr : list byte) : list byte :=
  match hexstr with
  | c0 :: c1 :: rest => if bool_decide (c0 = x30) && bool_decide (c1 = x78) then rest else hexstr
  | _ => hexstr
  end.

(** The bytes written to the buffer, and the returned buffer ([None] for NULL). *)
Definition nm_utils_hexstr2bin_full (hexstr : list byte) (allow_0x_prefix delimiter_required : bool)
    (delimiter_candidates : option (list byte)) (required_len buffer_len : Z)
    : list byte * option (list byte) :=
  let inp := if allow_0x_prefix then skip_0x hexstr else hexstr in
  let '(out, ok) :=
    hexstr2bin_loop delimiter_required delimiter_candidates true x00 buffer_len inp [] in
  (out, if ok && ((required_len =? 0) || (Z.of_nat (length out) =? required_len)) then Some out else None).

Definition nm_utils_hexstr2bin_alloc (hexstr : list byte) (allow_0x_prefix delimiter_required : bool)
    (delimiter_candidates : option (list byte)) (required_len : Z) : option (list byte) :=
  let hexstr := if allow_0x_prefix then skip_0x hexstr else hexstr in
  match hexstr with
  | [] => None
  | _ :: _ =>
      let buffer_len :=
        if 0 <? required_len then required_len else Z.of_nat (length hexstr) / 2 + 3 in
      (nm_utils_hexstr2bin_full hexstr false delimiter_required delimiter_candidates required_len buffer_len).2
  end.

(** ** Specification *)

(** The bytes of a hex string are not delimiters. *)
Definition no_hex_candidates (cand : option (list byte)) : Prop :=
  Forall (fun c => nm_utils_hexchar_to_int c < 0) (default [] cand).

(** Options under which a string made with a delimiter (or without: NUL) is
    meant to be read back. *)
Definition readable (delimiter : byte) (req : bool) (cand : option (list byte)) : Prop :=
  (delimiter = x00 /\ req = false /\ no_hex_candidates cand) \/
  (delimiter <> x00 /\ byte_in delimiter (default [] cand) = true).


(** ** Hexadecimal digits *)

Lemma hexchar_lookup u v : 0 <= v < 16 -> nm_utils_hexchar_to_int (hex_lookup u v) = v.
Proof.
  intros Hv. assert (E : v ∈ seqZ 0 16) by (apply elem_of_seqZ; lia). revert E. clear Hv.
  destruct u; cbn; intros E; repeat (apply elem_of_cons in E as [->|E]; [reflexivity|]);
    by apply elem_of_nil in E.
Qed.

Lemma hexchar_bound b : nm_utils_hexchar_to_int b < 16.
Proof. unfold nm_utils_hexchar_to_int. pose proof (b2z_range b). repeat (case_match; bools); lia. Qed.

Lemma nibbles v : 0 <= Z.shiftr (b2z v) 4 < 16 /\ 0 <= Z.land (b2z v) 15 < 16 /\
  z2b (Z.shiftl (Z.shiftr (b2z v) 4) 4 + Z.land (b2z v) 15) = v.
Proof.
  pose proof (b2z_range v). change 15 with (Z.ones 4).
  rewrite Z.shiftr_div_pow2, Z.land_ones, Z.shiftl_mul_pow2 by lia. change (2 ^ 4) with 16.
  split; [Z.div_mod_to_equations; lia|]. split; [Z.div_mod_to_equations; lia|].
  rewrite <- (z2b_b2z v) at 3. f_equal. rewrite Z.mul_comm. symmetry. apply Z.div_mod. lia.
Qed.

(** ** Memory safety *)

Lemma hexstr2bin_loop_writes req cand n : forall has delim buffer_len inp out,
  (length inp <= n)%nat -> 0 < buffer_len ->
  Z.of_nat (length (hexstr2bin_loop req cand has delim buffer_len inp out).1)
    <= Z.of_nat (length out) + buffer_len.
Proof.
  induction n as [|n IH]; intros has delim buffer_len inp out Hn Hb.
  { destruct inp; [cbn; lia|cbn in Hn; lia]. }
  destruct inp as [|d1 t1]; cbn [hexstr2bin_loop length fst] in *; [lia|].
  repeat (case_match; bools); simplify_eq; cbn [length] in *; cbn [fst]; rewrite ?length_app; cbn [length]; try lia;
    (etransitivity; [apply IH; cbn [length]; lia|rewrite length_app; cbn [length]; lia]).
Qed.

(** nm_utils_hexstr2bin_full() never writes beyond its buffer: whatever the
    string, the delimiters and the required length, and whether it succeeds or
    fails, at most [buffer_len] bytes are written; and what it returns has the
    required length. *)
Theorem hexstr2bin_full_safe hexstr a0x req cand required_len buffer_len :
  0 < buffer_len ->
  let '(written, res) := nm_utils_hexstr2bin_full hexstr a0x req cand required_len buffer_len in
  Z.of_nat (length written) <= buffer_len /\
  forall out, res = Some out -> written = out /\ (required_len <> 0 -> Z.of_nat (length out) = required_len).
Proof.
  intros Hb. unfold nm_utils_hexstr2bin_full.
  pose proof (hexstr2bin_loop_writes req cand _ true x00 buffer_len
    (if a0x then skip_0x hexstr else hexstr) [] (le_n _) Hb) as Hw.
  destruct (hexstr2bin_loop _ _ _ _ _ _ _) as [out ok]. cbn in *. split; [lia|].
  intros out' H. case_match; simplify_eq. split; [done|]. bools. lia.
Qed.

Lemma bin2hexstr_loop_length delimiter upper_case v l :
  Z.of_nat (length (bin2hexstr_loop delimiter upper_case (v :: l))) =
  if bool_decide (delimiter = x00) then 2 * Z.of_nat (length (v :: l)) else 3 * Z.of_nat (length (v :: l)) - 1.
Proof.
  revert v. induction l as [|w l IH]; intros v.
  - cbn. by destruct (bool_decide _).
  - specialize (IH w). cbn [bin2hexstr_loop length] in *. rewrite length_app.
    destruct (bool_decide (delimiter = x00)); cbn [length]; lia.
Qed.

(** the strings nm_utils_bin2hexstr_full() makes, with their NUL, fill the
    buffer it allocates exactly. *)
Theorem bin2hexstr_fills_buffer l delimiter upper_case :
  Z.of_nat (length (nm_utils_bin2hexstr_full l delimiter upper_case)) + 1
  = bin2hexstr_alloc_len (Z.of_nat (length l)) delimiter.
Proof.
  unfold nm_utils_bin2hexstr_full, bin2hexstr_alloc_len. destruct l as [|v l]; [done|].
  rewrite bin2hexstr_loop_length. cbn [length]. rewrite (proj2 (Z.eqb_neq _ _)) by lia.
  destruct (bool_decide _); lia.
Qed.

(** ** Round trip *)

Lemma hexstr2bin_digits req cand has delim bl u v rest out :
  hexstr2bin_loop req cand has delim bl
    (hex_lookup u (Z.shiftr (b2z v) 4) :: hex_lookup u (Z.land (b2z v) 15) :: rest) out =
  match rest with
  | [] => (out ++ [v], true)
  | d3 :: t3 =>
      if bl - 1 =? 0 then (out ++ [v], false)
      else match delimiter_step req cand has delim d3 with
           | None => (out ++ [v], false)
           | Some (has, delim, true) => hexstr2bin_loop req cand has delim (bl - 1) t3 (out ++ [v])
           | Some (has, delim, false) => hexstr2bin_loop req cand has delim (bl - 1) rest (out ++ [v])
           end
  end.
Proof.
  destruct (nibbles v) as (H1 & H2 & H3). cbn [hexstr2bin_loop].
  rewrite !hexchar_lookup, H3 by done. rewrite (proj2 (Z.ltb_ge _ 0)), (proj2 (Z.leb_le 0 _)) by lia.
  destruct rest as [|d3 t3]; [done|]. destruct (bl - 1 =? 0); [done|].
  by destruct (delimiter_step _ _ _ _ _) as [[[? ?] []]|].
Qed.

Lemma byte_in_elem b l : byte_in b l = true <-> b ∈ l.
Proof.
  unfold byte_in. rewrite List.existsb_exists, list_elem_of_In. split.
  - intros (x & Hx & E). apply Byte.byte_dec_bl in E. by subst.
  - intros H. exists b. split; [done|]. by apply Byte.byte_dec_lb.
Qed.

Lemma lookup_no_candidate u v cand :
  0 <= v < 16 -> no_hex_candidates cand -> byte_in (hex_lookup u v) (default [] cand) = false.
Proof.
  intros Hv Hc. apply not_true_is_false. intros Hin%byte_in_elem. unfold no_hex_candidates in Hc.
  rewrite Forall_forall in Hc. apply Hc in Hin. rewrite hexchar_lookup in Hin by done. lia.
Qed.

Lemma lookup_not_nul u v : 0 <= v < 16 -> hex_lookup u v <> x00.
Proof. intros Hv E. pose proof (hexchar_lookup u v Hv) as H. rewrite E in H. cbn in H. lia. Qed.

Lemma bin2hexstr_loop_cons2 d u v w l :
  bin2hexstr_loop d u (v :: w :: l) =
  hex_lookup u (Z.shiftr (b2z v) 4) :: hex_lookup u (Z.land (b2z v) 15) ::
  (if bool_decide (d = x00) then [] else [d]) ++ bin2hexstr_loop d u (w :: l).
Proof. done. Qed.

Lemma decode_delimited req cand u d : d <> x00 -> byte_in d (default [] cand) = true ->
  forall l v delim bl out, delim = x00 \/ delim = d -> Z.of_nat (length (v :: l)) <= bl ->
  hexstr2bin_loop req cand true delim bl (bin2hexstr_loop d u (v :: l)) out = (out ++ v :: l, true).
Proof.
  intros Hd Hc. induction l as [|w l IH]; intros v delim bl out Hdelim Hbl.
  - cbn [bin2hexstr_loop]. by rewrite hexstr2bin_digits.
  - rewrite bin2hexstr_loop_cons2, hexstr2bin_digits, bool_decide_false by done. cbn [length app] in *.
    rewrite (proj2 (Z.eqb_neq (bl - 1) 0)) by lia.
    replace (delimiter_step req cand true delim d) with (Some (true, d, true)).
    + rewrite IH by (auto; lia). by rewrite <- app_assoc.
    + unfold delimiter_step. destruct Hdelim as [->| ->].
      * by rewrite bool_decide_false, bool_decide_true, Hc by done.
      * by rewrite bool_decide_true.
Qed.

Lemma decode_plain cand u : no_hex_candidates cand ->
  forall l v has bl out, Z.of_nat (length (v :: l)) <= bl ->
  hexstr2bin_loop false cand has x00 bl (bin2hexstr_loop x00 u (v :: l)) out = (out ++ v :: l, true).
Proof.
  intros Hc. induction l as [|w l IH]; intros v has bl out Hbl.
  - cbn [bin2hexstr_loop]. by rewrite hexstr2bin_digits.
  - rewrite bin2hexstr_loop_cons2, hexstr2bin_digits, bool_decide_true by done. cbn [length app] in *.
    destruct (nibbles w) as (Hw & _). rewrite (proj2 (Z.eqb_neq (bl - 1) 0)) by lia.
    destruct (bin2hexstr_loop x00 u (w :: l)) as [|c s] eqn:Es; [done|].
    assert (c = hex_lookup u (Z.shiftr (b2z w) 4)) as -> by (cbn in Es; congruence).
    replace (delimiter_step false cand has x00 (hex_lookup u (Z.shiftr (b2z w) 4))) with (Some (false, x00, false)).
    + rewrite <- Es, IH by lia. by rewrite <- app_assoc.
    + unfold delimiter_step. destruct has; [|done].
      by rewrite bool_decide_false, bool_decide_true, lookup_no_candidate by (done || by apply lookup_not_nul).
Qed.

Lemma skip_0x_hex d u v l : skip_0x (bin2hexstr_loop d u (v :: l)) = bin2hexstr_loop d u (v :: l).
Proof.
  cbn [bin2hexstr_loop skip_0x]. destruct (nibbles v) as (_ & H & _).
  rewrite (bool_decide_false (hex_lookup u (Z.land (b2z v) 15) = x78)).
  - by rewrite andb_false_r.
  - intros E. pose proof (hexchar_lookup u _ H) as Hx. rewrite E in Hx. cbn in Hx. lia.
Qed.

Lemma decode_encode v l u delimiter req cand bl :
  readable delimiter req cand -> Z.of_nat (length (v :: l)) <= bl ->
  hexstr2bin_loop req cand true x00 bl (bin2hexstr_loop delimiter u (v :: l)) [] = (v :: l, true).
Proof.
  intros [(-> & -> & Hc)|[Hd Hc]] Hbl.
  - by rewrite decode_plain.
  - rewrite decode_delimited; auto.
Qed.

(** what nm_utils_bin2hexstr_full() writes, upper or lower case, with or
    without a delimiter, nm_utils_hexstr2bin_full() and
    nm_utils_hexstr2bin_alloc() read back, with or without a prefix allowed, into
    any buffer that holds the bytes. *)
Theorem hexstr_roundtrip l u delimiter a0x req cand required_len buffer_len :
  l <> [] -> readable delimiter req cand ->
  required_len = 0 \/ required_len = Z.of_nat (length l) -> Z.of_nat (length l) <= buffer_len ->
  (nm_utils_hexstr2bin_full (nm_utils_bin2hexstr_full l delimiter u) a0x req cand required_len buffer_len).2 = Some l /\
  nm_utils_hexstr2bin_alloc (nm_utils_bin2hexstr_full l delimiter u) a0x req cand required_len = Some l.
Proof.
  intros Hne Hr Hq Hb. destruct l as [|v l]; [done|].
  assert (Hfull : forall a bl, Z.of_nat (length (v :: l)) <= bl ->
    (nm_utils_hexstr2bin_full (bin2hexstr_loop delimiter u (v :: l)) a req cand required_len bl).2 = Some (v :: l)).
  { intros a bl Hbl. unfold nm_utils_hexstr2bin_full. rewrite skip_0x_hex.
    replace (if a then _ else _) with (bin2hexstr_loop delimiter u (v :: l)) by by destruct a.
    rewrite decode_encode by done. cbn [snd].
    assert ((required_len =? 0) || (Z.of_nat (length (v :: l)) =? required_len) = true) as -> by lia. done. }
  split; [by apply Hfull|]. unfold nm_utils_hexstr2bin_alloc, nm_utils_bin2hexstr_full.
  rewrite skip_0x_hex. replace (if a0x then _ else _) with (bin2hexstr_loop delimiter u (v :: l)) by by destruct a0x.
  destruct (bin2hexstr_loop delimiter u (v :: l)) as [|c s] eqn:E; [done|]. apply Hfull. rewrite <- E. clear Hfull E.
  pose proof (bin2hexstr_loop_length delimiter u v l) as Hlen.
  destruct Hq as [->| ->]; [|destruct (0 <? _) eqn:?; bools; cbn [length] in *; lia]. rewrite Z.ltb_irrefl.
  destruct (bool_decide _); Z.div_mod_to_equations; cbn [length] in *; lia.
Qed.

(** ** Concrete instances *)

Lemma hexstr2bin_full_safe_witness :
  Z.of_nat (length (nm_utils_hexstr2bin_full (bs "aa:b:cc:dd") false false (Some (bs ":-")) 0 3).1) <= 3.
Proof.
  pose proof (hexstr2bin_full_safe (bs "aa:b:cc:dd") false false (Some (bs ":-")) 0 3 eq_refl) as H.
  destruct (nm_utils_hexstr2bin_full _ _ _ _ _ _) as [w r]. exact (proj1 H).
Defined.

Lemma hexstr_roundtrip_witness :
  nm_utils_hexstr2bin_alloc (nm_utils_bin2hexstr_full [xde; xad; x0b] x3a true) true true (Some (bs ":-")) 3
  = Some [xde; xad; x0b].
Proof.
  apply (hexstr_roundtrip [xde; xad; x0b] true x3a true true (Some (bs ":-")) 3 3).
  - discriminate.
  - right. split; [discriminate|reflexivity].
  - right. reflexivity.
  - reflexivity.
Defined.
