(* ===== verification/Utf8Safe.v ===== *)
(** * Utf8Safe: backslash escaping of arbitrary bytes

    Models _str_append_escape(), nm_utils_buf_utf8safe_unescape(),
    nm_utils_buf_utf8safe_escape() and nm_utils_str_utf8safe_escape() of
    src/NetworkManager/shared/nm-glib-aux/nm-shared-utils.c.  UTF-8 validation
    is GLib's: a function that gives the length of the valid prefix.  Whether
    char is signed is a parameter, since the code compares a char with a space. *)

From S2P Require Import Bytes GLib.

(** ** Data *)

Definition NM_UTILS_STR_UTF8_SAFE_FLAG_ESCAPE_CTRL : Z := 1.
Definition NM_UTILS_STR_UTF8_SAFE_FLAG_ESCAPE_NON_ASCII : Z := 2.

Definition backslash : byte := x5c.

(** ** Operations *)

Definition _str_append_escape (b : byte) : list byte :=
  [backslash;
   z2b (48 + Z.land (Z.shiftr (b2z b) 6) 7);
   z2b (48 + Z.land (Z.shiftr (b2z b) 3) 7);
   z2b (48 + Z.land (b2z b) 7)].

Definition is_digit_upto (hi : Z) (b : byte) : bool := (48 <=? b2z b) && (b2z b <=? hi).

Definition unescape_letter (ch : byte) : byte :=
  if bool_decide (ch = x62) then x08       (* b *)
  else if bool_decide (ch = x66) then x0c  (* f *)
  else if bool_decide (ch = x6e) then x0a  (* n *)
  else if bool_decide (ch = x72) then x0d  (* r *)
  else if bool_decide (ch = x74) then x09  (* t *)
  else if bool_decide (ch = x76) then x0b  (* v *)
  else ch.

(** nm_utils_buf_utf8safe_unescape() of a C string; the chunks between two
    backslashes, which the code copies at once, are copied byte by byte. *)
Fixpoint nm_utils_buf_utf8safe_unescape (str : list byte) : list byte :=
  match str with
  | [] => []
  | c :: str1 =>
      if negb (bool_decide (c = backslash)) then c :: nm_utils_buf_utf8safe_unescape str1
      else
        match str1 with
        | [] => []
        | ch :: str2 =>
            if is_digit_upto 57 ch then
              let v := b2z ch - 48 in
              match str2 with
              | ch2 :: str3 =>
                  if is_digit_upto 55 ch2 then
                    let v := v * 8 + (b2z ch2 - 48) in
                    match str3 with
                    | ch3 :: str4 =>
                        if is_digit_upto 55 ch3
                        then z2b (v * 8 + (b2z ch3 - 48)) :: nm_utils_buf_utf8safe_unescape str4
                        else z2b v :: nm_utils_buf_utf8safe_unescape str3
                    | [] => [z2b v]
                    end
                  else z2b v :: nm_utils_buf_utf8safe_unescape str2
              | [] => [z2b v]
              end
            else unescape_letter ch :: nm_utils_buf_utf8safe_unescape str2
        end
  end.

Section escape.
Context `{GUtf8, CharSign}.

(** The characters of a valid sequence that are escaped by the flags. *)
Definition escape_by_flags (flags : Z) (ch : byte) : bool :=
  (NM_FLAGS_HAS flags NM_UTILS_STR_UTF8_SAFE_FLAG_ESCAPE_CTRL && (char_val ch <? 32))
  || (NM_FLAGS_HAS flags NM_UTILS_STR_UTF8_SAFE_FLAG_ESCAPE_NON_ASCII && (127 <=? b2z ch)).

Definition escape_char (flags : Z) (ch : byte) : list byte :=
  if bool_decide (ch = backslash) then [backslash; backslash]
  else if escape_by_flags flags ch then _str_append_escape ch
  else [ch].

(** The do-while loop: a valid prefix, one invalid byte, and again. *)
Fixpoint escape_loop (fuel : nat) (flags : Z) (s : list byte) : option (list byte) :=
  match fuel with
  | O => None
  | S fuel =>
      let p := utf8_validate s in
      let copied := concat (map (escape_char flags) (take p s)) in
      match drop p s with
      | [] => Some copied
      | [c] => Some (copied ++ _str_append_escape c)
      | c :: rest =>
          tail ← escape_loop fuel flags rest;
          Some (copied ++ _str_append_escape c ++ tail)
      end
  end.

(** [None] for NULL: an empty buffer of known length. *)
Definition nm_utils_buf_utf8safe_escape (nul_terminated : bool) (flags : Z) (str : list byte)
    : option (list byte) :=
  match str with
  | [] => if nul_terminated then Some [] else None
  | _ :: _ =>
      if (Nat.eqb (utf8_validate str) (length str)) && nul_terminated
         && negb (existsb (fun ch => bool_decide (ch = backslash) || escape_by_flags flags ch) str)
      then Some str
      else escape_loop (S (length str)) flags str
  end.

Definition nm_utils_str_utf8safe_escape (flags : Z) (str : list byte) : option (list byte) :=
  nm_utils_buf_utf8safe_escape true flags str.
End escape.

(** ** Specification *)

Definition octal_digit (k : Z) (b : byte) : byte := z2b (48 + Z.land (Z.shiftr (b2z b) k) 7).

Definition printable (b : byte) : Prop := 32 <= b2z b < 127.


(** ** Lemmas *)

(** Tests over one byte, by evaluation. *)
Lemma octal_digit_range k b : is_digit_upto 55 (octal_digit k b) = true.
Proof.
  unfold octal_digit. pose proof (Z.land_nonneg (Z.shiftr (b2z b) k) 7) as Hn.
  change 7 with (Z.ones 3) in *. rewrite Z.land_ones in * by lia.
  pose proof (Z.mod_pos_bound (Z.shiftr (b2z b) k) (2 ^ 3)).
  unfold is_digit_upto. rewrite b2z_z2b, (Z.mod_small _ 256) by lia. lia.
Qed.

Lemma octal_value b :
  z2b (((b2z (octal_digit 6 b) - 48) * 8 + (b2z (octal_digit 3 b) - 48)) * 8 + (b2z (octal_digit 0 b) - 48)) = b.
Proof.
  apply (proj1 (bool_decide_eq_true _)).
  refine (forall_byte (fun b => bool_decide (z2b (((b2z (octal_digit 6 b) - 48) * 8
    + (b2z (octal_digit 3 b) - 48)) * 8 + (b2z (octal_digit 0 b) - 48)) = b)) _ b).
  vm_compute. done.
Qed.

Lemma unescape_octal b rest :
  nm_utils_buf_utf8safe_unescape (_str_append_escape b ++ rest) = b :: nm_utils_buf_utf8safe_unescape rest.
Proof.
  change (_str_append_escape b) with [backslash; octal_digit 6 b; octal_digit 3 b; octal_digit 0 b].
  cbn [app nm_utils_buf_utf8safe_unescape]. rewrite bool_decide_true by done. cbn [negb].
  assert (is_digit_upto 57 (octal_digit 6 b) = true) as ->.
  { pose proof (octal_digit_range 6 b). unfold is_digit_upto in *. lia. }
  by rewrite !octal_digit_range, octal_value.
Qed.

Lemma escape_bytes b ch : b ∈ _str_append_escape ch -> printable b.
Proof.
  change (_str_append_escape ch) with [backslash; octal_digit 6 ch; octal_digit 3 ch; octal_digit 0 ch].
  intros H. rewrite !elem_of_cons in H.
  assert (Hd : forall k, printable (octal_digit k ch)).
  { intros k. pose proof (octal_digit_range k ch) as Hr. unfold is_digit_upto, printable in *. lia. }
  destruct H as [->|[->|[->|[->|H%elem_of_nil]]]]; done.
Qed.

Section escape_lemmas.
Context `{HU : GUtf8, HC : CharSign}.

Lemma unescape_escape_char flags ch rest :
  nm_utils_buf_utf8safe_unescape (escape_char flags ch ++ rest) = ch :: nm_utils_buf_utf8safe_unescape rest.
Proof.
  unfold escape_char. case_bool_decide as E; [by rewrite E|].
  destruct (escape_by_flags flags ch); [apply unescape_octal|].
  cbn. by rewrite bool_decide_false.
Qed.

Lemma unescape_escape_chars flags s rest :
  nm_utils_buf_utf8safe_unescape (concat (map (escape_char flags) s) ++ rest)
  = s ++ nm_utils_buf_utf8safe_unescape rest.
Proof.
  induction s as [|c s IH]; [done|]. cbn [map concat app]. by rewrite <- app_assoc, unescape_escape_char, IH.
Qed.

Lemma escape_loop_unescape fuel : forall flags s out,
  escape_loop fuel flags s = Some out -> nm_utils_buf_utf8safe_unescape out = s.
Proof.
  induction fuel as [|fuel IH]; intros flags s out; cbn [escape_loop]; [done|].
  rewrite <- (take_drop (utf8_validate s) s) at 3.
  destruct (drop (utf8_validate s) s) as [|c [|c2 rest]].
  - intros [= <-]. rewrite <- (app_nil_r (concat _)), unescape_escape_chars. done.
  - intros [= <-]. rewrite unescape_escape_chars. f_equal.
    rewrite <- (app_nil_r (_str_append_escape c)). by rewrite unescape_octal.
  - destruct (escape_loop fuel flags (c2 :: rest)) as [tail|] eqn:E; cbn; [|done]. intros [= <-].
    rewrite unescape_escape_chars. change (?a :: ?b :: ?c :: ?d :: tail) with ([a; b; c; d] ++ tail).
    fold (_str_append_escape c). rewrite unescape_octal. by rewrite (IH _ _ _ E).
Qed.

Lemma escape_loop_total fuel : forall flags s, (length s < fuel)%nat -> is_Some (escape_loop fuel flags s).
Proof.
  induction fuel as [|fuel IH]; intros flags s Hs; [lia|]. cbn.
  destruct (drop (utf8_validate s) s) as [|c [|c2 rest]] eqn:E; [by eauto..|].
  destruct (IH flags (c2 :: rest)) as [tail ->].
  - apply (f_equal length) in E. rewrite length_drop in E. cbn in *. lia.
  - cbn. eauto.
Qed.

Lemma escape_spec nt flags s :
  s <> [] -> exists out, nm_utils_buf_utf8safe_escape nt flags s = Some out /\
  (out = s /\ forallb (fun ch => negb (bool_decide (ch = backslash) || escape_by_flags flags ch)) s = true
   \/ escape_loop (S (length s)) flags s = Some out).
Proof.
  intros Hs. unfold nm_utils_buf_utf8safe_escape. destruct s as [|c s]; [done|].
  destruct (_ && _ && negb _) eqn:E.
  - exists (c :: s). split; [done|]. left. split; [done|]. apply andb_true_iff in E as [_ E].
    rewrite negb_true_iff in E. apply forallb_Forall_true, Forall_forall. intros x Hx.
    apply negb_true_iff, not_true_is_false. intros Ht. apply not_true_iff_false in E. apply E.
    apply List.existsb_exists. exists x. by rewrite <- list_elem_of_In.
  - destruct (escape_loop_total (S (length (c :: s))) flags (c :: s)) as [out Ho]; [lia|]. eauto.
Qed.

Lemma unescape_plain s :
  Forall (fun ch => ch <> backslash) s -> nm_utils_buf_utf8safe_unescape s = s.
Proof.
  induction 1 as [|c s Hc _ IH]; [done|]. cbn. rewrite bool_decide_false by done. cbn. by rewrite IH.
Qed.

(** C38: nm_utils_buf_utf8safe_escape() never fails on a buffer with content,
    and nm_utils_buf_utf8safe_unescape() gives the buffer back: any bytes, NUL
    and invalid UTF-8 included, any flags, any notion of valid UTF-8, signed or
    unsigned char. *)
Theorem utf8safe_roundtrip nul_terminated flags s :
  s <> [] ->
  exists out, nm_utils_buf_utf8safe_escape nul_terminated flags s = Some out /\
              nm_utils_buf_utf8safe_unescape out = s.
Proof.
  intros Hs. destruct (escape_spec nul_terminated flags s Hs) as (out & Ho & [[-> Hp]|Hl]); exists out || exists s.
  - split; [done|]. apply unescape_plain. apply forallb_Forall_true in Hp. eapply Forall_impl; [exact Hp|].
    intros ch Hch ->. cbn in Hch. by rewrite bool_decide_true in Hch.
  - split; [done|]. by eapply escape_loop_unescape.
Qed.

(** The bytes of an escaped buffer: those that were copied, and ASCII. *)
Lemma escape_char_bytes flags ch b :
  b ∈ escape_char flags ch -> printable b \/ b = ch /\ escape_by_flags flags ch = false.
Proof.
  unfold escape_char. case_bool_decide as E; [|destruct (escape_by_flags flags ch) eqn:Ef].
  - intros H. left. rewrite !elem_of_cons in H. destruct H as [->|[->|H%elem_of_nil]]; done.
  - intros H. left. by apply escape_bytes in H.
  - intros H%list_elem_of_singleton. by right.
Qed.

Lemma escape_loop_bytes `{!GUtf8Ok} fuel : forall flags s out b,
  escape_loop fuel flags s = Some out -> b ∈ out ->
  printable b \/ b <> x00 /\ b ∈ s /\ escape_by_flags flags b = false.
Proof.
  induction fuel as [|fuel IH]; intros flags s out b; cbn [escape_loop]; [done|].
  pose proof (take_drop (utf8_validate s) s) as Hs. pose proof (utf8_validate_nul s) as Hnul.
  set (v := take (utf8_validate s) s) in *.
  assert (Hv : b ∈ concat (map (escape_char flags) v) ->
    printable b \/ b <> x00 /\ b ∈ s /\ escape_by_flags flags b = false).
  { intros Hb%list_elem_of_In. apply List.in_concat in Hb as (e & He & Hb).
    apply List.in_map_iff in He as (ch & <- & Hch%list_elem_of_In). apply list_elem_of_In in Hb.
    destruct (escape_char_bytes _ _ _ Hb) as [?|[-> ?]]; [by left|right].
    split_and!; [by intros ->|rewrite <- Hs; apply elem_of_app; by left|done]. }
  destruct (drop (utf8_validate s) s) as [|c [|c2 rest]].
  - by intros [= <-].
  - intros [= <-] Hb. apply elem_of_app in Hb as [Hb|Hb]; [auto|]. left. by apply (escape_bytes _ c).
  - destruct (escape_loop fuel flags (c2 :: rest)) as [tail|] eqn:E; cbn -[_str_append_escape]; [|done].
    intros [= <-] Hb. apply elem_of_app in Hb as [Hb|Hb]; [auto|].
    change (b ∈ _str_append_escape c ++ tail) in Hb.
    apply elem_of_app in Hb as [Hb|Hb]; [left; by apply (escape_bytes _ c)|].
    destruct (IH _ _ _ _ E Hb) as [?|(? & ? & ?)]; [by left|right].
    split_and!; [done| |done]. rewrite <- Hs. apply elem_of_app. right. by apply elem_of_cons; right.
Qed.

(** an escaped buffer is a C string: it has no NUL byte, whatever the input
    (a string that is returned as it is had none); and with both flags it is
    printable ASCII. *)
Theorem utf8safe_escape_clean `{!GUtf8Ok} nul_terminated flags s out b :
  (nul_terminated = true -> x00 ∉ s) ->
  nm_utils_buf_utf8safe_escape nul_terminated flags s = Some out -> b ∈ out ->
  b <> x00 /\ (NM_FLAGS_HAS flags 1 = true -> NM_FLAGS_HAS flags 2 = true -> printable b).
Proof.
  intros Hnul Ho Hb. destruct (decide (s = [])) as [->|Hs].
  { destruct nul_terminated; cbn in Ho; simplify_eq. by apply elem_of_nil in Hb. }
  assert (Hcase : printable b \/ b <> x00 /\ escape_by_flags flags b = false).
  { destruct (escape_spec nul_terminated flags s Hs) as (out' & Ho' & Hcases).
    assert (out' = out) as -> by congruence. clear Ho'. destruct Hcases as [[-> Hp]|Hl].
    - apply forallb_Forall_true in Hp. rewrite Forall_forall in Hp. specialize (Hp b Hb). cbn in Hp.
      apply negb_true_iff, orb_false_iff in Hp as [_ Hp].
      destruct nul_terminated; [right; split; [intros ->; by apply Hnul|done]|].
      assert (Hl : escape_loop (S (length s)) flags s = Some s).
      { unfold nm_utils_buf_utf8safe_escape in Ho. destruct s; [done|]. by rewrite andb_false_r in Ho. }
      destruct (escape_loop_bytes _ _ _ _ _ Hl Hb) as [?|(? & _ & ?)]; auto.
    - destruct (escape_loop_bytes _ _ _ _ _ Hl Hb) as [?|(? & _ & ?)]; auto. }
  destruct Hcase as [Hp|[Hn He]].
  - split; [intros ->; by vm_compute in Hp; destruct Hp|done].
  - split; [done|]. intros Hc Ha. unfold escape_by_flags in He.
    unfold NM_UTILS_STR_UTF8_SAFE_FLAG_ESCAPE_CTRL, NM_UTILS_STR_UTF8_SAFE_FLAG_ESCAPE_NON_ASCII in He.
    rewrite Hc, Ha, !andb_true_l in He. unfold printable, char_val in *. pose proof (b2z_range b). destruct char_signed; code_cases; lia.
Qed.

(** "valid UTF-8 characters are not escaped at all" holds for the control
    flag alone only where char is unsigned: where it is signed, every byte of a
    non-ASCII character compares below a space and is escaped. *)
Theorem escape_ctrl_non_ascii ch :
  128 <= b2z ch ->
  escape_char NM_UTILS_STR_UTF8_SAFE_FLAG_ESCAPE_CTRL ch =
  (if char_signed then _str_append_escape ch else [ch]).
Proof.
  intros Hch. pose proof (b2z_range ch). unfold escape_char, escape_by_flags, char_val.
  rewrite bool_decide_false by (intros ->; change (b2z backslash) with 92 in Hch; lia).
  change (NM_FLAGS_HAS _ _) with true at 1.
  change (NM_FLAGS_HAS NM_UTILS_STR_UTF8_SAFE_FLAG_ESCAPE_CTRL NM_UTILS_STR_UTF8_SAFE_FLAG_ESCAPE_NON_ASCII) with false.
  destruct char_signed; cbn -[_str_append_escape]; code_cases; try done; lia.
Qed.
End escape_lemmas.

(** ** Concrete instances *)

Lemma utf8safe_roundtrip_witness :
  exists out, @nm_utils_buf_utf8safe_escape sample_utf8 true false 1 [x41; x00; xff; x5c; x37] = Some out /\
  nm_utils_buf_utf8safe_unescape out = [x41; x00; xff; x5c; x37].
Proof. apply (@utf8safe_roundtrip sample_utf8 true false 1 [x41; x00; xff; x5c; x37]). discriminate. Defined.

Lemma utf8safe_escape_clean_witness : printable x34.
Proof.
  apply (@utf8safe_escape_clean sample_utf8 true sample_utf8_ok false 3 [x41; x00; x04]
    (bs "A\000\004") x34).
  - discriminate.
  - reflexivity.
  - apply (bool_decide_unpack _). vm_compute. done.
  - reflexivity.
  - reflexivity.
Defined.

Lemma escape_ctrl_non_ascii_witness :
  @escape_char true NM_UTILS_STR_UTF8_SAFE_FLAG_ESCAPE_CTRL xc3 = bs "\303".
Proof. apply (@escape_ctrl_non_ascii true xc3). vm_compute. discriminate. Defined.
