(* ===== verification/ShQuote.v ===== *)
(** * ShQuote: shell quoting of ifcfg-rh values

    Models the string half of
    src/NetworkManager/src/settings/plugins/ifcfg-rh/shvar.c: svParseBoolean(),
    _shell_is_name(), svEscape() and svUnescape() with their helpers.  C strings
    are lists of bytes without their NUL; reading at the end of a list gives
    NUL.  svUnescape() keeps an index [i] into the value and a GString [str]
    that exists only once something had to be unescaped; here the index is a
    split of the value, [consumed] and [rest]. *)

From S2P Require Import Bytes GLib.

(** ** Characters *)

Abbreviation DQUOTE := x22 (only parsing).
Abbreviation SQUOTE := x27 (only parsing).
Abbreviation BACKSLASH := x5c (only parsing).
Abbreviation DOLLAR := x24 (only parsing).
Abbreviation BACKTICK := x60 (only parsing).
Abbreviation TILDE := x7e (only parsing).
Abbreviation UNDERSCORE := x5f (only parsing).
Abbreviation SEMICOLON := x3b (only parsing).
Abbreviation NEWLINE := x0a (only parsing).

(** What a caller reads of a buffer used as a C string. *)
Definition c_str (l : list byte) : list byte := take_while (fun b => negb (bool_decide (b = x00))) l.

Definition _char_req_escape (ch : byte) : bool := byte_in ch [DQUOTE; BACKSLASH; DOLLAR; BACKTICK].
Definition _char_req_escape_old (ch : byte) : bool :=
  byte_in ch [DQUOTE; BACKSLASH; SQUOTE; DOLLAR; BACKTICK; TILDE].
(** space ' ~ tab | & ; ( ) < > *)
Definition _char_req_quotes (ch : byte) : bool :=
  byte_in ch [x20; SQUOTE; TILDE; x09; x7c; x26; SEMICOLON; x28; x29; x3c; x3e].

#[global] Arguments _char_req_escape : simpl never.
#[global] Arguments _char_req_escape_old : simpl never.
#[global] Arguments _char_req_quotes : simpl never.

Section shell.
Context `{GLibAscii, CharSign, GUnichar}.

Definition svParseBoolean (value : option (list byte)) (fallback : Z) : Z :=
  match value with
  | None => fallback
  | Some value =>
      if existsb (fun s => g_ascii_strcaseeq s value) [bs "yes"; bs "true"; bs "t"; bs "y"; bs "1"] then 1
      else if existsb (fun s => g_ascii_strcaseeq s value) [bs "no"; bs "false"; bs "f"; bs "n"; bs "0"] then 0
      else fallback
  end.

Definition _shell_is_name (key : list byte) : bool :=
  match key with
  | [] => false
  | c :: rest =>
      (g_ascii_isalpha c || bool_decide (c = UNDERSCORE))
      && forallb (fun c => g_ascii_isalnum c || bool_decide (c = UNDERSCORE)) rest
  end.

(** ** Escaping *)

(** The shifts are of a char promoted to int: arithmetic on a negative value. *)
Definition escape_ansic_char (p : byte) : list byte :=
  if bool_decide (p = x08) then [BACKSLASH; x62]
  else if bool_decide (p = x0c) then [BACKSLASH; x66]
  else if bool_decide (p = x0a) then [BACKSLASH; x6e]
  else if bool_decide (p = x0d) then [BACKSLASH; x72]
  else if bool_decide (p = x09) then [BACKSLASH; x74]
  else if bool_decide (p = x0b) then [BACKSLASH; x76]
  else if byte_in p [BACKSLASH; DQUOTE; SQUOTE] then [BACKSLASH; p]
  else if (char_val p <? 32) || (127 <=? char_val p) then
    [BACKSLASH;
     z2b (48 + Z.land (Z.shiftr (char_val p) 6) 7);
     z2b (48 + Z.land (Z.shiftr (char_val p) 3) 7);
     z2b (48 + Z.land (char_val p) 7)]
  else [p].

Definition _escape_ansic (source : list byte) : list byte :=
  [DOLLAR; SQUOTE] ++ concat (map escape_ansic_char source) ++ [SQUOTE].

(** The scan of svEscape(): [None] when ANSI-C quotation is needed, else
    mangle and requires_quotes. *)
Fixpoint escape_scan (s : list byte) (mangle : Z) (requires_quotes : bool) : option (Z * bool) :=
  match s with
  | [] => Some (mangle, requires_quotes)
  | c :: s' =>
      if _char_req_escape c then escape_scan s' (mangle + 1) requires_quotes
      else if _char_req_quotes c then escape_scan s' mangle true
      else if char_val c <? 32 then None
      else escape_scan s' mangle requires_quotes
  end.

Definition svEscape (s : list byte) : list byte :=
  match escape_scan s 0 false with
  | None => _escape_ansic s
  | Some (mangle, requires_quotes) =>
      if (mangle =? 0) && negb requires_quotes then s
      else
        [DQUOTE]
        ++ concat (map (fun c => if _char_req_escape c then [BACKSLASH; c] else [c]) s)
        ++ [DQUOTE]
  end.

(** The sizes of the buffers, NUL included. *)
Definition escape_ansic_alloc (source : list byte) : Z := Z.of_nat (length source) * 4 + 1 + 3.

(** ** Unescaping *)

(** The loop of _looks_like_old_svescaped() after the opening quote. *)
Fixpoint looks_like_old_loop (value : list byte) : bool :=
  match value with
  | [] => false
  | c :: rest =>
      if negb (_char_req_escape_old c) then looks_like_old_loop rest
      else if bool_decide (c = DQUOTE) then bool_decide (rest = [])
      else if bool_decide (c = BACKSLASH) then
        match rest with
        | [] => false
        | d :: rest' => if negb (_char_req_escape_old d) then false else looks_like_old_loop rest'
        end
      else false
  end.

Definition _looks_like_old_svescaped (value : list byte) : bool :=
  match value with
  | c :: rest => if bool_decide (c = DQUOTE) then looks_like_old_loop rest else false
  | [] => false
  end.

Definition _ch_octal_is (ch : byte) : bool := (48 <=? char_val ch) && (char_val ch <? 56).
Definition _ch_octal_get (ch : byte) : Z := u8 (char_val ch - 48).
Definition _ch_hex_is (ch : byte) : bool := g_ascii_isxdigit ch.
Definition _ch_hex_get (ch : byte) : Z :=
  if char_val ch <=? 57 then u8 (char_val ch - 48) else u8 (Z.land (char_val ch) 79 - 65 + 10).

(** The rest of a value that starts with a space or a semicolon: spaces, at
    most one semicolon, then the end or a comment. *)
Fixpoint trailing_ok (has_semicolon : bool) (rest : list byte) : bool :=
  match rest with
  | [] => true
  | c :: rest' =>
      if g_ascii_isspace c then trailing_ok has_semicolon rest'
      else if negb has_semicolon && bool_decide (c = SEMICOLON) then trailing_ok true rest'
      else bool_decide (c = x23)
  end.

(** Inside single quotes: what is quoted, and the rest after the closing one. *)
Fixpoint single_quote_loop (rest quoted : list byte) : option (list byte * list byte) :=
  match rest with
  | [] => None
  | c :: rest' =>
      if bool_decide (c = SQUOTE) then Some (quoted, rest') else single_quote_loop rest' (quoted ++ [c])
  end.

(** Inside double quotes; [None] for out_error. *)
Fixpoint double_quote_loop (looks_like_old_svescaped : bool) (rest str : list byte)
    : option (list byte * list byte) :=
  match rest with
  | [] => None
  | c :: rest' =>
      if bool_decide (c = DQUOTE) then Some (str, rest')
      else if byte_in c [BACKTICK; DOLLAR] then None
      else if bool_decide (c = BACKSLASH) then
        match rest' with
        | [] => None
        | d :: rest'' =>
            let kept :=
              if byte_in d [DOLLAR; BACKTICK; DQUOTE; BACKSLASH] then []
              else if byte_in d [SQUOTE; TILDE] then
                if looks_like_old_svescaped then [] else [BACKSLASH]
              else [BACKSLASH] in
            double_quote_loop looks_like_old_svescaped rest'' (str ++ kept ++ [d])
        end
      else double_quote_loop looks_like_old_svescaped rest' (str ++ [c])
  end.

(** The single-letter escapes of ANSI-C quoting. *)
Definition ansic_letter (c : byte) : option byte :=
  if bool_decide (c = x61) then Some x07
  else if bool_decide (c = x62) then Some x08
  else if byte_in c [x65; x45] then Some x1b
  else if bool_decide (c = x66) then Some x0c
  else if bool_decide (c = x6e) then Some x0a
  else if bool_decide (c = x72) then Some x0d
  else if bool_decide (c = x74) then Some x09
  else if bool_decide (c = x76) then Some x0b
  else if byte_in c [x3f; DQUOTE; BACKSLASH; SQUOTE] then Some c
  else None.

(** Up to [max_digits] more octal or hexadecimal digits. *)
Fixpoint octal_digits (max_digits : nat) (v : Z) (rest : list byte) : Z * list byte :=
  match max_digits, rest with
  | S n, c :: rest' => if _ch_octal_is c then octal_digits n (v * 8 + _ch_octal_get c) rest' else (v, rest)
  | _, _ => (v, rest)
  end.

Fixpoint hex_digits (max_digits : nat) (v : Z) (rest : list byte) : Z * list byte :=
  match max_digits, rest with
  | S n, c :: rest' => if _ch_hex_is c then hex_digits n (u64 (v * 16 + _ch_hex_get c)) rest' else (v, rest)
  | _, _ => (v, rest)
  end.

(** The escape after a backslash: what is appended, and the rest. *)
Definition ansic_escape (c : byte) (rest : list byte) : list byte * list byte :=
  match ansic_letter c with
  | Some ch => ([ch], rest)
  | None =>
      if _ch_octal_is c then
        let '(v, rest') := octal_digits 2 (_ch_octal_get c) rest in ([z2b v], rest')
      else if byte_in c [x78; x75; x55] then
        let max_digits := if bool_decide (c = x78) then 2%nat else if bool_decide (c = x75) then 4%nat else 8%nat in
        match rest with
        | d :: rest' =>
            if _ch_hex_is d then
              let '(v, rest'') := hex_digits (max_digits - 1) (_ch_hex_get d) rest' in
              (if bool_decide (c = x78) then [z2b v] else unichar_to_utf8 (u32 v), rest'')
            else ([BACKSLASH; c], rest)
        | [] => ([BACKSLASH; c], rest)
        end
      else ([BACKSLASH; c], rest)
  end.

(** Inside $''.  The outer option is the fuel. *)
Fixpoint ansic_loop (fuel : nat) (rest str : list byte) : option (option (list byte * list byte)) :=
  match fuel with
  | O => None
  | S fuel =>
      match rest with
      | [] => Some None
      | c :: rest' =>
          if bool_decide (c = SQUOTE) then Some (Some (str, rest'))
          else if bool_decide (c = BACKSLASH) then
            match rest' with
            | [] => Some None
            | d :: rest'' =>
                let '(appended, rest3) := ansic_escape d rest'' in
                ansic_loop fuel rest3 (str ++ appended)
            end
          else ansic_loop fuel rest' (str ++ [c])
      end
  end.

Inductive unescape_end :=
| out_value (consumed : list byte) (str : option (list byte))
| out_error.

(** _gstr_init() *)
Definition gstr_init (str : option (list byte)) (consumed : list byte) : list byte := default consumed str.

Fixpoint unescape_loop (fuel : nat) (value consumed rest : list byte) (str : option (list byte))
    : option unescape_end :=
  match fuel with
  | O => None
  | S fuel =>
      match rest with
      | [] => Some (out_value consumed str)
      | c :: rest' =>
          if g_ascii_isspace c || bool_decide (c = SEMICOLON) then
            if trailing_ok (bool_decide (c = SEMICOLON)) rest' then Some (out_value consumed str)
            else Some out_error
          else if bool_decide (c = BACKSLASH) then
            match rest' with
            | [] => Some out_error
            | d :: rest'' =>
                unescape_loop fuel value (consumed ++ [c; d]) rest'' (Some (gstr_init str consumed ++ [d]))
            end
          else if bool_decide (c = SQUOTE) then
            match single_quote_loop rest' [] with
            | None => Some out_error
            | Some (quoted, rest'') =>
                unescape_loop fuel value (take (length value - length rest'') value) rest''
                  (Some (gstr_init str consumed ++ quoted))
            end
          else if bool_decide (c = DQUOTE) then
            match double_quote_loop (_looks_like_old_svescaped value) rest' (gstr_init str consumed) with
            | None => Some out_error
            | Some (str', rest'') =>
                unescape_loop fuel value (take (length value - length rest'') value) rest'' (Some str')
            end
          else if bool_decide (c = DOLLAR) && bool_decide (head rest' = Some SQUOTE) then
            match ansic_loop fuel (tail rest') (gstr_init str consumed) with
            | None => None
            | Some None => Some out_error
            | Some (Some (str', rest'')) =>
                unescape_loop fuel value (take (length value - length rest'') value) rest'' (Some str')
            end
          else if byte_in c [x7c; x26; x28; x29; x3c; x3e] then Some out_error
          else
            unescape_loop fuel value (consumed ++ [c]) rest' ((fun s => s ++ [c]) <$> str)
      end
  end.

(** The returned C string, [None] for NULL; the outer option is the fuel. *)
Definition svUnescape_fuel (fuel : nat) (value : list byte) : option (option (list byte)) :=
  match unescape_loop fuel value [] value None with
  | None => None
  | Some out_error => Some None
  | Some (out_value consumed str) =>
      Some (Some
        (match consumed with
         | [] => []
         | _ :: _ => match str with Some s => c_str s | None => consumed end
         end))
  end.

(** One unit of fuel for each byte is enough ([unescape_fuel_enough]). *)
Definition svUnescape (value : list byte) : option (list byte) :=
  default None (svUnescape_fuel (S (length value)) value).
End shell.

(** ** Specification *)

(** A character svEscape() leaves alone. *)
Definition plain `{CharSign} (c : byte) : bool :=
  negb (_char_req_escape c) && negb (_char_req_quotes c) && negb (char_val c <? 32).

(** None of the characters svUnescape() treats in a special way. *)
Definition regular (c : byte) : bool :=
  negb (byte_in c [x20; x09; x0a; x0c; x0d; SEMICOLON; BACKSLASH; SQUOTE; DQUOTE; DOLLAR;
                   x7c; x26; x28; x29; x3c; x3e]).

Definition quote_char (c : byte) : list byte := if _char_req_escape c then [BACKSLASH; c] else [c].

(** The three shapes of an escaped character, as svUnescape() reads them. *)
Definition ansic_shape `{CharSign} (p : byte) : bool :=
  match escape_ansic_char p with
  | [c] => bool_decide (c = p) && negb (byte_in c [SQUOTE; BACKSLASH])
  | [b; l] => bool_decide (b = BACKSLASH) && bool_decide (ansic_letter l = Some p)
  | [b; o1; o2; o3] =>
      bool_decide (b = BACKSLASH) && bool_decide (ansic_letter o1 = None)
      && _ch_octal_is o1 && _ch_octal_is o2 && _ch_octal_is o3
      && bool_decide (z2b ((_ch_octal_get o1 * 8 + _ch_octal_get o2) * 8 + _ch_octal_get o3) = p)
  | _ => false
  end.

(** The characters that make the scan of svEscape() stop, or ask for quotes. *)
Definition scan_ctrl `{CharSign} (c : byte) : bool :=
  negb (_char_req_escape c) && negb (_char_req_quotes c) && (char_val c <? 32).
Definition scan_quotes (c : byte) : bool := negb (_char_req_escape c) && _char_req_quotes c.

(** ** Termination *)

Section fuel.
Context `{GA : GLibAscii, CS : CharSign, GU : GUnichar}.

Lemma single_quote_shorter rest : forall quoted q rest',
  single_quote_loop rest quoted = Some (q, rest') -> (length rest' < length rest)%nat.
Proof.
  induction rest as [|c rest IH]; intros quoted q rest'; cbn; [done|]. case_bool_decide.
  - intros [= <- <-]. lia.
  - intros ?%IH. lia.
Qed.

Lemma double_quote_shorter old n : forall rest str s rest',
  (length rest <= n)%nat -> double_quote_loop old rest str = Some (s, rest') -> (length rest' < length rest)%nat.
Proof.
  induction n as [|n IH]; intros rest str s rest' Hn; destruct rest as [|c rest];
    cbn [double_quote_loop length] in *; try done; try lia.
  destruct (bool_decide (c = DQUOTE)); [intros [= <- <-]; lia|].
  destruct (byte_in c _); [done|]. destruct (bool_decide (c = BACKSLASH)).
  - destruct rest as [|d rest]; [done|]. cbn [length] in *. intros E. eapply IH in E; lia.
  - intros E. eapply IH in E; lia.
Qed.

Lemma octal_digits_shorter n : forall v rest, (length (octal_digits n v rest).2 <= length rest)%nat.
Proof.
  induction n as [|n IH]; intros v rest; cbn; [lia|]. destruct rest as [|c rest]; cbn; [lia|].
  destruct (_ch_octal_is c); cbn; [|lia]. etransitivity; [apply IH|]. lia.
Qed.

Lemma hex_digits_shorter n : forall v rest, (length (hex_digits n v rest).2 <= length rest)%nat.
Proof.
  induction n as [|n IH]; intros v rest; cbn; [lia|]. destruct rest as [|c rest]; cbn; [lia|].
  destruct (_ch_hex_is c); cbn; [|lia]. etransitivity; [apply IH|]. lia.
Qed.

Lemma ansic_escape_shorter c rest : (length (ansic_escape c rest).2 <= length rest)%nat.
Proof.
  unfold ansic_escape. destruct (ansic_letter c); [cbn; lia|].
  destruct (_ch_octal_is c).
  { pose proof (octal_digits_shorter 2 (_ch_octal_get c) rest) as Hl.
    destruct (octal_digits 2 (_ch_octal_get c) rest). cbn in *. lia. }
  destruct (byte_in c _); [|cbn; lia]. destruct rest as [|d rest]; [cbn; lia|].
  destruct (_ch_hex_is d); [|cbn; lia].
  match goal with |- context [hex_digits ?n ?v rest] =>
    pose proof (hex_digits_shorter n v rest) as Hl; destruct (hex_digits n v rest) end.
  cbn in *. lia.
Qed.

Lemma ansic_loop_total fuel : forall rest str,
  (length rest < fuel)%nat ->
  exists r, ansic_loop fuel rest str = Some r /\
  forall s rest', r = Some (s, rest') -> (length rest' < length rest)%nat.
Proof.
  induction fuel as [|fuel IH]; intros rest str Hf; [lia|].
  destruct rest as [|c rest]; cbn [ansic_loop]; [by exists None|]. cbn in Hf.
  case_bool_decide; [exists (Some (str, rest)); split; [done|]; intros ? ? [= <- <-]; cbn; lia|].
  case_bool_decide.
  - destruct rest as [|d rest]; [by exists None|]. pose proof (ansic_escape_shorter d rest) as Hl.
    destruct (ansic_escape d rest) as [appended rest3]. cbn in *.
    destruct (IH rest3 (str ++ appended)) as (r & -> & Hr); [lia|]. exists r. split; [done|].
    intros s rest' E. apply Hr in E. lia.
  - destruct (IH rest (str ++ [c])) as (r & -> & Hr); [lia|]. exists r. split; [done|].
    intros s rest' E. apply Hr in E. cbn. lia.
Qed.

Lemma unescape_loop_total fuel : forall value consumed rest str,
  (length rest < fuel)%nat -> is_Some (unescape_loop fuel value consumed rest str).
Proof.
  induction fuel as [|fuel IH]; intros value consumed rest str Hf; [lia|].
  destruct rest as [|c rest]; cbn [unescape_loop]; [by eauto|]. cbn in Hf.
  destruct (_ || _); [destruct (trailing_ok _ _); by eauto|].
  destruct (bool_decide (c = BACKSLASH)).
  { destruct rest as [|d rest]; [by eauto|]. apply IH. cbn in Hf. lia. }
  destruct (bool_decide (c = SQUOTE)).
  { destruct (single_quote_loop rest []) as [[q rest']|] eqn:E; [|by eauto].
    apply single_quote_shorter in E. apply IH. lia. }
  destruct (bool_decide (c = DQUOTE)).
  { destruct (double_quote_loop _ rest _) as [[q rest']|] eqn:E; [|by eauto].
    apply (double_quote_shorter _ (length rest)) in E; [|lia]. apply IH. lia. }
  destruct (_ && _) eqn:Ed.
  { destruct rest as [|d rest]; cbn in *; [by rewrite andb_false_r in Ed|].
    destruct (ansic_loop_total fuel rest (gstr_init str consumed)) as (r & -> & Hr); [lia|].
    destruct r as [[s rest']|]; [|by eauto]. apply IH. specialize (Hr s rest' eq_refl). lia. }
  destruct (byte_in _ _); [by eauto|]. apply IH. lia.
Qed.

(** svUnescape() terminates on every value, and one unit of fuel for each
    byte is enough: it always produces a verdict. *)
Theorem unescape_fuel_enough value fuel :
  (length value < fuel)%nat -> is_Some (svUnescape_fuel fuel value).
Proof.
  intros Hf. unfold svUnescape_fuel.
  destruct (unescape_loop_total fuel value [] value None Hf) as [r ->].
  destruct r as [[|? ?] ?|]; by eauto.
Qed.
End fuel.

(** ** Round trip *)

Section roundtrip.
Context `{GA : GLibAscii, !GLibAsciiOk, CS : CharSign, GU : GUnichar}.

(** Facts about single bytes, checked on all of them. *)
Lemma plain_regular c : plain c = true -> regular c = true.
Proof.
  intros Hp. assert (implb (plain c) (regular c) = true) as Hi.
  { clear Hp. revert c. unfold plain, char_val. destruct CS;
      [apply (forall_byte (fun c => implb (@plain true c) (regular c)))
      |apply (forall_byte (fun c => implb (@plain false c) (regular c)))]; by vm_compute. }
  by rewrite Hp in Hi.
Qed.

Lemma byte_in_cons c d l : byte_in c (d :: l) = bool_decide (c = d) || byte_in c l.
Proof.
  unfold byte_in. cbn. f_equal. apply eq_true_iff_eq. rewrite bool_decide_eq_true. split.
  - apply Byte.byte_dec_bl.
  - apply Byte.byte_dec_lb.
Qed.

Lemma regular_step fuel value consumed c rest str : regular c = true ->
  unescape_loop (S fuel) value consumed (c :: rest) str
  = unescape_loop fuel value (consumed ++ [c]) rest ((fun s => s ++ [c]) <$> str).
Proof.
  unfold regular. rewrite !byte_in_cons, negb_true_iff, !orb_false_iff. intros Hr.
  destruct Hr as (H1 & H2 & H3 & H4 & H5 & H6 & H7 & H8 & H9 & H10 & H11 & H12 & H13 & H14 & H15 & H16 & _).
  cbn [unescape_loop]. rewrite g_ascii_isspace_eq, !byte_in_cons.
  rewrite H1, H2, H3, H4, H5, H6, H7, H8, H9, H10, H11, H12, H13, H14, H15, H16. done.
Qed.

Lemma unescape_plain_loop s : forall fuel value consumed,
  forallb plain s = true -> (length s < fuel)%nat ->
  unescape_loop fuel value consumed s None = Some (out_value (consumed ++ s) None).
Proof.
  induction s as [|c s IH]; intros fuel value consumed Hp Hf; (destruct fuel as [|fuel]; [cbn in Hf; lia|]).
  - cbn. by rewrite app_nil_r.
  - cbn in Hp, Hf. apply andb_true_iff in Hp as [Hc Hp].
    rewrite regular_step by by apply plain_regular. cbn. rewrite IH by (done || lia). by rewrite <- app_assoc.
Qed.

Lemma double_quote_char old c rest str :
  double_quote_loop old (quote_char c ++ rest) str = double_quote_loop old rest (str ++ [c]).
Proof.
  unfold quote_char, _char_req_escape. rewrite !byte_in_cons. cbn [byte_in existsb].
  destruct (bool_decide (c = DQUOTE)) eqn:E1; [apply bool_decide_eq_true in E1; by rewrite E1|].
  destruct (bool_decide (c = BACKSLASH)) eqn:E2; [apply bool_decide_eq_true in E2; by rewrite E2|].
  destruct (bool_decide (c = DOLLAR)) eqn:E3; [apply bool_decide_eq_true in E3; by rewrite E3|].
  destruct (bool_decide (c = BACKTICK)) eqn:E4; [apply bool_decide_eq_true in E4; by rewrite E4|].
  cbn [orb app double_quote_loop]. rewrite !byte_in_cons, E1, E2, E3, E4. done.
Qed.

Lemma double_quote_chars old s : forall str,
  double_quote_loop old (concat (map quote_char s) ++ [DQUOTE]) str = Some (str ++ s, []).
Proof.
  induction s as [|c s IH]; intros str; cbn [map concat]; [cbn; by rewrite app_nil_r|].
  rewrite <- app_assoc, double_quote_char, IH, <- app_assoc. done.
Qed.

Lemma ansic_shape_all p : ansic_shape p = true.
Proof.
  revert p. destruct CS;
    [apply (forall_byte (@ansic_shape true))|apply (forall_byte (@ansic_shape false))]; by vm_compute.
Qed.

Lemma ansic_char fuel p rest str :
  ansic_loop (S fuel) (escape_ansic_char p ++ rest) str = ansic_loop fuel rest (str ++ [p]).
Proof.
  pose proof (ansic_shape_all p) as Hs. unfold ansic_shape in Hs.
  destruct (escape_ansic_char p) as [|c1 [|c2 [|c3 [|c4 [|? ?]]]]]; try done; bools; simplify_eq; cbn [app ansic_loop].
  - match goal with H : byte_in _ _ = false |- _ => rewrite !byte_in_cons, !orb_false_iff in H;
      destruct H as (-> & -> & _) end. done.
  - rewrite bool_decide_false, bool_decide_true by done. unfold ansic_escape.
    match goal with H : ansic_letter _ = _ |- _ => rewrite H end. done.
  - rewrite bool_decide_false, bool_decide_true by done. unfold ansic_escape, octal_digits.
    repeat match goal with H : _ = true |- _ => rewrite H | H : ansic_letter _ = _ |- _ => rewrite H end. done.
Qed.

Lemma ansic_chars s : forall fuel str, (length s < fuel)%nat ->
  ansic_loop fuel (concat (map escape_ansic_char s) ++ [SQUOTE]) str = Some (Some (str ++ s, [])).
Proof.
  induction s as [|c s IH]; intros fuel str Hf; (destruct fuel as [|fuel]; [cbn in Hf; lia|]).
  - cbn. by rewrite app_nil_r.
  - cbn [map concat]. cbn in Hf. rewrite <- app_assoc, ansic_char, IH by lia. by rewrite <- app_assoc.
Qed.
Lemma escape_scan_eq s : forall m q,
  escape_scan s m q =
  if existsb scan_ctrl s then None
  else Some (m + Z.of_nat (length (List.filter _char_req_escape s)), q || existsb scan_quotes s).
Proof.
  induction s as [|c s IH]; intros m q; cbn [escape_scan existsb List.filter].
  - rewrite orb_false_r. do 2 f_equal. cbn. lia.
  - unfold scan_ctrl at 1, scan_quotes at 1. destruct (_char_req_escape c); cbn [negb andb orb].
    + rewrite IH. destruct (existsb scan_ctrl s); [done|]. cbn [length]. do 2 f_equal; lia.
    + destruct (_char_req_quotes c); cbn [negb andb orb].
      * rewrite IH. by rewrite orb_true_r.
      * destruct (char_val c <? 32); cbn; [done|]. by rewrite IH.
Qed.

Lemma scan_plain s :
  existsb scan_ctrl s = false -> length (List.filter _char_req_escape s) = 0%nat ->
  existsb scan_quotes s = false -> forallb plain s = true.
Proof.
  unfold scan_ctrl, scan_quotes, plain. induction s as [|c s IH]; cbn; [done|].
  destruct (_char_req_escape c); cbn; [done|]. destruct (_char_req_quotes c); cbn; [done|].
  destruct (char_val c <? 32); cbn; [done|]. done.
Qed.

(** The three results of svEscape(). *)
Lemma svEscape_cases s :
  existsb scan_ctrl s = true /\ svEscape s = _escape_ansic s \/
  existsb scan_ctrl s = false /\
    (forallb plain s = true /\ svEscape s = s
     \/ svEscape s = [DQUOTE] ++ concat (map quote_char s) ++ [DQUOTE]).
Proof.
  unfold svEscape. rewrite escape_scan_eq. destruct (existsb scan_ctrl s) eqn:Ec; [by left|right].
  split; [done|]. rewrite Z.add_0_l, orb_false_l.
  destruct (_ =? 0) eqn:Em; cbn [andb]; [|by right]. destruct (existsb scan_quotes s) eqn:Eq; cbn [negb]; [by right|].
  left. split; [|done]. apply scan_plain; [done|lia|done].
Qed.

Lemma c_str_id s : x00 ∉ s -> c_str s = s.
Proof.
  unfold c_str. induction s as [|c s IH]; cbn; [done|]. intros [Hc Hs]%not_elem_of_cons.
  rewrite bool_decide_false by done. cbn. by rewrite IH.
Qed.

Lemma svUnescape_eq value r :
  unescape_loop (S (length value)) value [] value None = Some r ->
  svUnescape value = match r with
                     | out_error => None
                     | out_value consumed str =>
                         Some (match consumed with
                               | [] => []
                               | _ :: _ => match str with Some s => c_str s | None => consumed end
                               end)
                     end.
Proof. intros Hr. unfold svUnescape, svUnescape_fuel. rewrite Hr. by destruct r. Qed.

Lemma escape_ansic_char_length p : (1 <= length (escape_ansic_char p) <= 4)%nat.
Proof. unfold escape_ansic_char. repeat case_match; cbn; lia. Qed.

Lemma escape_ansic_length s :
  (length s <= length (concat (map escape_ansic_char s)) <= 4 * length s)%nat.
Proof.
  induction s as [|c s IH]; [cbn; lia|]. cbn [map concat length]. rewrite length_app.
  pose proof (escape_ansic_char_length c). lia.
Qed.

Lemma escape_unescape s : x00 ∉ s -> svUnescape (svEscape s) = Some s.
Proof.
  intros Hs. destruct (svEscape_cases s) as [[_ ->]|[_ [[Hp ->]| ->]]].
  - unfold _escape_ansic. cbn [app].
    rewrite (svUnescape_eq _ (out_value (DOLLAR :: SQUOTE :: concat (map escape_ansic_char s) ++ [SQUOTE]) (Some s))).
    + cbv iota. by rewrite c_str_id.
    + pose proof (escape_ansic_length s). cbn [length]. rewrite length_app. cbn [length unescape_loop].
      rewrite g_ascii_isspace_eq. cbn -[ansic_loop unescape_loop take].
      rewrite ansic_chars by lia. rewrite Nat.add_comm. cbn [unescape_loop Nat.add Nat.sub].
      do 2 f_equal. apply firstn_all2. cbn. rewrite length_app. cbn. lia.
  - rewrite (svUnescape_eq _ (out_value s None)); [by destruct s|].
    rewrite (unescape_plain_loop s) by (done || lia). done.
  - cbn [app]. rewrite (svUnescape_eq _ (out_value (DQUOTE :: concat (map quote_char s) ++ [DQUOTE]) (Some s))).
    + cbv iota. by rewrite c_str_id.
    + cbn [length]. rewrite length_app. cbn [length unescape_loop].
      rewrite g_ascii_isspace_eq. cbn -[double_quote_loop unescape_loop take _looks_like_old_svescaped].
      rewrite double_quote_chars. rewrite Nat.add_comm. cbn [unescape_loop Nat.add Nat.sub].
      do 2 f_equal. apply firstn_all2. cbn. rewrite length_app. cbn. lia.
Qed.

(** No byte of an escaped value ends the line; none ends the string early. *)
Definition line_byte (c b : byte) : bool :=
  negb (bool_decide (b = NEWLINE)) && (negb (bool_decide (b = x00)) || bool_decide (c = x00)).

Lemma escape_ansic_char_clean c : forallb (line_byte c) (escape_ansic_char c) = true.
Proof.
  revert c. destruct CS;
    [apply (forall_byte (fun c => forallb (line_byte c) (@escape_ansic_char true c)))
    |apply (forall_byte (fun c => forallb (line_byte c) (@escape_ansic_char false c)))]; by vm_compute.
Qed.

Lemma quote_char_clean c : scan_ctrl c = false -> forallb (line_byte c) (quote_char c) = true.
Proof.
  intros Hc. assert (scan_ctrl c || forallb (line_byte c) (quote_char c) = true) as Ho.
  { clear Hc. revert c. destruct CS;
      [apply (forall_byte (fun c => @scan_ctrl true c || forallb (line_byte c) (quote_char c)))
      |apply (forall_byte (fun c => @scan_ctrl false c || forallb (line_byte c) (quote_char c)))]; by vm_compute. }
  by rewrite Hc in Ho.
Qed.

Lemma concat_clean (f : byte -> list byte) (P : byte -> Prop) s b :
  (forall c, P c -> forallb (line_byte c) (f c) = true) -> Forall P s -> x00 ∉ s ->
  b ∈ concat (map f s) -> b <> NEWLINE /\ b <> x00.
Proof.
  intros Hf Hs Hn Hb%list_elem_of_In. apply List.in_concat in Hb as (e & He & Hb).
  apply List.in_map_iff in He as (c & <- & Hc%list_elem_of_In).
  rewrite Forall_forall in Hs. specialize (Hf c (Hs c Hc)). rewrite List.forallb_forall in Hf.
  specialize (Hf b Hb). unfold line_byte in Hf. apply andb_true_iff in Hf as [H1 H2]. bools. split; [done|].
  intros ->. rewrite bool_decide_true in H2 by done. cbn in H2. bools. by subst.
Qed.

Lemma svEscape_clean s b : x00 ∉ s -> b ∈ svEscape s -> b <> NEWLINE /\ b <> x00.
Proof.
  intros Hs Hb.
  assert (Hscan : existsb scan_ctrl s = false -> Forall (fun c => scan_ctrl c = false) s).
  { intros He. apply Forall_forall. intros c Hc. apply not_true_is_false. intros Ht.
    apply not_true_iff_false in He. apply He, List.existsb_exists. exists c. by rewrite <- list_elem_of_In. }
  destruct (svEscape_cases s) as [[_ E]|[Hc [[Hp E]|E]]]; rewrite E in Hb.
  - unfold _escape_ansic in Hb. rewrite !elem_of_app, !elem_of_cons, !elem_of_nil in Hb.
    destruct Hb as [[->|[->|Hf]]|[Hb|[->|Hf]]]; try done.
    eapply (concat_clean escape_ansic_char (fun _ => True)); [|by apply Forall_true|exact Hs|exact Hb].
    intros c _. apply escape_ansic_char_clean.
  - split; [|by intros ->]. intros ->. apply Hscan in Hc. rewrite Forall_forall in Hc.
    specialize (Hc _ Hb). by destruct CS.
  - rewrite !elem_of_app, !list_elem_of_singleton in Hb. destruct Hb as [->|[Hb| ->]]; try done.
    eapply (concat_clean quote_char (fun c => scan_ctrl c = false));
      [apply quote_char_clean|by apply Hscan|exact Hs|exact Hb].
Qed.

(** what svEscape() writes, svUnescape() reads back: every C string
    survives, whether it is left alone, put in double quotes or in ANSI-C
    quotes, and whether char is signed or not. *)
Theorem svEscape_svUnescape s : x00 ∉ s -> svUnescape (svEscape s) = Some s.
Proof. apply escape_unescape. Qed.

(** what svEscape() writes fits in one line of the file: no newline and no
    NUL; and the ANSI-C form fits the buffer of 4 * n + 4 bytes it allocates. *)
Theorem svEscape_one_line s b :
  x00 ∉ s -> b ∈ svEscape s ->
  b <> NEWLINE /\ b <> x00 /\ Z.of_nat (length (_escape_ansic s)) + 1 <= escape_ansic_alloc s.
Proof.
  intros Hs Hb. destruct (svEscape_clean s b Hs Hb) as [H1 H2]. split_and!; [done..|].
  unfold _escape_ansic, escape_ansic_alloc. pose proof (escape_ansic_length s).
  rewrite !length_app. cbn [length]. lia.
Qed.
End roundtrip.

(** ** Concrete instances *)

Lemma unescape_fuel_enough_witness :
  is_Some (@svUnescape_fuel sample_ascii true sample_unichar 9 (bs "a'b'c;#")).
Proof. apply (@unescape_fuel_enough sample_ascii true sample_unichar (bs "a'b'c;#") 9). cbn. lia. Defined.

Lemma svEscape_svUnescape_witness :
  @svUnescape sample_ascii true sample_unichar (@svEscape true [x41; xc3; xa9; x0a; x27]) = Some [x41; xc3; xa9; x0a; x27].
Proof.
  apply (@svEscape_svUnescape sample_ascii sample_ascii_ok true sample_unichar [x41; xc3; xa9; x0a; x27]).
  apply (bool_decide_unpack _). vm_compute. done.
Defined.

Lemma svEscape_one_line_witness : x6e <> NEWLINE.
Proof.
  apply (@svEscape_one_line true [x41; x0a] x6e).
  - apply (bool_decide_unpack _). vm_compute. done.
  - apply (bool_decide_unpack _). vm_compute. done.
Defined.
