(* ===== verification/ShFile.v ===== *)
(** * ShFile: ifcfg-rh files as lists of lines

    Models the file half of
    src/NetworkManager/src/settings/plugins/ifcfg-rh/shvar.c: parsing a file into
    lines, looking values up, changing and deleting them, and writing the file
    back.  The system calls are outside: their results are arguments of
    [svOpenFileInternal] and [svWriteFile]. *)

From S2P Require Import Bytes GLib ShQuote.

(** ** Data *)

(** struct _shvarLine.  [key] points into [key_with_prefix]. *)
Record shvarLine := mk_line {
  line : option (list byte);
  key_with_prefix : option (list byte);
  key_off : nat
}.

Definition key (l : shvarLine) : option (list byte) := drop (key_off l) <$> key_with_prefix l.

(** struct _shvarFile *)
Record shvarFile := mk_file {
  fileName : list byte;
  fd : Z;
  lst : list shvarLine;
  modified : bool
}.

Abbreviation EQUALS := x3d (only parsing).
Abbreviation HASH := x23 (only parsing).

Definition SV_KEY_TYPE_ANY : Z := Z.shiftl 1 0.
Definition SV_KEY_TYPE_ROUTE_SVFORMAT : Z := Z.shiftl 1 1.
Definition SV_KEY_TYPE_IP4_ADDRESS : Z := Z.shiftl 1 2.
Definition SV_KEY_TYPE_TC : Z := Z.shiftl 1 3.
Definition SV_KEY_TYPE_USER : Z := Z.shiftl 1 4.
Definition SV_KEY_TYPE_SRIOV_VF : Z := Z.shiftl 1 5.
Definition SV_KEY_TYPE_ROUTING_RULE4 : Z := Z.shiftl 1 6.
Definition SV_KEY_TYPE_ROUTING_RULE6 : Z := Z.shiftl 1 7.

Section file.
Context `{GLibAscii, CharSign, GUnichar, GStrtoll}.

Definition nm_str_skip_leading_spaces (str : list byte) : list byte := drop_while g_ascii_isspace str.

#[global] Arguments nm_str_skip_leading_spaces : simpl never.

(** ** Lines *)

Definition is_name_start (c : byte) : bool := g_ascii_isalpha c || bool_decide (c = UNDERSCORE).
Definition is_name_char (c : byte) : bool := g_ascii_isalnum c || bool_decide (c = UNDERSCORE).

(** The inner loop of line_new_parse(): the name so far, and what follows the
    equals sign. *)
Fixpoint parse_name (name rest : list byte) : option (list byte * list byte) :=
  match rest with
  | [] => None
  | c :: rest' =>
      if bool_decide (c = EQUALS) then Some (name, rest')
      else if negb (is_name_char c) then None
      else parse_name (name ++ [c]) rest'
  end.

(** The outer loop, over the leading spaces. *)
Fixpoint parse_assignment (prefix rest : list byte) : option (list byte * list byte * list byte) :=
  match rest with
  | [] => None
  | c :: rest' =>
      if g_ascii_isspace c then parse_assignment (prefix ++ [c]) rest'
      else if is_name_start c then
        '(name, value) ← parse_name [c] rest'; Some (prefix, name, value)
      else None
  end.

Definition line_new_parse (value : list byte) : shvarLine :=
  match parse_assignment [] value with
  | Some (prefix, name, v) => mk_line (Some v) (Some (prefix ++ name)) (length prefix)
  | None => mk_line (Some value) None 0
  end.

Definition line_new_build (k value : list byte) : shvarLine :=
  mk_line (Some (svEscape value)) (Some k) 0.

(** The line and whether it changed. *)
Definition line_set (l : shvarLine) (value : list byte) : shvarLine * bool :=
  let '(l1, changed) :=
    if Nat.eqb (key_off l) 0 then (l, false)
    else (mk_line (line l) (key l) 0, true) in
  let value := svEscape value in
  if bool_decide (line l1 = Some value) then (l1, changed)
  else (mk_line (Some value) (key_with_prefix l1) (key_off l1), true).

(** ** Opening *)

Definition svFile_new (name : list byte) : shvarFile := mk_file name (-1) [] false.

(** The lines of the text: each ends with a newline, the last one perhaps not. *)
Fixpoint split_lines (cur rest : list byte) : list (list byte) :=
  match rest with
  | [] => match cur with [] => [] | _ :: _ => [cur] end
  | c :: rest' =>
      if bool_decide (c = NEWLINE) then cur :: split_lines [] rest' else split_lines (cur ++ [c]) rest'
  end.

Definition parse_file (arena : list byte) : list shvarLine :=
  map line_new_parse (split_lines [] (c_str arena)).

(** [rdwr] and [rdonly] are the results of the two open() calls, [contents]
    that of nm_utils_fd_get_contents(). *)
Definition svOpenFileInternal (name : list byte) (create : bool) (rdwr rdonly : option Z)
    (contents : option (list byte)) : option shvarFile :=
  let fd_rw := if create then rdwr else None in
  let closefd := bool_decide (fd_rw = None) in
  match (match fd_rw with Some f => Some f | None => rdonly end) with
  | None => if create then Some (svFile_new name) else None
  | Some f =>
      match contents with
      | None => if create then Some (svFile_new name) else None
      | Some arena => Some (mk_file name (if closefd then -1 else f) (parse_file arena) false)
      end
  end.

Definition svOpenFile (name : list byte) (rdonly : option Z) (contents : option (list byte)) :=
  svOpenFileInternal name false None rdonly contents.

Definition svCreateFile (name : list byte) (rdwr rdonly : option Z) (contents : option (list byte)) :=
  svOpenFileInternal name true rdwr rdonly contents.

(** ** Keys *)

Definition _is_all_digits (str : list byte) : bool :=
  match str with [] => false | _ :: _ => forallb g_ascii_isdigit str end.

Definition has_prefix (prefix str : list byte) : bool := bool_decide (take (length prefix) str = prefix).

Definition IS_NUMBERED_TAG (k tab_name : list byte) : bool :=
  has_prefix tab_name k && _is_all_digits (drop (length tab_name) k).

(** The value and whether errno is set. *)
Definition _nm_utils_ascii_str_to_int64 (str : option (list byte)) (base min max fallback : Z) : Z * bool :=
  match nm_str_skip_leading_spaces <$> str with
  | None | Some [] => (fallback, true)
  | Some str =>
      let '(v, s, err) := g_ascii_strtoll str base in
      if err then (fallback, true)
      else if negb (bool_decide (nm_str_skip_leading_spaces s = [])) then (fallback, true)
      else if (max <? v) || (v <? min) then (fallback, true)
      else (v, false)
  end.

Definition IS_NUMBERED_TAG_PARSE (k tab_name : list byte) : option Z :=
  if IS_NUMBERED_TAG k tab_name then
    let idx := (_nm_utils_ascii_str_to_int64 (Some (drop (length tab_name) k)) 10 0 G_MAXINT64 (-1)).1 in
    if negb (idx =? -1) then Some idx else None
  else None.

Definition sv_flags_has (flags check : Z) : bool := Z.land flags check =? check.

Definition _svKeyMatchesType (k : list byte) (match_key_type : Z) : bool :=
  sv_flags_has match_key_type SV_KEY_TYPE_ANY
  || (sv_flags_has match_key_type SV_KEY_TYPE_ROUTE_SVFORMAT
      && existsb (IS_NUMBERED_TAG k) [bs "ADDRESS"; bs "NETMASK"; bs "GATEWAY"; bs "METRIC"; bs "OPTIONS"])
  || (sv_flags_has match_key_type SV_KEY_TYPE_IP4_ADDRESS
      && existsb (IS_NUMBERED_TAG k) [bs "IPADDR"; bs "PREFIX"; bs "NETMASK"; bs "GATEWAY"])
  || (sv_flags_has match_key_type SV_KEY_TYPE_USER && has_prefix (bs "NM_USER_") k)
  || (sv_flags_has match_key_type SV_KEY_TYPE_TC
      && existsb (IS_NUMBERED_TAG k) [bs "QDISC"; bs "FILTER"])
  || (sv_flags_has match_key_type SV_KEY_TYPE_SRIOV_VF && IS_NUMBERED_TAG k (bs "SRIOV_VF"))
  || (sv_flags_has match_key_type SV_KEY_TYPE_ROUTING_RULE4
      && bool_decide (is_Some (IS_NUMBERED_TAG_PARSE k (bs "ROUTING_RULE_"))))
  || (sv_flags_has match_key_type SV_KEY_TYPE_ROUTING_RULE6
      && bool_decide (is_Some (IS_NUMBERED_TAG_PARSE k (bs "ROUTING_RULE6_")))).

Definition svNumberedParseKey (k : list byte) : Z :=
  match IS_NUMBERED_TAG_PARSE k (bs "ROUTING_RULE_") with
  | Some idx => idx
  | None => default (-1) (IS_NUMBERED_TAG_PARSE k (bs "ROUTING_RULE6_"))
  end.

(** The keys of the hash table, in the order they are first met. *)
Definition svGetKeys (s : shvarFile) (match_key_type : Z) : list (list byte) :=
  remove_dups (omap (fun l =>
    match key l, line l with
    | Some k, Some _ => if _svKeyMatchesType k match_key_type then Some k else None
    | _, _ => None
    end) (lst s)).

Fixpoint strcmp (a b : list byte) : Z :=
  match a, b with
  | [], [] => 0
  | [], _ :: _ => -1
  | _ :: _, [] => 1
  | c :: a', d :: b' => NM_CMP_DIRECT (b2z c) (b2z d) ;;? strcmp a' b'
  end.

Definition _get_keys_sorted_cmp (k_a k_b : list byte) : Z :=
  NM_CMP_DIRECT (svNumberedParseKey k_a) (svNumberedParseKey k_b) ;;? strcmp k_a k_b.

Definition svFindFirstKeyWithPrefix (s : shvarFile) (key_prefix : list byte) : option (list byte) :=
  head (omap (fun l =>
    match key l, line l with
    | Some k, Some _ => if has_prefix key_prefix k then Some k else None
    | _, _ => None
    end) (lst s)).

(** ** Reading values *)

Definition key_is (k : list byte) (l : shvarLine) : bool := bool_decide (key l = Some k).

Definition _svGetValue (s : shvarFile) (k : list byte) : option (list byte) :=
  match last (List.filter (key_is k) (lst s)) with
  | Some l =>
      match line l with
      | Some text => Some (default [] (svUnescape text))
      | None => None
      end
  | None => None
  end.

Definition svGetValue (s : shvarFile) (k : list byte) : option (list byte) := _svGetValue s k.
Definition svGetValue_cp (s : shvarFile) (k : list byte) : option (list byte) := _svGetValue s k.

Definition svGetValueStr (s : shvarFile) (k : list byte) : option (list byte) :=
  match _svGetValue s k with
  | None | Some [] => None
  | Some v => Some v
  end.

Definition svGetValueStr_cp (s : shvarFile) (k : list byte) : option (list byte) :=
  match _svGetValue s k with
  | None | Some [] => None
  | Some v => Some v
  end.

Definition svGetValueBoolean (s : shvarFile) (k : list byte) (fallback : Z) : Z :=
  svParseBoolean (_svGetValue s k) fallback.

Definition svGetValueInt64 (s : shvarFile) (k : list byte) (base min max fallback : Z) : Z * bool :=
  match _svGetValue s k with
  | None => (fallback, true)
  | Some value => _nm_utils_ascii_str_to_int64 (Some value) base min max fallback
  end.

(** ** Changing values *)

(** The loop of svUnsetAll(). *)
Fixpoint unset_lines (match_key_type : Z) (ls : list shvarLine) : list shvarLine * bool :=
  match ls with
  | [] => ([], false)
  | l :: rest =>
      let '(rest', changed) := unset_lines match_key_type rest in
      match key l with
      | Some k =>
          if _svKeyMatchesType k match_key_type
          then (mk_line None (key_with_prefix l) (key_off l) :: rest',
                bool_decide (is_Some (line l)) || changed)
          else (l :: rest', changed)
      | None => (l :: rest', changed)
      end
  end.

Definition svUnsetAll (s : shvarFile) (match_key_type : Z) : shvarFile * bool :=
  let '(ls, changed) := unset_lines match_key_type (lst s) in
  (mk_file (fileName s) (fd s) ls (modified s || changed), changed).

(** The loop of svSetValue(): of several lines with the key the last is kept. *)
Fixpoint keep_last (k : list byte) (ls : list shvarLine) : list shvarLine * bool :=
  match ls with
  | [] => ([], false)
  | l :: rest =>
      let '(rest', changed) := keep_last k rest in
      if key_is k l && existsb (key_is k) rest then (rest', true) else (l :: rest', changed)
  end.

(** Replaces the line of the key. *)
Definition on_key (k : list byte) (f : shvarLine -> shvarLine) (ls : list shvarLine) : list shvarLine :=
  map (fun l => if key_is k l then f l else l) ls.

Definition svSetValue (s : shvarFile) (k : list byte) (value : option (list byte)) : shvarFile * bool :=
  let '(ls, changed) := keep_last k (lst s) in
  let '(ls', changed') :=
    match List.find (key_is k) ls, value with
    | Some l, None =>
        (on_key k (fun l => mk_line None (key_with_prefix l) (key_off l)) ls,
         bool_decide (is_Some (line l)) || changed)
    | None, None => (ls, changed)
    | None, Some v => (ls ++ [line_new_build k v], true)
    | Some l, Some v => (on_key k (fun l => (line_set l v).1) ls, (line_set l v).2 || changed)
    end in
  (mk_file (fileName s) (fd s) ls' (modified s || changed'), changed').

Definition svSetValueStr (s : shvarFile) (k : list byte) (value : option (list byte)) :=
  svSetValue s k (match value with Some (_ :: _) => value | _ => None end).

Definition svUnsetValue (s : shvarFile) (k : list byte) := svSetValue s k None.

Definition svSetValueBoolean (s : shvarFile) (k : list byte) (value : bool) :=
  svSetValue s k (Some (if value then bs "yes" else bs "no")).

Definition svSetValueBoolean_cond_true (s : shvarFile) (k : list byte) (value : bool) :=
  svSetValue s k (if value then Some (bs "yes") else None).

(** ** Writing *)

Definition print_line (l : shvarLine) : list byte :=
  match key l with
  | None =>
      let text := default [] (line l) in
      match nm_str_skip_leading_spaces text with
      | [] => text ++ [NEWLINE]
      | c :: _ => if bool_decide (c = HASH) then text ++ [NEWLINE] else bs "#NM: " ++ text ++ [NEWLINE]
      end
  | Some k =>
      let kwp := default [] (key_with_prefix l) in
      match line l with
      | None => []
      | Some text =>
          match svUnescape text with
          | Some _ => kwp ++ [EQUALS] ++ text ++ [NEWLINE]
          | None => k ++ [EQUALS; NEWLINE] ++ bs "#NM: " ++ kwp ++ [EQUALS] ++ text ++ [NEWLINE]
          end
      end
  end.

(** The file, the text the file on disk is truncated to and replaced by ([None]
    when it is not touched), and the return value. *)
Definition svWriteFile (s : shvarFile) (open_res : option Z) (ftruncate_ok dup_ok : bool)
    : shvarFile * option (list byte) * bool :=
  if modified s then
    match (if fd s =? -1 then open_res else Some (fd s)) with
    | None => (s, None, false)
    | Some f =>
        let s := mk_file (fileName s) f (lst s) (modified s) in
        if negb ftruncate_ok then (s, None, false)
        else if negb dup_ok then (s, Some [], false)
        else (s, Some (concat (map print_line (lst s))), true)
    end
  else (s, None, true).

(** ** Invariants *)

(** No byte that would end the line or the string. *)
Definition text_ok (t : list byte) : Prop := Forall (fun b => b <> NEWLINE /\ b <> x00) t.

(** ASSERT_shvarLine(), and that the parts of a line fit in a line. *)
Definition line_ok (l : shvarLine) : Prop :=
  match key_with_prefix l with
  | None =>
      exists t, line l = Some t /\ text_ok t /\ parse_assignment [] t = None
  | Some kwp =>
      text_ok kwp /\ (key_off l <= length kwp)%nat /\
      drop (key_off l) kwp = nm_str_skip_leading_spaces kwp /\
      _shell_is_name (drop (key_off l) kwp) = true /\
      match line l with Some t => text_ok t | None => True end
  end.

(** When the line that counts for a key was deleted, so was every line of it. *)
Definition deletions_final (ls : list shvarLine) : Prop :=
  forall k l, last (List.filter (key_is k) ls) = Some l -> line l = None ->
  Forall (fun l' => line l' = None) (List.filter (key_is k) ls).

(** The effect of svUnsetAll() on one line. *)
Definition unset_line (match_key_type : Z) (l : shvarLine) : shvarLine :=
  match key l with
  | Some k =>
      if _svKeyMatchesType k match_key_type then mk_line None (key_with_prefix l) (key_off l) else l
  | None => l
  end.

(** The lines of text printed for one line of the file. *)
Definition print_lines (l : shvarLine) : list (list byte) :=
  match key l with
  | None =>
      let text := default [] (line l) in
      match nm_str_skip_leading_spaces text with
      | [] => [text]
      | c :: _ => if bool_decide (c = HASH) then [text] else [bs "#NM: " ++ text]
      end
  | Some k =>
      let kwp := default [] (key_with_prefix l) in
      match line l with
      | None => []
      | Some text =>
          match svUnescape text with
          | Some _ => [kwp ++ [EQUALS] ++ text]
          | None => [k ++ [EQUALS]; bs "#NM: " ++ kwp ++ [EQUALS] ++ text]
          end
      end
  end.

Record file_ok (s : shvarFile) : Prop := {
  file_lines : Forall line_ok (lst s);
  file_deletions : deletions_final (lst s)
}.

(** A line with a key as it is found again in the written file. *)
Definition reread (l : shvarLine) : option shvarLine :=
  match line l with
  | None => None
  | Some t =>
      match svUnescape t with
      | Some _ => Some l
      | None => Some (mk_line (Some []) (key l) 0)
      end
  end.
End file.

Definition sample_text : list byte :=
  bs "# comment" ++ [NEWLINE] ++ bs "A=1" ++ [NEWLINE] ++ bs "  B='x" ++ [NEWLINE] ++ bs "A=2".

(** ** Lines *)

Section lines.
Context `{GA : GLibAscii, !GLibAsciiOk, CS : CharSign, GU : GUnichar, ST : GStrtoll}.

Lemma name_start_not_space c : is_name_start c = true -> g_ascii_isspace c = false.
Proof.
  unfold is_name_start. rewrite g_ascii_isalpha_eq, g_ascii_isspace_eq. intros Hn.
  assert (implb (in_range 65 90 c || in_range 97 122 c || bool_decide (c = UNDERSCORE))
            (negb (byte_in c [x20; x09; x0a; x0c; x0d])) = true) as Hi.
  { clear Hn. revert c. apply (forall_byte (fun c => implb (in_range 65 90 c || in_range 97 122 c
      || bool_decide (c = UNDERSCORE)) (negb (byte_in c [x20; x09; x0a; x0c; x0d])))). by vm_compute. }
  rewrite Hn in Hi. by apply negb_true_iff in Hi.
Qed.

Lemma name_char_not_equals c : is_name_char c = true -> bool_decide (c = EQUALS) = false.
Proof.
  unfold is_name_char. rewrite g_ascii_isalnum_eq, g_ascii_isalpha_eq, g_ascii_isdigit_eq. intros Hn.
  apply bool_decide_eq_false. intros ->. by vm_compute in Hn.
Qed.

Lemma name_start_char c : is_name_start c = true -> is_name_char c = true.
Proof.
  unfold is_name_start, is_name_char. rewrite g_ascii_isalnum_eq. destruct (g_ascii_isalpha c); cbn; [done|].
  intros ->. by rewrite orb_true_r.
Qed.

Lemma shell_is_name_eq k :
  _shell_is_name k = match k with [] => false | c :: r => is_name_start c && forallb is_name_char r end.
Proof. done. Qed.

Lemma skip_spaces_app sp c r :
  forallb g_ascii_isspace sp = true -> g_ascii_isspace c = false ->
  nm_str_skip_leading_spaces (sp ++ c :: r) = c :: r.
Proof.
  intros Hs Hc. unfold nm_str_skip_leading_spaces. rewrite drop_while_app, Hs. cbn. by rewrite Hc.
Qed.

Lemma parse_name_app n : forall name v,
  forallb is_name_char n = true -> parse_name name (n ++ EQUALS :: v) = Some (name ++ n, v).
Proof.
  induction n as [|c n IH]; intros name v; cbn.
  - intros _. by rewrite bool_decide_true, app_nil_r.
  - intros [Hc Hn]%andb_true_iff. rewrite name_char_not_equals, Hc by done. cbn. rewrite IH by done.
    by rewrite <- app_assoc.
Qed.

Lemma parse_name_Some rest : forall name name' v,
  parse_name name rest = Some (name', v) ->
  exists n, name' = name ++ n /\ rest = n ++ EQUALS :: v /\ forallb is_name_char n = true.
Proof.
  induction rest as [|c rest IH]; intros name name' v; cbn; [done|]. case_bool_decide as E.
  - intros [= <- <-]. exists []. by rewrite app_nil_r, E.
  - destruct (is_name_char c) eqn:Ec; cbn; [|done]. intros (n & -> & -> & Hn)%IH.
    exists (c :: n). cbn. by rewrite <- app_assoc, Ec.
Qed.

Lemma parse_assignment_app sp c n v : forall prefix,
  forallb g_ascii_isspace sp = true -> is_name_start c = true -> forallb is_name_char n = true ->
  parse_assignment prefix (sp ++ c :: n ++ EQUALS :: v) = Some (prefix ++ sp, c :: n, v).
Proof.
  induction sp as [|s sp IH]; intros prefix; cbn [app parse_assignment forallb].
  - intros _ Hc Hn. rewrite name_start_not_space, Hc by done. rewrite parse_name_app by done.
    by rewrite app_nil_r.
  - intros [-> Hs]%andb_true_iff Hc Hn. rewrite IH by done. by rewrite <- app_assoc.
Qed.

Lemma parse_assignment_Some rest : forall prefix prefix' name v,
  parse_assignment prefix rest = Some (prefix', name, v) ->
  exists sp, prefix' = prefix ++ sp /\ rest = sp ++ name ++ EQUALS :: v /\
             forallb g_ascii_isspace sp = true /\ _shell_is_name name = true.
Proof.
  induction rest as [|c rest IH]; intros prefix prefix' name v; cbn [parse_assignment]; [done|].
  destruct (g_ascii_isspace c) eqn:Es.
  - intros (sp & -> & -> & Hs & Hn)%IH. exists (c :: sp). cbn. by rewrite <- app_assoc, Es.
  - destruct (is_name_start c) eqn:Ec; [|done].
    destruct (parse_name [c] rest) as [[n w]|] eqn:En; cbn; [|done]. intros [= <- <- <-].
    apply parse_name_Some in En as (n' & -> & -> & Hn). exists []. rewrite app_nil_r.
    split_and!; [done|done|done|]. rewrite shell_is_name_eq. cbn. by rewrite Ec.
Qed.

Lemma text_ok_app a b : text_ok (a ++ b) <-> text_ok a /\ text_ok b.
Proof. apply Forall_app. Qed.

Lemma line_new_parse_ok t : text_ok t -> line_ok (line_new_parse t).
Proof.
  intros Ht. unfold line_new_parse. destruct (parse_assignment [] t) as [[[prefix name] v]|] eqn:E.
  - apply parse_assignment_Some in E as (sp & -> & -> & Hs & Hn). unfold line_ok. cbn.
    rewrite text_ok_app in Ht. destruct Ht as [Hts Ht]. rewrite text_ok_app in Ht. destruct Ht as [Htn Ht].
    apply Forall_cons in Ht as [_ Htv].
    rewrite drop_app_length, text_ok_app, length_app. destruct name as [|c r]; [done|].
    rewrite shell_is_name_eq in Hn. pose proof Hn as [Hc _]%andb_true_iff.
    rewrite skip_spaces_app by (done || by apply name_start_not_space).
    split_and!; [done|done|lia|done|done|done].
  - exists t. split_and!; done.
Qed.

Lemma skip_name k : _shell_is_name k = true -> k = nm_str_skip_leading_spaces k.
Proof.
  destruct k as [|c r]; [done|]. rewrite shell_is_name_eq. intros [Hc _]%andb_true_iff.
  symmetry. apply (skip_spaces_app []); [done|]. by apply name_start_not_space.
Qed.

Lemma svEscape_text_ok v : x00 ∉ v -> text_ok (svEscape v).
Proof. intros Hv. apply Forall_forall. intros b Hb. by apply (svEscape_clean v). Qed.

Lemma name_text_ok k : _shell_is_name k = true -> text_ok k.
Proof.
  intros Hk. assert (Forall (fun c => is_name_char c = true) k) as Hc.
  { destruct k as [|c r]; [constructor|]. rewrite shell_is_name_eq in Hk. apply andb_true_iff in Hk as [Hc Hr].
    constructor; [by apply name_start_char|by apply forallb_Forall_true]. }
  eapply Forall_impl; [exact Hc|]. intros b. unfold is_name_char.
  rewrite g_ascii_isalnum_eq, g_ascii_isalpha_eq, g_ascii_isdigit_eq. intros Hb.
  split; intros ->; by vm_compute in Hb.
Qed.

Lemma line_new_build_ok k v : _shell_is_name k = true -> x00 ∉ v -> line_ok (line_new_build k v).
Proof.
  intros Hk Hv. unfold line_ok. cbn. rewrite drop_0. split_and!; [by apply name_text_ok|lia|by apply skip_name|done|].
  by apply svEscape_text_ok.
Qed.

(** The four cases of line_set(). *)
Lemma line_set_cases l v (P : shvarLine * bool -> Prop) :
  (key_off l = 0%nat -> line l = Some (svEscape v) -> P (l, false)) ->
  (key_off l = 0%nat -> P (mk_line (Some (svEscape v)) (key_with_prefix l) (key_off l), true)) ->
  (line l = Some (svEscape v) -> P (mk_line (line l) (key l) 0, true)) ->
  P (mk_line (Some (svEscape v)) (key l) 0, true) ->
  P (line_set l v).
Proof.
  intros H1 H2 H3 H4. unfold line_set.
  destruct (Nat.eqb (key_off l) 0) eqn:E; cbn [line key_with_prefix key_off]; case_bool_decide.
  - apply H1; [by apply Nat.eqb_eq|done].
  - apply H2. by apply Nat.eqb_eq.
  - by apply H3.
  - apply H4.
Qed.

Lemma key_of_key l t : key (mk_line t (key l) 0) = key l.
Proof. unfold key. cbn. destruct (key_with_prefix l); cbn; by rewrite ?drop_0. Qed.

Lemma line_set_key l v : key (line_set l v).1 = key l.
Proof. apply line_set_cases; intros; cbn [fst]; try done; apply key_of_key. Qed.

Lemma line_set_line l v : line (line_set l v).1 = Some (svEscape v).
Proof. by apply line_set_cases; intros. Qed.

Lemma line_set_same l v : (line_set l v).2 = false -> (line_set l v).1 = l.
Proof. by apply line_set_cases; intros. Qed.

Lemma line_set_ok l v k : key l = Some k -> line_ok l -> x00 ∉ v -> line_ok (line_set l v).1.
Proof.
  unfold key, line_ok. intros Hk Hl Hv. destruct (key_with_prefix l) as [kwp|] eqn:E; [|done].
  destruct Hl as (H1 & H2 & H3 & H4 & H5). pose proof (svEscape_text_ok v Hv) as Hesc.
  pose proof (name_text_ok _ H4). pose proof (skip_name _ H4).
  apply line_set_cases; intros; cbn [fst key_with_prefix key_off line]; unfold key;
    rewrite ?E; cbn [fmap option_fmap option_map]; rewrite ?drop_0; try done;
    split_and!; try done; try lia; by match goal with H : line l = _ |- _ => rewrite H end.
Qed.
End lines.

(** ** Lookup and update *)

Section lookup.
Context `{GA : GLibAscii, !GLibAsciiOk, CS : CharSign, GU : GUnichar, ST : GStrtoll}.

Abbreviation matching k ls := (List.filter (key_is k) ls).

Lemma key_is_true k l : key_is k l = true <-> key l = Some k.
Proof. apply bool_decide_eq_true. Qed.

Lemma key_is_other k k' l : k' <> k -> key_is k l = true -> key_is k' l = false.
Proof. intros Hne Hk%key_is_true. apply bool_decide_eq_false. congruence. Qed.

Lemma last_cons_filter {A} (p : A -> bool) x l :
  last (x :: List.filter p l) = Some (default x (last (List.filter p l))).
Proof. rewrite last_cons. by destruct (last (List.filter p l)). Qed.

Lemma keep_last_matching k ls :
  matching k (keep_last k ls).1 = match last (matching k ls) with Some l => [l] | None => [] end.
Proof.
  induction ls as [|l ls IH]; [done|]. cbn [keep_last List.filter].
  destruct (keep_last k ls) as [ls' c] eqn:E. cbn [fst] in IH.
  rewrite existsb_filter. destruct (key_is k l) eqn:El; cbn [andb]; [|cbn; by rewrite El].
  rewrite last_cons. destruct (matching k ls) as [|m ms] eqn:Em; cbn [negb fst].
  - rewrite bool_decide_true by done. cbn. rewrite El, IH. done.
  - rewrite bool_decide_false by done. cbn [negb fst]. rewrite IH.
    destruct (last (m :: ms)) eqn:El2; [done|]. by apply last_None in El2.
Qed.

Lemma keep_last_other k k' ls : k' <> k -> matching k' (keep_last k ls).1 = matching k' ls.
Proof.
  intros Hne. induction ls as [|l ls IH]; [done|]. cbn [keep_last List.filter].
  destruct (keep_last k ls) as [ls' c]. cbn [fst] in IH. destruct (key_is k l && _) eqn:E; cbn [fst].
  - apply andb_true_iff in E as [E _]. by rewrite (key_is_other _ _ _ Hne E).
  - cbn. by rewrite IH.
Qed.

Lemma keep_last_same k ls : (keep_last k ls).2 = false -> (keep_last k ls).1 = ls.
Proof.
  induction ls as [|l ls IH]; [done|]. cbn [keep_last]. destruct (keep_last k ls) as [ls' c].
  destruct (_ && _); cbn in *; [done|]. intros Hc. by rewrite IH.
Qed.

Lemma keep_last_sublist k ls : (keep_last k ls).1 `sublist_of` ls.
Proof.
  induction ls as [|l ls IH]; [done|]. cbn [keep_last]. destruct (keep_last k ls) as [ls' c].
  destruct (_ && _); cbn in *; by constructor.
Qed.

Lemma find_matching k ls : List.find (key_is k) ls = head (matching k ls).
Proof. induction ls as [|l ls IH]; cbn; [done|]. by destruct (key_is k l). Qed.

Lemma on_key_matching k f ls :
  (forall l, key (f l) = key l) -> matching k (on_key k f ls) = map f (matching k ls).
Proof.
  intros Hf. unfold on_key. induction ls as [|l ls IH]; [done|]. cbn [map List.filter].
  destruct (key_is k l) eqn:E; cbn [List.filter map].
  - assert (key_is k (f l) = true) as -> by (unfold key_is; rewrite Hf; exact E). by rewrite IH.
  - by rewrite E, IH.
Qed.

Lemma on_key_other k k' f ls :
  k' <> k -> (forall l, key (f l) = key l) -> matching k' (on_key k f ls) = matching k' ls.
Proof.
  intros Hne Hf. unfold on_key. induction ls as [|l ls IH]; [done|]. cbn [map List.filter].
  destruct (key_is k l) eqn:E; [|by rewrite IH].
  assert (key_is k' (f l) = false) as -> by (unfold key_is in *; rewrite Hf; by eapply key_is_other).
  by rewrite (key_is_other k k' l Hne E).
Qed.

Lemma on_key_same k f ls : Forall (fun l => f l = l) (matching k ls) -> on_key k f ls = ls.
Proof.
  unfold on_key. induction ls as [|l ls IH]; [done|]. cbn [map List.filter].
  destruct (key_is k l); [|intros Hr; by rewrite IH]. intros [-> Hr]%Forall_cons. by rewrite IH.
Qed.

(** The lines of the key before and after svSetValue(), and of other keys. *)
Lemma svSetValue_matching s k value :
  matching k (lst (svSetValue s k value).1) =
    match last (matching k (lst s)), value with
    | Some l, None => [mk_line None (key_with_prefix l) (key_off l)]
    | Some l, Some v => [(line_set l v).1]
    | None, None => []
    | None, Some v => [line_new_build k v]
    end.
Proof.
  unfold svSetValue. pose proof (keep_last_matching k (lst s)) as Hk.
  destruct (keep_last k (lst s)) as [ls c]. cbn [fst] in Hk. rewrite find_matching, Hk.
  destruct (last (matching k (lst s))) as [l|] eqn:El; cbn [head]; destruct value as [v|]; cbn [fst lst].
  - rewrite on_key_matching by (intros; apply line_set_key). by rewrite Hk.
  - rewrite on_key_matching by done. by rewrite Hk.
  - rewrite List.filter_app, Hk. cbn [List.filter app].
    by rewrite (proj2 (key_is_true k (line_new_build k v)) eq_refl).
  - done.
Qed.

Lemma svSetValue_other s k k' value :
  k' <> k -> matching k' (lst (svSetValue s k value).1) = matching k' (lst s).
Proof.
  intros Hne. unfold svSetValue. pose proof (keep_last_other k k' (lst s) Hne) as Hk.
  destruct (keep_last k (lst s)) as [ls c]. cbn [fst] in Hk.
  destruct (List.find (key_is k) ls) as [l|]; destruct value as [v|]; cbn [fst lst]; [| |
    rewrite List.filter_app, Hk; cbn [List.filter app] |done].
  - rewrite on_key_other; [done..|]. intros; apply line_set_key.
  - by rewrite on_key_other.
  - rewrite (key_is_other k k' (line_new_build k v) Hne) by by apply key_is_true. by rewrite app_nil_r.
Qed.

Lemma svSetValue_unchanged s k value : (svSetValue s k value).2 = false -> (svSetValue s k value).1 = s.
Proof.
  unfold svSetValue. pose proof (keep_last_same k (lst s)) as Hs. pose proof (keep_last_matching k (lst s)) as Hk.
  destruct (keep_last k (lst s)) as [ls c]. cbn [fst snd] in Hs, Hk. rewrite find_matching, Hk.
  destruct (last (matching k (lst s))) as [l|] eqn:El; cbn [head]; destruct value as [v|]; cbn [fst snd]; intros Hc.
  - apply orb_false_iff in Hc as [Hl ->]. rewrite on_key_same, Hs by (rewrite ?Hk; auto using line_set_same).
    rewrite Hl, orb_false_r. by destruct s.
  - apply orb_false_iff in Hc as [Hl ->]. apply bool_decide_eq_false in Hl.
    destruct l as [[t|] kwp off]; [exfalso; apply Hl; by exists t|].
    rewrite on_key_same, Hs by (rewrite ?Hk; auto). cbn. rewrite orb_false_r. by destruct s.
  - done.
  - rewrite Hc, (Hs Hc), orb_false_r. by destruct s.
Qed.

(** svSetValue() is the update of a map: afterwards the key reads as the
    value that was set (or as unset), every other key reads as before, at most
    one line of the file has the key; the file is marked as modified exactly
    when it is changed, and the return value says whether it is. *)
Theorem svSetValue_spec s k value :
  (forall v, value = Some v -> x00 ∉ v) ->
  let '(s', changed) := svSetValue s k value in
  svGetValue s' k = value /\
  (forall k', k' <> k -> svGetValue s' k' = svGetValue s k') /\
  (length (matching k (lst s')) <= 1)%nat /\
  modified s' = modified s || changed /\ (changed = false -> s' = s).
Proof.
  intros Hv. pose proof (svSetValue_matching s k value) as Hm. pose proof (svSetValue_unchanged s k value) as Hu.
  pose proof (fun k' => svSetValue_other s k k' value) as Ho.
  assert (Hmod : modified (svSetValue s k value).1 = modified s || (svSetValue s k value).2).
  { unfold svSetValue. destruct (keep_last k (lst s)). by destruct (List.find _ _), value. }
  destruct (svSetValue s k value) as [s' changed]. cbn [fst snd] in *. split_and!.
  - unfold svGetValue, _svGetValue. rewrite Hm. destruct (last (matching k (lst s))) as [l|], value as [v|]; cbn [last]; try done.
    + rewrite line_set_line, escape_unescape by by apply Hv. done.
    + cbn [line_new_build line]. rewrite escape_unescape by by apply Hv. done.
  - intros k' Hk'. unfold svGetValue, _svGetValue. by rewrite Ho.
  - rewrite Hm. destruct (last (matching k (lst s))), value; cbn; lia.
  - done.
  - done.
Qed.
End lookup.

(** ** Invariants *)

Section invariant.
Context `{GA : GLibAscii, !GLibAsciiOk, CS : CharSign, GU : GUnichar, ST : GStrtoll}.

Abbreviation matching k ls := (List.filter (key_is k) ls).

Lemma c_str_no_nul s : Forall (fun b => b <> x00) (c_str s).
Proof.
  eapply Forall_impl; [apply Forall_take_while|]. intros b Hb. cbn in Hb. by bools.
Qed.

Lemma split_lines_ok rest : forall cur,
  text_ok cur -> Forall (fun b => b <> x00) rest -> Forall text_ok (split_lines cur rest).
Proof.
  induction rest as [|c rest IH]; intros cur Hc Hr; cbn [split_lines].
  - destruct cur; by constructor.
  - apply Forall_cons in Hr as [Hc0 Hr]. case_bool_decide.
    + constructor; [done|]. apply IH; [constructor|done].
    + apply IH; [|done]. apply Forall_app. split; [done|]. by constructor.
Qed.

Lemma parse_file_lines arena : Forall line_ok (parse_file arena).
Proof.
  unfold parse_file. apply Forall_map. eapply Forall_impl; [apply split_lines_ok; [constructor|apply c_str_no_nul]|].
  intros t Ht. by apply line_new_parse_ok.
Qed.

Lemma line_new_parse_live t : line (line_new_parse t) <> None.
Proof. unfold line_new_parse. by destruct (parse_assignment [] t) as [[[? ?] ?]|]. Qed.

Lemma parse_file_deletions arena : deletions_final (parse_file arena).
Proof.
  intros k l Hl Hn. exfalso. apply last_Some_elem_of, elem_of_filter_b in Hl as [_ Hl].
  unfold parse_file in Hl. apply list_elem_of_In, List.in_map_iff in Hl as (t & <- & _).
  by apply line_new_parse_live in Hn.
Qed.

Lemma on_key_Forall (P : shvarLine -> Prop) k f ls :
  Forall P ls -> (forall l, key l = Some k -> P l -> P (f l)) -> Forall P (on_key k f ls).
Proof.
  intros Hl Hf. unfold on_key. apply Forall_map. eapply Forall_impl; [exact Hl|]. intros l Hp.
  destruct (key_is k l) eqn:E; [|done]. apply key_is_true in E. auto.
Qed.

Lemma line_clear_ok l k : key l = Some k -> line_ok l -> line_ok (mk_line None (key_with_prefix l) (key_off l)).
Proof.
  unfold key, line_ok. cbn [key_with_prefix key_off line]. destruct (key_with_prefix l); [|done]. tauto.
Qed.

Lemma Forall_sublist {A} (P : A -> Prop) (l1 l2 : list A) : l1 `sublist_of` l2 -> Forall P l2 -> Forall P l1.
Proof. induction 1; intros Hl; [done|apply Forall_cons in Hl as [? ?]; auto..]. Qed.

Lemma svSetValue_lines s k value :
  Forall line_ok (lst s) -> _shell_is_name k = true -> (forall v, value = Some v -> x00 ∉ v) ->
  Forall line_ok (lst (svSetValue s k value).1).
Proof.
  intros Hs Hk Hv. unfold svSetValue. pose proof (keep_last_sublist k (lst s)) as Hsub.
  destruct (keep_last k (lst s)) as [ls c]. cbn [fst] in Hsub.
  assert (Hls : Forall line_ok ls).
  { by eapply Forall_sublist. }
  destruct (List.find (key_is k) ls) as [l|]; destruct value as [v|]; cbn [fst lst].
  - apply on_key_Forall; [done|]. intros l' Hl' Hok. eapply line_set_ok; eauto.
  - apply on_key_Forall; [done|]. intros l' Hl' Hok. by eapply line_clear_ok.
  - apply Forall_app. split; [done|]. constructor; [|done]. apply line_new_build_ok; auto.
  - done.
Qed.

Lemma svSetValue_deletions s k value :
  deletions_final (lst s) -> deletions_final (lst (svSetValue s k value).1).
Proof.
  intros Hd k' l Hl Hn. destruct (decide (k' = k)) as [->|Hne].
  - rewrite svSetValue_matching in *. destruct (last (matching k (lst s))), value; cbn in Hl; simplify_eq;
      by repeat constructor.
  - rewrite svSetValue_other in * by done. by eapply Hd.
Qed.

Lemma unset_lines_map ty ls : (unset_lines ty ls).1 = map (unset_line ty) ls.
Proof.
  induction ls as [|l ls IH]; [done|]. cbn [unset_lines map]. destruct (unset_lines ty ls) as [ls' c].
  cbn [fst] in IH. unfold unset_line at 1. destruct (key l) as [k|]; [|by rewrite IH].
  destruct (_svKeyMatchesType k ty); cbn [fst]; by rewrite IH.
Qed.

Lemma unset_line_key ty l : key (unset_line ty l) = key l.
Proof. unfold unset_line. destruct (key l) as [k|] eqn:E; [|done]. by destruct (_svKeyMatchesType k ty). Qed.

Lemma map_matching f k ls :
  (forall l, key (f l) = key l) -> matching k (map f ls) = map f (matching k ls).
Proof.
  intros Hf. induction ls as [|l ls IH]; [done|]. cbn [map List.filter].
  assert (key_is k (f l) = key_is k l) as -> by (unfold key_is; by rewrite Hf).
  destruct (key_is k l); cbn [map]; by rewrite IH.
Qed.

(** What svUnsetAll() leaves of the lines of a key. *)
Lemma unset_lines_matching ty k ls :
  matching k (unset_lines ty ls).1 =
  if _svKeyMatchesType k ty then map (fun l => mk_line None (key_with_prefix l) (key_off l)) (matching k ls)
  else matching k ls.
Proof.
  rewrite unset_lines_map, map_matching by apply unset_line_key.
  assert (Hm : forall l, l ∈ matching k ls -> unset_line ty l =
    if _svKeyMatchesType k ty then mk_line None (key_with_prefix l) (key_off l) else l).
  { intros l [Hl%key_is_true _]%elem_of_filter_b. unfold unset_line. by rewrite Hl. }
  destruct (_svKeyMatchesType k ty).
  - apply List.map_ext_in. intros l Hl%list_elem_of_In. by apply Hm.
  - rewrite <- (List.map_id (matching k ls)) at 2. apply List.map_ext_in. intros l Hl%list_elem_of_In. by apply Hm.
Qed.

Lemma svUnsetAll_lst s ty : lst (svUnsetAll s ty).1 = (unset_lines ty (lst s)).1.
Proof. unfold svUnsetAll. by destruct (unset_lines ty (lst s)). Qed.

Lemma svUnsetAll_ok s ty : file_ok s -> file_ok (svUnsetAll s ty).1.
Proof.
  intros [Hl Hd]. split; rewrite svUnsetAll_lst.
  - rewrite unset_lines_map. apply Forall_map. eapply Forall_impl; [exact Hl|]. intros l Hok.
    unfold unset_line. destruct (key l) as [k|] eqn:E; [|done].
    destruct (_svKeyMatchesType k ty); [by eapply line_clear_ok|done].
  - intros k l Hlast Hn. rewrite unset_lines_matching in *. destruct (_svKeyMatchesType k ty).
    + apply Forall_map. by apply Forall_true.
    + by eapply Hd.
Qed.

(** every file that is opened satisfies what ASSERT_shvarLine() states of
    its lines (and no line can break out of its line of text), and svSetValue()
    and svUnsetAll() keep it so. *)
Theorem file_ok_preserved s k value ty arena name f :
  (file_ok (mk_file name f (parse_file arena) false)) /\
  (file_ok s -> _shell_is_name k = true -> (forall v, value = Some v -> x00 ∉ v) ->
   file_ok (svSetValue s k value).1) /\
  (file_ok s -> file_ok (svUnsetAll s ty).1).
Proof.
  split_and!.
  - split; [apply parse_file_lines|apply parse_file_deletions].
  - intros [Hl Hd] Hk Hv. split; [by apply svSetValue_lines|by apply svSetValue_deletions].
  - apply svUnsetAll_ok.
Qed.
End invariant.

(** ** Writing a file and reading it again *)

Section reread.
Context `{GA : GLibAscii, !GLibAsciiOk, CS : CharSign, GU : GUnichar, ST : GStrtoll}.

Abbreviation matching k ls := (List.filter (key_is k) ls).

Lemma print_line_lines l : line_ok l ->
  print_line l = concat (map (fun t => t ++ [NEWLINE]) (print_lines l)).
Proof.
  intros _. unfold print_line, print_lines. destruct (key l) as [k|].
  - destruct (line l) as [t|]; [|done]. destruct (svUnescape t); cbn [map concat]; by rewrite ?app_nil_r, <- ?app_assoc.
  - destruct (nm_str_skip_leading_spaces _) as [|c r]; [cbn [map concat]; by rewrite app_nil_r|].
    destruct (bool_decide _); cbn [map concat]; by rewrite ?app_nil_r, <- ?app_assoc.
Qed.

Lemma hash_nm_ok t : text_ok t -> text_ok (bs "#NM: " ++ t).
Proof. intros Ht. apply text_ok_app. split; [by repeat constructor|done]. Qed.

Lemma print_lines_ok l : line_ok l -> Forall text_ok (print_lines l).
Proof.
  unfold line_ok, print_lines, key. intros Hl. destruct (key_with_prefix l) as [kwp|]; cbn [fmap option_fmap option_map from_option id].
  - destruct Hl as (H1 & _ & _ & H4 & H5). destruct (line l) as [t|]; [|constructor].
    assert (text_ok (kwp ++ [EQUALS] ++ t)) by (rewrite !text_ok_app; by repeat constructor).
    destruct (svUnescape t); rewrite ?Forall_cons, ?Forall_nil; split_and!; try done.
    + rewrite text_ok_app. split; [by apply name_text_ok|by repeat constructor].
    + by apply hash_nm_ok.
  - destruct Hl as (t & -> & Ht & _). cbn [from_option id].
    destruct (nm_str_skip_leading_spaces t) as [|c r]; [by apply Forall_singleton|].
    destruct (bool_decide _); apply Forall_singleton; [done|by apply hash_nm_ok].
Qed.

Lemma split_lines_line t : forall cur rest, text_ok t ->
  split_lines cur (t ++ NEWLINE :: rest) = (cur ++ t) :: split_lines [] rest.
Proof.
  induction t as [|c t IH]; intros cur rest; cbn [app split_lines].
  - intros _. by rewrite bool_decide_true, app_nil_r.
  - intros [[Hc _] Ht]%Forall_cons. rewrite bool_decide_false, IH by done. by rewrite <- app_assoc.
Qed.

Lemma split_lines_concat ts : Forall text_ok ts ->
  split_lines [] (concat (map (fun t => t ++ [NEWLINE]) ts)) = ts.
Proof.
  induction 1 as [|t ts Ht _ IH]; [done|]. cbn [map concat]. rewrite <- app_assoc. cbn [app].
  by rewrite split_lines_line, IH.
Qed.

Lemma printed_no_nul ts : Forall text_ok ts -> x00 ∉ concat (map (fun t => t ++ [NEWLINE]) ts).
Proof.
  intros Hts Hin%list_elem_of_In. apply List.in_concat in Hin as (e & He & Hin).
  apply List.in_map_iff in He as (t & <- & Ht%list_elem_of_In). rewrite Forall_forall in Hts.
  specialize (Hts t Ht). apply list_elem_of_In, elem_of_app in Hin as [Hin|Hin].
  - unfold text_ok in Hts. rewrite Forall_forall in Hts. by destruct (Hts _ Hin).
  - apply list_elem_of_singleton in Hin. done.
Qed.

Lemma parse_printed ls : Forall line_ok ls ->
  parse_file (concat (map print_line ls)) = map line_new_parse (concat (map print_lines ls)).
Proof.
  intros Hls. set (ts := concat (map print_lines ls)).
  assert (Hts : Forall text_ok ts).
  { unfold ts. induction Hls; cbn; [constructor|]. apply Forall_app. split; [by apply print_lines_ok|done]. }
  assert (He : concat (map print_line ls) = concat (map (fun t => t ++ [NEWLINE]) ts)).
  { unfold ts. clear Hts ts. induction Hls as [|l ls Hl _ IH]; [done|]. cbn [map concat].
    by rewrite List.map_app, List.concat_app, IH, print_line_lines. }
  unfold parse_file. by rewrite He, c_str_id, split_lines_concat by auto using printed_no_nul.
Qed.

Lemma hash_nm_parse t : line_new_parse (bs "#NM: " ++ t) = mk_line (Some (bs "#NM: " ++ t)) None 0.
Proof.
  change (bs "#NM: " ++ t) with (x23 :: bs "NM: " ++ t). unfold line_new_parse. cbn [parse_assignment].
  rewrite g_ascii_isspace_eq. unfold is_name_start. rewrite g_ascii_isalpha_eq. done.
Qed.

(** A line with a key is printed as it was parsed. *)
Lemma keyed_parse kwp off t : (off <= length kwp)%nat ->
  drop off kwp = nm_str_skip_leading_spaces kwp -> _shell_is_name (drop off kwp) = true ->
  line_new_parse (kwp ++ EQUALS :: t) = mk_line (Some t) (Some kwp) off.
Proof.
  intros Ho Hd Hn. set (sp := take_while g_ascii_isspace kwp).
  assert (Hk : kwp = sp ++ drop off kwp) by (rewrite Hd; symmetry; apply take_drop_while).
  assert (Hoff : off = length sp).
  { apply (f_equal length) in Hk. rewrite length_app, length_drop in Hk. lia. }
  assert (Hs : forallb g_ascii_isspace sp = true) by (apply forallb_Forall_true, Forall_take_while).
  rewrite Hk at 1. destruct (drop off kwp) as [|c r]; [done|].
  rewrite shell_is_name_eq in Hn. apply andb_true_iff in Hn as [Hc Hr].
  unfold line_new_parse. rewrite <- app_assoc. cbn [app]. rewrite parse_assignment_app by done. cbn [app].
  by rewrite <- Hk, Hoff.
Qed.

Lemma reread_line k l : line_ok l ->
  matching k (map line_new_parse (print_lines l)) =
  if key_is k l then match reread l with Some l' => [l'] | None => [] end else [].
Proof.
  intros Hl. unfold print_lines, reread. pose proof Hl as Hl0. unfold line_ok in Hl. unfold key_is at 2.
  destruct (key l) as [k'|] eqn:Ek; unfold key in Ek; destruct (key_with_prefix l) as [kwp|] eqn:Ekwp;
    cbn [fmap option_fmap option_map from_option id] in *; simplify_eq.
  - destruct Hl as (H1 & H2 & H3 & H4 & H5). destruct (line l) as [t|] eqn:Et; [|by case_bool_decide].
    destruct (svUnescape t); cbn [map List.filter app].
    + rewrite (keyed_parse kwp (key_off l)) by done. unfold key_is. cbn [key key_with_prefix key_off fmap option_fmap option_map].
      replace (mk_line (Some t) (Some kwp) (key_off l)) with l by (destruct l; cbn in *; congruence).
      by case_bool_decide.
    + rewrite hash_nm_parse. rewrite (keyed_parse (drop (key_off l) kwp) 0) by (rewrite ?drop_0; auto using skip_name with lia).
      unfold key_is. cbn [key key_with_prefix key_off fmap option_fmap option_map]. rewrite drop_0.
      by case_bool_decide.
  - destruct Hl as (t & Et & Ht & Hp). rewrite Et. cbn [from_option id].
    rewrite bool_decide_false by done.
    assert (Hn : line_new_parse t = mk_line (Some t) None 0) by (unfold line_new_parse; by rewrite Hp).
    destruct (nm_str_skip_leading_spaces t) as [|c r]; cbn [map List.filter]; [by rewrite Hn|].
    destruct (bool_decide _); cbn [map List.filter]; [by rewrite Hn|]. by rewrite hash_nm_parse.
Qed.

Lemma reread_matching k ls : Forall line_ok ls ->
  matching k (map line_new_parse (concat (map print_lines ls))) = omap reread (matching k ls).
Proof.
  induction 1 as [|l ls Hl _ IH]; [done|]. cbn [map concat List.filter].
  rewrite List.map_app, List.filter_app, reread_line, IH by done.
  destruct (key_is k l); [|done]. cbn. by destruct (reread l).
Qed.

Lemma last_omap {A B} (f : A -> option B) l x y : last l = Some x -> f x = Some y -> last (omap f l) = Some y.
Proof.
  intros (l' & ->)%last_Some Hf. rewrite omap_app. cbn. rewrite Hf. by rewrite last_snoc.
Qed.

(** C39: writing a modified file and reading it again gives a file with the same
    values: for every key, what svGetValue() finds is the same, also for values
    that do not parse (written as empty, the original kept in a comment), for
    keys that were deleted and for keys assigned several times. *)
Theorem write_read_same_values s open_res text s' :
  file_ok s -> svWriteFile s open_res true true = (s', Some text, true) ->
  forall k, svGetValue (mk_file (fileName s) (-1) (parse_file text) false) k = svGetValue s k.
Proof.
  intros [Hl Hd] Hw k. assert (text = concat (map print_line (lst s))) as ->.
  { unfold svWriteFile in Hw. destruct (modified s); [|done]. destruct (if fd s =? -1 then _ else _); [|done].
    cbn in Hw. congruence. }
  unfold svGetValue, _svGetValue. cbn [lst]. rewrite parse_printed, reread_matching by done.
  destruct (last (matching k (lst s))) as [l|] eqn:El.
  - destruct (line l) as [t|] eqn:Et.
    + assert (exists l', reread l = Some l' /\ exists t', line l' = Some t' /\
        default [] (svUnescape t') = default [] (svUnescape t)) as (l' & Hr & t' & Ht' & Hv).
      { unfold reread. rewrite Et. destruct (svUnescape t) eqn:Eu; [exists l|exists (mk_line (Some []) (key l) 0)];
          (split; [done|]); [exists t|exists []]; split; try done. by rewrite Eu. }
      rewrite (last_omap _ _ _ _ El Hr), Ht'. by rewrite Hv.
    + assert (omap reread (matching k (lst s)) = []) as ->; [|done].
      specialize (Hd k l El Et). revert Hd. generalize (matching k (lst s)).
      induction 1 as [|x xs Hx _ IH]; [done|]. cbn.
      assert (reread x = None) as -> by (unfold reread; by rewrite Hx). exact IH.
  - apply last_None in El. by rewrite El.
Qed.
End reread.

(** ** Concrete instances *)

Lemma svSetValue_spec_witness :
  @svGetValue sample_ascii true sample_unichar
    (@svSetValue true (mk_file [] (-1) (@parse_file sample_ascii sample_text) false) (bs "A") (Some (bs "a b"))).1
    (bs "A") = Some (bs "a b").
Proof.
  pose proof (@svSetValue_spec sample_ascii sample_ascii_ok true sample_unichar
    (mk_file [] (-1) (@parse_file sample_ascii sample_text) false) (bs "A") (Some (bs "a b"))) as H.
  destruct (svSetValue _ _ _) as [s' c]. destruct H as [H _].
  - intros v [= <-]. apply (bool_decide_unpack _). vm_compute. done.
  - exact H.
Defined.

Lemma file_ok_preserved_witness :
  @file_ok sample_ascii (mk_file [] 3 (@parse_file sample_ascii sample_text) false).
Proof.
  apply (@file_ok_preserved sample_ascii sample_ascii_ok true sample_strtoll
    (mk_file [] (-1) [] false) (bs "A") None 1 sample_text [] 3).
Defined.

Lemma write_read_same_values_witness :
  @svGetValue sample_ascii true sample_unichar
    (mk_file [] (-1) (@parse_file sample_ascii (bs "A=7" ++ [NEWLINE])) false) (bs "A") = Some (bs "7").
Proof.
  rewrite (@write_read_same_values sample_ascii sample_ascii_ok true sample_unichar
    (mk_file [] 4 [@line_new_build true (bs "A") (bs "7")] true) None (bs "A=7" ++ [NEWLINE])
    (mk_file [] 4 [@line_new_build true (bs "A") (bs "7")] true)).
  - reflexivity.
  - split.
    + repeat constructor; cbn; try done; lia.
    + intros k l Hl Hn. unfold deletions_final. cbn in *. destruct (key_is k _); cbn in *; simplify_eq.
  - reflexivity.
Defined.
