(* ===== verification/DmiTable.v ===== *)
(** * DmiTable: the structures of a SMBIOS/DMI table

    Models is_printable(), dmi_string() and to_dmi_header() of
    src/dmidecode/dmidecode-3.2/dmidecode.c and the callback interface of
    src/dmidecode/dmi_ext/dmi_decode_ext.c, which has copies of the three.

    The table is the list of the bytes of the caller's buffer; a pointer into it
    is its offset.  Every read and every write goes through the list, so that an
    access outside of the buffer makes the whole computation [None]: a theorem
    that a function gives [Some] is a theorem that it touches no byte it does
    not own, and that its loops end. *)

From S2P Require Import Bytes GLib.

(** ** Reads and strings *)

(** data[i] *)
Definition rd (buf : list byte) (i : nat) : option Z := b2z <$> buf !! i.

(** WORD(x) and DWORD(x) of types.h: little-endian loads. *)
Definition rd_word (buf : list byte) (i : nat) : option Z :=
  a ← rd buf i; b ← rd buf (i + 1); Some (a + Z.shiftl b 8).

Definition rd_dword (buf : list byte) (i : nat) : option Z :=
  a ← rd_word buf i; b ← rd_word buf (i + 2); Some (a + Z.shiftl b 16).

(** strlen() of what a pointer reaches. *)
Fixpoint c_strlen (l : list byte) : option nat :=
  match l with
  | [] => None
  | b :: l' => if bool_decide (b = x00) then Some 0%nat else S <$> c_strlen l'
  end.

Definition strlen (buf : list byte) (p : nat) : option nat := c_strlen (drop p buf).

Fixpoint is_printable (buf : list byte) (data len : nat) : option bool :=
  match len with
  | O => Some true
  | S n =>
      c ← rd buf data;
      if (c <? 32) || (127 <=? c) then Some false else is_printable buf (S data) n
  end.

Record dmi_header := mk_dmi_header {
  h_type : Z;
  h_length : Z;
  h_handle : Z;
  h_data : nat
}.

#[export] Instance dmi_header_eq_dec : EqDecision dmi_header.
Proof. solve_decision. Defined.

(** The pointer dmi_string() returns: one of its two constants or a string of
    the table. *)
Inductive dmi_str :=
| NotSpecified
| BadIndex
| StrAt (p : nat).

#[export] Instance dmi_str_eq_dec : EqDecision dmi_str.
Proof. solve_decision. Defined.

(** while (s > 1 && *bp) *)
Fixpoint dmi_string_skip (buf : list byte) (s bp : nat) : option nat :=
  match s with
  | S (S _ as s') =>
      c ← rd buf bp;
      if c =? 0 then Some bp
      else n ← strlen buf bp; dmi_string_skip buf s' (bp + n + 1)
  | _ => Some bp
  end.

Section chars.
Context `{CharSign}.

(** bp[i] < 32 || bp[i] == 127, on a plain char. *)
Definition filtered (b : byte) : bool := (char_val b <? 32) || (char_val b =? 127).

(** The ASCII filtering loop over [len] bytes. *)
Fixpoint ascii_filter (buf : list byte) (bp len : nat) : option (list byte) :=
  match len with
  | O => Some buf
  | S n =>
      b ← buf !! bp;
      ascii_filter (if filtered b then <[bp := x2e]> buf else buf) (S bp) n
  end.

(** dmi_string(): the pointer, and the buffer, which the filter may change;
    [dump] is opt.flags & FLAG_DUMP. *)
Definition dmi_string (dump : bool) (buf : list byte) (dm : dmi_header) (s : nat)
    : option (list byte * dmi_str) :=
  match s with
  | O => Some (buf, NotSpecified)
  | S _ =>
      bp ← dmi_string_skip buf s (h_data dm + Z.to_nat (h_length dm));
      c ← rd buf bp;
      if c =? 0 then Some (buf, BadIndex)
      else if negb dump then
        len ← strlen buf bp;
        buf' ← ascii_filter buf bp len;
        Some (buf', StrAt bp)
      else Some (buf, StrAt bp)
  end.

(** The copy of dmi_decode_ext.c, which always filters. *)
Definition dmi_string_ext (buf : list byte) (dm : dmi_header) (s : nat)
    : option (list byte * dmi_str) := dmi_string false buf dm s.
End chars.

Definition to_dmi_header (buf : list byte) (data : nat) : option dmi_header :=
  t ← rd buf data;
  l ← rd buf (data + 1);
  w ← rd_word buf (data + 2);
  Some (mk_dmi_header t l w data).

(** ** dmi_table_decode_ext() *)

(** The loop that looks for the next handle, from [next] on: [fuel] bounds the
    number of steps. *)
Fixpoint find_next (fuel : nat) (buf : list byte) (len next : nat) : option nat :=
  match fuel with
  | O => None
  | S f =>
      if (next + 1 <? len)%nat then
        a ← rd buf next;
        if negb (a =? 0) then find_next f buf len (S next)
        else
          b ← rd buf (next + 1);
          if negb (b =? 0) then find_next f buf len (S next) else Some next
      else Some next
  end.

Definition DMI_EXT_FLAG_STOP_AT_EOT : Z := 2.

Section decode.
Context {U : Type}.

(** The callback gets the header, the pointer to the structure and the user
    data; it may write to the table, as dmi_string() does. *)
Definition dmi_header_callback_t : Type :=
  dmi_header -> nat -> list byte * U -> option (Z * (list byte * U)).

(** One turn of the loop at [data]: [inl] of the count and the state when the
    function leaves the loop, else [inr] of the next [data]. *)
Definition decode_ext_step (len : nat) (flags : Z) (callback : option dmi_header_callback_t)
    (i data : nat) (buf : list byte) (user_data : U)
    : option (nat * (list byte * U) + nat * nat * (list byte * U)) :=
  h ← to_dmi_header buf data;
  if h_length h <? 4 then Some (inl (i, (buf, user_data)))
  else
    let i := S i in
    p ← find_next (S len) buf len (data + Z.to_nat (h_length h));
    let next := (p + 2)%nat in
    if (len <? next)%nat then Some (inl (i, (buf, user_data)))
    else
      r ← match callback with
          | Some cb => cb h data (buf, user_data)
          | None => Some (0, (buf, user_data))
          end;
      let '(ret, st) := r in
      if negb (ret =? 0) then Some (inl (i, st))
      else if (h_type h =? 127) && negb (Z.land flags DMI_EXT_FLAG_STOP_AT_EOT =? 0) then Some (inl (i, st))
      else Some (inr (i, next, st)).

Fixpoint decode_ext_loop (fuel : nat) (len : nat) (num : nat) (flags : Z)
    (callback : option dmi_header_callback_t) (i data : nat) (st : list byte * U)
    : option (nat * (list byte * U)) :=
  match fuel with
  | O => None
  | S f =>
      if ((i <? num) || (num =? 0))%nat && (data + 4 <=? len)%nat then
        r ← decode_ext_step len flags callback i data st.1 st.2;
        match r with
        | inl res => Some res
        | inr (i, data, st) => decode_ext_loop f len num flags callback i data st
        end
      else Some (i, st)
  end.

(** The count the function returns and what it leaves of the buffer and of the
    user data; [ver] is not used.  A turn of the loop consumes at least six
    bytes, so [len] turns are enough. *)
Definition dmi_table_decode_ext (buf : list byte) (len num : nat) (ver : Z) (flags : Z)
    (callback : option dmi_header_callback_t) (user_data : U) : option (nat * (list byte * U)) :=
  decode_ext_loop (S len) len num flags callback 0 0 (buf, user_data).
End decode.

Arguments dmi_header_callback_t : clear implicits.

(** struct find_type_context and struct find_handle_context *)
Record find_context := mk_find_context {
  target : Z;
  out_header : dmi_header;
  found : Z
}.

Definition find_type_callback : dmi_header_callback_t find_context :=
  fun h _ '(buf, ctx) =>
    if h_type h =? target ctx then Some (1, (buf, mk_find_context (target ctx) h 1))
    else Some (0, (buf, ctx)).

(** The result and what [out_header] points to afterwards; [None] for a NULL
    pointer. *)
Definition dmi_table_find_by_type (buf : list byte) (len num : nat) (ver : Z) (target_type : Z)
    (out : option dmi_header) : option (Z * option dmi_header) :=
  match out with
  | None => Some (0, None)
  | Some o =>
      r ← dmi_table_decode_ext buf len num ver 0 (Some find_type_callback) (mk_find_context target_type o 0);
      Some (found r.2.2, Some (out_header r.2.2))
  end.

Definition find_handle_callback : dmi_header_callback_t find_context :=
  fun h _ '(buf, ctx) =>
    if h_handle h =? target ctx then Some (1, (buf, mk_find_context (target ctx) h 1))
    else Some (0, (buf, ctx)).

Definition dmi_table_find_by_handle (buf : list byte) (len num : nat) (ver : Z) (handle : Z)
    (out : option dmi_header) : option (Z * option dmi_header) :=
  match out with
  | None => Some (0, None)
  | Some o =>
      r ← dmi_table_decode_ext buf len num ver 0 (Some find_handle_callback) (mk_find_context handle o 0);
      Some (found r.2.2, Some (out_header r.2.2))
  end.

(** ** What a structure is *)

(** Two NUL bytes at [p]. *)
Definition nul2 (buf : list byte) (p : nat) : Prop :=
  buf !! p = Some x00 /\ buf !! S p = Some x00.

#[export] Instance nul2_dec buf p : Decision (nul2 buf p).
Proof. unfold nul2. apply _. Defined.

(** The structure with header [h], which ends at [next]: the formatted area,
    then the strings up to the first pair of NUL bytes, all within [len]. *)
Record struct_at (buf : list byte) (len : nat) (h : dmi_header) (next : nat) : Prop := mk_struct_at {
  sa_header : to_dmi_header buf (h_data h) = Some h;
  sa_length : 4 <= h_length h;
  sa_lo : (h_data h + Z.to_nat (h_length h) + 2 <= next)%nat;
  sa_hi : (next <= len)%nat;
  sa_end : nul2 buf (next - 2);
  sa_first : forall p, (h_data h + Z.to_nat (h_length h) <= p < next - 2)%nat -> ~ nul2 buf p
}.

(** Consecutive structures from [d] to [fin]. *)
Inductive chain (buf : list byte) (len : nat) : nat -> list dmi_header -> nat -> Prop :=
| chain_nil d : chain buf len d [] d
| chain_cons h next hs fin :
    struct_at buf len h next -> chain buf len next hs fin -> chain buf len (h_data h) (h :: hs) fin.

(** A header at [d] whose structure has no end within [len]. *)
Definition truncated_at (buf : list byte) (len d : nat) : Prop :=
  exists h, to_dmi_header buf d = Some h /\ (d + 4 <= len)%nat /\ 4 <= h_length h /\
    forall next, ~ struct_at buf len h next.

(** The strings of a structure: up to the first empty one. *)
Fixpoint strs (l cur : list byte) : list (list byte) :=
  match l with
  | [] => []
  | b :: l' =>
      if bool_decide (b = x00) then match cur with [] => [] | _ => cur :: strs l' [] end
      else strs l' (cur ++ [b])
  end.

Definition dmi_strings (buf : list byte) (h : dmi_header) : list (list byte) :=
  strs (drop (h_data h + Z.to_nat (h_length h)) buf) [].

(** A NUL-terminated string at [p]. *)
Definition c_string_at (buf : list byte) (p : nat) (s : list byte) : Prop :=
  exists rest, drop p buf = s ++ x00 :: rest /\ x00 ∉ s.

(** The callback that keeps every header it is given. *)
Definition collect : dmi_header_callback_t (list dmi_header) :=
  fun h _ '(buf, l) => Some (0, (buf, l ++ [h])).

Definition dmi_structs (buf : list byte) (len num : nat) (flags : Z) : list dmi_header :=
  match dmi_table_decode_ext buf len num 0 flags (Some collect) [] with
  | Some (_, (_, hs)) => hs
  | None => []
  end.

(** ** Reads *)

Lemma rd_lt buf i : (i < length buf)%nat -> exists b, buf !! i = Some b /\ rd buf i = Some (b2z b).
Proof. intros Hi. destruct (lookup_lt_is_Some_2 buf i Hi) as [b Hb]. exists b. unfold rd. by rewrite Hb. Qed.

Lemma rd_zero buf i : rd buf i = Some 0 <-> buf !! i = Some x00.
Proof.
  unfold rd. rewrite fmap_Some. split; [|intros ->; by exists x00].
  intros (b & Hb & E). rewrite Hb. f_equal. by apply b2z_inj.
Qed.

Lemma rd_zero_dec buf i z : rd buf i = Some z -> (z =? 0) = bool_decide (buf !! i = Some x00).
Proof.
  intros E. destruct (Z.eqb_spec z 0) as [->|Hz].
  - symmetry. apply bool_decide_eq_true. by apply rd_zero.
  - symmetry. apply bool_decide_eq_false. intros Hx%rd_zero. congruence.
Qed.

Lemma nul2_lt buf p : nul2 buf p -> (S p < length buf)%nat.
Proof. intros [_ E]. by eapply lookup_lt_Some. Qed.

Lemma rd_word_lt buf i : (i + 2 <= length buf)%nat -> exists w, rd_word buf i = Some w /\ 0 <= w < 65536.
Proof.
  intros Hi. destruct (rd_lt buf i) as (a & _ & Ea); [lia|]. destruct (rd_lt buf (i + 1)) as (b & _ & Eb); [lia|].
  unfold rd_word. rewrite Ea. simpl. rewrite Eb. simpl. eexists. split; [done|].
  rewrite Z.shiftl_mul_pow2 by done. pose proof (b2z_range a). pose proof (b2z_range b). lia.
Qed.

Lemma to_dmi_header_lt buf d :
  (d + 4 <= length buf)%nat ->
  exists h, to_dmi_header buf d = Some h /\ h_data h = d /\ 0 <= h_type h < 256 /\ 0 <= h_length h < 256.
Proof.
  intros Hd. unfold to_dmi_header.
  destruct (rd_lt buf d) as (a & _ & ->); [lia|]. simpl.
  destruct (rd_lt buf (d + 1)) as (b & _ & ->); [lia|]. simpl.
  destruct (rd_word_lt buf (d + 2)) as (w & -> & _); [lia|]. simpl.
  eexists. split; [done|]. simpl. pose proof (b2z_range a). pose proof (b2z_range b). lia.
Qed.

Lemma to_dmi_header_data buf d h : to_dmi_header buf d = Some h -> h_data h = d /\ (d + 4 <= length buf)%nat.
Proof.
  unfold to_dmi_header, rd_word, rd. intros E.
  destruct (buf !! d); simplify_eq/=. destruct (buf !! (d + 1)%nat); simplify_eq/=.
  destruct (buf !! (d + 2)%nat); simplify_eq/=.
  destruct (buf !! (d + 2 + 1)%nat) eqn:E3; simplify_eq/=. apply lookup_lt_Some in E3. split; [done|lia].
Qed.

(** ** The walk *)

Lemma find_next_spec fuel buf len next :
  (len <= length buf)%nat -> (len - next < fuel)%nat ->
  exists p, find_next fuel buf len next = Some p /\ (next <= p)%nat /\
    (forall q, (next <= q < p)%nat -> ~ nul2 buf q) /\
    ((p + 1 < len)%nat /\ nul2 buf p \/ (len <= p + 1)%nat).
Proof.
  revert next. induction fuel as [|f IH]; intros next Hlen Hf; [lia|]. simpl.
  destruct (Nat.ltb_spec (next + 1) len) as [Hlt|Hge].
  2: { exists next. repeat split; [lia|intros; lia|lia]. }
  assert (Hstep : ~ nul2 buf next -> exists p, find_next f buf len (S next) = Some p /\ (next <= p)%nat /\
    (forall q, (next <= q < p)%nat -> ~ nul2 buf q) /\ ((p + 1 < len)%nat /\ nul2 buf p \/ (len <= p + 1)%nat)).
  { intros Hn. destruct (IH (S next)) as (p & E & Hp & Hq & Hor); [done|lia|]. exists p.
    split; [done|]. split; [lia|]. split; [|done]. intros q Hr. destruct (decide (q = next)) as [->|]; [done|].
    apply Hq. lia. }
  destruct (rd_lt buf next) as (a & Ea & Ra); [lia|]. destruct (rd_lt buf (next + 1)) as (b & Eb & Rb); [lia|].
  rewrite Ra. simpl. rewrite (rd_zero_dec _ _ _ Ra). case_bool_decide as Ha; simpl.
  - rewrite Rb. simpl. rewrite (rd_zero_dec _ _ _ Rb). case_bool_decide as Hb; simpl.
    + exists next. repeat split; [lia|intros; lia|]. left. split; [done|]. split; [done|].
      by rewrite Nat.add_1_r in Hb.
    + apply Hstep. intros [_ E]. by rewrite Nat.add_1_r in Hb.
  - apply Hstep. by intros [E _].
Qed.

(** What one look at [data] finds. *)
Lemma find_next_struct buf len h :
  (len <= length buf)%nat -> to_dmi_header buf (h_data h) = Some h -> 4 <= h_length h ->
  exists p, find_next (S len) buf len (h_data h + Z.to_nat (h_length h)) = Some p /\
    (if (len <? p + 2)%nat then forall next, ~ struct_at buf len h next else struct_at buf len h (p + 2)).
Proof.
  intros Hlen Hh Hl.
  destruct (find_next_spec (S len) buf len (h_data h + Z.to_nat (h_length h))) as (p & E & Hp & Hq & Hor);
    [done|lia|].
  exists p. split; [done|]. destruct (Nat.ltb_spec len (p + 2)) as [Hlt|Hge].
  - intros next Hs. destruct Hs. destruct Hor as [[Hp1 _]|Hp1]; [lia|].
    apply (Hq (next - 2)%nat); [lia|done].
  - destruct Hor as [[Hp1 Hn]|Hp1]; [|lia]. replace p with (p + 2 - 2)%nat in Hn by lia.
    split; try done; try lia. intros q Hr. apply Hq. lia.
Qed.

Lemma chain_app_end buf len d hs fin : chain buf len d hs fin -> (d <= len)%nat -> (d <= fin <= len)%nat.
Proof. induction 1 as [|h next hs fin Hs _ IH]; intros Hd; [lia|]. destruct Hs. lia. Qed.

(** A callback that only reads the table. *)
Definition ro {U} (f : dmi_header -> U -> Z * U) : dmi_header_callback_t U :=
  fun h _ '(buf, u) => let '(z, u') := f h u in Some (z, (buf, u')).

Fixpoint fold_stop {U} (f : dmi_header -> U -> Z * U) (hs : list dmi_header) (u : U) : U :=
  match hs with
  | [] => u
  | h :: hs' => let '(z, u') := f h u in if z =? 0 then fold_stop f hs' u' else u'
  end.

(** What one turn does with any read-only callback. *)
Lemma decode_ext_step_ro buf len flags d :
  (len <= length buf)%nat -> (d + 4 <= len)%nat ->
  exists h, to_dmi_header buf d = Some h /\ h_data h = d /\
    let step U (f : dmi_header -> U -> Z * U) i u := decode_ext_step len flags (Some (ro f)) i d buf u in
    (h_length h < 4 /\ (forall U f i u, step U f i u = Some (inl (i, (buf, u)))) \/
     4 <= h_length h /\ (forall next, ~ struct_at buf len h next) /\
       (forall U f i u, step U f i u = Some (inl (S i, (buf, u)))) \/
     exists next, struct_at buf len h next /\
       forall U f i u, step U f i u =
         Some (let '(z, u') := f h u in
               if negb (z =? 0) then inl (S i, (buf, u'))
               else if (h_type h =? 127) && negb (Z.land flags 2 =? 0) then inl (S i, (buf, u'))
               else inr (S i, next, (buf, u')))).
Proof.
  intros Hlen Hd. destruct (to_dmi_header_lt buf d) as (h & Eh & <- & _ & Hl); [lia|].
  exists h. split; [done|]. split; [done|]. unfold decode_ext_step.
  destruct (Z.ltb_spec (h_length h) 4) as [Hs|Hs]; [left|right].
  { split; [done|]. intros. rewrite Eh. cbn. by destruct (Z.ltb_spec (h_length h) 4); [|lia]. }
  destruct (find_next_struct buf len h) as (p & Ep & Hp); [done..|].
  assert (Hlt : (h_length h <? 4) = false) by lia.
  destruct (len <? p + 2)%nat eqn:El; [left|right].
  { split; [done|]. split; [done|]. intros. rewrite Eh. cbn -[find_next Nat.ltb Nat.add].
    rewrite Hlt, Ep. cbn -[Nat.ltb Nat.add]. by rewrite El. }
  exists (p + 2)%nat. split; [done|]. intros. rewrite Eh. cbn -[find_next Nat.ltb Nat.add].
  rewrite Hlt, Ep. cbn -[Nat.ltb Nat.add Z.land]. rewrite El. unfold ro. destruct (f h u) as [z u'].
  cbn -[Z.land]. unfold DMI_EXT_FLAG_STOP_AT_EOT.
  destruct (z =? 0); cbn -[Z.land]; [|done]. by destruct ((h_type h =? 127) && negb (Z.land flags 2 =? 0)).
Qed.

(** Why the walk stops. *)
Inductive walk_end (buf : list byte) (len num : nat) (flags : Z) (i : nat) : list dmi_header -> nat -> nat -> Prop :=
| end_count hs fin :
    num <> 0%nat -> (i + length hs)%nat = num -> walk_end buf len num flags i hs fin 0
| end_marker hs h fin :
    h_type h = 127 -> Z.land flags 2 <> 0 -> walk_end buf len num flags i (hs ++ [h]) fin 0
| end_truncated hs fin : truncated_at buf len fin -> walk_end buf len num flags i hs fin 1
| end_table hs fin :
    (len < fin + 4)%nat \/ (exists h, to_dmi_header buf fin = Some h /\ h_length h < 4) ->
    walk_end buf len num flags i hs fin 0.

Lemma walk_end_cons buf len num flags i h hs fin x :
  walk_end buf len num flags (S i) hs fin x -> walk_end buf len num flags i (h :: hs) fin x.
Proof.
  inversion 1; subst.
  - apply end_count; [done|]. simpl in *. lia.
  - apply (end_marker buf len num flags i (h :: hs0)); done.
  - by apply end_truncated.
  - by apply end_table.
Qed.

(** With [num], at most so many; with the flag, only the last is a type 127. *)
Definition walk_ok (num : nat) (flags : Z) (i : nat) (hs : list dmi_header) : Prop :=
  (num <> 0%nat -> (i + length hs <= num)%nat) /\
  (Z.land flags 2 <> 0 -> Forall (fun h => h_type h <> 127) (removelast hs)).


Lemma decode_ext_loop_collect fuel buf len num flags i d acc :
  (len <= length buf)%nat -> (d <= len < d + fuel)%nat -> (num <> 0%nat -> (i <= num)%nat) ->
  exists hs fin x,
    decode_ext_loop fuel len num flags (Some collect) i d (buf, acc)
      = Some ((i + length hs + x)%nat, (buf, acc ++ hs)) /\
    chain buf len d hs fin /\ walk_end buf len num flags i hs fin x /\ walk_ok num flags i hs.
Proof.
  intros Hlen. revert i d acc. induction fuel as [|f IH]; intros i d acc Hf Hi.
  { lia. }
  cbn -[decode_ext_step Nat.ltb Nat.leb Nat.eqb Nat.add].
  destruct (Nat.leb_spec (d + 4) len) as [Hd|Hd].
  2: { rewrite andb_false_r. exists [], d, 0%nat. rewrite app_nil_r. simpl.
       split; [do 2 f_equal; lia|]. split; [constructor|]. split; [apply end_table; by left|].
       split; [simpl; lia|done]. }
  rewrite andb_true_r. destruct ((i <? num) || (num =? 0))%nat eqn:Hn.
  2: { apply orb_false_iff in Hn as [Hn1%Nat.ltb_ge Hn2%Nat.eqb_neq].
       exists [], d, 0%nat. rewrite app_nil_r. simpl. split; [do 2 f_equal; lia|]. split; [constructor|].
       split; [|split; [simpl; lia|done]]. apply end_count; [done|simpl; lia]. }
  assert (Hi' : num <> 0%nat -> (S i <= num)%nat).
  { intros Hnz. apply orb_true_iff in Hn as [Hn%Nat.ltb_lt|Hn%Nat.eqb_eq]; lia. }
  destruct (decode_ext_step_ro buf len flags d) as (h & Eh & <- & Hs); [done..|].
  change collect with (ro (fun h l => (0, l ++ [h]))). cbn [fst snd].
  destruct Hs as [[Hs Est]|[(Hs & Hno & Est)|(next & Hs & Est)]]; rewrite Est;
    change (ro (fun h l => (0, l ++ [h]))) with collect; cbn -[decode_ext_loop Z.land].
  - exists [], (h_data h), 0%nat. rewrite app_nil_r. split; [do 2 f_equal; simpl; lia|].
    split; [constructor|]. split; [apply end_table; right; eauto|]. split; [simpl; lia|done].
  - exists [], (h_data h), 1%nat. rewrite app_nil_r. split; [do 2 f_equal; simpl; lia|].
    split; [constructor|]. split; [apply end_truncated; by exists h|]. split; [simpl; lia|done].
  - destruct ((h_type h =? 127) && negb (Z.land flags 2 =? 0)) eqn:Em; cbn -[decode_ext_loop Z.land].
    + bools. exists [h], next, 0%nat. split; [do 2 f_equal; simpl; lia|].
      split; [econstructor; [done|constructor]|]. split; [by apply (end_marker _ _ _ _ _ [])|].
      split; [simpl; lia|constructor].
    + assert (h_data h < next)%nat by (destruct Hs; lia).
      destruct (IH (S i) next (acc ++ [h])) as (hs & fin & x & E & Hc & He & Hok1 & Hok2);
        [destruct Hs; lia|done|].
      exists (h :: hs), fin, x. rewrite <- app_assoc in E. split; [change (length (h :: hs)) with (S (length hs)); rewrite E; f_equal; f_equal; lia|].
      split; [by econstructor|]. split; [by apply walk_end_cons|]. split; [simpl; lia|].
      intros Hfl. destruct hs as [|h2 hs]; [constructor|]. constructor; [|by apply Hok2].
      intros E127. rewrite E127 in Em. simpl in Em. apply negb_false_iff, Z.eqb_eq in Em. done.
Qed.

(** A read-only callback sees the structures that [collect] keeps, up to the
    first one it stops at. *)
Lemma decode_ext_loop_fold {U} (f : dmi_header -> U -> Z * U) fuel buf len num flags i d acc n l u :
  (len <= length buf)%nat ->
  decode_ext_loop fuel len num flags (Some collect) i d (buf, acc) = Some (n, (buf, l)) ->
  exists hs n', l = acc ++ hs /\
    decode_ext_loop fuel len num flags (Some (ro f)) i d (buf, u) = Some (n', (buf, fold_stop f hs u)).
Proof.
  intros Hlen. revert i d acc u. induction fuel as [|fu IH]; intros i d acc u; [done|].
  cbn -[decode_ext_step Nat.ltb Nat.leb Nat.eqb Nat.add].
  destruct (Nat.leb_spec (d + 4) len) as [Hd|Hd].
  2: { rewrite andb_false_r. intros [= _ <-]. exists [], i. by rewrite app_nil_r. }
  rewrite andb_true_r. case_match.
  2: { intros [= _ <-]. exists [], i. by rewrite app_nil_r. }
  destruct (decode_ext_step_ro buf len flags d) as (h & Eh & <- & Hs); [done..|].
  change collect with (ro (fun h l => (0, l ++ [h]))). cbn [fst snd].
  destruct Hs as [[Hs Est]|[(Hs & Hno & Est)|(next & Hs & Est)]]; rewrite !Est;
    change (ro (fun h l => (0, l ++ [h]))) with collect; cbn -[decode_ext_loop Z.land];
    try (intros [= _ <-]; exists []; rewrite app_nil_r; by eexists).
  destruct (f h u) as [z u'] eqn:Ef.
  destruct ((h_type h =? 127) && negb (Z.land flags 2 =? 0)) eqn:Em; cbn -[decode_ext_loop Z.land].
  - intros [= _ <-]. exists [h]. simpl. rewrite Ef. destruct (z =? 0); cbn; by eexists.
  - intros E. destruct (IH (S i) next (acc ++ [h]) u' E) as (hs & n' & -> & E').
    exists (h :: hs). rewrite <- app_assoc. simpl. rewrite Ef. destruct (z =? 0); cbn; by eexists.
Qed.

Lemma dmi_structs_eq buf len num ver flags :
  (len <= length buf)%nat ->
  exists fin x,
    dmi_table_decode_ext buf len num ver flags (Some collect) []
      = Some ((length (dmi_structs buf len num flags) + x)%nat, (buf, dmi_structs buf len num flags)) /\
    chain buf len 0 (dmi_structs buf len num flags) fin /\
    walk_end buf len num flags 0 (dmi_structs buf len num flags) fin x /\
    walk_ok num flags 0 (dmi_structs buf len num flags).
Proof.
  intros Hlen. destruct (decode_ext_loop_collect (S len) buf len num flags 0 0 [])
    as (hs & fin & x & E & Hc & He & Hok); [done|lia|lia|].
  assert (dmi_structs buf len num flags = hs) as ->.
  { unfold dmi_structs, dmi_table_decode_ext. by rewrite E. }
  exists fin, x. unfold dmi_table_decode_ext. by rewrite E.
Qed.

Lemma dmi_table_decode_ext_fold {U} (f : dmi_header -> U -> Z * U) buf len num ver flags u :
  (len <= length buf)%nat ->
  exists n, dmi_table_decode_ext buf len num ver flags (Some (ro f)) u
    = Some (n, (buf, fold_stop f (dmi_structs buf len num flags) u)).
Proof.
  intros Hlen. destruct (dmi_structs_eq buf len num ver flags Hlen) as (fin & x & E & _).
  unfold dmi_table_decode_ext in *.
  destruct (decode_ext_loop_fold f _ _ _ _ _ _ _ _ _ _ u Hlen E) as (hs & n & -> & E'). by eexists.
Qed.

(** ** What the functions of dmi_decode_ext.h promise *)

(** dmi_table_decode_ext() gives the callback exactly the consecutive structures that start at the
    head of the table and end with a pair of NUL bytes inside it, and stops only at the announced
    count, at an end-of-table marker when it is asked to, at a header that is short or outside the
    table, or at a structure without an end - which it counts although no callback is called. *)
Theorem decode_ext_spec buf len num ver flags :
  (len <= length buf)%nat ->
  exists hs fin x,
    dmi_table_decode_ext buf len num ver flags (Some collect) [] = Some ((length hs + x)%nat, (buf, hs)) /\
    chain buf len 0 hs fin /\
    walk_end buf len num flags 0 hs fin x /\
    walk_ok num flags 0 hs.
Proof. intros Hlen. destruct (dmi_structs_eq buf len num ver flags Hlen) as (fin & x & Hw). by eexists _, fin, x. Qed.

(** Whatever the callback does to the bytes of the table, even to those it has not reached yet,
    the walk ends and never reads outside of the buffer; the callback is only given structures
    whose header, formatted area and strings are within the table at that moment. *)
Theorem decode_ext_total {U} (cb : dmi_header_callback_t U) buf len num ver flags u :
  (len <= length buf)%nat ->
  (forall h next buf u, (len <= length buf)%nat -> struct_at buf len h next ->
    exists ret buf' u', cb h (h_data h) (buf, u) = Some (ret, (buf', u')) /\ length buf' = length buf) ->
  exists n buf' u', dmi_table_decode_ext buf len num ver flags (Some cb) u = Some (n, (buf', u')) /\
    length buf' = length buf.
Proof.
  intros Hlen Hcb. unfold dmi_table_decode_ext.
  assert (Hloop : forall fuel i d buf u, (len <= length buf)%nat -> (d <= len < d + fuel)%nat ->
    exists n buf' u', decode_ext_loop fuel len num flags (Some cb) i d (buf, u) = Some (n, (buf', u')) /\
      length buf' = length buf).
  2: { apply Hloop; [done|lia]. }
  clear buf u Hlen. induction fuel as [|f IH]; intros i d buf u Hlen Hf; [lia|].
  cbn -[decode_ext_step Nat.ltb Nat.leb Nat.eqb Nat.add].
  destruct (Nat.leb_spec (d + 4) len) as [Hd|Hd].
  2: { rewrite andb_false_r. by eexists _, _, _. }
  rewrite andb_true_r. case_match; [|by eexists _, _, _].
  unfold decode_ext_step. destruct (to_dmi_header_lt buf d) as (h & Eh & <- & _ & Hl); [lia|].
  rewrite Eh. cbn -[find_next decode_ext_loop Nat.ltb Nat.add Z.land].
  destruct (Z.ltb_spec (h_length h) 4) as [Hs|Hs]; [by eexists _, _, _|].
  destruct (find_next_struct buf len h) as (p & -> & Hp); [done..|].
  cbn -[decode_ext_loop Nat.ltb Nat.add Z.land]. destruct (len <? p + 2)%nat eqn:El; [by eexists _, _, _|].
  destruct (Hcb h _ buf u Hlen Hp) as (ret & buf' & u' & -> & Hb).
  cbn -[decode_ext_loop Nat.ltb Nat.add Z.land].
  destruct (ret =? 0); cbn -[decode_ext_loop Nat.ltb Nat.add Z.land]; [|by eexists _, _, _].
  case_match; cbn -[decode_ext_loop Nat.ltb Nat.add Z.land]; [by eexists _, _, _|].
  destruct (IH (S i) (p + 2)%nat buf' u') as (n & b & v & -> & Hb'); [lia|destruct Hp; lia|].
  exists n, b, v. split; [done|lia].
Qed.

Lemma find_context_fold (key : dmi_header -> Z) k hs o :
  fold_stop (fun h c => if key h =? target c then (1, mk_find_context (target c) h 1) else (0, c))
    hs (mk_find_context k o 0) =
  match List.find (fun h => key h =? k) hs with
  | Some h => mk_find_context k h 1 | None => mk_find_context k o 0
  end.
Proof. induction hs as [|h hs IH]; simpl; [done|]. by destruct (key h =? k). Qed.

Lemma decode_ext_callback_ext {U} (cb cb' : dmi_header_callback_t U) fuel len num flags i d st :
  (forall h d st, cb h d st = cb' h d st) ->
  decode_ext_loop fuel len num flags (Some cb) i d st = decode_ext_loop fuel len num flags (Some cb') i d st.
Proof.
  intros E. revert i d st. induction fuel as [|f IH]; intros i d st; simpl; [done|].
  assert (Hst : forall i, decode_ext_step len flags (Some cb) i d st.1 st.2
    = decode_ext_step len flags (Some cb') i d st.1 st.2).
  { intros j. unfold decode_ext_step. destruct (to_dmi_header st.1 d) as [h|]; [|done].
    cbn -[find_next Nat.ltb Nat.add Z.land]. case_match; [done|]. destruct (find_next _ _ _ _); [|done].
    cbn -[find_next Nat.ltb Nat.add Z.land]. case_match; [done|]. by rewrite E. }
  rewrite Hst. case_match; [|done]. destruct (decode_ext_step _ _ (Some cb') _ _ _ _) as [[|[[? ?] ?]]|]; cbn; [done|apply IH|done].
Qed.

Lemma find_generic (key : dmi_header -> Z) (cb : dmi_header_callback_t find_context) buf len num ver k o :
  (len <= length buf)%nat ->
  (forall h d buf c, cb h d (buf, c) =
    if key h =? target c then Some (1, (buf, mk_find_context (target c) h 1)) else Some (0, (buf, c))) ->
  exists n, dmi_table_decode_ext buf len num ver 0 (Some cb) (mk_find_context k o 0) =
    Some (n, (buf, match List.find (fun h => key h =? k) (dmi_structs buf len num 0) with
                   | Some h => mk_find_context k h 1 | None => mk_find_context k o 0 end)).
Proof.
  intros Hlen Hcb. 
  destruct (dmi_table_decode_ext_fold
    (fun h c => if key h =? target c then (1, mk_find_context (target c) h 1) else (0, c))
    buf len num ver 0 (mk_find_context k o 0) Hlen) as [n E].
  rewrite find_context_fold in E. exists n. rewrite <- E. apply decode_ext_callback_ext.
  intros h d [b c]. rewrite Hcb. unfold ro. by destruct (key h =? target c).
Qed.

(** dmi_table_find_by_type() and dmi_table_find_by_handle() report, of the structures the walk
    visits, the first one with the type or handle, and write its header to [out_header]; when there
    is none they report 0 and leave [out_header] alone. *)
Theorem find_first buf len num ver k o :
  (len <= length buf)%nat ->
  dmi_table_find_by_type buf len num ver k (Some o) =
    Some (match List.find (fun h => h_type h =? k) (dmi_structs buf len num 0) with
          | Some h => (1, Some h) | None => (0, Some o) end) /\
  dmi_table_find_by_handle buf len num ver k (Some o) =
    Some (match List.find (fun h => h_handle h =? k) (dmi_structs buf len num 0) with
          | Some h => (1, Some h) | None => (0, Some o) end).
Proof.
  intros Hlen. unfold dmi_table_find_by_type, dmi_table_find_by_handle.
  destruct (find_generic h_type find_type_callback buf len num ver k o Hlen) as [n1 ->]; [done|].
  destruct (find_generic h_handle find_handle_callback buf len num ver k o Hlen) as [n2 ->]; [done|].
  cbn. by repeat case_match.
Qed.

(** ** The strings *)

Lemma c_strlen_spec l n :
  c_strlen l = Some n <-> exists s rest, l = s ++ x00 :: rest /\ x00 ∉ s /\ length s = n.
Proof.
  revert n. induction l as [|b l IH]; intros n; simpl.
  { split; [done|]. intros ([] & rest & E & _); discriminate. }
  case_bool_decide as Hb.
  - subst b. split.
    + intros [= <-]. exists [], l. split; [done|]. split; [apply not_elem_of_nil|done].
    + intros ([|c s] & rest & E & Hn & <-); [done|]. injection E as E _. by apply not_elem_of_cons in Hn as [? _].
  - rewrite fmap_Some. split.
    + intros (m & (s & rest & -> & Hn & <-)%IH & ->). exists (b :: s), rest. split; [done|]. split; [|done].
      apply not_elem_of_cons. done.
    + intros ([|c s] & rest & E & Hn & <-); [injection E; congruence|].
      injection E as -> ->. apply not_elem_of_cons in Hn as [_ Hn].
      exists (length s). split; [|done]. apply IH. by exists s, rest.
Qed.

Lemma strlen_spec buf p n :
  strlen buf p = Some n <-> exists s, c_string_at buf p s /\ length s = n.
Proof. unfold strlen, c_string_at. rewrite c_strlen_spec.
  split; [intros (s & r & ? & ? & ?)|intros (s & (r & ? & ?) & ?)]; eauto 6. Qed.

(** Before a NUL byte there is a string. *)
Lemma strlen_before buf p e :
  (p <= e)%nat -> buf !! e = Some x00 -> exists s, c_string_at buf p s /\ (p + length s <= e)%nat.
Proof.
  intros Hp He. assert (Hl : exists s rest, drop p buf = s ++ x00 :: rest /\ x00 ∉ s /\ (length s <= e - p)%nat).
  { assert (Hd : drop p buf !! (e - p)%nat = Some x00).
    { rewrite lookup_drop. by replace (p + (e - p))%nat with e by lia. }
    revert Hd. generalize (e - p)%nat. generalize (drop p buf). clear.
    induction l as [|b l IH]; intros n Hd; [done|]. destruct (decide (b = x00)) as [->|Hb].
    - exists [], l. split; [done|]. split; [apply not_elem_of_nil|simpl; lia].
    - destruct n as [|n]; [injection Hd; congruence|]. destruct (IH n Hd) as (s & rest & -> & Hn & Hlen).
      exists (b :: s), rest. split; [done|]. split; [by apply not_elem_of_cons|simpl; lia]. }
  destruct Hl as (s & rest & E & Hn & Hlen). exists s. split; [by exists rest|lia].
Qed.

Lemma strs_string s cur rest : x00 ∉ s -> cur ++ s <> [] -> strs (s ++ x00 :: rest) cur = (cur ++ s) :: strs rest [].
Proof.
  revert cur. induction s as [|b s IH]; intros cur Hn Hc; simpl.
  - rewrite app_nil_r in *. by destruct cur.
  - apply not_elem_of_cons in Hn as [Hb Hn]. rewrite bool_decide_eq_false_2 by congruence.
    rewrite IH, <- app_assoc; [done|done|]. by destruct cur.
Qed.

Lemma c_string_at_inv buf p s c :
  c_string_at buf p s -> rd buf p = Some c ->
  if c =? 0 then s = [] else s <> [].
Proof.
  intros (rest & E & Hn) Hr. rewrite (rd_zero_dec _ _ _ Hr).
  assert (El : buf !! p = (s ++ x00 :: rest) !! 0%nat) by (rewrite <- E, lookup_drop; by rewrite Nat.add_0_r).
  case_bool_decide as Hb; rewrite El in Hb; destruct s as [|b s]; try done. set_solver.
Qed.

Lemma c_string_at_strs buf p s :
  c_string_at buf p s -> s <> [] -> strs (drop p buf) [] = s :: strs (drop (p + length s + 1) buf) [].
Proof.
  intros (rest & E & Hn) Hs. rewrite E, strs_string by (try done; by rewrite app_nil_l). f_equal. f_equal.
  replace (p + length s + 1)%nat with (p + S (length s))%nat by lia.
  rewrite <- drop_drop, E. clear. induction s; [done|by simpl].
Qed.

Lemma strs_zero buf p : buf !! p = Some x00 -> strs (drop p buf) [] = [].
Proof. intros Hp. by rewrite (drop_S _ _ _ Hp). Qed.

(** Up to one byte past a pair of NUL bytes every string has an end before it. *)
Lemma read_string buf p e :
  nul2 buf e -> (p <= S e)%nat ->
  exists c, rd buf p = Some c /\
    if c =? 0 then strs (drop p buf) [] = []
    else exists s, c_string_at buf p s /\ s <> [] /\ (p + length s <= e)%nat /\ strlen buf p = Some (length s) /\
           strs (drop p buf) [] = s :: strs (drop (p + length s + 1) buf) [].
Proof.
  intros Hn Hp. pose proof (nul2_lt _ _ Hn) as Hlt.
  destruct (rd_lt buf p) as (b & Eb & Er); [lia|]. exists (b2z b). split; [done|].
  destruct (b2z b =? 0) eqn:Ez; pose proof (rd_zero_dec _ _ _ Er) as Hz; rewrite Ez in Hz.
  - symmetry in Hz. apply bool_decide_eq_true in Hz. by apply strs_zero.
  - symmetry in Hz. apply bool_decide_eq_false in Hz. destruct Hn as [Hn1 Hn2].
    assert (p <= e)%nat by (destruct (decide (p = S e)) as [->|]; [done|lia]).
    destruct (strlen_before buf p e) as (s & Hs & Hse); [done|done|].
    pose proof (c_string_at_inv _ _ _ _ Hs Er) as Hne. rewrite Ez in Hne.
    exists s. do 3 (split; [done|]). split; [apply strlen_spec; by exists s|]. by apply c_string_at_strs.
Qed.

(** The bytes from [p] to a later pointer. *)
Definition span (buf : list byte) (p q : nat) : list byte := take (q - p) (drop p buf).

Lemma span_string buf p s q :
  c_string_at buf p s -> (p + length s + 1 <= q)%nat ->
  span buf p q = s ++ x00 :: span buf (p + length s + 1) q.
Proof.
  intros (rest & E & _) Hq. unfold span.
  replace (drop (p + length s + 1) buf) with rest.
  - rewrite E, take_app. f_equal; [apply take_ge; lia|].
    replace (q - p - length s)%nat with (S (q - (p + length s + 1))) by lia. done.
  - replace (p + length s + 1)%nat with (p + S (length s))%nat by lia.
    rewrite <- drop_drop, E. clear. induction s; [done|by simpl].
Qed.

Lemma dmi_string_skip_spec buf k p e :
  nul2 buf e -> (p <= S e)%nat ->
  exists q, dmi_string_skip buf (S k) p = Some q /\ (p <= q <= S e)%nat /\
    strs (drop q buf) [] = drop k (strs (drop p buf) []) /\
    ((k < length (strs (drop p buf) []))%nat ->
     forall l, strs (span buf p q ++ l) [] = take k (strs (drop p buf) []) ++ strs l []).
Proof.
  intros Hn. revert p. induction k as [|k IH]; intros p Hp.
  { exists p. rewrite drop_0. split; [done|]. split; [lia|]. split; [done|]. intros _ l. unfold span.
    by rewrite Nat.sub_diag. }
  destruct (read_string buf p e Hn Hp) as (c & Er & Hc).
  change (dmi_string_skip buf (S (S k)) p) with
    (c ← rd buf p; if c =? 0 then Some p else n ← strlen buf p; dmi_string_skip buf (S k) (p + n + 1)).
  rewrite Er. cbn -[dmi_string_skip]. destruct (c =? 0).
  - exists p. rewrite Hc, drop_nil. split; [done|]. split; [lia|]. split; [done|]. simpl. lia.
  - destruct Hc as (s & Hs & Hne & Hle & -> & ->). cbn -[dmi_string_skip].
    destruct (IH (p + length s + 1)%nat) as (q & -> & Hp' & E & El); [lia|]. exists q.
    split; [done|]. split; [lia|]. split; [done|]. simpl. intros Hk l.
    rewrite (span_string _ _ _ _ Hs) by lia. rewrite <- app_assoc. simpl.
    destruct Hs as (rest & _ & Hs0). rewrite strs_string by done. simpl. by rewrite El by lia.
Qed.

Section filter.
Context `{CharSign}.

(** What the filter makes of a byte. *)
Definition dot (b : byte) : byte := if filtered b then x2e else b.

Lemma ascii_filter_spec buf p n :
  (p + n <= length buf)%nat ->
  ascii_filter buf p n = Some (take p buf ++ map dot (take n (drop p buf)) ++ drop (p + n) buf).
Proof.
  revert buf p. induction n as [|n IH]; intros buf p Hp; simpl.
  { by rewrite Nat.add_0_r, take_drop. }
  destruct (lookup_lt_is_Some_2 buf p) as [b Hb]; [lia|]. rewrite Hb. simpl.
  assert (E : (if filtered b then <[p:=x2e]> buf else buf) = <[p := dot b]> buf).
  { unfold dot. case_match; [done|]. by rewrite list_insert_id. }
  rewrite E, IH by (rewrite length_insert; lia). f_equal.
  rewrite (drop_S buf b p Hb). simpl.
  rewrite (take_S_r _ _ (dot b)) by (apply list_lookup_insert_eq; lia).
  rewrite <- app_assoc, take_insert_ge by done. simpl. do 2 f_equal.
  rewrite !drop_insert_lt by lia. do 2 f_equal. f_equal. lia.
Qed.

Lemma map_dot_nul s : x00 ∉ s -> x00 ∉ map dot s.
Proof.
  intros Hn. rewrite list_elem_of_In, in_map_iff. intros (b & Hb & Hin). apply list_elem_of_In in Hin.
  unfold dot in Hb. case_match; [done|]. by subst.
Qed.

(** The table after dmi_string() gave out the string [s] at [p]. *)
Definition filter_at (dump : bool) (buf : list byte) (p : nat) (s : list byte) : list byte :=
  if dump then buf else take p buf ++ map dot s ++ drop (p + length s) buf.

Lemma filter_at_length dump buf p s :
  c_string_at buf p s -> length (filter_at dump buf p s) = length buf.
Proof.
  intros (rest & E & _). unfold filter_at. destruct dump; [done|].
  assert (El : length (drop p buf) = length (s ++ x00 :: rest)) by (by rewrite E).
  rewrite !length_app, length_map, length_take, !length_drop in *. simpl in El. lia.
Qed.

Lemma filter_at_lookup dump buf p s i :
  c_string_at buf p s -> (i < p \/ p + length s <= i)%nat -> filter_at dump buf p s !! i = buf !! i.
Proof.
  intros Hs Hi. unfold filter_at. destruct dump; [done|].
  assert (Hp : (p + length s < length buf)%nat).
  { destruct Hs as (rest & E & _).
    assert (El : length (drop p buf) = length (s ++ x00 :: rest)) by (by rewrite E).
    rewrite length_app, length_drop in El. simpl in El. lia. }
  destruct Hi as [Hi|Hi].
  - rewrite lookup_app_l by (rewrite length_take; lia). by apply lookup_take_lt.
  - rewrite lookup_app_r by (rewrite length_take; lia). rewrite length_take, Nat.min_l by lia.
    rewrite lookup_app_r by (rewrite length_map; lia). rewrite length_map, lookup_drop. f_equal. lia.
Qed.

Definition out_string (dump : bool) (s : list byte) : list byte := if dump then s else map dot s.

Lemma filter_at_string dump buf p s :
  c_string_at buf p s -> c_string_at (filter_at dump buf p s) p (out_string dump s).
Proof.
  intros (rest & E & Hn). unfold filter_at, out_string. destruct dump; [by exists rest|].
  exists rest. split; [|by apply map_dot_nul].
  assert (El : length (drop p buf) = length (s ++ x00 :: rest)) by (by rewrite E).
  rewrite length_app, length_drop in El. simpl in El.
  rewrite drop_app_length' by (rewrite length_take; lia). f_equal.
  rewrite <- drop_drop, E. clear. induction s; [done|by simpl].
Qed.

Lemma filter_at_split dump buf p0 p s :
  c_string_at buf p s -> (p0 <= p)%nat ->
  drop p0 (filter_at dump buf p s) = span buf p0 p ++ drop p (filter_at dump buf p s).
Proof.
  intros Hs Hp. pose proof (filter_at_length dump _ _ _ Hs) as Hlen.
  rewrite <- (take_drop (p - p0) (drop p0 (filter_at dump buf p s))). rewrite drop_drop.
  replace (p0 + (p - p0))%nat with p by lia. f_equal. unfold span.
  apply list_eq. intros i. destruct (decide (i < p - p0)%nat) as [Hi|Hi].
  - rewrite !lookup_take_lt, !lookup_drop by done. apply filter_at_lookup; [done|lia].
  - by rewrite !lookup_take_ge by lia.
Qed.

(** dmi_string() for a string number from 1 on, whatever the header says of the start of the strings,
    as long as a pair of NUL bytes follows. *)
Lemma dmi_string_at dump buf h k e :
  nul2 buf e -> (h_data h + Z.to_nat (h_length h) <= e)%nat ->
  match dmi_strings buf h !! k with
  | None => dmi_string dump buf h (S k) = Some (buf, BadIndex)
  | Some s => exists p,
      dmi_string dump buf h (S k) = Some (filter_at dump buf p s, StrAt p) /\
      c_string_at buf p s /\ s <> [] /\ (h_data h + Z.to_nat (h_length h) <= p)%nat /\ (p + length s <= e)%nat /\
      dmi_strings (filter_at dump buf p s) h = <[k := out_string dump s]> (dmi_strings buf h)
  end.
Proof.
  intros Hn Hp. unfold dmi_strings. set (p0 := (h_data h + Z.to_nat (h_length h))%nat) in *.
  destruct (dmi_string_skip_spec buf k p0 e Hn) as (q & Eq & Hq & Es & El); [lia|].
  destruct (read_string buf q e Hn) as (c & Er & Hc); [lia|].
  assert (Elk : strs (drop p0 buf) [] !! k = strs (drop q buf) [] !! 0%nat).
  { rewrite Es, lookup_drop. by rewrite Nat.add_0_r. }
  unfold dmi_string. fold p0. rewrite Eq. cbn -[dmi_string_skip]. rewrite Er. cbn -[dmi_string_skip].
  destruct (c =? 0) eqn:Ec; [by rewrite Elk, Hc|].
  destruct Hc as (s & Hs & Hne & Hle & Elen & E). rewrite Elk, E. simpl. exists q.
  pose proof (nul2_lt _ _ Hn).
  split; [|split; [done|split; [done|split; [lia|split; [lia|]]]]].
  - unfold filter_at. destruct dump; simpl; [done|]. rewrite Elen. simpl.
    rewrite ascii_filter_spec by lia. simpl. do 4 f_equal.
    destruct Hs as (rest & E2 & _). rewrite E2. by rewrite take_app_length.
  - assert (Hk : (k < length (strs (drop p0 buf) []))%nat).
    { apply lookup_lt_is_Some_1. rewrite Elk, E. by eexists. }
    rewrite filter_at_split by (done || lia).
    destruct (filter_at_string dump _ _ _ Hs) as (rest & E2 & Hn2). rewrite E2, El by done.
    assert (Hne2 : out_string dump s <> []) by (unfold out_string; by destruct dump, s).
    rewrite strs_string by done. simpl.
    rewrite insert_take_drop by done. f_equal. f_equal.
    assert (Es2 : drop (S k) (strs (drop p0 buf) []) = strs (drop (q + length s + 1) buf) []).
    { rewrite E in Es. replace (S k) with (k + 1)%nat by lia. by rewrite <- drop_drop, <- Es. }
    rewrite Es2. f_equal.
    assert (E3 : drop (q + length s + 1) (filter_at dump buf q s) = drop (q + length s + 1) buf).
    { apply list_eq. intros i. rewrite !lookup_drop. apply filter_at_lookup; [done|lia]. }
    rewrite <- E3. replace (q + length s + 1)%nat with (q + S (length s))%nat by lia.
    rewrite <- drop_drop, E2.
    assert (Hlo : length (out_string dump s) = length s) by (unfold out_string; destruct dump; [done|apply length_map]).
    rewrite <- Hlo. clear. induction (out_string dump s); [done|by simpl].
Qed.
End filter.

(** C40: On a structure of the walk dmi_string() returns the s-th of its strings, or <BAD INDEX>
    when there are fewer; it reads nothing past the structure, and the ASCII filter changes only
    the bytes of that string. *)
Theorem dmi_string_spec `{CharSign} dump buf len h next k :
  (len <= length buf)%nat -> struct_at buf len h next ->
  match dmi_strings buf h !! k with
  | None => dmi_string dump buf h (S k) = Some (buf, BadIndex)
  | Some s => exists buf' p,
      dmi_string dump buf h (S k) = Some (buf', StrAt p) /\
      c_string_at buf' p (if dump then s else map dot s) /\
      (h_data h + Z.to_nat (h_length h) <= p)%nat /\ (p + length s + 2 <= next)%nat /\
      length buf' = length buf /\
      (forall i, (i < p \/ p + length s <= i)%nat -> buf' !! i = buf !! i)
  end.
Proof.
  intros Hlen Hs. pose proof (sa_lo _ _ _ _ Hs) as Hlo.
  pose proof (dmi_string_at dump buf h k (next - 2) (sa_end _ _ _ _ Hs)) as Hat.
  destruct (dmi_strings buf h !! k) as [s|]; [|apply Hat; lia].
  destruct Hat as (p & E & Hc & Hne & Hp & Hpe & _); [lia|].
  exists (filter_at dump buf p s), p. split; [done|]. split; [by apply filter_at_string|].
  split; [done|]. split; [lia|]. split; [by apply filter_at_length|].
  intros i Hi. by apply filter_at_lookup.
Qed.

(** ** Witnesses *)

(** A system information structure with the strings "AB" and "C\xff", and the end marker. *)
Definition sample_table : list byte :=
  [x01; x06; x00; x01; x01; x02; x41; x42; x00; x43; xff; x00; x00; x7f; x04; x02; x00; x00; x00].

Definition sample_header : dmi_header := mk_dmi_header 1 6 256 0.

Lemma sample_struct : struct_at sample_table 19 sample_header 13.
Proof.
  split; try (vm_compute; first [done|lia]).
  intros p Hp. assert (Hc : (p = 6 \/ p = 7 \/ p = 8 \/ p = 9 \/ p = 10)%nat) by (cbn in Hp; lia).
  destruct Hc as [->|[->|[->|[->| ->]]]]; intros [E1 E2]; vm_compute in E1; vm_compute in E2; congruence.
Qed.

Lemma decode_ext_spec_witness :
  (19 <= length sample_table)%nat /\
  exists hs fin x,
    dmi_table_decode_ext sample_table 19 0 0 0 (Some collect) [] = Some ((length hs + x)%nat, (sample_table, hs)) /\
    chain sample_table 19 0 hs fin /\ walk_end sample_table 19 0 0 0 hs fin x /\ walk_ok 0 0 0 hs.
Proof. split; [vm_compute; lia|]. apply decode_ext_spec. vm_compute; lia. Defined.

(** A callback that asks for the second string of every structure. *)
Definition string_callback `{CharSign} : dmi_header_callback_t (list dmi_str) :=
  fun h _ '(buf, l) => r ← dmi_string_ext buf h 2; Some (0, (r.1, l ++ [r.2])).

Lemma string_callback_ok `{CharSign} len h next buf l :
  (len <= length buf)%nat -> struct_at buf len h next ->
  exists ret buf' u', string_callback h (h_data h) (buf, l) = Some (ret, (buf', u')) /\ length buf' = length buf.
Proof.
  intros Hlen Hs. unfold string_callback, dmi_string_ext.
  pose proof (dmi_string_at false buf h 1 (next - 2) (sa_end _ _ _ _ Hs)) as Hat.
  pose proof (sa_lo _ _ _ _ Hs). destruct (dmi_strings buf h !! 1%nat) as [s|].
  - destruct Hat as (p & -> & Hc & _); [lia|]. eexists _, _, _. split; [done|]. by apply (filter_at_length false).
  - rewrite Hat by lia. by eexists _, _, _.
Qed.

Lemma decode_ext_total_witness :
  (19 <= length sample_table)%nat /\
  exists n buf' u',
    dmi_table_decode_ext sample_table 19 0 0 0 (Some (@string_callback true)) [] = Some (n, (buf', u')) /\
    length buf' = length sample_table.
Proof.
  split; [vm_compute; lia|]. apply (decode_ext_total (@string_callback true)); [vm_compute; lia|].
  intros h next buf u. apply string_callback_ok.
Defined.

Lemma find_first_witness :
  (19 <= length sample_table)%nat /\
  dmi_table_find_by_type sample_table 19 0 0 127 (Some sample_header) = Some (1, Some (mk_dmi_header 127 4 2 13)) /\
  dmi_table_find_by_handle sample_table 19 0 0 256 (Some sample_header) = Some (1, Some sample_header).
Proof.
  split; [vm_compute; lia|]. split.
  - rewrite (proj1 (find_first sample_table 19 0 0 127 sample_header ltac:(vm_compute; lia))). by vm_compute.
  - rewrite (proj2 (find_first sample_table 19 0 0 256 sample_header ltac:(vm_compute; lia))). by vm_compute.
Defined.

Lemma dmi_string_spec_witness :
  struct_at sample_table 19 sample_header 13 /\
  exists buf' p,
    @dmi_string true false sample_table sample_header 2 = Some (buf', StrAt p) /\
    c_string_at buf' p [x43; x2e] /\ (6 <= p)%nat /\ (p + 2 + 2 <= 13)%nat /\
    length buf' = length sample_table /\
    (forall i, (i < p \/ p + 2 <= i)%nat -> buf' !! i = sample_table !! i).
Proof.
  split; [apply sample_struct|].
  apply (@dmi_string_spec true false sample_table 19 sample_header 13 1 ltac:(vm_compute; lia) sample_struct).
Defined.
