(* ===== verification/DmiDump.v ===== *)
(** * DmiDump: what dmidecode prints of a table

    Models dmi_dump(), dmi_system_uuid(), dmi_processor_family() with its table,
    dmi_chassis_type(), dmi_processor_frequency(), dmi_fixup_type_34(),
    dmi_table_string() and dmi_table_decode() of
    src/dmidecode/dmidecode-3.2/dmidecode.c, and dmi_set_vendor() of dmioem.c.

    The output is a list of events, one for each message with what it prints.
    dmi_decode(), which formats one structure, is a parameter: it may write to the
    table, as it calls dmi_string().  As in DmiTable, [None] is an access outside
    of the buffer or a loop that does not end. *)

From S2P Require Import Bytes GLib DmiTable.

(** ** Texts *)

(** The C string a dmi_string() result points to. *)
Definition str_text (buf : list byte) (s : dmi_str) : option (list byte) :=
  match s with
  | NotSpecified => Some (bs "Not Specified")
  | BadIndex => Some (bs "<BAD INDEX>")
  | StrAt p => n ← strlen buf p; Some (take n (drop p buf))
  end.

(** strncmp (a, b, n) == 0, strncasecmp (a, b, n) == 0 and strstr (a, b) != NULL *)
Definition strncmp_eq (a b : list byte) (n : nat) : bool :=
  bool_decide (take n (a ++ [x00]) = take n (b ++ [x00])).

Definition tolower (b : byte) : byte := if in_range 65 90 b then z2b (b2z b + 32) else b.

Definition strncasecmp_eq (a b : list byte) (n : nat) : bool :=
  strncmp_eq (map tolower a) (map tolower b) n.

Fixpoint strstr (a b : list byte) : bool :=
  bool_decide (take (length b) a = b) || match a with [] => false | _ :: a' => strstr a' b end.

(** ** dmioem.c *)

Inductive dmi_vendors :=
| VENDOR_UNKNOWN | VENDOR_ACER | VENDOR_HP | VENDOR_HPE | VENDOR_IBM | VENDOR_LENOVO.

#[export] Instance dmi_vendors_eq_dec : EqDecision dmi_vendors.
Proof. solve_decision. Defined.

(** while (len && s[len - 1] == ' ') len--; *)
Fixpoint trim_len (s : list byte) (len : nat) : nat :=
  match len with
  | O => O
  | S n => if bool_decide (s !! n = Some x20) then trim_len s n else len
  end.

Definition dmi_set_vendor (dmi_vendor : dmi_vendors) (s : list byte) : dmi_vendors :=
  let len := trim_len s (length s) in
  if strncmp_eq s (bs "Acer") len then VENDOR_ACER
  else if strncmp_eq s (bs "HP") len || strncmp_eq s (bs "Hewlett-Packard") len then VENDOR_HP
  else if strncmp_eq s (bs "HPE") len || strncmp_eq s (bs "Hewlett Packard Enterprise") len then VENDOR_HPE
  else if strncmp_eq s (bs "IBM") len then VENDOR_IBM
  else if strncmp_eq s (bs "LENOVO") len then VENDOR_LENOVO
  else dmi_vendor.

(** ** Single fields *)

Inductive uuid_text :=
| NotPresent
| NotSettable
| Uuid (digits : list byte).

(** The scan of the 16 bytes: [i] counts up to 16. *)
Fixpoint uuid_scan (n : nat) (buf : list byte) (p : nat) (only0x00 only0xFF : bool) : option (bool * bool) :=
  match n with
  | O => Some (only0x00, only0xFF)
  | S n' =>
      if only0x00 || only0xFF then
        c ← rd buf p;
        uuid_scan n' buf (S p) (if negb (c =? 0) then false else only0x00)
          (if negb (c =? 255) then false else only0xFF)
      else Some (only0x00, only0xFF)
  end.

Definition dmi_system_uuid (buf : list byte) (p : nat) (ver : Z) : option uuid_text :=
  '(only0x00, only0xFF) ← uuid_scan 16 buf p true true;
  if only0xFF : bool then Some NotPresent
  else if only0x00 : bool then Some NotSettable
  else
    digits ← mapM (fun i => buf !! (p + i)%nat)
      (if 518 <=? ver then [3; 2; 1; 0; 5; 4; 7; 6; 8; 9; 10; 11; 12; 13; 14; 15]%nat
       else [0; 1; 2; 3; 4; 5; 6; 7; 8; 9; 10; 11; 12; 13; 14; 15]%nat);
    Some (Uuid digits).

(** The names of 7.4.1 and of 7.5.2. *)
Definition chassis_types : list string := [
  "Other"; "Unknown"; "Desktop"; "Low Profile Desktop"; "Pizza Box";
  "Mini Tower"; "Tower"; "Portable"; "Laptop"; "Notebook";
  "Hand Held"; "Docking Station"; "All In One"; "Sub Notebook"; "Space-saving";
  "Lunch Box"; "Main Server Chassis"; "Expansion Chassis"; "Sub Chassis"; "Bus Expansion Chassis";
  "Peripheral Chassis"; "RAID Chassis"; "Rack Mount Chassis"; "Sealed-case PC"; "Multi-system";
  "CompactPCI"; "AdvancedTCA"; "Blade"; "Blade Enclosing"; "Tablet";
  "Convertible"; "Detachable"; "IoT Gateway"; "Embedded PC"; "Mini PC";
  "Stick PC"
].

Definition family2 : list (Z * string) := [
  (1, "Other"); (2, "Unknown"); (3, "8086");
  (4, "80286"); (5, "80386"); (6, "80486");
  (7, "8087"); (8, "80287"); (9, "80387");
  (10, "80487"); (11, "Pentium"); (12, "Pentium Pro");
  (13, "Pentium II"); (14, "Pentium MMX"); (15, "Celeron");
  (16, "Pentium II Xeon"); (17, "Pentium III"); (18, "M1");
  (19, "M2"); (20, "Celeron M"); (21, "Pentium 4 HT");
  (24, "Duron"); (25, "K5"); (26, "K6");
  (27, "K6-2"); (28, "K6-3"); (29, "Athlon");
  (30, "AMD29000"); (31, "K6-2+"); (32, "Power PC");
  (33, "Power PC 601"); (34, "Power PC 603"); (35, "Power PC 603+");
  (36, "Power PC 604"); (37, "Power PC 620"); (38, "Power PC x704");
  (39, "Power PC 750"); (40, "Core Duo"); (41, "Core Duo Mobile");
  (42, "Core Solo Mobile"); (43, "Atom"); (44, "Core M");
  (45, "Core m3"); (46, "Core m5"); (47, "Core m7");
  (48, "Alpha"); (49, "Alpha 21064"); (50, "Alpha 21066");
  (51, "Alpha 21164"); (52, "Alpha 21164PC"); (53, "Alpha 21164a");
  (54, "Alpha 21264"); (55, "Alpha 21364"); (56, "Turion II Ultra Dual-Core Mobile M");
  (57, "Turion II Dual-Core Mobile M"); (58, "Athlon II Dual-Core M"); (59, "Opteron 6100");
  (60, "Opteron 4100"); (61, "Opteron 6200"); (62, "Opteron 4200");
  (63, "FX"); (64, "MIPS"); (65, "MIPS R4000");
  (66, "MIPS R4200"); (67, "MIPS R4400"); (68, "MIPS R4600");
  (69, "MIPS R10000"); (70, "C-Series"); (71, "E-Series");
  (72, "A-Series"); (73, "G-Series"); (74, "Z-Series");
  (75, "R-Series"); (76, "Opteron 4300"); (77, "Opteron 6300");
  (78, "Opteron 3300"); (79, "FirePro"); (80, "SPARC");
  (81, "SuperSPARC"); (82, "MicroSPARC II"); (83, "MicroSPARC IIep");
  (84, "UltraSPARC"); (85, "UltraSPARC II"); (86, "UltraSPARC IIi");
  (87, "UltraSPARC III"); (88, "UltraSPARC IIIi"); (96, "68040");
  (97, "68xxx"); (98, "68000"); (99, "68010");
  (100, "68020"); (101, "68030"); (102, "Athlon X4");
  (103, "Opteron X1000"); (104, "Opteron X2000"); (105, "Opteron A-Series");
  (106, "Opteron X3000"); (107, "Zen"); (112, "Hobbit");
  (120, "Crusoe TM5000"); (121, "Crusoe TM3000"); (122, "Efficeon TM8000");
  (128, "Weitek"); (130, "Itanium"); (131, "Athlon 64");
  (132, "Opteron"); (133, "Sempron"); (134, "Turion 64");
  (135, "Dual-Core Opteron"); (136, "Athlon 64 X2"); (137, "Turion 64 X2");
  (138, "Quad-Core Opteron"); (139, "Third-Generation Opteron"); (140, "Phenom FX");
  (141, "Phenom X4"); (142, "Phenom X2"); (143, "Athlon X2");
  (144, "PA-RISC"); (145, "PA-RISC 8500"); (146, "PA-RISC 8000");
  (147, "PA-RISC 7300LC"); (148, "PA-RISC 7200"); (149, "PA-RISC 7100LC");
  (150, "PA-RISC 7100"); (160, "V30"); (161, "Quad-Core Xeon 3200");
  (162, "Dual-Core Xeon 3000"); (163, "Quad-Core Xeon 5300"); (164, "Dual-Core Xeon 5100");
  (165, "Dual-Core Xeon 5000"); (166, "Dual-Core Xeon LV"); (167, "Dual-Core Xeon ULV");
  (168, "Dual-Core Xeon 7100"); (169, "Quad-Core Xeon 5400"); (170, "Quad-Core Xeon");
  (171, "Dual-Core Xeon 5200"); (172, "Dual-Core Xeon 7200"); (173, "Quad-Core Xeon 7300");
  (174, "Quad-Core Xeon 7400"); (175, "Multi-Core Xeon 7400"); (176, "Pentium III Xeon");
  (177, "Pentium III Speedstep"); (178, "Pentium 4"); (179, "Xeon");
  (180, "AS400"); (181, "Xeon MP"); (182, "Athlon XP");
  (183, "Athlon MP"); (184, "Itanium 2"); (185, "Pentium M");
  (186, "Celeron D"); (187, "Pentium D"); (188, "Pentium EE");
  (189, "Core Solo"); (191, "Core 2 Duo"); (192, "Core 2 Solo");
  (193, "Core 2 Extreme"); (194, "Core 2 Quad"); (195, "Core 2 Extreme Mobile");
  (196, "Core 2 Duo Mobile"); (197, "Core 2 Solo Mobile"); (198, "Core i7");
  (199, "Dual-Core Celeron"); (200, "IBM390"); (201, "G4");
  (202, "G5"); (203, "ESA/390 G6"); (204, "z/Architecture");
  (205, "Core i5"); (206, "Core i3"); (207, "Core i9");
  (210, "C7-M"); (211, "C7-D"); (212, "C7");
  (213, "Eden"); (214, "Multi-Core Xeon"); (215, "Dual-Core Xeon 3xxx");
  (216, "Quad-Core Xeon 3xxx"); (217, "Nano"); (218, "Dual-Core Xeon 5xxx");
  (219, "Quad-Core Xeon 5xxx"); (221, "Dual-Core Xeon 7xxx"); (222, "Quad-Core Xeon 7xxx");
  (223, "Multi-Core Xeon 7xxx"); (224, "Multi-Core Xeon 3400"); (228, "Opteron 3000");
  (229, "Sempron II"); (230, "Embedded Opteron Quad-Core"); (231, "Phenom Triple-Core");
  (232, "Turion Ultra Dual-Core Mobile"); (233, "Turion Dual-Core Mobile"); (234, "Athlon Dual-Core");
  (235, "Sempron SI"); (236, "Phenom II"); (237, "Athlon II");
  (238, "Six-Core Opteron"); (239, "Sempron M"); (250, "i860");
  (251, "i960"); (256, "ARMv7"); (257, "ARMv8");
  (260, "SH-3"); (261, "SH-4"); (280, "ARM");
  (281, "StrongARM"); (300, "6x86"); (301, "MediaGX");
  (302, "MII"); (320, "WinChip"); (350, "DSP");
  (500, "Video Processor")
].

Definition out_of_spec : string := "<OUT OF SPEC>".

Definition dmi_chassis_type (code : Z) : string :=
  let code := Z.land code 127 in
  if (1 <=? code) && (code <=? 36) then nth (Z.to_nat (code - 1)) chassis_types "" else out_of_spec.

(** The binary search of dmi_processor_family() over [low] to [high]. *)
Fixpoint family_search (fuel : nat) (table : list (Z * string)) (code : Z) (low high : nat) : option string :=
  match fuel with
  | O => None
  | S f =>
      let i := ((low + high) / 2)%nat in
      e ← table !! i;
      if e.1 =? code then Some e.2
      else if (low =? high)%nat then Some out_of_spec
      else if code <? e.1 then family_search f table code low i
      else family_search f table code (S i) high
  end.

Section decode.
Context `{CharSign}.

(** The text of a string number of the structure. *)
Definition dmi_string_text (dump : bool) (buf : list byte) (h : dmi_header) (s : Z)
    : option (list byte * list byte) :=
  r ← dmi_string dump buf h (Z.to_nat s);
  t ← str_text r.1 r.2;
  Some (r.1, t).

Definition is_maker (m name : list byte) : bool := strstr m name || strncasecmp_eq m name (length name).

Definition dmi_processor_family (dump : bool) (buf : list byte) (h : dmi_header) (ver : Z)
    : option (list byte * string) :=
  let data := h_data h in
  f ← rd buf (data + 6);
  r ← (if (ver =? 512) && (f =? 48) && (8 <=? h_length h) then
         m ← rd buf (data + 7);
         r ← dmi_string_text dump buf h m;
         Some (r.1, is_maker r.2 (bs "Intel"))
       else Some (buf, false));
  let '(buf, pentium_pro) := (r : list byte * bool) in
  if pentium_pro then Some (buf, "Pentium Pro"%string)
  else
    code ← (if (f =? 254) && (42 <=? h_length h) then rd_word buf (data + 40) else Some f);
    if code =? 190 then
      if 8 <=? h_length h then
        m ← rd buf (data + 7);
        r ← dmi_string_text dump buf h m;
        Some (r.1, if is_maker r.2 (bs "Intel") then "Core 2"%string
                   else if is_maker r.2 (bs "AMD") then "K7"%string
                   else "Core 2 or K7"%string)
      else Some (buf, "Core 2 or K7"%string)
    else
      name ← family_search (length family2) family2 code 0 (length family2 - 1);
      Some (buf, name).

(** ** dmi_dump() *)

Inductive dump_line :=
| HexRow (l : list byte)
| Strings
| Text (s : list byte).

(** The rows of a hexadecimal dump of [len] bytes at [p]. *)
Definition dump_row (buf : list byte) (p : nat) (len row : nat) : option dump_line :=
  l ← mapM (fun i => buf !! (p + 16 * row + i)%nat) (seq 0 (16 `min` (len - 16 * row)));
  Some (HexRow l).

Definition dump_rows (buf : list byte) (p len : nat) : option (list dump_line) :=
  mapM (dump_row buf p len) (seq 0 (Z.to_nat (Z.shiftr (Z.of_nat len - 1) 4 + 1))).

(** What is printed for one string; [s] and its NUL are the bytes at [p] of [mem]. *)
Definition dump_string (dump : bool) (mem : list byte) (p : nat) : option (list dump_line) :=
  n ← strlen mem p;
  if dump then
    rows ← dump_rows mem p (n + 1);
    Some (rows ++ [Text (map dot (take n (drop p mem)))])
  else Some [Text (take n (drop p mem))].

(** while ((s = dmi_string(h, i++)) != bad_index): [i] is an int and the
    argument of dmi_string() an u8. *)
Fixpoint dump_strings (fuel : nat) (dump : bool) (buf : list byte) (h : dmi_header) (i : Z)
    (acc : list dump_line) : option (list byte * list dump_line) :=
  match fuel with
  | O => None
  | S f =>
      '(buf, s) ← dmi_string dump buf h (Z.to_nat (u8 i));
      match s with
      | BadIndex => Some (buf, acc)
      | NotSpecified =>
          l ← dump_string dump (bs "Not Specified" ++ [x00]) 0;
          dump_strings f dump buf h (i + 1) (acc ++ l)
      | StrAt p =>
          l ← dump_string dump buf p;
          dump_strings f dump buf h (i + 1) (acc ++ l)
      end
  end.

Definition dmi_dump (fuel : nat) (dump : bool) (buf : list byte) (h : dmi_header)
    : option (list byte * list dump_line) :=
  let len := Z.to_nat (h_length h) in
  rows ← dump_rows buf (h_data h) len;
  a ← rd buf (h_data h + len);
  b ← (if negb (a =? 0) then Some a else rd buf (h_data h + len + 1));
  if negb (b =? 0) then dump_strings fuel dump buf h 1 (rows ++ [Strings])
  else Some (buf, rows).

(** ** dmi_table_decode() *)

(** The fields of struct opt that it reads; FLAG_QUIET is in the state, since it
    is also written. *)
Record opts := mk_opts {
  opt_dump : bool;
  opt_type : option (Z -> bool);
  opt_handle : Z;
  opt_string : option (Z * Z)
}.

Inductive event :=
| PrintHandle (handle type length : Z)
| InvalidLength (length : Z)
| Truncated
| FixedUp
| Dumped (lines : list dump_line)
| Output (text : list byte)
| NoOemString (offset : Z)
| PrintCount (n : Z)
| PrintText (s : list byte)
| PrintUuid (u : uuid_text)
| PrintMHz (code : Z)
| WrongCount (num i : nat)
| WrongLength (len occupied : nat).

Record dstate := mk_dstate {
  d_buf : list byte;
  d_quiet : bool;
  d_vendor : dmi_vendors;
  d_out : list event
}.

Definition emit (e : event) (st : dstate) : dstate :=
  mk_dstate (d_buf st) (d_quiet st) (d_vendor st) (d_out st ++ [e]).
Definition set_buf (b : list byte) (st : dstate) : dstate :=
  mk_dstate b (d_quiet st) (d_vendor st) (d_out st).

(** The header after the fix and whether it was fixed. *)
Definition dmi_fixup_type_34 (buf : list byte) (h : dmi_header) : option (dmi_header * bool) :=
  if h_length h =? 16 then
    ok ← is_printable buf (h_data h + 11) (16 - 11);
    Some (if (ok : bool) then (mk_dmi_header (h_type h) 11 (h_handle h) (h_data h), true) else (h, false))
  else Some (h, false).

Definition dmi_table_string (o : opts) (type offset : Z) (h : dmi_header) (data : nat) (ver : Z)
    (st : dstate) : option dstate :=
  let buf := d_buf st in
  if type =? 11 then
    n ← (if h_length h <? 5 then Some 0 else rd buf (data + 4));
    if (h_length h <? 5) || (n <? offset) then Some (emit (NoOemString offset) st)
    else if negb (offset =? 0) then
      r ← dmi_string_text (opt_dump o) buf h offset;
      Some (emit (PrintText r.2) (set_buf r.1 st))
    else Some (emit (PrintCount n) st)
  else if h_length h <=? offset then Some st
  else
    let key := Z.lor (Z.shiftl type 8) offset in
    if key =? 264 then
      u ← dmi_system_uuid buf (data + Z.to_nat offset) ver;
      Some (emit (PrintUuid u) st)
    else if key =? 773 then
      c ← rd buf (data + Z.to_nat offset);
      Some (emit (PrintText (bs (dmi_chassis_type c))) st)
    else if key =? 1030 then
      r ← dmi_processor_family (opt_dump o) buf h ver;
      Some (emit (PrintText (bs r.2)) (set_buf r.1 st))
    else if key =? 1046 then
      w ← rd_word buf (data + Z.to_nat offset);
      Some (emit (PrintMHz w) st)
    else
      s ← rd buf (data + Z.to_nat offset);
      r ← dmi_string_text (opt_dump o) buf h s;
      Some (emit (PrintText r.2) (set_buf r.1 st)).

(** dmi_decode (&h, ver) *)
Variable dmi_decode : opts -> list byte -> dmi_header -> Z -> option (list byte * list byte).
Variable dump_fuel : nat.

Definition displayed (o : opts) (quiet : bool) (h : dmi_header) : bool :=
  match opt_type o with None => true | Some t => t (h_type h) end
  && ((opt_handle o =? G_MAXUINT32) || (opt_handle o =? h_handle h))
  && negb (quiet && ((h_type h =? 126) || (h_type h =? 127)))
  && match opt_string o with None => true | Some _ => false end.

(** What is done with a structure that is whole: its vendor, its fixup and its output. *)
Definition decode_struct (o : opts) (ver : Z) (display : bool) (h : dmi_header) (data : nat) (st : dstate)
    : option dstate :=
  st ← (if (h_type h =? 1) && (5 <=? h_length h) then
          s ← rd (d_buf st) (data + 4);
          r ← dmi_string_text (opt_dump o) (d_buf st) h s;
          Some (mk_dstate r.1 (d_quiet st) (dmi_set_vendor (d_vendor st) r.2) (d_out st))
        else Some st);
  hf ← (if h_type h =? 34 then dmi_fixup_type_34 (d_buf st) h else Some (h, false));
  let (h, fixed) := (hf : dmi_header * bool) in
  let st := if fixed && negb (d_quiet st) && display then emit FixedUp st else st in
  if display then
    if opt_dump o then
      r ← dmi_dump dump_fuel (opt_dump o) (d_buf st) h;
      Some (emit (Dumped r.2) (set_buf r.1 st))
    else
      r ← dmi_decode o (d_buf st) h ver;
      Some (emit (Output r.2) (set_buf r.1 st))
  else
    match opt_string o with
    | Some (type, offset) =>
        if type =? h_type h then dmi_table_string o type offset h data ver st else Some st
    | None => Some st
    end.

(** One turn of the loop: whether it goes on, [i], [data] and the state. *)
Definition table_decode_step (o : opts) (len : nat) (ver flags : Z) (i data : nat) (st : dstate)
    : option (bool * nat * nat * dstate) :=
  h ← to_dmi_header (d_buf st) data;
  let display := displayed o (d_quiet st) h in
  if h_length h <? 4 then
    Some (false, i, data,
          if d_quiet st then st
          else let st := emit (InvalidLength (h_length h)) st in
               mk_dstate (d_buf st) true (d_vendor st) (d_out st))
  else
    let i := S i in
    if d_quiet st && (h_type h =? 127) then Some (false, i, data, st)
    else
      let st := if display && (negb (d_quiet st) || opt_dump o)
                then emit (PrintHandle (h_handle h) (h_type h) (h_length h)) st else st in
      p ← find_next (S len) (d_buf st) len (data + Z.to_nat (h_length h));
      let next := (p + 2)%nat in
      if (len <? next)%nat then
        Some (false, i, next, if display && negb (d_quiet st) then emit Truncated st else st)
      else
        st ← decode_struct o ver display h data st;
        Some (negb ((h_type h =? 127) && negb (Z.land flags DMI_EXT_FLAG_STOP_AT_EOT =? 0)), i, next, st).

Fixpoint table_decode_loop (fuel : nat) (o : opts) (len num : nat) (ver flags : Z) (i data : nat) (st : dstate)
    : option (nat * nat * dstate) :=
  match fuel with
  | O => None
  | S f =>
      if ((i <? num) || (num =? 0))%nat && (data + 4 <=? len)%nat then
        r ← table_decode_step o len ver flags i data st;
        let '(go_on, i, data, st) := (r : bool * nat * nat * dstate) in
        if go_on then table_decode_loop f o len num ver flags i data st else Some (i, data, st)
      else Some (i, data, st)
  end.

(** The messages after the loop. *)
Definition table_decode_end (len num i data : nat) (st : dstate) : dstate :=
  if d_quiet st then st
  else
    let st := if negb (num =? 0)%nat && negb (i =? num)%nat then emit (WrongCount num i) st else st in
    if (len <? data)%nat || (negb (num =? 0)%nat && (data <? len)%nat) then emit (WrongLength len data) st
    else st.

Definition dmi_table_decode (o : opts) (len num : nat) (ver flags : Z) (st : dstate) : option dstate :=
  r ← table_decode_loop (S len) o len num ver flags 0 0 st;
  let '(i, data, st) := (r : nat * nat * dstate) in
  Some (table_decode_end len num i data st).
End decode.

(** ** Lookups *)

Lemma mapM_lookup (buf : list byte) q n :
  (q + n <= length buf)%nat ->
  mapM (fun i => buf !! (q + i)%nat) (seq 0 n) = Some (take n (drop q buf)).
Proof.
  intros Hq. apply mapM_Some. apply Forall2_same_length_lookup. split.
  - rewrite length_seq, length_take, length_drop. lia.
  - intros i x y [-> Hi]%lookup_seq Hy. rewrite lookup_take_lt, lookup_drop in Hy by done. done.
Qed.

(** Keys in strictly ascending order. *)
Fixpoint ascending (table : list (Z * string)) : bool :=
  match table with
  | [] => true
  | a :: l => match l with [] => true | b :: _ => a.1 <? b.1 end && ascending l
  end.

Lemma ascending_lookup table i j a b :
  ascending table = true -> (i < j)%nat -> table !! i = Some a -> table !! j = Some b -> a.1 < b.1.
Proof.
  intros Hs. revert i j a b. induction table as [|x l IH]; intros i j a b Hij Ha Hb; [done|].
  destruct l as [|y l]; [destruct j as [|[]]; try done; lia|].
  cbn in Hs. apply andb_true_iff in Hs as [Hxy%Z.ltb_lt Hl]. specialize (IH Hl).
  destruct j as [|j]; [lia|]. destruct i as [|i]; simpl in Ha, Hb.
  - injection Ha as <-. destruct j as [|j]; [injection Hb as <-; lia|].
    enough (y.1 < b.1) by lia. apply (IH 0%nat (S j)); [lia|done..].
  - apply (IH i j); [lia|done..].
Qed.

Lemma family_search_found table code :
  ascending table = true -> table <> [] ->
  family_search (length table) table code 0 (length table - 1) =
  Some (match List.find (fun e => e.1 =? code) table with Some e => e.2 | None => out_of_spec end).
Proof.
  intros Hs Hne.
  assert (Hl : (0 < length table)%nat) by (destruct table; [done|simpl; lia]).
  assert (Hgen : forall fuel low high, (low <= high < length table)%nat -> (high - low < fuel)%nat ->
    (forall i e, table !! i = Some e -> e.1 = code -> (low <= i <= high)%nat) ->
    family_search fuel table code low high =
    Some (match List.find (fun e => e.1 =? code) table with Some e => e.2 | None => out_of_spec end)).
  2: { apply Hgen; [lia|lia|]. intros i e Hi _. apply lookup_lt_Some in Hi. lia. }
  induction fuel as [|f IH]; intros low high Hlh Hf Hin; [lia|]. cbn -[Nat.div].
  set (i := ((low + high) / 2)%nat).
  assert (Hi : (low <= i <= high)%nat /\ (low < high -> i < high)%nat).
  { subst i. pose proof (Nat.div_mod_eq (low + high) 2). pose proof (Nat.mod_upper_bound (low + high) 2). lia. }
  destruct (lookup_lt_is_Some_2 table i) as [e He]; [lia|]. rewrite He. simpl.
  destruct (Z.eqb_spec e.1 code) as [Hc|Hc].
  { destruct (List.find _ table) as [e2|] eqn:Ef.
    - apply List.find_some in Ef as [Hin2%list_elem_of_In Hc2%Z.eqb_eq].
      apply list_elem_of_lookup in Hin2 as [j Hj].
      destruct (lt_eq_lt_dec i j) as [[Hij|Hij]|Hij].
      + pose proof (ascending_lookup _ _ _ _ _ Hs Hij He Hj). lia.
      + subst j. congruence.
      + pose proof (ascending_lookup _ _ _ _ _ Hs Hij Hj He). lia.
    - eapply List.find_none in Ef; [|apply list_elem_of_In, list_elem_of_lookup; eauto].
      apply Z.eqb_neq in Ef. done. }
  destruct (Nat.eqb_spec low high) as [->|Hlow].
  { destruct (List.find _ table) as [e2|] eqn:Ef; [|done].
    apply List.find_some in Ef as [Hin2%list_elem_of_In Hc2%Z.eqb_eq].
    apply list_elem_of_lookup in Hin2 as [j Hj]. pose proof (Hin _ _ Hj Hc2).
    replace j with i in Hj by lia. congruence. }
  destruct (Z.ltb_spec code e.1) as [Hlt|Hge]; apply IH; try lia; intros j e2 Hj Hc2;
    pose proof (Hin _ _ Hj Hc2) as Hj2.
  - destruct (decide (j <= i)%nat) as [|Hji]; [lia|].
    pose proof (ascending_lookup _ i j _ _ Hs ltac:(lia) He Hj). lia.
  - destruct (decide (i < j)%nat) as [|Hji]; [lia|]. destruct (decide (j = i)) as [->|]; [congruence|].
    pose proof (ascending_lookup _ j i _ _ Hs ltac:(lia) Hj He). lia.
Qed.

(** The binary search over a table in ascending order always ends, stays inside the table and
    gives the name of the code, or <OUT OF SPEC> when the table has no entry for it. *)
Theorem family_search_spec table code :
  ascending table = true -> table <> [] ->
  family_search (length table) table code 0 (length table - 1) =
  Some (match List.find (fun e => e.1 =? code) table with Some e => e.2 | None => out_of_spec end).
Proof. apply family_search_found. Qed.

(** The vendor names in the order of the tests. *)
Definition vendor_names : list (string * dmi_vendors) :=
  [("Acer", VENDOR_ACER); ("HP", VENDOR_HP); ("Hewlett-Packard", VENDOR_HP); ("HPE", VENDOR_HPE);
   ("Hewlett Packard Enterprise", VENDOR_HPE); ("IBM", VENDOR_IBM); ("LENOVO", VENDOR_LENOVO)]%string.

Lemma strncmp_eq_prefix s name n :
  x00 ∉ s -> (n <= length s)%nat ->
  strncmp_eq s name n = bool_decide (take n s `prefix_of` name).
Proof.
  intros Hs Hn. unfold strncmp_eq. apply bool_decide_ext. rewrite take_app_le by done. split.
  - intros E. exists (drop n name). assert (Hle : (n <= length name)%nat).
    { destruct (decide (n <= length name)%nat) as [|Hgt]; [done|]. exfalso. apply Hs.
      assert (Hx : x00 ∈ take n s).
      { rewrite E, take_app_ge by lia. apply elem_of_app. right.
        destruct (n - length name)%nat eqn:Ed; [lia|]. simpl. by left. }
      apply elem_of_take in Hx as (i & Hi & _). by eapply list_elem_of_lookup_2. }
    rewrite E, take_app_le by done. by rewrite take_drop.
  - intros [k ->]. rewrite <- app_assoc. rewrite take_app_length'; [done|]. rewrite length_take. lia.
Qed.

Lemma trim_len_le s n : (trim_len s n <= n)%nat.
Proof. induction n; simpl; [lia|]. case_bool_decide; lia. Qed.

(** dmi_set_vendor() takes the manufacturer, less its trailing spaces, for the first vendor that
    has it as a prefix of a name, and leaves the vendor alone when there is none: so "H" is HP and
    a blank manufacturer is Acer. *)
Theorem dmi_set_vendor_spec v s :
  x00 ∉ s ->
  dmi_set_vendor v s =
  match List.find (fun e => bool_decide (take (trim_len s (length s)) s `prefix_of` bs e.1)) vendor_names with
  | Some e => e.2
  | None => v
  end.
Proof.
  intros Hs. unfold dmi_set_vendor. pose proof (trim_len_le s (length s)) as Hle.
  rewrite !strncmp_eq_prefix by done. unfold vendor_names. cbn [List.find fst snd].
  by repeat (case_bool_decide; cbn [orb]).
Qed.

(** ** Hexadecimal rows *)

Definition hex_rows (l : list byte) : list dump_line :=
  map (fun row => HexRow (take 16 (drop (16 * row) l)))
    (seq 0 (Z.to_nat (Z.shiftr (Z.of_nat (length l) - 1) 4 + 1))).

Lemma dump_rows_spec buf p len :
  (p + len <= length buf)%nat -> dump_rows buf p len = Some (hex_rows (take len (drop p buf))).
Proof.
  intros Hp. unfold dump_rows, hex_rows. rewrite length_take, length_drop, Nat.min_l by lia.
  apply mapM_Some. apply Forall2_fmap_r. apply Forall_Forall2_diag. apply Forall_forall.
  intros row _. unfold dump_row.
  assert (E : mapM (fun i => buf !! (p + 16 * row + i)%nat) (seq 0 (16 `min` (len - 16 * row))) =
              Some (take 16 (drop (16 * row) (take len (drop p buf))))).
  2: { by rewrite E. }
  rewrite List.skipn_firstn_comm, take_take, drop_drop.
  destruct (decide (16 * row <= len)%nat) as [Hr|Hr].
  - by rewrite mapM_lookup by lia.
  - by replace (16 `min` (len - 16 * row))%nat with 0%nat by lia.
Qed.

(** ** dmi_dump() *)

Section dump.
Context `{CharSign}.

(** What one string is printed as. *)
Definition string_lines (dump : bool) (s : list byte) : list dump_line :=
  if dump then hex_rows (s ++ [x00]) ++ [Text (map dot s)] else [Text (map dot s)].

Definition expected_dump (dump : bool) (buf : list byte) (h : dmi_header) : list dump_line :=
  let len := Z.to_nat (h_length h) in
  hex_rows (take len (drop (h_data h) buf))
  ++ (if bool_decide (nul2 buf (h_data h + len)) then []
      else Strings :: concat (map (string_lines dump) (dmi_strings buf h))).

Lemma c_string_at_take buf p s : c_string_at buf p s -> take (length s) (drop p buf) = s.
Proof. intros (rest & -> & _). by rewrite take_app_length. Qed.

Lemma c_string_at_lt buf p s : c_string_at buf p s -> (p + length s < length buf)%nat.
Proof.
  intros (rest & E & _). assert (El : length (drop p buf) = length (s ++ x00 :: rest)) by (by rewrite E).
  rewrite length_app, length_drop in El. simpl in El. lia.
Qed.

Lemma dump_string_spec dump buf p s :
  c_string_at (filter_at dump buf p s) p (out_string dump s) -> x00 ∉ s -> 
  dump_string dump (filter_at dump buf p s) p = Some (string_lines dump s).
Proof.
  intros Hc Hs. unfold dump_string. set (mem := filter_at dump buf p s) in *.
  assert (E : strlen mem p = Some (length (out_string dump s))) by (apply strlen_spec; by eexists).
  rewrite E. cbn -[dump_rows]. rewrite (c_string_at_take _ _ _ Hc). unfold out_string, string_lines in *.
  destruct dump; [|done]. rewrite dump_rows_spec by (pose proof (c_string_at_lt _ _ _ Hc); lia). cbn.
  do 4 f_equal. destruct Hc as (rest & Hc & _). change mem with buf in Hc. rewrite Hc.
  replace (length s + 1)%nat with (length (s ++ [x00])) by (rewrite length_app; simpl; lia).
  change (x00 :: rest) with ([x00] ++ rest). by rewrite app_assoc, take_app_length.
Qed.

Lemma filter_at_nul2 dump buf p s e :
  c_string_at buf p s -> (p + length s <= e)%nat -> nul2 buf e -> nul2 (filter_at dump buf p s) e.
Proof. intros Hs He [H1 H2]. split; rewrite filter_at_lookup; auto; lia. Qed.

(** One turn of the loop over the strings, for a string number from 1 to 255. *)
Lemma dump_strings_turn fuel dump buf h e k i acc :
  nul2 buf e -> (h_data h + Z.to_nat (h_length h) <= e)%nat -> u8 i = Z.of_nat (S k) ->
  match dmi_strings buf h !! k with
  | None => dump_strings (S fuel) dump buf h i acc = Some (buf, acc)
  | Some s => exists buf',
      dump_strings (S fuel) dump buf h i acc = dump_strings fuel dump buf' h (i + 1) (acc ++ string_lines dump s) /\
      nul2 buf' e /\ (dump = true -> buf' = buf) /\
      dmi_strings buf' h = <[k := out_string dump s]> (dmi_strings buf h)
  end.
Proof.
  intros Hn He Hi. pose proof (dmi_string_at dump buf h k e Hn He) as Hat. simpl. rewrite Hi, Nat2Z.id.
  destruct (dmi_strings buf h !! k) as [s|]; [|by rewrite Hat].
  destruct Hat as (p & -> & Hc & Hne & Hp & Hpe & Hl). cbn -[u8].
  exists (filter_at dump buf p s). rewrite dump_string_spec; [|by apply filter_at_string|by destruct Hc as (? & _ & ?)].
  split; [done|]. split; [by apply filter_at_nul2|]. split; [by intros ->|done].
Qed.

Lemma dump_strings_rest fuel dump buf h e k acc :
  nul2 buf e -> (h_data h + Z.to_nat (h_length h) <= e)%nat ->
  (length (dmi_strings buf h) < 255)%nat -> (k <= length (dmi_strings buf h))%nat ->
  (length (dmi_strings buf h) - k < fuel)%nat ->
  exists buf', dump_strings fuel dump buf h (Z.of_nat (S k)) acc =
    Some (buf', acc ++ concat (map (string_lines dump) (drop k (dmi_strings buf h)))) /\
    (dump = true -> buf' = buf).
Proof.
  intros Hn He. revert buf k acc Hn. induction fuel as [|f IH]; intros buf k acc Hn Hl Hk Hf; [lia|].
  pose proof (dump_strings_turn f dump buf h e k (Z.of_nat (S k)) acc Hn He) as Ht.
  destruct (dmi_strings buf h !! k) as [s|] eqn:Es.
  - destruct Ht as (buf' & -> & Hn' & Hd & El); [unfold u8; apply Z.mod_small; lia|].
    apply lookup_lt_Some in Es as Hlt.
    destruct (IH buf' (S k) (acc ++ string_lines dump s) Hn') as (buf2 & E & Hd2);
      [rewrite El, length_insert; lia..|].
    exists buf2. replace (Z.of_nat (S k) + 1) with (Z.of_nat (S (S k))) by lia. rewrite E.
    split; [|intros Hdump; rewrite Hd2 by done; auto]. rewrite El, drop_insert_lt by lia.
    rewrite (drop_S _ _ _ Es). simpl. by rewrite <- app_assoc.
  - rewrite Ht by (unfold u8; apply Z.mod_small; lia). apply lookup_ge_None in Es. exists buf.
    split; [|done]. rewrite drop_ge by done. simpl. by rewrite app_nil_r.
Qed.

Lemma dmi_dump_at fuel dump buf h e :
  nul2 buf e -> (h_data h + Z.to_nat (h_length h) <= e)%nat ->
  (length (dmi_strings buf h) < 255)%nat -> (length (dmi_strings buf h) < fuel)%nat ->
  exists buf', dmi_dump fuel dump buf h = Some (buf', expected_dump dump buf h) /\ (dump = true -> buf' = buf).
Proof.
  intros Hn He Hl Hf. pose proof (nul2_lt _ _ Hn) as Hlt. unfold dmi_dump, expected_dump.
  set (len := Z.to_nat (h_length h)) in *. rewrite dump_rows_spec by lia. cbn -[dump_strings].
  destruct (rd_lt buf (h_data h + len)) as (a & Ea & Ra); [lia|].
  destruct (rd_lt buf (h_data h + len + 1)) as (b & Eb & Rb); [lia|].
  rewrite Ra. cbn -[dump_strings].
  assert (Hmid : exists z, (if negb (b2z a =? 0) then Some (b2z a) else rd buf (h_data h + len + 1)) = Some z /\
    (z =? 0) = bool_decide (nul2 buf (h_data h + len))).
  { rewrite (rd_zero_dec _ _ _ Ra). case_bool_decide as Ha; simpl.
    - exists (b2z b). split; [done|]. rewrite (rd_zero_dec _ _ _ Rb). apply bool_decide_ext. unfold nul2.
      rewrite <- (Nat.add_1_r (h_data h + len)). tauto.
    - exists (b2z a). split; [done|]. rewrite (rd_zero_dec _ _ _ Ra). apply bool_decide_ext. unfold nul2.
      rewrite <- (Nat.add_1_r (h_data h + len)). tauto. }
  destruct Hmid as (z & -> & Hz). cbn -[dump_strings]. rewrite Hz. case_bool_decide; cbn -[dump_strings].
  - exists buf. by rewrite app_nil_r.
  - destruct (dump_strings_rest fuel dump buf h e 0 (hex_rows (take len (drop (h_data h) buf)) ++ [Strings]) Hn He)
      as (buf' & E & Hd); [lia..|].
    exists buf'. change (Z.of_nat 1) with 1 in E. rewrite E, drop_0, <- app_assoc. done.
Qed.

(** A loop over at least 255 strings comes back to the first. *)
Lemma dump_strings_loops fuel dump buf h e i acc :
  nul2 buf e -> (h_data h + Z.to_nat (h_length h) <= e)%nat ->
  (255 <= length (dmi_strings buf h))%nat -> dump_strings fuel dump buf h i acc = None.
Proof.
  intros Hn He. revert buf i acc Hn. induction fuel as [|f IH]; intros buf i acc Hn Hl; [done|].
  destruct (Z.eqb_spec (u8 i) 0) as [Hi|Hi].
  - simpl. rewrite Hi. cbn -[u8 dump_string]. destruct (dump_string _ _ _); cbn; [|done]. by apply IH.
  - assert (Hr : 0 <= u8 i < 256) by (unfold u8; apply Z.mod_pos_bound; lia).
    pose proof (dump_strings_turn f dump buf h e (Z.to_nat (u8 i - 1)) i acc Hn He ltac:(lia)) as Ht.
    destruct (lookup_lt_is_Some_2 (dmi_strings buf h) (Z.to_nat (u8 i - 1))) as [s Es]; [lia|].
    rewrite Es in Ht. destruct Ht as (buf' & -> & Hn' & _ & El). apply IH; [done|]. by rewrite El, length_insert.
Qed.
End dump.

(** On a structure with fewer than 255 strings dmi_dump() prints the bytes of its formatted area
    in rows of 16, then every string in order, raw bytes and filtered text with FLAG_DUMP, and it ends
    after one turn for each string and one more; with 255 strings or more, which the 8-bit string
    numbers allow, it never ends, since string number 0 is not <BAD INDEX>. *)
Theorem dmi_dump_spec `{CharSign} fuel dump buf len h next :
  (len <= length buf)%nat -> struct_at buf len h next ->
  ((length (dmi_strings buf h) < 255)%nat -> (length (dmi_strings buf h) < fuel)%nat ->
   exists buf', dmi_dump fuel dump buf h = Some (buf', expected_dump dump buf h) /\ (dump = true -> buf' = buf)) /\
  ((255 <= length (dmi_strings buf h))%nat -> dmi_dump fuel dump buf h = None).
Proof.
  intros Hlen Hs. pose proof (sa_end _ _ _ _ Hs) as Hn. pose proof (sa_lo _ _ _ _ Hs) as Hlo. split.
  - intros Hl Hf. apply (dmi_dump_at _ _ _ _ (next - 2)); [done|lia|done..].
  - intros Hl. unfold dmi_dump. destruct (dump_rows _ _ _) as [rows|]; [|done]. cbn -[dump_strings].
    set (p := (h_data h + Z.to_nat (h_length h))%nat) in *.
    destruct (rd buf p) as [a|] eqn:Ea; [|done]. cbn -[dump_strings].
    assert (Ha : a <> 0).
    { intros ->. apply rd_zero in Ea. pose proof (strs_zero _ _ Ea) as E0. unfold dmi_strings in Hl. fold p in Hl.
      rewrite E0 in Hl. simpl in Hl. lia. }
    apply Z.eqb_neq in Ha. rewrite Ha. cbn -[dump_strings]. rewrite Ha. cbn -[dump_strings].
    apply (dump_strings_loops _ _ _ _ (next - 2)); [done|lia|done].
Qed.

(** ** dmi_table_decode() *)

Lemma struct_at_det buf len h n1 n2 : struct_at buf len h n1 -> struct_at buf len h n2 -> n1 = n2.
Proof.
  intros S1 S2. destruct (lt_eq_lt_dec n1 n2) as [[Hlt| ->]|Hlt]; [|done|].
  - destruct (sa_first _ _ _ _ S2 (n1 - 2)); [|apply S1]. destruct S1, S2. lia.
  - destruct (sa_first _ _ _ _ S1 (n2 - 2)); [|apply S2]. destruct S1, S2. lia.
Qed.

Lemma is_printable_ok buf p n : (p + n <= length buf)%nat -> exists b, is_printable buf p n = Some b.
Proof.
  revert p. induction n as [|n IH]; intros p Hp; simpl; [by eexists|].
  destruct (rd_lt buf p) as (b & _ & ->); [lia|]. simpl. case_match; [by eexists|]. apply IH. lia.
Qed.

(** The header [h] is inside the table and a pair of NUL bytes follows its formatted area. *)
Definition readable (buf : list byte) (h : dmi_header) : Prop :=
  4 <= h_length h /\ exists e, nul2 buf e /\ (h_data h + Z.to_nat (h_length h) <= e)%nat.

Lemma struct_readable buf len h next : struct_at buf len h next -> readable buf h.
Proof. intros Hs. split; [apply Hs|]. exists (next - 2)%nat. destruct Hs. split; [done|lia]. Qed.

Lemma readable_rd buf h i :
  readable buf h -> (i <= S (Z.to_nat (h_length h)))%nat -> exists c, rd buf (h_data h + i) = Some c /\ 0 <= c < 256.
Proof.
  intros (Hl & e & Hn & He) Hi. pose proof (nul2_lt _ _ Hn).
  destruct (rd_lt buf (h_data h + i)) as (b & _ & ->); [lia|]. eexists. split; [done|]. apply b2z_range.
Qed.

Section table.
Context `{CharSign}.

Lemma string_text_ok dump buf h s :
  readable buf h ->
  exists buf' t, dmi_string_text dump buf h s = Some (buf', t) /\ length buf' = length buf /\
    (forall h', h_data h' = h_data h -> h_length h' <= h_length h -> 4 <= h_length h' -> readable buf' h') /\
    (dump = true -> buf' = buf).
Proof.
  intros (Hl & e & Hn & He). unfold dmi_string_text.
  assert (Hr : forall b, nul2 b e -> forall h', h_data h' = h_data h -> h_length h' <= h_length h -> 4 <= h_length h' ->
    readable b h').
  { intros b Hb h' Hd Hle H4. split; [done|]. exists e. split; [done|lia]. }
  destruct (Z.to_nat s) as [|k]; [cbn; by eauto 10|].
  pose proof (dmi_string_at dump buf h k e Hn He) as Hat.
  destruct (dmi_strings buf h !! k) as [t|]; [|rewrite Hat; cbn; by eauto 10].
  destruct Hat as (p & -> & Hc & _ & _ & Hpe & _). cbn.
  assert (E : strlen (filter_at dump buf p t) p = Some (length (out_string dump t))).
  { apply strlen_spec. eexists. split; [by apply filter_at_string|done]. }
  rewrite E. cbn. eexists _, _. split; [done|]. split; [by apply filter_at_length|].
  split; [apply Hr; by apply filter_at_nul2|]. by intros ->.
Qed.

Variable dmi_decode : opts -> list byte -> dmi_header -> Z -> option (list byte * list byte).
Variable dump_fuel : nat.

(** What one look at [i] and [data] does, by what is there. *)
Lemma table_step_at o len ver flags i st h :
  (len <= length (d_buf st))%nat -> to_dmi_header (d_buf st) (h_data h) = Some h ->
  let step := table_decode_step dmi_decode dump_fuel o len ver flags i (h_data h) st in
  let display := displayed o (d_quiet st) h in
  let st1 := if display && (negb (d_quiet st) || opt_dump o)
             then emit (PrintHandle (h_handle h) (h_type h) (h_length h)) st else st in
  (h_length h < 4 -> exists st', step = Some (false, i, h_data h, st') /\ d_buf st' = d_buf st /\
     exists l, d_out st' = d_out st ++ l /\ Forall (fun e => exists n, e = InvalidLength n) l) /\
  (4 <= h_length h -> d_quiet st && (h_type h =? 127) = true -> step = Some (false, S i, h_data h, st)) /\
  (4 <= h_length h -> d_quiet st && (h_type h =? 127) = false -> (forall next, ~ struct_at (d_buf st) len h next) ->
     exists next, step = Some (false, S i, next,
       if display && negb (d_quiet st) then emit Truncated st1 else st1)) /\
  (forall next, d_quiet st && (h_type h =? 127) = false -> struct_at (d_buf st) len h next ->
     step = (st ← decode_struct dmi_decode dump_fuel o ver display h (h_data h) st1;
             Some (negb ((h_type h =? 127) && negb (Z.land flags 2 =? 0)), S i, next, st))).
Proof.
  intros Hlen Hh. cbv zeta. unfold table_decode_step. rewrite Hh. cbn -[find_next Nat.ltb Nat.add decode_struct Z.land].
  split.
  { intros Hs. destruct (Z.ltb_spec (h_length h) 4); [|lia].
    destruct (d_quiet st) eqn:Eq.
    - exists st. split; [done|]. split; [done|]. exists []. by rewrite app_nil_r.
    - eexists. split; [done|]. split; [done|]. eexists. split; [done|]. repeat constructor. by eexists. }
  assert (E4 : forall A (a b : A), 4 <= h_length h -> (if h_length h <? 4 then a else b) = b).
  { intros A a b Hs. by destruct (Z.ltb_spec (h_length h) 4); [lia|]. }
  split; [intros Hs E; by rewrite E4, E by done|].
  assert (Eb : forall b : bool, d_buf (if b then emit (PrintHandle (h_handle h) (h_type h) (h_length h)) st else st) = d_buf st).
  { by intros []. }
  assert (Eq : forall b : bool, d_quiet (if b then emit (PrintHandle (h_handle h) (h_type h) (h_length h)) st else st) = d_quiet st).
  { by intros []. }
  split.
  - intros Hs E Hno. rewrite E4, E by done. rewrite Eb, Eq.
    destruct (find_next_struct (d_buf st) len h Hlen Hh Hs) as (p & -> & Hp). cbn -[Nat.ltb Nat.add decode_struct Z.land].
    destruct (len <? p + 2)%nat; [by eexists|]. by destruct (Hno (p + 2)%nat).
  - intros next E Hst. pose proof (sa_length _ _ _ _ Hst) as Hs. rewrite E4, E by done. rewrite Eb, Eq.
    destruct (find_next_struct (d_buf st) len h Hlen Hh Hs) as (p & -> & Hp). cbn -[Nat.ltb Nat.add decode_struct Z.land].
    destruct (len <? p + 2)%nat; [by destruct (Hp next)|]. by rewrite (struct_at_det _ _ _ _ _ Hp Hst).
Qed.
End table.

Section total.
Context `{CharSign}.

Lemma dmi_fixup_ok buf h :
  readable buf h ->
  exists h' b, dmi_fixup_type_34 buf h = Some (h', b) /\ h_data h' = h_data h /\ h_type h' = h_type h /\
    h_length h' <= h_length h /\ 4 <= h_length h'.
Proof.
  intros (Hl & e & Hn & He). pose proof (nul2_lt _ _ Hn). unfold dmi_fixup_type_34.
  destruct (Z.eqb_spec (h_length h) 16) as [E|E].
  - destruct (is_printable_ok buf (h_data h + 11) (16 - 11)) as (b & ->); [lia|]. cbn.
    destruct b; eexists _, _; (split; [done|]); cbn; lia.
  - eexists _, _. split; [done|]. lia.
Qed.

Lemma family2_search code :
  exists name, family_search (length family2) family2 code 0 (length family2 - 1) = Some name.
Proof. rewrite family_search_found; [by eexists|by vm_compute|done]. Qed.

Lemma rd_word_ok buf i c d : rd buf i = Some c -> rd buf (i + 1) = Some d -> exists w, rd_word buf i = Some w.
Proof. intros E1 E2. unfold rd_word. rewrite E1. cbn -[Nat.add]. rewrite E2. by eexists. Qed.

Lemma readable_word buf h i :
  readable buf h -> (i <= Z.to_nat (h_length h))%nat -> exists w, rd_word buf (h_data h + i) = Some w.
Proof.
  intros Hr Hi. destruct (readable_rd buf h i Hr) as (c & E1 & _); [lia|].
  destruct (readable_rd buf h (i + 1) Hr) as (d & E2 & _); [lia|].
  rewrite Nat.add_assoc in E2. by eapply rd_word_ok.
Qed.

Lemma dmi_processor_family_ok dump buf h ver :
  readable buf h -> 6 < h_length h ->
  exists buf' name, dmi_processor_family dump buf h ver = Some (buf', name) /\ length buf' = length buf.
Proof.
  intros Hr Hl. unfold dmi_processor_family. destruct (readable_rd buf h 6 Hr) as (f & -> & _); [lia|].
  assert (Hm : forall b, readable b h -> 8 <= h_length h -> exists m, rd b (h_data h + 7) = Some m).
  { intros b Hb H8. destruct (readable_rd b h 7 Hb) as (m & E & _); [lia|]. by eexists. }
  cbn -[family_search Nat.add rd rd_word dmi_string_text family2].
  assert (H1 : exists b p, (if (ver =? 512) && (f =? 48) && (8 <=? h_length h) then
         m ← rd buf (h_data h + 7); r ← dmi_string_text dump buf h m; Some (r.1, is_maker r.2 (bs "Intel"))
       else Some (buf, false)) = Some (b, p) /\ readable b h /\ length b = length buf).
  { destruct ((ver =? 512) && (f =? 48) && (8 <=? h_length h)) eqn:E; [|by eexists _, _]. bools.
    destruct (Hm buf Hr) as (m & ->); [lia|]. cbn -[dmi_string_text].
    destruct (string_text_ok dump buf h m Hr) as (b & t & -> & Hb & Hr' & _). cbn.
    eexists _, _. split; [done|]. split; [apply Hr'; [done|lia|lia]|done]. }
  destruct H1 as (b & p & E1 & Hrb & Hb).
  cbn -[family_search Nat.add rd rd_word dmi_string_text family2] in E1. rewrite E1.
  cbn -[family_search Nat.add rd rd_word dmi_string_text family2].
  destruct p; [by eexists _, _|].
  assert (H2 : exists code, (if (f =? 254) && (42 <=? h_length h) then rd_word b (h_data h + 40) else Some f) = Some code).
  { destruct ((f =? 254) && (42 <=? h_length h)) eqn:E; [|by eexists]. bools. apply readable_word; [done|lia]. }
  destruct H2 as (code & ->). cbn -[family_search Nat.add rd rd_word dmi_string_text family2].
  destruct (code =? 190).
  - destruct (Z.leb_spec 8 (h_length h)); [|by eexists _, _].
    destruct (Hm b Hrb) as (m & ->); [lia|]. cbn -[dmi_string_text].
    destruct (string_text_ok dump b h m Hrb) as (b' & t & -> & Hb' & _). cbn.
    eexists _, _. split; [done|]. congruence.
  - destruct (family2_search code) as (name & ->). by eexists _, _.
Qed.

Lemma shiftl_land_low t o : 0 <= o < 256 -> Z.land (Z.shiftl t 8) o = 0.
Proof.
  intros Ho. apply Z.bits_inj'. intros n Hn. rewrite Z.land_spec, Z.bits_0.
  destruct (decide (n < 8)); [by rewrite Z.shiftl_spec_low by lia|].
  rewrite (Z.bits_above_log2 o n), andb_false_r; [done|lia|].
  destruct (decide (o = 0)) as [->|]; [simpl; lia|]. enough (Z.log2 o < 8) by lia. apply Z.log2_lt_pow2; lia.
Qed.

Lemma dmi_table_string_ok o type offset h ver st :
  readable (d_buf st) h -> 0 <= type < 256 -> 0 <= offset < 256 -> (type, offset) <> (1, 8) ->
  exists st', dmi_table_string o type offset h (h_data h) ver st = Some st' /\ length (d_buf st') = length (d_buf st).
Proof.
  intros Hr Ht Ho Hne. unfold dmi_table_string.
  destruct (Z.eqb_spec type 11) as [->|Ht11].
  - assert (H1 : exists n, (if h_length h <? 5 then Some 0 else rd (d_buf st) (h_data h + 4)) = Some n).
    { destruct (Z.ltb_spec (h_length h) 5); [by eexists|].
      destruct (readable_rd _ h 4 Hr) as (n & E & _); [lia|]. by eexists. }
    destruct H1 as (n & ->). cbn -[dmi_string_text]. case_match; [by eexists|].
    case_match; [|by eexists].
    destruct (string_text_ok (opt_dump o) _ h offset Hr) as (b & t & -> & Hb & _). by eexists.
  - destruct (Z.leb_spec (h_length h) offset); [by eexists|].
    destruct (readable_rd _ h (Z.to_nat offset) Hr) as (c & Ec & Hc); [lia|].
    assert (Hkey : Z.lor (Z.shiftl type 8) offset = 256 * type + offset).
    { pose proof (Z.add_lor_land (Z.shiftl type 8) offset) as E. rewrite shiftl_land_low in E by lia.
      rewrite Z.shiftl_mul_pow2 in * by lia. lia. }
    rewrite Hkey.
    destruct (Z.eqb_spec (256 * type + offset) 264); [exfalso; apply Hne; f_equal; lia|].
    destruct (Z.eqb_spec (256 * type + offset) 773); [rewrite Ec; by eexists|].
    destruct (Z.eqb_spec (256 * type + offset) 1030).
    { destruct (dmi_processor_family_ok (opt_dump o) (d_buf st) h ver Hr) as (b & name & -> & Hb); [lia|].
      by eexists. }
    destruct (Z.eqb_spec (256 * type + offset) 1046).
    { destruct (readable_word _ h (Z.to_nat offset) Hr) as (w & ->); [lia|]. by eexists. }
    rewrite Ec. cbn -[dmi_string_text].
    destruct (string_text_ok (opt_dump o) _ h c Hr) as (b & t & -> & Hb & _). by eexists.
Qed.

Variable dmi_decode : opts -> list byte -> dmi_header -> Z -> option (list byte * list byte).
Variable dump_fuel : nat.

(** dmi_decode() stays in the table, given a header that does. *)
Hypothesis dmi_decode_ok : forall o buf h ver, readable buf h ->
  exists buf' text, dmi_decode o buf h ver = Some (buf', text) /\ length buf' = length buf.

Lemma decode_struct_ok o ver display h st :
  readable (d_buf st) h -> opt_dump o = false ->
  (forall type offset, opt_string o = Some (type, offset) ->
     0 <= type < 256 /\ 0 <= offset < 256 /\ (type, offset) <> (1, 8)) ->
  exists st', decode_struct dmi_decode dump_fuel o ver display h (h_data h) st = Some st' /\
    length (d_buf st') = length (d_buf st).
Proof.
  intros Hr Ed Hstr. unfold decode_struct.
  assert (H1 : exists st1, (if (h_type h =? 1) && (5 <=? h_length h) then
          s ← rd (d_buf st) (h_data h + 4);
          r ← dmi_string_text (opt_dump o) (d_buf st) h s;
          Some (mk_dstate r.1 (d_quiet st) (dmi_set_vendor (d_vendor st) r.2) (d_out st))
        else Some st) = Some st1 /\ length (d_buf st1) = length (d_buf st) /\ readable (d_buf st1) h).
  { case_match; [|by eexists]. bools. destruct (readable_rd _ h 4 Hr) as (s & -> & _); [lia|]. cbn -[dmi_string_text].
    destruct (string_text_ok (opt_dump o) _ h s Hr) as (b & t & -> & Hb & Hr' & _). cbn. eexists.
    split; [done|]. split; [done|]. apply Hr'; [done|lia|lia]. }
  destruct H1 as (st1 & -> & Hb1 & Hr1). cbn -[dmi_table_string dmi_fixup_type_34].
  assert (H2 : exists h' b, (if h_type h =? 34 then dmi_fixup_type_34 (d_buf st1) h else Some (h, false)) = Some (h', b) /\
    h_data h' = h_data h /\ h_type h' = h_type h /\ readable (d_buf st1) h').
  { case_match; [|by eexists _, _]. destruct (dmi_fixup_ok _ _ Hr1) as (h' & b & -> & E1 & E2 & E3 & E4).
    eexists _, _. split; [done|]. do 2 (split; [done|]). destruct Hr1 as (_ & e & Hn & He). split; [done|].
    exists e. split; [done|lia]. }
  destruct H2 as (h' & b & -> & Eh & Et & Hr2). cbn -[dmi_table_string].
  set (st2 := if b && negb (d_quiet st1) && display then emit FixedUp st1 else st1).
  assert (E2 : d_buf st2 = d_buf st1) by (unfold st2; by case_match).
  rewrite Ed. destruct display.
  - destruct (dmi_decode_ok o (d_buf st2) h' ver) as (b' & text & -> & Hb'); [by rewrite E2|].
    cbn. eexists. split; [done|]. cbn. congruence.
  - destruct (opt_string o) as [[type offset]|] eqn:Es; [|eexists; split; [done|congruence]].
    case_match; [|eexists; split; [done|congruence]].
    destruct (Hstr _ _ eq_refl) as (? & ? & ?). rewrite <- Eh.
    destruct (dmi_table_string_ok o type offset h' ver st2) as (st' & -> & Hb'); [by rewrite E2|done..|].
    eexists. split; [done|congruence].
Qed.

Lemma table_decode_loop_ok o len num ver flags fuel i d st :
  (len <= length (d_buf st))%nat -> (d <= len < d + fuel)%nat -> opt_dump o = false ->
  (forall type offset, opt_string o = Some (type, offset) ->
     0 <= type < 256 /\ 0 <= offset < 256 /\ (type, offset) <> (1, 8)) ->
  exists r, table_decode_loop dmi_decode dump_fuel fuel o len num ver flags i d st = Some r.
Proof.
  intros Hlen Hf Ed Hstr. revert i d st Hlen Hf. induction fuel as [|f IH]; intros i d st Hlen Hf; [lia|].
  cbn -[table_decode_step Nat.ltb Nat.leb Nat.eqb Nat.add].
  destruct (Nat.leb_spec (d + 4) len) as [Hd|Hd]; [|rewrite andb_false_r; by eexists].
  case_match; [|by eexists].
  destruct (to_dmi_header_lt (d_buf st) d) as (h & Eh & <- & _); [lia|].
  destruct (table_step_at dmi_decode dump_fuel o len ver flags i st h Hlen Eh) as (C1 & C2 & C3 & C4).
  destruct (decide (h_length h < 4)) as [Hl|Hl]; [destruct (C1 Hl) as (? & -> & _); by eexists|].
  destruct (d_quiet st && (h_type h =? 127)) eqn:Eq; [rewrite C2 by (done || lia); by eexists|].
  destruct (find_next_struct (d_buf st) len h Hlen Eh) as (p & _ & Hp); [lia|].
  destruct (len <? p + 2)%nat; [destruct (C3 ltac:(lia) eq_refl Hp) as (next & ->); by eexists|].
  rewrite (C4 _ eq_refl Hp). match goal with |- context [decode_struct _ _ _ _ ?dd _ _ ?ss] =>
    destruct (decode_struct_ok o ver dd h ss) as (st' & -> & Hb) end;
    [case_match; cbn; by eapply struct_readable|done|done|].
  cbn -[table_decode_loop Nat.add Z.land].
  destruct ((h_type h =? 127) && negb (Z.land flags 2 =? 0)); [by eexists|]. apply IH.
  - rewrite Hb. case_match; cbn; lia.
  - destruct Hp. lia.
Qed.
End total.

(** On any bytes whatsoever, dmi_table_decode() ends and reads and writes only the table, with
    any options but FLAG_DUMP and the system-uuid keyword, if dmi_decode() does on the structures it
    is given. *)
Theorem dmi_table_decode_safe `{CharSign} dmi_decode dump_fuel o len num ver flags st :
  (forall o buf h ver, readable buf h ->
     exists buf' text, dmi_decode o buf h ver = Some (buf', text) /\ length buf' = length buf) ->
  (len <= length (d_buf st))%nat -> opt_dump o = false ->
  (forall type offset, opt_string o = Some (type, offset) ->
     0 <= type < 256 /\ 0 <= offset < 256 /\ (type, offset) <> (1, 8)) ->
  exists st', dmi_table_decode dmi_decode dump_fuel o len num ver flags st = Some st'.
Proof.
  intros Hdec Hlen Ed Hstr. unfold dmi_table_decode.
  destruct (table_decode_loop_ok dmi_decode dump_fuel Hdec o len num ver flags (S len) 0 0 st) as (r & ->);
    [done|lia|done|done|]. destruct r as [[i d] st']. by eexists.
Qed.

(** A system information structure of nine bytes at the end of the table. *)
Definition short_system : list byte :=
  [x01; x09; x00; x01; x00; x00; x00; x00; x00; x00; x00].

(** With the system-uuid keyword a system information structure too short for its UUID makes
    dmi_table_decode() read past the end of the table: dmi_table_string() only checks that the first
    byte of the UUID is inside the structure. *)
Theorem system_uuid_overread `{CharSign} dmi_decode dump_fuel ver :
  struct_at short_system 11 (mk_dmi_header 1 9 256 0) 11 /\
  dmi_table_decode dmi_decode dump_fuel (mk_opts false None G_MAXUINT32 (Some (1, 8))) 11 1 ver 0
    (mk_dstate short_system true VENDOR_UNKNOWN []) = None.
Proof.
  split.
  - split; vm_compute; first [done|lia].
  - by vm_compute.
Qed.

(** ** The whole output of dmidecode -u *)

Definition dumps (l : list event) : list (list dump_line) :=
  omap (fun e => match e with Dumped lines => Some lines | _ => None end) l.

(** The header as the dump sees it. *)
Definition fixed_header (buf : list byte) (h : dmi_header) : dmi_header :=
  if h_type h =? 34 then match dmi_fixup_type_34 buf h with Some (h', _) => h' | None => h end else h.

Definition dump_all : opts := mk_opts true None G_MAXUINT32 None.

Section dumpmode.
Context `{CharSign}.
Variable dmi_decode : opts -> list byte -> dmi_header -> Z -> option (list byte * list byte).
Variable dump_fuel : nat.
Hypothesis fuel_enough : (255 <= dump_fuel)%nat.

Definition few_strings (buf : list byte) (h : dmi_header) : Prop :=
  (length (dmi_strings buf (fixed_header buf h)) < 255)%nat.

Lemma decode_struct_dump ver h st next len :
  struct_at (d_buf st) len h next -> few_strings (d_buf st) h ->
  exists st', decode_struct dmi_decode dump_fuel dump_all ver true h (h_data h) st = Some st' /\
    d_buf st' = d_buf st /\ d_quiet st' = d_quiet st /\
    dumps (d_out st') = dumps (d_out st) ++ [expected_dump true (d_buf st) (fixed_header (d_buf st) h)].
Proof.
  intros Hs Hfew. pose proof (struct_readable _ _ _ _ Hs) as Hr. unfold decode_struct.
  assert (H1 : exists st1, (if (h_type h =? 1) && (5 <=? h_length h) then
          s ← rd (d_buf st) (h_data h + 4);
          r ← dmi_string_text (opt_dump dump_all) (d_buf st) h s;
          Some (mk_dstate r.1 (d_quiet st) (dmi_set_vendor (d_vendor st) r.2) (d_out st))
        else Some st) = Some st1 /\ d_buf st1 = d_buf st /\ d_quiet st1 = d_quiet st /\ d_out st1 = d_out st).
  { case_match; [|by eexists]. bools. destruct (readable_rd _ h 4 Hr) as (s & -> & _); [lia|]. cbn -[dmi_string_text].
    destruct (string_text_ok true _ h s Hr) as (b & t & -> & _ & _ & Hb). cbn. eexists. split; [done|].
    cbn. by rewrite Hb. }
  destruct H1 as (st1 & -> & Hb1 & Hq1 & Ho1). cbn -[dmi_fixup_type_34 dmi_dump].
  assert (H2 : exists b, (if h_type h =? 34 then dmi_fixup_type_34 (d_buf st1) h else Some (h, false))
      = Some (fixed_header (d_buf st) h, b)).
  { rewrite Hb1. unfold fixed_header. case_match; [|by eexists].
    destruct (dmi_fixup_ok _ _ Hr) as (h' & b & -> & _). by eexists. }
  destruct H2 as (b & ->). cbn -[dmi_dump].
  set (st2 := if b && negb (d_quiet st1) && true then emit FixedUp st1 else st1).
  assert (E2 : d_buf st2 = d_buf st /\ d_quiet st2 = d_quiet st /\ dumps (d_out st2) = dumps (d_out st)).
  { unfold st2. rewrite <- Ho1. case_match; cbn; [|done]. unfold dumps. by rewrite omap_app, app_nil_r. }
  destruct E2 as (Eb & Eq & Eo). rewrite Eb.
  assert (Hfix : exists e, nul2 (d_buf st) e /\
    (h_data (fixed_header (d_buf st) h) + Z.to_nat (h_length (fixed_header (d_buf st) h)) <= e)%nat).
  { destruct Hr as (Hl & e & Hn & He). exists e. split; [done|]. unfold fixed_header. case_match; [|done].
    destruct (dmi_fixup_ok (d_buf st) h) as (h' & b' & -> & -> & _ & Hle & _); [|lia].
    split; [done|]. by exists e. }
  destruct Hfix as (e & Hn & He). unfold few_strings in Hfew.
  destruct (dmi_dump_at dump_fuel true (d_buf st) (fixed_header (d_buf st) h) e Hn He) as (buf' & -> & Hb);
    [lia..|].
  cbn. eexists. split; [done|]. cbn. rewrite Hb by done. split; [done|]. split; [done|].
  unfold dumps in *. by rewrite omap_app, Eo.
Qed.

(** The output after [out0], [d] and the structures [hs]. *)
Definition dumped_after (buf : list byte) (st0 : dstate) (hs : list dmi_header) (r : option (nat * nat * dstate)) : Prop :=
  exists i' d' st', r = Some (i', d', st') /\ d_buf st' = buf /\
    dumps (d_out st') = dumps (d_out st0) ++ map (fun h => expected_dump true buf (fixed_header buf h)) hs.

Lemma dumped_stop buf st0 i d st :
  d_buf st = buf -> dumps (d_out st) = dumps (d_out st0) -> dumped_after buf st0 [] (Some (i, d, st)).
Proof. intros Hb Ho. exists i, d, st. by rewrite app_nil_r. Qed.

Lemma table_step_dump len ver flags i st h next :
  (len <= length (d_buf st))%nat -> d_quiet st = false -> to_dmi_header (d_buf st) (h_data h) = Some h ->
  struct_at (d_buf st) len h next -> few_strings (d_buf st) h ->
  exists st', table_decode_step dmi_decode dump_fuel dump_all len ver flags i (h_data h) st =
      Some (negb ((h_type h =? 127) && negb (Z.land flags 2 =? 0)), S i, next, st') /\
    d_buf st' = d_buf st /\ d_quiet st' = false /\
    dumps (d_out st') = dumps (d_out st) ++ [expected_dump true (d_buf st) (fixed_header (d_buf st) h)].
Proof.
  intros Hlen Hq Eh Hs Hfew.
  destruct (table_step_at dmi_decode dump_fuel dump_all len ver flags i st h Hlen Eh) as (_ & _ & _ & C4).
  rewrite (C4 next) by (by rewrite ?Hq). rewrite Hq.
  assert (displayed dump_all false h = true) as -> by done. cbn [andb negb orb].
  destruct (decode_struct_dump ver h (emit (PrintHandle (h_handle h) (h_type h) (h_length h)) st) next len)
    as (st' & -> & Hb & Hq' & Ho); [done..|].
  cbn -[Z.land]. eexists. split; [done|]. split; [done|]. split; [by rewrite Hq'|]. rewrite Ho. cbn.
  unfold dumps. by rewrite omap_app, app_nil_r.
Qed.

Lemma table_loop_dump buf len num ver flags fuel i d acc n l :
  (len <= length buf)%nat ->
  decode_ext_loop fuel len num flags (Some collect) i d (buf, acc) = Some (n, (buf, l)) ->
  exists hs, l = acc ++ hs /\
    (Forall (few_strings buf) hs -> forall st, d_buf st = buf -> d_quiet st = false ->
     dumped_after buf st hs (table_decode_loop dmi_decode dump_fuel fuel dump_all len num ver flags i d st)).
Proof.
  intros Hlen. revert i d acc. induction fuel as [|fu IH]; intros i d acc; [done|].
  cbn -[decode_ext_step table_decode_step Nat.ltb Nat.leb Nat.eqb Nat.add].
  destruct (Nat.leb_spec (d + 4) len) as [Hd|Hd].
  2: { rewrite andb_false_r. intros [= _ <-]. exists []. rewrite app_nil_r. split; [done|]. intros. by apply dumped_stop. }
  rewrite andb_true_r. case_match.
  2: { intros [= _ <-]. exists []. rewrite app_nil_r. split; [done|]. intros. by apply dumped_stop. }
  destruct (decode_ext_step_ro buf len flags d) as (h & Eh & <- & Hs); [done..|]. cbn [fst snd].
  change collect with (ro (fun h l => (0, l ++ [h]))).
  destruct Hs as [[Hs Est]|[(Hs & Hno & Est)|(next & Hs & Est)]]; rewrite Est.
  - intros [= _ <-]. exists []. rewrite app_nil_r. split; [done|]. intros _ st <- Hq.
    destruct (table_step_at dmi_decode dump_fuel dump_all len ver flags i st h Hlen Eh) as (C1 & _).
    destruct (C1 Hs) as (st' & -> & Hb & lo & Ho & Hf). apply dumped_stop; [done|].
    rewrite Ho. unfold dumps. rewrite omap_app. rewrite <- (app_nil_r (omap _ (d_out st))) at 2. f_equal.
    clear -Hf. induction Hf as [|x lo [n ->] _ IH]; [done|]. done.
  - intros [= _ <-]. exists []. rewrite app_nil_r. split; [done|]. intros _ st <- Hq.
    destruct (table_step_at dmi_decode dump_fuel dump_all len ver flags i st h Hlen Eh) as (_ & _ & C3 & _).
    rewrite Hq in C3. destruct (C3 ltac:(lia) eq_refl Hno) as (nx & ->).
    apply dumped_stop; [done|]. cbn. unfold dumps. by rewrite !omap_app, !app_nil_r.
  - change (ro (fun h l => (0, l ++ [h]))) with collect. cbn -[decode_ext_loop Z.land table_decode_step].
    destruct ((h_type h =? 127) && negb (Z.land flags 2 =? 0)) eqn:Em; cbn -[decode_ext_loop Z.land table_decode_step].
    + intros [= _ <-]. exists [h]. split; [done|]. intros Hf st <- Hq. apply Forall_cons in Hf as [Hfew _].
      destruct (table_step_dump len ver flags i st h next) as (st' & -> & Hb & _ & Ho); [done..|].
      rewrite Em. by eexists _, _, _.
    + intros E. destruct (IH _ _ _ E) as (hs & -> & Hrest). exists (h :: hs). rewrite <- app_assoc. split; [done|].
      intros Hf st <- Hq. apply Forall_cons in Hf as [Hfew Hf].
      destruct (table_step_dump len ver flags i st h next) as (st' & -> & Hb & Hq' & Ho); [done..|].
      rewrite Em. cbn -[table_decode_loop Z.land]. rewrite <- Hb in Hf. 
      destruct (Hrest ltac:(by rewrite <- Hb) st' Hb Hq') as (i' & d' & st2 & -> & Hb2 & Ho2).
      eexists _, _, _. split; [done|]. split; [done|]. rewrite Ho2, Ho. by rewrite <- app_assoc.
Qed.
End dumpmode.

(** dmidecode -u dumps exactly the structures dmi_table_decode_ext() walks over, in order and
    whole, if none of them has 255 strings: the two walks, which are copies of one another, agree. *)
Theorem dump_mode_spec `{CharSign} dmi_decode dump_fuel buf len num ver flags :
  (255 <= dump_fuel)%nat -> (len <= length buf)%nat ->
  Forall (few_strings buf) (dmi_structs buf len num flags) ->
  exists st', dmi_table_decode dmi_decode dump_fuel dump_all len num ver flags (mk_dstate buf false VENDOR_UNKNOWN [])
      = Some st' /\
    d_buf st' = buf /\
    dumps (d_out st') =
      map (fun h => expected_dump true buf (fixed_header buf h)) (dmi_structs buf len num flags).
Proof.
  intros Hfuel Hlen Hfew. destruct (dmi_structs_eq buf len num ver flags Hlen) as (fin & x & E & _).
  unfold dmi_table_decode_ext in E.
  destruct (table_loop_dump dmi_decode dump_fuel Hfuel buf len num ver flags _ _ _ _ _ _ Hlen E) as (hs & Ehs & Hl).
  simpl in Ehs. subst hs.
  destruct (Hl Hfew (mk_dstate buf false VENDOR_UNKNOWN []) eq_refl eq_refl) as (i & d & st & Et & Hb & Ho).
  unfold dmi_table_decode. rewrite Et. cbn -[Nat.ltb]. eexists. split; [done|].
  unfold table_decode_end. simpl in Ho. rewrite <- Ho.
  split; repeat case_match; cbn; try done; unfold dumps; rewrite ?omap_app; cbn; by rewrite ?app_nil_r.
Qed.

(** ** Witnesses *)

Lemma family_search_spec_witness :
  ascending family2 = true /\
  family_search (length family2) family2 198 0 (length family2 - 1) = Some "Core i7"%string.
Proof.
  split; [by vm_compute|].
  rewrite (family_search_spec family2 198 ltac:(by vm_compute) ltac:(done)). by vm_compute.
Defined.

Lemma dmi_set_vendor_spec_witness :
  x00 ∉ bs "H  " /\ dmi_set_vendor VENDOR_UNKNOWN (bs "H  ") = VENDOR_HP /\
  dmi_set_vendor VENDOR_IBM (bs "  ") = VENDOR_ACER.
Proof.
  assert (H1 : x00 ∉ bs "H  ") by (apply (bool_decide_unpack _); by vm_compute).
  split; [done|]. split.
  - rewrite (dmi_set_vendor_spec VENDOR_UNKNOWN _ H1). by vm_compute.
  - by vm_compute.
Defined.

Lemma dmi_dump_spec_witness :
  struct_at sample_table 19 sample_header 13 /\
  exists buf', @dmi_dump true 255 true sample_table sample_header =
    Some (buf', @expected_dump true true sample_table sample_header) /\ (true = true -> buf' = sample_table).
Proof.
  split; [apply sample_struct|].
  apply (@dmi_dump_spec true 255 true sample_table 19 sample_header 13 ltac:(vm_compute; lia) sample_struct);
    vm_compute; lia.
Defined.

(** A formatter that prints the first string of the structure. *)
Definition first_string `{CharSign} (o : opts) (buf : list byte) (h : dmi_header) (ver : Z)
    : option (list byte * list byte) := dmi_string_text (opt_dump o) buf h 1.

Lemma dmi_table_decode_safe_witness :
  (19 <= length sample_table)%nat /\
  exists st', @dmi_table_decode true (@first_string true) 255 (mk_opts false None G_MAXUINT32 (Some (4, 6)))
    19 0 768 0 (mk_dstate sample_table true VENDOR_UNKNOWN []) = Some st'.
Proof.
  split; [vm_compute; lia|].
  apply (@dmi_table_decode_safe true); [|vm_compute; lia|done|intros t f [= <- <-]; done].
  intros o buf h ver Hr. destruct (@string_text_ok true (opt_dump o) buf h 1 Hr) as (b & t & E & Hb & _).
  by exists b, t.
Defined.

Lemma dump_mode_spec_witness :
  Forall (few_strings sample_table) (dmi_structs sample_table 19 0 0) /\
  exists st', @dmi_table_decode true (@first_string true) 255 dump_all 19 0 768 0
      (mk_dstate sample_table false VENDOR_UNKNOWN []) = Some st' /\
    d_buf st' = sample_table /\
    dumps (d_out st') = map (fun h => @expected_dump true true sample_table (fixed_header sample_table h))
      (dmi_structs sample_table 19 0 0).
Proof.
  assert (Hf : Forall (few_strings sample_table) (dmi_structs sample_table 19 0 0)).
  { vm_compute. repeat constructor; lia. }
  split; [exact Hf|]. apply (@dump_mode_spec true); [lia|vm_compute; lia|exact Hf].
Defined.
