(* ===== verification/DmiEntry.v ===== *)
(** * DmiEntry: entry points and dump files

    Models checksum(), read_file(), mem_chunk(), write_dump() and u64_range() of
    src/dmidecode/dmidecode-3.2/util.c and dmi_table(), overwrite_dmi_address(),
    overwrite_smbios3_address(), smbios3_decode(), smbios_decode(),
    legacy_decode() and main() of dmidecode.c, from the entry point on: the
    options are given, and so is the address that the EFI tables name.

    A file is the list of its bytes.  The call of dmi_table_decode(), which is
    DmiDump.dmi_table_decode, is an event with its arguments.  As in DmiTable,
    [None] is an access outside of a buffer. *)

From S2P Require Import Bytes DmiTable.

(** ** util.c *)

Fixpoint checksum_loop (buf : list byte) (a len : nat) (sum : Z) : option Z :=
  match len with
  | O => Some sum
  | S n => c ← rd buf a; checksum_loop buf (S a) n (u8 (sum + c))
  end.

(** checksum (buf + p, len) *)
Definition checksum (buf : list byte) (p len : nat) : option bool :=
  sum ← checksum_loop buf p len 0; Some (sum =? 0).

(** A file and its open failure. *)
Definition file : Type := option (list byte).

(** read_file(): NULL or the bytes read. *)
Definition read_file (base max_len : Z) (f : file) : option (list byte) :=
  match f with
  | None => None
  | Some l =>
      let st_size := Z.of_nat (length l) in
      if st_size <=? base then None
      else
        let max_len := if st_size - base <? max_len then st_size - base else max_len in
        Some (take (Z.to_nat max_len) (drop (Z.to_nat base) l))
  end.

(** mem_chunk(), which wants all of [len]. *)
Definition mem_chunk (base len : Z) (f : file) : option (list byte) :=
  match f with
  | None => None
  | Some l =>
      if Z.of_nat (length l) <? base + len then None
      else Some (take (Z.to_nat len) (drop (Z.to_nat base) l))
  end.

(** write_dump(): what is in the file afterwards.  Without [add] the file is
    new, and bytes before [base] are a hole; fwrite() of nothing reports no item
    written, and the file stays as it was opened. *)
Definition write_dump (base len : nat) (data : list byte) (f : file) (add : bool) : file :=
  match (if add then f else Some []) with
  | None => None
  | Some l =>
      if (len =? 0)%nat then Some l
      else Some (take base (l ++ repeat x00 (base - length l)) ++ take len data ++ drop (base + len) l)
  end.

(** The u64 of types.h. *)
Record dmi_u64 := mk_u64 { lo : Z; hi : Z }.

Definition u64_range (start end_ : dmi_u64) : dmi_u64 :=
  let h := u32 (hi end_ - hi start) in
  let l := u32 (lo end_ - lo start) in
  let h := if lo end_ <? lo start then u32 (h - 1) else h in
  let l := u32 (l + 1) in
  mk_u64 l (if l =? 0 then u32 (h + 1) else h).

(** ** Entry points *)

(** buf[i] = z *)
Definition wr (buf : list byte) (i : nat) (z : Z) : option (list byte) :=
  if (i <? length buf)%nat then Some (<[i := z2b z]> buf) else None.

Fixpoint rd_sum (buf : list byte) (i n : nat) : option Z :=
  match n with
  | O => Some 0
  | S n' => c ← rd buf i; s ← rd_sum buf (S i) n'; Some (c + s)
  end.

Fixpoint wr_all (buf : list byte) (i : nat) (l : list Z) : option (list byte) :=
  match l with
  | [] => Some buf
  | z :: l' => b ← wr buf i z; wr_all b (S i) l'
  end.

(** overwrite_dmi_address (buf + p) *)
Definition overwrite_dmi_address (buf : list byte) (p : nat) : option (list byte) :=
  c ← rd buf (p + 5);
  s ← rd_sum buf (p + 8) 4;
  buf ← wr buf (p + 5) (c + (s - 32));
  wr_all buf (p + 8) [32; 0; 0; 0].

Definition overwrite_smbios3_address (buf : list byte) : option (list byte) :=
  c ← rd buf 5;
  s ← rd_sum buf 16 8;
  buf ← wr buf 5 (c + (s - 32));
  wr_all buf 16 [32; 0; 0; 0; 0; 0; 0; 0].

Definition FLAG_NO_FILE_OFFSET : Z := 1.
Definition FLAG_STOP_AT_EOT : Z := 2.
Definition SUPPORTED_SMBIOS_VER : Z := 197120.

(** The options of the command line that are read here. *)
Record entry_opts := mk_entry_opts {
  o_quiet : bool;
  o_dump_bin : bool;
  o_from_dump : bool;
  o_no_sysfs : bool;
  o_type_set : bool
}.

Inductive path := DumpFile | EntryFile | TableFile | DevMem.

#[export] Instance path_eq_dec : EqDecision path.
Proof. solve_decision. Defined.

Inductive entry_event :=
| NewerVersion
| Occupying (num len : Z)
| TableAt (base : Z)
| OnlyAvailable (len size : Z)
| ReadFailed
| TableDecode (buf : list byte) (num ver flags : Z)
| LengthTooLarge (length expected : Z)
| Smbios3Present (major minor docrev : Z)
| SmbiosPresent (major minor : Z)
| LegacyPresent (major minor : Z)
| VersionFixup (from to : Z)
| Writing (n : Z)
| SysfsFailed
| NotFound.

Record entry_state := mk_entry_state {
  files : path -> file;
  e_out : list entry_event
}.

Definition say (e : entry_event) (st : entry_state) : entry_state :=
  mk_entry_state (files st) (e_out st ++ [e]).
Definition say_if (b : bool) (e : entry_event) (st : entry_state) : entry_state :=
  if b then say e st else st.
Definition put_dump (f : file) (st : entry_state) : entry_state :=
  mk_entry_state (fun p => if decide (p = DumpFile) then f else files st p) (e_out st).

Section entry.
Variable o : entry_opts.
Let loud : bool := negb (o_quiet o).

Definition dmi_table (base len num ver : Z) (devmem : path) (flags : Z) (st : entry_state) : entry_state :=
  let st := say_if ((SUPPORTED_SMBIOS_VER <? ver) && loud) NewerVersion st in
  let st := say_if (loud && negb (o_type_set o) && negb (num =? 0)) (Occupying num len) st in
  let st := say_if (loud && negb (o_type_set o) && negb (o_from_dump o)) (TableAt base) st in
  let no_offset := negb (Z.land flags FLAG_NO_FILE_OFFSET =? 0) in
  let '(buf, st) :=
    if no_offset || o_from_dump o then
      let buf := read_file (if no_offset then 0 else base) len (files st devmem) in
      let size := match buf with Some b => Z.of_nat (length b) | None => len end in
      (buf, say_if (loud && negb (num =? 0) && negb (size =? len)) (OnlyAvailable len size) st)
    else (mem_chunk base len (files st devmem), st) in
  match buf with
  | None => say ReadFailed st
  | Some b =>
      if o_dump_bin o then
        put_dump (write_dump 32 (length b) b (files st DumpFile) false)
          (say_if loud (Writing (Z.of_nat (length b))) st)
      else say (TableDecode b num (u16 (Z.shiftr ver 8)) flags) st
  end.

(** What a decoder leaves: its result and the state. *)
Definition entry_result : Type := option (bool * entry_state).

Definition smbios3_decode (buf : list byte) (devmem : path) (flags : Z) (st : entry_state) : entry_result :=
  n ← rd buf 6;
  if 32 <? n then Some (false, say (LengthTooLarge n 24) st)
  else
    ok ← checksum buf 0 (Z.to_nat n);
    if negb ok then Some (false, st)
    else
      a ← rd buf 7; b ← rd buf 8; c ← rd buf 9;
      let ver := Z.shiftl a 16 + Z.shiftl b 8 + c in
      let st := say_if loud (Smbios3Present a b c) st in
      l ← rd_dword buf 16; h ← rd_dword buf 20; len ← rd_dword buf 12;
      let st := dmi_table (Z.lor (Z.shiftl h 32) l) len 0 ver devmem (Z.lor flags FLAG_STOP_AT_EOT) st in
      if o_dump_bin o then
        if (length buf <? 32)%nat then None
        else
          crafted ← overwrite_smbios3_address (take 32 buf);
          n ← rd crafted 6;
          let st := say_if loud (Writing n) st in
          Some (true, put_dump (write_dump 0 (Z.to_nat n) crafted (files st DumpFile) true) st)
      else Some (true, st).

(** memcmp (buf + p, lit, strlen (lit)) == 0 *)
Definition memcmp_eq (buf : list byte) (p : nat) (lit : string) : option bool :=
  let n := length (bs lit) in
  if (p + n <=? length buf)%nat then Some (bool_decide (take n (drop p buf) = bs lit)) else None.

(** The fixed version. *)
Definition smbios_ver_fixup (ver : Z) : Z :=
  if (ver =? 543) || (ver =? 545) then 515 else if ver =? 563 then 518 else ver.

(** The [||] chain of the checks after the length. *)
Definition smbios_checks (buf : list byte) (n : nat) : option bool :=
  ok1 ← checksum buf 0 n;
  if negb ok1 then Some false
  else
    ok2 ← memcmp_eq buf 16 "_DMI_";
    if negb ok2 then Some false else checksum buf 16 15.

Definition smbios_decode (buf : list byte) (devmem : path) (flags : Z) (st : entry_state) : entry_result :=
  n ← rd buf 5;
  if 32 <? n then Some (false, say (LengthTooLarge n 31) st)
  else
    ok ← smbios_checks buf (Z.to_nat n);
    if negb ok then Some (false, st)
    else
      a ← rd buf 6; b ← rd buf 7;
      let ver0 := Z.shiftl a 8 + b in
      let ver := smbios_ver_fixup ver0 in
      let st := say_if (loud && negb (ver =? ver0)) (VersionFixup ver0 ver) st in
      let st := say_if loud (SmbiosPresent (Z.shiftr ver 8) (Z.land ver 255)) st in
      base ← rd_dword buf 24; len ← rd_word buf 22; num ← rd_word buf 28;
      let st := dmi_table base len num (Z.shiftl ver 8) devmem flags st in
      if o_dump_bin o then
        if (length buf <? 32)%nat then None
        else
          crafted ← overwrite_dmi_address (take 32 buf) 16;
          n ← rd crafted 5;
          let st := say_if loud (Writing n) st in
          Some (true, put_dump (write_dump 0 (Z.to_nat n) crafted (files st DumpFile) true) st)
      else Some (true, st).

Definition legacy_decode (buf : list byte) (devmem : path) (flags : Z) (st : entry_state) : entry_result :=
  ok ← checksum buf 0 15;
  if negb ok then Some (false, st)
  else
    r ← rd buf 14;
    let st := say_if loud (LegacyPresent (Z.shiftr r 4) (Z.land r 15)) st in
    base ← rd_dword buf 8; len ← rd_word buf 6; num ← rd_word buf 12;
    let st := dmi_table base len num (Z.shiftl (Z.land r 240) 12 + Z.shiftl (Z.land r 15) 8) devmem flags st in
    if o_dump_bin o then
      if (length buf <? 16)%nat then None
      else
        crafted ← overwrite_dmi_address (take 16 buf) 0;
        let st := say_if loud (Writing 15) st in
        Some (true, put_dump (write_dump 0 15 crafted (files st DumpFile) true) st)
    else Some (true, st).

(** ** main() *)

(** The three tests of an entry point of which [size] bytes were read, with the
    least sizes asked for. *)
Definition decode_anchor (n3 n2 n1 : nat) (legacy : bool) (buf : list byte) (devmem : path) (flags : Z)
    (st : entry_state) : entry_result :=
  let size := length buf in
  sm3 ← (if (n3 <=? size)%nat then memcmp_eq buf 0 "_SM3_" else Some false);
  if sm3 : bool then smbios3_decode buf devmem flags st
  else
    sm ← (if (n2 <=? size)%nat then memcmp_eq buf 0 "_SM_" else Some false);
    if sm : bool then smbios_decode buf devmem flags st
    else if legacy then
      dmi ← (if (n1 <=? size)%nat then memcmp_eq buf 0 "_DMI_" else Some false);
      if dmi : bool then legacy_decode buf devmem flags st else Some (false, st)
    else Some (false, st).

(** The two scans of the memory at 0xF0000, over the offsets [fps] that are left. *)
Fixpoint scan_smbios3 (fps : list nat) (buf : list byte) (st : entry_state) : entry_result :=
  match fps with
  | [] => Some (false, st)
  | fp :: rest =>
      m ← memcmp_eq buf fp "_SM3_";
      if m : bool then
        r ← smbios3_decode (drop fp buf) DevMem 0 st;
        if (r : bool * entry_state).1 then Some r else scan_smbios3 rest buf r.2
      else scan_smbios3 rest buf st
  end.

Fixpoint scan_smbios (fps : list nat) (buf : list byte) (st : entry_state) : entry_result :=
  match fps with
  | [] => Some (false, st)
  | fp :: rest =>
      m ← memcmp_eq buf fp "_SM_";
      if m && (Z.of_nat fp <=? 65504) then
        r ← smbios_decode (drop fp buf) DevMem 0 st;
        if (r : bool * entry_state).1 then Some r else scan_smbios rest buf r.2
      else
        d ← memcmp_eq buf fp "_DMI_";
        if d : bool then
          r ← legacy_decode (drop fp buf) DevMem 0 st;
          if (r : bool * entry_state).1 then Some r else scan_smbios rest buf r.2
        else scan_smbios rest buf st
  end.

Definition scan_offsets (n : nat) : list nat := map (fun k => (16 * k)%nat) (seq 0 n).

Inductive efi_address := EFI_NOT_FOUND | EFI_NO_SMBIOS | EFI_FOUND (address : Z).

(** The label done. *)
Definition main_done (r : entry_result) : option (Z * entry_state) :=
  '(found, st) ← r;
  Some (0, say_if (negb found && loud) NotFound st).

Definition memory_scan (st : entry_state) : option (Z * entry_state) :=
  match mem_chunk 983040 65536 (files st DevMem) with
  | None => Some (1, st)
  | Some buf =>
      r ← scan_smbios3 (scan_offsets 4095) buf st;
      if (r : bool * entry_state).1 then main_done (Some r)
      else main_done (scan_smbios (scan_offsets 4096) buf r.2)
  end.

(** From the EFI tables on. *)
Definition main_efi (efi : efi_address) (st : entry_state) : option (Z * entry_state) :=
  match efi with
  | EFI_NOT_FOUND => memory_scan st
  | EFI_NO_SMBIOS => Some (1, st)
  | EFI_FOUND fp =>
      match mem_chunk fp 32 (files st DevMem) with
      | None => Some (1, st)
      | Some buf => main_done (decode_anchor 0 0 0 false buf DevMem 0 st)
      end
  end.

(** The exit status and the state; [efi] is what address_from_efi() found. *)
Definition main (efi : efi_address) (st : entry_state) : option (Z * entry_state) :=
  if o_from_dump o then
    match mem_chunk 0 32 (files st DumpFile) with
    | None => Some (1, st)
    | Some buf => main_done (decode_anchor 0 0 0 true buf DumpFile 0 st)
    end
  else
    match (if o_no_sysfs o then None else read_file 0 32 (files st EntryFile)) with
    | Some buf =>
        r ← decode_anchor 24 31 15 true buf TableFile FLAG_NO_FILE_OFFSET st;
        if (r : bool * entry_state).1 then main_done (Some r)
        else main_efi efi (say_if loud SysfsFailed r.2)
    | None => main_efi efi st
    end.
End entry.

(** ** 64-bit ranges *)

Definition u64_val (x : dmi_u64) : Z := hi x * 4294967296 + lo x.
Definition u64_ok (x : dmi_u64) : Prop := 0 <= lo x < 4294967296 /\ 0 <= hi x < 4294967296.

Lemma mod_near x m :
  - m <= x < 2 * m -> x mod m = if x <? 0 then x + m else if x <? m then x else x - m.
Proof.
  intros Hx. destruct (Z.ltb_spec x 0); [|destruct (Z.ltb_spec x m)].
  - symmetry. apply (Z.mod_unique x m (-1)); lia.
  - apply Z.mod_small. lia.
  - symmetry. apply (Z.mod_unique x m 1); lia.
Qed.

(** u64_range() is end - start + 1 modulo 2^64, borrow and carry between the halves included. *)
Theorem u64_range_spec start end_ :
  u64_ok start -> u64_ok end_ ->
  u64_ok (u64_range start end_) /\ u64_val (u64_range start end_) = u64 (u64_val end_ - u64_val start + 1).
Proof.
  destruct start as [l1 h1], end_ as [l2 h2]. unfold u64_ok, u64_val, u64_range, u64, u32. cbn.
  intros [Hl1 Hh1] [Hl2 Hh2].
  destruct (Z.ltb_spec l2 l1);
  repeat match goal with
  | |- context [?x mod ?m] =>
      rewrite (mod_near x m) by lia; destruct (Z.ltb_spec x 0); [|destruct (Z.ltb_spec x m)]; try lia
  | |- context [?a =? 0] => destruct (Z.eqb_spec a 0); try lia
  end.
Qed.

(** ** Sums *)

Definition sum_bytes (l : list byte) : Z := foldr (fun b s => b2z b + s) 0 l.

Lemma sum_bytes_app l k : sum_bytes (l ++ k) = sum_bytes l + sum_bytes k.
Proof. induction l as [|b l IH]; simpl; [lia|]. rewrite IH. lia. Qed.

Lemma checksum_loop_spec buf p n s :
  (p + n <= length buf)%nat -> 0 <= s < 256 ->
  checksum_loop buf p n s = Some ((s + sum_bytes (take n (drop p buf))) mod 256).
Proof.
  revert p s. induction n as [|n IH]; intros p s Hp Hs; simpl.
  { by rewrite Z.add_0_r, Z.mod_small by lia. }
  destruct (rd_lt buf p) as (b & Eb & ->); [lia|]. cbn.
  rewrite (drop_S _ _ _ Eb). simpl. rewrite IH; [|lia|unfold u8; apply Z.mod_pos_bound; lia].
  unfold u8. f_equal. rewrite Z.add_mod_idemp_l by lia. f_equal. lia.
Qed.

Lemma checksum_spec buf p n :
  (p + n <= length buf)%nat -> checksum buf p n = Some (sum_bytes (take n (drop p buf)) mod 256 =? 0).
Proof. intros Hp. unfold checksum. by rewrite checksum_loop_spec. Qed.

Lemma sum_bytes_insert l i b x :
  l !! i = Some b -> sum_bytes (<[i := x]> l) = sum_bytes l - b2z b + b2z x.
Proof.
  revert i. induction l as [|a l IH]; intros [|i] E; simplify_eq/=; [lia|]. rewrite (IH _ E). lia.
Qed.

Lemma wr_lt buf i z : (i < length buf)%nat -> wr buf i z = Some (<[i := z2b z]> buf).
Proof. intros Hi. unfold wr. by destruct (Nat.ltb_spec i (length buf)); [|lia]. Qed.

Lemma rd_lookup buf i b : buf !! i = Some b -> rd buf i = Some (b2z b).
Proof. intros E. unfold rd. by rewrite E. Qed.

(** ** The rewritten entry points *)

(** [buf'] is [buf] with an address of [k] bytes at [a], of which it keeps the other bytes but the
    checksum at [c]. *)
Record readdressed (buf buf' : list byte) (c a k : nat) : Prop := mk_readdressed {
  ra_length : length buf' = length buf;
  ra_other : forall i, i <> c -> ~ (a <= i < a + k)%nat -> buf' !! i = buf !! i;
  ra_address : forall i, (i < k)%nat -> buf' !! (a + i)%nat = Some (if decide (i = 0%nat) then x20 else x00);
  ra_checksum : forall p n, (p <= c)%nat -> (a + k <= p + n <= length buf)%nat -> checksum buf' p n = checksum buf p n
}.

Lemma wr_all_zeros buf i k :
  (i + k <= length buf)%nat ->
  exists buf', wr_all buf i (repeat 0 k) = Some buf' /\ length buf' = length buf /\
    (forall j, ~ (i <= j < i + k)%nat -> buf' !! j = buf !! j) /\
    (forall j, (j < k)%nat -> buf' !! (i + j)%nat = Some x00).
Proof.
  revert buf i. induction k as [|k IH]; intros buf i Hi; cbn [repeat wr_all].
  { exists buf. repeat split; auto; lia. }
  rewrite wr_lt by lia. cbn. destruct (IH (<[i := z2b 0]> buf) (S i)) as (b & -> & Hl & Ho & Hz).
  { rewrite length_insert. lia. }
  exists b. split; [done|]. split; [by rewrite Hl, length_insert|]. split.
  - intros j Hj. rewrite Ho by lia. apply list_lookup_insert_ne. lia.
  - intros [|j] Hj.
    + rewrite Nat.add_0_r, Ho by lia. apply list_lookup_insert_eq. lia.
    + replace (i + S j)%nat with (S i + j)%nat by lia. apply Hz. lia.
Qed.

Lemma sum_bytes_split l a k : 
  (a + k <= length l)%nat ->
  sum_bytes l = sum_bytes (take a l) + sum_bytes (take k (drop a l)) + sum_bytes (drop (a + k) l).
Proof.
  intros Hl. rewrite <- (take_drop a l) at 1. rewrite sum_bytes_app.
  rewrite <- (take_drop k (drop a l)) at 1. rewrite sum_bytes_app, drop_drop. lia.
Qed.

Lemma rd_sum_spec buf i n :
  (i + n <= length buf)%nat -> rd_sum buf i n = Some (sum_bytes (take n (drop i buf))).
Proof.
  revert i. induction n as [|n IH]; intros i Hi; simpl; [done|].
  destruct (rd_lt buf i) as (b & Eb & ->); [lia|]. cbn. rewrite IH by lia. cbn. by rewrite (drop_S _ _ _ Eb).
Qed.

Definition address_bytes (k : nat) : list byte := x20 :: repeat x00 (k - 1).

Lemma sum_bytes_zeros n : sum_bytes (repeat x00 n) = 0.
Proof. induction n; [done|]. simpl. rewrite IHn. done. Qed.

Lemma lookup_repeat n i : (i < n)%nat -> repeat x00 n !! i = Some x00.
Proof. revert i. induction n as [|n IH]; intros [|i] Hi; simpl; try lia; [done|]. apply IH. lia. Qed.

(** The segment [p, p + n) of a rewritten table. *)
Lemma readdressed_segment buf buf' c a k b x p n :
  (0 < k)%nat -> (c < a)%nat -> length buf' = length buf -> (p <= c)%nat -> (a + k <= p + n <= length buf)%nat ->
  buf !! c = Some b -> buf' !! c = Some x ->
  (forall i, i <> c -> ~ (a <= i < a + k)%nat -> buf' !! i = buf !! i) ->
  (forall i, (i < k)%nat -> buf' !! (a + i)%nat = address_bytes k !! i) ->
  sum_bytes (take n (drop p buf')) =
  sum_bytes (take n (drop p buf)) - b2z b + b2z x + (32 - sum_bytes (take k (drop a buf))).
Proof.
  intros Hk Hca Hlen Hp Hn Hb Hx Ho Ha.
  rewrite (sum_bytes_split (take n (drop p buf')) (a - p) k) by (rewrite length_take, length_drop; lia).
  rewrite (sum_bytes_split (take n (drop p buf)) (a - p) k) by (rewrite length_take, length_drop; lia).
  assert (Hseg : forall l : list byte, forall i, (i < n)%nat -> take n (drop p l) !! i = l !! (p + i)%nat).
  { intros l i Hi. by rewrite lookup_take_lt, lookup_drop by done. }
  assert (E1 : take (a - p) (take n (drop p buf')) = <[(c - p)%nat := x]> (take (a - p) (take n (drop p buf)))).
  { apply list_eq. intros i. destruct (decide (i < a - p)%nat) as [Hi|Hi].
    - destruct (decide (i = (c - p)%nat)) as [->|Hic].
      + rewrite list_lookup_insert_eq by (rewrite !length_take, length_drop; lia).
        rewrite lookup_take_lt, Hseg by lia. by replace (p + (c - p))%nat with c by lia.
      + rewrite list_lookup_insert_ne by done. rewrite !(lookup_take_lt _ (a - p) i), !Hseg by lia. apply Ho; lia.
    - rewrite !lookup_ge_None_2; [done|rewrite length_insert|]; rewrite !length_take; lia. }
  assert (E2 : take k (drop (a - p) (take n (drop p buf'))) = address_bytes k).
  { apply list_eq. intros i. destruct (decide (i < k)%nat) as [Hi|Hi].
    - rewrite lookup_take_lt, lookup_drop, Hseg by lia. rewrite <- Ha by done. f_equal. lia.
    - rewrite !lookup_ge_None_2; [done| |]; [unfold address_bytes; simpl; rewrite repeat_length|rewrite length_take]; lia. }
  assert (E3 : drop (a - p + k) (take n (drop p buf')) = drop (a - p + k) (take n (drop p buf))).
  { apply list_eq. intros i. rewrite !lookup_drop. destruct (decide (a - p + k + i < n)%nat) as [Hi|Hi].
    - rewrite !Hseg by done. apply Ho; lia.
    - rewrite !lookup_ge_None_2; [done| |]; rewrite length_take; lia. }
  assert (E4 : take k (drop (a - p) (take n (drop p buf))) = take k (drop a buf)).
  { apply list_eq. intros i. destruct (decide (i < k)%nat) as [Hi|Hi].
    - rewrite !lookup_take_lt, !lookup_drop, Hseg by lia. f_equal. lia.
    - rewrite !lookup_ge_None_2; [done| |]; rewrite length_take; lia. }
  rewrite E1, E2, E3, E4. rewrite (sum_bytes_insert _ _ b).
  2: { rewrite lookup_take_lt, Hseg by lia. by replace (p + (c - p))%nat with c by lia. }
  unfold address_bytes. simpl. rewrite sum_bytes_zeros. change (b2z x20) with 32. lia.
Qed.

Lemma readdress buf c a k b :
  (0 < k)%nat -> (c < a)%nat -> (a + k <= length buf)%nat -> buf !! c = Some b ->
  exists buf', (buf1 ← wr buf c (b2z b + (sum_bytes (take k (drop a buf)) - 32));
                wr_all buf1 a (32 :: repeat 0 (k - 1))) = Some buf' /\ readdressed buf buf' c a k.
Proof.
  intros Hk Hca Hl Hb. set (x := z2b (b2z b + (sum_bytes (take k (drop a buf)) - 32))).
  rewrite wr_lt by lia. cbn [mbind option_bind wr_all]. rewrite wr_lt by (rewrite length_insert; lia). cbn [mbind option_bind].
  fold x.
  destruct (wr_all_zeros (<[a := z2b 32]> (<[c := x]> buf)) (S a) (k - 1)) as (buf' & -> & Hlen & Ho & Hz).
  { rewrite !length_insert. lia. }
  rewrite !length_insert in Hlen. exists buf'. split; [done|].
  assert (Hc : buf' !! c = Some x).
  { rewrite Ho by lia. rewrite list_lookup_insert_ne by lia. apply list_lookup_insert_eq. lia. }
  assert (Hother : forall i, i <> c -> ~ (a <= i < a + k)%nat -> buf' !! i = buf !! i).
  { intros i Hi Hr. rewrite Ho by lia. by rewrite !list_lookup_insert_ne by lia. }
  assert (Ha : forall i, (i < k)%nat -> buf' !! (a + i)%nat = address_bytes k !! i).
  { intros [|i] Hi.
    - rewrite Nat.add_0_r, Ho by lia. apply list_lookup_insert_eq. rewrite length_insert. lia.
    - replace (a + S i)%nat with (S a + i)%nat by lia. rewrite Hz by lia. simpl. symmetry.
      apply lookup_repeat. lia. }
  split; [done|done| |].
  - intros i Hi. rewrite Ha by done. destruct i as [|i]; [done|]. simpl. apply lookup_repeat. lia.
  - intros p n Hp Hn. rewrite !checksum_spec by lia. do 2 f_equal.
    rewrite (readdressed_segment buf buf' c a k b x) by done. unfold x. rewrite b2z_z2b.
    set (s := sum_bytes (take n (drop p buf))). set (t := sum_bytes (take k (drop a buf))).
    pose proof (Z.div_mod (b2z b + (t - 32)) 256). 
    replace (s - b2z b + (b2z b + (t - 32)) mod 256 + (32 - t))
      with (s + (- ((b2z b + (t - 32)) / 256)) * 256) by lia.
    by rewrite Z_mod_plus_full.
Qed.

Lemma overwrite_dmi_address_ok buf p :
  (p + 12 <= length buf)%nat ->
  exists buf', overwrite_dmi_address buf p = Some buf' /\ readdressed buf buf' (p + 5) (p + 8) 4.
Proof.
  intros Hl. unfold overwrite_dmi_address. destruct (rd_lt buf (p + 5)) as (b & Eb & ->); [lia|].
  rewrite rd_sum_spec by lia. cbn -[Nat.add wr wr_all].
  destruct (readdress buf (p + 5) (p + 8) 4 b) as (buf' & E & Hr); [lia..|done|]. by exists buf'.
Qed.

Lemma overwrite_smbios3_address_ok buf :
  (24 <= length buf)%nat ->
  exists buf', overwrite_smbios3_address buf = Some buf' /\ readdressed buf buf' 5 16 8.
Proof.
  intros Hl. unfold overwrite_smbios3_address. destruct (rd_lt buf 5) as (b & Eb & ->); [lia|].
  rewrite rd_sum_spec by lia. cbn -[Nat.add wr wr_all].
  destruct (readdress buf 5 16 8 b) as (buf' & E & Hr); [lia..|done|]. by exists buf'.
Qed.

(** The entry point written to a dump file has its table address set to 32, every other byte but
    one checksum byte is as it was, and every checksum over a range with that byte and the address
    is what it was: the SMBIOS 2 checksum too, which is not adjusted. *)
Theorem overwrite_keeps_checksums buf p :
  ((p + 12 <= length buf)%nat ->
   exists buf', overwrite_dmi_address buf p = Some buf' /\ readdressed buf buf' (p + 5) (p + 8) 4) /\
  ((24 <= length buf)%nat ->
   exists buf', overwrite_smbios3_address buf = Some buf' /\ readdressed buf buf' 5 16 8).
Proof. split; [apply overwrite_dmi_address_ok|apply overwrite_smbios3_address_ok]. Qed.

(** ** Dump files *)

(** The tables handed to dmi_table_decode(), with the count and the version. *)
Definition decoded (l : list entry_event) : list (list byte * Z * Z) :=
  omap (fun e => match e with TableDecode b num ver _ => Some (b, num, ver) | _ => None end) l.

Lemma decoded_app l k : decoded (l ++ k) = decoded l ++ decoded k.
Proof. apply omap_app. Qed.

#[global] Arguments say_if : simpl never.

(** Events that hand no table over. *)
Definition quiet_event (e : entry_event) : bool := match e with TableDecode _ _ _ _ => false | _ => true end.

Lemma decoded_say_if b e st : quiet_event e = true -> decoded (e_out (say_if b e st)) = decoded (e_out st).
Proof. intros He. destruct b; [|done]. unfold say_if. cbn. rewrite decoded_app. destruct e; try done; by rewrite app_nil_r. Qed.

Lemma files_say_if b e st : files (say_if b e st) = files st.
Proof. by destruct b. Qed.

(** The table dmi_table() reads. *)
Definition table_bytes (o : entry_opts) (base len : Z) (f : file) (flags : Z) : option (list byte) :=
  let no_offset := negb (Z.land flags FLAG_NO_FILE_OFFSET =? 0) in
  if no_offset || o_from_dump o then read_file (if no_offset then 0 else base) len f else mem_chunk base len f.

Lemma table_bytes_length o base len f flags T :
  0 <= len -> table_bytes o base len f flags = Some T -> Z.of_nat (length T) <= len.
Proof.
  intros Hlen. unfold table_bytes, read_file, mem_chunk. intros E.
  repeat (case_match; try done); simplify_eq; rewrite length_take; lia.
Qed.

Lemma dmi_table_effect o base len num ver dev flags st :
  let st' := dmi_table o base len num ver dev flags st in
  match table_bytes o base len (files st dev) flags with
  | None => decoded (e_out st') = decoded (e_out st)
  | Some T =>
      if o_dump_bin o then files st' DumpFile = write_dump 32 (length T) T (files st DumpFile) false
      else decoded (e_out st') = decoded (e_out st) ++ [(T, num, u16 (Z.shiftr ver 8))] /\ files st' = files st
  end.
Proof.
  unfold dmi_table, table_bytes. set (no := negb (Z.land flags FLAG_NO_FILE_OFFSET =? 0)).
  set (st1 := say_if _ (TableAt base) _).
  assert (E1 : decoded (e_out st1) = decoded (e_out st) /\ files st1 = files st).
  { unfold st1. by rewrite !decoded_say_if, !files_say_if by done. }
  destruct E1 as [E1 F1]. rewrite F1. clearbody st1.
  destruct (no || o_from_dump o).
  - destruct (read_file _ _ _) as [T|].
    + destruct (o_dump_bin o).
      * cbn -[write_dump]. by rewrite files_say_if, F1.
      * cbn. by rewrite decoded_app, decoded_say_if, E1, files_say_if, F1 by done.
    + cbn. by rewrite decoded_app, decoded_say_if, E1, app_nil_r by done.
  - destruct (mem_chunk _ _ _) as [T|].
    + destruct (o_dump_bin o).
      * cbn -[write_dump]. by rewrite files_say_if, F1.
      * cbn. by rewrite decoded_app, E1, F1.
    + cbn. by rewrite decoded_app, E1, app_nil_r.
Qed.

(** The two writes of --dump-bin, and what --from-dump reads of them. *)
Definition dump_file (n : nat) (crafted T : list byte) (f : file) : file :=
  write_dump 0 n crafted (write_dump 32 (length T) T f false) true.

Definition dump_entry (n : nat) (crafted : list byte) : list byte := take n crafted ++ repeat x00 (32 - n).

Lemma dump_file_reads n crafted T f len :
  T <> [] -> (0 < n <= 32)%nat -> (n <= length crafted)%nat -> Z.of_nat (length T) <= len ->
  mem_chunk 0 32 (dump_file n crafted T f) = Some (dump_entry n crafted) /\
  read_file 32 len (dump_file n crafted T f) = Some T.
Proof.
  intros HT Hn Hc Hlen. assert (Hl : (0 < length T)%nat) by (destruct T; [done|simpl; lia]).
  assert (E : dump_file n crafted T f = Some (dump_entry n crafted ++ T)).
  { unfold dump_file, write_dump. destruct (Nat.eqb_spec (length T) 0); [lia|].
    destruct (Nat.eqb_spec n 0); [lia|]. unfold dump_entry. f_equal.
    assert (E0 : take 32 ([] ++ repeat x00 (32 - length (@nil byte))) = repeat x00 32) by done.
    rewrite E0, (take_ge T), drop_nil, app_nil_r by done. rewrite take_0, app_nil_l, Nat.add_0_l, <- app_assoc.
    f_equal. rewrite drop_app_le by (rewrite repeat_length; lia). f_equal; [|apply app_nil_r].
    assert (E32 : repeat x00 32 = repeat x00 n ++ repeat x00 (32 - n)) by (rewrite <- repeat_app; f_equal; lia).
    rewrite E32. by rewrite drop_app_length' by (by rewrite repeat_length). }
  assert (Hd : length (dump_entry n crafted) = 32%nat).
  { unfold dump_entry. rewrite length_app, length_take, repeat_length. lia. }
  rewrite E. unfold mem_chunk, read_file. rewrite length_app, Hd. split.
  - destruct (Z.ltb_spec (Z.of_nat (32 + length T)) (0 + 32)); [lia|]. f_equal.
    change (drop (Z.to_nat 0) ?l) with l. by rewrite take_app_length' by (by rewrite Hd).
  - destruct (Z.leb_spec (Z.of_nat (32 + length T)) 32); [lia|].
    rewrite drop_app_length' by (by rewrite Hd). f_equal. case_match; apply take_ge; lia.
Qed.

(** ** Reads of equal bytes *)

Definition same_on (buf buf' : list byte) (i n : nat) : Prop :=
  forall j, (i <= j < i + n)%nat -> buf' !! j = buf !! j.

Lemma rd_same buf buf' i : same_on buf buf' i 1 -> rd buf' i = rd buf i.
Proof. intros E. unfold rd. by rewrite E by lia. Qed.

Lemma rd_word_same buf buf' i : same_on buf buf' i 2 -> rd_word buf' i = rd_word buf i.
Proof. intros E. unfold rd_word, rd. by rewrite !E by lia. Qed.

Lemma rd_dword_same buf buf' i : same_on buf buf' i 4 -> rd_dword buf' i = rd_dword buf i.
Proof. intros E. unfold rd_dword. by rewrite !(rd_word_same buf buf') by (intros j Hj; apply E; lia). Qed.

Lemma rd_dword_bytes buf i a b c d :
  buf !! i = Some a -> buf !! (i + 1)%nat = Some b -> buf !! (i + 2)%nat = Some c -> buf !! (i + 3)%nat = Some d ->
  rd_dword buf i = Some (b2z a + Z.shiftl (b2z b) 8 + Z.shiftl (b2z c + Z.shiftl (b2z d) 8) 16).
Proof.
  intros Ha Hb Hc Hd. unfold rd_dword, rd_word, rd. rewrite Ha, Hb, Hc. replace (i + 2 + 1)%nat with (i + 3)%nat by lia.
  by rewrite Hd.
Qed.

Lemma rd_dword_nonneg buf i z : rd_dword buf i = Some z -> 0 <= z < 4294967296.
Proof.
  unfold rd_dword, rd_word, rd. intros E.
  destruct (buf !! i) as [a|]; simplify_eq/=. destruct (buf !! (i + 1)%nat) as [b|]; simplify_eq/=.
  destruct (buf !! (i + 2)%nat) as [c|]; simplify_eq/=. destruct (buf !! (i + 2 + 1)%nat) as [d|]; simplify_eq/=.
  pose proof (b2z_range a). pose proof (b2z_range b). pose proof (b2z_range c). pose proof (b2z_range d).
  rewrite !Z.shiftl_mul_pow2 by lia. lia.
Qed.

Lemma checksum_same buf buf' p n :
  same_on buf buf' p n -> (p + n <= length buf)%nat -> (p + n <= length buf')%nat ->
  checksum buf' p n = checksum buf p n.
Proof.
  intros E Hl Hl'. rewrite !checksum_spec by done. do 3 f_equal.
  assert (take n (drop p buf') = take n (drop p buf)) as ->; [|done].
  apply list_eq. intros i. destruct (decide (i < n)%nat) as [Hi|Hi].
  - rewrite !lookup_take_lt, !lookup_drop by done. apply E. lia.
  - by rewrite !lookup_take_ge by lia.
Qed.

Lemma memcmp_same buf buf' p lit :
  same_on buf buf' p (length (bs lit)) -> (p + length (bs lit) <= length buf)%nat ->
  (p + length (bs lit) <= length buf')%nat -> memcmp_eq buf' p lit = memcmp_eq buf p lit.
Proof.
  intros E Hl Hl'. unfold memcmp_eq. destruct (Nat.leb_spec (p + length (bs lit)) (length buf)); [|lia].
  destruct (Nat.leb_spec (p + length (bs lit)) (length buf')); [|lia].
  assert (take (length (bs lit)) (drop p buf') = take (length (bs lit)) (drop p buf)) as ->; [|done].
  apply list_eq. intros i. destruct (decide (i < length (bs lit))%nat) as [Hi|Hi].
  - rewrite !lookup_take_lt, !lookup_drop by done. apply E. lia.
  - by rewrite !lookup_take_ge by lia.
Qed.

Lemma dump_entry_same n crafted i k :
  (i + k <= n)%nat -> (n <= length crafted)%nat -> same_on crafted (dump_entry n crafted) i k.
Proof.
  intros Hn Hc j Hj. unfold dump_entry. rewrite lookup_app_l by (rewrite length_take; lia).
  apply lookup_take_lt. lia.
Qed.

(** What smbios3_decode() reads of an entry point it accepts. *)
Record sm3_entry (buf : list byte) (n a b c l h len : Z) : Prop := mk_sm3_entry {
  sm3_n : rd buf 6 = Some n;
  sm3_le : n <= 32;
  sm3_sum : checksum buf 0 (Z.to_nat n) = Some true;
  sm3_a : rd buf 7 = Some a;
  sm3_b : rd buf 8 = Some b;
  sm3_c : rd buf 9 = Some c;
  sm3_l : rd_dword buf 16 = Some l;
  sm3_h : rd_dword buf 20 = Some h;
  sm3_len : rd_dword buf 12 = Some len
}.

Definition sm3_ver (a b c : Z) : Z := Z.shiftl a 16 + Z.shiftl b 8 + c.

Lemma smbios3_decode_inv o buf dev flags st st1 :
  smbios3_decode o buf dev flags st = Some (true, st1) -> exists n a b c l h len, sm3_entry buf n a b c l h len.
Proof.
  unfold smbios3_decode. intros E.
  destruct (rd buf 6) as [n|] eqn:En; [|done]. cbn -[checksum rd rd_dword dmi_table] in E.
  destruct (Z.ltb_spec 32 n); [done|].
  destruct (checksum _ _ _) as [[]|] eqn:Ec; [|done..]. cbn -[checksum rd rd_dword dmi_table] in E.
  destruct (rd buf 7) eqn:E7; [|done]. cbn -[checksum rd rd_dword dmi_table] in E.
  destruct (rd buf 8) eqn:E8; [|done]. cbn -[checksum rd rd_dword dmi_table] in E.
  destruct (rd buf 9) eqn:E9; [|done]. cbn -[checksum rd rd_dword dmi_table] in E.
  destruct (rd_dword buf 16) eqn:E16; [|done]. cbn -[checksum rd rd_dword dmi_table] in E.
  destruct (rd_dword buf 20) eqn:E20; [|done]. cbn -[checksum rd rd_dword dmi_table] in E.
  destruct (rd_dword buf 12) eqn:E12; [|done]. eexists _, _, _, _, _, _, _. split; done || lia.
Qed.

Lemma smbios3_decode_run o buf dev flags st n a b c l h len :
  sm3_entry buf n a b c l h len ->
  let st' := dmi_table o (Z.lor (Z.shiftl h 32) l) len 0 (sm3_ver a b c) dev (Z.lor flags FLAG_STOP_AT_EOT)
               (say_if (negb (o_quiet o)) (Smbios3Present a b c) st) in
  smbios3_decode o buf dev flags st =
    if o_dump_bin o then
      if (length buf <? 32)%nat then None
      else
        crafted ← overwrite_smbios3_address (take 32 buf);
        n ← rd crafted 6;
        let st := say_if (negb (o_quiet o)) (Writing n) st' in
        Some (true, put_dump (write_dump 0 (Z.to_nat n) crafted (files st DumpFile) true) st)
    else Some (true, st').
Proof.
  intros []. cbv zeta. unfold smbios3_decode.
  rewrite sm3_n0. cbn -[checksum rd rd_dword dmi_table write_dump overwrite_smbios3_address Nat.ltb].
  destruct (Z.ltb_spec 32 n); [lia|]. rewrite sm3_sum0.
  cbn -[checksum rd rd_dword dmi_table write_dump overwrite_smbios3_address Nat.ltb].
  rewrite sm3_a0. cbn -[checksum rd rd_dword dmi_table write_dump overwrite_smbios3_address Nat.ltb].
  rewrite sm3_b0. cbn -[checksum rd rd_dword dmi_table write_dump overwrite_smbios3_address Nat.ltb].
  rewrite sm3_c0. cbn -[checksum rd rd_dword dmi_table write_dump overwrite_smbios3_address Nat.ltb].
  rewrite sm3_l0. cbn -[checksum rd rd_dword dmi_table write_dump overwrite_smbios3_address Nat.ltb].
  rewrite sm3_h0. cbn -[checksum rd rd_dword dmi_table write_dump overwrite_smbios3_address Nat.ltb].
  rewrite sm3_len0. by cbn -[checksum rd rd_dword dmi_table write_dump overwrite_smbios3_address Nat.ltb].
Qed.

(** The entry point a dump file holds. *)
Lemma sm3_entry_dumped buf crafted n a b c l h len :
  sm3_entry buf n a b c l h len -> (32 <= length buf)%nat -> 24 <= n ->
  overwrite_smbios3_address (take 32 buf) = Some crafted ->
  rd crafted 6 = Some n /\ length crafted = 32%nat /\
  sm3_entry (dump_entry (Z.to_nat n) crafted) n a b c 32 0 len /\
  memcmp_eq (dump_entry (Z.to_nat n) crafted) 0 "_SM3_" = memcmp_eq buf 0 "_SM3_".
Proof.
  intros He Hl Hn Ho.
  destruct (overwrite_smbios3_address_ok (take 32 buf)) as (buf' & E & [R1 R2 R3 R4]); [rewrite length_take; lia|].
  rewrite Ho in E. injection E as <-. rewrite length_take, Nat.min_l in * by lia.
  assert (Hle : n <= 32) by apply He.
  assert (Hs : forall i k, (i + k <= Z.to_nat n)%nat -> ~ (i <= 5 < i + k)%nat -> (i + k <= 16)%nat ->
    same_on buf (dump_entry (Z.to_nat n) crafted) i k).
  { intros i k Hi H5 H16 j Hj. rewrite (dump_entry_same (Z.to_nat n) crafted i k) by lia.
    rewrite R2 by lia. apply lookup_take_lt. lia. }
  assert (Hd : length (dump_entry (Z.to_nat n) crafted) = 32%nat).
  { unfold dump_entry. rewrite length_app, length_take, repeat_length. lia. }
  assert (Ha : forall i, (i < 8)%nat -> dump_entry (Z.to_nat n) crafted !! (16 + i)%nat =
    Some (if decide (i = 0%nat) then x20 else x00)).
  { intros i Hi. rewrite (dump_entry_same (Z.to_nat n) crafted 16 8) by lia. by apply R3. }
  split.
  { rewrite <- (sm3_n _ _ _ _ _ _ _ _ He). unfold rd. rewrite R2 by lia. by rewrite lookup_take_lt by lia. }
  split; [done|]. split.
  - split; try lia.
    1, 3, 4, 5: rewrite (rd_same buf) by (apply Hs; lia); apply He.
    + rewrite (checksum_same crafted) by (try apply dump_entry_same; lia).
      rewrite R4 by lia. rewrite (checksum_same buf); [apply He| |lia|rewrite length_take; lia].
      intros j Hj. apply lookup_take_lt. lia.
    + rewrite (rd_dword_bytes _ _ x20 x00 x00 x00); [done| | | |];
        [apply (Ha 0%nat)|apply (Ha 1%nat)|apply (Ha 2%nat)|apply (Ha 3%nat)]; lia.
    + rewrite (rd_dword_bytes _ _ x00 x00 x00 x00); [done| | | |];
        [apply (Ha 4%nat)|apply (Ha 5%nat)|apply (Ha 6%nat)|apply (Ha 7%nat)]; lia.
    + rewrite (rd_dword_same buf) by (apply Hs; lia). apply He.
  - apply memcmp_same; rewrite ?Hd; [apply Hs| |]; cbn; lia.
Qed.

(** Reading such a file back. *)
Lemma smbios3_from_dump o efi fs out entry n a b c len T :
  o_from_dump o = true -> o_dump_bin o = false -> mem_chunk 0 32 (fs DumpFile) = Some entry ->
  sm3_entry entry n a b c 32 0 len -> memcmp_eq entry 0 "_SM3_" = Some true ->
  read_file 32 len (fs DumpFile) = Some T ->
  exists st, main o efi (mk_entry_state fs out) = Some (0, st) /\
    decoded (e_out st) = decoded out ++ [(T, 0, u16 (Z.shiftr (sm3_ver a b c) 8))].
Proof.
  intros Hfd Hdb R1 He Hm R2. unfold main. rewrite Hfd. cbn [files]. rewrite R1.
  unfold decode_anchor. cbn [Nat.leb]. rewrite Hm. cbn [mbind option_bind].
  rewrite (smbios3_decode_run _ _ _ _ _ _ _ _ _ _ _ _ He), Hdb.
  pose proof (dmi_table_effect o (Z.lor (Z.shiftl 0 32) 32) len 0 (sm3_ver a b c) DumpFile
    (Z.lor 0 FLAG_STOP_AT_EOT) (say_if (negb (o_quiet o)) (Smbios3Present a b c) (mk_entry_state fs out))) as Hd.
  cbv zeta in Hd. rewrite files_say_if in Hd. cbn [files] in Hd.
  assert (ET : table_bytes o (Z.lor (Z.shiftl 0 32) 32) len (fs DumpFile) (Z.lor 0 FLAG_STOP_AT_EOT) = Some T).
  { unfold table_bytes. rewrite Hfd. exact R2. }
  rewrite ET, Hdb in Hd. destruct Hd as [Hd _]. rewrite decoded_say_if in Hd by done.
  unfold main_done. cbn [mbind option_bind negb andb]. eexists. split; [done|]. exact Hd.
Qed.

Definition with_dump_bin (o : entry_opts) (b : bool) : entry_opts :=
  mk_entry_opts (o_quiet o) b (o_from_dump o) (o_no_sysfs o) (o_type_set o).

(** What --dump-bin writes of a SMBIOS 3 system, --from-dump decodes as the system itself: the
    same table, of whatever length was there to be read, and the same version. *)
Theorem smbios3_dump_roundtrip o buf dev flags st st1 T num ver n :
  (32 <= length buf)%nat -> memcmp_eq buf 0 "_SM3_" = Some true -> rd buf 6 = Some n -> 24 <= n ->
  smbios3_decode (with_dump_bin o false) buf dev flags st = Some (true, st1) ->
  decoded (e_out st1) = decoded (e_out st) ++ [(T, num, ver)] -> T <> [] ->
  exists st2, smbios3_decode (with_dump_bin o true) buf dev flags st = Some (true, st2) /\
    forall o' efi out, o_from_dump o' = true -> o_dump_bin o' = false ->
    exists st3, main o' efi (mk_entry_state (files st2) out) = Some (0, st3) /\
      decoded (e_out st3) = decoded out ++ [(T, num, ver)].
Proof.
  intros Hl Hm Hn6 Hn E Hdec HT. destruct (smbios3_decode_inv _ _ _ _ _ _ E) as (n' & a & b & c & l & h & len & He).
  assert (n' = n) as -> by (pose proof (sm3_n _ _ _ _ _ _ _ _ He); congruence).
  pose proof (rd_dword_nonneg _ _ _ (sm3_len _ _ _ _ _ _ _ _ He)) as Hlen.
  rewrite (smbios3_decode_run _ _ _ _ _ _ _ _ _ _ _ _ He) in E.
  change (o_dump_bin (with_dump_bin o false)) with false in *.
  injection E as <-.
  rewrite (smbios3_decode_run _ _ _ _ _ _ _ _ _ _ _ _ He).
  change (o_dump_bin (with_dump_bin o true)) with true in *. cbv iota.
  destruct (Nat.ltb_spec (length buf) 32); [lia|].
  destruct (overwrite_smbios3_address_ok (take 32 buf)) as (crafted & Eo & _); [rewrite length_take; lia|].
  destruct (sm3_entry_dumped _ _ _ _ _ _ _ _ _ He Hl Hn Eo) as (E6 & Hlc & He3 & Hm3).
  rewrite Eo. cbn [mbind option_bind]. rewrite E6. cbn [mbind option_bind]. eexists. split; [done|].
  intros o' efi out Hfd Hdb.
  pose proof (dmi_table_effect (with_dump_bin o false) (Z.lor (Z.shiftl h 32) l) len 0 (sm3_ver a b c) dev
    (Z.lor flags FLAG_STOP_AT_EOT) (say_if (negb (o_quiet o)) (Smbios3Present a b c) st)) as Hd1.
  pose proof (dmi_table_effect (with_dump_bin o true) (Z.lor (Z.shiftl h 32) l) len 0 (sm3_ver a b c) dev
    (Z.lor flags FLAG_STOP_AT_EOT) (say_if (negb (o_quiet o)) (Smbios3Present a b c) st)) as Hd2.
  cbv zeta in Hd1, Hd2. rewrite files_say_if in Hd1, Hd2.
  change (table_bytes (with_dump_bin o true)) with (table_bytes (with_dump_bin o false)) in Hd2.
  destruct (table_bytes _ _ _ _ _) as [T'|] eqn:ET.
  2: { rewrite Hd1, decoded_say_if in Hdec by done. discriminate_list. }
  change (o_dump_bin (with_dump_bin o false)) with false in *.
  change (o_dump_bin (with_dump_bin o true)) with true in *. destruct Hd1 as [Hd1 _].
  rewrite Hd1, decoded_say_if in Hdec by done. apply app_inv_head in Hdec. injection Hdec as -> <- <-.
  pose proof (table_bytes_length _ _ _ _ _ _ (proj1 Hlen) ET) as HTl.
  pose proof (sm3_le _ _ _ _ _ _ _ _ He) as Hn32.
  destruct (dump_file_reads (Z.to_nat n) crafted T (files st DumpFile) len HT) as [R1 R2]; [lia|lia|done|].
  change (o_quiet (with_dump_bin o true)) with (o_quiet o).
  apply (smbios3_from_dump _ _ _ _ (dump_entry (Z.to_nat n) crafted) n a b c len);
    [done|done| |done|by rewrite Hm3| ]; cbn [put_dump files]; by rewrite decide_True, files_say_if, Hd2 by done.
Qed.

(** ** Bounds *)

Ltac entry_step := cbn -[checksum rd rd_word rd_dword dmi_table write_dump overwrite_smbios3_address
  overwrite_dmi_address Nat.ltb memcmp_eq Z.shiftl Z.land take].

Lemma rd_dword_lt buf i : (i + 4 <= length buf)%nat -> exists w, rd_dword buf i = Some w.
Proof.
  intros Hi. unfold rd_dword. destruct (rd_word_lt buf i) as (w & -> & _); [lia|].
  destruct (rd_word_lt buf (i + 2)) as (v & E & _); [lia|]. entry_step. rewrite E. by eexists.
Qed.

Lemma checksum_lt buf p n : (p + n <= length buf)%nat -> exists b, checksum buf p n = Some b.
Proof. intros Hp. rewrite checksum_spec by done. by eexists. Qed.

Lemma memcmp_lt buf p lit : (p + length (bs lit) <= length buf)%nat -> exists b, memcmp_eq buf p lit = Some b.
Proof. intros Hp. unfold memcmp_eq. destruct (Nat.leb_spec (p + length (bs lit)) (length buf)); [by eexists|lia]. Qed.

Lemma rd_lt_ex buf i : (i < length buf)%nat -> exists c, rd buf i = Some c /\ 0 <= c < 256.
Proof. intros Hi. destruct (rd_lt buf i Hi) as (b & _ & ->). eexists. split; [done|]. apply b2z_range. Qed.

Lemma smbios3_decode_ok o buf dev flags st :
  (32 <= length buf)%nat -> exists r, smbios3_decode o buf dev flags st = Some r.
Proof.
  intros Hl. unfold smbios3_decode.
  destruct (rd_lt_ex buf 6) as (n & -> & Hn); [lia|]. entry_step.
  destruct (Z.ltb_spec 32 n); [by eexists|].
  destruct (checksum_lt buf 0 (Z.to_nat n)) as (ok & ->); [lia|]. entry_step. destruct ok; [|by eexists]. entry_step.
  destruct (rd_lt_ex buf 7) as (a & -> & _); [lia|]. entry_step.
  destruct (rd_lt_ex buf 8) as (b & -> & _); [lia|]. entry_step.
  destruct (rd_lt_ex buf 9) as (c & -> & _); [lia|]. entry_step.
  destruct (rd_dword_lt buf 16) as (l & ->); [lia|]. entry_step.
  destruct (rd_dword_lt buf 20) as (h & ->); [lia|]. entry_step.
  destruct (rd_dword_lt buf 12) as (len & ->); [lia|]. entry_step.
  destruct (o_dump_bin o); [|by eexists]. destruct (Nat.ltb_spec (length buf) 32); [lia|].
  destruct (overwrite_smbios3_address_ok (take 32 buf)) as (b' & -> & Hr); [rewrite length_take; lia|]. entry_step.
  destruct (rd_lt_ex b' 6) as (m & -> & _); [rewrite (ra_length _ _ _ _ _ Hr), length_take; lia|]. by eexists.
Qed.

Lemma smbios_decode_ok o buf dev flags st :
  (32 <= length buf)%nat -> exists r, smbios_decode o buf dev flags st = Some r.
Proof.
  intros Hl. unfold smbios_decode.
  destruct (rd_lt_ex buf 5) as (n & -> & Hn); [lia|]. entry_step.
  destruct (Z.ltb_spec 32 n); [by eexists|].
  assert (Hc : exists ok, smbios_checks buf (Z.to_nat n) = Some ok).
  { unfold smbios_checks. destruct (checksum_lt buf 0 (Z.to_nat n)) as (ok & ->); [lia|]. entry_step.
    destruct ok; [|by eexists]. entry_step.
    destruct (memcmp_lt buf 16 "_DMI_") as (ok & ->); [cbn; lia|]. entry_step. destruct ok; [|by eexists]. entry_step.
    apply checksum_lt. lia. }
  destruct Hc as (ok & ->). entry_step. destruct ok; [|by eexists]. entry_step.
  destruct (rd_lt_ex buf 6) as (a & -> & _); [lia|]. entry_step.
  destruct (rd_lt_ex buf 7) as (b & -> & _); [lia|]. entry_step.
  destruct (rd_dword_lt buf 24) as (l & ->); [lia|]. entry_step.
  destruct (rd_word_lt buf 22) as (h & -> & _); [lia|]. entry_step.
  destruct (rd_word_lt buf 28) as (len & -> & _); [lia|]. entry_step.
  destruct (o_dump_bin o); [|by eexists]. destruct (Nat.ltb_spec (length buf) 32); [lia|].
  destruct (overwrite_dmi_address_ok (take 32 buf) 16) as (b' & -> & Hr); [rewrite length_take; lia|]. entry_step.
  destruct (rd_lt_ex b' 5) as (m & -> & _); [rewrite (ra_length _ _ _ _ _ Hr), length_take; lia|]. by eexists.
Qed.

Lemma legacy_decode_ok o buf dev flags st :
  (16 <= length buf)%nat -> exists r, legacy_decode o buf dev flags st = Some r.
Proof.
  intros Hl. unfold legacy_decode.
  destruct (checksum_lt buf 0 15) as (ok & ->); [lia|]. entry_step. destruct ok; [|by eexists]. entry_step.
  destruct (rd_lt_ex buf 14) as (a & -> & _); [lia|]. entry_step.
  destruct (rd_dword_lt buf 8) as (l & ->); [lia|]. entry_step.
  destruct (rd_word_lt buf 6) as (h & -> & _); [lia|]. entry_step.
  destruct (rd_word_lt buf 12) as (len & -> & _); [lia|]. entry_step.
  destruct (o_dump_bin o); [|by eexists]. destruct (Nat.ltb_spec (length buf) 16); [lia|].
  destruct (overwrite_dmi_address_ok (take 16 buf) 0) as (b' & -> & Hr); [rewrite length_take; lia|]. by eexists.
Qed.

Lemma decode_anchor_ok o n3 n2 n1 legacy buf dev flags st :
  (32 <= length buf)%nat -> exists r, decode_anchor o n3 n2 n1 legacy buf dev flags st = Some r.
Proof.
  intros Hl. unfold decode_anchor.
  assert (Hm : forall n lit, (length (bs lit) <= 32)%nat ->
    exists b, (if (n <=? length buf)%nat then memcmp_eq buf 0 lit else Some false) = Some b).
  { intros n lit Hlit. case_match; [|by eexists]. apply memcmp_lt. lia. }
  destruct (Hm n3 "_SM3_"%string) as (b & ->); [cbn; lia|]. cbn [mbind option_bind]. destruct b; [by apply smbios3_decode_ok|].
  destruct (Hm n2 "_SM_"%string) as (b & ->); [cbn; lia|]. cbn [mbind option_bind]. destruct b; [by apply smbios_decode_ok|].
  destruct legacy; [|by eexists].
  destruct (Hm n1 "_DMI_"%string) as (b & ->); [cbn; lia|]. cbn [mbind option_bind].
  destruct b; [apply legacy_decode_ok; lia|by eexists].
Qed.

Lemma scan_smbios3_ok o fps buf st :
  Forall (fun fp => (fp + 32 <= length buf)%nat) fps -> exists r, scan_smbios3 o fps buf st = Some r.
Proof.
  intros Hf. revert st. induction Hf as [|fp fps Hfp _ IH]; intros st; [by eexists|]. cbn [scan_smbios3].
  destruct (memcmp_lt buf fp "_SM3_") as (b & ->); [cbn; lia|]. cbn [mbind option_bind].
  destruct b; [|apply IH]. destruct (smbios3_decode_ok o (drop fp buf) DevMem 0 st) as (r & ->); [rewrite length_drop; lia|].
  cbn [mbind option_bind]. destruct r as [[] st']; [by eexists|apply IH].
Qed.

Lemma scan_smbios_ok o fps buf st :
  length buf = Z.to_nat 65536 -> Forall (fun fp => (fp + 16 <= length buf)%nat) fps ->
  exists r, scan_smbios o fps buf st = Some r.
Proof.
  intros Hl Hf. revert st. induction Hf as [|fp fps Hfp _ IH]; intros st; [by eexists|]. cbn [scan_smbios].
  destruct (memcmp_lt buf fp "_SM_") as (b & ->); [cbn; lia|]. cbn [mbind option_bind].
  destruct (b && (Z.of_nat fp <=? 65504)) eqn:Eb.
  - bools. destruct (smbios_decode_ok o (drop fp buf) DevMem 0 st) as (r & ->); [rewrite length_drop; lia|].
    cbn [mbind option_bind]. destruct r as [[] st']; [by eexists|apply IH].
  - destruct (memcmp_lt buf fp "_DMI_") as (d & ->); [cbn; lia|]. cbn [mbind option_bind].
    destruct d; [|apply IH]. destruct (legacy_decode_ok o (drop fp buf) DevMem 0 st) as (r & ->); [rewrite length_drop; lia|].
    cbn [mbind option_bind]. destruct r as [[] st']; [by eexists|apply IH].
Qed.

Lemma scan_offsets_lt n fp : fp ∈ scan_offsets n -> (fp + 16 <= 16 * n)%nat.
Proof.
  unfold scan_offsets. rewrite list_elem_of_fmap. intros (k & -> & [_ Hk]%elem_of_seq). lia.
Qed.

Lemma mem_chunk_length base len f buf :
  0 <= base -> 0 <= len -> mem_chunk base len f = Some buf -> length buf = Z.to_nat len.
Proof.
  unfold mem_chunk. intros Hb Hn E. destruct f as [l|]; [|done].
  destruct (Z.ltb_spec (Z.of_nat (length l)) (base + len)); [done|]. injection E as <-.
  rewrite length_take, length_drop. lia.
Qed.

Lemma memory_scan_ok o st : exists r, memory_scan o st = Some r.
Proof.
  unfold memory_scan. destruct (mem_chunk 983040 65536 (files st DevMem)) as [buf|] eqn:E; [|by eexists].
  apply mem_chunk_length in E; [|done..].
  destruct (scan_smbios3_ok o (scan_offsets 4095) buf st) as (r & ->).
  { apply Forall_forall. intros fp Hfp%scan_offsets_lt. lia. }
  cbn [mbind option_bind]. destruct r as [[] st']; [by eexists|]. cbn [fst snd].
  destruct (scan_smbios_ok o (scan_offsets 4096) buf st' E) as (r & ->).
  { apply Forall_forall. intros fp Hfp%scan_offsets_lt. lia. }
  destruct r. by eexists.
Qed.

Lemma main_efi_ok o efi st :
  (forall a, efi = EFI_FOUND a -> 0 <= a) -> exists r, main_efi o efi st = Some r.
Proof.
  intros He. destruct efi as [| |a]; [apply memory_scan_ok|by eexists|]. unfold main_efi.
  destruct (mem_chunk a 32 _) as [buf|] eqn:E; [|by eexists]. apply mem_chunk_length in E; [|by apply He|done].
  destruct (decode_anchor_ok o 0 0 0 false buf DevMem 0 st) as ([b st'] & ->); [lia|]. by eexists.
Qed.

(** main() looks for the entry point and decodes what it finds without an access outside of its
    buffers, through a dump file, sysfs, the address of the EFI tables or the scan of the BIOS
    memory, whatever the bytes, if the entry point file of sysfs is not between 15 and 31 bytes long. *)
Theorem main_safe o efi st :
  (forall l, files st EntryFile = Some l -> (length l < 15 \/ 32 <= length l)%nat) ->
  (forall a, efi = EFI_FOUND a -> 0 <= a) ->
  exists r, main o efi st = Some r.
Proof.
  intros Hs He. unfold main. destruct (o_from_dump o).
  { destruct (mem_chunk 0 32 _) as [buf|] eqn:E; [|by eexists]. apply mem_chunk_length in E; [|done..].
    destruct (decode_anchor_ok o 0 0 0 true buf DumpFile 0 st) as ([b st'] & ->); [lia|]. by eexists. }
  destruct (if o_no_sysfs o then None else read_file 0 32 (files st EntryFile)) as [buf|] eqn:E;
    [|by apply main_efi_ok].
  assert (Hl : (length buf < 15 \/ 32 <= length buf)%nat).
  { destruct (o_no_sysfs o); [done|]. unfold read_file in E. destruct (files st EntryFile) as [l|] eqn:El; [|done].
    destruct (Hs l eq_refl); repeat (case_match; try done); simplify_eq; rewrite length_take, length_drop; lia. }
  assert (Hr : exists r, decode_anchor o 24 31 15 true buf TableFile FLAG_NO_FILE_OFFSET st = Some r).
  { destruct Hl as [Hl|Hl]; [|by apply decode_anchor_ok]. unfold decode_anchor.
    destruct (Nat.leb_spec 24 (length buf)); [lia|]. destruct (Nat.leb_spec 31 (length buf)); [lia|].
    destruct (Nat.leb_spec 15 (length buf)); [lia|]. by eexists. }
  destruct Hr as ([b st'] & ->). cbn [mbind option_bind fst]. destruct b; [by eexists|]. by apply main_efi_ok.
Qed.

(** A SMBIOS 3 entry point as firmware writes it: 24 bytes, with a valid checksum. *)
Definition sample_sm3 : list byte :=
  bs "_SM3_" ++ [x2e; x18; x03; x02; x00; x01; x00; x13; x00; x00; x00; x00; x10; x00; x00; x00; x00; x00; x00].

(** --dump-bin on a system whose sysfs has such an entry point of 24 bytes, the size main()
    asks for, copies 32 bytes out of the 24 that were read. *)
Theorem dump_bin_overread table :
  checksum sample_sm3 0 24 = Some true /\
  main (mk_entry_opts true true false false false) EFI_NOT_FOUND
    (mk_entry_state (fun p => match p with EntryFile => Some sample_sm3 | TableFile => Some table | _ => None end) [])
    = None.
Proof.
  split; [by vm_compute|]. by vm_compute.
Qed.

(** ** Witnesses *)

Lemma u64_range_spec_witness :
  u64_ok (mk_u64 4294967295 1) /\ u64_ok (mk_u64 0 3) /\
  u64_val (u64_range (mk_u64 4294967295 1) (mk_u64 0 3)) = 4294967298.
Proof.
  assert (H1 : u64_ok (mk_u64 4294967295 1)) by (unfold u64_ok; cbn; lia).
  assert (H2 : u64_ok (mk_u64 0 3)) by (unfold u64_ok; cbn; lia).
  split; [done|]. split; [done|]. rewrite (proj2 (u64_range_spec _ _ H1 H2)). by vm_compute.
Defined.

Lemma overwrite_keeps_checksums_witness :
  (24 <= length sample_sm3)%nat /\
  exists buf', overwrite_smbios3_address sample_sm3 = Some buf' /\ readdressed sample_sm3 buf' 5 16 8.
Proof.
  split; [vm_compute; lia|]. apply (proj2 (overwrite_keeps_checksums sample_sm3 0)). vm_compute. lia.
Defined.

Definition sample_entry : list byte := sample_sm3 ++ repeat x00 8.

Definition sample_opts : entry_opts := mk_entry_opts true false false false false.

Definition sample_state : entry_state :=
  mk_entry_state (fun p => match p with TableFile => Some sample_table | _ => None end) [].

Lemma smbios3_dump_roundtrip_witness :
  exists st1 st2,
    smbios3_decode (with_dump_bin sample_opts false) sample_entry TableFile FLAG_NO_FILE_OFFSET sample_state
      = Some (true, st1) /\
    decoded (e_out st1) = [(sample_table, 0, 770)] /\
    smbios3_decode (with_dump_bin sample_opts true) sample_entry TableFile FLAG_NO_FILE_OFFSET sample_state
      = Some (true, st2) /\
    exists st3, main (mk_entry_opts true false true false false) EFI_NOT_FOUND (mk_entry_state (files st2) [])
        = Some (0, st3) /\
      decoded (e_out st3) = [(sample_table, 0, 770)].
Proof.
  destruct (smbios3_decode (with_dump_bin sample_opts false) sample_entry TableFile FLAG_NO_FILE_OFFSET sample_state)
    as [[b st1]|] eqn:E; [|by vm_compute in E].
  assert (Hb : b = true /\ decoded (e_out st1) = [(sample_table, 0, 770)]).
  { split; [apply (f_equal (fun r => match r with Some (b, _) => b | None => false end)) in E; vm_compute in E; congruence|].
    apply (f_equal (fun r => match r with Some (_, s) => decoded (e_out s) | None => [] end)) in E. symmetry in E.
    vm_compute in E. vm_compute. exact E. }
  destruct Hb as [-> Hd].
  destruct (smbios3_dump_roundtrip sample_opts sample_entry TableFile FLAG_NO_FILE_OFFSET sample_state st1
    sample_table 0 770 24 ltac:(vm_compute; lia) ltac:(by vm_compute) ltac:(by vm_compute) ltac:(lia) E Hd ltac:(done))
    as (st2 & E2 & Hm).
  exists st1, st2. do 3 (split; [done|]). apply (Hm (mk_entry_opts true false true false false) EFI_NOT_FOUND [] eq_refl eq_refl).
Defined.

Lemma main_safe_witness :
  exists r, main (mk_entry_opts true true false false false) (EFI_FOUND 0)
    (mk_entry_state (fun p => match p with EntryFile => Some sample_entry | TableFile => Some sample_table | _ => None end) [])
    = Some r.
Proof.
  apply main_safe.
  - intros l [= <-]. right. vm_compute. lia.
  - intros a [= <-]. lia.
Defined.
