(* ===== verification/CmpOrder.v ===== *)
(** * Compare functions

    The compare functions of the platform objects are sequences of NM_CMP_*
    steps (shared/nm-glib-aux/nm-shared-utils.h).  Each is shown equal to the
    comparison of a sort key: a tree of the integers and strings it looks at, in
    the order of the steps.  The order on keys is linear, so that a compare
    function with a key is a total preorder, and is zero on equal keys only. *)

From S2P Require Import Bytes.

(** ** The steps *)

(** memcmp () and strcmp (): the sign.  A C string is the bytes before its
    terminating NUL, which is smaller than any of them. *)
Fixpoint bytes_cmp (a b : list byte) : Z :=
  match a, b with
  | [], [] => 0
  | [], _ :: _ => -1
  | _ :: _, [] => 1
  | x :: a', y :: b' => NM_CMP_DIRECT (b2z x) (b2z y) ;;? bytes_cmp a' b'
  end.

Definition memcmp (a b : list byte) (n : nat) : Z := bytes_cmp (take n a) (take n b).
Definition strcmp (a b : list byte) : Z := bytes_cmp a b.

(** nm_strcmp0 (): NULL is smaller than every string.  NM_CMP_FIELD_STR_INTERNED
    skips it on equal pointers, where it is zero. *)
Definition nm_strcmp0 (a b : option (list byte)) : Z :=
  match a, b with
  | None, None => 0
  | None, Some _ => -1
  | Some _, None => 1
  | Some a, Some b => strcmp a b
  end.

(** NM_CMP_FIELD_BOOL, and NM_CMP_FIELD_UNSAFE on a field of one bit. *)
Definition NM_CMP_BOOL (a b : bool) : Z := NM_CMP_DIRECT (Z.b2z a) (Z.b2z b).

(** A step under a condition. *)
Definition cmp_if (g : bool) (c : Z) : Z := if g then c else 0.

(** Element by element, to the end of the first list. *)
Fixpoint cmp_list {A} (c : A -> A -> Z) (l m : list A) : Z :=
  match l, m with
  | x :: l', y :: m' => c x y ;;? cmp_list c l' m'
  | _, _ => 0
  end.

(** NM_CMP_SELF on pointers: NULL first. *)
Definition cmp_opt {A} (c : A -> A -> Z) (a b : option A) : Z :=
  match a, b with
  | None, None => 0
  | None, Some _ => -1
  | Some _, None => 1
  | Some a, Some b => c a b
  end.

(** ** Orders *)

(** A linear order, as the sign of a comparison. *)
Class CmpOrder {A} (c : A -> A -> Z) : Prop := {
  cmp_eq : forall a b, c a b = 0 <-> a = b;
  cmp_anti : forall a b, c b a = - c a b;
  cmp_trans : forall a b d, c a b <= 0 -> c b d <= 0 -> c a d <= 0;
  cmp_sign : forall a b, -1 <= c a b <= 1
}.

(** A total preorder on the well-typed elements: what g_ptr_array_sort () and
    the ordered tables need. *)
Class CmpPreorder {A} (D : A -> Prop) (c : A -> A -> Z) : Prop := {
  pre_refl : forall a, D a -> c a a = 0;
  pre_anti : forall a b, D a -> D b -> c b a = - c a b;
  pre_trans : forall a b d, D a -> D b -> D d -> c a b <= 0 -> c b d <= 0 -> c a d <= 0;
  pre_sign : forall a b, D a -> D b -> -1 <= c a b <= 1
}.

Lemma cmp_refl {A} (c : A -> A -> Z) `{!CmpOrder c} a : c a a = 0.
Proof. by apply cmp_eq. Qed.

Lemma cmp_then_zero c k : c ;;? k = 0 <-> c = 0 /\ k = 0.
Proof. unfold cmp_then. destruct (Z.eqb_spec c 0); intuition lia. Qed.

Lemma cmp_then_ext c k k' : (c = 0 -> k = k') -> c ;;? k = c ;;? k'.
Proof. unfold cmp_then. destruct (Z.eqb_spec c 0); auto. Qed.

Lemma cmp_then_0_r c : c ;;? 0 = c.
Proof. unfold cmp_then. destruct (Z.eqb_spec c 0); congruence. Qed.

Lemma cmp_then_0_l k : 0 ;;? k = k.
Proof. done. Qed.

Lemma cmp_then_assoc a b c : (a ;;? b) ;;? c = a ;;? b ;;? c.
Proof. unfold cmp_then. destruct (Z.eqb_spec a 0) as [->|Ha]; [done|]. by destruct (Z.eqb_spec a 0). Qed.

Lemma cmp_then_opp c k : - (c ;;? k) = (- c) ;;? (- k).
Proof. unfold cmp_then. destruct (Z.eqb_spec c 0), (Z.eqb_spec (- c) 0); lia. Qed.

Lemma cmp_then_sign c k : -1 <= c <= 1 -> -1 <= k <= 1 -> -1 <= c ;;? k <= 1.
Proof. unfold cmp_then. destruct (Z.eqb_spec c 0); lia. Qed.

(** Transitivity of a step and of what follows it, where the step ties. *)
Lemma cmp_then_trans c1 c2 c3 k1 k2 k3 :
  (c1 <= 0 -> c2 <= 0 -> c3 <= 0) -> (c1 <= 0 -> c2 <= 0 -> c3 = 0 -> c1 = 0 /\ c2 = 0) ->
  (c1 = 0 -> c2 = 0 -> k1 <= 0 -> k2 <= 0 -> k3 <= 0) ->
  c1 ;;? k1 <= 0 -> c2 ;;? k2 <= 0 -> c3 ;;? k3 <= 0.
Proof.
  unfold cmp_then. intros H1 H2 H3.
  destruct (Z.eqb_spec c1 0), (Z.eqb_spec c2 0), (Z.eqb_spec c3 0); intros; lia.
Qed.

(** An order that ties at the ends of a chain ties on all of it. *)
Lemma cmp_tie {A} (c : A -> A -> Z) `{!CmpOrder c} a b d :
  c a b <= 0 -> c b d <= 0 -> c a d = 0 -> c a b = 0 /\ c b d = 0.
Proof.
  intros H1 H2 ->%cmp_eq. pose proof (cmp_anti b d). lia.
Qed.

#[export] Instance direct_order : CmpOrder NM_CMP_DIRECT.
Proof.
  split; intros *; unfold NM_CMP_DIRECT;
    repeat match goal with
           | |- context [?x =? ?y] => destruct (Z.eqb_spec x y)
           | |- context [?x <? ?y] => destruct (Z.ltb_spec x y)
           end; lia.
Qed.

Section list_order.
Context {A : Type} (c : A -> A -> Z).

(** The lexicographic order; a prefix is smaller. *)
Fixpoint lex_cmp (l m : list A) : Z :=
  match l, m with
  | [], [] => 0
  | [], _ :: _ => -1
  | _ :: _, [] => 1
  | x :: l', y :: m' => c x y ;;? lex_cmp l' m'
  end.

(** The laws of an element of the list suffice, so that the lemmas serve for
    trees too. *)
Lemma lex_eq l m :
  Forall (fun x => forall y, c x y = 0 <-> x = y) l -> lex_cmp l m = 0 <-> l = m.
Proof.
  intros H. revert m. induction H as [|x l Hx _ IH]; intros [|y m]; cbn; [done|done|done|].
  rewrite cmp_then_zero, Hx, IH. split; [intros [-> ->]; done|intros [= -> ->]; done].
Qed.

Lemma lex_anti l m :
  Forall (fun x => forall y, c y x = - c x y) l -> lex_cmp m l = - lex_cmp l m.
Proof.
  intros H. revert m. induction H as [|x l Hx _ IH]; intros [|y m]; cbn; [done|done|done|].
  by rewrite cmp_then_opp, Hx, IH.
Qed.

Lemma lex_sign l m : Forall (fun x => forall y, -1 <= c x y <= 1) l -> -1 <= lex_cmp l m <= 1.
Proof.
  intros H. revert m. induction H as [|x l Hx _ IH]; intros [|y m]; cbn; try lia.
  apply cmp_then_sign; auto.
Qed.

Lemma lex_trans l m n :
  Forall (fun x => forall y z, c x y <= 0 -> c y z <= 0 ->
                    c x z <= 0 /\ (c x z = 0 -> c x y = 0 /\ c y z = 0)) l ->
  lex_cmp l m <= 0 -> lex_cmp m n <= 0 -> lex_cmp l n <= 0.
Proof.
  intros H. revert m n. induction H as [|x l Hx _ IH]; intros [|y m] [|z n]; cbn; try lia.
  apply cmp_then_trans.
  - intros H1 H2. by apply (Hx y z).
  - intros H1 H2. by apply (Hx y z).
  - intros _ _. apply IH.
Qed.

#[export] Instance lex_order `{!CmpOrder c} : CmpOrder lex_cmp.
Proof.
  split; intros.
  - apply lex_eq. apply Forall_forall. intros x _ y. apply cmp_eq.
  - apply lex_anti. apply Forall_forall. intros x _ y. apply cmp_anti.
  - eapply lex_trans; [|done|done]. apply Forall_forall. intros x _ y z H1 H2.
    split; [by eapply cmp_trans|by eapply cmp_tie].
  - apply lex_sign. apply Forall_forall. intros x _ y. apply cmp_sign.
Qed.
End list_order.

Lemma bytes_cmp_lex a b :
  bytes_cmp a b = lex_cmp (fun x y => NM_CMP_DIRECT (b2z x) (b2z y)) a b.
Proof. revert b. by induction a as [|x a IH]; intros [|y b]; cbn; rewrite ?IH. Qed.

#[export] Instance byte_order : CmpOrder (fun x y => NM_CMP_DIRECT (b2z x) (b2z y)).
Proof.
  split; intros; [|apply cmp_anti|by eapply cmp_trans|apply cmp_sign].
  rewrite cmp_eq. split; [apply b2z_inj|by intros ->].
Qed.

#[export] Instance bytes_order : CmpOrder bytes_cmp.
Proof.
  split; intros *; rewrite !bytes_cmp_lex; [apply cmp_eq|apply cmp_anti|apply cmp_trans|apply cmp_sign].
Qed.

#[export] Instance strcmp0_order : CmpOrder nm_strcmp0.
Proof.
  split.
  - intros [a|] [b|]; cbn; [|done|done|done]. unfold strcmp. rewrite cmp_eq. split; congruence.
  - intros [a|] [b|]; cbn; [|done|done|done]. apply cmp_anti.
  - intros [a|] [b|] [d|]; cbn; try lia. apply cmp_trans.
  - intros [a|] [b|]; cbn; [|lia|lia|lia]. apply cmp_sign.
Qed.

(** ** Sort keys *)

#[warnings="-register-all"]
Inductive kval :=
| KZ (z : Z)
| KS (s : option (list byte))
| KL (l : list kval).

Fixpoint kval_cmp (x y : kval) {struct x} : Z :=
  match x, y with
  | KZ a, KZ b => NM_CMP_DIRECT a b
  | KS a, KS b => nm_strcmp0 a b
  | KL l, KL m =>
      (fix go (l m : list kval) {struct l} : Z :=
         match l, m with
         | [], [] => 0
         | [], _ :: _ => -1
         | _ :: _, [] => 1
         | x :: l', y :: m' => kval_cmp x y ;;? go l' m'
         end) l m
  | KZ _, _ => -1
  | _, KZ _ => 1
  | KS _, _ => -1
  | _, KS _ => 1
  end.

Lemma kval_cmp_KL l m : kval_cmp (KL l) (KL m) = lex_cmp kval_cmp l m.
Proof. cbn. revert m. induction l as [|x l IH]; intros [|y m]; cbn; [done|done|done|]. by rewrite IH. Qed.

Section kval_ind.
Context (P : kval -> Prop) (Hz : forall z, P (KZ z)) (Hs : forall s, P (KS s))
        (Hl : forall l, Forall P l -> P (KL l)).

Fixpoint kval_tree_ind (x : kval) : P x :=
  match x with
  | KZ z => Hz z
  | KS s => Hs s
  | KL l => Hl l ((fix go l : Forall P l :=
                     match l with
                     | [] => List.Forall_nil P
                     | y :: l' => List.Forall_cons P y l' (kval_tree_ind y) (go l')
                     end) l)
  end.
End kval_ind.

Lemma kval_eq x : forall y, kval_cmp x y = 0 <-> x = y.
Proof.
  induction x as [z|s|l IH] using kval_tree_ind; intros [z'|s'|l']; try done.
  - cbn. rewrite cmp_eq. split; congruence.
  - cbn. rewrite cmp_eq. split; congruence.
  - rewrite kval_cmp_KL, lex_eq by done. split; congruence.
Qed.

Lemma kval_anti x : forall y, kval_cmp y x = - kval_cmp x y.
Proof.
  induction x as [z|s|l IH] using kval_tree_ind; intros [z'|s'|l']; try done.
  - apply (cmp_anti (c := NM_CMP_DIRECT)).
  - apply (cmp_anti (c := nm_strcmp0)).
  - rewrite !kval_cmp_KL. by apply lex_anti.
Qed.

Lemma kval_sign x : forall y, -1 <= kval_cmp x y <= 1.
Proof.
  induction x as [z|s|l IH] using kval_tree_ind; intros [z'|s'|l']; try (cbn; lia).
  - apply (cmp_sign (c := NM_CMP_DIRECT)).
  - apply (cmp_sign (c := nm_strcmp0)).
  - rewrite !kval_cmp_KL. by apply lex_sign.
Qed.

Lemma kval_trans x : forall y z, kval_cmp x y <= 0 -> kval_cmp y z <= 0 -> kval_cmp x z <= 0.
Proof.
  induction x as [a|a|l IH] using kval_tree_ind; intros [b|b|m] [d|d|n]; try (cbn; lia).
  - apply (cmp_trans (c := NM_CMP_DIRECT)).
  - apply (cmp_trans (c := nm_strcmp0)).
  - rewrite !kval_cmp_KL. apply lex_trans. eapply Forall_impl; [exact IH|]. cbn.
    intros x Hx y z H1 H2. split; [by eapply Hx|]. intros ->%kval_eq.
    pose proof (kval_anti z y). lia.
Qed.

#[export] Instance kval_order : CmpOrder kval_cmp.
Proof. split; intros; [apply kval_eq|apply kval_anti|by eapply kval_trans|apply kval_sign]. Qed.

#[export] Instance kval_eq_dec : EqDecision kval.
Proof.
  intros a b. destruct (Z.eq_dec (kval_cmp a b) 0) as [E|E]; [left; by apply kval_eq|right].
  intros ->. apply E. by apply kval_eq.
Defined.

(** ** Compare functions with a key *)

Definition any {A} (_ : A) : Prop := True.

Class CmpKey {A} (D : A -> Prop) (c : A -> A -> Z) (key : A -> kval) : Prop :=
  cmp_key : forall a b, D a -> D b -> c a b = kval_cmp (key a) (key b).

Section cmp_key.
Context {A : Type} {D : A -> Prop} {c : A -> A -> Z} {key : A -> kval} `{!CmpKey D c key}.

Lemma cmp_key_zero a b : D a -> D b -> c a b = 0 <-> key a = key b.
Proof. intros Ha Hb. rewrite (cmp_key (c := c)) by done. apply kval_eq. Qed.

Lemma cmp_key_preorder : CmpPreorder D c.
Proof.
  split.
  - intros a Ha. rewrite (cmp_key (c := c)) by done. apply cmp_refl, _.
  - intros a b Ha Hb. rewrite !(cmp_key (c := c)) by done. apply kval_anti.
  - intros a b d Ha Hb Hd. rewrite !(cmp_key (c := c)) by done. apply kval_trans.
  - intros a b Ha Hb. rewrite (cmp_key (c := c)) by done. apply kval_sign.
Qed.

(** A loop over two lists of the same length. *)
Lemma cmp_list_key l m :
  Forall D l -> Forall D m -> length l = length m ->
  cmp_list c l m = kval_cmp (KL (map key l)) (KL (map key m)).
Proof.
  rewrite kval_cmp_KL. intros Hl. revert m. induction Hl as [|x l Hx _ IH]; intros [|y m]; cbn; try lia.
  intros [Hy Hm]%Forall_cons [= H]. by rewrite (cmp_key (c := c)), IH.
Qed.

(** A pointer that may be NULL. *)
Definition key_opt (x : option A) : kval := KL (match x with None => [] | Some x => [key x] end).

Lemma cmp_opt_key a b :
  from_option D True a -> from_option D True b -> cmp_opt c a b = kval_cmp (key_opt a) (key_opt b).
Proof. destruct a, b; cbn; rewrite ?cmp_then_0_r; intros; [by apply cmp_key|done|done|done]. Qed.
End cmp_key.
Arguments key_opt {A} key x.

Lemma memcmp_full a b n : length a = n -> length b = n -> memcmp a b n = bytes_cmp a b.
Proof. intros <- H. unfold memcmp. by rewrite !take_ge by lia. Qed.

(** Steps that tie make their operands equal. *)
Lemma direct_tie a b : NM_CMP_DIRECT a b = 0 -> a = b.
Proof. apply cmp_eq. Qed.
Lemma bytes_tie a b : bytes_cmp a b = 0 -> a = b.
Proof. apply cmp_eq. Qed.
Lemma strcmp0_tie a b : nm_strcmp0 a b = 0 -> a = b.
Proof. apply cmp_eq. Qed.
Lemma bool_tie a b : NM_CMP_BOOL a b = 0 -> a = b.
Proof. intros H%direct_tie. by apply Z.b2z_inj. Qed.

(** Walks through the steps of a compare function and of its key, side by side. *)
Ltac tie :=
  match goal with
  | H : NM_CMP_DIRECT _ _ = 0 |- _ => apply direct_tie in H; try apply Z.b2z_inj in H
  | H : NM_CMP_BOOL _ _ = 0 |- _ => apply bool_tie in H
  | H : nm_strcmp0 _ _ = 0 |- _ => apply strcmp0_tie in H
  | H : strcmp _ _ = 0 |- _ => apply bytes_tie in H
  | H : bytes_cmp _ _ = 0 |- _ => apply bytes_tie in H
  | H : kval_cmp (KZ _) (KZ _) = 0 |- _ => apply kval_eq in H; injection H as H; try apply Z.b2z_inj in H
  | H : kval_cmp (KS _) (KS _) = 0 |- _ => apply kval_eq in H; injection H as H
  end.

Ltac cmp_step := apply cmp_then_ext; let H := fresh "Htie" in intros H; try tie.
