(* ===== verification/IpAddr.v ===== *)
(** * IP addresses: prefixes and their order

    The network part of an address (shared/nm-glib-aux/nm-shared-utils.c) and
    the comparison of two networks up to the shorter prefix
    (src/nm-core-utils.h).  An in_addr_t is the value of the four bytes in the
    byte order of the machine, a struct in6_addr its sixteen bytes. *)

From S2P Require Import Bytes CmpOrder.

Abbreviation in_addr_t := Z (only parsing).
Abbreviation in6_addr := (list byte) (only parsing).

(** ** Byte order *)

Class ByteOrder := big_endian : bool.

Definition bswap16 (x : Z) : Z :=
  Z.lor (Z.shiftl (Z.land x 0xFF) 8) (Z.land (Z.shiftr x 8) 0xFF).

Definition bswap32 (x : Z) : Z :=
  Z.lor (Z.lor (Z.shiftl (Z.land x 0xFF) 24) (Z.shiftl (Z.land x 0xFF00) 8))
        (Z.lor (Z.land (Z.shiftr x 8) 0xFF00) (Z.land (Z.shiftr x 24) 0xFF)).

Definition htons `{ByteOrder} (x : Z) : Z := if big_endian then x else bswap16 x.
Definition htonl `{ByteOrder} (x : Z) : Z := if big_endian then x else bswap32 x.
Abbreviation ntohl := htonl (only parsing).

Section addr.
Context `{ByteOrder}.

(** ** The network part of an address *)

Definition _nm_utils_ip4_prefix_to_netmask (prefix : Z) : Z :=
  if prefix <? 32 then u32 (Z.lnot (htonl (Z.shiftr 0xFFFFFFFF prefix))) else 0xFFFFFFFF.

Definition nm_utils_ip4_address_clear_host_address (addr : in_addr_t) (plen : Z) : in_addr_t :=
  Z.land addr (_nm_utils_ip4_prefix_to_netmask plen).

(** The result is NULL, and [dst] untouched, when plen is above 128. *)
Definition nm_utils_ip6_address_clear_host_address (src : in6_addr) (plen : Z) : option in6_addr :=
  if 128 <? plen then None
  else if plen <? 128 then
    let nbytes := Z.to_nat (plen / 8) in
    let nbits := plen mod 8 in
    let part := if nbits =? 0 then []
                else [z2b (Z.land (b2z (nth nbytes src x00)) (Z.shiftl 0xFF (8 - nbits)))] in
    Some (take nbytes src ++ part ++ replicate (16 - nbytes - length part) x00)
  else Some src.

(** ** Equality up to a prefix length *)

Definition nm_utils_ip4_address_same_prefix_cmp (addr_a addr_b : in_addr_t) (plen : Z) : Z :=
  NM_CMP_DIRECT (htonl (nm_utils_ip4_address_clear_host_address addr_a plen))
                (htonl (nm_utils_ip4_address_clear_host_address addr_b plen)).

Definition nm_utils_ip6_address_same_prefix_cmp (addr_a addr_b : in6_addr) (plen : Z) : Z :=
  if 128 <=? plen then bytes_cmp addr_a addr_b
  else
    let nbytes := Z.to_nat (plen / 8) in
    memcmp addr_a addr_b nbytes ;;?
    let plen := plen mod 8 in
    if negb (plen =? 0) then
      let m := u8 (Z.lnot (Z.shiftl 1 (8 - plen) - 1)) in
      NM_CMP_DIRECT (Z.land (b2z (nth nbytes addr_a x00)) m) (Z.land (b2z (nth nbytes addr_b x00)) m)
    else 0.

Definition nm_utils_ip4_address_same_prefix (addr_a addr_b : in_addr_t) (plen : Z) : bool :=
  nm_utils_ip4_address_same_prefix_cmp addr_a addr_b plen =? 0.

Definition nm_utils_ip6_address_same_prefix (addr_a addr_b : in6_addr) (plen : Z) : bool :=
  nm_utils_ip6_address_same_prefix_cmp addr_a addr_b plen =? 0.

End addr.

(** ** Networks as numbers *)

(** The first [p] of [w] bits of a number, and the number with the others zero. *)
Definition prefix_bits (w p A : Z) : Z := A / 2 ^ (w - Z.min p w).
Definition masked (w p A : Z) : Z := prefix_bits w p A * 2 ^ (w - Z.min p w).

Lemma masked_range w p A : 0 <= p -> 0 <= A < 2 ^ w -> 0 <= masked w p A < 2 ^ w.
Proof.
  intros Hp HA. unfold masked, prefix_bits. destruct (Z_lt_le_dec w 0); [rewrite Z.pow_neg_r in HA by lia; lia|].
  assert (0 < 2 ^ (w - Z.min p w)) by (apply Z.pow_pos_nonneg; lia).
  pose proof (Z.mul_div_le A (2 ^ (w - Z.min p w))). pose proof (Z.div_pos A (2 ^ (w - Z.min p w))). lia.
Qed.

Lemma masked_idem w p A : 0 <= p -> 0 <= w -> masked w p (masked w p A) = masked w p A.
Proof.
  intros Hp Hw. unfold masked at 1, prefix_bits at 1. unfold masked.
  rewrite Z.div_mul; [done|]. assert (0 < 2 ^ (w - Z.min p w)) by (apply Z.pow_pos_nonneg; lia). lia.
Qed.

Lemma direct_scale k a b : 0 < k -> NM_CMP_DIRECT (a * k) (b * k) = NM_CMP_DIRECT a b.
Proof.
  intros Hk. unfold NM_CMP_DIRECT.
  destruct (Z.eqb_spec a b), (Z.eqb_spec (a * k) (b * k)), (Z.ltb_spec a b), (Z.ltb_spec (a * k) (b * k)); nia.
Qed.

(** The order of networks: prefixes up to the shorter length, then the lengths,
    is the lexicographic order of the network address and the length. *)
Lemma prefix_lex w A B p q k :
  0 <= w -> 0 <= p -> 0 <= q ->
  NM_CMP_DIRECT (prefix_bits w (Z.min p q) A) (prefix_bits w (Z.min p q) B) ;;? NM_CMP_DIRECT p q ;;? k =
  NM_CMP_DIRECT (masked w p A) (masked w q B) ;;? NM_CMP_DIRECT p q ;;? k.
Proof.
  intros Hw Hp Hq. unfold masked, prefix_bits.
  set (P := w - Z.min p w). set (Q := w - Z.min q w).
  assert (E : w - Z.min (Z.min p q) w = Z.max P Q) by lia. rewrite E.
  assert (HP : 0 < 2 ^ P) by (apply Z.pow_pos_nonneg; lia).
  assert (HQ : 0 < 2 ^ Q) by (apply Z.pow_pos_nonneg; lia).
  assert (Hs : forall X s t, 0 <= s <= t -> X / 2 ^ t * 2 ^ t <= X / 2 ^ s * 2 ^ s < (X / 2 ^ t + 1) * 2 ^ t).
  { intros X s t Hst. assert (0 < 2 ^ s) by (apply Z.pow_pos_nonneg; lia).
    assert (Hts : 2 ^ t = 2 ^ s * 2 ^ (t - s)) by (rewrite <- Z.pow_add_r by lia; f_equal; lia).
    assert (0 < 2 ^ (t - s)) by (apply Z.pow_pos_nonneg; lia).
    rewrite Hts, <- Z.div_div by lia. set (Y := X / 2 ^ s).
    pose proof (Z.div_mod Y (2 ^ (t - s))). pose proof (Z.mod_pos_bound Y (2 ^ (t - s))). nia. }
  pose proof (Hs A P (Z.max P Q)) as HA. pose proof (Hs B Q (Z.max P Q)) as HB.
  assert (HM : 0 < 2 ^ Z.max P Q) by (apply Z.pow_pos_nonneg; lia).
  set (a := A / 2 ^ Z.max P Q) in *. set (b := B / 2 ^ Z.max P Q) in *.
  set (x := A / 2 ^ P * 2 ^ P) in *. set (y := B / 2 ^ Q * 2 ^ Q) in *.
  assert (Hx : Z.max P Q = P -> x = a * 2 ^ Z.max P Q) by (subst x a; by intros ->).
  assert (Hy : Z.max P Q = Q -> y = b * 2 ^ Z.max P Q) by (subst y b; by intros ->).
  clearbody a b x y. assert (Hxy : (a < b -> x < y) /\ (b < a -> y < x)) by nia.
  unfold cmp_then, NM_CMP_DIRECT.
  destruct (Z.eqb_spec a b) as [Eab|]; cbn [Z.eqb].
  - destruct (Z.eqb_spec p q) as [->|Hpq]; cbn [Z.eqb].
    + rewrite Hx, Hy, Eab, Z.eqb_refl by lia. done.
    + destruct (Z.ltb_spec p q), (Z.eqb_spec x y), (Z.ltb_spec x y); cbn [Z.eqb]; try done; exfalso.
      * rewrite Hx in * by lia. nia.
      * rewrite Hy in * by lia. nia.
  - destruct (Z.ltb_spec a b), (Z.eqb_spec x y), (Z.ltb_spec x y); cbn [Z.eqb]; try done; lia.
Qed.

(** ** Bits of a swapped word *)

Definition swap_index (i : Z) : Z := if i <? 8 then i + 24 else if i <? 16 then i + 8 else if i <? 24 then i - 8 else i - 24.

Lemma u32_testbit x i : 0 <= i -> Z.testbit (u32 x) i = (i <? 32) && Z.testbit x i.
Proof.
  intros Hi. unfold u32. change 4294967296 with (2 ^ 32).
  destruct (Z.ltb_spec i 32); [by apply Z.mod_pow2_bits_low|]. apply Z.mod_pow2_bits_high. lia.
Qed.

Lemma u32_high x i : 0 <= x < 2 ^ 32 -> 32 <= i -> Z.testbit x i = false.
Proof.
  intros Hx Hi. replace x with (u32 x) by (apply Z.mod_small; lia). rewrite u32_testbit by lia.
  by destruct (Z.ltb_spec i 32); [lia|].
Qed.

Lemma bswap32_testbit x i : 0 <= i -> Z.testbit (bswap32 x) i = (i <? 32) && Z.testbit x (swap_index i).
Proof.
  intros Hi. unfold bswap32. rewrite !Z.lor_spec, !Z.shiftl_spec, !Z.land_spec, !Z.shiftr_spec by lia.
  destruct (Z.ltb_spec i 32) as [Hlt|Hge].
  - assert (Hall : Forall (fun i => 0 <= i) (seqZ 0 32)) by (apply Forall_forall; intros j [? ?]%elem_of_seqZ; lia).
    assert (Hin : i ∈ seqZ 0 32) by (apply elem_of_seqZ; lia). clear Hi Hlt Hall.
    revert i Hin. apply Forall_forall. 
    repeat (apply Forall_cons; split; [|]); try apply Forall_nil; try done.
    all: rewrite ?Z.land_spec; cbn; rewrite ?andb_false_r, ?andb_true_r, ?orb_false_r; done.
  - change 0xFF with (Z.ones 8). change 0xFF00 with (Z.shiftl (Z.ones 8) 8).
    rewrite !Z.shiftl_spec, !Z.testbit_ones_nonneg by lia.
    repeat match goal with |- context [?a <? ?b] => destruct (Z.ltb_spec a b); [lia|] end.
    by rewrite ?andb_false_r.
Qed.

Lemma swap_index_range i : 0 <= i < 32 -> 0 <= swap_index i < 32.
Proof. unfold swap_index. intros. repeat case_match; bools; lia. Qed.

Lemma swap_index_invol i : 0 <= i < 32 -> swap_index (swap_index i) = i.
Proof. unfold swap_index. intros. repeat (case_match; bools); lia. Qed.

Lemma bswap32_range x : 0 <= bswap32 x < 2 ^ 32.
Proof.
  replace (bswap32 x) with (u32 (bswap32 x)); [unfold u32; apply Z.mod_pos_bound; lia|].
  apply Z.bits_inj'. intros i Hi. rewrite u32_testbit, bswap32_testbit by done.
  by destruct (i <? 32).
Qed.

(** Masks of 32 bits. *)
Lemma land_not_low A k :
  0 <= k <= 32 -> 0 <= A < 2 ^ 32 -> Z.land A (u32 (Z.lnot (Z.ones k))) = A / 2 ^ k * 2 ^ k.
Proof.
  intros Hk HA. rewrite <- Z.shiftr_div_pow2, <- Z.shiftl_mul_pow2 by lia.
  apply Z.bits_inj'. intros i Hi. rewrite Z.land_spec, u32_testbit, Z.lnot_spec, Z.testbit_ones_nonneg by lia.
  rewrite Z.shiftl_spec by lia. destruct (Z.ltb_spec i k).
  - rewrite (Z.testbit_neg_r _ (i - k)) by lia. by rewrite !andb_false_r.
  - rewrite Z.shiftr_spec by lia. replace (i - k + k) with i by lia.
    destruct (Z.ltb_spec i 32); cbn; [by rewrite andb_true_r|]. by rewrite (u32_high A).
Qed.

Section swapped.
Context `{ByteOrder}.

Lemma htonl_testbit x i :
  0 <= x < 2 ^ 32 -> 0 <= i ->
  Z.testbit (htonl x) i = (i <? 32) && Z.testbit x (if big_endian then i else swap_index i).
Proof.
  intros Hx Hi. unfold htonl. destruct big_endian; [|by apply bswap32_testbit].
  destruct (Z.ltb_spec i 32); [done|]. by apply u32_high.
Qed.

Lemma htonl_range x : 0 <= x < 2 ^ 32 -> 0 <= htonl x < 2 ^ 32.
Proof. unfold htonl. destruct big_endian; [done|]. intros _. apply bswap32_range. Qed.

Lemma land_range a b : 0 <= a < 2 ^ 32 -> 0 <= b -> 0 <= Z.land a b < 2 ^ 32.
Proof.
  intros Ha Hb. replace (Z.land a b) with (u32 (Z.land a b)); [unfold u32; apply Z.mod_pos_bound; lia|].
  apply Z.bits_inj'. intros i Hi. rewrite u32_testbit, Z.land_spec by done.
  destruct (Z.ltb_spec i 32); [done|]. by rewrite (u32_high a).
Qed.

Lemma u32_range x : 0 <= u32 x < 2 ^ 32.
Proof. unfold u32. apply Z.mod_pos_bound. lia. Qed.

Lemma htonl_land a b :
  0 <= a < 2 ^ 32 -> 0 <= b < 2 ^ 32 -> htonl (Z.land a b) = Z.land (htonl a) (htonl b).
Proof.
  intros Ha Hb. apply Z.bits_inj'. intros i Hi.
  assert (0 <= Z.land a b < 2 ^ 32) by (apply land_range; lia).
  rewrite Z.land_spec, !htonl_testbit, Z.land_spec by done.
  by destruct (i <? 32).
Qed.

Lemma htonl_lnot m : 0 <= m < 2 ^ 32 -> htonl (u32 (Z.lnot (htonl m))) = u32 (Z.lnot m).
Proof.
  intros Hm. apply Z.bits_inj'. intros i Hi.
  rewrite htonl_testbit, (u32_testbit _ i) by (apply u32_range || done).
  destruct (Z.ltb_spec i 32) as [Hlt|]; [cbn|done].
  pose proof (swap_index_range i) as Hr. set (j := if big_endian then i else swap_index i).
  assert (0 <= j < 32) by (subst j; destruct big_endian; lia).
  rewrite u32_testbit, !Z.lnot_spec, htonl_testbit by lia.
  destruct (Z.ltb_spec j 32); [cbn|lia]. subst j. destruct big_endian; [done|]. by rewrite swap_index_invol by lia.
Qed.

Lemma htonl_injective a b : 0 <= a < 2 ^ 32 -> 0 <= b < 2 ^ 32 -> htonl a = htonl b -> a = b.
Proof.
  intros Ha Hb E. apply Z.bits_inj'. intros i Hi.
  destruct (Z_lt_le_dec i 32) as [Hlt|]; [|by rewrite !u32_high].
  pose proof (swap_index_range i) as Hr.
  apply (f_equal (fun x => Z.testbit x (if big_endian then i else swap_index i))) in E.
  destruct big_endian eqn:Eb.
  - rewrite !htonl_testbit, Eb in E by lia. by destruct (Z.ltb_spec i 32); [|lia].
  - rewrite !htonl_testbit, Eb in E by lia. rewrite swap_index_invol in E by lia.
    destruct (Z.ltb_spec (swap_index i) 32); [done|lia].
Qed.

(** In network order, the host part is the low bits. *)
Lemma clear_host4_masked a p :
  0 <= a < 2 ^ 32 -> 0 <= p ->
  htonl (nm_utils_ip4_address_clear_host_address a p) = masked 32 p (htonl a).
Proof.
  intros Ha Hp. unfold nm_utils_ip4_address_clear_host_address, _nm_utils_ip4_prefix_to_netmask, masked, prefix_bits.
  pose proof (htonl_range a Ha) as Hr.
  assert (E : Z.shiftr 0xFFFFFFFF p = Z.ones (32 - Z.min p 32)).
  { apply Z.bits_inj'. intros i Hi. change 0xFFFFFFFF with (Z.ones 32).
    rewrite Z.shiftr_spec, !Z.testbit_ones_nonneg by lia.
    destruct (Z.ltb_spec (i + p) 32), (Z.ltb_spec i (32 - Z.min p 32)); done || lia. }
  destruct (Z.ltb_spec p 32).
  - assert (Hm : 0 <= Z.shiftr 0xFFFFFFFF p < 2 ^ 32).
    { rewrite Z.shiftr_div_pow2 by lia. split; [apply Z.div_pos; [lia|apply Z.pow_pos_nonneg; lia]|].
      apply Z.div_lt_upper_bound; [apply Z.pow_pos_nonneg; lia|]. assert (0 < 2 ^ p) by (apply Z.pow_pos_nonneg; lia). lia. }
    rewrite htonl_land by (done || apply u32_range). rewrite htonl_lnot, E by done.
    apply land_not_low; lia.
  - rewrite Z.min_r, Z.sub_diag by lia. change (2 ^ 0) with 1. rewrite Z.div_1_r, Z.mul_1_r.
    change 0xFFFFFFFF with (Z.ones 32). by rewrite Z.land_ones, Z.mod_small by lia.
Qed.

Lemma clear_host4_range a p :
  0 <= a < 2 ^ 32 -> 0 <= nm_utils_ip4_address_clear_host_address a p < 2 ^ 32.
Proof.
  intros Ha. apply land_range; [done|]. unfold _nm_utils_ip4_prefix_to_netmask.
  destruct (_ <? _); [apply u32_range|lia].
Qed.

Lemma same_prefix_cmp4_bits a b p :
  0 <= a < 2 ^ 32 -> 0 <= b < 2 ^ 32 -> 0 <= p ->
  nm_utils_ip4_address_same_prefix_cmp a b p
  = NM_CMP_DIRECT (prefix_bits 32 p (htonl a)) (prefix_bits 32 p (htonl b)).
Proof.
  intros Ha Hb Hp. unfold nm_utils_ip4_address_same_prefix_cmp. rewrite !clear_host4_masked by done.
  apply direct_scale. apply Z.pow_pos_nonneg; lia.
Qed.
End swapped.

(** ** Addresses of sixteen bytes *)

Lemma be_cons x l : be (x :: l) = b2z x * 256 ^ Z.of_nat (length l) + be l.
Proof.
  unfold be. cbn [fold_left]. assert (Hacc : forall l acc, fold_left (fun acc b => 256 * acc + b2z b) l acc
    = acc * 256 ^ Z.of_nat (length l) + fold_left (fun acc b => 256 * acc + b2z b) l 0).
  { clear. induction l as [|y l IH]; intros acc; cbn [fold_left length]; [lia|].
    rewrite IH, (IH (256 * 0 + b2z y)), Nat2Z.inj_succ, Z.pow_succ_r by lia. lia. }
  rewrite Hacc. lia.
Qed.

Lemma be_app l m : be (l ++ m) = be l * 256 ^ Z.of_nat (length m) + be m.
Proof.
  induction l as [|x l IH]; [done|]. cbn [app]. rewrite !be_cons, IH, length_app, Nat2Z.inj_add, Z.pow_add_r by lia. lia.
Qed.

Lemma be_range l : 0 <= be l < 256 ^ Z.of_nat (length l).
Proof.
  induction l as [|x l IH]; [done|]. rewrite be_cons. cbn [length]. rewrite Nat2Z.inj_succ, Z.pow_succ_r by lia.
  pose proof (b2z_range x). nia.
Qed.

Lemma be_inj l m : length l = length m -> be l = be m -> l = m.
Proof.
  revert m. induction l as [|x l IH]; intros [|y m]; cbn [length]; try done. intros [= Hl]. rewrite !be_cons, Hl.
  pose proof (be_range l) as H1. pose proof (be_range m) as H2. rewrite Hl in H1. intros E.
  assert (b2z x = b2z y) by nia. f_equal; [by apply b2z_inj|]. apply IH; [done|]. nia.
Qed.

Lemma be_zeros n : be (replicate n x00) = 0.
Proof. induction n as [|n IH]; [done|]. cbn [replicate]. by rewrite be_cons, IH. Qed.

Lemma direct_digit k x y a b :
  0 <= a < k -> 0 <= b < k ->
  NM_CMP_DIRECT (x * k + a) (y * k + b) = NM_CMP_DIRECT x y ;;? NM_CMP_DIRECT a b.
Proof.
  intros Ha Hb. unfold cmp_then, NM_CMP_DIRECT.
  destruct (Z.eqb_spec x y), (Z.eqb_spec (x * k + a) (y * k + b)), (Z.eqb_spec a b), (Z.ltb_spec x y),
    (Z.ltb_spec (x * k + a) (y * k + b)), (Z.ltb_spec a b); cbn; try done; nia.
Qed.

(** memcmp () orders byte strings of the same length as numbers. *)
Lemma bytes_cmp_be l m : length l = length m -> bytes_cmp l m = NM_CMP_DIRECT (be l) (be m).
Proof.
  revert m. induction l as [|x l IH]; intros [|y m]; cbn [length]; try done. intros [= Hl].
  rewrite !be_cons, Hl. cbn [bytes_cmp]. rewrite IH by done. symmetry. apply direct_digit; [rewrite <- Hl|]; apply be_range.
Qed.

(** The first bytes of an address, and the leading bits of the next. *)
Lemma be_prefix l n k :
  (n < length l)%nat -> 0 <= k <= 8 ->
  be l / 2 ^ (8 * Z.of_nat (length l - n) - k) = be (take n l) * 2 ^ k + b2z (nth n l x00) / 2 ^ (8 - k).
Proof.
  intros Hn Hk. destruct (lookup_lt_is_Some_2 l n Hn) as (x & Hx).
  rewrite (nth_lookup_Some _ _ _ _ Hx). pose proof (take_drop_middle _ _ _ Hx) as El.
  set (r := length (drop (S n) l)).
  assert (Hr : Z.of_nat (length l - n) = Z.of_nat r + 1) by (subst r; rewrite length_drop; lia).
  rewrite <- El at 1. rewrite be_app, be_cons. cbn [length]. fold r. rewrite Hr, Nat2Z.inj_succ, Z.pow_succ_r by lia.
  replace (8 * (Z.of_nat r + 1) - k) with (8 * Z.of_nat r + (8 - k)) by lia.
  rewrite Z.pow_add_r, Z.pow_mul_r by lia. change (2 ^ 8) with 256.
  pose proof (be_range (drop (S n) l)) as Hd. fold r in Hd. set (K := 256 ^ Z.of_nat r) in *.
  assert (H8 : 256 = 2 ^ k * 2 ^ (8 - k)) by (rewrite <- Z.pow_add_r by lia; by replace (k + (8 - k)) with 8 by lia).
  assert (0 < 2 ^ (8 - k)) by (apply Z.pow_pos_nonneg; lia).
  rewrite <- Z.div_div by lia.
  replace (be (take n l) * (256 * K) + (b2z x * K + be (drop (S n) l)))
    with ((be (take n l) * 256 + b2z x) * K + be (drop (S n) l)) by lia.
  rewrite Z.div_add_l, (Z.div_small (be _)), Z.add_0_r by lia.
  rewrite H8, Z.mul_assoc, Z.div_add_l by lia. done.
Qed.

Lemma high_bits_mask k :
  1 <= k <= 7 -> forall b,
  Z.land (b2z b) (u8 (Z.lnot (Z.shiftl 1 (8 - k) - 1))) = b2z b / 2 ^ (8 - k) * 2 ^ (8 - k)
  /\ b2z (z2b (Z.land (b2z b) (Z.shiftl 0xFF (8 - k)))) = b2z b / 2 ^ (8 - k) * 2 ^ (8 - k).
Proof.
  intros Hk b.
  cut ((Z.land (b2z b) (u8 (Z.lnot (Z.shiftl 1 (8 - k) - 1))) =? b2z b / 2 ^ (8 - k) * 2 ^ (8 - k))
       && (b2z (z2b (Z.land (b2z b) (Z.shiftl 0xFF (8 - k)))) =? b2z b / 2 ^ (8 - k) * 2 ^ (8 - k)) = true).
  { intros E. bools. done. }
  revert b. assert (Hin : k ∈ [1; 2; 3; 4; 5; 6; 7]) by (rewrite !elem_of_cons; lia). clear Hk. revert k Hin.
  refine (proj1 (Forall_forall _ _) _).
  repeat (apply Forall_cons; split; [refine (forall_byte _ _); vm_compute; reflexivity|]). by apply Forall_nil.
Qed.

Section in6.
Implicit Types a b : in6_addr.

Lemma same_prefix_cmp6_bits a b p :
  length a = 16%nat -> length b = 16%nat -> 0 <= p ->
  nm_utils_ip6_address_same_prefix_cmp a b p
  = NM_CMP_DIRECT (prefix_bits 128 p (be a)) (prefix_bits 128 p (be b)).
Proof.
  intros Ha Hb Hp. unfold nm_utils_ip6_address_same_prefix_cmp, prefix_bits.
  destruct (Z.leb_spec 128 p).
  { rewrite Z.min_r, Z.sub_diag, !Z.div_1_r by lia. apply bytes_cmp_be. congruence. }
  rewrite Z.min_l by lia. set (n := Z.to_nat (p / 8)). set (k := p mod 8).
  assert (Hk : 0 <= k < 8) by (apply Z.mod_pos_bound; lia).
  assert (Hn : p / 8 = Z.of_nat n) by (subst n; rewrite Z2Nat.id; [done|apply Z.div_pos; lia]).
  assert (Hpn : p = 8 * Z.of_nat n + k) by (rewrite <- Hn; apply Z.div_mod; lia).
  assert (Hexp : forall l : in6_addr, length l = 16%nat -> 128 - p = 8 * Z.of_nat (length l - n) - k) by (intros; lia).
  rewrite (Hexp a) at 1 by done. rewrite (Hexp b), !be_prefix by lia.
  assert (0 < 2 ^ k) by (apply Z.pow_pos_nonneg; lia).
  assert (Hd : forall x, 0 <= b2z x / 2 ^ (8 - k) < 2 ^ k).
  { intros x. pose proof (b2z_range x). assert (0 < 2 ^ (8 - k)) by (apply Z.pow_pos_nonneg; lia). split; [apply Z.div_pos; lia|].
    apply Z.div_lt_upper_bound; [lia|]. rewrite <- Z.pow_add_r by lia. replace (8 - k + k) with 8 by lia. lia. }
  rewrite direct_digit by apply Hd. unfold memcmp. rewrite bytes_cmp_be by (rewrite !length_take; lia). f_equal.
  destruct (Z.eqb_spec k 0) as [->|Hk0]; cbn [negb].
  - rewrite !(Z.div_small (b2z _)) by apply b2z_range. done.
  - destruct (high_bits_mask k ltac:(lia) (nth n a x00)) as [-> _].
    destruct (high_bits_mask k ltac:(lia) (nth n b x00)) as [-> _].
    apply direct_scale. apply Z.pow_pos_nonneg; lia.
Qed.

Lemma clear_host6_masked a p :
  length a = 16%nat -> 0 <= p <= 128 ->
  exists r, nm_utils_ip6_address_clear_host_address a p = Some r /\ length r = 16%nat /\ be r = masked 128 p (be a).
Proof.
  intros Ha Hp. unfold nm_utils_ip6_address_clear_host_address, masked, prefix_bits.
  destruct (Z.ltb_spec 128 p); [lia|]. destruct (Z.ltb_spec p 128).
  2:{ eexists. split; [done|]. rewrite Z.min_r, Z.sub_diag by lia. change (2 ^ 0) with 1. rewrite Z.div_1_r, Z.mul_1_r. done. }
  rewrite Z.min_l by lia. set (n := Z.to_nat (p / 8)). set (k := p mod 8).
  assert (Hk : 0 <= k < 8) by (apply Z.mod_pos_bound; lia).
  assert (Hn : p / 8 = Z.of_nat n) by (subst n; rewrite Z2Nat.id; [done|apply Z.div_pos; lia]).
  assert (Hpn : p = 8 * Z.of_nat n + k) by (rewrite <- Hn; apply Z.div_mod; lia).
  eexists. split; [done|]. cbn zeta. replace (128 - p) with (8 * Z.of_nat (length a - n) - k) by lia. rewrite be_prefix by lia.
  rewrite be_app, be_app, be_zeros, Z.add_0_r, !length_app, length_replicate, length_take.
  replace (2 ^ (8 * Z.of_nat (length a - n) - k)) with (2 ^ (8 - k) * 256 ^ Z.of_nat (15 - n)).
  2:{ change 256 with (2 ^ 8). rewrite <- Z.pow_mul_r, <- Z.pow_add_r by lia. f_equal. lia. }
  destruct (Z.eqb_spec k 0) as [Hk0|Hk0]; cbn [length].
  - rewrite Hk0. rewrite (Z.div_small (b2z _)) by apply b2z_range. split; [lia|]. cbn [be fold_left].
    replace (Z.of_nat (16 - n - 0)) with (Z.succ (Z.of_nat (15 - n))) by lia.
    replace (Z.of_nat (0 + (16 - n - 0))) with (Z.succ (Z.of_nat (15 - n))) by lia.
    rewrite Z.pow_succ_r by lia. change (2 ^ (8 - 0)) with 256. change (2 ^ 0) with 1. lia.
  - split; [lia|]. destruct (high_bits_mask k ltac:(lia) (nth n a x00)) as [_ E].
    unfold be at 2. cbn [fold_left]. rewrite E.
    replace (Z.of_nat (1 + (16 - n - 1))) with (Z.succ (Z.of_nat (15 - n))) by lia.
    replace (Z.of_nat (16 - n - 1)) with (Z.of_nat (15 - n)) by lia.
    rewrite Z.pow_succ_r by lia.
    assert (H8 : 256 = 2 ^ k * 2 ^ (8 - k)) by (rewrite <- Z.pow_add_r by lia; by replace (k + (8 - k)) with 8 by lia).
    rewrite H8 at 1. rewrite Z.mul_0_r, Z.add_0_l. ring.
Qed.

(** Addresses with the same network of the same length are cleared to the same. *)
Lemma clear_host6_eq a b p :
  length a = 16%nat -> length b = 16%nat -> 0 <= p ->
  masked 128 p (be a) = masked 128 p (be b) ->
  nm_utils_ip6_address_clear_host_address a p = nm_utils_ip6_address_clear_host_address b p.
Proof.
  intros Ha Hb Hp E. destruct (Z_lt_le_dec 128 p).
  - unfold nm_utils_ip6_address_clear_host_address. by destruct (Z.ltb_spec 128 p); [|lia].
  - destruct (clear_host6_masked a p) as (x & -> & Hx & Ex); [done|lia|].
    destruct (clear_host6_masked b p) as (y & -> & Hy & Ey); [done|lia|].
    f_equal. apply be_inj; congruence.
Qed.
End in6.

Lemma clear_host4_eq `{ByteOrder} a b p :
  0 <= a < 2 ^ 32 -> 0 <= b < 2 ^ 32 -> 0 <= p ->
  masked 32 p (htonl a) = masked 32 p (htonl b) ->
  nm_utils_ip4_address_clear_host_address a p = nm_utils_ip4_address_clear_host_address b p.
Proof.
  intros Ha Hb Hp E. apply htonl_injective; [by apply clear_host4_range|by apply clear_host4_range|].
  by rewrite !clear_host4_masked.
Qed.
