(* ===== verification/NMHash.v ===== *)
(** * Hashing

    shared/nm-glib-aux/nm-hash-utils.h feeds the fields of an object to siphash.
    The state of the hash is the bytes appended so far; siphash itself is
    vendored code and a parameter.  Equal states give equal hashes, so that the
    hash of an object agrees with a compare function when the bytes depend on its
    sort key only. *)

From S2P Require Import Bytes CmpOrder IpAddr.

(** c_siphash_finalize () of a state started with a static seed. *)
Class SipHash := siphash : Z -> list byte -> Z.

Definition NMHashState := list byte.

(** The arguments of nm_hash_update_vals (): an integer with the size of its
    type, or an array. *)
Inductive hval :=
| HI (size : nat) (v : Z)
| HB (l : list byte).

Fixpoint le_bytes (n : nat) (z : Z) : list byte :=
  match n with O => [] | S n' => z2b z :: le_bytes n' (z / 256) end.

Section hash.
Context `{ByteOrder}.

(** The representation in memory. *)
Definition mem_of (v : hval) : list byte :=
  match v with
  | HI n z => if big_endian then rev (le_bytes n z) else le_bytes n z
  | HB l => l
  end.

Definition nm_hash_update (l : list byte) (h : NMHashState) : NMHashState := h ++ l.
Definition nm_hash_update_val (v : hval) (h : NMHashState) : NMHashState := nm_hash_update (mem_of v) h.

(** A packed struct of the values, in order. *)
Definition nm_hash_update_vals (vs : list hval) (h : NMHashState) : NMHashState :=
  nm_hash_update (concat (map mem_of vs)) h.

(** The length is hashed too; gsize has eight bytes. *)
Definition nm_hash_update_mem (ptr : list byte) (n : nat) (h : NMHashState) : NMHashState :=
  nm_hash_update (take n ptr) (nm_hash_update_val (HI 8 (Z.of_nat n)) h).

Definition nm_hash_update_str0 (s : option (list byte)) (h : NMHashState) : NMHashState :=
  match s with
  | Some s => nm_hash_update_mem s (length s) h
  | None => nm_hash_update_val (HI 8 (2 ^ 64 - 1)) h
  end.

(** With the terminating NUL. *)
Definition nm_hash_update_str (s : list byte) (h : NMHashState) : NMHashState :=
  nm_hash_update (s ++ [x00]) h.

(** NM_HASH_COMBINE_BOOLS: the last argument is the lowest bit. *)
Definition NM_HASH_COMBINE_BOOLS (size : nat) (l : list bool) : hval :=
  HI size (fold_left (fun acc b => Z.lor (Z.shiftl acc 1) (Z.b2z b)) l 0).

Definition nm_hash_complete `{SipHash} (seed : Z) (h : NMHashState) : Z :=
  let v := siphash seed h in
  let r := Z.lxor (u32 (Z.shiftr v 32)) (u32 v) in
  if r =? 0 then 1396707757 else r.
End hash.

(** What a hash table needs of a hash and an equality with a sort key.  The
    result may also be that there is none. *)
Class HashKey {A R} (D : A -> Prop) (hash : A -> NMHashState -> R) (key : A -> kval) : Prop :=
  hash_key : forall a b h, D a -> D b -> key a = key b -> hash a h = hash b h.

(** An element may be looked up by compare function and hash. *)
Lemma cmp_hash {A R} (D : A -> Prop) c (hash : A -> NMHashState -> R) key `{!CmpKey D c key} `{!HashKey D hash key} a b h :
  D a -> D b -> c a b = 0 -> hash a h = hash b h.
Proof. intros Ha Hb Hc. apply (hash_key a b h Ha Hb). by apply (cmp_key_zero (c := c)). Qed.

Lemma fold_hash_eq {A} (D : A -> Prop) (hash : A -> NMHashState -> NMHashState) key `{!HashKey D hash key} l m h :
  Forall D l -> Forall D m -> map key l = map key m ->
  fold_left (fun h x => hash x h) l h = fold_left (fun h x => hash x h) m h.
Proof.
  intros Hl. revert m h. induction Hl as [|x l Hx _ IH]; intros [|y m] h; cbn; try done.
  intros [Hy Hm]%Forall_cons [= Hk E]. rewrite (hash_key x y) by done. by apply IH.
Qed.

(** Equal keys as equal fields. *)
Ltac key_fields :=
  repeat match goal with
         | H : KL _ = KL _ |- _ => injection H; clear H; intros
         | H : _ :: _ = _ :: _ |- _ => injection H; clear H; intros
         | H : KZ (Z.b2z _) = KZ (Z.b2z _) |- _ => injection H as H
         | H : KZ _ = KZ _ |- _ => injection H as H
         | H : KS (Some _) = KS (Some _) |- _ => injection H as H
         | H : KS _ = KS _ |- _ => injection H as H
         | H : Z.b2z _ = Z.b2z _ |- _ => apply Z.b2z_inj in H
         end.
