(* ===== verification/PlatformLink.v ===== *)
(** * Platform objects: queueing disciplines, filters and links

    The compare and hash functions of src/platform/nm-platform.c for the objects
    that belong to a link.  NM_CMP_SELF, the first step of each, returns zero for
    two pointers to the same object, as the other steps do then. *)

From S2P Require Import Bytes CmpOrder IpAddr NMHash.

(** ** The steps on fields *)

Abbreviation NM_CMP_FIELD a b f := (NM_CMP_DIRECT (f a) (f b)) (only parsing).
Abbreviation NM_CMP_FIELD_UNSAFE a b f := (NM_CMP_BOOL (f a) (f b)) (only parsing).
Abbreviation NM_CMP_FIELD_BOOL a b f := (NM_CMP_BOOL (f a) (f b)) (only parsing).
Abbreviation NM_CMP_FIELD_STR a b f := (strcmp (f a) (f b)) (only parsing).
Abbreviation NM_CMP_FIELD_STR_INTERNED a b f := (nm_strcmp0 (f a) (f b)) (only parsing).
Abbreviation NM_CMP_FIELD_MEMCMP a b f := (bytes_cmp (f a) (f b)) (only parsing).
Abbreviation NM_CMP_FIELD_MEMCMP_LEN a b f n := (memcmp (f a) (f b) n) (only parsing).

Abbreviation KB l := (KS (Some l)).
Abbreviation KBool b := (KZ (Z.b2z b)).

Definition nm_streq0 (a : option (list byte)) (b : string) : bool := bool_decide (a = Some (bs b)).

(** ** Objects *)

Record NMPlatformQdiscFqCodel := {
  fq_limit : Z; fq_flows : Z; fq_target : Z; fq_interval : Z; fq_quantum : Z;
  fq_ce_threshold : Z; fq_memory_limit : Z; fq_ecn : bool
}.

Record NMPlatformQdisc := {
  qd_ifindex : Z; qd_kind : option (list byte); qd_addr_family : Z; qd_handle : Z;
  qd_parent : Z; qd_info : Z; qd_fq_codel : NMPlatformQdiscFqCodel
}.

(** The union of the actions is read by kind only: [simple] or [mirred]. *)
Record NMPlatformActionMirred := {
  mirred_ifindex : Z; mirred_egress : bool; mirred_ingress : bool;
  mirred_mirror : bool; mirred_redirect : bool
}.

Record NMPlatformAction := {
  action_kind : option (list byte);
  simple_sdata : list byte;
  action_mirred : NMPlatformActionMirred
}.

Record NMPlatformTfilter := {
  tf_ifindex : Z; tf_kind : option (list byte); tf_addr_family : Z; tf_handle : Z;
  tf_parent : Z; tf_info : Z; tf_action : NMPlatformAction
}.

Record NMPLinkAddress := { la_data : list byte; la_len : Z }.

Record NMPlatformLink := {
  lk_ifindex : Z; lk_name : list byte; lk_type : Z;
  lk_kind : option (list byte); lk_driver : option (list byte);
  lk_master : Z; lk_parent : Z; lk_n_ifi_flags : Z; lk_mtu : Z; lk_arptype : Z;
  lk_l_address : NMPLinkAddress; lk_l_broadcast : NMPLinkAddress;
  lk_inet6_token : list byte; lk_inet6_addr_gen_mode_inv : Z;
  lk_rx_packets : Z; lk_rx_bytes : Z; lk_tx_packets : Z; lk_tx_bytes : Z;
  lk_connected : bool; lk_initialized : bool
}.

Section qdisc.
Context `{ByteOrder}.

Definition nm_platform_qdisc_hash_update (obj : NMPlatformQdisc) (h : NMHashState) : NMHashState :=
  let h := nm_hash_update_str0 (qd_kind obj) h in
  let h := nm_hash_update_vals
             [HI 4 (qd_ifindex obj); HI 4 (qd_addr_family obj); HI 4 (qd_handle obj);
              HI 4 (qd_parent obj); HI 4 (qd_info obj)] h in
  if nm_streq0 (qd_kind obj) "fq_codel" then
    let fq := qd_fq_codel obj in
    nm_hash_update_vals
      [HI 4 (fq_limit fq); HI 4 (fq_flows fq); HI 4 (fq_target fq); HI 4 (fq_interval fq);
       HI 4 (fq_quantum fq); HI 4 (fq_ce_threshold fq); HI 4 (fq_memory_limit fq);
       NM_HASH_COMBINE_BOOLS 1 [fq_ecn fq]] h
  else h.

Definition nm_platform_qdisc_cmp (a b : NMPlatformQdisc) : Z :=
  NM_CMP_FIELD a b qd_ifindex ;;?
  NM_CMP_FIELD a b qd_parent ;;?
  NM_CMP_FIELD_STR_INTERNED a b qd_kind ;;?
  NM_CMP_FIELD a b qd_addr_family ;;?
  NM_CMP_FIELD a b qd_handle ;;?
  NM_CMP_FIELD a b qd_info ;;?
  cmp_if (nm_streq0 (qd_kind a) "fq_codel")
    (let fa := qd_fq_codel a in
     let fb := qd_fq_codel b in
     NM_CMP_FIELD fa fb fq_limit ;;?
     NM_CMP_FIELD fa fb fq_flows ;;?
     NM_CMP_FIELD fa fb fq_target ;;?
     NM_CMP_FIELD fa fb fq_interval ;;?
     NM_CMP_FIELD fa fb fq_quantum ;;?
     NM_CMP_FIELD fa fb fq_ce_threshold ;;?
     NM_CMP_FIELD fa fb fq_memory_limit ;;?
     NM_CMP_FIELD_UNSAFE fa fb fq_ecn ;;? 0) ;;?
  0.

Definition nm_platform_tfilter_hash_update (obj : NMPlatformTfilter) (h : NMHashState) : NMHashState :=
  let h := nm_hash_update_str0 (tf_kind obj) h in
  let h := nm_hash_update_vals
             [HI 4 (tf_ifindex obj); HI 4 (tf_addr_family obj); HI 4 (tf_handle obj);
              HI 4 (tf_parent obj); HI 4 (tf_info obj)] h in
  let action := tf_action obj in
  match action_kind action with
  | None => h
  | Some kind =>
      let h := nm_hash_update_str kind h in
      if nm_streq0 (action_kind action) "simple" then nm_hash_update_str (simple_sdata action) h
      else if nm_streq0 (action_kind action) "mirred" then
        let mirred := action_mirred action in
        nm_hash_update_vals
          [HI 4 (mirred_ifindex mirred);
           NM_HASH_COMBINE_BOOLS 1 [mirred_ingress mirred; mirred_egress mirred;
                                    mirred_mirror mirred; mirred_redirect mirred]] h
      else h
  end.

Definition nm_platform_tfilter_cmp (a b : NMPlatformTfilter) : Z :=
  NM_CMP_FIELD a b tf_ifindex ;;?
  NM_CMP_FIELD a b tf_parent ;;?
  NM_CMP_FIELD_STR_INTERNED a b tf_kind ;;?
  NM_CMP_FIELD a b tf_addr_family ;;?
  NM_CMP_FIELD a b tf_handle ;;?
  NM_CMP_FIELD a b tf_info ;;?
  (let aa := tf_action a in
   let ab := tf_action b in
   NM_CMP_FIELD_STR_INTERNED aa ab action_kind ;;?
   match action_kind aa with
   | None => 0
   | Some _ =>
       if nm_streq0 (action_kind aa) "simple" then NM_CMP_FIELD_STR aa ab simple_sdata ;;? 0
       else cmp_if (nm_streq0 (action_kind aa) "mirred")
         (let ma := action_mirred aa in
          let mb := action_mirred ab in
          NM_CMP_FIELD ma mb mirred_ifindex ;;?
          NM_CMP_FIELD_UNSAFE ma mb mirred_ingress ;;?
          NM_CMP_FIELD_UNSAFE ma mb mirred_egress ;;?
          NM_CMP_FIELD_UNSAFE ma mb mirred_mirror ;;?
          NM_CMP_FIELD_UNSAFE ma mb mirred_redirect ;;? 0)
   end ;;?
   0).

Definition NM_UTILS_HWADDR_LEN_MAX : Z := 20.

Definition nm_platform_link_hash_update (obj : NMPlatformLink) (h : NMHashState) : NMHashState :=
  let h := nm_hash_update_vals
    [HI 4 (lk_ifindex obj); HI 4 (lk_master obj); HI 4 (lk_parent obj); HI 4 (lk_n_ifi_flags obj);
     HI 4 (lk_mtu obj); HI 4 (lk_type obj); HI 4 (lk_arptype obj); HI 1 (lk_inet6_addr_gen_mode_inv obj);
     HB (lk_inet6_token obj); HI 8 (lk_rx_packets obj); HI 8 (lk_rx_bytes obj);
     HI 8 (lk_tx_packets obj); HI 8 (lk_tx_bytes obj);
     NM_HASH_COMBINE_BOOLS 1 [lk_connected obj; lk_initialized obj]] h in
  let h := nm_hash_update_str (lk_name obj) h in
  let h := nm_hash_update_str0 (lk_kind obj) h in
  let h := nm_hash_update_str0 (lk_driver obj) h in
  let mem l := nm_hash_update_mem (la_data l) (Z.to_nat (Z.min (la_len l) NM_UTILS_HWADDR_LEN_MAX)) in
  let h := mem (lk_l_address obj) h in
  mem (lk_l_broadcast obj) h.

Definition nm_platform_link_cmp (a b : NMPlatformLink) : Z :=
  let addr_cmp f :=
    cmp_if (negb (la_len (f a) =? 0))
      (memcmp (la_data (f a)) (la_data (f b)) (Z.to_nat (Z.min (la_len (f a)) NM_UTILS_HWADDR_LEN_MAX))) in
  NM_CMP_FIELD a b lk_ifindex ;;?
  NM_CMP_FIELD a b lk_type ;;?
  NM_CMP_FIELD_STR a b lk_name ;;?
  NM_CMP_FIELD a b lk_master ;;?
  NM_CMP_FIELD a b lk_parent ;;?
  NM_CMP_FIELD a b lk_n_ifi_flags ;;?
  NM_CMP_FIELD_UNSAFE a b lk_connected ;;?
  NM_CMP_FIELD a b lk_mtu ;;?
  NM_CMP_FIELD_BOOL a b lk_initialized ;;?
  NM_CMP_FIELD a b lk_arptype ;;?
  NM_CMP_FIELD (lk_l_address a) (lk_l_address b) la_len ;;?
  NM_CMP_FIELD (lk_l_broadcast a) (lk_l_broadcast b) la_len ;;?
  NM_CMP_FIELD a b lk_inet6_addr_gen_mode_inv ;;?
  NM_CMP_FIELD_STR_INTERNED a b lk_kind ;;?
  NM_CMP_FIELD_STR_INTERNED a b lk_driver ;;?
  addr_cmp lk_l_address ;;?
  addr_cmp lk_l_broadcast ;;?
  NM_CMP_FIELD_MEMCMP a b lk_inet6_token ;;?
  NM_CMP_FIELD a b lk_rx_packets ;;?
  NM_CMP_FIELD a b lk_rx_bytes ;;?
  NM_CMP_FIELD a b lk_tx_packets ;;?
  NM_CMP_FIELD a b lk_tx_bytes ;;?
  0.
End qdisc.

(** ** Sort keys *)

Definition qdisc_key (a : NMPlatformQdisc) : kval :=
  let f := qd_fq_codel a in
  KL [KZ (qd_ifindex a); KZ (qd_parent a); KS (qd_kind a); KZ (qd_addr_family a);
      KZ (qd_handle a); KZ (qd_info a);
      KL (if nm_streq0 (qd_kind a) "fq_codel" then
            [KZ (fq_limit f); KZ (fq_flows f); KZ (fq_target f); KZ (fq_interval f); KZ (fq_quantum f);
             KZ (fq_ce_threshold f); KZ (fq_memory_limit f); KBool (fq_ecn f)]
          else [])].

Definition tfilter_key (a : NMPlatformTfilter) : kval :=
  let act := tf_action a in
  let m := action_mirred act in
  KL [KZ (tf_ifindex a); KZ (tf_parent a); KS (tf_kind a); KZ (tf_addr_family a);
      KZ (tf_handle a); KZ (tf_info a); KS (action_kind act);
      KL (match action_kind act with
          | None => []
          | Some _ =>
              if nm_streq0 (action_kind act) "simple" then [KB (simple_sdata act)]
              else if nm_streq0 (action_kind act) "mirred" then
                [KZ (mirred_ifindex m); KBool (mirred_ingress m); KBool (mirred_egress m);
                 KBool (mirred_mirror m); KBool (mirred_redirect m)]
              else []
          end)].

Definition link_address_key (l : NMPLinkAddress) : kval :=
  KL (if la_len l =? 0 then []
      else [KB (take (Z.to_nat (Z.min (la_len l) NM_UTILS_HWADDR_LEN_MAX)) (la_data l))]).

Definition link_key (a : NMPlatformLink) : kval :=
  KL [KZ (lk_ifindex a); KZ (lk_type a); KB (lk_name a); KZ (lk_master a); KZ (lk_parent a);
      KZ (lk_n_ifi_flags a); KBool (lk_connected a); KZ (lk_mtu a); KBool (lk_initialized a);
      KZ (lk_arptype a); KZ (la_len (lk_l_address a)); KZ (la_len (lk_l_broadcast a));
      KZ (lk_inet6_addr_gen_mode_inv a); KS (lk_kind a); KS (lk_driver a);
      link_address_key (lk_l_address a); link_address_key (lk_l_broadcast a);
      KB (lk_inet6_token a); KZ (lk_rx_packets a); KZ (lk_rx_bytes a);
      KZ (lk_tx_packets a); KZ (lk_tx_bytes a)].

(** The steps of the code and those of the key, in turn; a step that ties
    makes the operands equal in the rest. *)
Ltac key_steps :=
  cbn -[NM_CMP_DIRECT NM_CMP_BOOL strcmp nm_strcmp0 bytes_cmp memcmp cmp_then cmp_if nm_streq0 Z.min Z.to_nat];
  repeat cmp_step; try reflexivity.

#[export] Instance qdisc_cmp_key : CmpKey any nm_platform_qdisc_cmp qdisc_key.
Proof.
  intros a b _ _. unfold nm_platform_qdisc_cmp, qdisc_key. key_steps.
  rewrite Htie1. by destruct (nm_streq0 _ _).
Qed.

#[export] Instance tfilter_cmp_key : CmpKey any nm_platform_tfilter_cmp tfilter_key.
Proof.
  intros a b _ _. unfold nm_platform_tfilter_cmp, tfilter_key. key_steps.
  rewrite Htie5. destruct (action_kind (tf_action b)) as [k|]; [|done].
  destruct (nm_streq0 (Some k) "simple"); [done|]. by destruct (nm_streq0 (Some k) "mirred").
Qed.

(** The address of a link, of a length that ties. *)
Lemma link_address_cmp x y :
  la_len x = la_len y ->
  cmp_if (negb (la_len x =? 0)) (memcmp (la_data x) (la_data y) (Z.to_nat (Z.min (la_len x) NM_UTILS_HWADDR_LEN_MAX)))
  = kval_cmp (link_address_key x) (link_address_key y).
Proof.
  intros E. unfold link_address_key. rewrite E. destruct (la_len y =? 0); [done|].
  cbn -[cmp_then Z.min Z.to_nat]. by rewrite cmp_then_0_r.
Qed.

#[export] Instance link_cmp_key : CmpKey any nm_platform_link_cmp link_key.
Proof.
  intros a b _ _. unfold nm_platform_link_cmp, link_key.
  cbn -[NM_CMP_DIRECT NM_CMP_BOOL strcmp nm_strcmp0 bytes_cmp cmp_then cmp_if link_address_key memcmp Z.min Z.to_nat].
  do 10 cmp_step. do 2 cmp_step. rewrite !link_address_cmp by done. reflexivity.
Qed.

(** Equal fields are replaced everywhere. *)
Ltac same_fields :=
  key_fields;
  repeat match goal with
         | H : ?f _ = ?f _ |- _ => progress rewrite H in *; clear H
         end.

Section hash_key.
Context `{ByteOrder}.

#[export] Instance qdisc_hash_key : HashKey any nm_platform_qdisc_hash_update qdisc_key.
Proof.
  intros a b h _ _ E. unfold qdisc_key in E. unfold nm_platform_qdisc_hash_update. same_fields.
  destruct (nm_streq0 (qd_kind b) "fq_codel"); same_fields; congruence.
Qed.

#[export] Instance tfilter_hash_key : HashKey any nm_platform_tfilter_hash_update tfilter_key.
Proof.
  intros a b h _ _ E. unfold tfilter_key in E. unfold nm_platform_tfilter_hash_update. same_fields.
  destruct (action_kind (tf_action b)) as [k|]; [|done].
  destruct (nm_streq0 (Some k) "simple"); [same_fields; congruence|].
  destruct (nm_streq0 (Some k) "mirred"); same_fields; congruence.
Qed.

#[export] Instance link_hash_key : HashKey any nm_platform_link_hash_update link_key.
Proof.
  intros a b h _ _ E. unfold link_key in E. unfold nm_platform_link_hash_update. key_fields.
  assert (Hla : forall x y, la_len x = la_len y -> link_address_key x = link_address_key y ->
            forall h, nm_hash_update_mem (la_data x) (Z.to_nat (Z.min (la_len x) NM_UTILS_HWADDR_LEN_MAX)) h
            = nm_hash_update_mem (la_data y) (Z.to_nat (Z.min (la_len y) NM_UTILS_HWADDR_LEN_MAX)) h).
  { clear. intros x y El Ek h. unfold link_address_key in Ek. rewrite El in *.
    destruct (Z.eqb_spec (la_len y) 0) as [E0|]; [by rewrite E0|]. key_fields.
    unfold nm_hash_update_mem. congruence. }
  cbn zeta. rewrite (Hla (lk_l_address a) (lk_l_address b)), (Hla (lk_l_broadcast a) (lk_l_broadcast b)) by (unfold link_address_key; congruence).
  congruence.
Qed.
End hash_key.
