(* ===== verification/PlatformLnk.v ===== *)
(** * Platform objects: the data of a link type

    The compare and hash functions of src/platform/nm-platform.c for the data
    that depends on the type of a link, a record per NMPlatformLnk* struct. *)

From S2P Require Import Bytes CmpOrder IpAddr NMHash PlatformLink.

(** ** Objects *)

Record NMPlatformLnkGre := {
  gre_local : Z; gre_remote : Z; gre_parent_ifindex : Z; gre_input_flags : Z;
  gre_output_flags : Z; gre_input_key : Z; gre_output_key : Z; gre_ttl : Z; gre_tos : Z;
  gre_path_mtu_discovery : bool; gre_is_tap : bool
}.

Record NMPlatformLnkInfiniband := {
  ib_p_key : Z; ib_mode : option (list byte)
}.

Record NMPlatformLnkIp6Tnl := {
  ip6tnl_local : list byte; ip6tnl_remote : list byte; ip6tnl_parent_ifindex : Z;
  ip6tnl_ttl : Z; ip6tnl_tclass : Z; ip6tnl_encap_limit : Z; ip6tnl_proto : Z;
  ip6tnl_flow_label : Z; ip6tnl_flags : Z; ip6tnl_input_key : Z; ip6tnl_output_key : Z;
  ip6tnl_input_flags : Z; ip6tnl_output_flags : Z; ip6tnl_is_tap : bool;
  ip6tnl_is_gre : bool
}.

Record NMPlatformLnkIpIp := {
  ipip_local : Z; ipip_remote : Z; ipip_parent_ifindex : Z; ipip_ttl : Z; ipip_tos : Z;
  ipip_path_mtu_discovery : bool
}.

Record NMPlatformLnkMacsec := {
  macsec_parent_ifindex : Z; macsec_sci : Z; macsec_cipher_suite : Z; macsec_window : Z;
  macsec_icv_length : Z; macsec_encoding_sa : Z; macsec_validation : Z;
  macsec_encrypt : bool; macsec_protect : bool; macsec_include_sci : bool;
  macsec_es : bool; macsec_scb : bool; macsec_replay_protect : bool
}.

Record NMPlatformLnkMacvlan := {
  macvlan_mode : Z; macvlan_no_promisc : bool; macvlan_tap : bool
}.

Record NMPlatformLnkSit := {
  sit_local : Z; sit_remote : Z; sit_parent_ifindex : Z; sit_flags : Z; sit_ttl : Z;
  sit_tos : Z; sit_proto : Z; sit_path_mtu_discovery : bool
}.

Record NMPlatformLnkTun := {
  tun_owner : Z; tun_group : Z; tun_type : Z; tun_owner_valid : bool;
  tun_group_valid : bool; tun_pi : bool; tun_vnet_hdr : bool; tun_multi_queue : bool;
  tun_persist : bool
}.

Record NMPlatformLnkVlan := {
  vlan_id : Z; vlan_flags : Z
}.

Record NMPlatformLnkVxlan := {
  vxlan_group6 : list byte; vxlan_local6 : list byte; vxlan_group : Z; vxlan_local : Z;
  vxlan_parent_ifindex : Z; vxlan_id : Z; vxlan_ageing : Z; vxlan_limit : Z;
  vxlan_dst_port : Z; vxlan_src_port_min : Z; vxlan_src_port_max : Z; vxlan_tos : Z;
  vxlan_ttl : Z; vxlan_learning : bool; vxlan_proxy : bool; vxlan_rsc : bool;
  vxlan_l2miss : bool; vxlan_l3miss : bool
}.

Record NMPlatformLnkWireGuard := {
  wg_fwmark : Z; wg_listen_port : Z; wg_private_key : list byte; wg_public_key : list byte
}.

Abbreviation NMPlatformLnkMacvtap := NMPlatformLnkMacvlan.

Section lnk.
Context `{ByteOrder}.

(** A field cast to bool. *)
Definition HBool (b : bool) : hval := HI 1 (Z.b2z b).

Definition nm_platform_lnk_gre_hash_update (obj : NMPlatformLnkGre) (h : NMHashState) : NMHashState :=
  nm_hash_update_vals
    [HI 4 (gre_local obj); HI 4 (gre_remote obj); HI 4 (gre_parent_ifindex obj);
     HI 2 (gre_input_flags obj); HI 2 (gre_output_flags obj); HI 4 (gre_input_key obj);
     HI 4 (gre_output_key obj); HI 1 (gre_ttl obj); HI 1 (gre_tos obj);
     HBool (gre_path_mtu_discovery obj); HBool (gre_is_tap obj)] h.

Definition nm_platform_lnk_gre_cmp (a b : NMPlatformLnkGre) : Z :=
  NM_CMP_FIELD a b gre_parent_ifindex ;;?
  NM_CMP_FIELD a b gre_input_flags ;;?
  NM_CMP_FIELD a b gre_output_flags ;;?
  NM_CMP_FIELD a b gre_input_key ;;?
  NM_CMP_FIELD a b gre_output_key ;;?
  NM_CMP_FIELD a b gre_local ;;?
  NM_CMP_FIELD a b gre_remote ;;?
  NM_CMP_FIELD a b gre_ttl ;;?
  NM_CMP_FIELD a b gre_tos ;;?
  NM_CMP_FIELD_BOOL a b gre_path_mtu_discovery ;;?
  NM_CMP_FIELD_BOOL a b gre_is_tap ;;?
  0.

Definition nm_platform_lnk_infiniband_hash_update (obj : NMPlatformLnkInfiniband) (h : NMHashState) : NMHashState :=
  let h := nm_hash_update_val (HI 4 (ib_p_key obj)) h in
  nm_hash_update_str0 (ib_mode obj) h.

Definition nm_platform_lnk_infiniband_cmp (a b : NMPlatformLnkInfiniband) : Z :=
  NM_CMP_FIELD a b ib_p_key ;;?
  NM_CMP_FIELD_STR_INTERNED a b ib_mode ;;?
  0.

Definition nm_platform_lnk_ip6tnl_hash_update (obj : NMPlatformLnkIp6Tnl) (h : NMHashState) : NMHashState :=
  nm_hash_update_vals
    [HB (ip6tnl_local obj); HB (ip6tnl_remote obj); HI 4 (ip6tnl_parent_ifindex obj);
     HI 1 (ip6tnl_ttl obj); HI 1 (ip6tnl_tclass obj); HI 1 (ip6tnl_encap_limit obj);
     HI 1 (ip6tnl_proto obj); HI 4 (ip6tnl_flow_label obj); HI 4 (ip6tnl_flags obj);
     HI 2 (ip6tnl_input_flags obj); HI 2 (ip6tnl_output_flags obj);
     HI 4 (ip6tnl_input_key obj); HI 4 (ip6tnl_output_key obj); HBool (ip6tnl_is_gre obj);
     HBool (ip6tnl_is_tap obj)] h.

Definition nm_platform_lnk_ip6tnl_cmp (a b : NMPlatformLnkIp6Tnl) : Z :=
  NM_CMP_FIELD a b ip6tnl_parent_ifindex ;;?
  NM_CMP_FIELD_MEMCMP a b ip6tnl_local ;;?
  NM_CMP_FIELD_MEMCMP a b ip6tnl_remote ;;?
  NM_CMP_FIELD a b ip6tnl_ttl ;;?
  NM_CMP_FIELD a b ip6tnl_tclass ;;?
  NM_CMP_FIELD a b ip6tnl_encap_limit ;;?
  NM_CMP_FIELD a b ip6tnl_flow_label ;;?
  NM_CMP_FIELD a b ip6tnl_proto ;;?
  NM_CMP_FIELD a b ip6tnl_flags ;;?
  NM_CMP_FIELD a b ip6tnl_input_flags ;;?
  NM_CMP_FIELD a b ip6tnl_output_flags ;;?
  NM_CMP_FIELD a b ip6tnl_input_key ;;?
  NM_CMP_FIELD a b ip6tnl_output_key ;;?
  NM_CMP_FIELD_BOOL a b ip6tnl_is_gre ;;?
  NM_CMP_FIELD_BOOL a b ip6tnl_is_tap ;;?
  0.

Definition nm_platform_lnk_ipip_hash_update (obj : NMPlatformLnkIpIp) (h : NMHashState) : NMHashState :=
  nm_hash_update_vals
    [HI 4 (ipip_local obj); HI 4 (ipip_remote obj); HI 4 (ipip_parent_ifindex obj);
     HI 1 (ipip_ttl obj); HI 1 (ipip_tos obj); HBool (ipip_path_mtu_discovery obj)] h.

Definition nm_platform_lnk_ipip_cmp (a b : NMPlatformLnkIpIp) : Z :=
  NM_CMP_FIELD a b ipip_parent_ifindex ;;?
  NM_CMP_FIELD a b ipip_local ;;?
  NM_CMP_FIELD a b ipip_remote ;;?
  NM_CMP_FIELD a b ipip_ttl ;;?
  NM_CMP_FIELD a b ipip_tos ;;?
  NM_CMP_FIELD_BOOL a b ipip_path_mtu_discovery ;;?
  0.

Definition nm_platform_lnk_macsec_hash_update (obj : NMPlatformLnkMacsec) (h : NMHashState) : NMHashState :=
  nm_hash_update_vals
    [HI 4 (macsec_parent_ifindex obj); HI 8 (macsec_sci obj);
     HI 8 (macsec_cipher_suite obj); HI 4 (macsec_window obj);
     HI 1 (macsec_icv_length obj); HI 1 (macsec_encoding_sa obj);
     HI 1 (macsec_validation obj);
     NM_HASH_COMBINE_BOOLS 1 [macsec_encrypt obj; macsec_protect obj; macsec_include_sci obj; macsec_es obj; macsec_scb obj; macsec_replay_protect obj]] h.

Definition nm_platform_lnk_macsec_cmp (a b : NMPlatformLnkMacsec) : Z :=
  NM_CMP_FIELD a b macsec_parent_ifindex ;;?
  NM_CMP_FIELD a b macsec_sci ;;?
  NM_CMP_FIELD a b macsec_icv_length ;;?
  NM_CMP_FIELD a b macsec_cipher_suite ;;?
  NM_CMP_FIELD a b macsec_window ;;?
  NM_CMP_FIELD a b macsec_encoding_sa ;;?
  NM_CMP_FIELD a b macsec_validation ;;?
  NM_CMP_FIELD_UNSAFE a b macsec_encrypt ;;?
  NM_CMP_FIELD_UNSAFE a b macsec_protect ;;?
  NM_CMP_FIELD_UNSAFE a b macsec_include_sci ;;?
  NM_CMP_FIELD_UNSAFE a b macsec_es ;;?
  NM_CMP_FIELD_UNSAFE a b macsec_scb ;;?
  NM_CMP_FIELD_UNSAFE a b macsec_replay_protect ;;?
  0.

Definition nm_platform_lnk_macvlan_hash_update (obj : NMPlatformLnkMacvlan) (h : NMHashState) : NMHashState :=
  nm_hash_update_vals
    [HI 4 (macvlan_mode obj);
     NM_HASH_COMBINE_BOOLS 1 [macvlan_no_promisc obj; macvlan_tap obj]] h.

Definition nm_platform_lnk_macvlan_cmp (a b : NMPlatformLnkMacvlan) : Z :=
  NM_CMP_FIELD a b macvlan_mode ;;?
  NM_CMP_FIELD_UNSAFE a b macvlan_no_promisc ;;?
  NM_CMP_FIELD_UNSAFE a b macvlan_tap ;;?
  0.

Definition nm_platform_lnk_sit_hash_update (obj : NMPlatformLnkSit) (h : NMHashState) : NMHashState :=
  nm_hash_update_vals
    [HI 4 (sit_local obj); HI 4 (sit_remote obj); HI 4 (sit_parent_ifindex obj);
     HI 2 (sit_flags obj); HI 1 (sit_ttl obj); HI 1 (sit_tos obj); HI 1 (sit_proto obj);
     HBool (sit_path_mtu_discovery obj)] h.

Definition nm_platform_lnk_sit_cmp (a b : NMPlatformLnkSit) : Z :=
  NM_CMP_FIELD a b sit_parent_ifindex ;;?
  NM_CMP_FIELD a b sit_local ;;?
  NM_CMP_FIELD a b sit_remote ;;?
  NM_CMP_FIELD a b sit_ttl ;;?
  NM_CMP_FIELD a b sit_tos ;;?
  NM_CMP_FIELD_BOOL a b sit_path_mtu_discovery ;;?
  NM_CMP_FIELD a b sit_flags ;;?
  NM_CMP_FIELD a b sit_proto ;;?
  0.

Definition nm_platform_lnk_tun_hash_update (obj : NMPlatformLnkTun) (h : NMHashState) : NMHashState :=
  nm_hash_update_vals
    [HI 1 (tun_type obj); HI 4 (tun_owner obj); HI 4 (tun_group obj);
     NM_HASH_COMBINE_BOOLS 1 [tun_owner_valid obj; tun_group_valid obj; tun_pi obj; tun_vnet_hdr obj; tun_multi_queue obj; tun_persist obj]] h.

Definition nm_platform_lnk_tun_cmp (a b : NMPlatformLnkTun) : Z :=
  NM_CMP_FIELD a b tun_type ;;?
  NM_CMP_FIELD a b tun_owner ;;?
  NM_CMP_FIELD a b tun_group ;;?
  NM_CMP_FIELD_BOOL a b tun_owner_valid ;;?
  NM_CMP_FIELD_BOOL a b tun_group_valid ;;?
  NM_CMP_FIELD_BOOL a b tun_pi ;;?
  NM_CMP_FIELD_BOOL a b tun_vnet_hdr ;;?
  NM_CMP_FIELD_BOOL a b tun_multi_queue ;;?
  NM_CMP_FIELD_BOOL a b tun_persist ;;?
  0.

Definition nm_platform_lnk_vlan_hash_update (obj : NMPlatformLnkVlan) (h : NMHashState) : NMHashState :=
  nm_hash_update_vals
    [HI 2 (vlan_id obj); HI 4 (vlan_flags obj)] h.

Definition nm_platform_lnk_vlan_cmp (a b : NMPlatformLnkVlan) : Z :=
  NM_CMP_FIELD a b vlan_id ;;?
  NM_CMP_FIELD a b vlan_flags ;;?
  0.

Definition nm_platform_lnk_vxlan_hash_update (obj : NMPlatformLnkVxlan) (h : NMHashState) : NMHashState :=
  nm_hash_update_vals
    [HB (vxlan_group6 obj); HB (vxlan_local6 obj); HI 4 (vxlan_group obj);
     HI 4 (vxlan_local obj); HI 4 (vxlan_parent_ifindex obj); HI 4 (vxlan_id obj);
     HI 4 (vxlan_ageing obj); HI 4 (vxlan_limit obj); HI 2 (vxlan_dst_port obj);
     HI 2 (vxlan_src_port_min obj); HI 2 (vxlan_src_port_max obj); HI 1 (vxlan_tos obj);
     HI 1 (vxlan_ttl obj);
     NM_HASH_COMBINE_BOOLS 1 [vxlan_learning obj; vxlan_proxy obj; vxlan_rsc obj; vxlan_l2miss obj; vxlan_l3miss obj]] h.

Definition nm_platform_lnk_vxlan_cmp (a b : NMPlatformLnkVxlan) : Z :=
  NM_CMP_FIELD a b vxlan_parent_ifindex ;;?
  NM_CMP_FIELD a b vxlan_id ;;?
  NM_CMP_FIELD a b vxlan_group ;;?
  NM_CMP_FIELD a b vxlan_local ;;?
  NM_CMP_FIELD_MEMCMP a b vxlan_group6 ;;?
  NM_CMP_FIELD_MEMCMP a b vxlan_local6 ;;?
  NM_CMP_FIELD a b vxlan_tos ;;?
  NM_CMP_FIELD a b vxlan_ttl ;;?
  NM_CMP_FIELD_BOOL a b vxlan_learning ;;?
  NM_CMP_FIELD a b vxlan_ageing ;;?
  NM_CMP_FIELD a b vxlan_limit ;;?
  NM_CMP_FIELD a b vxlan_dst_port ;;?
  NM_CMP_FIELD a b vxlan_src_port_min ;;?
  NM_CMP_FIELD a b vxlan_src_port_max ;;?
  NM_CMP_FIELD_BOOL a b vxlan_proxy ;;?
  NM_CMP_FIELD_BOOL a b vxlan_rsc ;;?
  NM_CMP_FIELD_BOOL a b vxlan_l2miss ;;?
  NM_CMP_FIELD_BOOL a b vxlan_l3miss ;;?
  0.

Definition nm_platform_lnk_wireguard_hash_update (obj : NMPlatformLnkWireGuard) (h : NMHashState) : NMHashState :=
  let h := nm_hash_update_vals
    [HI 2 (wg_listen_port obj); HI 4 (wg_fwmark obj)] h in
  let h := nm_hash_update (wg_private_key obj) h in
  nm_hash_update (wg_public_key obj) h.

Definition nm_platform_lnk_wireguard_cmp (a b : NMPlatformLnkWireGuard) : Z :=
  NM_CMP_FIELD a b wg_listen_port ;;?
  NM_CMP_FIELD a b wg_fwmark ;;?
  NM_CMP_FIELD_MEMCMP a b wg_private_key ;;?
  NM_CMP_FIELD_MEMCMP a b wg_public_key ;;?
  0.

End lnk.

(** ** Sort keys *)

Definition lnk_gre_key (a : NMPlatformLnkGre) : kval :=
  KL [KZ (gre_parent_ifindex a); KZ (gre_input_flags a); KZ (gre_output_flags a);
      KZ (gre_input_key a); KZ (gre_output_key a); KZ (gre_local a); KZ (gre_remote a);
      KZ (gre_ttl a); KZ (gre_tos a); KBool (gre_path_mtu_discovery a); KBool (gre_is_tap a)].

Definition lnk_infiniband_key (a : NMPlatformLnkInfiniband) : kval :=
  KL [KZ (ib_p_key a); KS (ib_mode a)].

Definition lnk_ip6tnl_key (a : NMPlatformLnkIp6Tnl) : kval :=
  KL [KZ (ip6tnl_parent_ifindex a); KB (ip6tnl_local a); KB (ip6tnl_remote a);
      KZ (ip6tnl_ttl a); KZ (ip6tnl_tclass a); KZ (ip6tnl_encap_limit a);
      KZ (ip6tnl_flow_label a); KZ (ip6tnl_proto a); KZ (ip6tnl_flags a);
      KZ (ip6tnl_input_flags a); KZ (ip6tnl_output_flags a); KZ (ip6tnl_input_key a);
      KZ (ip6tnl_output_key a); KBool (ip6tnl_is_gre a); KBool (ip6tnl_is_tap a)].

Definition lnk_ipip_key (a : NMPlatformLnkIpIp) : kval :=
  KL [KZ (ipip_parent_ifindex a); KZ (ipip_local a); KZ (ipip_remote a); KZ (ipip_ttl a);
      KZ (ipip_tos a); KBool (ipip_path_mtu_discovery a)].

Definition lnk_macsec_key (a : NMPlatformLnkMacsec) : kval :=
  KL [KZ (macsec_parent_ifindex a); KZ (macsec_sci a); KZ (macsec_icv_length a);
      KZ (macsec_cipher_suite a); KZ (macsec_window a); KZ (macsec_encoding_sa a);
      KZ (macsec_validation a); KBool (macsec_encrypt a); KBool (macsec_protect a);
      KBool (macsec_include_sci a); KBool (macsec_es a); KBool (macsec_scb a);
      KBool (macsec_replay_protect a)].

Definition lnk_macvlan_key (a : NMPlatformLnkMacvlan) : kval :=
  KL [KZ (macvlan_mode a); KBool (macvlan_no_promisc a); KBool (macvlan_tap a)].

Definition lnk_sit_key (a : NMPlatformLnkSit) : kval :=
  KL [KZ (sit_parent_ifindex a); KZ (sit_local a); KZ (sit_remote a); KZ (sit_ttl a);
      KZ (sit_tos a); KBool (sit_path_mtu_discovery a); KZ (sit_flags a); KZ (sit_proto a)].

Definition lnk_tun_key (a : NMPlatformLnkTun) : kval :=
  KL [KZ (tun_type a); KZ (tun_owner a); KZ (tun_group a); KBool (tun_owner_valid a);
      KBool (tun_group_valid a); KBool (tun_pi a); KBool (tun_vnet_hdr a);
      KBool (tun_multi_queue a); KBool (tun_persist a)].

Definition lnk_vlan_key (a : NMPlatformLnkVlan) : kval :=
  KL [KZ (vlan_id a); KZ (vlan_flags a)].

Definition lnk_vxlan_key (a : NMPlatformLnkVxlan) : kval :=
  KL [KZ (vxlan_parent_ifindex a); KZ (vxlan_id a); KZ (vxlan_group a); KZ (vxlan_local a);
      KB (vxlan_group6 a); KB (vxlan_local6 a); KZ (vxlan_tos a); KZ (vxlan_ttl a);
      KBool (vxlan_learning a); KZ (vxlan_ageing a); KZ (vxlan_limit a);
      KZ (vxlan_dst_port a); KZ (vxlan_src_port_min a); KZ (vxlan_src_port_max a);
      KBool (vxlan_proxy a); KBool (vxlan_rsc a); KBool (vxlan_l2miss a);
      KBool (vxlan_l3miss a)].

Definition lnk_wireguard_key (a : NMPlatformLnkWireGuard) : kval :=
  KL [KZ (wg_listen_port a); KZ (wg_fwmark a); KB (wg_private_key a); KB (wg_public_key a)].

Ltac lnk_cmp_key := intros a b _ _; reflexivity.

Ltac lnk_hash_key :=
  let E := fresh "E" in
  intros [] [] h _ _ E; injection E; clear E; intros; key_fields; subst; reflexivity.

#[export] Instance lnk_gre_cmp_key : CmpKey any nm_platform_lnk_gre_cmp lnk_gre_key.
Proof. lnk_cmp_key. Qed.
#[export] Instance lnk_infiniband_cmp_key : CmpKey any nm_platform_lnk_infiniband_cmp lnk_infiniband_key.
Proof. lnk_cmp_key. Qed.
#[export] Instance lnk_ip6tnl_cmp_key : CmpKey any nm_platform_lnk_ip6tnl_cmp lnk_ip6tnl_key.
Proof. lnk_cmp_key. Qed.
#[export] Instance lnk_ipip_cmp_key : CmpKey any nm_platform_lnk_ipip_cmp lnk_ipip_key.
Proof. lnk_cmp_key. Qed.
#[export] Instance lnk_macsec_cmp_key : CmpKey any nm_platform_lnk_macsec_cmp lnk_macsec_key.
Proof. lnk_cmp_key. Qed.
#[export] Instance lnk_macvlan_cmp_key : CmpKey any nm_platform_lnk_macvlan_cmp lnk_macvlan_key.
Proof. lnk_cmp_key. Qed.
#[export] Instance lnk_sit_cmp_key : CmpKey any nm_platform_lnk_sit_cmp lnk_sit_key.
Proof. lnk_cmp_key. Qed.
#[export] Instance lnk_tun_cmp_key : CmpKey any nm_platform_lnk_tun_cmp lnk_tun_key.
Proof. lnk_cmp_key. Qed.
#[export] Instance lnk_vlan_cmp_key : CmpKey any nm_platform_lnk_vlan_cmp lnk_vlan_key.
Proof. lnk_cmp_key. Qed.
#[export] Instance lnk_vxlan_cmp_key : CmpKey any nm_platform_lnk_vxlan_cmp lnk_vxlan_key.
Proof. lnk_cmp_key. Qed.
#[export] Instance lnk_wireguard_cmp_key : CmpKey any nm_platform_lnk_wireguard_cmp lnk_wireguard_key.
Proof. lnk_cmp_key. Qed.

Section hash_key.
Context `{ByteOrder}.

#[export] Instance lnk_gre_hash_key : HashKey any nm_platform_lnk_gre_hash_update lnk_gre_key.
Proof. lnk_hash_key. Qed.
#[export] Instance lnk_infiniband_hash_key : HashKey any nm_platform_lnk_infiniband_hash_update lnk_infiniband_key.
Proof. lnk_hash_key. Qed.
#[export] Instance lnk_ip6tnl_hash_key : HashKey any nm_platform_lnk_ip6tnl_hash_update lnk_ip6tnl_key.
Proof. lnk_hash_key. Qed.
#[export] Instance lnk_ipip_hash_key : HashKey any nm_platform_lnk_ipip_hash_update lnk_ipip_key.
Proof. lnk_hash_key. Qed.
#[export] Instance lnk_macsec_hash_key : HashKey any nm_platform_lnk_macsec_hash_update lnk_macsec_key.
Proof. lnk_hash_key. Qed.
#[export] Instance lnk_macvlan_hash_key : HashKey any nm_platform_lnk_macvlan_hash_update lnk_macvlan_key.
Proof. lnk_hash_key. Qed.
#[export] Instance lnk_sit_hash_key : HashKey any nm_platform_lnk_sit_hash_update lnk_sit_key.
Proof. lnk_hash_key. Qed.
#[export] Instance lnk_tun_hash_key : HashKey any nm_platform_lnk_tun_hash_update lnk_tun_key.
Proof. lnk_hash_key. Qed.
#[export] Instance lnk_vlan_hash_key : HashKey any nm_platform_lnk_vlan_hash_update lnk_vlan_key.
Proof. lnk_hash_key. Qed.
#[export] Instance lnk_vxlan_hash_key : HashKey any nm_platform_lnk_vxlan_hash_update lnk_vxlan_key.
Proof. lnk_hash_key. Qed.
#[export] Instance lnk_wireguard_hash_key : HashKey any nm_platform_lnk_wireguard_hash_update lnk_wireguard_key.
Proof. lnk_hash_key. Qed.
End hash_key.
