(* ===== verification/PlatformIp.v ===== *)
(** * Platform objects: IP addresses and routes

    The structs of src/platform/nm-platform.h and, from nm-platform.c, how routes
    are compared (by the identity the kernel gives them, by what they mean, in
    full), hashed and normalized, and how addresses are compared. *)

From S2P Require Import Bytes CmpOrder IpAddr NMHash PlatformLink.

(** ** Addresses *)

(** __NMPlatformIPAddress_COMMON *)
Record NMPlatformIPAddress := {
  ax_ifindex : Z; ax_addr_source : Z; ax_timestamp : Z; ax_lifetime : Z; ax_preferred : Z;
  ax_n_ifa_flags : Z; ax_plen : Z; ax_external : bool
}.

Record NMPlatformIP4Address := {
  a4_ax : NMPlatformIPAddress; a4_address : in_addr_t; a4_peer_address : in_addr_t; a4_label : list byte
}.

Record NMPlatformIP6Address := {
  a6_ax : NMPlatformIPAddress; a6_address : in6_addr; a6_peer_address : in6_addr
}.

Definition NM_PLATFORM_LIFETIME_PERMANENT : Z := G_MAXUINT32.

Definition IN6_IS_ADDR_UNSPECIFIED (a : in6_addr) : bool := bool_decide (a = replicate 16 x00).
Definition IN6_ARE_ADDR_EQUAL (a b : in6_addr) : bool := bool_decide (a = b).

Definition nm_platform_ip6_address_get_peer (addr : NMPlatformIP6Address) : in6_addr :=
  if IN6_IS_ADDR_UNSPECIFIED (a6_peer_address addr)
     || IN6_ARE_ADDR_EQUAL (a6_peer_address addr) (a6_address addr)
  then a6_address addr
  else a6_peer_address addr.

Section address.
Context `{ByteOrder}.

Definition nm_platform_ip4_address_hash_update (obj : NMPlatformIP4Address) (h : NMHashState) : NMHashState :=
  let ax := a4_ax obj in
  let h := nm_hash_update_vals
    [HI 4 (ax_ifindex ax); HI 4 (ax_addr_source ax); HI 4 (ax_timestamp ax); HI 4 (ax_lifetime ax);
     HI 4 (ax_preferred ax); HI 4 (ax_n_ifa_flags ax); HI 1 (ax_plen ax); HI 4 (a4_address obj);
     HI 4 (a4_peer_address obj); NM_HASH_COMBINE_BOOLS 1 [ax_external ax]] h in
  nm_hash_update_str (a4_label obj) h.

Definition nm_platform_ip4_address_cmp (a b : NMPlatformIP4Address) : Z :=
  let xa := a4_ax a in
  let xb := a4_ax b in
  NM_CMP_FIELD xa xb ax_ifindex ;;?
  NM_CMP_FIELD a b a4_address ;;?
  NM_CMP_FIELD xa xb ax_plen ;;?
  NM_CMP_FIELD a b a4_peer_address ;;?
  NM_CMP_FIELD xa xb ax_addr_source ;;?
  NM_CMP_FIELD xa xb ax_timestamp ;;?
  NM_CMP_FIELD xa xb ax_lifetime ;;?
  NM_CMP_FIELD xa xb ax_preferred ;;?
  NM_CMP_FIELD xa xb ax_n_ifa_flags ;;?
  NM_CMP_FIELD_STR a b a4_label ;;?
  NM_CMP_FIELD_UNSAFE xa xb ax_external ;;?
  0.

Definition nm_platform_ip6_address_hash_update (obj : NMPlatformIP6Address) (h : NMHashState) : NMHashState :=
  let ax := a6_ax obj in
  nm_hash_update_vals
    [HI 4 (ax_ifindex ax); HI 4 (ax_addr_source ax); HI 4 (ax_timestamp ax); HI 4 (ax_lifetime ax);
     HI 4 (ax_preferred ax); HI 4 (ax_n_ifa_flags ax); HI 1 (ax_plen ax); HB (a6_address obj);
     HB (a6_peer_address obj); NM_HASH_COMBINE_BOOLS 1 [ax_external ax]] h.

Definition nm_platform_ip6_address_cmp (a b : NMPlatformIP6Address) : Z :=
  let xa := a6_ax a in
  let xb := a6_ax b in
  NM_CMP_FIELD xa xb ax_ifindex ;;?
  NM_CMP_FIELD_MEMCMP a b a6_address ;;?
  NM_CMP_FIELD xa xb ax_plen ;;?
  NM_CMP_FIELD_MEMCMP a b nm_platform_ip6_address_get_peer ;;?
  NM_CMP_FIELD xa xb ax_addr_source ;;?
  NM_CMP_FIELD xa xb ax_timestamp ;;?
  NM_CMP_FIELD xa xb ax_lifetime ;;?
  NM_CMP_FIELD xa xb ax_preferred ;;?
  NM_CMP_FIELD xa xb ax_n_ifa_flags ;;?
  NM_CMP_FIELD_UNSAFE xa xb ax_external ;;?
  0.

(** The time [t] seconds after the timestamp of an address, 0 without one.  The
    fields are guint32, the sum gint64. *)
Definition expiry (x : NMPlatformIPAddress) (t : Z) : Z :=
  if (t =? NM_PLATFORM_LIFETIME_PERMANENT) || (ax_lifetime x =? 0) then G_MAXINT64
  else if negb (ax_timestamp x =? 0) then ax_timestamp x + t
  else 0.

Definition nm_platform_ip_address_cmp_expiry (a b : NMPlatformIPAddress) : Z :=
  let ta := expiry a (ax_lifetime a) in
  let tb := expiry b (ax_lifetime b) in
  if ta =? tb then
    let ta := expiry a (ax_preferred a) in
    let tb := expiry b (ax_preferred b) in
    if ta =? tb then 0 else if ta <? tb then -1 else 1
  else if ta <? tb then -1 else 1.
End address.

(** ** Routes *)

(** __NMPlatformIPRoute_COMMON *)
Record NMPlatformIPRoute := {
  rx_ifindex : Z; rx_rt_source : Z; rx_plen : Z;
  rx_lock_window : bool; rx_lock_cwnd : bool; rx_lock_initcwnd : bool;
  rx_lock_initrwnd : bool; rx_lock_mtu : bool;
  rx_r_rtm_flags : Z; rx_mss : Z; rx_window : Z; rx_cwnd : Z; rx_initcwnd : Z;
  rx_initrwnd : Z; rx_mtu : Z; rx_metric : Z; rx_table_coerced : Z
}.

Record NMPlatformIP4Route := {
  r4_rx : NMPlatformIPRoute; r4_network : in_addr_t; r4_gateway : in_addr_t;
  r4_pref_src : in_addr_t; r4_tos : Z; r4_scope_inv : Z
}.

Record NMPlatformIP6Route := {
  r6_rx : NMPlatformIPRoute; r6_network : in6_addr; r6_gateway : in6_addr;
  r6_pref_src : in6_addr; r6_src : in6_addr; r6_src_plen : Z; r6_rt_pref : Z
}.

Inductive NMPlatformIPRouteCmpType :=
| NM_PLATFORM_IP_ROUTE_CMP_TYPE_WEAK_ID
| NM_PLATFORM_IP_ROUTE_CMP_TYPE_ID
| NM_PLATFORM_IP_ROUTE_CMP_TYPE_SEMANTICALLY
| NM_PLATFORM_IP_ROUTE_CMP_TYPE_FULL.

Definition RTM_F_CLONED : Z := 0x200.
Definition RTNH_F_ONLINK : Z := 4.
Definition RT_SCOPE_UNIVERSE : Z := 0.
Definition RT_SCOPE_LINK : Z := 253.

(** NMIPConfigSource of src/nm-types.h, and the RTPROT_* of the kernel. *)
Definition NM_IP_CONFIG_SOURCE_UNKNOWN : Z := 0.
Definition NM_IP_CONFIG_SOURCE_RTPROT_UNSPEC : Z := 1.
Definition NM_IP_CONFIG_SOURCE_RTPROT_REDIRECT : Z := 2.
Definition NM_IP_CONFIG_SOURCE_RTPROT_KERNEL : Z := 3.
Definition NM_IP_CONFIG_SOURCE_RTPROT_RA : Z := 10.
Definition NM_IP_CONFIG_SOURCE_RTPROT_DHCP : Z := 17.
Definition _NM_IP_CONFIG_SOURCE_RTPROT_LAST : Z := 256.
Definition NM_IP_CONFIG_SOURCE_KERNEL : Z := 257.
Definition NM_IP_CONFIG_SOURCE_IP6LL : Z := 260.
Definition NM_IP_CONFIG_SOURCE_DHCP : Z := 264.
Definition NM_IP_CONFIG_SOURCE_NDISC : Z := 265.
Definition NM_IP_CONFIG_SOURCE_USER : Z := 266.
Definition RTPROT_UNSPEC : Z := 0.
Definition RTPROT_KERNEL : Z := 2.
Definition RTPROT_STATIC : Z := 4.
Definition RTPROT_RA : Z := 9.
Definition RTPROT_DHCP : Z := 16.

Definition nmp_utils_ip_config_source_from_rtprot (rtprot : Z) : Z := rtprot + 1.

Definition nmp_utils_ip_config_source_coerce_to_rtprot (source : Z) : Z :=
  if source <=? NM_IP_CONFIG_SOURCE_UNKNOWN then RTPROT_UNSPEC
  else if source <=? _NM_IP_CONFIG_SOURCE_RTPROT_LAST then u8 (source - 1)
  else if source =? NM_IP_CONFIG_SOURCE_KERNEL then RTPROT_KERNEL
  else if source =? NM_IP_CONFIG_SOURCE_IP6LL then RTPROT_KERNEL
  else if source =? NM_IP_CONFIG_SOURCE_DHCP then RTPROT_DHCP
  else if source =? NM_IP_CONFIG_SOURCE_NDISC then RTPROT_RA
  else RTPROT_STATIC.

Definition nmp_utils_ip_config_source_round_trip_rtprot (source : Z) : Z :=
  nmp_utils_ip_config_source_from_rtprot (nmp_utils_ip_config_source_coerce_to_rtprot source).

Definition nmp_utils_ip_config_source_coerce_from_rtprot (source : Z) : Z :=
  if source =? NM_IP_CONFIG_SOURCE_RTPROT_UNSPEC then NM_IP_CONFIG_SOURCE_UNKNOWN
  else if (source =? NM_IP_CONFIG_SOURCE_RTPROT_KERNEL) || (source =? NM_IP_CONFIG_SOURCE_RTPROT_REDIRECT)
  then NM_IP_CONFIG_SOURCE_KERNEL
  else if source =? NM_IP_CONFIG_SOURCE_RTPROT_RA then NM_IP_CONFIG_SOURCE_NDISC
  else if source =? NM_IP_CONFIG_SOURCE_RTPROT_DHCP then NM_IP_CONFIG_SOURCE_DHCP
  else NM_IP_CONFIG_SOURCE_USER.

Definition nm_platform_route_table_coerce (table : Z) : Z :=
  if table =? 0 then 254 else if table =? 254 then 0 else table.

Definition nm_platform_route_table_uncoerce (table_coerced : Z) (normalize : bool) : Z :=
  if table_coerced =? 0 then 254
  else if table_coerced =? 254 then (if normalize then 254 else 0)
  else table_coerced.

Definition nm_platform_route_table_is_main (table : Z) : bool := (table =? 0) || (table =? 254).

Definition nm_platform_route_scope_inv (scope : Z) : Z := u8 (Z.lnot scope).

Definition _ip_route_scope_inv_get_normalized (route : NMPlatformIP4Route) : Z :=
  if r4_scope_inv route =? 0 then
    nm_platform_route_scope_inv (if r4_gateway route =? 0 then RT_SCOPE_LINK else RT_SCOPE_UNIVERSE)
  else r4_scope_inv route.

Definition NM_ICMPV6_ROUTER_PREF_MEDIUM : Z := 0.
Definition NM_ICMPV6_ROUTER_PREF_HIGH : Z := 1.
Definition NM_ICMPV6_ROUTER_PREF_LOW : Z := 3.

Definition _route_pref_normalize (pref : Z) : Z :=
  if (pref =? NM_ICMPV6_ROUTER_PREF_LOW) || (pref =? NM_ICMPV6_ROUTER_PREF_HIGH) then pref
  else NM_ICMPV6_ROUTER_PREF_MEDIUM.

Definition nm_utils_ip6_route_metric_normalize (metric : Z) : Z := if metric =? 0 then 1024 else metric.

Abbreviation uncoerced rx := (nm_platform_route_table_uncoerce (rx_table_coerced rx) true) (only parsing).
Abbreviation rtprot_source rx := (nmp_utils_ip_config_source_round_trip_rtprot (rx_rt_source rx)) (only parsing).

Section route.
Context `{ByteOrder}.

Definition locks (rx : NMPlatformIPRoute) : hval :=
  NM_HASH_COMBINE_BOOLS 1 [rx_lock_window rx; rx_lock_cwnd rx; rx_lock_initcwnd rx;
                           rx_lock_initrwnd rx; rx_lock_mtu rx].

Definition cmp_locks (xa xb : NMPlatformIPRoute) : Z :=
  NM_CMP_FIELD_UNSAFE xa xb rx_lock_window ;;?
  NM_CMP_FIELD_UNSAFE xa xb rx_lock_cwnd ;;?
  NM_CMP_FIELD_UNSAFE xa xb rx_lock_initcwnd ;;?
  NM_CMP_FIELD_UNSAFE xa xb rx_lock_initrwnd ;;?
  NM_CMP_FIELD_UNSAFE xa xb rx_lock_mtu.

Definition nm_platform_ip4_route_hash_update
    (cmp_type : NMPlatformIPRouteCmpType) (obj : NMPlatformIP4Route) (h : NMHashState) : NMHashState :=
  let rx := r4_rx obj in
  let network := nm_utils_ip4_address_clear_host_address (r4_network obj) (rx_plen rx) in
  match cmp_type with
  | NM_PLATFORM_IP_ROUTE_CMP_TYPE_WEAK_ID =>
      nm_hash_update_vals
        [HI 4 (uncoerced rx); HI 4 network; HI 1 (rx_plen rx); HI 4 (rx_metric rx); HI 1 (r4_tos obj)] h
  | NM_PLATFORM_IP_ROUTE_CMP_TYPE_ID =>
      nm_hash_update_vals
        [HI 4 (uncoerced rx); HI 4 network; HI 1 (rx_plen rx); HI 4 (rx_metric rx); HI 1 (r4_tos obj);
         HI 4 (rx_ifindex rx); HI 4 (rtprot_source rx); HI 1 (_ip_route_scope_inv_get_normalized obj);
         HI 4 (r4_gateway obj); HI 4 (rx_mss rx); HI 4 (r4_pref_src obj); HI 4 (rx_window rx);
         HI 4 (rx_cwnd rx); HI 4 (rx_initcwnd rx); HI 4 (rx_initrwnd rx); HI 4 (rx_mtu rx);
         HI 4 (Z.land (rx_r_rtm_flags rx) RTNH_F_ONLINK); locks rx] h
  | NM_PLATFORM_IP_ROUTE_CMP_TYPE_SEMANTICALLY =>
      nm_hash_update_vals
        [HI 4 (uncoerced rx); HI 4 (rx_ifindex rx); HI 4 network; HI 1 (rx_plen rx); HI 4 (rx_metric rx);
         HI 4 (r4_gateway obj); HI 4 (rtprot_source rx); HI 1 (_ip_route_scope_inv_get_normalized obj);
         HI 1 (r4_tos obj); HI 4 (rx_mss rx); HI 4 (r4_pref_src obj); HI 4 (rx_window rx);
         HI 4 (rx_cwnd rx); HI 4 (rx_initcwnd rx); HI 4 (rx_initrwnd rx); HI 4 (rx_mtu rx);
         HI 4 (Z.land (rx_r_rtm_flags rx) (Z.lor RTM_F_CLONED RTNH_F_ONLINK)); locks rx] h
  | NM_PLATFORM_IP_ROUTE_CMP_TYPE_FULL =>
      nm_hash_update_vals
        [HI 4 (rx_table_coerced rx); HI 4 (rx_ifindex rx); HI 4 (r4_network obj); HI 1 (rx_plen rx);
         HI 4 (rx_metric rx); HI 4 (r4_gateway obj); HI 4 (rx_rt_source rx); HI 1 (r4_scope_inv obj);
         HI 1 (r4_tos obj); HI 4 (rx_mss rx); HI 4 (r4_pref_src obj); HI 4 (rx_window rx);
         HI 4 (rx_cwnd rx); HI 4 (rx_initcwnd rx); HI 4 (rx_initrwnd rx); HI 4 (rx_mtu rx);
         HI 4 (rx_r_rtm_flags rx); locks rx] h
  end.

Definition nm_platform_ip4_route_cmp
    (cmp_type : NMPlatformIPRouteCmpType) (a b : NMPlatformIP4Route) : Z :=
  let xa := r4_rx a in
  let xb := r4_rx b in
  let same_prefix :=
    nm_utils_ip4_address_same_prefix_cmp (r4_network a) (r4_network b) (Z.min (rx_plen xa) (rx_plen xb)) in
  match cmp_type with
  | NM_PLATFORM_IP_ROUTE_CMP_TYPE_WEAK_ID
  | NM_PLATFORM_IP_ROUTE_CMP_TYPE_ID =>
      NM_CMP_DIRECT (uncoerced xa) (uncoerced xb) ;;?
      same_prefix ;;?
      NM_CMP_FIELD xa xb rx_plen ;;?
      NM_CMP_FIELD xa xb rx_metric ;;?
      NM_CMP_FIELD a b r4_tos ;;?
      match cmp_type with
      | NM_PLATFORM_IP_ROUTE_CMP_TYPE_ID =>
          NM_CMP_FIELD xa xb rx_ifindex ;;?
          NM_CMP_DIRECT (rtprot_source xa) (rtprot_source xb) ;;?
          NM_CMP_DIRECT (_ip_route_scope_inv_get_normalized a) (_ip_route_scope_inv_get_normalized b) ;;?
          NM_CMP_FIELD a b r4_gateway ;;?
          NM_CMP_FIELD xa xb rx_mss ;;?
          NM_CMP_FIELD a b r4_pref_src ;;?
          NM_CMP_FIELD xa xb rx_window ;;?
          NM_CMP_FIELD xa xb rx_cwnd ;;?
          NM_CMP_FIELD xa xb rx_initcwnd ;;?
          NM_CMP_FIELD xa xb rx_initrwnd ;;?
          NM_CMP_FIELD xa xb rx_mtu ;;?
          NM_CMP_DIRECT (Z.land (rx_r_rtm_flags xa) RTNH_F_ONLINK) (Z.land (rx_r_rtm_flags xb) RTNH_F_ONLINK) ;;?
          cmp_locks xa xb
      | _ => 0
      end
  | NM_PLATFORM_IP_ROUTE_CMP_TYPE_SEMANTICALLY
  | NM_PLATFORM_IP_ROUTE_CMP_TYPE_FULL =>
      let sem := match cmp_type with NM_PLATFORM_IP_ROUTE_CMP_TYPE_SEMANTICALLY => true | _ => false end in
      (if sem then NM_CMP_DIRECT (uncoerced xa) (uncoerced xb)
       else NM_CMP_FIELD xa xb rx_table_coerced) ;;?
      NM_CMP_FIELD xa xb rx_ifindex ;;?
      (if sem then same_prefix else NM_CMP_FIELD a b r4_network) ;;?
      NM_CMP_FIELD xa xb rx_plen ;;?
      NM_CMP_FIELD xa xb rx_metric ;;?
      NM_CMP_FIELD a b r4_gateway ;;?
      (if sem then
         NM_CMP_DIRECT (rtprot_source xa) (rtprot_source xb) ;;?
         NM_CMP_DIRECT (_ip_route_scope_inv_get_normalized a) (_ip_route_scope_inv_get_normalized b)
       else
         NM_CMP_FIELD xa xb rx_rt_source ;;?
         NM_CMP_FIELD a b r4_scope_inv) ;;?
      NM_CMP_FIELD xa xb rx_mss ;;?
      NM_CMP_FIELD a b r4_pref_src ;;?
      (if sem then
         NM_CMP_DIRECT (Z.land (rx_r_rtm_flags xa) (Z.lor RTM_F_CLONED RTNH_F_ONLINK))
                       (Z.land (rx_r_rtm_flags xb) (Z.lor RTM_F_CLONED RTNH_F_ONLINK))
       else NM_CMP_FIELD xa xb rx_r_rtm_flags) ;;?
      NM_CMP_FIELD a b r4_tos ;;?
      cmp_locks xa xb ;;?
      NM_CMP_FIELD xa xb rx_window ;;?
      NM_CMP_FIELD xa xb rx_cwnd ;;?
      NM_CMP_FIELD xa xb rx_initcwnd ;;?
      NM_CMP_FIELD xa xb rx_initrwnd ;;?
      NM_CMP_FIELD xa xb rx_mtu
  end.
End route.

Section route6.
Context `{ByteOrder}.

(** The pointer that nm_utils_ip6_address_clear_host_address () returns is
    dereferenced: None is a NULL dereference. *)
Definition nm_platform_ip6_route_hash_update
    (cmp_type : NMPlatformIPRouteCmpType) (obj : NMPlatformIP6Route) (h : NMHashState) : option NMHashState :=
  let rx := r6_rx obj in
  let metric := nm_utils_ip6_route_metric_normalize (rx_metric rx) in
  match cmp_type with
  | NM_PLATFORM_IP_ROUTE_CMP_TYPE_WEAK_ID =>
      network ← nm_utils_ip6_address_clear_host_address (r6_network obj) (rx_plen rx);
      src ← nm_utils_ip6_address_clear_host_address (r6_src obj) (r6_src_plen obj);
      Some (nm_hash_update_vals
        [HI 4 (uncoerced rx); HB network; HI 1 (rx_plen rx); HI 4 metric; HB src; HI 1 (r6_src_plen obj)] h)
  | NM_PLATFORM_IP_ROUTE_CMP_TYPE_ID =>
      network ← nm_utils_ip6_address_clear_host_address (r6_network obj) (rx_plen rx);
      src ← nm_utils_ip6_address_clear_host_address (r6_src obj) (r6_src_plen obj);
      Some (nm_hash_update_vals
        [HI 4 (uncoerced rx); HB network; HI 1 (rx_plen rx); HI 4 metric; HB src; HI 1 (r6_src_plen obj);
         HI 4 (rx_ifindex rx); HB (r6_gateway obj)] h)
  | NM_PLATFORM_IP_ROUTE_CMP_TYPE_SEMANTICALLY =>
      network ← nm_utils_ip6_address_clear_host_address (r6_network obj) (rx_plen rx);
      src ← nm_utils_ip6_address_clear_host_address (r6_src obj) (r6_src_plen obj);
      Some (nm_hash_update_vals
        [HI 4 (uncoerced rx); HI 4 (rx_ifindex rx); HB network; HI 1 (rx_plen rx); HI 4 metric;
         HB (r6_gateway obj); HB (r6_pref_src obj); HB src; HI 1 (r6_src_plen obj);
         HI 4 (rtprot_source rx); HI 4 (rx_mss rx); HI 4 (Z.land (rx_r_rtm_flags rx) RTM_F_CLONED);
         locks rx; HI 4 (rx_window rx); HI 4 (rx_cwnd rx); HI 4 (rx_initcwnd rx); HI 4 (rx_initrwnd rx);
         HI 4 (rx_mtu rx); HI 1 (_route_pref_normalize (r6_rt_pref obj))] h)
  | NM_PLATFORM_IP_ROUTE_CMP_TYPE_FULL =>
      Some (nm_hash_update_vals
        [HI 4 (rx_table_coerced rx); HI 4 (rx_ifindex rx); HB (r6_network obj); HI 1 (rx_plen rx);
         HI 4 (rx_metric rx); HB (r6_gateway obj); HB (r6_pref_src obj); HB (r6_src obj);
         HI 1 (r6_src_plen obj); HI 4 (rx_rt_source rx); HI 4 (rx_mss rx); HI 4 (rx_r_rtm_flags rx);
         locks rx; HI 4 (rx_window rx); HI 4 (rx_cwnd rx); HI 4 (rx_initcwnd rx); HI 4 (rx_initrwnd rx);
         HI 4 (rx_mtu rx); HI 1 (r6_rt_pref obj)] h)
  end.

Definition nm_platform_ip6_route_cmp
    (cmp_type : NMPlatformIPRouteCmpType) (a b : NMPlatformIP6Route) : Z :=
  let xa := r6_rx a in
  let xb := r6_rx b in
  let same_network :=
    nm_utils_ip6_address_same_prefix_cmp (r6_network a) (r6_network b) (Z.min (rx_plen xa) (rx_plen xb)) in
  let same_src :=
    nm_utils_ip6_address_same_prefix_cmp (r6_src a) (r6_src b) (Z.min (r6_src_plen a) (r6_src_plen b)) in
  let cmp_metric :=
    NM_CMP_DIRECT (nm_utils_ip6_route_metric_normalize (rx_metric xa))
                  (nm_utils_ip6_route_metric_normalize (rx_metric xb)) in
  match cmp_type with
  | NM_PLATFORM_IP_ROUTE_CMP_TYPE_WEAK_ID
  | NM_PLATFORM_IP_ROUTE_CMP_TYPE_ID =>
      NM_CMP_DIRECT (uncoerced xa) (uncoerced xb) ;;?
      same_network ;;?
      NM_CMP_FIELD xa xb rx_plen ;;?
      cmp_metric ;;?
      same_src ;;?
      NM_CMP_FIELD a b r6_src_plen ;;?
      match cmp_type with
      | NM_PLATFORM_IP_ROUTE_CMP_TYPE_ID =>
          NM_CMP_FIELD xa xb rx_ifindex ;;?
          NM_CMP_FIELD_MEMCMP a b r6_gateway
      | _ => 0
      end
  | NM_PLATFORM_IP_ROUTE_CMP_TYPE_SEMANTICALLY
  | NM_PLATFORM_IP_ROUTE_CMP_TYPE_FULL =>
      let sem := match cmp_type with NM_PLATFORM_IP_ROUTE_CMP_TYPE_SEMANTICALLY => true | _ => false end in
      (if sem then NM_CMP_DIRECT (uncoerced xa) (uncoerced xb)
       else NM_CMP_FIELD xa xb rx_table_coerced) ;;?
      NM_CMP_FIELD xa xb rx_ifindex ;;?
      (if sem then same_network else NM_CMP_FIELD_MEMCMP a b r6_network) ;;?
      NM_CMP_FIELD xa xb rx_plen ;;?
      (if sem then cmp_metric else NM_CMP_FIELD xa xb rx_metric) ;;?
      NM_CMP_FIELD_MEMCMP a b r6_gateway ;;?
      NM_CMP_FIELD_MEMCMP a b r6_pref_src ;;?
      (if sem then
         same_src ;;?
         NM_CMP_FIELD a b r6_src_plen ;;?
         NM_CMP_DIRECT (rtprot_source xa) (rtprot_source xb)
       else
         NM_CMP_FIELD_MEMCMP a b r6_src ;;?
         NM_CMP_FIELD a b r6_src_plen ;;?
         NM_CMP_FIELD xa xb rx_rt_source) ;;?
      NM_CMP_FIELD xa xb rx_mss ;;?
      (if sem then
         NM_CMP_DIRECT (Z.land (rx_r_rtm_flags xa) RTM_F_CLONED) (Z.land (rx_r_rtm_flags xb) RTM_F_CLONED)
       else NM_CMP_FIELD xa xb rx_r_rtm_flags) ;;?
      cmp_locks xa xb ;;?
      NM_CMP_FIELD xa xb rx_window ;;?
      NM_CMP_FIELD xa xb rx_cwnd ;;?
      NM_CMP_FIELD xa xb rx_initcwnd ;;?
      NM_CMP_FIELD xa xb rx_initrwnd ;;?
      NM_CMP_FIELD xa xb rx_mtu ;;?
      (if sem then NM_CMP_DIRECT (_route_pref_normalize (r6_rt_pref a)) (_route_pref_normalize (r6_rt_pref b))
       else NM_CMP_FIELD a b r6_rt_pref)
  end.

(** ** Normalization *)

(** A copy of the common part with the fields that normalization sets. *)
Definition rx_normalized (rx : NMPlatformIPRoute) (table_coerced rt_source metric : Z) : NMPlatformIPRoute := {|
  rx_ifindex := rx_ifindex rx; rx_rt_source := rt_source; rx_plen := rx_plen rx;
  rx_lock_window := rx_lock_window rx; rx_lock_cwnd := rx_lock_cwnd rx;
  rx_lock_initcwnd := rx_lock_initcwnd rx; rx_lock_initrwnd := rx_lock_initrwnd rx;
  rx_lock_mtu := rx_lock_mtu rx; rx_r_rtm_flags := rx_r_rtm_flags rx; rx_mss := rx_mss rx;
  rx_window := rx_window rx; rx_cwnd := rx_cwnd rx; rx_initcwnd := rx_initcwnd rx;
  rx_initrwnd := rx_initrwnd rx; rx_mtu := rx_mtu rx; rx_metric := metric;
  rx_table_coerced := table_coerced
|}.

(** nm_platform_ip_route_normalize (AF_INET, route) *)
Definition nm_platform_ip_route_normalize4 (r4 : NMPlatformIP4Route) : NMPlatformIP4Route :=
  let rx := r4_rx r4 in
  {| r4_rx := rx_normalized rx (nm_platform_route_table_coerce (uncoerced rx)) (rtprot_source rx) (rx_metric rx);
     r4_network := nm_utils_ip4_address_clear_host_address (r4_network r4) (rx_plen rx);
     r4_gateway := r4_gateway r4; r4_pref_src := r4_pref_src r4; r4_tos := r4_tos r4;
     r4_scope_inv := _ip_route_scope_inv_get_normalized r4 |}.

(** nm_platform_ip_route_normalize (AF_INET6, route): an address is left as it
    is where nm_utils_ip6_address_clear_host_address () returns NULL. *)
Definition nm_platform_ip_route_normalize6 (r6 : NMPlatformIP6Route) : NMPlatformIP6Route :=
  let rx := r6_rx r6 in
  let clear addr plen := default addr (nm_utils_ip6_address_clear_host_address addr plen) in
  {| r6_rx := rx_normalized rx (nm_platform_route_table_coerce (uncoerced rx)) (rtprot_source rx)
                (nm_utils_ip6_route_metric_normalize (rx_metric rx));
     r6_network := clear (r6_network r6) (rx_plen rx);
     r6_gateway := r6_gateway r6; r6_pref_src := r6_pref_src r6;
     r6_src := clear (r6_src r6) (r6_src_plen r6); r6_src_plen := r6_src_plen r6;
     r6_rt_pref := r6_rt_pref r6 |}.
End route6.

(** ** Well-typed objects *)

Definition in4_ok (a : in_addr_t) : Prop := 0 <= a < 2 ^ 32.
Definition in6_ok (a : in6_addr) : Prop := length a = 16%nat.

Definition ip4_route_ok (r : NMPlatformIP4Route) : Prop := in4_ok (r4_network r) /\ 0 <= rx_plen (r4_rx r).
Definition ip6_route_ok (r : NMPlatformIP6Route) : Prop :=
  (in6_ok (r6_network r) /\ 0 <= rx_plen (r6_rx r)) /\ (in6_ok (r6_src r) /\ 0 <= r6_src_plen r).

(** ** Sort keys *)

Definition ip4_address_key (a : NMPlatformIP4Address) : kval :=
  let x := a4_ax a in
  KL [KZ (ax_ifindex x); KZ (a4_address a); KZ (ax_plen x); KZ (a4_peer_address a); KZ (ax_addr_source x);
      KZ (ax_timestamp x); KZ (ax_lifetime x); KZ (ax_preferred x); KZ (ax_n_ifa_flags x);
      KB (a4_label a); KBool (ax_external x)].

Definition ip6_address_key (a : NMPlatformIP6Address) : kval :=
  let x := a6_ax a in
  KL [KZ (ax_ifindex x); KB (a6_address a); KZ (ax_plen x); KB (nm_platform_ip6_address_get_peer a);
      KZ (ax_addr_source x); KZ (ax_timestamp x); KZ (ax_lifetime x); KZ (ax_preferred x);
      KZ (ax_n_ifa_flags x); KBool (ax_external x)].

Definition locks_key (x : NMPlatformIPRoute) : kval :=
  KL [KBool (rx_lock_window x); KBool (rx_lock_cwnd x); KBool (rx_lock_initcwnd x);
      KBool (rx_lock_initrwnd x); KBool (rx_lock_mtu x)].

Section keys.
Context `{ByteOrder}.

(** A network: its address in network order and its length. *)
Definition net4_key (r : NMPlatformIP4Route) : list kval :=
  [KZ (masked 32 (rx_plen (r4_rx r)) (htonl (r4_network r))); KZ (rx_plen (r4_rx r))].

Definition net6_key (addr : in6_addr) (plen : Z) : list kval := [KZ (masked 128 plen (be addr)); KZ plen].

Definition ip4_route_key (cmp_type : NMPlatformIPRouteCmpType) (a : NMPlatformIP4Route) : kval :=
  let x := r4_rx a in
  let weak_id := KZ (uncoerced x) :: net4_key a ++ [KZ (rx_metric x); KZ (r4_tos a)] in
  KL match cmp_type with
     | NM_PLATFORM_IP_ROUTE_CMP_TYPE_WEAK_ID => weak_id
     | NM_PLATFORM_IP_ROUTE_CMP_TYPE_ID =>
         weak_id ++
         [KZ (rx_ifindex x); KZ (rtprot_source x); KZ (_ip_route_scope_inv_get_normalized a);
          KZ (r4_gateway a); KZ (rx_mss x); KZ (r4_pref_src a); KZ (rx_window x); KZ (rx_cwnd x);
          KZ (rx_initcwnd x); KZ (rx_initrwnd x); KZ (rx_mtu x);
          KZ (Z.land (rx_r_rtm_flags x) RTNH_F_ONLINK); locks_key x]
     | NM_PLATFORM_IP_ROUTE_CMP_TYPE_SEMANTICALLY =>
         [KZ (uncoerced x); KZ (rx_ifindex x)] ++ net4_key a ++
         [KZ (rx_metric x); KZ (r4_gateway a); KZ (rtprot_source x); KZ (_ip_route_scope_inv_get_normalized a);
          KZ (rx_mss x); KZ (r4_pref_src a);
          KZ (Z.land (rx_r_rtm_flags x) (Z.lor RTM_F_CLONED RTNH_F_ONLINK)); KZ (r4_tos a); locks_key x;
          KZ (rx_window x); KZ (rx_cwnd x); KZ (rx_initcwnd x); KZ (rx_initrwnd x); KZ (rx_mtu x)]
     | NM_PLATFORM_IP_ROUTE_CMP_TYPE_FULL =>
         [KZ (rx_table_coerced x); KZ (rx_ifindex x); KZ (r4_network a); KZ (rx_plen x); KZ (rx_metric x);
          KZ (r4_gateway a); KZ (rx_rt_source x); KZ (r4_scope_inv a); KZ (rx_mss x); KZ (r4_pref_src a);
          KZ (rx_r_rtm_flags x); KZ (r4_tos a); locks_key x;
          KZ (rx_window x); KZ (rx_cwnd x); KZ (rx_initcwnd x); KZ (rx_initrwnd x); KZ (rx_mtu x)]
     end.

Definition ip6_route_key (cmp_type : NMPlatformIPRouteCmpType) (a : NMPlatformIP6Route) : kval :=
  let x := r6_rx a in
  let metric := KZ (nm_utils_ip6_route_metric_normalize (rx_metric x)) in
  let network := net6_key (r6_network a) (rx_plen x) in
  let src := net6_key (r6_src a) (r6_src_plen a) in
  let weak_id := KZ (uncoerced x) :: network ++ metric :: src in
  KL match cmp_type with
     | NM_PLATFORM_IP_ROUTE_CMP_TYPE_WEAK_ID => weak_id
     | NM_PLATFORM_IP_ROUTE_CMP_TYPE_ID => weak_id ++ [KZ (rx_ifindex x); KB (r6_gateway a)]
     | NM_PLATFORM_IP_ROUTE_CMP_TYPE_SEMANTICALLY =>
         [KZ (uncoerced x); KZ (rx_ifindex x)] ++ network ++
         [metric; KB (r6_gateway a); KB (r6_pref_src a)] ++ src ++
         [KZ (rtprot_source x); KZ (rx_mss x); KZ (Z.land (rx_r_rtm_flags x) RTM_F_CLONED); locks_key x;
          KZ (rx_window x); KZ (rx_cwnd x); KZ (rx_initcwnd x); KZ (rx_initrwnd x); KZ (rx_mtu x);
          KZ (_route_pref_normalize (r6_rt_pref a))]
     | NM_PLATFORM_IP_ROUTE_CMP_TYPE_FULL =>
         [KZ (rx_table_coerced x); KZ (rx_ifindex x); KB (r6_network a); KZ (rx_plen x); KZ (rx_metric x);
          KB (r6_gateway a); KB (r6_pref_src a); KB (r6_src a); KZ (r6_src_plen a); KZ (rx_rt_source x);
          KZ (rx_mss x); KZ (rx_r_rtm_flags x); locks_key x;
          KZ (rx_window x); KZ (rx_cwnd x); KZ (rx_initcwnd x); KZ (rx_initrwnd x); KZ (rx_mtu x);
          KZ (r6_rt_pref a)]
     end.

#[export] Instance ip4_address_cmp_key : CmpKey any nm_platform_ip4_address_cmp ip4_address_key.
Proof. intros a b _ _. reflexivity. Qed.

#[export] Instance ip6_address_cmp_key : CmpKey any nm_platform_ip6_address_cmp ip6_address_key.
Proof. intros a b _ _. reflexivity. Qed.

#[export] Instance ip4_address_hash_key : HashKey any nm_platform_ip4_address_hash_update ip4_address_key.
Proof. intros [[] ? ? ?] [[] ? ? ?] h _ _ E. injection E; clear E; intros; key_fields; subst; reflexivity. Qed.

Lemma locks_cmp xa xb : cmp_locks xa xb = kval_cmp (locks_key xa) (locks_key xb).
Proof. unfold cmp_locks. rewrite <- (cmp_then_0_r (NM_CMP_BOOL (rx_lock_mtu xa) (rx_lock_mtu xb))). reflexivity. Qed.

Lemma net4_step a b k :
  ip4_route_ok a -> ip4_route_ok b ->
  nm_utils_ip4_address_same_prefix_cmp (r4_network a) (r4_network b) (Z.min (rx_plen (r4_rx a)) (rx_plen (r4_rx b)))
    ;;? NM_CMP_DIRECT (rx_plen (r4_rx a)) (rx_plen (r4_rx b)) ;;? k
  = NM_CMP_DIRECT (masked 32 (rx_plen (r4_rx a)) (htonl (r4_network a)))
                  (masked 32 (rx_plen (r4_rx b)) (htonl (r4_network b)))
    ;;? NM_CMP_DIRECT (rx_plen (r4_rx a)) (rx_plen (r4_rx b)) ;;? k.
Proof. intros [Ha Hpa] [Hb Hpb]. rewrite same_prefix_cmp4_bits by (done || lia). by apply prefix_lex. Qed.

Lemma net6_step (a b : in6_addr) p q k :
  in6_ok a /\ 0 <= p -> in6_ok b /\ 0 <= q ->
  nm_utils_ip6_address_same_prefix_cmp a b (Z.min p q) ;;? NM_CMP_DIRECT p q ;;? k
  = NM_CMP_DIRECT (masked 128 p (be a)) (masked 128 q (be b)) ;;? NM_CMP_DIRECT p q ;;? k.
Proof. intros [Ha Hpa] [Hb Hpb]. rewrite same_prefix_cmp6_bits by (done || lia). by apply prefix_lex. Qed.

(** The code and the key as one sequence of steps. *)
Ltac key_lines :=
  cbn -[NM_CMP_DIRECT cmp_then masked be htonl locks_key kval_cmp Z.land Z.lor Z.min
    nm_utils_ip4_address_same_prefix_cmp nm_utils_ip6_address_same_prefix_cmp
    nmp_utils_ip_config_source_round_trip_rtprot _ip_route_scope_inv_get_normalized _route_pref_normalize
    nm_platform_route_table_uncoerce nm_utils_ip6_route_metric_normalize];
  match goal with |- ?l = _ => rewrite <- (cmp_then_0_r l) end;
  rewrite ?cmp_then_assoc.

#[export] Instance ip4_route_cmp_key cmp_type :
  CmpKey ip4_route_ok (nm_platform_ip4_route_cmp cmp_type) (ip4_route_key cmp_type).
Proof.
  intros a b Ha Hb. unfold nm_platform_ip4_route_cmp, ip4_route_key. rewrite locks_cmp, kval_cmp_KL.
  destruct cmp_type; key_lines; try rewrite net4_step by done; reflexivity.
Qed.

#[export] Instance ip6_route_cmp_key cmp_type :
  CmpKey ip6_route_ok (nm_platform_ip6_route_cmp cmp_type) (ip6_route_key cmp_type).
Proof.
  intros a b [Ha Ha'] [Hb Hb']. unfold nm_platform_ip6_route_cmp, ip6_route_key. rewrite locks_cmp, kval_cmp_KL.
  destruct cmp_type; key_lines; try rewrite (net6_step (r6_network a)), (net6_step (r6_src a)) by done; reflexivity.
Qed.

#[export] Instance ip4_route_hash_key cmp_type :
  HashKey ip4_route_ok (nm_platform_ip4_route_hash_update cmp_type) (ip4_route_key cmp_type).
Proof.
  intros a b h [Ha Hpa] [Hb Hpb] E. unfold ip4_route_key, net4_key, locks_key in E.
  assert (Hn : masked 32 (rx_plen (r4_rx a)) (htonl (r4_network a)) = masked 32 (rx_plen (r4_rx b)) (htonl (r4_network b)) ->
               rx_plen (r4_rx a) = rx_plen (r4_rx b) ->
               nm_utils_ip4_address_clear_host_address (r4_network a) (rx_plen (r4_rx a))
               = nm_utils_ip4_address_clear_host_address (r4_network b) (rx_plen (r4_rx b))).
  { intros H1 H2. rewrite H2 in *. by apply clear_host4_eq. }
  unfold nm_platform_ip4_route_hash_update, locks.
  destruct cmp_type; cbn [app] in E; key_fields; try rewrite Hn by done; congruence.
Qed.
End keys.

Lemma locks_hash `{ByteOrder} a b : locks_key a = locks_key b -> locks a = locks b.
Proof. unfold locks_key, locks. intros E. key_fields. congruence. Qed.

#[export] Instance ip6_route_hash_key `{ByteOrder} cmp_type :
  HashKey ip6_route_ok (nm_platform_ip6_route_hash_update cmp_type) (ip6_route_key cmp_type).
Proof.
  intros a b h [[Ha Hpa] [Has Hsa]] [[Hb Hpb] [Hbs Hsb]] E. unfold ip6_route_key, net6_key, locks_key in E.
  assert (Hn : forall (x y : in6_addr) p q, in6_ok x -> in6_ok y -> 0 <= p -> masked 128 p (be x) = masked 128 q (be y) -> p = q ->
               nm_utils_ip6_address_clear_host_address x p = nm_utils_ip6_address_clear_host_address y q).
  { intros x y p q Hx Hy Hp H1 <-. by apply clear_host6_eq. }
  unfold nm_platform_ip6_route_hash_update, locks.
  destruct cmp_type; cbn [app] in E; key_fields;
    try rewrite (Hn (r6_network a) (r6_network b) _ (rx_plen (r6_rx b))),
                (Hn (r6_src a) (r6_src b) _ (r6_src_plen b)) by done;
    try (destruct (nm_utils_ip6_address_clear_host_address (r6_network b) _); [cbn [mbind option_bind]|done];
         destruct (nm_utils_ip6_address_clear_host_address (r6_src b) _); [cbn [mbind option_bind]|done]);
    congruence.
Qed.

(** ** The four comparisons of routes *)

Section chain.
Context `{ByteOrder}.

Lemma ip4_chain a b :
  (ip4_route_key NM_PLATFORM_IP_ROUTE_CMP_TYPE_FULL a = ip4_route_key NM_PLATFORM_IP_ROUTE_CMP_TYPE_FULL b ->
   ip4_route_key NM_PLATFORM_IP_ROUTE_CMP_TYPE_SEMANTICALLY a = ip4_route_key NM_PLATFORM_IP_ROUTE_CMP_TYPE_SEMANTICALLY b) /\
  (ip4_route_key NM_PLATFORM_IP_ROUTE_CMP_TYPE_SEMANTICALLY a = ip4_route_key NM_PLATFORM_IP_ROUTE_CMP_TYPE_SEMANTICALLY b ->
   ip4_route_key NM_PLATFORM_IP_ROUTE_CMP_TYPE_ID a = ip4_route_key NM_PLATFORM_IP_ROUTE_CMP_TYPE_ID b) /\
  (ip4_route_key NM_PLATFORM_IP_ROUTE_CMP_TYPE_ID a = ip4_route_key NM_PLATFORM_IP_ROUTE_CMP_TYPE_ID b ->
   ip4_route_key NM_PLATFORM_IP_ROUTE_CMP_TYPE_WEAK_ID a = ip4_route_key NM_PLATFORM_IP_ROUTE_CMP_TYPE_WEAK_ID b).
Proof.
  unfold ip4_route_key, net4_key, locks_key. cbn [app]. split_and!; intros E; injection E; clear E; intros.
  - assert (_ip_route_scope_inv_get_normalized a = _ip_route_scope_inv_get_normalized b)
      by (unfold _ip_route_scope_inv_get_normalized; same_fields; reflexivity).
    congruence.
  - assert (Ho : Z.land (rx_r_rtm_flags (r4_rx a)) RTNH_F_ONLINK = Z.land (rx_r_rtm_flags (r4_rx b)) RTNH_F_ONLINK).
    { replace RTNH_F_ONLINK with (Z.land (Z.lor RTM_F_CLONED RTNH_F_ONLINK) RTNH_F_ONLINK) by done.
      rewrite !Z.land_assoc. congruence. }
    congruence.
  - congruence.
Qed.

Lemma ip6_chain a b :
  (ip6_route_key NM_PLATFORM_IP_ROUTE_CMP_TYPE_FULL a = ip6_route_key NM_PLATFORM_IP_ROUTE_CMP_TYPE_FULL b ->
   ip6_route_key NM_PLATFORM_IP_ROUTE_CMP_TYPE_SEMANTICALLY a = ip6_route_key NM_PLATFORM_IP_ROUTE_CMP_TYPE_SEMANTICALLY b) /\
  (ip6_route_key NM_PLATFORM_IP_ROUTE_CMP_TYPE_SEMANTICALLY a = ip6_route_key NM_PLATFORM_IP_ROUTE_CMP_TYPE_SEMANTICALLY b ->
   ip6_route_key NM_PLATFORM_IP_ROUTE_CMP_TYPE_ID a = ip6_route_key NM_PLATFORM_IP_ROUTE_CMP_TYPE_ID b) /\
  (ip6_route_key NM_PLATFORM_IP_ROUTE_CMP_TYPE_ID a = ip6_route_key NM_PLATFORM_IP_ROUTE_CMP_TYPE_ID b ->
   ip6_route_key NM_PLATFORM_IP_ROUTE_CMP_TYPE_WEAK_ID a = ip6_route_key NM_PLATFORM_IP_ROUTE_CMP_TYPE_WEAK_ID b).
Proof.
  unfold ip6_route_key, net6_key, locks_key. cbn [app]. split_and!; intros E; injection E; clear E; intros; congruence.
Qed.

(** C34: The comparisons of routes are a chain, for IPv4 and IPv6: routes equal in
    full are semantically equal, these have the same identity for the kernel, and
    these have the same weak identity.  Each is a total preorder on the well-typed
    routes: a comparison up to the shorter of two prefixes, followed by that of
    their lengths, does not break transitivity. *)
Theorem ip_route_cmp_chain (a b : NMPlatformIP4Route) (c d : NMPlatformIP6Route) :
  ip4_route_ok a -> ip4_route_ok b -> ip6_route_ok c -> ip6_route_ok d ->
  (forall cmp_type, CmpPreorder ip4_route_ok (nm_platform_ip4_route_cmp cmp_type)) /\
  (forall cmp_type, CmpPreorder ip6_route_ok (nm_platform_ip6_route_cmp cmp_type)) /\
  (nm_platform_ip4_route_cmp NM_PLATFORM_IP_ROUTE_CMP_TYPE_FULL a b = 0 ->
   nm_platform_ip4_route_cmp NM_PLATFORM_IP_ROUTE_CMP_TYPE_SEMANTICALLY a b = 0) /\
  (nm_platform_ip4_route_cmp NM_PLATFORM_IP_ROUTE_CMP_TYPE_SEMANTICALLY a b = 0 ->
   nm_platform_ip4_route_cmp NM_PLATFORM_IP_ROUTE_CMP_TYPE_ID a b = 0) /\
  (nm_platform_ip4_route_cmp NM_PLATFORM_IP_ROUTE_CMP_TYPE_ID a b = 0 ->
   nm_platform_ip4_route_cmp NM_PLATFORM_IP_ROUTE_CMP_TYPE_WEAK_ID a b = 0) /\
  (nm_platform_ip6_route_cmp NM_PLATFORM_IP_ROUTE_CMP_TYPE_FULL c d = 0 ->
   nm_platform_ip6_route_cmp NM_PLATFORM_IP_ROUTE_CMP_TYPE_SEMANTICALLY c d = 0) /\
  (nm_platform_ip6_route_cmp NM_PLATFORM_IP_ROUTE_CMP_TYPE_SEMANTICALLY c d = 0 ->
   nm_platform_ip6_route_cmp NM_PLATFORM_IP_ROUTE_CMP_TYPE_ID c d = 0) /\
  (nm_platform_ip6_route_cmp NM_PLATFORM_IP_ROUTE_CMP_TYPE_ID c d = 0 ->
   nm_platform_ip6_route_cmp NM_PLATFORM_IP_ROUTE_CMP_TYPE_WEAK_ID c d = 0).
Proof.
  intros Ha Hb Hc Hd. split; [intros; apply cmp_key_preorder|]. split; [intros; apply cmp_key_preorder|].
  rewrite !(cmp_key_zero a b) by done. rewrite !(cmp_key_zero c d) by done.
  pose proof (ip4_chain a b) as (? & ? & ?). pose proof (ip6_chain c d) as (? & ? & ?). done.
Qed.
End chain.

(** ** Normalization *)

Lemma table_coerce_invol t : nm_platform_route_table_coerce (nm_platform_route_table_coerce t) = t.
Proof. unfold nm_platform_route_table_coerce. code_cases; lia. Qed.

(** The coerced table is a second name for the table of the kernel: coercing
    and uncoercing without normalization are inverse to each other, the main
    table is zero, and nm_platform_route_table_is_main () answers the same for a
    table and its coerced form, as its comment says. *)
Theorem route_table_coerce_roundtrip t :
  nm_platform_route_table_uncoerce (nm_platform_route_table_coerce t) false = t /\
  nm_platform_route_table_coerce (nm_platform_route_table_uncoerce t false) = t /\
  nm_platform_route_table_coerce 254 = 0 /\
  nm_platform_route_table_is_main t = (nm_platform_route_table_uncoerce t true =? 254) /\
  nm_platform_route_table_is_main t = (nm_platform_route_table_uncoerce (nm_platform_route_table_coerce t) true =? 254).
Proof.
  unfold nm_platform_route_table_coerce, nm_platform_route_table_uncoerce, nm_platform_route_table_is_main.
  split_and!; code_cases; lia.
Qed.

Lemma round_trip_rtprot_idem s :
  nmp_utils_ip_config_source_round_trip_rtprot (nmp_utils_ip_config_source_round_trip_rtprot s)
  = nmp_utils_ip_config_source_round_trip_rtprot s.
Proof.
  unfold nmp_utils_ip_config_source_round_trip_rtprot, nmp_utils_ip_config_source_from_rtprot.
  set (p := nmp_utils_ip_config_source_coerce_to_rtprot s).
  assert (Hp : 0 <= p < 256).
  { subst p. unfold nmp_utils_ip_config_source_coerce_to_rtprot, u8. pose proof (Z.mod_pos_bound (s - 1) 256).
    repeat case_match; try lia; unfold RTPROT_UNSPEC, RTPROT_KERNEL, RTPROT_DHCP, RTPROT_RA, RTPROT_STATIC; lia. }
  clearbody p. unfold nmp_utils_ip_config_source_coerce_to_rtprot, u8,
    NM_IP_CONFIG_SOURCE_UNKNOWN, _NM_IP_CONFIG_SOURCE_RTPROT_LAST.
  destruct (Z.leb_spec (p + 1) 0), (Z.leb_spec (p + 1) 256); try lia.
  replace (p + 1 - 1) with p by lia. rewrite Z.mod_small; lia.
Qed.

Section normalize.
Context `{ByteOrder}.

Lemma clear_host4_idem a p :
  in4_ok a -> 0 <= p ->
  nm_utils_ip4_address_clear_host_address (nm_utils_ip4_address_clear_host_address a p) p
  = nm_utils_ip4_address_clear_host_address a p.
Proof.
  intros Ha Hp. pose proof (clear_host4_range a p Ha).
  apply clear_host4_eq; [done|done|done|]. rewrite clear_host4_masked by done. apply masked_idem; lia.
Qed.

(** The address of a network without its host part; the same as masking. *)
Definition clear6 (a : in6_addr) (p : Z) : in6_addr :=
  default a (nm_utils_ip6_address_clear_host_address a p).

Lemma clear6_masked a p : in6_ok a -> 0 <= p -> in6_ok (clear6 a p) /\ be (clear6 a p) = masked 128 p (be a).
Proof.
  intros Ha Hp. unfold clear6. destruct (Z_lt_le_dec 128 p).
  - unfold nm_utils_ip6_address_clear_host_address. destruct (Z.ltb_spec 128 p); [|lia]. split; [done|].
    unfold masked, prefix_bits. rewrite Z.min_r, Z.sub_diag by lia. change (2 ^ 0) with 1.
    cbn [default]. by rewrite Z.div_1_r, Z.mul_1_r.
  - by destruct (clear_host6_masked a p) as (r & -> & Hr & Er).
Qed.

Lemma clear6_eq_iff a b p :
  in6_ok a -> in6_ok b -> 0 <= p -> clear6 a p = clear6 b p <-> masked 128 p (be a) = masked 128 p (be b).
Proof.
  intros Ha Hb Hp. destruct (clear6_masked a p) as [Hla Ea]; [done..|]. destruct (clear6_masked b p) as [Hlb Eb]; [done..|].
  rewrite <- Ea, <- Eb. split; [congruence|]. apply be_inj. congruence.
Qed.

Lemma clear6_idem a p : in6_ok a -> 0 <= p -> clear6 (clear6 a p) p = clear6 a p.
Proof.
  intros Ha Hp. destruct (clear6_masked a p) as [Hla Ea]; [done..|].
  apply clear6_eq_iff; [done..|]. rewrite Ea. apply masked_idem; lia.
Qed.
End normalize.

Lemma uncoerce_coerce_uncoerce t :
  nm_platform_route_table_uncoerce (nm_platform_route_table_coerce (nm_platform_route_table_uncoerce t true)) true
  = nm_platform_route_table_uncoerce t true.
Proof. unfold nm_platform_route_table_coerce, nm_platform_route_table_uncoerce. code_cases; lia. Qed.

Section normalized_routes.
Context `{ByteOrder}.

Lemma scope_inv_idem r :
  _ip_route_scope_inv_get_normalized (nm_platform_ip_route_normalize4 r) = _ip_route_scope_inv_get_normalized r.
Proof.
  unfold _ip_route_scope_inv_get_normalized at 1. cbn [r4_scope_inv r4_gateway nm_platform_ip_route_normalize4].
  destruct (Z.eqb_spec (_ip_route_scope_inv_get_normalized r) 0) as [E|]; [|done].
  unfold _ip_route_scope_inv_get_normalized in *.
  destruct (Z.eqb_spec (r4_scope_inv r) 0); [|done]. by destruct (r4_gateway r =? 0).
Qed.

Lemma sem_key_normalize4 r :
  ip4_route_ok r ->
  ip4_route_key NM_PLATFORM_IP_ROUTE_CMP_TYPE_SEMANTICALLY (nm_platform_ip_route_normalize4 r)
  = ip4_route_key NM_PLATFORM_IP_ROUTE_CMP_TYPE_SEMANTICALLY r.
Proof.
  intros [Hn Hp]. unfold ip4_route_key, net4_key. cbn [app]. rewrite scope_inv_idem.
  cbn [nm_platform_ip_route_normalize4 r4_rx r4_network r4_gateway r4_pref_src r4_tos rx_normalized
       rx_table_coerced rx_rt_source rx_plen].
  rewrite uncoerce_coerce_uncoerce, round_trip_rtprot_idem, clear_host4_masked, masked_idem by (done || lia).
  reflexivity.
Qed.

Lemma normalize4_ok r : ip4_route_ok r -> ip4_route_ok (nm_platform_ip_route_normalize4 r).
Proof. intros [Hn Hp]. split; [by apply clear_host4_range|done]. Qed.

(** The flags that a comparison of meaning looks at. *)
Definition ip4_flags_known (r : NMPlatformIP4Route) : Prop :=
  Z.land (rx_r_rtm_flags (r4_rx r)) (Z.lor RTM_F_CLONED RTNH_F_ONLINK) = rx_r_rtm_flags (r4_rx r).
Definition ip6_flags_known (r : NMPlatformIP6Route) : Prop :=
  Z.land (rx_r_rtm_flags (r6_rx r)) RTM_F_CLONED = rx_r_rtm_flags (r6_rx r) /\
  _route_pref_normalize (r6_rt_pref r) = r6_rt_pref r.

Lemma full_key_normalize4 a b :
  ip4_route_ok a -> ip4_route_ok b -> ip4_flags_known a -> ip4_flags_known b ->
  ip4_route_key NM_PLATFORM_IP_ROUTE_CMP_TYPE_SEMANTICALLY a = ip4_route_key NM_PLATFORM_IP_ROUTE_CMP_TYPE_SEMANTICALLY b <->
  ip4_route_key NM_PLATFORM_IP_ROUTE_CMP_TYPE_FULL (nm_platform_ip_route_normalize4 a)
  = ip4_route_key NM_PLATFORM_IP_ROUTE_CMP_TYPE_FULL (nm_platform_ip_route_normalize4 b).
Proof.
  intros Ha Hb Hfa Hfb. split; intros E.
  - unfold ip4_route_key, net4_key, locks_key in E. cbn [app] in E. injection E; clear E; intros.
    assert (nm_utils_ip4_address_clear_host_address (r4_network a) (rx_plen (r4_rx a))
            = nm_utils_ip4_address_clear_host_address (r4_network b) (rx_plen (r4_rx b))).
    { destruct Ha, Hb. replace (rx_plen (r4_rx b)) with (rx_plen (r4_rx a)) in *. by apply clear_host4_eq. }
    unfold ip4_flags_known in *. unfold ip4_route_key, locks_key.
    cbn [nm_platform_ip_route_normalize4 r4_rx r4_network r4_gateway r4_pref_src r4_tos r4_scope_inv rx_normalized].
    cbn. congruence.
  - rewrite <- (sem_key_normalize4 a), <- (sem_key_normalize4 b) by done. by apply ip4_chain.
Qed.

Lemma normalize4_idem r :
  ip4_route_ok r -> nm_platform_ip_route_normalize4 (nm_platform_ip_route_normalize4 r) = nm_platform_ip_route_normalize4 r.
Proof.
  intros [Hn Hp]. unfold nm_platform_ip_route_normalize4 at 1. rewrite scope_inv_idem.
  cbn [nm_platform_ip_route_normalize4 r4_rx r4_network r4_gateway r4_pref_src r4_tos rx_normalized
       rx_table_coerced rx_rt_source rx_plen].
  rewrite uncoerce_coerce_uncoerce, round_trip_rtprot_idem, clear_host4_idem by done. reflexivity.
Qed.

Lemma normalize6_unfold r :
  nm_platform_ip_route_normalize6 r =
  {| r6_rx := rx_normalized (r6_rx r) (nm_platform_route_table_coerce (uncoerced (r6_rx r)))
                (rtprot_source (r6_rx r)) (nm_utils_ip6_route_metric_normalize (rx_metric (r6_rx r)));
     r6_network := clear6 (r6_network r) (rx_plen (r6_rx r)); r6_gateway := r6_gateway r;
     r6_pref_src := r6_pref_src r; r6_src := clear6 (r6_src r) (r6_src_plen r);
     r6_src_plen := r6_src_plen r; r6_rt_pref := r6_rt_pref r |}.
Proof. reflexivity. Qed.

Lemma metric_normalize_idem m :
  nm_utils_ip6_route_metric_normalize (nm_utils_ip6_route_metric_normalize m) = nm_utils_ip6_route_metric_normalize m.
Proof. unfold nm_utils_ip6_route_metric_normalize. destruct (Z.eqb_spec m 0); [done|]. by destruct (Z.eqb_spec m 0). Qed.

Lemma sem_key_normalize6 r :
  ip6_route_ok r ->
  ip6_route_key NM_PLATFORM_IP_ROUTE_CMP_TYPE_SEMANTICALLY (nm_platform_ip_route_normalize6 r)
  = ip6_route_key NM_PLATFORM_IP_ROUTE_CMP_TYPE_SEMANTICALLY r.
Proof.
  intros [[Hn Hp] [Hs Hsp]]. rewrite normalize6_unfold. unfold ip6_route_key, net6_key.
  cbn [app r6_rx r6_network r6_gateway r6_pref_src r6_src r6_src_plen r6_rt_pref rx_normalized rx_table_coerced
       rx_rt_source rx_plen rx_metric].
  destruct (clear6_masked (r6_network r) (rx_plen (r6_rx r))) as [_ ->]; [done..|].
  destruct (clear6_masked (r6_src r) (r6_src_plen r)) as [_ ->]; [done..|].
  rewrite uncoerce_coerce_uncoerce, round_trip_rtprot_idem, metric_normalize_idem, !masked_idem by lia.
  reflexivity.
Qed.

Lemma normalize6_ok r : ip6_route_ok r -> ip6_route_ok (nm_platform_ip_route_normalize6 r).
Proof.
  intros [[Hn Hp] [Hs Hsp]]. rewrite normalize6_unfold. split; (split; [|done]); by apply clear6_masked.
Qed.

Lemma full_key_normalize6 a b :
  ip6_route_ok a -> ip6_route_ok b -> ip6_flags_known a -> ip6_flags_known b ->
  ip6_route_key NM_PLATFORM_IP_ROUTE_CMP_TYPE_SEMANTICALLY a = ip6_route_key NM_PLATFORM_IP_ROUTE_CMP_TYPE_SEMANTICALLY b <->
  ip6_route_key NM_PLATFORM_IP_ROUTE_CMP_TYPE_FULL (nm_platform_ip_route_normalize6 a)
  = ip6_route_key NM_PLATFORM_IP_ROUTE_CMP_TYPE_FULL (nm_platform_ip_route_normalize6 b).
Proof.
  intros Ha Hb [Hfa Hga] [Hfb Hgb]. split; intros E.
  - unfold ip6_route_key, net6_key, locks_key in E. cbn [app] in E. injection E; clear E; intros.
    assert (clear6 (r6_network a) (rx_plen (r6_rx a)) = clear6 (r6_network b) (rx_plen (r6_rx b))).
    { destruct Ha as [[] _], Hb as [[] _]. replace (rx_plen (r6_rx b)) with (rx_plen (r6_rx a)) in *. by apply clear6_eq_iff. }
    assert (clear6 (r6_src a) (r6_src_plen a) = clear6 (r6_src b) (r6_src_plen b)).
    { destruct Ha as [_ []], Hb as [_ []]. replace (r6_src_plen b) with (r6_src_plen a) in *. by apply clear6_eq_iff. }
    rewrite !normalize6_unfold. unfold ip6_route_key, locks_key.
    cbn [r6_rx r6_network r6_gateway r6_pref_src r6_src r6_src_plen r6_rt_pref rx_normalized]. cbn. congruence.
  - rewrite <- (sem_key_normalize6 a), <- (sem_key_normalize6 b) by done. by apply ip6_chain.
Qed.

Lemma normalize6_idem r :
  ip6_route_ok r -> nm_platform_ip_route_normalize6 (nm_platform_ip_route_normalize6 r) = nm_platform_ip_route_normalize6 r.
Proof.
  intros [[Hn Hp] [Hs Hsp]]. rewrite (normalize6_unfold (nm_platform_ip_route_normalize6 r)), (normalize6_unfold r).
  cbn [r6_rx r6_network r6_gateway r6_pref_src r6_src r6_src_plen r6_rt_pref rx_normalized rx_table_coerced
       rx_rt_source rx_plen rx_metric].
  rewrite uncoerce_coerce_uncoerce, round_trip_rtprot_idem, metric_normalize_idem, !clear6_idem by done. reflexivity.
Qed.
End normalized_routes.

(** nm_platform_ip_route_normalize () does what its comment says, for the
    flags and preferences that routes are meant to carry: two routes are
    semantically equal exactly when they are equal in full after normalization.
    Normalizing twice is normalizing once, and a normalized route means the
    same as the route. *)
Theorem ip_route_normalize_spec `{ByteOrder} (a b : NMPlatformIP4Route) (c d : NMPlatformIP6Route) :
  ip4_route_ok a -> ip4_route_ok b -> ip4_flags_known a -> ip4_flags_known b ->
  ip6_route_ok c -> ip6_route_ok d -> ip6_flags_known c -> ip6_flags_known d ->
  (nm_platform_ip4_route_cmp NM_PLATFORM_IP_ROUTE_CMP_TYPE_SEMANTICALLY a b = 0 <->
   nm_platform_ip4_route_cmp NM_PLATFORM_IP_ROUTE_CMP_TYPE_FULL
     (nm_platform_ip_route_normalize4 a) (nm_platform_ip_route_normalize4 b) = 0) /\
  (nm_platform_ip6_route_cmp NM_PLATFORM_IP_ROUTE_CMP_TYPE_SEMANTICALLY c d = 0 <->
   nm_platform_ip6_route_cmp NM_PLATFORM_IP_ROUTE_CMP_TYPE_FULL
     (nm_platform_ip_route_normalize6 c) (nm_platform_ip_route_normalize6 d) = 0) /\
  nm_platform_ip4_route_cmp NM_PLATFORM_IP_ROUTE_CMP_TYPE_SEMANTICALLY a (nm_platform_ip_route_normalize4 a) = 0 /\
  nm_platform_ip6_route_cmp NM_PLATFORM_IP_ROUTE_CMP_TYPE_SEMANTICALLY c (nm_platform_ip_route_normalize6 c) = 0 /\
  nm_platform_ip_route_normalize4 (nm_platform_ip_route_normalize4 a) = nm_platform_ip_route_normalize4 a /\
  nm_platform_ip_route_normalize6 (nm_platform_ip_route_normalize6 c) = nm_platform_ip_route_normalize6 c.
Proof.
  intros Ha Hb Hfa Hfb Hc Hd Hfc Hfd.
  pose proof (normalize4_ok a Ha). pose proof (normalize4_ok b Hb).
  pose proof (normalize6_ok c Hc). pose proof (normalize6_ok d Hd).
  split_and!.
  - rewrite !cmp_key_zero by done. by apply full_key_normalize4.
  - rewrite !cmp_key_zero by done. by apply full_key_normalize6.
  - rewrite cmp_key_zero by done. by rewrite sem_key_normalize4.
  - rewrite cmp_key_zero by done. by rewrite sem_key_normalize6.
  - by apply normalize4_idem.
  - by apply normalize6_idem.
Qed.

(** The integer fields that normalization sets, within their C types. *)
Definition ip4_route_typed (r : NMPlatformIP4Route) : Prop :=
  in4_ok (r4_network r) /\ 0 <= rx_plen (r4_rx r) < 256 /\ 0 <= rx_table_coerced (r4_rx r) <= G_MAXUINT32 /\
  0 <= rx_rt_source (r4_rx r) <= NM_IP_CONFIG_SOURCE_USER /\ 0 <= r4_scope_inv r < 256.
Definition ip6_route_typed (r : NMPlatformIP6Route) : Prop :=
  in6_ok (r6_network r) /\ in6_ok (r6_src r) /\ 0 <= rx_plen (r6_rx r) < 256 /\ 0 <= r6_src_plen r < 256 /\
  0 <= rx_table_coerced (r6_rx r) <= G_MAXUINT32 /\ 0 <= rx_metric (r6_rx r) <= G_MAXUINT32 /\
  0 <= rx_rt_source (r6_rx r) <= NM_IP_CONFIG_SOURCE_USER.

Lemma coerce_range t :
  0 <= t <= G_MAXUINT32 ->
  0 <= nm_platform_route_table_coerce (nm_platform_route_table_uncoerce t true) <= G_MAXUINT32.
Proof. unfold nm_platform_route_table_coerce, nm_platform_route_table_uncoerce. intros. code_cases; lia. Qed.

Lemma round_trip_range s : 1 <= nmp_utils_ip_config_source_round_trip_rtprot s <= 256.
Proof.
  unfold nmp_utils_ip_config_source_round_trip_rtprot, nmp_utils_ip_config_source_from_rtprot,
    nmp_utils_ip_config_source_coerce_to_rtprot, u8, RTPROT_UNSPEC, RTPROT_KERNEL, RTPROT_DHCP, RTPROT_RA, RTPROT_STATIC.
  pose proof (Z.mod_pos_bound (s - 1) 256). repeat case_match; lia.
Qed.

(** Normalization keeps every field within its type, whatever the prefix
    lengths are; the metric of an IPv6 route is not zero after it, the source is
    one of a route of the kernel, and the scope of an IPv4 route is set. *)
Theorem ip_route_normalize_typed `{ByteOrder} (r : NMPlatformIP4Route) (s : NMPlatformIP6Route) :
  ip4_route_typed r -> ip6_route_typed s ->
  ip4_route_typed (nm_platform_ip_route_normalize4 r) /\
  ip6_route_typed (nm_platform_ip_route_normalize6 s) /\
  r4_scope_inv (nm_platform_ip_route_normalize4 r) <> 0 /\
  rx_metric (r6_rx (nm_platform_ip_route_normalize6 s)) <> 0 /\
  1 <= rx_rt_source (r6_rx (nm_platform_ip_route_normalize6 s)) <= _NM_IP_CONFIG_SOURCE_RTPROT_LAST.
Proof.
  intros (Hn & Hp & Ht & Hr & Hs) (Hn6 & Hs6 & Hp6 & Hsp6 & Ht6 & Hm6 & Hr6). rewrite normalize6_unfold.
  pose proof (round_trip_range (rx_rt_source (r4_rx r))). pose proof (round_trip_range (rx_rt_source (r6_rx s))).
  unfold ip4_route_typed, ip6_route_typed, NM_IP_CONFIG_SOURCE_USER, _NM_IP_CONFIG_SOURCE_RTPROT_LAST.
  assert (0 < _ip_route_scope_inv_get_normalized r < 256).
  { unfold _ip_route_scope_inv_get_normalized. destruct (Z.eqb_spec (r4_scope_inv r) 0); [|lia].
    by destruct (r4_gateway r =? 0). }
  assert (0 < nm_utils_ip6_route_metric_normalize (rx_metric (r6_rx s)) <= G_MAXUINT32).
  { unfold nm_utils_ip6_route_metric_normalize. destruct (Z.eqb_spec (rx_metric (r6_rx s)) 0); lia. }
  cbn [nm_platform_ip_route_normalize4 r4_rx r4_network r4_scope_inv r6_rx r6_network r6_src r6_src_plen
       rx_normalized rx_table_coerced rx_rt_source rx_plen rx_metric].
  pose proof (coerce_range _ Ht). pose proof (coerce_range _ Ht6).
  split_and!; try lia; try (apply clear6_masked; (done || lia)); by apply clear_host4_range.
Qed.

(** ** Samples *)

Definition sample_rx (ifindex plen flags metric table : Z) : NMPlatformIPRoute := {|
  rx_ifindex := ifindex; rx_rt_source := NM_IP_CONFIG_SOURCE_USER; rx_plen := plen;
  rx_lock_window := false; rx_lock_cwnd := false; rx_lock_initcwnd := false;
  rx_lock_initrwnd := false; rx_lock_mtu := true; rx_r_rtm_flags := flags; rx_mss := 0;
  rx_window := 0; rx_cwnd := 0; rx_initcwnd := 0; rx_initrwnd := 0; rx_mtu := 1400;
  rx_metric := metric; rx_table_coerced := table |}.

(** 192.168.1.host/24, as a little-endian machine holds it. *)
Definition sample_route4 (host flags table : Z) : NMPlatformIP4Route := {|
  r4_rx := sample_rx 3 24 flags 100 table; r4_network := 0x0001a8c0 + host * 2 ^ 24; r4_gateway := 0;
  r4_pref_src := 0; r4_tos := 0; r4_scope_inv := 0 |}.

(** 2001:db8::host/64 *)
Definition sample_route6 (host : byte) (flags metric pref : Z) : NMPlatformIP6Route := {|
  r6_rx := sample_rx 3 64 flags metric 0;
  r6_network := [x20; x01; x0d; xb8] ++ replicate 11 x00 ++ [host];
  r6_gateway := replicate 16 x00; r6_pref_src := replicate 16 x00; r6_src := replicate 16 x00;
  r6_src_plen := 0; r6_rt_pref := pref |}.

Definition little_endian : ByteOrder := false.

Lemma sample_route4_ok host flags table : 0 <= host < 256 -> ip4_route_ok (sample_route4 host flags table).
Proof. intros. split; unfold in4_ok; cbn -[Z.pow]; lia. Qed.

Lemma sample_route6_ok host flags metric pref : ip6_route_ok (sample_route6 host flags metric pref).
Proof. by repeat split. Qed.

Lemma ip_route_cmp_chain_witness :
  let _ := little_endian in
  nm_platform_ip4_route_cmp NM_PLATFORM_IP_ROUTE_CMP_TYPE_ID (sample_route4 1 0 0) (sample_route4 2 0 254) = 0 /\
  nm_platform_ip6_route_cmp NM_PLATFORM_IP_ROUTE_CMP_TYPE_WEAK_ID (sample_route6 x01 0 0 2) (sample_route6 x02 0 1024 0) = 0.
Proof.
  intros ?.
  destruct (ip_route_cmp_chain (sample_route4 1 0 0) (sample_route4 2 0 254)
              (sample_route6 x01 0 0 2) (sample_route6 x02 0 1024 0)) as (_ & _ & _ & H4 & _ & _ & H5 & H6).
  - apply sample_route4_ok; lia.
  - apply sample_route4_ok; lia.
  - apply sample_route6_ok.
  - apply sample_route6_ok.
  - split; [apply H4|apply H6, H5]; vm_compute; reflexivity.
Defined.

Lemma ip_route_normalize_spec_witness :
  let _ := little_endian in
  nm_platform_ip6_route_cmp NM_PLATFORM_IP_ROUTE_CMP_TYPE_FULL
    (nm_platform_ip_route_normalize6 (sample_route6 x01 0 0 0))
    (nm_platform_ip_route_normalize6 (sample_route6 x02 0 1024 0)) = 0.
Proof.
  intros ?.
  apply (ip_route_normalize_spec (sample_route4 1 4 0) (sample_route4 2 4 254)
           (sample_route6 x01 0 0 0) (sample_route6 x02 0 1024 0)); try done;
    try (apply sample_route4_ok; lia).
Defined.

Lemma ip_route_normalize_typed_witness :
  let _ := little_endian in
  r4_scope_inv (nm_platform_ip_route_normalize4 (sample_route4 1 4 0)) <> 0.
Proof.
  intros ?. destruct (ip_route_normalize_typed (sample_route4 1 4 0) (sample_route6 x01 0 0 0)) as (_ & _ & Hs & _).
  - repeat split; vm_compute; (reflexivity || discriminate).
  - repeat split; vm_compute; (reflexivity || discriminate).
  - exact Hs.
Defined.

(** Semantic equality is not full equality after normalization, for all
    routes: normalization keeps the flags and the router preference as they are,
    of which the semantic comparison looks at some flags and at the normalized
    preference only.  Nor have the two comparisons the same sign: the main table
    is 254 for one of them and 0 for the other. *)
Theorem ip_route_normalize_incomplete :
  let _ := little_endian in
  let sem4 := nm_platform_ip4_route_cmp NM_PLATFORM_IP_ROUTE_CMP_TYPE_SEMANTICALLY in
  let full4 a b := nm_platform_ip4_route_cmp NM_PLATFORM_IP_ROUTE_CMP_TYPE_FULL
                     (nm_platform_ip_route_normalize4 a) (nm_platform_ip_route_normalize4 b) in
  let sem6 := nm_platform_ip6_route_cmp NM_PLATFORM_IP_ROUTE_CMP_TYPE_SEMANTICALLY in
  let full6 a b := nm_platform_ip6_route_cmp NM_PLATFORM_IP_ROUTE_CMP_TYPE_FULL
                     (nm_platform_ip_route_normalize6 a) (nm_platform_ip_route_normalize6 b) in
  (sem4 (sample_route4 1 1 0) (sample_route4 1 0 0) = 0 /\ full4 (sample_route4 1 1 0) (sample_route4 1 0 0) = 1) /\
  (sem6 (sample_route6 x01 RTNH_F_ONLINK 0 0) (sample_route6 x01 0 0 0) = 0 /\
   full6 (sample_route6 x01 RTNH_F_ONLINK 0 0) (sample_route6 x01 0 0 0) = 1) /\
  (sem6 (sample_route6 x01 0 0 2) (sample_route6 x01 0 0 0) = 0 /\
   full6 (sample_route6 x01 0 0 2) (sample_route6 x01 0 0 0) = 1) /\
  (sem4 (sample_route4 1 0 0) (sample_route4 1 0 100) = 1 /\ full4 (sample_route4 1 0 0) (sample_route4 1 0 100) = -1).
Proof. repeat split. Qed.

(** ** Addresses *)

Definition expiry_key (x : NMPlatformIPAddress) : kval :=
  KL [KZ (expiry x (ax_lifetime x)); KZ (expiry x (ax_preferred x))].

#[export] Instance expiry_cmp_key : CmpKey any nm_platform_ip_address_cmp_expiry expiry_key.
Proof.
  intros a b _ _. unfold nm_platform_ip_address_cmp_expiry, expiry_key.
  cbn [kval_cmp]. rewrite cmp_then_0_r. unfold cmp_then, NM_CMP_DIRECT.
  destruct (expiry a (ax_lifetime a) =? expiry b (ax_lifetime b)); [done|].
  by destruct (expiry a (ax_lifetime a) <? expiry b (ax_lifetime b)).
Qed.

(** The fields of an address whose type is guint32. *)
Definition lifetimes_typed (x : NMPlatformIPAddress) : Prop :=
  0 <= ax_timestamp x <= G_MAXUINT32 /\ 0 <= ax_lifetime x <= G_MAXUINT32 /\ 0 <= ax_preferred x <= G_MAXUINT32.

(** An address with an end: rule 3 of the comment at the struct. *)
Definition anchored (x : NMPlatformIPAddress) : Prop :=
  ax_timestamp x <> 0 /\ ax_lifetime x <> 0 /\ ax_lifetime x <> NM_PLATFORM_LIFETIME_PERMANENT.

(** nm_platform_ip_address_cmp_expiry () orders addresses by the end of their
    lifetime: it is a total preorder, an address with lifetime 0 is permanent and
    no address outlasts it, one with an end comes before an address of unlimited
    lifetime, and of two with an end the one with more time left, at any time, is
    the greater.  The sums stay far below G_MAXINT64, which stands for never. *)
Theorem ip_address_cmp_expiry_spec (a b : NMPlatformIPAddress) :
  lifetimes_typed a -> lifetimes_typed b ->
  CmpPreorder any nm_platform_ip_address_cmp_expiry /\
  (ax_lifetime a = 0 -> nm_platform_ip_address_cmp_expiry b a <= 0) /\
  (anchored a -> ax_lifetime b = NM_PLATFORM_LIFETIME_PERMANENT -> nm_platform_ip_address_cmp_expiry a b = -1) /\
  (anchored a -> anchored b ->
   forall now, ax_timestamp a + ax_lifetime a - now < ax_timestamp b + ax_lifetime b - now ->
   nm_platform_ip_address_cmp_expiry a b = -1).
Proof.
  intros Ha Hb. split; [apply cmp_key_preorder|].
  rewrite !(cmp_key (c := nm_platform_ip_address_cmp_expiry)) by done. unfold expiry_key. cbn [kval_cmp]. rewrite !cmp_then_0_r.
  assert (He : forall x t, lifetimes_typed x -> 0 <= t <= G_MAXUINT32 -> expiry x t <= G_MAXINT64).
  { clear. intros x t (? & ? & ?) ?. unfold expiry. repeat case_match; lia. }
  assert (Hl : forall x y s t, x <= s -> y <= t -> NM_CMP_DIRECT x s ;;? NM_CMP_DIRECT y t <= 0).
  { clear. intros x y s t. unfold cmp_then, NM_CMP_DIRECT. intros. repeat (case_match; bools); lia. }
  assert (Hs : forall x y k, x < y -> NM_CMP_DIRECT x y ;;? k = -1).
  { clear. intros x y k. unfold cmp_then, NM_CMP_DIRECT. intros. repeat (case_match; bools); lia. }
  destruct Ha as (Hta & Hla & Hpa) eqn:Ea. destruct Hb as (Htb & Hlb & Hpb) eqn:Eb. split_and!.
  - intros E. assert (Em : forall t, expiry a t = G_MAXINT64).
    { intros t. unfold expiry. rewrite E. by rewrite orb_true_r. }
    rewrite !Em. apply Hl; by apply He.
  - intros (Hn & H0 & Hi) E. apply Hs. unfold expiry at 2. rewrite E. cbn [orb Z.eqb].
    unfold expiry. unfold NM_PLATFORM_LIFETIME_PERMANENT in *. repeat (case_match; bools); lia.
  - intros (Hna & H0a & Hia) (Hnb & H0b & Hib) now Hnow. apply Hs. unfold expiry, NM_PLATFORM_LIFETIME_PERMANENT in *.
    repeat (case_match; bools); lia.
Qed.

Definition sample_ax (timestamp lifetime preferred : Z) : NMPlatformIPAddress := {|
  ax_ifindex := 3; ax_addr_source := 0; ax_timestamp := timestamp; ax_lifetime := lifetime;
  ax_preferred := preferred; ax_n_ifa_flags := 0; ax_plen := 64; ax_external := false |}.

Lemma ip_address_cmp_expiry_spec_witness :
  nm_platform_ip_address_cmp_expiry (sample_ax 1000 600 300) (sample_ax 900 800 100) = -1.
Proof.
  apply (ip_address_cmp_expiry_spec (sample_ax 1000 600 300) (sample_ax 900 800 100)) with (now := 1200);
    repeat split; vm_compute; (reflexivity || discriminate).
Defined.

(** The hash of an IPv6 address is not a function of what the comparison looks
    at: an unset peer address compares as the address itself, but is hashed as it
    is.  So two objects that are equal have different hashes; for IPv4, and for
    IPv6 with the same peer field, equal objects have the same hash. *)
Theorem ip6_address_hash_mismatch `{ByteOrder} :
  (exists a b, nm_platform_ip6_address_cmp a b = 0 /\
     nm_platform_ip6_address_hash_update a [] <> nm_platform_ip6_address_hash_update b []) /\
  (forall a b h, nm_platform_ip6_address_cmp a b = 0 -> a6_peer_address a = a6_peer_address b ->
     nm_platform_ip6_address_hash_update a h = nm_platform_ip6_address_hash_update b h) /\
  (forall a b h, nm_platform_ip4_address_cmp a b = 0 ->
     nm_platform_ip4_address_hash_update a h = nm_platform_ip4_address_hash_update b h).
Proof.
  split_and!.
  - pose (addr := [x20; x01; x0d; xb8] ++ replicate 11 x00 ++ [x01]).
    exists {| a6_ax := sample_ax 0 0 0; a6_address := addr; a6_peer_address := replicate 16 x00 |},
           {| a6_ax := sample_ax 0 0 0; a6_address := addr; a6_peer_address := addr |}.
    split; [reflexivity|]. unfold nm_platform_ip6_address_hash_update, nm_hash_update_vals, nm_hash_update.
    destruct H; vm_compute; discriminate.
  - intros a b h E%cmp_key_zero Hp; [|done..]. unfold ip6_address_key in E. destruct a as [[] ? ?], b as [[] ? ?].
    cbn in Hp. injection E; clear E; intros. key_fields. subst. reflexivity.
  - intros a b h E. by eapply cmp_hash; [apply ip4_address_cmp_key|apply ip4_address_hash_key|done..].
Qed.
