(* ===== verification/PlatformRule.v ===== *)
(** * Platform objects: policy routing rules

    nm_platform_routing_rule_cmp () and nm_platform_routing_rule_hash_update () of
    src/platform/nm-platform.c.  Which attributes identify a rule depends on what
    the running kernel supports, which is a parameter.  A rule of an unknown
    address family is equal to itself only: rules are compared with their
    addresses in memory, and the memory is a map from addresses to rules. *)

From S2P Require Import Bytes CmpOrder IpAddr NMHash PlatformLink.

(** An object and where it is. *)
Record At (A : Type) := mk_at { at_ptr : Z; at_obj : A }.
Arguments mk_at {A}.
Arguments at_ptr {A}.
Arguments at_obj {A}.

Definition stored {A} (heap : Z -> option A) (x : At A) : Prop := heap (at_ptr x) = Some (at_obj x).

Record NMFibRuleUidRange := { uid_start : Z; uid_end : Z }.
Record NMFibRulePortRange := { port_start : Z; port_end : Z }.

(** NMIPAddr src and dst: sixteen bytes, of which IPv4 uses the first four. *)
Record NMPlatformRoutingRule := {
  rr_src : in6_addr; rr_dst : in6_addr; rr_tun_id : Z; rr_table : Z; rr_flags : Z; rr_priority : Z;
  rr_fwmark : Z; rr_fwmask : Z; rr_goto_target : Z; rr_flow : Z;
  rr_suppress_prefixlen_inverse : Z; rr_suppress_ifgroup_inverse : Z;
  rr_uid_range : NMFibRuleUidRange; rr_sport_range : NMFibRulePortRange; rr_dport_range : NMFibRulePortRange;
  rr_iifname : list byte; rr_oifname : list byte;
  rr_addr_family : Z; rr_action : Z; rr_tos : Z; rr_src_len : Z; rr_dst_len : Z; rr_l3mdev : Z;
  rr_protocol : Z; rr_ip_proto : Z; rr_uid_range_has : bool
}.

Inductive NMPlatformRoutingRuleCmpType :=
| NM_PLATFORM_ROUTING_RULE_CMP_TYPE_ID
| NM_PLATFORM_ROUTING_RULE_CMP_TYPE_SEMANTICALLY
| NM_PLATFORM_ROUTING_RULE_CMP_TYPE_FULL.

Inductive NMPlatformKernelSupportType :=
| NM_PLATFORM_KERNEL_SUPPORT_TYPE_EXTENDED_IFA_FLAGS
| NM_PLATFORM_KERNEL_SUPPORT_TYPE_USER_IPV6LL
| NM_PLATFORM_KERNEL_SUPPORT_TYPE_RTA_PREF
| NM_PLATFORM_KERNEL_SUPPORT_TYPE_FRA_L3MDEV
| NM_PLATFORM_KERNEL_SUPPORT_TYPE_FRA_UID_RANGE
| NM_PLATFORM_KERNEL_SUPPORT_TYPE_FRA_PROTOCOL
| NM_PLATFORM_KERNEL_SUPPORT_TYPE_FRA_IP_PROTO.

(** nm_platform_kernel_support_get (): what was detected of the kernel. *)
Class KernelSupport := nm_platform_kernel_support_get : NMPlatformKernelSupportType -> bool.

Definition AF_INET : Z := 2.
Definition AF_INET6 : Z := 10.
Definition FR_ACT_GOTO : Z := 2.
Definition FIB_RULE_UNRESOLVED : Z := 4.
Definition FIB_RULE_IIF_DETACHED : Z := 8.
Definition FIB_RULE_OIF_DETACHED : Z := 0x10.

Definition _ROUTING_RULE_FLAGS_IGNORE : Z :=
  Z.lor FIB_RULE_UNRESOLVED (Z.lor FIB_RULE_IIF_DETACHED FIB_RULE_OIF_DETACHED).

Definition nm_utils_addr_family_to_size (addr_family : Z) : nat := if addr_family =? AF_INET then 4 else 16.

(** NM_IN_SET (addr_family, AF_INET, AF_INET6) *)
Definition af_valid (addr_family : Z) : bool := (addr_family =? AF_INET) || (addr_family =? AF_INET6).

Definition rule_cmp_full (cmp_type : NMPlatformRoutingRuleCmpType) : bool :=
  match cmp_type with NM_PLATFORM_ROUTING_RULE_CMP_TYPE_FULL => true | _ => false end.

Definition rule_flags_mask (cmp_type : NMPlatformRoutingRuleCmpType) : Z :=
  match cmp_type with
  | NM_PLATFORM_ROUTING_RULE_CMP_TYPE_ID => Z.land G_MAXUINT32 (Z.lnot _ROUTING_RULE_FLAGS_IGNORE)
  | _ => G_MAXUINT32
  end.

Definition rule_goto (cmp_type : NMPlatformRoutingRuleCmpType) (obj : NMPlatformRoutingRule) : bool :=
  rule_cmp_full cmp_type
  || match cmp_type with
     | NM_PLATFORM_ROUTING_RULE_CMP_TYPE_SEMANTICALLY => rr_action obj =? FR_ACT_GOTO
     | _ => false
     end.

(** cond ? v : d, and a call under a condition. *)
Definition val_if (g : bool) (v d : Z) : Z := if g then v else d.
Definition hash_if (g : bool) (f : NMHashState -> NMHashState) (h : NMHashState) : NMHashState :=
  if g then f h else h.

Section rule.
Context `{ByteOrder} `{KernelSupport}.

Definition _routing_rule_compare (cmp_type : NMPlatformRoutingRuleCmpType) (t : NMPlatformKernelSupportType) : bool :=
  rule_cmp_full cmp_type || nm_platform_kernel_support_get t.

Definition nm_platform_routing_rule_hash_update
    (cmp_type : NMPlatformRoutingRuleCmpType) (o : At NMPlatformRoutingRule) (h : NMHashState) : NMHashState :=
  let obj := at_obj o in
  if negb (af_valid (rr_addr_family obj)) then nm_hash_update_val (HI 8 (at_ptr o)) h
  else
    let cmp_full := rule_cmp_full cmp_type in
    let compare := _routing_rule_compare cmp_type in
    let h := nm_hash_update_vals
      [HI 1 (rr_addr_family obj); HI 8 (rr_tun_id obj); HI 4 (rr_table obj);
       HI 4 (Z.land (rr_flags obj) (rule_flags_mask cmp_type)); HI 4 (rr_priority obj);
       HI 4 (rr_fwmark obj); HI 4 (rr_fwmask obj);
       HI 4 (val_if (rule_goto cmp_type obj) (rr_goto_target obj) 0);
       HI 4 (val_if (cmp_full || (rr_addr_family obj =? AF_INET)) (rr_flow obj) 0);
       NM_HASH_COMBINE_BOOLS 1 [compare NM_PLATFORM_KERNEL_SUPPORT_TYPE_FRA_UID_RANGE && rr_uid_range_has obj];
       HI 4 (rr_suppress_prefixlen_inverse obj); HI 4 (rr_suppress_ifgroup_inverse obj);
       HI 4 (val_if (compare NM_PLATFORM_KERNEL_SUPPORT_TYPE_FRA_L3MDEV)
               (if cmp_full then rr_l3mdev obj else Z.b2z (negb (rr_l3mdev obj =? 0))) 65535);
       HI 1 (rr_action obj); HI 1 (rr_tos obj); HI 1 (rr_src_len obj); HI 1 (rr_dst_len obj);
       HI 4 (val_if (compare NM_PLATFORM_KERNEL_SUPPORT_TYPE_FRA_PROTOCOL) (rr_protocol obj) 65535)] h in
    let addr_size := nm_utils_addr_family_to_size (rr_addr_family obj) in
    let h := hash_if (cmp_full || (0 <? rr_src_len obj)) (nm_hash_update (take addr_size (rr_src obj))) h in
    let h := hash_if (cmp_full || (0 <? rr_dst_len obj)) (nm_hash_update (take addr_size (rr_dst obj))) h in
    let h := hash_if (compare NM_PLATFORM_KERNEL_SUPPORT_TYPE_FRA_UID_RANGE)
      (hash_if (cmp_full || rr_uid_range_has obj)
        (nm_hash_update_vals [HI 4 (uid_start (rr_uid_range obj)); HI 4 (uid_end (rr_uid_range obj))])) h in
    let h := hash_if (compare NM_PLATFORM_KERNEL_SUPPORT_TYPE_FRA_IP_PROTO)
      (fun h =>
        let h := nm_hash_update_val (HI 1 (rr_ip_proto obj)) h in
        let h := nm_hash_update_vals [HI 2 (port_start (rr_sport_range obj)); HI 2 (port_end (rr_sport_range obj))] h in
        nm_hash_update_vals [HI 2 (port_start (rr_dport_range obj)); HI 2 (port_end (rr_dport_range obj))] h) h in
    let h := nm_hash_update_str (rr_iifname obj) h in
    nm_hash_update_str (rr_oifname obj) h.

Definition nm_platform_routing_rule_cmp
    (cmp_type : NMPlatformRoutingRuleCmpType) (x y : At NMPlatformRoutingRule) : Z :=
  if at_ptr x =? at_ptr y then 0
  else
    let a := at_obj x in
    let b := at_obj y in
    let cmp_full := rule_cmp_full cmp_type in
    let compare := _routing_rule_compare cmp_type in
    let valid := af_valid (rr_addr_family a) in
    NM_CMP_BOOL valid (af_valid (rr_addr_family b)) ;;?
    if negb valid then NM_CMP_DIRECT (at_ptr x) (at_ptr y)
    else
      NM_CMP_FIELD a b rr_addr_family ;;?
      NM_CMP_FIELD a b rr_action ;;?
      NM_CMP_FIELD a b rr_priority ;;?
      NM_CMP_FIELD a b rr_tun_id ;;?
      cmp_if (compare NM_PLATFORM_KERNEL_SUPPORT_TYPE_FRA_L3MDEV)
        (if cmp_full then NM_CMP_FIELD a b rr_l3mdev
         else NM_CMP_BOOL (negb (rr_l3mdev a =? 0)) (negb (rr_l3mdev b =? 0))) ;;?
      NM_CMP_FIELD a b rr_table ;;?
      NM_CMP_DIRECT (Z.land (rr_flags a) (rule_flags_mask cmp_type))
                    (Z.land (rr_flags b) (rule_flags_mask cmp_type)) ;;?
      NM_CMP_FIELD a b rr_fwmark ;;?
      NM_CMP_FIELD a b rr_fwmask ;;?
      cmp_if (rule_goto cmp_type a) (NM_CMP_FIELD a b rr_goto_target) ;;?
      NM_CMP_FIELD a b rr_suppress_prefixlen_inverse ;;?
      NM_CMP_FIELD a b rr_suppress_ifgroup_inverse ;;?
      NM_CMP_FIELD a b rr_tos ;;?
      cmp_if (cmp_full || (rr_addr_family a =? AF_INET)) (NM_CMP_FIELD a b rr_flow) ;;?
      cmp_if (compare NM_PLATFORM_KERNEL_SUPPORT_TYPE_FRA_PROTOCOL) (NM_CMP_FIELD a b rr_protocol) ;;?
      cmp_if (compare NM_PLATFORM_KERNEL_SUPPORT_TYPE_FRA_IP_PROTO)
        (NM_CMP_FIELD a b rr_ip_proto ;;?
         NM_CMP_FIELD (rr_sport_range a) (rr_sport_range b) port_start ;;?
         NM_CMP_FIELD (rr_sport_range a) (rr_sport_range b) port_end ;;?
         NM_CMP_FIELD (rr_dport_range a) (rr_dport_range b) port_start ;;?
         NM_CMP_FIELD (rr_dport_range a) (rr_dport_range b) port_end) ;;?
      let addr_size := nm_utils_addr_family_to_size (rr_addr_family a) in
      NM_CMP_FIELD a b rr_src_len ;;?
      cmp_if (cmp_full || (0 <? rr_src_len a)) (NM_CMP_FIELD_MEMCMP_LEN a b rr_src addr_size) ;;?
      NM_CMP_FIELD a b rr_dst_len ;;?
      cmp_if (cmp_full || (0 <? rr_dst_len a)) (NM_CMP_FIELD_MEMCMP_LEN a b rr_dst addr_size) ;;?
      cmp_if (compare NM_PLATFORM_KERNEL_SUPPORT_TYPE_FRA_UID_RANGE)
        (NM_CMP_FIELD_UNSAFE a b rr_uid_range_has ;;?
         cmp_if (cmp_full || rr_uid_range_has a)
           (NM_CMP_FIELD (rr_uid_range a) (rr_uid_range b) uid_start ;;?
            NM_CMP_FIELD (rr_uid_range a) (rr_uid_range b) uid_end)) ;;?
      NM_CMP_FIELD_STR a b rr_iifname ;;?
      NM_CMP_FIELD_STR a b rr_oifname ;;?
      0.

(** ** Sort key *)

(** Fields that are compared under a condition. *)
Definition key_if (g : bool) (l : list kval) : kval := KL (if g then l else []).

Definition routing_rule_key (cmp_type : NMPlatformRoutingRuleCmpType) (x : At NMPlatformRoutingRule) : kval :=
  let a := at_obj x in
  let cmp_full := rule_cmp_full cmp_type in
  let compare := _routing_rule_compare cmp_type in
  let addr_size := nm_utils_addr_family_to_size (rr_addr_family a) in
  KL [KBool (af_valid (rr_addr_family a));
      if negb (af_valid (rr_addr_family a)) then KZ (at_ptr x)
      else KL
        [KZ (rr_addr_family a); KZ (rr_action a); KZ (rr_priority a); KZ (rr_tun_id a);
         key_if (compare NM_PLATFORM_KERNEL_SUPPORT_TYPE_FRA_L3MDEV)
           [if cmp_full then KZ (rr_l3mdev a) else KBool (negb (rr_l3mdev a =? 0))];
         KZ (rr_table a); KZ (Z.land (rr_flags a) (rule_flags_mask cmp_type));
         KZ (rr_fwmark a); KZ (rr_fwmask a);
         key_if (rule_goto cmp_type a) [KZ (rr_goto_target a)];
         KZ (rr_suppress_prefixlen_inverse a); KZ (rr_suppress_ifgroup_inverse a); KZ (rr_tos a);
         key_if (cmp_full || (rr_addr_family a =? AF_INET)) [KZ (rr_flow a)];
         key_if (compare NM_PLATFORM_KERNEL_SUPPORT_TYPE_FRA_PROTOCOL) [KZ (rr_protocol a)];
         key_if (compare NM_PLATFORM_KERNEL_SUPPORT_TYPE_FRA_IP_PROTO)
           [KZ (rr_ip_proto a); KZ (port_start (rr_sport_range a)); KZ (port_end (rr_sport_range a));
            KZ (port_start (rr_dport_range a)); KZ (port_end (rr_dport_range a))];
         KZ (rr_src_len a); key_if (cmp_full || (0 <? rr_src_len a)) [KB (take addr_size (rr_src a))];
         KZ (rr_dst_len a); key_if (cmp_full || (0 <? rr_dst_len a)) [KB (take addr_size (rr_dst a))];
         key_if (compare NM_PLATFORM_KERNEL_SUPPORT_TYPE_FRA_UID_RANGE)
           [KBool (rr_uid_range_has a);
            key_if (cmp_full || rr_uid_range_has a)
              [KZ (uid_start (rr_uid_range a)); KZ (uid_end (rr_uid_range a))]];
         KB (rr_iifname a); KB (rr_oifname a)]].
End rule.

(** A group of steps under a condition that both objects agree on. *)
Lemma key_if_step g g' c l m :
  g = g' -> (g = true -> c = kval_cmp (KL l) (KL m)) -> cmp_if g c = kval_cmp (key_if g l) (key_if g' m).
Proof. intros <- H. destruct g; [by apply H|done]. Qed.

Section rule_key.
Context `{ByteOrder} `{KernelSupport} (heap : Z -> option NMPlatformRoutingRule).

(** A group of steps under a condition, against the key of the group. *)
Ltac cmp_group :=
  erewrite key_if_step;
  [cmp_step
  |unfold rule_goto; repeat match goal with H : _ = _ |- _ => rewrite H; clear H end; reflexivity
  |intros _; cbn -[kval_cmp NM_CMP_DIRECT NM_CMP_BOOL cmp_then memcmp];
   match goal with |- ?l = _ => rewrite <- (cmp_then_0_r l) end; rewrite ?cmp_then_assoc; try reflexivity].

#[export] Instance routing_rule_cmp_key cmp_type :
  CmpKey (stored heap) (nm_platform_routing_rule_cmp cmp_type) (routing_rule_key cmp_type).
Proof.
  intros x y Hx Hy. unfold nm_platform_routing_rule_cmp. destruct (Z.eqb_spec (at_ptr x) (at_ptr y)) as [E|_].
  - unfold stored in *. destruct x as [p a], y as [q b]. cbn in Hx, Hy, E. subst q. assert (a = b) as -> by congruence.
    symmetry. apply (cmp_refl kval_cmp).
  - unfold routing_rule_key. rewrite kval_cmp_KL. cbn [lex_cmp]. apply cmp_then_ext. intros Hv%bool_tie.
    rewrite (cmp_then_0_r (kval_cmp _ _)), Hv. destruct (af_valid (rr_addr_family (at_obj y))); cbn [negb]; [|done].
    rewrite kval_cmp_KL. cbn [lex_cmp]. generalize (at_obj x), (at_obj y). clear. intros a b.
    cmp_step. rewrite Htie. do 3 cmp_step. cmp_group; [|by destruct (rule_cmp_full cmp_type)].
    do 4 cmp_step. cmp_group. do 3 cmp_step. do 3 cmp_group. cmp_step. cmp_group. cmp_step. cmp_group.
    cmp_group; [reflexivity|]. rewrite !cmp_then_0_r. cbn [kval_cmp]. cmp_step.
    rewrite cmp_then_0_r. apply key_if_step; [by rewrite Htie19|]. intros _. cbn [kval_cmp]. by rewrite cmp_then_0_r.
Qed.
End rule_key.

(** The lists of a group that is hashed under its condition. *)
Lemma val_if_key (g : bool) x y d :
  (if g then [KZ x] else [] : list kval) = (if g then [KZ y] else []) -> val_if g x d = val_if g y d.
Proof. destruct g; [by intros [= ->]|done]. Qed.

Lemma hash_if_key (g : bool) (l m : list kval) f f' h h' :
  (if g then l else []) = (if g then m else []) -> (l = m -> forall h, f h = f' h) -> h = h' ->
  hash_if g f h = hash_if g f' h'.
Proof. intros E Hf <-. destruct g; cbn; auto. Qed.

Section rule_hash.
Context `{ByteOrder} `{KernelSupport} (heap : Z -> option NMPlatformRoutingRule).

#[export] Instance routing_rule_hash_key cmp_type :
  HashKey (stored heap) (nm_platform_routing_rule_hash_update cmp_type) (routing_rule_key cmp_type).
Proof.
  intros x y h Hx Hy E. unfold routing_rule_key, key_if in E. unfold nm_platform_routing_rule_hash_update.
  injection E; clear E; intros E Hv. apply Z.b2z_inj in Hv. rewrite Hv in *.
  destruct (af_valid (rr_addr_family (at_obj y))); cbn [negb] in *; [|congruence].
  clear Hv Hx Hy. revert E. generalize (at_obj x), (at_obj y). clear. intros a b E.
  injection E; clear E; intros.
  assert (Hg : rule_goto cmp_type a = rule_goto cmp_type b) by (unfold rule_goto; same_fields; reflexivity).
  rewrite Hg in *. clear Hg. same_fields.
  do 2 f_equal. eapply hash_if_key; [eassumption|intros; key_fields; congruence|].
  eapply hash_if_key; [eassumption| |].
  { intros E h'. injection E; clear E; intros E Hh. apply Z.b2z_inj in Hh. rewrite Hh in *.
    eapply hash_if_key; [eassumption|intros; key_fields; congruence|done]. }
  do 2 (eapply hash_if_key; [eassumption|intros; key_fields; congruence|]).
  rewrite (val_if_key (rule_goto cmp_type b) (rr_goto_target a) (rr_goto_target b)) by done.
  rewrite (val_if_key (_ || _) (rr_flow a) (rr_flow b)) by done.
  rewrite (val_if_key _ (rr_protocol a) (rr_protocol b)) by done.
  rewrite (val_if_key _ (if rule_cmp_full cmp_type then rr_l3mdev a else _)
                        (if rule_cmp_full cmp_type then rr_l3mdev b else Z.b2z (negb (rr_l3mdev b =? 0))))
    by by destruct (rule_cmp_full cmp_type).
  match goal with |- context [?g && rr_uid_range_has a] =>
    assert (Hu : g && rr_uid_range_has a = g && rr_uid_range_has b) by (destruct g; [key_fields; congruence|done]) end.
  rewrite Hu. congruence.
Qed.
End rule_hash.

(** ** The three comparisons *)

Section rule_chain.
Context `{ByteOrder} `{KernelSupport}.

Lemma rule_full_semantically x y :
  routing_rule_key NM_PLATFORM_ROUTING_RULE_CMP_TYPE_FULL x = routing_rule_key NM_PLATFORM_ROUTING_RULE_CMP_TYPE_FULL y ->
  routing_rule_key NM_PLATFORM_ROUTING_RULE_CMP_TYPE_SEMANTICALLY x
  = routing_rule_key NM_PLATFORM_ROUTING_RULE_CMP_TYPE_SEMANTICALLY y.
Proof.
  unfold routing_rule_key. intros E. injection E; clear E; intros E Hv. apply Z.b2z_inj in Hv. rewrite Hv in *.
  destruct (af_valid (rr_addr_family (at_obj y))); cbn [negb] in *; [|congruence].
  clear Hv. revert E. generalize (at_obj x), (at_obj y). clear. intros a b E.
  unfold key_if in E. cbn [rule_cmp_full orb _routing_rule_compare rule_goto rule_flags_mask] in E.
  injection E; clear E; intros. unfold key_if, rule_goto.
  cbn [rule_cmp_full orb rule_flags_mask]. same_fields. congruence.
Qed.

Lemma flags_mask_id f g :
  Z.land f (rule_flags_mask NM_PLATFORM_ROUTING_RULE_CMP_TYPE_SEMANTICALLY)
  = Z.land g (rule_flags_mask NM_PLATFORM_ROUTING_RULE_CMP_TYPE_SEMANTICALLY) ->
  Z.land f (rule_flags_mask NM_PLATFORM_ROUTING_RULE_CMP_TYPE_ID)
  = Z.land g (rule_flags_mask NM_PLATFORM_ROUTING_RULE_CMP_TYPE_ID).
Proof. cbn [rule_flags_mask]. intros E. by rewrite !Z.land_assoc, E. Qed.

Lemma rule_semantically_id x y :
  routing_rule_key NM_PLATFORM_ROUTING_RULE_CMP_TYPE_SEMANTICALLY x
  = routing_rule_key NM_PLATFORM_ROUTING_RULE_CMP_TYPE_SEMANTICALLY y ->
  routing_rule_key NM_PLATFORM_ROUTING_RULE_CMP_TYPE_ID x = routing_rule_key NM_PLATFORM_ROUTING_RULE_CMP_TYPE_ID y.
Proof.
  unfold routing_rule_key. intros E. injection E; clear E; intros E Hv. apply Z.b2z_inj in Hv. rewrite Hv in *.
  destruct (af_valid (rr_addr_family (at_obj y))); cbn [negb] in *; [|congruence].
  clear Hv. revert E. generalize (at_obj x), (at_obj y). clear. intros a b E.
  unfold key_if in *. injection E; clear E; intros.
  assert (Z.land (rr_flags a) (rule_flags_mask NM_PLATFORM_ROUTING_RULE_CMP_TYPE_ID)
          = Z.land (rr_flags b) (rule_flags_mask NM_PLATFORM_ROUTING_RULE_CMP_TYPE_ID)) by by apply flags_mask_id.
  assert (rule_goto NM_PLATFORM_ROUTING_RULE_CMP_TYPE_ID a = false /\ rule_goto NM_PLATFORM_ROUTING_RULE_CMP_TYPE_ID b = false)
    as [-> ->] by done.
  unfold _routing_rule_compare in *. cbn [rule_cmp_full orb] in *. congruence.
Qed.

(** C37: Routing rules have three comparisons, each a total preorder on the rules
    in memory and each zero only for rules with the same hash; rules equal in
    full are semantically equal, and these have the same identity.  This holds
    for whatever the kernel supports; rules of an unknown address family are
    equal only if they are one object. *)
Theorem routing_rule_cmp_spec (heap : Z -> option NMPlatformRoutingRule) (x y : At NMPlatformRoutingRule) :
  stored heap x -> stored heap y ->
  (forall cmp_type, CmpPreorder (stored heap) (nm_platform_routing_rule_cmp cmp_type)) /\
  (forall cmp_type h, nm_platform_routing_rule_cmp cmp_type x y = 0 ->
     nm_platform_routing_rule_hash_update cmp_type x h = nm_platform_routing_rule_hash_update cmp_type y h) /\
  (nm_platform_routing_rule_cmp NM_PLATFORM_ROUTING_RULE_CMP_TYPE_FULL x y = 0 ->
   nm_platform_routing_rule_cmp NM_PLATFORM_ROUTING_RULE_CMP_TYPE_SEMANTICALLY x y = 0) /\
  (nm_platform_routing_rule_cmp NM_PLATFORM_ROUTING_RULE_CMP_TYPE_SEMANTICALLY x y = 0 ->
   nm_platform_routing_rule_cmp NM_PLATFORM_ROUTING_RULE_CMP_TYPE_ID x y = 0) /\
  (af_valid (rr_addr_family (at_obj x)) = false ->
   forall cmp_type, nm_platform_routing_rule_cmp cmp_type x y = 0 -> at_ptr x = at_ptr y).
Proof.
  intros Hx Hy. split_and!.
  - intros cmp_type. eapply cmp_key_preorder.
  - intros cmp_type h Hc. by eapply cmp_hash; [apply (routing_rule_cmp_key heap)|apply (routing_rule_hash_key heap)|..].
  - rewrite !(cmp_key_zero (D := stored heap) x y) by done. apply rule_full_semantically.
  - rewrite !(cmp_key_zero (D := stored heap) x y) by done. apply rule_semantically_id.
  - intros Hv cmp_type. rewrite (cmp_key_zero (D := stored heap) x y) by done. unfold routing_rule_key. rewrite Hv. cbn [negb].
    intros E. injection E as E1 E2. change 0 with (Z.b2z false) in E1. apply Z.b2z_inj in E1. rewrite <- E1 in E2.
    by injection E2.
Qed.
End rule_chain.

(** ** Samples *)

Definition sample_rule (priority fwmark protocol : Z) : NMPlatformRoutingRule := {|
  rr_src := replicate 16 x00; rr_dst := replicate 16 x00; rr_tun_id := 0; rr_table := 254; rr_flags := 0;
  rr_priority := priority; rr_fwmark := fwmark; rr_fwmask := 0; rr_goto_target := 0; rr_flow := 0;
  rr_suppress_prefixlen_inverse := 0; rr_suppress_ifgroup_inverse := 0;
  rr_uid_range := {| uid_start := 0; uid_end := 0 |};
  rr_sport_range := {| port_start := 0; port_end := 0 |}; rr_dport_range := {| port_start := 0; port_end := 0 |};
  rr_iifname := []; rr_oifname := []; rr_addr_family := AF_INET; rr_action := 1; rr_tos := 0;
  rr_src_len := 0; rr_dst_len := 0; rr_l3mdev := 0; rr_protocol := protocol; rr_ip_proto := 0;
  rr_uid_range_has := false |}.

(** A kernel without FRA_PROTOCOL. *)
Definition old_kernel : KernelSupport :=
  fun t => match t with NM_PLATFORM_KERNEL_SUPPORT_TYPE_FRA_PROTOCOL => false | _ => true end.

Definition sample_rules : Z -> option NMPlatformRoutingRule :=
  fun p => if p =? 16 then Some (sample_rule 100 7 2) else if p =? 320 then Some (sample_rule 100 7 4) else None.

Lemma routing_rule_cmp_spec_witness :
  let _ : ByteOrder := false in
  let _ := old_kernel in
  nm_platform_routing_rule_cmp NM_PLATFORM_ROUTING_RULE_CMP_TYPE_ID
    (mk_at 16 (sample_rule 100 7 2)) (mk_at 320 (sample_rule 100 7 4)) = 0.
Proof.
  intros ? ?.
  apply (routing_rule_cmp_spec sample_rules (mk_at 16 (sample_rule 100 7 2)) (mk_at 320 (sample_rule 100 7 4)));
    vm_compute; reflexivity.
Defined.
