(* ===== verification/NmpObject.v ===== *)
(** * NMPObject: objects of the platform cache

    src/platform/nmp-object.c: how objects are compared in full and by identity,
    hashed, and assigned to the partitions of the indexes of the cache.  An
    object is a class with its data, here an inductive type with one constructor
    per class; the data of a link type, which a link refers to, is a type of its
    own.  Objects that have no identity of their own, and rules of an unknown
    address family, are compared by their address in memory. *)

From S2P Require Import Bytes CmpOrder IpAddr NMHash PlatformLink PlatformLnk PlatformIp PlatformRule.

(** ** Socket addresses *)

(** NMSockAddrUnion, with the families that occur. *)
Inductive NMSockAddrUnion :=
| SA_UNSPEC
| SA_IN (s_addr : in_addr_t) (port : Z)
| SA_IN6 (sin6_addr : in6_addr) (port scope_id flowinfo : Z).

Definition sa_family (a : NMSockAddrUnion) : Z :=
  match a with SA_UNSPEC => 0 | SA_IN _ _ => AF_INET | SA_IN6 _ _ _ _ => AF_INET6 end.

(** ** WireGuard peers *)

(** The union of the two kinds of addresses is read by family. *)
Record NMPWireGuardAllowedIP := {
  aip_addr4 : in_addr_t; aip_addr6 : in6_addr; aip_family : Z; aip_mask : Z
}.

Record NMPWireGuardPeer := {
  wp_endpoint : NMSockAddrUnion; wp_tv_sec : Z; wp_tv_nsec : Z; wp_rx_bytes : Z; wp_tx_bytes : Z;
  wp_allowed_ips : list NMPWireGuardAllowedIP; wp_persistent_keepalive_interval : Z;
  wp_public_key : list byte; wp_preshared_key : list byte
}.

Record NMVlanQosMapping := { qos_from : Z; qos_to : Z }.

Section parts.
Context `{ByteOrder}.

Definition nm_sock_addr_union_cmp (a b : option NMSockAddrUnion) : Z :=
  cmp_opt (fun a b =>
    NM_CMP_FIELD a b sa_family ;;?
    match a, b with
    | SA_IN addr_a port_a, SA_IN addr_b port_b =>
        NM_CMP_DIRECT (ntohl addr_a) (ntohl addr_b) ;;?
        NM_CMP_DIRECT (htons port_a) (htons port_b) ;;? 0
    | SA_IN6 addr_a port_a scope_a flow_a, SA_IN6 addr_b port_b scope_b flow_b =>
        bytes_cmp addr_a addr_b ;;?
        NM_CMP_DIRECT (htons port_a) (htons port_b) ;;?
        NM_CMP_DIRECT scope_a scope_b ;;?
        NM_CMP_DIRECT flow_a flow_b ;;? 0
    | _, _ => 0
    end) a b.

Definition nm_sock_addr_union_hash_update (a : option NMSockAddrUnion) (h : NMHashState) : NMHashState :=
  match a with
  | None => nm_hash_update_val (HI 4 1241364739) h
  | Some (SA_IN s_addr port) => nm_hash_update_vals [HI 2 AF_INET; HI 4 s_addr; HI 2 port] h
  | Some (SA_IN6 addr port scope flow) =>
      nm_hash_update_vals [HI 2 AF_INET6; HB addr; HI 2 port; HI 4 scope; HI 4 flow] h
  | Some SA_UNSPEC => nm_hash_update_val (HI 2 (sa_family SA_UNSPEC)) h
  end.

Definition _vlan_xgress_qos_mappings_hash_update (map : list NMVlanQosMapping) (h : NMHashState) : NMHashState :=
  let h := nm_hash_update_val (HI 4 (Z.of_nat (length map))) h in
  nm_hash_update (concat (List.map (fun m => mem_of (HI 4 (qos_from m)) ++ mem_of (HI 4 (qos_to m))) map)) h.

(** The caller passes the length of the first mapping, which both have. *)
Definition _vlan_xgress_qos_mappings_cmp (map1 map2 : list NMVlanQosMapping) : Z :=
  cmp_list (fun a b => NM_CMP_FIELD a b qos_from ;;? NM_CMP_FIELD a b qos_to ;;? 0) map1 map2.

Definition _wireguard_allowed_ip_hash_update (h : NMHashState) (ip : NMPWireGuardAllowedIP) : NMHashState :=
  let h := nm_hash_update_vals [HI 1 (aip_family ip); HI 1 (aip_mask ip)] h in
  if aip_family ip =? AF_INET then nm_hash_update_val (HI 4 (aip_addr4 ip)) h
  else if aip_family ip =? AF_INET6 then nm_hash_update_val (HB (aip_addr6 ip)) h
  else h.

Definition _wireguard_allowed_ip_cmp (a b : NMPWireGuardAllowedIP) : Z :=
  NM_CMP_FIELD a b aip_family ;;?
  NM_CMP_FIELD a b aip_mask ;;?
  (if aip_family a =? AF_INET then NM_CMP_FIELD a b aip_addr4
   else cmp_if (aip_family a =? AF_INET6) (NM_CMP_FIELD_MEMCMP a b aip_addr6)) ;;?
  0.

Definition _wireguard_peer_hash_update (h : NMHashState) (peer : NMPWireGuardPeer) : NMHashState :=
  let h := nm_hash_update (wp_public_key peer) h in
  let h := nm_hash_update (wp_preshared_key peer) h in
  let h := nm_hash_update_vals
    [HI 2 (wp_persistent_keepalive_interval peer); HI 4 (Z.of_nat (length (wp_allowed_ips peer)));
     HI 8 (wp_rx_bytes peer); HI 8 (wp_tx_bytes peer); HI 8 (wp_tv_sec peer); HI 8 (wp_tv_nsec peer)] h in
  let h := nm_sock_addr_union_hash_update (Some (wp_endpoint peer)) h in
  fold_left _wireguard_allowed_ip_hash_update (wp_allowed_ips peer) h.

Definition _wireguard_peer_cmp (a b : NMPWireGuardPeer) : Z :=
  NM_CMP_FIELD a b wp_tv_sec ;;?
  NM_CMP_FIELD a b wp_tv_nsec ;;?
  NM_CMP_FIELD a b wp_rx_bytes ;;?
  NM_CMP_FIELD a b wp_tx_bytes ;;?
  NM_CMP_DIRECT (Z.of_nat (length (wp_allowed_ips a))) (Z.of_nat (length (wp_allowed_ips b))) ;;?
  NM_CMP_FIELD a b wp_persistent_keepalive_interval ;;?
  NM_CMP_FIELD (wp_endpoint a) (wp_endpoint b) sa_family ;;?
  NM_CMP_FIELD_MEMCMP a b wp_public_key ;;?
  NM_CMP_FIELD_MEMCMP a b wp_preshared_key ;;?
  nm_sock_addr_union_cmp (Some (wp_endpoint a)) (Some (wp_endpoint b)) ;;?
  cmp_list _wireguard_allowed_ip_cmp (wp_allowed_ips a) (wp_allowed_ips b) ;;?
  0.
End parts.

(** ** Their sort keys *)

Definition sock_addr_ok (a : NMSockAddrUnion) : Prop :=
  match a with
  | SA_UNSPEC => True
  | SA_IN addr port => in4_ok addr /\ 0 <= port < 65536
  | SA_IN6 _ port _ _ => 0 <= port < 65536
  end.

Definition peer_ok (p : NMPWireGuardPeer) : Prop := sock_addr_ok (wp_endpoint p).

Section part_keys.
Context `{ByteOrder}.

Definition sock_addr_key (a : NMSockAddrUnion) : kval :=
  KL [KZ (sa_family a);
      KL match a with
         | SA_UNSPEC => []
         | SA_IN addr port => [KZ (ntohl addr); KZ (htons port)]
         | SA_IN6 addr port scope flow => [KB addr; KZ (htons port); KZ scope; KZ flow]
         end].

Definition qos_mapping_key (m : NMVlanQosMapping) : kval := KL [KZ (qos_from m); KZ (qos_to m)].

Definition allowed_ip_key (a : NMPWireGuardAllowedIP) : kval :=
  KL [KZ (aip_family a); KZ (aip_mask a);
      KL (if aip_family a =? AF_INET then [KZ (aip_addr4 a)]
          else if aip_family a =? AF_INET6 then [KB (aip_addr6 a)] else [])].

Definition peer_key (a : NMPWireGuardPeer) : kval :=
  KL [KZ (wp_tv_sec a); KZ (wp_tv_nsec a); KZ (wp_rx_bytes a); KZ (wp_tx_bytes a);
      KZ (Z.of_nat (length (wp_allowed_ips a))); KZ (wp_persistent_keepalive_interval a);
      KZ (sa_family (wp_endpoint a)); KB (wp_public_key a); KB (wp_preshared_key a);
      sock_addr_key (wp_endpoint a); KL (map allowed_ip_key (wp_allowed_ips a))].

#[export] Instance sock_addr_cmp_key :
  CmpKey any (fun a b => nm_sock_addr_union_cmp (Some a) (Some b)) sock_addr_key.
Proof.
  intros a b _ _. unfold nm_sock_addr_union_cmp, sock_addr_key. cbn [cmp_opt].
  rewrite kval_cmp_KL. cbn [lex_cmp]. rewrite cmp_then_0_r. apply cmp_then_ext. intros H0%direct_tie.
  destruct a, b; done.
Qed.

#[export] Instance qos_cmp_key :
  CmpKey any (fun a b => NM_CMP_FIELD a b qos_from ;;? NM_CMP_FIELD a b qos_to ;;? 0) qos_mapping_key.
Proof. intros a b _ _. reflexivity. Qed.

#[export] Instance allowed_ip_cmp_key : CmpKey any _wireguard_allowed_ip_cmp allowed_ip_key.
Proof.
  intros a b _ _. unfold _wireguard_allowed_ip_cmp, allowed_ip_key. rewrite kval_cmp_KL. cbn [lex_cmp].
  do 2 cmp_step. rewrite !cmp_then_0_r, Htie.
  destruct (aip_family b =? AF_INET); [cbn; by rewrite cmp_then_0_r|].
  destruct (aip_family b =? AF_INET6); [cbn; by rewrite cmp_then_0_r|done].
Qed.

Lemma Forall_any {A} (l : list A) : Forall any l.
Proof. by apply Forall_true. Qed.

#[export] Instance peer_cmp_key : CmpKey any _wireguard_peer_cmp peer_key.
Proof.
  intros a b _ _. unfold _wireguard_peer_cmp, peer_key. rewrite kval_cmp_KL. cbn [lex_cmp].
  do 9 cmp_step.
  rewrite (cmp_key (c := fun a b => nm_sock_addr_union_cmp (Some a) (Some b))) by done. cmp_step.
  rewrite (cmp_list_key (key := allowed_ip_key)) by (apply Forall_any || lia). reflexivity.
Qed.

Lemma bswap16_eq x : 0 <= x < 65536 -> bswap16 x = (x mod 256) * 256 + x / 256.
Proof.
  intros Hx. unfold bswap16. change 0xFF with (Z.ones 8). rewrite !Z.land_ones by lia.
  rewrite Z.shiftl_mul_pow2, Z.shiftr_div_pow2 by lia. change (2 ^ 8) with 256.
  rewrite (Z.mod_small (x / 256)) by (split; [apply Z.div_pos; lia|apply Z.div_lt_upper_bound; lia]).
  set (a := x mod 256). set (b := x / 256).
  assert (Hl : Z.land (a * 256) b = 0).
  { change 256 with (2 ^ 8). apply Z.bits_inj'. intros n Hn. rewrite Z.land_spec, Z.bits_0, Z.mul_pow2_bits by lia.
    destruct (decide (n < 8)); [by rewrite Z.testbit_neg_r by lia|]. apply andb_false_iff. right.
    apply (Z.bits_above_log2 b n); subst b; [apply Z.div_pos; lia|].
    destruct (decide (x / 256 = 0)) as [->|]; [cbn; lia|]. apply Z.log2_lt_pow2; [pose proof (Z.div_pos x 256); lia|].
    apply Z.div_lt_upper_bound; [lia|]. pose proof (Z.pow_le_mono_r 2 8 n). lia. }
  pose proof (Z.add_lor_land (a * 256) b). lia.
Qed.

(** Swapping the bytes of a port twice. *)
Lemma bswap16_invol x : 0 <= x < 65536 -> bswap16 (bswap16 x) = x.
Proof.
  intros Hx. assert (Hd := Z.div_mod x 256). assert (Hm := Z.mod_pos_bound x 256).
  rewrite (bswap16_eq x), bswap16_eq by lia.
  rewrite (Z.add_comm (x mod 256 * 256)), Z.mod_add, Z.div_add by lia. rewrite (Z.mod_small (x / 256)), (Z.div_small (x / 256)) by lia. lia.
Qed.

Lemma htons_inj x y : 0 <= x < 65536 -> 0 <= y < 65536 -> htons x = htons y -> x = y.
Proof.
  unfold htons. destruct big_endian; [done|]. intros Hx Hy E.
  by rewrite <- (bswap16_invol x), <- (bswap16_invol y), E.
Qed.

#[export] Instance sock_addr_hash_key :
  HashKey sock_addr_ok (fun a => nm_sock_addr_union_hash_update (Some a)) sock_addr_key.
Proof.
  intros a b h Ha Hb E. destruct a as [|a p|a p s f], b as [|b q|b q t g]; try discriminate E; [done|..];
    unfold sock_addr_key in E; key_fields; cbn [nm_sock_addr_union_hash_update].
  - destruct Ha as [Ha Hp], Hb as [Hb Hq].
    assert (a = b) as -> by by apply htonl_injective. by assert (p = q) as -> by by apply htons_inj.
  - assert (p = q) as -> by by apply htons_inj. congruence.
Qed.

#[export] Instance allowed_ip_hash_key :
  HashKey any (fun ip h => _wireguard_allowed_ip_hash_update h ip) allowed_ip_key.
Proof.
  intros a b h _ _ E. unfold allowed_ip_key in E. unfold _wireguard_allowed_ip_hash_update. same_fields.
  destruct (aip_family b =? AF_INET); [key_fields; congruence|].
  destruct (aip_family b =? AF_INET6); key_fields; congruence.
Qed.

#[export] Instance peer_hash_key : HashKey peer_ok (fun p h => _wireguard_peer_hash_update h p) peer_key.
Proof.
  intros a b h Ha Hb E. unfold peer_key in E. injection E; clear E; intros Hips Hsa1 Hsa2. intros.
  assert (Hsa : sock_addr_key (wp_endpoint a) = sock_addr_key (wp_endpoint b)) by (unfold sock_addr_key; congruence).
  assert (Hs : forall h, nm_sock_addr_union_hash_update (Some (wp_endpoint a)) h
                 = nm_sock_addr_union_hash_update (Some (wp_endpoint b)) h).
  { intros h'. exact (sock_addr_hash_key _ _ h' Ha Hb Hsa). }
  assert (Hi : forall h, fold_left _wireguard_allowed_ip_hash_update (wp_allowed_ips a) h
                 = fold_left _wireguard_allowed_ip_hash_update (wp_allowed_ips b) h).
  { intros h'. apply (fold_hash_eq any (fun ip h => _wireguard_allowed_ip_hash_update h ip) allowed_ip_key);
      (apply Forall_any || congruence). }
  unfold _wireguard_peer_hash_update. cbn zeta. rewrite Hs, Hi. congruence.
Qed.
End part_keys.

(** ** Objects *)

(** The classes of link data, LNK_*. *)
Inductive NMPObjectLnk :=
| LNK_GRE (lnk : NMPlatformLnkGre)
| LNK_GRETAP (lnk : NMPlatformLnkGre)
| LNK_INFINIBAND (lnk : NMPlatformLnkInfiniband)
| LNK_IP6TNL (lnk : NMPlatformLnkIp6Tnl)
| LNK_IP6GRE (lnk : NMPlatformLnkIp6Tnl)
| LNK_IP6GRETAP (lnk : NMPlatformLnkIp6Tnl)
| LNK_IPIP (lnk : NMPlatformLnkIpIp)
| LNK_MACSEC (lnk : NMPlatformLnkMacsec)
| LNK_MACVLAN (lnk : NMPlatformLnkMacvlan)
| LNK_MACVTAP (lnk : NMPlatformLnkMacvtap)
| LNK_SIT (lnk : NMPlatformLnkSit)
| LNK_TUN (lnk : NMPlatformLnkTun)
| LNK_VLAN (lnk : NMPlatformLnkVlan) (ingress_qos_map egress_qos_map : list NMVlanQosMapping)
| LNK_VXLAN (lnk : NMPlatformLnkVxlan)
| LNK_WIREGUARD (lnk : NMPlatformLnkWireGuard) (peers : list NMPWireGuardPeer).

(** NMPObjectLink; pointers are numbers, NULL is 0. *)
Record NMPObjectLink := {
  ol_link : NMPlatformLink; ol_is_in_netlink : bool; ol_lnk : option (At NMPObjectLnk);
  ol_udev_device : Z; ol_wireguard_family_id : Z
}.

Inductive NMPObjectData :=
| OBJ_LINK (link : NMPObjectLink)
| OBJ_IP4_ADDRESS (address : NMPlatformIP4Address)
| OBJ_IP6_ADDRESS (address : NMPlatformIP6Address)
| OBJ_IP4_ROUTE (route : NMPlatformIP4Route)
| OBJ_IP6_ROUTE (route : NMPlatformIP6Route)
| OBJ_ROUTING_RULE (rule : NMPlatformRoutingRule)
| OBJ_QDISC (qdisc : NMPlatformQdisc)
| OBJ_TFILTER (tfilter : NMPlatformTfilter)
| OBJ_LNK (lnk : NMPObjectLnk).

Abbreviation NMPObject := (At NMPObjectData).

(** NMPObjectType *)
Definition lnk_obj_type (o : NMPObjectLnk) : Z :=
  match o with
  | LNK_GRE _ => 9 | LNK_GRETAP _ => 10 | LNK_INFINIBAND _ => 11 | LNK_IP6TNL _ => 12
  | LNK_IP6GRE _ => 13 | LNK_IP6GRETAP _ => 14 | LNK_IPIP _ => 15 | LNK_MACSEC _ => 16
  | LNK_MACVLAN _ => 17 | LNK_MACVTAP _ => 18 | LNK_SIT _ => 19 | LNK_TUN _ => 20
  | LNK_VLAN _ _ _ => 21 | LNK_VXLAN _ => 22 | LNK_WIREGUARD _ _ => 23
  end.

Definition obj_type (o : NMPObjectData) : Z :=
  match o with
  | OBJ_LINK _ => 1 | OBJ_IP4_ADDRESS _ => 2 | OBJ_IP6_ADDRESS _ => 3 | OBJ_IP4_ROUTE _ => 4
  | OBJ_IP6_ROUTE _ => 5 | OBJ_ROUTING_RULE _ => 6 | OBJ_QDISC _ => 7 | OBJ_TFILTER _ => 8
  | OBJ_LNK lnk => lnk_obj_type lnk
  end.

(** offsetof (NMPObject, object): after the class and the reference count. *)
Definition object_offset : Z := 16.
Definition plobj {A} (o : NMPObject) (x : A) : At A := mk_at (at_ptr o + object_offset) x.

Section objects.
Context `{ByteOrder} `{KernelSupport}.

Definition _vt_cmd_obj_hash_update_lnk_vlan (lnk : NMPlatformLnkVlan) (ingress egress : list NMVlanQosMapping)
    (h : NMHashState) : NMHashState :=
  let h := nm_platform_lnk_vlan_hash_update lnk h in
  let h := _vlan_xgress_qos_mappings_hash_update ingress h in
  _vlan_xgress_qos_mappings_hash_update egress h.

Definition _vt_cmd_obj_hash_update_lnk_wireguard (lnk : NMPlatformLnkWireGuard) (peers : list NMPWireGuardPeer)
    (h : NMHashState) : NMHashState :=
  let h := nm_platform_lnk_wireguard_hash_update lnk h in
  let h := nm_hash_update_val (HI 4 (Z.of_nat (length peers))) h in
  fold_left _wireguard_peer_hash_update peers h.

(** The hash function of the class. *)
Definition lnk_class_hash_update (o : NMPObjectLnk) (h : NMHashState) : NMHashState :=
  match o with
  | LNK_GRE lnk | LNK_GRETAP lnk => nm_platform_lnk_gre_hash_update lnk h
  | LNK_INFINIBAND lnk => nm_platform_lnk_infiniband_hash_update lnk h
  | LNK_IP6TNL lnk | LNK_IP6GRE lnk | LNK_IP6GRETAP lnk => nm_platform_lnk_ip6tnl_hash_update lnk h
  | LNK_IPIP lnk => nm_platform_lnk_ipip_hash_update lnk h
  | LNK_MACSEC lnk => nm_platform_lnk_macsec_hash_update lnk h
  | LNK_MACVLAN lnk | LNK_MACVTAP lnk => nm_platform_lnk_macvlan_hash_update lnk h
  | LNK_SIT lnk => nm_platform_lnk_sit_hash_update lnk h
  | LNK_TUN lnk => nm_platform_lnk_tun_hash_update lnk h
  | LNK_VLAN lnk ingress egress => _vt_cmd_obj_hash_update_lnk_vlan lnk ingress egress h
  | LNK_VXLAN lnk => nm_platform_lnk_vxlan_hash_update lnk h
  | LNK_WIREGUARD lnk peers => _vt_cmd_obj_hash_update_lnk_wireguard lnk peers h
  end.

(** nmp_object_hash_update () of link data. *)
Definition nmp_lnk_hash_update (o : NMPObjectLnk) (h : NMHashState) : NMHashState :=
  lnk_class_hash_update o (nm_hash_update_val (HI 4 (lnk_obj_type o)) h).

Definition _vt_cmd_obj_cmp_lnk_vlan
    (lnk1 : NMPlatformLnkVlan) (ingress1 egress1 : list NMVlanQosMapping)
    (lnk2 : NMPlatformLnkVlan) (ingress2 egress2 : list NMVlanQosMapping) : Z :=
  nm_platform_lnk_vlan_cmp lnk1 lnk2 ;;?
  NM_CMP_DIRECT (Z.of_nat (length ingress1)) (Z.of_nat (length ingress2)) ;;?
  NM_CMP_DIRECT (Z.of_nat (length egress1)) (Z.of_nat (length egress2)) ;;?
  _vlan_xgress_qos_mappings_cmp ingress1 ingress2 ;;?
  _vlan_xgress_qos_mappings_cmp egress1 egress2.

Definition _vt_cmd_obj_cmp_lnk_wireguard
    (lnk1 : NMPlatformLnkWireGuard) (peers1 : list NMPWireGuardPeer)
    (lnk2 : NMPlatformLnkWireGuard) (peers2 : list NMPWireGuardPeer) : Z :=
  nm_platform_lnk_wireguard_cmp lnk1 lnk2 ;;?
  NM_CMP_DIRECT (Z.of_nat (length peers1)) (Z.of_nat (length peers2)) ;;?
  cmp_list _wireguard_peer_cmp peers1 peers2 ;;?
  0.

(** The compare function of the class that both objects have. *)
Definition lnk_class_cmp (o1 o2 : NMPObjectLnk) : Z :=
  match o1, o2 with
  | LNK_GRE a, LNK_GRE b | LNK_GRETAP a, LNK_GRETAP b => nm_platform_lnk_gre_cmp a b
  | LNK_INFINIBAND a, LNK_INFINIBAND b => nm_platform_lnk_infiniband_cmp a b
  | LNK_IP6TNL a, LNK_IP6TNL b | LNK_IP6GRE a, LNK_IP6GRE b | LNK_IP6GRETAP a, LNK_IP6GRETAP b =>
      nm_platform_lnk_ip6tnl_cmp a b
  | LNK_IPIP a, LNK_IPIP b => nm_platform_lnk_ipip_cmp a b
  | LNK_MACSEC a, LNK_MACSEC b => nm_platform_lnk_macsec_cmp a b
  | LNK_MACVLAN a, LNK_MACVLAN b | LNK_MACVTAP a, LNK_MACVTAP b => nm_platform_lnk_macvlan_cmp a b
  | LNK_SIT a, LNK_SIT b => nm_platform_lnk_sit_cmp a b
  | LNK_TUN a, LNK_TUN b => nm_platform_lnk_tun_cmp a b
  | LNK_VLAN a i e, LNK_VLAN b j f => _vt_cmd_obj_cmp_lnk_vlan a i e b j f
  | LNK_VXLAN a, LNK_VXLAN b => nm_platform_lnk_vxlan_cmp a b
  | LNK_WIREGUARD a p, LNK_WIREGUARD b q => _vt_cmd_obj_cmp_lnk_wireguard a p b q
  | _, _ => 0
  end.

(** nmp_object_cmp () of link data. *)
Definition nmp_lnk_cmp (o1 o2 : At NMPObjectLnk) : Z :=
  if at_ptr o1 =? at_ptr o2 then 0
  else
    NM_CMP_DIRECT (lnk_obj_type (at_obj o1)) (lnk_obj_type (at_obj o2)) ;;?
    lnk_class_cmp (at_obj o1) (at_obj o2).

Definition _vt_cmd_obj_hash_update_link (o : NMPObjectLink) (h : NMHashState) : NMHashState :=
  let h := nm_platform_link_hash_update (ol_link o) h in
  let h := nm_hash_update_vals
    [HBool (ol_is_in_netlink o); HI 4 (ol_wireguard_family_id o); HI 8 (ol_udev_device o)] h in
  match ol_lnk o with
  | Some lnk => nmp_lnk_hash_update (at_obj lnk) h
  | None => h
  end.

Definition _vt_cmd_obj_cmp_link (o1 o2 : NMPObjectLink) : Z :=
  nm_platform_link_cmp (ol_link o1) (ol_link o2) ;;?
  NM_CMP_BOOL (ol_is_in_netlink o1) (ol_is_in_netlink o2) ;;?
  cmp_opt nmp_lnk_cmp (ol_lnk o1) (ol_lnk o2) ;;?
  NM_CMP_DIRECT (ol_wireguard_family_id o1) (ol_wireguard_family_id o2) ;;?
  let d1 := ol_udev_device o1 in
  let d2 := ol_udev_device o2 in
  if negb (d1 =? d2) then
    if d1 =? 0 then -1 else if d2 =? 0 then 1 else if d1 <? d2 then -1 else 1
  else 0.

(** ** Comparison in full *)

Definition nmp_object_hash_update (o : NMPObject) (h : NMHashState) : option NMHashState :=
  let h := nm_hash_update_val (HI 4 (obj_type (at_obj o))) h in
  match at_obj o with
  | OBJ_LINK link => Some (_vt_cmd_obj_hash_update_link link h)
  | OBJ_IP4_ADDRESS a => Some (nm_platform_ip4_address_hash_update a h)
  | OBJ_IP6_ADDRESS a => Some (nm_platform_ip6_address_hash_update a h)
  | OBJ_IP4_ROUTE r => Some (nm_platform_ip4_route_hash_update NM_PLATFORM_IP_ROUTE_CMP_TYPE_FULL r h)
  | OBJ_IP6_ROUTE r => nm_platform_ip6_route_hash_update NM_PLATFORM_IP_ROUTE_CMP_TYPE_FULL r h
  | OBJ_ROUTING_RULE r =>
      Some (nm_platform_routing_rule_hash_update NM_PLATFORM_ROUTING_RULE_CMP_TYPE_FULL (plobj o r) h)
  | OBJ_QDISC q => Some (nm_platform_qdisc_hash_update q h)
  | OBJ_TFILTER t => Some (nm_platform_tfilter_hash_update t h)
  | OBJ_LNK lnk => Some (lnk_class_hash_update lnk h)
  end.

Definition object_class_cmp (o1 o2 : NMPObject) : Z :=
  match at_obj o1, at_obj o2 with
  | OBJ_LINK a, OBJ_LINK b => _vt_cmd_obj_cmp_link a b
  | OBJ_IP4_ADDRESS a, OBJ_IP4_ADDRESS b => nm_platform_ip4_address_cmp a b
  | OBJ_IP6_ADDRESS a, OBJ_IP6_ADDRESS b => nm_platform_ip6_address_cmp a b
  | OBJ_IP4_ROUTE a, OBJ_IP4_ROUTE b => nm_platform_ip4_route_cmp NM_PLATFORM_IP_ROUTE_CMP_TYPE_FULL a b
  | OBJ_IP6_ROUTE a, OBJ_IP6_ROUTE b => nm_platform_ip6_route_cmp NM_PLATFORM_IP_ROUTE_CMP_TYPE_FULL a b
  | OBJ_ROUTING_RULE a, OBJ_ROUTING_RULE b =>
      nm_platform_routing_rule_cmp NM_PLATFORM_ROUTING_RULE_CMP_TYPE_FULL (plobj o1 a) (plobj o2 b)
  | OBJ_QDISC a, OBJ_QDISC b => nm_platform_qdisc_cmp a b
  | OBJ_TFILTER a, OBJ_TFILTER b => nm_platform_tfilter_cmp a b
  | OBJ_LNK a, OBJ_LNK b => lnk_class_cmp a b
  | _, _ => 0
  end.

Definition nmp_object_cmp (o1 o2 : NMPObject) : Z :=
  if at_ptr o1 =? at_ptr o2 then 0
  else NM_CMP_DIRECT (obj_type (at_obj o1)) (obj_type (at_obj o2)) ;;? object_class_cmp o1 o2.

(** ** Comparison by identity *)

(** _vt_cmd_plobj_id_cmp_*: None for the classes that have none. *)
Definition cmd_plobj_id_cmp (o1 o2 : NMPObject) : option Z :=
  match at_obj o1, at_obj o2 with
  | OBJ_LINK a, OBJ_LINK b => Some (NM_CMP_FIELD (ol_link a) (ol_link b) lk_ifindex ;;? 0)
  | OBJ_IP4_ADDRESS a, OBJ_IP4_ADDRESS b =>
      Some (NM_CMP_FIELD (a4_ax a) (a4_ax b) ax_ifindex ;;?
            NM_CMP_FIELD (a4_ax a) (a4_ax b) ax_plen ;;?
            NM_CMP_FIELD a b a4_address ;;?
            nm_utils_ip4_address_same_prefix_cmp (a4_peer_address a) (a4_peer_address b) (ax_plen (a4_ax a)) ;;? 0)
  | OBJ_IP6_ADDRESS a, OBJ_IP6_ADDRESS b =>
      Some (NM_CMP_FIELD (a6_ax a) (a6_ax b) ax_ifindex ;;? NM_CMP_FIELD_MEMCMP a b a6_address ;;? 0)
  | OBJ_IP4_ROUTE a, OBJ_IP4_ROUTE b => Some (nm_platform_ip4_route_cmp NM_PLATFORM_IP_ROUTE_CMP_TYPE_ID a b)
  | OBJ_IP6_ROUTE a, OBJ_IP6_ROUTE b => Some (nm_platform_ip6_route_cmp NM_PLATFORM_IP_ROUTE_CMP_TYPE_ID a b)
  | OBJ_ROUTING_RULE a, OBJ_ROUTING_RULE b =>
      Some (nm_platform_routing_rule_cmp NM_PLATFORM_ROUTING_RULE_CMP_TYPE_ID (plobj o1 a) (plobj o2 b))
  | OBJ_QDISC a, OBJ_QDISC b => Some (NM_CMP_FIELD a b qd_ifindex ;;? NM_CMP_FIELD a b qd_parent ;;? 0)
  | OBJ_TFILTER a, OBJ_TFILTER b => Some (NM_CMP_FIELD a b tf_ifindex ;;? NM_CMP_FIELD a b tf_handle ;;? 0)
  | _, _ => None
  end.

Definition nmp_object_id_cmp (o1 o2 : NMPObject) : Z :=
  if at_ptr o1 =? at_ptr o2 then 0
  else
    NM_CMP_DIRECT (obj_type (at_obj o1)) (obj_type (at_obj o2)) ;;?
    match cmd_plobj_id_cmp o1 o2 with
    | None => if at_ptr o1 <? at_ptr o2 then -1 else 1
    | Some c => c
    end.

Definition nmp_object_id_hash_update (o : NMPObject) (h : NMHashState) : option NMHashState :=
  let h' := nm_hash_update_val (HI 4 (obj_type (at_obj o))) h in
  match at_obj o with
  | OBJ_LINK l => Some (nm_hash_update_val (HI 4 (lk_ifindex (ol_link l))) h')
  | OBJ_IP4_ADDRESS a =>
      Some (nm_hash_update_vals
              [HI 4 (ax_ifindex (a4_ax a)); HI 1 (ax_plen (a4_ax a)); HI 4 (a4_address a);
               HI 4 (nm_utils_ip4_address_clear_host_address (a4_peer_address a) (ax_plen (a4_ax a)))] h')
  | OBJ_IP6_ADDRESS a => Some (nm_hash_update_vals [HI 4 (ax_ifindex (a6_ax a)); HB (a6_address a)] h')
  | OBJ_IP4_ROUTE r => Some (nm_platform_ip4_route_hash_update NM_PLATFORM_IP_ROUTE_CMP_TYPE_ID r h')
  | OBJ_IP6_ROUTE r => nm_platform_ip6_route_hash_update NM_PLATFORM_IP_ROUTE_CMP_TYPE_ID r h'
  | OBJ_ROUTING_RULE r =>
      Some (nm_platform_routing_rule_hash_update NM_PLATFORM_ROUTING_RULE_CMP_TYPE_ID (plobj o r) h')
  | OBJ_QDISC q => Some (nm_hash_update_vals [HI 4 (qd_ifindex q); HI 4 (qd_parent q)] h')
  | OBJ_TFILTER t => Some (nm_hash_update_vals [HI 4 (tf_ifindex t); HI 4 (tf_handle t)] h')
  | OBJ_LNK _ => Some (nm_hash_update_val (HI 8 (at_ptr o)) h)
  end.

(** For an object; NULL has a static hash. *)
Definition nmp_object_id_hash `{SipHash} (o : NMPObject) : option Z :=
  h ← nmp_object_id_hash_update o []; Some (nm_hash_complete 914932607 h).

Definition nmp_object_equal (o1 o2 : NMPObject) : bool := nmp_object_cmp o1 o2 =? 0.
Definition nmp_object_id_equal (o1 o2 : NMPObject) : bool := nmp_object_id_cmp o1 o2 =? 0.
End objects.

(** ** Sort keys *)

Section object_keys.
Context `{ByteOrder} `{KernelSupport} (heap : Z -> option NMPObjectData).

(** The rules in memory are those inside objects. *)
Definition rule_heap : Z -> option NMPlatformRoutingRule := fun p =>
  match heap (p - object_offset) with Some (OBJ_ROUTING_RULE r) => Some r | _ => None end.

Definition lnk_ok (o : NMPObjectLnk) : Prop :=
  match o with LNK_WIREGUARD _ peers => Forall peer_ok peers | _ => True end.

Definition lnk_heap : Z -> option NMPObjectLnk := fun p =>
  match heap p with Some (OBJ_LNK lnk) => Some lnk | _ => None end.

Definition link_ok (l : NMPObjectLink) : Prop :=
  0 <= ol_udev_device l /\
  from_option (fun lnk => stored lnk_heap lnk /\ lnk_ok (at_obj lnk)) True (ol_lnk l).

Definition data_ok (o : NMPObjectData) : Prop :=
  match o with
  | OBJ_LINK l => link_ok l
  | OBJ_IP4_ADDRESS a => in4_ok (a4_peer_address a) /\ 0 <= ax_plen (a4_ax a)
  | OBJ_IP4_ROUTE r => ip4_route_ok r
  | OBJ_IP6_ROUTE r => ip6_route_ok r
  | OBJ_LNK lnk => lnk_ok lnk
  | _ => True
  end.

(** Well-typed objects that are in memory. *)
Definition object_ok (o : NMPObject) : Prop := stored heap o /\ data_ok (at_obj o).

Definition lnk_class_key (o : NMPObjectLnk) : kval :=
  match o with
  | LNK_GRE lnk | LNK_GRETAP lnk => lnk_gre_key lnk
  | LNK_INFINIBAND lnk => lnk_infiniband_key lnk
  | LNK_IP6TNL lnk | LNK_IP6GRE lnk | LNK_IP6GRETAP lnk => lnk_ip6tnl_key lnk
  | LNK_IPIP lnk => lnk_ipip_key lnk
  | LNK_MACSEC lnk => lnk_macsec_key lnk
  | LNK_MACVLAN lnk | LNK_MACVTAP lnk => lnk_macvlan_key lnk
  | LNK_SIT lnk => lnk_sit_key lnk
  | LNK_TUN lnk => lnk_tun_key lnk
  | LNK_VLAN lnk ingress egress =>
      KL [lnk_vlan_key lnk; KZ (Z.of_nat (length ingress)); KZ (Z.of_nat (length egress));
          KL (map qos_mapping_key ingress); KL (map qos_mapping_key egress)]
  | LNK_VXLAN lnk => lnk_vxlan_key lnk
  | LNK_WIREGUARD lnk peers =>
      KL [lnk_wireguard_key lnk; KZ (Z.of_nat (length peers)); KL (map peer_key peers)]
  end.

Definition lnk_key (o : At NMPObjectLnk) : kval :=
  KL [KZ (lnk_obj_type (at_obj o)); lnk_class_key (at_obj o)].

Definition object_link_key (o : NMPObjectLink) : kval :=
  KL [link_key (ol_link o); KBool (ol_is_in_netlink o); key_opt lnk_key (ol_lnk o);
      KZ (ol_wireguard_family_id o); KZ (ol_udev_device o)].

Definition object_key (o : NMPObject) : kval :=
  KL [KZ (obj_type (at_obj o));
      match at_obj o with
      | OBJ_LINK l => object_link_key l
      | OBJ_IP4_ADDRESS a => ip4_address_key a
      | OBJ_IP6_ADDRESS a => ip6_address_key a
      | OBJ_IP4_ROUTE r => ip4_route_key NM_PLATFORM_IP_ROUTE_CMP_TYPE_FULL r
      | OBJ_IP6_ROUTE r => ip6_route_key NM_PLATFORM_IP_ROUTE_CMP_TYPE_FULL r
      | OBJ_ROUTING_RULE r => routing_rule_key NM_PLATFORM_ROUTING_RULE_CMP_TYPE_FULL (plobj o r)
      | OBJ_QDISC q => qdisc_key q
      | OBJ_TFILTER t => tfilter_key t
      | OBJ_LNK lnk => lnk_class_key lnk
      end].

Definition object_id_key (o : NMPObject) : kval :=
  KL [KZ (obj_type (at_obj o));
      match at_obj o with
      | OBJ_LINK l => KZ (lk_ifindex (ol_link l))
      | OBJ_IP4_ADDRESS a =>
          KL [KZ (ax_ifindex (a4_ax a)); KZ (ax_plen (a4_ax a)); KZ (a4_address a);
              KZ (masked 32 (ax_plen (a4_ax a)) (htonl (a4_peer_address a)))]
      | OBJ_IP6_ADDRESS a => KL [KZ (ax_ifindex (a6_ax a)); KB (a6_address a)]
      | OBJ_IP4_ROUTE r => ip4_route_key NM_PLATFORM_IP_ROUTE_CMP_TYPE_ID r
      | OBJ_IP6_ROUTE r => ip6_route_key NM_PLATFORM_IP_ROUTE_CMP_TYPE_ID r
      | OBJ_ROUTING_RULE r => routing_rule_key NM_PLATFORM_ROUTING_RULE_CMP_TYPE_ID (plobj o r)
      | OBJ_QDISC q => KL [KZ (qd_ifindex q); KZ (qd_parent q)]
      | OBJ_TFILTER t => KL [KZ (tf_ifindex t); KZ (tf_handle t)]
      | OBJ_LNK _ => KZ (at_ptr o)
      end].

Lemma stored_same {A} (hp : Z -> option A) x y : stored hp x -> stored hp y -> at_ptr x = at_ptr y -> x = y.
Proof. destruct x, y; unfold stored; cbn. intros Hx Hy ->. congruence. Qed.

Lemma lnk_class_cmp_key a b :
  lnk_obj_type a = lnk_obj_type b -> lnk_class_cmp a b = kval_cmp (lnk_class_key a) (lnk_class_key b).
Proof.
  intros E. destruct a, b; try discriminate E; cbn [lnk_class_cmp lnk_class_key]; try by apply cmp_key.
  - unfold _vt_cmd_obj_cmp_lnk_vlan, _vlan_xgress_qos_mappings_cmp. rewrite kval_cmp_KL. cbn [lex_cmp].
    rewrite (cmp_key (c := nm_platform_lnk_vlan_cmp)) by done. do 3 cmp_step.
    rewrite !(cmp_list_key (D := any) (key := qos_mapping_key)) by (apply Forall_any || lia).
    by rewrite cmp_then_0_r.
  - unfold _vt_cmd_obj_cmp_lnk_wireguard. rewrite kval_cmp_KL. cbn [lex_cmp].
    rewrite (cmp_key (c := nm_platform_lnk_wireguard_cmp)) by done. do 2 cmp_step.
    by rewrite (cmp_list_key (D := any) (key := peer_key)) by (apply Forall_any || lia).
Qed.

#[export] Instance lnk_cmp_key : CmpKey (stored lnk_heap) nmp_lnk_cmp lnk_key.
Proof.
  intros x y Hx Hy. unfold nmp_lnk_cmp. destruct (Z.eqb_spec (at_ptr x) (at_ptr y)) as [E|_].
  - rewrite (stored_same _ _ _ Hx Hy E). symmetry. apply (cmp_refl kval_cmp).
  - unfold lnk_key. rewrite kval_cmp_KL. cbn [lex_cmp]. rewrite cmp_then_0_r. cmp_step. by apply lnk_class_cmp_key.
Qed.

Lemma object_link_cmp_key a b :
  link_ok a -> link_ok b -> _vt_cmd_obj_cmp_link a b = kval_cmp (object_link_key a) (object_link_key b).
Proof.
  intros [Ha Hla] [Hb Hlb]. unfold _vt_cmd_obj_cmp_link, object_link_key. rewrite kval_cmp_KL. cbn [lex_cmp].
  rewrite (cmp_key (c := nm_platform_link_cmp)) by done. do 2 cmp_step.
  rewrite (cmp_opt_key (D := stored lnk_heap) (key := lnk_key)).
  2:{ destruct (ol_lnk a); cbn in *; [apply Hla|done]. }
  2:{ destruct (ol_lnk b); cbn in *; [apply Hlb|done]. }
  do 2 cmp_step. rewrite cmp_then_0_r. cbn [kval_cmp]. unfold NM_CMP_DIRECT. cbn zeta.
  destruct (Z.eqb_spec (ol_udev_device a) (ol_udev_device b)); [done|]. cbn [negb].
  destruct (Z.eqb_spec (ol_udev_device a) 0), (Z.eqb_spec (ol_udev_device b) 0),
    (Z.ltb_spec (ol_udev_device a) (ol_udev_device b)); try done; lia.
Qed.

Lemma rule_stored o r : stored heap o -> at_obj o = OBJ_ROUTING_RULE r -> stored rule_heap (plobj o r).
Proof.
  unfold stored, plobj, rule_heap. cbn. intros Ho Er. replace (at_ptr o + object_offset - object_offset) with (at_ptr o) by lia.
  by rewrite Ho, Er.
Qed.

#[export] Instance object_cmp_key : CmpKey object_ok nmp_object_cmp object_key.
Proof.
  intros x y [Hx Hdx] [Hy Hdy]. unfold nmp_object_cmp. destruct (Z.eqb_spec (at_ptr x) (at_ptr y)) as [E|_].
  - rewrite (stored_same _ _ _ Hx Hy E). symmetry. apply (cmp_refl kval_cmp).
  - unfold object_key. rewrite kval_cmp_KL. cbn [lex_cmp]. rewrite cmp_then_0_r. cmp_step.
    unfold object_class_cmp. pose proof (rule_stored x) as Hrx. pose proof (rule_stored y) as Hry.
    destruct (at_obj x) as [| | | | | | | |lx], (at_obj y) as [| | | | | | | |ly];
      try (by apply cmp_key); try done; try (destruct lx; discriminate); try (destruct ly; discriminate).
    + by apply object_link_cmp_key.
    + apply (cmp_key (D := stored rule_heap)); auto.
    + by apply lnk_class_cmp_key.
Qed.

Lemma ip4_peer_step a b p k :
  in4_ok a -> in4_ok b -> 0 <= p ->
  nm_utils_ip4_address_same_prefix_cmp a b p ;;? k
  = kval_cmp (KZ (masked 32 p (htonl a))) (KZ (masked 32 p (htonl b))) ;;? k.
Proof.
  intros Ha Hb Hp. rewrite same_prefix_cmp4_bits by done. cbn [kval_cmp]. unfold masked.
  by rewrite direct_scale by (apply Z.pow_pos_nonneg; lia).
Qed.

#[export] Instance object_id_cmp_key : CmpKey object_ok nmp_object_id_cmp object_id_key.
Proof.
  intros x y [Hx Hdx] [Hy Hdy]. unfold nmp_object_id_cmp. destruct (Z.eqb_spec (at_ptr x) (at_ptr y)) as [E|Hne].
  - rewrite (stored_same _ _ _ Hx Hy E). symmetry. apply (cmp_refl kval_cmp).
  - unfold object_id_key. rewrite kval_cmp_KL. cbn [lex_cmp]. rewrite (cmp_then_0_r (kval_cmp _ _)). cmp_step.
    unfold cmd_plobj_id_cmp. pose proof (rule_stored x) as Hrx. pose proof (rule_stored y) as Hry.
    destruct (at_obj x) as [| | | | | | | |lx], (at_obj y) as [| | | | | | | |ly];
      try (by apply cmp_key); try done; try (destruct lx; discriminate); try (destruct ly; discriminate).
    + rewrite cmp_then_0_r. reflexivity.
    + cbn [data_ok] in *. rewrite kval_cmp_KL. cbn [lex_cmp]. do 3 cmp_step. rewrite Htie1.
      destruct Hdx, Hdy. by apply ip4_peer_step.
    + apply (cmp_key (D := stored rule_heap)); auto.
    + cbn [kval_cmp]. unfold NM_CMP_DIRECT. by destruct (Z.eqb_spec (at_ptr x) (at_ptr y)).
Qed.

(** ** Hashes *)

Lemma qos_hash_eq l m h :
  map qos_mapping_key l = map qos_mapping_key m ->
  _vlan_xgress_qos_mappings_hash_update l h = _vlan_xgress_qos_mappings_hash_update m h.
Proof.
  intros E. assert (l = m) as ->; [|done]. revert m E. induction l as [|x l IH]; intros [|y m]; cbn; try done.
  intros [= E1 E2 E]. rewrite (IH m E). destruct x, y; cbn in *; congruence.
Qed.

Lemma lnk_class_hash_eq a b h :
  lnk_ok a -> lnk_ok b -> lnk_obj_type a = lnk_obj_type b -> lnk_class_key a = lnk_class_key b ->
  lnk_class_hash_update a h = lnk_class_hash_update b h.
Proof.
  intros Ha Hb Et E. destruct a, b; try discriminate Et; cbn [lnk_class_hash_update lnk_class_key] in *;
    try by apply hash_key.
  - injection E; intros Ee Ei El1 El2 Ev1 Ev2. unfold _vt_cmd_obj_hash_update_lnk_vlan.
    rewrite (hash_key (hash := nm_platform_lnk_vlan_hash_update) lnk lnk0) by (done || (unfold lnk_vlan_key; congruence)).
    by rewrite (qos_hash_eq _ _ _ Ei), (qos_hash_eq _ _ _ Ee).
  - injection E; intros Ep El Ew1 Ew2 Ew3 Ew4. unfold _vt_cmd_obj_hash_update_lnk_wireguard.
    rewrite (hash_key (hash := nm_platform_lnk_wireguard_hash_update) lnk lnk0)
      by (done || (unfold lnk_wireguard_key; congruence)).
    rewrite El. by apply (fold_hash_eq peer_ok (fun p h => _wireguard_peer_hash_update h p) peer_key).
Qed.

Lemma object_link_hash_eq a b h :
  link_ok a -> link_ok b -> object_link_key a = object_link_key b ->
  _vt_cmd_obj_hash_update_link a h = _vt_cmd_obj_hash_update_link b h.
Proof.
  intros [_ Ha] [_ Hb] E. unfold object_link_key in E.
  assert (El : link_key (ol_link a) = link_key (ol_link b)) by congruence.
  assert (Eo : key_opt lnk_key (ol_lnk a) = key_opt lnk_key (ol_lnk b)) by congruence.
  assert (ol_is_in_netlink a = ol_is_in_netlink b) by (apply Z.b2z_inj; congruence).
  assert (ol_wireguard_family_id a = ol_wireguard_family_id b) by congruence.
  assert (ol_udev_device a = ol_udev_device b) by congruence.
  unfold _vt_cmd_obj_hash_update_link. rewrite (hash_key (hash := nm_platform_link_hash_update) (ol_link a) (ol_link b)) by done.
  replace (ol_is_in_netlink b) with (ol_is_in_netlink a). replace (ol_wireguard_family_id b) with (ol_wireguard_family_id a).
  replace (ol_udev_device b) with (ol_udev_device a).
  destruct (ol_lnk a) as [x|], (ol_lnk b) as [y|]; try discriminate Eo; [|done].
  unfold key_opt, lnk_key in Eo. assert (Et : lnk_obj_type (at_obj x) = lnk_obj_type (at_obj y)) by congruence.
  unfold nmp_lnk_hash_update. rewrite Et. destruct Ha as [_ Ha], Hb as [_ Hb].
  apply lnk_class_hash_eq; [done|done|done|congruence].
Qed.
End object_keys.

Section object_hash.
Context `{ByteOrder} `{KernelSupport} (heap : Z -> option NMPObjectData).

Lemma object_hash_eq x y h :
  object_ok heap x -> object_ok heap y ->
  (forall a b, at_obj x = OBJ_IP6_ADDRESS a -> at_obj y = OBJ_IP6_ADDRESS b -> a6_peer_address a = a6_peer_address b) ->
  object_key x = object_key y -> nmp_object_hash_update x h = nmp_object_hash_update y h.
Proof.
  intros [Hx Hdx] [Hy Hdy] H6 E. unfold object_key in E.
  assert (Et : obj_type (at_obj x) = obj_type (at_obj y)) by congruence. apply (f_equal (fun k => match k with KL l => l | _ => [] end)) in E.
  cbn [nth] in E. assert (Ek := f_equal (fun l => nth 1 l (KZ 0)) E). cbn [nth] in Ek. clear E.
  unfold nmp_object_hash_update. rewrite Et.
  pose proof (rule_stored heap x) as Hrx. pose proof (rule_stored heap y) as Hry.
  destruct (at_obj x) as [| |a| | | | | |lx], (at_obj y) as [| |b| | | | | |ly]; try discriminate Et;
    try (destruct lx; discriminate Et); try (destruct ly; discriminate Et);
    try (f_equal; by apply hash_key); try by apply hash_key.
  - f_equal. by apply (object_link_hash_eq heap).
  - f_equal. specialize (H6 a b eq_refl eq_refl). unfold ip6_address_key in Ek. destruct a as [[] ? ?], b as [[] ? ?].
    cbn in H6. injection Ek; clear Ek; intros. key_fields. subst. reflexivity.
  - f_equal. apply (hash_key (D := stored (rule_heap heap)) (key := routing_rule_key NM_PLATFORM_ROUTING_RULE_CMP_TYPE_FULL)); auto.
  - f_equal. by apply lnk_class_hash_eq.
Qed.

Lemma object_id_hash_eq x y h :
  object_ok heap x -> object_ok heap y ->
  object_id_key x = object_id_key y -> nmp_object_id_hash_update x h = nmp_object_id_hash_update y h.
Proof.
  intros [Hx Hdx] [Hy Hdy] E. unfold object_id_key in E.
  assert (Et : obj_type (at_obj x) = obj_type (at_obj y)) by congruence. apply (f_equal (fun k => match k with KL l => l | _ => [] end)) in E.
  assert (Ek := f_equal (fun l => nth 1 l (KZ 0)) E). cbn [nth] in Ek. clear E.
  unfold nmp_object_id_hash_update. rewrite Et.
  pose proof (rule_stored heap x) as Hrx. pose proof (rule_stored heap y) as Hry.
  destruct (at_obj x) as [|a| | | | | | |lx], (at_obj y) as [|b| | | | | | |ly]; try discriminate Et;
    try (destruct lx; discriminate Et); try (destruct ly; discriminate Et);
    try (f_equal; by apply hash_key); try by apply hash_key.
  - key_fields. congruence.
  - destruct Hdx as [Ha Hp], Hdy as [Hb Hq]. key_fields.
    rewrite (clear_host4_eq (a4_peer_address a) (a4_peer_address b)) by (done || congruence). congruence.
  - key_fields. congruence.
  - f_equal. apply (hash_key (D := stored (rule_heap heap)) (key := routing_rule_key NM_PLATFORM_ROUTING_RULE_CMP_TYPE_ID)); auto.
  - key_fields. congruence.
  - key_fields. congruence.
  - key_fields. congruence.
Qed.

Lemma object_key_id x y :
  (forall l, at_obj x <> OBJ_LNK l) -> object_key x = object_key y -> object_id_key x = object_id_key y.
Proof.
  intros Hl E. unfold object_key in E. unfold object_id_key.
  assert (Et : obj_type (at_obj x) = obj_type (at_obj y)) by congruence. apply (f_equal (fun k => match k with KL l => l | _ => [] end)) in E.
  assert (Ek := f_equal (fun l => nth 1 l (KZ 0)) E). cbn [nth] in Ek. clear E. rewrite Et. do 3 f_equal.
  destruct (at_obj x) as [| | | | | | | |lx], (at_obj y) as [| | | | | | | |ly]; try discriminate Et;
    try (destruct lx; discriminate Et); try (destruct ly; discriminate Et).
  - unfold object_link_key, link_key in Ek. congruence.
  - unfold ip4_address_key in Ek. congruence.
  - unfold ip6_address_key in Ek. congruence.
  - by apply ip4_chain, ip4_chain.
  - by apply ip6_chain, ip6_chain.
  - by apply rule_semantically_id, rule_full_semantically.
  - unfold qdisc_key in Ek. congruence.
  - unfold tfilter_key in Ek. congruence.
  - by destruct (Hl lx).
Qed.
End object_hash.

(** ** Partitions of the cache *)

Inductive NMPCacheIdType :=
| NMP_CACHE_ID_TYPE_OBJECT_TYPE
| NMP_CACHE_ID_TYPE_LINK_BY_IFNAME
| NMP_CACHE_ID_TYPE_DEFAULT_ROUTES
| NMP_CACHE_ID_TYPE_OBJECT_BY_IFINDEX
| NMP_CACHE_ID_TYPE_ROUTES_BY_WEAK_ID
| NMP_CACHE_ID_TYPE_OBJECT_BY_ADDR_FAMILY.

Definition cache_id_num (t : NMPCacheIdType) : Z :=
  match t with
  | NMP_CACHE_ID_TYPE_OBJECT_TYPE => 1
  | NMP_CACHE_ID_TYPE_LINK_BY_IFNAME => 2
  | NMP_CACHE_ID_TYPE_DEFAULT_ROUTES => 3
  | NMP_CACHE_ID_TYPE_OBJECT_BY_IFINDEX => 4
  | NMP_CACHE_ID_TYPE_ROUTES_BY_WEAK_ID => 5
  | NMP_CACHE_ID_TYPE_OBJECT_BY_ADDR_FAMILY => 6
  end.

Definition ipx_route_alive (rx : NMPlatformIPRoute) : bool :=
  (0 <? rx_ifindex rx) && (Z.land (rx_r_rtm_flags rx) RTM_F_CLONED =? 0).

(** nmp_object_is_alive () and the _vt_cmd_obj_is_alive_*. *)
Definition nmp_object_is_alive (o : NMPObject) : bool :=
  match at_obj o with
  | OBJ_LINK l => (0 <? lk_ifindex (ol_link l)) && (ol_is_in_netlink l || negb (ol_udev_device l =? 0))
  | OBJ_IP4_ADDRESS a => 0 <? ax_ifindex (a4_ax a)
  | OBJ_IP6_ADDRESS a => 0 <? ax_ifindex (a6_ax a)
  | OBJ_IP4_ROUTE r => ipx_route_alive (r4_rx r)
  | OBJ_IP6_ROUTE r => ipx_route_alive (r6_rx r)
  | OBJ_ROUTING_RULE r => af_valid (rr_addr_family r)
  | OBJ_QDISC q => 0 <? qd_ifindex q
  | OBJ_TFILTER t => 0 <? tf_ifindex t
  | OBJ_LNK _ => true
  end.

Definition nmp_object_is_visible (o : NMPObject) : bool :=
  nmp_object_is_alive o
  && match at_obj o with
     | OBJ_LINK l => ol_is_in_netlink l && negb (bool_decide (lk_name (ol_link l) = []))
     | _ => true
     end.

(** The route of an object of a route class, NM_PLATFORM_IP_ROUTE_CAST. *)
Definition object_rx (o : NMPObject) : option NMPlatformIPRoute :=
  match at_obj o with
  | OBJ_IP4_ROUTE r => Some (r4_rx r)
  | OBJ_IP6_ROUTE r => Some (r6_rx r)
  | _ => None
  end.

(** The ifindex of an object of a class that BY_IFINDEX accepts. *)
Definition object_ifindex (o : NMPObject) : option Z :=
  match at_obj o with
  | OBJ_IP4_ADDRESS a => Some (ax_ifindex (a4_ax a))
  | OBJ_IP6_ADDRESS a => Some (ax_ifindex (a6_ax a))
  | OBJ_IP4_ROUTE r => Some (rx_ifindex (r4_rx r))
  | OBJ_IP6_ROUTE r => Some (rx_ifindex (r6_rx r))
  | OBJ_QDISC q => Some (qd_ifindex q)
  | OBJ_TFILTER t => Some (tf_ifindex t)
  | _ => None
  end.

Section partition.
Context `{ByteOrder} `{KernelSupport}.

(** What _idx_obj_part () does: the partition test of obj_a, without obj_b and h;
    the comparison with obj_b; or the hash, which does not exist where a NULL
    pointer is dereferenced. *)
Inductive part_mode :=
| PART_TEST
| PART_EQUAL (obj_b : NMPObject)
| PART_HASH (h : NMHashState).

Inductive part_result :=
| PartBool (b : bool)
| PartHash (b : bool) (h : option NMHashState).

Definition part_not (obj_a : NMPObject) (mode : part_mode) : part_result :=
  match mode with
  | PART_HASH h => PartHash false (Some (nm_hash_update_val (HI 8 (at_ptr obj_a)) h))
  | _ => PartBool false
  end.

Definition part_yes (mode : part_mode) (equal : NMPObject -> bool) (hash : NMHashState -> option NMHashState) : part_result :=
  match mode with
  | PART_TEST => PartBool true
  | PART_EQUAL obj_b => PartBool (equal obj_b)
  | PART_HASH h => PartHash true (hash h)
  end.

Definition same_type (a b : NMPObject) : bool := obj_type (at_obj a) =? obj_type (at_obj b).

Definition _idx_obj_part (cache_id_type : NMPCacheIdType) (obj_a : NMPObject) (mode : part_mode) : part_result :=
  let id := HI 4 (cache_id_num cache_id_type) in
  match cache_id_type with
  | NMP_CACHE_ID_TYPE_OBJECT_TYPE =>
      part_yes mode (same_type obj_a)
        (fun h => Some (nm_hash_update_vals [id; HI 4 (obj_type (at_obj obj_a))] h))
  | NMP_CACHE_ID_TYPE_LINK_BY_IFNAME =>
      match at_obj obj_a with
      | OBJ_LINK link_a =>
          part_yes mode
            (fun obj_b => match at_obj obj_b with
                          | OBJ_LINK link_b => bool_decide (lk_name (ol_link link_a) = lk_name (ol_link link_b))
                          | _ => false
                          end)
            (fun h => Some (nm_hash_update_str (lk_name (ol_link link_a)) (nm_hash_update_val id h)))
      | _ => part_not obj_a mode
      end
  | NMP_CACHE_ID_TYPE_DEFAULT_ROUTES =>
      match object_rx obj_a with
      | Some rx =>
          if negb (rx_plen rx <=? 0) || negb (nmp_object_is_visible obj_a) then part_not obj_a mode
          else
            part_yes mode
              (fun obj_b => same_type obj_a obj_b
                            && match object_rx obj_b with Some rx => rx_plen rx <=? 0 | None => false end
                            && nmp_object_is_visible obj_b)
              (fun h => Some (nm_hash_update_vals [id; HI 4 (obj_type (at_obj obj_a))] h))
      | None => part_not obj_a mode
      end
  | NMP_CACHE_ID_TYPE_OBJECT_BY_IFINDEX =>
      match object_ifindex obj_a with
      | Some ifindex =>
          if negb (nmp_object_is_visible obj_a) then part_not obj_a mode
          else
            part_yes mode
              (fun obj_b => same_type obj_a obj_b
                            && bool_decide (object_ifindex obj_a = object_ifindex obj_b)
                            && nmp_object_is_visible obj_b)
              (fun h => Some (nm_hash_update_vals [id; HI 4 ifindex] h))
      | None => part_not obj_a mode
      end
  | NMP_CACHE_ID_TYPE_ROUTES_BY_WEAK_ID =>
      match object_rx obj_a with
      | Some rx =>
          if rx_ifindex rx <=? 0 then part_not obj_a mode
          else
            part_yes mode
              (fun obj_b =>
                 same_type obj_a obj_b
                 && match object_rx obj_b with Some rx => 0 <? rx_ifindex rx | None => false end
                 && match at_obj obj_a, at_obj obj_b with
                    | OBJ_IP4_ROUTE a, OBJ_IP4_ROUTE b =>
                        nm_platform_ip4_route_cmp NM_PLATFORM_IP_ROUTE_CMP_TYPE_WEAK_ID a b =? 0
                    | OBJ_IP6_ROUTE a, OBJ_IP6_ROUTE b =>
                        nm_platform_ip6_route_cmp NM_PLATFORM_IP_ROUTE_CMP_TYPE_WEAK_ID a b =? 0
                    | _, _ => false
                    end)
              (fun h =>
                 let h := nm_hash_update_val id h in
                 match at_obj obj_a with
                 | OBJ_IP4_ROUTE r => Some (nm_platform_ip4_route_hash_update NM_PLATFORM_IP_ROUTE_CMP_TYPE_WEAK_ID r h)
                 | OBJ_IP6_ROUTE r => nm_platform_ip6_route_hash_update NM_PLATFORM_IP_ROUTE_CMP_TYPE_WEAK_ID r h
                 | _ => Some h
                 end)
      | None => part_not obj_a mode
      end
  | NMP_CACHE_ID_TYPE_OBJECT_BY_ADDR_FAMILY =>
      match at_obj obj_a with
      | OBJ_ROUTING_RULE rule_a =>
          if negb (af_valid (rr_addr_family rule_a)) then part_not obj_a mode
          else
            part_yes mode
              (fun obj_b => match at_obj obj_b with
                            | OBJ_ROUTING_RULE rule_b => rr_addr_family rule_a =? rr_addr_family rule_b
                            | _ => false
                            end)
              (fun h => Some (nm_hash_update_vals [id; HI 1 (rr_addr_family rule_a)] h))
      | _ => part_not obj_a mode
      end
  end.

Definition part_bool (r : part_result) : bool := match r with PartBool b | PartHash b _ => b end.

Definition _idx_obj_partitionable (t : NMPCacheIdType) (obj : NMPObject) : bool :=
  part_bool (_idx_obj_part t obj PART_TEST).

Definition _idx_obj_partition_hash_update (t : NMPCacheIdType) (obj : NMPObject) (h : NMHashState) : option NMHashState :=
  match _idx_obj_part t obj (PART_HASH h) with PartHash _ h => h | PartBool _ => Some h end.

Definition _idx_obj_partition_equal (t : NMPCacheIdType) (obj_a obj_b : NMPObject) : bool :=
  part_bool (_idx_obj_part t obj_a (PART_EQUAL obj_b)).

(** The partition of an object, if it has one. *)
Definition part_key (t : NMPCacheIdType) (o : NMPObject) : option kval :=
  match t with
  | NMP_CACHE_ID_TYPE_OBJECT_TYPE => Some (KZ (obj_type (at_obj o)))
  | NMP_CACHE_ID_TYPE_LINK_BY_IFNAME =>
      match at_obj o with OBJ_LINK l => Some (KB (lk_name (ol_link l))) | _ => None end
  | NMP_CACHE_ID_TYPE_DEFAULT_ROUTES =>
      rx ← object_rx o;
      if (rx_plen rx <=? 0) && nmp_object_is_visible o then Some (KZ (obj_type (at_obj o))) else None
  | NMP_CACHE_ID_TYPE_OBJECT_BY_IFINDEX =>
      ifindex ← object_ifindex o;
      if nmp_object_is_visible o then Some (KL [KZ (obj_type (at_obj o)); KZ ifindex]) else None
  | NMP_CACHE_ID_TYPE_ROUTES_BY_WEAK_ID =>
      match at_obj o with
      | OBJ_IP4_ROUTE r =>
          if 0 <? rx_ifindex (r4_rx r) then Some (KL [KZ 4; ip4_route_key NM_PLATFORM_IP_ROUTE_CMP_TYPE_WEAK_ID r]) else None
      | OBJ_IP6_ROUTE r =>
          if 0 <? rx_ifindex (r6_rx r) then Some (KL [KZ 5; ip6_route_key NM_PLATFORM_IP_ROUTE_CMP_TYPE_WEAK_ID r]) else None
      | _ => None
      end
  | NMP_CACHE_ID_TYPE_OBJECT_BY_ADDR_FAMILY =>
      match at_obj o with
      | OBJ_ROUTING_RULE r => if af_valid (rr_addr_family r) then Some (KZ (rr_addr_family r)) else None
      | _ => None
      end
  end.

Lemma partitionable_key t o : _idx_obj_partitionable t o = bool_decide (is_Some (part_key t o)).
Proof.
  unfold _idx_obj_partitionable, _idx_obj_part, part_key, part_yes, part_not, object_rx, object_ifindex.
  symmetry. destruct t, (at_obj o); cbn -[nmp_object_is_visible ip4_route_key ip6_route_key]; try done.
  all: try destruct (nmp_object_is_visible o); cbn;
    repeat match goal with
    | |- context [?a <=? ?b] => destruct (Z.leb_spec a b); cbn
    | |- context [?a <? ?b] => destruct (Z.ltb_spec a b); cbn
    | |- context [af_valid ?f] => destruct (af_valid f); cbn
    end; try done; try lia.
Qed.

Lemma same_type_eq a b : same_type a b = bool_decide (obj_type (at_obj a) = obj_type (at_obj b)).
Proof. unfold same_type. symmetry. case_bool_decide; lia. Qed.

(** Equality in a partition is equality of the partitions. *)
Lemma partition_equal_key heap t a b :
  object_ok heap a -> object_ok heap b ->
  _idx_obj_partition_equal t a b = true <-> exists k, part_key t a = Some k /\ part_key t b = Some k.
Proof.
  intros [_ Ha] [_ Hb]. unfold _idx_obj_partition_equal, _idx_obj_part, part_key, part_yes, part_not.
  destruct t.
  - cbn [part_bool]. rewrite same_type_eq, bool_decide_eq_true. split; [intros ->; eauto|intros (k & Ea & Eb); congruence].
  - destruct (at_obj a), (at_obj b); cbn [part_bool]; try (split; [done|intros (? & ? & ?); done]).
    rewrite bool_decide_eq_true. split; [intros ->; eauto|intros (k & Ea & Eb); congruence].
  - unfold same_type. destruct (object_rx a) as [ra|], (object_rx b) as [rb|]; cbn [mbind option_bind];
      try (destruct (rx_plen ra <=? 0), (nmp_object_is_visible a)); cbn [negb orb andb part_bool];
      rewrite ?andb_false_r; try (split; [done|intros (? & ? & ?); done]).
    destruct (rx_plen rb <=? 0), (nmp_object_is_visible b); rewrite ?andb_false_r; cbn [andb];
      try (split; [done|intros (? & ? & ?); done]).
    rewrite !andb_true_r, Z.eqb_eq. split; [intros ->; eauto|intros (k & Ea & Eb); congruence].
  - unfold same_type. destruct (object_ifindex a) as [ia|], (object_ifindex b) as [ib|]; cbn [mbind option_bind];
      try (destruct (nmp_object_is_visible a)); cbn [negb orb andb part_bool];
      rewrite ?andb_false_r; try (split; [done|intros (? & ? & ?); done]).
    destruct (nmp_object_is_visible b); rewrite ?andb_false_r; cbn [andb];
      try (split; [done|intros (? & ? & ?); done]).
    rewrite !andb_true_r, andb_true_iff, Z.eqb_eq, bool_decide_eq_true.
    split; [intros [-> [= ->]]; eauto|intros (k & Ea & Eb); split; congruence].
  - unfold same_type, object_rx. destruct (at_obj a) as [| | |ra|ra| | | |la], (at_obj b) as [| | |rb|rb| | | |lb];
      try (split; [done|intros (? & ? & ?); done]); rewrite !Z.leb_antisym;
      destruct (0 <? rx_ifindex _); cbn [negb part_bool];
      rewrite ?andb_false_r; try (split; [done|intros (? & ? & ?); done]);
      destruct (0 <? rx_ifindex _); cbn -[ip4_route_key ip6_route_key nm_platform_ip4_route_cmp nm_platform_ip6_route_cmp];
      try (split; [done|intros (? & ? & ?); congruence]);
      rewrite Z.eqb_eq, cmp_key_zero by done; (split; [intros ->; eauto|intros (k & Ea & Eb); congruence]).
  - destruct (at_obj a) as [| | | | |ra| | |], (at_obj b) as [| | | | |rb| | |]; cbn [part_bool];
      try destruct (af_valid (rr_addr_family ra)) eqn:Eva; cbn [negb part_bool];
      try (split; [done|intros (? & ? & ?); done]).
    rewrite Z.eqb_eq. split; [intros <-; rewrite Eva; eauto|].
    intros (k & Ea & Eb). destruct (af_valid (rr_addr_family rb)); congruence.
Qed.

(** The hash of a partition depends on the partition only. *)
Lemma partition_hash_key heap t a b h k :
  object_ok heap a -> object_ok heap b -> part_key t a = Some k -> part_key t b = Some k ->
  _idx_obj_partition_hash_update t a h = _idx_obj_partition_hash_update t b h.
Proof.
  intros [_ Ha] [_ Hb]. unfold _idx_obj_partition_hash_update, _idx_obj_part, part_key, part_yes, part_not.
  destruct t.
  - congruence.
  - destruct (at_obj a), (at_obj b); try done. congruence.
  - destruct (object_rx a) as [ra|], (object_rx b) as [rb|]; cbn [mbind option_bind]; try done.
    destruct (rx_plen ra <=? 0), (nmp_object_is_visible a), (rx_plen rb <=? 0), (nmp_object_is_visible b); cbn [negb orb andb]; try done.
    congruence.
  - destruct (object_ifindex a) as [ia|], (object_ifindex b) as [ib|]; cbn [mbind option_bind]; try done.
    destruct (nmp_object_is_visible a), (nmp_object_is_visible b); cbn [negb]; try done. congruence.
  - unfold object_rx. destruct (at_obj a) as [| | |ra|ra| | | |la], (at_obj b) as [| | |rb|rb| | | |lb]; try done;
      rewrite !Z.leb_antisym;
      destruct (0 <? rx_ifindex _), (0 <? rx_ifindex _); cbn [negb]; try done; intros Ea Eb.
    + f_equal. apply hash_key; [done|done|]. congruence.
    + congruence.
    + congruence.
    + apply hash_key; [done|done|]. congruence.
  - destruct (at_obj a) as [| | | | |ra| | |], (at_obj b) as [| | | | |rb| | |]; try done.
    destruct (af_valid (rr_addr_family ra)), (af_valid (rr_addr_family rb)); cbn [negb]; try done. congruence.
Qed.
End partition.

(** ** Properties *)

Section object_theorems.
Context `{ByteOrder} `{KernelSupport} (heap : Z -> option NMPObjectData).

(** C30: Objects of the cache are compared in full and by identity; both
    comparisons are total preorders on the objects in memory, whatever their
    classes, and neither ties objects of different classes.  Equal objects have
    the same identity, except for link data, which has an identity per object. *)
Theorem nmp_object_cmp_spec (x y : NMPObject) :
  object_ok heap x -> object_ok heap y ->
  CmpPreorder (object_ok heap) nmp_object_cmp /\
  CmpPreorder (object_ok heap) nmp_object_id_cmp /\
  (nmp_object_equal x y = true -> obj_type (at_obj x) = obj_type (at_obj y)) /\
  (nmp_object_id_equal x y = true -> obj_type (at_obj x) = obj_type (at_obj y)) /\
  (nmp_object_equal x y = true -> (forall l, at_obj x <> OBJ_LNK l) -> nmp_object_id_equal x y = true) /\
  (forall l, at_obj x = OBJ_LNK l -> nmp_object_id_equal x y = true -> x = y).
Proof.
  intros Hx Hy. unfold nmp_object_equal, nmp_object_id_equal. rewrite !Z.eqb_eq.
  rewrite (cmp_key_zero (c := nmp_object_cmp) x y), (cmp_key_zero (c := nmp_object_id_cmp) x y) by done. split_and!.
  - apply cmp_key_preorder.
  - apply cmp_key_preorder.
  - unfold object_key. congruence.
  - unfold object_id_key. congruence.
  - intros E Hl. by apply object_key_id.
  - intros l El E. apply Z.eqb_eq, cmp_key_zero in E; [|done..]. unfold object_id_key in E. rewrite El in E.
    destruct Hx as [Hx _], Hy as [Hy _]. apply (stored_same heap); [done|done|].
    destruct (at_obj y) as [| | | | | | | |ly]; try (destruct l; discriminate E). congruence.
Qed.

(** C32: The hashes of an object agree with its comparisons: objects of the same
    identity have the same identity hash, and equal objects the same hash, unless
    they are IPv6 addresses whose peer fields differ.  So the hash tables of the
    cache find an object by its identity. *)
Theorem nmp_object_hash_spec (x y : NMPObject) :
  object_ok heap x -> object_ok heap y ->
  (forall h, nmp_object_id_equal x y = true -> nmp_object_id_hash_update x h = nmp_object_id_hash_update y h) /\
  (forall `{SipHash}, nmp_object_id_equal x y = true -> nmp_object_id_hash x = nmp_object_id_hash y) /\
  (forall h, nmp_object_equal x y = true ->
     (forall a b, at_obj x = OBJ_IP6_ADDRESS a -> at_obj y = OBJ_IP6_ADDRESS b -> a6_peer_address a = a6_peer_address b) ->
     nmp_object_hash_update x h = nmp_object_hash_update y h).
Proof.
  intros Hx Hy. unfold nmp_object_equal, nmp_object_id_equal.
  assert (Hid : object_id_key x = object_id_key y -> forall h, nmp_object_id_hash_update x h = nmp_object_id_hash_update y h)
    by (intros E h; by apply (object_id_hash_eq heap)).
  split_and!; [intros h E; apply Hid; by apply Z.eqb_eq, cmp_key_zero in E| |].
  - intros S E. apply Z.eqb_eq, cmp_key_zero in E; [|done..]. unfold nmp_object_id_hash. by rewrite (Hid E).
  - intros h E H6. apply Z.eqb_eq, cmp_key_zero in E; [|done..]. by apply (object_hash_eq heap).
Qed.

(** Each index of the cache divides the objects it accepts into partitions:
    _idx_obj_partition_equal () holds exactly for two accepted objects of the same
    partition, so that it is symmetric and transitive, and reflexive on the
    objects that are partitionable; and the objects of a partition have the same
    hash. *)
Theorem idx_obj_part_spec (t : NMPCacheIdType) (x y : NMPObject) :
  object_ok heap x -> object_ok heap y ->
  (_idx_obj_partition_equal t x x = _idx_obj_partitionable t x) /\
  (_idx_obj_partition_equal t x y = true ->
     _idx_obj_partition_equal t y x = true /\ _idx_obj_partitionable t x = true /\ _idx_obj_partitionable t y = true /\
     (forall h, _idx_obj_partition_hash_update t x h = _idx_obj_partition_hash_update t y h) /\
     (forall z, object_ok heap z -> _idx_obj_partition_equal t y z = _idx_obj_partition_equal t x z)).
Proof.
  intros Hx Hy. split.
  - apply eq_true_iff_eq. rewrite (partition_equal_key heap) by done. rewrite partitionable_key, bool_decide_eq_true.
    split; [intros (k & E & _); eauto|intros [k E]; eauto].
  - rewrite (partition_equal_key heap) by done. intros (k & Ex & Ey). split_and!.
    + apply (partition_equal_key heap); eauto.
    + rewrite partitionable_key, bool_decide_eq_true. eauto.
    + rewrite partitionable_key, bool_decide_eq_true. eauto.
    + intros h. by eapply (partition_hash_key heap).
    + intros z Hz. apply eq_true_iff_eq. rewrite !(partition_equal_key heap), Ex, Ey by done. done.
Qed.
End object_theorems.

(** ** Samples *)

Definition sample_object4 (host : Z) : NMPObjectData := OBJ_IP4_ROUTE (sample_route4 host 0 0).

Definition sample_objects : Z -> option NMPObjectData :=
  fun p => if p =? 4096 then Some (sample_object4 1) else if p =? 8192 then Some (sample_object4 2) else None.

Lemma sample_object_ok p host :
  0 <= host < 256 -> sample_objects p = Some (sample_object4 host) ->
  object_ok sample_objects (mk_at p (sample_object4 host)).
Proof. intros Hh Hp. split; [exact Hp|]. by apply sample_route4_ok. Qed.

Lemma nmp_object_cmp_spec_witness :
  let _ := little_endian in
  let _ := old_kernel in
  nmp_object_id_equal (mk_at 4096 (sample_object4 1)) (mk_at 8192 (sample_object4 2)) = true /\
  CmpPreorder (object_ok sample_objects) nmp_object_cmp.
Proof.
  intros ? ?. split; [vm_compute; reflexivity|].
  apply (nmp_object_cmp_spec sample_objects (mk_at 4096 (sample_object4 1)) (mk_at 8192 (sample_object4 2)));
    apply sample_object_ok; (lia || reflexivity).
Defined.

Lemma nmp_object_hash_spec_witness :
  let _ := little_endian in
  let _ := old_kernel in
  nmp_object_id_hash_update (mk_at 4096 (sample_object4 1)) []
  = nmp_object_id_hash_update (mk_at 8192 (sample_object4 2)) [].
Proof.
  intros ? ?.
  apply (nmp_object_hash_spec sample_objects (mk_at 4096 (sample_object4 1)) (mk_at 8192 (sample_object4 2)));
    [apply sample_object_ok; (lia || reflexivity)|apply sample_object_ok; (lia || reflexivity)|vm_compute; reflexivity].
Defined.

Lemma idx_obj_part_spec_witness :
  let _ := little_endian in
  let _ := old_kernel in
  _idx_obj_partition_equal NMP_CACHE_ID_TYPE_ROUTES_BY_WEAK_ID (mk_at 8192 (sample_object4 2)) (mk_at 4096 (sample_object4 1)) = true.
Proof.
  intros ? ?.
  apply (idx_obj_part_spec sample_objects NMP_CACHE_ID_TYPE_ROUTES_BY_WEAK_ID
           (mk_at 4096 (sample_object4 1)) (mk_at 8192 (sample_object4 2)));
    [apply sample_object_ok; (lia || reflexivity)|apply sample_object_ok; (lia || reflexivity)|vm_compute; reflexivity].
Defined.
