(* ===== verification/HashTable.v ===== *)
(** * Hash tables and linked lists of elements with an address

    A GHashTable used as a set: its elements are structures with an address, and
    the equality function of the table looks at some of their fields (their key).
    A CList is the list of the addresses of its members.  The order in which a
    table is iterated is not specified; here it is that of the map. *)

From S2P Require Export Prelude.

Section table.
Context {A : Type}.
Implicit Types t : gmap positive A.

(** g_hash_table_lookup (): an element that the equality function accepts. *)
Definition g_hash_table_lookup (equal : A -> bool) t : option (positive * A) :=
  find (fun x => equal x.2) (map_to_list t).

(** The address of a new element (g_slice_new). *)
Definition g_slice_new t : positive := fresh (map_to_list t).*1.

Lemma g_slice_new_None t : t !! g_slice_new t = None.
Proof.
  apply eq_None_not_Some. intros [a Ha%elem_of_map_to_list].
  eapply infinite_is_fresh. by apply list_elem_of_fmap_2 with (f := fst) in Ha.
Qed.

(** The equality function accepts exactly the elements with a key. *)
Definition accepts {K} (key : A -> K) (equal : A -> bool) (k : K) t : Prop :=
  forall p a, t !! p = Some a -> equal a = true <-> key a = k.

Definition keys_unique {K} (key : A -> K) t : Prop :=
  forall p q a b, t !! p = Some a -> t !! q = Some b -> key a = key b -> p = q.

Lemma ght_lookup_Some equal t p a :
  g_hash_table_lookup equal t = Some (p, a) -> t !! p = Some a /\ equal a = true.
Proof.
  unfold g_hash_table_lookup. intros [Hin Heq]%List.find_some. split; [|done].
  by apply elem_of_map_to_list, list_elem_of_In.
Qed.

Lemma ght_lookup_None equal t :
  g_hash_table_lookup equal t = None -> forall p a, t !! p = Some a -> equal a = false.
Proof.
  unfold g_hash_table_lookup. intros Hn p a Hp. eapply (List.find_none _ _ Hn (p, a)).
  by apply list_elem_of_In, elem_of_map_to_list.
Qed.

Section keys.
Context {K : Type} (key : A -> K).

Lemma ght_lookup_key equal k t p a :
  keys_unique key t -> accepts key equal k t ->
  g_hash_table_lookup equal t = Some (p, a) <-> t !! p = Some a /\ key a = k.
Proof.
  intros Hu Ha. split.
  - intros [Hp He]%ght_lookup_Some. split; [done|]. by apply (Ha p a Hp).
  - intros [Hp Hk]. destruct (g_hash_table_lookup equal t) as [[q b]|] eqn:E.
    + apply ght_lookup_Some in E as [Hq He]. apply (Ha q b Hq) in He.
      assert (q = p) as -> by (eapply Hu; [done..|congruence]). congruence.
    + apply (Ha p a Hp) in Hk. eapply ght_lookup_None in E; [|done]. congruence.
Qed.

Lemma ght_lookup_absent equal k t :
  accepts key equal k t ->
  g_hash_table_lookup equal t = None <-> forall p a, t !! p = Some a -> key a <> k.
Proof.
  intros Ha. split.
  - intros E p a Hp Hk. apply (Ha p a Hp) in Hk. eapply ght_lookup_None in E; [|done]. congruence.
  - intros Hn. destruct (g_hash_table_lookup equal t) as [[q b]|] eqn:E; [|done].
    apply ght_lookup_Some in E as [Hq He]. apply (Ha q b Hq) in He. by apply Hn in Hq.
Qed.

Lemma keys_unique_insert_new t p a :
  keys_unique key t -> (forall q b, t !! q = Some b -> key b <> key a) -> keys_unique key (<[p:=a]> t).
Proof.
  intros Hu Hn q1 q2 b1 b2 H1%lookup_insert_Some H2%lookup_insert_Some E.
  destruct H1 as [[-> ->]|[_ H1]], H2 as [[-> ->]|[_ H2]]; [done| | |by eapply Hu].
  - by apply Hn in H2.
  - by apply Hn in H1.
Qed.

Lemma keys_unique_replace t p a b :
  keys_unique key t -> t !! p = Some a -> key b = key a -> keys_unique key (<[p:=b]> t).
Proof.
  intros Hu Hp Hk q1 q2 b1 b2 H1%lookup_insert_Some H2%lookup_insert_Some E.
  destruct H1 as [[-> ->]|[? H1]], H2 as [[-> ->]|[? H2]]; [done| | |by eapply Hu].
  - eapply Hu; [done..|congruence].
  - eapply Hu; [done..|congruence].
Qed.

Lemma keys_unique_delete t p : keys_unique key t -> keys_unique key (delete p t).
Proof. intros Hu q1 q2 b1 b2 [_ H1]%lookup_delete_Some [_ H2]%lookup_delete_Some. by apply Hu. Qed.

Lemma keys_unique_omap (f : A -> option A) t :
  (forall a b, f a = Some b -> key b = key a) -> keys_unique key t -> keys_unique key (omap f t).
Proof.
  intros Hf Hu p q a b (a' & H1 & H1')%lookup_omap_Some (b' & H2 & H2')%lookup_omap_Some E.
  apply Hf in H1, H2. eapply Hu; [done..|congruence].
Qed.

Lemma keys_unique_fmap (f : A -> A) t :
  (forall a, key (f a) = key a) -> keys_unique key t -> keys_unique key (f <$> t).
Proof.
  intros Hf Hu p q a b (a' & <- & H1)%lookup_fmap_Some (b' & <- & H2)%lookup_fmap_Some.
  rewrite !Hf. by apply Hu.
Qed.
End keys.
End table.

(** c_list_unlink (): a member leaves its list. *)
Definition c_list_unlink (p : positive) (lst : list positive) : list positive :=
  filter (fun q => q <> p) lst.
#[global] Arguments c_list_unlink : simpl never.

Lemma elem_of_unlink p q lst : q ∈ c_list_unlink p lst <-> q <> p /\ q ∈ lst.
Proof. unfold c_list_unlink. by rewrite list_elem_of_filter. Qed.

Lemma NoDup_unlink p lst : NoDup lst -> NoDup (c_list_unlink p lst).
Proof. apply NoDup_filter. Qed.

(** c_list_length_is (&x->lst, 1): the only member of its list. *)
Lemma unlink_last p lst : NoDup lst -> p ∈ lst -> length lst = 1%nat <-> c_list_unlink p lst = [].
Proof.
  intros Hnd Hp. destruct lst as [|x [|y l]]; [by apply elem_of_nil in Hp|..].
  - apply list_elem_of_singleton in Hp as ->. unfold c_list_unlink. rewrite filter_cons_False; [done|tauto].
  - split; [done|]. intros E. exfalso.
    assert (Hx : forall q, q ∈ x :: y :: l -> q = p).
    { intros q Hq. destruct (decide (q = p)); [done|]. exfalso.
      assert (q ∈ c_list_unlink p (x :: y :: l)) as H by by apply elem_of_unlink. rewrite E in H. by apply elem_of_nil in H. }
    apply NoDup_cons in Hnd as [Hn _]. apply Hn.
    rewrite (Hx x), <- (Hx y) by (rewrite !elem_of_cons; tauto). apply elem_of_cons. tauto.
Qed.

(** ** Indexes

    A table of elements with an address ([data]) and a second table whose
    elements have a key and the list of the elements of [data] with that key. *)
Section index.
Context {D X K : Type} (dkey : D -> K) (key : X -> K) (lst : X -> list positive).

Record index_ok (data : gmap positive D) (tbl : gmap positive X) : Prop := {
  ix_unique : keys_unique key tbl;
  ix_nodup q x : tbl !! q = Some x -> NoDup (lst x);
  ix_member q x p : tbl !! q = Some x -> p ∈ lst x <-> exists d, data !! p = Some d /\ dkey d = key x;
  ix_cover p d : data !! p = Some d -> exists q x, tbl !! q = Some x /\ key x = dkey d
}.

(** The elements of the index change, but neither their keys nor their lists; those
    without members may go. *)
Lemma index_change data tbl tbl' :
  index_ok data tbl ->
  (forall q y, tbl' !! q = Some y -> exists x, tbl !! q = Some x /\ key y = key x /\ lst y = lst x) ->
  (forall q x, tbl !! q = Some x -> lst x = [] \/ is_Some (tbl' !! q)) -> index_ok data tbl'.
Proof.
  intros [Hu Hn Hm Hc] Hold Hnew. split.
  - intros q r y z (x & Hx & -> & _)%Hold (w & Hw & -> & _)%Hold. by apply Hu.
  - intros q y (x & Hx & _ & ->)%Hold. by eapply Hn.
  - intros q y p (x & Hx & -> & ->)%Hold. by apply (Hm q).
  - intros p d Hp. destruct (Hc p d Hp) as (q & x & Hq & Hk). exists q.
    destruct (Hnew q x Hq) as [Hl|[y Hy]].
    + assert (p ∈ lst x) as Hin by (apply (Hm q x p Hq); eauto). rewrite Hl in Hin. by apply elem_of_nil in Hin.
    + exists y. split; [done|]. apply Hold in Hy as (z & Hz & Hkz & _). congruence.
Qed.

(** The data changes, but not the keys. *)
Lemma index_same_keys data data' tbl :
  index_ok data tbl -> (forall p, dkey <$> data' !! p = dkey <$> data !! p) -> index_ok data' tbl.
Proof.
  intros [Hu Hn Hm Hc] Hk.
  assert (Hiff : forall (m : gmap positive D) p k, (exists d, m !! p = Some d /\ dkey d = k) <-> dkey <$> m !! p = Some k).
  { intros m p k. rewrite fmap_Some. split; intros (d & ? & ?); eauto. }
  split; [done|done|..].
  - intros q x p Hq. rewrite Hiff, Hk, <- Hiff. by apply (Hm q).
  - intros p d Hp. destruct (proj2 (Hiff data p (dkey d))) as (e & He & <-); [by rewrite <- Hk, Hp|]. by apply (Hc p).
Qed.

(** A new element of the data joins the list of its key; the entry of the index
    is [q], which may be new as well. *)
Lemma index_add data tbl p d q x y :
  index_ok data tbl -> data !! p = None -> key x = dkey d ->
  tbl !! q = Some x \/ tbl !! q = None /\ lst x = [] /\ (forall r z, tbl !! r = Some z -> key z <> dkey d) ->
  key y = key x -> lst y = lst x ++ [p] ->
  index_ok (<[p:=d]> data) (<[q:=y]> tbl).
Proof.
  intros [Hu Hn Hm Hc] Hp Hx Hq Hyk Hyl.
  assert (Hold : forall r, r ∈ lst x <-> exists d', data !! r = Some d' /\ dkey d' = key x).
  { destruct Hq as [Hq|(Hq & -> & Hnew)]; [intros r; by eapply Hm|]. intros r. rewrite elem_of_nil. split; [done|].
    intros (d' & Hr & Hk). destruct (Hc r d' Hr) as (q' & z & Hq' & Hz). eapply Hnew; [done|congruence]. }
  assert (Hfresh : forall z, p ∈ lst z -> (forall r, r ∈ lst z <-> exists d', data !! r = Some d' /\ dkey d' = key z) -> False).
  { intros z Hin Hz. apply Hz in Hin as (d' & E & _). congruence. }
  split.
  - destruct Hq as [Hq|(Hq & _ & Hnew)]; [by eapply keys_unique_replace|].
    apply keys_unique_insert_new; [done|]. intros r z Hr. rewrite Hyk, Hx. by eapply Hnew.
  - intros r z [[<- <-]|[? Hr]]%lookup_insert_Some; [|by eapply Hn]. rewrite Hyl.
    apply NoDup_app. split_and!; [|intros r Hr ->%list_elem_of_singleton; by eapply Hfresh|apply NoDup_singleton].
    destruct Hq as [Hq|(_ & -> & _)]; [by eapply Hn|constructor].
  - intros r z s [[<- <-]|[Hne Hr]]%lookup_insert_Some.
    + rewrite Hyl, elem_of_app, list_elem_of_singleton, Hold, Hyk. destruct (decide (s = p)) as [->|].
      * rewrite lookup_insert_eq. split; [intros _; eauto|tauto].
      * rewrite lookup_insert_ne by done. tauto.
    + rewrite (Hm r z s Hr). destruct (decide (s = p)) as [->|]; [|by rewrite lookup_insert_ne].
      rewrite lookup_insert_eq, Hp. split; [by intros (? & ? & _)|]. intros (d' & [= <-] & Hk). exfalso.
      destruct Hq as [Hq|(_ & _ & Hnew)]; [|by apply (Hnew r z)]. apply Hne. eapply Hu; [done..|congruence].
  - intros r e [[<- <-]|[? Hr]]%lookup_insert_Some.
    + exists q, y. rewrite lookup_insert_eq. split; congruence.
    + destruct (Hc r e Hr) as (q' & z & Hq' & Hz). destruct (decide (q' = q)) as [->|].
      * exists q, y. rewrite lookup_insert_eq. destruct Hq as [Hq|(Hq & _ & _)]; split; congruence.
      * exists q', z. by rewrite lookup_insert_ne.
Qed.

(** An element leaves the data, and its lists. *)
Lemma index_remove data tbl p f :
  index_ok data tbl -> (forall x, key (f x) = key x /\ lst (f x) = c_list_unlink p (lst x)) ->
  index_ok (delete p data) (f <$> tbl).
Proof.
  intros [Hu Hn Hm Hc] Hf. split.
  - apply keys_unique_fmap; [|done]. intros x. apply Hf.
  - intros q x (y & <- & Hq)%lookup_fmap_Some. rewrite (proj2 (Hf y)). by eapply NoDup_unlink, Hn.
  - intros q x r (y & <- & Hq)%lookup_fmap_Some. rewrite (proj2 (Hf y)), (proj1 (Hf y)), elem_of_unlink, (Hm q y r Hq).
    setoid_rewrite lookup_delete_Some.
    split; [intros (Hne & d & Hd & Hk); exists d; eauto|intros (d & [Hne Hd] & Hk); split; eauto].
  - intros r d [? Hr]%lookup_delete_Some. destruct (Hc r d Hr) as (q & x & Hq & Hx). exists q, (f x).
    rewrite lookup_fmap, Hq. split; [done|]. rewrite <- Hx. apply Hf.
Qed.
End index.
