(* ===== verification/RulesManager.v ===== *)
(** * The manager of policy routing rules

    src/platform/nmp-rules-manager.c: several users, each with a tag, track rules
    with a priority for being present or absent; nmp_rules_manager_sync () makes
    the platform agree and remembers what it did, to undo it later.

    The three hash tables hold structures with an address; the structures are in
    linked lists by rule and by tag.  A function has the result None when it would
    follow an address that is not allocated any more. *)

From S2P Require Import Bytes CmpOrder IpAddr NMHash PlatformLink PlatformRule HashTable.

(** NMPObject of type NMP_OBJECT_TYPE_ROUTING_RULE *)
Abbreviation RuleObject := (At NMPlatformRoutingRule).

(** Addresses: of the interned object of a rule (nm_dedup_multi_index_obj_intern),
    one per rule, and of an object on the stack (nmp_object_stackinit). *)
Class Addresses := { intern_ptr : NMPlatformRoutingRule -> Z; stack_ptr : Z }.
Definition nm_dedup_multi_index_obj_intern `{Addresses} (rule : NMPlatformRoutingRule) : RuleObject :=
  mk_at (intern_ptr rule) rule.
Definition nmp_object_stackinit `{Addresses} (rule : NMPlatformRoutingRule) : RuleObject := mk_at stack_ptr rule.

(** The platform: the rules in its cache, whose objects are interned, and its
    requests to the kernel. *)
Class Platform (P : Type) := {
  nm_platform_rules : P -> list NMPlatformRoutingRule;
  nm_platform_object_delete : NMPlatformRoutingRule -> P -> P;
  nm_platform_routing_rule_add : NMPlatformRoutingRule -> P -> P
}.

Record RulesData := mk_rules_data {
  rd_obj : RuleObject; rd_user_tag : Z; rd_track_priority_val : Z; rd_track_priority_present : bool; rd_dirty : bool
}.

Inductive ConfigState :=
| CONFIG_STATE_NONE
| CONFIG_STATE_ADDED_BY_US
| CONFIG_STATE_REMOVED_BY_US
| CONFIG_STATE_OWNED_BY_US.

#[export] Instance ConfigState_eq_dec : EqDecision ConfigState.
Proof. solve_decision. Defined.

Record RulesObjData := mk_obj_data { od_obj : RuleObject; od_lst : list positive; od_config_state : ConfigState }.
Record RulesUserTagData := mk_tag_data { ud_user_tag : Z; ud_lst : list positive }.

(** by_data, by_obj and by_user_tag. *)
Record RulesTables := mk_tables {
  by_data : gmap positive RulesData; by_obj : gmap positive RulesObjData; by_user_tag : gmap positive RulesUserTagData
}.

(** ref_count, and the tables once they are initialized. *)
Record NMPRulesManager := mk_manager { ref_count : Z; tables : option RulesTables }.

Definition nmp_rules_manager_new : NMPRulesManager := mk_manager 1 None.
Definition nmp_rules_manager_ref (self : NMPRulesManager) : NMPRulesManager := mk_manager (ref_count self + 1) (tables self).

(** None: it was freed. *)
Definition nmp_rules_manager_unref (self : NMPRulesManager) : option NMPRulesManager :=
  if 0 <? ref_count self - 1 then Some (mk_manager (ref_count self - 1) (tables self)) else None.

Definition _rules_init (self : NMPRulesManager) : RulesTables :=
  match tables self with Some t => t | None => mk_tables ∅ ∅ ∅ end.

Definition set_state (s : ConfigState) (od : RulesObjData) : RulesObjData := mk_obj_data (od_obj od) (od_lst od) s.
Definition od_relink (f : list positive -> list positive) (od : RulesObjData) : RulesObjData :=
  mk_obj_data (od_obj od) (f (od_lst od)) (od_config_state od).
Definition ud_relink (f : list positive -> list positive) (ud : RulesUserTagData) : RulesUserTagData :=
  mk_tag_data (ud_user_tag ud) (f (ud_lst ud)).

(** NM_IN_SET (state, a, b) *)
Definition state_in (s a b : ConfigState) : bool := bool_decide (s = a) || bool_decide (s = b).

Definition AF_UNSPEC : Z := 0.
Definition RT_TABLE_DEFAULT : Z := 253.
Definition RT_TABLE_MAIN : Z := 254.
Definition RT_TABLE_LOCAL : Z := 255.
Definition FR_ACT_TO_TBL : Z := 1.
Definition RTPROT_KERNEL : Z := 2.

Section manager.
Context `{ByteOrder} `{KernelSupport} `{Addresses}.

(** ** The tables *)

(** The comparison in _rules_obj_equal () and _rules_data_equal (). *)
Definition rule_equal (a b : RuleObject) : bool :=
  nm_platform_routing_rule_cmp NM_PLATFORM_ROUTING_RULE_CMP_TYPE_ID a b =? 0.

Definition _rules_data_equal (a b : RulesData) : bool :=
  (rd_user_tag a =? rd_user_tag b) && rule_equal (rd_obj a) (rd_obj b).

Definition _rules_obj_equal (a b : RulesObjData) : bool := rule_equal (od_obj a) (od_obj b).

Definition _rules_user_tag_equal (a b : RulesUserTagData) : bool := ud_user_tag a =? ud_user_tag b.

Definition _rules_data_lookup (t : gmap positive RulesData) (obj : RuleObject) (user_tag : Z) : option (positive * RulesData) :=
  g_hash_table_lookup (_rules_data_equal (mk_rules_data obj user_tag 0 false false)) t.

(** g_hash_table_lookup (by_obj, &obj): a RulesObjData begins with its object. *)
Definition by_obj_lookup (t : gmap positive RulesObjData) (obj : RuleObject) : option (positive * RulesObjData) :=
  g_hash_table_lookup (_rules_obj_equal (mk_obj_data obj [] CONFIG_STATE_NONE)) t.

Definition by_user_tag_lookup (t : gmap positive RulesUserTagData) (user_tag : Z) : option (positive * RulesUserTagData) :=
  g_hash_table_lookup (_rules_user_tag_equal (mk_tag_data user_tag [])) t.

(** The structures of a list. *)
Definition list_data (t : gmap positive RulesData) (lst : list positive) : option (list RulesData) :=
  mapM (fun p => t !! p) lst.

(** ** The winner among the trackings of a rule *)

Definition best_step (rd_best : option RulesData) (rules_data : RulesData) : option RulesData :=
  match rd_best with
  | Some best =>
    if rd_track_priority_val rules_data <? rd_track_priority_val best then rd_best
    else if (rd_track_priority_val best =? rd_track_priority_val rules_data)
            && (rd_track_priority_present best || negb (rd_track_priority_present rules_data)) then rd_best
    else Some rules_data
  | None => Some rules_data
  end.

Definition best_of (l : list RulesData) : option RulesData := fold_left best_step l None.

Definition _rules_obj_get_best_data (t : gmap positive RulesData) (obj_data : RulesObjData) : option (option RulesData) :=
  best_of <$> list_data t (od_lst obj_data).

(** ** Track and untrack *)

Definition _rules_data_untrack (t : RulesTables) (p : positive) (remove_user_tag_data make_owned_by_us : bool)
    : option RulesTables :=
  rules_data ← by_data t !! p;
  '(po, obj_data) ← by_obj_lookup (by_obj t) (rd_obj rules_data);
  '(pu, user_tag_data) ← by_user_tag_lookup (by_user_tag t) (rd_user_tag rules_data);
  let obj_data' :=
    if make_owned_by_us && bool_decide (od_config_state obj_data = CONFIG_STATE_NONE)
    then set_state CONFIG_STATE_OWNED_BY_US obj_data else obj_data in
  let tags :=
    if negb make_owned_by_us && (remove_user_tag_data && bool_decide (length (ud_lst user_tag_data) = 1%nat))
    then delete pu (by_user_tag t) else by_user_tag t in
  let objs :=
    if bool_decide (od_config_state obj_data' = CONFIG_STATE_NONE) && bool_decide (length (od_lst obj_data) = 1%nat)
    then delete po (by_obj t) else <[po := obj_data']> (by_obj t) in
  Some (mk_tables (delete p (by_data t))
                  (od_relink (c_list_unlink p) <$> objs)
                  (ud_relink (c_list_unlink p) <$> tags)).

(** The element of a key, added if there is none. *)
Definition lookup_or_add {A} (found : option (positive * A)) (t : gmap positive A) (new : A) : positive * A :=
  match found with Some e => e | None => (g_slice_new t, new) end.

Definition track_new (t : RulesTables) (routing_rule : NMPlatformRoutingRule) (val : Z) (present : bool) (user_tag : Z) : RulesTables :=
  let rules_data := mk_rules_data (nm_dedup_multi_index_obj_intern routing_rule) user_tag val present false in
  let p := g_slice_new (by_data t) in
  let '(po, obj_data) := lookup_or_add (by_obj_lookup (by_obj t) (rd_obj rules_data)) (by_obj t)
                           (mk_obj_data (rd_obj rules_data) [] CONFIG_STATE_NONE) in
  let '(pu, user_tag_data) := lookup_or_add (by_user_tag_lookup (by_user_tag t) user_tag) (by_user_tag t)
                                (mk_tag_data user_tag []) in
  mk_tables (<[p := rules_data]> (by_data t))
            (<[po := od_relink (fun l => l ++ [p]) obj_data]> (by_obj t))
            (<[pu := ud_relink (fun l => l ++ [p]) user_tag_data]> (by_user_tag t)).

(** The branch of a rule that is already tracked with the tag: only a change is
    written back, and it is not dirty any more. *)
Definition retrack (val : Z) (present : bool) (rd : RulesData) : RulesData :=
  mk_rules_data (rd_obj rd) (rd_user_tag rd) val present false.

Definition nmp_rules_manager_track (self : NMPRulesManager) (routing_rule : NMPlatformRoutingRule) (track_priority : Z)
    (user_tag user_tag_untrack : Z) : option NMPRulesManager :=
  if user_tag =? 0 then Some self
  else
    let t := _rules_init self in
    let '(track_priority_val, track_priority_present) :=
      if 0 <=? track_priority then (track_priority, true) else (- track_priority, false) in
    let t :=
      match _rules_data_lookup (by_data t) (nmp_object_stackinit routing_rule) user_tag with
      | None => track_new t routing_rule track_priority_val track_priority_present user_tag
      | Some (p, rules_data) =>
        mk_tables (<[p := retrack track_priority_val track_priority_present rules_data]> (by_data t))
                  (by_obj t) (by_user_tag t)
      end in
    t ← if (negb (user_tag_untrack =? 0)) && negb (user_tag =? user_tag_untrack) then
          match _rules_data_lookup (by_data t) (nmp_object_stackinit routing_rule) user_tag_untrack with
          | Some (p, _) => _rules_data_untrack t p false true
          | None => Some t
          end
        else Some t;
    Some (mk_manager (ref_count self) (Some t)).

Definition nmp_rules_manager_untrack (self : NMPRulesManager) (routing_rule : NMPlatformRoutingRule) (user_tag : Z)
    : option NMPRulesManager :=
  if user_tag =? 0 then Some self
  else
    let t := _rules_init self in
    t ← match _rules_data_lookup (by_data t) (nmp_object_stackinit routing_rule) user_tag with
        | Some (p, _) => _rules_data_untrack t p true false
        | None => Some t
        end;
    Some (mk_manager (ref_count self) (Some t)).

(** A function of the tables does nothing before they are initialized. *)
Definition on_tables (f : RulesTables -> option RulesTables) (self : NMPRulesManager) : option NMPRulesManager :=
  match tables self with
  | None => Some self
  | Some t => t' ← f t; Some (mk_manager (ref_count self) (Some t'))
  end.

Definition set_dirty_data (rd : RulesData) : RulesData :=
  mk_rules_data (rd_obj rd) (rd_user_tag rd) (rd_track_priority_val rd) (rd_track_priority_present rd) true.

Definition nmp_rules_manager_set_dirty (self : NMPRulesManager) (user_tag : Z) : option NMPRulesManager :=
  if user_tag =? 0 then Some self
  else on_tables (fun t =>
    match by_user_tag_lookup (by_user_tag t) user_tag with
    | None => Some t
    | Some (_, user_tag_data) =>
      data ← foldl (fun data p => data ← data; rules_data ← data !! p; Some (<[p := set_dirty_data rules_data]> data))
               (Some (by_data t)) (ud_lst user_tag_data);
      Some (mk_tables data (by_obj t) (by_user_tag t))
    end) self.

Definition untrack_all_step (all : bool) (t : option RulesTables) (p : positive) : option RulesTables :=
  t ← t;
  rules_data ← by_data t !! p;
  if all || rd_dirty rules_data then _rules_data_untrack t p false false else Some t.

Definition nmp_rules_manager_untrack_all (self : NMPRulesManager) (user_tag : Z) (all : bool) : option NMPRulesManager :=
  if user_tag =? 0 then Some self
  else on_tables (fun t =>
    match by_user_tag_lookup (by_user_tag t) user_tag with
    | None => Some t
    | Some (pu, user_tag_data) =>
      t ← foldl (untrack_all_step all) (Some t) (ud_lst user_tag_data);
      user_tag_data ← by_user_tag t !! pu;
      Some (if bool_decide (ud_lst user_tag_data = [])
            then mk_tables (by_data t) (by_obj t) (delete pu (by_user_tag t)) else t)
    end) self.

(** ** Sync *)

Section sync.
Context {P : Type} `{Platform P}.

(** nm_platform_lookup_obj (platform, NMP_CACHE_ID_TYPE_OBJECT_TYPE, obj) *)
Definition nm_platform_lookup_obj (platform : P) (obj : RuleObject) : option NMPlatformRoutingRule :=
  find (fun rule => rule_equal obj (nm_dedup_multi_index_obj_intern rule)) (nm_platform_rules platform).

(** What the first loop does with a rule of the platform that is tracked: the
    new state, and whether to delete the rule. *)
Definition sync_present (keep_deleted_rules : bool) (rd_best : option RulesData) (s : ConfigState) : ConfigState * bool :=
  let delete_rule s := if keep_deleted_rules then (s, false) else (CONFIG_STATE_REMOVED_BY_US, true) in
  match rd_best with
  | Some best =>
    if rd_track_priority_present best then
      (if bool_decide (s = CONFIG_STATE_OWNED_BY_US) then CONFIG_STATE_ADDED_BY_US else s, false)
    else if rd_track_priority_val best =? 0 then
      if negb (state_in s CONFIG_STATE_ADDED_BY_US CONFIG_STATE_OWNED_BY_US) then (CONFIG_STATE_NONE, false)
      else delete_rule CONFIG_STATE_NONE
    else delete_rule s
  | None => delete_rule s
  end.

Definition sync_delete_step (keep_deleted_rules : bool) (data : gmap positive RulesData)
    (acc : option (gmap positive RulesObjData * list NMPlatformRoutingRule)) (rule : NMPlatformRoutingRule)
    : option (gmap positive RulesObjData * list NMPlatformRoutingRule) :=
  '(objs, rules_to_delete) ← acc;
  match by_obj_lookup objs (nm_dedup_multi_index_obj_intern rule) with
  | None => Some (objs, rules_to_delete)
  | Some (po, obj_data) =>
    rd_best ← _rules_obj_get_best_data data obj_data;
    let '(s, delete_rule) := sync_present keep_deleted_rules rd_best (od_config_state obj_data) in
    Some (<[po := set_state s obj_data]> objs, if delete_rule : bool then rules_to_delete ++ [rule] else rules_to_delete)
  end.

(** The second loop, for one tracked rule: None if the entry is removed, else
    the new state, and whether to add the rule. *)
Definition sync_tracked (rd_best : option RulesData) (s : ConfigState) (in_platform : bool) : option (ConfigState * bool) :=
  match rd_best with
  | None => None
  | Some best =>
    if negb (rd_track_priority_present best) then
      Some (if bool_decide (s = CONFIG_STATE_OWNED_BY_US) then CONFIG_STATE_REMOVED_BY_US else s, false)
    else if (rd_track_priority_val best =? 0)
            && negb (state_in s CONFIG_STATE_REMOVED_BY_US CONFIG_STATE_OWNED_BY_US) then
      Some (CONFIG_STATE_NONE, false)
    else
      let s := if rd_track_priority_val best =? 0 then CONFIG_STATE_NONE else s in
      if in_platform then Some (s, false) else Some (CONFIG_STATE_ADDED_BY_US, true)
  end.

Definition sync_add_step (data : gmap positive RulesData)
    (acc : option (gmap positive RulesObjData * P)) (po : positive) : option (gmap positive RulesObjData * P) :=
  '(objs, platform) ← acc;
  obj_data ← objs !! po;
  rd_best ← _rules_obj_get_best_data data obj_data;
  let in_platform := match nm_platform_lookup_obj platform (od_obj obj_data) with Some _ => true | None => false end in
  match sync_tracked rd_best (od_config_state obj_data) in_platform with
  | None => Some (delete po objs, platform)
  | Some (s, add_rule) =>
    Some (<[po := set_state s obj_data]> objs,
          if add_rule : bool then nm_platform_routing_rule_add (at_obj (od_obj obj_data)) platform else platform)
  end.

Definition sync_tables (t : RulesTables) (platform : P) (keep_deleted_rules : bool) : option (RulesTables * P) :=
  '(objs, rules_to_delete) ←
    foldl (sync_delete_step keep_deleted_rules (by_data t)) (Some (by_obj t, [])) (nm_platform_rules platform);
  let platform := foldl (fun p o => nm_platform_object_delete o p) platform rules_to_delete in
  '(objs, platform) ← foldl (sync_add_step (by_data t)) (Some (objs, platform)) (map_to_list objs).*1;
  Some (mk_tables (by_data t) objs (by_user_tag t), platform).

Definition nmp_rules_manager_sync (self : NMPRulesManager) (platform : P) (keep_deleted_rules : bool)
    : option (NMPRulesManager * P) :=
  match tables self with
  | None => Some (self, platform)
  | Some t =>
    '(t, platform) ← sync_tables t platform keep_deleted_rules;
    Some (mk_manager (ref_count self) (Some t), platform)
  end.

Definition nmp_rules_manager_track_from_platform (self : NMPRulesManager) (platform : P)
    (addr_family tracking_priority user_tag : Z) : option NMPRulesManager :=
  foldl (fun self rr => self ← self;
           if negb (addr_family =? AF_UNSPEC) && negb (rr_addr_family rr =? addr_family) then Some self
           else nmp_rules_manager_track self rr tracking_priority user_tag 0)
    (Some self) (nm_platform_rules platform).
End sync.

(** The rules of nmp_rules_manager_track_default (): the other fields are zero. *)
Definition default_rule (addr_family priority table : Z) : NMPlatformRoutingRule := {|
  rr_src := replicate 16 x00; rr_dst := replicate 16 x00; rr_tun_id := 0; rr_table := table; rr_flags := 0;
  rr_priority := priority; rr_fwmark := 0; rr_fwmask := 0; rr_goto_target := 0; rr_flow := 0;
  rr_suppress_prefixlen_inverse := 0; rr_suppress_ifgroup_inverse := 0;
  rr_uid_range := {| uid_start := 0; uid_end := 0 |};
  rr_sport_range := {| port_start := 0; port_end := 0 |}; rr_dport_range := {| port_start := 0; port_end := 0 |};
  rr_iifname := []; rr_oifname := []; rr_addr_family := addr_family; rr_action := FR_ACT_TO_TBL; rr_tos := 0;
  rr_src_len := 0; rr_dst_len := 0; rr_l3mdev := 0; rr_protocol := RTPROT_KERNEL; rr_ip_proto := 0;
  rr_uid_range_has := false |}.

Definition default_rules (addr_family : Z) : list NMPlatformRoutingRule :=
  (if (addr_family =? AF_UNSPEC) || (addr_family =? AF_INET) then
     [default_rule AF_INET 0 RT_TABLE_LOCAL; default_rule AF_INET 32766 RT_TABLE_MAIN;
      default_rule AF_INET 32767 RT_TABLE_DEFAULT] else [])
  ++ (if (addr_family =? AF_UNSPEC) || (addr_family =? AF_INET6) then
        [default_rule AF_INET6 0 RT_TABLE_LOCAL; default_rule AF_INET6 32766 RT_TABLE_MAIN] else []).

Definition nmp_rules_manager_track_default (self : NMPRulesManager) (addr_family track_priority user_tag : Z)
    : option NMPRulesManager :=
  foldl (fun self rr => self ← self; nmp_rules_manager_track self rr track_priority user_tag 0)
    (Some self) (default_rules addr_family).
End manager.

(** ** Invariant *)

(** An address holds one object. *)
Class AddressesOk `{Addresses} : Prop := {
  intern_ptr_inj : forall a b, intern_ptr a = intern_ptr b -> a = b;
  intern_ptr_stack : forall a, intern_ptr a <> stack_ptr
}.

(** A rule of a known address family; others are no rules the kernel takes. *)
Definition valid_rule (rule : NMPlatformRoutingRule) : Prop := af_valid (rr_addr_family rule) = true.

(** The members of a rule's identity. *)
Definition rule_id `{KernelSupport} (rule : NMPlatformRoutingRule) : kval :=
  routing_rule_key NM_PLATFORM_ROUTING_RULE_CMP_TYPE_ID (mk_at 0 rule).

Section invariant.
Context `{ByteOrder} `{KernelSupport} `{Addresses} `{!AddressesOk}.

Definition obj_ok (o : RuleObject) : Prop :=
  o = nm_dedup_multi_index_obj_intern (at_obj o) /\ valid_rule (at_obj o).

(** Weakly tracked rules are tracked for being present. *)
Definition data_ok (d : RulesData) : Prop :=
  obj_ok (rd_obj d) /\ rd_user_tag d <> 0 /\ 0 <= rd_track_priority_val d <= G_MAXINT32 /\
  (rd_track_priority_val d = 0 -> rd_track_priority_present d = true).

Definition data_rule (d : RulesData) : kval := rule_id (at_obj (rd_obj d)).
Definition data_key (d : RulesData) : kval * Z := (data_rule d, rd_user_tag d).
Definition obj_rule (od : RulesObjData) : kval := rule_id (at_obj (od_obj od)).

Record tables_ok (t : RulesTables) : Prop := {
  ok_data p d : by_data t !! p = Some d -> data_ok d;
  ok_data_unique : keys_unique data_key (by_data t);
  ok_obj q od : by_obj t !! q = Some od -> obj_ok (od_obj od) /\ (od_lst od = [] -> od_config_state od <> CONFIG_STATE_NONE);
  ok_by_obj : index_ok data_rule obj_rule od_lst (by_data t) (by_obj t);
  ok_by_user_tag : index_ok rd_user_tag ud_user_tag ud_lst (by_data t) (by_user_tag t)
}.

Definition manager_ok (self : NMPRulesManager) : Prop := tables_ok (_rules_init self).

(** ** Lookups *)

Lemma rule_id_place p rule :
  valid_rule rule -> routing_rule_key NM_PLATFORM_ROUTING_RULE_CMP_TYPE_ID (mk_at p rule) = rule_id rule.
Proof. unfold rule_id, routing_rule_key. cbn [at_obj at_ptr]. by intros ->. Qed.

Lemma rule_equal_id a b :
  (at_ptr a = at_ptr b -> at_obj a = at_obj b) -> valid_rule (at_obj a) -> valid_rule (at_obj b) ->
  rule_equal a b = true <-> rule_id (at_obj a) = rule_id (at_obj b).
Proof.
  intros Hp Ha Hb. destruct a as [p a], b as [q b]. cbn [at_obj at_ptr] in *.
  rewrite <- (rule_id_place p a), <- (rule_id_place q b) by done. unfold rule_equal. rewrite Z.eqb_eq.
  apply (cmp_key_zero (D := stored (fun x => if x =? p then Some a else Some b))); unfold stored; cbn [at_obj at_ptr].
  - by rewrite Z.eqb_refl.
  - destruct (Z.eqb_spec q p) as [E|]; [|done]. by rewrite Hp.
Qed.

(** The object of a lookup: on the stack, or interned. *)
Definition needle (o : RuleObject) : Prop :=
  valid_rule (at_obj o) /\ (at_ptr o = stack_ptr \/ at_ptr o = intern_ptr (at_obj o)).

Lemma needle_equal a b : needle a -> obj_ok b -> rule_equal a b = true <-> rule_id (at_obj b) = rule_id (at_obj a).
Proof.
  intros [Ha Hp] [Hb Hv]. rewrite rule_equal_id; [by split| |done..].
  rewrite Hb. cbn [at_ptr at_obj nm_dedup_multi_index_obj_intern]. destruct Hp as [-> | ->].
  - intros E. by apply eq_sym, intern_ptr_stack in E.
  - apply intern_ptr_inj.
Qed.

Lemma needle_stack rule : valid_rule rule -> needle (nmp_object_stackinit rule).
Proof. split; [done|by left]. Qed.

Lemma needle_interned rule : valid_rule rule -> needle (nm_dedup_multi_index_obj_intern rule).
Proof. split; [done|by right]. Qed.

Lemma needle_obj o : obj_ok o -> needle o.
Proof. intros [-> Hv]. by apply needle_interned. Qed.

Lemma obj_ok_intern rule : valid_rule rule -> obj_ok (nm_dedup_multi_index_obj_intern rule).
Proof. by split. Qed.

(** What a lookup by rule needs of by_obj. *)
Definition objs_ok (objs : gmap positive RulesObjData) : Prop :=
  keys_unique obj_rule objs /\ forall q od, objs !! q = Some od -> obj_ok (od_obj od).

Lemma tables_objs_ok t : tables_ok t -> objs_ok (by_obj t).
Proof. intros Hok. split; [apply Hok|]. intros q od Hq. by apply (ok_obj t Hok) in Hq as [? _]. Qed.

Lemma obj_lookup_Some objs o q od :
  objs_ok objs -> needle o -> by_obj_lookup objs o = Some (q, od) <-> objs !! q = Some od /\ obj_rule od = rule_id (at_obj o).
Proof. intros [Hu Ho] Hn. apply ght_lookup_key; [done|]. intros r e Hr%Ho. by apply needle_equal. Qed.

Lemma obj_lookup_None objs o :
  objs_ok objs -> needle o ->
  by_obj_lookup objs o = None <-> forall q od, objs !! q = Some od -> obj_rule od <> rule_id (at_obj o).
Proof. intros [_ Ho] Hn. apply ght_lookup_absent. intros r e Hr%Ho. by apply needle_equal. Qed.

Section lookups.
Context (t : RulesTables) (Hok : tables_ok t).

Lemma data_lookup_Some o user_tag p d :
  needle o ->
  _rules_data_lookup (by_data t) o user_tag = Some (p, d) <->
  by_data t !! p = Some d /\ data_key d = (rule_id (at_obj o), user_tag).
Proof.
  intros Ho. apply ght_lookup_key; [apply Hok|]. intros q e Hq. apply Hok in Hq as (He & _).
  unfold _rules_data_equal, data_key. cbn [rd_obj rd_user_tag]. rewrite andb_true_iff, Z.eqb_eq, needle_equal by done.
  unfold data_rule. rewrite pair_eq. split; intros [? ?]; split; congruence.
Qed.

Lemma tag_lookup_Some user_tag q ud :
  by_user_tag_lookup (by_user_tag t) user_tag = Some (q, ud) <->
  by_user_tag t !! q = Some ud /\ ud_user_tag ud = user_tag.
Proof.
  apply ght_lookup_key; [apply Hok|]. intros r e Hr. unfold _rules_user_tag_equal. cbn. rewrite Z.eqb_eq. by split.
Qed.

Lemma data_lookup_None o user_tag :
  needle o ->
  _rules_data_lookup (by_data t) o user_tag = None <->
  forall p d, by_data t !! p = Some d -> data_key d <> (rule_id (at_obj o), user_tag).
Proof.
  intros Ho. apply ght_lookup_absent. intros q e Hq. apply Hok in Hq as (He & _).
  unfold _rules_data_equal, data_key. cbn [rd_obj rd_user_tag]. rewrite andb_true_iff, Z.eqb_eq, needle_equal by done.
  unfold data_rule. rewrite pair_eq. split; intros [? ?]; split; congruence.
Qed.

Lemma tag_lookup_None user_tag :
  by_user_tag_lookup (by_user_tag t) user_tag = None <-> forall q ud, by_user_tag t !! q = Some ud -> ud_user_tag ud <> user_tag.
Proof. apply ght_lookup_absent. intros r e Hr. unfold _rules_user_tag_equal. cbn. rewrite Z.eqb_eq. by split. Qed.

(** Every address in a list is allocated. *)
Lemma list_data_Some q od :
  by_obj t !! q = Some od ->
  exists l, list_data (by_data t) (od_lst od) = Some l /\
            Forall2 (fun p d => by_data t !! p = Some d) (od_lst od) l.
Proof.
  intros Hq. destruct (list_data (by_data t) (od_lst od)) as [l|] eqn:E.
  - exists l. split; [done|]. by apply mapM_Some in E.
  - exfalso. apply mapM_None, Exists_exists in E as (p & Hp & Hn).
    eapply (ix_member _ _ _ _ _ (ok_by_obj t Hok)) in Hp as (d & Hd & _); [|done]. congruence.
Qed.
End lookups.

(** ** The abstract state: trackings by rule and tag, and a state by rule *)

Definition tracking (t : RulesTables) (rule : NMPlatformRoutingRule) (user_tag : Z) : option (Z * bool * bool) :=
  (fun e => (rd_track_priority_val e.2, rd_track_priority_present e.2, rd_dirty e.2))
  <$> _rules_data_lookup (by_data t) (nmp_object_stackinit rule) user_tag.

Definition state_in_table (objs : gmap positive RulesObjData) (rule : NMPlatformRoutingRule) : ConfigState :=
  match by_obj_lookup objs (nmp_object_stackinit rule) with Some (_, od) => od_config_state od | None => CONFIG_STATE_NONE end.

Definition state_of (t : RulesTables) (rule : NMPlatformRoutingRule) : ConfigState := state_in_table (by_obj t) rule.

Lemma tracking_Some t rule user_tag x :
  tables_ok t -> valid_rule rule ->
  tracking t rule user_tag = Some x <->
  exists p d, by_data t !! p = Some d /\ data_key d = (rule_id rule, user_tag) /\
              x = (rd_track_priority_val d, rd_track_priority_present d, rd_dirty d).
Proof.
  intros Hok Hv. unfold tracking. rewrite fmap_Some. split.
  - intros ([p d] & Hl & ->). apply data_lookup_Some in Hl as [Hd Hk]; [|done|by apply needle_stack]. by exists p, d.
  - intros (p & d & Hd & Hk & ->). exists (p, d). split; [|done]. apply data_lookup_Some; [done|by apply needle_stack|done].
Qed.

Lemma state_in_table_eq objs rule q od :
  objs_ok objs -> valid_rule rule -> objs !! q = Some od -> obj_rule od = rule_id rule ->
  state_in_table objs rule = od_config_state od.
Proof.
  intros Hok Hv Hq Hk. unfold state_in_table.
  by rewrite (proj2 (obj_lookup_Some objs _ q od Hok (needle_stack rule Hv)) (conj Hq Hk)).
Qed.

Lemma state_in_table_absent objs rule :
  objs_ok objs -> valid_rule rule -> (forall q od, objs !! q = Some od -> obj_rule od <> rule_id rule) ->
  state_in_table objs rule = CONFIG_STATE_NONE.
Proof.
  intros Hok Hv Hn. unfold state_in_table.
  by rewrite (proj2 (obj_lookup_None objs _ Hok (needle_stack rule Hv)) Hn).
Qed.

(** Where the entry of a rule is. *)
Lemma entry_cases (objs : gmap positive RulesObjData) (k : kval) :
  (exists (q : positive) od, objs !! q = Some od /\ obj_rule od = k) \/ (forall (q : positive) od, objs !! q = Some od -> obj_rule od <> k).
Proof.
  destruct (list_find (fun x => obj_rule x.2 = k) (map_to_list objs)) as [[i [q od]]|] eqn:E.
  - left. apply list_find_Some in E as (Hi & Hk & _). apply list_elem_of_lookup_2, elem_of_map_to_list in Hi. eauto.
  - right. intros q od Hq Hk. apply list_find_None in E. apply elem_of_map_to_list in Hq.
    rewrite Forall_forall in E. by apply (E _ Hq).
Qed.

(** A table with other elements, entry by entry: where each state comes from. *)
Lemma state_in_table_change (objs objs' : gmap positive RulesObjData) rule (f : positive -> RulesObjData -> option RulesObjData) :
  objs_ok objs -> objs_ok objs' -> valid_rule rule ->
  (forall q, objs' !! q = objs !! q ≫= f q) -> (forall q od od', f q od = Some od' -> obj_rule od' = obj_rule od) ->
  (forall q od, objs !! q = Some od -> obj_rule od <> rule_id rule) /\ state_in_table objs' rule = CONFIG_STATE_NONE /\
    state_in_table objs rule = CONFIG_STATE_NONE \/
  (exists (q : positive) od, objs !! q = Some od /\ obj_rule od = rule_id rule /\ state_in_table objs rule = od_config_state od /\
     state_in_table objs' rule = match f q od with Some od' => od_config_state od' | None => CONFIG_STATE_NONE end).
Proof.
  intros Hok Hok' Hv Hl Hf. destruct (entry_cases objs (rule_id rule)) as [(q & od & Hq & Hk)|Hn].
  - right. exists q, od. split_and!; [done|done|by eapply state_in_table_eq|]. destruct (f q od) as [od'|] eqn:E.
    + apply (state_in_table_eq objs' rule q); [done|done| |by rewrite (Hf q od od' E)]. by rewrite Hl, Hq.
    + apply state_in_table_absent; [done..|]. intros r od' Hr Hk'. rewrite Hl in Hr.
      apply bind_Some in Hr as (od0 & Hr & Hf0). rewrite (Hf _ _ _ Hf0) in Hk'.
      assert (r = q) as -> by (eapply Hok; [done..|congruence]). congruence.
  - left. split_and!; [done| |by apply state_in_table_absent]. apply state_in_table_absent; [done..|].
    intros r od' Hr Hk'. rewrite Hl in Hr. apply bind_Some in Hr as (od0 & Hr & Hf0). rewrite (Hf _ _ _ Hf0) in Hk'. by eapply Hn.
Qed.
End invariant.
