(* ===== verification/RulesTrack.v ===== *)
(** * The manager of policy routing rules: track and untrack

    What nmp_rules_manager_track (), untrack, set_dirty and untrack_all do to the
    abstract state of RulesManager: the trackings by rule and tag, and a state by
    rule. *)

From S2P Require Import Bytes CmpOrder IpAddr NMHash PlatformLink PlatformRule HashTable RulesManager.

(** ** Untrack *)

Section untrack.
Context `{ByteOrder} `{KernelSupport} `{Addresses} `{!AddressesOk}.

(** The state after the release of a tracking. *)
Definition released (own : bool) (s : ConfigState) : ConfigState :=
  if own && bool_decide (s = CONFIG_STATE_NONE) then CONFIG_STATE_OWNED_BY_US else s.

(** The entries of a tracking. *)
Lemma data_entries t p rd :
  tables_ok t -> by_data t !! p = Some rd ->
  exists po od pu ud,
    by_obj_lookup (by_obj t) (rd_obj rd) = Some (po, od) /\ by_obj t !! po = Some od /\ obj_rule od = data_rule rd /\
    p ∈ od_lst od /\
    by_user_tag_lookup (by_user_tag t) (rd_user_tag rd) = Some (pu, ud) /\ by_user_tag t !! pu = Some ud /\ p ∈ ud_lst ud.
Proof.
  intros Hok Hp. pose proof (ok_data t Hok p rd Hp) as (Ho & _).
  destruct (ix_cover _ _ _ _ _ (ok_by_obj t Hok) p rd Hp) as (po & od & Hpo & Hk).
  destruct (ix_cover _ _ _ _ _ (ok_by_user_tag t Hok) p rd Hp) as (pu & ud & Hpu & Hu).
  exists po, od, pu, ud. split_and!; [|done|done| | |done|].
  - apply obj_lookup_Some; [by apply tables_objs_ok|by apply needle_obj|done].
  - eapply (ix_member _ _ _ _ _ (ok_by_obj t Hok)); [done|eauto].
  - by apply tag_lookup_Some.
  - eapply (ix_member _ _ _ _ _ (ok_by_user_tag t Hok)); [done|eauto].
Qed.

(** What untracking does to an entry of by_obj. *)
Definition untrack_entry (p po : positive) (own : bool) (q : positive) (od : RulesObjData) : option RulesObjData :=
  let od' := od_relink (c_list_unlink p) (if decide (q = po) then set_state (released own (od_config_state od)) od else od) in
  if decide (q = po) then
    if bool_decide (od_config_state od' = CONFIG_STATE_NONE) && bool_decide (od_lst od' = []) then None else Some od'
  else Some od'.

Lemma untrack_entry_obj p po own q od od' : untrack_entry p po own q od = Some od' ->
  od_obj od' = od_obj od /\ od_lst od' = c_list_unlink p (od_lst od).
Proof. unfold untrack_entry. intros Hs. repeat case_match; simplify_eq; done. Qed.

Lemma untrack_run t p rd rm own :
  tables_ok t -> by_data t !! p = Some rd ->
  exists po od t',
    by_obj t !! po = Some od /\ obj_rule od = data_rule rd /\
    _rules_data_untrack t p rm own = Some t' /\ by_data t' = delete p (by_data t) /\
    (forall q, by_obj t' !! q = by_obj t !! q ≫= untrack_entry p po own q) /\
    index_ok rd_user_tag ud_user_tag ud_lst (by_data t') (by_user_tag t') /\
    (rm = false -> by_user_tag t' = ud_relink (c_list_unlink p) <$> by_user_tag t).
Proof.
  intros Hok Hp. destruct (data_entries t p rd Hok Hp) as (po & od & pu & ud & Hlo & Hpo & Hko & Hmo & Hlu & Hpu & Hmu).
  exists po, od. eexists.
  split_and!;
    [done|done|unfold _rules_data_untrack; rewrite Hp; cbn; rewrite Hlo; cbn; rewrite Hlu; cbn; reflexivity|reflexivity|..].
  - intros q. cbn [by_obj]. rewrite lookup_fmap.
    assert (Hlen : bool_decide (length (od_lst od) = 1%nat) = bool_decide (c_list_unlink p (od_lst od) = [])).
    { apply bool_decide_ext, unlink_last; [by eapply (ix_nodup _ _ _ _ _ (ok_by_obj t Hok))|done]. }
    rewrite Hlen. fold (released own (od_config_state od)).
    assert (Hs : (if own && bool_decide (od_config_state od = CONFIG_STATE_NONE)
                  then set_state CONFIG_STATE_OWNED_BY_US od else od) = set_state (released own (od_config_state od)) od)
      by (unfold released; destruct (own && _), od; done).
    rewrite Hs. unfold untrack_entry. destruct (decide (q = po)) as [->|Hq].
    + rewrite Hpo. cbn. match goal with |- context [if ?b then None else _] => destruct b end;
        [by rewrite lookup_delete_eq|by rewrite lookup_insert_eq].
    + match goal with |- context [if ?b then delete _ _ else _] => destruct b end;
        [rewrite lookup_delete_ne by done|rewrite lookup_insert_ne by done]; by destruct (by_obj t !! q).
  - cbn [by_data by_user_tag].
    assert (Hix : index_ok rd_user_tag ud_user_tag ud_lst (delete p (by_data t)) (ud_relink (c_list_unlink p) <$> by_user_tag t))
      by (apply index_remove; [apply Hok|done]).
    match goal with |- context [if ?b then delete _ _ else _] => destruct b eqn:E end; [|done]. rewrite fmap_delete. eapply index_change; [exact Hix| |].
    + intros q y [_ Hy]%lookup_delete_Some. eauto.
    + intros q x Hq. destruct (decide (q = pu)) as [->|]; [|right; rewrite lookup_delete_ne by done; eauto]. left.
      rewrite lookup_fmap, Hpu in Hq. cbn in Hq. injection Hq as <-. cbn [ud_relink ud_lst].
      apply unlink_last; [by eapply (ix_nodup _ _ _ _ _ (ok_by_user_tag t Hok))|done|]. by bools.
  - intros ->. cbn [by_user_tag]. by rewrite andb_false_l, andb_false_r.
Qed.

Lemma untrack_objs_ok t t' p po own :
  tables_ok t -> (forall q, by_obj t' !! q = by_obj t !! q ≫= untrack_entry p po own q) -> objs_ok (by_obj t').
Proof.
  intros Hok Hl. pose proof (tables_objs_ok t Hok) as [Hu Ho]. split.
  - intros q r x y Hx Hy. rewrite Hl in Hx, Hy. apply bind_Some in Hx as (a & Ha & Hx), Hy as (b & Hb & Hy).
    apply untrack_entry_obj in Hx as [Hx _], Hy as [Hy _]. unfold obj_rule. rewrite Hx, Hy. by apply Hu.
  - intros q x Hx. rewrite Hl in Hx. apply bind_Some in Hx as (a & Ha & Hx). apply untrack_entry_obj in Hx as [-> _]. by eapply Ho.
Qed.

Lemma untrack_states t t' p po od own rule :
  tables_ok t -> (forall q, by_obj t' !! q = by_obj t !! q ≫= untrack_entry p po own q) ->
  by_obj t !! po = Some od -> valid_rule rule ->
  state_of t' rule = if decide (rule_id rule = obj_rule od) then released own (state_of t rule) else state_of t rule.
Proof.
  intros Hok Hl Hpo Hv. pose proof (untrack_objs_ok t t' p po own Hok Hl) as Hok'. pose proof (tables_objs_ok t Hok) as Hoko.
  unfold state_of.
  destruct (state_in_table_change (by_obj t) (by_obj t') rule (untrack_entry p po own)) as [(Hn & -> & ->)|(q & a & Ha & Hka & -> & ->)];
    [done..|intros q a a' [E _]%untrack_entry_obj; unfold obj_rule; by rewrite E| |].
  - case_decide as E; [|done]. by destruct (Hn po od Hpo).
  - assert (Hiff : q = po <-> rule_id rule = obj_rule od).
    { split; [intros ->; congruence|]. intros E. eapply Hoko; [done..|congruence]. }
    unfold untrack_entry. destruct (decide (q = po)), (decide (rule_id rule = obj_rule od)); try tauto.
    match goal with |- context [if ?b then None else _] => destruct b eqn:E end; [|done]. by bools.
Qed.

(** Untracking removes one tracking and, with [own], marks its rule. *)
Lemma untrack_effect t p rd rm own :
  tables_ok t -> by_data t !! p = Some rd ->
  exists t', _rules_data_untrack t p rm own = Some t' /\ tables_ok t' /\ by_data t' = delete p (by_data t) /\
    (forall rule, valid_rule rule ->
       state_of t' rule = if decide (rule_id rule = data_rule rd) then released own (state_of t rule) else state_of t rule) /\
    (rm = false -> by_user_tag t' = ud_relink (c_list_unlink p) <$> by_user_tag t).
Proof.
  intros Hok Hp. destruct (untrack_run t p rd rm own Hok Hp) as (po & od & t' & Hpo & Hk & Hrun & Hd & Hl & Htag & Hrm).
  pose proof (untrack_objs_ok t t' p po own Hok Hl) as Hok'. pose proof (tables_objs_ok t Hok) as Hoko.
  exists t'. split_and!; [done| |done| |done].
  - split.
    + intros q d. rewrite Hd. intros [_ Hq]%lookup_delete_Some. by apply (ok_data t Hok q).
    + rewrite Hd. apply keys_unique_delete, Hok.
    + intros q x Hx. split; [by eapply Hok'|]. rewrite Hl in Hx. apply bind_Some in Hx as (a & Ha & Hx).
      unfold untrack_entry in Hx. destruct (decide (q = po)) as [->|Hq].
      * case_match eqn:E; simplify_eq. intros Hnil Hst. rewrite Hnil, Hst in E. done.
      * injection Hx as <-. cbn. intros Hnil Hst. destruct (ok_obj t Hok q a Ha) as [_ Hne]. apply Hne; [|done].
        assert (Hnp : p ∉ od_lst a).
        { intros Hin. eapply (ix_member _ _ _ _ _ (ok_by_obj t Hok)) in Hin as (d & Hpd & Hkd); [|done]. simplify_eq.
          apply Hq. eapply (ix_unique _ _ _ _ _ (ok_by_obj t Hok)); [done..|congruence]. }
        destruct (od_lst a) as [|x l]; [done|]. exfalso. assert (x ∈ c_list_unlink p (x :: l)) as Hin.
        { apply elem_of_unlink. split; [|by left]. intros ->. apply Hnp. by left. }
        rewrite Hnil in Hin. by apply elem_of_nil in Hin.
    + rewrite Hd. eapply (index_change _ _ _ _ (od_relink (c_list_unlink p) <$> by_obj t)); [apply index_remove; [apply Hok|done]|..].
      * intros q y Hy. rewrite Hl in Hy. apply bind_Some in Hy as (a & Ha & Hy). exists (od_relink (c_list_unlink p) a).
        rewrite lookup_fmap, Ha. apply untrack_entry_obj in Hy as [Hy1 Hy2]. unfold obj_rule. by rewrite Hy1, Hy2.
      * intros q x Hq. rewrite lookup_fmap in Hq. apply fmap_Some in Hq as (a & Ha & ->). rewrite Hl, Ha. cbn.
        unfold untrack_entry. case_decide; [|right; eauto]. case_match eqn:E; [left|right; eauto]. bools. done.
    + done.
  - intros rule Hv. rewrite <- Hk. by eapply untrack_states.
Qed.
End untrack.

(** ** Track *)

Section track.
Context `{ByteOrder} `{KernelSupport} `{Addresses} `{!AddressesOk}.

(** Trackings change, but neither their rules nor their tags. *)
Lemma data_change_ok t data :
  tables_ok t -> (forall p, data_key <$> data !! p = data_key <$> by_data t !! p) ->
  (forall p d, data !! p = Some d -> data_ok d) -> tables_ok (mk_tables data (by_obj t) (by_user_tag t)).
Proof.
  intros Hok Hk Hd. split; cbn; [done| |apply Hok|..].
  - intros p q d e Hp Hq E. assert (Hin : forall p d, data !! p = Some d -> data_key <$> by_data t !! p = Some (data_key d))
      by (intros r x Hr; by rewrite <- Hk, Hr).
    apply Hin, fmap_Some in Hp as (d' & Hp & Hd'), Hq as (e' & Hq & He'). eapply (ok_data_unique t Hok); [done..|congruence].
  - eapply index_same_keys; [apply Hok|]. intros p. specialize (Hk p). apply (f_equal (fmap fst)) in Hk.
    by rewrite <- !option_fmap_compose in Hk.
  - eapply index_same_keys; [apply Hok|]. intros p. specialize (Hk p). apply (f_equal (fmap snd)) in Hk.
    by rewrite <- !option_fmap_compose in Hk.
Qed.

(** The trackings of tables with one element more, less or changed. *)
Lemma tracking_insert t t' p e rule user_tag :
  tables_ok t -> tables_ok t' -> by_data t' = <[p:=e]> (by_data t) ->
  (forall d, by_data t !! p = Some d -> data_key e = data_key d) -> valid_rule rule ->
  tracking t' rule user_tag =
  if decide (data_key e = (rule_id rule, user_tag))
  then Some (rd_track_priority_val e, rd_track_priority_present e, rd_dirty e) else tracking t rule user_tag.
Proof.
  intros Hok Hok' Hd Hk Hv. apply option_eq. intros x. rewrite tracking_Some by done. rewrite Hd.
  destruct (decide (data_key e = (rule_id rule, user_tag))) as [He|He].
  - split; [|intros [= <-]; exists p, e; by rewrite lookup_insert_eq]. intros (q & d & Hq & Hdk & ->).
    assert (q = p) as ->; [|rewrite lookup_insert_eq in Hq; congruence].
    eapply (ok_data_unique t' Hok'); rewrite ?Hd; [done|by rewrite lookup_insert_eq|congruence].
  - rewrite tracking_Some by done. split; intros (q & d & Hq & Hdk & ->); exists q, d; split_and!; try done.
    + apply lookup_insert_Some in Hq as [[<- <-]|[_ Hq]]; [congruence|done].
    + rewrite lookup_insert_ne; [done|]. intros <-. apply He. rewrite (Hk d); [done|done].
Qed.

Lemma tracking_delete t t' p d rule user_tag :
  tables_ok t -> tables_ok t' -> by_data t' = delete p (by_data t) -> by_data t !! p = Some d -> valid_rule rule ->
  tracking t' rule user_tag =
  if decide (data_key d = (rule_id rule, user_tag)) then None else tracking t rule user_tag.
Proof.
  intros Hok Hok' Hd Hp Hv. apply option_eq. intros x. rewrite tracking_Some by done. rewrite Hd.
  destruct (decide (data_key d = (rule_id rule, user_tag))) as [He|He].
  - split; [|done]. intros (q & e & [Hne Hq]%lookup_delete_Some & Hek & _). exfalso. apply Hne.
    eapply (ok_data_unique t Hok); [done..|congruence].
  - rewrite tracking_Some by done. split; intros (q & e & Hq & Hek & ->); exists q, e; split_and!; try done.
    + by apply lookup_delete_Some in Hq as [_ Hq].
    + rewrite lookup_delete_ne; [done|]. intros <-. congruence.
Qed.

Lemma tracking_None t rule user_tag :
  tables_ok t -> valid_rule rule ->
  tracking t rule user_tag = None <-> _rules_data_lookup (by_data t) (nmp_object_stackinit rule) user_tag = None.
Proof. intros Hok Hv. unfold tracking. by rewrite fmap_None. Qed.

(** The entry of a key, which may be new. *)
Lemma lookup_or_add_entry {A K} (key : A -> K) found (t : gmap positive A) new k q x :
  lookup_or_add found t new = (q, x) ->
  (forall r y, found = Some (r, y) -> t !! r = Some y /\ key y = k) ->
  (found = None -> forall r y, t !! r = Some y -> key y <> k) -> key new = k ->
  key x = k /\ (t !! q = Some x \/ t !! q = None /\ x = new /\ (forall r y, t !! r = Some y -> key y <> k)).
Proof.
  intros Hl Hs Hn Hk. destruct found as [[r y]|]; cbn in Hl; injection Hl as <- <-.
  - destruct (Hs r y eq_refl). split; [done|by left].
  - split; [done|right]. split_and!; [apply g_slice_new_None|done|by apply Hn].
Qed.

Lemma track_new_effect t rule val present user_tag :
  tables_ok t -> valid_rule rule -> user_tag <> 0 -> 0 <= val <= G_MAXINT32 -> (val = 0 -> present = true) ->
  tracking t rule user_tag = None ->
  let t' := track_new t rule val present user_tag in
  tables_ok t' /\
  by_data t' = <[g_slice_new (by_data t) := mk_rules_data (nm_dedup_multi_index_obj_intern rule) user_tag val present false]>
                 (by_data t) /\
  (forall r, valid_rule r -> state_of t' r = state_of t r).
Proof.
  intros Hok Hv Htag Hval Hp Hnone. cbv zeta. unfold track_new.
  set (o := nm_dedup_multi_index_obj_intern rule). set (rd := mk_rules_data o user_tag val present false).
  set (p := g_slice_new (by_data t)). change (rd_obj rd) with o.
  destruct (lookup_or_add (by_obj_lookup _ _) _ _) as [po od] eqn:Eo.
  destruct (lookup_or_add (by_user_tag_lookup _ _) _ _) as [pu ud] eqn:Eu.
  assert (Ho : needle o) by by apply needle_interned. pose proof (tables_objs_ok t Hok) as Hoko.
  apply (lookup_or_add_entry obj_rule _ _ _ (rule_id rule)) in Eo as [Hko Hpo];
    [|intros q x; by apply obj_lookup_Some|by apply obj_lookup_None|done].
  apply (lookup_or_add_entry ud_user_tag _ _ _ user_tag) in Eu as [Hku Hpu];
    [|intros q x; by apply tag_lookup_Some|by apply tag_lookup_None|done].
  assert (Hfresh : by_data t !! p = None) by apply g_slice_new_None.
  assert (Hok' : tables_ok (mk_tables (<[p:=rd]> (by_data t)) (<[po:=od_relink (fun l => l ++ [p]) od]> (by_obj t))
                              (<[pu:=ud_relink (fun l => l ++ [p]) ud]> (by_user_tag t)))).
  { split; cbn.
    - intros q d [[<- <-]|[_ Hq]]%lookup_insert_Some; [|by eapply Hok]. split; [by apply obj_ok_intern|done].
    - apply keys_unique_insert_new; [apply Hok|]. intros q d Hq Hkd. rewrite tracking_None, data_lookup_None in Hnone
        by first [done|by apply needle_stack]. by eapply Hnone.
    - intros q x [[<- <-]|[_ Hq]]%lookup_insert_Some; [|by eapply Hok]. cbn. split; [|by intros [_ ?]%app_nil].
      destruct Hpo as [Hpo|(_ & -> & _)]; [by apply Hoko in Hpo|by apply obj_ok_intern].
    - eapply index_add; [apply Hok|done|exact Hko| |done|done]. destruct Hpo as [Hpo|(Hpo & -> & Hn)]; [by left|by right].
    - eapply index_add; [apply Hok|done|exact Hku| |done|done]. destruct Hpu as [Hpu|(Hpu & -> & Hn)]; [by left|by right]. }
  split_and!; [done|done|]. intros r Hr. unfold state_of. cbn [by_obj].
  pose proof (tables_objs_ok _ Hok') as Hoko'. cbn [by_obj] in Hoko'.
  destruct (decide (rule_id r = rule_id rule)) as [E|E].
  - rewrite (state_in_table_eq _ r po (od_relink (fun l => l ++ [p]) od)) 
      by first [by rewrite lookup_insert_eq|by rewrite E|done].
    destruct Hpo as [Hpo|(Hpo & -> & Hn)]; [rewrite (state_in_table_eq (by_obj t) r po od) by congruence; done|].
    rewrite state_in_table_absent by (rewrite ?E; done). done.
  - destruct (entry_cases (by_obj t) (rule_id r)) as [(q & x & Hq & Hx)|Hn].
    + assert (q <> po) by (intros ->; destruct Hpo as [Hpo|(Hpo & _)]; congruence).
      rewrite (state_in_table_eq _ r q x), (state_in_table_eq (by_obj t) r q x) by (rewrite ?lookup_insert_ne; done). done.
    + rewrite (state_in_table_absent (by_obj t)) by done. apply state_in_table_absent; [done..|].
      intros q x [[<- <-]|[_ Hq]]%lookup_insert_Some; [|by eapply Hn]. by rewrite <- Hko in E.
Qed.
End track.

(** ** The public functions *)

Section functions.
Context `{ByteOrder} `{KernelSupport} `{Addresses} `{!AddressesOk}.

Definition tracking_of (self : NMPRulesManager) := tracking (_rules_init self).
Definition manager_state (self : NMPRulesManager) := state_of (_rules_init self).

Lemma empty_tables_ok : tables_ok (mk_tables ∅ ∅ ∅).
Proof. by split; cbn; [..|split|split]. Qed.

Lemma new_manager_ok : manager_ok nmp_rules_manager_new.
Proof. apply empty_tables_ok. Qed.

Lemma tracking_tag_0 t rule : tables_ok t -> valid_rule rule -> tracking t rule 0 = None.
Proof.
  intros Hok Hv. apply eq_None_not_Some. intros [x (p & d & Hp & [_ Hk]%pair_eq & _)%tracking_Some]; [|done..].
  by apply (ok_data t Hok) in Hp as (_ & Hn & _).
Qed.

(** The new or updated tracking of nmp_rules_manager_track (). *)
Lemma track_one t rule val present user_tag :
  tables_ok t -> valid_rule rule -> user_tag <> 0 -> 0 <= val <= G_MAXINT32 -> (val = 0 -> present = true) ->
  let t' := match _rules_data_lookup (by_data t) (nmp_object_stackinit rule) user_tag with
            | None => track_new t rule val present user_tag
            | Some (p, rules_data) => mk_tables (<[p := retrack val present rules_data]> (by_data t)) (by_obj t) (by_user_tag t)
            end in
  tables_ok t' /\
  (forall r u, valid_rule r -> tracking t' r u =
     if decide (rule_id r = rule_id rule /\ u = user_tag) then Some (val, present, false) else tracking t r u) /\
  (forall r, valid_rule r -> state_of t' r = state_of t r).
Proof.
  intros Hok Hv Htag Hval Hp. cbv zeta.
  destruct (_rules_data_lookup _ _ _) as [[p rd]|] eqn:El.
  - apply data_lookup_Some in El as [Hd Hk]; [|done|by apply needle_stack]. cbn in Hk.
    assert (Hk' : data_key (retrack val present rd) = data_key rd) by done.
    assert (Hok' : tables_ok (mk_tables (<[p:=retrack val present rd]> (by_data t)) (by_obj t) (by_user_tag t))).
    { apply data_change_ok; [done|..].
      - intros q. destruct (decide (q = p)) as [->|]; [by rewrite lookup_insert_eq, Hd|by rewrite lookup_insert_ne].
      - intros q d [[<- <-]|[_ Hq]]%lookup_insert_Some; [|by eapply Hok].
        apply (ok_data t Hok) in Hd as (Ho & Ht & _). exact (conj Ho (conj Ht (conj Hval Hp))). }
    split_and!; [done| |done]. intros r u Hr. rewrite (tracking_insert t _ p (retrack val present rd) r u); [|done..|congruence|done].
    apply decide_ext. rewrite Hk', Hk, pair_eq. split; intros []; done.
  - destruct (track_new_effect t rule val present user_tag) as (Hok' & Hd & Hst); [done..|by apply tracking_None|].
    split_and!; [done| |done]. intros r u Hr.
    rewrite (tracking_insert t _ _ _ r u Hok Hok' Hd); [|by rewrite g_slice_new_None|done].
    apply decide_ext. unfold data_key. cbn. rewrite pair_eq. split; intros []; done.
Qed.

(** Untracking by rule and tag, if they are tracked. *)
Lemma untrack_one t rule user_tag rm own :
  tables_ok t -> valid_rule rule ->
  exists t', match _rules_data_lookup (by_data t) (nmp_object_stackinit rule) user_tag with
             | Some (p, _) => _rules_data_untrack t p rm own
             | None => Some t
             end = Some t' /\ tables_ok t' /\
  (forall r u, valid_rule r ->
     tracking t' r u = if decide (rule_id r = rule_id rule /\ u = user_tag) then None else tracking t r u) /\
  (forall r, valid_rule r ->
     state_of t' r = if decide (rule_id r = rule_id rule /\ tracking t rule user_tag <> None)
                     then released own (state_of t r) else state_of t r).
Proof.
  intros Hok Hv. destruct (_rules_data_lookup _ _ _) as [[p rd]|] eqn:El.
  - assert (Htr : tracking t rule user_tag <> None) by (rewrite tracking_None, El; done).
    apply data_lookup_Some in El as [Hd Hk]; [|done|by apply needle_stack]. cbn in Hk.
    destruct (untrack_effect t p rd rm own Hok Hd) as (t' & -> & Hok' & Hd' & Hst & _). exists t'. split_and!; [done..| |].
    + intros r u Hr. rewrite (tracking_delete t t' p rd) by done. apply decide_ext. rewrite Hk, pair_eq. split; intros []; done.
    + intros r Hr. rewrite (Hst r Hr). apply pair_eq in Hk as [Hk _]. rewrite Hk.
      do 2 case_decide; tauto.
  - exists t. assert (Htr : tracking t rule user_tag = None) by by apply tracking_None.
    split_and!; [done..| |]; intros r; [intros u|]; intros Hr; case_decide as E; try done; [|tauto].
    destruct E as [E ->]. apply eq_None_not_Some. intros [x Hx]. apply tracking_Some in Hx as (p & d & Hp & Hk & _); [|done..].
    rewrite data_lookup_None in El by first [done|by apply needle_stack]. apply (El p d Hp). cbn. congruence.
Qed.

(** Cases on which rule and tag a tracking has. *)
Ltac by_keys := repeat case_decide; first [done|tauto|intuition congruence].

(** What nmp_rules_manager_track () is to do: set the tracking of the rule with the
    tag, remove the one with the other tag if there is one, and then mark a rule
    in no other state as owned. *)
Definition track_result (self : NMPRulesManager) rule track_priority user_tag user_tag_untrack (self' : NMPRulesManager) : Prop :=
  manager_ok self' /\
  (forall r u, valid_rule r ->
     tracking_of self' r u =
       if decide (rule_id r = rule_id rule) then
         if u =? user_tag then Some (Z.abs track_priority, 0 <=? track_priority, false)
         else if u =? user_tag_untrack then None
         else tracking_of self r u
       else tracking_of self r u) /\
  (forall r, valid_rule r ->
     manager_state self' r =
       if decide (rule_id r = rule_id rule /\ user_tag_untrack <> user_tag /\
                  tracking_of self rule user_tag_untrack <> None /\ manager_state self r = CONFIG_STATE_NONE)
       then CONFIG_STATE_OWNED_BY_US else manager_state self r).

Lemma track_effect self rule track_priority user_tag user_tag_untrack :
  manager_ok self -> valid_rule rule -> user_tag <> 0 -> G_MININT32 < track_priority <= G_MAXINT32 ->
  exists self', nmp_rules_manager_track self rule track_priority user_tag user_tag_untrack = Some self' /\
    track_result self rule track_priority user_tag user_tag_untrack self'.
Proof.
  intros Hok Hv Htag Hprio. unfold nmp_rules_manager_track. rewrite (proj2 (Z.eqb_neq _ _) Htag).
  set (t := _rules_init self). change (tables_ok t) in Hok.
  assert (Hvp : (if 0 <=? track_priority then (track_priority, true) else (- track_priority, false))
                = (Z.abs track_priority, 0 <=? track_priority)) by (case_ifs; f_equal; lia).
  rewrite Hvp. cbv beta iota.
  destruct (track_one t rule (Z.abs track_priority) (0 <=? track_priority) user_tag) as (Hok1 & Htr1 & Hst1); [done..|lia|lia|].
  set (t1 := match _ with None => _ | Some _ => _ end) in *.
  destruct (untrack_one t1 rule user_tag_untrack false true Hok1 Hv) as (t2 & Hrun & Hok2 & Htr2 & Hst2).
  assert (Htr : forall r u, valid_rule r -> tracking t1 r u =
            if decide (rule_id r = rule_id rule /\ u = user_tag) then Some (Z.abs track_priority, 0 <=? track_priority, false)
            else tracking t r u).
  { intros r u Hr. rewrite Htr1 by done. by_keys. }
  assert (Huntag : tracking t1 rule user_tag_untrack =
            if decide (user_tag_untrack = user_tag) then Some (Z.abs track_priority, 0 <=? track_priority, false)
            else tracking t rule user_tag_untrack).
  { rewrite Htr by done. by_keys. }
  destruct (decide (user_tag_untrack = 0 \/ user_tag_untrack = user_tag)) as [Hskip|Hdo].
  - exists (mk_manager (ref_count self) (Some t1)). unfold track_result, manager_ok, tracking_of, manager_state. cbn. fold t. split_and!; [|done|..].
    + by destruct (Z.eqb_spec user_tag_untrack 0), (Z.eqb_spec user_tag user_tag_untrack); try (exfalso; lia).
    + intros r u Hr. rewrite Htr by done. destruct (decide (rule_id r = rule_id rule)); [|by_keys].
      destruct (Z.eqb_spec u user_tag); [by_keys|]. destruct (Z.eqb_spec u user_tag_untrack) as [->|]; [|by_keys].
      rewrite decide_False by tauto. destruct Hskip as [->|]; [by apply tracking_tag_0|congruence].
    + intros r Hr. rewrite Hst1 by done. rewrite decide_False; [done|]. intros (_ & Hn & Ht & _).
      destruct Hskip as [->|]; [|done]. by apply Ht, tracking_tag_0.
  - exists (mk_manager (ref_count self) (Some t2)). unfold track_result, manager_ok, tracking_of, manager_state. cbn. fold t. split_and!; [|done|..].
    + destruct (Z.eqb_spec user_tag_untrack 0), (Z.eqb_spec user_tag user_tag_untrack); try (exfalso; lia). cbn. by rewrite Hrun.
    + intros r u Hr. rewrite Htr2, Htr by done. destruct (decide (rule_id r = rule_id rule)); [|by_keys].
      destruct (Z.eqb_spec u user_tag), (Z.eqb_spec u user_tag_untrack); by_keys.
    + intros r Hr. rewrite Hst2, Hst1, Huntag by done. unfold released. cbn [andb].
      repeat case_bool_decide; by_keys.
Qed.

(** nmp_rules_manager_untrack () removes the tracking of the rule with the
    tag and keeps all others, the state of every rule and the tables well-formed. *)
Lemma rules_untrack_spec self rule user_tag :
  manager_ok self -> valid_rule rule ->
  exists self', nmp_rules_manager_untrack self rule user_tag = Some self' /\ manager_ok self' /\
    (forall r u, valid_rule r ->
       tracking_of self' r u = if decide (rule_id r = rule_id rule /\ u = user_tag) then None else tracking_of self r u) /\
    (forall r, valid_rule r -> manager_state self' r = manager_state self r).
Proof.
  intros Hok Hv. unfold nmp_rules_manager_untrack. destruct (Z.eqb_spec user_tag 0) as [->|Htag].
  - exists self. split_and!; [done..| |done]. intros r u Hr. case_decide as E; [|done]. destruct E as [_ ->]. by apply tracking_tag_0.
  - destruct (untrack_one (_rules_init self) rule user_tag true false Hok Hv) as (t' & -> & Hok' & Htr & Hst).
    exists (mk_manager (ref_count self) (Some t')). unfold manager_ok, tracking_of, manager_state. cbn. split_and!; [done..| |].
    + intros r u Hr. rewrite Htr by done. by_keys.
    + intros r Hr. rewrite Hst by done. by case_decide.
Qed.
End functions.

(** ** Set dirty, untrack all *)

Section all.
Context `{ByteOrder} `{KernelSupport} `{Addresses} `{!AddressesOk}.

Lemma set_dirty_loop l : forall data : gmap positive RulesData,
  (forall p, p ∈ l -> is_Some (data !! p)) ->
  exists data', foldl (fun data p => data ← data; rules_data ← data !! p; Some (<[p := set_dirty_data rules_data]> data))
                  (Some data) l = Some data' /\
    forall q, data' !! q = (if decide (q ∈ l) then set_dirty_data else id) <$> data !! q.
Proof.
  induction l as [|p l IH]; intros data Hl; cbn.
  - exists data. split; [done|]. intros q. by rewrite option_fmap_id.
  - destruct (Hl p (list_elem_of_here _ _)) as [d Hd]. rewrite Hd. cbn.
    destruct (IH (<[p := set_dirty_data d]> data)) as (data' & -> & Hd').
    { intros q Hq. destruct (decide (q = p)) as [->|]; [by rewrite lookup_insert_eq|rewrite lookup_insert_ne by done].
      apply Hl. by right. }
    exists data'. split; [done|]. intros q. rewrite Hd'. destruct (decide (q = p)) as [->|Hne].
    + rewrite lookup_insert_eq, Hd, (decide_True (P := p ∈ p :: l)) by left. cbn. by case_decide.
    + rewrite lookup_insert_ne by done. f_equal. apply decide_ext. rewrite elem_of_cons. tauto.
Qed.

(** What a tracking looks like once it is dirty. *)
Definition dirty_tracking (x : Z * bool * bool) : Z * bool * bool := let '(val, present, _) := x in (val, present, true).

(** The members of a tag. *)
Lemma tag_members t user_tag pu ud p d :
  tables_ok t -> by_user_tag_lookup (by_user_tag t) user_tag = Some (pu, ud) -> by_data t !! p = Some d ->
  p ∈ ud_lst ud <-> rd_user_tag d = user_tag.
Proof.
  intros Hok Hl Hp. apply tag_lookup_Some in Hl as [Hu Hk]; [|done].
  rewrite (ix_member _ _ _ _ _ (ok_by_user_tag t Hok) pu ud p Hu). split; [intros (e & He & Hek); congruence|intros Hd; exists d; split; congruence].
Qed.

Lemma tracking_empty rule user_tag : tracking (mk_tables ∅ ∅ ∅) rule user_tag = None.
Proof. done. Qed.

Lemma tag_untracked t rule user_tag :
  tables_ok t -> valid_rule rule -> by_user_tag_lookup (by_user_tag t) user_tag = None -> tracking t rule user_tag = None.
Proof.
  intros Hok Hv Hl. apply eq_None_not_Some. intros [x (p & d & Hp & [_ Hk]%pair_eq & _)%tracking_Some]; [|done..].
  destruct (ix_cover _ _ _ _ _ (ok_by_user_tag t Hok) p d Hp) as (q & ud & Hq & Hu). cbn in Hk.
  rewrite tag_lookup_None in Hl by done. apply (Hl q ud Hq). congruence.
Qed.

(** The trackings of tables with other elements, entry by entry. *)
Definition data_view (d : RulesData) : Z * bool * bool :=
  (rd_track_priority_val d, rd_track_priority_present d, rd_dirty d).

Lemma tracking_change t t' (f : positive -> RulesData -> option RulesData) (g : Z * bool * bool -> option (Z * bool * bool)) r u :
  tables_ok t -> tables_ok t' -> valid_rule r ->
  (forall q, by_data t' !! q = by_data t !! q ≫= f q) ->
  (forall q d d', f q d = Some d' -> data_key d' = data_key d) ->
  (forall q d, by_data t !! q = Some d -> rd_user_tag d = u -> data_view <$> f q d = g (data_view d)) ->
  tracking t' r u = tracking t r u ≫= g.
Proof.
  intros Hok Hok' Hr Hd Hf Hg. apply option_eq. intros x. rewrite bind_Some. setoid_rewrite tracking_Some; [|done..]. split.
  - intros (p & d & Hp & Hk & ->). rewrite Hd in Hp. apply bind_Some in Hp as (e & He & Hfe).
    pose proof (Hf p e d Hfe) as Hke. exists (data_view e). split; [exists p, e; split_and!; [done|congruence|done]|].
    rewrite <- (Hg p e He), Hfe; [done|]. by apply pair_eq in Hk as [_ <-]; apply pair_eq in Hke as [_ ->].
  - intros (y & (p & e & He & Hk & ->) & Hx). pose proof Hk as [_ Hu]%pair_eq. specialize (Hg p e He Hu).
    change (g (data_view e) = Some x) in Hx. rewrite Hx in Hg. apply fmap_Some in Hg as (d & Hfe & ->).
    exists p, d. rewrite Hd, He. split_and!; [done|by rewrite (Hf p e d)|done].
Qed.

(** Before the tables are initialized there is nothing to do; after, the theorem
    is one of the tables. *)
Lemma on_tables_spec f self (P : RulesTables -> RulesTables -> Prop) :
  manager_ok self -> P (mk_tables ∅ ∅ ∅) (mk_tables ∅ ∅ ∅) ->
  (forall t, tables_ok t -> exists t', f t = Some t' /\ tables_ok t' /\ P t t') ->
  exists self', on_tables f self = Some self' /\ manager_ok self' /\ P (_rules_init self) (_rules_init self').
Proof.
  unfold manager_ok, on_tables, _rules_init. intros Hok HP Hf. destruct (tables self) as [t|] eqn:Et.
  - destruct (Hf t Hok) as (t' & -> & Hok' & Ht). by exists (mk_manager (ref_count self) (Some t')).
  - exists self. by rewrite Et.
Qed.

(** The relation of the states before and after a function that changes the
    trackings with a tag and no state. *)
Definition tag_changed (user_tag : Z) (g : Z * bool * bool -> option (Z * bool * bool)) (t t' : RulesTables) : Prop :=
  (forall r u, valid_rule r -> tracking t' r u = if u =? user_tag then tracking t r u ≫= g else tracking t r u) /\
  (forall r, valid_rule r -> state_of t' r = state_of t r).

Lemma tag_changed_empty user_tag g : tag_changed user_tag g (mk_tables ∅ ∅ ∅) (mk_tables ∅ ∅ ∅).
Proof. split; [|done]. intros r u Hr. by destruct (u =? user_tag). Qed.

Lemma tag_changed_absent t user_tag g :
  tables_ok t -> (user_tag = 0 \/ by_user_tag_lookup (by_user_tag t) user_tag = None) -> tag_changed user_tag g t t.
Proof.
  intros Hok Habs. split; [|done]. intros r u Hr. destruct (Z.eqb_spec u user_tag) as [->|]; [|done].
  assert (tracking t r user_tag = None) as ->; [|done].
  destruct Habs as [->|]; [by apply tracking_tag_0|by apply tag_untracked].
Qed.

(** nmp_rules_manager_set_dirty () marks the trackings with the tag, and
    nothing else. *)
Lemma rules_set_dirty_spec self user_tag :
  manager_ok self ->
  exists self', nmp_rules_manager_set_dirty self user_tag = Some self' /\ manager_ok self' /\
    tag_changed user_tag (fun x => Some (dirty_tracking x)) (_rules_init self) (_rules_init self').
Proof.
  intros Hok. unfold nmp_rules_manager_set_dirty. destruct (Z.eqb_spec user_tag 0) as [->|Htag].
  { exists self. split_and!; [done..|]. apply tag_changed_absent; [done|by left]. }
  apply on_tables_spec; [done|apply tag_changed_empty|]. clear self Hok. intros t Hok.
  destruct (by_user_tag_lookup (by_user_tag t) user_tag) as [[pu ud]|] eqn:El; cbn.
  2:{ exists t. split_and!; [done..|]. apply tag_changed_absent; [done|by right]. }
  destruct (set_dirty_loop (ud_lst ud) (by_data t)) as (data & -> & Hd).
  { intros p Hp. apply tag_lookup_Some in El as [Hu _]; [|done].
    apply (ix_member _ _ _ _ _ (ok_by_user_tag t Hok) pu ud p Hu) in Hp as (d & Hp & _). eauto. }
  assert (Hok' : tables_ok (mk_tables data (by_obj t) (by_user_tag t))).
  { apply data_change_ok; [done|..].
    - intros p. rewrite Hd. destruct (by_data t !! p); [|done]. cbn. by case_decide.
    - intros p d Hp. rewrite Hd in Hp. apply fmap_Some in Hp as (e & He & ->). apply (ok_data t Hok) in He. by case_decide. }
  eexists. split_and!; [done..|]. split; [|done]. intros r u Hr.
  rewrite (tracking_change t _ (fun q d => Some ((if decide (q ∈ ud_lst ud) then set_dirty_data else id) d))
             (fun x => Some (if u =? user_tag then dirty_tracking x else x))); try done.
  - destruct (u =? user_tag); [done|]. by destruct (tracking t r u).
  - intros q d d' [= <-]. by case_decide.
  - intros q d Hq <-. pose proof (tag_members t user_tag pu ud q d Hok El Hq). cbn.
    destruct (Z.eqb_spec (rd_user_tag d) user_tag); case_decide; tauto.
Qed.

(** ** Untrack all *)

Lemma untrack_all_loop all l : forall t,
  tables_ok t -> NoDup l -> (forall p, p ∈ l -> is_Some (by_data t !! p)) ->
  exists t', foldl (untrack_all_step all) (Some t) l = Some t' /\ tables_ok t' /\
    (forall q, by_data t' !! q =
       by_data t !! q ≫= (fun d => if decide (q ∈ l) then (if all || rd_dirty d then None else Some d) else Some d)) /\
    (forall r, valid_rule r -> state_of t' r = state_of t r) /\
    (forall pu, ud_user_tag <$> by_user_tag t' !! pu = ud_user_tag <$> by_user_tag t !! pu).
Proof.
  induction l as [|p l IH]; intros t Hok Hnd Hl; cbn.
  - exists t. split_and!; [done..| |done|done]. intros q. by destruct (by_data t !! q).
  - apply NoDup_cons in Hnd as [Hnp Hnd]. destruct (Hl p (list_elem_of_here _ _)) as [d Hd]. rewrite Hd. cbn.
    assert (Hstep : exists t1, (if all || rd_dirty d then _rules_data_untrack t p false false else Some t) = Some t1 /\ tables_ok t1 /\
              by_data t1 = (if all || rd_dirty d then delete p (by_data t) else by_data t) /\
              (forall r, valid_rule r -> state_of t1 r = state_of t r) /\
              (forall pu, ud_user_tag <$> by_user_tag t1 !! pu = ud_user_tag <$> by_user_tag t !! pu)).
    { destruct (all || rd_dirty d); [|by exists t].
      destruct (untrack_effect t p d false false Hok Hd) as (t1 & -> & Hok1 & Hd1 & Hst & Htag). exists t1. split_and!; [done..| |].
      - intros r Hr. rewrite Hst by done. by case_decide.
      - intros pu. rewrite Htag, lookup_fmap by done. by destruct (by_user_tag t !! pu). }
    destruct Hstep as (t1 & -> & Hok1 & Hd1 & Hst1 & Htag1).
    destruct (IH t1) as (t' & -> & Hok' & Hd' & Hst' & Htag'); [done|done| |].
    { intros q Hq. rewrite Hd1. assert (q <> p) by (by intros ->). case_match; [rewrite lookup_delete_ne by done|]; apply Hl; by right. }
    exists t'. split_and!; [done|done| | |].
    + intros q. rewrite Hd', Hd1. destruct (decide (q = p)) as [->|Hne].
      * rewrite Hd. cbn. rewrite (decide_True (P := p ∈ p :: l)) by apply list_elem_of_here.
        destruct (all || rd_dirty d) eqn:E; [by rewrite lookup_delete_eq|]. rewrite Hd. cbn. rewrite E. by case_decide.
      * transitivity (by_data t !! q ≫= (fun d => if decide (q ∈ l) then (if all || rd_dirty d then None else Some d) else Some d)).
        { case_match; by rewrite ?lookup_delete_ne. }
        destruct (by_data t !! q); [|done]. cbn. apply decide_ext. rewrite elem_of_cons. tauto.
    + intros r Hr. by rewrite Hst', Hst1.
    + intros pu. by rewrite Htag', Htag1.
Qed.

(** nmp_rules_manager_untrack_all () removes the trackings with the tag, all of
    them or the dirty ones, and changes nothing else: with set_dirty before
    tracking anew, what was not tracked anew is gone. *)
Lemma rules_untrack_all_spec self user_tag all :
  manager_ok self ->
  exists self', nmp_rules_manager_untrack_all self user_tag all = Some self' /\ manager_ok self' /\
    tag_changed user_tag (fun x => let '(_, dirty) := x in if all || dirty then None else Some x)
      (_rules_init self) (_rules_init self').
Proof.
  intros Hok. unfold nmp_rules_manager_untrack_all. destruct (Z.eqb_spec user_tag 0) as [->|Htag].
  { exists self. split_and!; [done..|]. apply tag_changed_absent; [done|by left]. }
  apply on_tables_spec; [done|apply tag_changed_empty|]. clear self Hok. intros t Hok.
  destruct (by_user_tag_lookup (by_user_tag t) user_tag) as [[pu ud]|] eqn:El; cbn.
  2:{ exists t. split_and!; [done..|]. apply tag_changed_absent; [done|by right]. }
  pose proof El as [Hu _]%tag_lookup_Some; [|done].
  destruct (untrack_all_loop all (ud_lst ud) t Hok) as (t' & -> & Hok' & Hd & Hst & Htags).
  { by eapply (ix_nodup _ _ _ _ _ (ok_by_user_tag t Hok)). }
  { intros p Hp. apply (ix_member _ _ _ _ _ (ok_by_user_tag t Hok) pu ud p Hu) in Hp as (d & Hp & _). eauto. }
  assert (Hchanged : tag_changed user_tag (fun x => let '(_, dirty) := x in if all || dirty then None else Some x) t t').
  { split; [|done]. intros r u Hr.
    rewrite (tracking_change t t' (fun q d => if decide (q ∈ ud_lst ud) then (if all || rd_dirty d then None else Some d) else Some d)
               (fun x => if u =? user_tag then (let '(_, dirty) := x in if all || dirty then None else Some x) else Some x)); try done.
    - destruct (u =? user_tag); [done|]. by destruct (tracking t r u).
    - intros q d d' E. by repeat case_match; simplify_eq.
    - intros q d Hq <-. pose proof (tag_members t user_tag pu ud q d Hok El Hq).
      destruct (Z.eqb_spec (rd_user_tag d) user_tag); case_decide; try tauto. cbn. by destruct (all || rd_dirty d). }
  specialize (Htags pu). rewrite Hu in Htags. apply fmap_Some in Htags as (ud' & Hu' & _). cbn. rewrite Hu'. cbn.
  case_bool_decide as Hnil; [|by exists t']. eexists. split_and!; [done| |done]. split; cbn; try apply Hok'.
  eapply index_change; [apply Hok'| |].
  - intros q y [_ Hy]%lookup_delete_Some. eauto.
  - intros q x Hq. destruct (decide (q = pu)) as [->|]; [left; congruence|right; rewrite lookup_delete_ne by done; eauto].
Qed.
End all.
