(* ===== verification/RulesSync.v ===== *)
(** * The manager of policy routing rules: sync

    nmp_rules_manager_sync () against an abstract specification: what becomes of
    one rule, from its winning tracking, its state and whether the platform has
    it. *)

From S2P Require Import Bytes CmpOrder IpAddr NMHash PlatformLink PlatformRule HashTable RulesManager RulesTrack.

(** ** The winning tracking *)

(** The order of the winners: by priority, and present before absent. *)
Definition outranked (d best : RulesData) : Prop :=
  rd_track_priority_val d < rd_track_priority_val best \/
  (rd_track_priority_val d = rd_track_priority_val best /\
   (rd_track_priority_present d = true -> rd_track_priority_present best = true)).

#[export] Instance outranked_preorder : PreOrder outranked.
Proof. split; [intros d; right; by split|]. unfold outranked. intros x y z. intuition lia. Qed.

Lemma best_step_spec b x :
  exists best, best_step b x = Some best /\ (best = x \/ b = Some best) /\ outranked x best /\
               (forall d, b = Some d -> outranked d best).
Proof.
  destruct b as [d|]; cbn; [|exists x; split_and!; [done|by left|reflexivity|done]].
  destruct (Z.ltb_spec (rd_track_priority_val x) (rd_track_priority_val d)).
  { exists d. split_and!; [done|by right|by left|intros ? [= ->]; reflexivity]. }
  destruct (Z.eqb_spec (rd_track_priority_val d) (rd_track_priority_val x)); cbn.
  2:{ exists x. split_and!; [done|by left|reflexivity|]. intros ? [= <-]. left. lia. }
  destruct (rd_track_priority_present d) eqn:Ed, (rd_track_priority_present x) eqn:Ex; cbn;
    (exists d + exists x); (split_and!; [done|auto| |intros ? [= <-]]); unfold outranked; rewrite ?Ed, ?Ex; auto.
Qed.

Lemma best_fold l : forall b,
  match fold_left best_step l b with
  | None => b = None /\ l = []
  | Some best => (best ∈ l \/ b = Some best) /\ Forall (fun d => outranked d best) l /\
                 (forall d, b = Some d -> outranked d best)
  end.
Proof.
  induction l as [|x l IH]; intros b; cbn.
  - destruct b as [d|]; [|done]. split_and!; [by right|constructor|intros ? [= ->]; reflexivity].
  - destruct (best_step_spec b x) as (c & -> & Hc & Hx & Hb). specialize (IH (Some c)).
    destruct (fold_left best_step l (Some c)) as [best|]; [|by destruct IH].
    destruct IH as (Hin & Hall & Hcb). specialize (Hcb c eq_refl). rewrite elem_of_cons. split_and!.
    + destruct Hin as [Hin|[= ->]]; [tauto|]. destruct Hc as [->|]; tauto.
    + constructor; [by transitivity c|done].
    + intros d Hd. transitivity c; auto.
Qed.

Lemma best_of_spec l :
  match best_of l with
  | None => l = []
  | Some best => best ∈ l /\ Forall (fun d => outranked d best) l
  end.
Proof.
  unfold best_of. pose proof (best_fold l None) as H. destruct (fold_left best_step l None).
  - destruct H as ([?|?] & ? & _); [by split|done].
  - by destruct H.
Qed.

(** ** The platform *)

(** The kernel.  The rules of the cache are of IPv4 or IPv6 and one per identity,
    whatever is requested.  But a kernel may take a rule for another one, and then
    not add it or delete the other one (tests/test-route.c, _rule_fuzzy_equal ()):
    a request for a rule changes that rule only if the kernel confuses it with no
    rule that it has. *)
Section platform.
Context `{ByteOrder} `{KernelSupport} `{Addresses} `{!AddressesOk}.

Definition ids (rules : list NMPlatformRoutingRule) : list kval := rule_id <$> rules.

Class PlatformOk (P : Type) `{Platform P} := {
  pl_ok : P -> Prop;
  pl_confuses : kval -> kval -> Prop;
  pl_valid p : pl_ok p -> Forall valid_rule (nm_platform_rules p);
  pl_unique p : pl_ok p -> NoDup (ids (nm_platform_rules p));
  pl_delete_ok p r : pl_ok p -> valid_rule r -> pl_ok (nm_platform_object_delete r p);
  pl_add_ok p r : pl_ok p -> valid_rule r -> pl_ok (nm_platform_routing_rule_add r p);
  pl_delete p r : pl_ok p -> valid_rule r -> (forall k, k ∈ ids (nm_platform_rules p) -> k = rule_id r \/ ~ pl_confuses (rule_id r) k) ->
    forall k, k ∈ ids (nm_platform_rules (nm_platform_object_delete r p)) <-> k <> rule_id r /\ k ∈ ids (nm_platform_rules p);
  pl_add p r : pl_ok p -> valid_rule r -> (forall k, k ∈ ids (nm_platform_rules p) -> k = rule_id r \/ ~ pl_confuses (rule_id r) k) ->
    forall k, k ∈ ids (nm_platform_rules (nm_platform_routing_rule_add r p)) <-> k = rule_id r \/ k ∈ ids (nm_platform_rules p)
}.

Context {P : Type} `{PlatformOk P}.
Implicit Types platform : P.

Definition pl_ids platform : list kval := ids (nm_platform_rules platform).

Lemma platform_lookup platform o :
  pl_ok platform -> needle o ->
  match nm_platform_lookup_obj platform o with Some _ => true | None => false end
  = bool_decide (rule_id (at_obj o) ∈ pl_ids platform).
Proof.
  intros Hp Ho. pose proof (pl_valid platform Hp) as Hv. rewrite Forall_forall in Hv. unfold nm_platform_lookup_obj, pl_ids, ids.
  assert (Heq : forall r, r ∈ nm_platform_rules platform ->
            rule_equal o (nm_dedup_multi_index_obj_intern r) = true <-> rule_id r = rule_id (at_obj o)).
  { intros r Hr. apply (needle_equal o); [done|]. by apply obj_ok_intern, Hv. }
  destruct (find _ _) as [r|] eqn:E; symmetry.
  - apply find_some in E as [Hr%list_elem_of_In Hr']. apply bool_decide_eq_true, list_elem_of_fmap.
    exists r. split; [|done]. by apply Heq in Hr'.
  - apply bool_decide_eq_false. intros (r & Hk & Hr)%list_elem_of_fmap. assert (Hn : rule_equal o (nm_dedup_multi_index_obj_intern r) = false)
      by (apply (find_none _ _ E r), list_elem_of_In, Hr).
    by rewrite (proj2 (Heq r Hr)) in Hn.
Qed.

(** The kernel confuses none of these rules. *)
Definition apart (rules : kval -> Prop) : Prop := forall k k', rules k -> rules k' -> k = k' \/ ~ pl_confuses k' k.

Lemma delete_loop_ok dels : forall platform,
  pl_ok platform -> Forall valid_rule dels -> pl_ok (foldl (fun p o => nm_platform_object_delete o p) platform dels).
Proof. induction dels as [|r dels IH]; intros platform Hp Hv; [done|]. apply Forall_cons in Hv as [Hr Hv]. by apply IH; [apply pl_delete_ok|]. Qed.

Lemma delete_loop (known : kval -> Prop) dels : forall platform,
  apart known -> (forall k, k ∈ pl_ids platform \/ k ∈ ids dels -> known k) -> pl_ok platform -> Forall valid_rule dels ->
  let platform' := foldl (fun p o => nm_platform_object_delete o p) platform dels in
  forall k, k ∈ pl_ids platform' <-> k ∉ ids dels /\ k ∈ pl_ids platform.
Proof.
  induction dels as [|r dels IH]; intros platform Ha Hkn Hp Hv; cbn.
  - intros k. unfold ids. cbn. rewrite elem_of_nil. tauto.
  - apply Forall_cons in Hv as [Hr Hv]. assert (Hids : forall k, k ∈ ids (r :: dels) <-> k = rule_id r \/ k ∈ ids dels) by (intros k; apply elem_of_cons).
    assert (Hk : forall k, k ∈ pl_ids (nm_platform_object_delete r platform) <-> k <> rule_id r /\ k ∈ pl_ids platform).
    { apply pl_delete; [done|done|]. intros k Hk. apply Ha; apply Hkn; [by left|]. right. apply Hids. by left. }
    intros k. rewrite IH; [rewrite Hk, Hids; tauto|done| |by apply pl_delete_ok|done].
    intros k' Hk'. apply Hkn. rewrite Hk in Hk'. rewrite Hids. tauto.
Qed.

(** ** The first loop *)

(** The winner of an entry, and the entry after the first loop. *)
Definition winner (data : gmap positive RulesData) (od : RulesObjData) : option RulesData :=
  default None (_rules_obj_get_best_data data od).

Definition bests_ok (data : gmap positive RulesData) (objs : gmap positive RulesObjData) : Prop :=
  forall q od, objs !! q = Some od -> _rules_obj_get_best_data data od = Some (winner data od).

Lemma tables_bests_ok t : tables_ok t -> bests_ok (by_data t) (by_obj t).
Proof.
  intros Hok q od Hq. destruct (list_data_Some t Hok q od Hq) as (l & Hl & _).
  unfold winner. unfold _rules_obj_get_best_data. by rewrite Hl.
Qed.

Definition present_entry (keep : bool) (data : gmap positive RulesData) (od : RulesObjData) : RulesObjData :=
  set_state (sync_present keep (winner data od) (od_config_state od)).1 od.

Definition deletes (keep : bool) (data : gmap positive RulesData) (od : RulesObjData) : bool :=
  (sync_present keep (winner data od) (od_config_state od)).2.

(** Only the state of an entry changes. *)
Lemma objs_set_state (objs : gmap positive RulesObjData) q od s :
  objs_ok objs -> objs !! q = Some od -> objs_ok (<[q := set_state s od]> objs).
Proof.
  intros [Hu Ho] Hq. split; [by eapply keys_unique_replace|]. intros r x [[<- <-]|[_ Hr]]%lookup_insert_Some; [|by eapply Ho].
  exact (Ho q od Hq).
Qed.

Lemma bests_set_state data objs q od s : bests_ok data objs -> objs !! q = Some od -> bests_ok data (<[q := set_state s od]> objs).
Proof. intros Hb Hq r x [[<- <-]|[_ Hr]]%lookup_insert_Some; [|by eapply Hb]. exact (Hb q od Hq). Qed.

Lemma sync_delete_loop keep data rules : forall objs dels,
  objs_ok objs -> bests_ok data objs -> Forall valid_rule rules -> NoDup (ids rules) ->
  exists objs' dels', foldl (sync_delete_step keep data) (Some (objs, dels)) rules = Some (objs', dels ++ dels') /\
    Forall valid_rule dels' /\
    (forall q, objs' !! q = (fun od => if decide (obj_rule od ∈ ids rules) then present_entry keep data od else od) <$> objs !! q) /\
    (forall k, k ∈ ids dels' <->
       k ∈ ids rules /\ exists q od, objs !! q = Some od /\ obj_rule od = k /\ deletes keep data od = true).
Proof.
  induction rules as [|r rules IH]; intros objs dels Hok Hb Hv Hnd; cbn.
  - exists objs, []. rewrite app_nil_r. split_and!; [done|done| |].
    + intros q. rewrite <- (option_fmap_id (objs !! q)) at 1. apply option_fmap_ext. intros od. unfold ids. by case_decide as E; [apply elem_of_nil in E|].
    + intros k. unfold ids. cbn. rewrite elem_of_nil. tauto.
  - apply Forall_cons in Hv as [Hr Hv]. apply NoDup_cons in Hnd as [Hnr Hnd]. fold (ids rules) in Hnr, Hnd.
    assert (Hids : forall k, k ∈ ids (r :: rules) <-> k = rule_id r \/ k ∈ ids rules) by (intros k; apply elem_of_cons).
    destruct (by_obj_lookup objs (nm_dedup_multi_index_obj_intern r)) as [[po od]|] eqn:El.
    + apply obj_lookup_Some in El as [Hpo Hko]; [|done|by apply needle_interned]. cbn in Hko. rewrite (Hb po od Hpo). cbn.
      destruct (sync_present keep (winner data od) (od_config_state od)) as [s del] eqn:Es.
      assert (Hentry : present_entry keep data od = set_state s od) by (unfold present_entry; by rewrite Es).
      assert (Hdel : deletes keep data od = del) by (unfold deletes; by rewrite Es).
      destruct (IH (<[po := set_state s od]> objs) (if del then dels ++ [r] else dels)) as (objs' & dels' & -> & Hvd & Hobjs & Hdels);
        [by eapply objs_set_state|by eapply bests_set_state|done|done|].
      exists objs', ((if del then [r] else []) ++ dels'). split_and!.
      * destruct del; by rewrite ?app_assoc, ?app_nil_r.
      * apply Forall_app. split; [|done]. destruct del; by repeat constructor.
      * intros q. rewrite Hobjs. destruct (decide (q = po)) as [->|Hq].
        { rewrite lookup_insert_eq, Hpo. cbn. f_equal. rewrite decide_False by (by rewrite <- Hko in Hnr).
          rewrite decide_True by (apply Hids; by left). done. }
        rewrite lookup_insert_ne by done. destruct (objs !! q) as [x|] eqn:Hx; [|done]. cbn. f_equal. apply decide_ext.
        rewrite Hids. split; [by right|]. intros [E|]; [|done]. destruct Hq. eapply Hok; [done..|congruence].
      * intros k. unfold ids. rewrite fmap_app, elem_of_app. fold (ids dels') (ids (r :: rules)). rewrite Hdels, Hids.
        split.
        { intros [Hin|(Hin & q & x & Hq & Hk & Hd)].
          - destruct del; [|by apply elem_of_nil in Hin]. apply list_elem_of_singleton in Hin as ->. split; [by left|]. by exists po, od.
          - split; [by right|]. apply lookup_insert_Some in Hq as [[<- <-]|[_ Hq]]; [|by exists q, x].
            exfalso. apply Hnr. rewrite <- Hko. change (obj_rule od = k) in Hk. by rewrite Hk. }
        { intros (Hin & q & x & Hq & Hk & Hd). destruct (decide (q = po)) as [->|Hne].
          - left. simplify_eq. rewrite Hd, Hko. by left.
          - right. destruct Hin as [->|Hin]; [destruct Hne; by eapply Hok; [..|rewrite Hk]|].
            split; [done|]. exists q, x. by rewrite lookup_insert_ne. }
    + destruct (IH objs dels) as (objs' & dels' & -> & Hvd & Hobjs & Hdels); [done..|].
      rewrite obj_lookup_None in El by first [done|by apply needle_interned]. cbn in El.
      exists objs', dels'. split_and!; [done|done| |].
      * intros q. rewrite Hobjs. destruct (objs !! q) as [x|] eqn:Hx; [|done]. cbn. f_equal. apply decide_ext.
        rewrite Hids. split; [by right|]. intros [E|]; [|done]. by destruct (El q x Hx).
      * intros k. rewrite Hdels, Hids. split; intros (Hin & q & x & Hq & Hk & Hd); (split; [|by exists q, x]); [by right|].
        destruct Hin as [->|]; [|done]. by destruct (El q x Hq).
Qed.

(** ** The second loop *)

Definition tracked_entry (data : gmap positive RulesData) platform (od : RulesObjData) : option RulesObjData :=
  (fun x => set_state x.1 od) <$> sync_tracked (winner data od) (od_config_state od) (bool_decide (obj_rule od ∈ pl_ids platform)).

Definition adds (data : gmap positive RulesData) platform (od : RulesObjData) : bool :=
  match sync_tracked (winner data od) (od_config_state od) (bool_decide (obj_rule od ∈ pl_ids platform)) with
  | Some (_, add_rule) => add_rule
  | None => false
  end.

(** One turn of the loop. *)
Lemma sync_add_one data objs platform q od :
  objs_ok objs -> bests_ok data objs -> pl_ok platform -> objs !! q = Some od ->
  exists objs' platform', sync_add_step data (Some (objs, platform)) q = Some (objs', platform') /\
    objs_ok objs' /\ bests_ok data objs' /\ pl_ok platform' /\
    objs' !! q = tracked_entry data platform od /\ (forall r, r <> q -> objs' !! r = objs !! r) /\
    platform' = (if adds data platform od then nm_platform_routing_rule_add (at_obj (od_obj od)) platform else platform).
Proof.
  intros Hok Hb Hp Hq. pose proof (proj2 Hok q od Hq) as Hod. unfold sync_add_step. cbn. rewrite Hq. cbn. rewrite (Hb q od Hq). cbn.
  rewrite platform_lookup by first [done|by apply needle_obj]. fold (obj_rule od). unfold tracked_entry, adds.
  destruct (sync_tracked _ _ _) as [[s add]|]; cbn.
  - exists (<[q := set_state s od]> objs), (if add then nm_platform_routing_rule_add (at_obj (od_obj od)) platform else platform).
    split_and!; [done|by eapply objs_set_state|by eapply bests_set_state|destruct add; [by apply pl_add_ok, Hod|done]|by rewrite lookup_insert_eq| |done].
    intros r Hr. by rewrite lookup_insert_ne.
  - exists (delete q objs), platform. split_and!; [done| | |done|by rewrite lookup_delete_eq| |done].
    + split; [by apply keys_unique_delete, Hok|]. intros r x [_ Hr]%lookup_delete_Some. by apply Hok in Hr.
    + intros r x [_ Hr]%lookup_delete_Some. by apply (Hb r).
    + intros r Hr. by rewrite lookup_delete_ne.
Qed.

(** Whatever the kernel makes of it, each entry is handled once. *)
Lemma sync_add_loop_ok data l : forall objs platform,
  objs_ok objs -> bests_ok data objs -> pl_ok platform -> NoDup l -> (forall q, q ∈ l -> is_Some (objs !! q)) ->
  exists objs' platform', foldl (sync_add_step data) (Some (objs, platform)) l = Some (objs', platform') /\ pl_ok platform' /\
    forall q, exists pl, objs' !! q = objs !! q ≫= (fun od => if decide (q ∈ l) then tracked_entry data pl od else Some od).
Proof.
  induction l as [|q l IH]; intros objs platform Hok Hb Hp Hnd Hl; cbn [foldl].
  - exists objs, platform. split_and!; [done|done|]. intros q. exists platform. by destruct (objs !! q).
  - apply NoDup_cons in Hnd as [Hnq Hnd]. destruct (Hl q (list_elem_of_here _ _)) as [od Hq].
    destruct (sync_add_one data objs platform q od Hok Hb Hp Hq) as (objs1 & pl1 & -> & Hok1 & Hb1 & Hp1 & Hq1 & Hr1 & _).
    destruct (IH objs1 pl1) as (objs' & pl' & -> & Hp' & Hobjs); [done..| |].
    { intros r Hr. rewrite Hr1 by (by intros ->). apply Hl. by right. }
    exists objs', pl'. split_and!; [done|done|]. intros r. destruct (Hobjs r) as [pl E]. rewrite E. destruct (decide (r = q)) as [->|Hne].
    + exists platform. rewrite Hq, Hq1. cbn. rewrite (decide_True (P := q ∈ q :: l)) by apply list_elem_of_here.
      destruct (tracked_entry data platform od); [|done]. cbn. by rewrite decide_False.
    + exists pl. rewrite Hr1 by done. destruct (objs !! r) as [x|]; [|done]. cbn. apply decide_ext. rewrite elem_of_cons. tauto.
Qed.

Lemma tracked_entry_rule data platform od od' : tracked_entry data platform od = Some od' -> obj_rule od' = obj_rule od.
Proof. by intros (x & _ & ->)%fmap_Some. Qed.

Lemma sync_add_loop (known : kval -> Prop) data l : forall objs platform,
  apart known -> (forall k, k ∈ pl_ids platform -> known k) -> (forall q od, objs !! q = Some od -> known (obj_rule od)) ->
  objs_ok objs -> bests_ok data objs -> pl_ok platform -> NoDup l -> (forall q, q ∈ l -> is_Some (objs !! q)) ->
  exists objs' platform', foldl (sync_add_step data) (Some (objs, platform)) l = Some (objs', platform') /\ pl_ok platform' /\
    (forall q, objs' !! q = objs !! q ≫= (fun od => if decide (q ∈ l) then tracked_entry data platform od else Some od)) /\
    (forall k, k ∈ pl_ids platform' <->
       k ∈ pl_ids platform \/ exists q od, q ∈ l /\ objs !! q = Some od /\ obj_rule od = k /\ adds data platform od = true).
Proof.
  induction l as [|q l IH]; intros objs platform Hap Hkp Hko Hok Hb Hp Hnd Hl; cbn [foldl].
  - exists objs, platform. split_and!; [done|done| |].
    + intros q. by destruct (objs !! q).
    + intros k. split; [by left|]. intros [|(q & od & Hq & _)]; [done|by apply elem_of_nil in Hq].
  - apply NoDup_cons in Hnd as [Hnq Hnd]. destruct (Hl q (list_elem_of_here _ _)) as [od Hq].
    destruct (sync_add_one data objs platform q od Hok Hb Hp Hq) as (objs1 & pl1 & -> & Hok1 & Hb1 & Hp1 & Hq1 & Hr1 & Hpl1).
    assert (Hk1 : forall k, k ∈ pl_ids pl1 <-> k ∈ pl_ids platform \/ obj_rule od = k /\ adds data platform od = true).
    { intros k. rewrite Hpl1. destruct (adds data platform od); [|intuition discriminate]. unfold pl_ids. rewrite pl_add; [unfold obj_rule; intuition congruence|done|by apply (proj2 Hok q)|].
      intros k' Hk'. apply Hap; [by apply Hkp|by apply (Hko q)]. }
    destruct (IH objs1 pl1) as (objs' & pl' & -> & Hp' & Hobjs & Hk'); [done| | |done..| |].
    { intros k [Hk|[<- _]]%Hk1; [by apply Hkp|by apply (Hko q)]. }
    { intros r x Hx. destruct (decide (r = q)) as [->|Hne]; [|rewrite Hr1 in Hx by done; by apply (Hko r)].
      rewrite Hq1 in Hx. apply tracked_entry_rule in Hx as ->. by apply (Hko q). }
    { intros r Hr. rewrite Hr1 by (by intros ->). apply Hl. by right. }
    (* what the turn does to the platform is not seen by the entries of other rules *)
    assert (Hsame : forall r x, r <> q -> objs !! r = Some x ->
              bool_decide (obj_rule x ∈ pl_ids pl1) = bool_decide (obj_rule x ∈ pl_ids platform)).
    { intros r x Hne Hr. apply bool_decide_ext. rewrite Hk1. split; [|tauto]. intros [|[E _]]; [done|].
      destruct Hne. by eapply Hok. }
    exists objs', pl'. split_and!; [done|done| |].
    + intros r. rewrite Hobjs. destruct (decide (r = q)) as [->|Hne].
      * rewrite Hq, Hq1. cbn. rewrite (decide_True (P := q ∈ q :: l)) by apply list_elem_of_here.
        destruct (tracked_entry data platform od); [|done]. cbn. by rewrite decide_False.
      * rewrite Hr1 by done. destruct (objs !! r) as [x|] eqn:Hx; [|done]. cbn. unfold tracked_entry. rewrite (Hsame r x) by done.
        apply decide_ext. rewrite elem_of_cons. tauto.
    + intros k. rewrite Hk', Hk1. split.
      * intros [[|[E Ha]]|(r & x & Hr & Hx & E & Ha)]; [by left|right..].
        { exists q, od. by split_and!; [left|..]. }
        assert (r <> q) by (by intros ->). rewrite Hr1 in Hx by done. exists r, x. split_and!; [by right|done..|].
        unfold adds in *. by rewrite (Hsame r x) in Ha.
      * intros [|(r & x & Hr & Hx & E & Ha)]; [tauto|]. destruct (decide (r = q)) as [->|Hne]; [left; right; by simplify_eq|].
        right. apply elem_of_cons in Hr as [|Hr]; [done|]. exists r, x. rewrite Hr1 by done. split_and!; [done..|].
        unfold adds in *. by rewrite (Hsame r x).
Qed.
End platform.

(** ** The abstract specification *)

(** What a sync makes of one rule: from its winning tracking (the priority, and
    whether it is to be present), its state and whether the platform has it, the
    new state and whether the platform has it then. *)
Definition sync_rule (keep_deleted_rules : bool) (best : option (Z * bool)) (s : ConfigState) (present : bool)
    : ConfigState * bool :=
  match best with
  | None => (CONFIG_STATE_NONE, present && (bool_decide (s = CONFIG_STATE_NONE) || keep_deleted_rules))
  | Some (val, true) =>
    if val =? 0 then
      if present then (CONFIG_STATE_NONE, true)
      else if state_in s CONFIG_STATE_REMOVED_BY_US CONFIG_STATE_OWNED_BY_US then (CONFIG_STATE_ADDED_BY_US, true)
      else (CONFIG_STATE_NONE, false)
    else (if negb present || bool_decide (s = CONFIG_STATE_OWNED_BY_US) then CONFIG_STATE_ADDED_BY_US else s, true)
  | Some (_, false) =>
    if present && negb keep_deleted_rules then (CONFIG_STATE_REMOVED_BY_US, false)
    else (if bool_decide (s = CONFIG_STATE_OWNED_BY_US) then CONFIG_STATE_REMOVED_BY_US else s, present)
  end.

Section sync.
Context `{ByteOrder} `{KernelSupport} `{Addresses} `{!AddressesOk}.

(** The winning tracking of a rule: of the highest priority, present before
    absent. *)
Definition wins (t : RulesTables) (rule : NMPlatformRoutingRule) (best : option (Z * bool)) : Prop :=
  match best with
  | None => forall u, tracking t rule u = None
  | Some (val, present) =>
    (exists u dirty, tracking t rule u = Some (val, present, dirty)) /\
    forall u val' present' dirty', tracking t rule u = Some (val', present', dirty') ->
      val' < val \/ (val' = val /\ (present' = true -> present = true))
  end.

Definition prio (d : RulesData) : Z * bool := (rd_track_priority_val d, rd_track_priority_present d).

Lemma winner_wins t q od rule :
  tables_ok t -> valid_rule rule -> by_obj t !! q = Some od -> obj_rule od = rule_id rule ->
  wins t rule (prio <$> winner (by_data t) od) /\
  (winner (by_data t) od = None <-> od_lst od = []) /\
  (forall d, winner (by_data t) od = Some d -> data_ok d).
Proof.
  intros Hok Hv Hq Hk. destruct (list_data_Some t Hok q od Hq) as (l & Hl & Hall).
  unfold winner, _rules_obj_get_best_data. rewrite Hl. cbn.
  assert (Hmem : forall d, d ∈ l <-> exists p, by_data t !! p = Some d /\ data_rule d = rule_id rule).
  { intros d. rewrite <- Hk. split.
    - intros Hd. apply list_elem_of_lookup in Hd as [i Hi]. eapply Forall2_lookup_r in Hi as (p & Hp & Hpd); [|done]. exists p.
      split; [done|]. apply list_elem_of_lookup_2 in Hp.
      eapply (ix_member _ _ _ _ _ (ok_by_obj t Hok)) in Hp as (d' & Hd' & Hk'); [|done]. congruence.
    - intros (p & Hp & Hkd). assert (p ∈ od_lst od) as Hin by (eapply (ix_member _ _ _ _ _ (ok_by_obj t Hok)); eauto).
      apply list_elem_of_lookup in Hin as [i Hi]. eapply Forall2_lookup_l in Hi as (d' & Hd' & Hpd); [|done].
      apply list_elem_of_lookup_2 in Hd'. congruence. }
  pose proof (best_of_spec l) as Hbest. destruct (best_of l) as [d|]; cbn.
  - destruct Hbest as [Hd Hmax]. rewrite Forall_forall in Hmax. apply Hmem in Hd as Hd'. destruct Hd' as (p & Hp & Hkd). split_and!.
    + exists (rd_user_tag d), (rd_dirty d). apply tracking_Some; [done..|]. exists p, d. split_and!; [done|by apply pair_eq|done].
    + intros u v b dirty (p' & e & Hp' & [Hke _]%pair_eq & [= -> -> ->])%tracking_Some; [|done..].
      apply (Hmax e), Hmem. eauto.
    + split; [done|]. intros Hnil. rewrite Hnil in Hall. apply Forall2_nil_inv_l in Hall as ->. by apply elem_of_nil in Hd.
    + intros ? [= <-]. by eapply Hok.
  - subst l. split_and!; [|split; [|done]|done].
    + intros u. apply eq_None_not_Some. intros [x (p & e & Hp & [Hke _]%pair_eq & _)%tracking_Some]; [|done..].
      apply (elem_of_nil (e : RulesData)), Hmem. eauto.
    + intros _. by apply Forall2_nil_inv_r in Hall.
Qed.

(** A rule without an entry. *)
Lemma no_entry_wins t rule :
  tables_ok t -> valid_rule rule -> (forall q od, by_obj t !! q = Some od -> obj_rule od <> rule_id rule) -> wins t rule None.
Proof.
  intros Hok Hv Hn u. apply eq_None_not_Some. intros [x (p & e & Hp & [Hke _]%pair_eq & _)%tracking_Some]; [|done..].
  destruct (ix_cover _ _ _ _ _ (ok_by_obj t Hok) p e Hp) as (q & od & Hq & Hk). by apply (Hn q od Hq), (eq_trans Hk).
Qed.

Context {P : Type} `{Platform P} `{!PlatformOk P}.
Implicit Types platform : P.

(** The loops on the entry of a rule, as in the specification. *)
Definition loops_result (keep : bool) (best : option RulesData) (s : ConfigState) (present : bool) : ConfigState * bool :=
  let '(s, del) := if present then sync_present keep best s else (s, false) in
  let present := present && negb del in
  match sync_tracked best s present with
  | None => (CONFIG_STATE_NONE, present)
  | Some (s, add) => (s, present || add)
  end.

Lemma loops_result_spec keep best s present :
  (forall d, best = Some d -> data_ok d) -> (best = None -> s <> CONFIG_STATE_NONE) ->
  loops_result keep best s present = sync_rule keep (prio <$> best) s present.
Proof.
  intros Hd Hs. destruct best as [d|].
  - destruct (Hd d eq_refl) as (_ & _ & Hval & Hzero). unfold loops_result, sync_rule, sync_present, sync_tracked, prio. cbn.
    destruct (rd_track_priority_present d).
    + destruct (rd_track_priority_val d =? 0), present, s; reflexivity.
    + destruct (Z.eqb_spec (rd_track_priority_val d) 0) as [E|]; [by apply Hzero in E|]. by destruct present, keep, s.
  - specialize (Hs eq_refl). by destruct s, present, keep.
Qed.

(** Both loops on one entry. *)
Definition first_entry keep data platform (od : RulesObjData) : RulesObjData :=
  if decide (obj_rule od ∈ pl_ids platform) then present_entry keep data od else od.
Definition sync_entry keep data platform platform1 (od : RulesObjData) : option RulesObjData :=
  tracked_entry data platform1 (first_entry keep data platform od).

Lemma first_entry_same keep data platform od :
  od_obj (first_entry keep data platform od) = od_obj od /\ od_lst (first_entry keep data platform od) = od_lst od.
Proof. unfold first_entry. by case_decide. Qed.

Lemma sync_entry_same keep data platform platform1 od od' :
  sync_entry keep data platform platform1 od = Some od' -> od_obj od' = od_obj od /\ od_lst od' = od_lst od.
Proof. intros (x & _ & ->)%fmap_Some. apply first_entry_same. Qed.

Lemma sync_entry_gone keep data platform platform1 od :
  sync_entry keep data platform platform1 od = None <-> winner data od = None.
Proof.
  unfold sync_entry, tracked_entry. rewrite fmap_None. unfold first_entry, present_entry. case_decide; cbn [od_config_state set_state];
    change (winner data (set_state ?s od)) with (winner data od); unfold sync_tracked; destruct (winner data od); case_ifs; done.
Qed.

Lemma first_entry_rule keep data platform od : obj_rule (first_entry keep data platform od) = obj_rule od.
Proof. unfold obj_rule. by rewrite (proj1 (first_entry_same _ _ _ _)). Qed.

(** The first loop. *)
Lemma first_loop t platform keep :
  tables_ok t -> pl_ok platform ->
  exists objs dels, foldl (sync_delete_step keep (by_data t)) (Some (by_obj t, [])) (nm_platform_rules platform) = Some (objs, dels) /\
    Forall valid_rule dels /\ objs_ok objs /\ bests_ok (by_data t) objs /\
    (forall q, objs !! q = first_entry keep (by_data t) platform <$> by_obj t !! q) /\
    (forall k, k ∈ ids dels <-> k ∈ pl_ids platform /\ exists q od, by_obj t !! q = Some od /\ obj_rule od = k /\ deletes keep (by_data t) od = true).
Proof.
  intros Hok Hp. pose proof (tables_objs_ok t Hok) as Hoko.
  destruct (sync_delete_loop keep (by_data t) (nm_platform_rules platform) (by_obj t) []) as (objs & dels & Hloop & Hvd & Hobjs & Hdels);
    [done|by apply tables_bests_ok|by apply pl_valid|by apply pl_unique|].
  assert (Hobjs' : forall q, objs !! q = first_entry keep (by_data t) platform <$> by_obj t !! q) by apply Hobjs.
  exists objs, dels. split_and!; [done|done|split| |done|done].
  - intros q r x y Hx Hy. rewrite Hobjs' in Hx, Hy. apply fmap_Some in Hx as (a & Ha & ->), Hy as (b & Hb & ->). rewrite !first_entry_rule. by apply Hoko.
  - intros q x Hx. rewrite Hobjs' in Hx. apply fmap_Some in Hx as (a & Ha & ->). rewrite (proj1 (first_entry_same _ _ _ _)). by eapply Hoko.
  - intros q x Hx. rewrite Hobjs' in Hx. apply fmap_Some in Hx as (a & Ha & ->). pose proof (tables_bests_ok t Hok q a Ha) as Hb.
    unfold first_entry. by case_decide.
Qed.

Lemma entries_fst (objs : gmap positive RulesObjData) :
  NoDup (map_to_list objs).*1 /\ (forall q, q ∈ (map_to_list objs).*1 <-> is_Some (objs !! q)).
Proof.
  split; [apply NoDup_fst_map_to_list|]. intros q. split.
  - intros ([? x] & -> & Hx%elem_of_map_to_list)%list_elem_of_fmap. by exists x.
  - intros [x Hx]. apply list_elem_of_fmap. exists (q, x). by rewrite elem_of_map_to_list.
Qed.

(** The two loops and the deletions between them, whatever the kernel makes of the
    requests. *)
Lemma sync_tables_return t platform keep :
  tables_ok t -> pl_ok platform ->
  exists objs platform', sync_tables t platform keep = Some (mk_tables (by_data t) objs (by_user_tag t), platform') /\ pl_ok platform' /\
    (forall q, exists platform1, objs !! q = by_obj t !! q ≫= sync_entry keep (by_data t) platform platform1).
Proof.
  intros Hok Hp. destruct (first_loop t platform keep Hok Hp) as (objs1 & dels & Hloop & Hvd & Hoko1 & Hb1 & Hobjs1 & _).
  unfold sync_tables. rewrite Hloop. cbn [mbind option_bind]. destruct (entries_fst objs1) as [Hnd Hin].
  destruct (sync_add_loop_ok (by_data t) (map_to_list objs1).*1 objs1 (foldl (fun p o => nm_platform_object_delete o p) platform dels)) as (objs2 & platform2 & -> & Hp2 & Hobjs2);
    [done|done|by apply delete_loop_ok|done|by apply Hin|].
  exists objs2, platform2. split_and!; [done|done|]. intros q. destruct (Hobjs2 q) as [pl E]. exists pl. rewrite E, Hobjs1.
  destruct (by_obj t !! q) as [od|] eqn:Hq; [|done]. cbn. rewrite decide_True; [done|]. apply Hin. by rewrite Hobjs1, Hq.
Qed.

(** The rules that a sync deals with: those of the platform, and the entries. *)
Definition known_rules (t : RulesTables) platform (k : kval) : Prop := k ∈ pl_ids platform \/ exists q od, by_obj t !! q = Some od /\ obj_rule od = k.

(** And what a kernel makes of it that confuses none of these rules. *)
Lemma sync_tables_run t platform keep :
  tables_ok t -> pl_ok platform -> apart (known_rules t platform) ->
  exists objs platform1 platform2,
    sync_tables t platform keep = Some (mk_tables (by_data t) objs (by_user_tag t), platform2) /\ pl_ok platform2 /\
    (forall q, objs !! q = by_obj t !! q ≫= sync_entry keep (by_data t) platform platform1) /\
    (forall k, k ∈ pl_ids platform1 <->
       k ∈ pl_ids platform /\ ~ exists q od, by_obj t !! q = Some od /\ obj_rule od = k /\ deletes keep (by_data t) od = true) /\
    (forall k, k ∈ pl_ids platform2 <->
       k ∈ pl_ids platform1 \/ exists q od, by_obj t !! q = Some od /\ obj_rule od = k /\
         adds (by_data t) platform1 (first_entry keep (by_data t) platform od) = true).
Proof.
  intros Hok Hp Hap. destruct (first_loop t platform keep Hok Hp) as (objs1 & dels & Hloop & Hvd & Hoko1 & Hb1 & Hobjs' & Hdels).
  pose proof (delete_loop_ok dels platform Hp Hvd) as Hp1.
  assert (Hids1 := delete_loop (known_rules t platform) dels platform Hap ltac:(intros k [?|[? _]%Hdels]; by left) Hp Hvd). cbv zeta in Hids1.
  unfold sync_tables. rewrite Hloop. cbn [mbind option_bind].
  set (platform1 := foldl _ platform dels) in *. destruct (entries_fst objs1) as [Hnd Hin].
  destruct (sync_add_loop (known_rules t platform) (by_data t) (map_to_list objs1).*1 objs1 platform1) as (objs2 & platform2 & -> & Hp2 & Hobjs2 & Hids2);
    [done| | |done|done|done|done|by apply Hin|].
  - intros k [_ Hk]%Hids1. by left.
  - intros q x Hx. rewrite Hobjs' in Hx. apply fmap_Some in Hx as (od & Hq & ->). rewrite first_entry_rule. right. by exists q, od.
  - exists objs2, platform1, platform2. split_and!; [done|done|..].
    + intros q. rewrite Hobjs2, Hobjs'. destruct (by_obj t !! q) as [od|] eqn:Hq; [|done]. cbn. rewrite decide_True; [done|].
      apply Hin. by rewrite Hobjs', Hq.
    + intros k. rewrite Hids1, Hdels. tauto.
    + intros k. rewrite Hids2. apply or_iff_compat_l. split.
      * intros (q & x & _ & Hx & Hk & Ha). rewrite Hobjs' in Hx. apply fmap_Some in Hx as (od & Hq & ->). exists q, od.
        by rewrite first_entry_rule in Hk.
      * intros (q & od & Hq & Hk & Ha). exists q, (first_entry keep (by_data t) platform od).
        assert (objs1 !! q = Some (first_entry keep (by_data t) platform od)) as Hx by by rewrite Hobjs', Hq.
        split_and!; [by apply Hin|done| |done]. by rewrite first_entry_rule.
Qed.

Lemma sync_tables_ok t objs keep platform :
  tables_ok t -> (forall q, exists platform1, objs !! q = by_obj t !! q ≫= sync_entry keep (by_data t) platform platform1) ->
  tables_ok (mk_tables (by_data t) objs (by_user_tag t)).
Proof.
  intros Hok Hobjs.
  assert (Hfrom : forall q x, objs !! q = Some x ->
            exists od platform1, by_obj t !! q = Some od /\ sync_entry keep (by_data t) platform platform1 od = Some x).
  { intros q x Hx. destruct (Hobjs q) as [pl E]. rewrite E in Hx. apply bind_Some in Hx as (od & Hq & Ho). by exists od, pl. }
  split; cbn; [apply Hok|apply Hok| | |apply Hok].
  - intros q x (od & pl & Hq & Hx)%Hfrom. pose proof (sync_entry_same _ _ _ _ _ _ Hx) as [-> ->].
    split; [by apply (ok_obj t Hok) in Hq as [? _]|]. intros Hnil. exfalso.
    assert (Hv : valid_rule (at_obj (od_obj od))) by by apply (ok_obj t Hok) in Hq as [[_ ?] _].
    destruct (winner_wins t q od (at_obj (od_obj od)) Hok Hv Hq eq_refl) as (_ & Hw & _). apply Hw in Hnil.
    apply (sync_entry_gone keep (by_data t) platform pl) in Hnil. congruence.
  - eapply index_change; [apply Hok| |].
    + intros q x (od & pl & Hq & Hx)%Hfrom. exists od. apply sync_entry_same in Hx as [Ho Hl]. unfold obj_rule. by rewrite Ho, Hl.
    + intros q od Hq. destruct (Hobjs q) as [pl E0]. rewrite E0, Hq. cbn. destruct (sync_entry _ _ _ _ od) eqn:E; [right; eauto|left].
      apply sync_entry_gone in E. assert (Hv : valid_rule (at_obj (od_obj od))) by by apply (ok_obj t Hok) in Hq as [[_ ?] _].
      by apply (winner_wins t q od (at_obj (od_obj od)) Hok Hv Hq eq_refl).
Qed.

(** What becomes of a rule, with and without an entry. *)
Lemma sync_entry_state t objs platform pl1 pl2 keep r q od :
  tables_ok t -> tables_ok (mk_tables (by_data t) objs (by_user_tag t)) -> valid_rule r ->
  by_obj t !! q = Some od -> obj_rule od = rule_id r ->
  (forall q, objs !! q = by_obj t !! q ≫= sync_entry keep (by_data t) platform pl1) ->
  (forall k, k ∈ pl_ids pl1 <->
     k ∈ pl_ids platform /\ ~ exists q od, by_obj t !! q = Some od /\ obj_rule od = k /\ deletes keep (by_data t) od = true) ->
  (forall k, k ∈ pl_ids pl2 <->
     k ∈ pl_ids pl1 \/ exists q od, by_obj t !! q = Some od /\ obj_rule od = k /\
       adds (by_data t) pl1 (first_entry keep (by_data t) platform od) = true) ->
  (state_in_table objs r, bool_decide (rule_id r ∈ pl_ids pl2)) =
  sync_rule keep (prio <$> winner (by_data t) od) (state_of t r) (bool_decide (rule_id r ∈ pl_ids platform)).
Proof.
  intros Hok Hok' Hr Hq Hk Hobjs Hids1 Hids2.
  pose proof (tables_objs_ok t Hok) as Hoko. pose proof (tables_objs_ok _ Hok') as Hoko'. cbn [by_obj] in Hoko'.
  destruct (winner_wins t q od r Hok Hr Hq Hk) as (_ & Hnil & Hdata).
  assert (Hone : forall q' od', by_obj t !! q' = Some od' -> obj_rule od' = rule_id r -> od' = od).
  { intros q' od' Hq' Hk'. assert (q' = q) as -> by (eapply Hoko; [done..|congruence]). congruence. }
  assert (Hpl1 : bool_decide (rule_id r ∈ pl_ids pl1)
                 = bool_decide (rule_id r ∈ pl_ids platform) && negb (deletes keep (by_data t) od)).
  { apply eq_true_iff_eq. rewrite andb_true_iff, !bool_decide_eq_true, negb_true_iff, Hids1.
    apply and_iff_compat_l. destruct (deletes keep (by_data t) od) eqn:Ed; split; try done; intros Hn.
    - exfalso. apply Hn. eauto.
    - intros (q' & od' & Hq' & Hk' & Hd'). rewrite (Hone q' od') in Hd' by done. congruence. }
  assert (Hpl2 : bool_decide (rule_id r ∈ pl_ids pl2)
                 = bool_decide (rule_id r ∈ pl_ids pl1) || adds (by_data t) pl1 (first_entry keep (by_data t) platform od)).
  { apply eq_true_iff_eq. rewrite orb_true_iff, !bool_decide_eq_true, Hids2. apply or_iff_compat_l. split; [|eauto].
    intros (q' & od' & Hq' & Hk' & Ha). by rewrite (Hone q' od') in Ha. }
  rewrite <- loops_result_spec; [|done|].
  2:{ intros Hn. unfold state_of. rewrite (state_in_table_eq (by_obj t) r q od) by done.
      apply (ok_obj t Hok q od Hq). by apply Hnil. }
  destruct (state_in_table_change (by_obj t) objs r (fun _ => sync_entry keep (by_data t) platform pl1))
    as [(Hn & _)|(q' & od' & Hq' & Hk' & Hs & ->)]; [done..|intros _ x y Hx%sync_entry_same; unfold obj_rule; by rewrite (proj1 Hx)| |].
  { by destruct (Hn q od Hq). }
  rewrite (Hone q' od') in * by done. unfold state_of. rewrite Hs, Hpl2. unfold sync_entry, tracked_entry, adds, loops_result.
  assert (Hfk : obj_rule (first_entry keep (by_data t) platform od) = rule_id r)
    by (rewrite <- Hk; unfold obj_rule; by rewrite (proj1 (first_entry_same _ _ _ _))).
  rewrite Hfk, Hpl1. unfold first_entry, deletes. rewrite Hk. destruct (decide (rule_id r ∈ pl_ids platform)) as [Hin|Hin].
  - rewrite (bool_decide_eq_true_2 _ Hin). unfold present_entry.
    destruct (sync_present keep (winner (by_data t) od) (od_config_state od)) as [s del]. cbn [fst snd].
    change (winner (by_data t) (set_state s od)) with (winner (by_data t) od). cbn [od_config_state set_state andb].
    destruct (sync_tracked _ _ _) as [[s' add]|]; cbn; by rewrite ?orb_false_r.
  - rewrite (bool_decide_eq_false_2 _ Hin). cbn [andb negb].
    destruct (sync_tracked _ _ _) as [[s' add]|]; cbn; by rewrite ?orb_false_r.
Qed.

Lemma sync_no_entry t objs platform pl1 pl2 keep r :
  tables_ok t -> tables_ok (mk_tables (by_data t) objs (by_user_tag t)) -> valid_rule r ->
  (forall q od, by_obj t !! q = Some od -> obj_rule od <> rule_id r) ->
  (forall q, objs !! q = by_obj t !! q ≫= sync_entry keep (by_data t) platform pl1) ->
  (forall k, k ∈ pl_ids pl1 <->
     k ∈ pl_ids platform /\ ~ exists q od, by_obj t !! q = Some od /\ obj_rule od = k /\ deletes keep (by_data t) od = true) ->
  (forall k, k ∈ pl_ids pl2 <->
     k ∈ pl_ids pl1 \/ exists q od, by_obj t !! q = Some od /\ obj_rule od = k /\
       adds (by_data t) pl1 (first_entry keep (by_data t) platform od) = true) ->
  (state_in_table objs r, bool_decide (rule_id r ∈ pl_ids pl2)) =
  sync_rule keep None (state_of t r) (bool_decide (rule_id r ∈ pl_ids platform)).
Proof.
  intros Hok Hok' Hr Hn Hobjs Hids1 Hids2.
  pose proof (tables_objs_ok t Hok) as Hoko. pose proof (tables_objs_ok _ Hok') as Hoko'. cbn [by_obj] in Hoko'.
  destruct (state_in_table_change (by_obj t) objs r (fun _ => sync_entry keep (by_data t) platform pl1))
    as [(_ & -> & Hs)|(q' & od' & Hq' & Hk' & _)]; [done..|intros _ x y Hx%sync_entry_same; unfold obj_rule; by rewrite (proj1 Hx)| |].
  - unfold state_of. rewrite Hs. cbn. rewrite andb_true_r. f_equal. apply bool_decide_ext. rewrite Hids2, Hids1.
    split; [|intros Hin; left; split; [done|]; intros (q & od & Hq & Hk & _); by apply (Hn q od)].
    intros [[? _]|(q & od & Hq & Hk & _)]; [done|]. by destruct (Hn q od).
  - by destruct (Hn q' od').
Qed.

(** The refinement: for every rule, the state and whether the platform has it. *)
Definition sync_result (self : NMPRulesManager) platform keep_deleted_rules (self' : NMPRulesManager) platform' : Prop :=
  manager_ok self' /\ pl_ok platform' /\
  (forall r u, valid_rule r -> tracking_of self' r u = tracking_of self r u) /\
  (forall r, valid_rule r -> exists best, wins (_rules_init self) r best /\
     (manager_state self' r, bool_decide (rule_id r ∈ pl_ids platform')) =
     sync_rule keep_deleted_rules best (manager_state self r) (bool_decide (rule_id r ∈ pl_ids platform))).

(** The kernel confuses no two of the rules that it has or that the manager knows. *)
Definition told_apart (self : NMPRulesManager) platform : Prop := apart (known_rules (_rules_init self) platform).

Lemma sync_return self platform keep_deleted_rules :
  manager_ok self -> pl_ok platform ->
  exists self' platform', nmp_rules_manager_sync self platform keep_deleted_rules = Some (self', platform') /\ manager_ok self' /\ pl_ok platform'.
Proof.
  unfold manager_ok, nmp_rules_manager_sync, _rules_init. intros Hok Hp. destruct (tables self) as [t|] eqn:Et; [|exists self, platform; by rewrite Et].
  destruct (sync_tables_return t platform keep_deleted_rules Hok Hp) as (objs & platform' & -> & Hp' & Hobjs). cbn.
  eexists _, platform'. split; [done|]. split; [by apply (sync_tables_ok t objs keep_deleted_rules platform)|done].
Qed.

Lemma sync_effect self platform keep_deleted_rules :
  manager_ok self -> pl_ok platform -> told_apart self platform ->
  exists self' platform', nmp_rules_manager_sync self platform keep_deleted_rules = Some (self', platform') /\
    sync_result self platform keep_deleted_rules self' platform' /\
    (forall k, known_rules (_rules_init self') platform' k -> known_rules (_rules_init self) platform k).
Proof.
  unfold sync_result, told_apart, manager_ok, nmp_rules_manager_sync, tracking_of, manager_state, _rules_init. intros Hok Hp Hap.
  destruct (tables self) as [t|] eqn:Et.
  2:{ exists self, platform. rewrite Et. split_and!; [done..| |done]. intros r Hr. exists None. split; [done|].
      cbn. by rewrite andb_true_r. }
  destruct (sync_tables_run t platform keep_deleted_rules Hok Hp Hap) as (objs & pl1 & pl2 & -> & Hp2 & Hobjs & Hids1 & Hids2). cbn.
  assert (Hok' : tables_ok (mk_tables (by_data t) objs (by_user_tag t))) by (apply (sync_tables_ok t objs keep_deleted_rules platform); [done|]; intros q; by exists pl1).
  eexists _, pl2. split; [done|]. split; [split_and!; [done|done|done|]|]; cbn.
  - intros r Hr. destruct (entry_cases (by_obj t) (rule_id r)) as [(q & od & Hq & Hk)|Hn].
    + destruct (winner_wins t q od r Hok Hr Hq Hk) as (Hw & Hnil & Hdata). exists (prio <$> winner (by_data t) od).
      split; [done|]. by eapply sync_entry_state.
    + exists None. split; [by apply no_entry_wins|]. by eapply sync_no_entry.
  - intros k [[[Hk _]%Hids1|(q & od & Hq & Hk & _)]%Hids2|(q & od & Hq & Hk)]; [by left|right; by exists q, od|].
    right. cbn in Hq. rewrite Hobjs in Hq. apply bind_Some in Hq as (od0 & Hq & Hs). exists q, od0. split; [done|]. rewrite <-Hk. unfold obj_rule. by rewrite (proj1 (sync_entry_same _ _ _ _ _ _ Hs)).
Qed.

Lemma wins_unique t rule b c : wins t rule b -> wins t rule c -> b = c.
Proof.
  destruct b as [[v b]|], c as [[w c]|]; cbn.
  - intros [(u & d & Hu) Hb] [(u' & d' & Hu') Hc]. specialize (Hb _ _ _ _ Hu'). specialize (Hc _ _ _ _ Hu).
    assert (v = w) as -> by lia. destruct Hb as [|[_ Hb]]; [lia|]. destruct Hc as [|[_ Hc]]; [lia|]. f_equal. f_equal.
    destruct b, c; intuition congruence.
  - intros [(u & d & Hu) _] Hn. congruence.
  - intros Hn [(u & d & Hu) _]. congruence.
  - done.
Qed.

Lemma wins_ext t t' rule b : (forall u, tracking t' rule u = tracking t rule u) -> wins t rule b -> wins t' rule b.
Proof.
  intros E. destruct b as [[v b]|]; cbn; [|intros Hn u; by rewrite E]. setoid_rewrite E. done.
Qed.

(** A second sync leaves the platform alone. *)
Lemma sync_rule_settles keep best s present :
  (sync_rule keep best (sync_rule keep best s present).1 (sync_rule keep best s present).2).2 = (sync_rule keep best s present).2.
Proof.
  destruct best as [[v []]|]; cbn; [destruct (v =? 0) eqn:Ev|..]; destruct present, keep, s; cbn; rewrite ?Ev; done.
Qed.

End sync.
