(* ===== verification/RulesRun.v ===== *)
(** * The manager of policy routing rules: runs

    Any sequence of requests to the manager, with a platform whose rules others
    change as well: reachable states are well-formed and every request returns.
    Then a sample platform, and the theorems on it. *)

From S2P Require Import Bytes CmpOrder IpAddr NMHash PlatformLink PlatformRule HashTable RulesManager RulesTrack RulesSync.

(** ** Runs *)

Section run.
Context `{ByteOrder} `{KernelSupport} `{Addresses} `{!AddressesOk}.

Definition priority_ok (track_priority : Z) : Prop := G_MININT32 < track_priority <= G_MAXINT32.

(** A call that returns and keeps the tables well-formed. *)
Definition call_ok (result : option NMPRulesManager) : Prop := exists self', result = Some self' /\ manager_ok self'.

Lemma track_ok self rule track_priority user_tag user_tag_untrack :
  manager_ok self -> valid_rule rule -> priority_ok track_priority ->
  call_ok (nmp_rules_manager_track self rule track_priority user_tag user_tag_untrack).
Proof.
  intros Hok Hv Hp. destruct (decide (user_tag = 0)) as [->|Htag].
  - by exists self.
  - destruct (track_effect self rule track_priority user_tag user_tag_untrack Hok Hv Htag Hp) as (self' & -> & Hok' & _).
    by exists self'.
Qed.

Lemma track_loop_ok (skip : NMPlatformRoutingRule -> bool) track_priority user_tag rules : forall self,
  manager_ok self -> Forall valid_rule rules -> priority_ok track_priority ->
  call_ok (foldl (fun self rr => self ← self;
             if skip rr then Some self else nmp_rules_manager_track self rr track_priority user_tag 0) (Some self) rules).
Proof.
  induction rules as [|rr rules IH]; intros self Hok Hv Hp; cbn.
  - by exists self.
  - apply Forall_cons in Hv as [Hrr Hv]. destruct (skip rr); [by apply IH|].
    destruct (track_ok self rr track_priority user_tag 0 Hok Hrr Hp) as (self' & -> & Hok'). by apply IH.
Qed.

Lemma default_rules_valid addr_family : Forall valid_rule (default_rules addr_family).
Proof. unfold default_rules. apply Forall_app. split; case_match; by repeat constructor. Qed.

Context {P : Type} `{Platform P} `{!PlatformOk P}.

(** The requests of the users of the manager. *)
Inductive request :=
| Track (rule : NMPlatformRoutingRule) (track_priority user_tag user_tag_untrack : Z)
| TrackDefault (addr_family track_priority user_tag : Z)
| TrackFromPlatform (addr_family track_priority user_tag : Z)
| Untrack (rule : NMPlatformRoutingRule) (user_tag : Z)
| SetDirty (user_tag : Z)
| UntrackAll (user_tag : Z) (all : bool)
| Sync (keep_deleted_rules : bool).

Definition request_ok (req : request) : Prop :=
  match req with
  | Track rule track_priority _ _ => valid_rule rule /\ priority_ok track_priority
  | TrackDefault _ track_priority _ | TrackFromPlatform _ track_priority _ => priority_ok track_priority
  | Untrack rule _ => valid_rule rule
  | SetDirty _ | UntrackAll _ _ | Sync _ => True
  end.

Definition run_request (self : NMPRulesManager) (platform : P) (req : request) : option (NMPRulesManager * P) :=
  match req with
  | Sync keep => nmp_rules_manager_sync self platform keep
  | Track rule prio tag untrack => (fun s => (s, platform)) <$> nmp_rules_manager_track self rule prio tag untrack
  | TrackDefault family prio tag => (fun s => (s, platform)) <$> nmp_rules_manager_track_default self family prio tag
  | TrackFromPlatform family prio tag =>
    (fun s => (s, platform)) <$> nmp_rules_manager_track_from_platform self platform family prio tag
  | Untrack rule tag => (fun s => (s, platform)) <$> nmp_rules_manager_untrack self rule tag
  | SetDirty tag => (fun s => (s, platform)) <$> nmp_rules_manager_set_dirty self tag
  | UntrackAll tag all => (fun s => (s, platform)) <$> nmp_rules_manager_untrack_all self tag all
  end.

(** A step: a request, or the rules of the platform change by others. *)
Inductive manager_step : NMPRulesManager * P -> NMPRulesManager * P -> Prop :=
| step_request self platform req s : request_ok req -> run_request self platform req = Some s -> manager_step (self, platform) s
| step_kernel self platform platform' : pl_ok platform' -> manager_step (self, platform) (self, platform').

Lemma request_runs self platform req :
  manager_ok self -> pl_ok platform -> request_ok req ->
  exists self' platform', run_request self platform req = Some (self', platform') /\ manager_ok self' /\ pl_ok platform'.
Proof.
  intros Hok Hp Hreq.
  assert (Hcall : forall result, call_ok result -> exists self' platform',
            (fun s => (s, platform)) <$> result = Some (self', platform') /\ manager_ok self' /\ pl_ok platform').
  { intros result (self' & -> & Hok'). by exists self', platform. }
  destruct req; cbn in *.
  - destruct Hreq. apply Hcall. by apply track_ok.
  - apply Hcall, (track_loop_ok (fun _ => false)); [done|apply default_rules_valid|done].
  - apply Hcall, (track_loop_ok (fun rr => negb (addr_family =? AF_UNSPEC) && negb (rr_addr_family rr =? addr_family)));
      [done|by apply pl_valid|done].
  - apply Hcall. destruct (rules_untrack_spec self rule user_tag Hok Hreq) as (s & -> & Hs & _). by exists s.
  - apply Hcall. destruct (rules_set_dirty_spec self user_tag Hok) as (s & -> & Hs & _). by exists s.
  - apply Hcall. destruct (rules_untrack_all_spec self user_tag all Hok) as (s & -> & Hs & _). by exists s.
  - by apply sync_return.
Qed.

(** C27: From a new manager, whatever is requested and however the rules of the
    platform change in between, the tables stay well-formed (one tracking per
    rule and tag, each in the list of its rule and in that of its tag), and no
    request is stuck on a freed address. *)
Theorem rules_reachable_safe platform self platform' :
  pl_ok platform -> rtc manager_step (nmp_rules_manager_new, platform) (self, platform') ->
  manager_ok self /\ pl_ok platform' /\
  forall req, request_ok req -> exists s, run_request self platform' req = Some s /\ manager_step (self, platform') s.
Proof.
  intros Hp Hrun.
  assert (Hinv : forall s s', rtc manager_step s s' -> manager_ok s.1 -> pl_ok s.2 -> manager_ok s'.1 /\ pl_ok s'.2).
  { induction 1 as [s|s1 s2 s3 Hstep _ IH]; [done|]. intros Hok1 Hp1. destruct Hstep as [m pl req s Hreq Hs|m pl pl' Hpl']; [|by apply IH].
    destruct (request_runs m pl req Hok1 Hp1 Hreq) as (m' & pl' & E & Hok' & Hp'). rewrite Hs in E. injection E as ->. by apply IH. }
  destruct (Hinv _ _ Hrun new_manager_ok Hp) as [Hok' Hp']. cbn in *. split_and!; [done|done|].
  intros req Hreq. destruct (request_runs self platform' req Hok' Hp' Hreq) as (m & pl & E & _). exists (m, pl). split; [done|].
  by eapply step_request.
Qed.

(** C26: nmp_rules_manager_sync () refines the abstract specification, on a kernel that
    confuses no two of the rules that the platform has or the manager knows (a kernel
    that confuses rules may not add one, or delete the other: tests/test-route.c): for
    every rule, the state and whether the platform has the rule become what sync_rule
    says of its winning tracking; trackings stay, the tables are well-formed, and
    no freed address is followed. *)
Theorem rules_sync_refines self (platform : P) keep_deleted_rules :
  manager_ok self -> pl_ok platform -> told_apart self platform ->
  exists self' platform', nmp_rules_manager_sync self platform keep_deleted_rules = Some (self', platform') /\
    sync_result self platform keep_deleted_rules self' platform'.
Proof. intros Hok Hp Ha. destruct (sync_effect self platform keep_deleted_rules Hok Hp Ha) as (s & p & E & Hr & _). by exists s, p. Qed.

(** C31: On a kernel that confuses no two of the rules that the platform has or the
    manager knows, the platform has after a sync every rule whose winning tracking is
    strong and present, and, unless deleted rules are kept (keep_deleted_rules), none
    whose winning tracking is absent; a second sync changes nothing of the platform.
    A weak tracking (of priority zero) is not enforced. *)
Theorem rules_sync_settles self (platform : P) keep_deleted_rules :
  manager_ok self -> pl_ok platform -> told_apart self platform ->
  exists self1 platform1 self2 platform2,
    nmp_rules_manager_sync self platform keep_deleted_rules = Some (self1, platform1) /\
    nmp_rules_manager_sync self1 platform1 keep_deleted_rules = Some (self2, platform2) /\
    (forall r, valid_rule r -> rule_id r ∈ pl_ids platform2 <-> rule_id r ∈ pl_ids platform1) /\
    (forall r val, valid_rule r -> wins (_rules_init self) r (Some (val, true)) -> val <> 0 -> rule_id r ∈ pl_ids platform1) /\
    (forall r val, valid_rule r -> wins (_rules_init self) r (Some (val, false)) -> keep_deleted_rules = false ->
       rule_id r ∉ pl_ids platform1).
Proof.
  intros Hok Hp Ha.
  destruct (sync_effect self platform keep_deleted_rules Hok Hp Ha) as (self1 & pl1 & Hs1 & (Hok1 & Hp1 & Htr1 & Hr1) & Hkn).
  assert (Ha1 : told_apart self1 pl1) by (intros k k' Hk%Hkn Hk'%Hkn; by apply Ha).
  destruct (sync_effect self1 pl1 keep_deleted_rules Hok1 Hp1 Ha1) as (self2 & pl2 & Hs2 & (Hok2 & Hp2 & Htr2 & Hr2) & _).
  exists self1, pl1, self2, pl2. split_and!; [done|done|..].
  - intros r Hr. destruct (Hr1 r Hr) as (b & Hb & E1), (Hr2 r Hr) as (c & Hc & E2).
    assert (b = c) as <- by (eapply wins_unique; [|exact Hc]; eapply wins_ext; [|exact Hb]; intros u; by apply Htr1).
    pose proof (sync_rule_settles keep_deleted_rules b (manager_state self r) (bool_decide (rule_id r ∈ pl_ids platform))) as Hset.
    rewrite <- E1 in Hset. cbn [fst snd] in Hset. rewrite <- E2 in Hset. cbn [snd] in Hset.
    by rewrite <- (bool_decide_eq_true (rule_id r ∈ pl_ids pl2)), Hset, bool_decide_eq_true.
  - intros r v Hr Hw Hv. destruct (Hr1 r Hr) as (b & Hb & E1). rewrite (wins_unique _ _ _ _ Hb Hw) in E1. cbn in E1.
    rewrite (proj2 (Z.eqb_neq v 0) Hv) in E1. apply pair_eq in E1 as [_ E1]. by apply bool_decide_eq_true in E1.
  - intros r v Hr Hw ->. destruct (Hr1 r Hr) as (b & Hb & E1). rewrite (wins_unique _ _ _ _ Hb Hw) in E1. cbn in E1.
    apply (bool_decide_eq_false (rule_id r ∈ pl_ids pl1)). cbn [negb] in E1. rewrite andb_true_r in E1. destruct (bool_decide (rule_id r ∈ pl_ids platform)); congruence.
Qed.
End run.

(** C33: nmp_rules_manager_track () never follows a freed address and keeps the
    tables well-formed; it sets the tracking of the rule with the tag, removes the
    one with the other tag if there is one, and then marks a rule in no other
    state as owned; it changes nothing else. *)
Theorem rules_track_spec `{ByteOrder} `{KernelSupport} `{Addresses} `{!AddressesOk} self rule track_priority user_tag user_tag_untrack :
  manager_ok self -> valid_rule rule -> user_tag <> 0 -> G_MININT32 < track_priority <= G_MAXINT32 ->
  exists self', nmp_rules_manager_track self rule track_priority user_tag user_tag_untrack = Some self' /\
    track_result self rule track_priority user_tag user_tag_untrack self'.
Proof. apply track_effect. Qed.

(** ** Samples *)

(** Addresses that encode the rule. *)
Definition rule_fields (r : NMPlatformRoutingRule) : list (list Z) :=
  [b2z <$> rr_src r; b2z <$> rr_dst r;
   [rr_tun_id r; rr_table r; rr_flags r; rr_priority r; rr_fwmark r; rr_fwmask r; rr_goto_target r; rr_flow r;
    rr_suppress_prefixlen_inverse r; rr_suppress_ifgroup_inverse r; uid_start (rr_uid_range r); uid_end (rr_uid_range r);
    port_start (rr_sport_range r); port_end (rr_sport_range r); port_start (rr_dport_range r); port_end (rr_dport_range r)];
   b2z <$> rr_iifname r; b2z <$> rr_oifname r;
   [rr_addr_family r; rr_action r; rr_tos r; rr_src_len r; rr_dst_len r; rr_l3mdev r; rr_protocol r; rr_ip_proto r;
    Z.b2z (rr_uid_range_has r)]].

#[export] Instance b2z_injective : Inj eq eq b2z.
Proof. intros a b. apply b2z_inj. Qed.

Lemma rule_fields_inj a b : rule_fields a = rule_fields b -> a = b.
Proof.
  unfold rule_fields. intros E. injection E. intros.
  repeat match goal with H : b2z <$> _ = b2z <$> _ |- _ => apply (inj (fmap b2z)) in H end.
  assert (rr_uid_range_has a = rr_uid_range_has b) by (by apply Z.b2z_inj).
  destruct a as [? ? ? ? ? ? ? ? ? ? ? ? [] [] [] ? ? ? ? ? ? ? ? ? ? ?], b as [? ? ? ? ? ? ? ? ? ? ? ? [] [] [] ? ? ? ? ? ? ? ? ? ? ?].
  simpl in *. by subst.
Qed.

Definition sample_addresses : Addresses := {| intern_ptr r := Z.pos (encode (rule_fields r)); stack_ptr := 0 |}.

Lemma sample_addresses_ok : @AddressesOk sample_addresses.
Proof.
  split; cbn; [|done]. intros a b [= E%(inj encode)]. by apply rule_fields_inj.
Qed.

(** A kernel that keeps a list of rules, and takes rules of one priority for the same:
    it does not add a second one, and deletes the first one that it finds. *)
Section sample_platform.
Context `{KernelSupport}.

Definition sample_match (r x : NMPlatformRoutingRule) : bool := bool_decide (rule_id x = rule_id r) || (rr_priority x =? rr_priority r).

Fixpoint remove_match (r : NMPlatformRoutingRule) (rules : list NMPlatformRoutingRule) : list NMPlatformRoutingRule :=
  match rules with [] => [] | x :: rules => if sample_match r x then rules else x :: remove_match r rules end.

Definition sample_platform : Platform (list NMPlatformRoutingRule) := {|
  nm_platform_rules p := p;
  nm_platform_object_delete r p := remove_match r p;
  nm_platform_routing_rule_add r p := if existsb (sample_match r) p then p else p ++ [r]
|}.

Lemma remove_match_sublist r p : remove_match r p `sublist_of` p.
Proof. induction p as [|x p IH]; cbn; [done|]. destruct (sample_match r x); [by apply sublist_cons|by apply sublist_skip]. Qed.

(** The priority of a rule, from its identity. *)
Definition id_priority (k : kval) : option Z := match k with KL [_; KL (_ :: _ :: KZ priority :: _)] => Some priority | _ => None end.

Lemma rule_id_priority r : valid_rule r -> id_priority (rule_id r) = Some (rr_priority r).
Proof. intros Hr. unfold rule_id, routing_rule_key. cbn [at_obj]. by rewrite Hr. Qed.

Definition sample_confuses (k k' : kval) : Prop := id_priority k = id_priority k'.

Lemma sample_match_apart r p x :
  valid_rule r -> Forall valid_rule p -> (forall k, k ∈ ids p -> k = rule_id r \/ ~ sample_confuses (rule_id r) k) ->
  x ∈ p -> sample_match r x = true <-> rule_id x = rule_id r.
Proof.
  intros Hr Hv Hp Hx. unfold sample_match. rewrite orb_true_iff, bool_decide_eq_true, Z.eqb_eq. split; [|by left]. intros [|E]; [done|].
  destruct (Hp (rule_id x)) as [|Hn]; [by apply list_elem_of_fmap_2|done|]. destruct Hn. unfold sample_confuses. rewrite Forall_forall in Hv.
  by rewrite !rule_id_priority, E by auto.
Qed.

Lemma remove_match_ids r p :
  NoDup (ids p) -> (forall x, x ∈ p -> sample_match r x = true <-> rule_id x = rule_id r) ->
  forall k, k ∈ ids (remove_match r p) <-> k <> rule_id r /\ k ∈ ids p.
Proof.
  induction p as [|x p IH]; intros Hn Hm k; unfold ids in *; cbn [remove_match fmap list_fmap].
  - rewrite !elem_of_nil. tauto.
  - apply NoDup_cons in Hn as [Hx Hn]. pose proof (Hm x (list_elem_of_here _ _)) as Hmx. destruct (sample_match r x).
    + destruct Hmx as [Hmx _]. specialize (Hmx eq_refl). rewrite elem_of_cons, <-Hmx. split; [|tauto]. intros Hk. split; [by intros ->|by right].
    + cbn [fmap list_fmap]. rewrite !elem_of_cons, IH; [|done|intros y Hy; apply Hm; by right]. split; [|tauto].
      intros [->|]; [|tauto]. split; [|by left]. intros E%Hmx. done.
Qed.

Lemma existsb_match r p :
  (forall x, x ∈ p -> sample_match r x = true <-> rule_id x = rule_id r) -> existsb (sample_match r) p = bool_decide (rule_id r ∈ ids p).
Proof.
  intros Hm. apply eq_true_iff_eq. rewrite existsb_exists, bool_decide_eq_true. unfold ids. rewrite list_elem_of_fmap. split.
  - intros (x & Hx%list_elem_of_In & E). exists x. split; [|done]. by apply eq_sym, Hm.
  - intros (x & E & Hx). exists x. split; [by apply list_elem_of_In|]. by apply Hm.
Qed.

#[program] Definition sample_platform_ok : @PlatformOk _ _ sample_platform := {|
  pl_ok p := Forall valid_rule p /\ NoDup (ids p);
  pl_confuses := sample_confuses
|}.
Next Obligation. cbn. by intros p []. Qed.
Next Obligation. cbn. by intros p []. Qed.
Next Obligation.
  intros p r [Hv Hn] Hr. cbn. pose proof (remove_match_sublist r p) as Hs. split.
  - apply Forall_forall. intros x Hx. rewrite Forall_forall in Hv. apply Hv. by eapply elem_of_sublist.
  - eapply sublist_NoDup; [exact Hn|]. by apply sublist_fmap.
Qed.
Next Obligation.
  intros p r [Hv Hn] Hr. cbn. destruct (existsb (sample_match r) p) eqn:E; [done|]. split.
  - apply Forall_app. split; [done|by repeat constructor].
  - unfold ids in *. rewrite fmap_app. apply NoDup_app. split_and!; [done| |apply NoDup_singleton].
    intros k (x & -> & Hx)%list_elem_of_fmap Hk%list_elem_of_singleton. apply not_true_iff_false in E. apply E, existsb_exists.
    exists x. split; [by apply list_elem_of_In|]. unfold sample_match. by rewrite Hk, bool_decide_eq_true_2.
Qed.
Next Obligation. intros p r [Hv Hn] Hr Ha. cbn in *. apply remove_match_ids; [done|]. intros x. by apply sample_match_apart. Qed.
Next Obligation.
  intros p r [Hv Hn] Hr Ha. cbn in *. rewrite existsb_match by (intros x; by apply sample_match_apart). intros k. case_bool_decide as Hin.
  - split; [tauto|]. by intros [->|].
  - unfold ids. rewrite fmap_app, elem_of_app. cbn. rewrite list_elem_of_singleton. tauto.
Qed.
End sample_platform.


#[local] Instance sample_byte_order : ByteOrder := false.
#[local] Instance sample_kernel : KernelSupport := old_kernel.
#[local] Existing Instance sample_addresses.
#[local] Existing Instance sample_addresses_ok.
#[local] Existing Instance sample_platform.
#[local] Existing Instance sample_platform_ok.

(** A manager that tracks a rule for being absent. *)
Definition sample_manager : NMPRulesManager :=
  default nmp_rules_manager_new (nmp_rules_manager_track nmp_rules_manager_new (sample_rule 100 7 2) (-5) 8 0).

Lemma sample_manager_ok : manager_ok sample_manager.
Proof.
  destruct (track_ok nmp_rules_manager_new (sample_rule 100 7 2) (-5) 8 0) as (s & E & Hok); [apply new_manager_ok|done|done|].
  unfold sample_manager. by rewrite E.
Qed.

(** That rule, and one of another priority. *)
Definition sample_kernel_rules : list NMPlatformRoutingRule := [sample_rule 100 7 2; sample_rule 200 7 2].

Lemma sample_rules_ok : pl_ok sample_kernel_rules.
Proof. split; [by repeat constructor|]. apply NoDup_cons. split; [|apply NoDup_singleton]. intros E%list_elem_of_singleton. vm_compute in E. discriminate. Qed.

Lemma sample_entries : Forall (fun x => obj_rule x.2 = rule_id (sample_rule 100 7 2)) (map_to_list (by_obj (_rules_init sample_manager))).
Proof.
  assert (E : forallb (fun x => bool_decide (obj_rule x.2 = rule_id (sample_rule 100 7 2))) (map_to_list (by_obj (_rules_init sample_manager))) = true) by (vm_compute; reflexivity).
  apply Forall_forall. intros x Hx%list_elem_of_In. rewrite forallb_forall in E. by apply E, bool_decide_eq_true_1 in Hx.
Qed.

Lemma sample_told_apart : told_apart sample_manager sample_kernel_rules.
Proof.
  assert (Hk : forall k, known_rules (_rules_init sample_manager) sample_kernel_rules k -> k ∈ ids sample_kernel_rules).
  { intros k [Hk|(q & od & Hq%elem_of_map_to_list & <-)]; [done|]. pose proof sample_entries as He. rewrite Forall_forall in He. specialize (He _ Hq). cbn [snd] in He. rewrite He. left. }
  assert (Ha : forall k k', k ∈ ids sample_kernel_rules -> k' ∈ ids sample_kernel_rules -> id_priority k' = id_priority k -> k = k').
  { intros k k' Hk1 Hk2. unfold ids, sample_kernel_rules in *. cbn [fmap list_fmap] in *. rewrite elem_of_cons, list_elem_of_singleton in *.
    destruct Hk1 as [-> | ->], Hk2 as [-> | ->]; [done|vm_compute; discriminate..|done]. }
  intros k k' H1%Hk H2%Hk. destruct (decide (id_priority k' = id_priority k)) as [E|Hne]; [left; by apply Ha|by right].
Qed.

Lemma rules_track_spec_witness :
  exists self', nmp_rules_manager_track sample_manager (sample_rule 100 7 2) 10 16 8 = Some self' /\
    track_result sample_manager (sample_rule 100 7 2) 10 16 8 self'.
Proof. apply (rules_track_spec sample_manager (sample_rule 100 7 2) 10 16 8); [apply sample_manager_ok|done|done|done]. Defined.

Lemma rules_sync_refines_witness :
  exists self' platform', nmp_rules_manager_sync sample_manager sample_kernel_rules false = Some (self', platform') /\
    sync_result sample_manager sample_kernel_rules false self' platform'.
Proof. apply (rules_sync_refines sample_manager sample_kernel_rules false); [apply sample_manager_ok|apply sample_rules_ok|apply sample_told_apart]. Defined.

Lemma rules_sync_settles_witness :
  exists self1 platform1 self2 platform2,
    nmp_rules_manager_sync sample_manager sample_kernel_rules false = Some (self1, platform1) /\
    nmp_rules_manager_sync self1 platform1 false = Some (self2, platform2) /\
    (forall r, valid_rule r -> rule_id r ∈ pl_ids platform2 <-> rule_id r ∈ pl_ids platform1).
Proof.
  destruct (rules_sync_settles sample_manager sample_kernel_rules false) as (s1 & p1 & s2 & p2 & E1 & E2 & E & _);
    [apply sample_manager_ok|apply sample_rules_ok|apply sample_told_apart|]. by exists s1, p1, s2, p2.
Defined.

(** A rule that this kernel confuses with one that it has is not added. *)
Definition confused_manager : NMPRulesManager :=
  default nmp_rules_manager_new (nmp_rules_manager_track nmp_rules_manager_new (sample_rule 200 9 2) 5 8 0).

Example confused_rule_not_added :
  (fun x => x.2) <$> nmp_rules_manager_sync confused_manager sample_kernel_rules false = Some sample_kernel_rules.
Proof. vm_compute. reflexivity. Qed.

Lemma rules_reachable_safe_witness :
  exists s, run_request nmp_rules_manager_new [] (Track (sample_rule 100 7 2) (-5) 8 0) = Some s.
Proof.
  destruct (rules_reachable_safe sample_kernel_rules nmp_rules_manager_new []) as (_ & _ & Hrun).
  - apply sample_rules_ok.
  - apply rtc_once, step_kernel. by split; constructor.
  - destruct (Hrun (Track (sample_rule 100 7 2) (-5) 8 0)) as (s & E & _); [done|]. by exists s.
Defined.
