(* ===== verification/DeviceFlags.v ===== *)
(** * Devices: the flags for being unmanaged

    NMUnmanagedFlags of src/devices/nm-device.h, and how nm-device.c decides from
    them whether a device is managed.  A flag can be set, cleared (explicitly not
    unmanaged) or unknown: the mask tells which flags are known. *)

From S2P Require Export Prelude.

Definition NM_UNMANAGED_NONE : Z := 0.
Definition NM_UNMANAGED_SLEEPING : Z := Z.shiftl 1 0.
Definition NM_UNMANAGED_QUITTING : Z := Z.shiftl 1 1.
Definition NM_UNMANAGED_PARENT : Z := Z.shiftl 1 2.
Definition NM_UNMANAGED_BY_TYPE : Z := Z.shiftl 1 3.
Definition NM_UNMANAGED_PLATFORM_INIT : Z := Z.shiftl 1 4.
Definition NM_UNMANAGED_USER_EXPLICIT : Z := Z.shiftl 1 5.
Definition NM_UNMANAGED_USER_SETTINGS : Z := Z.shiftl 1 6.
Definition NM_UNMANAGED_BY_DEFAULT : Z := Z.shiftl 1 8.
Definition NM_UNMANAGED_USER_CONF : Z := Z.shiftl 1 9.
Definition NM_UNMANAGED_USER_UDEV : Z := Z.shiftl 1 10.
Definition NM_UNMANAGED_EXTERNAL_DOWN : Z := Z.shiftl 1 11.
Definition NM_UNMANAGED_IS_SLAVE : Z := Z.shiftl 1 12.

(** Callers also pass FALSE and TRUE for the first two. *)
Inductive NMUnmanFlagOp := NM_UNMAN_FLAG_OP_SET_MANAGED | NM_UNMAN_FLAG_OP_SET_UNMANAGED | NM_UNMAN_FLAG_OP_FORGET.

Definition flag_op (b : bool) : NMUnmanFlagOp :=
  if b then NM_UNMAN_FLAG_OP_SET_UNMANAGED else NM_UNMAN_FLAG_OP_SET_MANAGED.

(** flags &= ~clear *)
Definition flags_clear (flags clear : Z) : Z := Z.land flags (Z.lnot clear).

(** _get_managed_by_flags () after the branch for user requests. *)
Definition managed_by_flags (flags mask : Z) : bool :=
  let mask :=
    if NM_FLAGS_ANY mask NM_UNMANAGED_USER_SETTINGS && negb (NM_FLAGS_ANY flags NM_UNMANAGED_USER_SETTINGS)
    then flags_clear mask NM_UNMANAGED_USER_SETTINGS else mask in
  let flags :=
    if NM_FLAGS_ANY mask NM_UNMANAGED_USER_UDEV
    then flags_clear flags (Z.lor NM_UNMANAGED_BY_DEFAULT NM_UNMANAGED_EXTERNAL_DOWN) else flags in
  let flags :=
    if NM_FLAGS_ANY mask NM_UNMANAGED_USER_CONF
    then flags_clear flags (Z.lor NM_UNMANAGED_BY_DEFAULT (Z.lor NM_UNMANAGED_USER_UDEV NM_UNMANAGED_EXTERNAL_DOWN)) else flags in
  let flags :=
    if NM_FLAGS_HAS mask NM_UNMANAGED_IS_SLAVE && negb (NM_FLAGS_HAS flags NM_UNMANAGED_IS_SLAVE)
    then flags_clear flags NM_UNMANAGED_BY_DEFAULT else flags in
  let flags :=
    if NM_FLAGS_HAS mask NM_UNMANAGED_USER_EXPLICIT
    then flags_clear flags (Z.lor NM_UNMANAGED_BY_DEFAULT
           (Z.lor NM_UNMANAGED_USER_UDEV (Z.lor NM_UNMANAGED_USER_CONF NM_UNMANAGED_EXTERNAL_DOWN))) else flags in
  flags =? NM_UNMANAGED_NONE.

Definition _get_managed_by_flags (flags mask : Z) (for_user_request : bool) : bool :=
  if for_user_request then
    if managed_by_flags flags mask then true
    else managed_by_flags (flags_clear flags NM_UNMANAGED_USER_EXPLICIT) (Z.lor mask NM_UNMANAGED_USER_EXPLICIT)
  else managed_by_flags flags mask.

(** The change of the flags and the mask in _set_unmanaged_flags (). *)
Definition apply_flag_op (flags : Z) (set_op : NMUnmanFlagOp) (old_flags old_mask : Z) : Z * Z :=
  match set_op with
  | NM_UNMAN_FLAG_OP_FORGET => (flags_clear old_flags flags, flags_clear old_mask flags)
  | NM_UNMAN_FLAG_OP_SET_UNMANAGED => (Z.lor old_flags flags, Z.lor old_mask flags)
  | NM_UNMAN_FLAG_OP_SET_MANAGED => (flags_clear old_flags flags, Z.lor old_mask flags)
  end.

(** ** Bits *)

Lemma testbit_one k n : 0 <= k -> 0 <= n -> Z.testbit (Z.shiftl 1 k) n = (n =? k).
Proof.
  intros Hk Hn. rewrite Z.shiftl_spec by done. destruct (Z.eqb_spec n k) as [->|Hne].
  - by rewrite Z.sub_diag.
  - destruct (Z_lt_le_dec (n - k) 0); [by rewrite Z.testbit_neg_r|]. apply Z.bits_above_log2; cbn; lia.
Qed.

Lemma land_one f k n : 0 <= k -> 0 <= n -> Z.testbit (Z.land f (Z.shiftl 1 k)) n = (n =? k) && Z.testbit f k.
Proof.
  intros Hk Hn. rewrite Z.land_spec, testbit_one by done. destruct (Z.eqb_spec n k) as [->|]; [by rewrite andb_true_r|by rewrite andb_false_r].
Qed.

Lemma flags_any_bit f k : 0 <= k -> NM_FLAGS_ANY f (Z.shiftl 1 k) = Z.testbit f k.
Proof.
  intros Hk. unfold NM_FLAGS_ANY. destruct (Z.testbit f k) eqn:E.
  - apply negb_true_iff, Z.eqb_neq. intros H0. apply (f_equal (fun z => Z.testbit z k)) in H0.
    by rewrite land_one, Z.eqb_refl, E, Z.bits_0 in H0.
  - apply negb_false_iff, Z.eqb_eq. apply Z.bits_inj'. intros n Hn. by rewrite land_one, E, andb_false_r, Z.bits_0.
Qed.

Lemma flags_has_bit f k : 0 <= k -> NM_FLAGS_HAS f (Z.shiftl 1 k) = Z.testbit f k.
Proof. apply flags_any_bit. Qed.

Lemma testbit_clear f c n : 0 <= n -> Z.testbit (flags_clear f c) n = Z.testbit f n && negb (Z.testbit c n).
Proof. intros Hn. unfold flags_clear. by rewrite Z.land_spec, Z.lnot_spec. Qed.

Lemma testbit_clear_if (b : bool) f c n :
  0 <= n -> Z.testbit (if b then flags_clear f c else f) n = Z.testbit f n && negb (b && Z.testbit c n).
Proof. intros Hn. destruct b; cbn; [by apply testbit_clear|by rewrite andb_true_r]. Qed.

Lemma flags_zero f : f = 0 <-> forall n, 0 <= n -> Z.testbit f n = false.
Proof. split; [intros -> n _; apply Z.bits_0|]. intros Hf. apply Z.bits_inj'. intros n Hn. by rewrite Z.bits_0, Hf. Qed.

(** ** Which flags count *)

(** The flags that do not count although they are set: what the user decides
    overrules the configuration, that overrules udev, udev whether the device is
    down, and all of them and being a slave the default. *)
Definition overruled (flags mask : Z) (for_user_request : bool) (n : Z) : bool :=
  let explicit := for_user_request || Z.testbit mask 5 in
  let conf := explicit || Z.testbit mask 9 in
  let udev := conf || Z.testbit mask 10 in
  if n =? 5 then for_user_request
  else if n =? 8 then udev || (Z.testbit mask 12 && negb (Z.testbit flags 12))
  else if n =? 9 then explicit
  else if n =? 10 then conf
  else if n =? 11 then udev
  else false.

Ltac flag_bits :=
  unfold NM_UNMANAGED_USER_SETTINGS, NM_UNMANAGED_USER_UDEV, NM_UNMANAGED_USER_CONF, NM_UNMANAGED_IS_SLAVE,
    NM_UNMANAGED_USER_EXPLICIT, NM_UNMANAGED_BY_DEFAULT, NM_UNMANAGED_EXTERNAL_DOWN in *;
  repeat first [rewrite flags_any_bit by lia|rewrite flags_has_bit by lia|rewrite testbit_clear by lia
               |rewrite testbit_clear_if by lia|rewrite Z.lor_spec|rewrite testbit_one by lia].

Lemma managed_by_flags_bits flags mask :
  managed_by_flags flags mask = true <-> forall n, 0 <= n -> Z.testbit flags n = true -> overruled flags mask false n = true.
Proof.
  unfold managed_by_flags, overruled, NM_UNMANAGED_NONE. rewrite Z.eqb_eq, flags_zero.
  apply forall_proper. intros n. apply forall_proper. intros Hn.
  set (mask' := if _ && negb _ then flags_clear mask _ else mask).
  assert (Hmask : forall k, 0 <= k -> k <> 6 -> Z.testbit mask' k = Z.testbit mask k).
  { intros k Hk Hne. unfold mask'. case_match; [|done]. flag_bits. destruct (Z.eqb_spec k 6); [lia|]. by rewrite andb_true_r. }
  clearbody mask'. flag_bits. rewrite !Hmask by lia. cbn [Z.eqb Pos.eqb orb andb negb].
  destruct (Z.eqb_spec n 5), (Z.eqb_spec n 8), (Z.eqb_spec n 9), (Z.eqb_spec n 10), (Z.eqb_spec n 11); try lia; cbn [orb andb negb];
    repeat match goal with |- context [Z.testbit ?x ?y] => destruct (Z.testbit x y) end; cbn; intuition congruence.
Qed.

(** C29: A device is managed exactly if every flag that is set is overruled.  For a
    user request, the user's own flag does not count and is taken as cleared; so a
    device that is managed anyway is managed for a user request. *)
Theorem managed_by_flags_spec flags mask for_user_request :
  (_get_managed_by_flags flags mask for_user_request = true <->
   forall n, 0 <= n -> Z.testbit flags n = true -> overruled flags mask for_user_request n = true) /\
  (_get_managed_by_flags flags mask true =
   managed_by_flags (flags_clear flags NM_UNMANAGED_USER_EXPLICIT) (Z.lor mask NM_UNMANAGED_USER_EXPLICIT)) /\
  (_get_managed_by_flags flags mask false = true -> _get_managed_by_flags flags mask true = true).
Proof.
  assert (Huser : managed_by_flags (flags_clear flags NM_UNMANAGED_USER_EXPLICIT) (Z.lor mask NM_UNMANAGED_USER_EXPLICIT) = true <->
            forall n, 0 <= n -> Z.testbit flags n = true -> overruled flags mask true n = true).
  { rewrite managed_by_flags_bits. apply forall_proper. intros n. apply forall_proper. intros Hn. unfold overruled. flag_bits.
    destruct (Z.eqb_spec n 5); cbn [orb negb andb Z.eqb Pos.eqb]; rewrite ?andb_false_r, ?andb_true_r, ?orb_true_r; [by split|]. done. }
  assert (Hmore : managed_by_flags flags mask = true ->
            managed_by_flags (flags_clear flags NM_UNMANAGED_USER_EXPLICIT) (Z.lor mask NM_UNMANAGED_USER_EXPLICIT) = true).
  { rewrite Huser, managed_by_flags_bits. intros H n Hn Hb. specialize (H n Hn Hb). unfold overruled in *. cbn [orb] in *.
    repeat case_match; done. }
  assert (Htrue : _get_managed_by_flags flags mask true =
            managed_by_flags (flags_clear flags NM_UNMANAGED_USER_EXPLICIT) (Z.lor mask NM_UNMANAGED_USER_EXPLICIT)).
  { unfold _get_managed_by_flags. destruct (managed_by_flags flags mask); [by rewrite Hmore|done]. }
  split_and!; [|done|intros H; rewrite Htrue; by apply Hmore].
  destruct for_user_request; [by rewrite Htrue|apply managed_by_flags_bits].
Qed.
