(* ===== verification/DeviceBase.v ===== *)
(** * Devices: data, pending actions and queued states

    The private data of an NMDevice (src/devices/nm-device.c) as far as its state
    machine reads or writes it, the operations on pending actions and on the
    delayed state change, and how they interact with the rest of the daemon.

    A device calls signal handlers, virtual functions of its subclass and other
    components while it changes its state, and they call back.  A [Call] is what the device
    calls; the class [DeviceHandlers] says for each call what the callees do to the
    device in turn: a list of [HandlerOp], which are the functions of this file that
    callees may use (they do not change the state at once: the state handler warns
    about re-entry).  The calls of these operations are handled again, to a depth
    that is a parameter.  The log keeps each call with the private data at that time. *)

From stdpp Require Export strings.
From S2P Require Export Prelude DeviceFlags.

Inductive NMDeviceState :=
| NM_DEVICE_STATE_UNKNOWN | NM_DEVICE_STATE_UNMANAGED | NM_DEVICE_STATE_UNAVAILABLE | NM_DEVICE_STATE_DISCONNECTED
| NM_DEVICE_STATE_PREPARE | NM_DEVICE_STATE_CONFIG | NM_DEVICE_STATE_NEED_AUTH | NM_DEVICE_STATE_IP_CONFIG
| NM_DEVICE_STATE_IP_CHECK | NM_DEVICE_STATE_SECONDARIES | NM_DEVICE_STATE_ACTIVATED
| NM_DEVICE_STATE_DEACTIVATING | NM_DEVICE_STATE_FAILED.

#[export] Instance NMDeviceState_eq_dec : EqDecision NMDeviceState.
Proof. solve_decision. Defined.

Definition state_num (s : NMDeviceState) : Z :=
  match s with
  | NM_DEVICE_STATE_UNKNOWN => 0 | NM_DEVICE_STATE_UNMANAGED => 10 | NM_DEVICE_STATE_UNAVAILABLE => 20
  | NM_DEVICE_STATE_DISCONNECTED => 30 | NM_DEVICE_STATE_PREPARE => 40 | NM_DEVICE_STATE_CONFIG => 50
  | NM_DEVICE_STATE_NEED_AUTH => 60 | NM_DEVICE_STATE_IP_CONFIG => 70 | NM_DEVICE_STATE_IP_CHECK => 80
  | NM_DEVICE_STATE_SECONDARIES => 90 | NM_DEVICE_STATE_ACTIVATED => 100
  | NM_DEVICE_STATE_DEACTIVATING => 110 | NM_DEVICE_STATE_FAILED => 120
  end.
Coercion state_num : NMDeviceState >-> Z.

(** NM_IN_SET (state, ...) and state == x *)
Definition state_is (s x : NMDeviceState) : bool := bool_decide (s = x).

Definition NMDeviceStateReason := Z.
Definition NM_DEVICE_STATE_REASON_NONE : NMDeviceStateReason := 0.
Definition NM_DEVICE_STATE_REASON_NOW_MANAGED : NMDeviceStateReason := 2.
Definition NM_DEVICE_STATE_REASON_NOW_UNMANAGED : NMDeviceStateReason := 3.
Definition NM_DEVICE_STATE_REASON_REMOVED : NMDeviceStateReason := 36.
Definition NM_DEVICE_STATE_REASON_USER_REQUESTED : NMDeviceStateReason := 39.
Definition NM_DEVICE_STATE_REASON_CARRIER : NMDeviceStateReason := 40.
Definition NM_DEVICE_STATE_REASON_CONNECTION_ASSUMED : NMDeviceStateReason := 41.
Definition NM_DEVICE_STATE_REASON_NEW_ACTIVATION : NMDeviceStateReason := 60.

Inductive NMDeviceSysIfaceState :=
| NM_DEVICE_SYS_IFACE_STATE_EXTERNAL | NM_DEVICE_SYS_IFACE_STATE_ASSUME
| NM_DEVICE_SYS_IFACE_STATE_MANAGED | NM_DEVICE_SYS_IFACE_STATE_REMOVED.

#[export] Instance NMDeviceSysIfaceState_eq_dec : EqDecision NMDeviceSysIfaceState.
Proof. solve_decision. Defined.

Inductive CleanupType := CLEANUP_TYPE_KEEP | CLEANUP_TYPE_REMOVED | CLEANUP_TYPE_DECONFIGURE.

#[export] Instance CleanupType_eq_dec : EqDecision CleanupType.
Proof. solve_decision. Defined.

Inductive FirewallState :=
| FIREWALL_STATE_UNMANAGED | FIREWALL_STATE_INITIALIZED | FIREWALL_STATE_WAIT_STAGE_3 | FIREWALL_STATE_WAIT_IP_CONFIG.

Definition fw_num (s : FirewallState) : Z :=
  match s with
  | FIREWALL_STATE_UNMANAGED => 0 | FIREWALL_STATE_INITIALIZED => 1
  | FIREWALL_STATE_WAIT_STAGE_3 => 2 | FIREWALL_STATE_WAIT_IP_CONFIG => 3
  end.

Inductive NMActivationType := NM_ACTIVATION_TYPE_MANAGED | NM_ACTIVATION_TYPE_ASSUME | NM_ACTIVATION_TYPE_EXTERNAL.

(** Activation requests, by their addresses. *)
Definition NMActRequest := positive.

Inductive NMActiveConnectionStateReason :=
| NM_ACTIVE_CONNECTION_STATE_REASON_UNKNOWN | NM_ACTIVE_CONNECTION_STATE_REASON_DEVICE_DISCONNECTED
| NM_ACTIVE_CONNECTION_STATE_REASON_OTHER (n : Z).

Inductive ActivationHandleFunc :=
| activate_stage1_device_prepare | activate_stage2_device_config | activate_stage3_ip_config_start
| activate_stage4_ip_config_timeout_4 | activate_stage4_ip_config_timeout_6
| activate_stage5_ip_config_result_4 | activate_stage5_ip_config_result_6.

#[export] Instance ActivationHandleFunc_eq_dec : EqDecision ActivationHandleFunc.
Proof. solve_decision. Defined.

(** The function a dispatcher call ends with. *)
Inductive DispatcherCallback := cb_deactivate_dispatcher_complete | cb_dispatcher_complete_proceed_state.

Inductive AddrFamily := AF_INET | AF_INET6.

Definition NM_DEVICE_AUTH_RETRIES_UNSET : Z := -1.
Definition NM_DEVICE_AUTOCONNECT_BLOCKED_USER : Z := Z.shiftl 1 0.
Definition NM_DEVICE_AUTOCONNECT_BLOCKED_ALL : Z := Z.shiftl 1 5 - 1.
Definition NM_DEVICE_AUTOCONNECT_BLOCKED_INTERNAL : Z :=
  flags_clear NM_DEVICE_AUTOCONNECT_BLOCKED_ALL NM_DEVICE_AUTOCONNECT_BLOCKED_USER.

(** ** Private data

    A pointer that is only compared with NULL is a bool, a source id too (set or
    zero); the queued state is there exactly while its source id is set. *)

Record DeviceRest := MkDeviceRest {
  ifindex : Z;
  ip_ifindex : Z;
  ip_iface : bool;
  real : bool;
  firmware_missing : bool;
  unmanaged_mask : Z;
  unmanaged_flags : Z;
  sys_iface_state : NMDeviceSysIfaceState;
  act_request : option NMActRequest;
  act_request_visible : bool;
  queued_act_request : option NMActRequest;
  queued_act_request_is_waiting_for_carrier : bool;
  deactivating_cancellable : bool;
  activation_source_4 : option ActivationHandleFunc;
  activation_source_6 : option ActivationHandleFunc;
  auth_retries : Z;
  assume_state_guess_assume : bool;
  assume_state_connection_uuid : option string;
  available_connections : nat;
  current_stable_id : option string;
  autoconnect_blocked_flags : Z;
  fw_state : FirewallState;
  fw_mgr : bool;
  fw_call : bool;
  proxy_config : bool;
  delete_on_deactivate_data : bool;
  sriov_pending : bool;
  sriov_next : bool;
  carrier : bool;
  ignore_carrier : bool;
  is_enslaved : bool;
  carrier_detect_nonstandard : bool;
  interface_flags_carrier : bool;
  carrier_wait_id : bool;
  carrier_defer_id : option Z;
  carrier_wait_until_ms : Z;
  master : bool;
  lldp_listener : bool;
  mtu_initial : Z;
  ip6_mtu_initial : Z;
  ip4_address : Z }.

Record NMDevicePrivate := MkNMDevicePrivate {
  in_state_changed : bool;
  state : NMDeviceState;
  state_reason : NMDeviceStateReason;
  queued_state : option (NMDeviceState * NMDeviceStateReason);
  pending_actions : list string;
  recheck_available_call_id : bool;
  available_reason : NMDeviceStateReason;
  unavailable_reason : NMDeviceStateReason;
  dispatcher_call_id : option DispatcherCallback;
  dispatcher_post_state : NMDeviceState;
  dispatcher_post_state_reason : NMDeviceStateReason;
  rest : DeviceRest }.

(** Setters: the record with one field replaced. *)
Definition rest_eta (d : DeviceRest) : DeviceRest :=
  MkDeviceRest (ifindex d) (ip_ifindex d) (ip_iface d) (real d) (firmware_missing d) (unmanaged_mask d)
    (unmanaged_flags d) (sys_iface_state d) (act_request d) (act_request_visible d) (queued_act_request d)
    (queued_act_request_is_waiting_for_carrier d) (deactivating_cancellable d) (activation_source_4 d)
    (activation_source_6 d) (auth_retries d) (assume_state_guess_assume d) (assume_state_connection_uuid d)
    (available_connections d) (current_stable_id d) (autoconnect_blocked_flags d) (fw_state d) (fw_mgr d) (fw_call
    d) (proxy_config d) (delete_on_deactivate_data d) (sriov_pending d) (sriov_next d) (carrier d) (ignore_carrier
    d) (is_enslaved d) (carrier_detect_nonstandard d) (interface_flags_carrier d) (carrier_wait_id d)
    (carrier_defer_id d) (carrier_wait_until_ms d) (master d) (lldp_listener d) (mtu_initial d) (ip6_mtu_initial d)
    (ip4_address d).

Definition priv_eta (d : NMDevicePrivate) : NMDevicePrivate :=
  MkNMDevicePrivate (in_state_changed d) (state d) (state_reason d) (queued_state d) (pending_actions d)
    (recheck_available_call_id d) (available_reason d) (unavailable_reason d) (dispatcher_call_id d)
    (dispatcher_post_state d) (dispatcher_post_state_reason d) (rest d).

Ltac set_field eta f d v :=
  let b := eval unfold eta in (eta d) in
  match eval pattern (f d) in b with
  | ?F _ => let r := eval cbv beta in (F v) in exact r
  end.

Definition set_in_state_changed v d : NMDevicePrivate := ltac:(set_field priv_eta in_state_changed d v).
Definition set_state v d : NMDevicePrivate := ltac:(set_field priv_eta state d v).
Definition set_state_reason v d : NMDevicePrivate := ltac:(set_field priv_eta state_reason d v).
Definition set_queued_state v d : NMDevicePrivate := ltac:(set_field priv_eta queued_state d v).
Definition set_pending_actions v d : NMDevicePrivate := ltac:(set_field priv_eta pending_actions d v).
Definition set_recheck_available_call_id v d : NMDevicePrivate := ltac:(set_field priv_eta recheck_available_call_id d v).
Definition set_available_reason v d : NMDevicePrivate := ltac:(set_field priv_eta available_reason d v).
Definition set_unavailable_reason v d : NMDevicePrivate := ltac:(set_field priv_eta unavailable_reason d v).
Definition set_dispatcher_call_id v d : NMDevicePrivate := ltac:(set_field priv_eta dispatcher_call_id d v).
Definition set_dispatcher_post_state v d : NMDevicePrivate := ltac:(set_field priv_eta dispatcher_post_state d v).
Definition set_dispatcher_post_state_reason v d : NMDevicePrivate := ltac:(set_field priv_eta dispatcher_post_state_reason d v).
Definition set_rest v d : NMDevicePrivate := ltac:(set_field priv_eta rest d v).

Definition set_ifindex v d : DeviceRest := ltac:(set_field rest_eta ifindex d v).
Definition set_ip_ifindex v d : DeviceRest := ltac:(set_field rest_eta ip_ifindex d v).
Definition set_ip_iface v d : DeviceRest := ltac:(set_field rest_eta ip_iface d v).
Definition set_real v d : DeviceRest := ltac:(set_field rest_eta real d v).
Definition set_firmware_missing v d : DeviceRest := ltac:(set_field rest_eta firmware_missing d v).
Definition set_unmanaged_mask v d : DeviceRest := ltac:(set_field rest_eta unmanaged_mask d v).
Definition set_unmanaged_flags v d : DeviceRest := ltac:(set_field rest_eta unmanaged_flags d v).
Definition set_sys_iface_state v d : DeviceRest := ltac:(set_field rest_eta sys_iface_state d v).
Definition set_act_request v d : DeviceRest := ltac:(set_field rest_eta act_request d v).
Definition set_act_request_visible v d : DeviceRest := ltac:(set_field rest_eta act_request_visible d v).
Definition set_queued_act_request v d : DeviceRest := ltac:(set_field rest_eta queued_act_request d v).
Definition set_queued_act_request_is_waiting_for_carrier v d : DeviceRest := ltac:(set_field rest_eta queued_act_request_is_waiting_for_carrier d v).
Definition set_deactivating_cancellable v d : DeviceRest := ltac:(set_field rest_eta deactivating_cancellable d v).
Definition set_activation_source_4 v d : DeviceRest := ltac:(set_field rest_eta activation_source_4 d v).
Definition set_activation_source_6 v d : DeviceRest := ltac:(set_field rest_eta activation_source_6 d v).
Definition set_auth_retries v d : DeviceRest := ltac:(set_field rest_eta auth_retries d v).
Definition set_assume_state_guess_assume v d : DeviceRest := ltac:(set_field rest_eta assume_state_guess_assume d v).
Definition set_assume_state_connection_uuid v d : DeviceRest := ltac:(set_field rest_eta assume_state_connection_uuid d v).
Definition set_available_connections v d : DeviceRest := ltac:(set_field rest_eta available_connections d v).
Definition set_current_stable_id v d : DeviceRest := ltac:(set_field rest_eta current_stable_id d v).
Definition set_autoconnect_blocked_flags v d : DeviceRest := ltac:(set_field rest_eta autoconnect_blocked_flags d v).
Definition set_fw_state v d : DeviceRest := ltac:(set_field rest_eta fw_state d v).
Definition set_fw_mgr v d : DeviceRest := ltac:(set_field rest_eta fw_mgr d v).
Definition set_fw_call v d : DeviceRest := ltac:(set_field rest_eta fw_call d v).
Definition set_proxy_config v d : DeviceRest := ltac:(set_field rest_eta proxy_config d v).
Definition set_delete_on_deactivate_data v d : DeviceRest := ltac:(set_field rest_eta delete_on_deactivate_data d v).
Definition set_sriov_pending v d : DeviceRest := ltac:(set_field rest_eta sriov_pending d v).
Definition set_sriov_next v d : DeviceRest := ltac:(set_field rest_eta sriov_next d v).
Definition set_carrier v d : DeviceRest := ltac:(set_field rest_eta carrier d v).
Definition set_ignore_carrier v d : DeviceRest := ltac:(set_field rest_eta ignore_carrier d v).
Definition set_is_enslaved v d : DeviceRest := ltac:(set_field rest_eta is_enslaved d v).
Definition set_carrier_detect_nonstandard v d : DeviceRest := ltac:(set_field rest_eta carrier_detect_nonstandard d v).
Definition set_interface_flags_carrier v d : DeviceRest := ltac:(set_field rest_eta interface_flags_carrier d v).
Definition set_carrier_wait_id v d : DeviceRest := ltac:(set_field rest_eta carrier_wait_id d v).
Definition set_carrier_defer_id v d : DeviceRest := ltac:(set_field rest_eta carrier_defer_id d v).
Definition set_carrier_wait_until_ms v d : DeviceRest := ltac:(set_field rest_eta carrier_wait_until_ms d v).
Definition set_master v d : DeviceRest := ltac:(set_field rest_eta master d v).
Definition set_lldp_listener v d : DeviceRest := ltac:(set_field rest_eta lldp_listener d v).
Definition set_mtu_initial v d : DeviceRest := ltac:(set_field rest_eta mtu_initial d v).
Definition set_ip6_mtu_initial v d : DeviceRest := ltac:(set_field rest_eta ip6_mtu_initial d v).
Definition set_ip4_address v d : DeviceRest := ltac:(set_field rest_eta ip4_address d v).

(** ** What a device calls

    c_ and the name of the function, signal or property; mark_ for a place in the
    code that calls nothing. *)

Inductive NMDeviceProp :=
| PROP_STATE | PROP_STATE_REASON | PROP_HAS_PENDING_ACTION | PROP_MANAGED | PROP_AVAILABLE_CONNECTIONS
| PROP_FIRMWARE_MISSING | PROP_AUTOCONNECT | PROP_CARRIER | PROP_INTERFACE_FLAGS | PROP_IP4_ADDRESS | PROP_IP_IFACE.

Inductive NMDispatcherAction :=
| NM_DISPATCHER_ACTION_PRE_UP | NM_DISPATCHER_ACTION_UP | NM_DISPATCHER_ACTION_PRE_DOWN | NM_DISPATCHER_ACTION_DOWN.

Inductive Call :=
| c_notify (p : NMDeviceProp) | c_notify_together (p q : NMDeviceProp)
| c_dbus_signal_state_changed (s old : NMDeviceState) (r : NMDeviceStateReason)
| c_signal_state_changed (s old : NMDeviceState) (r : NMDeviceStateReason)
| c_signal_recheck_auto_activate
| c_g_cancellable_cancel
| c_nm_dispatcher_call_cancel (cb : DispatcherCallback)
| c_nm_dispatcher_call_device (a : NMDispatcherAction) (req : option NMActRequest)
| c_nm_dispatcher_call_device_sync (a : NMDispatcherAction) (req : option NMActRequest)
| c_nm_active_connection_set_state_fail (req : NMActRequest) (r : NMActiveConnectionStateReason)
| c_nm_active_connection_set_default (req : NMActRequest) (f : AddrFamily) (b : bool)
| c_nm_keep_alive_arm (req : NMActRequest)
| c_nm_firewall_manager_cancel_call | c_nm_firewall_manager_remove_from_zone | c_fw_change_zone
| c_ip_check_gw_ping_cleanup
| c_activation (f : ActivationHandleFunc)
| c_nm_device_recheck_available_connections
| c_nm_device_take_down (block : bool) | c_nm_device_bring_up (block : bool) | c_nm_device_hw_addr_reset
| c_set_nm_ipv6ll (enable : bool) | c_restore_ip6_properties | c_save_ip6_properties | c_ip6_managed_setup
| c_device_init_static_sriov_num_vfs | c_sriov_op_queue (r : NMDeviceStateReason)
| c_cleanup_ip_pre (f : AddrFamily) (t : CleanupType)
| c_nm_device_update_initial_hw_address
| c_nm_pacrunner_manager_remove_clear | c_pacrunner_manager_add
| c_nm_device_update_metered | c_nm_device_master_release_slaves | c_nm_device_master_release_one_slave
| c_nm_settings_connection_update_timestamp
| c_nm_device_start_ip_check | c_notify_ip_properties
| c_concheck_update_interval (f : AddrFamily) (now : bool)
| c_nm_manager_device_route_metric_clear (ifindex : Z)
| c_set_disable_ipv6 | c_sysctl_use_tempaddr | c_sysctl_ip6_mtu (mtu : Z)
| c_class_deactivate | c_class_deactivate_reset_hw_addr | c_class_deactivate_async (r : NMDeviceStateReason)
| c_class_carrier_changed_notify (b : bool)
| c_nm_platform_ip_route_flush (ifindex : Z) | c_nm_platform_ip_address_flush (ifindex : Z)
| c_nm_platform_tfilter_sync (ifindex : Z) | c_nm_platform_qdisc_sync (ifindex : Z)
| c_nm_platform_ip4_dev_route_blacklist_set (ifindex : Z) | c_nm_platform_link_set_mtu (ifindex mtu : Z)
| c_routing_rules_sync (keep : bool)
| c_nm_lldp_listener_stop | c_ethtool_state_reset
| c_nm_device_set_ip_config (f : AddrFamily)
| c_delete_on_deactivate_check_and_schedule (ifindex : Z)
| c_nm_device_update_dynamic_ip_setup | c_nm_device_activate_stage3_ip_start (f : AddrFamily)
| c_queue_ip_config_change (f : AddrFamily)
| mark_cleanup (r : NMDeviceStateReason) (t : CleanupType).

(** What a device asks others. *)
Inductive Query :=
| q_class_is_available | q_no_firmware
| q_dispatcher_call_accepted (a : NMDispatcherAction)
| q_class_deactivate_async | q_ping_started
| q_ignore_carrier | q_has_sriov_setting | q_has_connection_without_timestamp
| q_spec_match_list
| q_ac_deactivating (req : NMActRequest)
| q_connection_requires_carrier (req : NMActRequest)
| q_connection_available (req : NMActRequest) | q_connection_available_without_waiting (req : NMActRequest)
| q_link_has_master
| q_is_master | q_ip_state_in_wait (f : AddrFamily)
| q_config_managed_found | q_config_managed
| q_platform_unmanaged_found | q_platform_unmanaged.

(** The names of actions that others add (nm-device.h). *)
Inductive OtherAction :=
| NM_PENDING_ACTION_AUTOACTIVATE | NM_PENDING_ACTION_CARRIER_WAIT | NM_PENDING_ACTION_WAITING_FOR_SUPPLICANT
| NM_PENDING_ACTION_WIFI_SCAN | NM_PENDING_ACTION_WAITING_FOR_COMPANION | NM_PENDING_ACTIONPREFIX_ACTIVATION (path : string).

Definition other_action (a : OtherAction) : string :=
  match a with
  | NM_PENDING_ACTION_AUTOACTIVATE => "autoactivate"
  | NM_PENDING_ACTION_CARRIER_WAIT => "carrier-wait"
  | NM_PENDING_ACTION_WAITING_FOR_SUPPLICANT => "waiting-for-supplicant"
  | NM_PENDING_ACTION_WIFI_SCAN => "wifi-scan"
  | NM_PENDING_ACTION_WAITING_FOR_COMPANION => "waiting-for-companion"
  | NM_PENDING_ACTIONPREFIX_ACTIVATION path => "activation-" +:+ path
  end.

Definition NM_PENDING_ACTION_IN_STATE_CHANGE : string := "in-state-change".
Definition NM_PENDING_ACTION_RECHECK_AVAILABLE : string := "recheck-available".
Definition NM_PENDING_ACTION_LINK_INIT : string := "link-init".

Definition queued_state_to_string (s : NMDeviceState) : string :=
  "queued-state-change-" +:+
  match s with
  | NM_DEVICE_STATE_UNKNOWN => "unknown" | NM_DEVICE_STATE_UNMANAGED => "unmanaged"
  | NM_DEVICE_STATE_UNAVAILABLE => "unavailable" | NM_DEVICE_STATE_DISCONNECTED => "disconnected"
  | NM_DEVICE_STATE_PREPARE => "prepare" | NM_DEVICE_STATE_CONFIG => "config"
  | NM_DEVICE_STATE_NEED_AUTH => "need-auth" | NM_DEVICE_STATE_IP_CONFIG => "ip-config"
  | NM_DEVICE_STATE_IP_CHECK => "ip-check" | NM_DEVICE_STATE_SECONDARIES => "secondaries"
  | NM_DEVICE_STATE_ACTIVATED => "activated" | NM_DEVICE_STATE_DEACTIVATING => "deactivating"
  | NM_DEVICE_STATE_FAILED => "failed"
  end.

(** The device with the log of its calls, and the number of failed g_return_if_fail
    and g_warn_if_fail checks. *)
Record World := MkWorld { priv : NMDevicePrivate; w_log : list (Call * NMDevicePrivate); w_crit : nat }.

Inductive HandlerOp :=
| op_queue_state (s : NMDeviceState) (r : NMDeviceStateReason)
| op_queued_state_clear
| op_queue_recheck_available (available_reason unavailable_reason : NMDeviceStateReason)
| op_add_pending_action (a : OtherAction) (assert_not_yet_pending : bool)
| op_remove_pending_action (a : OtherAction) (assert_is_pending : bool)
| op_change (f : DeviceRest -> DeviceRest).

Class DeviceHandlers := {
  on_call : Call -> World -> list HandlerOp;
  ask : Query -> World -> bool;
  activation_type : NMActRequest -> World -> NMActivationType;
  now_ms : World -> Z;
  carrier_wait_ms : World -> Z
}.

(** A call and all that it leads to. *)
Class Emitter := emit : Call -> World -> World.

(** ** Acts: statements that change the world *)

Definition act := World -> World.
Definition skip : act := fun w => w.
Definition seq (a b : act) : act := fun w => b (a w).
Definition if_ (b : bool) (a1 a2 : act) : act := fun w => if b then a1 w else a2 w.
Definition when (b : bool) (a : act) : act := if_ b a skip.
Definition get {A} (f : NMDevicePrivate -> A) (k : A -> act) : act := fun w => k (f (priv w)) w.
Definition get_rest {A} (f : DeviceRest -> A) (k : A -> act) : act := get (fun d => f (rest d)) k.
Definition change (f : NMDevicePrivate -> NMDevicePrivate) : act := fun w => MkWorld (f (priv w)) (w_log w) (w_crit w).
Definition change_rest (f : DeviceRest -> DeviceRest) : act := change (fun d => set_rest (f (rest d)) d).
Definition critical : act := fun w => MkWorld (priv w) (w_log w) (S (w_crit w)).
Definition log_call (c : Call) : act := fun w => MkWorld (priv w) ((c, priv w) :: w_log w) (w_crit w).
Definition asking `{DeviceHandlers} (q : Query) (k : bool -> act) : act := fun w => k (ask q w) w.

Declare Scope act_scope.
Delimit Scope act_scope with act.
Bind Scope act_scope with act.
Notation "a ;;; b" := (seq a b) (at level 65, right associativity) : act_scope.
Open Scope act_scope.

(** g_return_if_fail (b), before the rest of a function *)
Definition g_return_if_fail (b : bool) (a : act) : act := if_ b a critical.
Definition g_warn_if_fail (b : bool) : act := when (negb b) critical.

(** g_slist_delete_link of the first element with that text *)
Fixpoint slist_remove (x : string) (l : list string) : list string :=
  match l with
  | [] => []
  | y :: l' => if bool_decide (x = y) then l' else y :: slist_remove x l'
  end.

Section queue.
Context {Em : Emitter}.

Definition _notify (p : NMDeviceProp) : act := emit (c_notify p).

(** ** Pending actions *)

Definition nm_device_add_pending_action (action : string) (assert_not_yet_pending : bool) : act :=
  get pending_actions (fun pending =>
    if_ (bool_decide (action ∈ pending))
      (when assert_not_yet_pending critical)
      (change (set_pending_actions (action :: pending)) ;;;
       when (bool_decide (pending = [])) (_notify PROP_HAS_PENDING_ACTION))).

Definition nm_device_remove_pending_action (action : string) (assert_is_pending : bool) : act :=
  get pending_actions (fun pending =>
    if_ (bool_decide (action ∈ pending))
      (change (set_pending_actions (slist_remove action pending)) ;;;
       when (bool_decide (slist_remove action pending = [])) (_notify PROP_HAS_PENDING_ACTION))
      (when assert_is_pending critical)).

(** ** The queued state *)

Definition nm_device_queue_state (s : NMDeviceState) (reason : NMDeviceStateReason) : act :=
  get queued_state (fun queued =>
    if_ (match queued with Some (s0, _) => state_is s0 s | None => false end) skip
      (nm_device_add_pending_action (queued_state_to_string s) true ;;;
       get queued_state (fun queued =>
         match queued with
         | Some (s0, _) =>
             change (set_queued_state None) ;;;
             nm_device_remove_pending_action (queued_state_to_string s0) true
         | None => skip
         end) ;;;
       change (set_queued_state (Some (s, reason))))).

Definition queued_state_clear : act :=
  get queued_state (fun queued =>
    match queued with
    | Some (s0, _) =>
        change (set_queued_state None) ;;;
        nm_device_remove_pending_action (queued_state_to_string s0) true
    | None => skip
    end).

Definition nm_device_queue_recheck_available (available unavailable : NMDeviceStateReason) : act :=
  change (fun d => set_unavailable_reason unavailable (set_available_reason available d)) ;;;
  get recheck_available_call_id (fun call_id =>
    when (negb call_id)
      (change (set_recheck_available_call_id true) ;;;
       nm_device_add_pending_action NM_PENDING_ACTION_RECHECK_AVAILABLE false)).

Definition run_op (o : HandlerOp) : act :=
  match o with
  | op_queue_state s r => nm_device_queue_state s r
  | op_queued_state_clear => queued_state_clear
  | op_queue_recheck_available a u => nm_device_queue_recheck_available a u
  | op_add_pending_action a b => nm_device_add_pending_action (other_action a) b
  | op_remove_pending_action a b => nm_device_remove_pending_action (other_action a) b
  | op_change f => change_rest f
  end.

Fixpoint run_ops (l : list HandlerOp) : act :=
  match l with [] => skip | o :: l' => run_op o ;;; run_ops l' end.

End queue.

(** A call whose callees call back to a depth of [n]. *)
Fixpoint emit_at `{DeviceHandlers} (n : nat) (c : Call) (w : World) : World :=
  let w := log_call c w in
  match n with O => w | S n => run_ops (Em := emit_at n) (on_call c w) w end.
