(* ===== verification/DeviceQueue.v ===== *)
(** * Devices: what the pending actions say

    A device with a delayed state change, a state change under way or a delayed
    check of its availability has a pending action for it, at every call it makes
    and whatever the callees do to it.  A failed check of g_return_if_fail or
    g_warn_if_fail may break that; so the invariant is one of worlds without any. *)

From S2P Require Export Prelude DeviceBase.

(** What the running functions have changed or announced but not finished: states whose
    action is pending although they are not queued, a state change, a check, and a new
    state that has not ended the dispatcher call of the old one. *)
Record Frame := MkFrame { fr_states : list NMDeviceState; fr_in : bool; fr_recheck : bool; fr_entering : bool }.

Definition no_frame : Frame := MkFrame [] false false false.
Definition push (s : NMDeviceState) (F : Frame) : Frame := MkFrame (s :: fr_states F) (fr_in F) (fr_recheck F) (fr_entering F).
Definition in_change (F : Frame) : Frame := MkFrame (fr_states F) true (fr_recheck F) (fr_entering F).
Definition in_recheck (F : Frame) : Frame := MkFrame (fr_states F) (fr_in F) true (fr_entering F).
Definition entering (F : Frame) : Frame := MkFrame (fr_states F) (fr_in F) (fr_recheck F) true.

Definition dispatcher_ok (d : NMDevicePrivate) : Prop :=
  match dispatcher_call_id d with
  | Some cb_deactivate_dispatcher_complete =>
      state d = NM_DEVICE_STATE_DEACTIVATING /\ dispatcher_post_state d = NM_DEVICE_STATE_DISCONNECTED
  | Some cb_dispatcher_complete_proceed_state => dispatcher_post_state d = NM_DEVICE_STATE_SECONDARIES
  | None => True
  end.

Definition queued_for (d : NMDevicePrivate) (s : NMDeviceState) : Prop := fst <$> queued_state d = Some s.

Record queue_inv (F : Frame) (d : NMDevicePrivate) : Prop := {
  qi_nodup : NoDup (pending_actions d);
  qi_frames : NoDup (fr_states F);
  qi_queued : forall s, queued_state_to_string s ∈ pending_actions d <-> queued_for d s \/ s ∈ fr_states F;
  qi_fresh : forall s, queued_for d s -> s ∉ fr_states F;
  qi_in : NM_PENDING_ACTION_IN_STATE_CHANGE ∈ pending_actions d <-> fr_in F = true;
  qi_changed : in_state_changed d = true -> fr_in F = true;
  qi_recheck : NM_PENDING_ACTION_RECHECK_AVAILABLE ∈ pending_actions d <->
               recheck_available_call_id d = true \/ fr_recheck F = true;
  qi_dispatcher : fr_entering F = false -> dispatcher_ok d }.

(** At a call: what is under way or scheduled has its pending action. *)
Definition announced (d : NMDevicePrivate) : Prop :=
  (in_state_changed d = true -> NM_PENDING_ACTION_IN_STATE_CHANGE ∈ pending_actions d) /\
  (forall s, queued_for d s -> queued_state_to_string s ∈ pending_actions d) /\
  (recheck_available_call_id d = true -> NM_PENDING_ACTION_RECHECK_AVAILABLE ∈ pending_actions d).

Definition world_inv (F : Frame) (w : World) : Prop :=
  queue_inv F (priv w) /\ Forall (fun e => announced e.2) (w_log w).

Lemma inv_announced F d : queue_inv F d -> announced d.
Proof.
  intros []; split_and!; intros; [by apply qi_in0, qi_changed0|by apply qi_queued0; left|by apply qi_recheck0; left].
Qed.

(** ** The texts of the actions *)

Lemma queued_string_inj s s' : queued_state_to_string s = queued_state_to_string s' -> s = s'.
Proof. destruct s, s'; first [done|discriminate]. Qed.

#[export] Instance queued_string_Inj : Inj (=) (=) queued_state_to_string := queued_string_inj.

Lemma in_ne_queued s : NM_PENDING_ACTION_IN_STATE_CHANGE <> queued_state_to_string s.
Proof. by destruct s. Qed.

Lemma recheck_ne_queued s : NM_PENDING_ACTION_RECHECK_AVAILABLE <> queued_state_to_string s.
Proof. by destruct s. Qed.

Lemma other_ne_queued a s : other_action a <> queued_state_to_string s.
Proof. destruct a, s; discriminate. Qed.

Lemma other_ne_in a : other_action a <> NM_PENDING_ACTION_IN_STATE_CHANGE.
Proof. by destruct a. Qed.

Lemma other_ne_recheck a : other_action a <> NM_PENDING_ACTION_RECHECK_AVAILABLE.
Proof. by destruct a. Qed.

Lemma elem_of_slist_remove x y l : NoDup l -> y ∈ slist_remove x l <-> y ∈ l /\ y <> x.
Proof.
  induction 1 as [|z l Hz _ IH]; cbn; [rewrite elem_of_nil; tauto|].
  destruct (bool_decide_reflect (x = z)) as [->|]; rewrite ?elem_of_cons, ?IH; intuition congruence.
Qed.

Lemma NoDup_slist_remove x l : NoDup l -> NoDup (slist_remove x l).
Proof.
  induction 1 as [|z l Hz Hl IH]; cbn; [constructor|]. case_bool_decide; [done|]. constructor; [|done].
  rewrite elem_of_slist_remove by done. tauto.
Qed.

(** ** What acts leave as it is

    Calls and failed checks are only added to the world.  A steady act leaves the
    state.  A calm act leaves the dispatcher call too. *)

Record grows_step (w w' : World) : Prop := {
  cs_crit : (w_crit w <= w_crit w')%nat;
  cs_log : exists l, w_log w' = l ++ w_log w }.

Record steady_step (w w' : World) : Prop := {
  cs_grows : grows_step w w';
  cs_state : state (priv w') = state (priv w);
  cs_reason : state_reason (priv w') = state_reason (priv w);
  cs_in : in_state_changed (priv w') = in_state_changed (priv w) }.

Record calm_step (w w' : World) : Prop := {
  cs_steady : steady_step w w';
  cs_call : dispatcher_call_id (priv w') = dispatcher_call_id (priv w);
  cs_post : dispatcher_post_state (priv w') = dispatcher_post_state (priv w) }.

#[export] Instance grows_step_preorder : PreOrder grows_step.
Proof.
  split; [intros w; split; [done|by exists []]|]. intros w1 w2 w3 [? [l Hl]] [? [l' Hl']]. split; [lia|].
  exists (l' ++ l). by rewrite Hl', Hl, (assoc (++)).
Qed.

#[export] Instance steady_step_preorder : PreOrder steady_step.
Proof. split; [done|]. intros w1 w2 w3 [] []. split; [by etrans|congruence..]. Qed.

#[export] Instance calm_step_preorder : PreOrder calm_step.
Proof. split; [done|]. intros w1 w2 w3 [] []. split; [by etrans|congruence..]. Qed.

Definition stepwise (R : World -> World -> Prop) (a : act) : Prop := forall w, R w (a w).
Abbreviation grows := (stepwise grows_step).
Abbreviation steady := (stepwise steady_step).
Abbreviation calm := (stepwise calm_step).

(** [a] takes a world that is well-formed within [F] to one within [F']. *)
Definition moves (F F' : Frame) (a : act) : Prop :=
  forall w, w_crit (a w) = 0%nat -> world_inv F w -> world_inv F' (a w).

Abbreviation keeps F a := (moves F F a) (only parsing).

Class EmitOk (Em : Emitter) : Prop := {
  emit_calm c : calm (emit c);
  emit_keeps c F : keeps F (emit c) }.

Create HintDb device discriminated.

Section stepwise.
Context {R : World -> World -> Prop} {HR : PreOrder R}.
Lemma sw_skip : stepwise R skip.
Proof. by intros w. Qed.
Lemma sw_seq a b : stepwise R a -> stepwise R b -> stepwise R (a ;;; b).
Proof. intros Ha Hb w. etrans; [apply Ha|apply Hb]. Qed.
Lemma sw_if (c : bool) a b : stepwise R a -> stepwise R b -> stepwise R (if_ c a b).
Proof. intros Ha Hb w. unfold if_. by destruct c. Qed.
Lemma sw_when (c : bool) a : stepwise R a -> stepwise R (when c a).
Proof. intros Ha. apply sw_if; [done|apply sw_skip]. Qed.
Lemma sw_get {A} (f : NMDevicePrivate -> A) k : (forall x, stepwise R (k x)) -> stepwise R (get f k).
Proof. intros Hk w. apply (Hk (f (priv w))). Qed.
Lemma sw_get_rest {A} (f : DeviceRest -> A) k : (forall x, stepwise R (k x)) -> stepwise R (get_rest f k).
Proof. intros Hk. by apply sw_get. Qed.
Lemma sw_world (k : World -> act) : (forall w, stepwise R (k w)) -> stepwise R (fun w => k w w).
Proof. intros Hk w. apply Hk. Qed.
Lemma sw_asking `{DeviceHandlers} q k : (forall x, stepwise R (k x)) -> stepwise R (asking q k).
Proof. intros Hk w. apply (Hk (ask q w)). Qed.
End stepwise.

Lemma calm_critical : calm critical.
Proof. intros w. repeat split; cbn; try done; [lia|by exists []]. Qed.
Lemma sw_guard {R} {HR : PreOrder R} b a : stepwise R a -> stepwise R critical -> stepwise R (g_return_if_fail b a).
Proof. intros Ha Hc. by apply sw_if. Qed.
Lemma calm_log c : calm (log_call c).
Proof. intros w. repeat split; cbn; try done. by exists [(c, priv w)]. Qed.
Lemma grows_change f : grows (change f).
Proof. intros w. split; [done|by exists []]. Qed.
Lemma steady_change f :
  (forall d, state (f d) = state d /\ state_reason (f d) = state_reason d /\ in_state_changed (f d) = in_state_changed d) ->
  steady (change f).
Proof. intros Hf w. destruct (Hf (priv w)) as (?&?&?). split; try done. apply grows_change. Qed.
Lemma calm_change f :
  (forall d, state (f d) = state d /\ state_reason (f d) = state_reason d /\ in_state_changed (f d) = in_state_changed d) ->
  (forall d, dispatcher_call_id (f d) = dispatcher_call_id d /\ dispatcher_post_state (f d) = dispatcher_post_state d) ->
  calm (change f).
Proof. intros Hf Hg w. split; [by apply steady_change|apply Hg..]. Qed.
Lemma calm_change_rest f : calm (change_rest f).
Proof. by apply calm_change. Qed.
Lemma steady_grows a : steady a -> grows a.
Proof. intros Ha w. apply Ha. Qed.
Lemma calm_steady a : calm a -> steady a.
Proof. intros Ha w. apply Ha. Qed.

#[export] Hint Resolve sw_skip sw_seq sw_if sw_when sw_get sw_get_rest sw_asking sw_guard
  calm_critical calm_log calm_change_rest grows_change emit_calm : device.
#[export] Hint Extern 1 (PreOrder _) => apply _ : device.
#[export] Hint Extern 2 (calm (change _)) => apply calm_change; intros; split_and!; reflexivity : device.
#[export] Hint Extern 2 (steady (change _)) => apply steady_change; intros; split_and!; reflexivity : device.
#[export] Hint Extern 5 (steady _) => apply calm_steady : device.
#[export] Hint Extern 6 (grows _) => apply steady_grows : device.
#[export] Hint Extern 1 (stepwise _ (match ?x with _ => _ end)) => destruct x : device.

(** ** Acts that move between frames *)

Lemma moves_skip F : keeps F skip.
Proof. by intros w. Qed.
Lemma moves_seq F F' F'' a b : grows b -> moves F F' a -> moves F' F'' b -> moves F F'' (a ;;; b).
Proof.
  intros Hc Ha Hb w Hw Hi. apply Hb; [done|]. apply Ha; [|done]. pose proof (cs_crit _ _ (Hc (a w))).
  unfold seq in Hw. lia.
Qed.
Lemma moves_if F F' (c : bool) a b : moves F F' a -> moves F F' b -> moves F F' (if_ c a b).
Proof. intros Ha Hb w. unfold if_. destruct c; auto. Qed.
Lemma moves_when F (c : bool) a : keeps F a -> keeps F (when c a).
Proof. intros Ha. apply moves_if; [done|apply moves_skip]. Qed.
Lemma moves_get {A} F F' (f : NMDevicePrivate -> A) k : (forall x, moves F F' (k x)) -> moves F F' (get f k).
Proof. intros Hk w. apply Hk. Qed.
Lemma moves_asking `{DeviceHandlers} F F' q k : (forall x, moves F F' (k x)) -> moves F F' (asking q k).
Proof. intros Hk w. apply Hk. Qed.
Lemma moves_critical F F' : moves F F' critical.
Proof. by intros w Hw. Qed.
Lemma moves_log F c : keeps F (log_call c).
Proof. intros w _ [Hq Hl]. split; [done|]. constructor; [by eapply inv_announced|done]. Qed.
Lemma moves_change F F' f : (forall d, queue_inv F d -> queue_inv F' (f d)) -> moves F F' (change f).
Proof. intros Hf w _ [Hq Hl]. by split; [apply Hf|]. Qed.
Lemma moves_change_rest F f : keeps F (change_rest f).
Proof. apply moves_change. by intros d []. Qed.

#[export] Hint Resolve moves_skip moves_if moves_when moves_get moves_asking moves_critical moves_log moves_change_rest emit_keeps : device.
#[export] Hint Extern 1 (moves ?F ?F (_ ;;; _)) => apply (moves_seq F F F) : device.
#[export] Hint Extern 1 (moves _ _ (get_rest _ _)) => unfold get_rest : device.
#[export] Hint Extern 1 (moves _ _ (g_return_if_fail _ _)) => unfold g_return_if_fail : device.
#[export] Hint Extern 1 (moves _ _ (match ?x with _ => _ end)) => destruct x : device.

Ltac device := auto 40 with device.

(** ** The queue's data under the steps of its operations *)

Section inv_steps.
Context (F : Frame) (d : NMDevicePrivate) (Hi : queue_inv F d).

Lemma inv_add_queued s :
  queued_state_to_string s ∉ pending_actions d ->
  queue_inv (push s F) (set_pending_actions (queued_state_to_string s :: pending_actions d) d).
Proof.
  intros Hs. destruct Hi. split; cbn; try done.
  - by constructor.
  - constructor; [|done]. intros Hin. apply Hs, qi_queued0. by right.
  - intros s'. rewrite !elem_of_cons, qi_queued0. split; [intros [->%queued_string_inj|[]]; tauto|intros [|[->|]]; tauto].
  - intros s' Hq [->|Hs']%elem_of_cons; [apply Hs, qi_queued0; by left|by apply (qi_fresh0 s')].
  - rewrite elem_of_cons, <- qi_in0. pose proof (in_ne_queued s). tauto.
  - rewrite elem_of_cons, <- qi_recheck0. pose proof (recheck_ne_queued s). tauto.
Qed.

Lemma inv_add_other a :
  other_action a ∉ pending_actions d ->
  queue_inv F (set_pending_actions (other_action a :: pending_actions d) d).
Proof.
  intros Ha. destruct Hi. split; cbn; try done.
  - by constructor.
  - intros s. rewrite elem_of_cons, qi_queued0. pose proof (other_ne_queued a s). split; [intros [|]; [congruence|done]|tauto].
  - rewrite elem_of_cons, <- qi_in0. pose proof (other_ne_in a). intuition congruence.
  - rewrite elem_of_cons, <- qi_recheck0. pose proof (other_ne_recheck a). intuition congruence.
Qed.

Lemma inv_remove_other a : queue_inv F (set_pending_actions (slist_remove (other_action a) (pending_actions d)) d).
Proof.
  destruct Hi. split; cbn; try done.
  - by apply NoDup_slist_remove.
  - intros s. rewrite elem_of_slist_remove, qi_queued0 by done. pose proof (other_ne_queued a s). intuition congruence.
  - rewrite elem_of_slist_remove, qi_in0 by done. pose proof (other_ne_in a). intuition congruence.
  - rewrite elem_of_slist_remove, qi_recheck0 by done. pose proof (other_ne_recheck a). intuition congruence.
Qed.

Lemma inv_add_in :
  NM_PENDING_ACTION_IN_STATE_CHANGE ∉ pending_actions d ->
  queue_inv (in_change F) (set_pending_actions (NM_PENDING_ACTION_IN_STATE_CHANGE :: pending_actions d) d).
Proof.
  intros Ha. destruct Hi. split; cbn; try done.
  - by constructor.
  - intros s. rewrite elem_of_cons, qi_queued0. pose proof (in_ne_queued s). intuition congruence.
  - rewrite elem_of_cons. tauto.
  - rewrite elem_of_cons, <- qi_recheck0. split; [intros [[=]|]; done|tauto].
Qed.

Lemma inv_add_recheck :
  NM_PENDING_ACTION_RECHECK_AVAILABLE ∉ pending_actions d ->
  queue_inv F (set_pending_actions (NM_PENDING_ACTION_RECHECK_AVAILABLE :: pending_actions d) (set_recheck_available_call_id true d)).
Proof.
  intros Ha. destruct Hi. split; cbn; try done.
  - by constructor.
  - intros s. rewrite elem_of_cons. pose proof (recheck_ne_queued s). specialize (qi_queued0 s). unfold queued_for in *. cbn. intuition congruence.
  - rewrite elem_of_cons, <- qi_in0. split; [intros [[=]|]; done|tauto].
  - rewrite elem_of_cons. tauto.
Qed.

Lemma inv_set_recheck :
  NM_PENDING_ACTION_RECHECK_AVAILABLE ∈ pending_actions d -> queue_inv F (set_recheck_available_call_id true d).
Proof. intros Ha. destruct Hi. split; cbn; try done. tauto. Qed.

Lemma inv_set_reasons a u : queue_inv F (set_unavailable_reason u (set_available_reason a d)).
Proof. by destruct Hi. Qed.

(** The queued state is taken: its action goes with it or stays for the frame. *)
Lemma inv_take_queued s r : queued_state d = Some (s, r) -> queue_inv (push s F) (set_queued_state None d).
Proof.
  intros Hq. destruct Hi. split; cbn; try done.
  - constructor; [|done]. apply qi_fresh0. unfold queued_for. by rewrite Hq.
  - intros s'. rewrite qi_queued0, elem_of_cons. unfold queued_for. rewrite Hq. cbn. split.
    + intros [[= ->]|]; tauto.
    + intros [|[->|]]; [done|by left|by right].
Qed.

Lemma inv_set_queued s r :
  queued_state d = None -> forall F', F = push s F' -> queue_inv F' (set_queued_state (Some (s, r)) d).
Proof.
  intros Hq F' ->. destruct Hi. cbn in *. apply NoDup_cons in qi_frames0 as [Hs Hnd]. split; cbn; try done.
  - intros s'. rewrite qi_queued0, elem_of_cons. unfold queued_for. rewrite Hq. cbn. split.
    + intros [|[->|]]; [done|by left|by right].
    + intros [[= ->]|]; tauto.
  - intros s' [= <-]. done.
Qed.

Lemma inv_remove_frame s :
  ~ queued_for d s -> forall F', F = push s F' ->
  queue_inv F' (set_pending_actions (slist_remove (queued_state_to_string s) (pending_actions d)) d).
Proof.
  intros Hq F' ->. destruct Hi. cbn in *. apply NoDup_cons in qi_frames0 as [Hs Hnd]. split; cbn; try done.
  - by apply NoDup_slist_remove.
  - intros s'. rewrite elem_of_slist_remove, qi_queued0, elem_of_cons by done. split.
    + intros [[|[->|]] ?]; [tauto|done|tauto].
    + intros H. split; [tauto|]. intros ->%queued_string_inj. tauto.
  - intros s' Hq' Hin. apply (qi_fresh0 s'); [done|by right].
  - rewrite elem_of_slist_remove, qi_in0 by done. pose proof (in_ne_queued s). tauto.
  - rewrite elem_of_slist_remove, qi_recheck0 by done. pose proof (recheck_ne_queued s). tauto.
Qed.

End inv_steps.

(** ** The operations *)

Lemma world_change F F' f w : world_inv F w -> queue_inv F' (f (priv w)) -> world_inv F' (change f w).
Proof. intros [_ Hl] Hq. by split. Qed.

Section operations.
Context {Em : Emitter} {Ok : EmitOk Em}.

Lemma calm_notify p : calm (_notify p).
Proof. unfold _notify. device. Qed.
Lemma keeps_notify p F : keeps F (_notify p).
Proof. unfold _notify. device. Qed.
#[local] Hint Resolve calm_notify keeps_notify : device.

Lemma calm_add a b : calm (nm_device_add_pending_action a b).
Proof. unfold nm_device_add_pending_action. device. Qed.
Lemma calm_remove a b : calm (nm_device_remove_pending_action a b).
Proof. unfold nm_device_remove_pending_action. device. Qed.
#[local] Hint Resolve calm_add calm_remove : device.

Lemma calm_clear : calm queued_state_clear.
Proof. unfold queued_state_clear. device. Qed.
Lemma calm_queue_state s r : calm (nm_device_queue_state s r).
Proof. unfold nm_device_queue_state. device. Qed.
Lemma calm_queue_recheck a u : calm (nm_device_queue_recheck_available a u).
Proof. unfold nm_device_queue_recheck_available. device. Qed.
#[local] Hint Resolve calm_clear calm_queue_state calm_queue_recheck : device.

Lemma calm_run_op o : calm (run_op o).
Proof. destruct o; cbn; device. Qed.
#[local] Hint Resolve calm_run_op : device.
Lemma calm_run_ops l : calm (run_ops l).
Proof. induction l; cbn; device. Qed.

(** Adding an action: either it was there, or the data changes as [f] says. *)
Lemma moves_add F F' a (b : bool) :
  (forall d, queue_inv F d -> a ∈ pending_actions d -> b = false -> queue_inv F' d) ->
  (forall d, queue_inv F d -> a ∉ pending_actions d -> queue_inv F' (set_pending_actions (a :: pending_actions d) d)) ->
  moves F F' (nm_device_add_pending_action a b).
Proof.
  intros Hold Hnew w Hw Hi. unfold nm_device_add_pending_action, get, if_ in *.
  destruct (bool_decide_reflect (a ∈ pending_actions (priv w))) as [Ha|Ha].
  - destruct b; [done|]. destruct Hi as [Hq Hl]. split; [by apply Hold|done].
  - eapply (moves_when F'); [apply keeps_notify|exact Hw|]. destruct Hi as [Hq Hl]. split; [by apply Hnew|done].
Qed.

Lemma moves_remove F F' a w :
  (a ∈ pending_actions (priv w) -> queue_inv F' (set_pending_actions (slist_remove a (pending_actions (priv w))) (priv w))) ->
  (a ∉ pending_actions (priv w) -> queue_inv F' (priv w)) ->
  forall b, w_crit (nm_device_remove_pending_action a b w) = 0%nat -> world_inv F w ->
  world_inv F' (nm_device_remove_pending_action a b w).
Proof.
  intros Hnew Hold b Hw Hi. unfold nm_device_remove_pending_action, get, if_ in *. destruct Hi as [Hq Hl].
  destruct (bool_decide_reflect (a ∈ pending_actions (priv w))) as [Ha|Ha].
  - eapply (moves_when F'); [apply keeps_notify|exact Hw|]. split; [by apply Hnew|done].
  - destruct b; [done|]. split; [by apply Hold|done].
Qed.

Lemma moves_add_queued F s : moves F (push s F) (nm_device_add_pending_action (queued_state_to_string s) true).
Proof. apply moves_add; [done|]. intros. by apply inv_add_queued. Qed.

Lemma moves_add_in F : moves F (in_change F) (nm_device_add_pending_action NM_PENDING_ACTION_IN_STATE_CHANGE true).
Proof. apply moves_add; [done|]. intros. by apply inv_add_in. Qed.

Lemma keeps_add_other F a b : keeps F (nm_device_add_pending_action (other_action a) b).
Proof. apply moves_add; [done|]. intros. by apply inv_add_other. Qed.

Lemma keeps_remove_other F a b : keeps F (nm_device_remove_pending_action (other_action a) b).
Proof. intros w Hw Hi. eapply moves_remove; eauto; [intros _; apply inv_remove_other|intros _]; apply Hi. Qed.

(** Taking the queued state and its action. *)
Lemma keeps_clear F : keeps F queued_state_clear.
Proof.
  intros w Hw Hi. unfold queued_state_clear, get in *. destruct (queued_state (priv w)) as [[s r]|] eqn:Hq; [|done].
  assert (Hi' : queue_inv (push s F) (set_queued_state None (priv w))) by (eapply inv_take_queued; [apply Hi|done]).
  eapply (moves_remove (push s F)); [| |done|by split; [|apply Hi]].
  - intros _. by eapply inv_remove_frame.
  - intros Hn. cbn in Hn. exfalso. apply Hn, Hi'. right. cbn. by left.
Qed.

(** With another action pending, nobody is called. *)
Lemma clear_quiet w x :
  x ∈ pending_actions (priv w) -> (forall s, queued_for (priv w) s -> x <> queued_state_to_string s) ->
  queued_state (priv (queued_state_clear w)) = None /\ w_log (queued_state_clear w) = w_log w /\
  x ∈ pending_actions (priv (queued_state_clear w)).
Proof.
  intros Hx Hs. unfold queued_state_clear, nm_device_remove_pending_action, get, if_, seq, change. unfold queued_for in Hs.
  destruct (queued_state (priv w)) as [[s r]|] eqn:Hq; [|done]. cbn. specialize (Hs s eq_refl).
  case_bool_decide; [|done]. assert (Hx' : x ∈ slist_remove (queued_state_to_string s) (pending_actions (priv w))).
  { clear -Hx Hs. induction (pending_actions (priv w)) as [|y l IH]; [done|]. cbn.
    apply elem_of_cons in Hx as [<-|Hx]; [rewrite bool_decide_false by done; by left|].
    case_bool_decide; [done|]. right. by apply IH. }
  destruct (slist_remove _ _); [by apply elem_of_nil in Hx'|done].
Qed.

Lemma keeps_queue_state F s r : keeps F (nm_device_queue_state s r).
Proof.
  unfold nm_device_queue_state. apply moves_get. intros q. apply moves_if; [apply moves_skip|].
  change (keeps F (nm_device_add_pending_action (queued_state_to_string s) true ;;;
    (queued_state_clear ;;; change (set_queued_state (Some (s, r)))))).
  apply (moves_seq F (push s F)); [device|apply moves_add_queued|]. intros w Hw Hi.
  assert (Hs : queued_state_to_string s ∈ pending_actions (priv w)) by (apply Hi; right; by left).
  assert (Hne : forall s0, queued_for (priv w) s0 -> queued_state_to_string s <> queued_state_to_string s0).
  { intros s0 Hq ->%queued_string_inj. eapply (qi_fresh _ _ (proj1 Hi)); [exact Hq|by left]. }
  destruct (clear_quiet w _ Hs Hne) as (Hnone & _ & _). unfold seq in *.
  assert (Hi' : world_inv (push s F) (queued_state_clear w)) by (by apply keeps_clear).
  apply (world_change _ _ _ _ Hi'). by eapply inv_set_queued; [apply Hi'| |].
Qed.

Lemma keeps_queue_recheck F a u : keeps F (nm_device_queue_recheck_available a u).
Proof.
  unfold nm_device_queue_recheck_available. apply (moves_seq F F); [device|apply moves_change; intros d []; by split|].
  intros w Hw Hi. unfold get in *. destruct (recheck_available_call_id (priv w)); [done|]. cbn [negb when] in *.
  unfold when, if_, seq, nm_device_add_pending_action, get, if_ in *. cbn [priv change pending_actions set_recheck_available_call_id] in *.
  destruct (bool_decide_reflect (NM_PENDING_ACTION_RECHECK_AVAILABLE ∈ pending_actions (priv w))) as [Ha|Ha].
  - apply (world_change F F _ _ Hi). by apply inv_set_recheck; [apply Hi|].
  - eapply (moves_when F); [apply keeps_notify|exact Hw|]. destruct Hi as [Hq Hl]. split; [by apply inv_add_recheck|done].
Qed.

Lemma keeps_run_op F o : keeps F (run_op o).
Proof.
  destruct o; cbn; [apply keeps_queue_state|apply keeps_clear|apply keeps_queue_recheck|apply keeps_add_other
    |apply keeps_remove_other|apply moves_change_rest].
Qed.

Lemma keeps_run_ops F l : keeps F (run_ops l).
Proof.
  induction l as [|o l IH]; cbn; [apply moves_skip|]. apply (moves_seq F F); [apply steady_grows, calm_steady, calm_run_ops|apply keeps_run_op|done].
Qed.

End operations.

#[export] Hint Resolve calm_notify keeps_notify calm_add calm_remove calm_clear calm_queue_state calm_queue_recheck calm_run_op
  calm_run_ops keeps_add_other keeps_remove_other keeps_clear keeps_queue_state keeps_queue_recheck keeps_run_ops : device.

(** Callees that only use these operations, and theirs, keep the invariant. *)
#[export] Instance emit_at_ok `{DeviceHandlers} n : EmitOk (emit_at n).
Proof.
  induction n as [|n IH]; split; unfold emit; intros c; cbn [emit_at].
  - apply calm_log.
  - intros F. apply moves_log.
  - change (calm (log_call c ;;; fun w => run_ops (Em := emit_at n) (on_call c w) w)).
    apply sw_seq; [device|]. intros w. by apply calm_run_ops.
  - intros F. change (keeps F (log_call c ;;; fun w => run_ops (Em := emit_at n) (on_call c w) w)).
    apply (moves_seq F F); [intros w; by apply steady_grows, calm_steady, calm_run_ops|apply moves_log|]. intros w. by apply keeps_run_ops.
Qed.
