(* ===== verification/DeviceState.v ===== *)
(** * Devices: the change of the state

    _set_state_full () of src/devices/nm-device.c with the clean-up of a device and
    the dispatcher calls around it.  A switch of the C code is a match here; the
    function is split where its comments do: entering the state, handling it,
    telling others, and what follows from it. *)

From S2P Require Export Prelude DeviceBase.

#[export] Instance DispatcherCallback_eq_dec : EqDecision DispatcherCallback.
Proof. solve_decision. Defined.

Definition sys_iface_is (d : DeviceRest) (l : list NMDeviceSysIfaceState) : bool := bool_decide (sys_iface_state d ∈ l).

Definition nm_device_sys_iface_state_is_external (d : DeviceRest) : bool :=
  sys_iface_is d [NM_DEVICE_SYS_IFACE_STATE_EXTERNAL].

Definition nm_device_sys_iface_state_is_external_or_assume (d : DeviceRest) : bool :=
  sys_iface_is d [NM_DEVICE_SYS_IFACE_STATE_EXTERNAL; NM_DEVICE_SYS_IFACE_STATE_ASSUME].

Definition nm_device_get_ip_ifindex (d : DeviceRest) : Z := if ip_iface d then ip_ifindex d else ifindex d.

Definition nm_device_get_managed (d : DeviceRest) (for_user_request : bool) : bool :=
  if real d then _get_managed_by_flags (unmanaged_flags d) (unmanaged_mask d) for_user_request else false.

Definition ip_config_valid (s : NMDeviceState) : bool :=
  state_is s NM_DEVICE_STATE_UNMANAGED || ((NM_DEVICE_STATE_IP_CHECK <=? s) && (s <=? NM_DEVICE_STATE_DEACTIVATING)).

Definition CARRIER_WAIT_TIME_AFTER_MTU_MS : Z := 10000.

Section device.
Context `{DeviceHandlers} {Em : Emitter}.

Definition call (c : Call) : act := emit c.

Definition nm_device_sys_iface_state_set (s : NMDeviceSysIfaceState) : act := change_rest (set_sys_iface_state s).

Definition nm_device_set_firmware_missing (new_missing : bool) : act :=
  get_rest firmware_missing (fun old =>
    when (negb (eqb old new_missing)) (change_rest (set_firmware_missing new_missing) ;;; _notify PROP_FIRMWARE_MISSING)).

Definition nm_device_autoconnect_blocked_set_full (mask value : Z) : act :=
  get_rest autoconnect_blocked_flags (fun flags =>
    let value := Z.lor (flags_clear flags mask) (Z.land mask value) in
    when (negb (value =? flags))
      (change_rest (set_autoconnect_blocked_flags value) ;;;
       when (negb (eqb (value =? 0) (flags =? 0))) (_notify PROP_AUTOCONNECT))).

Definition nm_device_autoconnect_blocked_unset (mask : Z) : act := nm_device_autoconnect_blocked_set_full mask 0.

Definition nm_device_assume_state_reset : act :=
  change_rest (fun d => set_assume_state_connection_uuid None (set_assume_state_guess_assume false d)).

(** Removes all, and says so if there were any. *)
Definition available_connections_del_all : act :=
  get_rest available_connections (fun n =>
    when (negb (n =? 0)%nat) (change_rest (set_available_connections 0%nat) ;;; _notify PROP_AVAILABLE_CONNECTIONS)).

Definition _clear_queued_act_request (reason : NMActiveConnectionStateReason) : act :=
  get_rest queued_act_request (fun queued =>
    match queued with
    | Some ac => change_rest (set_queued_act_request None) ;;; call (c_nm_active_connection_set_state_fail ac reason)
    | None => skip
    end).

Definition delete_on_deactivate_unschedule : act := change_rest (set_delete_on_deactivate_data false).

Definition nm_clear_deactivating_cancellable : act :=
  get_rest deactivating_cancellable (fun c => when c (change_rest (set_deactivating_cancellable false) ;;; call c_g_cancellable_cancel)).

Definition activation_source_of (f : AddrFamily) (d : DeviceRest) : option ActivationHandleFunc :=
  match f with AF_INET => activation_source_4 d | AF_INET6 => activation_source_6 d end.

Definition set_activation_source (f : AddrFamily) (x : option ActivationHandleFunc) : act :=
  change_rest (match f with AF_INET => set_activation_source_4 x | AF_INET6 => set_activation_source_6 x end).

Definition activation_source_clear (f : AddrFamily) : act :=
  get_rest (activation_source_of f) (fun source => when (bool_decide (is_Some source)) (set_activation_source f None)).

Definition activation_source_schedule (func : ActivationHandleFunc) (f : AddrFamily) : act :=
  get_rest (activation_source_of f) (fun source =>
    if_ (bool_decide (source = Some func)) skip (set_activation_source f (Some func))).

(** The idle source: the stage runs after its source is cleared. *)
Definition activation_source_handle_cb (f : AddrFamily) : act :=
  get_rest (activation_source_of f) (fun source =>
    match source with
    | Some func => set_activation_source f None ;;; call (c_activation func)
    | None => critical
    end).

Definition _cancel_activation : act :=
  get_rest fw_call (fun c => when c (call c_nm_firewall_manager_cancel_call ;;;
    change_rest (fun d => set_fw_state FIREWALL_STATE_INITIALIZED (set_fw_call false d)))) ;;;
  call c_ip_check_gw_ping_cleanup ;;;
  activation_source_clear AF_INET ;;;
  activation_source_clear AF_INET6.

Definition act_request_set (req : option NMActRequest) : act :=
  get rest (fun d =>
    if_ (negb (act_request_visible d) && bool_decide (act_request d = req)) skip
      (change_rest (fun d => set_act_request_visible false (set_act_request req d)) ;;;
       match req with
       | Some r => fun w =>
           match activation_type r w with
           | NM_ACTIVATION_TYPE_EXTERNAL => skip
           | NM_ACTIVATION_TYPE_ASSUME =>
               get rest (fun d => when (sys_iface_is d [NM_DEVICE_SYS_IFACE_STATE_EXTERNAL])
                 (nm_device_sys_iface_state_set NM_DEVICE_SYS_IFACE_STATE_ASSUME))
           | NM_ACTIVATION_TYPE_MANAGED =>
               get rest (fun d => when (nm_device_sys_iface_state_is_external_or_assume d)
                 (nm_device_sys_iface_state_set NM_DEVICE_SYS_IFACE_STATE_MANAGED))
           end w
       | None => skip
       end)).

(** ** The dispatcher *)

(** A call without a request takes that of the device; without any there is no call. *)
Definition nm_dispatcher_call_device (action : NMDispatcherAction) (req : option NMActRequest) (k : bool -> act) : act :=
  get_rest act_request (fun own =>
    match (match req with Some r => Some r | None => own end) with
    | Some r => call (c_nm_dispatcher_call_device action (Some r)) ;;; asking (q_dispatcher_call_accepted action) k
    | None => k false
    end).

Definition nm_dispatcher_call_device_sync (action : NMDispatcherAction) (req : option NMActRequest) : act :=
  get_rest act_request (fun own =>
    match (match req with Some r => Some r | None => own end) with
    | Some r => call (c_nm_dispatcher_call_device_sync action (Some r))
    | None => skip
    end).

Definition dispatcher_cleanup : act :=
  get dispatcher_call_id (fun id =>
    match id with
    | Some cb =>
        change (set_dispatcher_call_id None) ;;; call (c_nm_dispatcher_call_cancel cb) ;;;
        change (fun d => set_dispatcher_post_state_reason NM_DEVICE_STATE_REASON_NONE
                         (set_dispatcher_post_state NM_DEVICE_STATE_UNKNOWN d))
    | None => skip
    end).

(** The fields of a dispatcher call that is over. *)
Definition dispatcher_reset : act :=
  change (fun d => set_dispatcher_post_state_reason NM_DEVICE_STATE_REASON_NONE
                   (set_dispatcher_post_state NM_DEVICE_STATE_UNKNOWN d)).

Definition deactivate_ready (reason : NMDeviceStateReason) : act :=
  get (fun d => d) (fun d =>
    if_ (bool_decide (is_Some (dispatcher_call_id d))) skip
      (if_ (sriov_pending (rest d) || sriov_next (rest d)) skip
         (nm_device_queue_state NM_DEVICE_STATE_DISCONNECTED reason))).

Definition deactivate_dispatcher_complete (call_id : option DispatcherCallback) : act :=
  get (fun d => d) (fun d =>
    g_return_if_fail (bool_decide (call_id = dispatcher_call_id d))
      (g_return_if_fail (state_is (dispatcher_post_state d) NM_DEVICE_STATE_DISCONNECTED)
        (let reason := state_reason d in
         change (set_dispatcher_call_id None) ;;; dispatcher_reset ;;;
         nm_clear_deactivating_cancellable ;;;
         asking q_class_deactivate_async (fun async =>
           if_ async (change_rest (set_deactivating_cancellable true) ;;; call (c_class_deactivate_async reason))
             (deactivate_ready reason))))).

Definition dispatcher_complete_proceed_state (call_id : option DispatcherCallback) : act :=
  get (fun d => d) (fun d =>
    g_return_if_fail (bool_decide (call_id = dispatcher_call_id d))
      (change (set_dispatcher_call_id None) ;;;
       get (fun d => d) (fun d => nm_device_queue_state (dispatcher_post_state d) (dispatcher_post_state_reason d)) ;;;
       dispatcher_reset)).

Definition ip_check_pre_up : act :=
  dispatcher_cleanup ;;;
  change (fun d => set_dispatcher_post_state_reason NM_DEVICE_STATE_REASON_NONE
                   (set_dispatcher_post_state NM_DEVICE_STATE_SECONDARIES d)) ;;;
  nm_dispatcher_call_device NM_DISPATCHER_ACTION_PRE_UP None (fun ok =>
    if_ ok (change (set_dispatcher_call_id (Some cb_dispatcher_complete_proceed_state)))
      (dispatcher_complete_proceed_state None)).

(** ** Cleaning a device up *)

Definition is_deconfigure (t : CleanupType) : bool := bool_decide (t = CLEANUP_TYPE_DECONFIGURE).
Definition is_keep (t : CleanupType) : bool := bool_decide (t = CLEANUP_TYPE_KEEP).

Definition _cleanup_generic_pre (t : CleanupType) : act :=
  _cancel_activation ;;;
  when (negb (is_keep t)) (get_rest nm_device_get_ip_ifindex (fun i => call (c_nm_manager_device_route_metric_clear i))) ;;;
  get rest (fun d =>
    when (is_deconfigure t && (fw_num FIREWALL_STATE_INITIALIZED <=? fw_num (fw_state d)) && fw_mgr d
          && negb (nm_device_sys_iface_state_is_external d))
      (call c_nm_firewall_manager_remove_from_zone)) ;;;
  change_rest (fun d => set_fw_mgr false (set_fw_state FIREWALL_STATE_UNMANAGED d)) ;;;
  queued_state_clear ;;;
  call (c_cleanup_ip_pre AF_INET t) ;;;
  call (c_cleanup_ip_pre AF_INET6 t).

(** _set_ip_ifindex (self, 0, NULL) *)
Definition _set_ip_ifindex_none : act :=
  get rest (fun d =>
    if_ (negb (ip_iface d) && (ip_ifindex d =? 0)) skip
      (change_rest (set_ip_ifindex 0) ;;;
       when (ip_iface d) (change_rest (set_ip_iface false) ;;; _notify PROP_IP_IFACE))).

Definition _cleanup_generic_post (t : CleanupType) : act :=
  call (c_nm_device_set_ip_config AF_INET) ;;;
  call (c_nm_device_set_ip_config AF_INET6) ;;;
  change_rest (set_proxy_config false) ;;;
  get_rest act_request (fun req =>
    match req with
    | Some r => call (c_nm_active_connection_set_default r AF_INET false) ;;; act_request_set None
    | None => skip
    end) ;;;
  get_rest ip4_address (fun a => when (negb (a =? 0)) (change_rest (set_ip4_address 0) ;;; _notify PROP_IP4_ADDRESS)) ;;;
  when (is_deconfigure t) (get_rest nm_device_get_ip_ifindex (fun i => call (c_delete_on_deactivate_check_and_schedule i))) ;;;
  _set_ip_ifindex_none.

(** What reaches the kernel only when a device is deconfigured. *)
Definition cleanup_platform (i : Z) : act :=
  call c_nm_device_master_release_slaves ;;;
  when (0 <? i)
    (call (c_nm_platform_ip_route_flush i) ;;; call (c_nm_platform_ip_address_flush i) ;;;
     call (c_nm_platform_tfilter_sync i) ;;; call (c_nm_platform_qdisc_sync i)).

Definition cleanup_mtu (t : CleanupType) : act :=
  get rest (fun d =>
    when (negb (mtu_initial d =? 0) || negb (ip6_mtu_initial d =? 0))
      (let i := nm_device_get_ip_ifindex d in
       when ((0 <? i) && is_deconfigure t)
         (when (negb (mtu_initial d =? 0))
            (call (c_nm_platform_link_set_mtu i (mtu_initial d)) ;;;
             fun w => change_rest (set_carrier_wait_until_ms (now_ms w + CARRIER_WAIT_TIME_AFTER_MTU_MS)) w) ;;;
          get_rest ip6_mtu_initial (fun m => when (negb (m =? 0)) (call (c_sysctl_ip6_mtu m)))) ;;;
       change_rest (fun d => set_ip6_mtu_initial 0 (set_mtu_initial 0 d)))).

Definition nm_device_cleanup (reason : NMDeviceStateReason) (t : CleanupType) : act :=
  log_call (mark_cleanup reason t) ;;;
  _cleanup_generic_pre t ;;;
  when (is_deconfigure t) (call c_set_disable_ipv6 ;;; call c_sysctl_use_tempaddr) ;;;
  call c_class_deactivate ;;;
  get_rest nm_device_get_ip_ifindex (fun i =>
    when (is_deconfigure t) (cleanup_platform i) ;;;
    call (c_routing_rules_sync (is_keep t)) ;;;
    when (0 <? i) (call (c_nm_platform_ip4_dev_route_blacklist_set i))) ;;;
  get rest (fun d => asking q_link_has_master (fun has =>
    when (master d && (0 <? ifindex d) && negb has) (call c_nm_device_master_release_one_slave))) ;;;
  get_rest lldp_listener (fun l => when l (call c_nm_lldp_listener_stop)) ;;;
  call c_nm_device_update_metered ;;;
  get state (fun s => if_ (s <=? NM_DEVICE_STATE_UNMANAGED) (call c_nm_device_hw_addr_reset) (call c_class_deactivate_reset_hw_addr)) ;;;
  cleanup_mtu t ;;;
  call c_ethtool_state_reset ;;;
  _cleanup_generic_post t.

(** ** _set_state_full () *)

(** A failure of a connection that was not made here counts as its being there. *)
Definition effective_state (d : NMDevicePrivate) (s : NMDeviceState) (reason : NMDeviceStateReason)
    : NMDeviceState * NMDeviceStateReason :=
  if state_is s NM_DEVICE_STATE_FAILED && nm_device_sys_iface_state_is_external_or_assume (rest d)
  then (NM_DEVICE_STATE_ACTIVATED, NM_DEVICE_STATE_REASON_CONNECTION_ASSUMED) else (s, reason).

Definition state_unchanged (d : NMDevicePrivate) (s : NMDeviceState) : bool :=
  state_is (state d) s && (negb (state_is s NM_DEVICE_STATE_UNAVAILABLE) || negb (firmware_missing (rest d))).

Definition enter_state (s : NMDeviceState) (reason : NMDeviceStateReason) : act :=
  nm_device_add_pending_action NM_PENDING_ACTION_IN_STATE_CHANGE true ;;;
  change (fun d => set_state_reason reason (set_state s (set_in_state_changed true d))) ;;;
  queued_state_clear ;;;
  dispatcher_cleanup ;;;
  nm_clear_deactivating_cancellable.

(** What is reset on the way into a state, before the switch. *)
Definition reset_for_state (s old : NMDeviceState) (reason : NMDeviceStateReason) : act :=
  get rest (fun d =>
    when ((NM_DEVICE_STATE_UNMANAGED <? s) && (s <=? NM_DEVICE_STATE_ACTIVATED)
          && (reason =? NM_DEVICE_STATE_REASON_NOW_MANAGED) && nm_device_sys_iface_state_is_external_or_assume d)
      (nm_device_sys_iface_state_set NM_DEVICE_SYS_IFACE_STATE_MANAGED)) ;;;
  when ((s <=? NM_DEVICE_STATE_DISCONNECTED) || (NM_DEVICE_STATE_ACTIVATED <=? s))
    (change_rest (set_auth_retries NM_DEVICE_AUTH_RETRIES_UNSET)) ;;;
  when (NM_DEVICE_STATE_DISCONNECTED <? s) nm_device_assume_state_reset ;;;
  when (s <=? NM_DEVICE_STATE_UNAVAILABLE)
    (available_connections_del_all ;;;
     when (NM_DEVICE_STATE_UNAVAILABLE <? old)
       (_clear_queued_act_request NM_ACTIVE_CONNECTION_STATE_REASON_DEVICE_DISCONNECTED)) ;;;
  when ((NM_DEVICE_STATE_DISCONNECTED <=? s) && (old <? NM_DEVICE_STATE_DISCONNECTED))
    (call c_nm_device_recheck_available_connections) ;;;
  when ((s <=? NM_DEVICE_STATE_DISCONNECTED) || (NM_DEVICE_STATE_DEACTIVATING <? s))
    (change_rest (set_current_stable_id None)).

Definition is_managed (d : DeviceRest) : bool := sys_iface_is d [NM_DEVICE_SYS_IFACE_STATE_MANAGED].

Definition handle_unmanaged (old : NMDeviceState) (reason : NMDeviceStateReason) : act :=
  nm_device_set_firmware_missing false ;;;
  when (NM_DEVICE_STATE_UNMANAGED <? old)
    (get rest (fun d =>
      if_ (negb (is_managed d))
        (nm_device_cleanup reason
           (if sys_iface_is d [NM_DEVICE_SYS_IFACE_STATE_REMOVED] then CLEANUP_TYPE_REMOVED else CLEANUP_TYPE_KEEP))
        (get_rest act_request (fun req => when (bool_decide (is_Some req)) (nm_device_cleanup reason CLEANUP_TYPE_DECONFIGURE)) ;;;
         call (c_nm_device_take_down true) ;;;
         call c_nm_device_hw_addr_reset ;;;
         call (c_set_nm_ipv6ll false) ;;;
         call c_restore_ip6_properties))).

Definition handle_unavailable (old : NMDeviceState) (reason : NMDeviceStateReason) : act :=
  when (state_is old NM_DEVICE_STATE_UNMANAGED)
    (call c_save_ip6_properties ;;;
     get rest (fun d => when (is_managed d) (call c_ip6_managed_setup)) ;;;
     call c_device_init_static_sriov_num_vfs) ;;;
  get rest (fun d =>
    when (is_managed d)
      (when (state_is old NM_DEVICE_STATE_UNMANAGED || firmware_missing d)
         (call (c_nm_device_bring_up true) ;;;
          asking q_no_firmware (fun no_firmware => nm_device_set_firmware_missing no_firmware)) ;;;
       nm_device_cleanup reason CLEANUP_TYPE_DECONFIGURE)).

Definition handle_disconnected (old : NMDeviceState) (reason : NMDeviceStateReason) : act :=
  if_ (NM_DEVICE_STATE_DISCONNECTED <? old)
    (call (c_set_nm_ipv6ll true) ;;; nm_device_cleanup reason CLEANUP_TYPE_DECONFIGURE)
    (when (old <? NM_DEVICE_STATE_DISCONNECTED)
       (get rest (fun d => when (is_managed d) (call c_ip6_managed_setup)))).

Definition handle_state (s old : NMDeviceState) (reason : NMDeviceStateReason) : act :=
  match s with
  | NM_DEVICE_STATE_UNMANAGED => handle_unmanaged old reason
  | NM_DEVICE_STATE_UNAVAILABLE => handle_unavailable old reason
  | NM_DEVICE_STATE_DISCONNECTED => handle_disconnected old reason
  | NM_DEVICE_STATE_PREPARE => call c_nm_device_update_initial_hw_address
  | NM_DEVICE_STATE_NEED_AUTH =>
      when (NM_DEVICE_STATE_NEED_AUTH <? old)
        (call (c_cleanup_ip_pre AF_INET CLEANUP_TYPE_DECONFIGURE) ;;; call (c_cleanup_ip_pre AF_INET6 CLEANUP_TYPE_DECONFIGURE))
  | _ => skip
  end.

Definition tell_state (s old : NMDeviceState) (reason : NMDeviceStateReason) : act :=
  when ((NM_DEVICE_STATE_PREPARE <=? s) && (s <=? NM_DEVICE_STATE_ACTIVATED))
    (nm_device_autoconnect_blocked_unset NM_DEVICE_AUTOCONNECT_BLOCKED_INTERNAL) ;;;
  _notify PROP_STATE ;;;
  _notify PROP_STATE_REASON ;;;
  call (c_dbus_signal_state_changed s old reason) ;;;
  call (c_signal_state_changed s old reason).

Definition nm_device_is_available (k : bool -> act) : act :=
  get_rest firmware_missing (fun missing => if_ missing (k false) (asking q_class_is_available k)).

Definition _device_activate (req : NMActRequest) : act :=
  asking (q_ac_deactivating req) (fun deactivating =>
    if_ deactivating skip
      (get rest (fun d =>
        if_ (negb (nm_device_get_managed d false))
          (call (c_nm_active_connection_set_state_fail req NM_ACTIVE_CONNECTION_STATE_REASON_UNKNOWN))
          (delete_on_deactivate_unschedule ;;;
           act_request_set (Some req) ;;;
           get_rest act_request (fun cur =>
             g_return_if_fail (bool_decide (is_Some cur))
               (activation_source_schedule activate_stage1_device_prepare AF_INET)))))).

Definition nm_device_start_ip_check_done : act :=
  call c_nm_device_start_ip_check ;;;
  asking q_ping_started (fun started => when (negb started) ip_check_pre_up).

Definition post_deactivating (reason : NMDeviceStateReason) (quitting : bool) (req : option NMActRequest) : act :=
  _cancel_activation ;;;
  asking q_ignore_carrier (fun b => change_rest (set_ignore_carrier b)) ;;;
  if_ quitting
    (nm_dispatcher_call_device_sync NM_DISPATCHER_ACTION_PRE_DOWN req)
    (change (fun d => set_dispatcher_post_state_reason reason (set_dispatcher_post_state NM_DEVICE_STATE_DISCONNECTED d)) ;;;
     nm_dispatcher_call_device NM_DISPATCHER_ACTION_PRE_DOWN req (fun ok =>
       if_ ok (change (set_dispatcher_call_id (Some cb_deactivate_dispatcher_complete)))
         (deactivate_dispatcher_complete None)) ;;;
     get rest (fun d => asking q_has_sriov_setting (fun has =>
       when ((0 <? ifindex d) && has) (call (c_sriov_op_queue reason))))) ;;;
  call c_nm_pacrunner_manager_remove_clear.

Definition post_state (s old : NMDeviceState) (reason : NMDeviceStateReason) (quitting : bool) (req : option NMActRequest) : act :=
  match s with
  | NM_DEVICE_STATE_UNAVAILABLE =>
      nm_device_is_available (fun available =>
        when available (nm_device_queue_recheck_available NM_DEVICE_STATE_REASON_NONE NM_DEVICE_STATE_REASON_NONE))
  | NM_DEVICE_STATE_DEACTIVATING => post_deactivating reason quitting req
  | NM_DEVICE_STATE_DISCONNECTED =>
      get rest (fun d =>
        match queued_act_request d with
        | Some queued => when (negb (queued_act_request_is_waiting_for_carrier d))
            (change_rest (set_queued_act_request None) ;;; _device_activate queued)
        | None => skip
        end)
  | NM_DEVICE_STATE_ACTIVATED =>
      call c_nm_device_update_metered ;;;
      nm_dispatcher_call_device NM_DISPATCHER_ACTION_UP req (fun _ => skip) ;;;
      get_rest proxy_config (fun p => when p (call c_pacrunner_manager_add))
  | NM_DEVICE_STATE_FAILED =>
      _cancel_activation ;;;
      call c_nm_device_master_release_slaves ;;;
      asking q_has_connection_without_timestamp (fun b => when b (call c_nm_settings_connection_update_timestamp)) ;;;
      nm_device_queue_state NM_DEVICE_STATE_DISCONNECTED NM_DEVICE_STATE_REASON_NONE
  | NM_DEVICE_STATE_IP_CHECK =>
      get rest (fun d =>
        if_ ((fw_num FIREWALL_STATE_INITIALIZED <=? fw_num (fw_state d)) && ip_iface d
             && negb (nm_device_sys_iface_state_is_external d))
          (change_rest (set_fw_state FIREWALL_STATE_WAIT_IP_CONFIG) ;;; call c_fw_change_zone)
          nm_device_start_ip_check_done) ;;;
      call c_notify_ip_properties
  | NM_DEVICE_STATE_SECONDARIES => call c_ip_check_gw_ping_cleanup
  | _ => skip
  end.

Definition concheck_now (s old : NMDeviceState) : bool :=
  state_is s NM_DEVICE_STATE_ACTIVATED || state_is s NM_DEVICE_STATE_DISCONNECTED || (NM_DEVICE_STATE_ACTIVATED <=? old).

(** The rest of the work, for any state. *)
Definition follow_state (s old : NMDeviceState) (quitting : bool) (req : option NMActRequest) : act :=
  when (NM_DEVICE_STATE_DISCONNECTED <? s) delete_on_deactivate_unschedule ;;;
  when ((state_is old NM_DEVICE_STATE_ACTIVATED || state_is old NM_DEVICE_STATE_DEACTIVATING)
        && negb (state_is s NM_DEVICE_STATE_DEACTIVATING))
    (if_ quitting (nm_dispatcher_call_device_sync NM_DISPATCHER_ACTION_DOWN req)
       (nm_dispatcher_call_device NM_DISPATCHER_ACTION_DOWN req (fun _ => skip))) ;;;
  when (ip_config_valid old && negb (ip_config_valid s)) (call c_notify_ip_properties) ;;;
  call (c_concheck_update_interval AF_INET (concheck_now s old)) ;;;
  call (c_concheck_update_interval AF_INET6 (concheck_now s old)).

Definition leave_state (s old : NMDeviceState) : act :=
  change (set_in_state_changed false) ;;;
  nm_device_remove_pending_action NM_PENDING_ACTION_IN_STATE_CHANGE true ;;;
  when (negb (eqb (NM_DEVICE_STATE_UNMANAGED <? old) (NM_DEVICE_STATE_UNMANAGED <? s))) (_notify PROP_MANAGED).

Definition change_state (s old : NMDeviceState) (reason : NMDeviceStateReason) (quitting : bool) : act :=
  enter_state s reason ;;;
  get_rest act_request (fun req =>
    reset_for_state s old reason ;;;
    handle_state s old reason ;;;
    tell_state s old reason ;;;
    post_state s old reason quitting req ;;;
    follow_state s old quitting req) ;;;
  leave_state s old.

Definition _set_state_full (s : NMDeviceState) (reason : NMDeviceStateReason) (quitting : bool) : act :=
  get in_state_changed (fun b => g_warn_if_fail (negb b)) ;;;
  get (fun d => d) (fun d =>
    let '(s, reason) := effective_state d s reason in
    if_ (state_unchanged d s) skip (change_state s (state d) reason quitting)).

Definition nm_device_state_changed (s : NMDeviceState) (reason : NMDeviceStateReason) : act := _set_state_full s reason false.

(** ** Delayed changes: the idle sources *)

Definition queued_state_set : act :=
  get queued_state (fun queued =>
    match queued with
    | Some (new_state, new_reason) =>
        change (set_queued_state None) ;;;
        nm_device_state_changed new_state new_reason ;;;
        nm_device_remove_pending_action (queued_state_to_string new_state) true
    | None => skip
    end).

Definition recheck_available : act :=
  get state (fun s =>
    change (set_recheck_available_call_id false) ;;;
    nm_device_is_available (fun now_available =>
      get (fun d => d) (fun d =>
        let clear_reasons := change (fun d => set_unavailable_reason NM_DEVICE_STATE_REASON_NONE
                                               (set_available_reason NM_DEVICE_STATE_REASON_NONE d)) in
        if_ (state_is s NM_DEVICE_STATE_UNAVAILABLE && now_available)
          (nm_device_queue_state NM_DEVICE_STATE_DISCONNECTED (available_reason d) ;;; clear_reasons)
          (when ((NM_DEVICE_STATE_DISCONNECTED <=? s) && negb now_available)
             (nm_device_queue_state NM_DEVICE_STATE_UNAVAILABLE (unavailable_reason d) ;;; clear_reasons)))) ;;;
    get recheck_available_call_id (fun call_id =>
      when (negb call_id) (nm_device_remove_pending_action NM_PENDING_ACTION_RECHECK_AVAILABLE true))).

Definition deactivate_async_ready (cancelled : bool) (reason : NMDeviceStateReason) : act :=
  if_ cancelled skip (change_rest (set_deactivating_cancellable false) ;;; deactivate_ready reason).

Definition sriov_deactivate_cb (cancelled : bool) (reason : NMDeviceStateReason) : act :=
  if_ cancelled skip (deactivate_ready reason).

End device.
