(* ===== verification/DeviceStateInv.v ===== *)
(** * Devices: what a change of the state keeps

    The parts of _set_state_full () between entering the state and leaving it are
    tame: they leave the state as it is and keep the invariant of the pending
    actions, whatever the callees do. *)

From S2P Require Export Prelude DeviceBase DeviceQueue DeviceState.

Definition tame (a : act) : Prop := calm a /\ forall F, keeps F a.

Lemma tame_skip : tame skip.
Proof. split; device. Qed.
Lemma tame_seq a b : tame a -> tame b -> tame (a ;;; b).
Proof. intros [] []. split; [|intros F; apply (moves_seq F F)]; device. Qed.
Lemma tame_if (c : bool) a b : tame a -> tame b -> tame (if_ c a b).
Proof. intros [] []. split; device. Qed.
Lemma tame_when (c : bool) a : tame a -> tame (when c a).
Proof. intros []. split; device. Qed.
Lemma tame_get {A} (f : NMDevicePrivate -> A) k : (forall x, tame (k x)) -> tame (get f k).
Proof. intros Hk. split; [apply sw_get|intros F; apply moves_get]; intros x; apply (Hk x). Qed.
Lemma tame_get_rest {A} (f : DeviceRest -> A) k : (forall x, tame (k x)) -> tame (get_rest f k).
Proof. intros Hk. by apply tame_get. Qed.
Lemma tame_asking `{DeviceHandlers} q k : (forall x, tame (k x)) -> tame (asking q k).
Proof. intros Hk. split; [apply sw_asking|intros F; apply moves_asking]; intros x; apply (Hk x). Qed.
Lemma tame_critical : tame critical.
Proof. split; device. Qed.
Lemma tame_log c : tame (log_call c).
Proof. split; device. Qed.
Lemma tame_change_rest f : tame (change_rest f).
Proof. split; device. Qed.
Lemma tame_world (k : World -> act) : (forall w, tame (k w)) -> tame (fun w => k w w).
Proof. intros Hk. split; [intros w; by apply Hk|intros F w; by apply Hk]. Qed.
Lemma tame_guard b a : tame a -> tame (g_return_if_fail b a).
Proof. intros Ha. apply tame_if; [done|apply tame_critical]. Qed.

#[export] Hint Resolve tame_skip tame_seq tame_if tame_when tame_get tame_get_rest tame_asking tame_critical tame_log
  tame_change_rest tame_guard : device.
#[export] Hint Extern 1 (tame (match ?x with _ => _ end)) => destruct x : device.

Ltac tame_by f := intros; unfold f; device.

Section tame.
Context `{DeviceHandlers} {Em : Emitter} {Ok : EmitOk Em}.

Lemma tame_call c : tame (call c).
Proof. split; unfold call; device. Qed.
Lemma tame_notify p : tame (_notify p).
Proof. split; device. Qed.
Lemma tame_queue_state s r : tame (nm_device_queue_state s r).
Proof. split; device. Qed.
Lemma tame_queued_clear : tame queued_state_clear.
Proof. split; device. Qed.
Lemma tame_queue_recheck a u : tame (nm_device_queue_recheck_available a u).
Proof. split; device. Qed.
Lemma tame_set_source f x : tame (set_activation_source f x).
Proof. tame_by set_activation_source. Qed.
#[local] Hint Resolve tame_call tame_notify tame_queue_state tame_queued_clear tame_queue_recheck tame_set_source : device.

Lemma tame_sys_iface s : tame (nm_device_sys_iface_state_set s).
Proof. tame_by nm_device_sys_iface_state_set. Qed.
Lemma tame_firmware b : tame (nm_device_set_firmware_missing b).
Proof. tame_by @nm_device_set_firmware_missing. Qed.
Lemma tame_autoconnect m v : tame (nm_device_autoconnect_blocked_set_full m v).
Proof. tame_by @nm_device_autoconnect_blocked_set_full. Qed.
Lemma tame_autoconnect_unset m : tame (nm_device_autoconnect_blocked_unset m).
Proof. apply tame_autoconnect. Qed.
Lemma tame_assume_reset : tame nm_device_assume_state_reset.
Proof. tame_by nm_device_assume_state_reset. Qed.
Lemma tame_del_all : tame available_connections_del_all.
Proof. tame_by @available_connections_del_all. Qed.
Lemma tame_clear_queued_act r : tame (_clear_queued_act_request r).
Proof. tame_by @_clear_queued_act_request. Qed.
Lemma tame_delete_unschedule : tame delete_on_deactivate_unschedule.
Proof. tame_by delete_on_deactivate_unschedule. Qed.
Lemma tame_cancellable : tame nm_clear_deactivating_cancellable.
Proof. tame_by @nm_clear_deactivating_cancellable. Qed.
Lemma tame_source_clear f : tame (activation_source_clear f).
Proof. tame_by activation_source_clear. Qed.
Lemma tame_source_schedule func f : tame (activation_source_schedule func f).
Proof. tame_by activation_source_schedule. Qed.
Lemma tame_source_handle f : tame (activation_source_handle_cb f).
Proof. tame_by @activation_source_handle_cb. Qed.
#[local] Hint Resolve tame_sys_iface tame_firmware tame_autoconnect_unset tame_assume_reset tame_del_all tame_clear_queued_act
  tame_delete_unschedule tame_cancellable tame_source_clear tame_source_schedule : device.

Lemma tame_cancel_activation : tame _cancel_activation.
Proof. tame_by @_cancel_activation. Qed.
Lemma tame_act_request_set req : tame (act_request_set req).
Proof.
  unfold act_request_set. apply tame_get. intros d. apply tame_if; [device|]. apply tame_seq; [device|].
  destruct req as [r|]; [|device]. apply (tame_world (fun w => _)). intros w. destruct (activation_type r w); device.
Qed.
Lemma tame_call_device a req k : (forall b, tame (k b)) -> tame (nm_dispatcher_call_device a req k).
Proof. tame_by @nm_dispatcher_call_device. Qed.
Lemma tame_call_device_sync a req : tame (nm_dispatcher_call_device_sync a req).
Proof. tame_by @nm_dispatcher_call_device_sync. Qed.
Lemma tame_deactivate_ready r : tame (deactivate_ready r).
Proof. tame_by @deactivate_ready. Qed.
Lemma tame_is_available k : (forall b, tame (k b)) -> tame (nm_device_is_available k).
Proof. tame_by @nm_device_is_available. Qed.
#[local] Hint Resolve tame_cancel_activation tame_act_request_set tame_call_device tame_call_device_sync tame_deactivate_ready
  tame_is_available : device.

Lemma tame_generic_pre t : tame (_cleanup_generic_pre t).
Proof. tame_by @_cleanup_generic_pre. Qed.
Lemma tame_ip_ifindex_none : tame _set_ip_ifindex_none.
Proof. tame_by @_set_ip_ifindex_none. Qed.
#[local] Hint Resolve tame_ip_ifindex_none : device.
Lemma tame_generic_post t : tame (_cleanup_generic_post t).
Proof. tame_by @_cleanup_generic_post. Qed.
Lemma tame_platform i : tame (cleanup_platform i).
Proof. tame_by @cleanup_platform. Qed.
Lemma tame_mtu t : tame (cleanup_mtu t).
Proof. 
  unfold cleanup_mtu. apply tame_get. intros d. apply tame_when, tame_seq; [|device]. apply tame_when, tame_seq; [|device].
  apply tame_when, tame_seq; [device|]. apply (tame_world (fun w => _)). device.
Qed.
#[local] Hint Resolve tame_generic_pre tame_generic_post tame_platform tame_mtu : device.
Lemma tame_cleanup r t : tame (nm_device_cleanup r t).
Proof. tame_by @nm_device_cleanup. Qed.
#[local] Hint Resolve tame_cleanup : device.
Lemma tame_activate req : tame (_device_activate req).
Proof. tame_by @_device_activate. Qed.
#[local] Hint Resolve tame_activate : device.

Lemma tame_reset s old r : tame (reset_for_state s old r).
Proof. tame_by @reset_for_state. Qed.
Lemma tame_handle_unmanaged old r : tame (handle_unmanaged old r).
Proof. tame_by @handle_unmanaged. Qed.
Lemma tame_handle_unavailable old r : tame (handle_unavailable old r).
Proof. tame_by @handle_unavailable. Qed.
Lemma tame_handle_disconnected old r : tame (handle_disconnected old r).
Proof. tame_by @handle_disconnected. Qed.
#[local] Hint Resolve tame_handle_unmanaged tame_handle_unavailable tame_handle_disconnected : device.
Lemma tame_handle s old r : tame (handle_state s old r).
Proof. tame_by @handle_state. Qed.
Lemma tame_tell s old r : tame (tell_state s old r).
Proof. tame_by @tell_state. Qed.
Lemma tame_follow s old q req : tame (follow_state s old q req).
Proof. tame_by @follow_state. Qed.

End tame.

#[export] Hint Resolve tame_call tame_notify tame_queue_state tame_queued_clear tame_queue_recheck tame_sys_iface tame_firmware
  tame_autoconnect tame_autoconnect_unset tame_assume_reset tame_del_all tame_clear_queued_act tame_delete_unschedule
  tame_cancellable tame_source_clear tame_source_schedule tame_source_handle tame_cancel_activation tame_act_request_set
  tame_call_device tame_call_device_sync tame_deactivate_ready tame_is_available tame_cleanup tame_activate
  tame_reset tame_handle tame_tell tame_follow : device.

Lemma calm_tame a : tame a -> calm a.
Proof. by intros []. Qed.
Lemma steady_tame a : tame a -> steady a.
Proof. intros []. by apply calm_steady. Qed.
Lemma keeps_tame a F : tame a -> keeps F a.
Proof. by intros []. Qed.

(** An invariant that is carried through a tame act. *)
Lemma tame_at a F w : tame a -> w_crit (a w) = 0%nat -> world_inv F w -> world_inv F (a w) /\ calm_step w (a w).
Proof. intros [Hc Hk] Hw Hi. split; [by apply Hk|apply Hc]. Qed.

Lemma grows_tame a : tame a -> grows a.
Proof. intros []. by apply steady_grows, calm_steady. Qed.
Lemma grows_crit a w : grows a -> w_crit (a w) = 0%nat -> w_crit w = 0%nat.
Proof. intros Ha Hw. pose proof (cs_crit _ _ (Ha w)). lia. Qed.

Section dispatcher.
Context `{DeviceHandlers} {Em : Emitter} {Ok : EmitOk Em}.

Lemma inv_no_call F d f :
  queue_inv F d -> dispatcher_call_id d = None ->
  queue_inv F (set_dispatcher_post_state_reason f.2 (set_dispatcher_post_state f.1 d)).
Proof. intros [] Hn. split; cbn; try done. unfold dispatcher_ok. cbn. by rewrite Hn. Qed.

Lemma keeps_set_post F w s r :
  world_inv F w -> dispatcher_call_id (priv w) = None ->
  world_inv F (change (fun d => set_dispatcher_post_state_reason r (set_dispatcher_post_state s d)) w).
Proof. intros Hi Hn. apply (world_change F F _ _ Hi), (inv_no_call F _ (s, r)); [apply Hi|done]. Qed.

Lemma keeps_call_none F : keeps F (change (set_dispatcher_call_id None)).
Proof. apply moves_change. by intros d []. Qed.
#[local] Hint Resolve keeps_call_none : device.

(** After [a] has ended the call and [b] has run, the fields can be reset. *)
Lemma keeps_end_call F b s r :
  tame b ->
  keeps F (change (set_dispatcher_call_id None) ;;; b ;;;
           change (fun d => set_dispatcher_post_state_reason r (set_dispatcher_post_state s d))).
Proof.
  intros Hb w Hw Hi. unfold seq in *. apply keeps_set_post.
  - apply Hb; [exact Hw|]. apply keeps_call_none; [|done]. by apply (grows_crit b); [apply grows_tame|exact Hw].
  - by rewrite (cs_call _ _ (calm_tame _ Hb _)).
Qed.

Lemma steady_dispatcher_cleanup : steady dispatcher_cleanup.
Proof. unfold dispatcher_cleanup. auto 40 using steady_tame with device. Qed.
Lemma keeps_dispatcher_cleanup F : keeps F dispatcher_cleanup.
Proof.
  unfold dispatcher_cleanup. apply moves_get. intros [cb|]; [|device]. apply keeps_end_call. device.
Qed.
Lemma dispatcher_cleanup_none w : dispatcher_call_id (priv (dispatcher_cleanup w)) = None.
Proof.
  unfold dispatcher_cleanup, get. destruct (dispatcher_call_id (priv w)) as [cb|] eqn:Hc; [|done].
  unfold seq. cbn -[call]. by rewrite (cs_call _ _ (calm_tame _ (tame_call _) _)).
Qed.

Lemma steady_complete id : steady (deactivate_dispatcher_complete id).
Proof. unfold deactivate_dispatcher_complete, dispatcher_reset. auto 40 using steady_tame with device. Qed.
Lemma keeps_complete F id : keeps F (deactivate_dispatcher_complete id).
Proof.
  unfold deactivate_dispatcher_complete. apply moves_get. intros d. apply moves_if; [|device]. apply moves_if; [|device].
  change (keeps F ((change (set_dispatcher_call_id None) ;;; skip ;;; dispatcher_reset) ;;;
    (nm_clear_deactivating_cancellable ;;; asking q_class_deactivate_async (fun async =>
       if_ async (change_rest (set_deactivating_cancellable true) ;;; call (c_class_deactivate_async (state_reason d)))
         (deactivate_ready (state_reason d)))))).
  apply (moves_seq F F); [apply grows_tame; device|by apply keeps_end_call; device|apply keeps_tame; device].
Qed.

Lemma steady_proceed id : steady (dispatcher_complete_proceed_state id).
Proof. unfold dispatcher_complete_proceed_state, dispatcher_reset. auto 40 using steady_tame with device. Qed.
Lemma keeps_proceed F id : keeps F (dispatcher_complete_proceed_state id).
Proof.
  unfold dispatcher_complete_proceed_state. apply moves_get. intros d. apply moves_if; [|device]. apply keeps_end_call. device.
Qed.
#[local] Hint Resolve steady_dispatcher_cleanup steady_complete steady_proceed keeps_complete keeps_proceed : device.

Lemma steady_call_device a req k : (forall b, steady (k b)) -> steady (nm_dispatcher_call_device a req k).
Proof. intros Hk. unfold nm_dispatcher_call_device. apply sw_get_rest. intros own. destruct req, own; auto 20 using steady_tame with device. Qed.
#[local] Hint Resolve steady_call_device : device.

Lemma steady_pre_up : steady ip_check_pre_up.
Proof. unfold ip_check_pre_up. auto 40 with device. Qed.

(** A dispatcher call with its callback: what the callback waits for must hold
    before, and the act without a call be fine. *)
Lemma keeps_call_device F a req id b w :
  steady b -> (forall F, keeps F b) ->
  (forall w', calm_step w w' -> world_inv F w' -> world_inv F (change (set_dispatcher_call_id (Some id)) w')) ->
  w_crit (nm_dispatcher_call_device a req (fun ok => if_ ok (change (set_dispatcher_call_id (Some id))) b) w) = 0%nat ->
  world_inv F w ->
  world_inv F (nm_dispatcher_call_device a req (fun ok => if_ ok (change (set_dispatcher_call_id (Some id))) b) w).
Proof.
  intros Hs Hb Hid. unfold nm_dispatcher_call_device, get_rest, get. intros Hw Hi.
  assert (Hsome : forall c, w_crit ((call c ;;; asking (q_dispatcher_call_accepted a) (fun ok => if_ ok (change (set_dispatcher_call_id (Some id))) b)) w) = 0%nat ->
    world_inv F ((call c ;;; asking (q_dispatcher_call_accepted a) (fun ok => if_ ok (change (set_dispatcher_call_id (Some id))) b)) w)).
  { intros c. unfold seq, asking, if_. intros Hw'. assert (Hw1 : w_crit (call c w) = 0%nat).
    { destruct (ask _ _); [exact Hw'|by apply (grows_crit b); [apply steady_grows|]]. }
    destruct (tame_at _ F w (tame_call c) Hw1 Hi) as [Hi1 Hc1]. destruct (ask _ _); [by apply Hid|by apply Hb]. }
  destruct req as [r|]; [by apply Hsome|]. destruct (act_request (rest (priv w))); [by apply Hsome|by apply Hb].
Qed.
End dispatcher.

#[export] Hint Resolve keeps_call_none steady_dispatcher_cleanup keeps_dispatcher_cleanup steady_complete keeps_complete
  steady_proceed keeps_proceed steady_call_device steady_pre_up : device.
#[export] Hint Extern 4 (calm _) => apply calm_tame : device.
#[export] Hint Extern 7 (moves ?F ?F _) => apply keeps_tame : device.

(** ** The change of the state *)

Section change_state.
Context `{DeviceHandlers} {Em : Emitter} {Ok : EmitOk Em}.

Lemma keeps_pre_up F : keeps F ip_check_pre_up.
Proof.
  intros w Hw Hi. unfold ip_check_pre_up in *. set (k := nm_dispatcher_call_device _ _ _) in *.
  assert (Hk : grows (change (fun d => set_dispatcher_post_state_reason NM_DEVICE_STATE_REASON_NONE
                 (set_dispatcher_post_state NM_DEVICE_STATE_SECONDARIES d)) ;;; k)) by (unfold k; device).
  assert (Hw1 : w_crit (dispatcher_cleanup w) = 0%nat) by (by apply (grows_crit _ _ Hk)).
  assert (Hi1 : world_inv F (dispatcher_cleanup w)) by (by apply keeps_dispatcher_cleanup).
  unfold seq. apply keeps_call_device; [device|device| |exact Hw|].
  - intros w' Hc [Hq Hl]. split; [|done]. destruct Hq. split; cbn; try done. intros _. unfold dispatcher_ok. cbn.
    by rewrite (cs_post _ _ Hc).
  - apply keeps_set_post; [done|]. apply dispatcher_cleanup_none.
Qed.

Lemma steady_post_deactivating r q req : steady (post_deactivating r q req).
Proof. unfold post_deactivating. device. Qed.

(** Acts for a given state, after its dispatcher call was ended. *)
Definition keeps_in (s : NMDeviceState) (F : Frame) (a : act) : Prop :=
  forall w, state (priv w) = s -> dispatcher_call_id (priv w) = None -> w_crit (a w) = 0%nat -> world_inv F w -> world_inv F (a w).

Lemma keeps_in_keeps s F a : keeps F a -> keeps_in s F a.
Proof. intros Ha w _ _. apply Ha. Qed.
Lemma keeps_in_tame_seq s F a b : tame a -> grows b -> keeps_in s F b -> keeps_in s F (a ;;; b).
Proof.
  intros Ha Hg Hb w Hs Hn Hw Hi. unfold seq in *.
  destruct (tame_at a F w Ha (grows_crit _ _ Hg Hw) Hi) as [Hi' [[] Hc _]]. apply Hb; [congruence..|done|done].
Qed.
Lemma keeps_in_seq s F a b : keeps_in s F a -> grows b -> keeps F b -> keeps_in s F (a ;;; b).
Proof. intros Ha Hg Hb w Hs Hn Hw Hi. unfold seq in *. apply Hb; [done|]. apply Ha; try done. by apply (grows_crit b). Qed.

Lemma keeps_in_get_rest {A} s F (f : DeviceRest -> A) k : (forall x, keeps_in s F (k x)) -> keeps_in s F (get_rest f k).
Proof. intros Hk w. apply Hk. Qed.
Lemma keeps_in_if s F (c : bool) a b : keeps_in s F a -> keeps_in s F b -> keeps_in s F (if_ c a b).
Proof. intros Ha Hb w. unfold if_. destruct c; auto. Qed.

(** The dispatcher is called before a device is deactivated, and the callback waits for it. *)
Lemma keeps_call_pre_down F r req :
  keeps_in NM_DEVICE_STATE_DEACTIVATING F
    (change (fun d => set_dispatcher_post_state_reason r (set_dispatcher_post_state NM_DEVICE_STATE_DISCONNECTED d)) ;;;
     nm_dispatcher_call_device NM_DISPATCHER_ACTION_PRE_DOWN req (fun ok =>
       if_ ok (change (set_dispatcher_call_id (Some cb_deactivate_dispatcher_complete)))
         (deactivate_dispatcher_complete None))).
Proof.
  intros w Hs Hn Hw Hi. unfold seq in *. apply keeps_call_device; [device|device| |exact Hw|by apply keeps_set_post].
  intros w' Hc [Hq Hl]. split; [|done]. destruct Hq. split; cbn; try done. intros _. unfold dispatcher_ok. cbn.
  by rewrite (cs_post _ _ Hc), (cs_state _ _ (cs_steady _ _ Hc)).
Qed.

Lemma keeps_post_deactivating F r q req : keeps_in NM_DEVICE_STATE_DEACTIVATING F (post_deactivating r q req).
Proof.
  unfold post_deactivating. apply keeps_in_tame_seq; [device|device|]. apply keeps_in_tame_seq; [device|device|].
  apply keeps_in_seq; [|device|device]. apply keeps_in_if; [apply keeps_in_keeps; device|].
  change (keeps_in NM_DEVICE_STATE_DEACTIVATING F
    ((change (fun d => set_dispatcher_post_state_reason r (set_dispatcher_post_state NM_DEVICE_STATE_DISCONNECTED d)) ;;;
      nm_dispatcher_call_device NM_DISPATCHER_ACTION_PRE_DOWN req (fun ok =>
        if_ ok (change (set_dispatcher_call_id (Some cb_deactivate_dispatcher_complete)))
          (deactivate_dispatcher_complete None))) ;;;
     get rest (fun d => asking q_has_sriov_setting (fun has => when ((0 <? ifindex d) && has) (call (c_sriov_op_queue r)))))).
  apply keeps_in_seq; [apply keeps_call_pre_down|device|device].
Qed.

Lemma steady_start_ip_check : steady nm_device_start_ip_check_done.
Proof. unfold nm_device_start_ip_check_done. device. Qed.
Lemma keeps_start_ip_check F : keeps F nm_device_start_ip_check_done.
Proof.
  unfold nm_device_start_ip_check_done. apply (moves_seq F F); [device|device|]. apply moves_asking. intros b.
  apply moves_when, keeps_pre_up.
Qed.
#[local] Hint Resolve steady_post_deactivating steady_start_ip_check keeps_start_ip_check : device.

Lemma steady_post_state s old r q req : steady (post_state s old r q req).
Proof. destruct s; unfold post_state; device. Qed.
Lemma keeps_post_state F s old r q req : keeps_in s F (post_state s old r q req).
Proof. destruct s; try apply keeps_post_deactivating; apply keeps_in_keeps; unfold post_state; device. Qed.
#[local] Hint Resolve steady_post_state : device.

(** *** Entering and leaving a state *)

Lemma grows_enter s r : grows (enter_state s r).
Proof. unfold enter_state. device. Qed.

Lemma enter_state_data s r w :
  state (priv (enter_state s r w)) = s /\ state_reason (priv (enter_state s r w)) = r /\
  in_state_changed (priv (enter_state s r w)) = true.
Proof.
  unfold enter_state. set (c := queued_state_clear ;;; _).
  assert (Hc : steady c) by (unfold c; device). unfold seq at 1 2 3 4 5 6.
  set (w1 := change _ _). destruct (Hc w1) as [_ -> -> ->]. done.
Qed.

Lemma inv_entering F d s r :
  queue_inv (in_change F) d -> queue_inv (entering (in_change F)) (set_state_reason r (set_state s (set_in_state_changed true d))).
Proof. by intros []; split. Qed.

Lemma moves_dispatcher_cleanup F : fr_entering F = false -> moves (entering F) F dispatcher_cleanup.
Proof.
  intros HF w Hw [Hq Hl].
  assert (Hinv : forall d, queue_inv (entering F) d -> dispatcher_call_id d = None -> queue_inv F d).
  { intros d [] Hn. split; try done. intros _. unfold dispatcher_ok. by rewrite Hn. }
  unfold dispatcher_cleanup, get in *. destruct (dispatcher_call_id (priv w)) as [cb|] eqn:Hc; [|by split; [apply Hinv|]].
  set (b := change (set_dispatcher_call_id None)) in *.
  unfold seq in *. apply keeps_set_post.
  - apply (tame_call (c_nm_dispatcher_call_cancel cb)); [exact Hw|]. split; [|done]. apply Hinv; [by destruct Hq|done].
  - by rewrite (cs_call _ _ (calm_tame _ (tame_call _) _)).
Qed.

Lemma moves_enter F s r : fr_entering F = false -> moves F (in_change F) (enter_state s r).
Proof.
  intros HF. unfold enter_state.
  apply (moves_seq F (in_change F)); [device|apply moves_add_in|].
  apply (moves_seq _ (entering (in_change F))); [device|apply moves_change; intros; by apply inv_entering|].
  apply (moves_seq _ (entering (in_change F))); [device|device|].
  apply (moves_seq _ (in_change F)); [device|by apply moves_dispatcher_cleanup|device].
Qed.

Lemma enter_no_call s r w : dispatcher_call_id (priv (enter_state s r w)) = None.
Proof.
  unfold enter_state, seq. rewrite (cs_call _ _ (calm_tame _ tame_cancellable _)). apply dispatcher_cleanup_none.
Qed.

Lemma inv_remove_in F d :
  fr_in F = false -> in_state_changed d = false -> queue_inv (in_change F) d ->
  queue_inv F (set_pending_actions (slist_remove NM_PENDING_ACTION_IN_STATE_CHANGE (pending_actions d)) d).
Proof.
  intros HF Hd []. split; cbn; try done.
  - by apply NoDup_slist_remove.
  - intros s. rewrite elem_of_slist_remove, qi_queued by done. pose proof (in_ne_queued s). intuition congruence.
  - rewrite elem_of_slist_remove, HF by done. intuition congruence.
  - congruence.
  - rewrite elem_of_slist_remove, qi_recheck by done. split; [tauto|]. by split.
Qed.

Lemma grows_leave s old : grows (leave_state s old).
Proof. unfold leave_state. device. Qed.

Lemma leave_state_data s old w :
  state (priv (leave_state s old w)) = state (priv w) /\ state_reason (priv (leave_state s old w)) = state_reason (priv w) /\
  in_state_changed (priv (leave_state s old w)) = false.
Proof.
  unfold leave_state. set (c := nm_device_remove_pending_action _ _ ;;; _).
  assert (Hc : steady c) by (unfold c; device). unfold seq. by destruct (Hc (change (set_in_state_changed false) w)) as [_ -> -> ->].
Qed.

Lemma moves_leave F s old : fr_in F = false -> moves (in_change F) F (leave_state s old).
Proof.
  intros HF. unfold leave_state. set (c := when _ _). intros w Hw Hi. unfold seq in *.
  assert (Hc : tame c) by (unfold c; device). apply Hc; [done|].
  set (w1 := change (set_in_state_changed false) w) in *.
  assert (Hi1 : world_inv (in_change F) w1) by (apply (world_change _ _ _ _ Hi); by destruct Hi as [[] _]).
  apply (moves_remove (in_change F)); [| |by apply (grows_crit c); [apply grows_tame|]|done].
  - intros _. apply inv_remove_in; [done..|apply Hi1].
  - intros Hn. exfalso. apply Hn, (qi_in _ _ (proj1 Hi1)). done.
Qed.

(** *** _set_state_full () *)

Definition in_state (s old : NMDeviceState) (r : NMDeviceStateReason) (q : bool) : act :=
  get_rest act_request (fun req =>
    reset_for_state s old r ;;; handle_state s old r ;;; tell_state s old r ;;; post_state s old r q req ;;; follow_state s old q req).

Lemma steady_in_state s old r q : steady (in_state s old r q).
Proof. unfold in_state. device. Qed.

Lemma keeps_in_state F s old r q : keeps_in s F (in_state s old r q).
Proof.
  unfold in_state. apply keeps_in_get_rest. intros req. do 3 (apply keeps_in_tame_seq; [device|device|]).
  apply keeps_in_seq; [apply keeps_post_state|device|device].
Qed.

Lemma change_state_eq s old r q : change_state s old r q = (enter_state s r ;;; in_state s old r q ;;; leave_state s old).
Proof. done. Qed.

Lemma grows_change_state s old r q : grows (change_state s old r q).
Proof. rewrite change_state_eq. auto using grows_enter, grows_leave, steady_grows, steady_in_state with device. Qed.

Lemma change_state_data s old r q w :
  state (priv (change_state s old r q w)) = s /\ state_reason (priv (change_state s old r q w)) = r /\
  in_state_changed (priv (change_state s old r q w)) = false.
Proof.
  rewrite change_state_eq. unfold seq. destruct (leave_state_data s old (in_state s old r q (enter_state s r w))) as (-> & -> & ->).
  destruct (steady_in_state s old r q (enter_state s r w)) as [_ -> -> _]. by destruct (enter_state_data s r w) as (-> & -> & _).
Qed.

Lemma keeps_change_state F s old r q : fr_in F = false -> fr_entering F = false -> keeps F (change_state s old r q).
Proof.
  intros HF HE. rewrite change_state_eq. intros w Hw Hi. unfold seq in *. apply moves_leave; [done|done|].
  assert (Hw1 : w_crit (in_state s old r q (enter_state s r w)) = 0%nat) by (by apply (grows_crit _ _ (grows_leave s old))).
  assert (Hg : grows (in_state s old r q)) by (apply steady_grows, steady_in_state).
  apply keeps_in_state; [apply enter_state_data|apply enter_no_call|done|]. apply moves_enter; [done| |done].
  by apply (grows_crit _ _ Hg).
Qed.

Lemma grows_set_state_full s r q : grows (_set_state_full s r q).
Proof.
  unfold _set_state_full, g_warn_if_fail. apply sw_seq; [device|]. apply sw_get. intros d.
  destruct (effective_state d s r). apply sw_if; [device|apply grows_change_state].
Qed.

Lemma keeps_set_state_full F s r q : fr_in F = false -> fr_entering F = false -> keeps F (_set_state_full s r q).
Proof.
  intros HF HE. unfold _set_state_full, g_warn_if_fail. apply (moves_seq F F); [|device|].
  - apply sw_get. intros d. destruct (effective_state d s r). apply sw_if; [device|apply grows_change_state].
  - apply moves_get. intros d. destruct (effective_state d s r). apply moves_if; [device|by apply keeps_change_state].
Qed.

(** The state it ends in. *)
Lemma set_state_full_data s r q w :
  in_state_changed (priv w) = false ->
  let (s', r') := effective_state (priv w) s r in
  if state_unchanged (priv w) s' then _set_state_full s r q w = w
  else state (priv (_set_state_full s r q w)) = s' /\ state_reason (priv (_set_state_full s r q w)) = r' /\
       in_state_changed (priv (_set_state_full s r q w)) = false.
Proof.
  intros Hw. unfold _set_state_full, seq, get, g_warn_if_fail, if_, when. rewrite Hw. cbn [negb]. unfold if_, skip.
  destruct (effective_state (priv w) s r) as [s' r']. destruct (state_unchanged (priv w) s'); [done|]. apply change_state_data.
Qed.

(** ** The idle sources *)

Lemma keeps_queued_state_set F : fr_in F = false -> fr_entering F = false -> keeps F queued_state_set.
Proof.
  intros HF HE w Hw Hi. unfold queued_state_set, get in *. destruct (queued_state (priv w)) as [[s r]|] eqn:Hq; [|done].
  set (w1 := change (set_queued_state None) w) in *.
  assert (Hi1 : world_inv (push s F) w1) by (apply (world_change _ _ _ _ Hi); by eapply inv_take_queued; [apply Hi|]).
  unfold seq in *. fold w1 in Hw |- *. set (b := nm_device_remove_pending_action (queued_state_to_string s) true) in *.
  assert (Hb : grows b) by (unfold b; device).
  assert (Hi2 : world_inv (push s F) (nm_device_state_changed s r w1)).
  { apply keeps_set_state_full; [done..|by apply (grows_crit b)|done]. }
  unfold b in *. apply (moves_remove (push s F)); [| |done|done].
  - intros _. eapply inv_remove_frame; [apply Hi2| |done]. intros Hf. apply (qi_fresh _ _ (proj1 Hi2) s Hf). by left.
  - intros Hn. exfalso. apply Hn, (qi_queued _ _ (proj1 Hi2)). right. by left.
Qed.

Lemma grows_queued_state_set : grows queued_state_set.
Proof.
  unfold queued_state_set. apply sw_get. intros [[s r]|]; [|device]. apply sw_seq; [device|]. apply sw_seq; [|device].
  apply grows_set_state_full.
Qed.

Lemma grows_recheck_available : grows recheck_available.
Proof. unfold recheck_available, nm_device_is_available. device. Qed.

Lemma inv_start_recheck F d :
  recheck_available_call_id d = true -> queue_inv F d -> queue_inv (in_recheck F) (set_recheck_available_call_id false d).
Proof. intros Hd []. split; cbn; try done. rewrite qi_recheck. tauto. Qed.

Lemma inv_end_recheck F d :
  fr_recheck F = false -> recheck_available_call_id d = true -> queue_inv (in_recheck F) d -> queue_inv F d.
Proof. intros HF Hd []. split; cbn in *; try done. rewrite qi_recheck. tauto. Qed.

Lemma inv_remove_recheck F d :
  fr_recheck F = false -> recheck_available_call_id d = false -> queue_inv (in_recheck F) d ->
  queue_inv F (set_pending_actions (slist_remove NM_PENDING_ACTION_RECHECK_AVAILABLE (pending_actions d)) d).
Proof.
  intros HF Hd []. split; cbn in *; try done.
  - by apply NoDup_slist_remove.
  - intros s. rewrite elem_of_slist_remove, qi_queued by done. pose proof (recheck_ne_queued s). intuition congruence.
  - rewrite elem_of_slist_remove, qi_in by done. split; [tauto|]. by split.
  - rewrite elem_of_slist_remove, HF, Hd by done. intuition congruence.
Qed.

(** The source has fired: its id is set until then. *)
Lemma keeps_recheck_available F w :
  fr_recheck F = false -> recheck_available_call_id (priv w) = true ->
  w_crit (recheck_available w) = 0%nat -> world_inv F w -> world_inv F (recheck_available w).
Proof.
  intros HF Hcall Hw Hi. unfold recheck_available in *. set (s := state) in *.
  change (get s ?k) with (fun w => k (s (priv w)) w) in *. cbn beta in *. set (s' := s (priv w)) in *. clearbody s'.
  set (b := nm_device_is_available _) in *. set (e := get recheck_available_call_id _) in *.
  assert (Hb : tame b).
  { unfold b. apply tame_is_available. intros a. apply tame_get. intros d.
    assert (tame (change (fun d => set_unavailable_reason NM_DEVICE_STATE_REASON_NONE (set_available_reason NM_DEVICE_STATE_REASON_NONE d)))).
    { split; [device|]. intros F'. apply moves_change. by intros d' []. }
    device. }
  assert (He : grows e) by (unfold e; device). unfold seq in *.
  assert (Hi1 : world_inv (in_recheck F) (b (change (set_recheck_available_call_id false) w))).
  { apply Hb; [by apply (grows_crit e)|]. apply (world_change _ _ _ _ Hi). by apply inv_start_recheck; [|apply Hi]. }
  set (w1 := b _) in *. unfold e, get in Hw |- *. destruct (recheck_available_call_id (priv w1)) eqn:Hc.
  - destruct Hi1 as [Hq Hl]. split; [by apply inv_end_recheck|done].
  - apply (moves_remove (in_recheck F)); [| |exact Hw|done].
    + intros _. apply inv_remove_recheck; [done..|apply Hi1].
    + intros Hn. exfalso. apply Hn, (qi_recheck _ _ (proj1 Hi1)). by right.
Qed.

Lemma tame_async_ready c r : tame (deactivate_async_ready c r).
Proof. unfold deactivate_async_ready. device. Qed.
Lemma tame_sriov_cb c r : tame (sriov_deactivate_cb c r).
Proof. unfold sriov_deactivate_cb. device. Qed.

End change_state.
