(* ===== verification/DeviceOps.v ===== *)
(** * Devices: carrier, activation requests and being managed

    The functions of src/devices/nm-device.c that lead to a change of the state. *)

From S2P Require Export Prelude DeviceFlags DeviceBase DeviceQueue DeviceState DeviceStateInv.

(** The text of the first pending action, or NULL. *)
Definition nm_device_has_pending_action_reason (d : NMDevicePrivate) : option string :=
  match pending_actions d with
  | a :: l =>
      if bool_decide (l = []) && state_is (state d) NM_DEVICE_STATE_ACTIVATED
         && bool_decide (a = other_action NM_PENDING_ACTION_CARRIER_WAIT) then None else Some a
  | [] =>
      if real (rest d) && NM_FLAGS_ANY (unmanaged_flags (rest d)) NM_UNMANAGED_PLATFORM_INIT
      then Some NM_PENDING_ACTION_LINK_INIT else None
  end.

Definition nm_device_has_pending_action (d : NMDevicePrivate) : bool :=
  bool_decide (is_Some (nm_device_has_pending_action_reason d)).

Definition nm_device_is_activating (d : NMDevicePrivate) : bool :=
  ((NM_DEVICE_STATE_PREPARE <=? state d) && (state d <=? NM_DEVICE_STATE_SECONDARIES))
  || bool_decide (is_Some (activation_source_4 (rest d))).

Section ops.
Context `{DeviceHandlers} {Em : Emitter}.

(** ** Carrier *)

Definition carrier_changed_state (carrier : bool) : act :=
  get (fun d => d) (fun d =>
    if_ carrier
      (match state d with
       | NM_DEVICE_STATE_UNAVAILABLE => nm_device_queue_state NM_DEVICE_STATE_DISCONNECTED NM_DEVICE_STATE_REASON_CARRIER
       | NM_DEVICE_STATE_DISCONNECTED => call c_signal_recheck_auto_activate
       | NM_DEVICE_STATE_ACTIVATED => call c_nm_device_update_dynamic_ip_setup
       | _ => skip
       end)
      (if_ (state_is (state d) NM_DEVICE_STATE_UNAVAILABLE)
         (when (match queued_state d with Some (s, _) => NM_DEVICE_STATE_DISCONNECTED <=? s | None => false end)
            queued_state_clear)
         (nm_device_queue_state NM_DEVICE_STATE_UNAVAILABLE NM_DEVICE_STATE_REASON_CARRIER))).

Definition carrier_changed_master : act :=
  get state (fun s => when (state_is s NM_DEVICE_STATE_ACTIVATED) (call c_nm_device_update_dynamic_ip_setup)) ;;;
  asking (q_ip_state_in_wait AF_INET) (fun b => when b (call (c_nm_device_activate_stage3_ip_start AF_INET))) ;;;
  asking (q_ip_state_in_wait AF_INET6) (fun b => when b (call (c_nm_device_activate_stage3_ip_start AF_INET6))).

Definition carrier_changed (carrier : bool) : act :=
  get state (fun s =>
    if_ (s <=? NM_DEVICE_STATE_UNMANAGED) skip
      (call c_nm_device_recheck_available_connections ;;;
       get_rest ignore_carrier (fun ignore =>
         if_ (ignore && negb carrier) skip
           (asking q_is_master (fun is_master =>
             if_ (is_master && carrier) carrier_changed_master
               (get_rest is_enslaved (fun enslaved =>
                 if_ (negb is_master && (enslaved && negb carrier)) skip (carrier_changed_state carrier)))))))).

Definition _carrier_wait_check_queued_act_request : act :=
  get rest (fun d =>
    match queued_act_request d with
    | Some req => when (queued_act_request_is_waiting_for_carrier d)
        (change_rest (set_queued_act_request_is_waiting_for_carrier false) ;;;
         if_ (negb (carrier d)) (_clear_queued_act_request NM_ACTIVE_CONNECTION_STATE_REASON_DEVICE_DISCONNECTED)
           (get state (fun s => when (state_is s NM_DEVICE_STATE_DISCONNECTED)
              (change_rest (set_queued_act_request None) ;;; _device_activate req))))
    | None => skip
    end).

Definition nm_device_set_carrier (new : bool) : act :=
  get (fun d => d) (fun d =>
    let s := state d in
    if_ (eqb (carrier (rest d)) new) skip
      (let notify_flags := carrier_detect_nonstandard (rest d) in
       when notify_flags (change_rest (set_interface_flags_carrier new)) ;;;
       change_rest (set_carrier new) ;;;
       if_ notify_flags (call (c_notify_together PROP_CARRIER PROP_INTERFACE_FLAGS)) (_notify PROP_CARRIER) ;;;
       get_rest carrier (fun now =>
         if_ now
           (change_rest (set_carrier_defer_id None) ;;;
            call (c_class_carrier_changed_notify new) ;;;
            carrier_changed true ;;;
            get_rest carrier_wait_id (fun wait => when wait
              (nm_device_remove_pending_action (other_action NM_PENDING_ACTION_CARRIER_WAIT) false ;;;
               _carrier_wait_check_queued_act_request)))
           (get_rest carrier_wait_id (fun wait =>
              when wait (nm_device_add_pending_action (other_action NM_PENDING_ACTION_CARRIER_WAIT) false)) ;;;
            call (c_class_carrier_changed_notify new) ;;;
            get_rest queued_act_request (fun queued =>
              if_ ((s <=? NM_DEVICE_STATE_DISCONNECTED) && bool_decide (queued = None)) (carrier_changed false)
                (fun w => change_rest (fun d =>
                   set_carrier_defer_id (Some (Z.max (now_ms w + carrier_wait_ms w) (carrier_wait_until_ms d) - now_ms w)) d) w)))))).

(** Timeouts *)
Definition carrier_disconnected_action_cb : act :=
  change_rest (set_carrier_defer_id None) ;;; carrier_changed false.

Definition carrier_wait_timeout : act :=
  change_rest (set_carrier_wait_id false) ;;;
  nm_device_remove_pending_action (other_action NM_PENDING_ACTION_CARRIER_WAIT) false ;;;
  get_rest carrier (fun c => when (negb c) _carrier_wait_check_queued_act_request).

(** ** Activation requests *)

Definition _carrier_wait_check_act_request_must_queue (req : NMActRequest) (k : bool -> act) : act :=
  get rest (fun d =>
    if_ (carrier d) (k false)
      (if_ (negb (carrier_wait_id d)) (k false)
         (asking (q_connection_requires_carrier req) (fun requires =>
           if_ (negb requires) (k false)
             (asking (q_connection_available req) (fun available =>
               if_ (negb available) (k false)
                 (asking (q_connection_available_without_waiting req) (fun without_waiting =>
                   k (negb without_waiting))))))))).

Definition nm_device_queue_activation (req : NMActRequest) : act :=
  call (c_nm_keep_alive_arm req) ;;;
  asking (q_ac_deactivating req) (fun deactivating =>
    if_ deactivating skip
      (_carrier_wait_check_act_request_must_queue req (fun must_queue =>
        get rest (fun d =>
          if_ (bool_decide (act_request d = None) && negb must_queue && real d) (_device_activate req)
            (_clear_queued_act_request NM_ACTIVE_CONNECTION_STATE_REASON_DEVICE_DISCONNECTED ;;;
             change_rest (fun d => set_queued_act_request_is_waiting_for_carrier must_queue (set_queued_act_request (Some req) d)) ;;;
             get_rest act_request (fun cur =>
               when (bool_decide (is_Some cur))
                 (nm_device_state_changed NM_DEVICE_STATE_DEACTIVATING NM_DEVICE_STATE_REASON_NEW_ACTIVATION))))))).

(** For an active connection of this device. *)
Definition nm_device_disconnect_active_connection (active : NMActRequest) (device_reason : NMDeviceStateReason)
    (active_reason : NMActiveConnectionStateReason) : act :=
  get (fun d => d) (fun d =>
    if_ (bool_decide (queued_act_request (rest d) = Some active)) (_clear_queued_act_request active_reason)
      (if_ (bool_decide (act_request (rest d) = Some active))
         (when (state d <? NM_DEVICE_STATE_DEACTIVATING) (nm_device_state_changed NM_DEVICE_STATE_DEACTIVATING device_reason))
         (call (c_nm_active_connection_set_state_fail active active_reason)))).

(** ** Being managed *)

Definition set_unmanaged (p : Z * Z) (d : DeviceRest) : DeviceRest := set_unmanaged_mask p.2 (set_unmanaged_flags p.1 d).

(** The state to change to when the flags change, if any. *)
Definition managed_transition (was_managed is_managed : bool) (s : NMDeviceState) : option NMDeviceState :=
  if negb (eqb was_managed is_managed) && (was_managed || state_is s NM_DEVICE_STATE_UNMANAGED)
  then Some (if was_managed then NM_DEVICE_STATE_UNMANAGED else NM_DEVICE_STATE_UNAVAILABLE) else None.

(** The function from the change of the flags on; [had] is whether the device had a pending action,
    where it matters. *)
Definition update_unmanaged_flags (flags : Z) (set_op : NMUnmanFlagOp) (allow_state_transition was_managed now : bool)
    (reason : NMDeviceStateReason) (had : option bool) : act :=
  get rest (fun d =>
    let new := apply_flag_op flags set_op (unmanaged_flags d) (unmanaged_mask d) in
    change_rest (set_unmanaged new) ;;;
    if_ (bool_decide ((unmanaged_flags d, unmanaged_mask d) = new)) skip
      (get (fun d => d) (fun d =>
        let transition := if allow_state_transition
                          then managed_transition was_managed (nm_device_get_managed (rest d) false) (state d) else None in
        match had with
        | Some b => when (negb (eqb b (nm_device_has_pending_action d))) (_notify PROP_HAS_PENDING_ACTION)
        | None => skip
        end ;;;
        match transition with
        | Some s => if_ now (nm_device_state_changed s reason) (nm_device_queue_state s reason)
        | None => skip
        end))).

(** With the function for its call of itself, which is for other flags. *)
Definition set_unmanaged_flags_with (recur : Z -> NMUnmanFlagOp -> act) (flags : Z) (set_op : NMUnmanFlagOp)
    (allow_state_transition now : bool) (reason : NMDeviceStateReason) : act :=
  g_return_if_fail (negb (flags =? 0))
    (get rest (fun d =>
      let allow := real d && allow_state_transition in
      let was_managed := allow && nm_device_get_managed d false in
      if_ (NM_FLAGS_HAS (unmanaged_flags d) NM_UNMANAGED_PLATFORM_INIT && NM_FLAGS_HAS flags NM_UNMANAGED_PLATFORM_INIT
           && match set_op with NM_UNMAN_FLAG_OP_SET_MANAGED => true | _ => false end)
        (when (negb (NM_FLAGS_HAS flags NM_UNMANAGED_USER_SETTINGS))
           (asking q_spec_match_list (fun unmanaged => recur NM_UNMANAGED_USER_SETTINGS (flag_op unmanaged))) ;;;
         call (c_queue_ip_config_change AF_INET) ;;;
         call (c_queue_ip_config_change AF_INET6) ;;;
         get (fun d => d) (fun d =>
           update_unmanaged_flags flags set_op allow was_managed now reason
             (if bool_decide (pending_actions d = []) then Some (nm_device_has_pending_action d) else None)))
        (update_unmanaged_flags flags set_op allow was_managed now reason None))).

Definition _set_unmanaged_flags : Z -> NMUnmanFlagOp -> bool -> bool -> NMDeviceStateReason -> act :=
  set_unmanaged_flags_with (fun flags set_op =>
    set_unmanaged_flags_with (fun _ _ => skip) flags set_op false false NM_DEVICE_STATE_REASON_NONE).

Definition nm_device_set_unmanaged_flags (flags : Z) (set_op : NMUnmanFlagOp) : act :=
  _set_unmanaged_flags flags set_op false false NM_DEVICE_STATE_REASON_NONE.

Definition nm_device_set_unmanaged_by_flags (flags : Z) (set_op : NMUnmanFlagOp) (reason : NMDeviceStateReason) : act :=
  _set_unmanaged_flags flags set_op true true reason.

Definition nm_device_set_unmanaged_by_flags_queue (flags : Z) (set_op : NMUnmanFlagOp) (reason : NMDeviceStateReason) : act :=
  _set_unmanaged_flags flags set_op true false reason.

Definition nm_device_set_unmanaged_by_user_settings : act :=
  get rest (fun d =>
    if_ (NM_FLAGS_ANY (unmanaged_flags d) NM_UNMANAGED_PLATFORM_INIT) skip
      (asking q_spec_match_list (fun unmanaged =>
        nm_device_set_unmanaged_by_flags NM_UNMANAGED_USER_SETTINGS (flag_op unmanaged)
          (if unmanaged then NM_DEVICE_STATE_REASON_NOW_UNMANAGED else NM_DEVICE_STATE_REASON_NOW_MANAGED)))).

Definition nm_device_set_unmanaged_by_user_udev : act :=
  get rest (fun d =>
    if_ (ifindex d <=? 0) skip
      (asking q_platform_unmanaged_found (fun found =>
        when found (asking q_platform_unmanaged (fun unmanaged =>
          nm_device_set_unmanaged_by_flags NM_UNMANAGED_USER_UDEV (flag_op unmanaged) NM_DEVICE_STATE_REASON_USER_REQUESTED))))).

Definition nm_device_set_unmanaged_by_user_conf : act :=
  asking q_config_managed_found (fun found => asking q_config_managed (fun managed =>
    nm_device_set_unmanaged_by_flags NM_UNMANAGED_USER_CONF
      (if found then (if managed then NM_UNMAN_FLAG_OP_SET_MANAGED else NM_UNMAN_FLAG_OP_SET_UNMANAGED) else NM_UNMAN_FLAG_OP_FORGET)
      NM_DEVICE_STATE_REASON_USER_REQUESTED)).

Definition nm_device_set_unmanaged_by_quitting : act :=
  get (fun d => d) (fun d =>
    let need_deactivate := nm_device_is_activating d || state_is (state d) NM_DEVICE_STATE_ACTIVATED in
    when need_deactivate (_set_state_full NM_DEVICE_STATE_DEACTIVATING NM_DEVICE_STATE_REASON_NOW_UNMANAGED true) ;;;
    nm_device_set_unmanaged_by_flags NM_UNMANAGED_QUITTING (flag_op true)
      (if need_deactivate then NM_DEVICE_STATE_REASON_REMOVED else NM_DEVICE_STATE_REASON_NOW_UNMANAGED)).

End ops.
