(* ===== verification/DeviceRun.v ===== *)
(** * Devices: runs of the main loop

    What happens to a device, one event of the main loop after another: requests of
    others, idle sources, timeouts and the ends of calls.  In every world that is
    reached without a failed check, pending actions say what is scheduled. *)

From S2P Require Export Prelude DeviceFlags DeviceBase DeviceQueue DeviceState DeviceStateInv DeviceOps.

Inductive Event :=
| ev_state_changed (s : NMDeviceState) (r : NMDeviceStateReason)
| ev_queued_state | ev_recheck_available
| ev_op (o : HandlerOp)
| ev_activation (f : AddrFamily)
| ev_dispatcher_complete
| ev_deactivate_async_ready (cancelled : bool) (r : NMDeviceStateReason)
| ev_sriov_deactivate (cancelled : bool) (r : NMDeviceStateReason)
| ev_ip_check_pre_up
| ev_set_carrier (c : bool) | ev_carrier_defer | ev_carrier_wait_timeout
| ev_queue_activation (req : NMActRequest)
| ev_disconnect (req : NMActRequest) (r : NMDeviceStateReason) (a : NMActiveConnectionStateReason)
| ev_set_unmanaged_flags (flags : Z) (op : NMUnmanFlagOp)
| ev_set_unmanaged_by_flags (flags : Z) (op : NMUnmanFlagOp) (r : NMDeviceStateReason)
| ev_set_unmanaged_by_flags_queue (flags : Z) (op : NMUnmanFlagOp) (r : NMDeviceStateReason)
| ev_user_settings | ev_user_udev | ev_user_conf | ev_quitting.

(** A source fires only while its id is set. *)
Definition enabled (e : Event) (d : NMDevicePrivate) : bool :=
  match e with
  | ev_queued_state => bool_decide (is_Some (queued_state d))
  | ev_recheck_available => recheck_available_call_id d
  | ev_activation f => bool_decide (is_Some (activation_source_of f (rest d)))
  | ev_dispatcher_complete => bool_decide (is_Some (dispatcher_call_id d))
  | ev_carrier_defer => bool_decide (is_Some (carrier_defer_id (rest d)))
  | ev_carrier_wait_timeout => carrier_wait_id (rest d)
  | _ => true
  end.

Section events.
Context `{DeviceHandlers} {Em : Emitter}.

(** dispatcher_done_cb () calls back with the id of the call. *)
Definition dispatcher_complete : act :=
  get dispatcher_call_id (fun id =>
    match id with
    | Some cb_deactivate_dispatcher_complete => deactivate_dispatcher_complete id
    | Some cb_dispatcher_complete_proceed_state => dispatcher_complete_proceed_state id
    | None => skip
    end).

Definition handle_event (e : Event) : act :=
  match e with
  | ev_state_changed s r => nm_device_state_changed s r
  | ev_queued_state => queued_state_set
  | ev_recheck_available => recheck_available
  | ev_op o => run_op o
  | ev_activation f => activation_source_handle_cb f
  | ev_dispatcher_complete => dispatcher_complete
  | ev_deactivate_async_ready c r => deactivate_async_ready c r
  | ev_sriov_deactivate c r => sriov_deactivate_cb c r
  | ev_ip_check_pre_up => ip_check_pre_up
  | ev_set_carrier c => nm_device_set_carrier c
  | ev_carrier_defer => carrier_disconnected_action_cb
  | ev_carrier_wait_timeout => carrier_wait_timeout
  | ev_queue_activation req => nm_device_queue_activation req
  | ev_disconnect req r a => nm_device_disconnect_active_connection req r a
  | ev_set_unmanaged_flags f op => nm_device_set_unmanaged_flags f op
  | ev_set_unmanaged_by_flags f op r => nm_device_set_unmanaged_by_flags f op r
  | ev_set_unmanaged_by_flags_queue f op r => nm_device_set_unmanaged_by_flags_queue f op r
  | ev_user_settings => nm_device_set_unmanaged_by_user_settings
  | ev_user_udev => nm_device_set_unmanaged_by_user_udev
  | ev_user_conf => nm_device_set_unmanaged_by_user_conf
  | ev_quitting => nm_device_set_unmanaged_by_quitting
  end.
End events.

(** A step, with callees to a depth of [n]. *)
Inductive device_step `{DeviceHandlers} (n : nat) : World -> World -> Prop :=
| step_event w e : enabled e (priv w) = true -> device_step n w (handle_event (Em := emit_at n) e w).

Fixpoint run_events `{DeviceHandlers} (n : nat) (l : list Event) (w : World) : World :=
  match l with [] => w | e :: l' => run_events n l' (handle_event (Em := emit_at n) e w) end.

(** nm_device_init (): unmanaged, nothing scheduled. *)
Definition nm_device_init : World :=
  MkWorld (MkNMDevicePrivate false NM_DEVICE_STATE_UNMANAGED NM_DEVICE_STATE_REASON_NONE None [] false
    NM_DEVICE_STATE_REASON_NONE NM_DEVICE_STATE_REASON_NONE None NM_DEVICE_STATE_UNKNOWN NM_DEVICE_STATE_REASON_NONE
    (MkDeviceRest 0 0 false false false NM_UNMANAGED_PLATFORM_INIT NM_UNMANAGED_PLATFORM_INIT
       NM_DEVICE_SYS_IFACE_STATE_EXTERNAL None false None false false None None
       NM_DEVICE_AUTH_RETRIES_UNSET false None 0 None 0 FIREWALL_STATE_UNMANAGED false false false false false false
       false false false false false false None 0 false false 0 0 0)) [] 0.

Lemma init_inv : world_inv no_frame nm_device_init.
Proof.
  split; [|constructor]. split; cbn; try done; [constructor..| | |]; intros; rewrite ?elem_of_nil; [|intuition congruence..].
  split; [done|]. by intros [[=]|[]].
Qed.

(** ** Every event keeps the invariant *)

Section keeps.
Context `{DeviceHandlers} {Em : Emitter} {Ok : EmitOk Em}.

Lemma grows_state_changed s r : grows (nm_device_state_changed s r).
Proof. apply grows_set_state_full. Qed.
Lemma keeps_state_changed s r : keeps no_frame (nm_device_state_changed s r).
Proof. by apply keeps_set_state_full. Qed.
Lemma keeps_state_full s r q : keeps no_frame (_set_state_full s r q).
Proof. by apply keeps_set_state_full. Qed.
Lemma tame_add_other a b : tame (nm_device_add_pending_action (other_action a) b).
Proof. split; device. Qed.
Lemma tame_remove_other a b : tame (nm_device_remove_pending_action (other_action a) b).
Proof. split; device. Qed.
Lemma tame_run_op o : tame (run_op o).
Proof. split; [device|]. intros F. apply keeps_run_op. Qed.
#[local] Hint Resolve grows_state_changed grows_set_state_full keeps_state_changed keeps_state_full tame_add_other tame_remove_other : device.

Lemma tame_carrier_changed c : tame (carrier_changed c).
Proof.
  assert (tame carrier_changed_master) by (unfold carrier_changed_master; device).
  assert (tame (carrier_changed_state c)) by (unfold carrier_changed_state; device).
  unfold carrier_changed. device.
Qed.
Lemma tame_check_queued : tame _carrier_wait_check_queued_act_request.
Proof. unfold _carrier_wait_check_queued_act_request. device. Qed.
#[local] Hint Resolve tame_carrier_changed tame_check_queued : device.

Lemma tame_set_carrier c : tame (nm_device_set_carrier c).
Proof.
  unfold nm_device_set_carrier. apply tame_get. intros d. apply tame_if; [device|]. repeat (apply tame_seq; [device|]).
  apply tame_get_rest. intros now. apply tame_if; [device|]. apply tame_seq; [device|]. apply tame_seq; [device|].
  apply tame_get_rest. intros q. apply tame_if; [device|]. apply (tame_world (fun w => change_rest _)). device.
Qed.

(** For a function that may change the state at once. *)
Definition fine (a : act) : Prop := grows a /\ keeps no_frame a.

Lemma fine_tame a : tame a -> fine a.
Proof. split; [by apply grows_tame|by apply keeps_tame]. Qed.
Lemma fine_seq a b : fine a -> fine b -> fine (a ;;; b).
Proof. intros [] []. split; [device|]. by apply (moves_seq no_frame no_frame). Qed.
Lemma fine_if (c : bool) a b : fine a -> fine b -> fine (if_ c a b).
Proof. intros [] []. split; device. Qed.
Lemma fine_when (c : bool) a : fine a -> fine (when c a).
Proof. intros []. split; device. Qed.
Lemma fine_get {A} (f : NMDevicePrivate -> A) k : (forall x, fine (k x)) -> fine (get f k).
Proof. intros Hk. split; [apply sw_get|apply moves_get]; intros x; apply (Hk x). Qed.
Lemma fine_get_rest {A} (f : DeviceRest -> A) k : (forall x, fine (k x)) -> fine (get_rest f k).
Proof. intros Hk. by apply fine_get. Qed.
Lemma fine_asking q k : (forall x, fine (k x)) -> fine (asking q k).
Proof. intros Hk. split; [apply sw_asking|apply moves_asking]; intros x; apply (Hk x). Qed.
Lemma fine_guard b a : fine a -> fine (g_return_if_fail b a).
Proof. intros Ha. apply fine_if; [done|]. apply fine_tame. device. Qed.
Lemma fine_state_full s r q : fine (_set_state_full s r q).
Proof. split; device. Qed.
Lemma fine_state_changed s r : fine (nm_device_state_changed s r).
Proof. apply fine_state_full. Qed.
#[local] Hint Resolve fine_seq fine_if fine_when fine_get fine_get_rest fine_asking fine_guard fine_state_full fine_state_changed : device.
#[local] Hint Extern 1 (fine (match ?x with _ => _ end)) => destruct x : device.
#[local] Hint Extern 7 (fine _) => apply fine_tame : device.

Lemma fine_must_queue req k : (forall b, fine (k b)) -> fine (_carrier_wait_check_act_request_must_queue req k).
Proof. intros Hk. unfold _carrier_wait_check_act_request_must_queue. device. Qed.
Lemma fine_queue_activation req : fine (nm_device_queue_activation req).
Proof. unfold nm_device_queue_activation. auto 60 using fine_must_queue with device. Qed.
Lemma fine_disconnect req r a : fine (nm_device_disconnect_active_connection req r a).
Proof. unfold nm_device_disconnect_active_connection. device. Qed.
Lemma fine_update f op allow was now r had : fine (update_unmanaged_flags f op allow was now r had).
Proof. unfold update_unmanaged_flags. device. Qed.
#[local] Hint Resolve fine_update : device.
Lemma fine_set_with recur f op allow now r :
  (forall f op, fine (recur f op)) -> fine (set_unmanaged_flags_with recur f op allow now r).
Proof. intros Hr. unfold set_unmanaged_flags_with. auto 60 with device. Qed.
Lemma fine_set_unmanaged f op allow now r : fine (_set_unmanaged_flags f op allow now r).
Proof. apply fine_set_with. intros f' op'. apply fine_set_with. device. Qed.
#[local] Hint Resolve fine_set_unmanaged : device.

Lemma fine_by_flags f op r : fine (nm_device_set_unmanaged_by_flags f op r).
Proof. apply fine_set_unmanaged. Qed.
Lemma fine_by_flags_queue f op r : fine (nm_device_set_unmanaged_by_flags_queue f op r).
Proof. apply fine_set_unmanaged. Qed.
Lemma fine_set_flags f op : fine (nm_device_set_unmanaged_flags f op).
Proof. apply fine_set_unmanaged. Qed.
#[local] Hint Resolve fine_by_flags : device.
Lemma fine_user_settings : fine nm_device_set_unmanaged_by_user_settings.
Proof. unfold nm_device_set_unmanaged_by_user_settings. device. Qed.
Lemma fine_user_udev : fine nm_device_set_unmanaged_by_user_udev.
Proof. unfold nm_device_set_unmanaged_by_user_udev. device. Qed.
Lemma fine_user_conf : fine nm_device_set_unmanaged_by_user_conf.
Proof. unfold nm_device_set_unmanaged_by_user_conf. device. Qed.
Lemma fine_quitting : fine nm_device_set_unmanaged_by_quitting.
Proof. unfold nm_device_set_unmanaged_by_quitting. device. Qed.
Lemma fine_queued_state_set : fine queued_state_set.
Proof. split; [apply grows_queued_state_set|by apply keeps_queued_state_set]. Qed.
Lemma fine_dispatcher_complete : fine dispatcher_complete.
Proof. unfold dispatcher_complete. apply fine_get. intros [[]|]; [split; device..|device]. Qed.
Lemma fine_pre_up : fine ip_check_pre_up.
Proof. split; [device|apply keeps_pre_up]. Qed.
Lemma tame_carrier_defer : tame carrier_disconnected_action_cb.
Proof. unfold carrier_disconnected_action_cb. device. Qed.
Lemma tame_carrier_timeout : tame carrier_wait_timeout.
Proof. unfold carrier_wait_timeout. device. Qed.

Lemma event_fine e w :
  enabled e (priv w) = true ->
  grows_step w (handle_event e w) /\
  (w_crit (handle_event e w) = 0%nat -> world_inv no_frame w -> world_inv no_frame (handle_event e w)).
Proof.
  assert (Hfine : forall a, fine a -> grows_step w (a w) /\ (w_crit (a w) = 0%nat -> world_inv no_frame w -> world_inv no_frame (a w))).
  { intros a [Hg Hk]. split; [apply Hg|apply Hk]. }
  intros He. destruct e; cbn [handle_event enabled] in *;
    try solve [apply Hfine; auto using fine_tame, fine_by_flags, fine_by_flags_queue, fine_set_flags, fine_user_settings, fine_user_udev, fine_user_conf,
      fine_quitting, fine_queued_state_set, fine_dispatcher_complete, fine_pre_up, tame_carrier_defer, tame_carrier_timeout,
      tame_set_carrier, fine_queue_activation, fine_disconnect, tame_run_op, fine_state_changed, tame_source_handle,
      tame_async_ready, tame_sriov_cb].
  split; [apply grows_recheck_available|intros; by apply keeps_recheck_available].
Qed.
End keeps.

Section runs.
Context `{DeviceHandlers} (n : nat).

Lemma step_grows w w' : device_step n w w' -> (w_crit w <= w_crit w')%nat.
Proof. intros [w0 e He]. by apply event_fine. Qed.

Lemma reachable_inv w : rtc (device_step n) nm_device_init w -> w_crit w = 0%nat -> world_inv no_frame w.
Proof.
  revert w. apply (rtc_ind_r (fun w => w_crit w = 0%nat -> world_inv no_frame w)); [intros _; apply init_inv|].
  intros w1 w2 Hr Hs IH Hw. assert (w_crit w1 = 0%nat) by (apply step_grows in Hs; lia). destruct Hs as [w1 e He].
  apply event_fine; auto.
Qed.
End runs.
