(* ===== verification/DeviceCleanup.v ===== *)
(** * Devices: when the kernel's configuration is touched

    The log of a run shows that a device is cleaned up only by a change of its state,
    how thoroughly, and that the routes, addresses, filters and the MTU of its
    interface are removed or reset only in a clean-up of type DECONFIGURE. *)

From S2P Require Export Prelude DeviceFlags DeviceBase DeviceQueue DeviceState DeviceStateInv DeviceOps DeviceRun.

(** The calls that remove or reset configuration of the interface in the kernel. *)
Definition deconfigures (c : Call) : bool :=
  match c with
  | c_nm_platform_ip_route_flush _ | c_nm_platform_ip_address_flush _ | c_nm_platform_tfilter_sync _
  | c_nm_platform_qdisc_sync _ | c_nm_platform_link_set_mtu _ _ => true
  | _ => false
  end.

Definition plain (c : Call) : bool :=
  match c with mark_cleanup _ _ => false | _ => negb (deconfigures c) end.

(** The last clean-up that was begun. *)
Fixpoint last_cleanup (l : list (Call * NMDevicePrivate)) : option CleanupType :=
  match l with
  | [] => None
  | (mark_cleanup _ t, _) :: _ => Some t
  | _ :: l' => last_cleanup l'
  end.

(** How a device is cleaned up on the way into a state. *)
Definition cleanup_type_for (d : NMDevicePrivate) : option CleanupType :=
  match state d with
  | NM_DEVICE_STATE_UNMANAGED =>
      Some (match sys_iface_state (rest d) with
            | NM_DEVICE_SYS_IFACE_STATE_MANAGED => CLEANUP_TYPE_DECONFIGURE
            | NM_DEVICE_SYS_IFACE_STATE_REMOVED => CLEANUP_TYPE_REMOVED
            | _ => CLEANUP_TYPE_KEEP
            end)
  | NM_DEVICE_STATE_UNAVAILABLE | NM_DEVICE_STATE_DISCONNECTED => Some CLEANUP_TYPE_DECONFIGURE
  | _ => None
  end.

Definition call_safe (c : Call) (d : NMDevicePrivate) (before : list (Call * NMDevicePrivate)) : Prop :=
  match c with
  | mark_cleanup r t => in_state_changed d = true /\ state_reason d = r /\ cleanup_type_for d = Some t
  | _ => deconfigures c = true -> last_cleanup before = Some CLEANUP_TYPE_DECONFIGURE
  end.

Fixpoint log_safe (l : list (Call * NMDevicePrivate)) : Prop :=
  match l with [] => True | (c, d) :: l' => call_safe c d l' /\ log_safe l' end.

Definition plain_step (w w' : World) : Prop :=
  exists l, w_log w' = l ++ w_log w /\ Forall (fun e => plain e.1 = true) l.

#[export] Instance plain_step_preorder : PreOrder plain_step.
Proof.
  split; [intros w; by exists []|]. intros w1 w2 w3 (l & Hl & Hp) (l' & Hl' & Hp'). exists (l' ++ l).
  rewrite Hl', Hl, (assoc (++)). split; [done|]. by apply Forall_app.
Qed.

Abbreviation plainly := (stepwise plain_step).

Lemma plain_log_safe l1 l2 : Forall (fun e => plain e.1 = true) l1 -> log_safe l2 -> log_safe (l1 ++ l2).
Proof. intros H1 H2. induction H1 as [|[c d] l1 Hc _ IH]; [done|]. cbn. split; [|done]. by destruct c. Qed.

Lemma plain_last l1 l2 : Forall (fun e => plain e.1 = true) l1 -> last_cleanup (l1 ++ l2) = last_cleanup l2.
Proof. intros H1. induction H1 as [|[c d] l1 Hc _ IH]; [done|]. cbn. by destruct c. Qed.

(** Callees only make the device tell whether it has pending actions. *)
Class EmitLog (Em : Emitter) : Prop :=
  emit_log c w : exists l, w_log (emit c w) = l ++ (c, priv w) :: w_log w /\
                           Forall (fun e => e.1 = c_notify PROP_HAS_PENDING_ACTION) l.

Lemma plain_emit {Em : Emitter} {El : EmitLog Em} c : plain c = true -> plainly (emit c).
Proof.
  intros Hc w. destruct (emit_log c w) as (l & He & Hl). exists (l ++ [(c, priv w)]). rewrite He, <- (assoc (++)). split; [done|].
  apply Forall_app. split; [|by repeat constructor]. eapply Forall_impl; [exact Hl|]. by intros [c' d] ->.
Qed.

Lemma plain_critical : plainly critical.
Proof. by intros w; exists []. Qed.
Lemma plain_change f : plainly (change f).
Proof. by intros w; exists []. Qed.
Lemma plain_change_rest f : plainly (change_rest f).
Proof. apply plain_change. Qed.
#[export] Hint Resolve plain_critical plain_change plain_change_rest : device.
#[export] Hint Extern 1 (plainly (emit _)) => apply plain_emit; reflexivity : device.

Section plain.
Context `{DeviceHandlers} {Em : Emitter} {El : EmitLog Em}.

Lemma plain_call c : plain c = true -> plainly (call c).
Proof. apply plain_emit. Qed.
Lemma plain_notify p : plainly (_notify p).
Proof. by apply plain_emit. Qed.
#[local] Hint Resolve plain_notify : device.
#[local] Hint Extern 1 (plainly (call _)) => apply plain_call; reflexivity : device.
Lemma plain_add a b : plainly (nm_device_add_pending_action a b).
Proof. unfold nm_device_add_pending_action. device. Qed.
Lemma plain_remove a b : plainly (nm_device_remove_pending_action a b).
Proof. unfold nm_device_remove_pending_action. device. Qed.
#[local] Hint Resolve plain_add plain_remove : device.
Lemma plain_clear : plainly queued_state_clear.
Proof. unfold queued_state_clear. device. Qed.
Lemma plain_queue_state s r : plainly (nm_device_queue_state s r).
Proof. unfold nm_device_queue_state. device. Qed.
Lemma plain_queue_recheck a u : plainly (nm_device_queue_recheck_available a u).
Proof. unfold nm_device_queue_recheck_available. device. Qed.
#[local] Hint Resolve plain_clear plain_queue_state plain_queue_recheck : device.
Lemma plain_run_op o : plainly (run_op o).
Proof. destruct o; cbn; device. Qed.
End plain.

(** What the operations for callees add to the log. *)
Definition notify_step (w w' : World) : Prop :=
  exists l, w_log w' = l ++ w_log w /\ Forall (fun e => e.1 = c_notify PROP_HAS_PENDING_ACTION) l.

#[export] Instance notify_step_preorder : PreOrder notify_step.
Proof.
  split; [intros w; by exists []|]. intros w1 w2 w3 (l & Hl & Hp) (l' & Hl' & Hp'). exists (l' ++ l).
  rewrite Hl', Hl, (assoc (++)). split; [done|]. by apply Forall_app.
Qed.

Section notify.
Context {Em : Emitter} {El : EmitLog Em}.

Lemma notify_notify : stepwise notify_step (_notify PROP_HAS_PENDING_ACTION).
Proof.
  intros w. unfold _notify. destruct (emit_log (c_notify PROP_HAS_PENDING_ACTION) w) as (l & Hl & Hp).
  exists (l ++ [(c_notify PROP_HAS_PENDING_ACTION, priv w)]). rewrite Hl, <- (assoc (++)). split; [done|].
  apply Forall_app. split; [done|]. by repeat constructor.
Qed.
Lemma notify_change f : stepwise notify_step (change f).
Proof. by intros w; exists []. Qed.
Lemma notify_critical : stepwise notify_step critical.
Proof. by intros w; exists []. Qed.
#[local] Hint Resolve notify_notify notify_change notify_critical : device.
Lemma notify_add a b : stepwise notify_step (nm_device_add_pending_action a b).
Proof. unfold nm_device_add_pending_action. device. Qed.
Lemma notify_remove a b : stepwise notify_step (nm_device_remove_pending_action a b).
Proof. unfold nm_device_remove_pending_action. device. Qed.
#[local] Hint Resolve notify_add notify_remove : device.
Lemma notify_run_op o : stepwise notify_step (run_op o).
Proof.
  destruct o; cbn; unfold nm_device_queue_state, queued_state_clear, nm_device_queue_recheck_available, change_rest; device.
Qed.
Lemma notify_run_ops l : stepwise notify_step (run_ops l).
Proof. induction l; cbn; auto using notify_run_op with device. Qed.
End notify.

#[export] Instance emit_at_log `{DeviceHandlers} n : EmitLog (emit_at n).
Proof.
  induction n as [|n IH]; intros c w; unfold emit; cbn [emit_at]; [by exists []|].
  destruct (notify_run_ops (Em := emit_at n) (on_call c (log_call c w)) (log_call c w)) as (l & Hl & Hp).
  exists l. by rewrite Hl.
Qed.

#[export] Hint Resolve plain_notify plain_add plain_remove plain_clear plain_queue_state plain_queue_recheck : device.
#[export] Hint Extern 1 (plainly (call _)) => apply plain_call; reflexivity : device.

(** ** Functions without a clean-up *)

Section state.
Context `{DeviceHandlers} {Em : Emitter} {El : EmitLog Em}.

Lemma plain_source f x : plainly (set_activation_source f x).
Proof. unfold set_activation_source. device. Qed.
#[local] Hint Resolve plain_source : device.
Lemma plain_sys_iface s : plainly (nm_device_sys_iface_state_set s).
Proof. unfold nm_device_sys_iface_state_set. device. Qed.
Lemma plain_firmware b : plainly (nm_device_set_firmware_missing b).
Proof. unfold nm_device_set_firmware_missing. device. Qed.
Lemma plain_autoconnect m v : plainly (nm_device_autoconnect_blocked_set_full m v).
Proof. unfold nm_device_autoconnect_blocked_set_full. device. Qed.
Lemma plain_clear_act r : plainly (_clear_queued_act_request r).
Proof. unfold _clear_queued_act_request. device. Qed.
Lemma plain_cancellable : plainly nm_clear_deactivating_cancellable.
Proof. unfold nm_clear_deactivating_cancellable. device. Qed.
Lemma plain_cancel_activation : plainly _cancel_activation.
Proof. unfold _cancel_activation, activation_source_clear. device. Qed.
#[local] Hint Resolve plain_sys_iface plain_firmware plain_autoconnect plain_clear_act plain_cancellable plain_cancel_activation : device.
Lemma plain_act_request_set req : plainly (act_request_set req).
Proof.
  unfold act_request_set. apply sw_get. intros d. apply sw_if; [device|]. apply sw_seq; [device|].
  destruct req as [r|]; [|device].
  apply (sw_world (fun w => _)). intros w. destruct (activation_type r w); device.
Qed.
Lemma plain_delete_unschedule : plainly delete_on_deactivate_unschedule.
Proof. apply plain_change_rest. Qed.
Lemma plain_call_device a req k : (forall b, plainly (k b)) -> plainly (nm_dispatcher_call_device a req k).
Proof. intros Hk. unfold nm_dispatcher_call_device. apply sw_get_rest. intros own. destruct req, own; device. Qed.
Lemma plain_call_device_sync a req : plainly (nm_dispatcher_call_device_sync a req).
Proof. unfold nm_dispatcher_call_device_sync. apply sw_get_rest. intros own. destruct req, own; device. Qed.
Lemma plain_dispatcher_cleanup : plainly dispatcher_cleanup.
Proof. unfold dispatcher_cleanup. device. Qed.
Lemma plain_deactivate_ready r : plainly (deactivate_ready r).
Proof. unfold deactivate_ready. device. Qed.
#[local] Hint Resolve plain_act_request_set plain_delete_unschedule plain_call_device plain_call_device_sync
  plain_dispatcher_cleanup plain_deactivate_ready : device.
Lemma plain_complete id : plainly (deactivate_dispatcher_complete id).
Proof. unfold deactivate_dispatcher_complete, dispatcher_reset. device. Qed.
Lemma plain_proceed id : plainly (dispatcher_complete_proceed_state id).
Proof. unfold dispatcher_complete_proceed_state, dispatcher_reset. device. Qed.
#[local] Hint Resolve plain_complete plain_proceed : device.
Lemma plain_pre_up : plainly ip_check_pre_up.
Proof. unfold ip_check_pre_up. device. Qed.
Lemma plain_activate req : plainly (_device_activate req).
Proof. unfold _device_activate, activation_source_schedule. device. Qed.
Lemma plain_is_available k : (forall b, plainly (k b)) -> plainly (nm_device_is_available k).
Proof. unfold nm_device_is_available. device. Qed.
#[local] Hint Resolve plain_pre_up plain_activate plain_is_available : device.

Lemma plain_enter s r : plainly (enter_state s r).
Proof. unfold enter_state. device. Qed.
Lemma plain_leave s old : plainly (leave_state s old).
Proof. unfold leave_state. device. Qed.
Lemma plain_reset s old r : plainly (reset_for_state s old r).
Proof. unfold reset_for_state, nm_device_assume_state_reset, available_connections_del_all. device. Qed.
Lemma plain_tell s old r : plainly (tell_state s old r).
Proof. unfold tell_state, nm_device_autoconnect_blocked_unset. device. Qed.
Lemma plain_post s old r q req : plainly (post_state s old r q req).
Proof. destruct s; unfold post_state, post_deactivating, nm_device_start_ip_check_done; device. Qed.
Lemma plain_follow s old q req : plainly (follow_state s old q req).
Proof. unfold follow_state. device. Qed.

(** ** A clean-up *)

(** While a clean-up of type [t] is the last. *)
Definition cleaning (t : CleanupType) (w w' : World) : Prop :=
  log_safe (w_log w) /\ last_cleanup (w_log w) = Some t -> log_safe (w_log w') /\ last_cleanup (w_log w') = Some t.

#[local] Instance cleaning_preorder t : PreOrder (cleaning t).
Proof. split; [intros w Hw; exact Hw|]. intros w1 w2 w3 H1 H2 Hw. exact (H2 (H1 Hw)). Qed.

Lemma cleaning_plain t a : plainly a -> stepwise (cleaning t) a.
Proof.
  intros Ha w [Hs Hl]. destruct (Ha w) as (l & -> & Hp). split; [by apply plain_log_safe|by rewrite plain_last].
Qed.

Lemma cleaning_call t c :
  (deconfigures c = true -> t = CLEANUP_TYPE_DECONFIGURE) -> (forall r t', c <> mark_cleanup r t') -> stepwise (cleaning t) (call c).
Proof.
  intros Hc Hm w [Hs Hl]. unfold call. destruct (emit_log c w) as (l & -> & Hp).
  assert (Hp' : Forall (fun e => plain e.1 = true) l) by (eapply Forall_impl; [exact Hp|]; by intros [c' d] ->).
  rewrite plain_last by done. split.
  - apply plain_log_safe; [done|]. cbn. split; [|done]. destruct c; cbn in *; try done; first [by edestruct Hm|intros _; rewrite Hl; f_equal; auto].
  - destruct c; cbn; try done. by edestruct Hm.
Qed.

Lemma cleaning_when t (b : bool) a : (b = true -> stepwise (cleaning t) a) -> stepwise (cleaning t) (when b a).
Proof. intros Ha w. destruct b; [by apply Ha|done]. Qed.

#[local] Hint Extern 6 (stepwise (cleaning _) _) => apply cleaning_plain : device.

Lemma cleaning_platform i : stepwise (cleaning CLEANUP_TYPE_DECONFIGURE) (cleanup_platform i).
Proof.
  assert (Hc : forall c, (forall r t', c <> mark_cleanup r t') -> stepwise (cleaning CLEANUP_TYPE_DECONFIGURE) (call c)).
  { intros c Hc. by apply cleaning_call. }
  unfold cleanup_platform. apply sw_seq; [by apply Hc|]. apply sw_when. do 3 (apply sw_seq; [by apply Hc|]). by apply Hc.
Qed.

Lemma cleaning_mtu t : stepwise (cleaning t) (cleanup_mtu t).
Proof.
  unfold cleanup_mtu. apply sw_get. intros d. apply sw_when, sw_seq; [|device].
  apply cleaning_when. intros [_ Ht]%andb_true_iff. apply bool_decide_eq_true in Ht as ->. apply sw_seq; [|device].
  apply sw_when, sw_seq; [by apply cleaning_call|]. apply cleaning_plain. intros w. apply plain_change_rest.
Qed.

Lemma log_safe_cleanup r t w :
  in_state_changed (priv w) = true -> state_reason (priv w) = r -> cleanup_type_for (priv w) = Some t ->
  log_safe (w_log w) -> log_safe (w_log (nm_device_cleanup r t w)).
Proof.
  intros Hin Hr Ht Hs. unfold nm_device_cleanup. set (k := _cleanup_generic_pre t ;;; _). unfold seq at 1.
  apply (fun (H : stepwise (cleaning t) k) => H (log_call (mark_cleanup r t) w)); [|by cbn; auto].
  unfold k. apply sw_seq; [unfold _cleanup_generic_pre; device|].
  apply sw_seq; [device|]. apply sw_seq; [device|]. apply sw_seq.
  - apply sw_get_rest. intros i. apply sw_seq; [|device]. apply cleaning_when. intros Hd.
    apply bool_decide_eq_true in Hd as ->. apply cleaning_platform.
  - repeat (apply sw_seq; [first [apply cleaning_mtu|device]|]). unfold _cleanup_generic_post, _set_ip_ifindex_none. device.
Qed.
End state.

#[export] Hint Resolve plain_firmware plain_enter plain_leave plain_reset plain_tell plain_post plain_follow plain_is_available
  plain_call_device plain_call_device_sync plain_activate plain_clear_act plain_complete plain_proceed plain_pre_up
  plain_deactivate_ready plain_cancellable : device.

(** ** The change of the state *)

Section change.
Context `{DeviceHandlers} {Em : Emitter} {Ok : EmitOk Em} {El : EmitLog Em}.

(** Acts within the change to a state. *)
Definition safe_in (s : NMDeviceState) (r : NMDeviceStateReason) (a : act) : Prop :=
  forall w, in_state_changed (priv w) = true -> state (priv w) = s -> state_reason (priv w) = r ->
  log_safe (w_log w) -> log_safe (w_log (a w)).

Lemma plain_safe a w : plainly a -> log_safe (w_log w) -> log_safe (w_log (a w)).
Proof. intros Ha Hs. destruct (Ha w) as (l & -> & Hp). by apply plain_log_safe. Qed.
Lemma safe_plain s r a : plainly a -> safe_in s r a.
Proof. intros Ha w _ _ _ Hs. by apply plain_safe. Qed.
Lemma safe_seq s r a b : steady a -> safe_in s r a -> safe_in s r b -> safe_in s r (a ;;; b).
Proof. intros Hst Ha Hb w Hi Hs Hr Hl. destruct (Hst w) as [_ ???]. apply Hb; [congruence..|]. by apply Ha. Qed.
Lemma safe_if s r (c : bool) a b : safe_in s r a -> safe_in s r b -> safe_in s r (if_ c a b).
Proof. intros Ha Hb w. unfold if_. destruct c; auto. Qed.
Lemma safe_when s r (c : bool) a : safe_in s r a -> safe_in s r (when c a).
Proof. intros Ha. apply safe_if; [done|]. apply safe_plain. device. Qed.
Lemma safe_get_rest {A} s r (f : DeviceRest -> A) k : (forall x, safe_in s r (k x)) -> safe_in s r (get_rest f k).
Proof. intros Hk w. apply Hk. Qed.

Lemma safe_cleanup s r t :
  (forall d, state d = s -> cleanup_type_for d = Some t) -> safe_in s r (nm_device_cleanup r t).
Proof. intros Ht w Hi Hs Hr Hl. by apply log_safe_cleanup; [..|apply Ht|]. Qed.

Lemma safe_unmanaged old r : safe_in NM_DEVICE_STATE_UNMANAGED r (handle_unmanaged old r).
Proof.
  unfold handle_unmanaged. apply safe_seq; [device|apply safe_plain; device|]. apply safe_when.
  intros w Hi Hs Hr Hl. unfold get, if_, is_managed, sys_iface_is.
  assert (Ht : forall t, cleanup_type_for (priv w) = Some t -> log_safe (w_log (nm_device_cleanup r t w))).
  { intros t Ht. by apply log_safe_cleanup. }
  unfold cleanup_type_for in Ht. rewrite Hs in Ht.
  destruct (sys_iface_state (rest (priv w))) eqn:Hsys; cbn [negb bool_decide]; try (by apply Ht).
  set (k := call (c_nm_device_take_down true) ;;; _).
  change (log_safe (w_log (k (get_rest act_request (fun req =>
    when (bool_decide (is_Some req)) (nm_device_cleanup r CLEANUP_TYPE_DECONFIGURE)) w)))).
  apply plain_safe; [unfold k; device|]. unfold get_rest, get, when, if_. case_bool_decide; [by apply Ht|done].
Qed.

Lemma safe_unavailable old r : safe_in NM_DEVICE_STATE_UNAVAILABLE r (handle_unavailable old r).
Proof.
  assert (Hc : safe_in NM_DEVICE_STATE_UNAVAILABLE r (nm_device_cleanup r CLEANUP_TYPE_DECONFIGURE)).
  { apply safe_cleanup. unfold cleanup_type_for. by intros d ->. }
  unfold handle_unavailable. apply safe_seq; [device|apply safe_plain; device|].
  change (get rest ?k) with (get_rest (fun d => d) k). apply safe_get_rest. intros d. apply safe_when.
  apply safe_seq; [device|apply safe_plain; device|done].
Qed.

Lemma safe_disconnected old r : safe_in NM_DEVICE_STATE_DISCONNECTED r (handle_disconnected old r).
Proof.
  assert (Hc : safe_in NM_DEVICE_STATE_DISCONNECTED r (nm_device_cleanup r CLEANUP_TYPE_DECONFIGURE)).
  { apply safe_cleanup. unfold cleanup_type_for. by intros d ->. }
  unfold handle_disconnected. apply safe_if; [|apply safe_plain; device].
  apply safe_seq; [device|apply safe_plain; device|done].
Qed.

Lemma safe_handle s old r : safe_in s r (handle_state s old r).
Proof.
  destruct s; unfold handle_state; auto using safe_unmanaged, safe_unavailable, safe_disconnected;
    apply safe_plain; device.
Qed.

Lemma safe_change_state s old r q w : log_safe (w_log w) -> log_safe (w_log (change_state s old r q w)).
Proof.
  intros Hl. rewrite change_state_eq. unfold seq. apply plain_safe; [device|].
  assert (Hin : safe_in s r (in_state s old r q)).
  { unfold in_state. apply safe_get_rest. intros req. apply safe_seq; [device|apply safe_plain; device|].
    apply safe_seq; [device|apply safe_handle|]. apply safe_plain. device. }
  destruct (enter_state_data s r w) as (?&?&?). apply Hin; [done..|]. apply plain_safe; [device|done].
Qed.

(** *** Functions that change the state *)

Definition safe_step (w w' : World) : Prop := log_safe (w_log w) -> log_safe (w_log w').
#[local] Instance safe_step_preorder : PreOrder safe_step.
Proof. split; [intros w Hw; exact Hw|]. intros w1 w2 w3 H1 H2 Hw. exact (H2 (H1 Hw)). Qed.

Lemma sw_plain_safe a : plainly a -> stepwise safe_step a.
Proof. intros Ha w Hw. by apply plain_safe. Qed.

Lemma safe_state_full s r q : stepwise safe_step (_set_state_full s r q).
Proof.
  unfold _set_state_full, g_warn_if_fail. apply sw_seq; [apply sw_plain_safe; device|]. apply sw_get. intros d.
  destruct (effective_state d s r) as [s' r']. apply sw_if; [apply sw_skip|]. intros w. exact (safe_change_state _ _ _ _ _).
Qed.
Lemma safe_state_changed s r : stepwise safe_step (nm_device_state_changed s r).
Proof. apply safe_state_full. Qed.
#[local] Hint Resolve safe_state_full safe_state_changed : device.
#[local] Hint Extern 6 (stepwise safe_step _) => apply sw_plain_safe : device.

Lemma plain_carrier_changed c : plainly (carrier_changed c).
Proof.
  assert (plainly carrier_changed_master) by (unfold carrier_changed_master; device).
  assert (plainly (carrier_changed_state c)) by (unfold carrier_changed_state; device).
  unfold carrier_changed. device.
Qed.
Lemma plain_check_queued : plainly _carrier_wait_check_queued_act_request.
Proof. unfold _carrier_wait_check_queued_act_request. device. Qed.
#[local] Hint Resolve plain_carrier_changed plain_check_queued : device.
Lemma plain_set_carrier c : plainly (nm_device_set_carrier c).
Proof.
  unfold nm_device_set_carrier. apply sw_get. intros d. apply sw_if; [device|]. repeat (apply sw_seq; [device|]).
  apply sw_get_rest. intros now. apply sw_if; [device|]. apply sw_seq; [device|]. apply sw_seq; [device|].
  apply sw_get_rest. intros q. apply sw_if; [device|]. apply (sw_world (fun w => change_rest _)). device.
Qed.
Lemma safe_update f op allow was now r had : stepwise safe_step (update_unmanaged_flags f op allow was now r had).
Proof. unfold update_unmanaged_flags. device. Qed.
#[local] Hint Resolve safe_update : device.
Lemma safe_set_with recur f op allow now r :
  (forall f op, stepwise safe_step (recur f op)) -> stepwise safe_step (set_unmanaged_flags_with recur f op allow now r).
Proof. intros Hr. unfold set_unmanaged_flags_with, g_return_if_fail. auto 60 with device. Qed.
Lemma safe_set_unmanaged f op allow now r : stepwise safe_step (_set_unmanaged_flags f op allow now r).
Proof. apply safe_set_with. intros f' op'. apply safe_set_with. device. Qed.
Lemma safe_by_flags f op r : stepwise safe_step (nm_device_set_unmanaged_by_flags f op r).
Proof. apply safe_set_unmanaged. Qed.
#[local] Hint Resolve safe_set_unmanaged safe_by_flags : device.
Lemma safe_queue_activation req : stepwise safe_step (nm_device_queue_activation req).
Proof. unfold nm_device_queue_activation, _carrier_wait_check_act_request_must_queue. auto 60 with device. Qed.

Lemma safe_disconnect req r a : stepwise safe_step (nm_device_disconnect_active_connection req r a).
Proof. unfold nm_device_disconnect_active_connection. device. Qed.
Lemma safe_user_settings : stepwise safe_step nm_device_set_unmanaged_by_user_settings.
Proof. unfold nm_device_set_unmanaged_by_user_settings. device. Qed.
Lemma safe_user_udev : stepwise safe_step nm_device_set_unmanaged_by_user_udev.
Proof. unfold nm_device_set_unmanaged_by_user_udev. device. Qed.
Lemma safe_user_conf : stepwise safe_step nm_device_set_unmanaged_by_user_conf.
Proof. unfold nm_device_set_unmanaged_by_user_conf. device. Qed.
Lemma safe_quitting : stepwise safe_step nm_device_set_unmanaged_by_quitting.
Proof. unfold nm_device_set_unmanaged_by_quitting. device. Qed.
Lemma safe_queued_state_set : stepwise safe_step queued_state_set.
Proof. unfold queued_state_set. device. Qed.

Lemma plain_recheck : plainly recheck_available.
Proof. unfold recheck_available. device. Qed.
Lemma plain_source_handle f : plainly (activation_source_handle_cb f).
Proof. unfold activation_source_handle_cb, set_activation_source. device. Qed.
Lemma plain_dispatcher_complete : plainly dispatcher_complete.
Proof. unfold dispatcher_complete. device. Qed.
Lemma plain_async_ready c r : plainly (deactivate_async_ready c r).
Proof. unfold deactivate_async_ready. device. Qed.
Lemma plain_sriov c r : plainly (sriov_deactivate_cb c r).
Proof. unfold sriov_deactivate_cb. device. Qed.
Lemma plain_defer : plainly carrier_disconnected_action_cb.
Proof. unfold carrier_disconnected_action_cb. device. Qed.
Lemma plain_timeout : plainly carrier_wait_timeout.
Proof. unfold carrier_wait_timeout. device. Qed.

Lemma safe_event e : stepwise safe_step (handle_event e).
Proof.
  destruct e; cbn [handle_event];
    [apply safe_state_changed|apply safe_queued_state_set|apply sw_plain_safe, plain_recheck|apply sw_plain_safe, plain_run_op
    |apply sw_plain_safe, plain_source_handle|apply sw_plain_safe, plain_dispatcher_complete|apply sw_plain_safe, plain_async_ready
    |apply sw_plain_safe, plain_sriov|apply sw_plain_safe, plain_pre_up|apply sw_plain_safe, plain_set_carrier
    |apply sw_plain_safe, plain_defer|apply sw_plain_safe, plain_timeout|apply safe_queue_activation|apply safe_disconnect
    |apply safe_set_unmanaged|apply safe_by_flags|apply safe_set_unmanaged|apply safe_user_settings|apply safe_user_udev
    |apply safe_user_conf|apply safe_quitting].
Qed.
End change.

Lemma reachable_log_safe `{DeviceHandlers} n w : rtc (device_step n) nm_device_init w -> log_safe (w_log w).
Proof.
  revert w. apply (rtc_ind_r (fun w => log_safe (w_log w))); [done|].
  intros w1 w2 _ [w e _] Hl. by apply (safe_event e).
Qed.
