(* ===== verification/DeviceSpec.v ===== *)
(** * Devices: what holds of runs

    The properties of the state machine of src/devices/nm-device.c: the invariant
    of pending actions, how devices are cleaned up, the way to DISCONNECTED, the
    replacement of a queued state, and the transitions between managed and not. *)

From S2P Require Export Prelude DeviceFlags DeviceBase DeviceQueue DeviceState DeviceStateInv DeviceOps DeviceRun DeviceCleanup.

(** ** Callees that leave the queue alone

    They may add and remove pending actions of their own. *)
Definition quiet_op (o : HandlerOp) : bool :=
  match o with op_add_pending_action _ _ | op_remove_pending_action _ _ => true | _ => false end.

Class QuietHandlers (Hh : DeviceHandlers) : Prop :=
  quiet_on_call c w : forallb quiet_op (on_call c w) = true.

(** What is scheduled stays. *)
Record idle_step (w w' : World) : Prop := {
  id_queued : queued_state (priv w') = queued_state (priv w);
  id_call : dispatcher_call_id (priv w') = dispatcher_call_id (priv w);
  id_post : dispatcher_post_state (priv w') = dispatcher_post_state (priv w);
  id_pending : sriov_pending (rest (priv w')) = sriov_pending (rest (priv w));
  id_next : sriov_next (rest (priv w')) = sriov_next (rest (priv w)) }.

#[export] Instance idle_step_preorder : PreOrder idle_step.
Proof. split; [done|]. intros w1 w2 w3 [] []. split; congruence. Qed.

Abbreviation idle := (stepwise idle_step).

Class EmitQuiet (Em : Emitter) : Prop := emit_quiet c : idle (emit c).

#[export] Hint Resolve emit_quiet : device.
#[export] Hint Extern 2 (idle (change_rest _)) => intros ?; split; reflexivity : device.
#[export] Hint Extern 2 (idle (change _)) => intros ?; split; reflexivity : device.
#[export] Hint Extern 2 (idle critical) => intros ?; split; reflexivity : device.

Section idle.
Context `{DeviceHandlers} {Em : Emitter} {Eq : EmitQuiet Em}.

Lemma idle_call c : idle (call c).
Proof. unfold call. device. Qed.
Lemma idle_notify p : idle (_notify p).
Proof. unfold _notify. device. Qed.
#[local] Hint Resolve idle_call idle_notify : device.
Lemma idle_add a b : idle (nm_device_add_pending_action a b).
Proof. unfold nm_device_add_pending_action. device. Qed.
Lemma idle_remove a b : idle (nm_device_remove_pending_action a b).
Proof. unfold nm_device_remove_pending_action. device. Qed.
#[local] Hint Resolve idle_add idle_remove : device.

Lemma idle_quiet_ops l : forallb quiet_op l = true -> idle (run_ops l).
Proof.
  induction l as [|o l IH]; cbn; [intros _; apply sw_skip|]. intros [Ho Hl]%andb_true_iff. apply sw_seq; [|by apply IH].
  destruct o; try discriminate; cbn; device.
Qed.

Lemma idle_follow s old q req : idle (follow_state s old q req).
Proof. unfold follow_state, delete_on_deactivate_unschedule, nm_dispatcher_call_device, nm_dispatcher_call_device_sync. device. Qed.
Lemma idle_call_device a req k : (forall b, idle (k b)) -> idle (nm_dispatcher_call_device a req k).
Proof. intros Hk. unfold nm_dispatcher_call_device. apply sw_get_rest. intros own. destruct req, own; device. Qed.
Lemma idle_leave s old : idle (leave_state s old).
Proof. unfold leave_state. device. Qed.
Lemma idle_cancel_activation : idle _cancel_activation.
Proof. unfold _cancel_activation, activation_source_clear. apply sw_seq; [device|]. apply sw_seq; [device|].
  apply sw_seq; apply sw_get_rest; intros x; apply sw_when; intros w; by split. Qed.
Lemma idle_cancellable : idle nm_clear_deactivating_cancellable.
Proof. unfold nm_clear_deactivating_cancellable. device. Qed.
Lemma idle_reset s old r : idle (reset_for_state s old r).
Proof.
  unfold reset_for_state, nm_device_sys_iface_state_set, nm_device_assume_state_reset, available_connections_del_all,
    _clear_queued_act_request. device.
Qed.
Lemma idle_tell s old r : idle (tell_state s old r).
Proof. unfold tell_state, nm_device_autoconnect_blocked_unset, nm_device_autoconnect_blocked_set_full. device. Qed.
End idle.

#[export] Instance emit_at_quiet `{Hh : DeviceHandlers} {Hq : QuietHandlers Hh} n : EmitQuiet (emit_at n).
Proof.
  induction n as [|n IH]; intros c w; unfold emit; cbn [emit_at]; [by split|].
  trans (log_call c w); [by split|]. apply (idle_quiet_ops (Em := emit_at n) _ (quiet_on_call c (log_call c w))).
Qed.

(** The pending work on virtual functions stays on the way into a state. *)
Definition sriov_step (w w' : World) : Prop :=
  sriov_pending (rest (priv w')) = sriov_pending (rest (priv w)) /\ sriov_next (rest (priv w')) = sriov_next (rest (priv w)).

#[export] Instance sriov_step_preorder : PreOrder sriov_step.
Proof. split; [done|]. intros w1 w2 w3 [] []. split; congruence. Qed.

Lemma idle_sriov a : idle a -> stepwise sriov_step a.
Proof. intros Ha w. destruct (Ha w). by split. Qed.

#[export] Hint Extern 5 (stepwise sriov_step _) => apply idle_sriov : device.
#[export] Hint Extern 2 (stepwise sriov_step (change _)) => intros ?; split; reflexivity : device.
#[export] Hint Resolve idle_call idle_notify idle_add idle_remove idle_follow idle_leave idle_cancel_activation idle_cancellable
  idle_reset idle_tell : device.

Section disconnect.
Context `{DeviceHandlers} {Em : Emitter} {Ok : EmitOk Em} {Eq : EmitQuiet Em}.

Lemma sriov_enter s r : stepwise sriov_step (enter_state s r).
Proof. unfold enter_state, queued_state_clear, dispatcher_cleanup. device. Qed.

Lemma queue_state_queues s r w : queued_for (priv (nm_device_queue_state s r w)) s.
Proof.
  unfold nm_device_queue_state, get, if_. destruct (queued_state (priv w)) as [[s0 r0]|] eqn:Hq.
  - unfold state_is. case_bool_decide as Hs; [|done]. unfold skip, queued_for. by rewrite Hq, Hs.
  - done.
Qed.

(** A state other than FAILED is where a change ends. *)
Lemma state_changed_ends s r w :
  in_state_changed (priv w) = false -> s <> NM_DEVICE_STATE_FAILED ->
  s <> NM_DEVICE_STATE_UNAVAILABLE \/ state (priv w) <> s ->
  let w' := nm_device_state_changed s r w in
  state (priv w') = s /\ in_state_changed (priv w') = false /\ (state (priv w) <> s -> state_reason (priv w') = r).
Proof.
  intros Hin Hf Hu. pose proof (set_state_full_data s r false w Hin) as Hd. unfold nm_device_state_changed.
  unfold effective_state, state_unchanged, state_is in Hd. rewrite (bool_decide_false (s = _)) in Hd by done. cbn [andb] in Hd.
  destruct (bool_decide_reflect (state (priv w) = s)) as [Hs|Hs]; cbn [andb] in Hd; [|tauto].
  destruct Hu as [Hu|]; [|done]. rewrite (bool_decide_false (s = _)) in Hd by done. cbn [negb orb] in Hd. by rewrite Hd.
Qed.

(** A queued state other than FAILED is entered when its source fires. *)
Lemma fire_queued s w :
  queued_for (priv w) s -> s <> NM_DEVICE_STATE_FAILED -> s <> NM_DEVICE_STATE_UNAVAILABLE ->
  in_state_changed (priv w) = false -> state (priv w) <> s ->
  state (priv (queued_state_set w)) = s /\ in_state_changed (priv (queued_state_set w)) = false.
Proof.
  intros Hq Hf Hu Hin Hs. unfold queued_state_set, get, queued_for in *. destruct (queued_state (priv w)) as [[s' r]|]; [|done].
  injection Hq as ->. unfold seq. set (w1 := change (set_queued_state None) w).
  destruct (calm_steady _ (calm_remove (queued_state_to_string s) true) (nm_device_state_changed s r w1)) as [_ -> _ ->].
  destruct (state_changed_ends s r w1 Hin Hf) as (? & ? & _); [by left|done].
Qed.

(** No virtual functions are created or removed. *)
Definition no_sriov (d : NMDevicePrivate) : Prop := sriov_pending (rest d) = false /\ sriov_next (rest d) = false.

(** A deactivation goes on: the next state is queued, or the class deactivates the
    device and calls back when it is ready. *)
Definition deactivation_runs (d : NMDevicePrivate) : Prop :=
  queued_for d NM_DEVICE_STATE_DISCONNECTED \/ dispatcher_call_id d = None /\ exists w', ask q_class_deactivate_async w' = true.

Lemma ready_queues r w :
  dispatcher_call_id (priv w) = None -> no_sriov (priv w) -> queued_for (priv (deactivate_ready r w)) NM_DEVICE_STATE_DISCONNECTED.
Proof.
  intros Hc [Hs1 Hs2]. unfold deactivate_ready, get, if_. rewrite Hc, Hs1, Hs2. cbn [orb]. rewrite bool_decide_false by by intros [? ?].
  apply queue_state_queues.
Qed.

(** The callback of the dispatcher call before a deactivation. *)
Lemma complete_runs id w :
  id = dispatcher_call_id (priv w) -> dispatcher_post_state (priv w) = NM_DEVICE_STATE_DISCONNECTED -> no_sriov (priv w) ->
  deactivation_runs (priv (deactivate_dispatcher_complete id w)).
Proof.
  intros -> Hp [Hs1 Hs2]. unfold deactivate_dispatcher_complete, get, g_return_if_fail, if_ at 1 2. rewrite bool_decide_true by done.
  unfold state_is. rewrite bool_decide_true by done. unfold seq, asking.
  set (w1 := nm_clear_deactivating_cancellable _). assert (Hw1 : dispatcher_call_id (priv w1) = None /\ no_sriov (priv w1)).
  { unfold w1. match goal with |- context [nm_clear_deactivating_cancellable ?w0] => destruct (idle_cancellable w0) as [_ Hc _ Hn1 Hn2] end. by split; [rewrite Hc|split; [rewrite Hn1|rewrite Hn2]]. }
  destruct Hw1 as [Hc Hn]. unfold if_. destruct (ask q_class_deactivate_async w1) eqn:Ha; [|left; by apply ready_queues].
  right. split; [|by exists w1]. by rewrite (id_call _ _ (idle_call _ _)).
Qed.

Lemma sriov_complete id : stepwise sriov_step (deactivate_dispatcher_complete id).
Proof.
  unfold deactivate_dispatcher_complete, g_return_if_fail, dispatcher_reset, deactivate_ready, nm_device_queue_state,
    nm_clear_deactivating_cancellable. device.
Qed.

Lemma complete_no_sriov id w : no_sriov (priv w) -> no_sriov (priv (deactivate_dispatcher_complete id w)).
Proof. destruct (sriov_complete id w) as [E1 E2]. unfold no_sriov. by rewrite E1, E2. Qed.

(** The class is ready. *)
Lemma async_ready_queues r w :
  dispatcher_call_id (priv w) = None -> no_sriov (priv w) -> queued_for (priv (deactivate_async_ready false r w)) NM_DEVICE_STATE_DISCONNECTED.
Proof. intros Hc Hn. unfold deactivate_async_ready, if_, seq. by apply ready_queues. Qed.

Lemma change_post_state s old r q w (P : NMDevicePrivate -> Prop) :
  (forall w w', idle_step w w' -> P (priv w) -> P (priv w')) ->
  (forall req w', calm_step (enter_state s r w) w' -> sriov_step w w' -> dispatcher_call_id (priv w') = None ->
     state (priv w') = s -> P (priv (post_state s old r q req w'))) ->
  handle_state s old r = skip ->
  P (priv (change_state s old r q w)).
Proof.
  intros HP Hpost Hskip. rewrite change_state_eq. unfold seq. set (w0 := enter_state s r w) in *.
  eapply HP; [apply idle_leave|]. unfold in_state, get_rest, get. rewrite Hskip. unfold seq, skip.
  eapply HP; [apply idle_follow|].
  set (w1 := tell_state s old r (reset_for_state s old r w0)).
  assert (Hc : calm_step w0 w1) by (unfold w1; trans (reset_for_state s old r w0); apply calm_tame; device).
  assert (Hi : idle_step w0 w1) by (unfold w1; trans (reset_for_state s old r w0); [apply idle_reset|apply idle_tell]).
  apply Hpost; [done| | |].
  - trans w0; [apply sriov_enter|]. by destruct Hi.
  - rewrite (id_call _ _ Hi). apply enter_no_call.
  - rewrite (cs_state _ _ (cs_steady _ _ Hc)). apply enter_state_data.
Qed.

Lemma failed_queues old r q w :
  queued_for (priv (change_state NM_DEVICE_STATE_FAILED old r q w)) NM_DEVICE_STATE_DISCONNECTED.
Proof.
  apply (change_post_state _ _ _ _ _ (fun d => queued_for d NM_DEVICE_STATE_DISCONNECTED)); [| |done].
  - intros w1 w2 Hi. unfold queued_for. by rewrite (id_queued _ _ Hi).
  - intros req w' _ _ _ _. unfold post_state, seq. apply queue_state_queues.
Qed.

(** It runs, or the dispatcher is called before. *)
Definition deactivates (d : NMDevicePrivate) : Prop :=
  no_sriov d /\
  (deactivation_runs d \/ dispatcher_call_id d = Some cb_deactivate_dispatcher_complete /\ dispatcher_post_state d = NM_DEVICE_STATE_DISCONNECTED).

Lemma idle_deactivates w w' : idle_step w w' -> deactivates (priv w) -> deactivates (priv w').
Proof. intros [Hq Hc Hp Hn1 Hn2]. unfold deactivates, deactivation_runs, no_sriov, queued_for. by rewrite Hq, Hc, Hp, Hn1, Hn2. Qed.

Lemma pre_down_deactivates r req w :
  dispatcher_call_id (priv w) = None -> no_sriov (priv w) ->
  deactivates (priv ((change (fun d => set_dispatcher_post_state_reason r (set_dispatcher_post_state NM_DEVICE_STATE_DISCONNECTED d)) ;;;
      nm_dispatcher_call_device NM_DISPATCHER_ACTION_PRE_DOWN req (fun ok =>
        if_ ok (change (set_dispatcher_call_id (Some cb_deactivate_dispatcher_complete)))
          (deactivate_dispatcher_complete None))) w)).
Proof.
  intros Hc Hn. unfold seq. set (w1 := change _ w).
  assert (Hsame : forall w2, idle_step w1 w2 -> dispatcher_call_id (priv w2) = None /\ dispatcher_post_state (priv w2) = NM_DEVICE_STATE_DISCONNECTED /\ no_sriov (priv w2)).
  { intros w2 [_ Hc2 Hp2 Hna Hnb]. unfold no_sriov. by rewrite Hc2, Hp2, Hna, Hnb. }
  assert (Hno : forall w2, idle_step w1 w2 -> deactivates (priv (deactivate_dispatcher_complete None w2))).
  { intros w2 (Hc2 & Hp2 & Hn2)%Hsame. split; [by apply complete_no_sriov|]. left. by apply complete_runs. }
  unfold nm_dispatcher_call_device, get_rest, get.
  assert (Hcall : forall c, deactivates (priv ((call c ;;; asking (q_dispatcher_call_accepted NM_DISPATCHER_ACTION_PRE_DOWN) (fun ok =>
      if_ ok (change (set_dispatcher_call_id (Some cb_deactivate_dispatcher_complete))) (deactivate_dispatcher_complete None))) w1))).
  { intros c. unfold seq, asking, if_. pose proof (idle_call c w1) as Hi. destruct (ask _ _); [|by apply Hno].
    destruct (Hsame _ Hi) as (_ & Hp2 & Hn2). split; [done|]. by right. }
  destruct req as [r0|]; [apply Hcall|]. destruct (act_request (rest (priv w1))); [apply Hcall|]. apply Hno. reflexivity.
Qed.

Lemma deactivating_deactivates old r w :
  (forall w', ask q_has_sriov_setting w' = false) -> no_sriov (priv w) ->
  deactivates (priv (change_state NM_DEVICE_STATE_DEACTIVATING old r false w)).
Proof.
  intros Hset Hn. apply (change_post_state _ _ _ _ _ deactivates); [apply idle_deactivates| |done].
  intros req w' _ [Hn1 Hn2] Hc _. unfold post_state, post_deactivating, seq at 1 2. set (w1 := asking q_ignore_carrier _ _).
  assert (Hi : idle_step w' w1).
  { unfold w1. trans (_cancel_activation w'); [apply idle_cancel_activation|]. by split. }
  destruct Hi as [_ Hc1 _ Hn1' Hn2']. rewrite Hc in Hc1.
  assert (Hnw : no_sriov (priv w1)) by (destruct Hn; split; congruence).
  unfold seq at 1. unfold if_. cbn iota.
  pose proof (pre_down_deactivates r req w1 Hc1 Hnw) as Hp. unfold seq in Hp |- *.
  set (w2 := nm_dispatcher_call_device _ _ _ _) in *. unfold get, asking. rewrite Hset, andb_false_r. unfold when, if_, skip.
  by eapply idle_deactivates, Hp; apply idle_call.
Qed.

End disconnect.

(** ** The properties *)

Fixpoint enabled_run `{DeviceHandlers} (n : nat) (l : list Event) (w : World) : bool :=
  match l with
  | [] => true
  | e :: l' => enabled e (priv w) && enabled_run n l' (handle_event (Em := emit_at n) e w)
  end.

Section claims.
Context `{Hh : DeviceHandlers} (n : nat).
#[local] Hint Extern 0 Emitter => exact (emit_at n) : typeclass_instances.

(** C23: In every state that events reach without a failed check, whatever signal
    handlers and subclasses do: no change of the state is under way, each pending
    action is there once, there is one for the queued state and none for another
    state, one for a check of the availability exactly if it is scheduled; a
    dispatcher call belongs to the state.  And at every call the device made on the
    way, what was under way or scheduled was announced by a pending action. *)
Theorem device_pending_invariant w :
  rtc (device_step n) nm_device_init w -> w_crit w = 0%nat ->
  let d := priv w in
  in_state_changed d = false /\ NoDup (pending_actions d) /\
  (NM_PENDING_ACTION_IN_STATE_CHANGE ∉ pending_actions d) /\
  (forall s, queued_state_to_string s ∈ pending_actions d <-> queued_for d s) /\
  (NM_PENDING_ACTION_RECHECK_AVAILABLE ∈ pending_actions d <-> recheck_available_call_id d = true) /\
  dispatcher_ok d /\ Forall (fun e => announced e.2) (w_log w).
Proof.
  intros Hr Hw. destruct (reachable_inv n w Hr Hw) as [[] Hl]. cbn in *. split_and!; try done.
  - destruct (in_state_changed (priv w)); [|done]. by discriminate qi_changed.
  - by rewrite qi_in.
  - intros s. rewrite qi_queued, elem_of_nil. tauto.
  - rewrite qi_recheck. intuition congruence.
  - by apply qi_dispatcher.
Qed.

(** C24: A clean-up of a device is always part of a change of its state: on the way to
    unmanaged it deconfigures only a device that is managed here, and only
    forgets one that was removed or belongs to others; on the way to unavailable
    and to disconnected it deconfigures.  Routes, addresses, filters and the MTU
    in the kernel are reset only in a clean-up that deconfigures. *)
Theorem device_cleanup_safe w :
  rtc (device_step n) nm_device_init w ->
  forall l1 c d l2, w_log w = l1 ++ (c, d) :: l2 ->
  match c with
  | mark_cleanup r t => in_state_changed d = true /\ state_reason d = r /\ cleanup_type_for d = Some t
  | _ => deconfigures c = true -> last_cleanup l2 = Some CLEANUP_TYPE_DECONFIGURE
  end.
Proof.
  intros Hr%reachable_log_safe l1 c d l2 Hl. rewrite Hl in Hr. clear Hl.
  induction l1 as [|[c' d'] l1 IH]; [exact (proj1 Hr)|]. apply IH, Hr.
Qed.

(** Changing the state does nothing if the device is in the state already, unless
    that is unavailable and the firmware was missing.  Otherwise the device ends in
    the state, whatever the callees do; but a failure of a connection that is
    external or assumed ends in activated. *)
Theorem set_state_full_result s r q w :
  in_state_changed (priv w) = false ->
  let (s', r') := effective_state (priv w) s r in
  let w' := _set_state_full (Em := emit_at n) s r q w in
  if state_unchanged (priv w) s' then w' = w
  else state (priv w') = s' /\ state_reason (priv w') = r' /\ in_state_changed (priv w') = false.
Proof.
  intros Hw. pose proof (set_state_full_data (Em := emit_at n) s r q w Hw) as Hd.
  by destruct (effective_state (priv w) s r).
Qed.

(** C25: A device that fails, or is deactivated, in a connection that is not external or
    assumed and that comes into that state by it, does get disconnected: the sources
    it leaves behind take it there, after the dispatcher call if one was made and
    after the class is ready if it deactivates asynchronously.  That is if the callees
    at most add and remove pending actions (QuietHandlers), and, for a deactivation,
    if there is no SR-IOV setting and no change of the virtual functions is pending. *)
Theorem device_ends_disconnected {Hq : QuietHandlers Hh} s r w :
  s = NM_DEVICE_STATE_FAILED \/ (s = NM_DEVICE_STATE_DEACTIVATING /\ (forall w', ask q_has_sriov_setting w' = false) /\ no_sriov (priv w)) ->
  in_state_changed (priv w) = false -> state (priv w) <> s ->
  nm_device_sys_iface_state_is_external_or_assume (rest (priv w)) = false ->
  let w1 := run_events n [ev_state_changed s r] w in
  state (priv w1) = s /\
  exists l1 l2, l1 ∈ [[]; [ev_dispatcher_complete]] /\
            (l2 = [] \/ l2 = [ev_deactivate_async_ready false r] /\ exists w', ask q_class_deactivate_async w' = true) /\
            enabled_run n (l1 ++ l2 ++ [ev_queued_state]) w1 = true /\
            state (priv (run_events n (l1 ++ l2 ++ [ev_queued_state]) w1)) = NM_DEVICE_STATE_DISCONNECTED.
Proof.
  intros Hs Hin Hne Hext. cbn [run_events handle_event]. cbn zeta.
  assert (He : nm_device_state_changed s r w = change_state s (state (priv w)) r false w).
  { unfold nm_device_state_changed, _set_state_full, seq, get, g_warn_if_fail. rewrite Hin. cbn [negb when]. unfold if_, when, if_, skip.
    unfold effective_state, state_unchanged. rewrite Hext, andb_false_r.
    replace (state_is (state (priv w)) s) with false by (by unfold state_is; rewrite bool_decide_false). done. }
  rewrite He. set (w1 := change_state s (state (priv w)) r false w).
  destruct (change_state_data s (state (priv w)) r false w) as (Hst & _ & Hin1). fold w1 in Hst, Hin1.
  split; [done|]. assert (Hsne : s <> NM_DEVICE_STATE_DISCONNECTED) by by destruct Hs as [-> | [-> _]].
  assert (Hfire : forall w2, queued_for (priv w2) NM_DEVICE_STATE_DISCONNECTED -> in_state_changed (priv w2) = false -> state (priv w2) = s ->
            enabled_run n [ev_queued_state] w2 = true /\ state (priv (run_events n [ev_queued_state] w2)) = NM_DEVICE_STATE_DISCONNECTED).
  { intros w2 Hq2 Hin2 Hs2. cbn [enabled_run enabled run_events handle_event]. split; [|by apply fire_queued; [..|congruence]].
    rewrite andb_true_r. apply bool_decide_eq_true. unfold queued_for in Hq2. by destruct (queued_state (priv w2)). }
  assert (Hruns : forall w2, deactivation_runs (priv w2) -> no_sriov (priv w2) -> in_state_changed (priv w2) = false -> state (priv w2) = s ->
            exists l2, (l2 = [] \/ l2 = [ev_deactivate_async_ready false r] /\ exists w', ask q_class_deactivate_async w' = true) /\
            enabled_run n (l2 ++ [ev_queued_state]) w2 = true /\ state (priv (run_events n (l2 ++ [ev_queued_state]) w2)) = NM_DEVICE_STATE_DISCONNECTED).
  { intros w2 [Hq2|[Hc2 Ha2]] Hn2 Hin2 Hs2; [exists []; split; [by left|by apply Hfire]|].
    exists [ev_deactivate_async_ready false r]. split; [by right|]. destruct (steady_tame _ (tame_async_ready false r) w2) as [_ Hs3 _ Hin3].
    destruct (Hfire (deactivate_async_ready false r w2)) as [He3 Hr3]; [by apply async_ready_queues|congruence..|]. by split. }
  destruct Hs as [-> | (-> & Hset & Hn)].
  { exists [], []. split; [by left|]. split; [by left|]. by apply Hfire; [apply failed_queues|..]. }
  destruct (deactivating_deactivates (state (priv w)) r w Hset Hn) as [Hn1 [Hr|[Hc Hp]]]; fold w1 in Hn1.
  { destruct (Hruns w1) as (l2 & Hl2 & H1 & H2); [done..|]. exists [], l2. split; [by left|by split]. }
  fold w1 in Hc, Hp. assert (Hdc : dispatcher_complete w1 = deactivate_dispatcher_complete (dispatcher_call_id (priv w1)) w1).
  { unfold dispatcher_complete, get. by rewrite Hc. }
  destruct (steady_complete (dispatcher_call_id (priv w1)) w1) as [_ Hst2 _ Hin2]. rewrite <- Hdc in Hst2, Hin2.
  destruct (Hruns (dispatcher_complete w1)) as (l2 & Hl2 & H1 & H2); [rewrite Hdc; by apply complete_runs|rewrite Hdc; by apply complete_no_sriov|congruence..|].
  exists [ev_dispatcher_complete], l2. split; [by right; left|]. split; [done|]. cbn [app enabled_run enabled run_events handle_event].
  rewrite Hc, bool_decide_true by done. by split.
Qed.

(** Queueing a state when another is queued replaces it without telling anyone,
    and the device has a pending action all along; so it never seems to be done
    in between. *)
Theorem queue_state_replaces s r s0 r0 w :
  world_inv no_frame w -> queued_state (priv w) = Some (s0, r0) -> s0 <> s ->
  let w' := nm_device_queue_state (Em := emit_at n) s r w in
  queued_state (priv w') = Some (s, r) /\ w_log w' = w_log w /\ w_crit w' = w_crit w /\
  (forall a, a ∈ pending_actions (priv w') <->
             a = queued_state_to_string s \/ (a ∈ pending_actions (priv w) /\ a <> queued_state_to_string s0)).
Proof.
  intros [Hi _] Hq Hne. cbn zeta. unfold nm_device_queue_state, nm_device_add_pending_action, nm_device_remove_pending_action, seq, get, if_.
  rewrite Hq. unfold state_is. rewrite bool_decide_false by done.
  assert (Hs : queued_state_to_string s ∉ pending_actions (priv w)).
  { rewrite (qi_queued _ _ Hi). unfold queued_for. rewrite Hq. cbn. rewrite elem_of_nil. intuition congruence. }
  assert (Hs0 : queued_state_to_string s0 ∈ pending_actions (priv w)).
  { apply (qi_queued _ _ Hi). left. unfold queued_for. by rewrite Hq. }
  rewrite (bool_decide_false _ Hs). unfold when, if_. rewrite bool_decide_false by (intros Hnil; rewrite Hnil in Hs0; by apply elem_of_nil in Hs0).
  unfold change, skip. cbn -[slist_remove]. rewrite Hq. cbn -[slist_remove].
  assert (Hnd : NoDup (queued_state_to_string s :: pending_actions (priv w))) by (constructor; [done|apply Hi]).
  assert (Hmem : forall a, a ∈ slist_remove (queued_state_to_string s0) (queued_state_to_string s :: pending_actions (priv w)) <->
            a = queued_state_to_string s \/ (a ∈ pending_actions (priv w) /\ a <> queued_state_to_string s0)).
  { intros a. rewrite elem_of_slist_remove, elem_of_cons by done. split; [tauto|]. intros [->|]; [|tauto].
    split; [tauto|]. by intros ->%queued_string_inj. }
  rewrite bool_decide_true by (by right). unfold if_, when, if_, skip. cbn -[slist_remove]. rewrite bool_decide_false.
  2: { intros Hnil. apply (elem_of_nil (A := string) (queued_state_to_string s)). rewrite <- Hnil. apply Hmem. by left. }
  by cbn -[slist_remove].
Qed.

(** The flags are set, and the state may change. *)
Lemma set_by_flags_eq flags op r w :
  flags <> 0 -> real (rest (priv w)) = true ->
  NM_FLAGS_HAS (unmanaged_flags (rest (priv w))) NM_UNMANAGED_PLATFORM_INIT && NM_FLAGS_HAS flags NM_UNMANAGED_PLATFORM_INIT
    && match op with NM_UNMAN_FLAG_OP_SET_MANAGED => true | _ => false end = false ->
  let d := rest (priv w) in
  let d' := set_unmanaged (apply_flag_op flags op (unmanaged_flags d) (unmanaged_mask d)) d in
  nm_device_set_unmanaged_by_flags (Em := emit_at n) flags op r w =
  match managed_transition (nm_device_get_managed d false) (nm_device_get_managed d' false) (state (priv w)) with
  | None => change_rest (fun _ => d') w
  | Some s => nm_device_state_changed (Em := emit_at n) s r (change_rest (fun _ => d') w)
  end.
Proof.
  intros Hf Hreal Hinit. cbn zeta. unfold nm_device_set_unmanaged_by_flags, _set_unmanaged_flags.
  unfold set_unmanaged_flags_with at 1. unfold g_return_if_fail. replace (flags =? 0) with false by lia. cbn [negb].
  unfold if_ at 1, get at 1. rewrite Hinit. unfold if_ at 1. rewrite Hreal. cbn [andb]. unfold update_unmanaged_flags, get, seq, if_, skip.
  set (d := rest (priv w)) in *. set (new := apply_flag_op flags op (unmanaged_flags d) (unmanaged_mask d)).
  case_bool_decide as Hnew.
  - assert (Hd : nm_device_get_managed (set_unmanaged new d) false = nm_device_get_managed d false).
    { rewrite <- Hnew. by destruct d. }
    rewrite Hd. unfold managed_transition. by rewrite eqb_reflx.
  - cbn [priv change change_rest rest]. change (rest (priv (change_rest (set_unmanaged new) w))) with (set_unmanaged new d).
    change (state (priv (change_rest (set_unmanaged new) w))) with (state (priv w)). by destruct (managed_transition _ _ _).
Qed.

(** Setting flags of a real device, unless that is the end of its initialization by
    the platform: it becomes unmanaged at once if it was managed and is not any more,
    and unavailable if it was not, is now, and was unmanaged; otherwise only the
    flags change. *)
Theorem set_unmanaged_by_flags_spec flags op r w :
  flags <> 0 -> real (rest (priv w)) = true -> in_state_changed (priv w) = false ->
  NM_FLAGS_HAS (unmanaged_flags (rest (priv w))) NM_UNMANAGED_PLATFORM_INIT && NM_FLAGS_HAS flags NM_UNMANAGED_PLATFORM_INIT
    && match op with NM_UNMAN_FLAG_OP_SET_MANAGED => true | _ => false end = false ->
  let d := rest (priv w) in
  let d' := set_unmanaged (apply_flag_op flags op (unmanaged_flags d) (unmanaged_mask d)) d in
  let w' := nm_device_set_unmanaged_by_flags (Em := emit_at n) flags op r w in
  match managed_transition (nm_device_get_managed d false) (nm_device_get_managed d' false) (state (priv w)) with
  | None => w' = change_rest (fun _ => d') w
  | Some s => state (priv w') = s /\ (state (priv w) <> s -> state_reason (priv w') = r)
  end.
Proof.
  intros Hf Hreal Hin Hinit. cbn zeta. set (d := rest (priv w)) in *.
  set (new := apply_flag_op flags op (unmanaged_flags d) (unmanaged_mask d)). set (w1 := change_rest (fun _ => set_unmanaged new d) w).
  rewrite (set_by_flags_eq flags op r w Hf Hreal Hinit). fold d new w1.
  unfold managed_transition. destruct (negb (eqb _ _)) eqn:Hne; [|done]. cbn [andb].
  destruct (nm_device_get_managed d false) eqn:Hwas; cbn [orb].
  - destruct (state_changed_ends (Em := emit_at n) NM_DEVICE_STATE_UNMANAGED r w1 Hin) as (? & _ & ?); [done|by left|done].
  - unfold state_is. destruct (bool_decide_reflect (state (priv w) = NM_DEVICE_STATE_UNMANAGED)) as [Hs|Hs]; [|done].
    destruct (state_changed_ends (Em := emit_at n) NM_DEVICE_STATE_UNAVAILABLE r w1 Hin) as (? & _ & ?); [done|right|done].
    change (state (priv w) <> NM_DEVICE_STATE_UNAVAILABLE). by rewrite Hs.
Qed.

End claims.

(** ** A device of the sample daemon *)

Section sample.

(** Its callees announce and withdraw an action of their own. *)
Definition sample_handlers : DeviceHandlers := {|
  on_call c w := match c with
                 | c_signal_state_changed _ _ _ => [op_add_pending_action NM_PENDING_ACTION_AUTOACTIVATE false]
                 | c_concheck_update_interval _ _ => [op_remove_pending_action NM_PENDING_ACTION_AUTOACTIVATE false]
                 | _ => []
                 end;
  ask q w := match q with q_class_is_available | q_dispatcher_call_accepted _ => true | _ => false end;
  activation_type _ _ := NM_ACTIVATION_TYPE_MANAGED;
  now_ms _ := 0;
  carrier_wait_ms _ := 6000 |}.

#[local] Existing Instance sample_handlers.

#[local] Instance sample_quiet : QuietHandlers sample_handlers.
Proof. intros c w. by destruct c. Qed.

Lemma run_reachable n l w : enabled_run n l w = true -> rtc (device_step n) w (run_events n l w).
Proof.
  revert w. induction l as [|e l IH]; intros w; cbn; [done|]. intros [He Hl]%andb_true_iff.
  eapply rtc_l; [by constructor|]. by apply IH.
Qed.

(** Realized, initialized by the platform and thereby managed, it becomes available. *)
Definition sample_events : list Event :=
  [ev_op (op_change (fun d => set_ifindex 2 (set_real true d)));
   ev_set_unmanaged_by_flags NM_UNMANAGED_PLATFORM_INIT NM_UNMAN_FLAG_OP_SET_MANAGED NM_DEVICE_STATE_REASON_NOW_MANAGED;
   ev_recheck_available; ev_queued_state].

Definition sample_disconnected : World := run_events 3 sample_events nm_device_init.

(** It is activated, and another state is queued. *)
Definition sample_activated : World :=
  run_events 3 [ev_op (op_change (set_act_request (Some 7%positive)));
                ev_state_changed NM_DEVICE_STATE_ACTIVATED NM_DEVICE_STATE_REASON_NONE;
                ev_op (op_queue_state NM_DEVICE_STATE_UNAVAILABLE NM_DEVICE_STATE_REASON_CARRIER)] sample_disconnected.

Example sample_run :
  enabled_run 3 sample_events nm_device_init = true /\ state (priv sample_disconnected) = NM_DEVICE_STATE_DISCONNECTED /\
  sys_iface_state (rest (priv sample_disconnected)) = NM_DEVICE_SYS_IFACE_STATE_MANAGED /\
  w_crit sample_disconnected = 0%nat /\ length (w_log sample_disconnected) = 46%nat.
Proof. vm_compute. done. Qed.


Lemma sample_reachable l :
  enabled_run 3 l nm_device_init = true -> rtc (device_step 3) nm_device_init (run_events 3 l nm_device_init).
Proof. apply run_reachable. Qed.

Lemma disconnected_reachable : rtc (device_step 3) nm_device_init sample_disconnected.
Proof. apply sample_reachable. by vm_compute. Qed.

Lemma activated_reachable : rtc (device_step 3) nm_device_init sample_activated.
Proof. etrans; [apply disconnected_reachable|]. apply run_reachable. by vm_compute. Qed.

Lemma device_pending_invariant_witness :
  exists w, rtc (device_step 3) nm_device_init w /\ queued_state (priv w) = Some (NM_DEVICE_STATE_UNAVAILABLE, 40) /\
  pending_actions (priv w) = [queued_state_to_string NM_DEVICE_STATE_UNAVAILABLE] /\ NoDup (pending_actions (priv w)) /\
  Forall (fun e => announced e.2) (w_log w).
Proof.
  assert (Hc : w_crit sample_activated = 0%nat) by by vm_compute.
  destruct (device_pending_invariant 3 sample_activated activated_reachable Hc) as (_ & Hn & _ & _ & _ & _ & Hl).
  exists sample_activated. split; [apply activated_reachable|]. split; [by vm_compute|]. split; [by vm_compute|]. exact (conj Hn Hl).
Defined.

Lemma device_cleanup_safe_witness :
  exists d l1 l2, w_log sample_disconnected = l1 ++ (mark_cleanup 2 CLEANUP_TYPE_DECONFIGURE, d) :: l2 /\
  in_state_changed d = true /\ cleanup_type_for d = Some CLEANUP_TYPE_DECONFIGURE.
Proof.
  assert (Hc : fst <$> w_log sample_disconnected !! 37%nat = Some (mark_cleanup 2 CLEANUP_TYPE_DECONFIGURE)) by by vm_compute.
  destruct (w_log sample_disconnected !! 37%nat) as [[c d]|] eqn:He; [|done].
  injection Hc as ->. exists d, (take 37 (w_log sample_disconnected)), (drop 38 (w_log sample_disconnected)).
  assert (Hl : w_log sample_disconnected = take 37 (w_log sample_disconnected) ++
            (mark_cleanup 2 CLEANUP_TYPE_DECONFIGURE, d) :: drop 38 (w_log sample_disconnected)) by (by rewrite (take_drop_middle _ _ _ He)).
  split; [exact Hl|]. destruct (device_cleanup_safe 3 sample_disconnected disconnected_reachable _ _ _ _ Hl) as (H1 & _ & H2).
  by split.
Defined.

Lemma set_state_full_result_witness :
  state (priv (_set_state_full (Em := emit_at 3) NM_DEVICE_STATE_FAILED 0 false nm_device_init)) = NM_DEVICE_STATE_ACTIVATED.
Proof. exact (proj1 (set_state_full_result 3 NM_DEVICE_STATE_FAILED 0 false nm_device_init eq_refl)). Defined.

Lemma device_ends_disconnected_witness :
  exists l, state (priv (run_events 3 l (run_events 3 [ev_state_changed NM_DEVICE_STATE_DEACTIVATING 0] sample_activated))) =
  NM_DEVICE_STATE_DISCONNECTED.
Proof.
  destruct (device_ends_disconnected 3 NM_DEVICE_STATE_DEACTIVATING 0 sample_activated) as (_ & l1 & l2 & _ & _ & _ & Hs);
    [right; split; [done|split; [done|by vm_compute]]|by vm_compute|by vm_compute|by vm_compute|]. by exists (l1 ++ l2 ++ [ev_queued_state]).
Defined.

Lemma queue_state_replaces_witness :
  let w' := nm_device_queue_state (Em := emit_at 3) NM_DEVICE_STATE_FAILED 0 sample_activated in
  queued_state (priv w') = Some (NM_DEVICE_STATE_FAILED, 0) /\ w_log w' = w_log sample_activated.
Proof.
  destruct (queue_state_replaces 3 NM_DEVICE_STATE_FAILED 0 NM_DEVICE_STATE_UNAVAILABLE 40 sample_activated) as (H1 & H2 & _);
    [apply (reachable_inv 3); [apply activated_reachable|by vm_compute]|by vm_compute|discriminate|]. exact (conj H1 H2).
Defined.

Lemma set_unmanaged_by_flags_spec_witness :
  state (priv (nm_device_set_unmanaged_by_flags (Em := emit_at 3) NM_UNMANAGED_USER_EXPLICIT NM_UNMAN_FLAG_OP_SET_UNMANAGED
    NM_DEVICE_STATE_REASON_USER_REQUESTED sample_disconnected)) = NM_DEVICE_STATE_UNMANAGED.
Proof.
  pose proof (set_unmanaged_by_flags_spec 3 NM_UNMANAGED_USER_EXPLICIT NM_UNMAN_FLAG_OP_SET_UNMANAGED
    NM_DEVICE_STATE_REASON_USER_REQUESTED sample_disconnected ltac:(discriminate) ltac:(by vm_compute) ltac:(by vm_compute)
    ltac:(by vm_compute)) as Hs.
  cbn zeta in Hs. set (t := managed_transition _ _ _) in Hs. assert (Ht : t = Some NM_DEVICE_STATE_UNMANAGED) by by vm_compute.
  clearbody t. subst t. exact (proj1 Hs).
Defined.

(** When the platform has initialized the device, its last pending action is gone and
    that is told before the change to unavailable begins, which adds one again. *)
Example init_seems_done :
  exists d, w_log sample_disconnected !! 43%nat = Some (c_notify PROP_HAS_PENDING_ACTION, d) /\
  nm_device_has_pending_action d = false /\ state d = NM_DEVICE_STATE_UNMANAGED /\
  nm_device_get_managed (rest d) false = true.
Proof.
  set (e := default (c_notify PROP_STATE, priv nm_device_init) (w_log sample_disconnected !! 43%nat)).
  exists e.2. split; [|split; [|split]]; by vm_compute.
Qed.
End sample.

(** ** A queued state without its action *)

Section requeue.

(** A handler of the change to activated queues that the device has failed. *)
Definition failing_handlers : DeviceHandlers := {|
  on_call c w := match c with
                 | c_signal_state_changed NM_DEVICE_STATE_ACTIVATED _ _ =>
                     [op_queue_state NM_DEVICE_STATE_FAILED NM_DEVICE_STATE_REASON_NONE]
                 | _ => []
                 end;
  ask q w := false;
  activation_type _ _ := NM_ACTIVATION_TYPE_EXTERNAL;
  now_ms _ := 0;
  carrier_wait_ms _ := 6000 |}.

#[local] Existing Instance failing_handlers.

(** The device is external, so its failure makes it activated; the failure of which is queued
    while the action of the first is still pending, and goes with it. *)
Example requeue_loses_action :
  let w := run_events 3 [ev_op (op_queue_state NM_DEVICE_STATE_FAILED NM_DEVICE_STATE_REASON_NONE); ev_queued_state] nm_device_init in
  state (priv w) = NM_DEVICE_STATE_ACTIVATED /\ queued_state (priv w) = Some (NM_DEVICE_STATE_FAILED, 0) /\
  pending_actions (priv w) = [] /\ w_crit w = 1%nat.
Proof. by vm_compute. Qed.
End requeue.
