(* ===== verification/AddrBase.v ===== *)
(** * Synchronizing addresses: lifetimes, the platform, expired addresses

    What nm_platform_ip4_address_sync () and nm_platform_ip6_address_sync () of
    src/platform/nm-platform.c share: the remaining lifetime of an address
    (src/nm-core-utils.c), the operations of the platform's class, and the list of
    known addresses without those that expired.  A GPtrArray with tombstones is a
    list of options. *)

From S2P Require Export Prelude Bytes CmpOrder IpAddr NMHash PlatformLink PlatformLnk PlatformIp PlatformRule NmpObject.

Definition IFA_F_SECONDARY : Z := 0x01.
Definition IFA_F_TEMPORARY : Z := 0x01.
Definition IFA_F_NOPREFIXROUTE : Z := 0x200.

(** nm_utils_get_monotonic_timestamp_s () at the time of a call. *)
Class MonotonicClock := nm_utils_get_monotonic_timestamp_s : Z.

(** ** Lifetimes *)

Definition nm_utils_lifetime_rebase_relative_time_on_now (timestamp duration now : Z) : Z :=
  if duration =? NM_PLATFORM_LIFETIME_PERMANENT then NM_PLATFORM_LIFETIME_PERMANENT
  else
    let timestamp := if timestamp =? 0 then u32 now else timestamp in
    let t := timestamp + duration - now in
    if t <=? 0 then 0
    else if NM_PLATFORM_LIFETIME_PERMANENT <=? t then NM_PLATFORM_LIFETIME_PERMANENT - 1
    else t.

(** The result and out_preferred. *)
Definition nm_utils_lifetime_get `{MonotonicClock} (timestamp lifetime preferred now : Z) : Z * Z :=
  if (timestamp =? 0) && (lifetime =? 0) then (NM_PLATFORM_LIFETIME_PERMANENT, NM_PLATFORM_LIFETIME_PERMANENT)
  else
    let now := if now <=? 0 then nm_utils_get_monotonic_timestamp_s else now in
    let t_lifetime := nm_utils_lifetime_rebase_relative_time_on_now timestamp lifetime now in
    if t_lifetime =? 0 then (0, 0)
    else
      let t_preferred := nm_utils_lifetime_rebase_relative_time_on_now timestamp preferred now in
      (t_lifetime, Z.min t_preferred t_lifetime).

(** ** The platform

    The lookups of the cache, in its order, and the virtual functions of the class. *)
Class AddressPlatform (P : Type) := {
  ip4_address_lookup : Z -> P -> list NMPlatformIP4Address;
  ip6_address_lookup : Z -> P -> list NMPlatformIP6Address;
  klass_ip4_address_add (ifindex : Z) (address : in_addr_t) (plen : Z) (peer_address : in_addr_t)
    (lifetime preferred flags : Z) (label : list byte) : P -> bool * P;
  klass_ip4_address_delete (ifindex : Z) (address : in_addr_t) (plen : Z) (peer_address : in_addr_t) : P -> P;
  klass_ip6_address_add (ifindex : Z) (address : in6_addr) (plen : Z) (peer_address : in6_addr)
    (lifetime preferred flags : Z) : P -> bool * P;
  klass_ip6_address_delete (ifindex : Z) (address : in6_addr) (plen : Z) : P -> P
}.

Definition NMP_IFNAMSIZ : nat := 16.

Section platform.
Context {P : Type} `{AddressPlatform P}.

Definition nm_platform_ip4_address_add (ifindex : Z) (address : in_addr_t) (plen : Z) (peer_address : in_addr_t)
    (lifetime preferred flags : Z) (label : list byte) (self : P) : bool * P :=
  if negb (0 <? ifindex) then (false, self)
  else if negb (plen <=? 32) then (false, self)
  else if negb (0 <? lifetime) then (false, self)
  else if negb (preferred <=? lifetime) then (false, self)
  else if negb (length label <? NMP_IFNAMSIZ)%nat then (false, self)
  else klass_ip4_address_add ifindex address plen peer_address lifetime preferred flags label self.

Definition nm_platform_ip6_address_add (ifindex : Z) (address : in6_addr) (plen : Z) (peer_address : in6_addr)
    (lifetime preferred flags : Z) (self : P) : bool * P :=
  if negb (0 <? ifindex) then (false, self)
  else if negb (plen <=? 128) then (false, self)
  else if negb (0 <? lifetime) then (false, self)
  else if negb (preferred <=? lifetime) then (false, self)
  else klass_ip6_address_add ifindex address plen peer_address lifetime preferred flags self.

(** The callers ignore the result of a deletion. *)
Definition nm_platform_ip4_address_delete (ifindex : Z) (address : in_addr_t) (plen : Z) (peer_address : in_addr_t) (self : P) : P :=
  if negb (0 <? ifindex) then self
  else if negb (plen <=? 32) then self
  else klass_ip4_address_delete ifindex address plen peer_address self.

Definition nm_platform_ip6_address_delete (ifindex : Z) (address : in6_addr) (plen : Z) (self : P) : P :=
  if negb (0 <? ifindex) then self
  else if negb (plen <=? 128) then self
  else klass_ip6_address_delete ifindex address plen self.
End platform.

(** ** Expired addresses *)

Definition alive_at `{MonotonicClock} (now : Z) (ax : NMPlatformIPAddress) : bool :=
  negb (fst (nm_utils_lifetime_get (ax_timestamp ax) (ax_lifetime ax) (ax_preferred ax) now) =? 0).

(** The array with tombstones, and whether any address is left.  The index
    maps an address to the one of the array with the same identity. *)
Definition _addr_array_clean_expired `{MonotonicClock} {A} (is_inet6 : bool) (ax_of : A -> NMPlatformIPAddress)
    (array : list A) (now : Z) : list (option A) * bool :=
  let array := map (fun a =>
    if is_inet6 && NM_FLAGS_HAS (ax_n_ifa_flags (ax_of a)) IFA_F_TEMPORARY then None
    else if negb (alive_at now (ax_of a)) then None
    else Some a) array in
  (array, existsb (fun o => match o with Some _ => true | None => false end) array).

(** nmp_object_id_equal () of two addresses: it looks at the objects' data only. *)
Definition ip4_address_id_equal `{ByteOrder} `{KernelSupport} (a b : NMPlatformIP4Address) : bool :=
  nmp_object_id_equal (mk_at 0 (OBJ_IP4_ADDRESS a)) (mk_at 1 (OBJ_IP4_ADDRESS b)).
Definition ip6_address_id_equal `{ByteOrder} `{KernelSupport} (a b : NMPlatformIP6Address) : bool :=
  nmp_object_id_equal (mk_at 0 (OBJ_IP6_ADDRESS a)) (mk_at 1 (OBJ_IP6_ADDRESS b)).

(** ** What is left of a lifetime *)

Lemma rebase_range timestamp duration now :
  0 <= duration <= NM_PLATFORM_LIFETIME_PERMANENT ->
  0 <= nm_utils_lifetime_rebase_relative_time_on_now timestamp duration now <= NM_PLATFORM_LIFETIME_PERMANENT.
Proof. intros Hd. unfold nm_utils_lifetime_rebase_relative_time_on_now, NM_PLATFORM_LIFETIME_PERMANENT in *. code_cases; lia. Qed.

Lemma lifetime_get_bounds `{MonotonicClock} timestamp lifetime preferred now l p :
  0 <= lifetime <= NM_PLATFORM_LIFETIME_PERMANENT -> 0 <= preferred <= NM_PLATFORM_LIFETIME_PERMANENT ->
  nm_utils_lifetime_get timestamp lifetime preferred now = (l, p) -> 0 <= p <= l /\ l <= NM_PLATFORM_LIFETIME_PERMANENT.
Proof.
  intros Hl Hp. unfold nm_utils_lifetime_get.
  destruct (_ && _); [intros [= <- <-]; unfold NM_PLATFORM_LIFETIME_PERMANENT; lia|].
  set (n := if now <=? 0 then _ else now).
  pose proof (rebase_range timestamp lifetime n Hl). pose proof (rebase_range timestamp preferred n Hp).
  cbn zeta. destruct (_ =? 0); intros [= <- <-]; unfold NM_PLATFORM_LIFETIME_PERMANENT in *; lia.
Qed.

(** nm_utils_lifetime_get() never returns a preferred lifetime above the lifetime, returns the value for
    permanent exactly for permanent addresses (an address with neither a timestamp nor a lifetime is one),
    0 exactly for expired ones, and else what is left of the lifetime, up to the largest value that is
    not permanent. *)
Theorem lifetime_get_spec `{MonotonicClock} timestamp lifetime preferred now l p :
  0 < now < 2 ^ 31 -> 0 <= timestamp < 2 ^ 32 -> 0 <= lifetime < 2 ^ 32 -> 0 <= preferred < 2 ^ 32 ->
  nm_utils_lifetime_get timestamp lifetime preferred now = (l, p) ->
  let start := if timestamp =? 0 then now else timestamp in
  let permanent := lifetime = NM_PLATFORM_LIFETIME_PERMANENT \/ timestamp = 0 /\ lifetime = 0 in
  0 <= p <= l /\ l <= NM_PLATFORM_LIFETIME_PERMANENT /\
  (l = NM_PLATFORM_LIFETIME_PERMANENT <-> permanent) /\
  (l = 0 <-> ~ permanent /\ start + lifetime <= now) /\
  (~ permanent -> 0 < l -> l = Z.min (start + lifetime - now) (NM_PLATFORM_LIFETIME_PERMANENT - 1)).
Proof.
  intros Hn Ht Hl Hp E start permanent.
  destruct (lifetime_get_bounds timestamp lifetime preferred now l p) as [Hb Hb']; [unfold NM_PLATFORM_LIFETIME_PERMANENT; lia..|done|].
  split; [done|]. split; [done|]. clear Hb Hb' Hp. revert E. subst start permanent.
  unfold nm_utils_lifetime_get, nm_utils_lifetime_rebase_relative_time_on_now, u32, NM_PLATFORM_LIFETIME_PERMANENT.
  cbn zeta. destruct (Z.leb_spec now 0); [lia|]. rewrite (Z.mod_small now) by lia.
  destruct (Z.eqb_spec timestamp 0) as [->|], (Z.eqb_spec lifetime 0) as [->|]; cbn [andb]; [intros [= <- <-]; lia|..];
    repeat case_match; intros [= <- <-]; bools; lia.
Qed.

Lemma lifetime_get_spec_witness :
  0 <= 30 <= 50 /\ (50 = NM_PLATFORM_LIFETIME_PERMANENT <-> 60 = NM_PLATFORM_LIFETIME_PERMANENT \/ 90 = 0 /\ 60 = 0).
Proof.
  destruct (@lifetime_get_spec 0 90 60 40 100 50 30) as (Hb & _ & Hp & _); [lia..|reflexivity|]. split; [exact Hb|exact Hp].
Defined.

(** ** The known addresses that count *)

Section clean.
Context `{MonotonicClock} {A : Type} (is_inet6 : bool) (ax_of : A -> NMPlatformIPAddress) (now : Z).

(** Not expired and, for IPv6, not a temporary address. *)
Definition wanted (a : A) : bool :=
  negb (is_inet6 && NM_FLAGS_HAS (ax_n_ifa_flags (ax_of a)) IFA_F_TEMPORARY) && alive_at now (ax_of a).

Lemma clean_expired_spec array :
  _addr_array_clean_expired is_inet6 ax_of array now
  = (map (fun a => if wanted a then Some a else None) array, existsb wanted array).
Proof.
  unfold _addr_array_clean_expired, wanted. f_equal.
  - apply map_ext. intros a. destruct (_ && _); cbn; [done|]. by destruct (alive_at _ _).
  - induction array as [|a array IH]; cbn; [done|]. rewrite IH. f_equal. destruct (_ && NM_FLAGS_HAS _ _); cbn; [done|].
    by destruct (alive_at _ _).
Qed.
End clean.

Lemma omap_tombstones {A} (p : A -> bool) (l : list A) :
  omap id (map (fun a => if p a then Some a else None) l) = List.filter p l.
Proof. induction l as [|a l IH]; cbn; [done|]. destruct (p a); cbn; by rewrite IH. Qed.

(** ** Identity *)

Section identity.
Context `{ByteOrder} `{KernelSupport}.

(** The part of an IPv4 address that identifies it on its interface. *)
Definition ip4_id (a : NMPlatformIP4Address) : Z * in_addr_t * Z :=
  (ax_plen (a4_ax a), a4_address a, htonl (nm_utils_ip4_address_clear_host_address (a4_peer_address a) (ax_plen (a4_ax a)))).

Lemma ip4_address_id_equal_spec a b :
  ip4_address_id_equal a b = true <-> ax_ifindex (a4_ax a) = ax_ifindex (a4_ax b) /\ ip4_id a = ip4_id b.
Proof.
  unfold ip4_address_id_equal, nmp_object_id_equal, nmp_object_id_cmp, ip4_id. cbn -[NM_CMP_DIRECT cmp_then].
  rewrite Z.eqb_eq, !cmp_then_zero. unfold nm_utils_ip4_address_same_prefix_cmp. rewrite !cmp_eq. split.
  - intros (_ & -> & -> & -> & E & _). rewrite E. split; congruence.
  - intros [-> [= -> -> E]]. rewrite E. auto 10.
Qed.

Lemma ip6_address_id_equal_spec a b :
  ip6_address_id_equal a b = true <-> ax_ifindex (a6_ax a) = ax_ifindex (a6_ax b) /\ a6_address a = a6_address b.
Proof.
  unfold ip6_address_id_equal, nmp_object_id_equal, nmp_object_id_cmp. cbn -[NM_CMP_DIRECT cmp_then].
  rewrite Z.eqb_eq, !cmp_then_zero, !cmp_eq. tauto.
Qed.
End identity.
