(* ===== verification/AddrSync6.v ===== *)
(** * Synchronizing IPv6 addresses

    nm_platform_ip6_address_sync () of src/platform/nm-platform.c.  The kernel keeps
    the addresses of an interface sorted by scope and puts a new one before the
    others of its scope; the source address of a connection is chosen in that
    order.  The function deletes what is unknown or in the wrong place and adds the
    known addresses, from the least to the most important. *)

From S2P Require Export Prelude AddrBase.

(** ** Scopes *)

Definition IN6_IS_ADDR_LINKLOCAL (a : in6_addr) : bool :=
  (b2z (nth 0 a x00) =? 0xfe) && (Z.land (b2z (nth 1 a x00)) 0xc0 =? 0x80).
Definition IN6_IS_ADDR_SITELOCAL (a : in6_addr) : bool :=
  (b2z (nth 0 a x00) =? 0xfe) && (Z.land (b2z (nth 1 a x00)) 0xc0 =? 0xc0).

Definition ip6_address_scope_priority (addr : in6_addr) : Z :=
  if IN6_IS_ADDR_LINKLOCAL addr then 1 else if IN6_IS_ADDR_SITELOCAL addr then 2 else 3.

Definition ip6_address_scope_cmp (x y : NMPlatformIP6Address) : Z :=
  ip6_address_scope_priority (a6_address x) - ip6_address_scope_priority (a6_address y).

(** g_ptr_array_sort (): a stable sort, as its documentation says. *)
Class GPtrArraySort := g_ptr_array_sort : forall {A : Type}, (A -> A -> Z) -> list A -> list A.
Class GPtrArraySortOk `{GPtrArraySort} : Prop := {
  g_ptr_array_sorted A (key : A -> Z) l :
    StronglySorted (fun x y => key x <= key y) (g_ptr_array_sort (fun x y => key x - key y) l);
  g_ptr_array_stable A (key : A -> Z) l k :
    List.filter (fun x => key x =? k) (g_ptr_array_sort (fun x y => key x - key y) l) = List.filter (fun x => key x =? k) l
}.

(** ** Operations *)

Section sync.
Context {P : Type} `{AddressPlatform P} `{ByteOrder} `{KernelSupport} `{MonotonicClock} `{GPtrArraySort} (ifindex : Z).

Definition delete6 (a : NMPlatformIP6Address) (self : P) : P :=
  nm_platform_ip6_address_delete ifindex (a6_address a) (ax_plen (a6_ax a)) self.

Definition is_temporary (a : NMPlatformIP6Address) : bool := NM_FLAGS_HAS (ax_n_ifa_flags (a6_ax a)) IFA_F_TEMPORARY.

(** The lookup in known_addresses_idx, and the prefix length. *)
Definition known_same (known_addresses_idx : list NMPlatformIP6Address) (plat_addr : NMPlatformIP6Address) : bool :=
  match find (ip6_address_id_equal plat_addr) known_addresses_idx with
  | Some know => ax_plen (a6_ax plat_addr) =? ax_plen (a6_ax know)
  | None => false
  end.

(** The first loop: plat_addresses with what is handled set to NULL. *)
Fixpoint delete_unknown (full_sync : bool) (known_addresses_idx plat_addresses : list NMPlatformIP6Address) (self : P)
    : list (option NMPlatformIP6Address) * P :=
  match plat_addresses with
  | [] => ([], self)
  | plat_addr :: plat_addresses =>
      let '(o, self) :=
        if is_temporary plat_addr then
          if negb full_sync then (None, self) else (None, delete6 plat_addr self)
        else if known_same known_addresses_idx plat_addr then (Some plat_addr, self)
        else (None, delete6 plat_addr self) in
      let '(l, self) := delete_unknown full_sync known_addresses_idx plat_addresses self in
      (o :: l, self)
  end.

(** The inner loop from i_know on: whether it found the address, and the rest of
    known_addresses from the new i_know on. *)
Fixpoint next_known (known_addresses : list (option NMPlatformIP6Address)) (plat_addr : NMPlatformIP6Address)
    : bool * list (option NMPlatformIP6Address) :=
  match known_addresses with
  | [] => (false, [])
  | None :: known_addresses => next_known known_addresses plat_addr
  | Some know_addr :: known_addresses =>
      if IN6_ARE_ADDR_EQUAL (a6_address plat_addr) (a6_address know_addr) then (true, known_addresses) else (false, [])
  end.

(** The second loop, over the reversed plat_addresses. *)
Fixpoint delete_disordered (plat_addresses known_addresses : list (option NMPlatformIP6Address)) (self : P) : P :=
  match plat_addresses with
  | [] => self
  | None :: plat_addresses => delete_disordered plat_addresses known_addresses self
  | Some plat_addr :: plat_addresses =>
      let '(found, known_addresses) := next_known known_addresses plat_addr in
      delete_disordered plat_addresses known_addresses (if found then self else delete6 plat_addr self)
  end.

Definition add6 (now : Z) (known_address : NMPlatformIP6Address) (self : P) : bool * P :=
  let ifa_flags :=
    if nm_platform_kernel_support_get NM_PLATFORM_KERNEL_SUPPORT_TYPE_EXTENDED_IFA_FLAGS then IFA_F_NOPREFIXROUTE else 0 in
  let ax := a6_ax known_address in
  let '(lifetime, preferred) := nm_utils_lifetime_get (ax_timestamp ax) (ax_lifetime ax) (ax_preferred ax) now in
  nm_platform_ip6_address_add ifindex (a6_address known_address) (ax_plen ax) (a6_peer_address known_address)
    lifetime preferred (Z.lor ifa_flags (ax_n_ifa_flags ax)) self.

(** The third loop. *)
Fixpoint add_missing (now : Z) (known_addresses : list (option NMPlatformIP6Address)) (self : P) : bool * P :=
  match known_addresses with
  | [] => (true, self)
  | None :: known_addresses => add_missing now known_addresses self
  | Some known_address :: known_addresses =>
      let '(ok, self) := add6 now known_address self in
      if negb ok then (false, self) else add_missing now known_addresses self
  end.

(** The result, the known addresses (sorted, with tombstones) and the platform. *)
Definition nm_platform_ip6_address_sync (known_addresses : option (list NMPlatformIP6Address)) (full_sync : bool) (self : P)
    : bool * option (list (option NMPlatformIP6Address)) * P :=
  let now := nm_utils_get_monotonic_timestamp_s in
  let known_addresses := g_ptr_array_sort ip6_address_scope_cmp <$> known_addresses in
  let cleaned := (fun l => _addr_array_clean_expired true a6_ax l now) <$> known_addresses in
  let out := fst <$> cleaned in
  let known_addresses := match cleaned with Some (l, true) => Some l | _ => None end in
  let plat_addresses := ip6_address_lookup ifindex self in
  let known := default [] known_addresses in
  let '(plat_addresses, self) := delete_unknown full_sync (omap id known) plat_addresses self in
  let self := delete_disordered (rev plat_addresses) known self in
  match known_addresses with
  | None => (true, out, self)
  | Some known_addresses => let '(ok, self) := add_missing now known_addresses self in (ok, out, self)
  end.
End sync.

(** ** The order of the known addresses *)

Definition key6 (a : NMPlatformIP6Address) : in6_addr * Z := (a6_address a, ax_plen (a6_ax a)).

(** By scope; within a scope in the order given. *)
Definition by_scope (l : list NMPlatformIP6Address) : list NMPlatformIP6Address :=
  let of_scope k := List.filter (fun a => ip6_address_scope_priority (a6_address a) =? k) l in
  of_scope 1 ++ of_scope 2 ++ of_scope 3.

Lemma scope_priority_range a :
  ip6_address_scope_priority a = 1 \/ ip6_address_scope_priority a = 2 \/ ip6_address_scope_priority a = 3.
Proof. unfold ip6_address_scope_priority. repeat case_match; auto. Qed.

Lemma by_scope_sorted l :
  StronglySorted (fun x y => ip6_address_scope_priority (a6_address x) <= ip6_address_scope_priority (a6_address y)) l ->
  by_scope l = l.
Proof.
  unfold by_scope. induction 1 as [|x l Hs IH Hx]; cbn; [done|].
  assert (Hno : forall k, k < ip6_address_scope_priority (a6_address x) ->
            List.filter (fun a => ip6_address_scope_priority (a6_address a) =? k) l = []).
  { intros k Hk. apply filter_none. eapply Forall_impl; [exact Hx|]. cbn. intros y Hy. apply Z.eqb_neq. lia. }
  destruct (scope_priority_range (a6_address x)) as [E|[E|E]]; rewrite E in *; cbn.
  - by rewrite IH.
  - rewrite (Hno 1) in * by lia. cbn in *. by rewrite IH.
  - rewrite (Hno 1), (Hno 2) in * by lia. cbn in *. by rewrite IH.
Qed.

Lemma sort_by_scope `{GPtrArraySortOk} l : g_ptr_array_sort ip6_address_scope_cmp l = by_scope l.
Proof.
  rewrite <- (by_scope_sorted (g_ptr_array_sort _ l)).
  - unfold by_scope, ip6_address_scope_cmp.
    by rewrite !(g_ptr_array_stable _ (fun a => ip6_address_scope_priority (a6_address a))).
  - apply (g_ptr_array_sorted _ (fun a => ip6_address_scope_priority (a6_address a))).
Qed.

Lemma sort_filter_scope `{GPtrArraySortOk} p l :
  List.filter p (g_ptr_array_sort ip6_address_scope_cmp l) = by_scope (List.filter p l).
Proof.
  rewrite sort_by_scope. unfold by_scope. by rewrite !List.filter_app, !(filter_swap p).
Qed.
