(* ===== verification/AddrSample.v ===== *)
(** * A small kernel for addresses

    A concrete platform of one interface, and a stable sort, for the witnesses of the
    synchronization of addresses.  It keeps IPv6 addresses sorted by scope, and gives
    an IPv4 address the role of a secondary where there is a primary one of the same
    network; with it go its secondaries.  It logs deletions. *)

From S2P Require Export Prelude AddrBase AddrSync6.

Record SampleKernel := mk_kernel {
  sk_ip4 : list NMPlatformIP4Address; sk_ip6 : list NMPlatformIP6Address; sk_deleted : list (in_addr_t * Z)
}.

Section sample.
Context `{ByteOrder}.

Definition same_network (a b : NMPlatformIP4Address) : bool :=
  (ax_plen (a4_ax a) =? ax_plen (a4_ax b))
  && nm_utils_ip4_address_same_prefix (a4_address a) (a4_address b) (ax_plen (a4_ax a)).
Definition is_secondary (a : NMPlatformIP4Address) : bool := NM_FLAGS_HAS (ax_n_ifa_flags (a4_ax a)) IFA_F_SECONDARY.

Definition sample_ip4 (ifindex : Z) (address : in_addr_t) (plen : Z) (peer : in_addr_t) (flags : Z) : NMPlatformIP4Address :=
  {| a4_ax := {| ax_ifindex := ifindex; ax_addr_source := 0; ax_timestamp := 0; ax_lifetime := 0; ax_preferred := 0;
                 ax_n_ifa_flags := flags; ax_plen := plen; ax_external := false |};
     a4_address := address; a4_peer_address := peer; a4_label := [] |}.
Definition sample_ip6 (ifindex : Z) (address : in6_addr) (plen flags : Z) : NMPlatformIP6Address :=
  {| a6_ax := {| ax_ifindex := ifindex; ax_addr_source := 0; ax_timestamp := 0; ax_lifetime := 0; ax_preferred := 0;
                 ax_n_ifa_flags := flags; ax_plen := plen; ax_external := false |};
     a6_address := address; a6_peer_address := address |}.

Definition same_id (a b : NMPlatformIP4Address) : bool := bool_decide (ip4_id a = ip4_id b).

Definition sample_ip4_add (ifindex : Z) (address : in_addr_t) (plen : Z) (peer : in_addr_t) (k : SampleKernel) : SampleKernel :=
  let a := sample_ip4 ifindex address plen peer 0 in
  if existsb (same_id a) (sk_ip4 k) then k
  else
    let primary := existsb (fun b => same_network a b && negb (is_secondary b)) (sk_ip4 k) in
    mk_kernel (sk_ip4 k ++ [sample_ip4 ifindex address plen peer (Z.b2z primary)]) (sk_ip6 k) (sk_deleted k).

Definition sample_ip4_delete (ifindex : Z) (address : in_addr_t) (plen : Z) (peer : in_addr_t) (k : SampleKernel) : SampleKernel :=
  let a := sample_ip4 ifindex address plen peer 0 in
  let primary := existsb (fun b => same_id a b && negb (is_secondary b)) (sk_ip4 k) in
  mk_kernel (List.filter (fun b => negb (same_id a b || (primary && same_network a b && is_secondary b))) (sk_ip4 k))
    (sk_ip6 k) (sk_deleted k ++ [(address, plen)]).

Definition sample_ip6_add (ifindex : Z) (address : in6_addr) (plen : Z) (k : SampleKernel) : SampleKernel :=
  if existsb (fun b => bool_decide (a6_address b = address)) (sk_ip6 k) then k
  else
    let before b := ip6_address_scope_priority address <? ip6_address_scope_priority (a6_address b) in
    mk_kernel (sk_ip4 k) (take_while before (sk_ip6 k) ++ sample_ip6 ifindex address plen 0 :: drop_while before (sk_ip6 k))
      (sk_deleted k).

Definition sample_ip6_delete (address : in6_addr) (plen : Z) (k : SampleKernel) : SampleKernel :=
  mk_kernel (sk_ip4 k) (List.filter (fun b => negb (bool_decide (key6 b = (address, plen)))) (sk_ip6 k)) (sk_deleted k).

#[export] Instance sample_platform : AddressPlatform SampleKernel := {|
  ip4_address_lookup _ k := sk_ip4 k;
  ip6_address_lookup _ k := sk_ip6 k;
  klass_ip4_address_add ifindex address plen peer _ _ _ _ k :=
    if plen <=? 32 then (true, sample_ip4_add ifindex address plen peer k) else (false, k);
  klass_ip4_address_delete ifindex address plen peer k := sample_ip4_delete ifindex address plen peer k;
  klass_ip6_address_add ifindex address plen _ _ _ _ k :=
    if plen <=? 128 then (true, sample_ip6_add ifindex address plen k) else (false, k);
  klass_ip6_address_delete _ address plen k := sample_ip6_delete address plen k
|}.
End sample.

(** ** A stable sort *)

Fixpoint sample_insert {A} (cmp : A -> A -> Z) (x : A) (l : list A) : list A :=
  match l with
  | [] => [x]
  | y :: l' => if cmp x y <=? 0 then x :: l else y :: sample_insert cmp x l'
  end.
Definition sample_sort : GPtrArraySort := fun A cmp l => foldr (sample_insert cmp) [] l.

Section sort.
Context {A : Type} (key : A -> Z).
Let cmp x y := key x - key y.

Lemma sample_insert_elem x y l : y ∈ sample_insert cmp x l <-> y = x \/ y ∈ l.
Proof.
  induction l as [|z l IH]; cbn; [by rewrite list_elem_of_singleton, elem_of_nil; tauto|].
  destruct (_ <=? 0); rewrite !elem_of_cons; [|rewrite IH]; tauto.
Qed.

Lemma sample_insert_sorted x l :
  StronglySorted (fun x y => key x <= key y) l -> StronglySorted (fun x y => key x <= key y) (sample_insert cmp x l).
Proof.
  induction 1 as [|y l Hs IH Hy]; cbn; [repeat constructor|]. unfold cmp at 1. destruct (Z.leb_spec (key x - key y) 0).
  - constructor; [by constructor|]. constructor; [lia|]. eapply Forall_impl; [exact Hy|]. cbn. lia.
  - constructor; [done|]. apply Forall_forall. intros z [->|Hz]%sample_insert_elem; [lia|]. by eapply Forall_forall in Hy.
Qed.

Lemma sample_insert_stable x l k :
  List.filter (fun y => key y =? k) (sample_insert cmp x l) = List.filter (fun y => key y =? k) (x :: l).
Proof.
  induction l as [|y l IH]; cbn; [done|]. unfold cmp at 1. destruct (Z.leb_spec (key x - key y) 0); cbn; [done|].
  rewrite IH. cbn. destruct (Z.eqb_spec (key x) k), (Z.eqb_spec (key y) k); (done || lia).
Qed.
End sort.

Lemma sample_sort_ok : @GPtrArraySortOk sample_sort.
Proof.
  split; intros A key l; [|intros k]; unfold g_ptr_array_sort, sample_sort.
  - induction l as [|x l IH]; cbn; [constructor|by apply sample_insert_sorted].
  - induction l as [|x l IH]; cbn; [done|]. rewrite sample_insert_stable. cbn. by rewrite IH.
Qed.
