(* ===== verification/AddrOrder6.v ===== *)
(** * What synchronizing IPv6 addresses reaches

    Against the class Kernel6, which says how the kernel orders the addresses of an
    interface: after a successful nm_platform_ip6_address_sync () the addresses that
    are not temporary are the known ones, most important first; a second one
    deletes nothing. *)

From S2P Require Export Prelude AddrBase AddrSync6 AddrSample.

(** ** Lists of keys *)

Section lists.
Context {A : Type} `{!EqDecision A}.
Implicit Types l : list A.

(** The number of elements two lists have in common from their start. *)
Fixpoint common (l l' : list A) : nat :=
  match l, l' with
  | x :: l, y :: l' => if bool_decide (x = y) then S (common l l') else 0
  | _, _ => 0
  end.

Lemma common_take l l' : take (common l l') l = take (common l l') l'.
Proof. revert l'. induction l as [|x l IH]; intros [|y l']; cbn; try done. case_bool_decide; cbn; [by rewrite IH; subst|done]. Qed.

Lemma common_le l l' : (common l l' <= length l /\ common l l' <= length l')%nat.
Proof.
  revert l'. induction l as [|x l IH]; intros [|y l']; cbn; try lia.
  case_bool_decide; [|lia]. specialize (IH l'). lia.
Qed.

Lemma common_nil_r l : common l [] = 0%nat.
Proof. by destruct l. Qed.

Lemma common_refl l : common l l = length l.
Proof. induction l as [|x l IH]; cbn; [done|]. by rewrite bool_decide_true, IH. Qed.

End lists.

Section keys.
Context {A B : Type} `{!EqDecision A} `{!EqDecision B}.
Implicit Types ks r : list (A * B).

(** Keys that agree in a part that identifies them. *)
Lemma keys_by_fst ks ks1 ks2 :
  NoDup (fst <$> ks) -> ks1 ⊆ ks -> ks2 ⊆ ks -> fst <$> ks1 = fst <$> ks2 -> ks1 = ks2.
Proof.
  intros Hks H1 H2. revert ks2 H2. induction ks1 as [|k1 ks1 IH]; intros [|k2 ks2] H2; csimpl; try done. intros [= E E'].
  f_equal; [|apply IH; set_solver]. assert (Hk1 : k1 ∈ ks) by set_solver. assert (Hk2 : k2 ∈ ks) by set_solver.
  clear -Hks Hk1 Hk2 E. induction ks as [|k ks IH]; [by apply not_elem_of_nil in Hk1|]. apply NoDup_cons in Hks as [Hk Hks].
  apply elem_of_cons in Hk1 as [->|Hk1], Hk2 as [->|Hk2]; [done| | |auto]; destruct Hk.
  - rewrite E. by apply list_elem_of_fmap_2.
  - rewrite <- E. by apply list_elem_of_fmap_2.
Qed.
(** Without the end of a reversed list that does not follow the order of [ks]. *)
Lemma without_disorder r ks :
  NoDup (fst <$> ks) -> NoDup r -> r ⊆ ks ->
  let n := common (fst <$> r) (fst <$> ks) in without (rev r) (drop n r) = rev (take n ks).
Proof.
  intros Hks Hr Hsub n. rewrite <- (take_drop n r) in Hr. apply NoDup_app in Hr as (_ & Hr & _).
  rewrite <- (take_drop n r) at 1. rewrite rev_app_distr, without_app, without_all, without_disjoint; cbn.
  - f_equal. apply (keys_by_fst ks); [done| | |].
    + intros k (i & Hk & _)%elem_of_take. by apply Hsub, (list_elem_of_lookup_2 _ i).
    + intros k (i & Hk & _)%elem_of_take. by apply (list_elem_of_lookup_2 _ i).
    + rewrite !fmap_take. apply common_take.
  - intros k Hk. by apply Hr, elem_of_rev.
  - intros k Hk. by apply elem_of_rev.
Qed.
End keys.

(** ** The kernel *)

Section views.
Context {P : Type} `{AddressPlatform P} (ifindex : Z).

(** The addresses of the interface that are not temporary, with their prefix lengths,
    and those that are. *)
Definition stable_keys (self : P) : list (in6_addr * Z) :=
  key6 <$> List.filter (fun a => negb (is_temporary a)) (ip6_address_lookup ifindex self).
Definition temporaries (self : P) : list in6_addr :=
  a6_address <$> List.filter is_temporary (ip6_address_lookup ifindex self).
End views.

(** [ours] are the addresses that are meant to be on the interface: the kernel does
    not choose one of them as a temporary address.  A new address comes before those
    of its own and of lower scopes; one that exists is changed in place. *)
Class Kernel6 (P : Type) `{AddressPlatform P} (ifindex : Z) (ours : in6_addr -> Prop) := {
  k6_ok : P -> Prop;
  k6_valid self a : k6_ok self -> a ∈ ip6_address_lookup ifindex self -> ax_ifindex (a6_ax a) = ifindex /\ ax_plen (a6_ax a) <= 128;
  k6_unique self : k6_ok self -> NoDup (a6_address <$> ip6_address_lookup ifindex self);
  k6_delete self address plen : k6_ok self ->
    let self' := klass_ip6_address_delete ifindex address plen self in
    k6_ok self' /\ stable_keys ifindex self' = without (stable_keys ifindex self) [(address, plen)] /\
    temporaries ifindex self' ⊆ temporaries ifindex self /\
    key6 <$> ip6_address_lookup ifindex self' ⊆ without (key6 <$> ip6_address_lookup ifindex self) [(address, plen)];
  k6_add self self' address plen peer lifetime preferred flags : k6_ok self -> ours address ->
    klass_ip6_address_add ifindex address plen peer lifetime preferred flags self = (true, self') ->
    k6_ok self' /\
    (forall x, ours x -> x ∈ temporaries ifindex self' -> x ∈ temporaries ifindex self) /\
    ((address, plen) ∈ stable_keys ifindex self -> stable_keys ifindex self' = stable_keys ifindex self) /\
    (address ∉ a6_address <$> ip6_address_lookup ifindex self ->
     exists l1 l2, stable_keys ifindex self = l1 ++ l2 /\ stable_keys ifindex self' = l1 ++ (address, plen) :: l2 /\
       Forall (fun k => ip6_address_scope_priority address < ip6_address_scope_priority (fst k)) l1)
}.

Section sync6.
Context {P : Type} `{AddressPlatform P} `{ByteOrder} `{KernelSupport} `{MonotonicClock}.
Context (ifindex : Z) (ours : in6_addr -> Prop) `{!Kernel6 P ifindex ours}.
Hypothesis Hifindex : 0 < ifindex.

Definition delete_all (dels : list NMPlatformIP6Address) (self : P) : P :=
  foldl (fun self a => delete6 ifindex a self) self dels.

Lemma delete6_eq a self :
  ax_plen (a6_ax a) <= 128 ->
  delete6 ifindex a self = klass_ip6_address_delete ifindex (a6_address a) (ax_plen (a6_ax a)) self.
Proof.
  intros Ha. unfold delete6, nm_platform_ip6_address_delete. by replace (0 <? ifindex) with true by lia; replace (_ <=? 128) with true by lia.
Qed.

Lemma delete_all_keys dels : forall self,
  k6_ok self -> Forall (fun a => ax_plen (a6_ax a) <= 128) dels ->
  k6_ok (delete_all dels self) /\
  stable_keys ifindex (delete_all dels self) = without (stable_keys ifindex self) (key6 <$> dels) /\
  temporaries ifindex (delete_all dels self) ⊆ temporaries ifindex self /\
  key6 <$> ip6_address_lookup ifindex (delete_all dels self) ⊆ without (key6 <$> ip6_address_lookup ifindex self) (key6 <$> dels).
Proof.
  induction dels as [|a dels IH]; intros self Hok Hv.
  - cbn. rewrite !without_nil. by split_and!.
  - apply Forall_cons in Hv as [Ha Hv]. change (delete_all (a :: dels) self) with (delete_all dels (delete6 ifindex a self)).
    rewrite delete6_eq by done. destruct (k6_delete self (a6_address a) (ax_plen (a6_ax a)) Hok) as (Hok' & Hk & Ht & Hall).
    destruct (IH _ Hok' Hv) as (Hok'' & Hk' & Ht' & Hall'). split_and!; [done| |by etransitivity|].
    + rewrite Hk', Hk. apply without_cons.
    + etransitivity; [exact Hall'|]. csimpl. rewrite <- without_cons. by apply without_mono.
Qed.

(** ** The loops that delete *)

(** What the first loop keeps, deletes, and the second then deletes. *)
Definition kept (idx : list NMPlatformIP6Address) (a : NMPlatformIP6Address) : bool :=
  negb (is_temporary a) && known_same idx a.
Definition unknown (full_sync : bool) (idx : list NMPlatformIP6Address) (a : NMPlatformIP6Address) : bool :=
  if is_temporary a then full_sync else negb (known_same idx a).
Definition disordered (l idx : list NMPlatformIP6Address) : list NMPlatformIP6Address :=
  drop (common (a6_address <$> l) (a6_address <$> idx)) l.

Lemma delete_unknown_spec full_sync idx l : forall self,
  delete_unknown ifindex full_sync idx l self
  = (map (fun a => if kept idx a then Some a else None) l, delete_all (List.filter (unknown full_sync idx) l) self).
Proof.
  unfold kept, unknown. induction l as [|a l IH]; intros self; cbn; [done|].
  destruct (is_temporary a), full_sync, (known_same idx a); cbn; by rewrite IH.
Qed.

Lemma next_known_spec known a :
  next_known known a =
  match omap id known with
  | [] => (false, [])
  | k :: _ => if bool_decide (a6_address a = a6_address k) then (true, snd (next_known known a)) else (false, [])
  end /\
  (fst (next_known known a) = true -> omap id (snd (next_known known a)) = tail (omap id known)).
Proof.
  induction known as [|[k|] known IH]; cbn; [done| |done]. unfold IN6_ARE_ADDR_EQUAL. by destruct (bool_decide _).
Qed.

Lemma delete_disordered_spec l : forall known self,
  delete_disordered ifindex l known self = delete_all (disordered (omap id l) (omap id known)) self.
Proof.
  unfold disordered. induction l as [|[a|] l IH]; intros known self; cbn; [done| |apply IH].
  destruct (next_known_spec known a) as [Hn Ht]. destruct (next_known known a) as [found rest]; cbn in *.
  destruct (omap id known) as [|k ks]; cbn.
  - injection Hn as -> ->. rewrite IH. cbn. by rewrite common_nil_r.
  - case_bool_decide; cbn.
    + injection Hn as ->. by rewrite IH, Ht.
    + injection Hn as -> ->. rewrite IH. cbn. by rewrite common_nil_r.
Qed.

Implicit Types known : list NMPlatformIP6Address.

Definition known_ok known : Prop :=
  NoDup (a6_address <$> known) /\ Forall (fun a => ax_ifindex (a6_ax a) = ifindex) known.

Lemma known_same_key known a :
  known_ok known -> ax_ifindex (a6_ax a) = ifindex -> known_same known a = true <-> key6 a ∈ key6 <$> known.
Proof.
  intros [Hn Hi] Ha. unfold known_same, key6. rewrite Forall_forall in Hi. split.
  - destruct (find _ _) as [k|] eqn:E; [|done]. apply find_some in E as [Hk%list_elem_of_In [_ Ek]%ip6_address_id_equal_spec].
    intros ->%Z.eqb_eq. rewrite Ek. by apply (list_elem_of_fmap_2 key6).
  - intros (k & Ek & Hk)%list_elem_of_fmap. injection Ek as Ek Ep. destruct (find _ _) as [k'|] eqn:E.
    + apply find_some in E as [Hk'%list_elem_of_In [_ Ek']%ip6_address_id_equal_spec].
      assert (k' = k) as -> by (apply (fmap_inj_on a6_address known); [done..|congruence]). by apply Z.eqb_eq.
    + eapply find_none in E; [|by apply list_elem_of_In]. rewrite <- not_true_iff_false in E. destruct E.
      apply ip6_address_id_equal_spec. split; [by rewrite Ha, Hi|done].
Qed.

Lemma key6_NoDup l : NoDup (a6_address <$> l) -> NoDup (key6 <$> l).
Proof. intros Hl. apply (NoDup_fmap_1 fst). by rewrite <- list_fmap_compose. Qed.

Lemma kept_keys self known :
  k6_ok self -> known_ok known ->
  let kept := List.filter (kept known) (ip6_address_lookup ifindex self) in
  NoDup (a6_address <$> kept) /\ key6 <$> kept ⊆ key6 <$> known.
Proof.
  intros Hok Hkn l. split; [by apply NoDup_fmap_filter_b, k6_unique|].
  intros k (a & -> & [Hk Ha]%elem_of_filter_b)%list_elem_of_fmap. unfold kept in Hk. apply andb_true_iff in Hk as [_ Hk].
  apply known_same_key; [done| |done]. by apply (k6_valid self).
Qed.

(** After the deletions: the start of the known addresses that was there in order. *)
Lemma after_deletes full_sync self known :
  k6_ok self -> known_ok known ->
  let plat := ip6_address_lookup ifindex self in
  let l := List.filter (kept known) plat in
  let n := common (a6_address <$> rev l) (a6_address <$> known) in
  let self' := delete_all (disordered (rev l) known) (delete_all (List.filter (unknown full_sync known) plat) self) in
  k6_ok self' /\ stable_keys ifindex self' = rev (take n (key6 <$> known)) /\
  temporaries ifindex self' ⊆ temporaries ifindex self.
Proof.
  intros Hok Hkn plat l n self'. destruct (kept_keys self known Hok Hkn) as [Hnd Hsub]. fold plat l in Hnd, Hsub.
  assert (Hv : forall q, Forall (fun a => ax_plen (a6_ax a) <= 128) (List.filter q plat)).
  { intros q. apply Forall_forall. intros a [_ Ha]%elem_of_filter_b. by apply (k6_valid self). }
  destruct (delete_all_keys (List.filter (unknown full_sync known) plat) self) as (Hok1 & Hk1 & Ht1 & _); [done..|].
  destruct (delete_all_keys (disordered (rev l) known) (delete_all (List.filter (unknown full_sync known) plat) self))
    as (Hok2 & Hk2 & Ht2 & _); [done| |].
  { apply Forall_drop. apply Forall_rev. apply Hv. }
  split_and!; [done| |by etransitivity]. unfold self'. rewrite Hk2, Hk1. clear Hk1 Hk2 Hok1 Hok2 Ht1 Ht2.
  unfold stable_keys. fold plat. rewrite without_filter by (apply key6_NoDup; by apply k6_unique).
  rewrite (List.filter_ext _ (kept known)) by (intros a; unfold unknown, kept; by destruct (is_temporary a), (known_same known a)).
  fold l. apply key6_NoDup in Hnd as Hndk. unfold disordered. fold n. rewrite <- (rev_involutive l) at 1.
  assert (Hn : n = common (fst <$> (key6 <$> rev l)) (fst <$> (key6 <$> known))) by (by rewrite <- !list_fmap_compose).
  rewrite fmap_drop. change (key6 <$> rev (rev l)) with (map key6 (rev (rev l))). rewrite map_rev, Hn. apply without_disorder.
  - rewrite <- list_fmap_compose. apply Hkn.
  - change (NoDup (map key6 (rev l))). rewrite map_rev. apply NoDup_ListNoDup, List.NoDup_rev, NoDup_ListNoDup. exact Hndk.
  - intros k (a & -> & Ha)%list_elem_of_fmap. apply Hsub, (list_elem_of_fmap_2 key6). by apply elem_of_rev.
Qed.

(** ** The loop that adds *)

Lemma add6_klass now k self self' :
  add6 ifindex now k self = (true, self') ->
  exists lifetime preferred flags,
    klass_ip6_address_add ifindex (a6_address k) (ax_plen (a6_ax k)) (a6_peer_address k) lifetime preferred flags self = (true, self').
Proof.
  unfold add6, nm_platform_ip6_address_add. destruct (nm_utils_lifetime_get _ _ _ _) as [lifetime preferred].
  repeat (destruct (negb _); [done|]). eauto.
Qed.

Lemma add_missing_omap now l : forall self, add_missing ifindex now l self = add_missing ifindex now (map Some (omap id l)) self.
Proof. induction l as [|[k|] l IH]; intros self; cbn; [done| |apply IH]. destruct (add6 _ _ _ _) as [[] ?]; cbn; auto. Qed.

Definition scope_le (a b : NMPlatformIP6Address) : Prop :=
  ip6_address_scope_priority (a6_address a) <= ip6_address_scope_priority (a6_address b).

(** One addition moves the known addresses on by one. *)
Lemma add6_step now known k rest n self self' :
  known_ok (known ++ k :: rest) -> StronglySorted scope_le (known ++ k :: rest) -> ours (a6_address k) ->
  k6_ok self -> (forall x, ours x -> x ∉ temporaries ifindex self) ->
  stable_keys ifindex self = rev (take (Nat.max n (length known)) (key6 <$> known ++ k :: rest)) ->
  add6 ifindex now k self = (true, self') ->
  k6_ok self' /\ (forall x, ours x -> x ∉ temporaries ifindex self') /\
  stable_keys ifindex self' = rev (take (Nat.max n (S (length known))) (key6 <$> known ++ k :: rest)).
Proof.
  intros [Hn _] Hs Hours Hok Ht Hk (lifetime & preferred & flags & E)%add6_klass.
  destruct (k6_add _ _ _ _ _ _ _ _ Hok Hours E) as (Hok' & Ht' & Hin & Hout).
  split_and!; [done|intros x Hx Hx'; by apply (Ht x), Ht'|].
  destruct (Nat.lt_ge_cases (length known) n) as [Hlt|Hge].
  - rewrite Nat.max_l in * by lia. rewrite <- Hk. apply Hin. rewrite Hk, elem_of_rev. apply elem_of_take.
    exists (length known). split; [|done]. rewrite fmap_app, lookup_app_r by (by rewrite length_fmap).
    by rewrite length_fmap, Nat.sub_diag.
  - rewrite Nat.max_r in * by lia. rewrite fmap_app, take_app_length' in Hk by (by rewrite length_fmap).
    destruct Hout as (l1 & l2 & El & -> & Hl1).
    + rewrite fmap_app in Hn. apply NoDup_app in Hn as (_ & Hn & _). intros (a & Ea & Ha)%list_elem_of_fmap.
      destruct (is_temporary a) eqn:Et.
      * apply (Ht _ Hours). rewrite Ea. apply (list_elem_of_fmap_2 a6_address), elem_of_filter_b. done.
      * assert (Hka : key6 a ∈ stable_keys ifindex self)
          by (apply (list_elem_of_fmap_2 key6), elem_of_filter_b; by rewrite Et).
        rewrite Hk, elem_of_rev in Hka. apply list_elem_of_fmap in Hka as (b & Eb & Hb). injection Eb as Eb _.
        apply (Hn (a6_address b)); [by apply list_elem_of_fmap_2|]. rewrite <- Eb, <- Ea. apply list_elem_of_here.
    + assert (l1 = []) as ->.
      { destruct l1 as [|x l1]; [done|]. apply Forall_cons in Hl1 as [Hx _]. assert (Hin' : x ∈ rev (key6 <$> known)).
        { rewrite <- Hk, El. apply list_elem_of_here. }
        apply elem_of_rev, list_elem_of_fmap in Hin' as (b & -> & Hb). apply StronglySorted_app in Hs as (Hs & _ & _).
        specialize (Hs b k Hb (list_elem_of_here _ _)). unfold scope_le in Hs. cbn in Hx. lia. }
      cbn in *. rewrite <- El, Hk. rewrite fmap_app, take_app_ge by (rewrite length_fmap; lia).
      rewrite length_fmap. replace (S (length known) - length known)%nat with 1%nat by lia. cbn. by rewrite rev_app_distr.
Qed.

Lemma add_missing_keys now rest : forall known n self self',
  known_ok (known ++ rest) -> StronglySorted scope_le (known ++ rest) -> Forall (fun k => ours (a6_address k)) rest ->
  k6_ok self -> (forall x, ours x -> x ∉ temporaries ifindex self) -> (n <= length (known ++ rest))%nat ->
  stable_keys ifindex self = rev (take (Nat.max n (length known)) (key6 <$> known ++ rest)) ->
  add_missing ifindex now (map Some rest) self = (true, self') ->
  k6_ok self' /\ stable_keys ifindex self' = rev (key6 <$> known ++ rest).
Proof.
  induction rest as [|k rest IH]; intros known n self self' Hkn Hs Ho Hok Ht Hlen Hk; cbn.
  - intros [= <-]. split; [done|]. rewrite Hk, take_ge; [done|]. rewrite length_fmap, length_app in *. cbn in *. lia.
  - apply Forall_cons in Ho as [Hok1 Ho]. destruct (add6 _ _ _ _) as [[] self1] eqn:E; cbn; [|done]. intros Ha.
    destruct (add6_step now known k rest n self self1) as (Hok' & Ht' & Hk'); [done..|].
    rewrite cons_middle, app_assoc in *. apply (IH (known ++ [k]) n self1 self'); try done.
    rewrite Hk'. repeat f_equal. rewrite length_app. cbn. lia.
Qed.
End sync6.

(** ** The whole function *)

Section sync6_spec.
Context {P : Type} `{AddressPlatform P} `{ByteOrder} `{KernelSupport} `{MonotonicClock} `{GPtrArraySortOk}.
Context (ifindex : Z) (ours : in6_addr -> Prop) `{!Kernel6 P ifindex ours}.

(** The known addresses that count, least important first. *)
Definition alive6 (known_addresses : option (list NMPlatformIP6Address)) : list NMPlatformIP6Address :=
  by_scope (List.filter (wanted true a6_ax nm_utils_get_monotonic_timestamp_s) (default [] known_addresses)).

(** The array the caller gets back: sorted, without the addresses that do not count. *)
Definition sorted_out (known_addresses : option (list NMPlatformIP6Address)) : option (list (option NMPlatformIP6Address)) :=
  (fun l => map (fun a => if wanted true a6_ax nm_utils_get_monotonic_timestamp_s a then Some a else None) (by_scope l))
  <$> known_addresses.

Lemma alive6_Some l :
  alive6 (Some l) = List.filter (wanted true a6_ax nm_utils_get_monotonic_timestamp_s) (by_scope l).
Proof. unfold alive6. change (default [] (Some l)) with l. by rewrite <- sort_filter_scope, sort_by_scope. Qed.

Lemma sync6_shape known_addresses full_sync self :
  let known := alive6 known_addresses in
  let plat := ip6_address_lookup ifindex self in
  nm_platform_ip6_address_sync ifindex known_addresses full_sync self
  = (let self := delete_all ifindex (disordered (rev (List.filter (kept known) plat)) known)
                   (delete_all ifindex (List.filter (unknown full_sync known) plat) self) in
     let '(ok, self) := add_missing ifindex nm_utils_get_monotonic_timestamp_s (map Some known) self in
     (ok, sorted_out known_addresses, self)).
Proof.
  intros known plat. unfold nm_platform_ip6_address_sync, sorted_out. fold plat.
  set (cleaned := _ <$> (_ <$> known_addresses)).
  assert (Hc : cleaned = (fun l => (map (fun a => if wanted true a6_ax nm_utils_get_monotonic_timestamp_s a then Some a else None) (by_scope l),
            existsb (wanted true a6_ax nm_utils_get_monotonic_timestamp_s) (by_scope l))) <$> known_addresses).
  { unfold cleaned. destruct known_addresses as [l|]; cbn; [|done]. by rewrite clean_expired_spec, sort_by_scope. }
  set (arr := match cleaned with Some (l, true) => Some l | _ => None end).
  assert (Harr : omap id (default [] arr) = known /\ (arr = None -> known = [])).
  { unfold arr, known. rewrite Hc. destruct known_addresses as [l|]; [|by split]. rewrite alive6_Some. cbn -[by_scope omap].
    destruct (existsb _ _) eqn:E; cbn -[by_scope omap]; [by rewrite omap_tombstones|]. rewrite existsb_filter in E. by apply negb_false_iff, bool_decide_eq_true in E as ->. }
  destruct Harr as [Hk Hnone]. rewrite Hk, delete_unknown_spec. cbn zeta iota.
  rewrite delete_disordered_spec, <- map_rev, omap_tombstones, Hk.
  rewrite filter_rev_b, Hc. replace (fst <$> _) with (sorted_out known_addresses) by (by destruct known_addresses).
  destruct arr as [l|].
  - rewrite add_missing_omap. cbn in Hk. by rewrite Hk.
  - by rewrite Hnone.
Qed.

Lemma by_scope_known l :
  known_ok ifindex l -> known_ok ifindex (by_scope l) /\ StronglySorted scope_le (by_scope l) /\ l ≡ₚ by_scope l.
Proof.
  intros [Hn Hi]. assert (Hp : l ≡ₚ by_scope l).
  { unfold by_scope. clear. induction l as [|a l IH]; cbn; [done|].
    destruct (scope_priority_range (a6_address a)) as [E|[E|E]]; rewrite E; cbn.
    - by constructor.
    - rewrite <- Permutation_middle. by constructor.
    - rewrite app_assoc, <- Permutation_middle, <- app_assoc. by constructor. }
  split_and!; [|rewrite <- sort_by_scope; apply (g_ptr_array_sorted _ (fun a => ip6_address_scope_priority (a6_address a)))|done].
  split; by rewrite <- Hp.
Qed.

Lemma alive6_known known_addresses :
  known_ok ifindex (default [] known_addresses) ->
  known_ok ifindex (alive6 known_addresses) /\ StronglySorted scope_le (alive6 known_addresses) /\
  alive6 known_addresses ⊆ default [] known_addresses.
Proof.
  intros [Hn Hi]. unfold alive6. set (l := List.filter _ _).
  destruct (by_scope_known l) as (Hk & Hs & Hp).
  - split; [by apply NoDup_fmap_filter_b|]. apply Forall_forall. intros a [_ Ha]%elem_of_filter_b. rewrite Forall_forall in Hi. auto.
  - split_and!; [done..|]. intros a Ha. rewrite <- Hp in Ha. by apply elem_of_filter_b in Ha as [_ Ha].
Qed.

(** C17: If nm_platform_ip6_address_sync() succeeds on a kernel that puts a new address
    before the others of its own and of lower scopes and changes one that exists in
    place (Kernel6), and no known address is on the interface as a temporary one, the
    addresses of the interface that are not temporary are those known addresses that
    are not expired, in the kernel's order: the reverse of the order given, within each
    scope.  That is so with full_sync and without it: unknown link-local addresses go in
    both cases ([unknown_linklocal_deleted]).  The caller's array holds the known
    addresses by scope, without those that do not count. *)
Theorem ip6_address_sync_order known_addresses full_sync self out self' :
  0 < ifindex -> k6_ok self -> known_ok ifindex (default [] known_addresses) ->
  Forall (fun a => ours (a6_address a)) (default [] known_addresses) ->
  (forall x, ours x -> x ∉ temporaries ifindex self) ->
  nm_platform_ip6_address_sync ifindex known_addresses full_sync self = (true, out, self') ->
  k6_ok self' /\ stable_keys ifindex self' = rev (key6 <$> alive6 known_addresses) /\ out = sorted_out known_addresses.
Proof.
  intros Hif Hok Hkn Ho Ht. rewrite sync6_shape. cbn zeta. destruct (alive6_known known_addresses Hkn) as (Hkn' & Hs & Hsub).
  destruct (after_deletes ifindex ours Hif full_sync self (alive6 known_addresses) Hok Hkn') as (Hok1 & Hk1 & Ht1).
  destruct (add_missing _ _ _ _) as [ok self2] eqn:E. intros [= -> <- <-]. match goal with |- ?A /\ ?B /\ _ => cut (A /\ B); [intros []; by split_and!|] end.
  set (n := common _ _) in Hk1. eapply (add_missing_keys ifindex ours _ _ [] n); [done|done| |done| | | |exact E].
  - apply Forall_forall. intros a Ha. rewrite Forall_forall in Ho. by apply Ho, Hsub.
  - intros x Hx Hx'. by apply (Ht x), Ht1.
  - etransitivity; [apply (common_le (a6_address <$> _))|]. by rewrite length_fmap.
  - by rewrite Hk1, Nat.max_0_r.
Qed.

(** C21: Where the addresses of the interface that are not temporary already are the known ones in the
    kernel's order, nm_platform_ip6_address_sync() deletes nothing but, with full_sync,
    the temporary addresses: all it does otherwise is to add (that is, to update) the
    known addresses in turn. *)
Theorem ip6_address_sync_settles known_addresses full_sync self :
  k6_ok self -> known_ok ifindex (default [] known_addresses) ->
  stable_keys ifindex self = rev (key6 <$> alive6 known_addresses) ->
  nm_platform_ip6_address_sync ifindex known_addresses full_sync self
  = (let self := delete_all ifindex (if full_sync then List.filter is_temporary (ip6_address_lookup ifindex self) else []) self in
     let '(ok, self) := add_missing ifindex nm_utils_get_monotonic_timestamp_s (map Some (alive6 known_addresses)) self in
     (ok, sorted_out known_addresses, self)).
Proof.
  intros Hok Hkn Hk. rewrite sync6_shape. cbn zeta. destruct (alive6_known known_addresses Hkn) as (Hkn' & _ & _).
  set (known := alive6 known_addresses) in *. set (plat := ip6_address_lookup ifindex self).
  assert (Hsame : forall a, a ∈ plat -> is_temporary a = false -> known_same known a = true).
  { intros a Ha Et. apply (known_same_key ifindex); [done|by apply (k6_valid self)|].
    apply elem_of_rev. rewrite <- Hk. apply (list_elem_of_fmap_2 key6), elem_of_filter_b. by rewrite Et. }
  assert (Hu : List.filter (unknown full_sync known) plat = if full_sync then List.filter is_temporary plat else []).
  { assert (Ha : forall a, a ∈ plat -> unknown full_sync known a = full_sync && is_temporary a).
    { intros a Ha. unfold unknown. destruct (is_temporary a) eqn:E; [by rewrite andb_true_r|]. by rewrite Hsame, andb_false_r. }
    destruct full_sync; [apply List.filter_ext_in; by intros a ?%list_elem_of_In%Ha|]. apply filter_none, Forall_forall. intros a Hin. by rewrite Ha. }
  assert (Hkept : List.filter (kept known) plat = List.filter (fun a => negb (is_temporary a)) plat).
  { apply List.filter_ext_in. intros a Ha%list_elem_of_In. unfold kept. destruct (is_temporary a) eqn:E; cbn; [done|by apply Hsame]. }
  assert (Hd : disordered (rev (List.filter (kept known) plat)) known = []).
  { unfold disordered. rewrite Hkept. replace (a6_address <$> rev _) with (a6_address <$> known).
    - rewrite common_refl. apply drop_ge. apply (f_equal length) in Hk. unfold stable_keys in Hk.
      rewrite length_rev, !length_fmap in *. rewrite <- Hk. unfold plat. lia.
    - unfold stable_keys in Hk. apply (f_equal (@rev _)) in Hk. rewrite rev_involutive, <- (map_rev key6) in Hk.
      change (map key6 ?l) with (key6 <$> l) in Hk. apply (f_equal (fmap fst)) in Hk. by rewrite <- !list_fmap_compose in Hk. }
  by rewrite Hu, Hd.
Qed.
End sync6_spec.

(** ** The sample kernel keeps the order *)

Section sample6.
Context `{ByteOrder} (ifindex : Z) (ours : in6_addr -> Prop).

Definition sample_ok6 (k : SampleKernel) : Prop :=
  Forall (fun a => ax_ifindex (a6_ax a) = ifindex /\ ax_plen (a6_ax a) <= 128) (sk_ip6 k) /\ NoDup (a6_address <$> sk_ip6 k).

Lemma sample_ok6_filter p l d :
  sample_ok6 l -> sample_ok6 (mk_kernel (sk_ip4 l) (List.filter p (sk_ip6 l)) d).
Proof.
  intros [Hv Hn]. split; cbn; [|by apply NoDup_fmap_filter_b]. apply Forall_forall. intros a [_ Ha]%elem_of_filter_b.
  by eapply Forall_forall in Hv.
Qed.

Lemma sample_delete_keys l k q :
  key6 <$> List.filter q (List.filter (fun b => negb (bool_decide (key6 b = k))) l) = without (key6 <$> List.filter q l) [k].
Proof.
  unfold without. induction l as [|a l IH]; cbn; [done|]. destruct (q a) eqn:E; cbn.
  - rewrite (bool_decide_ext (key6 a ∉ [k]) (key6 a <> k)) by (by rewrite not_elem_of_cons; pose proof (not_elem_of_nil (key6 a)); tauto).
    rewrite bool_decide_not. destruct (bool_decide (key6 a = k)); cbn; [done|]. rewrite E. cbn. by rewrite IH.
  - destruct (bool_decide (key6 a = k)); cbn; rewrite ?E; done.
Qed.

Lemma sample_add_order address plen k :
  sample_ok6 k -> plen <= 128 -> address ∉ a6_address <$> sk_ip6 k ->
  sample_ok6 (sample_ip6_add ifindex address plen k) /\
  exists l1 l2, sk_ip6 k = l1 ++ l2 /\ sk_ip6 (sample_ip6_add ifindex address plen k) = l1 ++ sample_ip6 ifindex address plen 0 :: l2 /\
    Forall (fun b => ip6_address_scope_priority address < ip6_address_scope_priority (a6_address b)) l1.
Proof.
  intros [Hv Hn] Hp Hnew. unfold sample_ip6_add. destruct (existsb _ _) eqn:E.
  { apply existsb_exists in E as (b & Hb%list_elem_of_In & <-%bool_decide_eq_true). destruct Hnew. by apply list_elem_of_fmap_2. }
  set (before := fun b => _ <? _). pose proof (take_drop_while before (sk_ip6 k)) as Hl. cbn. split.
  - rewrite <- Hl in Hv, Hn, Hnew. unfold sample_ok6. cbn. rewrite Forall_app, Forall_cons in *. rewrite fmap_app in *. csimpl.
    split; [cbn; tauto|]. rewrite <- Permutation_middle. by constructor.
  - eexists _, _. split_and!; [by rewrite Hl|done|]. eapply Forall_impl; [apply Forall_take_while|]. intros b. apply Z.ltb_lt.
Qed.

#[export, refine] Instance sample_kernel6 : Kernel6 SampleKernel ifindex ours := {| k6_ok := sample_ok6 |}.
Proof.
  - intros k a [Hv _] Ha. by eapply Forall_forall in Hv.
  - by intros k [_ Hn].
  - intros k address plen Hok. split_and!; [by apply sample_ok6_filter|apply sample_delete_keys| |].
    2:{ cbn. intros x Hx. rewrite <- (filter_all (fun _ => true) (List.filter _ _)), sample_delete_keys, filter_all in Hx; [done|..];
        by apply forallb_Forall_true, Forall_forall. }
    intros x (a & -> & [Ht [_ Ha]%elem_of_filter_b]%elem_of_filter_b)%list_elem_of_fmap. by apply list_elem_of_fmap_2, elem_of_filter_b.
  - intros k k' address plen peer lt pref flags Hok _ E. cbn in E. destruct (Z.leb_spec plen 128) as [Hp|]; [|done]. injection E as <-.
    destruct (decide (address ∈ a6_address <$> sk_ip6 k)) as [Hin|Hnew].
    + replace (sample_ip6_add ifindex address plen k) with k; [done|]. unfold sample_ip6_add.
      apply list_elem_of_fmap in Hin as (b & -> & Hb%list_elem_of_In). replace (existsb _ _) with true; [done|]. symmetry.
      apply existsb_exists. exists b. by rewrite bool_decide_true.
    + destruct (sample_add_order address plen k Hok Hp Hnew) as (Hok' & l1 & l2 & El & El' & Hl1). split_and!; [done| | |].
      * intros x _. unfold temporaries. cbn. rewrite El, El', !List.filter_app. done.
      * intros (b & Eb & [_ Hb]%elem_of_filter_b)%list_elem_of_fmap. destruct Hnew. injection Eb as -> _. by apply list_elem_of_fmap_2.
      * intros _. unfold stable_keys. cbn. rewrite El, El', !List.filter_app, !fmap_app. cbn. eexists _, _. split_and!; [done|done|].
        apply Forall_forall. intros c (b & -> & [_ Hb]%elem_of_filter_b)%list_elem_of_fmap. rewrite Forall_forall in Hl1. exact (Hl1 b Hb).
Defined.
End sample6.

(** ** An interface with addresses of every kind *)

Definition byte_address (first second last : byte) : in6_addr := [first; second] ++ replicate 13 x00 ++ [last].
Definition global_address (last : byte) : in6_addr := byte_address x20 x01 last.
Definition linklocal_address (last : byte) : in6_addr := byte_address xfe x80 last.

Definition sample_known : list NMPlatformIP6Address :=
  [sample_ip6 1 (global_address x01) 64 0; sample_ip6 1 (linklocal_address x02) 64 0; sample_ip6 1 (global_address x03) 64 0].

(** A known address with another prefix length, a temporary, an unknown and a known one. *)
Definition sample_before : SampleKernel :=
  mk_kernel [] [sample_ip6 1 (global_address x01) 48 0; sample_ip6 1 (global_address x09) 64 IFA_F_TEMPORARY;
                sample_ip6 1 (global_address x07) 64 0; sample_ip6 1 (linklocal_address x02) 64 0] [].
Definition sample_after : SampleKernel :=
  mk_kernel [] [sample_ip6 1 (global_address x03) 64 0; sample_ip6 1 (global_address x01) 64 0;
                sample_ip6 1 (global_address x09) 64 IFA_F_TEMPORARY; sample_ip6 1 (linklocal_address x02) 64 0] [].
Definition sample_ours (a : in6_addr) : Prop := a <> global_address x09.

Lemma sample_before_ok : sample_ok6 1 sample_before.
Proof. split; [by repeat constructor|]. apply (bool_decide_unpack (NoDup _)). by vm_compute. Qed.

Lemma sample_after_ok : sample_ok6 1 sample_after.
Proof. split; [by repeat constructor|]. apply (bool_decide_unpack (NoDup _)). by vm_compute. Qed.

Lemma sample_known_ok : known_ok 1 sample_known.
Proof. split; [|by repeat constructor]. apply (bool_decide_unpack (NoDup _)). by vm_compute. Qed.

Lemma sample_known_ours : Forall (fun a => sample_ours (a6_address a)) sample_known.
Proof. repeat constructor; discriminate. Qed.

Lemma sample_temporaries_not_ours x : sample_ours x -> x ∉ @temporaries _ (@sample_platform true) 1 sample_before.
Proof. intros Hx (a & -> & [Ht Ha]%elem_of_filter_b)%list_elem_of_fmap. cbn in Ha. rewrite !elem_of_cons in Ha.
  destruct Ha as [->|[->|[->|[->|Ha%elem_of_nil]]]]; done. Qed.

Definition sample_sync (self : SampleKernel) : bool * option (list (option NMPlatformIP6Address)) * SampleKernel :=
  @nm_platform_ip6_address_sync SampleKernel (@sample_platform true) true (fun _ => true) (100 : MonotonicClock) sample_sort 1
    (Some sample_known) false self.

Example sample_sync_before : exists out, sample_sync sample_before = (true, out, sample_after).
Proof. eexists. vm_compute. reflexivity. Qed.

Lemma ip6_address_sync_order_witness :
  exists out self', sample_sync sample_before = (true, out, self') /\
    @stable_keys _ (@sample_platform true) 1 self' = [(global_address x03, 64); (global_address x01, 64); (linklocal_address x02, 64)].
Proof.
  destruct sample_sync_before as [out E]. exists out, sample_after. split; [exact E|].
  destruct (@ip6_address_sync_order SampleKernel (@sample_platform true) true (fun _ => true) 100 sample_sort sample_sort_ok 1 sample_ours
      (@sample_kernel6 true 1 sample_ours) (Some sample_known) false sample_before out sample_after) as (_ & Hk & _);
    [reflexivity|exact sample_before_ok|exact sample_known_ok|exact sample_known_ours|exact sample_temporaries_not_ours|exact E|].
  rewrite Hk. vm_compute. reflexivity.
Defined.

Lemma ip6_address_sync_settles_witness : exists out, sample_sync sample_after = (true, out, sample_after).
Proof.
  eexists. unfold sample_sync.
  rewrite (@ip6_address_sync_settles SampleKernel (@sample_platform true) true (fun _ => true) 100 sample_sort sample_sort_ok 1 sample_ours
      (@sample_kernel6 true 1 sample_ours) (Some sample_known) false sample_after); [|exact sample_after_ok|exact sample_known_ok|vm_compute; reflexivity].
  vm_compute. reflexivity.
Defined.

(** An unknown link-local address is deleted without full_sync, too. *)
Example unknown_linklocal_deleted :
  let '(ok, _, self') := sample_sync (mk_kernel [] [sample_ip6 1 (linklocal_address x05) 64 0] []) in
  (ok, existsb (fun a => bool_decide (a6_address a = linklocal_address x05)) (sk_ip6 self')) = (true, false).
Proof. vm_compute. reflexivity. Qed.
