(* ===== verification/AddrSync4.v ===== *)
(** * Synchronizing IPv4 addresses

    nm_platform_ip4_address_sync () and nm_platform_ip_address_flush () of
    src/platform/nm-platform.c.  The kernel makes the first address of a network
    primary and the others secondaries; deleting a primary deletes or promotes
    them.  The function deletes what is unknown or has another role than in the
    list of known addresses, with the secondaries of a deleted primary, and adds
    the known addresses in turn.

    A slot of an array (&array->pdata[i]) is its index.  The objects of an array
    are distinct, so two pointers to them are equal where their slots are.  A
    result None is an access to a subnet that the table does not have. *)

From S2P Require Export Prelude AddrBase AddrSync6.

(** A value of the table of subnets: a slot, or an array of slots. *)
Inductive Subnet := subnet_plain (p : nat) | subnet_list (addr_list : list nat).

Abbreviation Array := (list (option NMPlatformIP4Address)).

Section sync.
Context {P : Type} `{AddressPlatform P} `{ByteOrder} `{KernelSupport} `{MonotonicClock}.

Definition subnet_of (a : NMPlatformIP4Address) : Z :=
  Z.land (a4_address a) (_nm_utils_ip4_prefix_to_netmask (ax_plen (a4_ax a))).
Definition has_secondary_flag (a : NMPlatformIP4Address) : bool := NM_FLAGS_HAS (ax_n_ifa_flags (a4_ax a)) IFA_F_SECONDARY.

Definition slot (addresses : Array) (i : nat) : option NMPlatformIP4Address := mjoin (addresses !! i).

(** ** The table of subnets *)

Definition build_index_step (consider_flags full_index : bool) (addresses : Array) (subnets : gmap Z Subnet) (i : nat) : gmap Z Subnet :=
  match slot addresses i with
  | None => subnets
  | Some address =>
      let net := subnet_of address in
      match subnets !! net with
      | None => <[net := subnet_plain i]> subnets
      | Some p =>
          if full_index then
            let addr_list := match p with subnet_plain p => [p] | subnet_list l => l end in
            <[net := subnet_list (if negb consider_flags || has_secondary_flag address then addr_list ++ [i] else i :: addr_list)]> subnets
          else if consider_flags && negb (has_secondary_flag address) then <[net := subnet_plain i]> subnets
          else subnets
      end
  end.

Definition ip4_addr_subnets_build_index (addresses : Array) (consider_flags full_index : bool) : gmap Z Subnet :=
  foldl (build_index_step consider_flags full_index addresses) ∅ (seq 0 (length addresses)).

(** Whether the address in slot [i] is secondary, and out_addr_list. *)
Definition ip4_addr_subnets_is_secondary (i : nat) (a : NMPlatformIP4Address) (subnets : gmap Z Subnet) : option (bool * option (list nat)) :=
  match subnets !! subnet_of a with
  | None | Some (subnet_list []) => None
  | Some (subnet_list (o :: addr_list)) => Some (negb (o =? i)%nat, Some (o :: addr_list))
  | Some (subnet_plain p) => Some (negb (p =? i)%nat, None)
  end.

(** ** Operations *)

Definition delete4 (ifindex : Z) (a : NMPlatformIP4Address) (self : P) : P :=
  nm_platform_ip4_address_delete ifindex (a4_address a) (ax_plen (a4_ax a)) (a4_peer_address a) self.

(** The lookup in known_addresses_idx. *)
Definition known_slot (known_addresses : Array) (plat_obj : NMPlatformIP4Address) : option nat :=
  List.find (fun i => match slot known_addresses i with Some o => ip4_address_id_equal plat_obj o | None => false end)
    (seq 0 (length known_addresses)).

(** An existing known address, with matching secondary role. *)
Definition keeps_role (known_addresses : Array) (known_subnets : gmap Z Subnet) (plat_address : NMPlatformIP4Address) : option bool :=
  match known_slot known_addresses plat_address with
  | None => Some false
  | Some i =>
      o ← slot known_addresses i;
      '(secondary, _) ← ip4_addr_subnets_is_secondary i o known_subnets;
      Some (Bool.eqb secondary (has_secondary_flag plat_address))
  end.

Definition delete_secondary (ifindex : Z) (st : Array * P) (j : nat) : Array * P :=
  let '(plat_addresses, self) := st in
  match slot plat_addresses j with
  | Some a => (<[j := None]> plat_addresses, delete4 ifindex a self)
  | None => (plat_addresses, self)
  end.

(** One turn of the loop over plat_addresses. *)
Definition delete_step (ifindex : Z) (known_addresses : Array) (known_subnets plat_subnets : gmap Z Subnet) (i : nat) (st : Array * P)
    : option (Array * P) :=
  let '(plat_addresses, self) := st in
  match slot plat_addresses i with
  | None => Some (plat_addresses, self)
  | Some plat_address =>
      keep ← keeps_role known_addresses known_subnets plat_address;
      if keep : bool then Some (plat_addresses, self)
      else
        let self := delete4 ifindex plat_address self in
        '(secondary, addr_list) ← ip4_addr_subnets_is_secondary i plat_address plat_subnets;
        match secondary, addr_list with
        | false, Some addr_list => Some (foldl (delete_secondary ifindex) (plat_addresses, self) (tail addr_list))
        | _, _ => Some (plat_addresses, self)
        end
  end.

Fixpoint delete_loop (ifindex : Z) (known_addresses : Array) (known_subnets plat_subnets : gmap Z Subnet) (slots : list nat)
    (st : Array * P) : option (Array * P) :=
  match slots with
  | [] => Some st
  | i :: slots =>
      st ← delete_step ifindex known_addresses known_subnets plat_subnets i st;
      delete_loop ifindex known_addresses known_subnets plat_subnets slots st
  end.

(** One turn of the loop over known_addresses: what is left in the slot. *)
Definition add4 (ifindex now : Z) (known_address : NMPlatformIP4Address) (self : P) : option NMPlatformIP4Address * P :=
  let ifa_flags :=
    if nm_platform_kernel_support_get NM_PLATFORM_KERNEL_SUPPORT_TYPE_EXTENDED_IFA_FLAGS then IFA_F_NOPREFIXROUTE else 0 in
  let ax := a4_ax known_address in
  let '(lifetime, preferred) := nm_utils_lifetime_get (ax_timestamp ax) (ax_lifetime ax) (ax_preferred ax) now in
  if lifetime =? 0 then (None, self)
  else
    let '(ok, self) := nm_platform_ip4_address_add ifindex (a4_address known_address) (ax_plen ax) (a4_peer_address known_address)
                         lifetime preferred ifa_flags (a4_label known_address) self in
    (if negb ok then None else Some known_address, self).

Fixpoint add_loop (ifindex now : Z) (known_addresses : Array) (self : P) : Array * P :=
  match known_addresses with
  | [] => ([], self)
  | None :: known_addresses => let '(l, self) := add_loop ifindex now known_addresses self in (None :: l, self)
  | Some known_address :: known_addresses =>
      let '(o, self) := add4 ifindex now known_address self in
      let '(l, self) := add_loop ifindex now known_addresses self in (o :: l, self)
  end.

Definition nm_platform_ip4_address_sync (ifindex : Z) (known_addresses : option (list NMPlatformIP4Address)) (self : P)
    : option (bool * option Array * P) :=
  let now := nm_utils_get_monotonic_timestamp_s in
  let cleaned := (fun l => _addr_array_clean_expired false a4_ax l now) <$> known_addresses in
  let out := fst <$> cleaned in
  let known_addresses := match cleaned with Some (l, true) => Some l | _ => None end in
  let plat_addresses := Some <$> ip4_address_lookup ifindex self in
  let plat_subnets := ip4_addr_subnets_build_index plat_addresses true true in
  let known := default [] known_addresses in
  let known_subnets := ip4_addr_subnets_build_index known false false in
  '(_, self) ← delete_loop ifindex known known_subnets plat_subnets (seq 0 (length plat_addresses)) (plat_addresses, self);
  match known_addresses with
  | None => Some (true, out, self)
  | Some known_addresses => let '(l, self) := add_loop ifindex now known_addresses self in Some (true, Some l, self)
  end.

(** addr_family: AF_UNSPEC (0), AF_INET or AF_INET6.  The results are combined with &=. *)
Definition nm_platform_ip_address_flush `{GPtrArraySort} (addr_family ifindex : Z) (self : P) : option (bool * P) :=
  '(success, self) ← (if (addr_family =? 0) || (addr_family =? AF_INET) then
                        '(ok, _, self) ← nm_platform_ip4_address_sync ifindex None self; Some (ok, self)
                      else Some (true, self));
  if (addr_family =? 0) || (addr_family =? AF_INET6) then
    let '(ok, _, self) := nm_platform_ip6_address_sync ifindex None true self in Some (success && ok, self)
  else Some (success : bool, self).
End sync.
