(* ===== verification/AddrRoles4.v ===== *)
(** * What synchronizing IPv4 addresses deletes

    The table of subnets in closed form, and the addresses that
    nm_platform_ip4_address_sync () deletes: those that are unknown or have another
    role than the known ones, and the others of a subnet whose primary address is
    deleted. *)

From S2P Require Export Prelude AddrBase AddrSync4.

(** ** The members of a subnet *)

Section members.
Context `{ByteOrder}.
Implicit Types (addresses : Array) (n : Z) (i : nat).

Definition in_subnet addresses n i : bool :=
  match slot addresses i with Some a => subnet_of a =? n | None => false end.

(** The slots of a subnet in the order of its array; without full_index, the one kept. *)
Definition place (consider_flags full_index : bool) addresses n (l : list nat) i : list nat :=
  if in_subnet addresses n i then
    let flag := match slot addresses i with Some a => has_secondary_flag a | None => false end in
    match l with
    | [] => [i]
    | _ => if full_index then (if negb consider_flags || flag then l ++ [i] else i :: l)
           else if consider_flags && negb flag then [i] else l
    end
  else l.
Definition members (consider_flags full_index : bool) addresses n : list nat :=
  foldl (place consider_flags full_index addresses n) [] (seq 0 (length addresses)).

Definition to_subnet (l : list nat) : option Subnet :=
  match l with [] => None | [p] => Some (subnet_plain p) | l => Some (subnet_list l) end.

Lemma to_subnet_long l i j : to_subnet (l ++ [i]) = Some (subnet_list (l ++ [i])) /\ to_subnet (j :: l) = Some (subnet_list (j :: l)) \/ l = [].
Proof. destruct l as [|x [|y l]]; auto. Qed.

Lemma build_index_lookup consider_flags full_index addresses n :
  ip4_addr_subnets_build_index addresses consider_flags full_index !! n = to_subnet (members consider_flags full_index addresses n).
Proof.
  unfold ip4_addr_subnets_build_index, members. induction (seq 0 (length addresses)) as [|i ks IH] using rev_ind.
  - cbn. apply lookup_empty.
  - rewrite !foldl_app. cbn. set (subnets := foldl _ ∅ ks) in *. set (l := foldl _ [] ks) in *.
    unfold build_index_step, place, in_subnet. destruct (slot addresses i) as [a|]; [|done].
    destruct (Z.eqb_spec (subnet_of a) n) as [->|Hne].
    + rewrite IH. destruct (to_subnet_long l i i) as [[E1 E2]|El].
      * destruct l as [|x [|y l']]; cbn in IH |- *; [done|..]; repeat case_match; simplify_eq; rewrite ?lookup_insert_eq; done.
      * rewrite El. cbn. by rewrite lookup_insert_eq.
    + repeat case_match; rewrite ?lookup_insert_ne by done; done.
Qed.

Lemma place_members consider_flags addresses n ks :
  foldl (place consider_flags true addresses n) [] ks ≡ₚ List.filter (in_subnet addresses n) ks.
Proof.
  induction ks as [|i ks IH] using rev_ind; [done|]. rewrite foldl_app, List.filter_app. cbn. unfold place at 1.
  destruct (in_subnet addresses n i); [|by rewrite app_nil_r]. rewrite <- IH. generalize (foldl (place consider_flags true addresses n) [] ks). intros l.
  destruct l as [|x l]; [done|]. destruct (_ || _); [done|]. by rewrite Permutation_app_comm.
Qed.

Lemma place_first addresses n ks :
  foldl (place false false addresses n) [] ks = take 1 (List.filter (in_subnet addresses n) ks).
Proof.
  induction ks as [|i ks IH] using rev_ind; [done|]. rewrite foldl_app, List.filter_app. cbn. unfold place at 1. rewrite IH.
  destruct (in_subnet addresses n i); [|by rewrite app_nil_r]. by destruct (List.filter _ _) as [|x [|]].
Qed.

Lemma in_subnet_slot addresses n i : in_subnet addresses n i = true <-> exists a, slot addresses i = Some a /\ subnet_of a = n.
Proof.
  unfold in_subnet. destruct (slot addresses i) as [a|]; [rewrite Z.eqb_eq|]; split; [by exists a|by intros (? & [= <-] & ?)|done|by intros (? & ? & ?)].
Qed.

Lemma slot_lt addresses i a : slot addresses i = Some a -> (i < length addresses)%nat.
Proof. unfold slot. destruct (addresses !! i) eqn:E; [|done]. intros _. by apply lookup_lt_Some in E. Qed.

(** The array of a subnet has its slots, each once. *)
Lemma members_full consider_flags addresses n :
  NoDup (members consider_flags true addresses n) /\
  (forall i, i ∈ members consider_flags true addresses n <-> exists a, slot addresses i = Some a /\ subnet_of a = n).
Proof.
  unfold members. split.
  - rewrite place_members. apply NoDup_ListNoDup, List.NoDup_filter, NoDup_ListNoDup, NoDup_seq.
  - intros i. rewrite place_members, elem_of_filter_b, in_subnet_slot. split; [tauto|]. intros (a & Ha & Hn). split; [by exists a|].
    apply elem_of_seq. apply slot_lt in Ha. lia.
Qed.

(** ** Roles *)

Definition primary_slot addresses n : option nat := head (members true true addresses n).

(** The function is_secondary () on the full table. *)
Lemma is_secondary_full addresses i a :
  slot addresses i = Some a ->
  exists h l, members true true addresses (subnet_of a) = h :: l /\
    ip4_addr_subnets_is_secondary i a (ip4_addr_subnets_build_index addresses true true)
    = Some (negb (h =? i)%nat, match l with [] => None | _ => Some (h :: l) end).
Proof.
  intros Ha. destruct (members_full true addresses (subnet_of a)) as [_ Hin]. assert (Hi := proj2 (Hin i) (ex_intro _ a (conj Ha eq_refl))).
  unfold ip4_addr_subnets_is_secondary. rewrite build_index_lookup.
  destruct (members true true addresses (subnet_of a)) as [|h l]; [by apply elem_of_nil in Hi|]. exists h, l. split; [done|].
  by destruct l.
Qed.

(** A known address is secondary where an earlier one has its subnet. *)
Definition known_secondary addresses i (a : NMPlatformIP4Address) : bool :=
  existsb (in_subnet addresses (subnet_of a)) (seq 0 i).

Lemma is_secondary_known addresses i a :
  slot addresses i = Some a ->
  ip4_addr_subnets_is_secondary i a (ip4_addr_subnets_build_index addresses false false)
  = Some (known_secondary addresses i a, None).
Proof.
  intros Ha. unfold ip4_addr_subnets_is_secondary. rewrite build_index_lookup. unfold members, known_secondary. rewrite place_first.
  pose proof (slot_lt _ _ _ Ha) as Hlt. replace (length addresses) with (i + S (length addresses - S i))%nat by lia.
  rewrite seq_app, List.filter_app. destruct (List.filter _ (seq 0 i)) as [|h l] eqn:E.
  - assert (Hi : in_subnet addresses (subnet_of a) i = true) by (apply in_subnet_slot; by exists a). cbn. rewrite Hi. cbn.
    rewrite take_0, Nat.eqb_refl. cbn. do 2 f_equal. symmetry. apply not_true_iff_false. intros (j & Hj & Hs)%existsb_exists.
    assert (Hn : j ∈ List.filter (in_subnet addresses (subnet_of a)) (seq 0 i)) by (by apply elem_of_filter_b; rewrite list_elem_of_In).
    rewrite E in Hn. by apply elem_of_nil in Hn.
  - assert (Hh : h ∈ List.filter (in_subnet addresses (subnet_of a)) (seq 0 i)) by (rewrite E; apply list_elem_of_here).
    apply elem_of_filter_b in Hh as [Hs Hh]. cbn. rewrite take_0. apply elem_of_seq in Hh as Hh'. replace (h =? i)%nat with false by (symmetry; apply Nat.eqb_neq; lia).
    cbn. do 2 f_equal. symmetry. apply existsb_exists. exists h. by rewrite <- list_elem_of_In.
Qed.

Lemma fold_place_tail addresses n ks h l :
  (forall i, i ∈ ks -> in_subnet addresses n i = true -> exists a, slot addresses i = Some a /\ has_secondary_flag a = true) ->
  exists l', foldl (place true true addresses n) (h :: l) ks = h :: l'.
Proof.
  revert l. induction ks as [|i ks IH]; intros l Hks; cbn; [by exists l|]. unfold place at 2.
  destruct (in_subnet addresses n i) eqn:E; [|apply IH; intros j Hj; by apply Hks, list_elem_of_further].
  destruct (Hks i (list_elem_of_here _ _) E) as (a & -> & ->). apply IH. intros j Hj. by apply Hks, list_elem_of_further.
Qed.

(** Where one member of a subnet is without the flag of secondaries, it is the primary. *)
Lemma primary_slot_unique addresses n i a :
  slot addresses i = Some a -> subnet_of a = n -> has_secondary_flag a = false ->
  (forall j b, slot addresses j = Some b -> subnet_of b = n -> j <> i -> has_secondary_flag b = true) ->
  primary_slot addresses n = Some i.
Proof.
  intros Ha Hn Hf Hj. unfold primary_slot, members. pose proof (slot_lt _ _ _ Ha) as Hlt.
  replace (length addresses) with (i + S (length addresses - S i))%nat by lia. rewrite seq_app, foldl_app. cbn.
  assert (Hi : in_subnet addresses n i = true) by (apply in_subnet_slot; by exists a).
  assert (Hstep : exists l, place true true addresses n (foldl (place true true addresses n) [] (seq 0 i)) i = i :: l).
  { unfold place at 1. rewrite Hi, Ha, Hf. cbn. destruct (foldl _ _ _) as [|h l]; eauto. }
  destruct Hstep as [l ->]. destruct (fold_place_tail addresses n (seq (S i) (length addresses - S i)) i l) as [l' ->]; [|done].
  intros j Hs Hin. apply elem_of_seq in Hs. apply in_subnet_slot in Hin as (b & Hb & Hbn). exists b. split; [done|].
  apply (Hj j b); [done..|lia].
Qed.
End members.

(** ** The addresses that are deleted *)

Section deletes.
Context {P : Type} `{AddressPlatform P} `{ByteOrder} `{KernelSupport} (ifindex : Z).

(** Whether the platform's address is a known one, with the role it has there. *)
Definition role_kept (known : Array) (a : NMPlatformIP4Address) : bool :=
  match known_slot known a with
  | Some i => match slot known i with Some o => Bool.eqb (known_secondary known i o) (has_secondary_flag a) | None => false end
  | None => false
  end.

Lemma known_slot_some known a i :
  known_slot known a = Some i -> exists o, slot known i = Some o /\ ip4_address_id_equal a o = true.
Proof. intros [_ E]%List.find_some. destruct (slot known i) as [o|]; [by exists o|done]. Qed.

Lemma keeps_role_eq known a :
  keeps_role known (ip4_addr_subnets_build_index known false false) a = Some (role_kept known a).
Proof.
  unfold keeps_role, role_kept. destruct (known_slot known a) as [i|] eqn:E; [|done].
  destruct (known_slot_some _ _ _ E) as (o & Ho & _). rewrite Ho. cbn. by rewrite (is_secondary_known _ _ _ Ho).
Qed.

Context (known : Array) (plat : list NMPlatformIP4Address).
Let addresses : Array := Some <$> plat.

Lemma slot_plat i : slot addresses i = plat !! i.
Proof. unfold slot, addresses. rewrite list_lookup_fmap. by destruct (plat !! i). Qed.

Definition delete_slot (self : P) (i : nat) : P :=
  match plat !! i with Some a => delete4 ifindex a self | None => self end.

(** Among the first [k] slots, and deleted for itself. *)
Definition dropped (k i : nat) : Prop := (i < k)%nat /\ exists a, plat !! i = Some a /\ role_kept known a = false.

(** Deleted with the primary of its subnet. *)
Definition demoted (k i : nat) : Prop :=
  exists a h, plat !! i = Some a /\ primary_slot addresses (subnet_of a) = Some h /\ h <> i /\ dropped k h.

#[export] Instance dropped_dec k i : Decision (dropped k i).
Proof.
  unfold dropped. destruct (decide (i < k)%nat) as [Hk|Hk]; [|right; by intros []]. destruct (plat !! i) as [a|]; [|right; by intros (_ & ? & ? & _)].
  destruct (role_kept known a) eqn:E; [right; by intros (_ & ? & [= <-] & ?); congruence|left; eauto].
Defined.

#[export] Instance demoted_dec k i : Decision (demoted k i).
Proof.
  unfold demoted. destruct (plat !! i) as [a|]; [|right; by intros (? & ? & ? & _)].
  destruct (primary_slot addresses (subnet_of a)) as [h|] eqn:E; [|right; by intros (? & ? & [= <-] & ? & _); congruence].
  destruct (decide (h <> i /\ dropped k h)) as [Hd|Hd]; [left; exists a, h; tauto|right]. intros (? & ? & [= <-] & ? & ?). apply Hd.
  assert (h = x0) as -> by congruence. done.
Defined.

(** What the loop has done after [k] slots. *)
Definition loop_inv (self0 : P) (k : nat) (st : Array * P) : Prop :=
  exists dels, snd st = foldl delete_slot self0 dels /\
    (forall i, i ∈ dels <-> dropped k i \/ demoted k i) /\
    length (fst st) = length plat /\
    (forall i, slot (fst st) i = if decide (demoted k i) then None else plat !! i).

Lemma slot_tombstone (l : Array) j i : (j < length l)%nat -> slot (<[j := None]> l) i = if decide (i = j) then None else slot l i.
Proof. intros Hj. unfold slot. destruct (decide (i = j)) as [->|Hne]; [by rewrite list_lookup_insert_eq|by rewrite list_lookup_insert_ne]. Qed.

(** The loop over the secondaries of a subnet. *)
Lemma delete_secondaries l : forall st,
  (forall i a, slot (fst st) i = Some a -> plat !! i = Some a) ->
  exists dels, let st' := foldl (delete_secondary ifindex) st l in
    snd st' = foldl delete_slot (snd st) dels /\ length (fst st') = length (fst st) /\
    (forall i, i ∈ dels <-> i ∈ l /\ slot (fst st) i <> None) /\
    (forall i, slot (fst st') i = if decide (i ∈ l) then None else slot (fst st) i).
Proof.
  induction l as [|j l IH]; intros [arr self] Hst; cbn in *.
  - exists []. split_and!; [done|done| |done]. intros i. rewrite elem_of_nil. tauto.
  - destruct (slot arr j) as [a|] eqn:E.
    + pose proof (slot_lt _ _ _ E) as Hj. destruct (IH (<[j := None]> arr, delete4 ifindex a self)) as (dels & Hs & Hl & Hd & Hslot); cbn in *.
      { intros i b. rewrite slot_tombstone by done. destruct (decide _); [done|apply Hst]. }
      exists (j :: dels). rewrite Hs, Hl. split_and!; [|by rewrite length_insert| |].
      * cbn. unfold delete_slot at 3. by rewrite (Hst _ _ E).
      * intros i. rewrite !elem_of_cons, Hd, slot_tombstone by done. destruct (decide (i = j)) as [->|]; [|tauto].
        rewrite E. split; [intros _; split; [by left|done]|by left].
      * intros i. rewrite Hslot, slot_tombstone by done.
        destruct (decide (i ∈ l)), (decide (i = j)), (decide (i ∈ j :: l)) as [Hi|Hi]; rewrite elem_of_cons in Hi; tauto.
    + destruct (IH (arr, self) Hst) as (dels & Hs & Hl & Hd & Hslot). cbn in *. exists dels. split_and!; [done|done| |].
      * intros i. rewrite Hd, elem_of_cons. split; [tauto|]. intros [[->|Hi] Hne]; [done|done].
      * intros i. rewrite Hslot. destruct (decide (i ∈ l)), (decide (i ∈ j :: l)) as [Hi|Hi]; rewrite elem_of_cons in Hi; try tauto.
        destruct Hi as [->|]; tauto.
Qed.

Lemma dropped_S k i : dropped (S k) i <-> dropped k i \/ i = k /\ dropped (S k) k.
Proof.
  unfold dropped. split.
  - intros [Hi Hd]. destruct (decide (i = k)) as [->|]; [right; auto|left; split; [lia|done]].
  - intros [[Hi Hd]|[-> Hd]]; [split; [lia|done]|done].
Qed.

Lemma demoted_S k i : demoted (S k) i <-> demoted k i \/ dropped (S k) k /\ k <> i /\ exists a, plat !! i = Some a /\ primary_slot addresses (subnet_of a) = Some k.
Proof.
  unfold demoted. split.
  - intros (a & h & Ha & Hp & Hh & [Hd|[-> Hd]]%dropped_S); [left; exists a, h; tauto|right; eauto].
  - intros [(a & h & ?)|(Hd & Hk & a & Ha & Hp)]; [exists a, h; rewrite dropped_S; tauto|exists a, k; tauto].
Qed.

(** The other members of a subnet than its primary. *)
Lemma members_tail n h l i :
  members true true addresses n = h :: l -> i ∈ l <-> h <> i /\ exists a, plat !! i = Some a /\ subnet_of a = n.
Proof.
  intros E. destruct (members_full true addresses n) as [Hn Hin]. rewrite E in Hn. apply NoDup_cons in Hn as [Hh _].
  specialize (Hin i). rewrite E, elem_of_cons, slot_plat in Hin. rewrite <- Hin.
  split; [intros Hi; split; [by intros ->|tauto]|intros [Hne [->|]]; done].
Qed.

Let known_subnets := ip4_addr_subnets_build_index known false false.
Let plat_subnets := ip4_addr_subnets_build_index addresses true true.

(** A turn that deletes more: [more] besides slot [k]. *)
Lemma loop_inv_more self0 k (self self' : P) dels (arr' : Array) more :
  self = foldl delete_slot self0 dels -> (forall i, i ∈ dels <-> dropped k i \/ demoted k i) ->
  self' = foldl delete_slot self more -> length arr' = length plat ->
  (forall i, i ∈ more <-> (i = k /\ dropped (S k) k \/ demoted (S k) i) /\ ~ demoted k i) ->
  (forall i, slot arr' i = if decide (demoted (S k) i) then None else plat !! i) ->
  loop_inv self0 (S k) (arr', self').
Proof.
  intros -> Hd -> Hl Hm Hs. exists (dels ++ more). cbn. rewrite foldl_app. split_and!; [done| |done|done].
  intros i. rewrite elem_of_app, Hd, Hm, (dropped_S k i). pose proof (demoted_S k i). destruct (decide (demoted k i)); tauto.
Qed.

(** The new demotions of a turn are the other members of its subnet, if it is the primary. *)
Lemma new_demotions k a h l :
  plat !! k = Some a -> members true true addresses (subnet_of a) = h :: l -> dropped (S k) k ->
  forall i, demoted (S k) i <-> demoted k i \/ h = k /\ i ∈ l.
Proof.
  intros Ha Hm Hd i. rewrite demoted_S, (members_tail _ _ _ _ Hm).
  assert (Hk : forall n, primary_slot addresses n = Some k -> n = subnet_of a).
  { intros n Hn. destruct (members_full true addresses n) as [_ Hin]. specialize (Hin k). rewrite slot_plat in Hin.
    unfold primary_slot in Hn. destruct (members true true addresses n); [done|]. injection Hn as ->.
    destruct (proj1 Hin (list_elem_of_here _ _)) as (b & Hb & <-). congruence. }
  assert (Hp : primary_slot addresses (subnet_of a) = Some h) by (unfold primary_slot; by rewrite Hm).
  split; (intros [?|Hx]; [by left|right]).
  - destruct Hx as (_ & Hne & b & Hb & Hpb). apply Hk in Hpb as En. rewrite En in Hpb. assert (h = k) as -> by congruence. eauto.
  - destruct Hx as (-> & Hne & b & Hb & En). split_and!; [done..|]. exists b. by rewrite En.
Qed.

Lemma demoted_not_primary k i : demoted k i -> forall a h l, plat !! i = Some a -> members true true addresses (subnet_of a) = h :: l -> h <> i.
Proof. intros (b & g & Hb & Hg & Hne & _) a h l Ha Hm. unfold primary_slot in Hg. assert (b = a) as -> by congruence. rewrite Hm in Hg. injection Hg as ->. done. Qed.

Lemma live_members i a : plat !! i = Some a -> exists h l, members true true addresses (subnet_of a) = h :: l /\
  ip4_addr_subnets_is_secondary i a plat_subnets = Some (negb (h =? i)%nat, match l with [] => None | _ => Some (h :: l) end).
Proof. intros Ha. rewrite <- slot_plat in Ha. by apply is_secondary_full. Qed.

Lemma delete_step_inv self0 k st :
  loop_inv self0 k st -> exists st', delete_step ifindex known known_subnets plat_subnets k st = Some st' /\ loop_inv self0 (S k) st'.
Proof.
  destruct st as [arr self]. intros (dels & Hself & Hd & Hl & Hs). cbn in *. unfold delete_step. pose proof (Hs k) as Hk.
  destruct (plat !! k) as [a|] eqn:Ha.
  2:{ assert (Hno : ~ dropped (S k) k) by (intros (_ & b & Hb & _); congruence). replace (slot arr k) with (@None NMPlatformIP4Address) by (by destruct (decide _)).
      eexists. split; [done|]. eapply (loop_inv_more self0 k self self dels arr []); try done.
      - intros i. rewrite demoted_S, elem_of_nil. tauto.
      - intros i. rewrite Hs. apply decide_ext. rewrite demoted_S. tauto. }
  destruct (live_members k a Ha) as (h & l & Hm & Hsec). destruct (decide (demoted k k)) as [Hdem|Hdem]; rewrite Hk.
  - pose proof (demoted_not_primary k k Hdem a h l Ha Hm) as Hh. assert (Hsame : forall i, demoted (S k) i <-> demoted k i).
    { intros i. destruct (decide (dropped (S k) k)) as [Hdr|Hdr]; [rewrite (new_demotions k a h l); tauto|rewrite demoted_S; tauto]. }
    eexists. split; [done|]. eapply (loop_inv_more self0 k self self dels arr []); try done.
    + intros i. rewrite Hsame, elem_of_nil. split; [done|]. intros [[[-> _]|?] ?]; tauto.
    + intros i. rewrite Hs. by apply decide_ext.
  - rewrite keeps_role_eq. cbn. destruct (role_kept known a) eqn:Er.
    + assert (Hno : ~ dropped (S k) k) by (intros (_ & b & Hb & Hr); congruence).
      assert (Hsame : forall i, demoted (S k) i <-> demoted k i) by (intros i; rewrite demoted_S; tauto).
      eexists. split; [done|]. eapply (loop_inv_more self0 k self self dels arr []); try done.
      * intros i. rewrite Hsame, elem_of_nil. tauto.
      * intros i. rewrite Hs. by apply decide_ext.
    + assert (Hdrop : dropped (S k) k) by (split; [lia|eauto]). pose proof (new_demotions k a h l Ha Hm Hdrop) as Hnew.
      assert (Hone : ~ (h = k /\ l <> []) -> exists st', Some (arr, delete4 ifindex a self) = Some st' /\ loop_inv self0 (S k) st').
      { intros Hn. assert (Hsame : forall i, demoted (S k) i <-> demoted k i).
        { intros i. rewrite Hnew. split; [|tauto]. intros [?|[-> Hi]]; [done|]. destruct Hn. split; [done|]. intros ->. by apply elem_of_nil in Hi. }
        eexists. split; [done|]. eapply (loop_inv_more self0 k self _ dels arr [k]); try done.
        - cbn. unfold delete_slot. by rewrite Ha.
        - intros i. rewrite Hsame, list_elem_of_singleton. split; [intros ->; tauto|tauto].
        - intros i. rewrite Hs. by apply decide_ext. }
      rewrite Hsec. cbn. destruct (Nat.eqb_spec h k) as [->|Hne]; cbn; [|apply Hone; by intros []].
      destruct l as [|j l]; [apply Hone; by intros []|]. clear Hone.
      destruct (delete_secondaries (j :: l) (arr, delete4 ifindex a self)) as (more & Hself' & Hl' & Hmore & Hslot).
      { cbn. intros i b. rewrite Hs. by destruct (decide _). }
      eexists. split; [done|]. rewrite (surjective_pairing (foldl _ _ _)). eapply (loop_inv_more self0 k self _ dels _ (k :: more)); try done.
      * etransitivity; [exact Hself'|]. cbn. unfold delete_slot at 3. by rewrite Ha.
      * etransitivity; [exact Hl'|done].
      * intros i. rewrite Hnew, elem_of_cons, Hmore. cbn [fst]. rewrite Hs.
        assert (Hpl : i ∈ j :: l -> plat !! i <> None) by (intros (_ & b & -> & _)%(members_tail _ _ _ _ Hm); done).
        destruct (decide (demoted k i)), (decide (i = k)) as [->|]; tauto.
      * intros i. etransitivity; [apply Hslot|]. cbn [fst]. rewrite Hs. specialize (Hnew i).
        destruct (decide (i ∈ j :: l)), (decide (demoted k i)), (decide (demoted (S k) i)); tauto.
Qed.

Lemma delete_loop_inv self0 n : forall k st,
  loop_inv self0 k st -> exists st', delete_loop ifindex known known_subnets plat_subnets (seq k n) st = Some st' /\ loop_inv self0 (k + n) st'.
Proof.
  induction n as [|n IH]; intros k st Hst; cbn.
  - exists st. by rewrite Nat.add_0_r.
  - destruct (delete_step_inv self0 k st Hst) as (st1 & -> & Hst1). cbn. rewrite <- Nat.add_succ_comm. by apply IH.
Qed.

(** Deleted for itself, or with the primary of its subnet. *)
Definition doomed (i : nat) : Prop :=
  exists a, plat !! i = Some a /\
    (role_kept known a = false \/
     exists h b, primary_slot addresses (subnet_of a) = Some h /\ h <> i /\ plat !! h = Some b /\ role_kept known b = false).

Lemma doomed_spec i : doomed i <-> dropped (length plat) i \/ demoted (length plat) i.
Proof.
  unfold doomed, demoted, dropped. split.
  - intros (a & Ha & [Hr|(h & b & Hh & Hne & Hb & Hr)]); [left|right].
    + split; [by apply lookup_lt_Some in Ha|eauto].
    + apply lookup_lt_Some in Hb as Hlt. eauto 10.
  - intros [(_ & a & Ha & Hr)|(a & h & Ha & Hh & Hne & _ & b & Hb & Hr)]; eauto 10.
Qed.

Lemma delete_loop_spec self :
  exists dels arr, (forall i, i ∈ dels <-> doomed i) /\
    delete_loop ifindex known known_subnets plat_subnets (seq 0 (length addresses)) (addresses, self)
    = Some (arr, foldl delete_slot self dels).
Proof.
  assert (Hnd : forall i, ~ dropped 0 i) by (intros i [? _]; lia). assert (Hnm : forall i, ~ demoted 0 i) by (intros i (? & h & _ & _ & _ & Hh); by apply (Hnd h)).
  destruct (delete_loop_inv self (length addresses) 0 (addresses, self)) as ([arr self'] & -> & dels & Hs & Hd & _).
  { exists []. cbn. unfold addresses. rewrite length_fmap. split_and!; [done| |done|].
    - intros i. rewrite elem_of_nil. specialize (Hnd i). specialize (Hnm i). tauto.
    - intros i. rewrite decide_False by apply Hnm. apply slot_plat. }
  cbn in *. exists dels, arr. split; [|by rewrite Hs]. intros i. rewrite Hd, doomed_spec. unfold addresses. by rewrite length_fmap.
Qed.
End deletes.

Section sync_deletes.
Context {P : Type} `{AddressPlatform P} `{ByteOrder} `{KernelSupport} `{MonotonicClock} (ifindex : Z).

(** The known addresses with those that expired set to NULL. *)
Definition alive4 (known_addresses : option (list NMPlatformIP4Address)) : Array :=
  map (fun a => if wanted false a4_ax nm_utils_get_monotonic_timestamp_s a then Some a else None) (default [] known_addresses).

Lemma slot_none (known : Array) i : omap id known = [] -> slot known i = None.
Proof.
  unfold slot. revert i. induction known as [|[a|] known IH]; intros [|i]; cbn; try done. intros Hk. by apply IH.
Qed.

Lemma role_kept_none known a : omap id known = [] -> role_kept known a = false.
Proof.
  intros Hk. unfold role_kept. destruct (known_slot known a) as [i|]; [|done]. by rewrite slot_none.
Qed.

Lemma add_loop_none now known self : omap id known = [] -> add_loop ifindex now known self = (known, self).
Proof. revert self. induction known as [|[a|] known IH]; intros self; cbn; [done|done|]. intros Hk. by rewrite IH. Qed.

Lemma existsb_tombstones {A} (p : A -> bool) l : existsb p l = false -> omap id (map (fun a => if p a then Some a else None) l) = [].
Proof. rewrite omap_tombstones. induction l as [|x l IH]; cbn; [done|]. by intros [-> Hl]%orb_false_iff; auto. Qed.

(** The whole function: the deletions, then the additions. *)
Lemma sync4_shape known_addresses self :
  let plat := ip4_address_lookup ifindex self in
  let known := alive4 known_addresses in
  exists dels, (forall i, i ∈ dels <-> doomed known plat i) /\
    nm_platform_ip4_address_sync ifindex known_addresses self
    = (let '(l, self) := add_loop ifindex nm_utils_get_monotonic_timestamp_s known (foldl (delete_slot ifindex plat) self dels) in
       Some (true, (fun _ => l) <$> known_addresses, self)).
Proof.
  intros plat known. unfold nm_platform_ip4_address_sync. fold plat.
  destruct known_addresses as [l|]; cbn [fmap option_fmap option_map default].
  - rewrite clean_expired_spec. change (map _ l) with known. cbn [fst].
    destruct (existsb _ l) eqn:E; cbn [default].
    + destruct (delete_loop_spec ifindex known plat self) as (dels & arr & Hd & Hl). exists dels. split; [done|]. change (id known) with known. rewrite Hl. cbn.
      by destruct (add_loop _ _ _ _).
    + apply existsb_tombstones in E. change (omap id known = []) in E.
      destruct (delete_loop_spec ifindex [] plat self) as (dels & arr & Hd & Hl). exists dels. split; [|rewrite Hl; cbn; by rewrite add_loop_none].
      intros i. rewrite Hd. unfold doomed. by setoid_rewrite role_kept_none.
  - destruct (delete_loop_spec ifindex [] plat self) as (dels & arr & Hd & Hl). exists dels. split; [done|]. rewrite Hl. done.
Qed.

(** C19: nm_platform_ip4_address_sync() always returns TRUE.  It deletes the addresses of the
    interface that are not known, those with another role (primary or secondary) than they have in
    the list of known addresses, and, where it deletes the primary address of a subnet, all others of
    the subnet; it keeps everything else.  Then it adds the known addresses that are not expired in
    turn; the caller gets back the array of those that could be added. *)
Theorem ip4_address_sync_deletes known_addresses self :
  let plat := ip4_address_lookup ifindex self in
  let known := alive4 known_addresses in
  exists dels, (forall i, i ∈ dels <-> doomed known plat i) /\
    nm_platform_ip4_address_sync ifindex known_addresses self
    = (let '(l, self) := add_loop ifindex nm_utils_get_monotonic_timestamp_s known (foldl (delete_slot ifindex plat) self dels) in
       Some (true, (fun _ => l) <$> known_addresses, self)).
Proof. apply sync4_shape. Qed.
End sync_deletes.
