(* ===== verification/AddrKernel4.v ===== *)
(** * What synchronizing addresses reaches

    Against the class Kernel4, which says what adding and deleting does to the set of
    IPv4 addresses of an interface: after nm_platform_ip4_address_sync () these are
    the known ones.  Flushing leaves no address.  Where two known subnets of
    different lengths start at the same address, every synchronization deletes and
    adds the addresses again. *)

From S2P Require Export Prelude AddrBase AddrSync6 AddrSample AddrOrder6 AddrSync4 AddrRoles4.

(** The identities of the addresses of an interface. *)
Definition ids4 {P} `{AddressPlatform P} `{ByteOrder} (ifindex : Z) (self : P) : list (Z * in_addr_t * Z) :=
  ip4_id <$> ip4_address_lookup ifindex self.
Definition id_of `{ByteOrder} (address : in_addr_t) (plen : Z) (peer : in_addr_t) : Z * in_addr_t * Z :=
  (plen, address, htonl (nm_utils_ip4_address_clear_host_address peer plen)).

(** Deleting an address may delete others, its secondaries. *)
Class Kernel4 (P : Type) `{AddressPlatform P} `{ByteOrder} (ifindex : Z) := {
  k4_ok : P -> Prop;
  k4_valid self a : k4_ok self -> a ∈ ip4_address_lookup ifindex self -> ax_ifindex (a4_ax a) = ifindex /\ ax_plen (a4_ax a) <= 32;
  k4_delete self address plen peer : k4_ok self ->
    let self' := klass_ip4_address_delete ifindex address plen peer self in
    k4_ok self' /\ ids4 ifindex self' ⊆ ids4 ifindex self /\ id_of address plen peer ∉ ids4 ifindex self';
  k4_add self self' address plen peer lifetime preferred flags label ok : k4_ok self ->
    klass_ip4_address_add ifindex address plen peer lifetime preferred flags label self = (ok, self') ->
    k4_ok self' /\ ids4 ifindex self ⊆ ids4 ifindex self' /\ ids4 ifindex self' ⊆ id_of address plen peer :: ids4 ifindex self /\
    (ok = true -> id_of address plen peer ∈ ids4 ifindex self')
}.

Section sync4.
Context {P : Type} `{AddressPlatform P} `{ByteOrder} `{KernelSupport} `{MonotonicClock} (ifindex : Z) `{!Kernel4 P ifindex}.
Hypothesis Hifindex : 0 < ifindex.

Lemma delete_slots plat dels : forall self,
  k4_ok self -> Forall (fun a => ax_plen (a4_ax a) <= 32) plat ->
  let self' := foldl (delete_slot ifindex plat) self dels in
  k4_ok self' /\ ids4 ifindex self' ⊆ ids4 ifindex self /\
  (forall i a, i ∈ dels -> plat !! i = Some a -> ip4_id a ∉ ids4 ifindex self').
Proof.
  induction dels as [|j dels IH]; intros self Hok Hv; cbn.
  - split_and!; [done|done|]. by intros i a ?%elem_of_nil.
  - assert (Hstep : k4_ok (delete_slot ifindex plat self j) /\ ids4 ifindex (delete_slot ifindex plat self j) ⊆ ids4 ifindex self /\
      (forall a, plat !! j = Some a -> ip4_id a ∉ ids4 ifindex (delete_slot ifindex plat self j))).
    { unfold delete_slot. destruct (plat !! j) as [a|] eqn:E; [|by split_and!]. apply (Forall_lookup_1 _ _ _ _ Hv) in E as Hp.
      unfold delete4, nm_platform_ip4_address_delete. replace (0 <? ifindex) with true by lia. replace (_ <=? 32) with true by lia. cbn.
      destruct (k4_delete self (a4_address a) (ax_plen (a4_ax a)) (a4_peer_address a) Hok) as (? & ? & ?). split_and!; [done..|]. by intros b [= <-]. }
    destruct Hstep as (Hok1 & Hsub1 & Hno1). destruct (IH _ Hok1 Hv) as (Hok2 & Hsub2 & Hno2). split_and!; [done|by etransitivity|].
    intros i a [->|Hi]%elem_of_cons Ha; [|by apply (Hno2 i)]. intros Hin. by apply (Hno1 a Ha), Hsub2.
Qed.

Lemma add4_ids now k self o self' :
  k4_ok self -> add4 ifindex now k self = (o, self') ->
  k4_ok self' /\ ids4 ifindex self ⊆ ids4 ifindex self' /\ ids4 ifindex self' ⊆ ip4_id k :: ids4 ifindex self /\
  match o with Some a => a = k /\ ip4_id k ∈ ids4 ifindex self' | None => True end.
Proof.
  intros Hok. unfold add4. destruct (nm_utils_lifetime_get _ _ _ _) as [lifetime preferred].
  assert (Hsame : k4_ok self /\ ids4 ifindex self ⊆ ids4 ifindex self /\ ids4 ifindex self ⊆ ip4_id k :: ids4 ifindex self /\ True).
  { split_and!; [done|done| |done]. intros x. by right. }
  destruct (lifetime =? 0); [by intros [= <- <-]|]. unfold nm_platform_ip4_address_add.
  repeat (destruct (negb _); [by intros [= <- <-]|]).
  destruct (klass_ip4_address_add _ _ _ _ _ _ _ _ _) as [ok self1] eqn:E. intros [= <- <-].
  destruct (k4_add _ _ _ _ _ _ _ _ _ _ Hok E) as (Hok' & Hs & Hs' & Hin). split_and!; [done..|]. destruct ok; cbn; [|done]. split; [done|by apply Hin].
Qed.

Lemma add_loop_ids now known : forall self l self',
  k4_ok self -> add_loop ifindex now known self = (l, self') ->
  k4_ok self' /\ ids4 ifindex self ⊆ ids4 ifindex self' /\
  ids4 ifindex self' ⊆ (ip4_id <$> omap id known) ++ ids4 ifindex self /\
  (forall a, Some a ∈ l -> ip4_id a ∈ ids4 ifindex self').
Proof.
  induction known as [|[k|] known IH]; intros self l self' Hok; cbn.
  - intros [= <- <-]. split_and!; [done..|]. by intros a ?%elem_of_nil.
  - destruct (add4 _ _ _ _) as [o self1] eqn:E1. destruct (add_loop _ _ _ _) as [l2 self2] eqn:E2. intros [= <- <-].
    destruct (add4_ids _ _ _ _ _ Hok E1) as (Hok1 & Hs1 & Hs1' & Ho). destruct (IH _ _ _ Hok1 E2) as (Hok2 & Hs2 & Hs2' & Hin).
    split_and!; [done|by etransitivity| |].
    + intros x [Hx|[->|Hx]%Hs1'%elem_of_cons]%Hs2'%elem_of_app; rewrite elem_of_cons, elem_of_app; tauto.
    + intros a [<-|Ha]%elem_of_cons; [|by apply Hin]. destruct Ho as [-> Hk]. by apply Hs2.
  - destruct (add_loop _ _ _ _) as [l2 self2] eqn:E2. intros [= <- <-]. destruct (IH _ _ _ Hok E2) as (Hok2 & Hs2 & Hs2' & Hin).
    split_and!; [done..|]. intros a [?|Ha]%elem_of_cons; [done|by apply Hin].
Qed.

(** An address that is kept is known. *)
Lemma role_kept_known known a : role_kept known a = true -> ip4_id a ∈ ip4_id <$> omap id known.
Proof.
  unfold role_kept. destruct (known_slot known a) as [i|] eqn:E; [|done]. intros _.
  destruct (known_slot_some _ _ _ E) as (o & Ho & [_ Eid]%ip4_address_id_equal_spec). rewrite Eid. apply list_elem_of_fmap_2.
  unfold slot in Ho. destruct (known !! i) as [o'|] eqn:Ek; [|done]. cbn in Ho. subst o'. apply list_elem_of_lookup_2 in Ek.
  apply list_elem_of_omap. by exists (Some o).
Qed.

Lemma sync4_ids known_addresses self out self' :
  k4_ok self -> nm_platform_ip4_address_sync ifindex known_addresses self = Some (true, out, self') ->
  k4_ok self' /\ ids4 ifindex self' ⊆ (ip4_id <$> omap id (alive4 known_addresses)) /\
  (forall a, Some a ∈ default [] out -> ip4_id a ∈ ids4 ifindex self').
Proof.
  intros Hok. destruct (sync4_shape ifindex known_addresses self) as (dels & Hd & ->). set (plat := ip4_address_lookup ifindex self) in *.
  destruct (delete_slots plat dels self) as (Hok1 & Hs1 & Hno); [done| |].
  { apply Forall_forall. intros a Ha. by apply (k4_valid self). }
  destruct (add_loop _ _ _ _) as [l self2] eqn:E. intros [= <- <-]. destruct (add_loop_ids _ _ _ _ _ Hok1 E) as (Hok2 & _ & Hs2 & Hin).
  split_and!; [done| |].
  - intros x [?|Hx]%Hs2%elem_of_app; [done|]. pose proof (Hs1 _ Hx) as (a & -> & [i Hi]%list_elem_of_lookup_1)%list_elem_of_fmap.
    destruct (role_kept (alive4 known_addresses) a) eqn:Er; [by apply role_kept_known|]. destruct (Hno i a); [|done..]. apply Hd.
    exists a. auto.
  - destruct known_addresses; cbn; [done|]. by intros a ?%elem_of_nil.
Qed.

(** C20: After nm_platform_ip4_address_sync() every address of the interface is a known one
    that is not expired, and every address left in the caller's array is on the interface. *)
Theorem ip4_address_sync_result known_addresses self out self' :
  k4_ok self -> nm_platform_ip4_address_sync ifindex known_addresses self = Some (true, out, self') ->
  k4_ok self' /\ ids4 ifindex self' ⊆ (ip4_id <$> omap id (alive4 known_addresses)) /\
  (forall a, Some a ∈ default [] out -> ip4_id a ∈ ids4 ifindex self').
Proof. apply sync4_ids. Qed.
End sync4.

(** ** Flushing *)

Section flush.
Context {P : Type} `{AddressPlatform P} `{ByteOrder} `{KernelSupport} `{MonotonicClock} `{GPtrArraySortOk}.
Context (ifindex : Z) (ours : in6_addr -> Prop) `{!Kernel4 P ifindex} `{!Kernel6 P ifindex ours}.

Lemma flush4 self :
  0 < ifindex -> k4_ok self ->
  exists self', nm_platform_ip_address_flush AF_INET ifindex self = Some (true, self') /\ ip4_address_lookup ifindex self' = [].
Proof.
  intros Hif Hok. unfold nm_platform_ip_address_flush. cbn. destruct (sync4_shape ifindex None self) as (dels & _ & E).
  cbn in E. rewrite E. cbn. eexists. split; [done|]. destruct (sync4_ids ifindex Hif None self None _ Hok E) as (_ & Hs & _).
  clear E. revert Hs. unfold ids4. generalize (foldl (delete_slot ifindex (ip4_address_lookup ifindex self)) self dels). cbn. intros self' Hs.
  destruct (ip4_address_lookup ifindex self') as [|a l]; [done|].
  specialize (Hs (ip4_id a) (list_elem_of_here _ _)). by apply elem_of_nil in Hs.
Qed.

Lemma flush6 self :
  0 < ifindex -> k6_ok self ->
  exists self', nm_platform_ip_address_flush AF_INET6 ifindex self = Some (true, self') /\ ip6_address_lookup ifindex self' = [].
Proof.
  intros Hif Hok. unfold nm_platform_ip_address_flush. cbn. rewrite sync6_shape. cbn.
  set (plat := ip6_address_lookup ifindex self). assert (Hu : List.filter (unknown true []) plat = plat).
  { apply filter_all, forallb_Forall_true, Forall_forall. intros a _. unfold unknown. by destruct (is_temporary a). }
  assert (Hk : List.filter (kept []) plat = []).
  { apply filter_none, Forall_forall. intros a _. unfold kept. by destruct (is_temporary a). }
  rewrite Hu, Hk. cbn. eexists. split; [done|]. destruct (delete_all_keys ifindex ours Hif plat self) as (_ & _ & _ & Hall); [done| |].
  { apply Forall_forall. intros a Ha. by apply (k6_valid self). }
  fold plat in Hall. rewrite without_all in Hall by done. revert Hall. generalize (delete_all ifindex plat self). intros self' Hall.
  destruct (ip6_address_lookup ifindex self') as [|a l]; [done|].
  specialize (Hall (key6 a) (list_elem_of_here _ _)). by apply elem_of_nil in Hall.
Qed.

(** nm_platform_ip_address_flush() for one address family succeeds and leaves no address of the
    family on the interface, temporary ones included; for AF_UNSPEC it does IPv4 first, then IPv6. *)
Theorem ip_address_flush_spec self :
  0 < ifindex -> k4_ok self -> k6_ok self ->
  (exists self', nm_platform_ip_address_flush AF_INET ifindex self = Some (true, self') /\ ip4_address_lookup ifindex self' = []) /\
  (exists self', nm_platform_ip_address_flush AF_INET6 ifindex self = Some (true, self') /\ ip6_address_lookup ifindex self' = []) /\
  nm_platform_ip_address_flush 0 ifindex self
  = ('(ok4, self) ← nm_platform_ip_address_flush AF_INET ifindex self;
     '(ok6, self) ← nm_platform_ip_address_flush AF_INET6 ifindex self; Some (ok4 && ok6, self)).
Proof.
  intros Hif Hok4 Hok6. split_and!; [by apply flush4|by apply flush6|]. unfold nm_platform_ip_address_flush. cbn.
  destruct (nm_platform_ip4_address_sync ifindex None self) as [[[ok4 out4] self4]|]; cbn; [|done].
  destruct (nm_platform_ip6_address_sync ifindex None true self4) as [[ok6 out6] self6]. done.
Qed.
End flush.

(** ** The sample kernel *)

Section sample4.
Context `{ByteOrder} (ifindex : Z).

Definition sample_ok4 (k : SampleKernel) : Prop :=
  Forall (fun a => ax_ifindex (a4_ax a) = ifindex /\ ax_plen (a4_ax a) <= 32) (sk_ip4 k).

Lemma same_id_existsb a l : existsb (same_id a) l = true <-> ip4_id a ∈ ip4_id <$> l.
Proof.
  rewrite existsb_exists, list_elem_of_fmap. unfold same_id. setoid_rewrite bool_decide_eq_true. setoid_rewrite <- list_elem_of_In.
  split; intros (b & ? & ?); exists b; auto.
Qed.

#[export, refine] Instance sample_kernel4 : Kernel4 SampleKernel ifindex := {| k4_ok := sample_ok4 |}.
Proof.
  - intros k a Hok Ha. by eapply Forall_forall in Hok.
  - intros k address plen peer Hok. cbn. split_and!.
    + unfold sample_ok4 in *. cbn. rewrite Forall_forall in *. intros a [_ Ha]%elem_of_filter_b. auto.
    + intros x (a & -> & [_ Ha]%elem_of_filter_b)%list_elem_of_fmap. by apply (list_elem_of_fmap_2 ip4_id).
    + intros (a & E & [Hn Ha]%elem_of_filter_b)%list_elem_of_fmap. apply negb_true_iff, orb_false_iff in Hn as [Hn _].
      apply bool_decide_eq_false in Hn. done.
  - intros k k' address plen peer lt pref flags label ok Hok E. cbn in E. destruct (Z.leb_spec plen 32); injection E as <- <-.
    2:{ split_and!; [done|done| |done]. intros x. by right. }
    unfold sample_ip4_add. destruct (existsb _ _) eqn:Ee.
    + apply same_id_existsb in Ee. split_and!; [done|done| |done]. intros x. by right.
    + unfold sample_ok4, ids4 in *. cbn. rewrite fmap_app. split_and!.
      * apply Forall_app. split; [done|]. by repeat constructor.
      * intros x Hx. apply elem_of_app. by left.
      * intros x [?|Hx]%elem_of_app; [by right|]. csimpl in Hx. apply list_elem_of_singleton in Hx as ->. by left.
      * intros _. apply elem_of_app. right. by left.
Defined.
End sample4.

(** ** An interface with the wrong primary, and overlapping subnets *)

Definition big_endian_platform : AddressPlatform SampleKernel := @sample_platform true.

Definition sync_sample (known : list NMPlatformIP4Address) (k : SampleKernel) : option (bool * option Array * SampleKernel) :=
  @nm_platform_ip4_address_sync SampleKernel big_endian_platform true (fun _ => true) (100 : MonotonicClock) 1 (Some known) k.

Definition host_a : in_addr_t := 0x0a000001.
Definition host_b : in_addr_t := 0x0a000002.
Definition host_c : in_addr_t := 0x0a090001.
Definition plain (address : in_addr_t) (plen : Z) : NMPlatformIP4Address := sample_ip4 1 address plen address 0.
Definition second (address : in_addr_t) (plen : Z) : NMPlatformIP4Address := sample_ip4 1 address plen address IFA_F_SECONDARY.

Definition wrong_primary : SampleKernel := mk_kernel [plain host_b 24; second host_a 24; plain host_c 16] [] [].
Definition right_primary : SampleKernel :=
  mk_kernel [plain host_a 24; second host_b 24] [] [(host_b, 24); (host_a, 24); (host_c, 16)].

Example sync_wrong_primary :
  sync_sample [plain host_a 24; plain host_b 24] wrong_primary
  = Some (true, Some [Some (plain host_a 24); Some (plain host_b 24)], right_primary).
Proof. vm_compute. reflexivity. Qed.

Lemma ip4_address_sync_result_witness :
  exists out self', sync_sample [plain host_a 24; plain host_b 24] wrong_primary = Some (true, out, self') /\
    @ids4 _ big_endian_platform true 1 self' ⊆ [@ip4_id true (plain host_a 24); @ip4_id true (plain host_b 24)] /\
    @ip4_id true (plain host_b 24) ∈ @ids4 _ big_endian_platform true 1 self'.
Proof.
  eexists _, _. split; [exact sync_wrong_primary|].
  destruct (@ip4_address_sync_result SampleKernel big_endian_platform true (fun _ => true) 100 1 (@sample_kernel4 true 1)
    ltac:(reflexivity) (Some [plain host_a 24; plain host_b 24]) wrong_primary _ _ ltac:(repeat constructor; done) sync_wrong_primary)
    as (_ & Hs & Hin).
  split; [exact Hs|]. apply Hin. right. left.
Defined.

Lemma ip_address_flush_spec_witness :
  exists self', @nm_platform_ip_address_flush SampleKernel big_endian_platform true (fun _ => true) 100 sample_sort AF_INET 1 wrong_primary
    = Some (true, self') /\ sk_ip4 self' = [].
Proof.
  destruct (@ip_address_flush_spec SampleKernel big_endian_platform true (fun _ => true) 100 sample_sort sample_sort_ok 1 (fun _ => True)
    (@sample_kernel4 true 1) (@sample_kernel6 true 1 (fun _ => True)) wrong_primary) as (Hf & _ & _);
    [reflexivity|repeat constructor; done|split; constructor|exact Hf].
Defined.

(** The subnets of 10.0.0.1/24 and 10.0.0.2/16 start at the same address, so the table takes the
    second for a secondary of the first.  To the kernel both are primary.  With the
    addresses in place, the next synchronization deletes both and adds them again. *)
Example overlapping_subnets_resync :
  sync_sample [plain host_a 24; plain host_b 16] (mk_kernel [plain host_a 24; plain host_b 16] [] [])
  = Some (true, Some [Some (plain host_a 24); Some (plain host_b 16)],
          mk_kernel [plain host_a 24; plain host_b 16] [] [(host_b, 16); (host_a, 24)]).
Proof. vm_compute. reflexivity. Qed.
