(* ===== verification/RouteSync.v ===== *)
(** * Synchronizing routes

    nm_platform_ip_route_sync () of src/platform/nm-platform.c, with the list of
    routes to prune and the flush.  Routes are objects of the cache of one of two
    types; an object handed to the platform is the value of its type here, and two
    objects have the same identity as nmp-object.c decides.  The function adds
    device routes first, then those with a gateway, then deletes what is left of the
    list to prune. *)

From S2P Require Export Prelude AddrBase.

Inductive RouteObject := IP4_ROUTE (r : NMPlatformIP4Route) | IP6_ROUTE (r : NMPlatformIP6Route).

Definition route_data (o : RouteObject) : NMPObjectData :=
  match o with IP4_ROUTE r => OBJ_IP4_ROUTE r | IP6_ROUTE r => OBJ_IP6_ROUTE r end.
Definition is_ip4 (o : RouteObject) : bool := match o with IP4_ROUTE _ => true | IP6_ROUTE _ => false end.
(** NMP_OBJECT_CAST_IP_ROUTE () *)
Definition ip_route (o : RouteObject) : NMPlatformIPRoute := match o with IP4_ROUTE r => r4_rx r | IP6_ROUTE r => r6_rx r end.

Definition EINVAL : Z := 22.
Definition EEXIST : Z := 17.
Definition ENETUNREACH : Z := 101.
Definition EHOSTUNREACH : Z := 113.
Definition IFA_F_DADFAILED : Z := 0x08.
Definition IFA_F_TENTATIVE : Z := 0x40.
Definition RT_TABLE_LOCAL : Z := 255.

Inductive NMIPRouteTableSyncMode :=
| NM_IP_ROUTE_TABLE_SYNC_MODE_MAIN
| NM_IP_ROUTE_TABLE_SYNC_MODE_FULL
| NM_IP_ROUTE_TABLE_SYNC_MODE_ALL.

(** The routes of an interface in the cache, its IPv6 addresses, and the virtual
    functions; the result of a deletion is ignored. *)
Class RoutePlatform (P : Type) := {
  route_lookup (ip4 : bool) (ifindex : Z) : P -> list RouteObject;
  route_ip6_address_lookup (ifindex : Z) : P -> list NMPlatformIP6Address;
  klass_ip_route_add (route : RouteObject) : P -> Z * P;
  klass_object_delete (obj : RouteObject) : P -> P
}.

Section sync.
Context {P : Type} `{RoutePlatform P} `{ByteOrder} `{KernelSupport}.

Definition route_id_equal (a b : RouteObject) : bool := nmp_object_id_equal (mk_at 0 (route_data a)) (mk_at 1 (route_data b)).

(** vt->route_cmp (): of routes of one family. *)
Definition route_cmp (a b : RouteObject) (cmp_type : NMPlatformIPRouteCmpType) : Z :=
  match a, b with
  | IP4_ROUTE a, IP4_ROUTE b => nm_platform_ip4_route_cmp cmp_type a b
  | IP6_ROUTE a, IP6_ROUTE b => nm_platform_ip6_route_cmp cmp_type a b
  | IP4_ROUTE _, IP6_ROUTE _ => -1
  | IP6_ROUTE _, IP4_ROUTE _ => 1
  end.

(** nm_platform_lookup_entry (): identities contain the interface. *)
Definition nm_platform_lookup_entry (self : P) (obj : RouteObject) : option RouteObject :=
  List.find (route_id_equal obj) (route_lookup (is_ip4 obj) (rx_ifindex (ip_route obj)) self).

Definition nm_platform_ip6_address_get (self : P) (ifindex : Z) (address : in6_addr) : option NMPlatformIP6Address :=
  List.find (fun a => (ax_ifindex (a6_ax a) =? ifindex) && IN6_ARE_ADDR_EQUAL (a6_address a) address) (route_ip6_address_lookup ifindex self).

(** ** The list to prune *)

Definition nm_platform_ip_route_get_prune_list (self : P) (ip4 : bool) (ifindex : Z) (route_table_sync : NMIPRouteTableSyncMode)
    : list RouteObject :=
  List.filter (fun obj =>
    match route_table_sync with
    | NM_IP_ROUTE_TABLE_SYNC_MODE_FULL =>
        negb (nm_platform_route_table_uncoerce (rx_table_coerced (ip_route obj)) true =? RT_TABLE_LOCAL)
    | NM_IP_ROUTE_TABLE_SYNC_MODE_MAIN => nm_platform_route_table_is_main (rx_table_coerced (ip_route obj))
    | NM_IP_ROUTE_TABLE_SYNC_MODE_ALL => true
    end) (route_lookup ip4 ifindex self).

(** ** Adding a route *)

Definition VTABLE_IS_DEVICE_ROUTE (o : RouteObject) : bool :=
  match o with IP4_ROUTE r => r4_gateway r =? 0 | IP6_ROUTE r => IN6_IS_ADDR_UNSPECIFIED (r6_gateway r) end.

Definition _err_inval_due_to_ipv6_tentative_pref_src (self : P) (obj : RouteObject) : bool :=
  match obj with
  | IP4_ROUTE _ => false
  | IP6_ROUTE r =>
      if negb (rx_rt_source (r6_rx r) =? NM_IP_CONFIG_SOURCE_USER) then false
      else if IN6_IS_ADDR_UNSPECIFIED (r6_pref_src r) then false
      else
        match nm_platform_ip6_address_get self (rx_ifindex (r6_rx r)) (r6_pref_src r) with
        | None => false
        | Some a =>
            if negb (NM_FLAGS_HAS (ax_n_ifa_flags (a6_ax a)) IFA_F_TENTATIVE) || NM_FLAGS_HAS (ax_n_ifa_flags (a6_ax a)) IFA_F_DADFAILED
            then false else true
        end
  end.

(** The direct route to the gateway of a route. *)
Definition gateway_rx (rx : NMPlatformIPRoute) (plen : Z) : NMPlatformIPRoute :=
  {| rx_ifindex := rx_ifindex rx; rx_rt_source := rx_rt_source rx; rx_plen := plen;
     rx_lock_window := false; rx_lock_cwnd := false; rx_lock_initcwnd := false; rx_lock_initrwnd := false; rx_lock_mtu := false;
     rx_r_rtm_flags := 0; rx_mss := 0; rx_window := 0; rx_cwnd := 0; rx_initcwnd := 0; rx_initrwnd := 0; rx_mtu := 0;
     rx_metric := rx_metric rx; rx_table_coerced := rx_table_coerced rx |}.
Definition gateway_route (o : RouteObject) : RouteObject :=
  match o with
  | IP4_ROUTE rt => IP4_ROUTE {| r4_rx := gateway_rx (r4_rx rt) 32; r4_network := r4_gateway rt; r4_gateway := 0;
                                 r4_pref_src := 0; r4_tos := 0; r4_scope_inv := 0 |}
  | IP6_ROUTE rt => IP6_ROUTE {| r6_rx := gateway_rx (r6_rx rt) 128; r6_network := r6_gateway rt; r6_gateway := replicate 16 x00;
                                 r6_pref_src := replicate 16 x00; r6_src := replicate 16 x00; r6_src_plen := 0; r6_rt_pref := 0 |}
  end.

Inductive AddOutcome := ADD_DONE | ADD_TEMPORARY_NOT_AVAILABLE | ADD_GATEWAY_ROUTE | ADD_FAILED.

(** What follows from the result of adding a route. *)
Definition add_outcome (want_temporary gateway_route_added : bool) (self : P) (conf_o : RouteObject) (r : Z) : AddOutcome :=
  if negb (r <? 0) then ADD_DONE
  else if r =? - EEXIST then ADD_DONE
  else if rx_rt_source (ip_route conf_o) <? NM_IP_CONFIG_SOURCE_USER then ADD_DONE
  else if (r =? - EINVAL) && want_temporary && _err_inval_due_to_ipv6_tentative_pref_src self conf_o then ADD_TEMPORARY_NOT_AVAILABLE
  else if negb gateway_route_added
          && (((r =? - ENETUNREACH) && is_ip4 conf_o && negb (VTABLE_IS_DEVICE_ROUTE conf_o))
              || ((r =? - EHOSTUNREACH) && negb (is_ip4 conf_o) && negb (VTABLE_IS_DEVICE_ROUTE conf_o)))
  then ADD_GATEWAY_ROUTE
  else ADD_FAILED.

(** From the label sync_route_add on: it is reached at most twice. *)
Definition sync_route_add (want_temporary : bool) (conf_o : RouteObject) (self : P) : AddOutcome * P :=
  let '(r, self) := klass_ip_route_add conf_o self in
  match add_outcome want_temporary false self conf_o r with
  | ADD_GATEWAY_ROUTE =>
      let '(_, self) := klass_ip_route_add (gateway_route conf_o) self in
      let '(r, self) := klass_ip_route_add conf_o self in
      (add_outcome want_temporary true self conf_o r, self)
  | o => (o, self)
  end.

(** ** The loops *)

Record SyncState := mk_sync { ss_idx : list RouteObject; ss_success : bool; ss_temporary : list RouteObject; ss_self : P }.

(** One turn of the loop over routes in the run [i_type]. *)
Definition add_turn (want_temporary : bool) (i_type : bool) (st : SyncState) (conf_o : RouteObject) : SyncState :=
  if negb i_type && negb (VTABLE_IS_DEVICE_ROUTE conf_o) || i_type && VTABLE_IS_DEVICE_ROUTE conf_o then st
  else if existsb (route_id_equal conf_o) (ss_idx st) then st
  else
    let st := mk_sync (ss_idx st ++ [conf_o]) (ss_success st) (ss_temporary st) (ss_self st) in
    let add self :=
      let '(o, self) := sync_route_add want_temporary conf_o self in
      match o with
      | ADD_FAILED => mk_sync (ss_idx st) false (ss_temporary st) self
      | ADD_TEMPORARY_NOT_AVAILABLE => mk_sync (ss_idx st) (ss_success st) (ss_temporary st ++ [conf_o]) self
      | _ => mk_sync (ss_idx st) (ss_success st) (ss_temporary st) self
      end in
    match nm_platform_lookup_entry (ss_self st) conf_o with
    | Some plat_o =>
        if route_cmp conf_o plat_o NM_PLATFORM_IP_ROUTE_CMP_TYPE_SEMANTICALLY =? 0 then st
        else add (klass_object_delete plat_o (ss_self st))
    | None => add (ss_self st)
    end.

Definition prune_turn (routes_idx : list RouteObject) (self : P) (prune_o : RouteObject) : P :=
  if existsb (route_id_equal prune_o) routes_idx then self
  else match nm_platform_lookup_entry self prune_o with
       | None => self
       | Some _ => klass_object_delete prune_o self
       end.

(** The result, out_temporary_not_available and the platform.  No list of routes is an empty one. *)
Definition nm_platform_ip_route_sync (routes routes_prune : list RouteObject) (want_temporary : bool) (self : P)
    : bool * list RouteObject * P :=
  let st := mk_sync [] true [] self in
  let st := foldl (add_turn want_temporary false) st routes in
  let st := foldl (add_turn want_temporary true) st routes in
  (ss_success st, ss_temporary st, foldl (prune_turn (ss_idx st)) (ss_self st) routes_prune).

Definition nm_platform_ip_route_flush (addr_family ifindex : Z) (self : P) : bool * P :=
  let flush ip4 self :=
    let routes_prune := nm_platform_ip_route_get_prune_list self ip4 ifindex NM_IP_ROUTE_TABLE_SYNC_MODE_ALL in
    let '(ok, _, self) := nm_platform_ip_route_sync [] routes_prune false self in (ok, self) in
  let '(success, self) := if (addr_family =? 0) || (addr_family =? AF_INET) then flush true self else (true, self) in
  if (addr_family =? 0) || (addr_family =? AF_INET6) then
    let '(ok, self) := flush false self in (success && ok, self)
  else (success, self).
End sync.
