(* ===== verification/RouteSpec.v ===== *)
(** * What synchronizing routes reaches

    Against the class RouteKernel, which says what adding and deleting does to the
    routes of an interface: after nm_platform_ip_route_sync () they are the routes
    asked for, and the others that were not to be pruned. *)

From S2P Require Export Prelude AddrBase RouteSync.

(** ** Keys of routes *)

Definition route_ok (o : RouteObject) : Prop := match o with IP4_ROUTE r => ip4_route_ok r | IP6_ROUTE r => ip6_route_ok r end.

Section keys.
Context `{ByteOrder}.

Definition route_key_of (cmp_type : NMPlatformIPRouteCmpType) (o : RouteObject) : bool * kval :=
  match o with IP4_ROUTE r => (true, ip4_route_key cmp_type r) | IP6_ROUTE r => (false, ip6_route_key cmp_type r) end.
Definition route_id (o : RouteObject) : bool * kval := route_key_of NM_PLATFORM_IP_ROUTE_CMP_TYPE_ID o.

(** The identity of a route and what is compared semantically. *)
Definition route_key (o : RouteObject) : (bool * kval) * (bool * kval) :=
  (route_id o, route_key_of NM_PLATFORM_IP_ROUTE_CMP_TYPE_SEMANTICALLY o).

Lemma route_cmp_spec cmp_type a b :
  route_ok a -> route_ok b -> route_cmp a b cmp_type = 0 <-> route_key_of cmp_type a = route_key_of cmp_type b.
Proof.
  destruct a as [a|a], b as [b|b]; cbn [route_ok route_cmp route_key_of]; intros Ha Hb; try (split; [done|by intros [=]]).
  - rewrite (cmp_key_zero (c := nm_platform_ip4_route_cmp cmp_type) a b) by done. split; [by intros ->|intros E; exact (f_equal snd E)].
  - rewrite (cmp_key_zero (c := nm_platform_ip6_route_cmp cmp_type) a b) by done. split; [by intros ->|intros E; exact (f_equal snd E)].
Qed.

Lemma route_id_equal_spec `{KernelSupport} a b : route_ok a -> route_ok b -> route_id_equal a b = true <-> route_id a = route_id b.
Proof.
  intros Ha Hb. unfold route_id. rewrite <- route_cmp_spec by done. unfold route_id_equal, nmp_object_id_equal, nmp_object_id_cmp.
  rewrite Z.eqb_eq. destruct a as [a|a], b as [b|b]; cbn [at_ptr at_obj route_data obj_type cmd_plobj_id_cmp route_cmp];
    change (0 =? 1) with false; cbv iota; rewrite cmp_then_zero; unfold NM_CMP_DIRECT; cbn; split; (tauto || done).
Qed.
End keys.

(** ** The kernel *)

Section kernel.
Context {P : Type} `{RoutePlatform P} `{ByteOrder} (ip4 : bool) (ifindex : Z).

Definition route_keys (self : P) : list ((bool * kval) * (bool * kval)) := route_key <$> route_lookup ip4 ifindex self.
Definition valid_route (o : RouteObject) : Prop := route_ok o /\ is_ip4 o = ip4 /\ rx_ifindex (ip_route o) = ifindex.
End kernel.

(** Each identity is there at most once.  A deletion removes the route of an identity; an
    addition that succeeds leaves the new route in its place. *)
Class RouteKernel (P : Type) `{RoutePlatform P} `{ByteOrder} (ip4 : bool) (ifindex : Z) := {
  rk_ok : P -> Prop;
  rk_valid self o : rk_ok self -> o ∈ route_lookup ip4 ifindex self -> valid_route ip4 ifindex o;
  rk_unique self : rk_ok self -> NoDup (route_id <$> route_lookup ip4 ifindex self);
  rk_delete self o : rk_ok self -> valid_route ip4 ifindex o ->
    rk_ok (klass_object_delete o self) /\
    forall k, k ∈ route_keys ip4 ifindex (klass_object_delete o self) <-> k ∈ route_keys ip4 ifindex self /\ fst k <> route_id o;
  rk_add self self' o r : rk_ok self -> valid_route ip4 ifindex o -> klass_ip_route_add o self = (r, self') ->
    rk_ok self' /\
    forall k, k ∈ route_keys ip4 ifindex self' <->
      if r <? 0 then k ∈ route_keys ip4 ifindex self
      else k = route_key o \/ k ∈ route_keys ip4 ifindex self /\ fst k <> route_id o
}.

(** ** The order of additions *)

Section order.
Context {P : Type} `{RoutePlatform P} `{ByteOrder} `{KernelSupport}.

(** One addition, of a route of the right kind. *)
Definition add_one (want_temporary : bool) (st : SyncState (P := P)) (conf_o : RouteObject) : SyncState :=
  add_turn want_temporary (negb (VTABLE_IS_DEVICE_ROUTE conf_o)) st conf_o.

(** Device routes before those with a gateway. *)
Definition in_order (routes : list RouteObject) : list RouteObject :=
  List.filter VTABLE_IS_DEVICE_ROUTE routes ++ List.filter (fun o => negb (VTABLE_IS_DEVICE_ROUTE o)) routes.

Lemma run_filter want i_type routes : forall st : SyncState (P := P),
  foldl (add_turn want i_type) st routes
  = foldl (add_one want) st (List.filter (fun o => if i_type : bool then negb (VTABLE_IS_DEVICE_ROUTE o) else VTABLE_IS_DEVICE_ROUTE o) routes).
Proof.
  induction routes as [|o routes IH]; intros st; cbn; [done|]. rewrite IH. clear IH. unfold add_one.
  destruct i_type, (VTABLE_IS_DEVICE_ROUTE o) eqn:E; cbn; rewrite ?E; cbn; try done; unfold add_turn at 2; rewrite E; done.
Qed.

Lemma sync_in_order routes prune want (self : P) :
  nm_platform_ip_route_sync routes prune want self
  = (let st := foldl (add_one want) (mk_sync [] true [] self) (in_order routes) in
     (ss_success st, ss_temporary st, foldl (prune_turn (ss_idx st)) (ss_self st) prune)).
Proof. unfold nm_platform_ip_route_sync. rewrite !run_filter. unfold in_order. rewrite foldl_app. done. Qed.

(** The routes that are added: of those with one identity, the first. *)
Definition first_of (routes : list RouteObject) (o : RouteObject) : Prop :=
  exists l1 l2, routes = l1 ++ o :: l2 /\ route_id o ∉ route_id <$> l1.

Lemma first_of_snoc l x o :
  first_of (l ++ [x]) o <-> first_of l o \/ o = x /\ route_id x ∉ route_id <$> l.
Proof.
  split.
  - intros (l1 & l2 & E & Ho). destruct l2 as [|y l2 _] using rev_ind.
    + apply app_inj_tail in E as [-> ->]. by right.
    + rewrite app_comm_cons, app_assoc in E. apply app_inj_tail in E as [-> ->]. left. by exists l1, l2.
  - intros [(l1 & l2 & -> & Ho)|[-> Hx]]; [exists l1, (l2 ++ [x])|exists l, []]; [|done]. by rewrite <- app_assoc.
Qed.

Lemma first_of_ids l : forall o, o ∈ l -> exists o', first_of l o' /\ route_id o' = route_id o.
Proof.
  induction l as [|x l IH] using rev_ind; intros o; [by intros ?%elem_of_nil|]. intros [Ho|Ho%list_elem_of_singleton]%elem_of_app.
  - destruct (IH o Ho) as (o' & Hf & E). exists o'. rewrite first_of_snoc. auto.
  - subst x. destruct (decide (route_id o ∈ route_id <$> l)) as [(y & E & Hy)%list_elem_of_fmap|Hn].
    + destruct (IH y Hy) as (o' & Hf & E'). exists o'. rewrite first_of_snoc. split; [by left|congruence].
    + exists o. rewrite first_of_snoc. auto.
Qed.
End order.

(** ** The loops *)

Section loops.
Context {P : Type} `{RoutePlatform P} `{ByteOrder} `{KernelSupport} (ip4 : bool) (ifindex : Z) `{!RouteKernel P ip4 ifindex}.
Implicit Types (self : P) (o : RouteObject).

Lemma lookup_entry_spec self o :
  rk_ok self -> valid_route ip4 ifindex o ->
  match nm_platform_lookup_entry self o with
  | Some p => p ∈ route_lookup ip4 ifindex self /\ route_id p = route_id o
  | None => forall k, k ∈ route_keys ip4 ifindex self -> fst k <> route_id o
  end.
Proof.
  intros Hok (Ho & Hfam & Hif). unfold nm_platform_lookup_entry. rewrite Hfam, Hif.
  assert (Heq : forall p, p ∈ route_lookup ip4 ifindex self -> route_id_equal o p = true <-> route_id p = route_id o).
  { intros p Hp. rewrite route_id_equal_spec; [|done|by apply (rk_valid self)]. split; congruence. }
  destruct (List.find _ _) as [p|] eqn:E.
  - apply List.find_some in E as [Hp%list_elem_of_In Hpo]. by rewrite <- Heq.
  - intros k (p & -> & Hp)%list_elem_of_fmap Hk. apply (Heq p Hp) in Hk. apply list_elem_of_In in Hp.
    by rewrite (List.find_none _ _ E p Hp) in Hk.
Qed.

(** The lookup in routes_idx. *)
Lemma idx_member idx o :
  Forall (valid_route ip4 ifindex) idx -> valid_route ip4 ifindex o ->
  existsb (route_id_equal o) idx = true <-> route_id o ∈ route_id <$> idx.
Proof.
  intros Hv Ho. rewrite existsb_exists, list_elem_of_fmap. rewrite Forall_forall in Hv. split; intros (a & Ha & Ha').
  - rewrite <- list_elem_of_In in Ha. exists a. split; [|done]. apply route_id_equal_spec; [apply Ho|by apply Hv|done].
  - exists a. rewrite <- list_elem_of_In. split; [done|]. apply route_id_equal_spec; [apply Ho|by apply Hv|done].
Qed.

(** Keys of one identity on the interface are equal. *)
Lemma keys_by_id self k k' :
  rk_ok self -> k ∈ route_keys ip4 ifindex self -> k' ∈ route_keys ip4 ifindex self -> fst k = fst k' -> k = k'.
Proof.
  intros Hok (a & -> & Ha)%list_elem_of_fmap (b & -> & Hb)%list_elem_of_fmap E.
  by rewrite (fmap_inj_on route_id _ a b (rk_unique self Hok) Ha Hb E).
Qed.

(** What is added so far, and what was there before. *)
Definition add_inv self0 (st : SyncState (P := P)) : Prop :=
  rk_ok (ss_self st) /\ ss_success st = true /\ ss_temporary st = [] /\ Forall (valid_route ip4 ifindex) (ss_idx st) /\
  forall k, k ∈ route_keys ip4 ifindex (ss_self st) <->
    k ∈ route_key <$> ss_idx st \/ k ∈ route_keys ip4 ifindex self0 /\ fst k ∉ route_id <$> ss_idx st.

(** The new route in the place of what had its identity. *)
Lemma add_inv_new self0 st o self' :
  add_inv self0 st -> valid_route ip4 ifindex o -> route_id o ∉ route_id <$> ss_idx st -> rk_ok self' ->
  (forall k, k ∈ route_keys ip4 ifindex self' <-> k = route_key o \/ k ∈ route_keys ip4 ifindex (ss_self st) /\ fst k <> route_id o) ->
  add_inv self0 (mk_sync (ss_idx st ++ [o]) (ss_success st) (ss_temporary st) self').
Proof.
  intros (Hok & Hs & Ht & Hv & Hk) Ho Hn Hok' Hk'. split_and!; cbn; [done..| |].
  - apply Forall_app. auto.
  - intros k. rewrite Hk', Hk, !fmap_app, !elem_of_app. cbn. rewrite !list_elem_of_singleton.
    assert (Hidx : k ∈ route_key <$> ss_idx st -> fst k <> route_id o).
    { intros (a & -> & Ha)%list_elem_of_fmap E. apply Hn. rewrite <- E. by apply (list_elem_of_fmap_2 route_id). }
    tauto.
Qed.

Section adds_succeed.
Hypothesis Hadds : forall self o, rk_ok self -> valid_route ip4 ifindex o -> 0 <= fst (klass_ip_route_add o self).

Lemma sync_route_add_done want self o :
  rk_ok self -> valid_route ip4 ifindex o ->
  exists self', sync_route_add want o self = (ADD_DONE, self') /\ rk_ok self' /\
    forall k, k ∈ route_keys ip4 ifindex self' <-> k = route_key o \/ k ∈ route_keys ip4 ifindex self /\ fst k <> route_id o.
Proof.
  intros Hok Ho. unfold sync_route_add. pose proof (Hadds self o Hok Ho) as Hr. destruct (klass_ip_route_add o self) as [r self'] eqn:E. cbn in Hr.
  destruct (rk_add self self' o r Hok Ho E) as [Hok' Hk]. unfold add_outcome. rewrite (proj2 (Z.ltb_ge r 0) Hr) in *. cbn. eauto.
Qed.

Lemma add_one_inv want self0 st o :
  add_inv self0 st -> valid_route ip4 ifindex o ->
  add_inv self0 (add_one want st o) /\
  ss_idx (add_one want st o) = if decide (route_id o ∈ route_id <$> ss_idx st) then ss_idx st else ss_idx st ++ [o].
Proof.
  intros Hst Ho. pose proof Hst as (Hok & Hs & Ht & Hv & Hk). unfold add_one, add_turn.
  replace (negb _ && _ || _) with false by (by destruct (VTABLE_IS_DEVICE_ROUTE o)).
  pose proof (idx_member (ss_idx st) o Hv Ho) as Hin.
  destruct (existsb _ _) eqn:E.
  { split; [done|]. by rewrite decide_True by tauto. }
  assert (Hn : route_id o ∉ route_id <$> ss_idx st) by (intros Hx; by apply Hin in Hx). rewrite decide_False by done. cbn.
  pose proof (lookup_entry_spec (ss_self st) o Hok Ho) as Hl. destruct (nm_platform_lookup_entry (ss_self st) o) as [p|].
  - destruct Hl as [Hp Eid]. assert (Hvp : valid_route ip4 ifindex p) by (by apply (rk_valid (ss_self st))).
    pose proof (route_cmp_spec NM_PLATFORM_IP_ROUTE_CMP_TYPE_SEMANTICALLY o p (proj1 Ho) (proj1 Hvp)) as Hc.
    destruct (Z.eqb_spec (route_cmp o p NM_PLATFORM_IP_ROUTE_CMP_TYPE_SEMANTICALLY) 0) as [Ec|Ec].
    + split; [|done]. apply add_inv_new; [done..|]. apply Hc in Ec. assert (Ek : route_key p = route_key o) by (unfold route_key; by rewrite Ec, Eid).
      assert (Hkp : route_key p ∈ route_keys ip4 ifindex (ss_self st)) by (by apply (list_elem_of_fmap_2 route_key)).
      intros k. destruct (decide (fst k = route_id o)) as [Ek'|Ek']; [|tauto || (split; [tauto|intros [->|?]; tauto])].
      split; [intros Hk'; left|by intros [->|[_ ?]]; [rewrite <- Ek|]].
      rewrite <- Ek. apply (keys_by_id (ss_self st)); [done..|]. by rewrite Ek', Ek.
    + destruct (rk_delete (ss_self st) p Hok Hvp) as [Hok1 Hk1].
      destruct (sync_route_add_done want (klass_object_delete p (ss_self st)) o Hok1 Ho) as (self' & E' & Hok' & Hk'). rewrite E'. cbn.
      split; [|done]. apply add_inv_new; [done..|]. intros k. rewrite Hk', Hk1, Eid. tauto.
  - destruct (sync_route_add_done want (ss_self st) o Hok Ho) as (self' & E' & Hok' & Hk'). rewrite E'. cbn.
    split; [|done]. by apply add_inv_new.
Qed.

Lemma add_loop_inv want self0 routes :
  rk_ok self0 -> Forall (valid_route ip4 ifindex) routes ->
  let st := foldl (add_one want) (mk_sync [] true [] self0) routes in
  add_inv self0 st /\ forall o, o ∈ ss_idx st <-> first_of routes o.
Proof.
  intros Hok. induction routes as [|o routes IH] using rev_ind; intros Hv; cbn.
  - split.
    + split_and!; [done..|constructor|]. cbn. intros k. rewrite !elem_of_nil. pose proof (not_elem_of_nil (fst k)). tauto.
    + intros o. rewrite elem_of_nil. split; [done|]. intros ([|? ?] & ? & ? & _); done.
  - apply Forall_app in Hv as [Hv Ho]. apply Forall_cons in Ho as [Ho _]. destruct (IH Hv) as [Hinv Hidx]. rewrite foldl_app. cbn.
    destruct (add_one_inv want self0 _ o Hinv Ho) as [Hinv' Hidx']. split; [done|]. intros a. rewrite Hidx', first_of_snoc.
    assert (Hids : route_id o ∈ route_id <$> ss_idx (foldl (add_one want) (mk_sync [] true [] self0) routes) <-> route_id o ∈ route_id <$> routes).
    { rewrite !list_elem_of_fmap. split; intros (b & E & Hb).
      - apply Hidx in Hb as (l1 & l2 & -> & _). exists b. split; [done|]. apply elem_of_app. right. left.
      - destruct (first_of_ids routes b Hb) as (c & Hc & Ec). exists c. rewrite Hidx. split; [congruence|done]. }
    destruct (decide _) as [Hd|Hd]; [|rewrite elem_of_app, list_elem_of_singleton]; rewrite Hidx; [|rewrite <- Hids; tauto].
    rewrite <- Hids. split; [by left|]. intros [?|[-> ?]]; done.
Qed.
End adds_succeed.

Lemma prune_loop idx prune : forall self,
  rk_ok self -> Forall (valid_route ip4 ifindex) idx -> Forall (valid_route ip4 ifindex) prune ->
  let self' := foldl (prune_turn idx) self prune in
  rk_ok self' /\
  forall k, k ∈ route_keys ip4 ifindex self' <->
    k ∈ route_keys ip4 ifindex self /\ (fst k ∉ route_id <$> prune \/ fst k ∈ route_id <$> idx).
Proof.
  induction prune as [|o prune IH]; intros self Hok Hv Hp; cbn.
  - split; [done|]. intros k. rewrite elem_of_nil. tauto.
  - apply Forall_cons in Hp as [Ho Hp].
    assert (Hstep : rk_ok (prune_turn idx self o) /\ forall k, k ∈ route_keys ip4 ifindex (prune_turn idx self o) <->
              k ∈ route_keys ip4 ifindex self /\ (fst k <> route_id o \/ fst k ∈ route_id <$> idx)).
    { unfold prune_turn. pose proof (idx_member idx o Hv Ho) as Hin.
      destruct (existsb _ _) eqn:E.
      - split; [done|]. intros k. destruct (decide (fst k = route_id o)) as [Ek|]; [rewrite Ek|]; tauto.
      - assert (Hn : route_id o ∉ route_id <$> idx) by (intros Hx; by apply Hin in Hx).
        pose proof (lookup_entry_spec self o Hok Ho) as Hl. destruct (nm_platform_lookup_entry self o) as [p|].
        + destruct (rk_delete self o Hok Ho) as [Hok' Hk]. split; [done|]. intros k. rewrite Hk.
          destruct (decide (fst k = route_id o)) as [Ek|]; [rewrite Ek|]; tauto.
        + split; [done|]. intros k. specialize (Hl k). tauto. }
    destruct Hstep as [Hok1 Hk1]. destruct (IH _ Hok1 Hv Hp) as [Hok2 Hk2]. split; [done|]. intros k. rewrite Hk2, Hk1.
    csimpl. rewrite !not_elem_of_cons. tauto.
Qed.
End loops.

(** ** The whole function *)

Section spec.
Context {P : Type} `{RoutePlatform P} `{ByteOrder} `{KernelSupport} (ip4 : bool) (ifindex : Z) `{!RouteKernel P ip4 ifindex}.
Implicit Types (self : P).

Lemma sync_keys routes prune want self :
  (forall self o, rk_ok self -> valid_route ip4 ifindex o -> 0 <= fst (klass_ip_route_add o self)) ->
  rk_ok self -> Forall (valid_route ip4 ifindex) routes -> Forall (valid_route ip4 ifindex) prune ->
  exists self', nm_platform_ip_route_sync routes prune want self = (true, [], self') /\ rk_ok self' /\
    forall k, k ∈ route_keys ip4 ifindex self' <->
      (exists o, first_of (in_order routes) o /\ k = route_key o) \/
      k ∈ route_keys ip4 ifindex self /\ fst k ∉ route_id <$> routes /\ fst k ∉ route_id <$> prune.
Proof.
  intros Hadds Hok Hr Hp. rewrite sync_in_order. cbn zeta.
  assert (Hord : routes ≡ₚ in_order routes).
  { unfold in_order. clear. induction routes as [|o l IH]; cbn; [done|]. destruct (VTABLE_IS_DEVICE_ROUTE o); cbn; [by constructor|].
    rewrite <- Permutation_middle. by constructor. }
  assert (Hr' : Forall (valid_route ip4 ifindex) (in_order routes)) by (by rewrite <- Hord).
  destruct (add_loop_inv ip4 ifindex Hadds want self (in_order routes) Hok Hr') as [(Hok1 & -> & -> & Hv & Hk) Hidx].
  set (st := foldl _ _ _) in *. destruct (prune_loop ip4 ifindex (ss_idx st) prune (ss_self st) Hok1 Hv Hp) as [Hok2 Hk2].
  eexists. split; [done|]. split; [done|]. intros k. rewrite Hk2, Hk.
  assert (Hkeys : k ∈ route_key <$> ss_idx st <-> exists o, first_of (in_order routes) o /\ k = route_key o).
  { rewrite list_elem_of_fmap. split; intros (o & ? & ?); exists o; [rewrite <- Hidx|rewrite Hidx]; done. }
  assert (Hids : forall i, i ∈ route_id <$> ss_idx st <-> i ∈ route_id <$> routes).
  { intros i. rewrite Hord, !list_elem_of_fmap. split; intros (o & -> & Ho).
    - apply Hidx in Ho as (l1 & l2 & -> & _). exists o. split; [done|]. apply elem_of_app. right. left.
    - destruct (first_of_ids _ o Ho) as (o' & Hf & E). exists o'. rewrite Hidx. done. }
  rewrite Hkeys, (Hids (fst k)). split; [tauto|]. intros [(o & Hf & ->)|?]; [|tauto]. split; [left; eauto|right].
  destruct Hf as (l1 & l2 & E & _). rewrite Hord, E. cbn. rewrite fmap_app. apply elem_of_app. right. left.
Qed.

(** C18: If the kernel accepts the routes, nm_platform_ip_route_sync() returns TRUE with nothing to
    retry, and the routes of the interface are exactly the routes asked for (of those with one
    identity the first, device routes before those with a gateway) and the routes it
    had before that have neither the identity of a route asked for nor of one to prune. *)
Theorem ip_route_sync_exact routes prune want self :
  (forall self o, rk_ok self -> valid_route ip4 ifindex o -> 0 <= fst (klass_ip_route_add o self)) ->
  rk_ok self -> Forall (valid_route ip4 ifindex) routes -> Forall (valid_route ip4 ifindex) prune ->
  exists self', nm_platform_ip_route_sync routes prune want self = (true, [], self') /\ rk_ok self' /\
    forall k, k ∈ route_keys ip4 ifindex self' <->
      (exists o, first_of (in_order routes) o /\ k = route_key o) \/
      k ∈ route_keys ip4 ifindex self /\ fst k ∉ route_id <$> routes /\ fst k ∉ route_id <$> prune.
Proof. apply sync_keys. Qed.

(** Which routes a mode lets the synchronization delete. *)
Definition mode_prunes (mode : NMIPRouteTableSyncMode) (o : RouteObject) : bool :=
  let table := rx_table_coerced (ip_route o) in
  match mode with
  | NM_IP_ROUTE_TABLE_SYNC_MODE_MAIN => nm_platform_route_table_is_main table
  | NM_IP_ROUTE_TABLE_SYNC_MODE_FULL => negb (nm_platform_route_table_uncoerce table true =? RT_TABLE_LOCAL)
  | NM_IP_ROUTE_TABLE_SYNC_MODE_ALL => true
  end.

Lemma prune_list_spec mode self :
  nm_platform_ip_route_get_prune_list self ip4 ifindex mode = List.filter (mode_prunes mode) (route_lookup ip4 ifindex self).
Proof. apply List.filter_ext. intros o. by destruct mode. Qed.

Lemma prune_list_ids mode self k :
  rk_ok self -> k ∈ route_keys ip4 ifindex self ->
  fst k ∉ route_id <$> nm_platform_ip_route_get_prune_list self ip4 ifindex mode <->
  exists o, o ∈ route_lookup ip4 ifindex self /\ k = route_key o /\ mode_prunes mode o = false.
Proof.
  intros Hok Hk. rewrite prune_list_spec. apply list_elem_of_fmap in Hk as (o & -> & Ho). split.
  - intros Hn. exists o. split_and!; [done..|]. apply not_true_iff_false. intros Hm. apply Hn.
    by apply (list_elem_of_fmap_2 route_id), elem_of_filter_b.
  - intros (o' & Ho' & E & Hm) (a & Ea & [Hma Ha]%elem_of_filter_b)%list_elem_of_fmap. injection E as E _. cbn in Ea.
    assert (a = o') as -> by (apply (fmap_inj_on route_id _ a o' (rk_unique self Hok)); [done..|congruence]). congruence.
Qed.

(** Synchronizing against the list of nm_platform_ip_route_get_prune_list() leaves on the
    interface the routes asked for and, of the others, exactly those that the mode exempts: in
    mode MAIN the routes of other tables, in mode FULL those of the local table, in mode ALL none. *)
Theorem ip_route_sync_mode routes mode want self :
  (forall self o, rk_ok self -> valid_route ip4 ifindex o -> 0 <= fst (klass_ip_route_add o self)) ->
  rk_ok self -> Forall (valid_route ip4 ifindex) routes ->
  exists self',
    nm_platform_ip_route_sync routes (nm_platform_ip_route_get_prune_list self ip4 ifindex mode) want self = (true, [], self') /\
    forall k, k ∈ route_keys ip4 ifindex self' <->
      (exists o, first_of (in_order routes) o /\ k = route_key o) \/
      (exists o, o ∈ route_lookup ip4 ifindex self /\ k = route_key o /\ mode_prunes mode o = false /\ route_id o ∉ route_id <$> routes).
Proof.
  intros Hadds Hok Hr. destruct (sync_keys routes (nm_platform_ip_route_get_prune_list self ip4 ifindex mode) want self) as (self' & E & _ & Hk);
    [done..| |].
  { rewrite prune_list_spec. apply Forall_forall. intros o [_ Ho]%elem_of_filter_b. by apply (rk_valid self). }
  exists self'. split; [done|]. intros k. rewrite Hk. apply or_iff_compat_l. split.
  - intros (Hin & Hn & Hp). apply prune_list_ids in Hp as (o & Ho & -> & Hm); [|done..]. eauto.
  - intros (o & Ho & -> & Hm & Hn). assert (Hin : route_key o ∈ route_keys ip4 ifindex self) by (by apply (list_elem_of_fmap_2 route_key)).
    split_and!; [done..|]. apply prune_list_ids; [done..|]. eauto.
Qed.
End spec.

(** ** Failure *)

Section failure.
Context {P : Type} `{RoutePlatform P} `{ByteOrder} `{KernelSupport}.

Lemma add_outcome_failed want added (self : P) o r :
  add_outcome want added self o r = ADD_FAILED \/ add_outcome want added self o r = ADD_GATEWAY_ROUTE ->
  NM_IP_CONFIG_SOURCE_USER <= rx_rt_source (ip_route o).
Proof.
  unfold add_outcome. destruct (negb (r <? 0)); [by intros []|]. destruct (r =? - EEXIST); [by intros []|].
  destruct (Z.ltb_spec (rx_rt_source (ip_route o)) NM_IP_CONFIG_SOURCE_USER); [by intros []|done].
Qed.

Lemma add_one_success want (st : SyncState (P := P)) o :
  ss_success st = true -> rx_rt_source (ip_route o) < NM_IP_CONFIG_SOURCE_USER -> ss_success (add_one want st o) = true.
Proof.
  intros Hs Ho. unfold add_one, add_turn. destruct (negb _ && _ || _); [done|]. destruct (existsb _ _); [done|]. cbn.
  assert (Hadd : forall self self' out, sync_route_add want o self = (out, self') -> out <> ADD_FAILED).
  { intros self self' out. unfold sync_route_add. destruct (klass_ip_route_add o self) as [r self1].
    destruct (add_outcome want false self1 o r) eqn:E; try (by intros [= <- <-]).
    - pose proof (add_outcome_failed want false self1 o r (or_intror E)). lia.
    - pose proof (add_outcome_failed want false self1 o r (or_introl E)). lia. }
  destruct (nm_platform_lookup_entry _ _) as [p|].
  - destruct (route_cmp _ _ _ =? 0); [done|]. destruct (sync_route_add _ _ _) as [out self'] eqn:E. apply Hadd in E. by destruct out.
  - destruct (sync_route_add _ _ _) as [out self'] eqn:E. apply Hadd in E. by destruct out.
Qed.

(** C22: nm_platform_ip_route_sync() fails only for a route of the user: whatever the kernel
    answers, it returns TRUE where every route has another source (DHCP, router
    advertisements, the kernel). *)
Theorem ip_route_sync_failure routes prune want (self : P) :
  Forall (fun o => rx_rt_source (ip_route o) < NM_IP_CONFIG_SOURCE_USER) routes ->
  fst (fst (nm_platform_ip_route_sync routes prune want self)) = true.
Proof.
  intros Hr. rewrite sync_in_order. cbn. assert (Hr' : Forall (fun o => rx_rt_source (ip_route o) < NM_IP_CONFIG_SOURCE_USER) (in_order routes)).
  { rewrite Forall_forall in *. intros o. unfold in_order. rewrite elem_of_app, !elem_of_filter_b. intros [[_ Ho]|[_ Ho]]; auto. }
  assert (Hgen : forall st : SyncState (P := P), ss_success st = true -> ss_success (foldl (add_one want) st (in_order routes)) = true).
  { induction Hr' as [|o l Ho _ IH]; intros st Hs; cbn; [done|]. by apply IH, add_one_success. }
  by apply Hgen.
Qed.
End failure.

(** ** Flushing, and a sample kernel *)

Section flush.
Context {P : Type} `{RoutePlatform P} `{ByteOrder} `{KernelSupport} (ifindex : Z) `{!RouteKernel P true ifindex}.

(** No IPv4 route is left. *)
Lemma ip_route_flush_empty (self : P) :
  (forall self o, rk_ok self -> valid_route true ifindex o -> 0 <= fst (klass_ip_route_add o self)) -> rk_ok self ->
  exists self', nm_platform_ip_route_flush AF_INET ifindex self = (true, self') /\ route_lookup true ifindex self' = [].
Proof.
  intros Hadds Hok.
  set (prune := nm_platform_ip_route_get_prune_list self true ifindex NM_IP_ROUTE_TABLE_SYNC_MODE_ALL).
  assert (Hp : Forall (valid_route true ifindex) prune).
  { unfold prune. rewrite (prune_list_spec true). apply Forall_forall. intros o [_ Ho]%elem_of_filter_b. by apply (rk_valid self). }
  destruct (sync_keys true ifindex [] prune false self) as (self' & E & Hok' & Hk); [done..|].
  exists self'. unfold nm_platform_ip_route_flush. cbn [Z.eqb orb AF_INET AF_INET6]. fold prune. rewrite E. split; [done|].
  destruct (route_lookup true ifindex self') as [|o l] eqn:El; [done|].
  destruct (proj1 (Hk (route_key o))) as [(o' & ([|? ?] & ? & ? & _) & _)|(Hin & _ & Hn)]; [|done..|].
  - unfold route_keys. rewrite El. left.
  - apply (prune_list_ids true ifindex) in Hn as (o' & _ & _ & Hm); done.
Qed.
End flush.

Section sample.
Context `{ByteOrder} `{KernelSupport} (ip4 : bool) (ifindex : Z).

(** The routes of one interface and family; every addition succeeds. *)
#[export] Instance sample_routes : RoutePlatform (list RouteObject) := {|
  route_lookup _ _ l := l;
  route_ip6_address_lookup _ _ := [];
  klass_ip_route_add o l := (0, o :: List.filter (fun x => negb (bool_decide (route_id x = route_id o))) l);
  klass_object_delete o l := List.filter (fun x => negb (bool_decide (route_id x = route_id o))) l
|}.

Lemma sample_without l o k :
  k ∈ route_key <$> List.filter (fun x => negb (bool_decide (route_id x = route_id o))) l <-> k ∈ route_key <$> l /\ fst k <> route_id o.
Proof.
  rewrite !list_elem_of_fmap. setoid_rewrite elem_of_filter_b. setoid_rewrite negb_true_iff. setoid_rewrite bool_decide_eq_false. split.
  - intros (x & -> & Hn & Hx). eauto.
  - intros ((x & -> & Hx) & Hn). exists x. done.
Qed.

#[export, refine] Instance sample_route_kernel : RouteKernel (list RouteObject) ip4 ifindex := {|
  rk_ok l := Forall (valid_route ip4 ifindex) l /\ NoDup (route_id <$> l)
|}.
Proof.
  - intros l o [Hv _] Ho. by eapply Forall_forall in Hv.
  - by intros l [_ Hn].
  - intros l o [Hv Hn] Ho. split; [|apply sample_without]. split; [|by apply NoDup_fmap_filter_b].
    rewrite Forall_forall in *. intros x [_ Hx]%elem_of_filter_b. auto.
  - intros l l' o r [Hv Hn] Ho E. cbn in E. injection E as <- <-. split.
    + split; csimpl.
      * constructor; [done|]. rewrite Forall_forall in *. intros x [_ Hx]%elem_of_filter_b. auto.
      * constructor; [|by apply NoDup_fmap_filter_b]. intros (x & E & [Hx _]%elem_of_filter_b)%list_elem_of_fmap.
        apply negb_true_iff, bool_decide_eq_false in Hx. done.
    + intros k. unfold route_keys. cbn. rewrite elem_of_cons. change (map ?f ?l) with (f <$> l). rewrite sample_without. done.
Defined.
End sample.

Definition sample_route (table_coerced network plen gateway metric source : Z) : RouteObject :=
  IP4_ROUTE {| r4_rx := {| rx_ifindex := 1; rx_rt_source := source; rx_plen := plen;
                           rx_lock_window := false; rx_lock_cwnd := false; rx_lock_initcwnd := false; rx_lock_initrwnd := false;
                           rx_lock_mtu := false; rx_r_rtm_flags := 0; rx_mss := 0; rx_window := 0; rx_cwnd := 0; rx_initcwnd := 0;
                           rx_initrwnd := 0; rx_mtu := 0; rx_metric := metric; rx_table_coerced := table_coerced |};
               r4_network := network; r4_gateway := gateway; r4_pref_src := 0; r4_tos := 0; r4_scope_inv := 0 |}.

(** A default route by a gateway and the subnet of the gateway. *)
Definition default_route : RouteObject := sample_route 0 0 0 0x0a000001 100 NM_IP_CONFIG_SOURCE_USER.
Definition subnet_route : RouteObject := sample_route 0 0x0a000000 24 0 100 NM_IP_CONFIG_SOURCE_USER.
(** An old route of the main table, and one of another table. *)
Definition old_route : RouteObject := sample_route 0 0x0a090000 16 0 100 NM_IP_CONFIG_SOURCE_USER.
Definition other_table_route : RouteObject := sample_route 200 0x0a090000 16 0 100 NM_IP_CONFIG_SOURCE_USER.

Definition route_sync_sample (self : list RouteObject) : bool * list RouteObject * list RouteObject :=
  @nm_platform_ip_route_sync _ (@sample_routes true) true (fun _ => true) [default_route; subnet_route]
    (@nm_platform_ip_route_get_prune_list _ (@sample_routes true) self true 1 NM_IP_ROUTE_TABLE_SYNC_MODE_MAIN) true self.

(** The subnet first, then the route by the gateway. *)
Example route_sync_order :
  route_sync_sample [old_route; other_table_route] = (true, [], [default_route; subnet_route; other_table_route]).
Proof. vm_compute. reflexivity. Qed.

Lemma sample_routes_ok : @rk_ok _ (@sample_routes true) true true 1 (@sample_route_kernel true true 1) [old_route; other_table_route].
Proof. split; [repeat constructor; cbn; done|]. apply (bool_decide_unpack (NoDup _)). by vm_compute. Qed.

Lemma sample_wanted_ok : Forall (valid_route true 1) [default_route; subnet_route].
Proof. repeat constructor; cbn; done. Qed.

Lemma ip_route_sync_exact_witness :
  exists self', @nm_platform_ip_route_sync _ (@sample_routes true) true (fun _ => true) [default_route; subnet_route] [old_route] true
      [old_route; other_table_route] = (true, [], self') /\
    @route_key true other_table_route ∈ @route_keys _ (@sample_routes true) true true 1 self'.
Proof.
  destruct (@ip_route_sync_exact _ (@sample_routes true) true (fun _ => true) true 1 (@sample_route_kernel true true 1)
    [default_route; subnet_route] [old_route] true [old_route; other_table_route]) as (self' & E & _ & Hk);
    [done|exact sample_routes_ok|exact sample_wanted_ok|repeat constructor; cbn; done|].
  exists self'. split; [exact E|]. apply Hk. right. split; [right; left|].
  split; apply (bool_decide_unpack (_ ∉ _)); vm_compute; reflexivity.
Defined.

Lemma ip_route_sync_mode_witness :
  exists self', route_sync_sample [old_route; other_table_route] = (true, [], self') /\
    @route_key true other_table_route ∈ @route_keys _ (@sample_routes true) true true 1 self'.
Proof.
  destruct (@ip_route_sync_mode _ (@sample_routes true) true (fun _ => true) true 1 (@sample_route_kernel true true 1)
    [default_route; subnet_route] NM_IP_ROUTE_TABLE_SYNC_MODE_MAIN true [old_route; other_table_route]) as (self' & E & Hk);
    [done|exact sample_routes_ok|exact sample_wanted_ok|].
  exists self'. split; [exact E|]. apply Hk. right. exists other_table_route. split; [right; left|].
  split; [reflexivity|]. split; [reflexivity|]. apply (bool_decide_unpack (_ ∉ _)). vm_compute. reflexivity.
Defined.

Lemma ip_route_sync_failure_witness :
  fst (fst (@nm_platform_ip_route_sync _ (@sample_routes true) true (fun _ => true)
    [sample_route 0 0 0 0x0a000001 100 NM_IP_CONFIG_SOURCE_DHCP] [] true [])) = true.
Proof. apply ip_route_sync_failure. repeat constructor. Defined.
