(* ===== verification/DedupObj.v ===== *)
(** * Reference-counted objects and the pool of interned ones

    shared/nm-glib-aux/nm-dedup-multi.c: NMDedupMultiObj.  Objects live in memory
    with a reference count; the index keeps a pool of objects (idx_objs) in which
    no two are equal, and an object leaves the pool with its last reference.  An
    object may hold a reference of another one (a link of its link data), which
    it gives up when it is destroyed.

    Operations are partial: there is no result where memory is used that does
    not exist (any more).  Reference counts are not bounded. *)

From S2P Require Export Bytes CmpOrder PlatformRule HashTable.

(** ** Counting in maps *)

Definition map_count {A} (p : positive -> A -> bool) (m : gmap positive A) : nat :=
  size (filter (fun kv => p kv.1 kv.2 = true) m).

Section count.
Context {A : Type}.
Implicit Types (m : gmap positive A) (p : positive -> A -> bool).

Lemma map_count_insert p m k a :
  m !! k = None -> map_count p (<[k:=a]> m) = ((if p k a then 1 else 0) + map_count p m)%nat.
Proof.
  intros Hk. unfold map_count. destruct (p k a) eqn:E.
  - rewrite map_filter_insert_True by done. apply map_size_insert_None. apply map_lookup_filter_None. by left.
  - rewrite map_filter_insert_False by (cbn; congruence). by rewrite delete_id.
Qed.

Lemma map_count_delete p m k a :
  m !! k = Some a -> map_count p m = ((if p k a then 1 else 0) + map_count p (delete k m))%nat.
Proof. intros Hk. rewrite <-map_count_insert by apply lookup_delete_eq. by rewrite insert_delete_id. Qed.

Lemma map_count_replace p m k a b :
  m !! k = Some a ->
  (map_count p (<[k:=b]> m) + (if p k a then 1 else 0) = map_count p m + (if p k b then 1 else 0))%nat.
Proof.
  intros Hk. rewrite <-insert_delete_eq, map_count_insert by apply lookup_delete_eq.
  rewrite (map_count_delete p m k a Hk). lia.
Qed.

Lemma map_count_pos p m k a : m !! k = Some a -> p k a = true -> (0 < map_count p m)%nat.
Proof. intros Hk Hp. rewrite (map_count_delete p m k a Hk), Hp. lia. Qed.

Lemma map_count_none p m : map_count p m = 0%nat <-> forall k a, m !! k = Some a -> p k a = false.
Proof.
  split.
  - intros Hc k a Hk. destruct (p k a) eqn:E; [|done]. pose proof (map_count_pos p m k a Hk E). lia.
  - intros Hn. unfold map_count. apply map_size_empty_iff, map_eq. intros k. rewrite lookup_empty.
    apply map_lookup_filter_None. destruct (m !! k) as [a|] eqn:Hk; [|by left]. right. intros ? [= <-]. cbn. by rewrite (Hn k a Hk).
Qed.

Lemma map_count_ext p q m : (forall k a, m !! k = Some a -> p k a = q k a) -> map_count p m = map_count q m.
Proof.
  intros Hpq. unfold map_count. apply (f_equal size), map_filter_ext. intros k a Hk. cbn. rewrite (Hpq k a Hk). done.
Qed.
End count.

Lemma map_count_fmap {A B} (f : B -> A) p (m : gmap positive B) : map_count p (f <$> m) = map_count (fun k b => p k (f b)) m.
Proof.
  induction m as [|k b m Hk IH] using map_ind; [done|].
  rewrite fmap_insert. rewrite (map_count_insert _ (f <$> m)) by (by rewrite lookup_fmap, Hk).
  by rewrite (map_count_insert _ m), IH.
Qed.

(** ** Classes of objects *)

(** NMDedupMultiObjClass: the class pointer, obj_needs_clone (), the hash of
    _dict_idx_objs_hash () and obj_full_equal (); what obj_clone () takes a reference
    of and obj_destroy () releases, and how deep such references go. *)
Class NMDedupMultiObjClass (A : Type) := {
  obj_klass : A -> Z;
  obj_needs_clone : A -> bool;
  obj_full_hash : At A -> Z;
  obj_full_equal : At A -> At A -> bool;
  obj_holds : A -> option positive;
  obj_rank : A -> nat
}.

(** Objects are at positive addresses; what is not in an index may be elsewhere. *)
Definition boxed {A} (o : positive) (v : A) : At A := mk_at (Zpos o) v.

(** The laws: an object has a key that full comparison looks at; what it needs of
    the memory is what it refers to. *)
Class DedupObjLaws (A : Type) `{NMDedupMultiObjClass A} := {
  full_key : At A -> kval;
  obj_ok : gmap positive A -> A -> Prop;
  obj_ok_holds m v c : obj_ok m v -> obj_holds v = Some c -> exists w, m !! c = Some w /\ (obj_rank w < obj_rank v)%nat;
  obj_ok_local m m' v : obj_ok m v -> (forall c, obj_holds v = Some c -> m' !! c = m !! c) -> obj_ok m' v;
  full_equal_key m p q v w :
    m !! p = Some v -> m !! q = Some w -> obj_ok m v -> obj_ok m w ->
    obj_full_equal (boxed p v) (boxed q w) = true <-> full_key (boxed p v) = full_key (boxed q w);
  full_moved p q r v w :
    p <> r -> full_key (boxed p v) = full_key (boxed r w) ->
    full_key (boxed q v) = full_key (boxed r w) /\ obj_full_hash (boxed p v) = obj_full_hash (boxed q v)
}.

Section dedup_obj.
Context {A : Type} `{NMDedupMultiObjClass A}.

Record NMDedupMultiObj := { ob_val : A; _ref_count : Z; _multi_idx : bool }.

(** The memory of objects, and the hash table idx_objs of the index. *)
Record Heap := { objs : gmap positive NMDedupMultiObj; idx_objs : gset positive }.

Definition vals (hp : Heap) : gmap positive A := ob_val <$> objs hp.

Definition with_objs (f : gmap positive NMDedupMultiObj -> gmap positive NMDedupMultiObj) (hp : Heap) : Heap :=
  {| objs := f (objs hp); idx_objs := idx_objs hp |}.

Definition set_ref_count (r : Z) (ob : NMDedupMultiObj) : NMDedupMultiObj :=
  {| ob_val := ob_val ob; _ref_count := r; _multi_idx := _multi_idx ob |}.
Definition set_multi_idx (b : bool) (ob : NMDedupMultiObj) : NMDedupMultiObj :=
  {| ob_val := ob_val ob; _ref_count := _ref_count ob; _multi_idx := b |}.

Definition STACKINIT : Z := 2 ^ 31 - 1.

Definition nm_dedup_multi_obj_ref (o : positive) (hp : Heap) : option Heap :=
  ob ← objs hp !! o;
  Some (with_objs <[o := set_ref_count (_ref_count ob + 1) ob]> hp).

Definition nm_dedup_multi_index_obj_release (o : positive) (hp : Heap) : option Heap :=
  ob ← objs hp !! o;
  Some {| objs := <[o := set_multi_idx false ob]> (objs hp); idx_objs := idx_objs hp ∖ {[o]} |}.

(** The last reference releases the object from the pool, then destroys it. *)
Fixpoint obj_unref (fuel : nat) (o : positive) (hp : Heap) : option Heap :=
  match fuel with
  | O => None
  | S fuel =>
      ob ← objs hp !! o;
      if 1 <? _ref_count ob then Some (with_objs <[o := set_ref_count (_ref_count ob - 1) ob]> hp)
      else
        hp ← (if _multi_idx ob then nm_dedup_multi_index_obj_release o hp else Some hp);
        let hp := with_objs (delete o) hp in
        match obj_holds (ob_val ob) with
        | Some c => obj_unref fuel c hp
        | None => Some hp
        end
  end.

Definition nm_dedup_multi_obj_unref (o : positive) (hp : Heap) : option Heap :=
  ob ← objs hp !! o;
  obj_unref (S (obj_rank (ob_val ob))) o hp.

Definition nm_dedup_multi_obj_needs_clone (ob : NMDedupMultiObj) : bool :=
  _multi_idx ob || (_ref_count ob =? STACKINIT) || obj_needs_clone (ob_val ob).

(** A new object with the first reference. *)
Definition obj_new (v : A) (hp : Heap) : positive * Heap :=
  let o := g_slice_new (objs hp) in
  (o, with_objs <[o := {| ob_val := v; _ref_count := 1; _multi_idx := false |}]> hp).

Definition nm_dedup_multi_obj_clone (o : positive) (hp : Heap) : option (positive * Heap) :=
  ob ← objs hp !! o;
  hp ← match obj_holds (ob_val ob) with Some c => nm_dedup_multi_obj_ref c hp | None => Some hp end;
  Some (obj_new (ob_val ob) hp).

Definition _dict_idx_objs_equal (a b : At A) : bool :=
  (at_ptr a =? at_ptr b) || ((obj_klass (at_obj a) =? obj_klass (at_obj b)) && obj_full_equal a b).

(** g_hash_table_lookup (self->idx_objs, obj) *)
Definition nm_dedup_multi_index_obj_find (x : At A) (hp : Heap) : option positive :=
  List.find (fun p => match objs hp !! p with
                      | Some ob => (obj_full_hash (boxed p (ob_val ob)) =? obj_full_hash x)
                                   && _dict_idx_objs_equal (boxed p (ob_val ob)) x
                      | None => false
                      end) (elements (idx_objs hp)).

Definition nm_dedup_multi_index_obj_intern (o : positive) (hp : Heap) : option (positive * Heap) :=
  ob ← objs hp !! o;
  if _multi_idx ob then hp ← nm_dedup_multi_obj_ref o hp; Some (o, hp)
  else
    match nm_dedup_multi_index_obj_find (boxed o (ob_val ob)) hp with
    | Some obj_old => hp ← nm_dedup_multi_obj_ref obj_old hp; Some (obj_old, hp)
    | None =>
        '(o, hp) ← (if nm_dedup_multi_obj_needs_clone ob then nm_dedup_multi_obj_clone o hp
                    else hp ← nm_dedup_multi_obj_ref o hp; Some (o, hp));
        ob ← objs hp !! o;
        Some (o, {| objs := <[o := set_multi_idx true ob]> (objs hp); idx_objs := {[o]} ∪ idx_objs hp |})
    end.
End dedup_obj.
#[global] Arguments NMDedupMultiObj : clear implicits.
#[global] Arguments Heap : clear implicits.


(** ** The invariant of the memory *)

Section laws.
Context {A : Type} `{DedupObjLaws A}.
Implicit Types (hp : Heap A) (uses : positive -> nat).

(** How many objects hold a reference of [o]. *)
Definition holders (m : gmap positive A) (o : positive) : nat :=
  map_count (fun _ v => bool_decide (obj_holds v = Some o)) m.

(** Each object has the references that other objects hold and those in use
    elsewhere; objects that are used exist; no two objects of the pool are equal. *)
Record heap_ok hp uses : Prop := {
  ho_count o ob : objs hp !! o = Some ob -> _ref_count ob = Z.of_nat (holders (vals hp) o + uses o) /\ 0 < _ref_count ob;
  ho_free o : objs hp !! o = None -> uses o = 0%nat;
  ho_val o v : vals hp !! o = Some v -> obj_ok (vals hp) v;
  ho_pool o : o ∈ idx_objs hp <-> exists ob, objs hp !! o = Some ob /\ _multi_idx ob = true;
  ho_unique o p v w : o ∈ idx_objs hp -> p ∈ idx_objs hp -> vals hp !! o = Some v -> vals hp !! p = Some w ->
    obj_klass v = obj_klass w -> obj_full_hash (boxed o v) = obj_full_hash (boxed p w) ->
    full_key (boxed o v) = full_key (boxed p w) -> o = p
}.

Definition add_use (o : positive) uses : positive -> nat := fun p => ((if decide (p = o) then 1 else 0) + uses p)%nat.

Lemma add_use_eq o uses : add_use o uses o = S (uses o).
Proof. unfold add_use. by rewrite decide_True. Qed.
Lemma add_use_ne o p uses : p <> o -> add_use o uses p = uses p.
Proof. intros Hp. unfold add_use. by rewrite decide_False. Qed.

Lemma heap_ok_ext hp uses uses' : (forall p, uses p = uses' p) -> heap_ok hp uses -> heap_ok hp uses'.
Proof.
  intros Hu [H1 H2 H3 H4 H5]. split; [| |done..].
  - intros o ob Ho. rewrite <-Hu. by apply H1.
  - intros o Ho. rewrite <-Hu. by apply H2.
Qed.

Lemma vals_lookup hp o : vals hp !! o = ob_val <$> objs hp !! o.
Proof. apply lookup_fmap. Qed.

Lemma vals_Some hp o v : vals hp !! o = Some v <-> exists ob, objs hp !! o = Some ob /\ ob_val ob = v.
Proof. rewrite vals_lookup, fmap_Some. split; intros (ob & ? & ?); eauto. Qed.

Lemma vals_same hp o ob ob' : objs hp !! o = Some ob -> ob_val ob' = ob_val ob -> vals (with_objs <[o:=ob']> hp) = vals hp.
Proof.
  intros Ho Hv. unfold vals, with_objs. cbn. rewrite fmap_insert. apply insert_id. by rewrite lookup_fmap, Ho, Hv.
Qed.

Lemma heap_used hp uses o : heap_ok hp uses -> (0 < uses o)%nat -> exists ob, objs hp !! o = Some ob.
Proof. intros Hok Hu. destruct (objs hp !! o) eqn:E; [eauto|]. apply (ho_free _ _ Hok) in E. lia. Qed.

Lemma holder_live hp uses p v o : heap_ok hp uses -> vals hp !! p = Some v -> obj_holds v = Some o -> exists ob, objs hp !! o = Some ob.
Proof.
  intros Hok Hp Hh. apply (ho_val _ _ Hok) in Hp. destruct (obj_ok_holds _ _ _ Hp Hh) as (w & Hw & _).
  apply vals_Some in Hw as (ob & Ho & _). eauto.
Qed.

Lemma holders_none m o p v : holders m o = 0%nat -> m !! p = Some v -> obj_holds v <> Some o.
Proof. intros Hn Hp. apply map_count_none with (k := p) (a := v) in Hn; [|done]. by apply bool_decide_eq_false in Hn. Qed.

(** *** References *)

Lemma obj_ref_ok hp uses o ob :
  heap_ok hp uses -> objs hp !! o = Some ob ->
  let hp' := with_objs <[o := set_ref_count (_ref_count ob + 1) ob]> hp in
  nm_dedup_multi_obj_ref o hp = Some hp' /\ heap_ok hp' (add_use o uses) /\ vals hp' = vals hp.
Proof.
  intros Hok Ho hp'. unfold nm_dedup_multi_obj_ref. rewrite Ho. cbn [mbind option_bind].
  assert (Hv : vals hp' = vals hp) by by apply (vals_same hp o ob).
  split_and!; [done| |done]. split; rewrite ?Hv.
  - intros p ob' Hp. cbn in Hp. apply lookup_insert_Some in Hp as [[<- <-]|[Hne Hp]].
    + rewrite add_use_eq. pose proof (ho_count _ _ Hok _ _ Ho). cbn. lia.
    + rewrite add_use_ne by done. by apply (ho_count _ _ Hok).
  - intros p Hp. cbn in Hp. apply lookup_insert_None in Hp as [Hp Hne]. rewrite add_use_ne by done. by apply (ho_free _ _ Hok).
  - apply (ho_val _ _ Hok).
  - intros p. cbn. rewrite (ho_pool _ _ Hok p). split.
    + intros (ob' & Hp & Hm). destruct (decide (p = o)) as [->|Hne].
      * exists (set_ref_count (_ref_count ob + 1) ob). rewrite lookup_insert_eq. split; [done|]. cbn. congruence.
      * exists ob'. by rewrite lookup_insert_ne.
    + intros (ob' & [[<- <-]|[Hne Hp]]%lookup_insert_Some & Hm); eauto.
  - apply (ho_unique _ _ Hok).
Qed.

(** An object whose last reference goes. *)
Definition obj_free (o : positive) (ob : NMDedupMultiObj A) hp : Heap A :=
  {| objs := delete o (objs hp); idx_objs := if _multi_idx ob then idx_objs hp ∖ {[o]} else idx_objs hp |}.

Lemma vals_free o ob hp : vals (obj_free o ob hp) = delete o (vals hp).
Proof. apply fmap_delete. Qed.

Lemma obj_release_free hp o ob :
  objs hp !! o = Some ob ->
  exists hp', ((if _multi_idx ob then nm_dedup_multi_index_obj_release o hp else Some hp) = Some hp') /\ with_objs (delete o) hp' = obj_free o ob hp.
Proof.
  intros Ho. unfold nm_dedup_multi_index_obj_release, obj_free. rewrite Ho. cbn [mbind option_bind].
  destruct (_multi_idx ob); eexists; split; [reflexivity| |reflexivity|]; unfold with_objs; cbn; [|done].
  by rewrite delete_insert_eq.
Qed.

Lemma obj_free_ok hp uses o ob :
  heap_ok hp (add_use o uses) -> objs hp !! o = Some ob -> _ref_count ob <= 1 ->
  heap_ok (obj_free o ob hp) (match obj_holds (ob_val ob) with Some c => add_use c uses | None => uses end).
Proof.
  intros Hok Ho Hr. pose proof (ho_count _ _ Hok _ _ Ho) as [Hc _]. rewrite add_use_eq in Hc.
  assert (Hh : holders (vals hp) o = 0%nat) by lia. assert (Hu : uses o = 0%nat) by lia. clear Hc.
  assert (Hv : vals hp !! o = Some (ob_val ob)) by (apply vals_Some; eauto).
  assert (Hown := holders_none _ _ _ _ Hh Hv).
  assert (Hcount : forall p, holders (vals hp) p
            = ((if bool_decide (obj_holds (ob_val ob) = Some p) then 1 else 0) + holders (vals (obj_free o ob hp)) p)%nat).
  { intros p. unfold holders. rewrite vals_free. apply (map_count_delete (fun _ v => bool_decide (obj_holds v = Some p)) _ _ _ Hv). }
  split.
  - intros p ob' Hp. cbn in Hp. apply lookup_delete_Some in Hp as [Hne Hp].
    pose proof (ho_count _ _ Hok _ _ Hp) as [Hc Hpos]. rewrite Hcount, add_use_ne in Hc by done. split; [|done].
    destruct (obj_holds (ob_val ob)) as [c|] eqn:Eh; [|rewrite Hc; by rewrite bool_decide_eq_false_2].
    destruct (decide (p = c)) as [->|Hpc].
    + rewrite bool_decide_eq_true_2 in Hc by done. rewrite add_use_eq. lia.
    + rewrite bool_decide_eq_false_2 in Hc by congruence. rewrite add_use_ne by done. lia.
  - intros p Hp. cbn in Hp. apply lookup_delete_None in Hp as [<-|Hp].
    + destruct (obj_holds (ob_val ob)) as [c|]; [|done]. rewrite add_use_ne by congruence. done.
    + pose proof (ho_free _ _ Hok p Hp) as Hf.
      assert (p <> o) by congruence. rewrite add_use_ne in Hf by done.
      destruct (obj_holds (ob_val ob)) as [c|] eqn:Eh; [|done].
      destruct (holder_live _ _ _ _ _ Hok Hv Eh) as [obc Hc]. rewrite add_use_ne by congruence. done.
  - intros p v. rewrite vals_free. intros [Hne Hp]%lookup_delete_Some.
    apply (obj_ok_local (vals hp)); [by apply (ho_val _ _ Hok p)|]. intros c Hc. rewrite lookup_delete_ne; [done|].
    intros ->. by apply (holders_none _ _ _ _ Hh Hp).
  - intros p. cbn. transitivity (p ∈ idx_objs hp /\ p <> o).
    + destruct (_multi_idx ob) eqn:Em; [rewrite elem_of_difference, elem_of_singleton; tauto|].
      split; [|tauto]. intros Hp. split; [done|]. intros ->. apply (ho_pool _ _ Hok) in Hp as (ob' & Hp & Hm). congruence.
    + rewrite (ho_pool _ _ Hok). split.
      * intros [(ob' & Hp & Hm) Hne]. exists ob'. by rewrite lookup_delete_ne.
      * intros (ob' & [Hne Hp]%lookup_delete_Some & Hm). eauto.
  - intros p q v w Hp Hq. rewrite vals_free. intros [_ Hpv]%lookup_delete_Some [_ Hqw]%lookup_delete_Some.
    assert (Hin : forall x, x ∈ idx_objs (obj_free o ob hp) -> x ∈ idx_objs hp)
      by (intros x; cbn; destruct (_multi_idx ob); [rewrite elem_of_difference; tauto|done]).
    by apply (ho_unique _ _ Hok); auto.
Qed.

Lemma obj_unref_fuel fuel o ob hp uses :
  (obj_rank (ob_val ob) < fuel)%nat -> heap_ok hp (add_use o uses) -> objs hp !! o = Some ob ->
  exists hp', obj_unref fuel o hp = Some hp' /\ heap_ok hp' uses /\ vals hp' ⊆ vals hp /\
    (forall p, p ∈ idx_objs hp -> is_Some (objs hp' !! p) -> p ∈ idx_objs hp').
Proof.
  revert o ob hp uses. induction fuel as [|fuel IH]; [lia|]. intros o ob hp uses Hf Hok Ho. cbn [obj_unref].
  rewrite Ho. cbn [mbind option_bind]. destruct (Z.ltb_spec 1 (_ref_count ob)) as [Hr|Hr].
  - eexists. split_and!; [reflexivity| | |done].
    + assert (Hv : vals (with_objs <[o:=set_ref_count (_ref_count ob - 1) ob]> hp) = vals hp) by by apply (vals_same hp o ob).
      split; rewrite ?Hv; [..|apply (ho_unique _ _ Hok)].
      * intros p ob' Hp. cbn in Hp. apply lookup_insert_Some in Hp as [[<- <-]|[Hne Hp]].
        -- pose proof (ho_count _ _ Hok _ _ Ho) as [Hc _]. rewrite add_use_eq in Hc. cbn. lia.
        -- pose proof (ho_count _ _ Hok _ _ Hp) as Hc. by rewrite add_use_ne in Hc.
      * intros p Hp. cbn in Hp. apply lookup_insert_None in Hp as [Hp Hne].
        pose proof (ho_free _ _ Hok p Hp) as Hc. by rewrite add_use_ne in Hc.
      * apply (ho_val _ _ Hok).
      * intros p. cbn. rewrite (ho_pool _ _ Hok p). split.
        -- intros (ob' & Hp & Hm). destruct (decide (p = o)) as [->|Hne].
           ++ exists (set_ref_count (_ref_count ob - 1) ob). rewrite lookup_insert_eq. split; [done|]. cbn. congruence.
           ++ exists ob'. by rewrite lookup_insert_ne.
        -- intros (ob' & [[<- <-]|[Hne Hp]]%lookup_insert_Some & Hm); eauto.
    + by rewrite (vals_same hp o ob).
  - destruct (obj_release_free hp o ob Ho) as (hp1 & -> & Hfree). cbn [mbind option_bind]. rewrite Hfree.
    pose proof (obj_free_ok _ _ _ _ Hok Ho Hr) as Hok'.
    assert (Hsub : vals (obj_free o ob hp) ⊆ vals hp) by (rewrite vals_free; apply delete_subseteq).
    assert (Hpool : forall p, p ∈ idx_objs hp -> p <> o -> p ∈ idx_objs (obj_free o ob hp)).
    { intros p Hp Hne. cbn. destruct (_multi_idx ob); [|done]. rewrite elem_of_difference, elem_of_singleton. done. }
    destruct (obj_holds (ob_val ob)) as [c|] eqn:Eh.
    2:{ eexists. split_and!; [done..|]. intros p Hp [ob' Hp']. cbn in Hp'. apply lookup_delete_Some in Hp' as [Hne _]. auto. }
    assert (Hv : vals hp !! o = Some (ob_val ob)) by (apply vals_Some; eauto).
    destruct (obj_ok_holds _ _ _ (ho_val _ _ Hok _ _ Hv) Eh) as (w & Hw & Hlt).
    destruct (heap_used _ _ c Hok') as [obc Hc]; [rewrite add_use_eq; lia|].
    assert (ob_val obc = w) as Ec.
    { assert (vals (obj_free o ob hp) !! c = Some (ob_val obc)) as Hc' by (apply vals_Some; eauto).
      apply (lookup_weaken _ _ _ _ Hc') in Hsub. congruence. }
    destruct (IH c obc _ uses ltac:(rewrite Ec; lia) Hok' Hc) as (hp' & E & Hok'' & Hs & Hp). exists hp'.
    split_and!; [done|done|by etransitivity|]. intros p Hin Hlive. apply Hp; [|done]. apply Hpool; [done|]. intros ->.
    destruct Hlive as [ob' Hlive]. assert (vals hp' !! o = Some (ob_val ob')) as Ho' by (apply vals_Some; eauto).
    apply (lookup_weaken _ _ _ _ Ho') in Hs. rewrite vals_free, lookup_delete_eq in Hs. done.
Qed.

Lemma obj_unref_ok o hp uses :
  heap_ok hp (add_use o uses) ->
  exists hp', nm_dedup_multi_obj_unref o hp = Some hp' /\ heap_ok hp' uses /\ vals hp' ⊆ vals hp /\
    (forall p, p ∈ idx_objs hp -> is_Some (objs hp' !! p) -> p ∈ idx_objs hp').
Proof.
  intros Hok. destruct (heap_used _ _ o Hok) as [ob Ho]; [rewrite add_use_eq; lia|].
  unfold nm_dedup_multi_obj_unref. rewrite Ho. cbn [mbind option_bind]. apply (obj_unref_fuel _ o ob); [lia|done|done].
Qed.

(** *** New objects *)

Definition hold_of (v : A) uses : positive -> nat :=
  match obj_holds v with Some c => add_use c uses | None => uses end.

Lemma obj_new_ok v hp uses :
  heap_ok hp (hold_of v uses) -> obj_ok (vals hp) v ->
  let o := (obj_new v hp).1 in
  let hp' := (obj_new v hp).2 in
  objs hp !! o = None /\ heap_ok hp' (add_use o uses) /\ vals hp' = <[o := v]> (vals hp) /\ idx_objs hp' = idx_objs hp /\
  objs hp' !! o = Some {| ob_val := v; _ref_count := 1; _multi_idx := false |}.
Proof.
  intros Hok Hv. cbn. set (o := g_slice_new (objs hp)). set (ob := {| ob_val := v; _ref_count := 1; _multi_idx := false |}).
  assert (Ho : objs hp !! o = None) by apply g_slice_new_None.
  assert (Hvo : vals hp !! o = None) by by rewrite vals_lookup, Ho.
  assert (Hh : forall p w, vals hp !! p = Some w -> obj_holds w <> Some o).
  { intros p w Hp Hw. destruct (holder_live _ _ _ _ _ Hok Hp Hw). congruence. }
  assert (Hvc : obj_holds v <> Some o).
  { intros Hc. destruct (obj_ok_holds _ _ _ Hv Hc) as (w & Hw & _). congruence. }
  assert (Hvals : vals (with_objs <[o:=ob]> hp) = <[o := v]> (vals hp)) by (unfold vals; cbn; by rewrite fmap_insert).
  assert (Hcount : forall p, holders (<[o := v]> (vals hp)) p
            = ((if bool_decide (obj_holds v = Some p) then 1 else 0) + holders (vals hp) p)%nat).
  { intros p. apply (map_count_insert (fun _ v => bool_decide (obj_holds v = Some p)) _ _ _ Hvo). }
  assert (Huses : forall p, p <> o -> hold_of v uses p = ((if bool_decide (obj_holds v = Some p) then 1 else 0) + uses p)%nat).
  { intros p Hp. unfold hold_of. destruct (obj_holds v) as [c|]; [|by rewrite bool_decide_eq_false_2].
    unfold add_use. destruct (decide (p = c)) as [->|Hne]; [by rewrite bool_decide_eq_true_2|].
    rewrite bool_decide_eq_false_2; [done|congruence]. }
  assert (Huo : uses o = 0%nat).
  { pose proof (ho_free _ _ Hok o Ho) as Hf. unfold hold_of in Hf. destruct (obj_holds v) as [c|] eqn:Ec; [|done].
    rewrite add_use_ne in Hf by congruence. done. }
  split_and!; [done| |done|done|cbn; apply lookup_insert_eq]. split; rewrite ?Hvals.
  - intros p ob'. cbn. intros [[<- <-]|[Hne Hp]]%lookup_insert_Some.
    + rewrite Hcount, bool_decide_eq_false_2, add_use_eq by done. subst ob. cbn.
      assert (holders (vals hp) o = 0%nat) as -> by (apply map_count_none; intros p w Hp; apply bool_decide_eq_false, (Hh p w Hp)). lia.
    + pose proof (ho_count _ _ Hok _ _ Hp) as Hc. rewrite Huses in Hc by done. rewrite Hcount, add_use_ne by done. lia.
  - intros p. cbn. intros [Hp Hne]%lookup_insert_None. rewrite add_use_ne by done.
    pose proof (ho_free _ _ Hok p Hp) as Hf. rewrite Huses in Hf by done. lia.
  - intros p w [[<- <-]|[Hne Hp]]%lookup_insert_Some.
    + apply (obj_ok_local (vals hp)); [done|]. intros c Hc. rewrite lookup_insert_ne; [done|congruence].
    + apply (obj_ok_local (vals hp)); [by apply (ho_val _ _ Hok p)|]. intros c Hc. rewrite lookup_insert_ne; [done|].
      intros <-. by apply (Hh p w).
  - intros p. cbn. rewrite (ho_pool _ _ Hok p). split.
    + intros (ob' & Hp & Hm). exists ob'. rewrite lookup_insert_ne; [done|congruence].
    + intros (ob' & [[<- <-]|[Hne Hp]]%lookup_insert_Some & Hm); [done|eauto].
  - intros p q w x. cbn. intros Hp Hq Hpv Hqw.
    apply (ho_pool _ _ Hok) in Hp as Hp'. apply (ho_pool _ _ Hok) in Hq as Hq'.
    destruct Hp' as (? & Hp' & _), Hq' as (? & Hq' & _).
    rewrite lookup_insert_ne in Hpv, Hqw by congruence. by apply (ho_unique _ _ Hok).
Qed.

Lemma obj_clone_ok o ob hp uses :
  heap_ok hp uses -> objs hp !! o = Some ob ->
  exists o' hp', nm_dedup_multi_obj_clone o hp = Some (o', hp') /\ heap_ok hp' (add_use o' uses) /\
    objs hp !! o' = None /\ vals hp' = <[o' := ob_val ob]> (vals hp) /\ idx_objs hp' = idx_objs hp /\
    objs hp' !! o' = Some {| ob_val := ob_val ob; _ref_count := 1; _multi_idx := false |}.
Proof.
  intros Hok Ho. unfold nm_dedup_multi_obj_clone. rewrite Ho. cbn [mbind option_bind].
  assert (Hv : vals hp !! o = Some (ob_val ob)) by (apply vals_Some; eauto).
  assert (Hvo := ho_val _ _ Hok _ _ Hv).
  assert (exists hp1, match obj_holds (ob_val ob) with Some c => nm_dedup_multi_obj_ref c hp | None => Some hp end = Some hp1 /\
            heap_ok hp1 (hold_of (ob_val ob) uses) /\ vals hp1 = vals hp /\ idx_objs hp1 = idx_objs hp /\
            (forall p, objs hp1 !! p = None -> objs hp !! p = None)) as (hp1 & -> & Hok1 & Hv1 & Hp1 & Hn1).
  { unfold hold_of. destruct (obj_holds (ob_val ob)) as [c|] eqn:Ec; [|eauto 10].
    destruct (holder_live _ _ _ _ _ Hok Hv Ec) as [obc Hc].
    destruct (obj_ref_ok _ _ _ _ Hok Hc) as (E & Hok1 & Hv1). eexists. split_and!; [exact E|exact Hok1|exact Hv1|done|].
    intros p. cbn. intros [? _]%lookup_insert_None. done. }
  cbn [mbind option_bind].
  pose proof (obj_new_ok (ob_val ob) hp1 uses Hok1 ltac:(by rewrite Hv1)) as Hnew.
  destruct (obj_new (ob_val ob) hp1) as [o' hp'] eqn:E. cbn in Hnew. destruct Hnew as (Hf & Hok' & Hv' & Hp' & Hlook).
  exists o', hp'. rewrite Hv', Hv1, Hp', Hp1. split_and!; auto.
Qed.

(** *** Interning *)

Lemma obj_find_Some x hp p : nm_dedup_multi_index_obj_find x hp = Some p ->
  p ∈ idx_objs hp /\ exists ob, objs hp !! p = Some ob /\
    obj_full_hash (boxed p (ob_val ob)) = obj_full_hash x /\ _dict_idx_objs_equal (boxed p (ob_val ob)) x = true.
Proof.
  intros [Hin Ht]%List.find_some. apply list_elem_of_In, elem_of_elements in Hin. split; [done|].
  destruct (objs hp !! p) as [ob|]; [|done]. bools. eauto.
Qed.

Lemma obj_find_None x hp p ob : nm_dedup_multi_index_obj_find x hp = None ->
  p ∈ idx_objs hp -> objs hp !! p = Some ob -> obj_full_hash (boxed p (ob_val ob)) = obj_full_hash x ->
  _dict_idx_objs_equal (boxed p (ob_val ob)) x = false.
Proof.
  intros Hn Hin Ho Hh. apply elem_of_elements, list_elem_of_In in Hin.
  pose proof (List.find_none _ _ Hn p Hin) as Ht. cbn in Ht. rewrite Ho, Hh, Z.eqb_refl in Ht. done.
Qed.

(** The object of the pool stands for another one. *)
Definition stands_for (x y : At A) : Prop :=
  at_obj x = at_obj y \/
  obj_klass (at_obj x) = obj_klass (at_obj y) /\ full_key x = full_key y.

Lemma intern_add hp uses o ob :
  heap_ok hp uses -> objs hp !! o = Some ob -> _multi_idx ob = false ->
  (forall p w, p ∈ idx_objs hp -> vals hp !! p = Some w -> obj_klass w = obj_klass (ob_val ob) ->
     obj_full_hash (boxed p w) = obj_full_hash (boxed o (ob_val ob)) ->
     full_key (boxed p w) <> full_key (boxed o (ob_val ob))) ->
  let hp' := {| objs := <[o := set_multi_idx true ob]> (objs hp); idx_objs := {[o]} ∪ idx_objs hp |} in
  heap_ok hp' uses /\ vals hp' = vals hp.
Proof.
  intros Hok Ho Hm Hnew hp'.
  assert (Hv : vals hp' = vals hp) by (apply (vals_same hp o ob); done).
  assert (Hvo : vals hp !! o = Some (ob_val ob)) by (apply vals_Some; eauto).
  split; [|done]. split; rewrite ?Hv.
  - intros p ob'. cbn. intros [[<- <-]|[Hne Hp]]%lookup_insert_Some; [apply (ho_count _ _ Hok _ _ Ho)|by apply (ho_count _ _ Hok)].
  - intros p. cbn. intros [Hp _]%lookup_insert_None. by apply (ho_free _ _ Hok).
  - apply (ho_val _ _ Hok).
  - intros p. cbn. rewrite elem_of_union, elem_of_singleton, (ho_pool _ _ Hok p). split.
    + intros [->|(ob' & Hp & Hmp)]; [exists (set_multi_idx true ob); by rewrite lookup_insert_eq|].
      exists ob'. rewrite lookup_insert_ne; [done|congruence].
    + intros (ob' & [[<- <-]|[Hne Hp]]%lookup_insert_Some & Hmp); eauto.
  - intros p q w x. cbn. rewrite !elem_of_union, !elem_of_singleton. intros [->|Hp] [->|Hq] Hpw Hqx Hk Hh Hf; [done|..].
    + exfalso. assert (w = ob_val ob) as -> by congruence. by apply (Hnew q x).
    + exfalso. assert (x = ob_val ob) as -> by congruence. by apply (Hnew p w).
    + exact (ho_unique _ _ Hok _ _ _ _ Hp Hq Hpw Hqx Hk Hh Hf).
Qed.

Lemma obj_intern_ok hp uses o ob :
  heap_ok hp uses -> objs hp !! o = Some ob ->
  exists o' v' hp', nm_dedup_multi_index_obj_intern o hp = Some (o', hp') /\
    heap_ok hp' (add_use o' uses) /\ vals hp ⊆ vals hp' /\
    (o' ∈ idx_objs hp' /\ idx_objs hp ⊆ idx_objs hp') /\
    vals hp' !! o' = Some v' /\ stands_for (boxed o' v') (boxed o (ob_val ob)) /\
    (o ∈ idx_objs hp -> o' = o).
Proof.
  intros Hok Ho. unfold nm_dedup_multi_index_obj_intern. rewrite Ho. cbn [mbind option_bind].
  assert (Hvo : vals hp !! o = Some (ob_val ob)) by (apply vals_Some; eauto).
  destruct (_multi_idx ob) eqn:Hm.
  { destruct (obj_ref_ok _ _ _ _ Hok Ho) as (-> & Hok' & Hv'). cbn [mbind option_bind].
    exists o, (ob_val ob). eexists. split_and!; [reflexivity|done|by rewrite Hv'|apply (ho_pool _ _ Hok); eauto|done|by rewrite Hv'|by left|done]. }
  assert (Hout : o ∉ idx_objs hp).
  { intros (ob' & Ho' & Hm')%(ho_pool _ _ Hok). congruence. }
  destruct (nm_dedup_multi_index_obj_find (boxed o (ob_val ob)) hp) as [p|] eqn:Ef.
  - apply obj_find_Some in Ef as (Hp & obp & Hop & Hh & He).
    destruct (obj_ref_ok _ _ _ _ Hok Hop) as (-> & Hok' & Hv'). cbn [mbind option_bind].
    assert (Hvp : vals hp !! p = Some (ob_val obp)) by (apply vals_Some; eauto).
    exists p, (ob_val obp). eexists. split_and!; [reflexivity|done|by rewrite Hv'|done|done|by rewrite Hv'| |done].
    unfold _dict_idx_objs_equal in He. apply orb_true_iff in He as [He|He]; bools; cbn in *.
    + assert (p = o) as -> by congruence. done.
    + right. split; [done|]. apply (full_equal_key (vals hp)); [done|done|by apply (ho_val _ _ Hok p)|by apply (ho_val _ _ Hok o)|done].
  - assert (Hnone : forall p w, p ∈ idx_objs hp -> vals hp !! p = Some w -> obj_klass w = obj_klass (ob_val ob) ->
              obj_full_hash (boxed p w) = obj_full_hash (boxed o (ob_val ob)) ->
              full_key (boxed p w) <> full_key (boxed o (ob_val ob))).
    { intros p w Hp Hpw Hk Hh Hf. apply vals_Some in Hpw as Hpw'. destruct Hpw' as (obp & Hop & <-).
      pose proof (obj_find_None _ _ _ _ Ef Hp Hop Hh) as He. unfold _dict_idx_objs_equal in He. cbn in He.
      apply orb_false_iff in He as [_ He]. rewrite Hk, Z.eqb_refl in He. cbn in He.
      apply (full_equal_key _ _ _ _ _ Hpw Hvo (ho_val _ _ Hok _ _ Hpw) (ho_val _ _ Hok _ _ Hvo)) in Hf. congruence. }
    destruct (nm_dedup_multi_obj_needs_clone ob).
    + destruct (obj_clone_ok _ _ _ _ Hok Ho) as (o' & hp' & -> & Hok' & Hf & Hv' & Hp' & Ho'). cbn [mbind option_bind].
      rewrite Ho'. cbn [mbind option_bind].
      assert (Hne : o' <> o) by congruence.
      assert (Hvf : vals hp !! o' = None) by by rewrite vals_lookup, Hf.
      destruct (intern_add hp' (add_use o' uses) o' _ Hok' Ho') as [Hok'' Hv'']; [done| |].
      { intros p w. rewrite Hp', Hv'. cbn. intros Hp Hpw Hk Hh Hkey.
        assert (p <> o') by (intros ->; apply (ho_pool _ _ Hok) in Hp as (? & ? & _); congruence).
        rewrite lookup_insert_ne in Hpw by done.
        destruct (full_moved o' o p (ob_val ob) w) as [Hk1 Hh1]; [done|done|].
        apply (Hnone p w); [done|done|done|congruence|congruence]. }
      exists o', (ob_val ob). eexists. split_and!; [reflexivity|done| |cbn; set_solver|cbn; set_solver| |by left|done].
      * rewrite Hv'', Hv'. by apply insert_subseteq.
      * rewrite Hv'', Hv'. apply lookup_insert_eq.
    + destruct (obj_ref_ok _ _ _ _ Hok Ho) as (-> & Hok' & Hv'). cbn [mbind option_bind].
      set (hp' := with_objs _ hp) in *.
      assert (Ho' : objs hp' !! o = Some (set_ref_count (_ref_count ob + 1) ob)) by apply lookup_insert_eq.
      rewrite Ho'. cbn [mbind option_bind].
      destruct (intern_add hp' (add_use o uses) o _ Hok' Ho') as [Hok'' Hv'']; [done| |].
      { rewrite Hv'. apply Hnone. }
      exists o, (ob_val ob). eexists. split_and!; [reflexivity|done|by rewrite Hv'', Hv'|cbn; set_solver|cbn; set_solver|by rewrite Hv'', Hv'|by left|done].
Qed.

End laws.
