(* ===== verification/DedupMulti.v ===== *)
(** * NMDedupMultiIndex: objects in several ordered indexes

    shared/nm-glib-aux/nm-dedup-multi.c: an index keeps objects under several
    NMDedupMultiIdxType handles.  Each handle divides its objects into partitions,
    each with a head and an ordered list of entries; no two entries of a partition
    have the same identity.  The hash table idx_entries holds entries and heads,
    which are found by the objects they stand for; here it is the memory of
    entries and that of heads.  The lists of shared/c-list are lists of addresses. *)

From stdpp Require Export functions.
From S2P Require Export DedupObj.

(** ** Lists with a head *)

(** The neighbours of a member, or of the head of the list (None). *)
Fixpoint before (x : positive) (l : list positive) : option positive :=
  match l with
  | y :: l' => match l' with
               | z :: _ => if decide (z = x) then Some y else before x l'
               | [] => None
               end
  | [] => None
  end.

Definition c_list_prev (where_ : option positive) (l : list positive) : option positive :=
  match where_ with None => last l | Some x => before x l end.
Definition c_list_next (where_ : option positive) (l : list positive) : option positive :=
  match where_ with None => head l | Some x => before x (rev l) end.

Fixpoint link_before (x what : positive) (l : list positive) : list positive :=
  match l with
  | [] => []
  | y :: l' => if decide (y = x) then what :: y :: l' else y :: link_before x what l'
  end.
Fixpoint link_after (x what : positive) (l : list positive) : list positive :=
  match l with
  | [] => []
  | y :: l' => if decide (y = x) then y :: what :: l' else y :: link_after x what l'
  end.

Definition c_list_link_before (where_ : option positive) (what : positive) (l : list positive) : list positive :=
  match where_ with None => l ++ [what] | Some x => link_before x what l end.
Definition c_list_link_after (where_ : option positive) (what : positive) (l : list positive) : list positive :=
  match where_ with None => what :: l | Some x => link_after x what l end.

Definition nm_c_list_move_before (lst : option positive) (elem : positive) (l : list positive) : bool * list positive :=
  if negb (bool_decide (lst = Some elem)) && negb (bool_decide (c_list_prev lst l = Some elem))
  then (true, c_list_link_before lst elem (c_list_unlink elem l))
  else (false, l).
Definition nm_c_list_move_after (lst : option positive) (elem : positive) (l : list positive) : bool * list positive :=
  if negb (bool_decide (lst = Some elem)) && negb (bool_decide (c_list_next lst l = Some elem))
  then (true, c_list_link_after lst elem (c_list_unlink elem l))
  else (false, l).

(** ** Data *)

(** NMDedupMultiIdxTypeClass, for each handle; the partition functions may be NULL. *)
Class NMDedupMultiIdxTypeClass (I A : Type) := {
  idx_obj_id_equal : I -> At A -> At A -> bool;
  idx_obj_partitionable : I -> option (At A -> bool);
  idx_obj_partition_equal : I -> option (At A -> At A -> bool)
}.

Inductive NMDedupMultiIdxMode :=
| NM_DEDUP_MULTI_IDX_MODE_PREPEND
| NM_DEDUP_MULTI_IDX_MODE_PREPEND_FORCE
| NM_DEDUP_MULTI_IDX_MODE_APPEND
| NM_DEDUP_MULTI_IDX_MODE_APPEND_FORCE.

(** An optional argument that saves a lookup: NULL, *_MISSING, or the result. *)
Inductive Existing :=
| LOOKUP
| MISSING
| EXISTING (p : positive).

Record NMDedupMultiEntry := { en_obj : positive; en_dirty : bool; en_head : positive }.

Section dedup_multi.
Context {I A : Type} `{!EqDecision I} `{!NMDedupMultiObjClass A} `{!NMDedupMultiIdxTypeClass I A}.

Record NMDedupMultiHeadEntry := { he_idx_type : I; lst_entries_head : list positive; he_len : Z }.
Record NMDedupMultiIdxType := { lst_idx_head : list positive; it_len : Z }.

Record NMDedupMultiIndex := {
  heap : Heap A;
  entries : gmap positive NMDedupMultiEntry;
  heads : gmap positive NMDedupMultiHeadEntry;
  idx_types : I -> NMDedupMultiIdxType
}.
Implicit Types (self : NMDedupMultiIndex).

Definition with_heap (hp : Heap A) self : NMDedupMultiIndex :=
  {| heap := hp; entries := entries self; heads := heads self; idx_types := idx_types self |}.
Definition with_entries (f : gmap positive NMDedupMultiEntry -> gmap positive NMDedupMultiEntry) self : NMDedupMultiIndex :=
  {| heap := heap self; entries := f (entries self); heads := heads self; idx_types := idx_types self |}.
Definition with_heads (f : gmap positive NMDedupMultiHeadEntry -> gmap positive NMDedupMultiHeadEntry) self : NMDedupMultiIndex :=
  {| heap := heap self; entries := entries self; heads := f (heads self); idx_types := idx_types self |}.
Definition with_idx_type (i : I) (f : NMDedupMultiIdxType -> NMDedupMultiIdxType) self : NMDedupMultiIndex :=
  {| heap := heap self; entries := entries self; heads := heads self;
     idx_types := <[i := f (idx_types self i)]> (idx_types self) |}.

Definition set_dirty (b : bool) (en : NMDedupMultiEntry) : NMDedupMultiEntry :=
  {| en_obj := en_obj en; en_dirty := b; en_head := en_head en |}.
Definition set_obj (o : positive) (en : NMDedupMultiEntry) : NMDedupMultiEntry :=
  {| en_obj := o; en_dirty := en_dirty en; en_head := en_head en |}.
Definition set_lst (l : list positive) (hd : NMDedupMultiHeadEntry) : NMDedupMultiHeadEntry :=
  {| he_idx_type := he_idx_type hd; lst_entries_head := l; he_len := he_len hd |}.
Definition add_len (d : Z) (hd : NMDedupMultiHeadEntry) : NMDedupMultiHeadEntry :=
  {| he_idx_type := he_idx_type hd; lst_entries_head := lst_entries_head hd; he_len := he_len hd + d |}.
Definition add_idx_len (d : Z) (it : NMDedupMultiIdxType) : NMDedupMultiIdxType :=
  {| lst_idx_head := lst_idx_head it; it_len := it_len it + d |}.
Definition set_lst_idx (l : list positive) (it : NMDedupMultiIdxType) : NMDedupMultiIdxType :=
  {| lst_idx_head := l; it_len := it_len it |}.

Definition nm_dedup_multi_idx_type_init : NMDedupMultiIdxType := {| lst_idx_head := []; it_len := 0 |}.

(** The object at an address. *)
Definition obj_at self (o : positive) : option (At A) := v ← vals (heap self) !! o; Some (boxed o v).

(** ** Lookup *)

Definition nm_dedup_multi_idx_type_id_equal (i : I) (a b : At A) : bool :=
  (at_ptr a =? at_ptr b) || idx_obj_id_equal i a b.

(** The objects may be NULL where there are no partitions. *)
Definition nm_dedup_multi_idx_type_partition_equal (i : I) (a b : option (At A)) : bool :=
  match idx_obj_partition_equal i with
  | Some partition_equal =>
      match a, b with
      | Some a, Some b => (at_ptr a =? at_ptr b) || partition_equal a b
      | _, _ => false
      end
  | None => true
  end.

(** The elements of the hash table, and what is looked up in it. *)
Inductive TableEntry :=
| LookupEntry (obj : option (At A)) (idx_type : I) (lookup_head : bool)
| HeadEntry (head_entry : NMDedupMultiHeadEntry)
| Entry (entry : NMDedupMultiEntry).

Definition _entry_unpack self (entry : TableEntry) : option (I * option (At A) * bool) :=
  match entry with
  | LookupEntry obj i lookup_head => Some (i, obj, lookup_head)
  | HeadEntry hd =>
      e ← head (lst_entries_head hd);
      en ← entries self !! e;
      x ← obj_at self (en_obj en);
      Some (he_idx_type hd, Some x, true)
  | Entry en =>
      hd ← heads self !! en_head en;
      x ← obj_at self (en_obj en);
      Some (he_idx_type hd, Some x, false)
  end.

Definition _dict_idx_entries_equal self (entry_a entry_b : TableEntry) : bool :=
  match _entry_unpack self entry_a, _entry_unpack self entry_b with
  | Some (i_a, obj_a, lookup_head_a), Some (i_b, obj_b, lookup_head_b) =>
      bool_decide (i_a = i_b) && eqb lookup_head_a lookup_head_b
      && nm_dedup_multi_idx_type_partition_equal i_a obj_a obj_b
      && (lookup_head_a
          || match obj_a, obj_b with
             | Some a, Some b => nm_dedup_multi_idx_type_id_equal i_a a b
             | _, _ => false
             end)
  | _, _ => false
  end.

Definition _entry_lookup_obj self (i : I) (obj : At A) : option positive :=
  fst <$> g_hash_table_lookup (fun en => _dict_idx_entries_equal self (Entry en) (LookupEntry (Some obj) i false)) (entries self).

Definition _entry_lookup_head self (i : I) (obj : option (At A)) : option positive :=
  match idx_obj_partition_equal i with
  | None => head (lst_idx_head (idx_types self i))
  | Some _ =>
      fst <$> g_hash_table_lookup (fun hd => _dict_idx_entries_equal self (HeadEntry hd) (LookupEntry obj i true)) (heads self)
  end.

Definition nm_dedup_multi_index_lookup_obj self (i : I) (obj : At A) : option positive := _entry_lookup_obj self i obj.
Definition nm_dedup_multi_index_lookup_head self (i : I) (obj : option (At A)) : option positive := _entry_lookup_head self i obj.
Definition nm_dedup_multi_entry_set_dirty (e : positive) (dirty : bool) self : NMDedupMultiIndex :=
  with_entries (alter (set_dirty dirty) e) self.

(** ** Adding *)

(** Moves the entry of an object that is added again. *)
Definition move_entry (mode : NMDedupMultiIdxMode) (entry_order : option positive) (e : positive) (l : list positive)
  : bool * list positive :=
  match mode with
  | NM_DEDUP_MULTI_IDX_MODE_PREPEND_FORCE =>
      match entry_order with
      | Some _ => nm_c_list_move_before entry_order e l
      | None => nm_c_list_move_after None e l
      end
  | NM_DEDUP_MULTI_IDX_MODE_APPEND_FORCE =>
      match entry_order with
      | Some _ => nm_c_list_move_after entry_order e l
      | None => nm_c_list_move_before None e l
      end
  | NM_DEDUP_MULTI_IDX_MODE_PREPEND | NM_DEDUP_MULTI_IDX_MODE_APPEND => (false, l)
  end.

(** Links the entry of a new object. *)
Definition link_entry (mode : NMDedupMultiIdxMode) (entry_order : option positive) (e : positive) (l : list positive) : list positive :=
  match mode with
  | NM_DEDUP_MULTI_IDX_MODE_PREPEND | NM_DEDUP_MULTI_IDX_MODE_PREPEND_FORCE =>
      match entry_order with
      | Some _ => c_list_link_before entry_order e l
      | None => c_list_link_after None e l
      end
  | _ =>
      match entry_order with
      | Some _ => c_list_link_after entry_order e l
      | None => c_list_link_before None e l
      end
  end.

(** What an addition returns: whether anything changed, the entry, the object that
    was there, and the index. *)
Record Added := { changed : bool; out_entry : option positive; out_obj_old : option positive; added_to : NMDedupMultiIndex }.

(** The object has an entry; [want_old]: out_obj_old is not NULL. *)
Definition add_existing self (obj e : positive) (mode : NMDedupMultiIdxMode) (entry_order : option positive)
    (want_old : bool) : option Added :=
  en ← entries self !! e;
  hd ← heads self !! en_head en;
  let '(moved, l) := move_entry mode entry_order e (lst_entries_head hd) in
  let self := with_heads <[en_head en := set_lst l hd]> (nm_dedup_multi_entry_set_dirty e false self) in
  x ← obj_at self obj;
  y ← obj_at self (en_obj en);
  if bool_decide (obj = en_obj en) || obj_full_equal x y then
    hp ← (if want_old then nm_dedup_multi_obj_ref (en_obj en) (heap self) else Some (heap self));
    Some {| changed := moved; out_entry := Some e;
            out_obj_old := if want_old then Some (en_obj en) else None; added_to := with_heap hp self |}
  else
    '(obj_new, hp) ← nm_dedup_multi_index_obj_intern obj (heap self);
    let self := with_entries (alter (set_obj obj_new) e) (with_heap hp self) in
    hp ← (if want_old then Some hp else nm_dedup_multi_obj_unref (en_obj en) hp);
    Some {| changed := true; out_entry := Some e;
            out_obj_old := if want_old then Some (en_obj en) else None; added_to := with_heap hp self |}.

(** The head for a new entry; without one, a new head is linked. *)
Definition new_head (i : I) self : positive * NMDedupMultiIndex :=
  let h := g_slice_new (heads self) in
  (h, with_idx_type i (fun it => set_lst_idx (lst_idx_head it ++ [h]) it)
        (with_heads <[h := {| he_idx_type := i; lst_entries_head := []; he_len := 0 |}]> self)).

Definition add_new self (i : I) (obj : positive) (mode : NMDedupMultiIdxMode) (entry_order : option positive)
    (head_existing : Existing) : option Added :=
  x ← obj_at self obj;
  if negb match idx_obj_partitionable i with Some partitionable => partitionable x | None => true end then
    Some {| changed := false; out_entry := None; out_obj_old := None; added_to := self |}
  else
    '(obj_new, hp) ← nm_dedup_multi_index_obj_intern obj (heap self);
    let self := with_heap hp self in
    let head_entry := match head_existing with
                      | LOOKUP => _entry_lookup_head self i (obj_at self obj_new)
                      | MISSING => None
                      | EXISTING h => Some h
                      end in
    let '(h, self) := match head_entry with Some h => (h, self) | None => new_head i self end in
    hd ← heads self !! h;
    let e := g_slice_new (entries self) in
    let self := with_entries <[e := {| en_obj := obj_new; en_dirty := false; en_head := h |}]> self in
    let self := with_heads <[h := add_len 1 (set_lst (link_entry mode entry_order e (lst_entries_head hd)) hd)]> self in
    let self := with_idx_type i (add_idx_len 1) self in
    Some {| changed := true; out_entry := Some e; out_obj_old := None; added_to := self |}.

Definition _add self (i : I) (obj : positive) (entry : option positive) (mode : NMDedupMultiIdxMode)
    (entry_order : option positive) (head_existing : Existing) (want_old : bool) : option Added :=
  match entry with
  | Some e => add_existing self obj e mode entry_order want_old
  | None => add_new self i obj mode entry_order head_existing
  end.

Definition nm_dedup_multi_index_add self (i : I) (obj : positive) (mode : NMDedupMultiIdxMode) (want_old : bool) : option Added :=
  x ← obj_at self obj;
  _add self i obj (_entry_lookup_obj self i x) mode None LOOKUP want_old.

Definition nm_dedup_multi_index_add_full self (i : I) (obj : positive) (mode : NMDedupMultiIdxMode)
    (entry_order : option positive) (entry_existing head_existing : Existing) (want_old : bool) : option Added :=
  x ← obj_at self obj;
  let entry := match entry_existing with
               | LOOKUP => _entry_lookup_obj self i x
               | MISSING => None
               | EXISTING e => Some e
               end in
  _add self i obj entry mode entry_order head_existing want_old.

(** ** Removing *)

(** Also whether the head was removed with its last entry; then the length of the
    handle is not decremented. *)
Definition _remove_entry self (e : positive) : option (bool * NMDedupMultiIndex) :=
  en ← entries self !! e;
  let h := en_head en in
  hd ← heads self !! h;
  let hd := set_lst (c_list_unlink e (lst_entries_head hd)) (add_len (-1) hd) in
  let i := he_idx_type hd in
  let head_removed := negb (0 <? he_len hd) in
  let self := if head_removed
              then with_idx_type i (fun it => set_lst_idx (c_list_unlink h (lst_idx_head it)) it) (with_heads (delete h) self)
              else with_idx_type i (add_idx_len (-1)) (with_heads <[h := hd]> self) in
  let self := with_entries (delete e) self in
  hp ← nm_dedup_multi_obj_unref (en_obj en) (heap self);
  Some (head_removed, with_heap hp self).

(** Over the entries of a head; the loop ends with the head. *)
Fixpoint remove_head_loop (es : list positive) (remove_all mark_survivors_dirty : bool) (n : Z) self
  : option (Z * NMDedupMultiIndex) :=
  match es with
  | [] => Some (n, self)
  | e :: es =>
      en ← entries self !! e;
      if remove_all || en_dirty en then
        '(head_entry_removed, self) ← _remove_entry self e;
        if head_entry_removed : bool then Some (n + 1, self)
        else remove_head_loop es remove_all mark_survivors_dirty (n + 1) self
      else
        remove_head_loop es remove_all mark_survivors_dirty n
          (if mark_survivors_dirty then nm_dedup_multi_entry_set_dirty e true self else self)
  end.

Definition _remove_head self (h : positive) (remove_all mark_survivors_dirty : bool) : option (Z * NMDedupMultiIndex) :=
  hd ← heads self !! h;
  remove_head_loop (lst_entries_head hd) remove_all mark_survivors_dirty 0 self.

Fixpoint remove_idx_loop (hs : list positive) (remove_all mark_survivors_dirty : bool) (n : Z) self
  : option (Z * NMDedupMultiIndex) :=
  match hs with
  | [] => Some (n, self)
  | h :: hs =>
      '(k, self) ← _remove_head self h remove_all mark_survivors_dirty;
      remove_idx_loop hs remove_all mark_survivors_dirty (n + k) self
  end.

Definition _remove_idx_entry self (i : I) (remove_all mark_survivors_dirty : bool) : option (Z * NMDedupMultiIndex) :=
  remove_idx_loop (lst_idx_head (idx_types self i)) remove_all mark_survivors_dirty 0 self.

(** The argument is an entry or a head. *)
Definition nm_dedup_multi_index_remove_entry self (entry : positive + positive) : option (Z * NMDedupMultiIndex) :=
  match entry with
  | inl e => '(_, self) ← _remove_entry self e; Some (1, self)
  | inr h => _remove_head self h true false
  end.

(** With a reference of the removed object for the caller who asks for it. *)
Definition nm_dedup_multi_index_remove_obj self (i : I) (obj : At A) (want_obj : bool)
  : option (Z * option positive * NMDedupMultiIndex) :=
  match nm_dedup_multi_index_lookup_obj self i obj with
  | None => Some (0, None, self)
  | Some e =>
      en ← entries self !! e;
      hp ← (if want_obj then nm_dedup_multi_obj_ref (en_obj en) (heap self) else Some (heap self));
      '(_, self) ← _remove_entry (with_heap hp self) e;
      Some (1, if want_obj then Some (en_obj en) else None, self)
  end.

Definition nm_dedup_multi_index_remove_head self (i : I) (obj : option (At A)) : option (Z * NMDedupMultiIndex) :=
  match nm_dedup_multi_index_lookup_head self i obj with
  | Some h => _remove_head self h true false
  | None => Some (0, self)
  end.

Definition nm_dedup_multi_index_remove_idx self (i : I) : option (Z * NMDedupMultiIndex) :=
  _remove_idx_entry self i true false.

(** ** Marking *)

Definition dirty_entries (es : list positive) self : NMDedupMultiIndex :=
  foldl (fun self e => nm_dedup_multi_entry_set_dirty e true self) self es.

Definition nm_dedup_multi_index_dirty_set_head self (i : I) (obj : option (At A)) : option NMDedupMultiIndex :=
  match _entry_lookup_head self i obj with
  | None => Some self
  | Some h => hd ← heads self !! h; Some (dirty_entries (lst_entries_head hd) self)
  end.

Fixpoint dirty_set_heads (hs : list positive) self : option NMDedupMultiIndex :=
  match hs with
  | [] => Some self
  | h :: hs => hd ← heads self !! h; dirty_set_heads hs (dirty_entries (lst_entries_head hd) self)
  end.

Definition nm_dedup_multi_index_dirty_set_idx self (i : I) : option NMDedupMultiIndex :=
  dirty_set_heads (lst_idx_head (idx_types self i)) self.

Definition nm_dedup_multi_index_dirty_remove_idx self (i : I) (mark_survivors_dirty : bool) : option (Z * NMDedupMultiIndex) :=
  _remove_idx_entry self i false mark_survivors_dirty.

(** ** Heads as lists of objects *)

Definition head_objs self (h : positive) : option (list positive) :=
  hd ← heads self !! h;
  mapM (fun e => en_obj <$> entries self !! e) (lst_entries_head hd).

Definition nm_dedup_multi_head_entry_get_idx self (h : positive) (idx : Z) : option positive :=
  hd ← heads self !! h;
  if 0 <=? idx then lst_entries_head hd !! Z.to_nat idx
  else rev (lst_entries_head hd) !! Z.to_nat (- idx - 1).

(** NULL for no object. *)
Definition nm_dedup_multi_objs_to_array_head self (head_entry : option positive) (predicate : At A -> bool)
  : option (option (list positive)) :=
  match head_entry with
  | None => Some None
  | Some h =>
      os ← head_objs self h;
      xs ← mapM (obj_at self) os;
      match fst <$> List.filter (fun ox => predicate ox.2) (zip os xs) with
      | [] => Some None
      | result => Some (Some result)
      end
  end.

Fixpoint ref_all (os : list positive) (hp : Heap A) : option (Heap A) :=
  match os with
  | [] => Some hp
  | o :: os => hp ← nm_dedup_multi_obj_ref o hp; ref_all os hp
  end.

(** The array owns a reference of each of its objects. *)
Definition nm_dedup_multi_objs_to_ptr_array_head self (head_entry : option positive) (predicate : At A -> bool)
  : option (option (list positive) * NMDedupMultiIndex) :=
  result ← nm_dedup_multi_objs_to_array_head self head_entry predicate;
  match result with
  | None => Some (None, self)
  | Some os => hp ← ref_all os (heap self); Some (Some os, with_heap hp self)
  end.

Definition nm_dedup_multi_entry_reorder self (e : positive) (entry_order : option positive) (order_after : bool)
  : option (bool * NMDedupMultiIndex) :=
  en ← entries self !! e;
  hd ← heads self !! en_head en;
  let '(moved, l) :=
    match entry_order with
    | None => if order_after then nm_c_list_move_before None e (lst_entries_head hd)
              else nm_c_list_move_after None e (lst_entries_head hd)
    | Some _ => if order_after then nm_c_list_move_after entry_order e (lst_entries_head hd)
                else nm_c_list_move_before entry_order e (lst_entries_head hd)
    end in
  Some (moved, with_heads <[en_head en := set_lst l hd]> self).

(** ** The index itself *)

Definition nm_dedup_multi_index_new (hp : Heap A) : NMDedupMultiIndex :=
  {| heap := {| objs := objs hp; idx_objs := ∅ |}; entries := ∅; heads := ∅; idx_types := fun _ => nm_dedup_multi_idx_type_init |}.

(** Removes what is left, handle by handle; an iteration of the hash table starts
    anew each time. *)
Fixpoint remove_everything (fuel : nat) self : option NMDedupMultiIndex :=
  match map_to_list (entries self) with
  | [] => Some self
  | (e, en) :: _ =>
      match fuel with
      | O => None
      | S fuel =>
          hd ← heads self !! en_head en;
          '(_, self) ← _remove_idx_entry self (he_idx_type hd) true false;
          remove_everything fuel self
      end
  end.

(** The last reference of the index: the memory of objects without an index. *)
Definition nm_dedup_multi_index_unref self : option (Heap A) :=
  self ← remove_everything (size (entries self)) self;
  Some {| objs := foldr (alter (set_multi_idx false)) (objs (heap self)) (elements (idx_objs (heap self))); idx_objs := ∅ |}.
End dedup_multi.
