(* ===== verification/DedupInv.v ===== *)
(** * NMDedupMultiIndex: its invariant

    Entries, heads and handles refer to each other consistently; each object has
    exactly the references that entries, other objects and the users of the index
    hold; the objects of a head are those of one partition, and no two of them
    have the same identity. *)

From S2P Require Export DedupMulti.

(** ** Lists *)

Lemma elem_of_link_before x w l y : x ∈ l -> y ∈ link_before x w l <-> y = w \/ y ∈ l.
Proof.
  induction l as [|z l IH]; intros Hx; [by apply elem_of_nil in Hx|]. cbn.
  destruct (decide (z = x)) as [->|Hne]; [by rewrite !elem_of_cons|].
  apply elem_of_cons in Hx as [->|Hx]; [done|]. rewrite !elem_of_cons, IH by done. tauto.
Qed.

Lemma link_before_perm x w l : x ∈ l -> link_before x w l ≡ₚ w :: l.
Proof.
  induction l as [|z l IH]; intros Hx; [by apply elem_of_nil in Hx|]. cbn.
  destruct (decide (z = x)) as [->|Hne]; [done|].
  apply elem_of_cons in Hx as [->|Hx]; [done|]. rewrite IH by done. apply Permutation_swap.
Qed.

Lemma link_after_perm x w l : x ∈ l -> link_after x w l ≡ₚ w :: l.
Proof.
  induction l as [|z l IH]; intros Hx; [by apply elem_of_nil in Hx|]. cbn.
  destruct (decide (z = x)) as [->|Hne]; [apply Permutation_swap|].
  apply elem_of_cons in Hx as [->|Hx]; [done|]. rewrite IH by done. apply Permutation_swap.
Qed.

(** The anchor of a list operation is the head or a member. *)
Definition anchor_in (w : option positive) (l : list positive) : Prop := forall x, w = Some x -> x ∈ l.

Lemma c_list_link_before_perm w e l : anchor_in w l -> c_list_link_before w e l ≡ₚ e :: l.
Proof. intros Hw. destruct w as [x|]; cbn; [by apply link_before_perm, Hw|by rewrite Permutation_app_comm]. Qed.
Lemma c_list_link_after_perm w e l : anchor_in w l -> c_list_link_after w e l ≡ₚ e :: l.
Proof. intros Hw. destruct w as [x|]; cbn; [by apply link_after_perm, Hw|done]. Qed.

Lemma unlink_perm e l : NoDup l -> e ∈ l -> e :: c_list_unlink e l ≡ₚ l.
Proof.
  intros Hl He. apply NoDup_Permutation; [|done|].
  - apply NoDup_cons. split; [by rewrite elem_of_unlink; tauto|by apply NoDup_unlink].
  - intros x. rewrite elem_of_cons, elem_of_unlink. destruct (decide (x = e)) as [->|]; tauto.
Qed.

Lemma move_before_perm w e l : NoDup l -> e ∈ l -> anchor_in w l -> (nm_c_list_move_before w e l).2 ≡ₚ l.
Proof.
  intros Hl He Hw. unfold nm_c_list_move_before. destruct (negb _ && _) eqn:E; [|done]. bools. cbn [snd].
  rewrite c_list_link_before_perm; [by apply unlink_perm|]. intros x ->. apply elem_of_unlink. split; [congruence|by apply Hw].
Qed.
Lemma move_after_perm w e l : NoDup l -> e ∈ l -> anchor_in w l -> (nm_c_list_move_after w e l).2 ≡ₚ l.
Proof.
  intros Hl He Hw. unfold nm_c_list_move_after. destruct (negb _ && _) eqn:E; [|done]. bools. cbn [snd].
  rewrite c_list_link_after_perm; [by apply unlink_perm|]. intros x ->. apply elem_of_unlink. split; [congruence|by apply Hw].
Qed.

Lemma anchor_none l : anchor_in None l.
Proof. done. Qed.
#[export] Hint Resolve anchor_none : nm.

Lemma move_entry_perm mode w e l : NoDup l -> e ∈ l -> anchor_in w l -> (move_entry mode w e l).2 ≡ₚ l.
Proof.
  intros Hl He Hw. destruct mode, w; cbn -[nm_c_list_move_before nm_c_list_move_after]; try done;
    (apply move_before_perm || apply move_after_perm); done.
Qed.

Lemma link_entry_perm mode w e l : anchor_in w l -> link_entry mode w e l ≡ₚ e :: l.
Proof.
  intros Hw. unfold link_entry. destruct mode, w; (apply c_list_link_before_perm || apply c_list_link_after_perm); done.
Qed.

(** ** The laws of handles *)

(** What may be looked up: an object in memory, or one that is elsewhere (on the
    stack). *)
Definition needle_ok {A} `{DedupObjLaws A} (m : gmap positive A) (x : At A) : Prop :=
  (exists o v, x = boxed o v /\ m !! o = Some v /\ obj_ok m v) \/ (at_ptr x <= 0 /\ obj_ok m (at_obj x)).

(** Each handle has a key for partitions, for the objects that have one, and a key
    for identities; the keys of objects that may be tracked ([indexable]) do not
    depend on where they are. *)
Class DedupIdxLaws (I A : Type) `{DedupObjLaws A} `{!NMDedupMultiIdxTypeClass I A} := {
  part_key : I -> At A -> option kval;
  id_key : I -> At A -> kval;
  indexable : A -> Prop;
  partitionable_law i x :
    match idx_obj_partitionable i with Some f => f x | None => true end = true <-> is_Some (part_key i x);
  no_partition_law i x : idx_obj_partition_equal i = None -> part_key i x = Some (KL []);
  partition_equal_law i f m o v y :
    idx_obj_partition_equal i = Some f -> m !! o = Some v -> obj_ok m v -> needle_ok m y -> Zpos o <> at_ptr y ->
    f (boxed o v) y = true <-> exists k, part_key i (boxed o v) = Some k /\ part_key i y = Some k;
  id_equal_law i m o v y :
    m !! o = Some v -> obj_ok m v -> needle_ok m y -> Zpos o <> at_ptr y ->
    idx_obj_id_equal i (boxed o v) y = true <-> id_key i (boxed o v) = id_key i y;
  stands_for_keys i x y :
    indexable (at_obj y) -> stands_for x y ->
    part_key i x = part_key i y /\ id_key i x = id_key i y /\ indexable (at_obj x)
}.

#[global] Arguments NMDedupMultiIndex : clear implicits.
#[global] Arguments NMDedupMultiHeadEntry : clear implicits.

Section inv.
Context {I A : Type} `{!EqDecision I} `{HL : DedupIdxLaws I A}.
Implicit Types (s : NMDedupMultiIndex I A) (ext : positive -> nat).

Definition entry_uses (m : gmap positive NMDedupMultiEntry) (o : positive) : nat :=
  map_count (fun _ en => bool_decide (en_obj en = o)) m.

Definition uses s ext : positive -> nat := fun o => (entry_uses (entries s) o + ext o)%nat.

(** An entry of a handle, with its head and its object. *)
Definition tracked s (e : positive) (i : I) (h o : positive) (v : A) : Prop :=
  exists en hd, entries s !! e = Some en /\ en_obj en = o /\ en_head en = h /\
    heads s !! h = Some hd /\ he_idx_type hd = i /\ vals (heap s) !! o = Some v.

(** [ext]: the references that the users of the index hold. *)
Record index_ok s ext : Prop := {
  ix_heap : heap_ok (heap s) (uses s ext);
  ix_entry e en : entries s !! e = Some en ->
    exists hd, heads s !! en_head en = Some hd /\ e ∈ lst_entries_head hd;
  ix_member h hd e : heads s !! h = Some hd -> e ∈ lst_entries_head hd ->
    exists en, entries s !! e = Some en /\ en_head en = h;
  ix_head h hd : heads s !! h = Some hd ->
    NoDup (lst_entries_head hd) /\ lst_entries_head hd <> [] /\ he_len hd = Z.of_nat (length (lst_entries_head hd)) /\
    h ∈ lst_idx_head (idx_types s (he_idx_type hd));
  ix_handle i : NoDup (lst_idx_head (idx_types s i));
  ix_handle_head i h : h ∈ lst_idx_head (idx_types s i) -> exists hd, heads s !! h = Some hd /\ he_idx_type hd = i;
  ix_pool e en : entries s !! e = Some en -> en_obj en ∈ idx_objs (heap s);
  ix_part e i h o v : tracked s e i h o v -> is_Some (part_key i (boxed o v)) /\ indexable v;
  ix_same e1 e2 i h1 h2 o1 o2 v1 v2 : tracked s e1 i h1 o1 v1 -> tracked s e2 i h2 o2 v2 ->
    h1 = h2 <-> part_key i (boxed o1 v1) = part_key i (boxed o2 v2);
  ix_unique e1 e2 i h1 h2 o1 o2 v1 v2 : tracked s e1 i h1 o1 v1 -> tracked s e2 i h2 o2 v2 ->
    part_key i (boxed o1 v1) = part_key i (boxed o2 v2) -> id_key i (boxed o1 v1) = id_key i (boxed o2 v2) -> e1 = e2
}.

(** ** What an entry stands for *)

Lemma tracked_fun s e i h o v i' h' o' v' :
  tracked s e i h o v -> tracked s e i' h' o' v' -> i = i' /\ h = h' /\ o = o' /\ v = v'.
Proof. intros (en & hd & ? & <- & <- & ? & <- & ?) (en' & hd' & ? & <- & <- & ? & <- & ?). naive_solver congruence. Qed.

Lemma entry_tracked s ext e en :
  index_ok s ext -> entries s !! e = Some en ->
  exists hd v, heads s !! en_head en = Some hd /\ e ∈ lst_entries_head hd /\
    tracked s e (he_idx_type hd) (en_head en) (en_obj en) v.
Proof.
  intros Hok He. destruct (ix_entry _ _ Hok _ _ He) as (hd & Hh & Hin).
  apply (ix_pool _ _ Hok) in He as Hp. apply (ho_pool _ _ (ix_heap _ _ Hok)) in Hp as (ob & Ho & _).
  exists hd, (ob_val ob). split_and!; [done|done|]. exists en, hd. split_and!; try done. apply vals_Some. eauto.
Qed.

Lemma head_tracked s ext h hd e :
  index_ok s ext -> heads s !! h = Some hd -> e ∈ lst_entries_head hd ->
  exists en v, entries s !! e = Some en /\ en_head en = h /\ tracked s e (he_idx_type hd) h (en_obj en) v.
Proof.
  intros Hok Hh Hin. destruct (ix_member _ _ Hok _ _ _ Hh Hin) as (en & He & Hhe). subst h.
  destruct (entry_tracked _ _ _ _ Hok He) as (hd' & v & Hh' & _ & Ht). assert (hd' = hd) as -> by congruence. eauto.
Qed.

Lemma tracked_at s e i h o v : tracked s e i h o v -> obj_at s o = Some (boxed o v).
Proof. intros (? & ? & _ & _ & _ & _ & _ & Hv). unfold obj_at. by rewrite Hv. Qed.

Lemma tracked_ok s ext e i h o v : index_ok s ext -> tracked s e i h o v -> obj_ok (vals (heap s)) v.
Proof. intros Hok (? & ? & _ & _ & _ & _ & _ & Hv). by apply (ho_val _ _ (ix_heap _ _ Hok) o). Qed.

Lemma needle_boxed s ext o v : index_ok s ext -> vals (heap s) !! o = Some v -> needle_ok (vals (heap s)) (boxed o v).
Proof. intros Hok Hv. left. exists o, v. split_and!; [done|done|]. by apply (ho_val _ _ (ix_heap _ _ Hok) o). Qed.

(** ** Lookup finds by keys *)

Lemma needle_same m o v y : m !! o = Some v -> needle_ok m y -> Zpos o = at_ptr y -> y = boxed o v.
Proof. intros Ho [(p & w & -> & Hp & _)|[Hy _]] E; cbn in *; [|lia]. assert (o = p) as -> by congruence. congruence. Qed.

Lemma id_equal_spec s ext e i h o v y :
  index_ok s ext -> tracked s e i h o v -> needle_ok (vals (heap s)) y ->
  nm_dedup_multi_idx_type_id_equal i (boxed o v) y = true <-> id_key i (boxed o v) = id_key i y.
Proof.
  intros Hok Ht Hy. pose proof (tracked_ok _ _ _ _ _ _ _ Hok Ht) as Hv.
  destruct Ht as (? & ? & _ & _ & _ & _ & _ & Ho). unfold nm_dedup_multi_idx_type_id_equal. change (at_ptr (boxed o v)) with (Zpos o).
  destruct (Z.eqb_spec (Zpos o) (at_ptr y)) as [E|E].
  - by split; [intros _; rewrite (needle_same _ _ _ _ Ho Hy E)|].
  - cbn. by apply (id_equal_law i (vals (heap s))).
Qed.

Lemma partition_equal_spec s ext e i h o v y :
  index_ok s ext -> tracked s e i h o v -> needle_ok (vals (heap s)) y ->
  nm_dedup_multi_idx_type_partition_equal i (Some (boxed o v)) (Some y) = true
  <-> part_key i (boxed o v) = part_key i y.
Proof.
  intros Hok Ht Hy. pose proof (tracked_ok _ _ _ _ _ _ _ Hok Ht) as Hv.
  destruct (ix_part _ _ Hok _ _ _ _ _ Ht) as [[k Hk] _].
  destruct Ht as (? & ? & _ & _ & _ & _ & _ & Ho). unfold nm_dedup_multi_idx_type_partition_equal.
  destruct (idx_obj_partition_equal i) as [f|] eqn:Ef.
  - change (at_ptr (boxed o v)) with (Zpos o). destruct (Z.eqb_spec (Zpos o) (at_ptr y)) as [E|E].
    + by split; [intros _; rewrite (needle_same _ _ _ _ Ho Hy E)|].
    + cbn. rewrite (partition_equal_law i f (vals (heap s))) by done. rewrite Hk.
      split; [intros (? & ? & ?); congruence|intros; eauto].
  - by rewrite !no_partition_law.
Qed.

Lemma entry_equal_spec s ext e en i i' h o v x :
  index_ok s ext -> entries s !! e = Some en -> tracked s e i' h o v -> needle_ok (vals (heap s)) x ->
  _dict_idx_entries_equal s (Entry en) (LookupEntry (Some x) i false) = true
  <-> i' = i /\ part_key i (boxed o v) = part_key i x /\ id_key i (boxed o v) = id_key i x.
Proof.
  intros Hok He Ht Hx. pose proof (tracked_at _ _ _ _ _ _ Ht) as Hat. pose proof Ht as (en' & hd & He' & <- & <- & Hh & <- & _).
  assert (en' = en) as -> by congruence. unfold _dict_idx_entries_equal. cbn [_entry_unpack]. rewrite Hh. cbn [mbind option_bind].
  rewrite Hat. cbn [mbind option_bind eqb]. rewrite orb_false_l, andb_true_r, !andb_true_iff, bool_decide_eq_true.
  split.
  - intros [[<- Hp] Hid]. split_and!; [done|by apply (partition_equal_spec _ _ _ _ _ _ _ _ Hok Ht Hx)|by apply (id_equal_spec _ _ _ _ _ _ _ _ Hok Ht Hx)].
  - intros (<- & Hp & Hid). split; [split; [done|]|].
    + by apply (partition_equal_spec _ _ _ _ _ _ _ _ Hok Ht Hx).
    + by apply (id_equal_spec _ _ _ _ _ _ _ _ Hok Ht Hx).
Qed.

Lemma lookup_obj_spec s ext i x e :
  index_ok s ext -> needle_ok (vals (heap s)) x ->
  _entry_lookup_obj s i x = Some e
  <-> exists h o v, tracked s e i h o v /\ part_key i (boxed o v) = part_key i x /\ id_key i (boxed o v) = id_key i x.
Proof.
  intros Hok Hx. unfold _entry_lookup_obj. split.
  - intros ([e' en] & E & ->)%fmap_Some. cbn [fst]. apply ght_lookup_Some in E as [He Heq].
    destruct (entry_tracked _ _ _ _ Hok He) as (hd & v & _ & _ & Ht).
    destruct (proj1 (entry_equal_spec _ _ _ _ _ _ _ _ _ _ Hok He Ht Hx) Heq) as (Ei & Hp & Hid). rewrite Ei in Ht. eauto 10.
  - intros (h & o & v & Ht & Hp & Hid). pose proof Ht as (en & hd & He & _).
    destruct (g_hash_table_lookup _ (entries s)) as [[e' en']|] eqn:E.
    + apply ght_lookup_Some in E as [He' Heq]. destruct (entry_tracked _ _ _ _ Hok He') as (hd' & v' & _ & _ & Ht').
      destruct (proj1 (entry_equal_spec _ _ _ _ _ _ _ _ _ _ Hok He' Ht' Hx) Heq) as (Ei & Hp' & Hid'). rewrite Ei in Ht'. cbn. f_equal.
      apply (ix_unique _ _ Hok _ _ _ _ _ _ _ _ _ Ht' Ht); congruence.
    + eapply ght_lookup_None in E; [|exact He].
      assert (_dict_idx_entries_equal s (Entry en) (LookupEntry (Some x) i false) = true); [|congruence].
      by apply (entry_equal_spec _ _ _ _ _ _ _ _ _ _ Hok He Ht Hx).
Qed.

Lemma head_equal_spec s ext h hd i x :
  index_ok s ext -> heads s !! h = Some hd -> needle_ok (vals (heap s)) x ->
  _dict_idx_entries_equal s (HeadEntry hd) (LookupEntry (Some x) i true) = true
  <-> exists e o v, tracked s e i h o v /\ part_key i (boxed o v) = part_key i x.
Proof.
  intros Hok Hh Hx. destruct (ix_head _ _ Hok _ _ Hh) as (_ & Hne & _ & _).
  destruct (lst_entries_head hd) as [|e l] eqn:El; [done|].
  destruct (head_tracked _ _ _ _ e Hok Hh) as (en & v & He & _ & Ht); [rewrite El; apply list_elem_of_here|].
  unfold _dict_idx_entries_equal. cbn [_entry_unpack]. rewrite El. cbn [head mbind option_bind]. rewrite He. cbn [mbind option_bind].
  rewrite (tracked_at _ _ _ _ _ _ Ht). cbn [mbind option_bind eqb]. rewrite orb_true_l, !andb_true_r, andb_true_iff, bool_decide_eq_true.
  split.
  - intros [<- Hp]. exists e, (en_obj en), v. split; [done|]. by apply (partition_equal_spec _ _ _ _ _ _ _ _ Hok Ht Hx).
  - intros (e' & o' & v' & Ht' & Hp'). pose proof Ht' as (en' & hd' & _ & _ & _ & Hh' & Hi & _).
    assert (hd' = hd) as -> by congruence. split; [done|]. subst i.
    apply (partition_equal_spec _ _ _ _ _ _ _ _ Hok Ht Hx). rewrite <-Hp'.
    by apply (ix_same _ _ Hok _ _ _ _ _ _ _ _ _ Ht Ht').
Qed.

Lemma handle_tracked s ext i h : index_ok s ext -> h ∈ lst_idx_head (idx_types s i) -> exists e o v, tracked s e i h o v.
Proof.
  intros Hok Hin. destruct (ix_handle_head _ _ Hok _ _ Hin) as (hd & Hh & <-).
  destruct (ix_head _ _ Hok _ _ Hh) as (_ & Hne & _ & _). destruct (lst_entries_head hd) as [|e l] eqn:El; [done|].
  destruct (head_tracked _ _ _ _ e Hok Hh) as (en & v & He & _ & Ht); [rewrite El; apply list_elem_of_here|]. eauto.
Qed.

Lemma tracked_handle s ext e i h o v : index_ok s ext -> tracked s e i h o v -> h ∈ lst_idx_head (idx_types s i).
Proof. intros Hok (? & hd & _ & _ & _ & Hh & <- & _). by apply (ix_head _ _ Hok). Qed.

Lemma lookup_head_spec s ext i x h :
  index_ok s ext -> needle_ok (vals (heap s)) x ->
  _entry_lookup_head s i (Some x) = Some h
  <-> exists e o v, tracked s e i h o v /\ part_key i (boxed o v) = part_key i x.
Proof.
  intros Hok Hx. unfold _entry_lookup_head. destruct (idx_obj_partition_equal i) as [f|] eqn:Ef.
  - split.
    + intros ([h' hd] & E & ->)%fmap_Some. cbn [fst]. apply ght_lookup_Some in E as [Hh Heq].
      by apply (head_equal_spec _ _ _ _ _ _ Hok Hh Hx).
    + intros (e & o & v & Ht & Hp). pose proof Ht as (en & hd & _ & _ & _ & Hh & _).
      destruct (g_hash_table_lookup _ (heads s)) as [[h' hd']|] eqn:E.
      * apply ght_lookup_Some in E as [Hh' Heq]. apply (head_equal_spec _ _ _ _ _ _ Hok Hh' Hx) in Heq as (e' & o' & v' & Ht' & Hp').
        cbn. f_equal. apply (ix_same _ _ Hok _ _ _ _ _ _ _ _ _ Ht' Ht). congruence.
      * eapply ght_lookup_None in E; [|exact Hh].
        assert (_dict_idx_entries_equal s (HeadEntry hd) (LookupEntry (Some x) i true) = true); [|congruence].
        apply (head_equal_spec _ _ _ _ _ _ Hok Hh Hx). eauto.
  - assert (Hone : forall h1 h2 e1 e2 o1 o2 v1 v2, tracked s e1 i h1 o1 v1 -> tracked s e2 i h2 o2 v2 -> h1 = h2).
    { intros h1 h2 e1 e2 o1 o2 v1 v2 H1 H2. apply (ix_same _ _ Hok _ _ _ _ _ _ _ _ _ H1 H2). by rewrite !no_partition_law. }
    destruct (lst_idx_head (idx_types s i)) as [|h' l] eqn:El; cbn [head].
    + split; [done|]. intros (e & o & v & Ht & _). apply (tracked_handle _ _ _ _ _ _ _ Hok) in Ht. rewrite El in Ht.
      by apply elem_of_nil in Ht.
    + destruct (handle_tracked _ _ i h' Hok) as (e' & o' & v' & Ht'); [rewrite El; apply list_elem_of_here|]. split.
      * intros [= ->]. exists e', o', v'. by rewrite !no_partition_law.
      * intros (e & o & v & Ht & _). f_equal. by eapply Hone.
Qed.
End inv.
