(* ===== verification/DedupLinks.v ===== *)
(** * NMDedupMultiIndex: the elementary changes

    What one change of the index does to its invariant and to its entries: moving an
    entry within its list, marking it, replacing its object, linking a new entry,
    unlinking one, and changes of the memory of objects that keep those in use. *)

From S2P Require Export DedupInv.

Section links.
Context {I A : Type} `{!EqDecision I} `{HL : DedupIdxLaws I A}.
Implicit Types (s : NMDedupMultiIndex I A) (ext : positive -> nat).

(** ** Users *)

Lemma index_ok_ext s ext ext' : (forall o, ext o = ext' o) -> index_ok s ext -> index_ok s ext'.
Proof.
  intros He Hok. split; try apply Hok. apply (heap_ok_ext _ (uses s ext)); [|apply Hok].
  intros o. unfold uses. by rewrite He.
Qed.

Lemma uses_add s ext o p : uses s (add_use o ext) p = add_use o (uses s ext) p.
Proof. unfold uses, add_use. lia. Qed.

(** ** Changes that keep the objects of all entries *)

Definition same_entry (en en' : NMDedupMultiEntry) : Prop := en_obj en = en_obj en' /\ en_head en = en_head en'.
Definition same_head (hd hd' : NMDedupMultiHeadEntry I) : Prop :=
  he_idx_type hd = he_idx_type hd' /\ he_len hd = he_len hd' /\ lst_entries_head hd ≡ₚ lst_entries_head hd'.

(** The index is the same up to marks and the order of lists. *)
Record same_links s s' : Prop := {
  sl_entries e : option_Forall2 same_entry (entries s !! e) (entries s' !! e);
  sl_heads h : option_Forall2 same_head (heads s !! h) (heads s' !! h);
  sl_idx i : lst_idx_head (idx_types s i) = lst_idx_head (idx_types s' i)
}.

#[export] Instance same_entry_sym : Symmetric same_entry.
Proof. intros x y [? ?]. by split. Qed.
#[export] Instance same_head_sym : Symmetric same_head.
Proof. intros x y (? & ? & ?). by split_and!. Qed.
#[export] Instance same_links_sym : Symmetric same_links.
Proof. intros x y [H1 H2 H3]. split; intros; symmetry; auto. Qed.
#[export] Instance same_links_refl : Reflexive same_links.
Proof. intros x. split; [intros e; by destruct (entries x !! e); constructor..|intros h; by destruct (heads x !! h); constructor|done]. Qed.

Lemma same_links_tracked s s' e i h o v :
  same_links s s' -> vals (heap s') !! o = vals (heap s) !! o -> tracked s e i h o v -> tracked s' e i h o v.
Proof.
  intros Hs Hv (en & hd & He & <- & <- & Hh & <- & Ho).
  pose proof (sl_entries _ _ Hs e) as Se. rewrite He in Se. inversion Se as [? en' [Eo Eh] E1 E2|]; subst.
  pose proof (sl_heads _ _ Hs (en_head en)) as Sh. rewrite Hh in Sh. inversion Sh as [? hd' (Ei & _) E3 E4|]; subst.
  exists en', hd'. rewrite <-Eo, <-Eh, <-Ei. split_and!; try done. by rewrite Hv.
Qed.

Lemma same_links_uses s s' o : same_links s s' -> entry_uses (entries s) o = entry_uses (entries s') o.
Proof.
  intros Hs. pose proof (map_count_fmap en_obj (fun _ (x : positive) => bool_decide (x = o))) as Hc.
  etransitivity; [symmetry; apply (Hc (entries s))|]. etransitivity; [|apply (Hc (entries s'))]. f_equal.
  apply map_eq. intros e. rewrite !lookup_fmap. pose proof (sl_entries _ _ Hs e) as Se.
  inversion Se as [en en' [Eo _]|]; [|done]. cbn. by rewrite Eo.
Qed.

(** The objects of entries stay. *)
Definition keeps_objects s s' : Prop :=
  forall e en, entries s !! e = Some en ->
    vals (heap s') !! en_obj en = vals (heap s) !! en_obj en /\ en_obj en ∈ idx_objs (heap s').

Lemma same_links_ok s s' ext ext' :
  index_ok s ext -> same_links s s' -> keeps_objects s s' -> heap_ok (heap s') (uses s ext') ->
  index_ok s' ext' /\ (forall e i h o v, tracked s e i h o v <-> tracked s' e i h o v).
Proof.
  intros Hok Hs Hk Hh.
  assert (Ht : forall e i h o v, tracked s e i h o v <-> tracked s' e i h o v).
  { intros e i h o v. split.
    - intros Ht. apply (same_links_tracked s); [done| |done]. destruct Ht as (en & hd & He & <- & _). by apply (Hk e).
    - intros Ht. assert (Ht' := Ht). destruct Ht' as (en' & hd' & He' & <- & _).
      apply (same_links_tracked s'); [by symmetry| |done].
      pose proof (sl_entries _ _ Hs e) as Se. rewrite He' in Se. inversion Se as [en ? [Eo _] E1 E2|]; subst.
      rewrite <-Eo. symmetry. by apply (Hk e). }
  split; [|done]. split.
  - eapply heap_ok_ext; [|exact Hh]. intros o. unfold uses. by rewrite (same_links_uses _ _ o Hs).
  - intros e en' He'. pose proof (sl_entries _ _ Hs e) as Se. rewrite He' in Se. inversion Se as [en ? [Eo Eh] E1 E2|]; subst.
    destruct (ix_entry _ _ Hok e en) as (hd & Hhd & Hin); [done|].
    pose proof (sl_heads _ _ Hs (en_head en)) as Sh. rewrite Hhd in Sh. inversion Sh as [? hd' (_ & _ & Hp) E3 E4|]; subst.
    exists hd'. rewrite <-Eh. split; [done|]. by rewrite <-Hp.
  - intros h hd' e Hh' Hin. pose proof (sl_heads _ _ Hs h) as Sh. rewrite Hh' in Sh. inversion Sh as [hd ? (_ & _ & Hp) E3 E4|]; subst.
    destruct (ix_member _ _ Hok h hd e) as (en & He & Eh); [done|by rewrite Hp|].
    pose proof (sl_entries _ _ Hs e) as Se. rewrite He in Se. inversion Se as [? en' [Eo Eh'] E1 E2|]; subst.
    exists en'. by rewrite <-Eh'.
  - intros h hd' Hh'. pose proof (sl_heads _ _ Hs h) as Sh. rewrite Hh' in Sh. inversion Sh as [hd ? (Ei & El & Hp) E3 E4|]; subst.
    destruct (ix_head _ _ Hok h hd) as (H1 & H2 & H3 & H4); [done|]. rewrite <-Ei, <-El, <-(sl_idx _ _ Hs). split_and!; [by rewrite <-Hp| |by rewrite <-Hp|done].
    intros E. rewrite E in Hp. by apply Permutation_nil_r in Hp.
  - intros i. rewrite <-(sl_idx _ _ Hs). apply (ix_handle _ _ Hok).
  - intros i h. rewrite <-(sl_idx _ _ Hs). intros Hin. destruct (ix_handle_head _ _ Hok i h Hin) as (hd & Hhd & Ei).
    pose proof (sl_heads _ _ Hs h) as Sh. rewrite Hhd in Sh. inversion Sh as [? hd' (Ei' & _) E3 E4|]; subst.
    exists hd'. split; [done|]. done.
  - intros e en' He'. pose proof (sl_entries _ _ Hs e) as Se. rewrite He' in Se. inversion Se as [en ? [Eo Eh] E1 E2|]; subst.
    rewrite <-Eo. by apply (Hk e).
  - intros e i h o v Htr. apply Ht in Htr. by apply (ix_part _ _ Hok e i h o v).
  - intros e1 e2 i h1 h2 o1 o2 v1 v2 H1 H2. apply Ht in H1, H2. by apply (ix_same _ _ Hok e1 e2 i).
  - intros e1 e2 i h1 h2 o1 o2 v1 v2 H1 H2. apply Ht in H1, H2. by apply (ix_unique _ _ Hok e1 e2 i h1 h2).
Qed.

(** The references of users change. *)
Lemma with_heap_ok s ext ext' hp :
  index_ok s ext -> heap_ok hp (uses s ext') -> keeps_objects s (with_heap hp s) ->
  index_ok (with_heap hp s) ext' /\ (forall e i h o v, tracked s e i h o v <-> tracked (with_heap hp s) e i h o v).
Proof.
  intros Hok Hh Hk. apply (same_links_ok s _ ext); [done| |done|done].
  assert (Hr : same_links s s) by reflexivity. split; apply Hr.
Qed.

Lemma entry_pool_val s ext e en : index_ok s ext -> entries s !! e = Some en -> exists v, vals (heap s) !! en_obj en = Some v.
Proof. intros Hok He. destruct (entry_tracked _ _ _ _ Hok He) as (hd & v & _ & _ & (? & ? & _ & _ & _ & _ & _ & Hv)). eauto. Qed.

(** What the users of the index hold references of is still there. *)
Definition keeps ext s s' : Prop :=
  forall p, (0 < ext p)%nat ->
    vals (heap s') !! p = vals (heap s) !! p /\ (p ∈ idx_objs (heap s) -> p ∈ idx_objs (heap s')).

Lemma keeps_refl ext s : keeps ext s s.
Proof. by split. Qed.
Lemma keeps_trans ext s1 s2 s3 : keeps ext s1 s2 -> keeps ext s2 s3 -> keeps ext s1 s3.
Proof. intros H1 H2 p Hp. destruct (H1 p Hp) as [E1 I1], (H2 p Hp) as [E2 I2]. split; [congruence|auto]. Qed.
Lemma keeps_mono ext ext' s s' : (forall p, (ext p <= ext' p)%nat) -> keeps ext' s s' -> keeps ext s s'.
Proof. intros Hle Hk p Hp. apply Hk. specialize (Hle p). lia. Qed.
Lemma keeps_heap ext s s' : heap s' = heap s -> keeps ext s s'.
Proof. intros E p _. by rewrite E. Qed.
Lemma add_use_le o ext p : (ext p <= add_use o ext p)%nat.
Proof. unfold add_use. lia. Qed.

Lemma ref_ok s ext o ob :
  index_ok s ext -> objs (heap s) !! o = Some ob ->
  exists hp, nm_dedup_multi_obj_ref o (heap s) = Some hp /\ index_ok (with_heap hp s) (add_use o ext) /\
    vals hp = vals (heap s) /\ idx_objs hp = idx_objs (heap s) /\
    (forall e i h p v, tracked s e i h p v <-> tracked (with_heap hp s) e i h p v).
Proof.
  intros Hok Ho. destruct (obj_ref_ok _ _ _ _ (ix_heap _ _ Hok) Ho) as (E & Hh & Hv).
  set (hp := with_objs _ _) in E, Hh, Hv. exists hp. split; [exact E|].
  destruct (with_heap_ok s ext (add_use o ext) hp Hok) as [Hok' Ht].
  - eapply heap_ok_ext; [|exact Hh]. intros p. symmetry. apply uses_add.
  - intros e en He. cbn [heap with_heap]. rewrite Hv. split; [done|]. by apply (ix_pool _ _ Hok e).
  - split_and!; auto.
Qed.

Lemma unref_ok s ext o :
  index_ok s (add_use o ext) ->
  exists hp, nm_dedup_multi_obj_unref o (heap s) = Some hp /\ index_ok (with_heap hp s) ext /\
    vals hp ⊆ vals (heap s) /\ keeps ext s (with_heap hp s) /\
    (forall e i h p v, tracked s e i h p v <-> tracked (with_heap hp s) e i h p v).
Proof.
  intros Hok. assert (Hh : heap_ok (heap s) (add_use o (uses s ext))).
  { eapply heap_ok_ext; [|apply (ix_heap _ _ Hok)]. intros p. apply uses_add. }
  destruct (obj_unref_ok _ _ _ Hh) as (hp & E & Hhp & Hsub & Hpool). exists hp. split; [done|].
  assert (Hused : forall p, (0 < uses s ext p)%nat ->
            vals hp !! p = vals (heap s) !! p /\ (p ∈ idx_objs (heap s) -> p ∈ idx_objs hp)).
  { intros p Hp. destruct (heap_used hp _ p Hhp Hp) as [ob Hob].
    assert (vals hp !! p = Some (ob_val ob)) as Hob' by (apply vals_Some; eauto). split; [|eauto].
    rewrite Hob'. symmetry. by apply (lookup_weaken _ _ _ _ Hob'). }
  destruct (with_heap_ok s (add_use o ext) ext hp Hok Hhp) as [Hok' Ht].
  - intros e en He. cbn [heap with_heap]. destruct (Hused (en_obj en)) as [Hv Hp].
    { unfold uses, entry_uses.
      pose proof (map_count_pos (fun _ en' => bool_decide (en_obj en' = en_obj en)) _ _ _ He (bool_decide_eq_true_2 _ eq_refl)). lia. }
    split; [done|]. by apply Hp, (ix_pool _ _ Hok e).
  - split_and!; [done|done| |done]. intros p Hp. apply Hused. unfold uses. lia.
Qed.

Lemma intern_ok s ext o ob :
  index_ok s ext -> objs (heap s) !! o = Some ob ->
  exists o' v' hp, nm_dedup_multi_index_obj_intern o (heap s) = Some (o', hp) /\ index_ok (with_heap hp s) (add_use o' ext) /\
    vals (heap s) ⊆ vals hp /\ o' ∈ idx_objs hp /\ vals hp !! o' = Some v' /\ stands_for (boxed o' v') (boxed o (ob_val ob)) /\
    (o ∈ idx_objs (heap s) -> o' = o) /\ keeps ext s (with_heap hp s) /\
    (forall e i h p v, tracked s e i h p v <-> tracked (with_heap hp s) e i h p v).
Proof.
  intros Hok Ho. destruct (obj_intern_ok _ _ _ _ (ix_heap _ _ Hok) Ho) as (o' & v' & hp & E & Hh & Hsub & [Hin Hp] & Hv' & Hst & Hsame).
  exists o', v', hp. split; [done|].
  destruct (with_heap_ok s ext (add_use o' ext) hp Hok) as [Hok' Ht].
  - eapply heap_ok_ext; [|exact Hh]. intros p. symmetry. apply uses_add.
  - intros e en He. cbn [heap with_heap]. destruct (entry_pool_val _ _ _ _ Hok He) as [v Hv]. split.
    + rewrite Hv. by apply (lookup_weaken _ _ _ _ Hv).
    + apply Hp. by apply (ix_pool _ _ Hok e).
  - split_and!; auto. intros p Hp'. cbn [heap with_heap]. split; [|by apply Hp].
    destruct (heap_used _ _ p (ix_heap _ _ Hok)) as [obp Hobp]; [unfold uses; lia|].
    assert (vals (heap s) !! p = Some (ob_val obp)) as Hobp' by (apply vals_Some; eauto).
    rewrite Hobp'. by apply (lookup_weaken _ _ _ _ Hobp').
Qed.

(** ** Replacing the object of an entry *)

Lemma set_obj_ok s ext e i h o v o' v' :
  index_ok s (add_use o' ext) -> tracked s e i h o v ->
  vals (heap s) !! o' = Some v' -> o' ∈ idx_objs (heap s) -> indexable v' ->
  part_key i (boxed o' v') = part_key i (boxed o v) -> id_key i (boxed o' v') = id_key i (boxed o v) ->
  let s' := with_entries (alter (set_obj o') e) s in
  index_ok s' (add_use o ext) /\
  (forall e2 i2 h2 o2 v2, tracked s' e2 i2 h2 o2 v2 <->
     (e2 = e /\ i2 = i /\ h2 = h /\ o2 = o' /\ v2 = v') \/ (e2 <> e /\ tracked s e2 i2 h2 o2 v2)).
Proof.
  intros Hok Ht Hv' Hin Hix Hpk Hid s'. pose proof Ht as (en & hd & He & <- & <- & Hh & <- & Hv).
  assert (Hent : entries s' = <[e := set_obj o' en]> (entries s)).
  { cbn. apply map_eq. intros x. destruct (decide (x = e)) as [->|Hne].
    - by rewrite lookup_alter_eq, He, lookup_insert_eq.
    - by rewrite lookup_alter_ne, lookup_insert_ne. }
  assert (Htr : forall e2 i2 h2 o2 v2, tracked s' e2 i2 h2 o2 v2 <->
     (e2 = e /\ i2 = he_idx_type hd /\ h2 = en_head en /\ o2 = o' /\ v2 = v') \/ (e2 <> e /\ tracked s e2 i2 h2 o2 v2)).
  { intros e2 i2 h2 o2 v2. unfold tracked. rewrite Hent. cbn [heap heads with_entries]. split.
    - intros (en2 & hd2 & [[<- <-]|[Hne He2]]%lookup_insert_Some & <- & <- & Hh2 & <- & Hv2).
      + left. cbn in *. assert (hd2 = hd) as -> by congruence. split_and!; try done. congruence.
      + right. split; [done|]. eauto 10.
    - intros [(-> & -> & -> & -> & ->)|(Hne & en2 & hd2 & He2 & ?)].
      + exists (set_obj o' en), hd. rewrite lookup_insert_eq. done.
      + exists en2, hd2. rewrite lookup_insert_ne by done. done. }
  split; [|done]. split; try apply Hok.
  - eapply heap_ok_ext; [|apply (ix_heap _ _ Hok)]. intros p. unfold uses. rewrite Hent. unfold entry_uses.
    pose proof (map_count_replace (fun _ en => bool_decide (en_obj en = p)) _ _ _ (set_obj o' en) He) as Hc. cbn beta in Hc.
    unfold add_use. change (en_obj (set_obj o' en)) with o' in Hc.
    destruct (decide (p = o')) as [E1|E1], (decide (p = en_obj en)) as [E2|E2];
      rewrite ?(bool_decide_eq_true_2 (en_obj en = p)), ?(bool_decide_eq_true_2 (o' = p)),
              ?(bool_decide_eq_false_2 (en_obj en = p)), ?(bool_decide_eq_false_2 (o' = p)) in Hc by congruence; lia.
  - intros e2 en2. rewrite Hent. intros [[<- <-]|[Hne He2]]%lookup_insert_Some; [|by apply (ix_entry _ _ Hok)].
    by apply (ix_entry _ _ Hok e en).
  - intros h hd2 e2 Hh2 Hin2. destruct (ix_member _ _ Hok h hd2 e2 Hh2 Hin2) as (en2 & He2 & Eh). rewrite Hent.
    destruct (decide (e2 = e)) as [->|Hne]; [|exists en2; by rewrite lookup_insert_ne].
    exists (set_obj o' en). rewrite lookup_insert_eq. split; [done|]. cbn. congruence.
  - intros e2 en2. rewrite Hent. intros [[<- <-]|[Hne He2]]%lookup_insert_Some; [done|by apply (ix_pool _ _ Hok e2)].
  - intros e2 i2 h2 o2 v2 [(-> & -> & -> & -> & ->)|[_ Ht2]]%Htr; [|by apply (ix_part _ _ Hok e2 i2 h2)].
    rewrite Hpk. split; [|done]. by apply (ix_part _ _ Hok _ _ _ _ _ Ht).
  - intros e1 e2 j h1 h2 o1 o2 v1 v2 H1%Htr H2%Htr.
    destruct H1 as [(-> & -> & -> & -> & ->)|[_ H1]], H2 as [(-> & Ej & -> & -> & ->)|[_ H2]]; [done|..].
    + rewrite Hpk. exact (ix_same _ _ Hok _ _ _ _ _ _ _ _ _ Ht H2).
    + subst j. rewrite Hpk. exact (ix_same _ _ Hok _ _ _ _ _ _ _ _ _ H1 Ht).
    + by apply (ix_same _ _ Hok e1 e2 j).
  - intros e1 e2 j h1 h2 o1 o2 v1 v2 H1%Htr H2%Htr.
    destruct H1 as [(-> & -> & -> & -> & ->)|[_ H1]], H2 as [(-> & Ej & -> & -> & ->)|[_ H2]]; [done|..].
    + rewrite Hpk, Hid. exact (ix_unique _ _ Hok _ _ _ _ _ _ _ _ _ Ht H2).
    + subst j. rewrite Hpk, Hid. exact (ix_unique _ _ Hok _ _ _ _ _ _ _ _ _ H1 Ht).
    + by apply (ix_unique _ _ Hok e1 e2 j h1 h2).
Qed.

(** ** A new entry *)

(** The head of the new entry: the one of its partition, or a new one. *)
Record links_new s s' (e : positive) (i : I) (h o : positive) (l0 : list positive) : Prop := {
  ln_heap : heap s' = heap s;
  ln_fresh : entries s !! e = None;
  ln_entries : entries s' = <[e := {| en_obj := o; en_dirty := false; en_head := h |}]> (entries s);
  ln_head hd0 : heads s !! h = Some hd0 -> he_idx_type hd0 = i /\ lst_entries_head hd0 = l0;
  ln_new_head : heads s !! h = None -> l0 = [];
  ln_heads : exists l, l ≡ₚ e :: l0 /\
    heads s' = <[h := {| he_idx_type := i; lst_entries_head := l; he_len := Z.of_nat (length l0) + 1 |}]> (heads s);
  ln_idx j h2 : h2 ∈ lst_idx_head (idx_types s' j) <-> h2 ∈ lst_idx_head (idx_types s j) \/ (j = i /\ h2 = h);
  ln_nodup j : NoDup (lst_idx_head (idx_types s' j))
}.

Lemma link_ok s s' ext e i h o v l0 :
  index_ok s (add_use o ext) -> links_new s s' e i h o l0 ->
  vals (heap s) !! o = Some v -> o ∈ idx_objs (heap s) -> indexable v -> is_Some (part_key i (boxed o v)) ->
  (forall e2 h2 o2 v2, tracked s e2 i h2 o2 v2 ->
     (h2 = h <-> part_key i (boxed o2 v2) = part_key i (boxed o v)) /\
     (part_key i (boxed o2 v2) = part_key i (boxed o v) -> id_key i (boxed o2 v2) <> id_key i (boxed o v))) ->
  index_ok s' ext /\
  (forall e2 i2 h2 o2 v2, tracked s' e2 i2 h2 o2 v2 <->
     (e2 = e /\ i2 = i /\ h2 = h /\ o2 = o /\ v2 = v) \/ tracked s e2 i2 h2 o2 v2).
Proof.
  intros Hok Hln Hv Hin Hix Hpk Hnew. destruct Hln as [Hheap Hfresh Hent Hhead Hnewh (l & Hl & Hheads) Hidx Hnd].
  set (en := {| en_obj := o; en_dirty := false; en_head := h |}) in *.
  set (hd' := {| he_idx_type := i; lst_entries_head := l; he_len := Z.of_nat (length l0) + 1 |}) in *.
  assert (Htr : forall e2 i2 h2 o2 v2, tracked s' e2 i2 h2 o2 v2 <->
     (e2 = e /\ i2 = i /\ h2 = h /\ o2 = o /\ v2 = v) \/ tracked s e2 i2 h2 o2 v2).
  { intros e2 i2 h2 o2 v2. unfold tracked. rewrite Hent, Hheads, Hheap. split.
    - intros (en2 & hd2 & [[<- <-]|[Hne He2]]%lookup_insert_Some & <- & <- & Hh2 & <- & Hv2).
      + left. cbn in *. rewrite lookup_insert_eq in Hh2. injection Hh2 as <-. split_and!; try done. congruence.
      + right. exists en2. apply lookup_insert_Some in Hh2 as [[Eh <-]|[Hneh Hh2]]; [|by exists hd2].
        destruct (ix_entry _ _ Hok _ _ He2) as (hd0 & Hh0 & _). rewrite <-Eh in Hh0 |- *. exists hd0.
        destruct (Hhead _ Hh0) as [Ei _]. split_and!; try done.
    - intros [(-> & -> & -> & -> & ->)|(en2 & hd2 & He2 & <- & <- & Hh2 & <- & Hv2)].
      + exists en, hd'. rewrite !lookup_insert_eq. done.
      + exists en2. rewrite lookup_insert_ne by congruence. destruct (decide (en_head en2 = h)) as [Eh|Hne].
        * exists hd'. rewrite Eh, lookup_insert_eq. rewrite Eh in Hh2. destruct (Hhead _ Hh2) as [Ei _]. split_and!; try done.
        * exists hd2. rewrite lookup_insert_ne by done. done. }
  assert (Hfl : e ∉ l0).
  { intros Hin0. destruct (heads s !! h) as [hd0|] eqn:Eh; [|rewrite (Hnewh eq_refl) in Hin0; by apply elem_of_nil in Hin0].
    destruct (Hhead _ eq_refl) as [_ <-]. destruct (ix_member _ _ Hok _ _ _ Eh Hin0) as (? & ? & _). congruence. }
  assert (Hl0 : NoDup l0 /\ (forall hd0, heads s !! h = Some hd0 -> he_len hd0 = Z.of_nat (length l0))).
  { destruct (heads s !! h) as [hd0|] eqn:Eh; [|rewrite (Hnewh eq_refl); split; [constructor|done]].
    destruct (Hhead _ eq_refl) as [_ <-]. destruct (ix_head _ _ Hok _ _ Eh) as (? & _ & ? & _). split; [done|]. by intros ? [= <-]. }
  split; [|done]. split.
  - rewrite Hheap. eapply heap_ok_ext; [|apply (ix_heap _ _ Hok)]. intros p. unfold uses. rewrite Hent. unfold entry_uses.
    rewrite (map_count_insert _ _ _ _ Hfresh). unfold add_use. cbn [en_obj].
    destruct (decide (p = o)) as [->|Hne]; [rewrite bool_decide_eq_true_2 by done; lia|].
    rewrite bool_decide_eq_false_2; [lia|]. intros E. by apply Hne.
  - intros e2 en2. rewrite Hent, Hheads. intros [[<- <-]|[Hne He2]]%lookup_insert_Some.
    + exists hd'. cbn. rewrite lookup_insert_eq, Hl. split; [done|]. apply list_elem_of_here.
    + destruct (ix_entry _ _ Hok _ _ He2) as (hd2 & Hh2 & Hin2). destruct (decide (en_head en2 = h)) as [Eh|Hneh].
      * exists hd'. rewrite Eh, lookup_insert_eq. rewrite Eh in Hh2. destruct (Hhead _ Hh2) as [_ <-].
        split; [done|]. cbn. rewrite Hl. by apply list_elem_of_further.
      * exists hd2. by rewrite lookup_insert_ne.
  - intros h2 hd2 e2. rewrite Hent, Hheads. intros [[<- <-]|[Hne Hh2]]%lookup_insert_Some Hin2.
    + cbn in Hin2. rewrite Hl in Hin2. apply elem_of_cons in Hin2 as [->|Hin2]; [exists en; by rewrite lookup_insert_eq|].
      destruct (heads s !! h) as [hd0|] eqn:Eh; [|rewrite (Hnewh eq_refl) in Hin2; by apply elem_of_nil in Hin2].
      destruct (Hhead _ eq_refl) as [_ El0]. rewrite <-El0 in Hin2.
      destruct (ix_member _ _ Hok _ _ _ Eh Hin2) as (en2 & He2 & Eh2). exists en2. rewrite lookup_insert_ne; [done|congruence].
    + destruct (ix_member _ _ Hok _ _ _ Hh2 Hin2) as (en2 & He2 & Eh2). exists en2. rewrite lookup_insert_ne; [done|congruence].
  - intros h2 hd2. rewrite Hheads. intros [[<- <-]|[Hne Hh2]]%lookup_insert_Some.
    + cbn. split_and!.
      * rewrite Hl. apply NoDup_cons. by destruct Hl0.
      * intros E. rewrite E in Hl. by apply Permutation_nil_l in Hl.
      * rewrite Hl. cbn [length]. lia.
      * apply Hidx. by right.
    + destruct (ix_head _ _ Hok _ _ Hh2) as (? & ? & ? & Hi). split_and!; [done..|]. apply Hidx. by left.
  - done.
  - intros j h2 [Hj|[-> ->]]%Hidx.
    + destruct (ix_handle_head _ _ Hok _ _ Hj) as (hd2 & Hh2 & <-). rewrite Hheads. destruct (decide (h2 = h)) as [->|Hne].
      * exists hd'. rewrite lookup_insert_eq. destruct (Hhead _ Hh2) as [Ei _]. by split.
      * exists hd2. by rewrite lookup_insert_ne.
    + rewrite Hheads. exists hd'. by rewrite lookup_insert_eq.
  - intros e2 en2. rewrite Hent, Hheap. intros [[<- <-]|[Hne He2]]%lookup_insert_Some; [done|by apply (ix_pool _ _ Hok e2)].
  - intros e2 i2 h2 o2 v2 [(-> & -> & -> & -> & ->)|Ht2]%Htr; [done|by apply (ix_part _ _ Hok e2 i2 h2)].
  - intros e1 e2 j h1 h2 o1 o2 v1 v2 H1%Htr H2%Htr.
    destruct H1 as [(-> & -> & -> & -> & ->)|H1], H2 as [(-> & Ej & -> & -> & ->)|H2]; [done|..].
    + destruct (Hnew _ _ _ _ H2) as [Hs _]. split; intros E; symmetry; apply Hs; done.
    + subst j. by apply (Hnew _ _ _ _ H1).
    + by apply (ix_same _ _ Hok e1 e2 j).
  - intros e1 e2 j h1 h2 o1 o2 v1 v2 H1%Htr H2%Htr Ep Eid.
    destruct H1 as [(-> & -> & -> & -> & ->)|H1], H2 as [(-> & Ej & -> & -> & ->)|H2]; [done|..].
    + destruct (Hnew _ _ _ _ H2) as [_ Hs]. by destruct Hs.
    + subst j. destruct (Hnew _ _ _ _ H1) as [_ Hs]. by destruct Hs.
    + by apply (ix_unique _ _ Hok e1 e2 j h1 h2 o1 o2 v1 v2).
Qed.

(** ** An entry goes *)

(** _remove_entry () before it gives up the reference. *)
Definition unlink_entry s (e h : positive) (hd : NMDedupMultiHeadEntry I) : bool * NMDedupMultiIndex I A :=
  let hd := set_lst (c_list_unlink e (lst_entries_head hd)) (add_len (-1) hd) in
  let i := he_idx_type hd in
  let head_removed := negb (0 <? he_len hd) in
  (head_removed,
   with_entries (delete e)
     (if head_removed
      then with_idx_type i (fun it => set_lst_idx (c_list_unlink h (lst_idx_head it)) it) (with_heads (delete h) s)
      else with_idx_type i (add_idx_len (-1)) (with_heads <[h := hd]> s))).

Lemma idx_after (f : NMDedupMultiIdxType -> NMDedupMultiIdxType) s i j :
  idx_types (with_idx_type i f s) j = if decide (i = j) then f (idx_types s i) else idx_types s j.
Proof. done. Qed.

Lemma unlink_ok s ext e i h o v hd :
  index_ok s ext -> tracked s e i h o v -> heads s !! h = Some hd ->
  let s' := (unlink_entry s e h hd).2 in
  index_ok s' (add_use o ext) /\
  (forall e2 i2 h2 o2 v2, tracked s' e2 i2 h2 o2 v2 <-> e2 <> e /\ tracked s e2 i2 h2 o2 v2) /\
  ((unlink_entry s e h hd).1 = true <-> lst_entries_head hd = [e]) /\
  (forall h2, heads s' !! h2 = if decide (h2 = h)
     then if decide (lst_entries_head hd = [e]) then None
          else Some (set_lst (c_list_unlink e (lst_entries_head hd)) (add_len (-1) hd))
     else heads s !! h2) /\
  entries s' = delete e (entries s) /\ heap s' = heap s /\
  (forall j, lst_idx_head (idx_types s' j) = if decide (lst_entries_head hd = [e] /\ j = i)
     then c_list_unlink h (lst_idx_head (idx_types s j)) else lst_idx_head (idx_types s j)).
Proof.
  intros Hok Ht Hhd s'. pose proof Ht as (en & hd1 & He & <- & <- & Hh & <- & Hv). assert (hd1 = hd) as -> by congruence. clear Hh.
  destruct (ix_entry _ _ Hok _ _ He) as (hd1 & Hh1 & Hin). assert (hd1 = hd) as -> by congruence. clear Hh1.
  destruct (ix_head _ _ Hok _ _ Hhd) as (Hnd & Hne & Hlen & Hhin).
  set (l' := c_list_unlink e (lst_entries_head hd)).
  assert (Hperm : e :: l' ≡ₚ lst_entries_head hd) by by apply unlink_perm.
  assert (Hlen' : Z.of_nat (length l') = he_len hd - 1).
  { rewrite Hlen, <-Hperm. cbn [length]. lia. }
  assert (Hlast : lst_entries_head hd = [e] <-> l' = []).
  { split; intros E; [unfold l'; rewrite E; unfold c_list_unlink; rewrite filter_cons_False by tauto; apply filter_nil|].
    rewrite E in Hperm. symmetry in Hperm. by apply Permutation_singleton_r in Hperm. }
  assert (Hrem : negb (0 <? he_len hd + -1) = true <-> lst_entries_head hd = [e]).
  { rewrite Hlast. destruct l' as [|x l2]; cbn in Hlen'; [split; [done|intros _]|split; [|done]]; bools.
    - apply negb_true_iff, Z.ltb_ge. lia.
    - rewrite negb_true_iff, Z.ltb_ge. lia. }
  assert (Hheads : forall h2, heads s' !! h2 = if decide (h2 = en_head en)
     then if decide (lst_entries_head hd = [e]) then None else Some (set_lst l' (add_len (-1) hd))
     else heads s !! h2).
  { intros h2. subst s'. cbn. destruct (decide (lst_entries_head hd = [e])) as [El|El].
    - apply Hrem in El. rewrite El. cbn. destruct (decide (h2 = en_head en)) as [->|]; [by rewrite lookup_delete_eq|by rewrite lookup_delete_ne].
    - destruct (negb (0 <? he_len hd + -1)) eqn:E; [by destruct (El (proj1 Hrem eq_refl))|]. cbn.
      destruct (decide (h2 = en_head en)) as [->|]; [by rewrite lookup_insert_eq|by rewrite lookup_insert_ne]. }
  assert (Hent : entries s' = delete e (entries s)) by (subst s'; cbn; by destruct (negb _)).
  assert (Hheap : heap s' = heap s) by (subst s'; cbn; by destruct (negb _)).
  assert (Hidx : forall j, lst_idx_head (idx_types s' j) = if decide (lst_entries_head hd = [e] /\ j = he_idx_type hd)
     then c_list_unlink (en_head en) (lst_idx_head (idx_types s j)) else lst_idx_head (idx_types s j)).
  { intros j. subst s'. cbn -[with_idx_type]. destruct (negb (0 <? he_len hd + -1)) eqn:E; rewrite idx_after;
      destruct (decide (he_idx_type hd = j)) as [<-|Hj]; cbn.
    - rewrite decide_True; [done|]. split; [by apply Hrem|done].
    - rewrite decide_False; [done|]. intros [_ ?]. congruence.
    - rewrite decide_False; [done|]. intros [El _]. apply Hrem in El. congruence.
    - rewrite decide_False; [done|]. intros [_ ?]. congruence. }
  assert (Htr : forall e2 i2 h2 o2 v2, tracked s' e2 i2 h2 o2 v2 <-> e2 <> e /\ tracked s e2 i2 h2 o2 v2).
  { intros e2 i2 h2 o2 v2. unfold tracked. rewrite Hent, Hheap. split.
    - intros (en2 & hd2 & [Hne2 He2]%lookup_delete_Some & <- & <- & Hh2 & <- & Hv2). split; [done|]. exists en2.
      rewrite Hheads in Hh2. destruct (decide (en_head en2 = en_head en)) as [Eh|]; [|by exists hd2].
      destruct (decide (lst_entries_head hd = [e])); [done|]. injection Hh2 as <-. exists hd. by rewrite Eh.
    - intros (Hne2 & en2 & hd2 & He2 & <- & <- & Hh2 & <- & Hv2). exists en2. rewrite lookup_delete_ne by done.
      rewrite Hheads. destruct (decide (en_head en2 = en_head en)) as [Eh|]; [|by exists hd2].
      destruct (ix_entry _ _ Hok _ _ He2) as (hd3 & Hh3 & Hin3). assert (hd2 = hd /\ hd3 = hd) as [-> ->] by (split; congruence).
      destruct (decide (lst_entries_head hd = [e])) as [El|].
      + rewrite El in Hin3. apply list_elem_of_singleton in Hin3. done.
      + by exists (set_lst l' (add_len (-1) hd)). }
  split; [|by split_and!].
  split.
  - rewrite Hheap. eapply heap_ok_ext; [|apply (ix_heap _ _ Hok)]. intros p. unfold uses. rewrite Hent. unfold entry_uses.
    rewrite (map_count_delete _ _ _ _ He). unfold add_use.
    destruct (decide (p = en_obj en)) as [->|Hnep]; [rewrite bool_decide_eq_true_2 by done; lia|].
    rewrite bool_decide_eq_false_2 by congruence. lia.
  - intros e2 en2. rewrite Hent. intros [Hne2 He2]%lookup_delete_Some. rewrite Hheads.
    destruct (ix_entry _ _ Hok _ _ He2) as (hd2 & Hh2 & Hin2). destruct (decide (en_head en2 = en_head en)) as [Eh|]; [|by exists hd2].
    assert (hd2 = hd) as -> by congruence. destruct (decide (lst_entries_head hd = [e])) as [El|].
    + rewrite El in Hin2. by apply list_elem_of_singleton in Hin2.
    + eexists. split; [done|]. cbn. by apply elem_of_unlink.
  - intros h2 hd2 e2. rewrite Hheads, Hent. intros Hh2 Hin2. destruct (decide (h2 = en_head en)) as [->|Hneh].
    + destruct (decide (lst_entries_head hd = [e])); [done|]. injection Hh2 as <-. cbn in Hin2. apply elem_of_unlink in Hin2 as [Hne2 Hin2].
      destruct (ix_member _ _ Hok _ _ _ Hhd Hin2) as (en2 & He2 & Eh). exists en2. by rewrite lookup_delete_ne.
    + destruct (ix_member _ _ Hok _ _ _ Hh2 Hin2) as (en2 & He2 & Eh). exists en2. rewrite lookup_delete_ne; [done|congruence].
  - intros h2 hd2. rewrite Hheads, Hidx. intros Hh2. destruct (decide (h2 = en_head en)) as [->|Hneh].
    + destruct (decide (lst_entries_head hd = [e])) as [|Hl]; [done|]. injection Hh2 as <-. cbn. split_and!.
      * by apply NoDup_unlink.
      * intros E. by apply Hl, Hlast.
      * lia.
      * rewrite decide_False; [done|]. intros [El _]. by apply Hl.
    + destruct (ix_head _ _ Hok _ _ Hh2) as (? & ? & ? & Hi). split_and!; [done..|].
      destruct (decide (lst_entries_head hd = [e] /\ he_idx_type hd2 = he_idx_type hd)); [|exact Hi]. by apply elem_of_unlink.
  - intros j. rewrite Hidx. destruct (decide (_ /\ j = _)); [apply NoDup_unlink|]; apply (ix_handle _ _ Hok).
  - intros j h2. rewrite Hidx, Hheads. destruct (decide (lst_entries_head hd = [e] /\ j = he_idx_type hd)) as [[El ->]|Hno].
    + intros [Hneh Hin2]%elem_of_unlink. rewrite decide_False by done. by apply (ix_handle_head _ _ Hok).
    + intros Hin2. destruct (ix_handle_head _ _ Hok _ _ Hin2) as (hd2 & Hh2 & Ej).
      destruct (decide (h2 = en_head en)) as [->|]; [|by exists hd2]. assert (hd2 = hd) as -> by congruence.
      rewrite decide_False; [|intros El; by apply Hno]. eexists. split; [done|]. done.
  - intros e2 en2. rewrite Hent, Hheap. intros [_ He2]%lookup_delete_Some. by apply (ix_pool _ _ Hok e2).
  - intros e2 i2 h2 o2 v2 [_ Ht2]%Htr. by apply (ix_part _ _ Hok e2 i2 h2).
  - intros e1 e2 j h1 h2 o1 o2 v1 v2 [_ H1]%Htr [_ H2]%Htr. by apply (ix_same _ _ Hok e1 e2 j).
  - intros e1 e2 j h1 h2 o1 o2 v1 v2 [_ H1]%Htr [_ H2]%Htr. by apply (ix_unique _ _ Hok e1 e2 j h1 h2).
Qed.
End links.
