(* ===== verification/DedupOps.v ===== *)
(** * NMDedupMultiIndex: its operations

    Every operation, called on an index that is consistent, returns without using
    memory that does not exist, leaves the index consistent, and the references
    that its user holds change by those it hands out. *)

From S2P Require Export DedupLinks.

Section ops.
Context {I A : Type} `{!EqDecision I} `{HL : DedupIdxLaws I A}.
Implicit Types (s : NMDedupMultiIndex I A) (ext : positive -> nat).

(** The list of a head, and the mark of an entry. *)
Definition lst_of s (h : positive) : option (list positive) := lst_entries_head <$> heads s !! h.
Definition dirty_of s (e : positive) : option bool := en_dirty <$> entries s !! e.

(** An entry has an object, its list an order; the rest is as before. *)
Record entry_set s s' (e : positive) (i : I) (h o : positive) (v : A) (l : list positive) : Prop := {
  es_tracked e2 i2 h2 o2 v2 : tracked s' e2 i2 h2 o2 v2 <->
    (e2 = e /\ i2 = i /\ h2 = h /\ o2 = o /\ v2 = v) \/ (e2 <> e /\ tracked s e2 i2 h2 o2 v2);
  es_lst h2 : lst_of s' h2 = if decide (h2 = h) then Some l else lst_of s h2;
  es_dirty e2 : dirty_of s' e2 = if decide (e2 = e) then Some false else dirty_of s e2
}.

Lemma option_Forall2_refl' {B} (R : B -> B -> Prop) `{!Reflexive R} x : option_Forall2 R x x.
Proof. destruct x; by constructor. Qed.

#[export] Instance same_entry_refl : Reflexive same_entry.
Proof. intros x. by split. Qed.
#[export] Instance same_head_refl : Reflexive (@same_head I).
Proof. intros x. by split_and!. Qed.

(** Marking an entry. *)
Lemma set_dirty_links s e b : same_links s (nm_dedup_multi_entry_set_dirty e b s).
Proof.
  split; [|intros h; by apply option_Forall2_refl'|done]. intros e2. cbn. destruct (decide (e2 = e)) as [->|Hne].
  - rewrite lookup_alter_eq. destruct (entries s !! e); by constructor.
  - rewrite lookup_alter_ne by done. by apply option_Forall2_refl'.
Qed.

Lemma links_keep_objects s s' ext : index_ok s ext -> heap s' = heap s -> keeps_objects s s'.
Proof. intros Hok E e en He. rewrite E. split; [done|]. by apply (ix_pool _ _ Hok e). Qed.

Lemma links_only_ok s s' ext :
  index_ok s ext -> same_links s s' -> heap s' = heap s ->
  index_ok s' ext /\ (forall e i h o v, tracked s e i h o v <-> tracked s' e i h o v).
Proof.
  intros Hok Hs E. apply (same_links_ok s s' ext); [done|done|by eapply links_keep_objects|].
  rewrite E. apply (ix_heap _ _ Hok).
Qed.

(** Reordering the list of a head. *)
Lemma set_lst_links s h hd l : heads s !! h = Some hd -> l ≡ₚ lst_entries_head hd -> same_links s (with_heads <[h := set_lst l hd]> s).
Proof.
  intros Hh Hl. split; [intros e; by apply option_Forall2_refl'| |done]. intros h2. cbn. destruct (decide (h2 = h)) as [->|Hne].
  - rewrite lookup_insert_eq, Hh. constructor. split_and!; [done|done|by symmetry].
  - rewrite lookup_insert_ne by done. by apply option_Forall2_refl'.
Qed.

#[export] Instance same_links_trans : Transitive (@same_links I A).
Proof.
  intros s1 s2 s3 [H1 H2 H3] [H4 H5 H6]. split.
  - intros e. specialize (H1 e). specialize (H4 e). destruct H1 as [x y [? ?]|]; inversion H4 as [? ? [? ?]|]; subst; constructor.
    split; congruence.
  - intros h. specialize (H2 h). specialize (H5 h). destruct H2 as [x y (? & ? & ?)|]; inversion H5 as [? ? (? & ? & ?)|]; subst; constructor.
    split_and!; [congruence|congruence|]. by etransitivity.
  - intros i. by rewrite H3.
Qed.

Lemma tracked_member s ext e i h o v hd : index_ok s ext -> tracked s e i h o v -> heads s !! h = Some hd ->
  e ∈ lst_entries_head hd /\ NoDup (lst_entries_head hd) /\ he_idx_type hd = i.
Proof.
  intros Hok (en & hd1 & He & <- & <- & Hh1 & <- & _) Hh. assert (hd1 = hd) as -> by congruence.
  destruct (ix_entry _ _ Hok _ _ He) as (hd2 & Hh2 & Hin). assert (hd2 = hd) as -> by congruence.
  by destruct (ix_head _ _ Hok _ _ Hh) as (? & _).
Qed.

(** ** Adding an object that has an entry *)

Definition same_full (o p : positive) (v w : A) : bool := bool_decide (o = p) || obj_full_equal (boxed o v) (boxed p w).

Lemma add_existing_ok s ext obj vobj e i h o v mode entry_order (want : bool) hd :
  index_ok s ext -> tracked s e i h o v -> heads s !! h = Some hd ->
  vals (heap s) !! obj = Some vobj -> indexable vobj ->
  part_key i (boxed obj vobj) = part_key i (boxed o v) -> id_key i (boxed obj vobj) = id_key i (boxed o v) ->
  anchor_in entry_order (lst_entries_head hd) ->
  let m := move_entry mode entry_order e (lst_entries_head hd) in
  let ext' := if want then add_use o ext else ext in
  exists s' o' v',
    add_existing s obj e mode entry_order want
      = Some {| changed := m.1 || negb (same_full obj o vobj v); out_entry := Some e;
                out_obj_old := if want then Some o else None; added_to := s' |} /\
    index_ok s' ext' /\ keeps ext s s' /\
    (if same_full obj o vobj v then o' = o /\ v' = v
     else stands_for (boxed o' v') (boxed obj vobj) /\ (obj ∈ idx_objs (heap s) -> o' = obj)) /\
    entry_set s s' e i h o' v' m.2.
Proof.
  intros Hok Ht Hh Hobj Hix Hpk Hid Hanchor m ext'.
  destruct (tracked_member _ _ _ _ _ _ _ _ Hok Ht Hh) as (Hin & Hnd & Ei).
  pose proof Ht as (en & hd1 & He & Eo & Eh & _ & _ & Hv).
  assert (Hm : m.2 ≡ₚ lst_entries_head hd) by by apply move_entry_perm.
  unfold add_existing. rewrite He. cbn [mbind option_bind]. rewrite Eo, Eh, Hh. cbn [mbind option_bind].
  fold m. destruct m as [moved l] eqn:Em. cbn [fst snd] in *.
  set (s1 := with_heads <[h := set_lst l hd]> (nm_dedup_multi_entry_set_dirty e false s)).
  assert (Hl1 : same_links s s1).
  { etransitivity; [apply (set_dirty_links s e false)|]. by apply set_lst_links. }
  destruct (links_only_ok s s1 ext Hok Hl1 (eq_refl _)) as [Hok1 Ht1].
  assert (Hlst1 : forall h2, lst_of s1 h2 = if decide (h2 = h) then Some l else lst_of s h2).
  { intros h2. unfold lst_of. cbn. destruct (decide (h2 = h)) as [->|]; [by rewrite lookup_insert_eq|by rewrite lookup_insert_ne]. }
  assert (Hdirty1 : forall e2, dirty_of s1 e2 = if decide (e2 = e) then Some false else dirty_of s e2).
  { intros e2. unfold dirty_of. cbn. destruct (decide (e2 = e)) as [->|]; [by rewrite lookup_alter_eq, He|by rewrite lookup_alter_ne]. }
  unfold obj_at. cbn [heap s1 with_heads nm_dedup_multi_entry_set_dirty with_entries]. rewrite Hobj, Hv. cbn [mbind option_bind].
  fold (same_full obj o vobj v). destruct (same_full obj o vobj v) eqn:Esame.
  - (* the object is there already *)
    assert (Hset : forall s', (forall e2 i2 h2 o2 v2, tracked s1 e2 i2 h2 o2 v2 <-> tracked s' e2 i2 h2 o2 v2) ->
              heads s' = heads s1 -> entries s' = entries s1 -> entry_set s s' e i h o v l).
    { intros s' Htr Eh' Ee'. split.
      - intros e2 i2 h2 o2 v2. rewrite <-Htr, <-Ht1. destruct (decide (e2 = e)) as [->|Hne]; [|tauto].
        split; [|intros [(_ & -> & -> & -> & ->)|[? _]]; done]. intros Ht2.
        destruct (tracked_fun _ _ _ _ _ _ _ _ _ _ Ht Ht2) as (-> & -> & -> & ->). by left.
      - intros h2. rewrite <-Hlst1. unfold lst_of. by rewrite Eh'.
      - intros e2. rewrite <-Hdirty1. unfold dirty_of. by rewrite Ee'. }
    rewrite orb_false_r. subst ext'. destruct want.
    + apply vals_Some in Hv as Hv'. destruct Hv' as (ob & Hob & _).
      destruct (ref_ok s1 ext o ob Hok1 Hob) as (hp & E & Hok2 & Hvals & Hpool & Ht2). cbn in E. rewrite E. cbn [mbind option_bind].
      exists (with_heap hp s1), o, v. split_and!; [done|done| |done|done|by apply Hset].
      intros p _. cbn. by rewrite Hvals, Hpool.
    + cbn [mbind option_bind]. exists s1, o, v. split_and!; [done|done|by apply keeps_heap|done|done|by apply Hset].
  - (* the object replaces another one *)
    apply vals_Some in Hobj as Hobj'. destruct Hobj' as (ob & Hob & Eob).
    destruct (intern_ok s1 ext obj ob Hok1 Hob) as (o' & v' & hp & E & Hok2 & Hsub & Hin' & Hv' & Hst & Hsame & Hk2 & Ht2).
    cbn in E. rewrite E. cbn [mbind option_bind]. rewrite Eob in Hst.
    destruct (stands_for_keys i (boxed o' v') (boxed obj vobj) Hix Hst) as (Hpk' & Hid' & Hix'). cbn in Hix'.
    assert (Ht2' : tracked (with_heap hp s1) e i h o v) by (apply Ht2, Ht1; done).
    destruct (set_obj_ok (with_heap hp s1) ext e i h o v o' v' Hok2 Ht2' Hv' Hin' Hix') as [Hok3 Ht3]; [congruence|congruence|].
    set (s3 := with_entries (alter (set_obj o') e) (with_heap hp s1)) in *.
    assert (Hset : forall s', (forall e2 i2 h2 o2 v2, tracked s3 e2 i2 h2 o2 v2 <-> tracked s' e2 i2 h2 o2 v2) ->
              heads s' = heads s3 -> entries s' = entries s3 -> entry_set s s' e i h o' v' l).
    { intros s' Htr Eh' Ee'. split.
      - intros e2 i2 h2 o2 v2. rewrite <-Htr, Ht3, <-Ht2, <-Ht1. done.
      - intros h2. rewrite <-Hlst1. unfold lst_of. by rewrite Eh'.
      - intros e2. rewrite <-Hdirty1. unfold dirty_of. rewrite Ee'. cbn. destruct (decide (e2 = e)) as [->|].
        + rewrite lookup_alter_eq. by destruct (alter _ _ _ !! e).
        + by rewrite lookup_alter_ne. }
    assert (Hks : keeps ext s s3).
    { eapply keeps_trans; [by apply (keeps_heap ext s s1)|]. eapply keeps_trans; [exact Hk2|]. by apply keeps_heap. }
    rewrite orb_true_r. subst ext'. destruct want.
    + cbn [mbind option_bind]. exists (with_heap hp s3), o', v'.
      assert (with_heap hp s3 = s3) as -> by done. split_and!; [done|done|done|done|done|by apply Hset].
    + destruct (unref_ok s3 ext o Hok3) as (hp' & E' & Hok4 & _ & Hk4 & Ht4). cbn in E'. rewrite E'. cbn [mbind option_bind].
      exists (with_heap hp' s3), o', v'. split_and!; [done|done|by eapply keeps_trans|done|done|by apply Hset].
Qed.

(** ** Adding an object that has none *)

(** No entry of the handle has the identity of the object in its partition. *)
Definition absent s (i : I) (x : At A) : Prop :=
  forall e h o v, tracked s e i h o v -> part_key i (boxed o v) = part_key i x -> id_key i (boxed o v) <> id_key i x.

(** The head of the partition of an object. *)
Definition part_head s (i : I) (x : At A) (h : positive) : Prop :=
  exists e o v, tracked s e i h o v /\ part_key i (boxed o v) = part_key i x.

Definition existing_head s (i : I) (x : At A) (hint : Existing) : Prop :=
  match hint with
  | LOOKUP => True
  | MISSING => forall h, ~ part_head s i x h
  | EXISTING h => part_head s i x h
  end.

Lemma part_head_unique s ext i x h1 h2 : index_ok s ext -> part_head s i x h1 -> part_head s i x h2 -> h1 = h2.
Proof.
  intros Hok (e1 & o1 & v1 & H1 & E1) (e2 & o2 & v2 & H2 & E2). apply (ix_same _ _ Hok _ _ _ _ _ _ _ _ _ H1 H2). congruence.
Qed.

(** What add_new () links. *)
Lemma new_links s ext i h e o mode entry_order :
  index_ok s ext -> entries s !! e = None ->
  (exists hd, heads s !! h = Some hd /\ he_idx_type hd = i) ->
  anchor_in entry_order (default [] (lst_of s h)) ->
  forall hd, heads s !! h = Some hd ->
  let l := link_entry mode entry_order e (lst_entries_head hd) in
  let s' := with_idx_type i (add_idx_len 1) (with_heads <[h := add_len 1 (set_lst l hd)]>
              (with_entries <[e := {| en_obj := o; en_dirty := false; en_head := h |}]> s)) in
  links_new s s' e i h o (lst_entries_head hd).
Proof.
  intros Hok He (hd0 & Hh & Ei) Ha hd Hhd l s'. assert (hd0 = hd) as -> by congruence.
  destruct (ix_head _ _ Hok _ _ Hhd) as (Hnd & Hne & Hlen & Hin). split; try done.
  - intros hd1 Hh1. assert (hd1 = hd) as -> by congruence. done.
  - congruence.
  - exists l. split; [by apply link_entry_perm; unfold lst_of in Ha; rewrite Hhd in Ha|]. subst s'. cbn. unfold add_len, set_lst. cbn.
    by rewrite Ei, Hlen.
  - intros j h2. subst s'. rewrite idx_after. destruct (decide (i = j)) as [<-|Hj]; cbn;
      [|split; [tauto|intros [?|[? _]]; [done|congruence]]].
    split; [tauto|]. intros [?|[_ ->]]; [done|]. by rewrite <-Ei.
  - intros j. subst s'. rewrite idx_after. destruct (decide (i = j)) as [<-|Hj]; cbn; apply (ix_handle _ _ Hok).
Qed.

Lemma new_head_links s ext i e o mode :
  index_ok s ext -> entries s !! e = None ->
  let h := (new_head i s).1 in
  let s1 := (new_head i s).2 in
  heads s !! h = None /\
  heads s1 !! h = Some {| he_idx_type := i; lst_entries_head := []; he_len := 0 |} /\ entries s1 = entries s /\
  let s' := with_idx_type i (add_idx_len 1) (with_heads <[h := add_len 1 (set_lst (link_entry mode None e []) {| he_idx_type := i; lst_entries_head := []; he_len := 0 |})]>
              (with_entries <[e := {| en_obj := o; en_dirty := false; en_head := h |}]> s1)) in
  links_new s s' e i h o [] /\ (forall h2, h2 <> h -> heads s' !! h2 = heads s !! h2).
Proof.
  intros Hok He. cbn [new_head fst snd]. set (h := g_slice_new (heads s)).
  assert (Hh : heads s !! h = None) by apply g_slice_new_None.
  split; [done|]. split; [cbn; apply lookup_insert_eq|]. split; [done|].
  set (s' := with_idx_type i (add_idx_len 1) _). split; [|intros h2 Hne; cbn; by rewrite !lookup_insert_ne]. split; try done.
  - congruence.
  - exists [e]. split; [done|]. subst s'. cbn. rewrite insert_insert_eq. unfold add_len, set_lst. cbn. by destruct mode.
  - intros j h2. subst s'. rewrite !idx_after. destruct (decide (i = j)) as [<-|Hj]; cbn.
    + rewrite fn_lookup_insert. cbn. rewrite elem_of_app, list_elem_of_singleton. tauto.
    + rewrite fn_lookup_insert_ne by done. split; [tauto|]. intros [?|[? _]]; [done|]. congruence.
  - intros j. subst s'. rewrite !idx_after. destruct (decide (i = j)) as [<-|Hj]; cbn;
      [|rewrite fn_lookup_insert_ne by done; apply (ix_handle _ _ Hok)].
    rewrite fn_lookup_insert. cbn. apply NoDup_app. split_and!; [apply (ix_handle _ _ Hok)| |apply NoDup_singleton].
    intros x Hx Hx'%list_elem_of_singleton. subst x. destruct (ix_handle_head _ _ Hok _ _ Hx) as (hd & Hhd & _). congruence.
Qed.

(** The head that is chosen: that of the partition, or none. *)
Definition chosen_head s (i : I) (o : positive) (hint : Existing) : option positive :=
  match hint with
  | LOOKUP => _entry_lookup_head s i (obj_at s o)
  | MISSING => None
  | EXISTING h => Some h
  end.

Lemma chosen_head_spec s ext i o v hint :
  index_ok s ext -> vals (heap s) !! o = Some v -> existing_head s i (boxed o v) hint ->
  forall h, chosen_head s i o hint = Some h <-> part_head s i (boxed o v) h.
Proof.
  intros Hok Hv Hhint h. destruct hint as [| |h']; cbn in *.
  - unfold obj_at. rewrite Hv. cbn [mbind option_bind]. apply (lookup_head_spec s ext); [done|]. by apply (needle_boxed s ext).
  - split; [done|]. intros Hp. by destruct (Hhint h).
  - split; [intros [= <-]; done|]. intros Hp. f_equal. by apply (part_head_unique s ext i (boxed o v)).
Qed.

(** How a new entry changes the index. *)
Record entry_added s s' (x : At A) (e : positive) (i : I) (h o : positive) (v : A) (l : list positive) : Prop := {
  ea_fresh : entries s !! e = None;
  ea_set : entry_set s s' e i h o v l;
  ea_head h2 : part_head s i x h2 <-> h2 = h /\ lst_of s h <> None
}.

Lemma links_new_set s s' ext e i h o v l0 l :
  index_ok s ext -> links_new s s' e i h o l0 -> lst_of s' h = Some l ->
  (forall h2, h2 <> h -> heads s' !! h2 = heads s !! h2) ->
  (forall e2 i2 h2 o2 v2, tracked s' e2 i2 h2 o2 v2 <->
     (e2 = e /\ i2 = i /\ h2 = h /\ o2 = o /\ v2 = v) \/ tracked s e2 i2 h2 o2 v2) ->
  entry_set s s' e i h o v l.
Proof.
  intros Hok Hln Hl Hheads Htr. split.
  - intros e2 i2 h2 o2 v2. rewrite Htr. split; [|tauto]. intros [?|Ht]; [by left|right]. split; [|done].
    intros ->. destruct Ht as (en & ? & He & _). by rewrite (ln_fresh _ _ _ _ _ _ _ Hln) in He.
  - intros h2. destruct (decide (h2 = h)) as [->|Hne]; [done|]. unfold lst_of. by rewrite Hheads.
  - intros e2. unfold dirty_of. rewrite (ln_entries _ _ _ _ _ _ _ Hln).
    destruct (decide (e2 = e)) as [->|Hne]; [by rewrite lookup_insert_eq|by rewrite lookup_insert_ne].
Qed.

(** A change of the memory before it does not matter. *)
Lemma entry_set_before s hp s' e i h o v l :
  (forall e i h o v, tracked s e i h o v <-> tracked (with_heap hp s) e i h o v) ->
  entry_set (with_heap hp s) s' e i h o v l -> entry_set s s' e i h o v l.
Proof. intros Ht [H1 H2 H3]. split; [|exact H2|exact H3]. intros e2 i2 h2 o2 v2. by rewrite H1, <-Ht. Qed.

Lemma add_new_ok s ext obj vobj i mode entry_order hint :
  let x := boxed obj vobj in
  index_ok s ext -> vals (heap s) !! obj = Some vobj -> indexable vobj ->
  absent s i x -> existing_head s i x hint ->
  (forall w, entry_order = Some w -> exists h o v, tracked s w i h o v /\ part_key i (boxed o v) = part_key i x) ->
  match part_key i x with
  | None =>
      add_new s i obj mode entry_order hint
        = Some {| changed := false; out_entry := None; out_obj_old := None; added_to := s |}
  | Some _ =>
      exists s' e h o' v',
        add_new s i obj mode entry_order hint
          = Some {| changed := true; out_entry := Some e; out_obj_old := None; added_to := s' |} /\
        index_ok s' ext /\ keeps ext s s' /\
        stands_for (boxed o' v') x /\ (obj ∈ idx_objs (heap s) -> o' = obj) /\
        entry_added s s' x e i h o' v' (link_entry mode entry_order e (default [] (lst_of s h)))
  end.
Proof.
  intros x Hok Hobj Hix Habs Hhint Horder. unfold add_new, obj_at. rewrite Hobj. cbn [mbind option_bind].
  pose proof (partitionable_law i x) as Hpart. change (boxed obj vobj) with x.
  destruct (part_key i x) as [k|] eqn:Ek.
  2:{ destruct (match idx_obj_partitionable i with Some f => f x | None => true end) eqn:E; [|done].
      destruct (proj1 Hpart eq_refl) as [? ?]. congruence. }
  rewrite (proj2 Hpart) by eauto. cbn [negb]. clear Hpart.
  apply vals_Some in Hobj as Hobj'. destruct Hobj' as (ob & Hob & Eob).
  destruct (intern_ok s ext obj ob Hok Hob) as (o' & v' & hp & -> & Hok1 & Hsub & Hin & Hv' & Hst & Hsame & Hk1 & Ht1).
  cbn [mbind option_bind]. rewrite Eob in Hst. fold x in Hst.
  destruct (stands_for_keys i (boxed o' v') x Hix Hst) as (Epk & Eid & Hix'). cbn in Hix'.
  set (s1 := with_heap hp s) in *.
  assert (Hv1 : vals (heap s1) !! o' = Some v') by done.
  assert (Hpart1 : forall h, part_head s1 i (boxed o' v') h <-> part_head s i x h).
  { intros h. split; intros (e & o & v & Ht & E); exists e, o, v; (split; [by apply Ht1|congruence]). }
  assert (Hhint1 : existing_head s1 i (boxed o' v') hint).
  { destruct hint as [| |h]; cbn in *; [done|intros h Hp; by apply (Hhint h), Hpart1|by apply Hpart1]. }
  pose proof (chosen_head_spec s1 _ i o' v' hint Hok1 Hv1 Hhint1) as Hch.
  change (match hint with LOOKUP => _entry_lookup_head s1 i (v ← vals (heap s1) !! o'; Some (boxed o' v)) | MISSING => None | EXISTING h => Some h end)
    with (chosen_head s1 i o' hint).
  set (e := g_slice_new (entries s)).
  assert (He : entries s1 !! e = None) by apply g_slice_new_None.
  assert (Hnew : forall h, (forall h2, part_head s i x h2 <-> h2 = h /\ lst_of s h <> None) ->
            (lst_of s h = None -> forall e2 i2 o2 v2, ~ tracked s e2 i2 h o2 v2) ->
            forall e2 h2 o2 v2, tracked s1 e2 i h2 o2 v2 ->
     (h2 = h <-> part_key i (boxed o2 v2) = part_key i (boxed o' v')) /\
     (part_key i (boxed o2 v2) = part_key i (boxed o' v') -> id_key i (boxed o2 v2) <> id_key i (boxed o' v'))).
  { intros h Hh Hno e2 h2 o2 v2 Ht2%Ht1. rewrite Epk, Eid. split; [|by apply (Habs e2 h2)]. split.
    - intros ->. destruct (decide (lst_of s h = None)) as [En|En]; [by apply (Hno En) in Ht2|].
      destruct (proj2 (Hh h) (conj eq_refl En)) as (e3 & o3 & v3 & Ht3 & <-). by apply (ix_same _ _ Hok _ _ _ _ _ _ _ _ _ Ht2 Ht3).
    - intros E. apply Hh. by exists e2, o2, v2. }
  destruct (chosen_head s1 i o' hint) as [h|] eqn:Eh.
  - (* a head of the partition *)
    assert (Hp : part_head s i x h) by by apply Hpart1, Hch.
    pose proof Hp as (e2 & o2 & v2 & Ht2 & Ek2). pose proof Ht2 as (_ & hd & _ & _ & _ & Hhd & Eihd & _).
    assert (Hlst : lst_of s h = Some (lst_entries_head hd)) by (unfold lst_of; by rewrite Hhd).
    change (heads s1) with (heads s). rewrite Hhd. cbn [mbind option_bind].
    assert (Hanchor : anchor_in entry_order (default [] (lst_of s1 h))).
    { intros w ->. change (lst_of s1 h) with (lst_of s h). rewrite Hlst. cbn.
      destruct (Horder w eq_refl) as (h3 & o3 & v3 & Ht3 & E3).
      assert (h3 = h) as -> by (apply (part_head_unique s ext i x); [done|exists w, o3, v3; split; [done|congruence]|done]).
      by destruct (tracked_member _ _ _ _ _ _ _ _ Hok Ht3 Hhd). }
    pose proof (new_links s1 (add_use o' ext) i h e o' mode entry_order Hok1 He ltac:(by exists hd) Hanchor hd Hhd) as Hln. cbn zeta in Hln.
    set (s' := with_idx_type i (add_idx_len 1) _) in *.
    assert (Hph : forall h2, part_head s i x h2 <-> h2 = h /\ lst_of s h <> None).
    { intros h2. split; [|intros [-> _]; done]. intros Hp2. split; [by apply (part_head_unique s ext i x)|]. by rewrite Hlst. }
    destruct (link_ok s1 s' ext e i h o' v' _ Hok1 Hln Hv1 Hin Hix' ltac:(rewrite Epk, Ek; eauto)) as [Hok2 Ht2'].
    { apply Hnew; [done|]. by rewrite Hlst. }
    exists s', e, h, o', v'. split_and!; [done|done| |done|done|].
    + eapply keeps_trans; [exact Hk1|]. by apply keeps_heap.
    + split; [done| |done]. rewrite Hlst. cbn [default]. apply (entry_set_before s hp); [done|].
      apply (links_new_set s1 s' _ e i h o' v' _ _ Hok1 Hln); [| |done].
      * subst s'. unfold lst_of. cbn. by rewrite lookup_insert_eq.
      * intros h2 Hne. subst s'. cbn. by rewrite lookup_insert_ne.
  - (* a new head *)
    assert (Hnone : forall h, ~ part_head s i x h).
    { intros h Hp. apply Hpart1, Hch in Hp. done. }
    assert (entry_order = None) as ->.
    { destruct entry_order as [w|]; [|done]. destruct (Horder w eq_refl) as (h3 & o3 & v3 & Ht3 & E3).
      destruct (Hnone h3). exists w, o3, v3. split; [done|congruence]. }
    destruct (new_head_links s1 (add_use o' ext) i e o' mode Hok1 He) as (Hn1 & Hn2 & Hn3 & Hln & Hrest).
    destruct (new_head i s1) as [h s2] eqn:En. cbn [fst snd] in *. rewrite Hn2. cbn [mbind option_bind].
    replace (g_slice_new (entries s2)) with e by (by rewrite Hn3).
    cbn [lst_entries_head]. set (s' := with_idx_type i (add_idx_len 1) _) in *.
    assert (Hlst : lst_of s h = None) by (unfold lst_of; change (heads s1) with (heads s) in Hn1; by rewrite Hn1).
    assert (Hph : forall h2, part_head s i x h2 <-> h2 = h /\ lst_of s h <> None).
    { intros h2. split; [intros Hp; by destruct (Hnone h2)|intros [_ ?]; done]. }
    destruct (link_ok s1 s' ext e i h o' v' _ Hok1 Hln Hv1 Hin Hix' ltac:(rewrite Epk, Ek; eauto)) as [Hok2 Ht2'].
    { apply Hnew; [done|]. intros _ e2 i2 o2 v2 (_ & hd & _ & _ & _ & Hhd & _). change (heads s1) with (heads s) in Hn1. congruence. }
    exists s', e, h, o', v'. split_and!; [done|done| |done|done|].
    + eapply keeps_trans; [exact Hk1|]. apply keeps_heap. apply (ln_heap _ _ _ _ _ _ _ Hln).
    + split; [done| |done]. rewrite Hlst. cbn [default]. apply (entry_set_before s hp); [done|].
      apply (links_new_set s1 s' _ e i h o' v' _ _ Hok1 Hln); [|done|done].
      subst s'. unfold lst_of. cbn. by rewrite lookup_insert_eq.
Qed.

(** ** Removing an entry *)

(** A head without entries is gone. *)
Definition nonempty (l : list positive) : option (list positive) := match l with [] => None | _ => Some l end.

Lemma lst_of_nonempty s ext h l : index_ok s ext -> lst_of s h = Some l -> nonempty l = Some l.
Proof.
  unfold lst_of. intros Hok (hd & Hh & ->)%fmap_Some. destruct (ix_head _ _ Hok _ _ Hh) as (_ & Hne & _). by destruct (lst_entries_head hd).
Qed.

Record entry_removed s s' (e h : positive) : Prop := {
  er_tracked e2 i2 h2 o2 v2 : tracked s' e2 i2 h2 o2 v2 <-> e2 <> e /\ tracked s e2 i2 h2 o2 v2;
  er_lst h2 : lst_of s' h2 = if decide (h2 = h) then l ← lst_of s h; nonempty (c_list_unlink e l) else lst_of s h2;
  er_dirty e2 : dirty_of s' e2 = if decide (e2 = e) then None else dirty_of s e2;
  er_idx i h2 : h2 ∈ lst_idx_head (idx_types s' i) <-> h2 ∈ lst_idx_head (idx_types s i) /\ is_Some (lst_of s' h2)
}.

Lemma handle_lst s ext i h : index_ok s ext -> h ∈ lst_idx_head (idx_types s i) -> is_Some (lst_of s h).
Proof. intros Hok Hin. destruct (ix_handle_head _ _ Hok _ _ Hin) as (hd & Hh & _). unfold lst_of. rewrite Hh. cbn. eauto. Qed.

Lemma remove_entry_ok s ext e i h o v :
  index_ok s ext -> tracked s e i h o v ->
  exists s', _remove_entry s e = Some (bool_decide (lst_of s h = Some [e]), s') /\
    index_ok s' ext /\ keeps ext s s' /\ entry_removed s s' e h.
Proof.
  intros Hok Ht. pose proof Ht as (en & hd & He & Eo & Eh & Hhd & Ei & Hv).
  destruct (tracked_member _ _ _ _ _ _ _ _ Hok Ht Hhd) as (Hin & Hnd & _).
  pose proof (unlink_ok s ext e i h o v hd Hok Ht Hhd) as Hun. cbn zeta in Hun. destruct Hun as (Hok1 & Htr & Hrem & Hheads & Hent & Hheap & Hidx).
  unfold _remove_entry. rewrite He. cbn [mbind option_bind]. rewrite Eh, Hhd. cbn [mbind option_bind]. rewrite Eo.
  change (with_entries (delete e) _) with (unlink_entry s e h hd).2.
  change (negb (0 <? he_len (set_lst (c_list_unlink e (lst_entries_head hd)) (add_len (-1) hd)))) with (unlink_entry s e h hd).1.
  set (s1 := (unlink_entry s e h hd).2) in *.
  destruct (unref_ok s1 ext o Hok1) as (hp & -> & Hok2 & _ & Hk & Ht2). cbn [mbind option_bind].
  assert (Hlst : lst_of s h = Some (lst_entries_head hd)) by (unfold lst_of; by rewrite Hhd).
  assert (Hone : c_list_unlink e (lst_entries_head hd) = [] <-> lst_entries_head hd = [e]).
  { rewrite <-(unlink_last e _ Hnd Hin). split; [|by intros ->].
    destruct (lst_entries_head hd) as [|x [|y l]]; [done| |done]. intros _. by apply list_elem_of_singleton in Hin as ->. }
  exists (with_heap hp s1). split_and!; [|done| |].
  - do 2 f_equal. rewrite Hlst. apply eq_true_iff_eq. rewrite Hrem, bool_decide_eq_true. split; [by intros ->|by intros [=]].
  - eapply keeps_trans; [by apply (keeps_heap ext s s1)|done].
  - assert (Hlst' : forall h2, lst_of (with_heap hp s1) h2
              = if decide (h2 = h) then l ← lst_of s h; nonempty (c_list_unlink e l) else lst_of s h2).
    { intros h2. unfold lst_of at 1. cbn [heads with_heap]. rewrite Hheads. destruct (decide (h2 = h)) as [->|]; [|done].
      rewrite Hlst. cbn [mbind option_bind]. destruct (decide (lst_entries_head hd = [e])) as [El|El].
      - by rewrite (proj2 Hone El).
      - cbn. destruct (c_list_unlink e (lst_entries_head hd)) eqn:E; [by destruct El; apply Hone|done]. }
    split; [|done| |].
    + intros e2 i2 h2 o2 v2. by rewrite <-Ht2, Htr.
    + intros e2. unfold dirty_of. cbn [entries with_heap]. rewrite Hent.
      destruct (decide (e2 = e)) as [->|]; [by rewrite lookup_delete_eq|by rewrite lookup_delete_ne].
    + intros j h2. cbn [idx_types with_heap]. rewrite Hidx, Hlst'. split.
      * intros Hin2. assert (Hin0 : h2 ∈ lst_idx_head (idx_types s j)).
        { destruct (decide (lst_entries_head hd = [e] /\ j = i)); [|done]. by apply elem_of_unlink in Hin2 as [_ ?]. }
        split; [done|]. destruct (decide (h2 = h)) as [->|Hne]; [|by eapply handle_lst].
        rewrite Hlst. cbn [mbind option_bind]. destruct (c_list_unlink e (lst_entries_head hd)) eqn:E; [|eauto].
        pose proof (proj1 Hone eq_refl). destruct (ix_handle_head _ _ Hok _ _ Hin0) as (hd0 & Hh0 & Ej0). assert (hd0 = hd) as -> by congruence.
        rewrite decide_True in Hin2 by (split; [done|congruence]). apply elem_of_unlink in Hin2 as [? _]. done.
      * intros [Hin2 Hsome]. destruct (decide (lst_entries_head hd = [e] /\ j = i)) as [[El ->]|]; [|done].
        apply elem_of_unlink. split; [|done]. intros ->. rewrite decide_True, Hlst in Hsome by done. cbn [mbind option_bind] in Hsome.
        rewrite (proj2 Hone El) in Hsome. by destruct Hsome.
Qed.

(** ** Moving and marking an entry *)

Lemma reorder_ok s ext e i h o v order (order_after : bool) l :
  index_ok s ext -> tracked s e i h o v -> lst_of s h = Some l -> anchor_in order l ->
  let m := move_entry (if order_after then NM_DEDUP_MULTI_IDX_MODE_APPEND_FORCE else NM_DEDUP_MULTI_IDX_MODE_PREPEND_FORCE) order e l in
  exists s', nm_dedup_multi_entry_reorder s e order order_after = Some (m.1, s') /\
    index_ok s' ext /\ heap s' = heap s /\
    (forall e i h o v, tracked s e i h o v <-> tracked s' e i h o v) /\
    (forall h2, lst_of s' h2 = if decide (h2 = h) then Some m.2 else lst_of s h2) /\
    (forall e2, dirty_of s' e2 = dirty_of s e2).
Proof.
  intros Hok Ht Hl Ha m. pose proof Ht as (en & hd & He & Eo & Eh & Hhd & Ei & Hv).
  destruct (tracked_member _ _ _ _ _ _ _ _ Hok Ht Hhd) as (Hin & Hnd & _).
  assert (lst_entries_head hd = l) as El by (unfold lst_of in Hl; rewrite Hhd in Hl; cbn in Hl; congruence).
  unfold nm_dedup_multi_entry_reorder. rewrite He. cbn [mbind option_bind]. rewrite Eh, Hhd. cbn [mbind option_bind]. rewrite El.
  assert (Hm : m.2 ≡ₚ l) by (apply move_entry_perm; [by rewrite <-El|by rewrite <-El|done]).
  assert (Em : (match order with
                | Some _ => if order_after then nm_c_list_move_after order e l else nm_c_list_move_before order e l
                | None => if order_after then nm_c_list_move_before None e l else nm_c_list_move_after None e l
                end) = m) by (subst m; by destruct order, order_after).
  rewrite Em. destruct m as [moved l'] eqn:E. cbn [fst snd] in *.
  exists (with_heads <[h := set_lst l' hd]> s). split; [done|].
  destruct (links_only_ok s (with_heads <[h := set_lst l' hd]> s) ext Hok) as [Hok' Ht']; [|done|].
  { apply set_lst_links; [done|]. by rewrite El. }
  split_and!; [done|done|done| |done]. intros h2. unfold lst_of. cbn.
  destruct (decide (h2 = h)) as [->|]; [by rewrite lookup_insert_eq|by rewrite lookup_insert_ne].
Qed.

Lemma set_dirty_ok s ext e b :
  index_ok s ext ->
  let s' := nm_dedup_multi_entry_set_dirty e b s in
  index_ok s' ext /\ heap s' = heap s /\
  (forall e i h o v, tracked s e i h o v <-> tracked s' e i h o v) /\
  (forall h2, lst_of s' h2 = lst_of s h2) /\ idx_types s' = idx_types s /\
  (forall e2, dirty_of s' e2 = if decide (e2 = e) then (fun _ => b) <$> dirty_of s e else dirty_of s e2).
Proof.
  intros Hok s'. destruct (links_only_ok s s' ext Hok (set_dirty_links s e b) (eq_refl _)) as [Hok' Ht'].
  split_and!; [done|done|done|done|done|]. intros e2. unfold dirty_of. cbn.
  destruct (decide (e2 = e)) as [->|]; [|by rewrite lookup_alter_ne]. rewrite lookup_alter_eq. by destruct (entries s !! e).
Qed.
End ops.
