(* ===== verification/DedupSweep.v ===== *)
(** * NMDedupMultiIndex: removing many entries

    Marking entries as dirty and removing those that still are, which is how a
    user of the index synchronizes it; and the end of the index. *)

From S2P Require Export DedupOps.

Lemma list_filter_all {A} (P : A -> Prop) `{!forall x, Decision (P x)} (l : list A) : Forall P l -> filter P l = l.
Proof. induction 1 as [|x l Hx _ IH]; [done|]. rewrite filter_cons_True by done. by rewrite IH. Qed.

Section sweep.
Context {I A : Type} `{!EqDecision I} `{HL : DedupIdxLaws I A}.
Implicit Types (s : NMDedupMultiIndex I A) (ext : positive -> nat).

(** Some entries ([es]) go, the others of them are marked or not. *)
Record swept s s' (es : list positive) (gone : positive -> bool) (mark : bool) : Prop := {
  sw_tracked e i h o v : tracked s' e i h o v <-> tracked s e i h o v /\ ~ (e ∈ es /\ gone e = true);
  sw_lst h : lst_of s' h = l ← lst_of s h; nonempty (filter (fun e => ~ (e ∈ es /\ gone e = true)) l);
  sw_dirty e : dirty_of s' e = b ← dirty_of s e;
    if decide (e ∈ es) then if gone e then None else Some (mark || b) else Some b;
  sw_idx i h : h ∈ lst_idx_head (idx_types s' i) <-> h ∈ lst_idx_head (idx_types s i) /\ is_Some (lst_of s' h)
}.

Lemma nonempty_bind l (f : list positive -> list positive) :
  f [] = [] -> (l' ← nonempty l; nonempty (f l')) = nonempty (f l).
Proof. intros Hf. destruct l; cbn; by rewrite ?Hf. Qed.

Lemma swept_nil s ext gone mark : index_ok s ext -> swept s s [] gone mark.
Proof.
  intros Hok. split.
  - intros e i h o v. split; [|tauto]. intros Ht. split; [done|]. intros [Hin _]. by apply elem_of_nil in Hin.
  - intros h. destruct (lst_of s h) as [l|] eqn:E; [|done]. cbn. rewrite list_filter_all; [by rewrite (lst_of_nonempty _ _ _ _ Hok E)|].
    apply Forall_forall. intros e _ [Hin _]. by apply elem_of_nil in Hin.
  - intros e. destruct (dirty_of s e); [|done]. cbn. by rewrite decide_False by apply not_elem_of_nil.
  - intros i h. split; [|tauto]. intros Hin. split; [done|]. by eapply handle_lst.
Qed.

Lemma swept_app s1 s2 s3 es1 es2 gone mark :
  swept s1 s2 es1 gone mark -> swept s2 s3 es2 gone mark -> (forall e, e ∈ es1 -> e ∉ es2) ->
  swept s1 s3 (es1 ++ es2) gone mark.
Proof.
  intros [T1 L1 D1 I1] [T2 L2 D2 I2] Hdis.
  assert (L : forall h, lst_of s3 h = l ← lst_of s1 h; nonempty (filter (fun e => ~ (e ∈ es1 ++ es2 /\ gone e = true)) l)).
  { intros h. rewrite L2, L1. destruct (lst_of s1 h) as [l|]; [|done]. cbn [mbind option_bind].
    rewrite (nonempty_bind _ (filter _)) by apply filter_nil. f_equal. rewrite list_filter_filter. apply list_filter_iff.
    intros e. rewrite elem_of_app. tauto. }
  split; [| exact L| |].
  - intros e i h o v. rewrite T2, T1, elem_of_app. tauto.
  - intros e. rewrite D2, D1. destruct (dirty_of s1 e) as [b|]; [|done]. cbn [mbind option_bind].
    destruct (decide (e ∈ es1)) as [H1|H1].
    + rewrite (decide_True (P := e ∈ es1 ++ es2)) by (apply elem_of_app; by left). destruct (gone e); [done|]. cbn [mbind option_bind].
      by rewrite decide_False by by apply Hdis.
    + cbn [mbind option_bind]. destruct (decide (e ∈ es2)) as [H2|H2].
      * by rewrite decide_True by (apply elem_of_app; by right).
      * rewrite decide_False; [done|]. rewrite elem_of_app. tauto.
  - intros i h. rewrite I2, I1. split; [tauto|]. intros [Hin Hs]. split; [|done]. split; [done|].
    destruct Hs as [l Hs]. rewrite L2 in Hs. destruct (lst_of s2 h); [eauto|done].
Qed.

Lemma removed_swept s s' ext e i h o v gone mark :
  index_ok s ext -> tracked s e i h o v -> entry_removed s s' e h -> gone e = true -> swept s s' [e] gone mark.
Proof.
  intros Hok Ht [T L D X] Hg. split.
  - intros e2 i2 h2 o2 v2. rewrite T, list_elem_of_singleton. split; [|intros [? Hn]; split; [|done]; intros ->; by apply Hn].
    intros [Hne ?]. split; [done|]. tauto.
  - intros h2. rewrite L. assert (Hun : forall l, filter (fun x => ~ (x ∈ [e] /\ gone x = true)) l = c_list_unlink e l).
    { intros l. apply list_filter_iff. intros x. rewrite list_elem_of_singleton. split; [|tauto]. intros Hn ->. by apply Hn. }
    destruct (decide (h2 = h)) as [->|Hne]; [destruct (lst_of s h); [|done]; cbn; by rewrite Hun|].
    destruct (lst_of s h2) as [l|] eqn:E; [|done]. cbn. rewrite Hun.
    rewrite <-(lst_of_nonempty _ _ _ _ Hok E). f_equal. unfold c_list_unlink. symmetry. apply list_filter_all, Forall_forall. intros x Hx ->.
    unfold lst_of in E. apply fmap_Some in E as (hd & Hhd & ->). destruct (ix_member _ _ Hok _ _ _ Hhd Hx) as (en & He & Eh).
    destruct Ht as (en' & ? & He' & _ & Eh' & _). congruence.
  - intros e2. rewrite D. destruct (decide (e2 = e)) as [->|Hne].
    + destruct (dirty_of s e); [|done]. cbn. by rewrite decide_True, Hg by apply list_elem_of_here.
    + destruct (dirty_of s e2); [|done]. cbn. rewrite decide_False; [done|]. by intros ->%list_elem_of_singleton.
  - exact X.
Qed.

Lemma marked_swept s ext e gone (mark : bool) :
  index_ok s ext -> gone e = false ->
  let s' := if mark then nm_dedup_multi_entry_set_dirty e true s else s in
  index_ok s' ext /\ keeps ext s s' /\ swept s s' [e] gone mark.
Proof.
  intros Hok Hg s'. assert (Hn : forall x, ~ (x ∈ [e] /\ gone x = true)) by (intros x [->%list_elem_of_singleton ?]; congruence).
  assert (Hm : index_ok s' ext /\ heap s' = heap s /\ (forall e i h o v, tracked s e i h o v <-> tracked s' e i h o v) /\
            (forall h2, lst_of s' h2 = lst_of s h2) /\ idx_types s' = idx_types s /\
            (forall e2, dirty_of s' e2 = if decide (e2 = e) then (fun b => mark || b) <$> dirty_of s e else dirty_of s e2)).
  { subst s'. destruct mark; [apply (set_dirty_ok s ext e true Hok)|]. split_and!; try done. intros e2.
    destruct (decide (e2 = e)) as [->|]; [|done]. cbn. by destruct (dirty_of s e). }
  destruct Hm as (Hok' & Hheap & Ht & Hl & Hx & Hd). split_and!; [done|by apply keeps_heap|]. split.
  - intros e2 i2 h2 o2 v2. rewrite <-Ht. specialize (Hn e2). tauto.
  - intros h. rewrite Hl. destruct (lst_of s h) as [l|] eqn:E; [|done]. cbn.
    rewrite list_filter_all by (apply Forall_forall; intros x _; apply Hn). by rewrite (lst_of_nonempty _ _ _ _ Hok E).
  - intros e2. rewrite Hd. destruct (decide (e2 = e)) as [->|Hne].
    + destruct (dirty_of s e); [|done]. cbn. by rewrite decide_True, Hg by apply list_elem_of_here.
    + destruct (dirty_of s e2); [|done]. cbn. rewrite decide_False; [done|]. by intros ->%list_elem_of_singleton.
  - intros i h. rewrite Hx. split; [|tauto]. intros Hin. split; [done|]. rewrite Hl. by eapply handle_lst.
Qed.

(** ** The entries of a head *)

Definition count_gone (gone : positive -> bool) (es : list positive) : Z := Z.of_nat (length (List.filter gone es)).

Lemma remove_head_loop_ok es s ext h all mark gone n :
  index_ok s ext -> NoDup es -> (forall e, e ∈ es -> exists i o v, tracked s e i h o v) ->
  (forall e, e ∈ es -> gone e = all || bool_decide (dirty_of s e = Some true)) ->
  exists s', remove_head_loop es all mark n s = Some (n + count_gone gone es, s') /\
    index_ok s' ext /\ keeps ext s s' /\ swept s s' es gone mark.
Proof.
  revert s n. induction es as [|e es IH]; intros s n Hok Hnd Hin Hg; cbn [remove_head_loop].
  { exists s. split_and!; [by rewrite Z.add_0_r|done|apply keeps_refl|by apply (swept_nil s ext)]. }
  apply NoDup_cons in Hnd as [Hne Hnd]. destruct (Hin e) as (i & o & v & Ht); [apply list_elem_of_here|].
  pose proof Ht as (en & hd & He & _). rewrite He. cbn [mbind option_bind].
  assert (Hge : gone e = all || en_dirty en).
  { rewrite (Hg e) by apply list_elem_of_here. f_equal. unfold dirty_of. rewrite He. cbn. by destruct (en_dirty en). }
  rewrite <-Hge. unfold count_gone. cbn [List.filter]. destruct (gone e) eqn:Ege.
  - destruct (remove_entry_ok s ext e i h o v Hok Ht) as (s1 & -> & Hok1 & Hk1 & Hrem). cbn [mbind option_bind].
    pose proof (removed_swept s s1 ext e i h o v gone mark Hok Ht Hrem Ege) as Hsw1.
    assert (Hin1 : forall e2, e2 ∈ es -> exists i2 o2 v2, tracked s1 e2 i2 h o2 v2).
    { intros e2 H2. destruct (Hin e2) as (i2 & o2 & v2 & Ht2); [by apply list_elem_of_further|]. exists i2, o2, v2.
      apply (er_tracked _ _ _ _ Hrem). split; [|done]. by intros ->. }
    case_bool_decide as Elast.
    + assert (es = []) as ->.
      { destruct es as [|e2 es]; [done|]. exfalso. destruct (Hin1 e2) as (i2 & o2 & v2 & Ht2); [apply list_elem_of_here|].
        pose proof Ht2 as (_ & hd2 & _ & _ & _ & Hhd2 & _). pose proof (er_lst _ _ _ _ Hrem h) as Hl. rewrite decide_True, Elast in Hl by done.
        unfold lst_of in Hl. rewrite Hhd2 in Hl. cbn in Hl. unfold c_list_unlink in Hl.
        rewrite filter_cons_False in Hl by tauto. done. }
      exists s1. split_and!; [|done|done|done]. do 2 f_equal.
    + destruct (IH s1 (n + 1) Hok1 Hnd Hin1) as (s' & E & Hok' & Hk' & Hsw').
      { intros e2 H2. rewrite (Hg e2) by by apply list_elem_of_further. rewrite (er_dirty _ _ _ _ Hrem), decide_False; [done|].
        by intros ->. }
      exists s'. split_and!; [|done|by eapply keeps_trans|].
      * rewrite E. unfold count_gone. do 2 f_equal. cbn [length]. lia.
      * apply (swept_app s s1 s' [e] es); [done|done|]. by intros ? ->%list_elem_of_singleton.
  - pose proof (marked_swept s ext e gone mark Hok Ege) as Hm. cbn zeta in Hm.
    set (s1 := if mark then nm_dedup_multi_entry_set_dirty e true s else s) in *. destruct Hm as (Hok1 & Hk1 & Hsw1).
    destruct (IH s1 n Hok1 Hnd) as (s' & E & Hok' & Hk' & Hsw').
    + intros e2 H2. destruct (Hin e2) as (i2 & o2 & v2 & Ht2); [by apply list_elem_of_further|]. exists i2, o2, v2.
      apply (sw_tracked _ _ _ _ _ Hsw1). split; [done|]. by intros [->%list_elem_of_singleton _].
    + intros e2 H2. rewrite (Hg e2) by by apply list_elem_of_further. rewrite (sw_dirty _ _ _ _ _ Hsw1).
      destruct (dirty_of s e2); [|done]. cbn. rewrite decide_False; [done|]. by intros ->%list_elem_of_singleton.
    + exists s'. split_and!; [done|done|by eapply keeps_trans|].
      apply (swept_app s s1 s' [e] es); [done|done|]. by intros ? ->%list_elem_of_singleton.
Qed.

(** Which entries an operation removes. *)
Definition doomed s (all : bool) (e : positive) : bool := all || bool_decide (dirty_of s e = Some true).

Lemma lst_tracked s ext h l e : index_ok s ext -> lst_of s h = Some l -> e ∈ l -> exists i o v, tracked s e i h o v.
Proof.
  unfold lst_of. intros Hok (hd & Hh & ->)%fmap_Some Hin. destruct (head_tracked _ _ _ _ _ Hok Hh Hin) as (en & v & _ & _ & Ht). eauto.
Qed.

Lemma tracked_lst s ext e i h o v : index_ok s ext -> tracked s e i h o v -> exists l, lst_of s h = Some l /\ e ∈ l.
Proof.
  intros Hok Ht. pose proof Ht as (_ & hd & _ & _ & _ & Hh & _). exists (lst_entries_head hd).
  unfold lst_of. rewrite Hh. split; [done|]. by destruct (tracked_member _ _ _ _ _ _ _ _ Hok Ht Hh).
Qed.

Lemma remove_head_ok s ext h l all mark gone :
  index_ok s ext -> lst_of s h = Some l -> (forall e, e ∈ l -> gone e = doomed s all e) ->
  exists s', _remove_head s h all mark = Some (count_gone gone l, s') /\
    index_ok s' ext /\ keeps ext s s' /\ swept s s' l gone mark.
Proof.
  intros Hok Hl Hg. unfold _remove_head. pose proof Hl as Hl'. unfold lst_of in Hl'. apply fmap_Some in Hl' as (hd & Hhd & El).
  rewrite Hhd. cbn [mbind option_bind]. rewrite <-El.
  destruct (remove_head_loop_ok l s ext h all mark gone 0 Hok) as (s' & -> & Hres); [|by intros e; apply (lst_tracked s ext h l)|done|by exists s'].
  rewrite El. by destruct (ix_head _ _ Hok _ _ Hhd).
Qed.

(** ** The entries of a handle *)

Lemma remove_idx_loop_ok hs s ext i all mark gone n :
  index_ok s ext -> NoDup hs -> (forall h, h ∈ hs -> h ∈ lst_idx_head (idx_types s i)) ->
  (forall e h o v, h ∈ hs -> tracked s e i h o v -> gone e = doomed s all e) ->
  exists s' es, remove_idx_loop hs all mark n s = Some (n + count_gone gone es, s') /\
    index_ok s' ext /\ keeps ext s s' /\ swept s s' es gone mark /\ NoDup es /\
    (forall e, e ∈ es <-> exists h o v, h ∈ hs /\ tracked s e i h o v).
Proof.
  revert s n. induction hs as [|h hs IH]; intros s n Hok Hnd Hin Hg; cbn [remove_idx_loop].
  { exists s, []. split_and!; [by rewrite Z.add_0_r|done|apply keeps_refl|by apply (swept_nil s ext)|constructor|].
    intros e. split; [by intros ?%elem_of_nil|by intros (h & o & v & ?%elem_of_nil & _)]. }
  apply NoDup_cons in Hnd as [Hnh Hnd].
  destruct (handle_lst s ext i h Hok) as [l Hl]; [apply Hin, list_elem_of_here|].
  assert (Hidx : forall e, e ∈ l <-> exists o v, tracked s e i h o v).
  { intros e. split.
    - intros He. destruct (ix_handle_head _ _ Hok i h (Hin h (list_elem_of_here _ _))) as (hd & Hhd & Ei).
      destruct (lst_tracked s ext h l e Hok Hl He) as (i2 & o & v & Ht). exists o, v.
      pose proof Ht as (_ & hd2 & _ & _ & _ & Hhd2 & Ei2 & _). assert (i2 = i) as -> by congruence. done.
    - intros (o & v & Ht). destruct (tracked_lst _ _ _ _ _ _ _ Hok Ht) as (l2 & Hl2 & He). congruence. }
  destruct (remove_head_ok s ext h l all mark gone Hok Hl) as (s1 & -> & Hok1 & Hk1 & Hsw1).
  { intros e (o & v & Ht)%Hidx. apply (Hg e h o v); [apply list_elem_of_here|done]. }
  cbn [mbind option_bind].
  assert (Hndl : NoDup l).
  { unfold lst_of in Hl. apply fmap_Some in Hl as (hd & Hhd & ->). by destruct (ix_head _ _ Hok _ _ Hhd). }
  assert (Hother : forall e h2 i2 o v, h2 <> h -> tracked s e i2 h2 o v -> e ∉ l).
  { intros e h2 i2 o v Hne Ht (o' & v' & Ht')%Hidx. by destruct (tracked_fun _ _ _ _ _ _ _ _ _ _ Ht Ht') as (_ & ? & _). }
  destruct (IH s1 (n + count_gone gone l) Hok1 Hnd) as (s' & es & E & Hok' & Hk' & Hsw' & Hndes & Hes).
  - intros h2 H2. apply (sw_idx _ _ _ _ _ Hsw1). split; [apply Hin; by apply list_elem_of_further|].
    rewrite (sw_lst _ _ _ _ _ Hsw1). assert (h2 <> h) by (by intros ->).
    destruct (handle_lst s ext i h2 Hok) as [l2 Hl2]; [apply Hin; by apply list_elem_of_further|]. rewrite Hl2. cbn [mbind option_bind].
    rewrite list_filter_all; [by rewrite (lst_of_nonempty _ _ _ _ Hok Hl2)|]. apply Forall_forall. intros e He [Hel _].
    destruct (lst_tracked _ _ _ _ _ Hok Hl2 He) as (i2 & o & v & Ht). by apply (Hother e h2 i2 o v).
  - intros e h2 o v H2 Ht2. apply (sw_tracked _ _ _ _ _ Hsw1) in Ht2 as [Ht _].
    rewrite (Hg e h2 o v) by (done || by apply list_elem_of_further). unfold doomed.
    rewrite (sw_dirty _ _ _ _ _ Hsw1). assert (e ∉ l) by (apply (Hother e h2 i o v); [by intros ->|done]).
    destruct (dirty_of s e); [|done]. cbn. by rewrite decide_False.
  - assert (Hes' : forall e, e ∈ es <-> exists h2 o v, h2 ∈ hs /\ tracked s e i h2 o v).
    { intros e. rewrite Hes. split.
      - intros (h2 & o & v & H2 & Ht2). apply (sw_tracked _ _ _ _ _ Hsw1) in Ht2 as [Ht _]. eauto.
      - intros (h2 & o & v & H2 & Ht). exists h2, o, v. split; [done|]. apply (sw_tracked _ _ _ _ _ Hsw1). split; [done|].
        intros [Hel _]. apply (Hother e h2 i o v) in Hel; [done|by intros ->|done]. }
    assert (Hdis : forall e, e ∈ l -> e ∉ es).
    { intros e Hel (h2 & o & v & H2 & Ht)%Hes'. apply (Hother e h2 i o v) in Hel; [done|by intros ->|done]. }
    exists s', (l ++ es). split_and!.
    + rewrite E. unfold count_gone. rewrite List.filter_app, length_app. do 2 f_equal. lia.
    + done.
    + by eapply keeps_trans.
    + by apply (swept_app s s1 s').
    + by apply NoDup_app.
    + intros e. rewrite elem_of_app, Hidx, Hes'. split.
      * intros [(o & v & Ht)|(h2 & o & v & H2 & Ht)]; [exists h, o, v|exists h2, o, v]; (split; [|done]); [apply list_elem_of_here|by apply list_elem_of_further].
      * intros (h2 & o & v & [->|H2]%elem_of_cons & Ht); [left|right]; eauto.
Qed.

(** The entries of a handle. *)
Lemma remove_idx_entry_ok s ext i all mark :
  index_ok s ext ->
  exists s' es, _remove_idx_entry s i all mark = Some (count_gone (doomed s all) es, s') /\
    index_ok s' ext /\ keeps ext s s' /\ swept s s' es (doomed s all) mark /\ NoDup es /\
    (forall e, e ∈ es <-> exists h o v, tracked s e i h o v).
Proof.
  intros Hok. unfold _remove_idx_entry.
  destruct (remove_idx_loop_ok (lst_idx_head (idx_types s i)) s ext i all mark (doomed s all) 0 Hok)
    as (s' & es & E & Hok' & Hk' & Hsw & Hnd & Hes); [apply (ix_handle _ _ Hok)|done|done|].
  exists s', es. split_and!; try done. intros e. rewrite Hes. split; [intros (h & o & v & _ & Ht); eauto|].
  intros (h & o & v & Ht). exists h, o, v. split; [by eapply tracked_handle|done].
Qed.

(** ** Marking *)

(** Some entries are marked. *)
Record marked s s' (es : list positive) : Prop := {
  mk_heap : heap s' = heap s;
  mk_tracked e i h o v : tracked s e i h o v <-> tracked s' e i h o v;
  mk_lst h : lst_of s' h = lst_of s h;
  mk_idx : idx_types s' = idx_types s;
  mk_dirty e : dirty_of s' e = b ← dirty_of s e; Some (bool_decide (e ∈ es) || b)
}.

Lemma dirty_entries_ok es s ext : index_ok s ext -> index_ok (dirty_entries es s) ext /\ marked s (dirty_entries es s) es.
Proof.
  revert s. induction es as [|e es IH]; intros s Hok; cbn.
  - split; [done|]. split; try done. intros e. destruct (dirty_of s e); [|done]. cbn.
    by rewrite bool_decide_eq_false_2 by apply not_elem_of_nil.
  - pose proof (set_dirty_ok s ext e true Hok) as Hset. cbn zeta in Hset. destruct Hset as (Hok1 & H1 & H2 & H3 & H4 & H5).
    destruct (IH _ Hok1) as [Hok' [M1 M2 M3 M4 M5]]. split; [done|]. split.
    + etransitivity; [exact M1|exact H1].
    + intros. rewrite H2. apply M2.
    + intros h. etransitivity; [apply M3|apply H3].
    + etransitivity; [exact M4|exact H4].
    + intros e2. etransitivity; [apply M5|]. rewrite H5. destruct (decide (e2 = e)) as [->|Hne].
      * destruct (dirty_of s e); [|done]. cbn. by rewrite orb_true_r, bool_decide_eq_true_2 by apply list_elem_of_here.
      * destruct (dirty_of s e2); [|done]. cbn. do 2 f_equal. apply bool_decide_ext. rewrite elem_of_cons. tauto.
Qed.

Lemma marked_trans s1 s2 s3 es1 es2 : marked s1 s2 es1 -> marked s2 s3 es2 -> marked s1 s3 (es1 ++ es2).
Proof.
  intros [A1 A2 A3 A4 A5] [B1 B2 B3 B4 B5]. split; [congruence|intros; by rewrite A2, B2|intros; by rewrite B3|congruence|].
  intros e. rewrite B5, A5. destruct (dirty_of s1 e) as [b|]; [|done]. cbn [mbind option_bind].
  assert (bool_decide (e ∈ es1 ++ es2) = bool_decide (e ∈ es1) || bool_decide (e ∈ es2)) as ->.
  { rewrite <-bool_decide_or. apply bool_decide_ext, elem_of_app. }
  by destruct (bool_decide (e ∈ es1)), (bool_decide (e ∈ es2)).
Qed.

Lemma dirty_set_heads_ok hs s ext :
  index_ok s ext -> (forall h, h ∈ hs -> is_Some (heads s !! h)) ->
  exists s' es, dirty_set_heads hs s = Some s' /\ index_ok s' ext /\ marked s s' es /\
    (forall e, e ∈ es <-> exists h l, h ∈ hs /\ lst_of s h = Some l /\ e ∈ l).
Proof.
  revert s. induction hs as [|h hs IH]; intros s Hok Hin; cbn.
  - exists s, []. split_and!; [done|done|by apply (dirty_entries_ok [] s ext)|]. intros e. split; [by intros ?%elem_of_nil|].
    by intros (? & ? & ?%elem_of_nil & _).
  - destruct (Hin h (list_elem_of_here _ _)) as [hd Hhd]. rewrite Hhd. cbn [mbind option_bind].
    destruct (dirty_entries_ok (lst_entries_head hd) s ext Hok) as [Hok1 Hm1]. set (s1 := dirty_entries _ s) in *.
    destruct (IH s1 Hok1) as (s' & es & -> & Hok' & Hm' & Hes).
    + intros h2 H2. destruct (Hin h2) as [hd2 Hhd2]; [by apply list_elem_of_further|].
      pose proof (mk_lst _ _ _ Hm1 h2) as Hl. unfold lst_of in Hl. rewrite Hhd2 in Hl. destruct (heads s1 !! h2); [eauto|done].
    + exists s', (lst_entries_head hd ++ es). split_and!; [done|done|by eapply marked_trans|]. intros e. rewrite elem_of_app, Hes. split.
      * intros [He|(h2 & l & H2 & Hl & He)]; [exists h, (lst_entries_head hd); unfold lst_of; rewrite Hhd|exists h2, l; rewrite <-(mk_lst _ _ _ Hm1)];
          (split; [|done]); [apply list_elem_of_here|by apply list_elem_of_further].
      * intros (h2 & l & [->|H2]%elem_of_cons & Hl & He); [left|right; exists h2, l; by rewrite (mk_lst _ _ _ Hm1)].
        unfold lst_of in Hl. rewrite Hhd in Hl. cbn in Hl. congruence.
Qed.

Lemma dirty_set_idx_ok s ext i :
  index_ok s ext ->
  exists s' es, nm_dedup_multi_index_dirty_set_idx s i = Some s' /\ index_ok s' ext /\ marked s s' es /\
    (forall e, e ∈ es <-> exists h o v, tracked s e i h o v).
Proof.
  intros Hok. unfold nm_dedup_multi_index_dirty_set_idx.
  destruct (dirty_set_heads_ok (lst_idx_head (idx_types s i)) s ext Hok) as (s' & es & E & Hok' & Hm & Hes).
  { intros h (hd & Hh & _)%(ix_handle_head _ _ Hok). eauto. }
  exists s', es. split_and!; try done. intros e. rewrite Hes. split.
  - intros (h & l & Hin & Hl & He). destruct (ix_handle_head _ _ Hok _ _ Hin) as (hd & Hhd & <-).
    unfold lst_of in Hl. rewrite Hhd in Hl. injection Hl as <-.
    destruct (head_tracked _ _ _ _ _ Hok Hhd He) as (en & v & _ & _ & Ht). eauto.
  - intros (h & o & v & Ht). destruct (tracked_lst _ _ _ _ _ _ _ Hok Ht) as (l & Hl & He). exists h, l.
    split; [by eapply tracked_handle|done].
Qed.
End sweep.
