(* ===== verification/DedupSpec.v ===== *)
(** * NMDedupMultiIndex: what its users rely on

    Any use of the index that respects the ownership of references is safe; the
    index can be synchronized with a list of objects by marking and sweeping; and
    an index that ends leaves the objects of its users. *)

From S2P Require Export DedupSweep.

Section spec.
Context {I A : Type} `{!EqDecision I} `{HL : DedupIdxLaws I A}.
Implicit Types (s : NMDedupMultiIndex I A) (ext : positive -> nat).

(** ** Adding an object *)

Definition with_ref (o : option positive) ext : positive -> nat :=
  match o with Some o => add_use o ext | None => ext end.

Lemma index_add_ok s ext obj vobj i mode want :
  index_ok s ext -> vals (heap s) !! obj = Some vobj -> indexable vobj ->
  exists r, nm_dedup_multi_index_add s i obj mode want = Some r /\
    index_ok (added_to r) (with_ref (out_obj_old r) ext) /\ keeps ext s (added_to r) /\
    (want = false -> out_obj_old r = None) /\
    match part_key i (boxed obj vobj) with
    | None => added_to r = s /\ out_entry r = None
    | Some k => exists e h o v l, out_entry r = Some e /\ entry_set s (added_to r) e i h o v l /\
        part_key i (boxed o v) = Some k /\ id_key i (boxed o v) = id_key i (boxed obj vobj) /\
        (forall j h2 o2 v2, tracked s e j h2 o2 v2 ->
           j = i /\ part_key i (boxed o2 v2) = Some k /\ id_key i (boxed o2 v2) = id_key i (boxed obj vobj))
    end.
Proof.
  intros Hok Hobj Hix. set (x := boxed obj vobj). unfold nm_dedup_multi_index_add, obj_at. rewrite Hobj.
  cbn [mbind option_bind]. change (boxed obj vobj) with x.
  pose proof (needle_boxed s ext obj vobj Hok Hobj) as Hx. change (boxed obj vobj) with x in Hx.
  destruct (_entry_lookup_obj s i x) as [e|] eqn:El.
  - apply (lookup_obj_spec s ext i x e Hok Hx) in El as (h & o & v & Ht & Epk & Eid).
    pose proof Ht as (_ & hd & _ & _ & _ & Hhd & _).
    pose proof (add_existing_ok s ext obj vobj e i h o v mode None want hd Hok Ht Hhd Hobj Hix) as Hadd. cbn zeta in Hadd.
    destruct Hadd as (s' & o' & v' & E & Hok' & Hk & Hval & Hset); [by symmetry|by symmetry|done|].
    cbn [_add]. rewrite E. eexists. split; [done|]. cbn [added_to out_obj_old out_entry]. split_and!; [by destruct want|done|by intros ->|].
    destruct (ix_part _ _ Hok _ _ _ _ _ Ht) as [[k Hkey] _]. rewrite <-Epk, Hkey.
    exists e, h, o', v', (move_entry mode None e (lst_entries_head hd)).2. split_and!; [done|done| | |
      intros j h2 o2 v2 Ht2; destruct (tracked_fun _ _ _ _ _ _ _ _ _ _ Ht Ht2) as (<- & <- & <- & <-); by rewrite Hkey];
      (destruct (same_full obj o vobj v); [by destruct Hval as [-> ->]|]);
      destruct Hval as [Hst _]; destruct (stands_for_keys i (boxed o' v') x Hix Hst) as (E1 & E2 & _); congruence.
  - assert (Habs : absent s i x).
    { intros e h o v Ht Epk Eid. assert (_entry_lookup_obj s i x = Some e); [|congruence].
      apply (lookup_obj_spec s ext); [done|done|]. eauto 10. }
    pose proof (add_new_ok s ext obj vobj i mode None LOOKUP Hok Hobj Hix Habs (Logic.I) ltac:(done)) as Hadd. cbn zeta in Hadd.
    change (boxed obj vobj) with x in Hadd. cbn [_add]. destruct (part_key i x) as [k|] eqn:Ek.
    + destruct Hadd as (s' & e & h & o' & v' & E & Hok' & Hk & Hst & _ & Hadded). rewrite E. eexists. split; [done|].
      cbn [added_to out_obj_old out_entry]. split_and!; [done|done|done|].
      destruct (stands_for_keys i (boxed o' v') x Hix Hst) as (E1 & E2 & _).
      exists e, h, o', v'. eexists. split_and!; [done|apply (ea_set _ _ _ _ _ _ _ _ _ Hadded)|congruence|congruence|].
      intros j h2 o2 v2 (en & _ & He & _). pose proof (ea_fresh _ _ _ _ _ _ _ _ _ Hadded). congruence.
    + rewrite Hadd. eexists. split; [done|]. cbn [added_to out_obj_old out_entry]. split_and!; [done|apply keeps_refl|done|done|done].
Qed.

(** ** Synchronizing a handle *)

(** Adds objects one after the other. *)
Fixpoint add_objs (i : I) (mode : NMDedupMultiIdxMode) (os : list positive) s : option (NMDedupMultiIndex I A) :=
  match os with
  | [] => Some s
  | o :: os => r ← nm_dedup_multi_index_add s i o mode false; add_objs i mode os (added_to r)
  end.

Definition sync_handle (i : I) (mode : NMDedupMultiIdxMode) (os : list positive) s : option (NMDedupMultiIndex I A) :=
  s ← nm_dedup_multi_index_dirty_set_idx s i;
  s ← add_objs i mode os s;
  '(_, s) ← nm_dedup_multi_index_dirty_remove_idx s i false;
  Some s.

(** The object [o] of a user has the keys of [x]. *)
Definition same_keys s (i : I) (x : At A) (o : positive) : Prop :=
  exists v, vals (heap s) !! o = Some v /\ part_key i (boxed o v) = part_key i x /\ id_key i (boxed o v) = id_key i x.

(** Which entries are clean while objects are added. *)
Record adding s0 s (i : I) (os : list positive) : Prop := {
  ad_clean e h o v : tracked s e i h o v -> dirty_of s e = Some false <-> exists p, p ∈ os /\ same_keys s0 i (boxed o v) p;
  ad_present p v : p ∈ os -> vals (heap s0) !! p = Some v -> is_Some (part_key i (boxed p v)) ->
    exists e h o w, tracked s e i h o w /\ part_key i (boxed o w) = part_key i (boxed p v) /\ id_key i (boxed o w) = id_key i (boxed p v);
  ad_other e j h o v : j <> i -> tracked s e j h o v <-> tracked s0 e j h o v
}.

Lemma adding_step s0 s ext i done_ o v r :
  index_ok s ext -> index_ok (added_to r) ext -> vals (heap s0) !! o = Some v -> adding s0 s i done_ ->
  match part_key i (boxed o v) with
  | None => added_to r = s /\ out_entry r = None
  | Some k => exists e h o' v' l, out_entry r = Some e /\ entry_set s (added_to r) e i h o' v' l /\
      part_key i (boxed o' v') = Some k /\ id_key i (boxed o' v') = id_key i (boxed o v) /\
      (forall j h2 o2 v2, tracked s e j h2 o2 v2 ->
         j = i /\ part_key i (boxed o2 v2) = Some k /\ id_key i (boxed o2 v2) = id_key i (boxed o v))
  end ->
  adding s0 (added_to r) i (done_ ++ [o]).
Proof.
  intros Hok Hok' Hv [Hc Hp Ho] Hres. destruct (part_key i (boxed o v)) as [k|] eqn:Ek.
  - destruct Hres as (e & h & o' & v' & l & _ & [T _ D] & Epk & Eid & Hold). split.
    + intros e2 h2 o2 v2 Ht2. rewrite D. pose proof Ht2 as Ht2'. apply T in Ht2 as [(-> & _ & -> & -> & ->)|[Hne Ht2]].
      * rewrite decide_True by done. split; [intros _|done]. exists o. split; [apply elem_of_app; right; apply list_elem_of_here|].
        exists v. rewrite Ek, Epk, Eid. done.
      * rewrite decide_False, (Hc _ _ _ _ Ht2) by done. split; intros (p & Hin & Hs); exists p.
        -- split; [by apply elem_of_app; left|done].
        -- apply elem_of_app in Hin as [Hin|Ep%list_elem_of_singleton]; [done|]. subst p. exfalso. destruct Hs as (w & Hw & E1 & E2).
           assert (w = v) as -> by congruence. apply Hne.
           apply (ix_unique _ _ Hok' _ _ _ _ _ _ _ _ _ Ht2' (proj2 (T e i h o' v') (or_introl (conj eq_refl (conj eq_refl (conj eq_refl (conj eq_refl eq_refl)))))));
             congruence.
    + intros p w Hin Hw Hs. apply elem_of_app in Hin as [Hin|Ep%list_elem_of_singleton].
      * destruct (Hp p w Hin Hw Hs) as (e0 & h0 & o0 & w0 & Ht0 & E1 & E2). destruct (decide (e0 = e)) as [->|Hne].
        -- destruct (Hold _ _ _ _ Ht0) as (_ & E3 & E4). exists e, h, o', v'. split; [apply T; by left|]. split; congruence.
        -- exists e0, h0, o0, w0. split; [apply T; by right|done].
      * subst p. assert (w = v) as -> by congruence. exists e, h, o', v'. split; [apply T; by left|]. split; congruence.
    + intros e2 j h2 o2 v2 Hj. rewrite T, <-Ho by done. split; [intros [(_ & ? & _)|[_ ?]]; done|]. intros Ht2. right. split; [|done].
      intros ->. by apply Hold in Ht2 as (? & _).
  - destruct Hres as [Er _]. rewrite Er. split; [| |done].
    + intros e2 h2 o2 v2 Ht2. rewrite (Hc _ _ _ _ Ht2). split; intros (p & Hin & Hs); exists p; [split; [by apply elem_of_app; left|done]|].
      apply elem_of_app in Hin as [Hin|Ep%list_elem_of_singleton]; [done|]. subst p. exfalso. destruct Hs as (w & Hw & E1 & _).
      assert (w = v) as -> by congruence. destruct (ix_part _ _ Hok _ _ _ _ _ Ht2) as [[? ?] _]. congruence.
    + intros p w Hin Hw Hs. apply elem_of_app in Hin as [Hin|Ep%list_elem_of_singleton]; [by apply Hp|]. subst p.
      assert (w = v) as -> by congruence. rewrite Ek in Hs. by destruct Hs.
Qed.

Lemma add_objs_ok i mode os s0 s ext done_ :
  index_ok s ext -> keeps ext s0 s -> adding s0 s i done_ ->
  Forall (fun o => (0 < ext o)%nat /\ exists v, vals (heap s0) !! o = Some v /\ indexable v) os ->
  exists s', add_objs i mode os s = Some s' /\ index_ok s' ext /\ keeps ext s0 s' /\ adding s0 s' i (done_ ++ os).
Proof.
  revert s done_. induction os as [|o os IH]; intros s done_ Hok Hk Had Hos; cbn [add_objs].
  { exists s. by rewrite app_nil_r. }
  apply Forall_cons in Hos as [(Hext & v & Hv0 & Hix) Hos].
  assert (Hv : vals (heap s) !! o = Some v) by (destruct (Hk o Hext) as [-> _]; done).
  destruct (index_add_ok s ext o v i mode false Hok Hv Hix) as (r & -> & Hok' & Hk' & Hn & Hres). cbn [mbind option_bind].
  assert (Hnone : out_obj_old r = None) by tauto. rewrite Hnone in Hok'. cbn [with_ref] in Hok'.
  assert (Hk0 : keeps ext s0 (added_to r)) by by eapply keeps_trans.
  destruct (IH (added_to r) (done_ ++ [o]) Hok' Hk0) as (s' & E & H1 & H2 & H3); [|done|].
  { by apply (adding_step s0 s ext i done_ o v). }
  exists s'. rewrite <-app_assoc in H3. done.
Qed.

Lemma sync_handle_ok s ext i mode os :
  index_ok s ext ->
  Forall (fun o => (0 < ext o)%nat /\ exists v, vals (heap s) !! o = Some v /\ indexable v) os ->
  exists s', sync_handle i mode os s = Some s' /\ index_ok s' ext /\ keeps ext s s' /\
    (forall e h o v, tracked s' e i h o v -> exists p, p ∈ os /\ same_keys s i (boxed o v) p) /\
    (forall p v, p ∈ os -> vals (heap s) !! p = Some v -> is_Some (part_key i (boxed p v)) ->
       exists e h o w, tracked s' e i h o w /\ part_key i (boxed o w) = part_key i (boxed p v) /\ id_key i (boxed o w) = id_key i (boxed p v)) /\
    (forall e j h o v, j <> i -> tracked s' e j h o v <-> tracked s e j h o v).
Proof.
  intros Hok Hos. unfold sync_handle.
  destruct (dirty_set_idx_ok s ext i Hok) as (s1 & es & -> & Hok1 & [M1 M2 M3 M4 M5] & Hes). cbn [mbind option_bind].
  assert (Had : adding s s1 i []).
  { split.
    - intros e h o v Ht%M2. split; [|intros (p & Hp & _); by apply elem_of_nil in Hp]. rewrite M5.
      rewrite bool_decide_eq_true_2 by (apply Hes; eauto). destruct (dirty_of s e); by cbn.
    - intros p v Hp. by apply elem_of_nil in Hp.
    - intros e j h o v _. by rewrite M2. }
  destruct (add_objs_ok i mode os s s1 ext [] Hok1 ltac:(by apply keeps_heap) Had Hos) as (s2 & -> & Hok2 & Hk2 & [Hc Hp Ho]).
  cbn [mbind option_bind]. unfold nm_dedup_multi_index_dirty_remove_idx.
  destruct (remove_idx_entry_ok s2 ext i false false Hok2) as (s3 & es3 & -> & Hok3 & Hk3 & [T _ _ _] & _ & Hes3). cbn [mbind option_bind].
  assert (Hgone : forall e h o v, tracked s2 e i h o v -> doomed s2 false e = true <-> dirty_of s2 e <> Some false).
  { intros e h o v (en & _ & He & _). unfold doomed, dirty_of. rewrite He. cbn. rewrite bool_decide_eq_true. by destruct (en_dirty en). }
  exists s3. split_and!; [done|done|by eapply keeps_trans| | |].
  - intros e h o v [Ht Hn]%T. apply (Hc e h o v Ht). destruct (decide (dirty_of s2 e = Some false)) as [|Hd]; [done|].
    exfalso. apply Hn. split; [apply Hes3; eauto|by apply (Hgone e h o v)].
  - intros p v Hin Hv Hs. destruct (Hp p v Hin Hv Hs) as (e & h & o & w & Ht & E1 & E2). exists e, h, o, w. split; [|done].
    apply T. split; [done|]. intros [_ Hd]. apply (Hgone e h o w Ht) in Hd. apply Hd, (Hc e h o w Ht). exists p. split; [done|].
    exists v. done.
  - intros e j h o v Hj. rewrite T, <-Ho by done. split; [tauto|]. intros Ht. split; [done|]. intros [Hin _].
    apply Hes3 in Hin as (h2 & o2 & v2 & Ht2). by destruct (tracked_fun _ _ _ _ _ _ _ _ _ _ Ht Ht2) as (? & _).
Qed.

(** ** Any use *)

(** What the users of an index do: they create, reference and release objects, add
    objects to handles and remove them, and mark and sweep. *)
Inductive UserOp :=
| NewObject (v : A)
| RefObject (o : positive)
| UnrefObject (o : positive)
| AddObject (i : I) (o : positive) (mode : NMDedupMultiIdxMode) (want_old : bool)
| RemoveObject (i : I) (o : positive) (want_obj : bool)
| RemoveHead (i : I) (o : positive)
| RemoveHandle (i : I)
| DirtySetHandle (i : I)
| DirtyRemoveHandle (i : I) (mark_survivors_dirty : bool).

Definition sub_use (o : positive) ext : positive -> nat := fun p => if decide (p = o) then pred (ext p) else ext p.

(** They hold references of the objects they name. *)
Definition allowed s ext (op : UserOp) : Prop :=
  match op with
  | NewObject v => obj_ok (vals (heap s)) v /\ forall c, obj_holds v = Some c -> (0 < ext c)%nat
  | RefObject o | UnrefObject o | RemoveObject _ o _ | RemoveHead _ o => (0 < ext o)%nat
  | AddObject _ o _ _ => (0 < ext o)%nat /\ forall v, vals (heap s) !! o = Some v -> indexable v
  | RemoveHandle _ | DirtySetHandle _ | DirtyRemoveHandle _ _ => True
  end.

(** The index and the references of its users afterwards. *)
Definition use s ext (op : UserOp) : option (NMDedupMultiIndex I A * (positive -> nat)) :=
  match op with
  | NewObject v =>
      let '(o, hp) := obj_new v (heap s) in
      Some (with_heap hp s, add_use o (match obj_holds v with Some c => sub_use c ext | None => ext end))
  | RefObject o => hp ← nm_dedup_multi_obj_ref o (heap s); Some (with_heap hp s, add_use o ext)
  | UnrefObject o => hp ← nm_dedup_multi_obj_unref o (heap s); Some (with_heap hp s, sub_use o ext)
  | AddObject i o mode want_old =>
      r ← nm_dedup_multi_index_add s i o mode want_old; Some (added_to r, with_ref (out_obj_old r) ext)
  | RemoveObject i o want_obj =>
      x ← obj_at s o;
      '(_, out_obj, s) ← nm_dedup_multi_index_remove_obj s i x want_obj; Some (s, with_ref out_obj ext)
  | RemoveHead i o => '(_, s) ← nm_dedup_multi_index_remove_head s i (obj_at s o); Some (s, ext)
  | RemoveHandle i => '(_, s) ← nm_dedup_multi_index_remove_idx s i; Some (s, ext)
  | DirtySetHandle i => s ← nm_dedup_multi_index_dirty_set_idx s i; Some (s, ext)
  | DirtyRemoveHandle i mark => '(_, s) ← nm_dedup_multi_index_dirty_remove_idx s i mark; Some (s, ext)
  end.

Inductive used : NMDedupMultiIndex I A -> (positive -> nat) -> Prop :=
| used_new : used (nm_dedup_multi_index_new {| objs := ∅; idx_objs := ∅ |}) (fun _ => 0%nat)
| used_op s ext op s' ext' : used s ext -> allowed s ext op -> use s ext op = Some (s', ext') -> used s' ext'.

Lemma held_val s ext o : index_ok s ext -> (0 < ext o)%nat -> exists v, vals (heap s) !! o = Some v.
Proof.
  intros Hok Hx. destruct (heap_used _ _ o (ix_heap _ _ Hok)) as [ob Hob]; [unfold uses; lia|].
  exists (ob_val ob). apply vals_Some. eauto.
Qed.

Lemma sub_add_use o ext p : (0 < ext o)%nat -> add_use o (sub_use o ext) p = ext p.
Proof. intros Hx. unfold add_use, sub_use. destruct (decide (p = o)) as [->|]; lia. Qed.

Lemma new_index_ok hp : heap_ok hp (fun _ => 0%nat) -> idx_objs hp = ∅ -> index_ok (I := I) (nm_dedup_multi_index_new hp) (fun _ => 0%nat).
Proof.
  intros Hhp Hp. assert (Ht : forall e i h o v, ~ tracked (I := I) (nm_dedup_multi_index_new hp) e i h o v).
  { intros e i h o v (en & _ & He & _). done. }
  split; try done.
  - eapply heap_ok_ext; [|destruct hp; cbn in Hp; subst; exact Hhp]. intros o. done.
  - intros i. constructor.
  - intros i h Hin. by apply elem_of_nil in Hin.
  - intros e i h o v H1. by apply Ht in H1.
  - intros e1 e2 i h1 h2 o1 o2 v1 v2 H1. by apply Ht in H1.
  - intros e1 e2 i h1 h2 o1 o2 v1 v2 H1. by apply Ht in H1.
Qed.

Lemma new_object_ok s ext v :
  index_ok s ext -> obj_ok (vals (heap s)) v -> (forall c, obj_holds v = Some c -> (0 < ext c)%nat) ->
  let '(o, hp) := obj_new v (heap s) in
  objs (heap s) !! o = None /\ vals hp = <[o := v]> (vals (heap s)) /\ idx_objs hp = idx_objs (heap s) /\
  index_ok (with_heap hp s) (add_use o (match obj_holds v with Some c => sub_use c ext | None => ext end)) /\
  (forall e i h o v, tracked s e i h o v <-> tracked (with_heap hp s) e i h o v).
Proof.
  intros Hok Hv Hc. set (ext' := match obj_holds v with Some c => sub_use c ext | None => ext end).
  assert (Hh : heap_ok (heap s) (hold_of v (uses s ext'))).
  { eapply heap_ok_ext; [|apply (ix_heap _ _ Hok)]. intros p. unfold hold_of, ext'. destruct (obj_holds v) as [c|]; [|done].
    specialize (Hc c eq_refl). unfold uses, add_use, sub_use. destruct (decide (p = c)) as [->|]; lia. }
  pose proof (obj_new_ok v (heap s) (uses s ext') Hh Hv) as Hn. destruct (obj_new v (heap s)) as [o hp] eqn:E. cbn [fst snd] in Hn.
  destruct Hn as (Hf & Hhp & Hvals & Hpool & _).
  assert (Hk : keeps_objects s (with_heap hp s)).
  { intros e en He. cbn [heap with_heap]. rewrite Hvals, Hpool. split; [|by apply (ix_pool _ _ Hok e)].
    destruct (entry_pool_val _ _ _ _ Hok He) as [w Hw]. rewrite lookup_insert_ne; [done|]. intros E2.
    rewrite <-E2, vals_lookup, Hf in Hw. done. }
  destruct (with_heap_ok s ext (add_use o ext') hp Hok) as [Hok' Ht]; [|done|done].
  eapply heap_ok_ext; [|exact Hhp]. intros p. symmetry. apply uses_add.
Qed.

Lemma use_ok s ext op :
  index_ok s ext -> allowed s ext op -> exists s' ext', use s ext op = Some (s', ext') /\ index_ok s' ext'.
Proof.
  intros Hok. destruct op as [v|o|o|i o mode want|i o want|i o|i|i|i mark]; cbn [allowed use]; intros Ha.
  - destruct Ha as [Hv Hc]. pose proof (new_object_ok s ext v Hok Hv Hc) as Hn. destruct (obj_new v (heap s)) as [o hp].
    destruct Hn as (_ & _ & _ & Hok' & _). eauto.
  - destruct (held_val _ _ _ Hok Ha) as [v (ob & Hob & _)%vals_Some].
    destruct (ref_ok s ext o ob Hok Hob) as (hp & -> & Hok' & _). cbn. eauto.
  - destruct (unref_ok s (sub_use o ext) o) as (hp & -> & Hok' & _); [|cbn; eauto].
    eapply index_ok_ext; [|exact Hok]. intros p. symmetry. by apply sub_add_use.
  - destruct Ha as [Hx Hix]. destruct (held_val _ _ _ Hok Hx) as [v Hv].
    destruct (index_add_ok s ext o v i mode want Hok Hv (Hix v Hv)) as (r & -> & Hok' & _). cbn. eauto.
  - destruct (held_val _ _ _ Hok Ha) as [v Hv]. unfold obj_at. rewrite Hv. cbn [mbind option_bind].
    unfold nm_dedup_multi_index_remove_obj, nm_dedup_multi_index_lookup_obj.
    destruct (_entry_lookup_obj s i (boxed o v)) as [e|] eqn:El; [|cbn; eauto].
    apply (lookup_obj_spec s ext) in El as (h & o2 & v2 & Ht & _); [|done|by apply (needle_boxed s ext)].
    pose proof Ht as (en & _ & He & Eo & _ & _ & _ & Hv2). rewrite He. cbn [mbind option_bind]. rewrite Eo. destruct want.
    + apply vals_Some in Hv2 as (ob & Hob & _). destruct (ref_ok s ext o2 ob Hok Hob) as (hp & -> & Hok1 & _ & _ & Ht1). cbn [mbind option_bind].
      destruct (remove_entry_ok (with_heap hp s) _ e i h o2 v2 Hok1) as (s' & -> & Hok' & _); [by apply Ht1|]. cbn. eauto.
    + cbn [mbind option_bind].
      assert (with_heap (heap s) s = s) as -> by by destruct s.
      destruct (remove_entry_ok s ext e i h o2 v2 Hok Ht) as (s' & -> & Hok' & _). cbn. eauto.
  - destruct (held_val _ _ _ Hok Ha) as [v Hv]. unfold nm_dedup_multi_index_remove_head, nm_dedup_multi_index_lookup_head, obj_at.
    rewrite Hv. cbn [mbind option_bind]. destruct (_entry_lookup_head s i (Some (boxed o v))) as [h|] eqn:El; [|cbn; eauto].
    apply (lookup_head_spec s ext) in El as (e & o2 & v2 & Ht & _); [|done|by apply (needle_boxed s ext)].
    destruct (tracked_lst _ _ _ _ _ _ _ Hok Ht) as (l & Hl & _).
    destruct (remove_head_ok s ext h l true false (fun _ => true) Hok Hl) as (s' & -> & Hok' & _); [done|]. cbn. eauto.
  - unfold nm_dedup_multi_index_remove_idx. destruct (remove_idx_entry_ok s ext i true false Hok) as (s' & es & -> & Hok' & _). cbn. eauto.
  - destruct (dirty_set_idx_ok s ext i Hok) as (s' & es & -> & Hok' & _). cbn. eauto.
  - unfold nm_dedup_multi_index_dirty_remove_idx. destruct (remove_idx_entry_ok s ext i false mark Hok) as (s' & es & -> & Hok' & _). cbn. eauto.
Qed.

Lemma used_ok s ext : used s ext -> index_ok s ext.
Proof.
  induction 1 as [|s ext op s' ext' _ IH Ha E].
  - apply new_index_ok; [|done]. split; try done.
    intros o. split; [by intros ?%elem_of_empty|by intros (? & ? & _)].
  - destruct (use_ok _ _ _ IH Ha) as (s2 & ext2 & E2 & Hok). congruence.
Qed.

(** ** The end of an index *)

Lemma swept_entries s s' ext ext' es gone mark :
  index_ok s ext -> index_ok s' ext' -> swept s s' es gone mark ->
  dom (entries s') = dom (entries s) ∖ list_to_set (List.filter gone es).
Proof.
  intros Hok Hok' Hsw. apply set_eq. intros e. rewrite elem_of_difference, elem_of_list_to_set, elem_of_filter_b, !elem_of_dom.
  assert (Hin : forall s ext e, index_ok s ext -> is_Some (entries s !! e) <-> exists i h o v, tracked s e i h o v).
  { intros s0 ext0 e0 Hok0. split; [|intros (? & ? & ? & ? & en & _ & He & _); eauto].
    intros [en He]. destruct (entry_tracked _ _ _ _ Hok0 He) as (hd & v & _ & _ & Ht). eauto. }
  rewrite (Hin s' ext' e Hok'), (Hin s ext e Hok). split.
  - intros (i & h & o & v & Ht). apply (sw_tracked _ _ _ _ _ Hsw) in Ht as [Ht Hn]. split; [eauto|tauto].
  - intros [(i & h & o & v & Ht) Hn]. exists i, h, o, v. apply (sw_tracked _ _ _ _ _ Hsw). split; [done|tauto].
Qed.

Lemma remove_everything_ok fuel s ext :
  index_ok s ext -> (size (entries s) <= fuel)%nat ->
  exists s', remove_everything fuel s = Some s' /\ index_ok s' ext /\ keeps ext s s' /\ entries s' = ∅.
Proof.
  revert s. induction fuel as [|fuel IH]; intros s Hok Hf; cbn [remove_everything].
  - assert (He : entries s = ∅) by (apply map_size_empty_inv; lia). rewrite He, map_to_list_empty. exists s. by split_and!; [..|apply keeps_refl|].
  - destruct (map_to_list (entries s)) as [|[e en] l] eqn:El.
    { apply map_to_list_empty_iff in El. exists s. by split_and!; [..|apply keeps_refl|]. }
    assert (He : entries s !! e = Some en) by (apply elem_of_map_to_list; rewrite El; apply list_elem_of_here).
    destruct (entry_tracked _ _ _ _ Hok He) as (hd & v & Hhd & _ & Ht). rewrite Hhd. cbn [mbind option_bind].
    destruct (remove_idx_entry_ok s ext (he_idx_type hd) true false Hok) as (s1 & es & -> & Hok1 & Hk1 & Hsw & _ & Hes). cbn [mbind option_bind].
    destruct (IH s1 Hok1) as (s' & E & Hok' & Hk' & Hempty); [|exists s'; split_and!; try done; by eapply keeps_trans].
    pose proof (swept_entries _ _ _ _ _ _ _ Hok Hok1 Hsw) as Hdom.
    assert (size (dom (entries s1)) < size (dom (entries s)))%nat as Hlt; [|rewrite !size_dom in Hlt; lia].
    apply subset_size. rewrite Hdom. split; [set_solver|]. intros Hsub. apply elem_of_dom_2 in He.
    specialize (Hsub e He). apply elem_of_difference in Hsub as [_ Hn]. apply Hn, elem_of_list_to_set, elem_of_filter_b.
    split; [done|]. apply Hes. eauto.
Qed.

Lemma clear_multi_idx (os : list positive) (m : gmap positive (NMDedupMultiObj A)) o :
  foldr (alter (set_multi_idx false)) m os !! o = (fun ob => if bool_decide (o ∈ os) then set_multi_idx false ob else ob) <$> m !! o.
Proof.
  induction os as [|p os IH]; cbn.
  - rewrite bool_decide_eq_false_2 by apply not_elem_of_nil. by destruct (m !! o).
  - destruct (decide (o = p)) as [->|Hne].
    + rewrite lookup_alter_eq, IH, (bool_decide_eq_true_2 (p ∈ p :: os)) by apply list_elem_of_here. destruct (m !! p); [|done]. cbn.
      by destruct (bool_decide _).
    + rewrite lookup_alter_ne, IH by done. destruct (m !! o); [|done]. cbn.
      by rewrite (bool_decide_ext (o ∈ p :: os) (o ∈ os)) by (rewrite elem_of_cons; tauto).
Qed.

Lemma index_unref_ok s ext :
  index_ok s ext ->
  exists hp, nm_dedup_multi_index_unref s = Some hp /\ heap_ok hp ext /\ idx_objs hp = ∅ /\
    (forall o, (0 < ext o)%nat -> vals hp !! o = vals (heap s) !! o).
Proof.
  intros Hok. unfold nm_dedup_multi_index_unref.
  destruct (remove_everything_ok (size (entries s)) s ext Hok (le_n _)) as (s' & -> & Hok' & Hk & Hempty). cbn [mbind option_bind].
  set (hp := {| objs := foldr (alter (set_multi_idx false)) (objs (heap s')) (elements (idx_objs (heap s'))); idx_objs := ∅ |} : Heap A).
  assert (Hobjs : forall o, objs hp !! o
            = (fun ob => if bool_decide (o ∈ elements (idx_objs (heap s'))) then set_multi_idx false ob else ob) <$> objs (heap s') !! o)
    by (intros o; apply clear_multi_idx).
  assert (Hvals : vals hp = vals (heap s')).
  { apply map_eq. intros o. rewrite !vals_lookup, Hobjs. destruct (objs (heap s') !! o); [|done]. cbn. by destruct (bool_decide _). }
  pose proof (ix_heap _ _ Hok') as Hh.
  exists hp. split_and!; [done| |done|intros o Ho; rewrite Hvals; by apply Hk]. split; rewrite ?Hvals.
  - intros o ob. rewrite Hobjs. intros (ob' & Ho & ->)%fmap_Some.
    pose proof (ho_count _ _ Hh _ _ Ho) as Hc. unfold uses in Hc. rewrite Hempty in Hc. by destruct (bool_decide _).
  - intros o. rewrite Hobjs. intros Ho%fmap_None. pose proof (ho_free _ _ Hh o Ho) as Hf. unfold uses in Hf. lia.
  - apply (ho_val _ _ Hh).
  - intros o. split; [by intros ?%elem_of_empty|]. intros (ob & Ho & Hm). rewrite Hobjs in Ho. apply fmap_Some in Ho as (ob' & Ho & ->).
    case_bool_decide as Hin; [done|]. destruct Hin. apply elem_of_elements, (ho_pool _ _ Hh). eauto.
  - intros o p v w Ho. by apply elem_of_empty in Ho.
Qed.

(** ** Properties *)

(** C11: Whatever the users of an index do with the references they hold, no operation
    uses memory that is gone; the object of every entry exists and is in the pool;
    every object has exactly the references of the entries, of other objects and of
    the users; no two objects of the pool of one class are equal and have the same
    full hash (two that are equal but hash differently, as IPv6 addresses may, can
    both be there); and in each handle no two entries of a partition have the same
    identity. *)
Theorem dedup_index_safe s ext :
  used s ext ->
  (forall op, allowed s ext op -> is_Some (use s ext op)) /\
  (forall e en, entries s !! e = Some en -> exists ob, objs (heap s) !! en_obj en = Some ob /\ _multi_idx ob = true) /\
  (forall o ob, objs (heap s) !! o = Some ob ->
     _ref_count ob = Z.of_nat (holders (vals (heap s)) o + (entry_uses (entries s) o + ext o)) /\ 0 < _ref_count ob) /\
  (forall o p v w, o ∈ idx_objs (heap s) -> p ∈ idx_objs (heap s) ->
     vals (heap s) !! o = Some v -> vals (heap s) !! p = Some w -> obj_klass v = obj_klass w ->
     obj_full_hash (boxed o v) = obj_full_hash (boxed p w) -> obj_full_equal (boxed o v) (boxed p w) = true -> o = p) /\
  (forall e1 e2 i h1 h2 o1 o2 v1 v2, tracked s e1 i h1 o1 v1 -> tracked s e2 i h2 o2 v2 ->
     part_key i (boxed o1 v1) = part_key i (boxed o2 v2) -> id_key i (boxed o1 v1) = id_key i (boxed o2 v2) -> e1 = e2).
Proof.
  intros Hu. apply used_ok in Hu as Hok. pose proof (ix_heap _ _ Hok) as Hh. split_and!.
  - intros op Ha. destruct (use_ok s ext op Hok Ha) as (s' & ext' & -> & _). eauto.
  - intros e en He. apply (ho_pool _ _ Hh). by apply (ix_pool _ _ Hok e).
  - apply (ho_count _ _ Hh).
  - intros o p v w Ho Hp Hv Hw Hk Hhash He. apply (full_equal_key (vals (heap s))) in He; [|done|done|by apply (ho_val _ _ Hh o)|by apply (ho_val _ _ Hh p)].
    exact (ho_unique _ _ Hh _ _ _ _ Ho Hp Hv Hw Hk Hhash He).
  - intros e1 e2 i h1 h2 o1 o2 v1 v2. apply (ix_unique _ _ Hok).
Qed.

(** C14: Marking the entries of a handle, adding objects, and removing what is still
    marked synchronizes the handle: it has an entry for the identity of each object
    that it can hold, and no others; other handles keep their entries, and users
    what they hold. *)
Theorem dedup_mark_sweep s ext i mode os :
  used s ext ->
  Forall (fun o => (0 < ext o)%nat /\ exists v, vals (heap s) !! o = Some v /\ indexable v) os ->
  exists s', sync_handle i mode os s = Some s' /\
    (forall e h o v, tracked s' e i h o v -> exists p, p ∈ os /\ same_keys s i (boxed o v) p) /\
    (forall p v, p ∈ os -> vals (heap s) !! p = Some v -> is_Some (part_key i (boxed p v)) ->
       exists e h o w, tracked s' e i h o w /\ part_key i (boxed o w) = part_key i (boxed p v) /\ id_key i (boxed o w) = id_key i (boxed p v)) /\
    (forall e j h o v, j <> i -> tracked s' e j h o v <-> tracked s e j h o v) /\
    keeps ext s s'.
Proof.
  intros Hu Hos. destruct (sync_handle_ok s ext i mode os (used_ok s ext Hu) Hos) as (s' & E & _ & Hk & H1 & H2 & H3).
  exists s'. by split_and!.
Qed.

(** When an index goes, its entries go handle by handle (the loop over the hash
    table ends), and what is left are the objects of its users, with their
    references, in no index. *)
Theorem dedup_index_end s ext :
  used s ext ->
  exists hp, nm_dedup_multi_index_unref s = Some hp /\ idx_objs hp = ∅ /\
    (forall o ob, objs hp !! o = Some ob -> _ref_count ob = Z.of_nat (holders (vals hp) o + ext o) /\ _multi_idx ob = false) /\
    (forall o, (0 < ext o)%nat -> is_Some (vals hp !! o) /\ vals hp !! o = vals (heap s) !! o).
Proof.
  intros Hu. apply used_ok in Hu as Hok. destruct (index_unref_ok s ext Hok) as (hp & E & Hhp & Hpool & Hv).
  exists hp. split_and!; [done|done| |].
  - intros o ob Ho. split; [by apply (ho_count _ _ Hhp)|]. destruct (_multi_idx ob) eqn:Em; [|done].
    assert (o ∈ idx_objs hp) as Hin by (apply (ho_pool _ _ Hhp); eauto). rewrite Hpool in Hin. by apply elem_of_empty in Hin.
  - intros o Ho. split; [|by apply Hv]. rewrite Hv by done. destruct (held_val s ext o Hok Ho) as [v ->]. eauto.
Qed.
End spec.

(** ** Samples *)

(** Objects with an identity and a payload, by the parity of the identity or in one list. *)
#[local] Instance sample_obj_class : NMDedupMultiObjClass (Z * Z) := {
  obj_klass _ := 0; obj_needs_clone _ := false; obj_full_hash x := (at_obj x).1;
  obj_full_equal x y := bool_decide (at_obj x = at_obj y); obj_holds _ := None; obj_rank _ := 0%nat
}.

#[local, refine] Instance sample_obj_laws : DedupObjLaws (Z * Z) := {
  full_key x := KL [KZ (at_obj x).1; KZ (at_obj x).2]; obj_ok _ _ := True
}.
Proof.
  - done.
  - done.
  - intros m p q [a b] [c d] _ _ _ _. cbn. rewrite bool_decide_eq_true. split; congruence.
  - done.
Defined.

#[local] Instance sample_idx_class : NMDedupMultiIdxTypeClass bool (Z * Z) := {
  idx_obj_id_equal _ x y := (at_obj x).1 =? (at_obj y).1;
  idx_obj_partitionable i := if i then Some (fun x => 0 <? (at_obj x).1) else None;
  idx_obj_partition_equal i :=
    if i then Some (fun x y => (0 <? (at_obj x).1) && (0 <? (at_obj y).1) && ((at_obj x).1 mod 2 =? (at_obj y).1 mod 2)) else None
}.

#[local, refine] Instance sample_idx_laws : DedupIdxLaws bool (Z * Z) := {
  part_key i x := if i then if 0 <? (at_obj x).1 then Some (KZ ((at_obj x).1 mod 2)) else None else Some (KL []);
  id_key _ x := KZ (at_obj x).1;
  indexable _ := True
}.
Proof.
  - intros [] x; cbn; [destruct (0 <? (at_obj x).1)|]; split; try done; try (intros _; eauto); intros [? [=]].
  - by intros [].
  - intros [] f m o v y; cbn; [|done]. intros [= <-] _ _ _ _. cbn.
    destruct (0 <? v.1), (0 <? (at_obj y).1); cbn; try (split; [done|by intros (? & ? & ?)]).
    rewrite Z.eqb_eq. split; [intros ->; eauto|intros (k & E1 & E2); congruence].
  - intros i m o v y _ _ _ _. cbn. rewrite Z.eqb_eq. split; congruence.
  - intros i x y _ [E|[_ E]]; cbn in *; [by rewrite E|]. assert ((at_obj x).1 = (at_obj y).1) as -> by congruence. done.
Defined.

Definition sample_index : NMDedupMultiIndex bool (Z * Z) := nm_dedup_multi_index_new {| objs := ∅; idx_objs := ∅ |}.

Definition sample_use (ops : list (UserOp (I := bool) (A := Z * Z))) : NMDedupMultiIndex bool (Z * Z) * (positive -> nat) :=
  foldl (fun x op => default x (use x.1 x.2 op)) (sample_index, fun _ => 0%nat) ops.

(** Two objects; the first one is in both handles. *)
Definition sample_ops : list (UserOp (I := bool) (A := Z * Z)) :=
  [NewObject (1, 5); NewObject (2, 7); AddObject true 1 NM_DEDUP_MULTI_IDX_MODE_APPEND false;
   AddObject false 1 NM_DEDUP_MULTI_IDX_MODE_APPEND false].

Lemma sample_step x op : used x.1 x.2 -> allowed x.1 x.2 op -> used (default x (use x.1 x.2 op)).1 (default x (use x.1 x.2 op)).2.
Proof. intros Hu Ha. destruct (use x.1 x.2 op) as [[s' ext']|] eqn:E; [by eapply used_op|done]. Qed.

Lemma sample_used : used (sample_use sample_ops).1 (sample_use sample_ops).2.
Proof.
  unfold sample_use, sample_ops. cbn [foldl].
  do 4 (apply sample_step; [|split; vm_compute; auto with arith; done]). apply used_new.
Qed.

Lemma dedup_index_safe_witness :
  is_Some (use (sample_use sample_ops).1 (sample_use sample_ops).2 (UnrefObject 1%positive)).
Proof.
  apply (dedup_index_safe (sample_use sample_ops).1 (sample_use sample_ops).2 sample_used).
  vm_compute. auto with arith.
Defined.

(** The handle of parities is synchronized with the second object. *)
Lemma dedup_mark_sweep_witness :
  exists s', sync_handle true NM_DEDUP_MULTI_IDX_MODE_APPEND [2%positive] (sample_use sample_ops).1 = Some s' /\
    forall e h o v, tracked s' e true h o v -> exists p, p ∈ [2%positive] /\ same_keys (sample_use sample_ops).1 true (boxed o v) p.
Proof.
  destruct (dedup_mark_sweep (sample_use sample_ops).1 (sample_use sample_ops).2 true NM_DEDUP_MULTI_IDX_MODE_APPEND [2%positive]
              sample_used) as (s' & E & Ht & _).
  - repeat constructor. exists (2, 7). vm_compute. by split.
  - exists s'. split; [exact E|exact Ht].
Defined.

Lemma dedup_index_end_witness :
  exists hp, nm_dedup_multi_index_unref (sample_use sample_ops).1 = Some hp /\ idx_objs hp = ∅.
Proof.
  destruct (dedup_index_end (sample_use sample_ops).1 (sample_use sample_ops).2 sample_used) as (hp & E & Hp & _).
  exists hp. split; [exact E|exact Hp].
Defined.

(** The length of a handle is not decremented for the last entry of a head: an object
    that is added and removed leaves it at one. *)
Example idx_type_len_leaks :
  let s := (sample_use [NewObject (1, 5); AddObject true 1 NM_DEDUP_MULTI_IDX_MODE_APPEND false; RemoveObject true 1 false]).1 in
  map_to_list (entries s) = [] /\ lst_idx_head (idx_types s true) = [] /\ it_len (idx_types s true) = 1.
Proof. vm_compute. auto. Qed.
