(* ===== verification/CacheObj.v ===== *)
(** * Objects of the platform cache in the multi-index

    The classes of src/platform/nmp-object.c as seen by NMDedupMultiIndex
    (DEDUP_MULTI_OBJ_CLASS_INIT and _dedup_multi_idx_type_class): an object is
    compared in full by nmp_object_equal (), by identity by nmp_object_id_equal (),
    and divided by _idx_obj_part ().  A link holds a reference of its link data.
    Objects that are not yet in the pool are written in place. *)

From S2P Require Export Bytes CmpOrder IpAddr NMHash PlatformLink PlatformLnk PlatformIp PlatformRule NmpObject DedupSpec.

#[export] Instance NMPCacheIdType_eq_dec : EqDecision NMPCacheIdType.
Proof. solve_decision. Defined.

(** ** The class of objects *)

(** The objects of the memory at their addresses. *)
Definition heap_at (m : gmap positive NMPObjectData) : Z -> option NMPObjectData :=
  fun p => match p with Zpos p => m !! p | _ => None end.

Definition lnk_addr (l : NMPObjectLink) : option positive :=
  match ol_lnk l with Some lnk => match at_ptr lnk with Zpos c => Some c | _ => None end | None => None end.

#[export] Instance nmp_obj_class `{ByteOrder} `{KernelSupport} `{SipHash} : NMDedupMultiObjClass NMPObjectData := {
  obj_klass := obj_type;
  obj_needs_clone _ := false;
  obj_full_hash o := from_option (nm_hash_complete 1748638583) 0 (nmp_object_hash_update o []);
  obj_full_equal := nmp_object_equal;
  obj_holds o := match o with OBJ_LINK l => lnk_addr l | _ => None end;
  obj_rank o := match o with OBJ_LNK _ => 0%nat | _ => 1%nat end
}.

Lemma link_ok_holds m l c : NmpObject.link_ok (heap_at m) l -> lnk_addr l = Some c -> exists lnk, ol_lnk l = Some (mk_at (Zpos c) lnk) /\ m !! c = Some (OBJ_LNK lnk).
Proof.
  intros [_ Hl]. unfold lnk_addr. destruct (ol_lnk l) as [[p lnk]|]; [|done]. cbn in Hl |- *. destruct Hl as [Hl _].
  unfold stored, lnk_heap in Hl. cbn in Hl. destruct p as [|p|p]; try done. intros [= <-]. exists lnk. split; [done|].
  cbn in Hl. destruct (m !! p) as [[]|]; congruence.
Qed.

Lemma link_ok_lnk m m' l : (forall c, lnk_addr l = Some c -> m' !! c = m !! c) -> NmpObject.link_ok (heap_at m) l -> NmpObject.link_ok (heap_at m') l.
Proof.
  unfold NmpObject.link_ok, lnk_addr. intros Hm [Hd Hl]. split; [done|]. destruct (ol_lnk l) as [[p lnk]|]; [|done]. cbn in *.
  destruct Hl as [Hl ?]. split; [|done]. revert Hl. unfold stored, lnk_heap. cbn. destruct p as [|p|p]; try done. cbn.
  by rewrite (Hm p).
Qed.

(** A rule with an address family, and any other object, has a key that does not
    depend on its address. *)
Lemma object_key_moved `{ByteOrder} `{KernelSupport} p q r (v w : NMPObjectData) :
  p <> r -> object_key (mk_at p v) = object_key (mk_at r w) ->
  object_key (mk_at q v) = object_key (mk_at p v) /\ nmp_object_hash_update (mk_at q v) [] = nmp_object_hash_update (mk_at p v) [].
Proof.
  intros Hne E. destruct v as [| | | | |rule| | |]; try (by split). unfold object_key in E. cbn in E.
  destruct w as [| | | | |rule'| | |lnk]; try discriminate E; try (destruct lnk; discriminate E). unfold object_key. cbn [at_obj obj_type].
  unfold routing_rule_key in *. unfold nmp_object_hash_update, nm_platform_routing_rule_hash_update. cbn [at_obj plobj obj_type].
  destruct (af_valid (rr_addr_family rule)) eqn:Ev; [by split|]. exfalso. cbn [at_obj plobj] in E. rewrite Ev in E.
  destruct (af_valid (rr_addr_family rule')); [discriminate E|]. injection E. lia.
Qed.

#[export, refine] Instance nmp_obj_laws `{ByteOrder} `{KernelSupport} `{SipHash} : DedupObjLaws NMPObjectData := {
  full_key := object_key;
  obj_ok m v := data_ok (heap_at m) v
}.
Proof.
  - intros m [l| | | | | | | |] c Hok; cbn; try done. intros Hc. destruct (link_ok_holds _ _ _ Hok Hc) as (lnk & _ & Hm).
    exists (OBJ_LNK lnk). split; [done|lia].
  - intros m m' [l| | | | | | | |] Hok Hm; try done. cbn in *. by apply (link_ok_lnk m).
  - intros m p q v w Hp Hq Hv Hw. cbn. unfold nmp_object_equal. rewrite Z.eqb_eq.
    apply (cmp_key_zero (D := object_ok (heap_at m))); by split.
  - intros p q r v w Hne E. destruct (object_key_moved (Zpos p) (Zpos q) (Zpos r) v w) as [Ek Eh]; [congruence|done|].
    unfold boxed in *. cbn. rewrite Ek, Eh. by split.
Defined.

(** ** The class of handles *)

#[export] Instance nmp_idx_class `{ByteOrder} `{KernelSupport} : NMDedupMultiIdxTypeClass NMPCacheIdType NMPObjectData := {
  idx_obj_id_equal _ := nmp_object_id_equal;
  idx_obj_partitionable t := Some (_idx_obj_partitionable t);
  idx_obj_partition_equal t := Some (_idx_obj_partition_equal t)
}.

(** Objects that may be in the cache: not link data, and rules of a known family. *)
Definition cacheable (o : NMPObjectData) : Prop :=
  match o with OBJ_LNK _ => False | OBJ_ROUTING_RULE r => af_valid (rr_addr_family r) = true | _ => True end.

(** Equal objects are in the same partitions. *)
Lemma object_key_part `{ByteOrder} `{KernelSupport} t x y :
  cacheable (at_obj x) -> object_key x = object_key y -> NmpObject.part_key t x = NmpObject.part_key t y.
Proof.
  intros Hc E. unfold object_key in E.
  assert (Et : obj_type (at_obj x) = obj_type (at_obj y)) by congruence. apply (f_equal (fun k => match k with KL l => l | _ => [] end)) in E.
  assert (Ek := f_equal (fun l => nth 1 l (KZ 0)) E). cbn [nth] in Ek. clear E. unfold NmpObject.part_key.
  destruct x as [p x], y as [q y]. cbn [at_obj] in *.
  destruct x as [lx|ax|ax|rx|rx|rx|qx|fx|lx], y as [ly|ay|ay|ry|ry|ry|qy|fy|ly]; try discriminate Et;
    try (destruct lx; discriminate Et); try (destruct ly; discriminate Et); [..|done].
  - unfold object_link_key, link_key in Ek. destruct t; try done. congruence.
  - unfold ip4_address_key in Ek. destruct t; try done. cbn. unfold nmp_object_is_visible, nmp_object_is_alive. cbn.
    assert (ax_ifindex (a4_ax ax) = ax_ifindex (a4_ax ay)) as -> by congruence. done.
  - unfold ip6_address_key in Ek. destruct t; try done. cbn. unfold nmp_object_is_visible, nmp_object_is_alive. cbn.
    assert (ax_ifindex (a6_ax ax) = ax_ifindex (a6_ax ay)) as -> by congruence. done.
  - assert (ip4_route_key NM_PLATFORM_IP_ROUTE_CMP_TYPE_WEAK_ID rx = ip4_route_key NM_PLATFORM_IP_ROUTE_CMP_TYPE_WEAK_ID ry) as Ew
      by by apply ip4_chain, ip4_chain, ip4_chain.
    assert (rx_ifindex (r4_rx rx) = rx_ifindex (r4_rx ry) /\ rx_plen (r4_rx rx) = rx_plen (r4_rx ry) /\
            rx_r_rtm_flags (r4_rx rx) = rx_r_rtm_flags (r4_rx ry)) as (E1 & E2 & E3)
      by (unfold ip4_route_key in Ek; split_and!; congruence).
    destruct t; try done; cbn -[ip4_route_key]; unfold nmp_object_is_visible, nmp_object_is_alive, ipx_route_alive; cbn -[ip4_route_key];
      rewrite ?E1, ?E2, ?E3, ?Ew; done.
  - assert (ip6_route_key NM_PLATFORM_IP_ROUTE_CMP_TYPE_WEAK_ID rx = ip6_route_key NM_PLATFORM_IP_ROUTE_CMP_TYPE_WEAK_ID ry) as Ew
      by by apply ip6_chain, ip6_chain, ip6_chain.
    assert (rx_ifindex (r6_rx rx) = rx_ifindex (r6_rx ry) /\ rx_plen (r6_rx rx) = rx_plen (r6_rx ry) /\
            rx_r_rtm_flags (r6_rx rx) = rx_r_rtm_flags (r6_rx ry)) as (E1 & E2 & E3)
      by (unfold ip6_route_key in Ek; split_and!; congruence).
    destruct t; try done; cbn -[ip6_route_key]; unfold nmp_object_is_visible, nmp_object_is_alive, ipx_route_alive; cbn -[ip6_route_key];
      rewrite ?E1, ?E2, ?E3, ?Ew; done.
  - destruct t; try done. cbn in Hc. unfold routing_rule_key in Ek. cbn [at_obj plobj] in Ek. rewrite Hc in Ek.
    destruct (af_valid (rr_addr_family ry)); [|discriminate Ek]. rewrite Hc. cbn in Ek. congruence.
  - unfold qdisc_key in Ek. destruct t; try done. cbn. unfold nmp_object_is_visible, nmp_object_is_alive. cbn.
    assert (qd_ifindex qx = qd_ifindex qy) as -> by congruence. done.
  - unfold tfilter_key in Ek. destruct t; try done. cbn. unfold nmp_object_is_visible, nmp_object_is_alive. cbn.
    assert (tf_ifindex fx = tf_ifindex fy) as -> by congruence. done.
Qed.

(** A memory that also has what is looked up. *)
Lemma needle_heap `{ByteOrder} `{KernelSupport} `{SipHash} m y :
  needle_ok m y ->
  exists hp, object_ok hp y /\ forall o v, m !! o = Some v -> obj_ok m v -> object_ok hp (boxed o v).
Proof.
  intros [(o & v & -> & Ho & Hv)|[Hp Hy]]; [exists (heap_at m); by repeat split|].
  set (hp := fun p => if p =? at_ptr y then Some (at_obj y) else heap_at m p).
  assert (Hhp : forall v, data_ok (heap_at m) v -> data_ok hp v).
  { intros [l| | | | | | | |] Hv; try done. cbn in *. destruct Hv as [Hd Hl]. split; [done|].
    destruct (ol_lnk l) as [[p lnk]|]; [|done]. cbn in *. destruct Hl as [Hl ?]. split; [|done].
    revert Hl. unfold stored, lnk_heap. cbn [at_ptr at_obj]. destruct p as [|p|p]; try done. unfold hp.
    by rewrite (proj2 (Z.eqb_neq (Zpos p) (at_ptr y))) by lia. }
  exists hp. split.
  - split; [unfold stored, hp; by rewrite Z.eqb_refl|]. by apply Hhp.
  - intros o v Ho Hv. split; [|by apply Hhp]. unfold stored, hp, boxed. cbn [at_ptr at_obj].
    by rewrite (proj2 (Z.eqb_neq (Zpos o) (at_ptr y))) by lia.
Qed.

#[export, refine] Instance nmp_idx_laws `{ByteOrder} `{KernelSupport} `{SipHash} : DedupIdxLaws NMPCacheIdType NMPObjectData := {
  part_key := NmpObject.part_key;
  id_key _ := object_id_key;
  indexable := cacheable
}.
Proof.
  - intros t x. cbn. by rewrite partitionable_key, bool_decide_eq_true.
  - done.
  - intros t f m o v y [= <-] Ho Hv Hy _. destruct (needle_heap m y Hy) as (hp & Hyok & Hm).
    apply (partition_equal_key hp); auto.
  - intros t m o v y Ho Hv Hy _. destruct (needle_heap m y Hy) as (hp & Hyok & Hm). cbn.
    unfold nmp_object_id_equal. rewrite Z.eqb_eq. apply (cmp_key_zero (D := object_ok hp)); auto.
  - intros t [p x] [q y] Hc Hst. cbn in Hc, Hst. unfold stands_for in Hst. cbn in Hst.
    assert (Hkey : object_key (mk_at p x) = object_key (mk_at q y)).
    { destruct Hst as [->|[_ Hk]]; [|done]. unfold object_key. cbn [at_obj].
      destruct y; try done. unfold routing_rule_key. cbn [at_obj plobj] in *. cbn in Hc. by rewrite Hc. }
    split_and!; [symmetry; by apply object_key_part| |].
    + symmetry. apply object_key_id; [|done]. intros l El. cbn in El. by subst y.
    + unfold object_key in Hkey. cbn in Hkey |- *.
      destruct y as [| | | | |ry| | |]; try done; destruct x as [| | | | |rx| | |lx]; try done; try discriminate Hkey; try (destruct lx; discriminate Hkey).
      cbn in Hc. unfold routing_rule_key in Hkey. cbn [at_obj plobj] in Hkey. rewrite Hc in Hkey.
      cbn. destruct (af_valid (rr_addr_family rx)); [done|discriminate Hkey].
Defined.

(** ** Writing to an object *)

(** The fields of an object that is not in the pool are assigned in place. *)
Definition obj_write (o : positive) (v : NMPObjectData) (hp : Heap NMPObjectData) : Heap NMPObjectData :=
  with_objs (alter (fun ob => {| ob_val := v; _ref_count := _ref_count ob; _multi_idx := _multi_idx ob |}) o) hp.

Section write.
Context `{ByteOrder} `{KernelSupport} `{SipHash}.

(** Only link data is held by other objects. *)
Lemma not_held m o v : (forall p w, m !! p = Some w -> data_ok (heap_at m) w) -> m !! o = Some v ->
  (forall lnk, v <> OBJ_LNK lnk) -> holders m o = 0%nat.
Proof.
  intros Hm Ho Hv. apply map_count_none. intros p w Hp. apply bool_decide_eq_false. intros Hh.
  destruct w as [l| | | | | | | |]; try done. cbn in Hh. destruct (link_ok_holds m l o (Hm _ _ Hp) Hh) as (lnk & _ & Ho').
  apply (Hv lnk). congruence.
Qed.

Definition holds_of (v : NMPObjectData) (p : positive) : nat := if bool_decide (obj_holds v = Some p) then 1%nat else 0%nat.

Lemma obj_write_ok hp u u' o ob v :
  heap_ok hp u -> objs hp !! o = Some ob -> _multi_idx ob = false -> (forall lnk, ob_val ob <> OBJ_LNK lnk) ->
  data_ok (heap_at (vals hp)) v -> (forall lnk, v <> OBJ_LNK lnk) ->
  (forall p, (u p + holds_of (ob_val ob) p = u' p + holds_of v p)%nat) ->
  heap_ok (obj_write o v hp) u' /\ vals (obj_write o v hp) = <[o := v]> (vals hp) /\ idx_objs (obj_write o v hp) = idx_objs hp.
Proof.
  intros Hok Ho Hm Hl Hv Hlv Hu.
  assert (Hvo : vals hp !! o = Some (ob_val ob)) by (apply vals_Some; eauto).
  assert (Hn : forall m, <[o:=m]> (vals hp) !! o = Some m) by (intros; apply lookup_insert_eq).
  assert (Hnone := not_held _ _ _ (ho_val _ _ Hok) Hvo Hl).
  assert (Hvals : vals (obj_write o v hp) = <[o := v]> (vals hp)).
  { apply map_eq. intros p. rewrite vals_lookup. cbn. destruct (decide (p = o)) as [->|Hne].
    - by rewrite lookup_alter_eq, Ho, lookup_insert_eq.
    - by rewrite lookup_alter_ne, lookup_insert_ne, <-vals_lookup by done. }
  assert (Hvne : forall c, obj_holds v = Some c -> c <> o).
  { intros c Hc ->. destruct v as [l| | | | | | | |]; try done. cbn in Hc.
    destruct (link_ok_holds _ _ _ Hv Hc) as (lnk & _ & Ho'). apply (Hl lnk). congruence. }
  assert (Hcount : forall p, (holders (<[o:=v]> (vals hp)) p + holds_of (ob_val ob) p = holders (vals hp) p + holds_of v p)%nat).
  { intros p. unfold holders, holds_of.
    rewrite (map_count_delete (fun _ v => bool_decide (obj_holds v = Some p)) (vals hp) o _ Hvo).
    rewrite <-(insert_delete_eq (vals hp)), (map_count_insert (fun _ v => bool_decide (obj_holds v = Some p))) by apply lookup_delete_eq. lia. }
  split; [|by split]. split; rewrite ?Hvals.
  - intros p ob'. cbn. intros Hp. specialize (Hcount p). specialize (Hu p).
    assert (exists ob2, objs hp !! p = Some ob2 /\ _ref_count ob' = _ref_count ob2) as (ob2 & Hp2 & Hr).
    { destruct (decide (p = o)) as [->|Hne].
      - rewrite lookup_alter_eq, Ho in Hp. injection Hp as <-. eauto.
      - rewrite lookup_alter_ne in Hp by done. eauto. }
    pose proof (ho_count _ _ Hok _ _ Hp2). rewrite Hr. lia.
  - intros p. cbn. intros Hp%lookup_alter_None. assert (p <> o) by congruence.
    pose proof (ho_free _ _ Hok p Hp) as Hf. specialize (Hu p). unfold holds_of in Hu.
    rewrite Hf, (bool_decide_eq_false_2 (obj_holds (ob_val ob) = Some p)) in Hu by (intros Hc; destruct (holder_live _ _ _ _ _ Hok Hvo Hc); congruence). lia.
  - intros p w [[<- <-]|[Hne Hp]]%lookup_insert_Some.
    + apply (obj_ok_local (vals hp)); [done|]. intros c Hc. by rewrite lookup_insert_ne by (intros ->; by apply (Hvne c Hc)).
    + apply (obj_ok_local (vals hp)); [by apply (ho_val _ _ Hok p)|]. intros c Hc. rewrite lookup_insert_ne; [done|].
      intros ->. by apply (holders_none _ _ _ _ Hnone Hp).
  - intros p. cbn. rewrite (ho_pool _ _ Hok p). destruct (decide (p = o)) as [->|Hne].
    + rewrite lookup_alter_eq, Ho. cbn. split; intros (ob' & [= <-] & Hm'); cbn in *; congruence.
    + by rewrite lookup_alter_ne.
  - intros p q w x Hp Hq. cbn in Hp, Hq. assert (forall p, p ∈ idx_objs hp -> p <> o) as Hpo.
    { intros r (ob' & Hr & Hm')%(ho_pool _ _ Hok) ->. congruence. }
    rewrite !lookup_insert_ne by (apply not_eq_sym; by apply Hpo). by apply (ho_unique _ _ Hok).
Qed.
End write.
