(* ===== verification/NmpCache.v ===== *)
(** * NMPCache: lookups

    src/platform/nmp-object.c: the cache of the platform keeps the objects of the
    kernel in a multi-index, with a handle for each NMPCacheIdType.  The handle
    OBJECT_TYPE has all objects; the others have those that they can divide. *)

From S2P Require Export CacheObj.

Abbreviation Index := (NMDedupMultiIndex NMPCacheIdType NMPObjectData).

Record NMPCache := { multi_idx : Index; use_udev : bool }.
Definition with_idx (s : Index) (cache : NMPCache) : NMPCache := {| multi_idx := s; use_udev := use_udev cache |}.

(** What udev and the kernel (ethtool) say of a device; 0 is no device. *)
Class LinkDriver := {
  nmp_utils_udev_get_driver : Z -> option (list byte);
  nmp_utils_ethtool_get_driver_info : Z -> option (list byte)
}.

(** ** Objects on the stack *)

Definition in6_zero : in6_addr := replicate 16 x00.

Definition zero_ax (ifindex plen : Z) : NMPlatformIPAddress := {|
  ax_ifindex := ifindex; ax_addr_source := 0; ax_timestamp := 0; ax_lifetime := 0; ax_preferred := 0;
  ax_n_ifa_flags := 0; ax_plen := plen; ax_external := false |}.

Definition zero_rx (ifindex plen metric : Z) : NMPlatformIPRoute := {|
  rx_ifindex := ifindex; rx_rt_source := 0; rx_plen := plen;
  rx_lock_window := false; rx_lock_cwnd := false; rx_lock_initcwnd := false;
  rx_lock_initrwnd := false; rx_lock_mtu := false;
  rx_r_rtm_flags := 0; rx_mss := 0; rx_window := 0; rx_cwnd := 0; rx_initcwnd := 0;
  rx_initrwnd := 0; rx_mtu := 0; rx_metric := metric; rx_table_coerced := 0 |}.

Definition zero_link (ifindex : Z) (name : list byte) : NMPlatformLink := {|
  lk_ifindex := ifindex; lk_name := name; lk_type := 0; lk_kind := None; lk_driver := None;
  lk_master := 0; lk_parent := 0; lk_n_ifi_flags := 0; lk_mtu := 0; lk_arptype := 0;
  lk_l_address := {| la_data := []; la_len := 0 |}; lk_l_broadcast := {| la_data := []; la_len := 0 |};
  lk_inet6_token := replicate 8 x00; lk_inet6_addr_gen_mode_inv := 0;
  lk_rx_packets := 0; lk_rx_bytes := 0; lk_tx_packets := 0; lk_tx_bytes := 0;
  lk_connected := false; lk_initialized := false |}.

Definition zero_rule (addr_family : Z) : NMPlatformRoutingRule := {|
  rr_src := in6_zero; rr_dst := in6_zero; rr_tun_id := 0; rr_table := 0; rr_flags := 0; rr_priority := 0;
  rr_fwmark := 0; rr_fwmask := 0; rr_goto_target := 0; rr_flow := 0;
  rr_suppress_prefixlen_inverse := 0; rr_suppress_ifgroup_inverse := 0;
  rr_uid_range := {| uid_start := 0; uid_end := 0 |}; rr_sport_range := {| port_start := 0; port_end := 0 |};
  rr_dport_range := {| port_start := 0; port_end := 0 |};
  rr_iifname := []; rr_oifname := [];
  rr_addr_family := addr_family; rr_action := 0; rr_tos := 0; rr_src_len := 0; rr_dst_len := 0; rr_l3mdev := 0;
  rr_protocol := 0; rr_ip_proto := 0; rr_uid_range_has := false |}.

Definition zero_qdisc (ifindex : Z) : NMPlatformQdisc := {|
  qd_ifindex := ifindex; qd_kind := None; qd_addr_family := 0; qd_handle := 0; qd_parent := 0; qd_info := 0;
  qd_fq_codel := {| fq_limit := 0; fq_flows := 0; fq_target := 0; fq_interval := 0; fq_quantum := 0;
                    fq_ce_threshold := 0; fq_memory_limit := 0; fq_ecn := false |} |}.

Definition zero_tfilter (ifindex : Z) : NMPlatformTfilter := {|
  tf_ifindex := ifindex; tf_kind := None; tf_addr_family := 0; tf_handle := 0; tf_parent := 0; tf_info := 0;
  tf_action := {| action_kind := None; simple_sdata := [];
                  action_mirred := {| mirred_ifindex := 0; mirred_egress := false; mirred_ingress := false;
                                      mirred_mirror := false; mirred_redirect := false |} |} |}.

(** A zeroed object of a type of the main objects, with its ifindex. *)
Inductive MainType := LINK | IP4_ADDRESS | IP6_ADDRESS | IP4_ROUTE | IP6_ROUTE | ROUTING_RULE | QDISC | TFILTER.

Definition link_object (l : NMPlatformLink) : NMPObjectLink :=
  {| ol_link := l; ol_is_in_netlink := false; ol_lnk := None; ol_udev_device := 0; ol_wireguard_family_id := 0 |}.

Definition zero_object (type : MainType) (ifindex : Z) : NMPObjectData :=
  match type with
  | LINK => OBJ_LINK (link_object (zero_link ifindex []))
  | IP4_ADDRESS => OBJ_IP4_ADDRESS {| a4_ax := zero_ax ifindex 0; a4_address := 0; a4_peer_address := 0; a4_label := [] |}
  | IP6_ADDRESS => OBJ_IP6_ADDRESS {| a6_ax := zero_ax ifindex 0; a6_address := in6_zero; a6_peer_address := in6_zero |}
  | IP4_ROUTE => OBJ_IP4_ROUTE {| r4_rx := zero_rx ifindex 0 0; r4_network := 0; r4_gateway := 0; r4_pref_src := 0; r4_tos := 0; r4_scope_inv := 0 |}
  | IP6_ROUTE => OBJ_IP6_ROUTE {| r6_rx := zero_rx ifindex 0 0; r6_network := in6_zero; r6_gateway := in6_zero;
                                  r6_pref_src := in6_zero; r6_src := in6_zero; r6_src_plen := 0; r6_rt_pref := 0 |}
  | ROUTING_RULE => OBJ_ROUTING_RULE (zero_rule 0)
  | QDISC => OBJ_QDISC (zero_qdisc ifindex)
  | TFILTER => OBJ_TFILTER (zero_tfilter ifindex)
  end.

(** Objects on the stack have no address of the memory of objects. *)
Definition on_stack (v : NMPObjectData) : NMPObject := mk_at 0 v.

Definition _nmp_object_stackinit_from_type (type : MainType) : NMPObject := on_stack (zero_object type 0).
Definition nmp_object_stackinit_id_link (ifindex : Z) : NMPObject := on_stack (OBJ_LINK (link_object (zero_link ifindex []))).

(** ** Selectors *)

Record NMPLookup := { cache_id_type : NMPCacheIdType; selector_obj : NMPObject }.

Definition nmp_lookup_init_obj_type (type : MainType) : NMPLookup :=
  {| cache_id_type := NMP_CACHE_ID_TYPE_OBJECT_TYPE; selector_obj := _nmp_object_stackinit_from_type type |}.

(** The name has less than IFNAMSIZ bytes. *)
Definition nmp_lookup_init_link_by_ifname (ifname : list byte) : NMPLookup :=
  {| cache_id_type := NMP_CACHE_ID_TYPE_LINK_BY_IFNAME; selector_obj := on_stack (OBJ_LINK (link_object (zero_link 0 ifname))) |}.

Definition nmp_lookup_init_object (type : MainType) (ifindex : Z) : NMPLookup :=
  if ifindex <=? 0 then nmp_lookup_init_obj_type type
  else {| cache_id_type := NMP_CACHE_ID_TYPE_OBJECT_BY_IFINDEX; selector_obj := on_stack (zero_object type ifindex) |}.

Definition nmp_lookup_init_route_default (type : MainType) : NMPLookup :=
  {| cache_id_type := NMP_CACHE_ID_TYPE_DEFAULT_ROUTES; selector_obj := on_stack (zero_object type 1) |}.

Definition nmp_lookup_init_ip4_route_by_weak_id (network : in_addr_t) (plen metric tos : Z) : NMPLookup :=
  {| cache_id_type := NMP_CACHE_ID_TYPE_ROUTES_BY_WEAK_ID;
     selector_obj := on_stack (OBJ_IP4_ROUTE {| r4_rx := zero_rx 1 plen metric; r4_network := network; r4_gateway := 0;
                                                r4_pref_src := 0; r4_tos := tos; r4_scope_inv := 0 |}) |}.

(** The addresses may be NULL. *)
Definition nmp_lookup_init_ip6_route_by_weak_id (network : option in6_addr) (plen metric : Z) (src : option in6_addr) (src_plen : Z) : NMPLookup :=
  {| cache_id_type := NMP_CACHE_ID_TYPE_ROUTES_BY_WEAK_ID;
     selector_obj := on_stack (OBJ_IP6_ROUTE {| r6_rx := zero_rx 1 plen metric; r6_network := default in6_zero network;
                                                r6_gateway := in6_zero; r6_pref_src := in6_zero;
                                                r6_src := default in6_zero src; r6_src_plen := src_plen; r6_rt_pref := 0 |}) |}.

Definition nmp_lookup_init_route_by_weak_id (obj : NMPObject) : option NMPLookup :=
  match at_obj obj with
  | OBJ_IP4_ROUTE r4 =>
      Some (nmp_lookup_init_ip4_route_by_weak_id (r4_network r4) (rx_plen (r4_rx r4)) (rx_metric (r4_rx r4)) (r4_tos r4))
  | OBJ_IP6_ROUTE r6 =>
      Some (nmp_lookup_init_ip6_route_by_weak_id (Some (r6_network r6)) (rx_plen (r6_rx r6)) (rx_metric (r6_rx r6))
              (Some (r6_src r6)) (r6_src_plen r6))
  | _ => None
  end.

(** For AF_UNSPEC, all rules. *)
Definition nmp_lookup_init_object_by_addr_family (addr_family : Z) : NMPLookup :=
  if addr_family =? 0 then nmp_lookup_init_obj_type ROUTING_RULE
  else {| cache_id_type := NMP_CACHE_ID_TYPE_OBJECT_BY_ADDR_FAMILY; selector_obj := on_stack (OBJ_ROUTING_RULE (zero_rule addr_family)) |}.

(** ** Classes *)

(** The cache ids of the class of an object. *)
Definition supported_cache_ids (o : NMPObjectData) : list NMPCacheIdType :=
  match o with
  | OBJ_LINK _ => [NMP_CACHE_ID_TYPE_OBJECT_TYPE; NMP_CACHE_ID_TYPE_LINK_BY_IFNAME]
  | OBJ_IP4_ADDRESS _ | OBJ_IP6_ADDRESS _ => [NMP_CACHE_ID_TYPE_OBJECT_TYPE; NMP_CACHE_ID_TYPE_OBJECT_BY_IFINDEX]
  | OBJ_IP4_ROUTE _ | OBJ_IP6_ROUTE _ =>
      [NMP_CACHE_ID_TYPE_OBJECT_TYPE; NMP_CACHE_ID_TYPE_OBJECT_BY_IFINDEX; NMP_CACHE_ID_TYPE_DEFAULT_ROUTES;
       NMP_CACHE_ID_TYPE_ROUTES_BY_WEAK_ID]
  | OBJ_ROUTING_RULE _ => [NMP_CACHE_ID_TYPE_OBJECT_TYPE; NMP_CACHE_ID_TYPE_OBJECT_BY_ADDR_FAMILY]
  | OBJ_QDISC _ | OBJ_TFILTER _ => [NMP_CACHE_ID_TYPE_OBJECT_TYPE; NMP_CACHE_ID_TYPE_OBJECT_BY_IFINDEX]
  | OBJ_LNK _ => []
  end.

Definition object_link (o : NMPObject) : option NMPObjectLink :=
  match at_obj o with OBJ_LINK l => Some l | _ => None end.

Definition NM_LINK_TYPE_NONE : Z := 0.
Definition NM_LINK_TYPE_BRIDGE : Z := 0x30000.
Definition NM_LINK_TYPE_BOND : Z := 0x30001.
Definition IFF_LOWER_UP : Z := 0x10000.
Definition IFNAMSIZ : nat := 16.

Section lookup.
Context `{ByteOrder} `{KernelSupport} `{SipHash} `{LinkDriver}.
Implicit Types (s : Index) (cache : NMPCache).

(** ** Lookup *)

Definition _lookup_entry_with_idx_type s (t : NMPCacheIdType) (obj : NMPObject) : option positive :=
  nm_dedup_multi_index_lookup_obj s t obj.
Definition _lookup_entry s (obj : NMPObject) : option positive :=
  _lookup_entry_with_idx_type s NMP_CACHE_ID_TYPE_OBJECT_TYPE obj.
Definition nmp_cache_lookup_entry_with_idx_type s (t : NMPCacheIdType) (obj : NMPObject) : option positive :=
  _lookup_entry_with_idx_type s t obj.
Definition nmp_cache_lookup_entry s (obj : NMPObject) : option positive := _lookup_entry s obj.

Definition nmp_cache_lookup_entry_link s (ifindex : Z) : option positive :=
  if 0 <? ifindex then _lookup_entry s (nmp_object_stackinit_id_link ifindex) else None.

(** The object of an entry that may be NULL; the outer option is the access to
    the memory. *)
Definition nm_dedup_multi_entry_get_obj s (entry : option positive) : option (option positive) :=
  match entry with
  | None => Some None
  | Some e => en ← entries s !! e; Some (Some (en_obj en))
  end.

Definition nmp_cache_lookup_obj s (obj : NMPObject) : option (option positive) :=
  nm_dedup_multi_entry_get_obj s (nmp_cache_lookup_entry s obj).

(** The object with its address. *)
Definition opt_obj_at s (o : option positive) : option (option NMPObject) :=
  match o with None => Some None | Some o => x ← obj_at s o; Some (Some x) end.

Definition nmp_cache_lookup_link s (ifindex : Z) : option (option NMPObject) :=
  o ← nm_dedup_multi_entry_get_obj s (nmp_cache_lookup_entry_link s ifindex);
  opt_obj_at s o.

Definition nmp_cache_lookup_all s (t : NMPCacheIdType) (select_obj : NMPObject) : option positive :=
  nm_dedup_multi_index_lookup_head s t (Some select_obj).
Definition nmp_cache_lookup s (lookup : NMPLookup) : option positive :=
  nmp_cache_lookup_all s (cache_id_type lookup) (selector_obj lookup).

(** The objects of a head that may be NULL, in their order. *)
Definition nmp_cache_iter_for_each s (head_entry : option positive) : option (list NMPObject) :=
  match head_entry with
  | None => Some []
  | Some h => os ← head_objs s h; mapM (obj_at s) os
  end.

Definition nmp_cache_lookup_to_array s (head_entry : option positive) (visible_only : bool) : option (list NMPObjectData) :=
  objs ← nmp_cache_iter_for_each s head_entry;
  Some (map at_obj (List.filter (fun o => negb visible_only || nmp_object_is_visible o) objs)).

(** The entry of the main handle for an entry of another one. *)
Definition nmp_cache_reresolve_main_entry s (e : positive) (lookup : NMPLookup) : option positive :=
  if bool_decide (cache_id_type lookup = NMP_CACHE_ID_TYPE_OBJECT_TYPE) then Some e
  else
    en ← entries s !! e;
    x ← obj_at s (en_obj en);
    nmp_cache_lookup_entry s x.

(** A link by its index, or the best one by name, type and predicate. *)
Definition link_matches (link_type : Z) (visible_only : bool) (match_fn : NMPObject -> bool) (obj : NMPObject) : bool :=
  match object_link obj with
  | Some l =>
      ((link_type =? NM_LINK_TYPE_NONE) || (lk_type (ol_link l) =? link_type))
      && (negb visible_only || nmp_object_is_visible obj) && match_fn obj
  | None => false
  end.

(** The first visible candidate, or else the first one. *)
Fixpoint best_link (visible_only : bool) (objs : list NMPObject) (obj_best : option NMPObject) : option NMPObject :=
  match objs with
  | [] => obj_best
  | obj :: objs =>
      if visible_only || nmp_object_is_visible obj then Some obj
      else best_link visible_only objs (match obj_best with None => Some obj | _ => obj_best end)
  end.

Definition nmp_cache_lookup_link_full s (ifindex : Z) (ifname : option (list byte)) (visible_only : bool) (link_type : Z)
    (match_fn : option (NMPObject -> bool)) : option (option NMPObject) :=
  let match_any := default (fun _ => true) match_fn in
  if 0 <? ifindex then
    o ← nmp_cache_lookup_obj s (nmp_object_stackinit_id_link ifindex);
    x ← opt_obj_at s o;
    Some match x with
         | Some obj =>
             if link_matches link_type visible_only match_any obj
                && match ifname, object_link obj with
                   | Some ifname, Some l => bool_decide (lk_name (ol_link l) = ifname)
                   | _, _ => true
                   end
             then Some obj else None
         | None => None
         end
  else
    match ifname, match_fn with
    | None, None => Some None
    | _, _ =>
        match ifname with
        | Some ifname =>
            if (IFNAMSIZ <=? length ifname)%nat then Some None
            else
              objs ← nmp_cache_iter_for_each s (nmp_cache_lookup s (nmp_lookup_init_link_by_ifname ifname));
              Some (best_link visible_only (List.filter (link_matches link_type visible_only match_any) objs) None)
        | None =>
            objs ← nmp_cache_iter_for_each s (nmp_cache_lookup s (nmp_lookup_init_obj_type LINK));
            Some (best_link visible_only (List.filter (link_matches link_type visible_only match_any) objs) None)
        end
    end.

(** ** Masters and slaves *)

Definition nmp_cache_link_connected_for_slave (ifindex_master : Z) (slave : NMPObject) : bool :=
  (0 <? ifindex_master)
  && match object_link slave with
     | Some l => (lk_master (ol_link l) =? ifindex_master) && lk_connected (ol_link l)
     | None => false
     end
  && nmp_object_is_visible slave.

(** A slave that keeps the master up: not shadowed by the potential slave, and not
    the one to ignore. *)
Definition keeps_up (ifindex_master : Z) (potential_slave ignore_slave : option NMPObject) (obj : NMPObject) : bool :=
  match potential_slave with
  | Some p => negb (bool_decide ((fun l => lk_ifindex (ol_link l)) <$> object_link p = (fun l => lk_ifindex (ol_link l)) <$> object_link obj))
  | None => true
  end
  && match ignore_slave with Some i => negb (at_ptr i =? at_ptr obj) | None => true end
  && nmp_cache_link_connected_for_slave ifindex_master obj.

Definition nmp_cache_link_connected_needs_toggle s (master potential_slave ignore_slave : option NMPObject) : option bool :=
  match master with
  | None => Some false
  | Some master =>
      match object_link master with
      | None => Some false
      | Some m =>
          let link := ol_link m in
          if (lk_ifindex link <=? 0) || negb (nmp_object_is_visible master)
             || negb ((lk_type link =? NM_LINK_TYPE_BRIDGE) || (lk_type link =? NM_LINK_TYPE_BOND)) then Some false
          else if Z.land (lk_n_ifi_flags link) IFF_LOWER_UP =? 0 then Some (lk_connected link)
          else
            let potential_slave := p ← potential_slave; match object_link p with Some _ => Some p | None => None end in
            is_lower_up ←
              (if match potential_slave with Some p => nmp_cache_link_connected_for_slave (lk_ifindex link) p | None => false end
               then Some true
               else
                 objs ← nmp_cache_iter_for_each s (nmp_cache_lookup s (nmp_lookup_init_obj_type LINK));
                 Some (existsb (keeps_up (lk_ifindex link) potential_slave ignore_slave) objs));
            Some (negb (eqb (lk_connected link) is_lower_up))
      end
  end.

Definition nmp_cache_link_connected_needs_toggle_by_ifindex s (master_ifindex : Z) (potential_slave ignore_slave : option NMPObject)
  : option (option NMPObject) :=
  if 0 <? master_ifindex then
    master ← nmp_cache_lookup_link s master_ifindex;
    toggle ← nmp_cache_link_connected_needs_toggle s master potential_slave ignore_slave;
    Some (if toggle : bool then master else None)
  else Some None.
End lookup.
