(* ===== verification/NmpCacheOps.v ===== *)
(** * NMPCache: updates

    src/platform/nmp-object.c: how messages from the kernel and devices from udev
    change the cache.  Pointers that the functions return are references that the
    caller owns.  None stands for an
    access to memory that is gone. *)

From S2P Require Export NmpCache.

Inductive NMPCacheOpsType :=
| NMP_CACHE_OPS_UNCHANGED
| NMP_CACHE_OPS_ADDED
| NMP_CACHE_OPS_UPDATED
| NMP_CACHE_OPS_REMOVED.

(** The result of an update, *out_obj_old, *out_obj_new and the cache. *)
Record Updated := { ops_type : NMPCacheOpsType; out_old : option positive; out_new : option positive; updated : Index }.

Definition NLM_F_REPLACE : Z := 0x100.
Definition NLM_F_EXCL : Z := 0x200.
Definition NLM_F_CREATE : Z := 0x400.
Definition NLM_F_APPEND : Z := 0x800.

Definition with_driver (driver : option (list byte)) (initialized : bool) (l : NMPlatformLink) : NMPlatformLink := {|
  lk_ifindex := lk_ifindex l; lk_name := lk_name l; lk_type := lk_type l; lk_kind := lk_kind l; lk_driver := driver;
  lk_master := lk_master l; lk_parent := lk_parent l; lk_n_ifi_flags := lk_n_ifi_flags l; lk_mtu := lk_mtu l;
  lk_arptype := lk_arptype l; lk_l_address := lk_l_address l; lk_l_broadcast := lk_l_broadcast l;
  lk_inet6_token := lk_inet6_token l; lk_inet6_addr_gen_mode_inv := lk_inet6_addr_gen_mode_inv l;
  lk_rx_packets := lk_rx_packets l; lk_rx_bytes := lk_rx_bytes l; lk_tx_packets := lk_tx_packets l; lk_tx_bytes := lk_tx_bytes l;
  lk_connected := lk_connected l; lk_initialized := initialized |}.

Definition with_connected (connected : bool) (l : NMPlatformLink) : NMPlatformLink := {|
  lk_ifindex := lk_ifindex l; lk_name := lk_name l; lk_type := lk_type l; lk_kind := lk_kind l; lk_driver := lk_driver l;
  lk_master := lk_master l; lk_parent := lk_parent l; lk_n_ifi_flags := lk_n_ifi_flags l; lk_mtu := lk_mtu l;
  lk_arptype := lk_arptype l; lk_l_address := lk_l_address l; lk_l_broadcast := lk_l_broadcast l;
  lk_inet6_token := lk_inet6_token l; lk_inet6_addr_gen_mode_inv := lk_inet6_addr_gen_mode_inv l;
  lk_rx_packets := lk_rx_packets l; lk_rx_bytes := lk_rx_bytes l; lk_tx_packets := lk_tx_packets l; lk_tx_bytes := lk_tx_bytes l;
  lk_connected := connected; lk_initialized := lk_initialized l |}.

Definition with_link (f : NMPlatformLink -> NMPlatformLink) (o : NMPObjectLink) : NMPObjectLink :=
  {| ol_link := f (ol_link o); ol_is_in_netlink := ol_is_in_netlink o; ol_lnk := ol_lnk o;
     ol_udev_device := ol_udev_device o; ol_wireguard_family_id := ol_wireguard_family_id o |}.
Definition with_netlink (b : bool) (o : NMPObjectLink) : NMPObjectLink :=
  {| ol_link := ol_link o; ol_is_in_netlink := b; ol_lnk := ol_lnk o;
     ol_udev_device := ol_udev_device o; ol_wireguard_family_id := ol_wireguard_family_id o |}.
Definition with_lnk (lnk : option (At NMPObjectLnk)) (o : NMPObjectLink) : NMPObjectLink :=
  {| ol_link := ol_link o; ol_is_in_netlink := ol_is_in_netlink o; ol_lnk := lnk;
     ol_udev_device := ol_udev_device o; ol_wireguard_family_id := ol_wireguard_family_id o |}.
Definition with_device (device : Z) (o : NMPObjectLink) : NMPObjectLink :=
  {| ol_link := ol_link o; ol_is_in_netlink := ol_is_in_netlink o; ol_lnk := ol_lnk o;
     ol_udev_device := device; ol_wireguard_family_id := ol_wireguard_family_id o |}.

Section update.
Context `{ByteOrder} `{KernelSupport} `{SipHash} `{LinkDriver}.
Implicit Types (s : Index) (cache : NMPCache) (hp : Heap NMPObjectData).

(** ** References and links in memory *)

Definition nmp_object_ref (o : positive) s : option Index := hp ← nm_dedup_multi_obj_ref o (heap s); Some (with_heap hp s).
Definition nmp_object_unref (o : positive) s : option Index := hp ← nm_dedup_multi_obj_unref o (heap s); Some (with_heap hp s).

(** Of a pointer that may be NULL. *)
Definition ref_opt (o : option positive) s : option Index := match o with Some o => nmp_object_ref o s | None => Some s end.
Definition unref_opt (o : option positive) s : option Index := match o with Some o => nmp_object_unref o s | None => Some s end.

Definition nmp_object_clone (o : positive) s : option (positive * Index) :=
  '(o, hp) ← nm_dedup_multi_obj_clone o (heap s); Some (o, with_heap hp s).

Definition nmp_object_new (v : NMPObjectData) s : positive * Index :=
  let '(o, hp) := obj_new v (heap s) in (o, with_heap hp s).

Definition link_at s (o : positive) : option NMPObjectLink := x ← obj_at s o; object_link x.
Definition write_link (o : positive) (l : NMPObjectLink) s : Index := with_heap (obj_write o (OBJ_LINK l) (heap s)) s.

Definition _link_get_driver (udevice : Z) (kind : option (list byte)) (ifindex : Z) : list byte :=
  match (if udevice =? 0 then None else nmp_utils_udev_get_driver udevice) with
  | Some driver => driver
  | None =>
      match kind with
      | Some kind => kind
      | None =>
          match (if 0 <? ifindex then nmp_utils_ethtool_get_driver_info ifindex else None) with
          | Some (c :: driver) => c :: driver
          | _ => bs "unknown"
          end
      end
  end.

(** The driver and the flag that netlink and udev give a link together. *)
Definition udev_fields (use_udev : bool) (o : NMPObjectLink) : option (list byte) * bool :=
  if ol_is_in_netlink o then
    (Some (_link_get_driver (ol_udev_device o) (lk_kind (ol_link o)) (lk_ifindex (ol_link o))),
     negb (ol_udev_device o =? 0) || negb use_udev)
  else (None, false).

(** The callers pass the object to change, which is not in the pool. *)
Definition _nmp_object_fixup_link_udev_fields (o : positive) (use_udev : bool) s : option Index :=
  l ← link_at s o;
  let '(driver, initialized) := udev_fields use_udev l in
  if bool_decide (lk_driver (ol_link l) = driver) && eqb (lk_initialized (ol_link l)) initialized then Some s
  else Some (write_link o (with_link (with_driver driver initialized) l) s).

Definition _nmp_object_fixup_link_master_connected (o : positive) s : option Index :=
  x ← obj_at s o;
  toggle ← nmp_cache_link_connected_needs_toggle s (Some x) None None;
  if toggle : bool then
    l ← link_at s o;
    Some (write_link o (with_link (with_connected (negb (lk_connected (ol_link l)))) l) s)
  else Some s.

(** ** The handles *)

Definition _obj_get_add_mode (obj : NMPObject) : NMDedupMultiIdxMode :=
  match at_obj obj with
  | OBJ_IP4_ADDRESS _ | OBJ_IP6_ADDRESS _ => NM_DEDUP_MULTI_IDX_MODE_PREPEND
  | _ => NM_DEDUP_MULTI_IDX_MODE_APPEND
  end.

Definition add_mode (is_dump : bool) (obj : NMPObject) : NMDedupMultiIdxMode :=
  if is_dump then NM_DEDUP_MULTI_IDX_MODE_APPEND_FORCE else _obj_get_add_mode obj.

Definition other_ids (o : NMPObjectData) : list NMPCacheIdType :=
  List.filter (fun t => negb (bool_decide (t = NMP_CACHE_ID_TYPE_OBJECT_TYPE))) (supported_cache_ids o).

Fixpoint reorder_others (ts : list NMPCacheIdType) (x : NMPObject) s : option Index :=
  match ts with
  | [] => Some s
  | t :: ts =>
      match nm_dedup_multi_index_lookup_obj s t x with
      | None => reorder_others ts x s
      | Some e2 => '(_, s) ← nm_dedup_multi_entry_reorder s e2 None true; reorder_others ts x s
      end
  end.

Definition _idxcache_update_order_for_dump (entry : positive) s : option Index :=
  '(_, s) ← nm_dedup_multi_entry_reorder s entry None true;
  en ← entries s !! entry;
  x ← obj_at s (en_obj en);
  reorder_others (other_ids (at_obj x)) x s.

(** The handle [t] gets [obj_new] for [obj_old]; both are in the pool. *)
Definition _idxcache_update_other_cache_ids (t : NMPCacheIdType) (obj_old obj_new : option NMPObject) (new_addr : positive)
    (is_dump : bool) s : option Index :=
  let entry_old := x ← obj_old; nm_dedup_multi_index_lookup_obj s t x in
  match obj_new with
  | None =>
      match entry_old with
      | Some e => '(_, s) ← nm_dedup_multi_index_remove_entry s (inl e); Some s
      | None => Some s
      end
  | Some y =>
      let entry_new :=
        if match obj_old with
           | Some x => nm_dedup_multi_idx_type_id_equal t x y && nm_dedup_multi_idx_type_partition_equal t (Some x) (Some y)
           | None => false
           end then entry_old
        else nm_dedup_multi_index_lookup_obj s t y in
      entry_order ←
        match entry_new with
        | Some e => Some (Some e)
        | None =>
            match entry_old with
            | Some e =>
                en ← entries s !! e;
                x ← obj_at s (en_obj en);
                Some (if nm_dedup_multi_idx_type_partition_equal t (Some x) (Some y) then Some e else None)
            | None => Some None
            end
        end;
      head_existing ← match entry_order with Some e => en ← entries s !! e; Some (EXISTING (en_head en)) | None => Some LOOKUP end;
      r ← nm_dedup_multi_index_add_full s t new_addr (add_mode is_dump y) (if is_dump then None else entry_order)
            (match entry_new with Some e => EXISTING e | None => MISSING end) head_existing false;
      let s := added_to r in
      match entry_old with
      | Some e =>
          if bool_decide (out_entry r = Some e) then Some s
          else '(_, s) ← nm_dedup_multi_index_remove_entry s (inl e); Some s
      | None => Some s
      end
  end.

(** The objects of a handle are read again in each turn. *)
Fixpoint update_others (ts : list NMPCacheIdType) (obj_old obj_new : option positive) (is_dump : bool) s : option Index :=
  match ts with
  | [] => Some s
  | t :: ts =>
      x ← opt_obj_at s obj_old;
      y ← opt_obj_at s obj_new;
      s ← _idxcache_update_other_cache_ids t x y (default 1%positive obj_new) is_dump s;
      update_others ts obj_old obj_new is_dump s
  end.

(** The main handle gets an object for an entry, or loses the entry. *)
Definition update_main (entry_old obj_new : option positive) (is_dump : bool) s : option (option positive * Index) :=
  match obj_new with
  | Some o =>
      y ← obj_at s o;
      r ← nm_dedup_multi_index_add_full s NMP_CACHE_ID_TYPE_OBJECT_TYPE o (add_mode is_dump y) None
            (match entry_old with Some e => EXISTING e | None => MISSING end) LOOKUP true;
      s ← unref_opt (out_obj_old r) (added_to r);
      Some (out_entry r, s)
  | None =>
      e ← entry_old;
      '(_, s) ← nm_dedup_multi_index_remove_entry s (inl e);
      Some (None, s)
  end.

(** What is returned is the entry of the new object. *)
Definition _idxcache_update (entry_old obj_new : option positive) (is_dump : bool) s : option (option positive * Index) :=
  obj_old ← nm_dedup_multi_entry_get_obj s entry_old;
  s ← ref_opt obj_old s;
  '(entry_new, s) ← update_main entry_old obj_new is_dump s;
  obj_new ← nm_dedup_multi_entry_get_obj s entry_new;
  klass ← opt_obj_at s (match obj_new with Some o => Some o | None => obj_old end);
  let ts := match klass with Some x => other_ids (at_obj x) | None => [] end in
  s ← update_others ts obj_old obj_new is_dump s;
  s ← unref_opt obj_old s;
  Some (entry_new, s).

(** With a reference of the object of the entry. *)
Definition ref_entry (entry : option positive) s : option (option positive * Index) :=
  o ← nm_dedup_multi_entry_get_obj s entry;
  s ← ref_opt o s;
  Some (o, s).

(** ** Removing *)

Definition nmp_cache_remove s (obj_needle : NMPObject) (equals_by_ptr only_dirty : bool) : option Updated :=
  match _lookup_entry s obj_needle with
  | None => Some {| ops_type := NMP_CACHE_OPS_UNCHANGED; out_old := None; out_new := None; updated := s |}
  | Some entry_old =>
      en ← entries s !! entry_old;
      let old := en_obj en in
      s ← nmp_object_ref old s;
      if (equals_by_ptr && negb (Zpos old =? at_ptr obj_needle)) || (only_dirty && negb (en_dirty en)) then
        Some {| ops_type := NMP_CACHE_OPS_UNCHANGED; out_old := Some old; out_new := None; updated := s |}
      else
        '(_, s) ← _idxcache_update (Some entry_old) None false s;
        Some {| ops_type := NMP_CACHE_OPS_REMOVED; out_old := Some old; out_new := None; updated := s |}
  end.

(** The entry goes; the caller has a reference of its object. *)
Definition removed_entry (entry_old old : positive) s : option Updated :=
  '(_, s) ← _idxcache_update (Some entry_old) None false s;
  Some {| ops_type := NMP_CACHE_OPS_REMOVED; out_old := Some old; out_new := None; updated := s |}.

(** Nothing changes; the caller gets the object twice. *)
Definition unchanged_entry (old : positive) s : option Updated :=
  s ← nmp_object_ref old s;
  Some {| ops_type := NMP_CACHE_OPS_UNCHANGED; out_old := Some old; out_new := Some old; updated := s |}.

(** The entry gets an object that was made for it (and is released here). *)
Definition updated_entry (entry_old old : positive) (new : positive) s : option Updated :=
  '(entry_new, s) ← _idxcache_update (Some entry_old) (Some new) false s;
  '(o, s) ← ref_entry entry_new s;
  s ← nmp_object_unref new s;
  Some {| ops_type := NMP_CACHE_OPS_UPDATED; out_old := Some old; out_new := o; updated := s |}.

Definition nmp_cache_remove_netlink cache (obj_needle : NMPObject) : option Updated :=
  let s := multi_idx cache in
  match _lookup_entry s obj_needle with
  | None => Some {| ops_type := NMP_CACHE_OPS_UNCHANGED; out_old := None; out_new := None; updated := s |}
  | Some entry_old =>
      en ← entries s !! entry_old;
      let old := en_obj en in
      s ← nmp_object_ref old s;
      match object_link obj_needle with
      | Some _ =>
          l ← link_at s old;
          if negb (ol_is_in_netlink l) then unchanged_entry old s
          else if ol_udev_device l =? 0 then removed_entry entry_old old s
          else
            '(new, s) ← nmp_object_clone old s;
            l ← link_at s new;
            s ← _nmp_object_fixup_link_master_connected new (write_link new (with_netlink false l) s);
            s ← _nmp_object_fixup_link_udev_fields new (use_udev cache) s;
            updated_entry entry_old old new s
      | None => removed_entry entry_old old s
      end
  end.

(** ** Messages from the kernel *)

(** Interns the link data of a link that is not in the pool. *)
Definition intern_lnk (o : positive) s : option Index :=
  l ← link_at s o;
  match lnk_addr l with
  | None => Some s
  | Some c =>
      '(c', hp) ← nm_dedup_multi_index_obj_intern c (heap s);
      match vals hp !! c' with
      | Some (OBJ_LNK lnk) => nmp_object_unref c (write_link o (with_lnk (Some (mk_at (Zpos c') lnk)) l) (with_heap hp s))
      | _ => None
      end
  end.

(** What a link from netlink takes over from the link in the cache. *)
Definition merge_link cache (o : positive) (device : Z) s : option Index :=
  s ← _nmp_object_fixup_link_master_connected o s;
  l ← link_at s o;
  s ← _nmp_object_fixup_link_udev_fields o (use_udev cache) (write_link o (with_device device l) s);
  intern_lnk o s.

(** The object that was handed over replaces that of the entry. *)
Definition netlink_update_entry (entry_old old o : positive) (is_dump : bool) s : option Updated :=
  x ← obj_at s old;
  y ← obj_at s o;
  if nmp_object_equal x y then
    s ← (if is_dump then _idxcache_update_order_for_dump entry_old s else Some s);
    unchanged_entry old (nm_dedup_multi_entry_set_dirty entry_old false s)
  else
    '(entry_new, s) ← _idxcache_update (Some entry_old) (Some o) is_dump s;
    '(new, s) ← ref_entry entry_new s;
    Some {| ops_type := NMP_CACHE_OPS_UPDATED; out_old := Some old; out_new := new; updated := s |}.

Definition nmp_cache_update_netlink cache (o : positive) (is_dump : bool) : option Updated :=
  let s := multi_idx cache in
  x ← obj_at s o;
  match _lookup_entry s x with
  | None =>
      if negb (nmp_object_is_alive x) then
        Some {| ops_type := NMP_CACHE_OPS_UNCHANGED; out_old := None; out_new := None; updated := s |}
      else
        s ← (match object_link x with
             | Some _ => s ← _nmp_object_fixup_link_master_connected o s;
                         _nmp_object_fixup_link_udev_fields o (use_udev cache) s
             | None => Some s
             end);
        '(entry_new, s) ← _idxcache_update None (Some o) is_dump s;
        '(new, s) ← ref_entry entry_new s;
        Some {| ops_type := NMP_CACHE_OPS_ADDED; out_old := None; out_new := new; updated := s |}
  | Some entry_old =>
      en ← entries s !! entry_old;
      let old := en_obj en in
      match object_link x with
      | Some l =>
          l_old ← link_at s old;
          if negb (ol_is_in_netlink l) && negb (ol_is_in_netlink l_old) then
            s ← nmp_object_ref old s;
            unchanged_entry old s
          else if negb (ol_is_in_netlink l) && (ol_udev_device l_old =? 0) then
            s ← nmp_object_ref old s;
            removed_entry entry_old old s
          else
            s ← merge_link cache o (ol_udev_device l_old) s;
            s ← nmp_object_ref old s;
            netlink_update_entry entry_old old o is_dump s
      | None =>
          s ← nmp_object_ref old s;
          if negb (nmp_object_is_alive x) then removed_entry entry_old old s
          else netlink_update_entry entry_old old o is_dump s
      end
  end.

(** ** Routes *)

(** The first entry of the list but [e]. *)
Definition first_other (e : positive) (l : list positive) : option positive :=
  match l with
  | e1 :: l => if bool_decide (e1 = e) then head l else Some e1
  | [] => None
  end.

(** The order of a route among those of its weak id, by the flags of the message:
    the entry that it replaces, and whether a resync is required. *)
Definition route_order (entry_new o : positive) (nlmsgflags : Z) s : option (option positive * bool * Index) :=
  en ← entries s !! entry_new;
  x ← obj_at s (en_obj en);
  match _lookup_entry_with_idx_type s NMP_CACHE_ID_TYPE_ROUTES_BY_WEAK_ID x with
  | None => Some (None, false, s)
  | Some entry_cur =>
      en ← entries s !! entry_cur;
      hd ← heads s !! en_head en;
      if he_len hd =? 1 then Some (None, false, s)
      else
        let flags := Z.land nlmsgflags (Z.lor (Z.lor NLM_F_REPLACE NLM_F_EXCL) (Z.lor NLM_F_CREATE NLM_F_APPEND)) in
        if flags =? NLM_F_REPLACE then
          entry_replace ← first_other entry_cur (lst_entries_head hd);
          '(_, s) ← nm_dedup_multi_entry_reorder s entry_cur (Some entry_replace) false;
          Some (Some entry_replace, false, s)
        else if flags =? Z.lor NLM_F_CREATE NLM_F_APPEND then
          '(_, s) ← nm_dedup_multi_entry_reorder s entry_cur None true;
          Some (None, false, s)
        else if flags =? NLM_F_CREATE then
          '(_, s) ← nm_dedup_multi_entry_reorder s entry_cur None false;
          Some (None, false, s)
        else Some (None, true, s)
  end.

(** What update_done: does: out_obj_new, the order, out_obj_replace and
    out_resync_required. *)
Record RouteUpdated := { route_updated : Updated; obj_replace : option positive; resync_required : bool }.

Definition update_done (ops : NMPCacheOpsType) (old entry_new : option positive) (o : positive) (is_dump : bool) (nlmsgflags : Z) s
  : option RouteUpdated :=
  '(new, s) ← ref_entry entry_new s;
  '(entry_replace, resync, s) ←
    (if is_dump then Some (None, false, s)
     else match entry_new with
          | None =>
              x ← obj_at s o;
              Some (None, negb (Z.land nlmsgflags NLM_F_REPLACE =? 0)
                          && bool_decide (is_Some (nmp_cache_lookup_all s NMP_CACHE_ID_TYPE_ROUTES_BY_WEAK_ID x)), s)
          | Some e => route_order e o nlmsgflags s
          end);
  '(replace, s) ← ref_entry entry_replace s;
  Some {| route_updated := {| ops_type := ops; out_old := old; out_new := new; updated := s |};
          obj_replace := replace; resync_required := resync |}.

Definition nmp_cache_update_netlink_route s (o : positive) (is_dump : bool) (nlmsgflags : Z) : option RouteUpdated :=
  x ← obj_at s o;
  let entry_old := _lookup_entry s x in
  '(old, s) ← ref_entry entry_old s;
  match entry_old, old with
  | Some entry_old, Some old_addr =>
      if negb (nmp_object_is_alive x) then
        '(_, s) ← _idxcache_update (Some entry_old) None false s;
        update_done NMP_CACHE_OPS_REMOVED old None o is_dump nlmsgflags s
      else
        y ← obj_at s old_addr;
        if nmp_object_equal y x then
          s ← (if is_dump then _idxcache_update_order_for_dump entry_old s else Some s);
          update_done NMP_CACHE_OPS_UNCHANGED old None o is_dump nlmsgflags (nm_dedup_multi_entry_set_dirty entry_old false s)
        else
          '(entry_new, s) ← _idxcache_update (Some entry_old) (Some o) is_dump s;
          update_done NMP_CACHE_OPS_UPDATED old entry_new o is_dump nlmsgflags s
  | _, _ =>
      if negb (nmp_object_is_alive x) then update_done NMP_CACHE_OPS_UNCHANGED None None o is_dump nlmsgflags s
      else
        '(entry_new, s) ← _idxcache_update None (Some o) is_dump s;
        update_done NMP_CACHE_OPS_ADDED None entry_new o is_dump nlmsgflags s
  end.

(** ** Devices from udev, masters *)

Definition nmp_cache_update_link_udev cache (ifindex udevice : Z) : option Updated :=
  let s := multi_idx cache in
  match nmp_cache_lookup_entry_link s ifindex with
  | None =>
      if udevice =? 0 then Some {| ops_type := NMP_CACHE_OPS_UNCHANGED; out_old := None; out_new := None; updated := s |}
      else
        let '(new, s) := nmp_object_new (OBJ_LINK (with_device udevice (link_object (zero_link ifindex [])))) s in
        s ← _nmp_object_fixup_link_udev_fields new (use_udev cache) s;
        '(entry_new, s) ← _idxcache_update None (Some new) false s;
        '(o, s) ← ref_entry entry_new s;
        s ← nmp_object_unref new s;
        Some {| ops_type := NMP_CACHE_OPS_ADDED; out_old := None; out_new := o; updated := s |}
  | Some entry_old =>
      en ← entries s !! entry_old;
      let old := en_obj en in
      s ← nmp_object_ref old s;
      l ← link_at s old;
      if ol_udev_device l =? udevice then unchanged_entry old s
      else if (udevice =? 0) && negb (ol_is_in_netlink l) then removed_entry entry_old old s
      else
        '(new, s) ← nmp_object_clone old s;
        l ← link_at s new;
        s ← _nmp_object_fixup_link_udev_fields new (use_udev cache) (write_link new (with_device udevice l) s);
        updated_entry entry_old old new s
  end.

Definition nmp_cache_update_link_master_connected s (ifindex : Z) : option Updated :=
  match nmp_cache_lookup_entry_link s ifindex with
  | None => Some {| ops_type := NMP_CACHE_OPS_UNCHANGED; out_old := None; out_new := None; updated := s |}
  | Some entry_old =>
      en ← entries s !! entry_old;
      let old := en_obj en in
      x ← obj_at s old;
      toggle ← nmp_cache_link_connected_needs_toggle s (Some x) None None;
      if negb toggle then
        s ← nmp_object_ref old s;
        unchanged_entry old s
      else
        '(new, s) ← nmp_object_clone old s;
        l ← link_at s new;
        let s := write_link new (with_link (with_connected (negb (lk_connected (ol_link l)))) l) s in
        s ← nmp_object_ref old s;
        updated_entry entry_old old new s
  end.

(** ** Marking *)

(** The main entries of a lookup; an entry has one (the code does not check). *)
Fixpoint dirty_main (lookup : NMPLookup) (es : list positive) s : option Index :=
  match es with
  | [] => Some s
  | e :: es =>
      main ← nmp_cache_reresolve_main_entry s e lookup;
      dirty_main lookup es (nm_dedup_multi_entry_set_dirty main true s)
  end.

Definition lookup_entries s (lookup : NMPLookup) : option (list positive) :=
  match nmp_cache_lookup s lookup with
  | None => Some []
  | Some h => hd ← heads s !! h; Some (lst_entries_head hd)
  end.

Definition nmp_cache_dirty_set_all_main s (lookup : NMPLookup) : option Index :=
  es ← lookup_entries s lookup;
  dirty_main lookup es s.

(** ** The cache itself *)

Definition nmp_cache_new (multi_idx : Index) (use_udev : bool) : NMPCache := {| multi_idx := multi_idx; use_udev := use_udev |}.

Definition all_cache_ids : list NMPCacheIdType :=
  [NMP_CACHE_ID_TYPE_OBJECT_TYPE; NMP_CACHE_ID_TYPE_LINK_BY_IFNAME; NMP_CACHE_ID_TYPE_DEFAULT_ROUTES;
   NMP_CACHE_ID_TYPE_OBJECT_BY_IFINDEX; NMP_CACHE_ID_TYPE_ROUTES_BY_WEAK_ID; NMP_CACHE_ID_TYPE_OBJECT_BY_ADDR_FAMILY].

Fixpoint remove_ids (ts : list NMPCacheIdType) s : option Index :=
  match ts with
  | [] => Some s
  | t :: ts => '(_, s) ← nm_dedup_multi_index_remove_idx s t; remove_ids ts s
  end.

(** The index belongs to others, too. *)
Definition nmp_cache_free cache : option Index := remove_ids all_cache_ids (multi_idx cache).
End update.
