(* ===== verification/NmpCacheInv.v ===== *)
(** * NMPCache: the handles agree

    The invariant of the cache: the objects of the main handle are alive, and each
    other handle has those of them that it can divide.  The update of one of the
    other handles takes it from the old object to the new one. *)

From S2P Require Export NmpCacheOps.

Abbreviation OT := NMP_CACHE_ID_TYPE_OBJECT_TYPE.

Section inv.
Context `{ByteOrder} `{KernelSupport} `{SipHash} `{LinkDriver}.
Implicit Types (s : Index) (ext : positive -> nat) (M : positive -> NMPObjectData -> Prop).

(** An entry of the main handle. *)
Definition main s (e o : positive) (v : NMPObjectData) : Prop := exists h, tracked s e OT h o v.
Definition in_handle s (t : NMPCacheIdType) (o : positive) (v : NMPObjectData) : Prop := exists e h, tracked s e t h o v.

(** The handle can have the object. *)
Definition divided (t : NMPCacheIdType) (o : positive) (v : NMPObjectData) : Prop :=
  t ∈ supported_cache_ids v /\ is_Some (NmpObject.part_key t (boxed o v)).

Definition synced s (t : NMPCacheIdType) M : Prop := forall o v, in_handle s t o v <-> M o v /\ divided t o v.

Definition in_main s (o : positive) (v : NMPObjectData) : Prop := exists e, main s e o v.

Record cache_ok s ext : Prop := {
  co_index : index_ok s ext;
  co_alive e o v : main s e o v -> nmp_object_is_alive (boxed o v) = true;
  co_synced t : t <> OT -> synced s t (in_main s)
}.

Definition oid (o : positive) (v : NMPObjectData) : kval := object_id_key (boxed o v).

Definition ids_unique M : Prop := forall p w q z, M p w -> M q z -> oid p w = oid q z -> p = q /\ w = z.

Lemma oid_type p w q z : oid p w = oid q z -> obj_type w = obj_type z.
Proof. unfold oid, object_id_key. cbn. congruence. Qed.

(** The identity of an object tells its class. *)
Lemma main_ids s ext : index_ok s ext -> ids_unique (in_main s).
Proof.
  intros Hok p w q z (e1 & h1 & H1') (e2 & h2 & H2') E.
  assert (e1 = e2) as <-.
  { apply (ix_unique _ _ Hok _ _ _ _ _ _ _ _ _ H1' H2'); [|done]. cbn. by rewrite (oid_type _ _ _ _ E). }
  destruct (tracked_fun _ _ _ _ _ _ _ _ _ _ H1' H2') as (_ & _ & ? & ?). done.
Qed.

(** ** Other handles *)

(** Entries of handles other than [t] stay, with their marks. *)
Definition others_keep s s' (t : NMPCacheIdType) : Prop :=
  forall e j h o v, j <> t -> (tracked s' e j h o v <-> tracked s e j h o v) /\ (tracked s e j h o v -> dirty_of s' e = dirty_of s e).

Lemma others_keep_refl s t : others_keep s s t.
Proof. done. Qed.

Lemma others_keep_trans s1 s2 s3 t : others_keep s1 s2 t -> others_keep s2 s3 t -> others_keep s1 s3 t.
Proof.
  intros H12 H23 e j h o v Hj. destruct (H12 e j h o v Hj) as [E1 D1], (H23 e j h o v Hj) as [E2 D2].
  split; [by rewrite E2|]. intros Ht. rewrite D2 by by apply E1. by apply D1.
Qed.

Lemma others_keep_main s s' t o v : t <> OT -> others_keep s s' t -> in_main s' o v <-> in_main s o v.
Proof.
  intros Ht Hk. split; intros (e & h & He); exists e, h; by apply (Hk e OT h o v).
Qed.

Lemma entry_set_others s s' e i h o v l :
  entry_set s s' e i h o v l -> (forall j h2 o2 v2, tracked s e j h2 o2 v2 -> j = i) -> others_keep s s' i.
Proof.
  intros Hs He e2 j h2 o2 v2 Hj. rewrite (es_tracked _ _ _ _ _ _ _ _ Hs), (es_dirty _ _ _ _ _ _ _ _ Hs). split.
  - split; [intros [(_ & -> & _)|[_ Ht]]; done|]. intros Ht. right. split; [|done]. intros ->. by apply Hj, (He _ _ _ _ Ht).
  - intros Ht. destruct (decide (e2 = e)) as [->|]; [|done]. by destruct (Hj (He _ _ _ _ Ht)).
Qed.

Lemma entry_removed_others s s' e i h o v :
  entry_removed s s' e h -> tracked s e i h o v -> others_keep s s' i.
Proof.
  intros Hs He e2 j h2 o2 v2 Hj. rewrite (er_tracked _ _ _ _ Hs), (er_dirty _ _ _ _ Hs).
  assert (e2 = e -> ~ tracked s e2 j h2 o2 v2).
  { intros -> Ht. by destruct (tracked_fun _ _ _ _ _ _ _ _ _ _ He Ht) as [-> _]. }
  split; [tauto|]. intros Ht. destruct (decide (e2 = e)); [tauto|done].
Qed.

(** A handle finds an object of [M] by its identity. *)
Lemma lookup_handle s ext t M o v :
  index_ok s ext -> synced s t M -> ids_unique M -> M o v -> vals (heap s) !! o = Some v ->
  match nm_dedup_multi_index_lookup_obj s t (boxed o v) with
  | Some e => exists h, tracked s e t h o v
  | None => ~ divided t o v
  end.
Proof.
  intros Hok Hs Hu HM Hv. pose proof (needle_boxed _ _ _ _ Hok Hv) as Hn. unfold nm_dedup_multi_index_lookup_obj.
  destruct (_entry_lookup_obj s t (boxed o v)) as [e|] eqn:El.
  - apply (lookup_obj_spec s ext t _ e Hok Hn) in El as (h & p & z & Ht & _ & Eid).
    assert (M p z) as HMp by (apply Hs; by exists e, h).
    destruct (Hu p z o v HMp HM Eid) as [<- <-]. by exists h.
  - intros Hd. destruct (proj2 (Hs o v) (conj HM Hd)) as (e & h & Ht).
    assert (_entry_lookup_obj s t (boxed o v) = Some e); [|congruence].
    apply (lookup_obj_spec s ext t _ e Hok Hn). by exists h, o, v.
Qed.
End inv.
