(* ===== verification/NmpCacheSync.v ===== *)
(** * NMPCache: the update of the handles

    _idxcache_update () replaces an object in the main handle and then in the
    others, so that the invariant holds again. *)

From S2P Require Export NmpCacheInv.

Section sync.
Context `{ByteOrder} `{KernelSupport} `{SipHash} `{LinkDriver}.
Implicit Types (s : Index) (ext : positive -> nat) (M : positive -> NMPObjectData -> Prop).

(** An object with its address. *)
Definition at_addr (x : positive * NMPObjectData) : NMPObject := boxed x.1 x.2.

(** The objects after the replacement. *)
Definition replaced M (old new : option (positive * NMPObjectData)) (o : positive) (v : NMPObjectData) : Prop :=
  new = Some (o, v) \/ (M o v /\ old <> Some (o, v)).

(** What the update of a handle relies on. *)
Record replacing s ext M (old new : option (positive * NMPObjectData)) : Prop := {
  rp_ids : ids_unique M;
  rp_old o v : old = Some (o, v) -> M o v /\ (0 < ext o)%nat /\ vals (heap s) !! o = Some v;
  rp_new n w : new = Some (n, w) -> in_main s n w /\ n ∈ idx_objs (heap s) /\ vals (heap s) !! n = Some w /\ cacheable w;
  rp_same p z n w : new = Some (n, w) -> M p z -> oid p z = oid n w -> old = Some (p, z) /\ same_full n p w z = false;
  rp_id o v n w : old = Some (o, v) -> new = Some (n, w) -> oid o v = oid n w
}.

Lemma rp_unique s ext M old new : replacing s ext M old new -> forall o v w, M o v -> M o w -> v = w \/ oid o v <> oid o w.
Proof.
  intros Hr o v w Hv Hw. destruct (decide (oid o v = oid o w)) as [E|]; [|by right]. left. by apply (rp_ids _ _ _ _ _ Hr _ _ _ _ Hv Hw).
Qed.

Definition new_entry s (t : NMPCacheIdType) (old : option (positive * NMPObjectData)) (y : NMPObject) : option positive :=
  if match at_addr <$> old with
     | Some x => nm_dedup_multi_idx_type_id_equal t x y && nm_dedup_multi_idx_type_partition_equal t (Some x) (Some y)
     | None => false
     end then x ← (at_addr <$> old); nm_dedup_multi_index_lookup_obj s t x
  else nm_dedup_multi_index_lookup_obj s t y.

Lemma partition_equal_vals s ext t o v n w :
  index_ok s ext -> vals (heap s) !! o = Some v -> vals (heap s) !! n = Some w ->
  nm_dedup_multi_idx_type_partition_equal t (Some (boxed o v)) (Some (boxed n w)) = true ->
  NmpObject.part_key t (boxed o v) = NmpObject.part_key t (boxed n w).
Proof.
  intros Hok Ho Hn. unfold nm_dedup_multi_idx_type_partition_equal. cbn [idx_obj_partition_equal nmp_idx_class at_ptr boxed].
  intros [E|E]%orb_true_iff.
  - apply Z.eqb_eq in E. assert (o = n) as -> by congruence. by assert (v = w) as -> by congruence.
  - destruct (proj1 (partition_equal_key (heap_at (vals (heap s))) t (boxed o v) (boxed n w)
                       (conj Ho (ho_val _ _ (ix_heap _ _ Hok) o v Ho)) (conj Hn (ho_val _ _ (ix_heap _ _ Hok) n w Hn))) E) as (k & -> & ->).
    done.
Qed.

(** Either the entry of the old object is that of the new one, or the new one has
    none. *)
Lemma new_entry_spec s ext t M old n w :
  index_ok s ext -> synced s t M -> replacing s ext M old (Some (n, w)) ->
  let eo := x ← (at_addr <$> old); nm_dedup_multi_index_lookup_obj s t x in
  match new_entry s t old (boxed n w) with
  | Some e => exists o v h, eo = Some e /\ old = Some (o, v) /\ tracked s e t h o v /\
                NmpObject.part_key t (boxed o v) = NmpObject.part_key t (boxed n w)
  | None => absent s t (boxed n w) /\
            (forall e, eo = Some e -> exists o v h, old = Some (o, v) /\ tracked s e t h o v /\
               nm_dedup_multi_idx_type_partition_equal t (Some (boxed o v)) (Some (boxed n w)) = false)
  end.
Proof.
  intros Hok Hs Hr eo. destruct (rp_new _ _ _ _ _ Hr n w eq_refl) as (_ & _ & Hn & _).
  pose proof (needle_boxed _ _ _ _ Hok Hn) as Hneed.
  assert (Habs : (forall o v, old = Some (o, v) -> NmpObject.part_key t (boxed o v) = NmpObject.part_key t (boxed n w) -> ~ divided t o v) ->
            absent s t (boxed n w)).
  { intros Hold e h p z Ht Epk Eid. assert (M p z) as HM by (apply Hs; by exists e, h).
    destruct (rp_same _ _ _ _ _ Hr p z n w eq_refl HM Eid) as [Eo _]. apply (Hold p z Eo Epk). by apply Hs; exists e, h. }
  unfold new_entry. destruct old as [[o v]|]; cbn [fmap option_fmap option_map at_addr fst snd] in *.
  2:{ subst eo. cbn in *. destruct (nm_dedup_multi_index_lookup_obj s t (boxed n w)) as [e|] eqn:El; [|by split; [apply Habs|]].
      apply (lookup_obj_spec s ext t _ e Hok Hneed) in El as (h & p & z & Ht & _ & Eid).
      assert (M p z) as HM by (apply Hs; by exists e, h). by destruct (rp_same _ _ _ _ _ Hr p z n w eq_refl HM Eid). }
  destruct (rp_old _ _ _ _ _ Hr o v eq_refl) as (HM & _ & Ho). pose proof (rp_id _ _ _ _ _ Hr o v n w eq_refl eq_refl) as Eid.
  pose proof (lookup_handle s ext t M o v Hok Hs (rp_ids _ _ _ _ _ Hr) HM Ho) as Hold.
  change (at_addr (o, v)) with (boxed o v) in *. subst eo. cbn [mbind option_bind].
  assert (nm_dedup_multi_idx_type_id_equal t (boxed o v) (boxed n w) = true) as ->.
  { unfold nm_dedup_multi_idx_type_id_equal. apply orb_true_iff. destruct (decide (o = n)) as [->|Hne]; [left; apply Z.eqb_refl|right].
    apply (id_equal_law t (vals (heap s))); [done|by apply (ho_val _ _ (ix_heap _ _ Hok) o)|done| |done]. cbn. congruence. }
  cbn [andb]. destruct (nm_dedup_multi_idx_type_partition_equal t (Some (boxed o v)) (Some (boxed n w))) eqn:Ep.
  - apply (partition_equal_vals s ext) in Ep; [|done..]. destruct (nm_dedup_multi_index_lookup_obj s t (boxed o v)) as [e|].
    + destruct Hold as [h Ht]. by exists o, v, h.
    + split; [|done]. apply Habs. intros o2 v2 [= <- <-] _. done.
  - assert (Hne : divided t o v -> NmpObject.part_key t (boxed o v) <> NmpObject.part_key t (boxed n w)).
    { intros Hd E. destruct (proj2 (Hs o v) (conj HM Hd)) as (e & h & Ht).
      assert (nm_dedup_multi_idx_type_partition_equal t (Some (boxed o v)) (Some (boxed n w)) = true); [|congruence].
      by apply (partition_equal_spec s ext e t h o v). }
    destruct (nm_dedup_multi_index_lookup_obj s t (boxed n w)) as [e|] eqn:El.
    + exfalso. apply (lookup_obj_spec s ext t _ e Hok Hneed) in El as (h & p & z & Ht & Epk & Eid2).
      assert (in_handle s t p z) as Hin by by exists e, h. destruct (proj1 (Hs p z) Hin) as [HMp Hd].
      destruct (rp_ids _ _ _ _ _ Hr p z o v HMp HM) as [-> ->]; [etransitivity; [exact Eid2|by symmetry]|]. by apply Hne.
    + split.
      * apply Habs. intros o2 v2 [= <- <-] E Hd. by apply Hne.
      * intros e El2. rewrite El2 in Hold. destruct Hold as [h Ht]. by exists o, v, h.
Qed.

Lemma tracked_main_fun s e1 e2 t h1 h2 o v w : tracked s e1 t h1 o v -> tracked s e2 OT h2 o w -> v = w.
Proof. intros (? & ? & _ & _ & _ & _ & _ & H1') (? & ? & _ & _ & _ & _ & _ & H2'). congruence. Qed.

(** The object of an entry has the value that the main handle has for it. *)
Lemma new_value s s1 e t h n w v' :
  t <> OT -> others_keep s s1 t -> in_main s n w -> tracked s1 e t h n v' -> v' = w.
Proof.
  intros Hot Hoth (em & hm & Hm) Ht1. assert (tracked s1 em OT hm n w) as Hm1 by by apply Hoth.
  by apply (tracked_main_fun _ _ _ _ _ _ _ _ _ Ht1 Hm1).
Qed.

(** The old entry goes, unless it is the new one. *)
Lemma drop_old s ext t (eo en : option positive) :
  index_ok s ext -> t <> OT ->
  (forall e, eo = Some e -> en <> Some e -> exists h o v, tracked s e t h o v) ->
  exists s', (match eo with
              | Some e => if bool_decide (en = Some e) then Some s
                          else '(_, s) ← nm_dedup_multi_index_remove_entry s (inl e); Some s
              | None => Some s
              end) = Some s' /\ index_ok s' ext /\ keeps ext s s' /\ others_keep s s' t /\
    (forall p z, in_handle s' t p z <-> in_handle s t p z /\ forall e h v, eo = Some e -> en <> Some e -> ~ tracked s e t h p v).
Proof.
  intros Hok Ht He. destruct eo as [e|].
  2:{ exists s. split_and!; [done|done|apply keeps_refl|done|]. intros p z. split; [intros Hp; by split|by intros []]. }
  case_bool_decide as Ee.
  { exists s. split_and!; [done|done|apply keeps_refl|done|]. intros p z. split; [|by intros []].
    intros Hp. split; [done|]. intros e2 h v [= <-]. done. }
  destruct (He e eq_refl Ee) as (h & o & v & Htr).
  destruct (remove_entry_ok s ext e t h o v Hok Htr) as (s' & E & Hok' & Hk & Hrem).
  exists s'. cbn [nm_dedup_multi_index_remove_entry]. rewrite E. cbn [mbind option_bind].
  split_and!; [done|done|done|by eapply entry_removed_others|]. intros p z. split.
  - intros (e2 & h2 & [Hne Ht2]%(er_tracked _ _ _ _ Hrem)). split; [by exists e2, h2|]. intros e3 h3 v3 [= <-] _ Ht3. apply Hne.
    apply (ix_unique _ _ Hok _ _ _ _ _ _ _ _ _ Ht2 Ht3);
      destruct Ht3 as (? & ? & _ & _ & _ & _ & _ & Hv), Ht2 as (? & ? & _ & _ & _ & _ & _ & Hv2); congruence.
  - intros [(e2 & h2 & Ht2) Hne]. exists e2, h2. apply (er_tracked _ _ _ _ Hrem). split; [|done]. intros ->.
    by eapply (Hne e).
Qed.

Lemma part_head_tracked s t h e o v x : tracked s e t h o v -> NmpObject.part_key t (boxed o v) = NmpObject.part_key t x -> part_head s t x h.
Proof. intros Ht E. by exists e, o, v. Qed.

(** The new object was added to a handle; what is left to do is to remove the entry
    of the old object ([eo]), if it is not that of the new one ([out]). *)
Record moved s s1 ext t M old (n : positive) (w : NMPObjectData) (eo out : option positive) : Prop := {
  mv_ok : index_ok s1 ext;
  mv_keeps : keeps ext s s1;
  mv_others : others_keep s s1 t;
  mv_old e : eo = Some e -> out <> Some e -> exists h o v, tracked s1 e t h o v;
  mv_objects p z : (in_handle s1 t p z /\ forall e h v, eo = Some e -> out <> Some e -> ~ tracked s1 e t h p v)
    <-> replaced M old (Some (n, w)) p z /\ divided t p z
}.

(** The new object takes over the entry. *)
Lemma move_same s ext t M n w is_dump e o v h :
  index_ok s ext -> t <> OT -> synced s t M -> replacing s ext M (Some (o, v)) (Some (n, w)) -> t ∈ supported_cache_ids w ->
  tracked s e t h o v -> NmpObject.part_key t (boxed o v) = NmpObject.part_key t (boxed n w) ->
  exists r, add_existing s n e (add_mode is_dump (boxed n w)) (if is_dump then None else Some e) false = Some r /\
    moved s (added_to r) ext t M (Some (o, v)) n w (Some e) (out_entry r).
Proof.
  intros Hok Hot Hs Hr Hsup Ht Epk. destruct (rp_new _ _ _ _ _ Hr n w eq_refl) as (Hmain & Hpool & Hn & Hc).
  destruct (rp_old _ _ _ _ _ Hr o v eq_refl) as (HM & _ & Ho). pose proof (rp_id _ _ _ _ _ Hr o v n w eq_refl eq_refl) as Eid.
  destruct (rp_same _ _ _ _ _ Hr o v n w eq_refl HM Eid) as [_ Hdiff]. pose proof Ht as (en0 & hd & He & _ & Eh & Hhd & _).
  destruct (add_existing_ok s ext n w e t h o v (add_mode is_dump (boxed n w)) (if is_dump then None else Some e) false hd
              Hok Ht Hhd Hn Hc (eq_sym Epk) (eq_sym Eid)) as (s1 & o' & v' & E & Hok1 & Hk1 & Hval & Hset).
  { destruct is_dump; [apply anchor_none|]. intros w' [= <-]. by apply (tracked_member _ _ _ _ _ _ _ _ Hok Ht Hhd). }
  rewrite E. eexists. split; [done|]. cbn [added_to out_entry]. rewrite Hdiff in Hval. destruct Hval as [_ Hsame].
  rewrite (Hsame Hpool) in Hset. clear Hsame.
  assert (Hoth : others_keep s s1 t).
  { apply (entry_set_others _ _ _ _ _ _ _ _ Hset). intros j h2 o2 v2 Ht2. by destruct (tracked_fun _ _ _ _ _ _ _ _ _ _ Ht2 Ht) as [-> _]. }
  assert (tracked s1 e t h n v') as Ht1 by (apply (es_tracked _ _ _ _ _ _ _ _ Hset); by left).
  pose proof (new_value _ _ _ _ _ _ _ _ Hot Hoth Hmain Ht1) as ->.
  assert (divided t o v) as Hdo by (apply (proj1 (Hs o v)); by exists e, h).
  split; [done|done|done|intros e2 [= <-] Hc2; by destruct Hc2|]. intros p z. split.
  - intros [(e2 & h2 & Ht2) _]. apply (es_tracked _ _ _ _ _ _ _ _ Hset) in Ht2 as [(-> & _ & -> & -> & ->)|[Hne Ht2]].
    + split; [by left|]. split; [done|]. rewrite <-Epk. apply Hdo.
    + destruct (proj1 (Hs p z)) as [HMp Hd]; [by exists e2, h2|]. split; [|done]. right. split; [done|]. intros [= -> ->]. apply Hne.
      by apply (ix_unique _ _ Hok _ _ _ _ _ _ _ _ _ Ht2 Ht).
  - intros [[[= <- <-]|[HMp Hne]] Hd]; [by split; [exists e, h|]|].
    destruct (proj2 (Hs p z) (conj HMp Hd)) as (e2 & h2 & Ht2). split; [|intros e3 h3 v3 [= <-]; done].
    exists e2, h2. apply (es_tracked _ _ _ _ _ _ _ _ Hset). right. split; [|done]. intros ->.
    destruct (tracked_fun _ _ _ _ _ _ _ _ _ _ Ht Ht2) as (_ & _ & -> & ->). done.
Qed.

(** The entry of the old object in a handle. *)
Lemma old_handle s ext t M old new p z :
  index_ok s ext -> synced s t M -> replacing s ext M old new -> old = Some (p, z) -> in_handle s t p z ->
  exists e h, (x ← (at_addr <$> old); nm_dedup_multi_index_lookup_obj s t x) = Some e /\ tracked s e t h p z.
Proof.
  intros Hok Hs Hr Eold Hin. destruct (proj1 (Hs p z) Hin) as [HM Hd]. destruct (rp_old _ _ _ _ _ Hr p z Eold) as (_ & _ & Hp).
  pose proof (lookup_handle s ext t M p z Hok Hs (rp_ids _ _ _ _ _ Hr) HM Hp) as Hl. rewrite Eold. cbn.
  change (at_addr (p, z)) with (boxed p z). destruct (nm_dedup_multi_index_lookup_obj s t (boxed p z)) as [e|]; [|done].
  destruct Hl as [h Hl]. by exists e, h.
Qed.

(** The objects that are left, when those that were tracked still are ([s1]) and the
    new one may be, too. *)
Lemma moved_objects s s1 ext t M old n w (eo out : option positive) :
  index_ok s ext -> synced s t M -> replacing s ext M old (Some (n, w)) ->
  eo = (x ← (at_addr <$> old); nm_dedup_multi_index_lookup_obj s t x) ->
  (forall e, eo = Some e -> out <> Some e /\ exists o v h, old = Some (o, v) /\ tracked s e t h o v /\ (divided t n w -> n <> o)) ->
  (forall e h p z, tracked s e t h p z -> tracked s1 e t h p z) ->
  (forall e h p z, tracked s1 e t h p z -> tracked s e t h p z \/ (p = n /\ z = w /\ divided t n w)) ->
  (divided t n w -> in_handle s1 t n w) ->
  forall p z, (in_handle s1 t p z /\ forall e h v, eo = Some e -> out <> Some e -> ~ tracked s1 e t h p v)
    <-> replaced M old (Some (n, w)) p z /\ divided t p z.
Proof.
  intros Hok Hs Hr Eeo Hold Hkeep Hback Hnew p z. split.
  - intros [(e2 & h2 & Ht2) Hnone]. destruct (Hback _ _ _ _ Ht2) as [Ht|(-> & -> & Hd)]; [|by split; [left|]].
    destruct (proj1 (Hs p z)) as [HMp Hd]; [by exists e2, h2|]. split; [|done]. right. split; [done|]. intros Eold.
    destruct (old_handle s ext t M old _ p z Hok Hs Hr Eold) as (e3 & h3 & E3 & Ht3); [by exists e2, h2|].
    rewrite <-Eeo in E3. destruct (Hold e3 E3) as [Hout _]. by apply (Hnone e3 h3 z E3 Hout), Hkeep.
  - intros [[[= <- <-]|[HMp Hne]] Hd].
    + split; [by apply Hnew|]. intros e2 h2 v2 E2 _ Ht2. destruct (Hold e2 E2) as (_ & o & v & h3 & Eold & Ht3 & Hdiff).
      destruct (tracked_fun _ _ _ _ _ _ _ _ _ _ Ht2 (Hkeep _ _ _ _ Ht3)) as (_ & _ & E & _). by apply Hdiff.
    + destruct (proj2 (Hs p z) (conj HMp Hd)) as (e2 & h2 & Ht2). split; [exists e2, h2; by apply Hkeep|].
      intros e3 h3 v3 E3 _ Ht3. destruct (Hold e3 E3) as (_ & o & v & h4 & Eold & Ht4 & _).
      destruct (tracked_fun _ _ _ _ _ _ _ _ _ _ Ht3 (Hkeep _ _ _ _ Ht4)) as (_ & _ & -> & ->).
      assert (z = v) as ->; [|congruence].
      destruct Ht2 as (? & ? & _ & _ & _ & _ & _ & Hv2), Ht4 as (? & ? & _ & _ & _ & _ & _ & Hv4). congruence.
Qed.

(** The new object gets an entry of its own, or none. *)
Lemma move_other s ext t M old n w is_dump eo :
  index_ok s ext -> t <> OT -> synced s t M -> replacing s ext M old (Some (n, w)) -> t ∈ supported_cache_ids w ->
  eo = (x ← (at_addr <$> old); nm_dedup_multi_index_lookup_obj s t x) -> absent s t (boxed n w) ->
  (forall e, eo = Some e -> exists o v h, old = Some (o, v) /\ tracked s e t h o v /\
     nm_dedup_multi_idx_type_partition_equal t (Some (boxed o v)) (Some (boxed n w)) = false) ->
  exists r, add_new s t n (add_mode is_dump (boxed n w)) None LOOKUP = Some r /\
    moved s (added_to r) ext t M old n w eo (out_entry r).
Proof.
  intros Hok Hot Hs Hr Hsup Eeo Habs Hold. destruct (rp_new _ _ _ _ _ Hr n w eq_refl) as (Hmain & Hpool & Hn & Hc).
  pose proof (add_new_ok s ext n w t (add_mode is_dump (boxed n w)) None LOOKUP Hok Hn Hc Habs (Logic.I) ltac:(done)) as Hadd.
  cbn zeta in Hadd. change (DedupInv.part_key t (boxed n w)) with (NmpObject.part_key t (boxed n w)) in Hadd.
  assert (Hne : forall o v, nm_dedup_multi_idx_type_partition_equal t (Some (boxed o v)) (Some (boxed n w)) = false -> n <> o).
  { intros o v Hdiff <-. unfold nm_dedup_multi_idx_type_partition_equal in Hdiff. cbn in Hdiff. by rewrite Pos.eqb_refl in Hdiff. }
  destruct (NmpObject.part_key t (boxed n w)) as [k|] eqn:Ek.
  - destruct Hadd as (s1 & e & h & o' & v' & E & Hok1 & Hk1 & _ & Hsame & Hadded). rewrite E. eexists. split; [done|]. cbn [added_to out_entry].
    rewrite (Hsame Hpool) in Hadded. pose proof (ea_set _ _ _ _ _ _ _ _ _ Hadded) as Hset.
    assert (Hnot : forall j h2 o2 v2, ~ tracked s e j h2 o2 v2).
    { pose proof (ea_fresh _ _ _ _ _ _ _ _ _ Hadded). intros j h2 o2 v2 (? & ? & He & _). congruence. }
    assert (Hoth : others_keep s s1 t) by (apply (entry_set_others _ _ _ _ _ _ _ _ Hset); intros j h2 o2 v2 Ht2; by destruct (Hnot _ _ _ _ Ht2)).
    assert (tracked s1 e t h n v') as Ht1 by (apply (es_tracked _ _ _ _ _ _ _ _ Hset); by left).
    pose proof (new_value _ _ _ _ _ _ _ _ Hot Hoth Hmain Ht1) as ->.
    assert (Hkeep : forall e2 h2 p z, tracked s e2 t h2 p z -> tracked s1 e2 t h2 p z).
    { intros e2 h2 p z Ht2. apply (es_tracked _ _ _ _ _ _ _ _ Hset). right. split; [|done]. intros ->. by destruct (Hnot _ _ _ _ Ht2). }
    assert (Hdn : divided t n w) by (split; [done|by rewrite Ek]).
    split; [done|done|done| |].
    + intros e2 Ee _. destruct (Hold e2 Ee) as (o & v & h2 & _ & Ht2 & _). eauto 10.
    + apply (moved_objects s s1 ext t M old n w eo (Some e) Hok Hs Hr Eeo); [|done| |intros _; by exists e, h].
      * intros e2 Ee. destruct (Hold e2 Ee) as (o & v & h2 & Eold & Ht2 & Hdiff).
        split; [intros [= ->]; by destruct (Hnot _ _ _ _ Ht2)|]. exists o, v, h2. split_and!; [done|done|intros _; by apply (Hne o v)].
      * intros e2 h2 p z Ht2. apply (es_tracked _ _ _ _ _ _ _ _ Hset) in Ht2 as [(-> & _ & -> & -> & ->)|[_ Ht2]]; auto.
  - rewrite Hadd. eexists. split; [done|]. cbn [added_to out_entry]. split; [done|apply keeps_refl|done| |].
    + intros e2 Ee _. destruct (Hold e2 Ee) as (o & v & h2 & _ & Ht2 & _). eauto.
    + apply (moved_objects s s ext t M old n w eo None Hok Hs Hr Eeo); [|done|by left|intros [_ [? Hd]]; congruence].
      intros e2 Ee. destruct (Hold e2 Ee) as (o & v & h2 & Eold & Ht2 & Hdiff). split; [done|]. exists o, v, h2.
      split_and!; [done|done|intros _; by apply (Hne o v)].
Qed.

(** What is left of the old object goes. *)
Lemma finish_move s s1 ext t M old n w eo out :
  t <> OT -> moved s s1 ext t M old n w eo out ->
  exists s', (match eo with
              | Some e => if bool_decide (out = Some e) then Some s1
                          else '(_, s) ← nm_dedup_multi_index_remove_entry s1 (inl e); Some s
              | None => Some s1
              end) = Some s' /\
    index_ok s' ext /\ keeps ext s s' /\ others_keep s s' t /\ synced s' t (replaced M old (Some (n, w))).
Proof.
  intros Ht [Hok Hk Hoth Hold Hobj]. destruct (drop_old s1 ext t eo out Hok Ht Hold) as (s' & E & Hok' & Hk' & Hoth' & Hin).
  exists s'. split_and!; [done|done|by eapply keeps_trans|by eapply others_keep_trans|]. intros p z. by rewrite Hin.
Qed.

(** Without a new object, that of the old one goes. *)
Lemma handle_loses s ext t M old :
  index_ok s ext -> t <> OT -> synced s t M -> replacing s ext M old None ->
  exists s', (match x ← (at_addr <$> old); nm_dedup_multi_index_lookup_obj s t x with
              | Some e => '(_, s) ← nm_dedup_multi_index_remove_entry s (inl e); Some s
              | None => Some s
              end) = Some s' /\
    index_ok s' ext /\ keeps ext s s' /\ others_keep s s' t /\ synced s' t (replaced M old None).
Proof.
  intros Hok Hot Hs Hr. set (eo := x ← (at_addr <$> old); nm_dedup_multi_index_lookup_obj s t x).
  assert (Hold : forall e, eo = Some e -> exists o v h, old = Some (o, v) /\ tracked s e t h o v).
  { intros e Ee. subst eo. destruct old as [[o v]|]; [|done]. cbn in Ee. change (at_addr (o, v)) with (boxed o v) in Ee.
    destruct (rp_old _ _ _ _ _ Hr o v eq_refl) as (HM & _ & Hv).
    pose proof (lookup_handle s ext t M o v Hok Hs (rp_ids _ _ _ _ _ Hr) HM Hv) as Hl. rewrite Ee in Hl. destruct Hl as [h Hl]. eauto. }
  destruct (drop_old s ext t eo None Hok Hot) as (s' & E & Hok' & Hk & Hoth & Hin).
  { intros e Ee _. destruct (Hold e Ee) as (o & v & h & _ & Ht). eauto. }
  exists s'. split; [by destruct eo|]. split_and!; [done|done|done|]. intros p z. rewrite Hin. split.
  - intros [Hp Hnone]. destruct (proj1 (Hs p z) Hp) as [HM Hd]. split; [|done]. right. split; [done|]. intros Eold.
    destruct (old_handle s ext t M old _ p z Hok Hs Hr Eold Hp) as (e & h & Ee & Ht). by apply (Hnone e h z Ee).
  - intros [[|[HM Hne]] Hd]; [done|]. split; [by apply Hs|]. intros e h v Ee _ Ht.
    destruct (Hold e Ee) as (o & v2 & h2 & Eold & Ht2). destruct (tracked_fun _ _ _ _ _ _ _ _ _ _ Ht Ht2) as (_ & _ & -> & ->).
    destruct (proj1 (Hs o v2)) as [HM2 _]; [by exists e, h2|]. destruct (proj2 (Hs o z) (conj HM Hd)) as (e3 & h3 & Ht3).
    apply Hne. rewrite Eold. do 2 f_equal. apply tracked_at in Ht2, Ht3. rewrite Ht3 in Ht2. by injection Ht2.
Qed.

(** _idxcache_update_other_cache_ids () replaces the object in a handle. *)
Lemma other_cache_ids_ok s ext t M old new is_dump :
  index_ok s ext -> t <> OT -> synced s t M -> replacing s ext M old new ->
  (forall n w, new = Some (n, w) -> t ∈ supported_cache_ids w) ->
  exists s', _idxcache_update_other_cache_ids t (at_addr <$> old) (at_addr <$> new) (default 1%positive (fst <$> new)) is_dump s = Some s' /\
    index_ok s' ext /\ keeps ext s s' /\ others_keep s s' t /\ synced s' t (replaced M old new).
Proof.
  intros Hok Hot Hs Hr Hsup. unfold _idxcache_update_other_cache_ids.
  destruct new as [[n w]|]; cbn [fmap option_fmap option_map default fst id from_option]; [|by eapply handle_loses].
  change (at_addr (n, w)) with (boxed n w). specialize (Hsup n w eq_refl).
  pose proof (new_entry_spec s ext t M old n w Hok Hs Hr) as Hspec. cbn zeta in Hspec. unfold new_entry in Hspec.
  set (eo := x ← (at_addr <$> old); nm_dedup_multi_index_lookup_obj s t x) in *.
  assert (Hn : obj_at s n = Some (boxed n w)) by (unfold obj_at; by destruct (rp_new _ _ _ _ _ Hr n w eq_refl) as (_ & _ & -> & _)).
  unfold nm_dedup_multi_index_add_full.
  match type of Hspec with match ?en with _ => _ end => destruct en as [e|] end.
  - destruct Hspec as (o & v & h & Eo & -> & Ht & Epk). pose proof Ht as (en & hd & He & _ & Eh & _). rewrite Eo. cbn [mbind option_bind].
    rewrite He. cbn [mbind option_bind]. rewrite Hn. cbn [mbind option_bind _add].
    destruct (move_same s ext t M n w is_dump e o v h Hok Hot Hs Hr Hsup Ht Epk) as (r & -> & Hm). cbn [mbind option_bind].
    by apply (finish_move s (added_to r) ext t M (Some (o, v)) n w (Some e) (out_entry r) Hot).
  - destruct Hspec as [Habs Hold].
    destruct (move_other s ext t M old n w is_dump eo Hok Hot Hs Hr Hsup eq_refl Habs Hold) as (r & E & Hm).
    assert (match eo with
            | Some e => en ← entries s !! e; x ← obj_at s (en_obj en);
                Some (if nm_dedup_multi_idx_type_partition_equal t (Some x) (Some (boxed n w)) then Some e else None)
            | None => Some None
            end = Some None) as ->.
    { destruct eo as [e|]; [|done]. destruct (Hold e eq_refl) as (o & v & h & _ & Ht & Ep). pose proof Ht as (en & hd & -> & <- & _).
      cbn [mbind option_bind]. rewrite (tracked_at _ _ _ _ _ _ Ht). cbn [mbind option_bind]. by rewrite Ep. }
    cbn [mbind option_bind]. rewrite Hn. cbn [mbind option_bind _add]. replace (if is_dump then None else None) with (@None positive) by by destruct is_dump.
    rewrite E. cbn [mbind option_bind]. by apply (finish_move s (added_to r) ext t M old n w eo (out_entry r) Hot).
Qed.

(** ** All other handles *)

(** Handles that are not in the list stay. *)
Definition outside_keep s s' (ts : list NMPCacheIdType) : Prop :=
  forall e j h o v, j ∉ ts -> (tracked s' e j h o v <-> tracked s e j h o v) /\ (tracked s e j h o v -> dirty_of s' e = dirty_of s e).

Lemma others_outside s1 s2 s3 t ts : others_keep s1 s2 t -> outside_keep s2 s3 ts -> outside_keep s1 s3 (t :: ts).
Proof.
  intros H12 H23 e j h o v [Hj Hjs]%not_elem_of_cons. destruct (H12 e j h o v Hj) as [E1 D1], (H23 e j h o v Hjs) as [E2 D2].
  split; [by rewrite E2|]. intros Ht. rewrite D2 by by apply E1. by apply D1.
Qed.

Lemma synced_keep s s' t M :
  (forall e h o v, tracked s' e t h o v <-> tracked s e t h o v) -> synced s t M -> synced s' t M.
Proof. intros Ht Hs o v. rewrite <-(Hs o v). split; intros (e & h & He); exists e, h; by apply Ht. Qed.

Lemma in_main_pool s ext o v : index_ok s ext -> in_main s o v -> o ∈ idx_objs (heap s) /\ vals (heap s) !! o = Some v /\ cacheable v.
Proof.
  intros Hok (e & h & Ht). destruct (ix_part _ _ Hok _ _ _ _ _ Ht) as [_ Hc]. destruct Ht as (en & hd & He & <- & _ & _ & _ & Hv).
  split; [by apply (ix_pool _ _ Hok e)|done].
Qed.

Lemma replacing_keep s s' ext t M old new :
  index_ok s' ext -> keeps ext s s' -> others_keep s s' t -> t <> OT -> replacing s ext M old new -> replacing s' ext M old new.
Proof.
  intros Hok Hk Hoth Ht [Hids Hold Hnew Hsame Hid]. split; [done| | |done|done].
  - intros o v E. destruct (Hold o v E) as (HM & Hx & Hv). split_and!; [done|done|]. by rewrite (proj1 (Hk o Hx)).
  - intros n w E. destruct (Hnew n w E) as (Hm & _). assert (in_main s' n w) as Hm' by by apply (others_keep_main s s' t).
    split; [done|by apply (in_main_pool s' ext)].
Qed.

Lemma opt_obj_at_Some s (x : option (positive * NMPObjectData)) :
  (forall o v, x = Some (o, v) -> vals (heap s) !! o = Some v) -> opt_obj_at s (fst <$> x) = Some (at_addr <$> x).
Proof. destruct x as [[o v]|]; [|done]. intros Hx. cbn. unfold obj_at. by rewrite (Hx o v eq_refl). Qed.

Lemma update_others_ok ts s ext M old new is_dump :
  index_ok s ext -> NoDup ts -> (forall t, t ∈ ts -> t <> OT /\ synced s t M) -> replacing s ext M old new ->
  (forall n w t, new = Some (n, w) -> t ∈ ts -> t ∈ supported_cache_ids w) ->
  exists s', update_others ts (fst <$> old) (fst <$> new) is_dump s = Some s' /\
    index_ok s' ext /\ keeps ext s s' /\ outside_keep s s' ts /\ (forall t, t ∈ ts -> synced s' t (replaced M old new)).
Proof.
  revert s. induction ts as [|t ts IH]; intros s Hok Hnd Hts Hr Hsup.
  { exists s. split_and!; [done|done|apply keeps_refl|done|by intros t ?%elem_of_nil]. }
  apply NoDup_cons in Hnd as [Hnin Hnd]. destruct (Hts t) as [Hot Hs]; [left|].
  destruct (other_cache_ids_ok s ext t M old new is_dump Hok Hot Hs Hr) as (s1 & E & Hok1 & Hk1 & Hoth1 & Hs1).
  { intros n w En. apply (Hsup n w); [done|left]. }
  cbn [update_others]. rewrite (opt_obj_at_Some s old) by (intros o v Eo; by apply (rp_old _ _ _ _ _ Hr)).
  cbn [mbind option_bind]. rewrite (opt_obj_at_Some s new) by (intros o v Eo; by apply (rp_new _ _ _ _ _ Hr)).
  cbn [mbind option_bind]. rewrite E. cbn [mbind option_bind].
  destruct (IH s1) as (s2 & E2 & Hok2 & Hk2 & Hout & Hs2); [done|done| |by eapply replacing_keep|intros n w t2 En Ht2; apply (Hsup n w); [done|by right]|].
  { intros t2 Ht2. destruct (Hts t2) as [Hot2 Hst2]; [by right|]. split; [done|].
    apply (synced_keep s); [|done]. intros e h o v. apply Hoth1. by intros ->. }
  exists s2. split_and!; [done|done|by eapply keeps_trans|by eapply others_outside|]. intros t2 [->|Ht2]%elem_of_cons; [|by apply Hs2].
  apply (synced_keep s1); [|done]. intros e h o v. by apply Hout.
Qed.
End sync.
