(* ===== verification/NmpCacheUpdate.v ===== *)
(** * NMPCache: replacing an object

    _idxcache_update () gives the entry of an object in the main handle another
    object, or removes it, and updates the other handles: the invariant of the cache
    holds again, and no other object changed. *)

From S2P Require Export NmpCacheSync.

Section update.
Context `{ByteOrder} `{KernelSupport} `{SipHash} `{LinkDriver}.
Implicit Types (s : Index) (ext : positive -> nat) (old new : option (positive * NMPObjectData)) (M : positive -> NMPObjectData -> Prop).

(** ** Objects of the pool that stand for others *)

Lemma stands_key p v q w : cacheable w -> stands_for (boxed p v) (boxed q w) -> object_key (boxed p v) = object_key (boxed q w).
Proof.
  unfold stands_for. cbn. intros Hc [->|[_ Hk]]; [|done]. unfold object_key. cbn.
  destruct w; try done. unfold routing_rule_key. cbn in *. by rewrite Hc.
Qed.

Lemma object_key_alive (x y : NMPObject) :
  cacheable (at_obj x) -> object_key x = object_key y -> nmp_object_is_alive x = nmp_object_is_alive y.
Proof.
  intros Hc E. assert (Et : obj_type (at_obj x) = obj_type (at_obj y)) by (unfold object_key in E; congruence).
  unfold object_key in E. apply (f_equal (fun k => match k with KL l => l | _ => [] end)) in E.
  assert (Ek := f_equal (fun l => nth 1 l (KZ 0)) E). cbn [nth] in Ek. clear E. destruct x as [p x], y as [q y]. cbn [at_obj] in *.
  destruct x as [lx|ax|ax|rx|rx|rx|qx|fx|lx], y as [ly|ay|ay|ry|ry|ry|qy|fy|ly]; try discriminate Et;
    try (destruct lx; discriminate Et); try (destruct ly; discriminate Et); try done; unfold nmp_object_is_alive; cbn [at_obj].
  - unfold object_link_key, link_key in Ek. assert (ol_is_in_netlink lx = ol_is_in_netlink ly) as -> by (apply Z.b2z_inj; congruence).
    by assert (lk_ifindex (ol_link lx) = lk_ifindex (ol_link ly) /\ ol_udev_device lx = ol_udev_device ly) as [-> ->] by (split; congruence).
  - unfold ip4_address_key in Ek. by assert (ax_ifindex (a4_ax ax) = ax_ifindex (a4_ax ay)) as -> by congruence.
  - unfold ip6_address_key in Ek. by assert (ax_ifindex (a6_ax ax) = ax_ifindex (a6_ax ay)) as -> by congruence.
  - unfold ipx_route_alive. by assert (rx_ifindex (r4_rx rx) = rx_ifindex (r4_rx ry) /\
      rx_r_rtm_flags (r4_rx rx) = rx_r_rtm_flags (r4_rx ry)) as [-> ->] by (unfold ip4_route_key in Ek; split; congruence).
  - unfold ipx_route_alive. by assert (rx_ifindex (r6_rx rx) = rx_ifindex (r6_rx ry) /\
      rx_r_rtm_flags (r6_rx rx) = rx_r_rtm_flags (r6_rx ry)) as [-> ->] by (unfold ip6_route_key in Ek; split; congruence).
  - unfold routing_rule_key in Ek. cbn [at_obj plobj] in Ek, Hc. rewrite Hc in *. by destruct (af_valid (rr_addr_family ry)).
  - unfold qdisc_key in Ek. by assert (qd_ifindex qx = qd_ifindex qy) as -> by congruence.
  - unfold tfilter_key in Ek. by assert (tf_ifindex fx = tf_ifindex fy) as -> by congruence.
Qed.

(** Objects of a type have the same cache ids. *)
Lemma supported_type v w : cacheable v -> cacheable w -> obj_type v = obj_type w -> supported_cache_ids v = supported_cache_ids w.
Proof.
  intros Hv Hw E. destruct v as [| | | | | | | |lv]; try done; destruct w as [| | | | | | | |lw]; try done; discriminate E.
Qed.

Lemma other_ids_supported t v : t ∈ other_ids v <-> t <> OT /\ t ∈ supported_cache_ids v.
Proof.
  unfold other_ids. rewrite list_elem_of_In, filter_In, <-list_elem_of_In, negb_true_iff, bool_decide_eq_false. tauto.
Qed.

Lemma other_ids_NoDup v : NoDup (other_ids v).
Proof. destruct v; cbn; repeat constructor; set_solver. Qed.

(** Equality in full is equality of the keys. *)
Lemma same_full_keys s ext n w o v :
  index_ok s ext -> vals (heap s) !! n = Some w -> vals (heap s) !! o = Some v -> cacheable w ->
  same_full n o w v = true <-> object_key (boxed n w) = object_key (boxed o v).
Proof.
  intros Hok Hn Ho Hc. unfold same_full. rewrite orb_true_iff, bool_decide_eq_true. split.
  - intros [->|E]; [by assert (w = v) as -> by congruence|].
    by apply (full_equal_key (vals (heap s)) n o w v Hn Ho (ho_val _ _ (ix_heap _ _ Hok) n w Hn) (ho_val _ _ (ix_heap _ _ Hok) o v Ho)).
  - intros E. right.
    by apply (full_equal_key (vals (heap s)) n o w v Hn Ho (ho_val _ _ (ix_heap _ _ Hok) n w Hn) (ho_val _ _ (ix_heap _ _ Hok) o v Ho)).
Qed.

(** ** The main handle *)

(** The entry of the main handle that changes, and its objects. *)
Record request s (eo : option positive) old new : Prop := {
  rq_old e : eo = Some e -> exists o v, old = Some (o, v) /\ main s e o v;
  rq_none : eo = None -> old = None /\ is_Some new;
  rq_new n w : new = Some (n, w) -> vals (heap s) !! n = Some w /\ cacheable w /\ nmp_object_is_alive (boxed n w) = true;
  rq_add n w : eo = None -> new = Some (n, w) -> absent s OT (boxed n w);
  rq_upd o v n w : old = Some (o, v) -> new = Some (n, w) -> oid o v = oid n w /\ same_full n o w v = false
}.

(** The entry [en] has the new object; the others of the main handle stay. *)
Record main_updated s s' (eo en : option positive) new : Prop := {
  mu_main e o v : main s' e o v <-> (en = Some e /\ new = Some (o, v)) \/ (main s e o v /\ eo <> Some e);
  mu_dirty e o v : main s' e o v -> dirty_of s' e = if decide (en = Some e) then Some false else dirty_of s e;
  mu_entry e : en = Some e -> is_Some new /\ (eo = Some e \/ eo = None /\ forall o v, ~ main s e o v);
  mu_some : is_Some new -> is_Some en /\ (is_Some eo -> en = eo)
}.

(** The object of the pool that is added. *)
Definition stands_opt (new' new : option (positive * NMPObjectData)) : Prop :=
  match new', new with
  | Some (n', w'), Some (n, w) => object_key (boxed n' w') = object_key (boxed n w) /\ object_id_key (boxed n' w') = object_id_key (boxed n w)
      /\ obj_type w' = obj_type w /\ cacheable w'
  | None, None => True
  | _, _ => False
  end.

Lemma stands_opt_intro n' w' n w : cacheable w -> stands_for (boxed n' w') (boxed n w) -> stands_opt (Some (n', w')) (Some (n, w)).
Proof.
  intros Hc Hst. pose proof (stands_key n' w' n w Hc Hst) as E.
  destruct (stands_for_keys OT (boxed n' w') (boxed n w)) as (_ & Eid & Hc'); [exact Hc|exact Hst|]. split_and!; [done|done| |done].
  unfold object_key in E. cbn in E. congruence.
Qed.

(** Main entries of equal identity are one. *)
Lemma main_unique s ext e1 e2 o1 o2 v1 v2 :
  index_ok s ext -> main s e1 o1 v1 -> main s e2 o2 v2 -> oid o1 v1 = oid o2 v2 -> e1 = e2.
Proof.
  intros Hok (h1 & H1') (h2 & H2') E. apply (ix_unique _ _ Hok _ _ _ _ _ _ _ _ _ H1' H2'); [|done]. cbn. by rewrite (oid_type _ _ _ _ E).
Qed.

Lemma main_fun s e o1 o2 v1 v2 : main s e o1 v1 -> main s e o2 v2 -> o1 = o2 /\ v1 = v2.
Proof. intros [h1 H1'] [h2 H2']. by destruct (tracked_fun _ _ _ _ _ _ _ _ _ _ H1' H2') as (_ & _ & ? & ?). Qed.

Lemma entry_set_main s s' e h n w l eo o0 v0 :
  entry_set s s' e OT h n w l -> (eo = Some e \/ eo = None /\ forall j h o v, ~ tracked s e j h o v) ->
  main_updated s s' eo (Some e) (Some (n, w)) /\ (is_Some eo -> main s e o0 v0 -> others_keep s s' OT) /\ (eo = None -> others_keep s s' OT).
Proof.
  intros Hset He. split_and!.
  - split.
    + intros e2 o v. split.
      * intros [h2 Ht]. apply (es_tracked _ _ _ _ _ _ _ _ Hset) in Ht as [(-> & _ & _ & -> & ->)|[Hne Ht]]; [by left|].
        right. split; [by exists h2|]. destruct He as [->|[-> _]]; congruence.
      * intros [[[= ->] [= -> ->]]|[[h2 Ht] Hne]]; [exists h; apply (es_tracked _ _ _ _ _ _ _ _ Hset); by left|].
        exists h2. apply (es_tracked _ _ _ _ _ _ _ _ Hset). right. split; [|done]. intros ->. destruct He as [->|[_ He]]; [done|].
        by apply He in Ht.
    + intros e2 o v _. rewrite (es_dirty _ _ _ _ _ _ _ _ Hset). destruct (decide (e2 = e)) as [->|]; [by rewrite decide_True|].
      by rewrite decide_False by congruence.
    + intros e2 [= <-]. split; [done|]. destruct He as [->|[-> He]]; [by left|]. right. split; [done|]. by intros o v [h2 Ht%He].
    + intros _. split; [done|]. destruct He as [->|[-> _]]; [done|by intros []].
  - intros _ [h0 Ht0]. apply (entry_set_others _ _ _ _ _ _ _ _ Hset). intros j h2 o2 v2 Ht2.
    by destruct (tracked_fun _ _ _ _ _ _ _ _ _ _ Ht2 Ht0) as [-> _].
  - intros ->. destruct He as [|[_ He]]; [done|]. apply (entry_set_others _ _ _ _ _ _ _ _ Hset). intros j h2 o2 v2 Ht2. by apply He in Ht2.
Qed.

(** The main handle gets the object. *)
Lemma update_main_sets s ext eo old n w is_dump :
  index_ok s ext -> request s eo old (Some (n, w)) ->
  exists s' en new', update_main eo (Some n) is_dump s = Some (en, s') /\ index_ok s' ext /\ keeps ext s s' /\
    others_keep s s' OT /\ main_updated s s' eo en new' /\ stands_opt new' (Some (n, w)).
Proof.
  intros Hok Hrq. destruct (rq_new _ _ _ _ Hrq n w eq_refl) as (Hn & Hc & Ha). cbn [update_main].
  assert (Hat : obj_at s n = Some (boxed n w)) by (unfold obj_at; by rewrite Hn). unfold nm_dedup_multi_index_add_full.
  rewrite Hat. cbn [mbind option_bind]. destruct eo as [e|].
  - destruct (rq_old _ _ _ _ Hrq e eq_refl) as (o & v & -> & [h Ht]). destruct (rq_upd _ _ _ _ Hrq o v n w eq_refl eq_refl) as [Eid Hdiff].
    pose proof Ht as (_ & hd & _ & _ & _ & Hhd & _).
    destruct (add_existing_ok s ext n w e OT h o v (add_mode is_dump (boxed n w)) None true hd Hok Ht Hhd Hn Hc)
      as (s1 & n' & w' & E & Hok1 & Hk1 & Hval & Hset); [cbn; by rewrite (oid_type _ _ _ _ Eid)|by symmetry|done|].
    cbn [_add]. rewrite E. cbn [mbind option_bind out_obj_old added_to out_entry unref_opt].
    destruct (unref_ok s1 ext o Hok1) as (hp & Eu & Hok2 & _ & Hk2 & Ht2). unfold nmp_object_unref. rewrite Eu. cbn [mbind option_bind].
    assert (entry_set s (with_heap hp s1) e OT h n' w' (move_entry (add_mode is_dump (boxed n w)) None e (lst_entries_head hd)).2) as Hset2.
    { destruct Hset as [S1 S2 S3]. split; [|exact S2|exact S3]. intros. by rewrite <-Ht2. }
    destruct (entry_set_main s (with_heap hp s1) e h n' w' _ (Some e) o v Hset2 (or_introl eq_refl)) as (Hmu & Hoth & _).
    exists (with_heap hp s1), (Some e), (Some (n', w')). split; [done|].
    split; [done|]. split; [by apply (keeps_trans _ _ s1)|]. split; [by apply Hoth; [|exists h]|]. split; [done|]. rewrite Hdiff in Hval. apply stands_opt_intro; [done|apply Hval].
  - pose proof (add_new_ok s ext n w OT (add_mode is_dump (boxed n w)) None LOOKUP Hok Hn Hc (rq_add _ _ _ _ Hrq n w eq_refl eq_refl)
      (Logic.I) ltac:(done)) as Hadd. cbn zeta in Hadd. cbn [_add]. unfold DedupInv.part_key, nmp_idx_laws, NmpObject.part_key in Hadd.
    destruct Hadd as (s1 & e & h & n' & w' & E & Hok1 & Hk1 & Hst & _ & Hadded). rewrite E. cbn [mbind option_bind out_obj_old added_to out_entry unref_opt].
    destruct (entry_set_main s s1 e h n' w' _ None n w (ea_set _ _ _ _ _ _ _ _ _ Hadded)) as (Hmu & _ & Hoth).
    { right. split; [done|]. intros j h2 o2 v2 (en & _ & He & _). pose proof (ea_fresh _ _ _ _ _ _ _ _ _ Hadded). congruence. }
    exists s1, (Some e), (Some (n', w')). split; [done|]. split; [done|]. split; [done|].
    split; [by apply Hoth|]. split; [done|by apply stands_opt_intro].
Qed.

(** The main handle loses the entry. *)
Lemma update_main_removes s ext e old is_dump :
  index_ok s ext -> request s (Some e) old None ->
  exists s', update_main (Some e) None is_dump s = Some (None, s') /\ index_ok s' ext /\ keeps ext s s' /\
    others_keep s s' OT /\ main_updated s s' (Some e) None None.
Proof.
  intros Hok Hrq. destruct (rq_old _ _ _ _ Hrq e eq_refl) as (o & v & -> & [h Ht]). cbn [update_main mbind option_bind].
  destruct (remove_entry_ok s ext e OT h o v Hok Ht) as (s1 & E & Hok1 & Hk1 & Hrem). unfold nm_dedup_multi_index_remove_entry.
  rewrite E. cbn [mbind option_bind]. exists s1. split; [done|]. split; [done|]. split; [done|].
  split; [by apply (entry_removed_others _ _ e _ h o v)|]. split; [| |done|by intros []].
  - intros e2 o2 v2. split.
    + intros [h2 [Hne Ht2]%(er_tracked _ _ _ _ Hrem)]. right. split; [by exists h2|]. congruence.
    + intros [[? _]|[[h2 Ht2] Hne]]; [done|]. exists h2. apply (er_tracked _ _ _ _ Hrem). split; [congruence|done].
  - intros e2 o2 v2 [h2 [Hne Ht2]%(er_tracked _ _ _ _ Hrem)]. rewrite (er_dirty _ _ _ _ Hrem). by rewrite decide_False.
Qed.

Lemma update_main_ok s ext eo old new is_dump :
  index_ok s ext -> request s eo old new ->
  exists s' en new', update_main eo (fst <$> new) is_dump s = Some (en, s') /\ index_ok s' ext /\ keeps ext s s' /\
    others_keep s s' OT /\ main_updated s s' eo en new' /\ stands_opt new' new.
Proof.
  intros Hok Hrq. destruct new as [[n w]|]; [by apply (update_main_sets s ext eo old n w)|].
  destruct eo as [e|]; [|by destruct (rq_none _ _ _ _ Hrq eq_refl) as [_ []]].
  destruct (update_main_removes s ext e old is_dump Hok Hrq) as (s' & E & Hrest). exists s', None, None. split; [done|].
  destruct Hrest as (? & ? & ? & ?). by split_and!.
Qed.

(** What is in the main handle then. *)
Lemma updated_in_main s s' ext eo en old new new' :
  index_ok s ext -> request s eo old new -> main_updated s s' eo en new' -> stands_opt new' new ->
  forall p z, in_main s' p z <-> replaced (in_main s) old new' p z.
Proof.
  intros Hok Hrq Hmu Hst p z. split.
  - intros (e & [[_ ->]|[He Hne]]%(mu_main _ _ _ _ _ Hmu)); [by left|]. right. split; [by exists e|]. intros ->. apply Hne.
    destruct eo as [e0|]; [|by destruct (rq_none _ _ _ _ Hrq eq_refl)]. destruct (rq_old _ _ _ _ Hrq e0 eq_refl) as (o & v & [= <- <-] & He0).
    f_equal. by apply (main_unique s ext e0 e p p z z).
  - intros [->|[[e He] Hne]].
    + destruct (mu_some _ _ _ _ _ Hmu) as [[e ->] _]; [done|]. exists e. apply (mu_main _ _ _ _ _ Hmu). by left.
    + exists e. apply (mu_main _ _ _ _ _ Hmu). right. split; [done|]. intros ->.
      destruct (rq_old _ _ _ _ Hrq e eq_refl) as (o & v & -> & He0). by destruct (main_fun _ _ _ _ _ _ He He0) as [-> ->].
Qed.

(** ** The other handles *)

Lemma request_old_main s eo old new o v : request s eo old new -> old = Some (o, v) -> exists e, eo = Some e /\ main s e o v.
Proof.
  intros Hrq ->. destruct eo as [e|]; [|by destruct (rq_none _ _ _ _ Hrq eq_refl)].
  destruct (rq_old _ _ _ _ Hrq e eq_refl) as (o2 & v2 & [= <- <-] & He). by exists e.
Qed.

(** The other handles can be updated now. *)
Lemma updated_replacing s s' ext eo en old new new' :
  index_ok s ext -> index_ok s' ext -> keeps ext s s' -> request s eo old new -> main_updated s s' eo en new' -> stands_opt new' new ->
  (forall o v, old = Some (o, v) -> (0 < ext o)%nat) ->
  replacing s' ext (in_main s) old new'.
Proof.
  intros Hok Hok' Hk Hrq Hmu Hst Hx. assert (Hin := updated_in_main s s' ext eo en old new new' Hok Hrq Hmu Hst).
  assert (Hkey : forall n' w', new' = Some (n', w') -> exists n w, new = Some (n, w) /\ object_key (boxed n' w') = object_key (boxed n w) /\ oid n' w' = oid n w /\ cacheable w').
  { intros n' w' ->. destruct new as [[n w]|]; [|done]. destruct Hst as (? & ? & _ & ?). by exists n, w. }
  assert (Hupd : forall o v n' w', old = Some (o, v) -> new' = Some (n', w') -> oid o v = oid n' w' /\ same_full n' o w' v = false).
  { intros o v n' w' Eo En. destruct (Hkey n' w' En) as (n & w & En2 & Ek & Ei & Hc'). destruct (rq_upd _ _ _ _ Hrq o v n w Eo En2) as [Eid Hdiff].
    split; [congruence|]. apply not_true_iff_false. intros E. destruct (request_old_main _ _ _ _ o v Hrq Eo) as (e & _ & He).
    destruct (in_main_pool s ext o v Hok) as (_ & Hv & _); [by exists e|]. destruct (rq_new _ _ _ _ Hrq n w En2) as (Hw & Hc & _).
    assert (in_main s' n' w') as Hm by by (apply Hin; left). destruct (in_main_pool s' ext n' w' Hok' Hm) as (_ & Hw' & _).
    apply (same_full_keys s' ext) in E; [|done|done| |done]; [|by rewrite (proj1 (Hk o (Hx o v Eo)))].
    rewrite Ek in E. apply (same_full_keys s ext n w o v Hok Hw Hv Hc) in E. congruence. }
  split.
  - by apply (main_ids s ext).
  - intros o v Eo. destruct (request_old_main _ _ _ _ o v Hrq Eo) as (e & _ & He). assert (in_main s o v) as Hm by by exists e.
    split_and!; [done|by apply (Hx o v)|]. rewrite (proj1 (Hk o (Hx o v Eo))). by apply (in_main_pool s ext).
  - intros n' w' En. assert (in_main s' n' w') as Hm by by (apply Hin; left). split; [done|by apply (in_main_pool s' ext)].
  - intros p z n' w' En [e He] Eid. destruct (Hkey n' w' En) as (n & w & En2 & _ & Ei & _). destruct eo as [e0|].
    + destruct (rq_old _ _ _ _ Hrq e0 eq_refl) as (o & v & Eo & He0). destruct (Hupd o v n' w' Eo En) as [Eid2 Hdiff].
      destruct (main_ids s ext Hok p z o v) as [-> ->]; [by exists e|by exists e0|congruence|]. done.
    + destruct He as [h Ht]. destruct (rq_add _ _ _ _ Hrq n w eq_refl En2 e h p z Ht); [|change (oid p z = oid n w); congruence].
      cbn. by rewrite (oid_type p z n w) by congruence.
  - intros o v n' w' Eo En. by apply (Hupd o v n' w').
Qed.

(** An object that a handle cannot divide. *)
Lemma synced_unsupported s s' t M old new' :
  (forall e h o v, tracked s' e t h o v <-> tracked s e t h o v) -> synced s t M ->
  (forall o v, old = Some (o, v) -> t ∉ supported_cache_ids v) -> (forall n w, new' = Some (n, w) -> t ∉ supported_cache_ids w) ->
  synced s' t (replaced M old new').
Proof.
  intros Ht Hs Ho Hn p z. rewrite (synced_keep s s' t M Ht Hs p z). split.
  - intros [HM [Hd1 Hd2]]. split; [|done]. right. split; [done|]. intros E. by apply (Ho p z).
  - intros [[E|[HM _]] Hd]; [|done]. destruct Hd as [Hd _]. by destruct (Hn p z E).
Qed.

Lemma replaced_ext M M' old new p z : (forall p z, M p z <-> M' p z) -> replaced M old new p z <-> replaced M' old new p z.
Proof. unfold replaced. intros E. by rewrite E. Qed.

Lemma ref_opt_ok s ext old :
  index_ok s ext -> (forall o v, old = Some (o, v) -> vals (heap s) !! o = Some v) ->
  exists hp, ref_opt (fst <$> old) s = Some (with_heap hp s) /\ index_ok (with_heap hp s) (with_ref (fst <$> old) ext) /\
    vals hp = vals (heap s) /\ idx_objs hp = idx_objs (heap s) /\
    (forall e i h p v, tracked s e i h p v <-> tracked (with_heap hp s) e i h p v).
Proof.
  intros Hok Hv. destruct old as [[o v]|]; cbn [fmap option_fmap option_map fst ref_opt with_ref].
  - destruct (proj1 (vals_Some _ _ _) (Hv o v eq_refl)) as (ob & Hob & _). unfold nmp_object_ref.
    destruct (ref_ok s ext o ob Hok Hob) as (hp & -> & ? & ? & ? & ?). by exists hp.
  - exists (heap s). assert (with_heap (heap s) s = s) as -> by by destruct s. done.
Qed.

Lemma unref_opt_ok s ext o :
  index_ok s (with_ref o ext) ->
  exists hp, unref_opt o s = Some (with_heap hp s) /\ index_ok (with_heap hp s) ext /\ vals hp ⊆ vals (heap s) /\
    keeps ext s (with_heap hp s) /\ (forall e i h p v, tracked s e i h p v <-> tracked (with_heap hp s) e i h p v).
Proof.
  intros Hok. destruct o as [o|]; cbn [unref_opt with_ref] in *.
  - unfold nmp_object_unref. destruct (unref_ok s ext o Hok) as (hp & -> & ? & ? & ? & ?). by exists hp.
  - exists (heap s). assert (with_heap (heap s) s = s) as -> by by destruct s. split_and!; [done|done|done|apply keeps_refl|done].
Qed.

(** The invariant and the entries do not see the memory. *)
Lemma same_tracked_main s s' : (forall e i h o v, tracked s e i h o v <-> tracked s' e i h o v) -> forall e o v, main s e o v <-> main s' e o v.
Proof. intros Ht e o v. split; intros [h Hh]; exists h; by apply Ht. Qed.

Lemma same_tracked_synced s s' t M : (forall e i h o v, tracked s e i h o v <-> tracked s' e i h o v) -> synced s t M -> synced s' t M.
Proof. intros Ht. apply synced_keep. intros. by rewrite Ht. Qed.

(** The handles of the class of the object. *)
Definition rest_ids (old new' : option (positive * NMPObjectData)) : list NMPCacheIdType :=
  match new' with
  | Some (_, w) => other_ids w
  | None => match old with Some (_, v) => other_ids v | None => [] end
  end.

Lemma rest_klass s old new' :
  (forall o v, old = Some (o, v) -> vals (heap s) !! o = Some v) -> (forall n w, new' = Some (n, w) -> vals (heap s) !! n = Some w) ->
  exists klass, opt_obj_at s (match fst <$> new' with Some o => Some o | None => fst <$> old end) = Some klass /\
    (match klass with Some x => other_ids (at_obj x) | None => [] end) = rest_ids old new'.
Proof.
  intros Ho Hn. destruct new' as [[n w]|].
  - exists (Some (boxed n w)). split; [|done]. by apply (opt_obj_at_Some s (Some (n, w))).
  - exists (at_addr <$> old). split; [|by destruct old as [[]|]].
    replace (match fst <$> None with Some o => Some o | None => fst <$> old end) with (fst <$> old) by done. by apply opt_obj_at_Some.
Qed.

(** The old and the new object are of a class. *)
Lemma rest_ids_class s ext eo old new new' t :
  index_ok s ext -> request s eo old new -> stands_opt new' new ->
  t <> OT -> (t ∈ rest_ids old new' -> forall n w, new' = Some (n, w) -> t ∈ supported_cache_ids w) /\
  (t ∉ rest_ids old new' -> (forall o v, old = Some (o, v) -> t ∉ supported_cache_ids v) /\ (forall n w, new' = Some (n, w) -> t ∉ supported_cache_ids w)).
Proof.
  intros Hok Hrq Hst Ht. unfold rest_ids. destruct new' as [[n w]|].
  - split; [by intros [_ Hin]%other_ids_supported ? ? [= -> ->]|]. intros Hnot. assert (t ∉ supported_cache_ids w) as Hw.
    { intros Hin. by apply Hnot, other_ids_supported. }
    split; [|by intros ? ? [= <- <-]]. intros o v ->. destruct new as [[n0 w0]|]; [|done]. destruct Hst as (_ & _ & Et & Hc).
    destruct (request_old_main _ _ _ _ o v Hrq eq_refl) as (e & _ & He). destruct (in_main_pool s ext o v Hok) as (_ & _ & Hc'); [by exists e|].
    destruct (rq_upd _ _ _ _ Hrq o v n0 w0 eq_refl eq_refl) as [Eid _]. apply oid_type in Eid.
    by rewrite (supported_type v w Hc' Hc) by congruence.
  - split; [done|]. intros Hnot. split; [|done]. intros o v ->. intros Hin. by apply Hnot, other_ids_supported.
Qed.

(** After the main handle, the others follow. *)
Lemma update_rest_ok s s2 ext eo en old new new' is_dump :
  index_ok s ext -> (forall t, t <> OT -> synced s t (in_main s)) -> request s eo old new ->
  (forall o v, old = Some (o, v) -> (0 < ext o)%nat) ->
  index_ok s2 ext -> keeps ext s s2 -> others_keep s s2 OT -> main_updated s s2 eo en new' -> stands_opt new' new ->
  exists s3, update_others (rest_ids old new') (fst <$> old) (fst <$> new') is_dump s2 = Some s3 /\ index_ok s3 ext /\ keeps ext s2 s3 /\
    (forall e o v, main s3 e o v <-> main s2 e o v) /\ (forall e o v, main s2 e o v -> dirty_of s3 e = dirty_of s2 e) /\
    forall t, t <> OT -> synced s3 t (in_main s3).
Proof.
  intros Hok Hsync Hrq Hx Hok2 Hk2 Hoth2 Hmu Hst. assert (Hr := updated_replacing s s2 ext eo en old new new' Hok Hok2 Hk2 Hrq Hmu Hst Hx).
  assert (Hin := updated_in_main s s2 ext eo en old new new' Hok Hrq Hmu Hst).
  assert (Hsync2 : forall t, t <> OT -> synced s2 t (in_main s)).
  { intros t Ht. apply (synced_keep s); [|by apply Hsync]. intros e h o v. by apply Hoth2. }
  assert (Hclass := fun t => rest_ids_class s ext eo old new new' t Hok Hrq Hst).
  assert (Hrest : forall t, t ∈ rest_ids old new' -> t <> OT).
  { intros t Ht. unfold rest_ids in Ht. destruct new' as [[]|]; [|destruct old as [[]|]; [|by apply elem_of_nil in Ht]];
      by apply other_ids_supported in Ht as [? _]. }
  destruct (update_others_ok (rest_ids old new') s2 ext (in_main s) old new' is_dump Hok2) as (s3 & E & Hok3 & Hk3 & Hout & Hs3); [..|done| |].
  { unfold rest_ids. destruct new' as [[]|]; [|destruct old as [[]|]; [|constructor]]; apply other_ids_NoDup. }
  { intros t Ht. split; [by apply Hrest|by apply Hsync2, Hrest]. }
  { intros n w t En Ht. destruct (Hclass t (Hrest t Ht)) as [Hc _]. by apply (Hc Ht n w). }
  exists s3. assert (Hot : OT ∉ rest_ids old new') by by intros ?%Hrest.
  assert (Hmain : forall e o v, main s3 e o v <-> main s2 e o v) by (intros e o v; split; intros [h Hh]; exists h; by apply (Hout e OT h o v)).
  split_and!; [done|done|done|done|by intros e o v [h Hh]; apply (Hout e OT h o v)|]. intros t Ht.
  assert (Hrep : synced s3 t (replaced (in_main s) old new')).
  { destruct (decide (t ∈ rest_ids old new')) as [Hti|Hti]; [by apply Hs3|]. destruct (Hclass t Ht) as [_ Hc]. destruct (Hc Hti).
    apply (synced_unsupported s2 s3); [intros e h o v; by apply Hout|by apply Hsync2|done|done]. }
  intros p z. rewrite (Hrep p z), <-(Hin p z). apply and_iff_compat_r. split; intros [e He]; exists e; by apply Hmain.
Qed.

(** ** The whole update *)

Lemma request_same s s' eo old new :
  (forall e i h o v, tracked s e i h o v <-> tracked s' e i h o v) -> vals (heap s') = vals (heap s) -> request s eo old new -> request s' eo old new.
Proof.
  intros Ht Hv [H1' H2' H3' H4' H5']. assert (Hm := same_tracked_main s s' Ht). split; [|done| | |done].
  - intros e Ee. destruct (H1' e Ee) as (o & v & ? & ?). exists o, v. by rewrite <-Hm.
  - intros n w En. rewrite Hv. by apply H3'.
  - intros n w Ee En e h o v Htr. apply (H4' n w Ee En e h o v). by apply Ht.
Qed.

Lemma get_old s ext eo old new : index_ok s ext -> request s eo old new -> nm_dedup_multi_entry_get_obj s eo = Some (fst <$> old).
Proof.
  intros Hok Hrq. destruct eo as [e|]; [|by destruct (rq_none _ _ _ _ Hrq eq_refl) as [-> _]].
  destruct (rq_old _ _ _ _ Hrq e eq_refl) as (o & v & -> & h & (en & hd & He & <- & _)). cbn. by rewrite He.
Qed.

Lemma get_new s s' eo en new' : main_updated s s' eo en new' -> (en = None -> new' = None) -> nm_dedup_multi_entry_get_obj s' en = Some (fst <$> new').
Proof.
  intros Hmu Hnone. destruct en as [e|]; [|by rewrite (Hnone eq_refl)].
  destruct (mu_entry _ _ _ _ _ Hmu e eq_refl) as [[[n w] ->] _].
  assert (main s' e n w) as (h & (en & hd & He & <- & _)) by (apply (mu_main _ _ _ _ _ Hmu); by left). cbn. by rewrite He.
Qed.

(** Entries of the main handle, their objects and marks, seen from two states. *)
Lemma main_updated_same s0 s1 s2 s3 eo en new' :
  (forall e o v, main s0 e o v <-> main s1 e o v) -> (forall e, dirty_of s1 e = dirty_of s0 e) ->
  (forall e o v, main s3 e o v <-> main s2 e o v) -> (forall e o v, main s2 e o v -> dirty_of s3 e = dirty_of s2 e) ->
  main_updated s1 s2 eo en new' -> main_updated s0 s3 eo en new'.
Proof.
  intros H01 D01 H23 D23 [M1 M2 M3 M4]. split; [| | |done].
  - intros e o v. by rewrite H23, M1, H01.
  - intros e o v He%H23. by rewrite (D23 e o v He), (M2 e o v He), D01.
  - intros e Ee. destruct (M3 e Ee) as [? [?|[? Hno]]]; split; auto. right. split; [done|]. intros o v Hm%H01. by apply (Hno o v).
Qed.

(** _idxcache_update () keeps the invariant, and does what is asked for. *)
Lemma idxcache_update_ok s ext eo old new is_dump :
  cache_ok s ext -> request s eo old new ->
  exists s' en new', _idxcache_update eo (fst <$> new) is_dump s = Some (en, s') /\ cache_ok s' ext /\ keeps ext s s' /\
    main_updated s s' eo en new' /\ stands_opt new' new.
Proof.
  intros [Hok Halive Hsync] Hrq. unfold _idxcache_update. rewrite (get_old s ext eo old new Hok Hrq). cbn [mbind option_bind].
  assert (Hvold : forall o v, old = Some (o, v) -> vals (heap s) !! o = Some v).
  { intros o v Eo. destruct (request_old_main _ _ _ _ o v Hrq Eo) as (e & _ & He). apply (in_main_pool s ext); [done|by exists e]. }
  destruct (ref_opt_ok s ext old Hok Hvold) as (hp & -> & Hok1 & Hv1 & Hp1 & Ht1). cbn [mbind option_bind].
  set (s1 := with_heap hp s) in *. set (ext1 := with_ref (fst <$> old) ext) in *.
  assert (Hm1 := same_tracked_main s s1 Ht1). assert (Hrq1 : request s1 eo old new) by by apply (request_same s s1).
  destruct (update_main_ok s1 ext1 eo old new is_dump Hok1 Hrq1) as (s2 & en & new' & -> & Hok2 & Hk2 & Hoth2 & Hmu & Hst). cbn [mbind option_bind].
  assert (Hnone : en = None -> new' = None).
  { intros ->. destruct new' as [x|]; [|done]. by destruct (mu_some _ _ _ _ _ Hmu) as [[] _]. }
  rewrite (get_new s1 s2 eo en new' Hmu Hnone). cbn [mbind option_bind].
  assert (Hx1 : forall o v, old = Some (o, v) -> (0 < ext1 o)%nat) by (intros o v ->; cbn; rewrite add_use_eq; lia).
  assert (Hle : forall p, (ext p <= ext1 p)%nat) by (intros p; destruct old as [[]|]; [apply add_use_le|done]).
  destruct (rest_klass s2 old new') as (klass & -> & Ets).
  { intros o v Eo. rewrite (proj1 (Hk2 o (Hx1 o v Eo))). change (vals (heap s1)) with (vals hp). rewrite Hv1. by apply Hvold. }
  { intros n w En. apply (in_main_pool s2 ext1); [done|]. rewrite (updated_in_main s1 s2 ext1 eo en old new new' Hok1 Hrq1 Hmu Hst). by left. }
  cbn [mbind option_bind]. cbv zeta. rewrite Ets.
  destruct (update_rest_ok s1 s2 ext1 eo en old new new' is_dump Hok1) as (s3 & -> & Hok3 & Hk3 & Hm3 & Hd3 & Hs3); [|done..|].
  { intros t Ht p z. rewrite (same_tracked_synced s s1 t (in_main s) Ht1 (Hsync t Ht) p z). apply and_iff_compat_r. split; intros [e He]; exists e; by apply Hm1. }
  cbn [mbind option_bind]. destruct (unref_opt_ok s3 ext (fst <$> old) Hok3) as (hp4 & -> & Hok4 & _ & Hk4 & Ht4). cbn [mbind option_bind].
  assert (Hm4 := same_tracked_main s3 (with_heap hp4 s3) Ht4). set (s4 := with_heap hp4 s3) in *.
  exists s4, en, new'. split; [done|].
  assert (Hmu4 : main_updated s s4 eo en new').
  { apply (main_updated_same s s1 s2 s4); [done|done| |done|done]. intros e o v. by rewrite <-Hm4, Hm3. }
  split; [|split; [|by split]].
  - split; [done| |].
    + intros e o v [[-> ->]|[Hm _]]%(mu_main _ _ _ _ _ Hmu4); [|by apply (Halive e)]. destruct new as [[n w]|]; [|done].
      destruct (rq_new _ _ _ _ Hrq n w eq_refl) as (_ & _ & Ha). destruct Hst as (Ek & _ & _ & Hc). by rewrite (object_key_alive (boxed o v) (boxed n w) Hc Ek).
    + intros t Ht. intros p z. rewrite (same_tracked_synced s3 s4 t (in_main s3) Ht4 (Hs3 t Ht) p z). apply and_iff_compat_r.
      split; intros [e He]; exists e; by apply Hm4.
  - apply (keeps_trans _ _ s1); [intros p _; cbn [heap with_heap s1]; rewrite Hv1, Hp1; done|].
    apply (keeps_trans _ _ s2); [by apply (keeps_mono _ ext1)|]. apply (keeps_trans _ _ s3); [by apply (keeps_mono _ ext1)|done].
Qed.
End update.
