(* ===== verification/NmpCacheSpec.v ===== *)
(** * NMPCache: what an update reports

    Each update concerns the object of one identity.  It returns the object that
    the cache had and the one that it has then, and their difference. *)

From S2P Require Export NmpCacheUpdate.

Section spec.
Context `{ByteOrder} `{KernelSupport} `{SipHash} `{LinkDriver}.
Implicit Types (s : Index) (ext : positive -> nat) (x : NMPObject).

(** ** Lookup in the main handle *)

Lemma part_key_id x y : object_id_key x = object_id_key y -> NmpObject.part_key OT x = NmpObject.part_key OT y.
Proof. unfold object_id_key. cbn. congruence. Qed.

Lemma lookup_main s ext x :
  index_ok s ext -> needle_ok (vals (heap s)) x ->
  match _lookup_entry s x with
  | Some e => exists o v, main s e o v /\ oid o v = object_id_key x
  | None => forall e o v, main s e o v -> oid o v <> object_id_key x
  end.
Proof.
  intros Hok Hx. unfold _lookup_entry, _lookup_entry_with_idx_type, nm_dedup_multi_index_lookup_obj.
  destruct (_entry_lookup_obj s OT x) as [e|] eqn:El.
  - apply (lookup_obj_spec s ext OT x e Hok Hx) in El as (h & o & v & Ht & _ & Eid). exists o, v. split; [by exists h|done].
  - intros e o v [h Ht] Eid. assert (_entry_lookup_obj s OT x = Some e); [|congruence].
    apply (lookup_obj_spec s ext OT x e Hok Hx). exists h, o, v. split_and!; [done|by apply (part_key_id (boxed o v) x)|done].
Qed.

Lemma main_absent s x : (forall e o v, main s e o v -> oid o v <> object_id_key x) -> absent s OT x.
Proof. intros Hno e h o v Ht _. apply (Hno e o v). by exists h. Qed.

(** ** The object of an identity *)

(** The cache has the object, unmarked or not, or none. *)
Definition has s (k : kval) (x : option (positive * NMPObjectData)) : Prop :=
  match x with
  | Some (o, v) => oid o v = k /\ in_main s o v
  | None => forall o v, in_main s o v -> oid o v <> k
  end.

(** Objects of other identities keep their entries, with their marks. *)
Definition others_stay s s' (k : kval) : Prop :=
  forall e o v, oid o v <> k -> (main s' e o v <-> main s e o v) /\ (main s e o v -> dirty_of s' e = dirty_of s e).

(** Entries of the identity are not marked. *)
Definition unmarked s (k : kval) : Prop := forall e o v, main s e o v -> oid o v = k -> dirty_of s e = Some false.

(** The reference that the caller gets. *)
Definition returned (u : Updated) ext : positive -> nat := with_ref (out_old u) (with_ref (out_new u) ext).

Definition same_object (x y : positive * NMPObjectData) : Prop := object_key (at_addr x) = object_key (at_addr y).

(** What *out_obj_old, *out_obj_new and the result say. *)
Definition ops_of (t : NMPCacheOpsType) (old new : option (positive * NMPObjectData)) : Prop :=
  match t, old, new with
  | NMP_CACHE_OPS_UNCHANGED, None, None => True
  | NMP_CACHE_OPS_UNCHANGED, Some x, Some y => x = y
  | NMP_CACHE_OPS_ADDED, None, Some _ => True
  | NMP_CACHE_OPS_REMOVED, Some _, None => True
  | NMP_CACHE_OPS_UPDATED, Some x, Some y => ~ same_object x y
  | _, _, _ => False
  end.

Record reported s ext (u : Updated) (k : kval) (old new : option (positive * NMPObjectData)) : Prop := {
  re_ok : cache_ok (updated u) (returned u ext);
  re_keeps : keeps ext s (updated u);
  re_others : others_stay s (updated u) k;
  re_old : has s k old /\ out_old u = fst <$> old;
  re_new : has (updated u) k new /\ out_new u = fst <$> new;
  re_ops : ops_of (ops_type u) old new;
  re_val o v : old = Some (o, v) -> vals (heap (updated u)) !! o = Some v
}.

Lemma others_stay_refl s k : others_stay s s k.
Proof. done. Qed.

Lemma cache_ok_same s s' ext ext' :
  cache_ok s ext -> index_ok s' ext' -> (forall e i h o v, tracked s e i h o v <-> tracked s' e i h o v) -> cache_ok s' ext'.
Proof.
  intros [_ Ha Hs] Hok' Ht. assert (Hm := same_tracked_main s s' Ht). split; [done| |].
  - intros e o v He. apply (Ha e). by apply Hm.
  - intros t Hot p z. rewrite (same_tracked_synced s s' t (in_main s) Ht (Hs t Hot) p z). apply and_iff_compat_r. split; intros [e He]; exists e; by apply Hm.
Qed.

(** What does not change the entries. *)
Lemma same_others s s' k : (forall e i h o v, tracked s e i h o v <-> tracked s' e i h o v) -> (forall e, dirty_of s' e = dirty_of s e) -> others_stay s s' k.
Proof. intros Ht Hd e o v _. split; [symmetry; by apply same_tracked_main|done]. Qed.

Lemma same_has s s' k y : (forall e o v, main s' e o v <-> main s e o v) -> has s' k y <-> has s k y.
Proof.
  intros Hm. assert (forall o v, in_main s' o v <-> in_main s o v) as E by (intros o v; split; intros [e He]; exists e; by apply Hm).
  destruct y as [[o v]|]; cbn; [by rewrite E|]. split; intros Hno o v Hin; apply Hno; by apply E.
Qed.

Lemma others_stay_trans s1 s2 s3 k : others_stay s1 s2 k -> others_stay s2 s3 k -> others_stay s1 s3 k.
Proof.
  intros H12 H23 e o v Hne. destruct (H12 e o v Hne) as [M1 D1], (H23 e o v Hne) as [M2 D2]. split; [by rewrite M2|].
  intros Hm. rewrite D2 by by apply M1. by apply D1.
Qed.

(** An update of the main handle concerns one identity. *)
Lemma main_updated_others s s' ext eo en old new new' k :
  index_ok s ext -> request s eo old new -> main_updated s s' eo en new' -> stands_opt new' new ->
  (forall o v, old = Some (o, v) -> oid o v = k) -> (forall n w, new = Some (n, w) -> oid n w = k) ->
  others_stay s s' k /\ has s k old /\ has s' k new' /\ unmarked s' k.
Proof.
  intros Hok Hrq Hmu Hst Hko Hkn. assert (Hkn' : forall n w, new' = Some (n, w) -> oid n w = k).
  { intros n w ->. destruct new as [[n0 w0]|]; [|done]. destruct Hst as (_ & Eid & _). rewrite <-(Hkn n0 w0 eq_refl). exact Eid. }
  assert (Hin := updated_in_main s s' ext eo en old new new' Hok Hrq Hmu Hst).
  assert (Hhas : has s k old).
  { destruct old as [[o v]|].
    - split; [by apply Hko|]. destruct (request_old_main _ _ _ _ o v Hrq eq_refl) as (e & _ & He). by exists e.
    - destruct eo as [e|]; [by destruct (rq_old _ _ _ _ Hrq e eq_refl) as (? & ? & ? & _)|].
      destruct (rq_none _ _ _ _ Hrq eq_refl) as [_ [[n w] ->]]. intros o v (e & h & Ht) Eid.
      apply (rq_add _ _ _ _ Hrq n w eq_refl eq_refl e h o v Ht); [apply (part_key_id (boxed o v) (boxed n w))|];
        change (oid o v = oid n w); by rewrite Eid, (Hkn n w eq_refl). }
  split_and!; [|done| |].
  - intros e o v Hne. split.
    + rewrite (mu_main _ _ _ _ _ Hmu). split; [intros [[_ En]|[? _]]; [by destruct Hne; apply Hkn'|done]|].
      intros Hm. right. split; [done|]. intros ->. destruct (rq_old _ _ _ _ Hrq e eq_refl) as (o2 & v2 & Eo & Hm2).
      destruct (main_fun _ _ _ _ _ _ Hm Hm2) as [-> ->]. by apply Hne, Hko.
    + intros Hm. assert (main s' e o v) as Hm'.
      { apply (mu_main _ _ _ _ _ Hmu). right. split; [done|]. intros ->. destruct (rq_old _ _ _ _ Hrq e eq_refl) as (o2 & v2 & Eo & Hm2).
        destruct (main_fun _ _ _ _ _ _ Hm Hm2) as [-> ->]. by apply Hne, Hko. }
      rewrite (mu_dirty _ _ _ _ _ Hmu e o v Hm'). rewrite decide_False; [done|]. intros ->.
      destruct (mu_entry _ _ _ _ _ Hmu e eq_refl) as [[[n w] En] [->|[-> Hno]]]; [|by apply (Hno o v)].
      destruct (rq_old _ _ _ _ Hrq e eq_refl) as (o2 & v2 & Eo & Hm2). destruct (main_fun _ _ _ _ _ _ Hm Hm2) as [-> ->]. by apply Hne, Hko.
  - destruct new' as [[n w]|]; cbn; [split; [by apply Hkn'|by apply Hin; left]|]. intros o v [|[Hm Hne]]%Hin; [done|]. intros Eid.
    destruct old as [[o2 v2]|]; [|by apply (Hhas o v)]. destruct Hhas as [Ek Hm2]. destruct (main_ids s ext Hok o v o2 v2 Hm Hm2) as [-> ->]; [congruence|done].
  - intros e o v Hm Eid. assert (main s' e o v) as Hm' by done. apply (mu_main _ _ _ _ _ Hmu) in Hm as [[-> _]|[Hm Hne]].
    + rewrite (mu_dirty _ _ _ _ _ Hmu e o v Hm'). by rewrite decide_True.
    + exfalso. destruct old as [[o2 v2]|]; [|apply (Hhas o v); [by exists e|done]].
      destruct (request_old_main _ _ _ _ o2 v2 Hrq eq_refl) as (e2 & -> & Hm2). apply Hne. f_equal.
      apply (main_unique s ext e2 e o2 o v2 v Hok Hm2 Hm). rewrite Eid. by apply Hko.
Qed.

(** ** Steps *)

(** Only the memory changed, and not for those who have references. *)
Record same_cache s s' : Prop := {
  sc_tracked e i h o v : tracked s e i h o v <-> tracked s' e i h o v;
  sc_dirty e : dirty_of s' e = dirty_of s e
}.

#[export] Instance same_cache_refl : Reflexive same_cache.
Proof. by split. Qed.
#[export] Instance same_cache_trans : Transitive same_cache.
Proof. intros s1 s2 s3 [T1 D1] [T2 D2]. split; [intros; by rewrite T1|intros; by rewrite D2]. Qed.

Lemma same_cache_main s s' e o v : same_cache s s' -> main s' e o v <-> main s e o v.
Proof. intros Hs. symmetry. apply same_tracked_main. apply Hs. Qed.

Lemma cache_ok_memory s s' ext ext' : cache_ok s ext -> index_ok s' ext' -> same_cache s s' -> cache_ok s' ext'.
Proof. intros Hc Hok' Hs. apply (cache_ok_same s s' ext ext' Hc Hok'). apply Hs. Qed.

Lemma cache_ok_ext s ext ext' : (forall o, ext o = ext' o) -> cache_ok s ext -> cache_ok s ext'.
Proof. intros E Hc. apply (cache_ok_memory s s ext ext' Hc); [|done]. by apply (index_ok_ext s ext), Hc. Qed.

(** A reference is taken. *)
Lemma take_ref s ext o v :
  cache_ok s ext -> vals (heap s) !! o = Some v ->
  exists hp, nmp_object_ref o s = Some (with_heap hp s) /\ cache_ok (with_heap hp s) (add_use o ext) /\ same_cache s (with_heap hp s) /\
    vals hp = vals (heap s) /\ idx_objs hp = idx_objs (heap s).
Proof.
  intros Hc Hv. destruct (ref_opt_ok s ext (Some (o, v)) (co_index _ _ Hc)) as (hp & E & Hok & Hvals & Hp & Ht); [by intros ? ? [= -> ->]|].
  exists hp. assert (same_cache s (with_heap hp s)) as Hs by by split. split_and!; [exact E| |done|done|done].
  by apply (cache_ok_memory s _ ext).
Qed.

Lemma take_ref_opt s ext (new : option (positive * NMPObjectData)) :
  cache_ok s ext -> (forall n w, new = Some (n, w) -> vals (heap s) !! n = Some w) ->
  exists hp, ref_opt (fst <$> new) s = Some (with_heap hp s) /\ cache_ok (with_heap hp s) (with_ref (fst <$> new) ext) /\ same_cache s (with_heap hp s) /\
    vals hp = vals (heap s) /\ idx_objs hp = idx_objs (heap s).
Proof.
  intros Hc Hv. destruct (ref_opt_ok s ext new (co_index _ _ Hc) Hv) as (hp & E & Hok & Hvals & Hp & Ht).
  exists hp. assert (same_cache s (with_heap hp s)) as Hs by by split. split_and!; [exact E| |done|done|done].
  by apply (cache_ok_memory s _ ext).
Qed.

Lemma keeps_same_heap ext s hp : vals hp = vals (heap s) -> idx_objs hp = idx_objs (heap s) -> keeps ext s (with_heap hp s).
Proof. intros Hv Hp p _. cbn [heap with_heap]. by rewrite Hv, Hp. Qed.

Lemma same_cache_others s s' k : same_cache s s' -> others_stay s s' k.
Proof. intros [Ht Hd]. by apply same_others. Qed.

(** What is reported of a later state of the memory. *)
Lemma reported_before s s' ext ext' u k old new :
  same_cache s s' -> keeps ext s s' -> (forall p, (ext p <= ext' p)%nat) -> (forall p, returned u ext' p = returned u ext p) ->
  reported s' ext' u k old new -> reported s ext u k old new.
Proof.
  intros Hs Hk Hle Hx [R1 R2 R3 R4 R5 R6 R7]. split; [| | | |done|done|done].
  - by apply (cache_ok_ext _ (returned u ext')).
  - apply (keeps_trans _ _ s'); [done|]. by apply (keeps_mono _ ext').
  - apply (others_stay_trans _ s'); [by apply same_cache_others|done].
  - destruct R4 as [Hh Ho]. split; [|done]. apply (same_has s s'); [|done]. intros. by apply same_cache_main.
Qed.

Lemma has_main s e o v : main s e o v -> has s (oid o v) (Some (o, v)).
Proof. intros Hm. split; [done|by exists e]. Qed.

Lemma main_val s ext e o v : index_ok s ext -> main s e o v -> vals (heap s) !! o = Some v /\ o ∈ idx_objs (heap s) /\ cacheable v.
Proof. intros Hok Hm. destruct (in_main_pool s ext o v Hok) as (? & ? & ?); [by exists e|done]. Qed.

(** Nothing changes; the caller, who has one reference of the object, gets two. *)
Lemma unchanged_entry_ok s ext e o v :
  cache_ok s (add_use o ext) -> main s e o v ->
  exists u, unchanged_entry o s = Some u /\ reported s ext u (oid o v) (Some (o, v)) (Some (o, v)) /\ same_cache s (updated u).
Proof.
  intros Hc Hm. destruct (main_val s _ e o v (co_index _ _ Hc) Hm) as (Hv & _ & _). unfold unchanged_entry.
  destruct (take_ref s _ o v Hc Hv) as (hp & -> & Hc' & Hs & Hvals & Hp). cbn [mbind option_bind]. eexists. split; [done|].
  split; [|done]. split; cbn [updated out_old out_new ops_type]; [done|by apply keeps_same_heap|by apply same_cache_others| | |done|].
  - split; [by eapply has_main|done].
  - split; [|done]. apply (same_has s); [intros; by apply same_cache_main|by eapply has_main].
  - intros ? ? [= <- <-]. cbn [heap with_heap]. by rewrite Hvals.
Qed.

Lemma request_remove s e o v : main s e o v -> request s (Some e) (Some (o, v)) None.
Proof. intros Hm. split; try done. intros ? [= <-]. by exists o, v. Qed.

(** The entry goes; the caller has a reference of the object. *)
Lemma removed_entry_ok s ext e o v :
  cache_ok s (add_use o ext) -> main s e o v ->
  exists u, removed_entry e o s = Some u /\ reported s ext u (oid o v) (Some (o, v)) None.
Proof.
  intros Hc Hm. assert (Hrq := request_remove s e o v Hm). unfold removed_entry.
  destruct (idxcache_update_ok s _ (Some e) (Some (o, v)) None false Hc Hrq) as (s1 & en & new' & E & Hc1 & Hk1 & Hmu & Hst).
  cbn [fmap option_fmap option_map] in E. rewrite E. cbn [mbind option_bind]. eexists. split; [done|]. destruct new' as [[]|]; [done|].
  destruct (main_updated_others s s1 _ (Some e) en _ None None (oid o v) (co_index _ _ Hc) Hrq Hmu Hst) as (Hoth & Ho & Hn & _);
    [by intros ? ? [= <- <-]|done|].
  split; cbn [updated out_old out_new ops_type]; [done|by apply (keeps_mono _ (add_use o ext)), Hk1; apply add_use_le|done|by split|by split|done|].
  intros ? ? [= <- <-]. rewrite (proj1 (Hk1 o ltac:(rewrite add_use_eq; lia))). by apply (main_val s _ e o v (co_index _ _ Hc)).
Qed.

(** The entry of the main handle gets an object, and the caller a reference. *)
Record replaced_by s s' ext (k : kval) (old : option (positive * NMPObjectData)) (n n' e : positive) (w w' : NMPObjectData) : Prop := {
  rb_ok : cache_ok s' (add_use n' ext);
  rb_keeps : keeps ext s s';
  rb_others : others_stay s s' k;
  rb_old : has s k old;
  rb_new : has s' k (Some (n', w'));
  rb_main : main s' e n' w';
  rb_unmarked : unmarked s' k;
  rb_key : same_object (n', w') (n, w)
}.

Lemma replace_ok s ext eo old n w is_dump :
  cache_ok s ext -> request s eo old (Some (n, w)) ->
  exists e s1 s2 n' w', _idxcache_update eo (Some n) is_dump s = Some (Some e, s1) /\ ref_entry (Some e) s1 = Some (Some n', s2) /\
    replaced_by s s2 ext (oid n w) old n n' e w w'.
Proof.
  intros Hc Hrq. destruct (idxcache_update_ok s ext eo old _ is_dump Hc Hrq) as (s1 & en & new' & E & Hc1 & Hk1 & Hmu & Hst).
  destruct new' as [[n' w']|]; [|done]. destruct (mu_some _ _ _ _ _ Hmu) as [[e ->] _]; [done|].
  destruct (main_updated_others s s1 ext eo (Some e) old _ _ (oid n w) (co_index _ _ Hc) Hrq Hmu Hst) as (Hoth & Ho & Hn & Hun).
  { intros o v ->. by destruct (rq_upd _ _ _ _ Hrq o v n w eq_refl eq_refl). }
  { by intros ? ? [= <- <-]. }
  assert (main s1 e n' w') as Hm by (apply (mu_main _ _ _ _ _ Hmu); by left). pose proof Hm as (h & (en & hd & He & Een & _)).
  destruct (take_ref s1 ext n' w' Hc1) as (hp & Er & Hc2 & Hs2 & Hv2 & Hp2); [by apply (main_val s1 ext e), Hm; apply Hc1|].
  exists e, s1, (with_heap hp s1), n', w'. split; [exact E|]. split.
  { unfold ref_entry. cbn [nm_dedup_multi_entry_get_obj]. rewrite He. cbn [mbind option_bind ref_opt]. rewrite Een, Er. done. }
  assert (Hmain : forall e o v, main (with_heap hp s1) e o v <-> main s1 e o v) by (intros; by apply same_cache_main).
  split; [done|by apply (keeps_trans _ _ s1); [|apply keeps_same_heap]|by apply (others_stay_trans _ s1); [|apply same_cache_others]|done| |by apply Hmain| |].
  - by apply (same_has s1 _ _ (Some (n', w')) Hmain).
  - intros e2 o v Hm2%Hmain Eid. rewrite (sc_dirty _ _ Hs2). by apply (Hun e2 o v).
  - by destruct Hst as [Ek _].
Qed.

(** The object was not the same. *)
Lemma ops_updated s ext o v n w n' w' :
  index_ok s ext -> in_main s o v -> vals (heap s) !! n = Some w -> cacheable w -> same_full n o w v = false -> same_object (n', w') (n, w) ->
  ops_of NMP_CACHE_OPS_UPDATED (Some (o, v)) (Some (n', w')).
Proof.
  intros Hok Hm Hw Hc Hdiff Hkey E. destruct (in_main_pool s ext o v Hok Hm) as (_ & Hv & _).
  apply not_true_iff_false in Hdiff. apply Hdiff, (same_full_keys s ext n w o v Hok Hw Hv Hc).
  unfold same_object in *. by rewrite <-E in Hkey.
Qed.

Lemma request_update s e o v n w :
  main s e o v -> vals (heap s) !! n = Some w -> cacheable w -> nmp_object_is_alive (boxed n w) = true -> oid o v = oid n w ->
  same_full n o w v = false -> request s (Some e) (Some (o, v)) (Some (n, w)).
Proof.
  intros Hm Hw Hc Ha Eid Hdiff.
  split; try done; [intros ? [= <-]; by exists o, v|by intros ? ? [= <- <-]|by intros ? ? ? ? [= <- <-] [= <- <-]].
Qed.

Lemma request_add s n w :
  (forall e o v, main s e o v -> oid o v <> oid n w) -> vals (heap s) !! n = Some w -> cacheable w ->
  nmp_object_is_alive (boxed n w) = true -> request s None None (Some (n, w)).
Proof.
  intros Hno Hw Hc Ha. split; try done; [by intros ? ? [= <- <-]|]. intros ? ? _ [= <- <-]. by apply main_absent.
Qed.

(** An object that is made for the entry replaces that of the entry. *)
Lemma updated_entry_ok s ext e o v n w :
  cache_ok s (add_use n (add_use o ext)) -> main s e o v -> vals (heap s) !! n = Some w -> cacheable w ->
  nmp_object_is_alive (boxed n w) = true -> oid o v = oid n w -> same_full n o w v = false ->
  exists u n' w', updated_entry e o n s = Some u /\ reported s ext u (oid n w) (Some (o, v)) (Some (n', w')) /\ same_object (n', w') (n, w) /\
    unmarked (updated u) (oid n w).
Proof.
  intros Hc Hm Hw Hcw Ha Eid Hdiff.
  assert (Hrq := request_update s e o v n w Hm Hw Hcw Ha Eid Hdiff).
  destruct (replace_ok s _ (Some e) (Some (o, v)) n w false Hc Hrq) as (e' & s1 & s2 & n' & w' & E1 & E2 & [B1 B2 B3 B4 B5 B6 B7 B8]).
  unfold updated_entry. rewrite E1. cbn [mbind option_bind]. rewrite E2. cbn [mbind option_bind].
  destruct (unref_opt_ok s2 (add_use o (add_use n' ext)) (Some n)) as (hp & E3 & Hok3 & _ & Hk3 & Ht3).
  { cbn [with_ref]. apply (index_ok_ext s2 (add_use n' (add_use n (add_use o ext)))); [|by apply B1]. intros p. unfold add_use. lia. }
  cbn [unref_opt] in E3. rewrite E3. cbn [mbind option_bind]. eexists _, n', w'. split; [done|].
  assert (same_cache s2 (with_heap hp s2)) as Hs by by split.
  assert (Hmain : forall e o v, main (with_heap hp s2) e o v <-> main s2 e o v) by (intros; by apply same_cache_main).
  split; [|split; [done|]].
  - split; cbn [updated out_old out_new ops_type]; [by apply (cache_ok_memory s2 _ _ _ B1)| | |by split| | |].
    + apply (keeps_trans _ _ s2); [apply (keeps_mono _ (add_use n (add_use o ext))), B2|apply (keeps_mono _ (add_use o (add_use n' ext))), Hk3];
        intros p; unfold add_use; lia.
    + by apply (others_stay_trans _ s2), same_cache_others.
    + split; [|done]. by apply (same_has s2 _ _ (Some (n', w')) Hmain).
    + apply (ops_updated s _ o v n w n' w' (co_index _ _ Hc)); [by exists e|done..].
    + intros ? ? [= <- <-]. rewrite (proj1 (Hk3 o ltac:(rewrite add_use_eq; lia))).
      rewrite (proj1 (B2 o ltac:(unfold add_use; rewrite (decide_True (P := o = o)) by done; lia))). by apply (main_val s _ e o v (co_index _ _ Hc)).
  - intros e2 o2 v2 Hm2%Hmain Eid2. cbn [updated] in *. rewrite (sc_dirty _ _ Hs). by apply (B7 e2 o2 v2).
Qed.
End spec.
