(* ===== verification/NmpCacheNetlink.v ===== *)
(** * NMPCache: messages from the kernel

    nmp_cache_update_netlink () and nmp_cache_remove_netlink () for objects that are
    not links, and nmp_cache_remove (). *)

From S2P Require Export NmpCacheSpec.

Section netlink.
Context `{ByteOrder} `{KernelSupport} `{SipHash} `{LinkDriver}.
Implicit Types (s : Index) (ext : positive -> nat) (x : NMPObject).

(** ** The order of a dump *)

Lemma reorder_last_ok s ext e i h o v :
  index_ok s ext -> tracked s e i h o v ->
  exists b s', nm_dedup_multi_entry_reorder s e None true = Some (b, s') /\ index_ok s' ext /\ heap s' = heap s /\ same_cache s s'.
Proof.
  intros Hok Ht. destruct (tracked_lst _ _ _ _ _ _ _ Hok Ht) as (l & Hl & _).
  destruct (reorder_ok s ext e i h o v None true l Hok Ht Hl (anchor_none l)) as (s' & E & Hok' & Hh & Ht' & _ & Hd).
  eexists _, s'. split; [exact E|]. split; [done|]. split; [done|]. by split.
Qed.

Lemma reorder_others_ok ts s ext o v :
  index_ok s ext -> vals (heap s) !! o = Some v ->
  exists s', reorder_others ts (boxed o v) s = Some s' /\ index_ok s' ext /\ heap s' = heap s /\ same_cache s s'.
Proof.
  revert s. induction ts as [|t ts IH]; intros s Hok Hv; [by exists s|]. cbn [reorder_others].
  unfold nm_dedup_multi_index_lookup_obj. destruct (_entry_lookup_obj s t (boxed o v)) as [e|] eqn:El; [|by apply IH].
  apply (lookup_obj_spec s ext t _ e Hok (needle_boxed _ _ _ _ Hok Hv)) in El as (h & p & z & Ht & _).
  destruct (reorder_last_ok s ext e t h p z Hok Ht) as (b & s1 & E & Hok1 & Hh1 & Hs1). rewrite E. cbn [mbind option_bind].
  destruct (IH s1 Hok1) as (s2 & E2 & Hok2 & Hh2 & Hs2); [by rewrite Hh1|]. exists s2.
  split; [done|]. split; [done|]. split; [congruence|by etransitivity].
Qed.

Lemma order_for_dump_ok s ext e o v :
  cache_ok s ext -> main s e o v ->
  exists s', _idxcache_update_order_for_dump e s = Some s' /\ cache_ok s' ext /\ heap s' = heap s /\ same_cache s s'.
Proof.
  intros Hc [h Ht]. unfold _idxcache_update_order_for_dump.
  destruct (reorder_last_ok s ext e OT h o v (co_index _ _ Hc) Ht) as (b & s1 & E & Hok1 & Hh1 & Hs1). rewrite E. cbn [mbind option_bind].
  assert (tracked s1 e OT h o v) as Ht1 by by apply Hs1. pose proof Ht1 as (en & hd & -> & Eo & _). cbn [mbind option_bind].
  rewrite Eo, (tracked_at _ _ _ _ _ _ Ht1). cbn [mbind option_bind].
  destruct (reorder_others_ok (other_ids v) s1 ext o v Hok1) as (s2 & E2 & Hok2 & Hh2 & Hs2); [by destruct Ht1 as (? & ? & _ & _ & _ & _ & _ & ?)|].
  exists s2. split; [exact E2|]. assert (same_cache s s2) as Hs by by etransitivity. split; [by apply (cache_ok_memory s _ ext)|].
  split; [congruence|done].
Qed.

(** ** An object for an entry *)

Lemma set_dirty_cache s ext e b :
  cache_ok s ext -> let s' := nm_dedup_multi_entry_set_dirty e b s in
  cache_ok s' ext /\ heap s' = heap s /\ (forall e2 o v, main s' e2 o v <-> main s e2 o v) /\
  (forall e2, dirty_of s' e2 = if decide (e2 = e) then (fun _ => b) <$> dirty_of s e else dirty_of s e2).
Proof.
  intros Hc s'. destruct (set_dirty_ok s ext e b (co_index _ _ Hc)) as (Hok & Hh & Ht & _ & _ & Hd).
  split_and!; [by apply (cache_ok_same s _ ext)|done| |done]. intros e2 o v. symmetry. by apply same_tracked_main.
Qed.

Lemma object_equal_full s ext o v n w :
  index_ok s ext -> vals (heap s) !! o = Some v -> vals (heap s) !! n = Some w -> cacheable w ->
  nmp_object_equal (boxed o v) (boxed n w) = same_full n o w v.
Proof.
  intros Hok Hv Hw Hc. apply eq_true_iff_eq. rewrite (same_full_keys s ext n w o v Hok Hw Hv Hc).
  rewrite (full_equal_key (vals (heap s)) o n v w Hv Hw (ho_val _ _ (ix_heap _ _ Hok) o v Hv) (ho_val _ _ (ix_heap _ _ Hok) n w Hw)).
  by split.
Qed.

(** Clearing the mark of the entry of an identity. *)
Lemma clear_mark s ext e o v :
  cache_ok s ext -> main s e o v -> let s' := nm_dedup_multi_entry_set_dirty e false s in
  cache_ok s' ext /\ heap s' = heap s /\ main s' e o v /\ others_stay s s' (oid o v) /\ unmarked s' (oid o v) /\
  forall e2 o2 v2, main s' e2 o2 v2 <-> main s e2 o2 v2.
Proof.
  intros Hc Hm s'. destruct (set_dirty_cache s ext e false Hc) as (Hc' & Hh & Hmain & Hd). fold s' in Hc', Hh, Hmain, Hd.
  split; [done|]. split; [done|]. split; [by apply Hmain|]. split_and!; [| |done].
  - intros e2 o2 v2 Hne. split; [apply Hmain|]. intros Hm2. rewrite Hd. rewrite decide_False; [done|]. intros ->.
    by destruct (main_fun _ _ _ _ _ _ Hm Hm2) as [-> ->].
  - intros e2 o2 v2 Hm2%Hmain Eid. rewrite Hd.
    assert (e2 = e) as -> by by apply (main_unique s ext e2 e o2 o v2 v); [apply Hc|..]. rewrite decide_True by done.
    destruct Hm as (h & en & hd & He & _). unfold dirty_of. by rewrite He.
Qed.

Lemma same_cache_unmarked s s' k : same_cache s s' -> unmarked s k -> unmarked s' k.
Proof. intros Hs Hu e o v Hm%(same_cache_main s s' _ _ _ Hs) Eid. rewrite (sc_dirty _ _ Hs). by apply (Hu e o v). Qed.

(** The object that was handed over is that of the entry: it stays, unmarked. *)
Lemma netlink_same_ok s ext e o v (is_dump : bool) :
  cache_ok s (add_use o ext) -> main s e o v ->
  exists s1 u, (if is_dump then _idxcache_update_order_for_dump e s else Some s) = Some s1 /\
    unchanged_entry o (nm_dedup_multi_entry_set_dirty e false s1) = Some u /\
    reported s ext u (oid o v) (Some (o, v)) (Some (o, v)) /\ unmarked (updated u) (oid o v).
Proof.
  intros Hc Hm. assert (exists s1, (if is_dump then _idxcache_update_order_for_dump e s else Some s) = Some s1 /\ cache_ok s1 (add_use o ext) /\
    heap s1 = heap s /\ same_cache s s1) as (s1 & E & Hc1 & Hh1 & Hs1).
  { destruct is_dump; [|by exists s]. destruct (order_for_dump_ok s _ e o v Hc Hm) as (s1 & ? & ? & ? & ?). by exists s1. }
  assert (main s1 e o v) as Hm1 by by apply (same_cache_main s).
  destruct (clear_mark s1 _ e o v Hc1 Hm1) as (Hc2 & Hh2 & Hm2 & Hoth2 & Hun2 & Hmain2).
  set (s2 := nm_dedup_multi_entry_set_dirty e false s1) in *.
  destruct (unchanged_entry_ok s2 ext e o v Hc2 Hm2) as (u & Eu & [R1 R2 R3 R4 R5 R6 R7] & Hsu). exists s1, u. split; [done|]. split; [done|].
  split; [|by apply (same_cache_unmarked s2)]. split; [done| | | |done|done|done].
  - apply (keeps_trans _ _ s2); [|done]. apply keeps_heap. congruence.
  - apply (others_stay_trans _ s2); [|done]. apply (others_stay_trans _ s1); [by apply same_cache_others|done].
  - split; [by eapply has_main|apply R4].
Qed.

Lemma netlink_update_entry_ok s ext e o v n w is_dump :
  cache_ok s (add_use o ext) -> main s e o v -> vals (heap s) !! n = Some w -> cacheable w ->
  nmp_object_is_alive (boxed n w) = true -> oid o v = oid n w ->
  exists u n' w', netlink_update_entry e o n is_dump s = Some u /\ reported s ext u (oid n w) (Some (o, v)) (Some (n', w')) /\
    same_object (n', w') (n, w) /\ unmarked (updated u) (oid n w).
Proof.
  intros Hc Hm Hw Hcw Ha Eid. destruct (main_val s _ e o v (co_index _ _ Hc) Hm) as (Hv & _ & _).
  assert (Hat : obj_at s o = Some (boxed o v) /\ obj_at s n = Some (boxed n w)) by (unfold obj_at; rewrite Hv, Hw; done). destruct Hat as [Hato Hatn].
  unfold netlink_update_entry. rewrite Hato. cbn [mbind option_bind]. rewrite Hatn. cbn [mbind option_bind].
  rewrite (object_equal_full s _ o v n w (co_index _ _ Hc) Hv Hw Hcw). destruct (same_full n o w v) eqn:Hfull.
  - destruct (netlink_same_ok s ext e o v is_dump Hc Hm) as (s1 & u & -> & Eu & Hre & Hun). cbn [mbind option_bind].
    exists u, o, v. rewrite Eid in Hre, Hun. split; [done|]. split; [done|]. split; [|done].
    by apply (same_full_keys s _ n w o v (co_index _ _ Hc) Hw Hv Hcw) in Hfull.
  - assert (Hrq := request_update s e o v n w Hm Hw Hcw Ha Eid Hfull).
    destruct (replace_ok s _ (Some e) (Some (o, v)) n w is_dump Hc Hrq) as (e' & s1 & s2 & n' & w' & E1 & E2 & [B1 B2 B3 B4 B5 B6 B7 B8]).
    rewrite E1. cbn [mbind option_bind]. rewrite E2. cbn [mbind option_bind]. eexists _, n', w'. split; [done|]. split; [|by split].
    split; cbn [updated out_old out_new ops_type]; [| |done|by split|by split| |].
    + apply (cache_ok_ext s2 (add_use n' (add_use o ext))); [|done]. intros p. unfold returned, with_ref, add_use. cbn. lia.
    + apply (keeps_mono _ (add_use o ext)); [apply add_use_le|done].
    + apply (ops_updated s _ o v n w n' w' (co_index _ _ Hc)); [by exists e|done..].
    + intros ? ? [= <- <-]. by rewrite (proj1 (B2 o ltac:(rewrite add_use_eq; lia))).
Qed.

(** ** Messages *)

(** The object of an entry, of which the functions take a reference first. *)
Lemma take_old s ext e o v :
  cache_ok s ext -> main s e o v ->
  exists en hp, entries s !! e = Some en /\ en_obj en = o /\ dirty_of s e = Some (en_dirty en) /\ vals (heap s) !! o = Some v /\
    nmp_object_ref o s = Some (with_heap hp s) /\ cache_ok (with_heap hp s) (add_use o ext) /\ same_cache s (with_heap hp s) /\
    main (with_heap hp s) e o v /\ vals hp = vals (heap s) /\ idx_objs hp = idx_objs (heap s).
Proof.
  intros Hc Hm. destruct (main_val s ext e o v (co_index _ _ Hc) Hm) as (Hv & _ & _).
  destruct (take_ref s ext o v Hc Hv) as (hp & E & Hc' & Hs & Hvals & Hp). pose proof Hm as (h & en & hd & He & Eo & _).
  exists en, hp. split_and!; try done; [unfold dirty_of; by rewrite He|by apply (same_cache_main s)].
Qed.

(** What is reported of the state with that reference. *)
Lemma reported_taken s ext hp u k old new :
  same_cache s (with_heap hp s) -> vals hp = vals (heap s) -> idx_objs hp = idx_objs (heap s) ->
  reported (with_heap hp s) ext u k old new -> reported s ext u k old new.
Proof. intros Hs Hv Hp. apply reported_before; [done|by apply keeps_same_heap|done|done]. Qed.

Lemma reported_nothing s ext k : cache_ok s ext -> has s k None ->
  reported s ext {| ops_type := NMP_CACHE_OPS_UNCHANGED; out_old := None; out_new := None; updated := s |} k None None.
Proof. intros Hc Hno. split; cbn [updated out_old out_new ops_type]; done. Qed.

Lemma no_main s k : (forall e o v, main s e o v -> oid o v <> k) <-> has s k None.
Proof. split; [intros Hno o v [e He]; by apply (Hno e)|intros Hno e o v Hm; apply Hno; by exists e]. Qed.

(** The entry that is added. *)
Lemma added_ok s ext n w is_dump :
  cache_ok s ext -> has s (oid n w) None -> vals (heap s) !! n = Some w -> cacheable w -> nmp_object_is_alive (boxed n w) = true ->
  exists e s1 s2 n' w', _idxcache_update None (Some n) is_dump s = Some (Some e, s1) /\ ref_entry (Some e) s1 = Some (Some n', s2) /\
    let u := {| ops_type := NMP_CACHE_OPS_ADDED; out_old := None; out_new := Some n'; updated := s2 |} in
    reported s ext u (oid n w) None (Some (n', w')) /\ same_object (n', w') (n, w) /\ unmarked s2 (oid n w) /\ main s2 e n' w'.
Proof.
  intros Hc Hno Hw Hcw Ha. assert (Hrq := request_add s n w (proj2 (no_main s _) Hno) Hw Hcw Ha).
  destruct (replace_ok s ext None None n w is_dump Hc Hrq) as (e & s1 & s2 & n' & w' & E1 & E2 & [B1 B2 B3 B4 B5 B6 B7 B8]).
  exists e, s1, s2, n', w'. split; [done|]. split; [done|]. split; [|done].
  split; cbn [updated out_old out_new ops_type]; [done|done|done|by split|by split|done|done].
Qed.

Definition plain (v : NMPObjectData) : Prop := forall l, v <> OBJ_LINK l.

Lemma plain_link o v : plain v -> object_link (boxed o v) = None.
Proof. intros Hp. destruct v as [l| | | | | | | |]; try done. by destruct (Hp l). Qed.

(** What the cache has after a message with an object. *)
Definition follows (u : Updated) (n : positive) (w : NMPObjectData) (new : option (positive * NMPObjectData)) : Prop :=
  if nmp_object_is_alive (boxed n w) then exists y, new = Some y /\ same_object y (n, w) /\ unmarked (updated u) (oid n w)
  else new = None.

Lemma update_netlink_ok cache ext n w is_dump :
  cache_ok (multi_idx cache) ext -> vals (heap (multi_idx cache)) !! n = Some w -> cacheable w -> plain w ->
  exists u old new, nmp_cache_update_netlink cache n is_dump = Some u /\
    reported (multi_idx cache) ext u (oid n w) old new /\ follows u n w new.
Proof.
  set (s := multi_idx cache). intros Hc Hw Hcw Hp. unfold nmp_cache_update_netlink. fold s.
  assert (Hat : obj_at s n = Some (boxed n w)) by (unfold obj_at; by rewrite Hw). rewrite Hat. cbn [mbind option_bind].
  rewrite (plain_link n w Hp). pose proof (lookup_main s ext _ (co_index _ _ Hc) (needle_boxed _ _ _ _ (co_index _ _ Hc) Hw)) as Hl.
  unfold follows. destruct (_lookup_entry s (boxed n w)) as [e|].
  - destruct Hl as (o & v & Hm & Eid). destruct (take_old s ext e o v Hc Hm) as (en & hp & He & Eo & _ & Hv & Er & Hc0 & Hs0 & Hm0 & Hv0 & Hp0).
    rewrite He. cbn [mbind option_bind]. rewrite Eo, Er. cbn [mbind option_bind]. change (object_id_key (boxed n w)) with (oid n w) in Eid.
    destruct (nmp_object_is_alive (boxed n w)) eqn:Ha; cbn [negb].
    + destruct (netlink_update_entry_ok (with_heap hp s) ext e o v n w is_dump Hc0 Hm0) as (u & n' & w' & Eu & Hre & Hso & Hun);
        [cbn [heap with_heap]; by rewrite Hv0|done..|].
      exists u, (Some (o, v)), (Some (n', w')). split; [done|]. split; [by apply (reported_taken s _ hp)|]. by exists (n', w').
    + destruct (removed_entry_ok (with_heap hp s) ext e o v Hc0 Hm0) as (u & Eu & Hre).
      exists u, (Some (o, v)), None. split; [done|]. split; [|done]. rewrite Eid in Hre. by apply (reported_taken s _ hp).
  - apply no_main in Hl. change (object_id_key (boxed n w)) with (oid n w) in Hl. destruct (nmp_object_is_alive (boxed n w)) eqn:Ha; cbn [negb].
    + destruct (added_ok s ext n w is_dump Hc Hl Hw Hcw Ha) as (e & s1 & s2 & n' & w' & E1 & E2 & Hre & Hso & Hun & _).
      cbn [mbind option_bind]. rewrite E1. cbn [mbind option_bind]. rewrite E2. cbn [mbind option_bind].
      eexists _, None, (Some (n', w')). split; [done|]. split; [done|]. by exists (n', w').
    + eexists _, None, None. split; [done|]. split; [by apply reported_nothing|done].
Qed.

(** ** Removing *)

Definition plain_obj x : Prop := object_link x = None.

Lemma remove_netlink_ok cache ext x :
  let s := multi_idx cache in
  cache_ok s ext -> needle_ok (vals (heap s)) x -> plain_obj x ->
  exists u old, nmp_cache_remove_netlink cache x = Some u /\ reported s ext u (object_id_key x) old None.
Proof.
  intros s Hc Hx Hp. unfold nmp_cache_remove_netlink. fold s. rewrite Hp. pose proof (lookup_main s ext x (co_index _ _ Hc) Hx) as Hl.
  destruct (_lookup_entry s x) as [e|].
  - destruct Hl as (o & v & Hm & Eid). destruct (take_old s ext e o v Hc Hm) as (en & hp & He & Eo & _ & Hv & Er & Hc0 & Hs0 & Hm0 & Hv0 & Hp0).
    rewrite He. cbn [mbind option_bind]. rewrite Eo, Er. cbn [mbind option_bind].
    destruct (removed_entry_ok (with_heap hp s) ext e o v Hc0 Hm0) as (u & Eu & Hre). exists u, (Some (o, v)). split; [done|].
    rewrite Eid in Hre. by apply (reported_taken s _ hp).
  - apply no_main in Hl. eexists _, None. split; [done|]. by apply reported_nothing.
Qed.

(** nmp_cache_remove () removes the object of the identity if it is to: not
    another object (by its address), and, for a sweep, only if it is marked. *)
Lemma remove_ok s ext x (equals_by_ptr only_dirty : bool) :
  cache_ok s ext -> needle_ok (vals (heap s)) x ->
  exists u, nmp_cache_remove s x equals_by_ptr only_dirty = Some u /\
    match _lookup_entry s x with
    | None => u = {| ops_type := NMP_CACHE_OPS_UNCHANGED; out_old := None; out_new := None; updated := s |}
    | Some e => exists o v, main s e o v /\ oid o v = object_id_key x /\
        if (equals_by_ptr && negb (Zpos o =? at_ptr x)) || (only_dirty && negb (bool_decide (dirty_of s e = Some true))) then
          ops_type u = NMP_CACHE_OPS_UNCHANGED /\ out_old u = Some o /\ out_new u = None /\ cache_ok (updated u) (returned u ext) /\
          same_cache s (updated u) /\ keeps ext s (updated u)
        else reported s ext u (oid o v) (Some (o, v)) None
    end.
Proof.
  intros Hc Hx. unfold nmp_cache_remove. pose proof (lookup_main s ext x (co_index _ _ Hc) Hx) as Hl.
  destruct (_lookup_entry s x) as [e|]; [|by eexists].
  destruct Hl as (o & v & Hm & Eid). destruct (take_old s ext e o v Hc Hm) as (en & hp & He & Eo & Ed & Hv & Er & Hc0 & Hs0 & Hm0 & Hv0 & Hp0).
  rewrite He. cbn [mbind option_bind]. rewrite Eo, Er. cbn [mbind option_bind].
  assert (bool_decide (dirty_of s e = Some true) = en_dirty en) as Hd.
  { rewrite Ed. destruct (en_dirty en); [by apply bool_decide_eq_true|by apply bool_decide_eq_false]. }
  destruct ((equals_by_ptr && negb (Zpos o =? at_ptr x)) || (only_dirty && negb (en_dirty en))) eqn:Eskip.
  - eexists. split; [done|]. exists o, v. split; [done|]. split; [done|]. rewrite Hd, Eskip. cbn [updated out_old out_new ops_type].
    split_and!; [done|done|done|done|done|by apply keeps_same_heap].
  - destruct (removed_entry_ok (with_heap hp s) ext e o v Hc0 Hm0) as (u & Eu & Hre). exists u. split; [done|].
    exists o, v. split; [done|]. split; [done|]. rewrite Hd, Eskip. by apply (reported_taken s _ hp).
Qed.
End netlink.
