(* ===== verification/NmpCacheRoute.v ===== *)
(** * NMPCache: messages about routes

    nmp_cache_update_netlink_route () also keeps the order of the routes of a weak
    id, as the flags of the message tell, and finds the route that was replaced. *)

From S2P Require Export NmpCacheNetlink.

(** ** Moving in a list *)

Lemma before_Some x y l : before x l = Some y -> exists l1 l2, l = l1 ++ y :: x :: l2.
Proof.
  induction l as [|z l IH]; [done|]. cbn. destruct l as [|z' l]; [done|]. destruct (decide (z' = x)) as [->|Hne].
  - intros [= ->]. by exists [], l.
  - intros (l1 & l2 & E)%IH. exists (z :: l1), l2. by rewrite E.
Qed.

Lemma before_head x l : NoDup (x :: l) -> before x (x :: l) = None.
Proof.
  intros [Hx Hl]%NoDup_cons. destruct (before x (x :: l)) as [y|] eqn:E; [|done]. apply before_Some in E as (l1 & l2 & E).
  exfalso. apply Hx. destruct l1 as [|z l1]; injection E as -> ->; set_solver.
Qed.

Lemma unlink_cons_ne e r l : r <> e -> c_list_unlink e (r :: l) = r :: c_list_unlink e l.
Proof. intros Hne. unfold c_list_unlink. by rewrite filter_cons_True. Qed.

(** The entry is moved before the first other one. *)
Lemma move_replace e r l :
  NoDup l -> e ∈ l -> first_other e l = Some r -> exists rest, (nm_c_list_move_before (Some r) e l).2 = e :: r :: rest /\ e <> r.
Proof.
  intros Hl He. destruct l as [|e1 l]; [done|]. cbn [first_other]. case_bool_decide as E1.
  - subst e1. destruct l as [|e2 l]; [done|]. intros [= ->]. exists l. unfold nm_c_list_move_before. cbn [c_list_prev before].
    destruct (decide (r = r)); [|done]. rewrite (bool_decide_eq_true_2 (Some e = Some e)), andb_false_r by done. split; [done|].
    intros ->. apply NoDup_cons in Hl as [Hl _]. apply Hl. left.
  - intros [= ->]. exists (c_list_unlink e l). unfold nm_c_list_move_before, c_list_prev. rewrite before_head by done.
    rewrite (bool_decide_eq_false_2 (Some r = Some e)) by congruence. cbn. rewrite unlink_cons_ne by done. cbn.
    destruct (decide (r = r)); [|done]. split; [done|congruence].
Qed.

Lemma move_first e l : (nm_c_list_move_after None e l).2 = e :: (match l with e1 :: l' => if decide (e1 = e) then l' else c_list_unlink e l | [] => [] end).
Proof.
  unfold nm_c_list_move_after. cbn. destruct l as [|e1 l]; [done|]. cbn. destruct (decide (e1 = e)) as [->|Hne].
  - by rewrite (bool_decide_eq_true_2 (Some e = Some e)).
  - rewrite (bool_decide_eq_false_2 (Some e1 = Some e)) by congruence. done.
Qed.

Lemma move_last e l : e ∈ l -> exists rest, (nm_c_list_move_before None e l).2 = rest ++ [e].
Proof.
  intros He. unfold nm_c_list_move_before. rewrite (bool_decide_eq_false_2 (None = Some e)) by done. cbn.
  case_bool_decide as E; cbn; [|by exists (c_list_unlink e l)].
  apply last_Some in E as [l' ->]. by exists l'.
Qed.

Lemma first_other_some e l : NoDup l -> e ∈ l -> length l <> 1%nat -> is_Some (first_other e l).
Proof.
  intros Hl He Hn. destruct l as [|e1 l]; [by apply elem_of_nil in He|]. cbn. case_bool_decide; [|done].
  by destruct l; [|eexists].
Qed.

Lemma first_other_in e r l : first_other e l = Some r -> r ∈ l.
Proof.
  destruct l as [|x l]; [done|]. cbn. case_bool_decide; [destruct l; [done|]|]; intros [= ->]; [right|]; left.
Qed.

Section route.
Context `{ByteOrder} `{KernelSupport} `{SipHash} `{LinkDriver}.
Implicit Types (s : Index) (ext : positive -> nat).

Abbreviation WEAK := NMP_CACHE_ID_TYPE_ROUTES_BY_WEAK_ID.

Definition is_route (v : NMPObjectData) : Prop := match v with OBJ_IP4_ROUTE _ | OBJ_IP6_ROUTE _ => True | _ => False end.

(** ** The order of a weak id *)

Definition order_flags (nlmsgflags : Z) : Z :=
  Z.land nlmsgflags (Z.lor (Z.lor NLM_F_REPLACE NLM_F_EXCL) (Z.lor NLM_F_CREATE NLM_F_APPEND)).

(** The list of a weak id after a message for the route of the entry: it replaces
    the first other one, is appended or prepended. *)
Definition ordered (nlmsgflags : Z) (e : positive) (l : list positive) (entry_replace : option positive) (resync : bool) : Prop :=
  if decide (length l = 1%nat) then entry_replace = None /\ resync = false
  else if order_flags nlmsgflags =? NLM_F_REPLACE then
    resync = false /\ exists r rest, entry_replace = Some r /\ l = e :: r :: rest
  else if order_flags nlmsgflags =? Z.lor NLM_F_CREATE NLM_F_APPEND then
    resync = false /\ entry_replace = None /\ exists rest, l = rest ++ [e]
  else if order_flags nlmsgflags =? NLM_F_CREATE then
    resync = false /\ entry_replace = None /\ exists rest, l = e :: rest
  else resync = true /\ entry_replace = None.

Lemma route_alive_divided o v : is_route v -> nmp_object_is_alive (boxed o v) = true -> divided WEAK o v.
Proof.
  intros Hr Ha. destruct v; try done; (split; [cbn; set_solver|]); unfold nmp_object_is_alive, ipx_route_alive in Ha; cbn in Ha |- *;
    apply andb_true_iff in Ha as [-> _]; by eexists.
Qed.

Lemma reorder_weak_ok s ext e h o v order (order_after : bool) l :
  cache_ok s ext -> tracked s e WEAK h o v -> lst_of s h = Some l -> anchor_in order l ->
  let m := move_entry (if order_after then NM_DEDUP_MULTI_IDX_MODE_APPEND_FORCE else NM_DEDUP_MULTI_IDX_MODE_PREPEND_FORCE) order e l in
  exists s', nm_dedup_multi_entry_reorder s e order order_after = Some (m.1, s') /\ cache_ok s' ext /\ heap s' = heap s /\ same_cache s s' /\
    lst_of s' h = Some m.2 /\ length m.2 = length l.
Proof.
  intros Hc Ht Hl Ha m. destruct (reorder_ok s ext e WEAK h o v order order_after l (co_index _ _ Hc) Ht Hl Ha) as (s' & E & Hok & Hh & Ht' & Hl' & Hd).
  fold m in E, Hl'. exists s'. assert (same_cache s s') as Hs by by split. split; [done|]. split; [by apply (cache_ok_memory s _ ext)|].
  split; [done|]. split; [done|]. split; [by rewrite Hl', decide_True|]. apply Permutation_length, move_entry_perm; [..|done].
  - destruct Ht as (en & hd & _ & _ & <- & Hhd & _). unfold lst_of in Hl. rewrite Hhd in Hl. injection Hl as <-.
    by apply (ix_head _ _ (co_index _ _ Hc) _ _ Hhd).
  - destruct (tracked_lst _ _ _ _ _ _ _ (co_index _ _ Hc) Ht) as (l2 & Hl2 & He). congruence.
Qed.

Lemma route_order_ok s ext e o v n nlmsgflags :
  cache_ok s ext -> main s e o v -> is_route v ->
  exists rep resync s', route_order e n nlmsgflags s = Some (rep, resync, s') /\ cache_ok s' ext /\ heap s' = heap s /\ same_cache s s' /\
    exists e2 h l, tracked s' e2 WEAK h o v /\ lst_of s' h = Some l /\ ordered nlmsgflags e2 l rep resync /\ forall r, rep = Some r -> r ∈ l.
Proof.
  intros Hc Hm Hr. pose proof (co_index _ _ Hc) as Hok. destruct (main_val s ext e o v Hok Hm) as (Hv & _ & _).
  assert (Hd : divided WEAK o v) by (apply route_alive_divided; [done|by apply (co_alive _ _ Hc e)]).
  destruct (proj2 (co_synced _ _ Hc WEAK ltac:(done) o v)) as (e2 & h & Ht); [split; [by exists e|done]|].
  assert (El : _lookup_entry_with_idx_type s WEAK (boxed o v) = Some e2).
  { apply (lookup_obj_spec s ext WEAK _ e2 Hok (needle_boxed _ _ _ _ Hok Hv)). by exists h, o, v. }
  pose proof Hm as (hm & en & hdm & He & Eo & _). unfold route_order. rewrite He. cbn [mbind option_bind]. unfold obj_at. rewrite Eo, Hv. cbn [mbind option_bind].
  rewrite El. pose proof Ht as (en2 & hd & He2 & _ & Eh & Hhd & _). rewrite He2. cbn [mbind option_bind]. rewrite Eh, Hhd. cbn [mbind option_bind].
  set (l := lst_entries_head hd). assert (Hl : lst_of s h = Some l) by (unfold lst_of; by rewrite Hhd).
  destruct (tracked_member _ _ _ _ _ _ _ _ Hok Ht Hhd) as (Hin & Hnd & _). fold l in Hin, Hnd.
  assert (he_len hd = Z.of_nat (length l)) as -> by by apply (ix_head _ _ Hok _ _ Hhd).
  destruct (Z.eqb_spec (Z.of_nat (length l)) 1) as [E1|Hne].
  { exists None, false, s. split_and!; [done|done|done|done|]. exists e2, h, l. split_and!; [done|done| |done]. unfold ordered. by rewrite decide_True by lia. }
  assert (Hn : length l <> 1%nat) by lia. unfold ordered. fold (order_flags nlmsgflags). cbv zeta.
  destruct (order_flags nlmsgflags =? NLM_F_REPLACE) eqn:Erep; [|destruct (order_flags nlmsgflags =? Z.lor NLM_F_CREATE NLM_F_APPEND) eqn:Eapp; [|destruct (order_flags nlmsgflags =? NLM_F_CREATE) eqn:Ecr]].
  - destruct (first_other_some e2 l Hnd Hin Hn) as [r Er]. rewrite Er. cbn [mbind option_bind].
    destruct (move_replace e2 r l Hnd Hin Er) as (rest & Em & _).
    pose proof (first_other_in e2 r l Er) as Hrin.
    destruct (reorder_weak_ok s ext e2 h o v (Some r) false l Hc Ht Hl) as (s' & -> & Hc' & Hh' & Hs' & Hl' & Hlen); [by intros ? [= <-]|].
    cbn [mbind option_bind]. exists (Some r), false, s'. split_and!; [done|done|done|done|]. exists e2, h, (e2 :: r :: rest).
    cbn [move_entry] in Hl'. rewrite Em in Hl'. split_and!; [by apply Hs'|done| |by intros ? [= <-]; right; left].
    rewrite decide_False by done. split; [done|]. by exists r, rest.
  - destruct (move_last e2 l Hin) as (rest & Em).
    destruct (reorder_weak_ok s ext e2 h o v None true l Hc Ht Hl (anchor_none l)) as (s' & -> & Hc' & Hh' & Hs' & Hl' & Hlen).
    cbn [mbind option_bind]. exists None, false, s'. split_and!; [done|done|done|done|]. exists e2, h, (rest ++ [e2]).
    cbn [move_entry] in Hl', Hlen. rewrite Em in Hl', Hlen. split_and!; [by apply Hs'|done| |done].
    rewrite decide_False by congruence. split_and!; [done|done|by exists rest].
  - destruct (reorder_weak_ok s ext e2 h o v None false l Hc Ht Hl (anchor_none l)) as (s' & -> & Hc' & Hh' & Hs' & Hl' & Hlen).
    cbn [mbind option_bind]. exists None, false, s'. split_and!; [done|done|done|done|].
    cbn [move_entry] in Hl', Hlen. rewrite move_first in Hl', Hlen. eexists e2, h, _. split_and!; [by apply Hs'|exact Hl'| |done].
    rewrite decide_False by congruence. split_and!; [done|done|by eexists].
  - exists None, true, s. split_and!; [done|done|done|done|]. exists e2, h, l. split_and!; [done|done| |done]. by rewrite decide_False.
Qed.

(** ** The end of an update *)

(** The route that the caller is told was replaced. *)
Definition replaced_route s (h : positive) (rep : option positive) (o : option positive) : Prop :=
  match rep with None => o = None | Some r => exists p z, tracked s r WEAK h p z /\ o = Some p end.

Definition route_ordered s (nlmsgflags : Z) (o : positive) (v : NMPObjectData) (replaced : option positive) (resync : bool) : Prop :=
  exists e h l rep, tracked s e WEAK h o v /\ lst_of s h = Some l /\ ordered nlmsgflags e l rep resync /\ replaced_route s h rep replaced.

Lemma lst_entry s ext h l e i e2 o v : index_ok s ext -> lst_of s h = Some l -> tracked s e i h o v -> e2 ∈ l -> exists p z, tracked s e2 i h p z.
Proof.
  intros Hok Hl (en & hd & _ & _ & _ & Hhd & <- & _) Hin. unfold lst_of in Hl. rewrite Hhd in Hl. injection Hl as <-.
  destruct (head_tracked s ext h hd e2 Hok Hhd Hin) as (en2 & z & _ & _ & Ht). by exists (en_obj en2), z.
Qed.

(** The reference of the route of an entry. *)
Lemma ref_entry_ok s ext rep h l e o v :
  cache_ok s ext -> lst_of s h = Some l -> tracked s e WEAK h o v -> (forall r, rep = Some r -> r ∈ l) ->
  exists p hp, ref_entry rep s = Some (p, with_heap hp s) /\ cache_ok (with_heap hp s) (with_ref p ext) /\ same_cache s (with_heap hp s) /\
    vals hp = vals (heap s) /\ idx_objs hp = idx_objs (heap s) /\ replaced_route s h rep p.
Proof.
  intros Hc Hl Ht Hrep. destruct rep as [r|].
  - destruct (lst_entry s ext h l e WEAK r o v (co_index _ _ Hc) Hl Ht (Hrep r eq_refl)) as (p & z & Hr). pose proof Hr as (en & hd & He & Eo & _ & _ & _ & Hz).
    destruct (take_ref_opt s ext (Some (p, z)) Hc) as (hp & E & Hc' & Hs & Hv & Hp); [by intros ? ? [= <- <-]|].
    exists (Some p), hp. split; [|by split_and!; [..|exists p, z]].
    unfold ref_entry. cbn [nm_dedup_multi_entry_get_obj]. rewrite He. cbn [mbind option_bind]. rewrite Eo. cbn [fmap option_fmap option_map fst] in E. by rewrite E.
  - destruct (take_ref_opt s ext None Hc) as (hp & E & Hc' & Hs & Hv & Hp); [done|]. exists None, hp. split; [|done].
    unfold ref_entry. cbn [nm_dedup_multi_entry_get_obj mbind option_bind]. cbn [fmap option_fmap option_map] in E. by rewrite E.
Qed.

Lemma update_done_new ops old e n (is_dump : bool) nlmsgflags s1 s2 ext n' w' :
  ref_entry (Some e) s1 = Some (Some n', s2) -> cache_ok s2 ext -> main s2 e n' w' -> is_route w' ->
  exists r s4, update_done ops old (Some e) n is_dump nlmsgflags s1 = Some r /\
    route_updated r = {| ops_type := ops; out_old := old; out_new := Some n'; updated := s4 |} /\
    cache_ok s4 (with_ref (obj_replace r) ext) /\ same_cache s2 s4 /\ keeps ext s2 s4 /\
    if is_dump then obj_replace r = None /\ resync_required r = false else route_ordered s4 nlmsgflags n' w' (obj_replace r) (resync_required r).
Proof.
  intros E2 Hc Hm Hr. unfold update_done. rewrite E2. cbn [mbind option_bind]. destruct is_dump; cbn [mbind option_bind].
  - eexists _, s2. split; [done|]. cbn [obj_replace resync_required route_updated with_ref]. split_and!; [done|done|done|apply keeps_refl|done|done].
  - destruct (route_order_ok s2 ext e n' w' n nlmsgflags Hc Hm Hr) as (rep & resync & s3 & E3 & Hc3 & Hh3 & Hs3 & e2 & h & l & Ht & Hl & Hord & Hrep).
    rewrite E3. cbn [mbind option_bind].
    destruct (ref_entry_ok s3 ext rep h l e2 n' w' Hc3 Hl Ht Hrep) as (p & hp & E4 & Hc4 & Hs4 & Hv4 & Hp4 & Hrr). rewrite E4. cbn [mbind option_bind].
    eexists _, (with_heap hp s3). split; [done|]. cbn [obj_replace resync_required route_updated]. split; [done|]. split; [done|].
    split; [by etransitivity|]. split; [apply (keeps_trans _ _ s3); [by apply keeps_heap|by apply keeps_same_heap]|].
    exists e2, h, l, rep. split; [by apply Hs4|]. split; [done|]. split; [done|].
    destruct rep as [r|]; [|done]. destruct Hrr as (q & z & Hq & ->). exists q, z. split; [by apply Hs4|done].
Qed.

Lemma update_done_none ops old n v (is_dump : bool) nlmsgflags s ext :
  cache_ok s ext -> vals (heap s) !! n = Some v ->
  exists r, update_done ops old None n is_dump nlmsgflags s = Some r /\
    route_updated r = {| ops_type := ops; out_old := old; out_new := None; updated := s |} /\ obj_replace r = None /\
    resync_required r = negb is_dump && negb (Z.land nlmsgflags NLM_F_REPLACE =? 0)
      && bool_decide (is_Some (nmp_cache_lookup_all s WEAK (boxed n v))).
Proof.
  intros Hc Hv. unfold update_done, ref_entry. cbn [nm_dedup_multi_entry_get_obj mbind option_bind ref_opt]. unfold obj_at. rewrite Hv.
  destruct is_dump; cbn [mbind option_bind]; by eexists.
Qed.

(** ** The whole message *)

Record route_reported s ext (r : RouteUpdated) (n : positive) (w : NMPObjectData) (is_dump : bool) (nlmsgflags : Z)
    (old new : option (positive * NMPObjectData)) : Prop := {
  rr_ok : cache_ok (updated (route_updated r)) (with_ref (obj_replace r) (returned (route_updated r) ext));
  rr_keeps : keeps ext s (updated (route_updated r));
  rr_others : others_stay s (updated (route_updated r)) (oid n w);
  rr_old : has s (oid n w) old /\ out_old (route_updated r) = fst <$> old;
  rr_new : has (updated (route_updated r)) (oid n w) new;
  rr_ops : ops_of (ops_type (route_updated r)) old new;
  rr_val o v : old = Some (o, v) -> vals (heap (updated (route_updated r))) !! o = Some v;
  rr_follows : follows (route_updated r) n w new;
  rr_order : match ops_type (route_updated r), new with
             | (NMP_CACHE_OPS_ADDED | NMP_CACHE_OPS_UPDATED), Some (o, v) =>
                 out_new (route_updated r) = Some o /\
                 if is_dump then obj_replace r = None /\ resync_required r = false
                 else route_ordered (updated (route_updated r)) nlmsgflags o v (obj_replace r) (resync_required r)
             | _, _ =>
                 out_new (route_updated r) = None /\ obj_replace r = None /\
                 resync_required r = negb is_dump && negb (Z.land nlmsgflags NLM_F_REPLACE =? 0)
                   && bool_decide (is_Some (nmp_cache_lookup_all (updated (route_updated r)) WEAK (boxed n w)))
             end
}.

Lemma route_cacheable v : is_route v -> cacheable v.
Proof. by destruct v. Qed.

(** The entry has the new route. *)
Lemma route_replaced_ok ops s ext ext0 eo old n w (is_dump : bool) nlmsgflags :
  cache_ok s ext -> request s eo old (Some (n, w)) -> is_route w -> (forall p, ext p = with_ref (fst <$> old) ext0 p) ->
  match ops with NMP_CACHE_OPS_ADDED => old = None | NMP_CACHE_OPS_UPDATED => is_Some old | _ => False end ->
  exists e s1 r new, _idxcache_update eo (Some n) is_dump s = Some (Some e, s1) /\
    update_done ops (fst <$> old) (Some e) n is_dump nlmsgflags s1 = Some r /\
    route_reported s ext0 r n w is_dump nlmsgflags old new.
Proof.
  intros Hc Hrq Hr Hext Hops.
  destruct (replace_ok s ext eo old n w is_dump Hc Hrq) as (e & s1 & s2 & n' & w' & E1 & E2 & [B1 B2 B3 B4 B5 B6 B7 B8]).
  assert (Hr' : is_route w').
  { assert (obj_type w' = obj_type w) as Et by (unfold same_object, object_key in B8; cbn in B8; congruence).
    destruct w; try done; destruct w' as [| | | | | | | |lnk]; try done; destruct lnk; done. }
  destruct (update_done_new ops (fst <$> old) e n is_dump nlmsgflags s1 s2 _ n' w' E2 B1 B6 Hr') as (r & s4 & E3 & Eu & Hc4 & Hs4 & Hk4 & Hord).
  exists e, s1, r, (Some (n', w')). split; [done|]. split; [done|].
  assert (Hle : forall p, (ext0 p <= ext p)%nat) by (intros p; rewrite Hext; destruct old as [[]|]; [apply add_use_le|done]).
  assert (Hmain : forall e o v, main s4 e o v <-> main s2 e o v) by (intros; by apply same_cache_main).
  split; rewrite ?Eu; unfold returned; cbn [updated out_old out_new ops_type].
  - apply (cache_ok_ext s4 (with_ref (obj_replace r) (add_use n' ext))); [|done]. intros p.
    pose proof (Hext p) as Hx. destruct (obj_replace r); destruct old as [[]|]; cbn in *; unfold add_use in *; lia.
  - apply (keeps_mono _ ext); [done|]. apply (keeps_trans _ _ s2); [done|]. apply (keeps_mono _ (add_use n' ext)); [apply add_use_le|done].
  - by apply (others_stay_trans _ s2), same_cache_others.
  - by split.
  - by apply (same_has s2 _ _ (Some (n', w')) Hmain).
  - destruct ops; try done; [by subst old|]. destruct Hops as [[o v] ->].
    destruct (rq_upd _ _ _ _ Hrq o v n w eq_refl eq_refl) as [_ Hdiff]. destruct (request_old_main _ _ _ _ o v Hrq eq_refl) as (e0 & _ & He0).
    apply (ops_updated s ext o v n w n' w' (co_index _ _ Hc)); [by exists e0|by apply (rq_new _ _ _ _ Hrq)|by apply route_cacheable|done|done].
  - intros o v Eo. assert (Hx : (0 < ext o)%nat) by (rewrite Hext, Eo; cbn; rewrite add_use_eq; lia).
    rewrite (proj1 (Hk4 o ltac:(pose proof (add_use_le n' ext o); lia))), (proj1 (B2 o Hx)).
    destruct (request_old_main _ _ _ _ o v Hrq Eo) as (e0 & _ & He0). by apply (main_val s ext e0 o v (co_index _ _ Hc)).
  - unfold follows. destruct (rq_new _ _ _ _ Hrq n w eq_refl) as (_ & _ & ->). exists (n', w'). split_and!; [done|done|].
    by apply (same_cache_unmarked s2).
  - by destruct ops.
Qed.

(** The entry is gone, or as before, or there is none: no order to look at. *)
Lemma route_none_ok ops s s1 ext n w old new (is_dump : bool) nlmsgflags :
  cache_ok s1 (with_ref (fst <$> old) ext) -> vals (heap s1) !! n = Some w -> keeps ext s s1 ->
  others_stay s s1 (oid n w) -> has s (oid n w) old -> has s1 (oid n w) new -> ops_of ops old new ->
  follows {| ops_type := ops; out_old := fst <$> old; out_new := None; updated := s1 |} n w new ->
  match ops with NMP_CACHE_OPS_ADDED | NMP_CACHE_OPS_UPDATED => False | _ => True end ->
  (forall o v, old = Some (o, v) -> vals (heap s1) !! o = Some v) ->
  exists r, update_done ops (fst <$> old) None n is_dump nlmsgflags s1 = Some r /\ route_reported s ext r n w is_dump nlmsgflags old new.
Proof.
  intros Hc Hw Hk Hoth Hold Hnew Hops Hf Hnot Hval.
  destruct (update_done_none ops (fst <$> old) n w is_dump nlmsgflags s1 _ Hc Hw) as (r & E & Eu & Erep & Eres).
  exists r. split; [done|]. split; rewrite ?Eu; unfold returned; cbn [updated out_old out_new ops_type]; rewrite ?Erep; try done.
  by destruct ops, new as [[]|].
Qed.

Lemma ref_entry_main s ext e o v :
  cache_ok s ext -> main s e o v ->
  exists hp, ref_entry (Some e) s = Some (Some o, with_heap hp s) /\ cache_ok (with_heap hp s) (add_use o ext) /\ same_cache s (with_heap hp s) /\
    main (with_heap hp s) e o v /\ vals (heap s) !! o = Some v /\ vals hp = vals (heap s) /\ idx_objs hp = idx_objs (heap s).
Proof.
  intros Hc Hm. destruct (take_old s ext e o v Hc Hm) as (en & hp & He & Eo & _ & Hv & Er & Hc0 & Hs0 & Hm0 & Hv0 & Hp0). exists hp.
  unfold ref_entry. cbn [nm_dedup_multi_entry_get_obj]. rewrite He. cbn [mbind option_bind ref_opt]. by rewrite Eo, Er.
Qed.

Lemma route_reported_before s s' ext r n w is_dump nlmsgflags old new :
  same_cache s s' -> keeps ext s s' -> route_reported s' ext r n w is_dump nlmsgflags old new -> route_reported s ext r n w is_dump nlmsgflags old new.
Proof.
  intros Hs Hk [R1 R2 R3 R4 R5 R6 R7 R8 R9]. split; try done.
  - by apply (keeps_trans _ _ s').
  - apply (others_stay_trans _ s'); [by apply same_cache_others|done].
  - destruct R4 as [Hh Ho]. split; [|done]. apply (same_has s s'); [|done]. intros. by apply same_cache_main.
Qed.

Lemma route_existing_ok s ext e o v n w (is_dump : bool) nlmsgflags :
  cache_ok s (add_use o ext) -> main s e o v -> vals (heap s) !! n = Some w -> is_route w -> oid o v = oid n w -> (0 < ext n)%nat ->
  nmp_object_is_alive (boxed n w) = true ->
  exists r new,
    (if nmp_object_equal (boxed o v) (boxed n w) then
       s1 ← (if is_dump then _idxcache_update_order_for_dump e s else Some s);
       update_done NMP_CACHE_OPS_UNCHANGED (Some o) None n is_dump nlmsgflags (nm_dedup_multi_entry_set_dirty e false s1)
     else
       '(entry_new, s) ← _idxcache_update (Some e) (Some n) is_dump s;
       update_done NMP_CACHE_OPS_UPDATED (Some o) entry_new n is_dump nlmsgflags s) = Some r /\
    route_reported s ext r n w is_dump nlmsgflags (Some (o, v)) new.
Proof.
  intros Hc Hm Hw Hr Eid Hx Ha. pose proof (route_cacheable w Hr) as Hcw. destruct (main_val s _ e o v (co_index _ _ Hc) Hm) as (Hv & _ & _).
  rewrite (object_equal_full s _ o v n w (co_index _ _ Hc) Hv Hw Hcw). destruct (same_full n o w v) eqn:Hfull.
  - assert (exists s1, (if is_dump then _idxcache_update_order_for_dump e s else Some s) = Some s1 /\ cache_ok s1 (add_use o ext) /\
      heap s1 = heap s /\ same_cache s s1) as (s1 & -> & Hc1 & Hh1 & Hs1).
    { destruct is_dump; [|by exists s]. destruct (order_for_dump_ok s _ e o v Hc Hm) as (s1 & ? & ? & ? & ?). by exists s1. }
    assert (main s1 e o v) as Hm1 by by apply (same_cache_main s). cbn [mbind option_bind].
    destruct (clear_mark s1 _ e o v Hc1 Hm1) as (Hc2 & Hh2 & Hm2 & Hoth2 & Hun2 & Hmain2).
    destruct (route_none_ok NMP_CACHE_OPS_UNCHANGED s (nm_dedup_multi_entry_set_dirty e false s1) ext n w (Some (o, v)) (Some (o, v)) is_dump nlmsgflags)
      as (r & Er & Hre); [done|by rewrite Hh2, Hh1|apply keeps_heap; congruence| | | |done| |done|intros ? ? [= <- <-]; by rewrite Hh2, Hh1|by exists r, (Some (o, v))].
    + rewrite <-Eid. apply (others_stay_trans _ s1); [by apply same_cache_others|done].
    + rewrite <-Eid. by eapply has_main.
    + rewrite <-Eid. by eapply has_main.
    + unfold follows. rewrite Ha. exists (o, v). split; [done|]. rewrite <-Eid. split; [|done]. symmetry.
      by apply (same_full_keys s _ n w o v (co_index _ _ Hc) Hw Hv Hcw).
  - assert (Hrq := request_update s e o v n w Hm Hw Hcw Ha Eid Hfull).
    destruct (route_replaced_ok NMP_CACHE_OPS_UPDATED s _ ext (Some e) (Some (o, v)) n w is_dump nlmsgflags Hc Hrq Hr) as (e' & s1 & r & new & E1 & E2 & Hre);
      [done|done|]. rewrite E1. cbn [mbind option_bind]. by exists r, new.
Qed.

Lemma update_netlink_route_ok s ext n w is_dump nlmsgflags :
  cache_ok s ext -> vals (heap s) !! n = Some w -> is_route w -> (0 < ext n)%nat ->
  exists r old new, nmp_cache_update_netlink_route s n is_dump nlmsgflags = Some r /\ route_reported s ext r n w is_dump nlmsgflags old new.
Proof.
  intros Hc Hw Hr Hx. pose proof (route_cacheable w Hr) as Hcw. unfold nmp_cache_update_netlink_route.
  assert (Hat : obj_at s n = Some (boxed n w)) by (unfold obj_at; by rewrite Hw). rewrite Hat. cbn [mbind option_bind].
  pose proof (lookup_main s ext _ (co_index _ _ Hc) (needle_boxed _ _ _ _ (co_index _ _ Hc) Hw)) as Hl. destruct (_lookup_entry s (boxed n w)) as [e|].
  - destruct Hl as (o & v & Hm & Eid). change (object_id_key (boxed n w)) with (oid n w) in Eid.
    destruct (ref_entry_main s ext e o v Hc Hm) as (hp & -> & Hc0 & Hs0 & Hm0 & Hv & Hv0 & Hp0). cbn [mbind option_bind]. set (s0 := with_heap hp s) in *.
    assert (keeps ext s s0) as Hk0 by by apply keeps_same_heap. assert (vals (heap s0) !! n = Some w) as Hw0 by (cbn; by rewrite Hv0).
    destruct (nmp_object_is_alive (boxed n w)) eqn:Ha; cbn [negb].
    + assert (obj_at s0 o = Some (boxed o v)) as -> by (unfold obj_at; cbn; by rewrite Hv0, Hv). cbn [mbind option_bind].
      destruct (route_existing_ok s0 ext e o v n w is_dump nlmsgflags Hc0 Hm0 Hw0 Hr Eid Hx Ha) as (r & new & Er & Hre).
      exists r, (Some (o, v)), new. split; [done|]. by apply (route_reported_before s s0).
    + assert (Hrq := request_remove s0 e o v Hm0).
      destruct (idxcache_update_ok s0 _ (Some e) (Some (o, v)) None false Hc0 Hrq) as (s1 & en & new' & E & Hc1 & Hk1 & Hmu & Hst).
      cbn [fmap option_fmap option_map] in E. rewrite E. cbn [mbind option_bind]. destruct new' as [[]|]; [done|].
      destruct (main_updated_others s0 s1 _ (Some e) en _ None None (oid o v) (co_index _ _ Hc0) Hrq Hmu Hst) as (Hoth & Ho & Hn & _);
        [by intros ? ? [= <- <-]|done|]. rewrite Eid in Hoth, Ho, Hn.
      destruct (route_none_ok NMP_CACHE_OPS_REMOVED s0 s1 ext n w (Some (o, v)) None is_dump nlmsgflags) as (r & Er & Hre); [done| | |done|done|done|done| |done| |].
      { rewrite (proj1 (Hk1 n ltac:(unfold add_use; lia))). done. }
      { by apply (keeps_mono _ (add_use o ext)); [apply add_use_le|]. }
      { unfold follows. by rewrite Ha. }
      { intros ? ? [= <- <-]. rewrite (proj1 (Hk1 o ltac:(rewrite add_use_eq; lia))). cbn [heap with_heap s0]. by rewrite Hv0. }
      exists r, (Some (o, v)), None. split; [exact Er|]. by apply (route_reported_before s s0).
  - apply no_main in Hl. change (object_id_key (boxed n w)) with (oid n w) in Hl. cbn [ref_entry nm_dedup_multi_entry_get_obj mbind option_bind ref_opt].
    destruct (nmp_object_is_alive (boxed n w)) eqn:Ha; cbn [negb].
    + assert (Hrq := request_add s n w (proj2 (no_main s _) Hl) Hw Hcw Ha).
      destruct (route_replaced_ok NMP_CACHE_OPS_ADDED s ext ext None None n w is_dump nlmsgflags Hc Hrq Hr) as (e & s1 & r & new & E1 & E2 & Hre);
        [done|done|]. cbn [ref_entry nm_dedup_multi_entry_get_obj mbind option_bind ref_opt]. rewrite E1. cbn [mbind option_bind]. by exists r, None, new.
    + destruct (route_none_ok NMP_CACHE_OPS_UNCHANGED s s ext n w None None is_dump nlmsgflags) as (r & Er & Hre);
        [done|done|apply keeps_refl|done|done|done|done|unfold follows; by rewrite Ha|done|done|]. by exists r, None, None.
Qed.
End route.
