(* ===== verification/NmpCacheLookup.v ===== *)
(** * NMPCache: what lookups find

    A lookup iterates over the alive objects that its selector stands for: those of
    a type, of an interface, of a name, of a weak id, default routes, rules of a
    family.  A master is to be toggled when it is not as its slaves are. *)

From S2P Require Export NmpCacheInv.

Section lookup.
Context `{ByteOrder} `{KernelSupport} `{SipHash} `{LinkDriver}.
Implicit Types (s : Index) (ext : positive -> nat) (x : NMPObject).

(** Objects on the stack can be looked up. *)
Lemma stack_needle s v : data_ok (heap_at (vals (heap s))) v -> needle_ok (vals (heap s)) (on_stack v).
Proof. intros Hv. right. split; [done|exact Hv]. Qed.

(** ** Iterating *)

Lemma mapM_objs s (os : list positive) :
  (forall o, o ∈ os -> is_Some (vals (heap s) !! o)) ->
  exists objs, mapM (obj_at s) os = Some objs /\ forall x, x ∈ objs <-> exists o v, o ∈ os /\ vals (heap s) !! o = Some v /\ x = boxed o v.
Proof.
  induction os as [|o os IH]; intros Hos.
  { exists []. split; [done|]. intros x. split; [by intros ?%elem_of_nil|by intros (? & ? & ?%elem_of_nil & _)]. }
  destruct (Hos o) as [v Hv]; [left|]. destruct IH as (objs & E & Hin); [intros p Hp; apply Hos; by right|].
  exists (boxed o v :: objs). split.
  - assert (obj_at s o = Some (boxed o v)) as Ho by (unfold obj_at; by rewrite Hv). cbn [mapM]. rewrite Ho. cbn [mbind option_bind]. by rewrite E.
  - intros x. rewrite elem_of_cons, Hin. split.
    + intros [->|(p & z & Hp & Hz & ->)]; [exists o, v|exists p, z]; (split_and!; [|done|done]); [left|by right].
    + intros (p & z & [->|Hp]%elem_of_cons & Hz & ->); [left; congruence|right]. by exists p, z.
Qed.

(** The objects of a head. *)
Lemma iter_head_ok s ext h l :
  index_ok s ext -> lst_of s h = Some l ->
  exists objs, nmp_cache_iter_for_each s (Some h) = Some objs /\
    forall x, x ∈ objs <-> exists e i o v, tracked s e i h o v /\ x = boxed o v.
Proof.
  intros Hok Hl. unfold lst_of in Hl. destruct (heads s !! h) as [hd|] eqn:Hhd; [|done]. injection Hl as <-.
  assert (Hent : forall e, e ∈ lst_entries_head hd -> exists en v, entries s !! e = Some en /\ tracked s e (he_idx_type hd) h (en_obj en) v).
  { intros e He. destruct (head_tracked s ext h hd e Hok Hhd He) as (en & v & ? & _ & ?). by exists en, v. }
  assert (exists os, mapM (fun e => en_obj <$> entries s !! e) (lst_entries_head hd) = Some os /\
    forall o, o ∈ os <-> exists e en, e ∈ lst_entries_head hd /\ entries s !! e = Some en /\ en_obj en = o) as (os & Eos & Hos).
  { clear Hhd. revert Hent. generalize (lst_entries_head hd) as l. induction l as [|e l IH]; intros Hent.
    { exists []. split; [done|]. intros o. split; [by intros ?%elem_of_nil|by intros (? & ? & ?%elem_of_nil & _)]. }
    destruct (Hent e) as (en & v & He & _); [left|]. destruct IH as (os & E & Hin); [intros e2 He2; apply Hent; by right|].
    exists (en_obj en :: os). split; [cbn [mapM]; rewrite He; cbn [fmap option_fmap option_map mbind option_bind]; by rewrite E|]. intros o. rewrite elem_of_cons, Hin. split.
    - intros [->|(e2 & en2 & ? & ? & ?)]; [exists e, en|exists e2, en2]; (split_and!; [|done|done]); [left|by right].
    - intros (e2 & en2 & [->|He2]%elem_of_cons & ? & <-); [left; congruence|right]. by exists e2, en2. }
  destruct (mapM_objs s os) as (objs & E & Hin).
  { intros o (e & en & He & Hen & <-)%Hos. destruct (Hent e He) as (en2 & v & Hen2 & (? & ? & _ & _ & _ & _ & _ & Hv)).
    assert (en2 = en) as -> by congruence. by eexists. }
  exists objs. split.
  - unfold nmp_cache_iter_for_each, head_objs. rewrite Hhd. cbn [mbind option_bind]. by rewrite Eos.
  - intros x. rewrite Hin. split.
    + intros (o & v & (e & en & He & Hen & <-)%Hos & Hv & ->). destruct (Hent e He) as (en2 & v2 & Hen2 & Ht). assert (en2 = en) as -> by congruence.
      exists e, (he_idx_type hd), (en_obj en), v. split; [|done]. destruct Ht as (en3 & hd3 & ? & ? & ? & ? & ? & Hv3).
      exists en3, hd3. split_and!; congruence.
    + intros (e & i & o & v & Ht & ->). exists o, v. destruct (tracked_member s ext e i h o v hd Hok Ht Hhd) as (Hin2 & _).
      destruct Ht as (en & hd2 & He & Eo & _ & _ & _ & Hv). split_and!; [|done|done]. apply Hos. by exists e, en.
Qed.

(** What a lookup of a handle finds. *)
Lemma lookup_all_ok s ext t x :
  index_ok s ext -> needle_ok (vals (heap s)) x ->
  exists objs, nmp_cache_iter_for_each s (nmp_cache_lookup_all s t x) = Some objs /\
    forall y, y ∈ objs <-> exists o v, in_handle s t o v /\ y = boxed o v /\ NmpObject.part_key t y = NmpObject.part_key t x.
Proof.
  intros Hok Hx. unfold nmp_cache_lookup_all, nm_dedup_multi_index_lookup_head.
  destruct (_entry_lookup_head s t (Some x)) as [h|] eqn:El.
  - apply (lookup_head_spec s ext t x h Hok Hx) in El as (e & o & v & Ht & Epk).
    destruct (tracked_lst _ _ _ _ _ _ _ Hok Ht) as (l & Hl & _). destruct (iter_head_ok s ext h l Hok Hl) as (objs & E & Hin).
    exists objs. split; [done|]. intros y. rewrite Hin. split.
    + intros (e2 & i & p & z & Ht2 & ->). assert (i = t) as ->.
      { destruct Ht as (? & hd & _ & _ & _ & Hhd & <- & _), Ht2 as (? & hd2 & _ & _ & _ & Hhd2 & <- & _). congruence. }
      exists p, z. split; [by exists e2, h|]. split; [done|].
      transitivity (NmpObject.part_key t (boxed o v)); [|exact Epk]. by apply (ix_same _ _ Hok _ _ _ _ _ _ _ _ _ Ht2 Ht).
    + intros (p & z & (e2 & h2 & Ht2) & -> & Epk2). exists e2, t, p, z. split; [|done].
      assert (h2 = h) as ->; [|done]. apply (ix_same _ _ Hok _ _ _ _ _ _ _ _ _ Ht2 Ht). etransitivity; [exact Epk2|by symmetry].
  - exists []. split; [done|]. intros y. split; [by intros ?%elem_of_nil|]. intros (o & v & (e & h & Ht) & -> & Epk).
    assert (_entry_lookup_head s t (Some x) = Some h); [|congruence]. apply (lookup_head_spec s ext t x h Hok Hx). by exists e, o, v.
Qed.

(** ** Selectors *)

Definition main_type (v : NMPObjectData) : option MainType :=
  match v with
  | OBJ_LINK _ => Some LINK
  | OBJ_IP4_ADDRESS _ => Some IP4_ADDRESS
  | OBJ_IP6_ADDRESS _ => Some IP6_ADDRESS
  | OBJ_IP4_ROUTE _ => Some IP4_ROUTE
  | OBJ_IP6_ROUTE _ => Some IP6_ROUTE
  | OBJ_ROUTING_RULE _ => Some ROUTING_RULE
  | OBJ_QDISC _ => Some QDISC
  | OBJ_TFILTER _ => Some TFILTER
  | OBJ_LNK _ => None
  end.

Inductive Selector :=
| ByType (type : MainType)
| ByIfindex (type : MainType) (ifindex : Z)
| ByIfname (ifname : list byte)
| ByDefault (type : MainType)
| ByFamily (addr_family : Z).

Definition selector_lookup (sel : Selector) : NMPLookup :=
  match sel with
  | ByType type => nmp_lookup_init_obj_type type
  | ByIfindex type ifindex => nmp_lookup_init_object type ifindex
  | ByIfname ifname => nmp_lookup_init_link_by_ifname ifname
  | ByDefault type => nmp_lookup_init_route_default type
  | ByFamily addr_family => nmp_lookup_init_object_by_addr_family addr_family
  end.

(** What the callers may ask for. *)
Definition selector_ok (sel : Selector) : Prop :=
  match sel with
  | ByIfindex type ifindex => 0 < ifindex /\ type <> LINK /\ type <> ROUTING_RULE
  | ByDefault type => type = IP4_ROUTE \/ type = IP6_ROUTE
  | ByFamily addr_family => af_valid addr_family = true
  | _ => True
  end.

Definition data_ifindex (v : NMPObjectData) : option Z :=
  match v with
  | OBJ_IP4_ADDRESS a => Some (ax_ifindex (a4_ax a))
  | OBJ_IP6_ADDRESS a => Some (ax_ifindex (a6_ax a))
  | OBJ_IP4_ROUTE r => Some (rx_ifindex (r4_rx r))
  | OBJ_IP6_ROUTE r => Some (rx_ifindex (r6_rx r))
  | OBJ_QDISC q => Some (qd_ifindex q)
  | OBJ_TFILTER t => Some (tf_ifindex t)
  | _ => None
  end.

(** The objects that the callers mean. *)
Definition selects (sel : Selector) (v : NMPObjectData) : Prop :=
  match sel with
  | ByType type => main_type v = Some type
  | ByIfindex type ifindex => main_type v = Some type /\ data_ifindex v = Some ifindex
  | ByIfname ifname => exists l, v = OBJ_LINK l /\ lk_name (ol_link l) = ifname
  | ByDefault type => main_type v = Some type /\ exists rx, object_rx (on_stack v) = Some rx /\ rx_plen rx <= 0
  | ByFamily addr_family => exists r, v = OBJ_ROUTING_RULE r /\ rr_addr_family r = addr_family
  end.

Lemma zero_object_ok hp type ifindex : data_ok hp (zero_object type ifindex).
Proof. destruct type; cbn; repeat split; cbn; try lia; try done. Qed.

Lemma selector_needle s sel : needle_ok (vals (heap s)) (selector_obj (selector_lookup sel)).
Proof.
  destruct sel; cbn; unfold nmp_lookup_init_object, nmp_lookup_init_object_by_addr_family;
    repeat match goal with |- context [if ?b then _ else _] => destruct b end; cbn; apply stack_needle;
    first [apply zero_object_ok | done].
Qed.

Definition lookup_id (sel : Selector) : NMPCacheIdType := cache_id_type (selector_lookup sel).

(** Objects but links are visible when they are alive. *)
Lemma visible_alive o v : (forall l, v <> OBJ_LINK l) -> nmp_object_is_visible (boxed o v) = nmp_object_is_alive (boxed o v).
Proof. intros Hl. unfold nmp_object_is_visible. destruct v as [l| | | | | | | |]; cbn; rewrite ?andb_true_r; try done. by destruct (Hl l). Qed.

Lemma type_part type v : cacheable v -> obj_type v = obj_type (zero_object type 0) <-> main_type v = Some type.
Proof.
  intros Hc. destruct v as [| | | | | | | |l]; try done; destruct type; cbn; split; try done; try (intros E; discriminate E).
Qed.

Lemma ifindex_part type ifindex o v :
  0 < ifindex -> type <> LINK -> type <> ROUTING_RULE -> nmp_object_is_alive (boxed o v) = true ->
  NMP_CACHE_ID_TYPE_OBJECT_BY_IFINDEX ∈ supported_cache_ids v /\
    NmpObject.part_key NMP_CACHE_ID_TYPE_OBJECT_BY_IFINDEX (boxed o v) = NmpObject.part_key NMP_CACHE_ID_TYPE_OBJECT_BY_IFINDEX (on_stack (zero_object type ifindex))
  <-> main_type v = Some type /\ data_ifindex v = Some ifindex.
Proof.
  intros Hi Hl Hr Ha.
  assert (Hz : NmpObject.part_key NMP_CACHE_ID_TYPE_OBJECT_BY_IFINDEX (on_stack (zero_object type ifindex))
            = Some (KL [KZ (obj_type (zero_object type ifindex)); KZ ifindex])).
  { apply Z.ltb_lt in Hi. destruct type; try done; cbn; unfold nmp_object_is_visible, nmp_object_is_alive, ipx_route_alive; cbn; by rewrite Hi. }
  rewrite Hz. clear Hz. destruct v as [l|a|a|r|r|r|q|f|l]; try (split; [intros [Hin _]; cbn in Hin; set_solver|by intros [_ ?]]);
    unfold NmpObject.part_key; rewrite visible_alive, Ha by done; cbn; (split;
    [intros [_ [= Et Ei]]; split; [by destruct type|by rewrite Ei]|intros [[= <-] [= <-]]; split; [set_solver|done]]).
Qed.

Lemma default_part type o v :
  type = IP4_ROUTE \/ type = IP6_ROUTE -> nmp_object_is_alive (boxed o v) = true ->
  NMP_CACHE_ID_TYPE_DEFAULT_ROUTES ∈ supported_cache_ids v /\
    NmpObject.part_key NMP_CACHE_ID_TYPE_DEFAULT_ROUTES (boxed o v) = NmpObject.part_key NMP_CACHE_ID_TYPE_DEFAULT_ROUTES (on_stack (zero_object type 1))
  <-> main_type v = Some type /\ exists rx, object_rx (on_stack v) = Some rx /\ rx_plen rx <= 0.
Proof.
  intros Ht Ha. assert (Hz : NmpObject.part_key NMP_CACHE_ID_TYPE_DEFAULT_ROUTES (on_stack (zero_object type 1)) = Some (KZ (obj_type (zero_object type 1)))).
  { by destruct Ht as [-> | ->]. }
  rewrite Hz. clear Hz. destruct v as [l|a|a|r|r|r|q|f|l]; try (split; [intros [Hin _]; cbn in Hin; set_solver|by intros [_ (? & ? & _)]]);
    unfold NmpObject.part_key; rewrite visible_alive, Ha by done; cbn; rewrite andb_true_r; (split;
    [intros [_ Hk]; destruct (Z.leb_spec (rx_plen (r4_rx r)) 0) || destruct (Z.leb_spec (rx_plen (r6_rx r)) 0); [|done];
       split; [by destruct Ht as [-> | ->]|eauto]
    |intros [[= <-] (rx & [= <-] & Hp)]; split; [set_solver|by rewrite (proj2 (Z.leb_le _ _) Hp)]]).
Qed.

Lemma selects_part sel o v :
  selector_ok sel -> nmp_object_is_alive (boxed o v) = true -> cacheable v ->
  lookup_id sel ∈ supported_cache_ids v /\ NmpObject.part_key (lookup_id sel) (boxed o v) = NmpObject.part_key (lookup_id sel) (selector_obj (selector_lookup sel))
  <-> selects sel v.
Proof.
  intros Hsel Ha Hc. destruct sel as [type|type ifindex|ifname|type|addr_family]; cbn in Hsel |- *.
  - rewrite <-(type_part type v Hc). change (obj_type (at_obj (boxed o v))) with (obj_type v). split; [intros [_ [= E]]; exact E|].
    intros E. split; [destruct v; try done; cbn; set_solver|by rewrite E].
  - destruct Hsel as (Hi & Hl & Hr). unfold lookup_id, selector_lookup, nmp_lookup_init_object. rewrite (proj2 (Z.leb_gt ifindex 0) Hi).
    by apply ifindex_part.
  - split.
    + intros [Hin Hk]. destruct v as [l| | | | | | | |]; cbn in Hin; [|set_solver..]. cbn in Hk. injection Hk as Hk. by exists l.
    + intros (l & -> & Hn). cbn. split; [set_solver|by rewrite Hn].
  - by apply default_part.
  - unfold lookup_id, selector_lookup, nmp_lookup_init_object_by_addr_family. destruct (Z.eqb_spec addr_family 0) as [->|Hne]; [done|]. cbn. rewrite Hsel. split.
    + intros [Hin Hk]. destruct v as [| | | | |r| | |]; cbn in Hin; [set_solver..| |set_solver|set_solver|set_solver].
      cbn in Hc. cbn in Hk. rewrite Hc in Hk. injection Hk as Hk. by exists r.
    + intros (r & -> & <-). cbn. rewrite Hsel. split; [set_solver|done].
Qed.

Lemma selector_part_some sel : selector_ok sel -> is_Some (NmpObject.part_key (lookup_id sel) (selector_obj (selector_lookup sel))).
Proof.
  intros Hsel. destruct sel as [type|type i|n|type|af]; cbn in Hsel; unfold lookup_id, selector_lookup;
    unfold nmp_lookup_init_object, nmp_lookup_init_object_by_addr_family; try by eexists.
  - destruct Hsel as (Hi & ? & ?). rewrite (proj2 (Z.leb_gt i 0) Hi). apply Z.ltb_lt in Hi. destruct type; try done; cbn;
      unfold nmp_object_is_visible, nmp_object_is_alive, ipx_route_alive; cbn; rewrite Hi; by eexists.
  - destruct Hsel as [-> | ->]; by eexists.
  - destruct (Z.eqb_spec af 0) as [->|]; [done|]. cbn. rewrite Hsel. by eexists.
Qed.

Lemma cache_lookup_ok s ext sel :
  cache_ok s ext -> selector_ok sel ->
  exists objs, nmp_cache_iter_for_each s (nmp_cache_lookup s (selector_lookup sel)) = Some objs /\
    forall y, y ∈ objs <-> exists o v, in_main s o v /\ y = boxed o v /\ selects sel v.
Proof.
  intros Hc Hsel. destruct (lookup_all_ok s ext (lookup_id sel) (selector_obj (selector_lookup sel)) (co_index _ _ Hc) (selector_needle s sel)) as (objs & E & Hin).
  exists objs. split; [exact E|]. intros y. rewrite Hin.
  assert (Hm : forall o v, in_main s o v -> nmp_object_is_alive (boxed o v) = true /\ cacheable v /\ OT ∈ supported_cache_ids v).
  { intros o v [e He]. split; [by apply (co_alive _ _ Hc e)|]. destruct He as [h Ht]. destruct (ix_part _ _ (co_index _ _ Hc) _ _ _ _ _ Ht) as [_ Hcv].
    split; [done|]. destruct v; try done; cbn; set_solver. }
  split.
  - intros (o & v & Hh & -> & Epk). exists o, v.
    assert (in_main s o v /\ lookup_id sel ∈ supported_cache_ids v) as [Hmain Hsup].
    { destruct (decide (lookup_id sel = OT)) as [Et|Hne].
      - rewrite Et in *. assert (in_main s o v) as Hmain by (destruct Hh as (e & h & Ht); by exists e, h). split; [done|by apply (Hm o v Hmain)].
      - destruct (proj1 (co_synced _ _ Hc _ Hne o v) Hh) as [Hmain [Hsup _]]. done. }
    destruct (Hm o v Hmain) as (Ha & Hcv & _). split; [done|]. split; [done|]. by apply (selects_part sel o v Hsel Ha Hcv).
  - intros (o & v & Hmain & -> & Hs). exists o, v. destruct (Hm o v Hmain) as (Ha & Hcv & _).
    destruct (proj2 (selects_part sel o v Hsel Ha Hcv) Hs) as [Hsup Epk]. split; [|done].
    destruct (decide (lookup_id sel = OT)) as [Et|Hne]; [rewrite Et; destruct Hmain as (e & h & Ht); by exists e, h|].
    apply (co_synced _ _ Hc _ Hne). split; [done|]. split; [done|]. rewrite Epk. by apply selector_part_some.
Qed.

(** ** Masters *)

(** A link that can be a master, and is up. *)
Definition is_master (x : NMPObject) (m : NMPObjectLink) : bool :=
  (0 <? lk_ifindex (ol_link m)) && nmp_object_is_visible x
  && ((lk_type (ol_link m) =? NM_LINK_TYPE_BRIDGE) || (lk_type (ol_link m) =? NM_LINK_TYPE_BOND)).
Definition lower_up (m : NMPObjectLink) : bool := negb (Z.land (lk_n_ifi_flags (ol_link m)) IFF_LOWER_UP =? 0).

(** A slave in the cache that is connected. *)
Definition has_slave s (ifindex : Z) : Prop :=
  exists o l, in_main s o (OBJ_LINK l) /\ nmp_cache_link_connected_for_slave ifindex (boxed o (OBJ_LINK l)) = true.

Lemma has_slave_same s s' ifindex : (forall o v, in_main s' o v <-> in_main s o v) -> has_slave s' ifindex <-> has_slave s ifindex.
Proof. intros Hm. split; intros (o & l & Ho & Hs); exists o, l; (split; [by apply Hm|done]). Qed.

(** The connected flag of the master is not what its slaves tell. *)
Definition unsettled s (m : NMPObjectLink) : Prop :=
  is_master (on_stack (OBJ_LINK m)) m = true /\
  ~ (lk_connected (ol_link m) = true <-> lower_up m = true /\ has_slave s (lk_ifindex (ol_link m))).

(** A change of a slave: the new one is in the cache already, the old one is not. *)
Definition slave_change s (potential_slave ignore_slave : option NMPObject) : Prop :=
  (forall p, potential_slave = Some p -> exists n l, p = boxed n (OBJ_LINK l) /\ in_main s n (OBJ_LINK l)) /\
  (forall i o l, ignore_slave = Some i -> in_main s o (OBJ_LINK l) -> at_ptr i <> Zpos o).

Lemma slave_change_none s : slave_change s None None.
Proof. done. Qed.

Lemma link_unique s ext n1 n2 l1 l2 :
  index_ok s ext -> in_main s n1 (OBJ_LINK l1) -> in_main s n2 (OBJ_LINK l2) -> lk_ifindex (ol_link l1) = lk_ifindex (ol_link l2) -> n1 = n2 /\ l1 = l2.
Proof.
  intros Hok H1' H2' E. destruct (main_ids s ext Hok n1 (OBJ_LINK l1) n2 (OBJ_LINK l2) H1' H2') as [-> [= ->]]; [|done].
  unfold oid, object_id_key. cbn. by rewrite E.
Qed.

Lemma not_ignored s pot ign o l : slave_change s pot ign -> in_main s o (OBJ_LINK l) ->
  match ign with Some i => negb (at_ptr i =? at_ptr (boxed o (OBJ_LINK l))) | None => true end = true.
Proof.
  intros [_ Hign] Hm. destruct ign as [i|]; [|done]. cbn. by rewrite (proj2 (Z.eqb_neq (at_ptr i) (Zpos o))) by by apply (Hign i o l).
Qed.

(** The slaves that keep a master up are those of the cache. *)
Lemma keeps_up_slaves s ext ifindex pot ign objs :
  index_ok s ext -> slave_change s pot ign -> (forall y, y ∈ objs <-> exists o v, in_main s o v /\ y = boxed o v /\ selects (ByType LINK) v) ->
  (match pot with Some p => nmp_cache_link_connected_for_slave ifindex p | None => false end || existsb (keeps_up ifindex pot ign) objs) = true <-> has_slave s ifindex.
Proof.
  intros Hok Hch Hin. rewrite orb_true_iff, existsb_exists. split.
  - intros [Hp|(y & Hy & Hk)].
    + destruct pot as [p|]; [|done]. destruct Hch as [Hpot _]. destruct (Hpot p eq_refl) as (n & l & -> & Hm). by exists n, l.
    + apply list_elem_of_In, Hin in Hy as (o & v & Hm & -> & Hsel). destruct v as [l| | | | | | | |]; try done.
      unfold keeps_up in Hk. apply andb_true_iff in Hk as [_ Hs]. by exists o, l.
  - intros (o & l & Hm & Hs). pose proof (not_ignored s pot ign o l Hch Hm) as Hni. destruct Hch as [Hpot _].
    assert (Hy : boxed o (OBJ_LINK l) ∈ objs) by (apply Hin; by exists o, (OBJ_LINK l)).
    destruct pot as [p|]; [|right; exists (boxed o (OBJ_LINK l)); split; [by apply list_elem_of_In|]; unfold keeps_up; rewrite Hni; exact Hs].
    destruct (Hpot p eq_refl) as (n & lp & -> & Hmp). destruct (decide (lk_ifindex (ol_link lp) = lk_ifindex (ol_link l))) as [E|Hne].
    + destruct (link_unique s ext n o lp l Hok Hmp Hm E) as [-> ->]. by left.
    + right. exists (boxed o (OBJ_LINK l)). split; [by apply list_elem_of_In|]. unfold keeps_up. rewrite Hni. cbn [object_link boxed at_obj fmap option_fmap option_map].
      rewrite bool_decide_eq_false_2 by congruence. exact Hs.
Qed.

(** nmp_cache_link_connected_needs_toggle () *)
Lemma needs_toggle_ok s ext x m pot ign :
  cache_ok s ext -> object_link x = Some m -> slave_change s pot ign ->
  exists b, nmp_cache_link_connected_needs_toggle s (Some x) pot ign = Some b /\ (b = true <-> unsettled s m).
Proof.
  intros Hc Hx Hch. unfold nmp_cache_link_connected_needs_toggle, unsettled, is_master. rewrite Hx.
  assert (nmp_object_is_visible (on_stack (OBJ_LINK m)) = nmp_object_is_visible x) as ->.
  { destruct x as [p []]; cbn in Hx; try done. by injection Hx as ->. }
  rewrite Z.ltb_antisym. destruct (lk_ifindex (ol_link m) <=? 0) eqn:Ei; cbn [orb negb andb]; [exists false; split; [done|by split; [|intros []]]|].
  destruct (nmp_object_is_visible x); cbn [orb negb andb]; [|exists false; split; [done|by split; [|intros []]]].
  destruct ((lk_type (ol_link m) =? NM_LINK_TYPE_BRIDGE) || (lk_type (ol_link m) =? NM_LINK_TYPE_BOND)); cbn [negb]; [|exists false; split; [done|by split; [|intros []]]].
  unfold lower_up. destruct (Z.land (lk_n_ifi_flags (ol_link m)) IFF_LOWER_UP =? 0); cbn [negb].
  - exists (lk_connected (ol_link m)). split; [done|]. destruct (lk_connected (ol_link m)); split; naive_solver.
  - assert ((p ← pot; match object_link p with Some _ => Some p | None => None end) = pot) as ->.
    { destruct pot as [p|]; [|done]. destruct Hch as [Hp _]. destruct (Hp p eq_refl) as (n & l & -> & _). done. }
    destruct (cache_lookup_ok s ext (ByType LINK) Hc Logic.I) as (objs & E & Hin).
    change (selector_lookup (ByType LINK)) with (nmp_lookup_init_obj_type LINK) in E.
    pose proof (keeps_up_slaves s ext (lk_ifindex (ol_link m)) pot ign objs (co_index _ _ Hc) Hch Hin) as Hup.
    destruct (match pot with Some p => nmp_cache_link_connected_for_slave (lk_ifindex (ol_link m)) p | None => false end); cbn [orb mbind option_bind] in *.
    + eexists. split; [done|]. rewrite <-Hup. destruct (lk_connected (ol_link m)); cbn; split; naive_solver.
    + rewrite E. cbn [mbind option_bind]. eexists. split; [done|]. rewrite <-Hup.
      destruct (lk_connected (ol_link m)), (existsb (keeps_up (lk_ifindex (ol_link m)) pot ign) objs); cbn; split; naive_solver.
Qed.
End lookup.
