(* ===== verification/NmpCacheLink.v ===== *)
(** * NMPCache: links in memory

    A link that is to be in the cache is completed in place, before: the connected
    flag of masters, what udev says, and the link data of the pool. *)

From S2P Require Export NmpCacheNetlink NmpCacheLookup.

Section link.
Context `{ByteOrder} `{KernelSupport} `{SipHash} `{LinkDriver}.
Implicit Types (s : Index) (ext : positive -> nat) (l : NMPObjectLink).

(** A link of the memory that is not in the pool. *)
Definition private s (o : positive) (l : NMPObjectLink) : Prop :=
  vals (heap s) !! o = Some (OBJ_LINK l) /\ o ∉ idx_objs (heap s).

(** The link was written; the cache and what others have is as before. *)
Record written s s' ext (o : positive) (l : NMPObjectLink) : Prop := {
  wr_ok : cache_ok s' ext;
  wr_same : same_cache s s';
  wr_link : private s' o l;
  wr_keeps p : p <> o -> (0 < ext p)%nat -> vals (heap s') !! p = vals (heap s) !! p /\ (p ∈ idx_objs (heap s) -> p ∈ idx_objs (heap s'))
}.

Lemma written_refl s ext o l : cache_ok s ext -> private s o l -> written s s ext o l.
Proof. by intros Hc Hp; split. Qed.

Lemma written_trans s1 s2 s3 ext o l1 l2 : written s1 s2 ext o l1 -> written s2 s3 ext o l2 -> written s1 s3 ext o l2.
Proof.
  intros [C1 S1 L1 K1] [C2 S2 L2 K2]. split; [done|by etransitivity|done|]. intros p Hp Hx.
  destruct (K1 p Hp Hx) as [V1 P1], (K2 p Hp Hx) as [V2 P2]. split; [congruence|auto].
Qed.

Lemma private_link s o l : private s o l -> link_at s o = Some l.
Proof. intros [Hv _]. unfold link_at, obj_at. by rewrite Hv. Qed.

Lemma private_ok s ext o l : index_ok s ext -> private s o l -> NmpObject.link_ok (heap_at (vals (heap s))) l.
Proof. intros Hok [Hv _]. exact (ho_val _ _ (ix_heap _ _ Hok) o _ Hv). Qed.

Lemma write_link_ok s ext ext' o l l' :
  index_ok s ext -> private s o l -> NmpObject.link_ok (heap_at (vals (heap s))) l' ->
  (forall p, ext p + holds_of (OBJ_LINK l) p = ext' p + holds_of (OBJ_LINK l') p)%nat ->
  index_ok (write_link o l' s) ext' /\ same_cache s (write_link o l' s) /\ private (write_link o l' s) o l' /\
    vals (heap (write_link o l' s)) = <[o := OBJ_LINK l']> (vals (heap s)) /\ idx_objs (heap (write_link o l' s)) = idx_objs (heap s).
Proof.
  intros Hok [Hv Hno] Hl' Hx. destruct (proj1 (vals_Some _ _ _) Hv) as (ob & Hob & Eob).
  assert (Hm : _multi_idx ob = false).
  { apply not_true_iff_false. intros Hm. apply Hno, (ho_pool _ _ (ix_heap _ _ Hok)). by exists ob. }
  destruct (obj_write_ok (heap s) (uses s ext) (uses s ext') o ob (OBJ_LINK l') (ix_heap _ _ Hok) Hob Hm) as (Hh & Hvals & Hp);
    [by rewrite Eob|done|done|intros p; rewrite Eob; unfold uses; specialize (Hx p); lia|].
  destruct (with_heap_ok s ext ext' (obj_write o (OBJ_LINK l') (heap s)) Hok Hh) as [Hok' Ht].
  { intros e en He. cbn [heap with_heap]. rewrite Hvals, Hp. pose proof (ix_pool _ _ Hok e en He) as Hin. split; [|done].
    rewrite lookup_insert_ne; [done|]. by intros ->. }
  fold (write_link o l' s) in Hok', Ht. split; [done|]. split; [by split|]. split; [|done].
  split; cbn [write_link heap with_heap]; [by rewrite Hvals, lookup_insert_eq|by rewrite Hp].
Qed.

(** Fields are assigned; the link data stays. *)
Lemma write_fields_ok s ext o l l' :
  cache_ok s ext -> private s o l -> ol_lnk l' = ol_lnk l -> 0 <= ol_udev_device l' -> written s (write_link o l' s) ext o l'.
Proof.
  intros Hc Hp Hl Hd. assert (Hh : forall p, holds_of (OBJ_LINK l') p = holds_of (OBJ_LINK l) p) by (intros p; unfold holds_of; cbn; unfold lnk_addr; by rewrite Hl).
  destruct (write_link_ok s ext ext o l l' (co_index _ _ Hc) Hp) as (Hok & Hs & Hpr & Hv & Hpool); [|intros p; by rewrite Hh|].
  { destruct (private_ok s ext o l (co_index _ _ Hc) Hp) as [_ Hlnk]. split; [done|]. by rewrite Hl. }
  split; [by apply (cache_ok_memory s _ ext)|done|done|]. intros p Hne _. rewrite Hv, Hpool. by rewrite lookup_insert_ne.
Qed.

(** ** Fields *)

Definition toggled (toggle : bool) (l : NMPObjectLink) : NMPObjectLink :=
  if toggle then with_link (with_connected (negb (lk_connected (ol_link l)))) l else l.

Definition driven (use_udev : bool) (l : NMPObjectLink) : NMPObjectLink :=
  with_link (with_driver (udev_fields use_udev l).1 (udev_fields use_udev l).2) l.

Lemma fixup_udev_ok s ext o l use_udev :
  cache_ok s ext -> private s o l ->
  exists s', _nmp_object_fixup_link_udev_fields o use_udev s = Some s' /\ written s s' ext o (driven use_udev l).
Proof.
  intros Hc Hp. unfold _nmp_object_fixup_link_udev_fields, driven. rewrite (private_link s o l Hp). cbn [mbind option_bind].
  destruct (udev_fields use_udev l) as [driver initialized]. cbn [fst snd].
  destruct (bool_decide (lk_driver (ol_link l) = driver) && eqb (lk_initialized (ol_link l)) initialized) eqn:E.
  - exists s. split; [done|]. apply andb_true_iff in E as [<-%bool_decide_eq_true <-%eqb_prop].
    replace (with_link _ l) with l; [by apply written_refl|]. by destruct l as [[] ? ? ? ?].
  - eexists. split; [done|]. apply (write_fields_ok s ext o l); [done|done|done|]. apply (private_ok s ext o l (co_index _ _ Hc) Hp).
Qed.

Lemma fixup_master_ok s ext o l toggle :
  cache_ok s ext -> private s o l -> nmp_cache_link_connected_needs_toggle s (Some (boxed o (OBJ_LINK l))) None None = Some toggle ->
  exists s', _nmp_object_fixup_link_master_connected o s = Some s' /\ written s s' ext o (toggled toggle l).
Proof.
  intros Hc Hp Ht. unfold _nmp_object_fixup_link_master_connected, obj_at. destruct Hp as [Hv Hno]. rewrite Hv. cbn [mbind option_bind]. rewrite Ht. cbn [mbind option_bind].
  destruct toggle; cbn [toggled]; [|exists s; split; [done|by apply written_refl]].
  rewrite (private_link s o l) by by split. cbn [mbind option_bind]. eexists. split; [done|].
  apply (write_fields_ok s ext o l); [done|by split|done|]. by apply (private_ok s ext o l (co_index _ _ Hc)).
Qed.

Lemma set_device_ok s ext o l device :
  cache_ok s ext -> private s o l -> 0 <= device -> written s (write_link o (with_device device l) s) ext o (with_device device l).
Proof. intros Hc Hp Hd. by apply (write_fields_ok s ext o l). Qed.

Lemma set_netlink_ok s ext o l b :
  cache_ok s ext -> private s o l -> written s (write_link o (with_netlink b l) s) ext o (with_netlink b l).
Proof. intros Hc Hp. apply (write_fields_ok s ext o l); [done|done|done|]. by apply (private_ok s ext o l (co_index _ _ Hc)). Qed.

(** ** Link data *)

Lemma obj_ref_pool (o : positive) (hp hp' : Heap NMPObjectData) : nm_dedup_multi_obj_ref o hp = Some hp' -> idx_objs hp' = idx_objs hp.
Proof. unfold nm_dedup_multi_obj_ref. destruct (objs hp !! o); [|done]. by intros [= <-]. Qed.

Lemma intern_pool (o : positive) (hp : Heap NMPObjectData) o' hp' :
  nm_dedup_multi_index_obj_intern o hp = Some (o', hp') -> forall p, p ∈ idx_objs hp' -> p = o' \/ p ∈ idx_objs hp.
Proof.
  unfold nm_dedup_multi_index_obj_intern. destruct (objs hp !! o) as [ob|]; [|done]. cbn [mbind option_bind].
  destruct (_multi_idx ob).
  { destruct (nm_dedup_multi_obj_ref o hp) as [hp1|] eqn:E; [|done]. cbn. intros [= <- <-] p. rewrite (obj_ref_pool _ _ _ E). by right. }
  destruct (nm_dedup_multi_index_obj_find _ hp) as [q|].
  { destruct (nm_dedup_multi_obj_ref q hp) as [hp1|] eqn:E; [|done]. cbn. intros [= <- <-] p. rewrite (obj_ref_pool _ _ _ E). by right. }
  assert (Hpool : forall q hp1, (if nm_dedup_multi_obj_needs_clone ob then nm_dedup_multi_obj_clone o hp
                    else hp ← nm_dedup_multi_obj_ref o hp; Some (o, hp)) = Some (q, hp1) -> idx_objs hp1 = idx_objs hp).
  { intros q hp1. destruct (nm_dedup_multi_obj_needs_clone ob).
    - unfold nm_dedup_multi_obj_clone. destruct (objs hp !! o) as [ob1|]; [|done]. cbn [mbind option_bind]. destruct (obj_holds (ob_val ob1)) as [c|].
      + destruct (nm_dedup_multi_obj_ref c hp) as [hp2|] eqn:E; [|done]. cbn. intros [= <- <-]. exact (obj_ref_pool _ _ _ E).
      + cbn. by intros [= <- <-].
    - destruct (nm_dedup_multi_obj_ref o hp) as [hp2|] eqn:E; [|done]. cbn. intros [= <- <-]. exact (obj_ref_pool _ _ _ E). }
  destruct (if nm_dedup_multi_obj_needs_clone ob then _ else _) as [[q hp1]|]; [|done]. cbn [mbind option_bind].
  destruct (objs hp1 !! q); [|done]. cbn [mbind option_bind]. intros [= <- <-] p. cbn [idx_objs]. intros [->%elem_of_singleton|Hp]%elem_of_union; [by left|].
  right. by rewrite <-(Hpool q hp1 eq_refl).
Qed.

(** Link data that stands for other link data. *)
Lemma stands_lnk c' v' c lnk : stands_for (boxed c' v') (boxed c (OBJ_LNK lnk)) ->
  exists lnk', v' = OBJ_LNK lnk' /\ lnk_key (mk_at (Zpos c') lnk') = lnk_key (mk_at (Zpos c) lnk).
Proof.
  unfold stands_for. cbn. intros [->|[Et Ek]]; [by exists lnk|].
  destruct v' as [| | | | | | | |lnk']; try (destruct lnk; discriminate Et). exists lnk'. split; [done|].
  unfold lnk_key. cbn [at_obj]. unfold object_key in Ek. cbn [at_obj boxed] in Ek. cbn in Et. congruence.
Qed.

(** A link with other link data that is equal. *)
Lemma with_lnk_key o l p lnk q lnk' :
  ol_lnk l = Some (mk_at p lnk) -> lnk_key (mk_at q lnk') = lnk_key (mk_at p lnk) ->
  object_key (boxed o (OBJ_LINK (with_lnk (Some (mk_at q lnk')) l))) = object_key (boxed o (OBJ_LINK l)).
Proof. intros El Ek. unfold object_key, object_link_key. cbn [at_obj boxed with_lnk ol_link ol_is_in_netlink ol_lnk ol_udev_device ol_wireguard_family_id]. rewrite El. unfold key_opt. by rewrite Ek. Qed.

Lemma obj_unref_pool fuel (o : positive) (hp hp' : Heap NMPObjectData) : obj_unref fuel o hp = Some hp' -> idx_objs hp' ⊆ idx_objs hp.
Proof.
  revert o hp. induction fuel as [|fuel IH]; intros o hp; [done|]. cbn [obj_unref]. destruct (objs hp !! o) as [ob|] eqn:Ho; [|done]. cbn [mbind option_bind].
  destruct (1 <? _ref_count ob); [by intros [= <-]|].
  assert (Hrel : forall hp1, (if _multi_idx ob then nm_dedup_multi_index_obj_release o hp else Some hp) = Some hp1 -> idx_objs hp1 ⊆ idx_objs hp).
  { destruct (_multi_idx ob); [|by intros ? [= <-]]. unfold nm_dedup_multi_index_obj_release. rewrite Ho. cbn. intros hp1 [= <-]. cbn. set_solver. }
  destruct (if _multi_idx ob then _ else _) as [hp1|]; [|done]. cbn [mbind option_bind]. specialize (Hrel hp1 eq_refl).
  destruct (obj_holds (ob_val ob)) as [c|]; [intros E%IH; etransitivity; [exact E|done]|by intros [= <-]].
Qed.

(** The link data is that of the pool afterwards. *)
Lemma intern_lnk_ok s ext o l :
  cache_ok s ext -> private s o l -> (0 < ext o)%nat ->
  exists s' l', intern_lnk o s = Some s' /\ written s s' ext o l' /\ object_key (boxed o (OBJ_LINK l')) = object_key (boxed o (OBJ_LINK l)).
Proof.
  intros Hc Hp Hxo. pose proof (co_index _ _ Hc) as Hok. pose proof (private_ok s ext o l Hok Hp) as Hl. unfold intern_lnk. rewrite (private_link s o l Hp).
  cbn [mbind option_bind]. destruct (lnk_addr l) as [c|] eqn:Ec; [|exists s, l; split; [done|split; [by apply written_refl|done]]].
  destruct (link_ok_holds _ l c Hl Ec) as (lnk & El & Hlnk). destruct (proj1 (vals_Some _ _ _) Hlnk) as (ob & Hob & Eob).
  destruct (intern_ok s ext c ob Hok Hob) as (c' & v' & hp & Ei & Hok1 & Hsub & Hin & Hv' & Hst & _ & Hk1 & Ht1).
  rewrite Ei. cbn [mbind option_bind]. rewrite Hv'. rewrite Eob in Hst. destruct (stands_lnk c' v' c lnk Hst) as (lnk' & -> & Ek).
  set (s1 := with_heap hp s) in *. assert (Hp1 : private s1 o l).
  { destruct Hp as [Hv Hno]. split; [by apply (lookup_weaken _ _ _ _ Hv)|]. intros [E|Hpo]%(intern_pool _ _ _ _ Ei); [|by apply Hno].
    pose proof (lookup_weaken _ (vals hp) o _ Hv Hsub). congruence. }
  assert (Hl' : NmpObject.link_ok (heap_at (vals (heap s1))) (with_lnk (Some (mk_at (Zpos c') lnk')) l)).
  { split; [by apply Hl|]. cbn. split; [|by apply (ho_val _ _ (ix_heap _ _ Hok1) c' (OBJ_LNK lnk'))].
    unfold stored, lnk_heap. cbn [at_ptr at_obj heap_at]. change (vals (heap s1)) with (vals hp). by rewrite Hv'. }
  destruct (write_link_ok s1 (add_use c' ext) (add_use c ext) o l _ Hok1 Hp1 Hl') as (Hok2 & Hs2 & Hp2 & Hv2 & Hpool2).
  { intros p. unfold holds_of, add_use. cbn [obj_holds nmp_obj_class]. rewrite Ec. cbn [lnk_addr with_lnk ol_lnk at_ptr].
    repeat case_bool_decide; repeat case_decide; simplify_eq; lia. }
  set (s2 := write_link o _ s1) in *. destruct (unref_ok s2 ext c Hok2) as (hp3 & Eu & Hok3 & Hsub3 & Hk3 & Ht3).
  change (write_link o (with_lnk (Some (mk_at (Z.pos c') lnk')) l) (with_heap hp s)) with s2.
  unfold nmp_object_unref. rewrite Eu. cbn [mbind option_bind]. exists (with_heap hp3 s2), (with_lnk (Some (mk_at (Zpos c') lnk')) l). split; [done|].
  split; [|by apply (with_lnk_key o l (Zpos c) lnk (Zpos c') lnk')].
  assert (same_cache s (with_heap hp3 s2)) as Hs by (transitivity s1; [by split|transitivity s2; [done|by split]]).
  split; [by apply (cache_ok_memory s _ ext)|done| |].
  - destruct Hp2 as [Hv2o Hno2]. split; [by rewrite (proj1 (Hk3 o Hxo))|]. intros Hin3. apply Hno2. unfold nm_dedup_multi_obj_unref in Eu.
    destruct (objs (heap s2) !! c); [|done]. exact (obj_unref_pool _ _ _ _ Eu o Hin3).
  - intros p Hne Hx. destruct (Hk1 p Hx) as [V1 P1], (Hk3 p Hx) as [V3 P3]. cbn [heap with_heap] in V1, P1, V3, P3 |- *.
    rewrite V3, Hv2, lookup_insert_ne by done. split; [exact V1|]. intros Hpp. apply P3. rewrite Hpool2. by apply P1.
Qed.
End link.
