(* ===== verification/NmpCacheLinkOps.v ===== *)
(** * NMPCache: updates of links

    A link is in the cache as long as netlink or udev know it; what it has is put
    together from both, and from the slaves of a master. *)

From S2P Require Export NmpCacheLink.

Section link_ops.
Context `{ByteOrder} `{KernelSupport} `{SipHash} `{LinkDriver}.
Implicit Types (s : Index) (ext : positive -> nat) (l lo : NMPObjectLink) (cache : NMPCache).

(** Whether the connected flag of the link is to be changed. *)
Definition toggles s l (b : bool) : Prop := b = true <-> unsettled s l.

Lemma toggles_ok s ext o l : cache_ok s ext ->
  exists b, nmp_cache_link_connected_needs_toggle s (Some (boxed o (OBJ_LINK l))) None None = Some b /\ toggles s l b.
Proof. intros Hc. by apply (needs_toggle_ok s ext (boxed o (OBJ_LINK l)) l). Qed.

(** ** New and cloned links *)

Lemma clone_link_ok s ext e o l :
  cache_ok s ext -> main s e o (OBJ_LINK l) ->
  exists n s1, nmp_object_clone o s = Some (n, s1) /\ ext n = 0%nat /\ cache_ok s1 (add_use n ext) /\ same_cache s s1 /\ keeps ext s s1 /\ private s1 n l.
Proof.
  intros Hc Hm. pose proof (co_index _ _ Hc) as Hok. destruct (main_val s ext e o _ Hok Hm) as (Hv & _ & _).
  destruct (proj1 (vals_Some _ _ _) Hv) as (ob & Hob & Eob).
  destruct (obj_clone_ok o ob (heap s) (uses s ext) (ix_heap _ _ Hok) Hob) as (n & hp & E & Hh & Hn & Hvals & Hpool & _).
  pose proof (ho_free _ _ (ix_heap _ _ Hok) n Hn) as Hfree. unfold uses in Hfree.
  destruct (with_heap_ok s ext (add_use n ext) hp Hok) as [Hok' Ht].
  - eapply heap_ok_ext; [|exact Hh]. intros p. symmetry. apply uses_add.
  - intros e2 en He. cbn [heap with_heap]. rewrite Hvals, Hpool. split; [|by apply (ix_pool _ _ Hok e2)]. rewrite lookup_insert_ne; [done|].
    intros ->. destruct (entry_pool_val s ext e2 en Hok He) as [w Hw]. rewrite vals_lookup, Hn in Hw. done.
  - exists n, (with_heap hp s). assert (same_cache s (with_heap hp s)) as Hs by by split.
    unfold nmp_object_clone. rewrite E. cbn [mbind option_bind]. split; [done|]. split; [lia|]. split; [by apply (cache_ok_memory s _ ext)|]. split; [done|].
    split.
    + intros p Hp. cbn [heap with_heap]. rewrite Hvals, Hpool. rewrite lookup_insert_ne; [done|]. intros <-. lia.
    + split; cbn [heap with_heap]; [by rewrite Hvals, lookup_insert_eq, Eob|]. rewrite Hpool. intros (ob' & Hn' & _)%(ho_pool _ _ (ix_heap _ _ Hok)). congruence.
Qed.

(** The clone is written, and takes the place of the link. *)
Lemma written_keeps s s1 ext n l : ext n = 0%nat -> written s s1 (add_use n ext) n l -> keeps ext s s1.
Proof.
  intros Hn Hw p Hp. apply (wr_keeps _ _ _ _ _ Hw); [intros ->; lia|]. pose proof (add_use_le n ext p). lia.
Qed.

(** ** The link of netlink, udev and the slaves *)

Definition merged (use_udev toggle : bool) (device : Z) l : NMPObjectLink := driven use_udev (with_device device (toggled toggle l)).

Lemma merge_link_ok s ext o l use_udev device toggle :
  cache_ok s ext -> private s o l -> (0 < ext o)%nat -> 0 <= device ->
  nmp_cache_link_connected_needs_toggle s (Some (boxed o (OBJ_LINK l))) None None = Some toggle ->
  exists s' l', merge_link {| multi_idx := s; use_udev := use_udev |} o device s = Some s' /\ written s s' ext o l' /\
    object_key (boxed o (OBJ_LINK l')) = object_key (boxed o (OBJ_LINK (merged use_udev toggle device l))).
Proof.
  intros Hc Hp Hx Hd Ht. destruct (fixup_master_ok s ext o l toggle Hc Hp Ht) as (s1 & E1 & W1). unfold merge_link. rewrite E1. cbn [mbind option_bind].
  rewrite (private_link s1 o _ (wr_link _ _ _ _ _ W1)). cbn [mbind option_bind NmpCache.use_udev].
  pose proof (set_device_ok s1 ext o _ device (wr_ok _ _ _ _ _ W1) (wr_link _ _ _ _ _ W1) Hd) as W2.
  set (s2 := write_link o _ s1) in *.
  destruct (fixup_udev_ok s2 ext o _ use_udev (wr_ok _ _ _ _ _ W2) (wr_link _ _ _ _ _ W2)) as (s3 & -> & W3). cbn [mbind option_bind].
  destruct (intern_lnk_ok s3 ext o _ (wr_ok _ _ _ _ _ W3) (wr_link _ _ _ _ _ W3) Hx) as (s4 & l4 & -> & W4 & Ek).
  exists s4, l4. split; [done|]. split; [|exact Ek].
  apply (written_trans s s1 s4 ext o (toggled toggle l)); [done|]. apply (written_trans s1 s2 s4 ext o (with_device device (toggled toggle l))); [done|].
  by apply (written_trans s2 s3 s4 ext o (driven use_udev (with_device device (toggled toggle l)))).
Qed.

(** What the cache has for a link, given what it had. *)
Definition link_result (new : option (positive * NMPObjectData)) (r : option NMPObjectLink) : Prop :=
  match new, r with
  | None, None => True
  | Some y, Some l => object_key (at_addr y) = object_key (on_stack (OBJ_LINK l))
  | _, _ => False
  end.

Definition link_alive l : bool := nmp_object_is_alive (on_stack (OBJ_LINK l)).

(** A link from netlink. *)
Definition netlink_link (use_udev toggle : bool) (old : option NMPObjectLink) l : option NMPObjectLink :=
  match old with
  | None => if link_alive l then Some (driven use_udev (toggled toggle l)) else None
  | Some lo =>
      if negb (ol_is_in_netlink l) && negb (ol_is_in_netlink lo) then Some lo
      else if negb (ol_is_in_netlink l) && (ol_udev_device lo =? 0) then None
      else Some (merged use_udev toggle (ol_udev_device lo) l)
  end.

Definition the_link (x : option (positive * NMPObjectData)) : option NMPObjectLink :=
  match x with Some (_, OBJ_LINK l) => Some l | _ => None end.

(** An object with the identity of a link is one. *)
Lemma same_id_link o v p l : cacheable v -> oid o v = oid p (OBJ_LINK l) -> exists lo, v = OBJ_LINK lo.
Proof. intros Hc E%oid_type. destruct v as [lo| | | | | | | |lnk]; try done. by exists lo. Qed.

Lemma link_oid o l p l' : lk_ifindex (ol_link l') = lk_ifindex (ol_link l) -> oid o (OBJ_LINK l) = oid p (OBJ_LINK l').
Proof. intros E. unfold oid, object_id_key. cbn. by rewrite E. Qed.

Lemma alive_key o l p l' : object_key (boxed o (OBJ_LINK l)) = object_key (boxed p (OBJ_LINK l')) ->
  nmp_object_is_alive (boxed o (OBJ_LINK l)) = link_alive l' /\ oid o (OBJ_LINK l) = oid p (OBJ_LINK l').
Proof.
  intros E. split; [by apply (object_key_alive (boxed o (OBJ_LINK l)) (boxed p (OBJ_LINK l')))|]. apply link_oid.
  unfold object_key, object_link_key, link_key in E. cbn in E. congruence.
Qed.

(** ** Messages about links *)

(** The link is completed in memory (s1), then the cache reports. *)
Record link_reported s ext (u : Updated) (o : positive) l (old new : option (positive * NMPObjectData)) : Prop := {
  lr_step : exists s1 l1, written s s1 ext o l1 /\ reported s1 ext u (oid o (OBJ_LINK l)) old new
}.

(** A new link. *)
Lemma netlink_added_ok s ext o l use_udev toggle is_dump :
  cache_ok s ext -> private s o l -> has s (oid o (OBJ_LINK l)) None -> link_alive l = true ->
  nmp_cache_link_connected_needs_toggle s (Some (boxed o (OBJ_LINK l))) None None = Some toggle ->
  exists s1 e s2 s3 n' u, _nmp_object_fixup_link_master_connected o s ≫= _nmp_object_fixup_link_udev_fields o use_udev = Some s1 /\
    _idxcache_update None (Some o) is_dump s1 = Some (Some e, s2) /\ ref_entry (Some e) s2 = Some (Some n', s3) /\
    u = {| ops_type := NMP_CACHE_OPS_ADDED; out_old := None; out_new := Some n'; updated := s3 |} /\
    exists new, link_reported s ext u o l None new /\ link_result new (Some (driven use_udev (toggled toggle l))).
Proof.
  intros Hc Hp Hno Ha Ht. destruct (fixup_master_ok s ext o l toggle Hc Hp Ht) as (s0 & E0 & W0). rewrite E0. cbn [mbind option_bind].
  destruct (fixup_udev_ok s0 ext o _ use_udev (wr_ok _ _ _ _ _ W0) (wr_link _ _ _ _ _ W0)) as (s1 & E1 & W1).
  pose proof (written_trans _ _ _ _ _ _ _ W0 W1) as W. set (l1 := driven use_udev (toggled toggle l)) in *.
  assert (Hoid : oid o (OBJ_LINK l1) = oid o (OBJ_LINK l)) by (apply link_oid; subst l1; by destruct toggle).
  assert (Hmain : forall e o v, main s1 e o v <-> main s e o v) by (intros; by apply same_cache_main, (wr_same _ _ _ _ _ W)).
  destruct (added_ok s1 ext o (OBJ_LINK l1) is_dump (wr_ok _ _ _ _ _ W)) as (e & s2 & s3 & n' & w' & E2 & E3 & Hre & Hso & _);
    [rewrite Hoid; by apply (same_has s)|apply (wr_link _ _ _ _ _ W)|done|subst l1; by destruct toggle|].
  exists s1, e, s2, s3, n'. eexists. split; [exact E1|]. split; [exact E2|]. split; [exact E3|]. split; [reflexivity|]. exists (Some (n', w')).
  split; [|exact Hso]. split. exists s1, l1. split; [done|]. rewrite <-Hoid. exact Hre.
Qed.

(** A link that the cache has. *)
Lemma netlink_merged_ok s ext e od lo o l use_udev toggle is_dump :
  cache_ok s ext -> private s o l -> (0 < ext o)%nat -> main s e od (OBJ_LINK lo) -> oid od (OBJ_LINK lo) = oid o (OBJ_LINK l) ->
  ol_is_in_netlink l = true \/ ol_udev_device lo <> 0 ->
  nmp_cache_link_connected_needs_toggle s (Some (boxed o (OBJ_LINK l))) None None = Some toggle ->
  exists u, (s ← merge_link {| multi_idx := s; use_udev := use_udev |} o (ol_udev_device lo) s;
             s ← nmp_object_ref od s;
             netlink_update_entry e od o is_dump s) = Some u /\
    exists new, link_reported s ext u o l (Some (od, OBJ_LINK lo)) new /\ link_result new (Some (merged use_udev toggle (ol_udev_device lo) l)).
Proof.
  intros Hc Hp Hx Hm Eid Halive Ht.
  assert (Hd : 0 <= ol_udev_device lo).
  { destruct (main_val s ext e od _ (co_index _ _ Hc) Hm) as (Hv & _ & _). apply (ho_val _ _ (ix_heap _ _ (co_index _ _ Hc)) od _ Hv). }
  destruct (merge_link_ok s ext o l use_udev (ol_udev_device lo) toggle Hc Hp Hx Hd Ht) as (s1 & l1 & -> & W & Ek). cbn [mbind option_bind].
  assert (Hm1 : main s1 e od (OBJ_LINK lo)) by (apply (same_cache_main s); [apply (wr_same _ _ _ _ _ W)|done]).
  destruct (take_old s1 ext e od _ (wr_ok _ _ _ _ _ W) Hm1) as (en & hp & _ & _ & _ & _ & -> & Hc0 & Hs0 & Hm0 & Hv0 & Hp0). cbn [mbind option_bind].
  destruct (alive_key o l1 o _ Ek) as [Ha Eid1].
  assert (Hoid : oid o (OBJ_LINK (merged use_udev toggle (ol_udev_device lo) l)) = oid o (OBJ_LINK l)) by (apply link_oid; by destruct toggle).
  assert (Hl1 : nmp_object_is_alive (boxed o (OBJ_LINK l1)) = true).
  { rewrite Ha. pose proof (co_alive _ _ Hc _ _ _ Hm) as Hold. unfold nmp_object_is_alive in Hold. cbn in Hold. apply andb_true_iff in Hold as [Hi _].
    assert (lk_ifindex (ol_link lo) = lk_ifindex (ol_link l)) as Ei by (unfold oid, object_id_key in Eid; cbn in Eid; congruence).
    unfold link_alive, nmp_object_is_alive. rewrite Ei in Hi.
    assert (lk_ifindex (ol_link (merged use_udev toggle (ol_udev_device lo) l)) = lk_ifindex (ol_link l) /\
      ol_is_in_netlink (merged use_udev toggle (ol_udev_device lo) l) = ol_is_in_netlink l /\
      ol_udev_device (merged use_udev toggle (ol_udev_device lo) l) = ol_udev_device lo) as (E1 & E2 & E3) by by destruct toggle.
    cbn [at_obj on_stack]. rewrite E1, E2, E3, Hi. destruct Halive as [-> | Hne]; [done|]. apply Z.eqb_neq in Hne. rewrite Hne. by rewrite orb_true_r. }
  destruct (netlink_update_entry_ok (with_heap hp s1) ext e od _ o (OBJ_LINK l1) is_dump Hc0 Hm0) as (u & n' & w' & Eu & Hre & Hso & _);
    [cbn [heap with_heap]; rewrite Hv0; apply (wr_link _ _ _ _ _ W)|done|done|congruence|].
  exists u. split; [exact Eu|]. exists (Some (n', w')). split; [|unfold same_object in Hso; cbn; etransitivity; [exact Hso|exact Ek]].
  split. exists s1, l1. split; [done|]. rewrite <-Hoid, <-Eid1. by apply (reported_taken s1 _ hp).
Qed.

Lemma link_reported_same s ext u o l old new : cache_ok s ext -> private s o l -> reported s ext u (oid o (OBJ_LINK l)) old new -> link_reported s ext u o l old new.
Proof. intros Hc Hp Hre. split. exists s, l. split; [by apply written_refl|done]. Qed.

Lemma link_update_ok s ext o l use_udev toggle is_dump :
  cache_ok s ext -> private s o l -> (0 < ext o)%nat ->
  nmp_cache_link_connected_needs_toggle s (Some (boxed o (OBJ_LINK l))) None None = Some toggle ->
  exists u old new, nmp_cache_update_netlink {| multi_idx := s; use_udev := use_udev |} o is_dump = Some u /\
    link_reported s ext u o l old new /\ link_result new (netlink_link use_udev toggle (the_link old) l).
Proof.
  intros Hc Hp Hx Ht. pose proof (co_index _ _ Hc) as Hok. unfold nmp_cache_update_netlink. cbn [multi_idx]. destruct Hp as [Hv Hno].
  assert (Hat : obj_at s o = Some (boxed o (OBJ_LINK l))) by (unfold obj_at; by rewrite Hv). rewrite Hat. cbn [mbind option_bind].
  pose proof (lookup_main s ext _ Hok (needle_boxed _ _ _ _ Hok Hv)) as Hl. destruct (_lookup_entry s (boxed o (OBJ_LINK l))) as [e|].
  - destruct Hl as (od & v & Hm & Eid). change (object_id_key (boxed o (OBJ_LINK l))) with (oid o (OBJ_LINK l)) in Eid.
    destruct (main_val s ext e od v Hok Hm) as (Hvd & _ & Hcv). destruct (same_id_link od v o l Hcv Eid) as [lo ->].
    destruct (take_old s ext e od _ Hc Hm) as (en & hp & He & Eo & _ & _ & Er & Hc0 & Hs0 & Hm0 & Hv0 & Hp0).
    rewrite He. cbn [mbind option_bind object_link boxed at_obj]. rewrite Eo.
    assert (link_at s od = Some lo) as -> by (unfold link_at, obj_at; by rewrite Hvd). cbn [mbind option_bind the_link netlink_link].
    destruct (negb (ol_is_in_netlink l) && negb (ol_is_in_netlink lo)) eqn:Eboth.
    { rewrite Er. cbn [mbind option_bind]. destruct (unchanged_entry_ok (with_heap hp s) ext e od _ Hc0 Hm0) as (u & Eu & Hre & _).
      exists u, (Some (od, OBJ_LINK lo)), (Some (od, OBJ_LINK lo)). split; [done|]. split; [|cbn; by rewrite Eboth].
      apply link_reported_same; [done|by split|]. rewrite <-Eid. by apply (reported_taken s _ hp). }
    destruct (negb (ol_is_in_netlink l) && (ol_udev_device lo =? 0)) eqn:Egone.
    { rewrite Er. cbn [mbind option_bind]. destruct (removed_entry_ok (with_heap hp s) ext e od _ Hc0 Hm0) as (u & Eu & Hre).
      exists u, (Some (od, OBJ_LINK lo)), None. split; [done|]. split; [|cbn; by rewrite Eboth, Egone].
      apply link_reported_same; [done|by split|]. rewrite <-Eid. by apply (reported_taken s _ hp). }
    destruct (netlink_merged_ok s ext e od lo o l use_udev toggle is_dump Hc (conj Hv Hno) Hx Hm Eid) as (u & Eu & new & Hre & Hres); [|done|].
    { destruct (ol_is_in_netlink l); [by left|right]. by apply Z.eqb_neq. }
    exists u, (Some (od, OBJ_LINK lo)), new. split; [exact Eu|]. split; [done|]. cbn. by rewrite Eboth, Egone.
  - apply no_main in Hl. change (object_id_key (boxed o (OBJ_LINK l))) with (oid o (OBJ_LINK l)) in Hl.
    change (nmp_object_is_alive (boxed o (OBJ_LINK l))) with (link_alive l). destruct (link_alive l) eqn:Ha; cbn [negb].
    + destruct (netlink_added_ok s ext o l use_udev toggle is_dump Hc (conj Hv Hno) Hl Ha Ht) as (s1 & e & s2 & s3 & n' & u & E1 & E2 & E3 & Eu & new & Hre & Hres).
      cbn [object_link boxed at_obj NmpCache.use_udev].
      change (_nmp_object_fixup_link_master_connected o s ≫= (fun s => _nmp_object_fixup_link_udev_fields o use_udev s))
        with (_nmp_object_fixup_link_master_connected o s ≫= _nmp_object_fixup_link_udev_fields o use_udev).
      rewrite E1. cbn [mbind option_bind]. rewrite E2. cbn [mbind option_bind]. rewrite E3. cbn [mbind option_bind].
      exists u, None, new. split; [by rewrite Eu|]. split; [done|]. unfold netlink_link, the_link. by rewrite Ha.
    + eexists _, None, None. split; [done|]. split; [apply link_reported_same; [done|by split|by apply reported_nothing]|unfold netlink_link, the_link; by rewrite Ha].
Qed.
End link_ops.
