(* ===== verification/NmpCacheUdev.v ===== *)
(** * NMPCache: links that netlink, udev or their slaves change

    nmp_cache_remove_netlink () for links, nmp_cache_update_link_udev () and
    nmp_cache_update_link_master_connected (): a changed copy takes the place of
    the link. *)

From S2P Require Export NmpCacheLinkOps.

Section udev.
Context `{ByteOrder} `{KernelSupport} `{SipHash} `{LinkDriver}.
Implicit Types (s : Index) (ext : positive -> nat) (l lo : NMPObjectLink).

(** ** The copy *)

(** The copy replaces the link of the entry. *)
Lemma put_link_ok s s2 ext e od lo n l2 :
  cache_ok s2 (add_use n (add_use od ext)) -> same_cache s s2 -> keeps ext s s2 -> main s e od (OBJ_LINK lo) -> private s2 n l2 ->
  link_alive l2 = true -> lk_ifindex (ol_link l2) = lk_ifindex (ol_link lo) ->
  object_key (boxed od (OBJ_LINK lo)) <> object_key (boxed n (OBJ_LINK l2)) ->
  exists u new, updated_entry e od n s2 = Some u /\ reported s ext u (oid od (OBJ_LINK lo)) (Some (od, OBJ_LINK lo)) new /\ link_result new (Some l2).
Proof.
  intros Hc Hs Hk Hm [Hn Hno] Ha Ei Hdiff. assert (Hm2 : main s2 e od (OBJ_LINK lo)) by by apply (same_cache_main s).
  destruct (main_val s2 _ e od _ (co_index _ _ Hc) Hm2) as (Hv & _ & _). assert (Eid := link_oid od lo n l2 Ei).
  destruct (updated_entry_ok s2 ext e od (OBJ_LINK lo) n (OBJ_LINK l2) Hc Hm2 Hn) as (u & n' & w' & Eu & Hre & Hso & _); [done|done|done| |].
  { apply not_true_iff_false. intros E%(same_full_keys s2 _ n (OBJ_LINK l2) od (OBJ_LINK lo) (co_index _ _ Hc) Hn Hv I). by apply Hdiff. }
  exists u, (Some (n', w')). split; [done|]. split; [|exact Hso]. rewrite Eid. by apply (reported_before s s2 ext ext).
Qed.

(** The link of an entry. *)
Lemma link_of_entry s ext e o v p l :
  index_ok s ext -> main s e o v -> oid o v = oid p (OBJ_LINK l) -> exists lo, v = OBJ_LINK lo /\ link_at s o = Some lo /\ lk_ifindex (ol_link lo) = lk_ifindex (ol_link l).
Proof.
  intros Hok Hm Eid. destruct (main_val s ext e o v Hok Hm) as (Hv & _ & Hcv). destruct (same_id_link o v p l Hcv Eid) as [lo ->].
  exists lo. split; [done|]. split; [unfold link_at, obj_at; by rewrite Hv|]. unfold oid, object_id_key in Eid. cbn in Eid. congruence.
Qed.

Lemma main_link_alive s ext e o l : cache_ok s ext -> main s e o (OBJ_LINK l) -> (0 <? lk_ifindex (ol_link l)) = true /\ 0 <= ol_udev_device l.
Proof.
  intros Hc Hm. split; [pose proof (co_alive _ _ Hc _ _ _ Hm) as Ha; unfold nmp_object_is_alive in Ha; cbn in Ha; by apply andb_true_iff in Ha as [? _]|].
  destruct (main_val s ext e o _ (co_index _ _ Hc) Hm) as (Hv & _ & _). apply (ho_val _ _ (ix_heap _ _ (co_index _ _ Hc)) o _ Hv).
Qed.

(** A copy of the link of an entry, of which there is another reference. *)
Lemma copy_link_ok s hp ext e od lo :
  cache_ok (with_heap hp s) (add_use od ext) -> same_cache s (with_heap hp s) -> vals hp = vals (heap s) -> idx_objs hp = idx_objs (heap s) ->
  main s e od (OBJ_LINK lo) ->
  exists n s1, nmp_object_clone od (with_heap hp s) = Some (n, s1) /\ cache_ok s1 (add_use n (add_use od ext)) /\ same_cache s s1 /\ keeps ext s s1 /\
    private s1 n lo /\ forall s2 l2, written s1 s2 (add_use n (add_use od ext)) n l2 ->
      cache_ok s2 (add_use n (add_use od ext)) /\ same_cache s s2 /\ keeps ext s s2 /\ private s2 n l2.
Proof.
  intros Hc Hs Hv Hp Hm. assert (Hm0 : main (with_heap hp s) e od (OBJ_LINK lo)) by by apply (same_cache_main s).
  destruct (clone_link_ok (with_heap hp s) _ e od lo Hc Hm0) as (n & s1 & E & Hn & Hc1 & Hs1 & Hk1 & Hp1).
  assert (Hk : keeps ext s s1).
  { apply (keeps_trans _ _ (with_heap hp s)); [by apply keeps_same_heap|]. by apply (keeps_mono _ (add_use od ext)); [apply add_use_le|]. }
  exists n, s1. split; [done|]. split; [done|]. split; [by etransitivity|]. split; [done|]. split; [done|].
  intros s2 l2 Hw. split; [apply Hw|]. split; [etransitivity; [exact Hs|etransitivity; [exact Hs1|apply Hw]]|]. split; [|apply Hw].
  apply (keeps_trans _ _ s1); [done|]. apply (keeps_mono _ (add_use od ext)); [apply add_use_le|]. by apply (written_keeps s1 s2 _ n l2).
Qed.

(** ** Removing from netlink *)

(** What is left of a link that netlink does not know any more. *)
Definition unlinked (use_udev : bool) lo : option NMPObjectLink :=
  if negb (ol_is_in_netlink lo) then Some lo
  else if ol_udev_device lo =? 0 then None
  else Some (driven use_udev (with_netlink false lo)).

Lemma link_remove_ok s ext x l use_udev :
  cache_ok s ext -> needle_ok (vals (heap s)) x -> object_link x = Some l ->
  exists u old new, nmp_cache_remove_netlink {| multi_idx := s; use_udev := use_udev |} x = Some u /\
    reported s ext u (object_id_key x) old new /\ link_result new (the_link old ≫= unlinked use_udev).
Proof.
  intros Hc Hx Hl. unfold nmp_cache_remove_netlink. cbn [multi_idx]. pose proof (lookup_main s ext x (co_index _ _ Hc) Hx) as Hlk.
  destruct (_lookup_entry s x) as [e|]; [|apply no_main in Hlk; eexists _, None, None; split; [done|split; [by apply reported_nothing|done]]].
  destruct Hlk as (od & v & Hm & Eid). assert (x = mk_at (at_ptr x) (OBJ_LINK l)) as Ex by (clear -Hl; destruct x as [p []]; cbn in *; congruence).
  assert (Eid' : oid od v = oid od (OBJ_LINK l)) by (rewrite Eid, Ex; done).
  destruct (link_of_entry s ext e od v od l (co_index _ _ Hc) Hm Eid') as (lo & -> & Hat & Ei). destruct (main_link_alive s ext e od lo Hc Hm) as [Hi Hd].
  destruct (take_old s ext e od _ Hc Hm) as (en & hp & He & Eo & _ & Hv & Er & Hc0 & Hs0 & Hm0 & Hv0 & Hp0).
  rewrite He. cbn [mbind option_bind]. rewrite Eo, Er. cbn [mbind option_bind]. rewrite Hl.
  assert (link_at (with_heap hp s) od = Some lo) as -> by (unfold link_at, obj_at; cbn [heap with_heap]; by rewrite Hv0, Hv). cbn [mbind option_bind the_link].
  unfold unlinked. rewrite <-Eid. destruct (ol_is_in_netlink lo) eqn:Enl; cbn [negb].
  2:{ destruct (unchanged_entry_ok (with_heap hp s) ext e od _ Hc0 Hm0) as (u & Eu & Hre & _).
      exists u, (Some (od, OBJ_LINK lo)), (Some (od, OBJ_LINK lo)). split; [done|]. split; [by apply (reported_taken s _ hp)|]. cbn. by rewrite Enl. }
  destruct (ol_udev_device lo =? 0) eqn:Ed.
  { destruct (removed_entry_ok (with_heap hp s) ext e od _ Hc0 Hm0) as (u & Eu & Hre). exists u, (Some (od, OBJ_LINK lo)), None.
    split; [done|]. split; [by apply (reported_taken s _ hp)|]. cbn. by rewrite Enl, Ed. }
  destruct (copy_link_ok s hp ext e od lo Hc0 Hs0 Hv0 Hp0 Hm) as (n & s1 & -> & Hc1 & Hs1 & Hk1 & Hp1 & Hput). cbn [mbind option_bind].
  rewrite (private_link s1 n lo Hp1). cbn [mbind option_bind NmpCache.use_udev].
  pose proof (set_netlink_ok s1 _ n lo false Hc1 Hp1) as W2. set (s2 := write_link n (with_netlink false lo) s1) in *.
  assert (Ht : nmp_cache_link_connected_needs_toggle s2 (Some (boxed n (OBJ_LINK (with_netlink false lo)))) None None = Some false).
  { unfold nmp_cache_link_connected_needs_toggle. cbn [object_link boxed at_obj]. unfold nmp_object_is_visible. cbn. rewrite andb_false_r. cbn. by rewrite orb_true_r. }
  destruct (fixup_master_ok s2 _ n _ false (wr_ok _ _ _ _ _ W2) (wr_link _ _ _ _ _ W2) Ht) as (s3 & -> & W3). cbn [mbind option_bind].
  destruct (fixup_udev_ok s3 _ n _ use_udev (wr_ok _ _ _ _ _ W3) (wr_link _ _ _ _ _ W3)) as (s4 & -> & W4). cbn [mbind option_bind].
  destruct (Hput s4 _ (written_trans _ _ _ _ _ _ _ W2 (written_trans _ _ _ _ _ _ _ W3 W4))) as (Hc4 & Hs4 & Hk4 & Hp4). cbn [toggled] in *.
  destruct (put_link_ok s s4 ext e od lo n _ Hc4 Hs4 Hk4 Hm Hp4) as (u & new & Eu & Hre & Hres); [|done| |].
  { unfold link_alive, nmp_object_is_alive. cbn. by rewrite Hi, Ed. }
  { unfold object_key, object_link_key. cbn. rewrite Enl. intros E. discriminate (f_equal (fun k => match k with KL [_; KL (_ :: b :: _)] => b | _ => k end) E). }
  exists u, (Some (od, OBJ_LINK lo)), new. split; [exact Eu|]. split; [exact Hre|]. cbn [the_link mbind option_bind]. by rewrite Enl, Ed.
Qed.

(** ** Devices of udev *)

(** The link, when udev says that it has a device. *)
Definition udev_link (use_udev : bool) (ifindex device : Z) (old : option NMPObjectLink) : option NMPObjectLink :=
  match old with
  | None => if device =? 0 then None else Some (driven use_udev (with_device device (link_object (zero_link ifindex []))))
  | Some lo =>
      if ol_udev_device lo =? device then Some lo
      else if (device =? 0) && negb (ol_is_in_netlink lo) then None
      else Some (driven use_udev (with_device device lo))
  end.

Definition link_id (ifindex : Z) : kval := object_id_key (nmp_object_stackinit_id_link ifindex).

Lemma lookup_link_ok s ext ifindex :
  index_ok s ext -> 0 < ifindex ->
  match nmp_cache_lookup_entry_link s ifindex with
  | Some e => exists od lo, main s e od (OBJ_LINK lo) /\ oid od (OBJ_LINK lo) = link_id ifindex /\ link_at s od = Some lo /\ lk_ifindex (ol_link lo) = ifindex
  | None => has s (link_id ifindex) None
  end.
Proof.
  intros Hok Hi. unfold nmp_cache_lookup_entry_link. apply Z.ltb_lt in Hi as ->.
  assert (Hx : needle_ok (vals (heap s)) (nmp_object_stackinit_id_link ifindex)) by by apply stack_needle.
  pose proof (lookup_main s ext _ Hok Hx) as Hl. destruct (_lookup_entry s (nmp_object_stackinit_id_link ifindex)) as [e|]; [|by apply no_main].
  destruct Hl as (od & v & Hm & Eid).
  destruct (link_of_entry s ext e od v od (link_object (zero_link ifindex [])) Hok Hm Eid) as (lo & -> & Hat & Ei). by exists od, lo.
Qed.

Lemma key_device o l p device use_udev : ol_udev_device l <> device ->
  object_key (boxed o (OBJ_LINK l)) <> object_key (boxed p (OBJ_LINK (driven use_udev (with_device device l)))).
Proof. intros Hne E. unfold object_key, object_link_key in E. cbn in E. congruence. Qed.

(** A link that only udev knows. *)
Lemma udev_added_ok s ext ifindex device use_udev :
  cache_ok s ext -> has s (link_id ifindex) None -> 0 < ifindex -> 0 < device ->
  exists u new,
    (let '(new, s) := nmp_object_new (OBJ_LINK (with_device device (link_object (zero_link ifindex [])))) s in
     s ← _nmp_object_fixup_link_udev_fields new use_udev s;
     '(entry_new, s) ← _idxcache_update None (Some new) false s;
     '(o, s) ← ref_entry entry_new s;
     s ← nmp_object_unref new s;
     Some {| ops_type := NMP_CACHE_OPS_ADDED; out_old := None; out_new := o; updated := s |}) = Some u /\
    reported s ext u (link_id ifindex) None new /\ link_result new (udev_link use_udev ifindex device None).
Proof.
  intros Hc Hno Hi Hd. set (l := with_device device (link_object (zero_link ifindex []))).
  assert (Hl : NmpObject.link_ok (heap_at (vals (heap s))) l) by (split; [cbn; lia|done]).
  pose proof (new_object_ok s ext (OBJ_LINK l) (co_index _ _ Hc) Hl ltac:(done)) as Hnew. unfold nmp_object_new.
  destruct (obj_new (OBJ_LINK l) (heap s)) as [n hp]. destruct Hnew as (Hn & Hv & Hp & Hok1 & Ht1). cbn [obj_holds nmp_obj_class lnk_addr ol_lnk l with_device link_object] in Hok1.
  set (s1 := with_heap hp s) in *. assert (Hs1 : same_cache s s1) by by split.
  pose proof (ho_free _ _ (ix_heap _ _ (co_index _ _ Hc)) n Hn) as Hfree. unfold uses in Hfree.
  assert (Hp1 : private s1 n l).
  { split; cbn [heap with_heap s1]; [by rewrite Hv, lookup_insert_eq|]. rewrite Hp. intros (ob & Hob & _)%(ho_pool _ _ (ix_heap _ _ (co_index _ _ Hc))). congruence. }
  assert (Hc1 : cache_ok s1 (add_use n ext)) by by apply (cache_ok_memory s _ ext).
  destruct (fixup_udev_ok s1 _ n l use_udev Hc1 Hp1) as (s2 & -> & W2). cbn [mbind option_bind]. set (l2 := driven use_udev l) in *.
  assert (Hs2 : same_cache s s2) by (etransitivity; [exact Hs1|apply W2]).
  assert (Hmain : forall e o v, main s2 e o v <-> main s e o v) by (intros; by apply same_cache_main).
  destruct (added_ok s2 _ n (OBJ_LINK l2) false (wr_ok _ _ _ _ _ W2)) as (e & s3 & s4 & n' & w' & E3 & E4 & Hre & Hso & _);
    [by apply (same_has s s2 (link_id ifindex) None Hmain)|apply W2|done| |].
  { unfold nmp_object_is_alive. cbn. apply Z.ltb_lt in Hi. rewrite Hi. by rewrite (proj2 (Z.eqb_neq device 0)) by lia. }
  rewrite E3. cbn [mbind option_bind]. rewrite E4. cbn [mbind option_bind]. destruct Hre as [R1 R2 R3 R4 R5 R6 R7]. cbn [updated returned out_old out_new ops_type] in *.
  destruct (unref_ok s4 (add_use n' ext) n) as (hp5 & E5 & Hok5 & _ & Hk5 & Ht5).
  { apply (index_ok_ext s4 (add_use n' (add_use n ext))); [intros p; unfold add_use; lia|]. exact (co_index _ _ R1). }
  unfold nmp_object_unref. rewrite E5. cbn [mbind option_bind]. eexists _, (Some (n', w')). split; [done|].
  assert (Hs5 : same_cache s4 (with_heap hp5 s4)) by by split.
  assert (Hmain5 : forall e o v, main (with_heap hp5 s4) e o v <-> main s4 e o v) by (intros; by apply same_cache_main).
  split.
  - split; cbn [updated out_old out_new ops_type].
    + by apply (cache_ok_memory s4 _ _ _ R1).
    + apply (keeps_trans _ _ s1); [intros p Hpp; cbn [heap with_heap s1]; rewrite Hv, Hp, lookup_insert_ne by (intros <-; lia); done|].
      apply (keeps_trans _ _ s2); [apply (written_keeps s1 s2 ext n l2); [lia|done]|].
      apply (keeps_trans _ _ s4); [apply (keeps_mono _ (add_use n ext)); [apply add_use_le|done]|].
      apply (keeps_mono _ (add_use n' ext)); [apply add_use_le|done].
    + apply (others_stay_trans _ s2); [by apply same_cache_others|]. apply (others_stay_trans _ s4); [exact R3|by apply same_cache_others].
    + by split.
    + split; [|done]. apply (same_has s4 _ _ (Some (n', w')) Hmain5). by destruct R5.
    + done.
    + done.
  - unfold udev_link. rewrite (proj2 (Z.eqb_neq device 0)) by lia. exact Hso.
Qed.

Lemma link_udev_ok s ext ifindex device use_udev :
  cache_ok s ext -> 0 < ifindex -> 0 <= device ->
  exists u old new, nmp_cache_update_link_udev {| multi_idx := s; use_udev := use_udev |} ifindex device = Some u /\
    reported s ext u (link_id ifindex) old new /\ link_result new (udev_link use_udev ifindex device (the_link old)).
Proof.
  intros Hc Hi Hd. unfold nmp_cache_update_link_udev. cbn [multi_idx]. pose proof (lookup_link_ok s ext ifindex (co_index _ _ Hc) Hi) as Hl.
  destruct (nmp_cache_lookup_entry_link s ifindex) as [e|].
  - destruct Hl as (od & lo & Hm & <- & Hat & Ei). destruct (main_link_alive s ext e od lo Hc Hm) as [Hil Hdl].
    destruct (take_old s ext e od _ Hc Hm) as (en & hp & He & Eo & _ & Hv & Er & Hc0 & Hs0 & Hm0 & Hv0 & Hp0).
    rewrite He. cbn [mbind option_bind]. rewrite Eo, Er. cbn [mbind option_bind].
    assert (link_at (with_heap hp s) od = Some lo) as -> by (unfold link_at, obj_at; cbn [heap with_heap]; by rewrite Hv0, Hv).
    cbn [mbind option_bind]. unfold udev_link. cbn [the_link]. destruct (Z.eqb_spec (ol_udev_device lo) device) as [Ed|Hne].
    { destruct (unchanged_entry_ok (with_heap hp s) ext e od _ Hc0 Hm0) as (u & Eu & Hre & _).
      exists u, (Some (od, OBJ_LINK lo)), (Some (od, OBJ_LINK lo)). split; [done|]. split; [by apply (reported_taken s _ hp)|]. cbn.
      by rewrite (proj2 (Z.eqb_eq (ol_udev_device lo) device) Ed). }
    destruct ((device =? 0) && negb (ol_is_in_netlink lo)) eqn:Egone.
    { destruct (removed_entry_ok (with_heap hp s) ext e od _ Hc0 Hm0) as (u & Eu & Hre). exists u, (Some (od, OBJ_LINK lo)), None.
      split; [done|]. split; [by apply (reported_taken s _ hp)|]. cbn. by rewrite (proj2 (Z.eqb_neq _ _) Hne), Egone. }
    destruct (copy_link_ok s hp ext e od lo Hc0 Hs0 Hv0 Hp0 Hm) as (n & s1 & -> & Hc1 & Hs1 & Hk1 & Hp1 & Hput). cbn [mbind option_bind].
    rewrite (private_link s1 n lo Hp1). cbn [mbind option_bind NmpCache.use_udev].
    pose proof (set_device_ok s1 _ n lo device Hc1 Hp1 Hd) as W2. set (s2 := write_link n (with_device device lo) s1) in *.
    destruct (fixup_udev_ok s2 _ n _ use_udev (wr_ok _ _ _ _ _ W2) (wr_link _ _ _ _ _ W2)) as (s3 & -> & W3). cbn [mbind option_bind].
    destruct (Hput s3 _ (written_trans _ _ _ _ _ _ _ W2 W3)) as (Hc3 & Hs3 & Hk3 & Hp3).
    destruct (put_link_ok s s3 ext e od lo n _ Hc3 Hs3 Hk3 Hm Hp3) as (u & new & Eu & Hre & Hres); [|done|by apply key_device|].
    { unfold link_alive, nmp_object_is_alive. cbn. rewrite Hil. cbn. destruct (device =? 0); [|by rewrite orb_true_r]. by destruct (ol_is_in_netlink lo). }
    exists u, (Some (od, OBJ_LINK lo)), new. split; [exact Eu|]. split; [exact Hre|]. cbn [the_link]. by rewrite (proj2 (Z.eqb_neq _ _) Hne), Egone.
  - destruct (Z.eqb_spec device 0) as [->|Hne]; [eexists _, None, None; split; [done|split; [by apply reported_nothing|done]]|].
    destruct (udev_added_ok s ext ifindex device use_udev Hc Hl Hi) as (u & new & Eu & Hre & Hres); [lia|].
    exists u, None, new. split; [exact Eu|by split].
Qed.

(** ** Masters *)

Lemma link_master_ok s ext ifindex :
  cache_ok s ext -> 0 < ifindex ->
  exists u old new toggle, nmp_cache_update_link_master_connected s ifindex = Some u /\ reported s ext u (link_id ifindex) old new /\
    (forall lo, the_link old = Some lo -> toggles s lo toggle) /\ link_result new (toggled toggle <$> the_link old).
Proof.
  intros Hc Hi. unfold nmp_cache_update_link_master_connected. pose proof (lookup_link_ok s ext ifindex (co_index _ _ Hc) Hi) as Hl.
  destruct (nmp_cache_lookup_entry_link s ifindex) as [e|].
  2:{ eexists _, None, None, false. split; [done|]. split; [by apply reported_nothing|done]. }
  destruct Hl as (od & lo & Hm & <- & Hat & Ei). destruct (main_link_alive s ext e od lo Hc Hm) as [Hil Hdl].
  destruct (take_old s ext e od _ Hc Hm) as (en & hp & He & Eo & _ & Hv & Er & Hc0 & Hs0 & Hm0 & Hv0 & Hp0).
  rewrite He. cbn [mbind option_bind]. rewrite Eo. assert (obj_at s od = Some (boxed od (OBJ_LINK lo))) as -> by (unfold obj_at; by rewrite Hv).
  cbn [mbind option_bind]. destruct (toggles_ok s ext od lo Hc) as (toggle & Et & Htog). rewrite Et. cbn [mbind option_bind].
  destruct toggle; cbn [negb].
  - destruct (clone_link_ok s ext e od lo Hc Hm) as (n & s1 & -> & Hn & Hc1 & Hs1 & Hk1 & Hp1). cbn [mbind option_bind].
    rewrite (private_link s1 n lo Hp1). cbn [mbind option_bind].
    assert (W2 : written s1 (write_link n (toggled true lo) s1) (add_use n ext) n (toggled true lo)).
    { apply (write_fields_ok s1 _ n lo); [done|done|done|]. by apply (private_ok s1 _ n lo (co_index _ _ Hc1)). }
    change (with_link (with_connected (negb (lk_connected (ol_link lo)))) lo) with (toggled true lo).
    set (s2 := write_link n (toggled true lo) s1) in *. assert (Hs2 : same_cache s s2) by (etransitivity; [exact Hs1|apply W2]).
    assert (Hm2 : main s2 e od (OBJ_LINK lo)) by by apply (same_cache_main s).
    destruct (take_old s2 _ e od _ (wr_ok _ _ _ _ _ W2) Hm2) as (_ & hp3 & _ & _ & _ & _ & -> & Hc3 & Hs3 & Hm3 & Hv3 & Hp3). cbn [mbind option_bind].
    assert (Hk : keeps ext s (with_heap hp3 s2)).
    { apply (keeps_trans _ _ s1); [done|]. apply (keeps_trans _ _ s2); [by apply (written_keeps s1 s2 ext n (toggled true lo))|by apply keeps_same_heap]. }
    destruct (put_link_ok s (with_heap hp3 s2) ext e od lo n (toggled true lo)) as (u & new & Eu & Hre & Hres); [|by etransitivity|done|done| | |done| |].
    + apply (cache_ok_ext _ (add_use od (add_use n ext))); [intros p; unfold add_use; lia|done].
    + split; cbn [heap with_heap]; [rewrite Hv3|rewrite Hp3]; apply W2.
    + exact (co_alive _ _ Hc _ _ _ Hm).
    + unfold object_key, object_link_key, link_key. cbn. intros E. assert (Z.b2z (lk_connected (ol_link lo)) = Z.b2z (negb (lk_connected (ol_link lo)))) as E2 by congruence.
      apply Z.b2z_inj in E2. by destruct (lk_connected (ol_link lo)).
    + exists u, (Some (od, OBJ_LINK lo)), new, true. split; [exact Eu|]. split; [exact Hre|]. split; [by intros ? [= <-]|exact Hres].
  - rewrite Er. cbn [mbind option_bind]. destruct (unchanged_entry_ok (with_heap hp s) ext e od _ Hc0 Hm0) as (u & Eu & Hre & _).
    exists u, (Some (od, OBJ_LINK lo)), (Some (od, OBJ_LINK lo)), false. split; [done|]. split; [by apply (reported_taken s _ hp)|].
    split; [by intros ? [= <-]|done].
Qed.
End udev.
