(* ===== verification/NmpCacheEvents.v ===== *)
(** * Platform events

    src/platform/nm-linux-platform.c: what the platform does with the messages of
    the kernel and the devices of udev: it updates the cache, releases the
    references that it was given, and schedules what is to be done later.  The
    parser of messages and the signals that are emitted are not modelled. *)

From S2P Require Export NmpCacheRoute NmpCacheUdev.

(** ** Delayed actions *)

Definition DELAYED_ACTION_TYPE_NONE : Z := 0.
Definition DELAYED_ACTION_TYPE_REFRESH_LINK : Z := Z.shiftl 1 9.
Definition DELAYED_ACTION_TYPE_MASTER_CONNECTED : Z := Z.shiftl 1 10.

Inductive RefreshAllType :=
| REFRESH_ALL_TYPE_LINKS
| REFRESH_ALL_TYPE_IP4_ADDRESSES
| REFRESH_ALL_TYPE_IP6_ADDRESSES
| REFRESH_ALL_TYPE_IP4_ROUTES
| REFRESH_ALL_TYPE_IP6_ROUTES
| REFRESH_ALL_TYPE_ROUTING_RULES_IP4
| REFRESH_ALL_TYPE_ROUTING_RULES_IP6
| REFRESH_ALL_TYPE_QDISCS
| REFRESH_ALL_TYPE_TFILTERS.

Definition refresh_all_value (t : RefreshAllType) : Z :=
  match t with
  | REFRESH_ALL_TYPE_LINKS => 0
  | REFRESH_ALL_TYPE_IP4_ADDRESSES => 1
  | REFRESH_ALL_TYPE_IP6_ADDRESSES => 2
  | REFRESH_ALL_TYPE_IP4_ROUTES => 3
  | REFRESH_ALL_TYPE_IP6_ROUTES => 4
  | REFRESH_ALL_TYPE_ROUTING_RULES_IP4 => 5
  | REFRESH_ALL_TYPE_ROUTING_RULES_IP6 => 6
  | REFRESH_ALL_TYPE_QDISCS => 7
  | REFRESH_ALL_TYPE_TFILTERS => 8
  end.

Definition delayed_action_type_from_refresh_all_type (t : RefreshAllType) : Z := Z.shiftl 1 (refresh_all_value t).

(** The objects of a refresh, and their address family. *)
Definition refresh_all_type_get_info (t : RefreshAllType) : MainType * Z :=
  match t with
  | REFRESH_ALL_TYPE_LINKS => (LINK, 0)
  | REFRESH_ALL_TYPE_IP4_ADDRESSES => (IP4_ADDRESS, 0)
  | REFRESH_ALL_TYPE_IP6_ADDRESSES => (IP6_ADDRESS, 0)
  | REFRESH_ALL_TYPE_IP4_ROUTES => (IP4_ROUTE, 0)
  | REFRESH_ALL_TYPE_IP6_ROUTES => (IP6_ROUTE, 0)
  | REFRESH_ALL_TYPE_ROUTING_RULES_IP4 => (ROUTING_RULE, AF_INET)
  | REFRESH_ALL_TYPE_ROUTING_RULES_IP6 => (ROUTING_RULE, AF_INET6)
  | REFRESH_ALL_TYPE_QDISCS => (QDISC, 0)
  | REFRESH_ALL_TYPE_TFILTERS => (TFILTER, 0)
  end.

Definition refresh_all_type_init_lookup (t : RefreshAllType) : NMPLookup :=
  match refresh_all_type_get_info t with
  | (ROUTING_RULE, addr_family) => nmp_lookup_init_object_by_addr_family addr_family
  | (type, _) => nmp_lookup_init_obj_type type
  end.

(** None where the code cannot be reached. *)
Definition refresh_all_type_from_needle_object (obj_needle : NMPObject) : option RefreshAllType :=
  match at_obj obj_needle with
  | OBJ_LINK _ => Some REFRESH_ALL_TYPE_LINKS
  | OBJ_IP4_ADDRESS _ => Some REFRESH_ALL_TYPE_IP4_ADDRESSES
  | OBJ_IP6_ADDRESS _ => Some REFRESH_ALL_TYPE_IP6_ADDRESSES
  | OBJ_IP4_ROUTE _ => Some REFRESH_ALL_TYPE_IP4_ROUTES
  | OBJ_IP6_ROUTE _ => Some REFRESH_ALL_TYPE_IP6_ROUTES
  | OBJ_QDISC _ => Some REFRESH_ALL_TYPE_QDISCS
  | OBJ_TFILTER _ => Some REFRESH_ALL_TYPE_TFILTERS
  | OBJ_ROUTING_RULE r =>
      if rr_addr_family r =? AF_INET then Some REFRESH_ALL_TYPE_ROUTING_RULES_IP4
      else if rr_addr_family r =? AF_INET6 then Some REFRESH_ALL_TYPE_ROUTING_RULES_IP6
      else None
  | OBJ_LNK _ => None
  end.

Definition delayed_action_refresh_from_needle_object (obj_needle : NMPObject) : Z :=
  match refresh_all_type_from_needle_object obj_needle with
  | Some t => delayed_action_type_from_refresh_all_type t
  | None => delayed_action_type_from_refresh_all_type REFRESH_ALL_TYPE_LINKS
  end.

(** delayed_action of the platform: the flags, and the links. *)
Record Delayed := { da_flags : Z; list_master_connected : list Z; list_refresh_link : list Z }.

(** g_ptr_array_add () of what is not in the array yet. *)
Definition add_once (x : Z) (l : list Z) : list Z := if existsb (Z.eqb x) l then l else l ++ [x].

Definition delayed_action_schedule (action_type user_data : Z) (d : Delayed) : Delayed := {|
  da_flags := Z.lor (da_flags d) action_type;
  list_master_connected := if action_type =? DELAYED_ACTION_TYPE_MASTER_CONNECTED then add_once user_data (list_master_connected d)
                           else list_master_connected d;
  list_refresh_link := if action_type =? DELAYED_ACTION_TYPE_REFRESH_LINK then add_once user_data (list_refresh_link d)
                       else list_refresh_link d |}.

(** The refreshes of several types. *)
Definition schedule_refresh (ts : list RefreshAllType) (d : Delayed) : Delayed :=
  delayed_action_schedule (foldr (fun t => Z.lor (delayed_action_type_from_refresh_all_type t)) 0 ts) 0 d.

Definition schedule_master (ifindex : Z) : Delayed -> Delayed := delayed_action_schedule DELAYED_ACTION_TYPE_MASTER_CONNECTED ifindex.
Definition schedule_link (ifindex : Z) : Delayed -> Delayed := delayed_action_schedule DELAYED_ACTION_TYPE_REFRESH_LINK ifindex.

(** ** Changes *)

Definition NM_LINK_TYPE_ETHERNET : Z := 2.
Definition NM_LINK_TYPE_INFINIBAND : Z := 3.
Definition NM_LINK_TYPE_GRE : Z := 0x10002.
Definition NM_LINK_TYPE_GRETAP : Z := 0x10003.
Definition NM_LINK_TYPE_IP6TNL : Z := 0x10005.
Definition NM_LINK_TYPE_IP6GRE : Z := 0x10006.
Definition NM_LINK_TYPE_IP6GRETAP : Z := 0x10007.
Definition NM_LINK_TYPE_MACVLAN : Z := 0x1000b.
Definition NM_LINK_TYPE_SIT : Z := 0x1000f.
Definition NM_LINK_TYPE_TUN : Z := 0x10010.
Definition NM_LINK_TYPE_VETH : Z := 0x10011.
Definition NM_LINK_TYPE_VLAN : Z := 0x10012.
Definition NM_LINK_TYPE_VXLAN : Z := 0x10013.
Definition IFF_UP : Z := 1.

Definition link_flag (l : NMPObjectLink) (flag : Z) : bool := negb (Z.land (lk_n_ifi_flags (ol_link l)) flag =? 0).
Definition link_ifindex (l : NMPObjectLink) : Z := lk_ifindex (ol_link l).
Definition link_master (l : NMPObjectLink) : Z := lk_master (ol_link l).

Section change.
Context `{ByteOrder} `{KernelSupport} `{SipHash} `{LinkDriver}.
Implicit Types (s : Index) (old new : option NMPObjectLink).

(** The masters of the old and of the new link, and the new link as a master. *)
Definition masters_on_change s (obj_old obj_new : option NMPObject) old new (d : Delayed) : option Delayed :=
  d ← match old with
      | Some lo =>
          master ← nmp_cache_link_connected_needs_toggle_by_ifindex s (link_master lo) obj_new obj_old;
          Some (match master with Some _ => schedule_master (link_master lo) d | None => d end)
      | None => Some d
      end;
  d ← match new with
      | Some l =>
          if match old with None => true | Some lo => negb (link_master lo =? link_master l) end then
            master ← nmp_cache_link_connected_needs_toggle_by_ifindex s (link_master l) obj_new obj_old;
            Some (match master with Some _ => schedule_master (link_master l) d | None => d end)
          else Some d
      | None => Some d
      end;
  match new with
  | Some l =>
      toggle ← nmp_cache_link_connected_needs_toggle s obj_new obj_new obj_old;
      Some (if toggle : bool then schedule_master (link_ifindex l) d else d)
  | None => Some d
  end.

(** A link is gone from netlink: its addresses, routes and so on. *)
Definition refresh_on_removal (cache_op : NMPCacheOpsType) old new (d : Delayed) : Delayed :=
  let ifindex :=
    match cache_op, old, new with
    | NMP_CACHE_OPS_REMOVED, Some lo, _ => link_ifindex lo
    | NMP_CACHE_OPS_UPDATED, Some lo, Some l =>
        if negb (ol_is_in_netlink l) && negb (eqb (ol_is_in_netlink l) (ol_is_in_netlink lo)) then link_ifindex l else 0
    | _, _, _ => 0
    end in
  if 0 <? ifindex then
    schedule_refresh [REFRESH_ALL_TYPE_IP4_ADDRESSES; REFRESH_ALL_TYPE_IP6_ADDRESSES; REFRESH_ALL_TYPE_IP4_ROUTES;
                      REFRESH_ALL_TYPE_IP6_ROUTES; REFRESH_ALL_TYPE_ROUTING_RULES_IP4; REFRESH_ALL_TYPE_ROUTING_RULES_IP6;
                      REFRESH_ALL_TYPE_QDISCS; REFRESH_ALL_TYPE_TFILTERS] d
  else d.

(** ... and the links of which it is the parent. *)
Definition refresh_children s (cache_op : NMPCacheOpsType) old new (d : Delayed) : option Delayed :=
  let ifindex :=
    match cache_op, old, new with
    | NMP_CACHE_OPS_REMOVED, Some lo, _ => if ol_is_in_netlink lo then link_ifindex lo else -1
    | NMP_CACHE_OPS_UPDATED, Some lo, Some l => if ol_is_in_netlink lo && negb (ol_is_in_netlink l) then link_ifindex l else -1
    | _, _, _ => -1
    end in
  if 0 <? ifindex then
    objs ← nmp_cache_iter_for_each s (nmp_cache_lookup s (nmp_lookup_init_obj_type LINK));
    Some (fold_left (fun d obj => match object_link obj with
                                  | Some l => if lk_parent (ol_link l) =? ifindex then schedule_link (link_ifindex l) d else d
                                  | None => d
                                  end) objs d)
  else Some d.

(** A link goes down. *)
Definition refresh_on_down (cache_op : NMPCacheOpsType) old new (d : Delayed) : Delayed :=
  match cache_op, old, new with
  | NMP_CACHE_OPS_UPDATED, Some lo, Some l =>
      if ol_is_in_netlink lo && ol_is_in_netlink l
         && ((link_flag lo IFF_UP && negb (link_flag l IFF_UP)) || (link_flag lo IFF_LOWER_UP && negb (link_flag l IFF_LOWER_UP)))
      then schedule_refresh [REFRESH_ALL_TYPE_IP4_ROUTES; REFRESH_ALL_TYPE_IP6_ROUTES] d
      else d
  | _, _, _ => d
  end.

(** The types of the first list of NM_IN_SET (), as they are there. *)
Definition lnk_link_types : list Z :=
  [NM_LINK_TYPE_GRE; NM_LINK_TYPE_GRETAP; NM_LINK_TYPE_IP6TNL; NM_LINK_TYPE_IP6GRE; NM_LINK_TYPE_IP6GRETAP; NM_LINK_TYPE_INFINIBAND;
   NM_LINK_TYPE_MACVLAN; NM_LINK_TYPE_MACVLAN; NM_LINK_TYPE_SIT; NM_LINK_TYPE_TUN; NM_LINK_TYPE_VLAN; NM_LINK_TYPE_VXLAN].

(** The kernel did not tell all about a link. *)
Definition re_request_link (l : NMPObjectLink) : bool :=
  let link := ol_link l in
  if match ol_lnk l with None => existsb (Z.eqb (lk_type link)) lnk_link_types | Some _ => false end then true
  else if (lk_type link =? NM_LINK_TYPE_TUN)
          && match ol_lnk l with
             | Some lnk => match at_obj lnk with
                           | LNK_TUN t => negb (tun_persist t) && tun_pi t && negb (tun_vnet_hdr t) && negb (tun_multi_queue t)
                                          && negb (tun_owner_valid t) && negb (tun_group_valid t)
                           | _ => false
                           end
             | None => false
             end then true
  else if (lk_type link =? NM_LINK_TYPE_VETH) && (lk_parent link =? 0) then true
  else (lk_type link =? NM_LINK_TYPE_ETHERNET) && (la_len (lk_l_address link) =? 0).

Definition refresh_incomplete (cache_op : NMPCacheOpsType) old new (d : Delayed) : Delayed :=
  match cache_op, new with
  | (NMP_CACHE_OPS_ADDED | NMP_CACHE_OPS_UPDATED), Some l =>
      if ol_is_in_netlink l && match old with None => true | Some lo => negb (ol_is_in_netlink lo) end && re_request_link l
      then schedule_link (link_ifindex l) d else d
  | _, _ => d
  end.

(** Enslaving and releasing refreshes the masters. *)
Definition netlink_master (l : option NMPObjectLink) : Z :=
  match l with Some l => if ol_is_in_netlink l && (0 <? link_master l) then link_master l else 0 | None => 0 end.
Definition netlink_up (l : option NMPObjectLink) : Z :=
  match l with Some l => if ol_is_in_netlink l then Z.b2z (link_flag l IFF_LOWER_UP) else 2 | None => 2 end.

Definition refresh_masters old new (d : Delayed) : Delayed :=
  if negb (netlink_master new =? netlink_master old) || negb (netlink_up new =? netlink_up old) then
    let ifindex1 := netlink_master old in
    let ifindex2 := netlink_master new in
    let d := if 0 <? ifindex1 then schedule_link ifindex1 d else d in
    if (0 <? ifindex2) && negb (ifindex1 =? ifindex2) then schedule_link ifindex2 d else d
  else d.

(** For the object that changed, in the cache after the change. *)
Definition cache_on_change s (cache_op : NMPCacheOpsType) (obj_old obj_new : option NMPObject) (d : Delayed) : option Delayed :=
  klass ← match obj_old with Some x => Some x | None => obj_new end;
  match at_obj klass with
  | OBJ_LINK _ =>
      let old := obj_old ≫= object_link in
      let new := obj_new ≫= object_link in
      d ← masters_on_change s obj_old obj_new old new d;
      let d := refresh_on_removal cache_op old new d in
      d ← refresh_children s cache_op old new d;
      let d := refresh_on_down cache_op old new d in
      let d := refresh_incomplete cache_op old new d in
      Some (refresh_masters old new d)
  | OBJ_IP4_ADDRESS _ =>
      Some (match cache_op with NMP_CACHE_OPS_REMOVED => schedule_refresh [REFRESH_ALL_TYPE_IP4_ROUTES] d | _ => d end)
  | OBJ_IP6_ADDRESS _ =>
      Some (match cache_op with NMP_CACHE_OPS_REMOVED => schedule_refresh [REFRESH_ALL_TYPE_IP6_ROUTES] d | _ => d end)
  | _ => Some d
  end.
End change.

(** ** Events *)

(** The platform, as far as the cache is concerned. *)
Record Platform := { pl_cache : NMPCache; delayed_action : Delayed }.

Section events.
Context `{ByteOrder} `{KernelSupport} `{SipHash} `{LinkDriver}.
Implicit Types (s : Index) (pl : Platform).

Definition pl_index pl : Index := multi_idx (pl_cache pl).
Definition with_pl s (d : Delayed) pl : Platform := {| pl_cache := with_idx s (pl_cache pl); delayed_action := d |}.

Definition changed_ops (cache_op : NMPCacheOpsType) : bool := match cache_op with NMP_CACHE_OPS_UNCHANGED => false | _ => true end.

(** What follows an update: a change is looked at, then the two objects are released
    (nm_auto_nmpobj). *)
Definition report_change (u : Updated) (d : Delayed) : option Delayed :=
  if changed_ops (ops_type u) then
    x ← opt_obj_at (updated u) (out_old u);
    y ← opt_obj_at (updated u) (out_new u);
    cache_on_change (updated u) (ops_type u) x y d
  else Some d.

Definition release_update (u : Updated) : option Index := s ← unref_opt (out_old u) (updated u); unref_opt (out_new u) s.

Definition finish_update (u : Updated) (d : Delayed) pl : option Platform :=
  d ← report_change u d;
  s ← release_update u;
  Some (with_pl s d pl).

(** The object of a message; the link data of a link is an object, too. *)
Definition message_object (v : NMPObjectData) (lnk : option NMPObjectLnk) s : positive * Index :=
  match v, lnk with
  | OBJ_LINK l, Some lnk =>
      let '(c, s) := nmp_object_new (OBJ_LNK lnk) s in
      nmp_object_new (OBJ_LINK (with_lnk (Some (mk_at (Zpos c) lnk)) l)) s
  | _, _ => nmp_object_new v s
  end.

(** The cases of nlmsg_type. *)
Inductive MsgType := RTM_NEW | RTM_NEWROUTE (nlmsg_flags : Z) | RTM_DEL.

Definition event_new (o : positive) (is_dump : bool) pl : option Platform :=
  u ← nmp_cache_update_netlink (pl_cache pl) o is_dump;
  finish_update u (delayed_action pl) pl.

Definition event_del (o : positive) pl : option Platform :=
  x ← obj_at (pl_index pl) o;
  u ← nmp_cache_remove_netlink (pl_cache pl) x;
  finish_update u (delayed_action pl) pl.

(** The route that was replaced is removed (if the signal handlers left it as it is;
    they do nothing here), and released. *)
Definition remove_replaced (obj_replace : option positive) (only_dirty : bool) s (d : Delayed) : option (Index * Delayed) :=
  match obj_replace with
  | None => Some (s, d)
  | Some p =>
      x ← obj_at s p;
      u ← nmp_cache_remove s x true only_dirty;
      d ← (if changed_ops (ops_type u) then cache_on_change (updated u) (ops_type u) (Some x) None d else Some d);
      s ← unref_opt (out_old u) (updated u);
      s ← nmp_object_unref p s;
      Some (s, d)
  end.

Definition event_newroute (o : positive) (is_dump : bool) (nlmsg_flags : Z) pl : option Platform :=
  r ← nmp_cache_update_netlink_route (pl_index pl) o is_dump nlmsg_flags;
  let u := route_updated r in
  let d := delayed_action pl in
  '(only_dirty, s) ←
    (if changed_ops (ops_type u) then
       match obj_replace r with
       | Some p =>
           x ← obj_at (updated u) p;
           entry_replace ← nmp_cache_lookup_entry (updated u) x;
           Some (true, nm_dedup_multi_entry_set_dirty entry_replace true (updated u))
       | None => Some (false, updated u)
       end
     else Some (false, updated u));
  let u := {| ops_type := ops_type u; out_old := out_old u; out_new := out_new u; updated := s |} in
  d ← report_change u d;
  '(s, d) ← remove_replaced (obj_replace r) only_dirty s d;
  x ← obj_at s o;
  let d := if resync_required r then delayed_action_schedule (delayed_action_refresh_from_needle_object x) 0 d else d in
  s ← release_update {| ops_type := ops_type u; out_old := out_old u; out_new := out_new u; updated := s |};
  Some (with_pl s d pl).

(** A message, with the object that was parsed from it. *)
Definition event_valid_msg (type : MsgType) (v : NMPObjectData) (lnk : option NMPObjectLnk) (is_dump : bool) pl : option Platform :=
  let '(o, s) := message_object v lnk (pl_index pl) in
  let pl := with_pl s (delayed_action pl) pl in
  pl ← match type with
       | RTM_NEW => event_new o is_dump pl
       | RTM_NEWROUTE nlmsg_flags => event_newroute o is_dump nlmsg_flags pl
       | RTM_DEL => event_del o pl
       end;
  s ← nmp_object_unref o (pl_index pl);
  Some (with_pl s (delayed_action pl) pl).

Definition cache_update_link_udev (ifindex udevice : Z) pl : option Platform :=
  u ← nmp_cache_update_link_udev (pl_cache pl) ifindex udevice;
  finish_update u (delayed_action pl) pl.

Definition delayed_action_handle_MASTER_CONNECTED (master_ifindex : Z) pl : option Platform :=
  u ← nmp_cache_update_link_master_connected (pl_index pl) master_ifindex;
  finish_update u (delayed_action pl) pl.

(** g_ptr_array_remove_index_fast (array, 0): the last one takes the place. *)
Definition remove_index_fast (l : list Z) : list Z :=
  match l with
  | [] => []
  | _ :: rest => match rev rest with [] => [] | y :: r => y :: rev r end
  end.

(** The part for masters; false if there is none. *)
Definition delayed_action_handle_one pl : option (bool * Platform) :=
  let d := delayed_action pl in
  if Z.land (da_flags d) DELAYED_ACTION_TYPE_MASTER_CONNECTED =? 0 then Some (false, pl)
  else
    user_data ← head (list_master_connected d);
    let l := remove_index_fast (list_master_connected d) in
    let d := {| da_flags := if bool_decide (l = []) then Z.land (da_flags d) (Z.lnot DELAYED_ACTION_TYPE_MASTER_CONNECTED) else da_flags d;
                list_master_connected := l; list_refresh_link := list_refresh_link d |} in
    pl ← delayed_action_handle_MASTER_CONNECTED user_data {| pl_cache := pl_cache pl; delayed_action := d |};
    Some (true, pl).

(** ** Dumps *)

(** A refresh starts: what the platform has of the type is marked. *)
Definition refresh_all_mark (t : RefreshAllType) pl : option Platform :=
  s ← nmp_cache_dirty_set_all_main (pl_index pl) (refresh_all_type_init_lookup t);
  Some (with_pl s (delayed_action pl) pl).

(** It ends: what is still marked is removed. *)
Fixpoint prune_main (lookup : NMPLookup) (es : list positive) pl : option Platform :=
  match es with
  | [] => Some pl
  | e :: es =>
      main ← nmp_cache_reresolve_main_entry (pl_index pl) e lookup;
      en ← entries (pl_index pl) !! main;
      if negb (en_dirty en) then prune_main lookup es pl
      else
        x ← obj_at (pl_index pl) (en_obj en);
        u ← nmp_cache_remove (pl_index pl) x true true;
        pl ← finish_update u (delayed_action pl) pl;
        prune_main lookup es pl
  end.

Definition cache_prune_one_type (lookup : NMPLookup) pl : option Platform :=
  es ← lookup_entries (pl_index pl) lookup;
  prune_main lookup es pl.
End events.
