(* ===== verification/NmpCacheRun.v ===== *)
(** * Platform events: nothing leaks, masters are looked at

    After each event the only references of objects are those of the cache, the
    handles of the cache agree, and each master whose connected flag is not right
    is scheduled. *)

From S2P Require Export NmpCacheEvents.

Section run.
Context `{ByteOrder} `{KernelSupport} `{SipHash} `{LinkDriver}.
Implicit Types (s : Index) (ext : positive -> nat) (d : Delayed) (pl : Platform).

(** ** Schedules *)

Definition masters_ok s d : Prop := forall o l, in_main s o (OBJ_LINK l) -> unsettled s l -> link_ifindex l ∈ list_master_connected d.

(** ... all but those of an identity. *)
Definition masters_ok_but s d (k : kval) : Prop :=
  forall o l, in_main s o (OBJ_LINK l) -> oid o (OBJ_LINK l) <> k -> unsettled s l -> link_ifindex l ∈ list_master_connected d.

Lemma masters_but s d k : masters_ok s d -> masters_ok_but s d k.
Proof. intros Hd o l Hm _. by apply (Hd o l). Qed.

Definition has_masters d : bool := negb (Z.land (da_flags d) DELAYED_ACTION_TYPE_MASTER_CONNECTED =? 0).

(** The flag says whether there are masters; each is there once, and is an index. *)
Definition delayed_ok d : Prop :=
  NoDup (list_master_connected d) /\ (has_masters d = false <-> list_master_connected d = []) /\
  forall i, i ∈ list_master_connected d -> 0 < i.

(** Scheduling forgets no master. *)
Record grows d d' : Prop := {
  gr_masters i : i ∈ list_master_connected d -> i ∈ list_master_connected d';
  gr_ok : delayed_ok d -> delayed_ok d'
}.

#[export] Instance grows_refl : Reflexive grows.
Proof. by split. Qed.
#[export] Instance grows_trans : Transitive grows.
Proof. intros d1 d2 d3 [M1 O1] [M2 O2]. split; auto. Qed.

Lemma elem_of_add_once x y l : y ∈ add_once x l <-> y = x \/ y ∈ l.
Proof.
  unfold add_once. destruct (existsb (Z.eqb x) l) eqn:E.
  - split; [by right|]. intros [->|Hy]; [|done]. apply existsb_exists in E as (z & Hz & ->%Z.eqb_eq). by apply list_elem_of_In.
  - rewrite elem_of_app, list_elem_of_singleton. tauto.
Qed.

Lemma add_once_NoDup x l : NoDup l -> NoDup (add_once x l).
Proof.
  intros Hl. unfold add_once. destruct (existsb (Z.eqb x) l) eqn:E; [done|]. apply NoDup_app. split_and!; [done| |apply NoDup_singleton].
  intros y Hy ->%list_elem_of_singleton. apply not_true_iff_false in E. apply E, existsb_exists. exists x.
  split; [by apply list_elem_of_In|apply Z.eqb_refl].
Qed.

Lemma flag_or a b c : Z.land (Z.lor a b) c = 0 <-> Z.land a c = 0 /\ Z.land b c = 0.
Proof. rewrite Z.land_lor_distr_l. apply Z.lor_eq_0_iff. Qed.

Lemma schedule_grows t x d :
  Z.land t DELAYED_ACTION_TYPE_MASTER_CONNECTED = 0 \/ t = DELAYED_ACTION_TYPE_MASTER_CONNECTED /\ 0 < x -> grows d (delayed_action_schedule t x d).
Proof.
  intros Ht. unfold delayed_action_schedule. split; cbn [list_master_connected].
  - intros i Hi. destruct (t =? DELAYED_ACTION_TYPE_MASTER_CONNECTED); [apply elem_of_add_once; by right|done].
  - unfold delayed_ok, has_masters. cbn [list_master_connected da_flags]. intros (Hnd & Hf & Hp). rewrite !negb_false_iff, !Z.eqb_eq in *.
    rewrite flag_or. destruct (Z.eqb_spec t DELAYED_ACTION_TYPE_MASTER_CONNECTED) as [->|Hne].
    + split; [by apply add_once_NoDup|]. split; [|intros i [->|?]%elem_of_add_once; [by destruct Ht as [?|[_ ?]]|by apply Hp]].
      split; [intros [_ E]; by vm_compute in E|]. intros E. assert (x ∈ add_once x (list_master_connected d)) as Hx by (apply elem_of_add_once; by left). rewrite E in Hx. by apply elem_of_nil in Hx.
    + split; [done|]. split; [|done]. destruct Ht as [->|[]]; [|done]. rewrite <-Hf. tauto.
Qed.

Lemma schedule_master_in x d : x ∈ list_master_connected (schedule_master x d).
Proof. unfold schedule_master, delayed_action_schedule. cbn [list_master_connected]. rewrite Z.eqb_refl. apply elem_of_add_once. by left. Qed.

Lemma schedule_master_grows x d : 0 < x -> grows d (schedule_master x d).
Proof. intros Hx. apply schedule_grows. by right. Qed.
Lemma schedule_link_grows x d : grows d (schedule_link x d).
Proof. apply schedule_grows. by left. Qed.
Lemma schedule_refresh_grows ts d : grows d (schedule_refresh ts d).
Proof.
  apply schedule_grows. left. induction ts as [|t ts IH]; [done|]. cbn [foldr]. apply flag_or. split; [by destruct t|done].
Qed.

(** ** Changes of other kinds *)

Lemma refresh_on_removal_grows op old new d : grows d (refresh_on_removal op old new d).
Proof. unfold refresh_on_removal. destruct (0 <? _); [apply schedule_refresh_grows|done]. Qed.

Lemma refresh_on_down_grows op old new d : grows d (refresh_on_down op old new d).
Proof. unfold refresh_on_down. destruct op, old, new; try done. destruct (_ && _); [apply schedule_refresh_grows|done]. Qed.

Lemma refresh_incomplete_grows op old new d : grows d (refresh_incomplete op old new d).
Proof. unfold refresh_incomplete. destruct op, new; try done; (destruct (_ && re_request_link _); [apply schedule_link_grows|done]). Qed.

Lemma refresh_masters_grows old new d : grows d (refresh_masters old new d).
Proof.
  unfold refresh_masters. destruct (_ || _); [|done]. cbv zeta.
  assert (Hd : grows d (if 0 <? netlink_master old then schedule_link (netlink_master old) d else d)) by (destruct (0 <? _); [apply schedule_link_grows|done]).
  destruct (_ && _); [|done]. etransitivity; [exact Hd|apply schedule_link_grows].
Qed.

Lemma refresh_children_grows s ext op old new d : cache_ok s ext -> exists d', refresh_children s op old new d = Some d' /\ grows d d'.
Proof.
  intros Hc. unfold refresh_children. destruct (0 <? _); [|by exists d].
  destruct (cache_lookup_ok s ext (ByType LINK) Hc Logic.I) as (objs & E & _). change (selector_lookup (ByType LINK)) with (nmp_lookup_init_obj_type LINK) in E.
  rewrite E. cbn [mbind option_bind]. eexists. split; [done|]. clear E. revert d. induction objs as [|x objs IH]; intros d; [done|]. cbn [fold_left].
  etransitivity; [|apply IH]. destruct (object_link x); [|done]. destruct (_ =? _); [apply schedule_link_grows|done].
Qed.

(** The cache has the same objects of other identities. *)
Definition others_in s s' (k : kval) : Prop := forall o v, oid o v <> k -> in_main s' o v <-> in_main s o v.

Lemma others_stay_in s s' k : others_stay s s' k -> others_in s s' k.
Proof. intros Hoth o v Hne. split; intros [e Hm]; exists e; by apply (Hoth e o v Hne). Qed.

(** ** Masters *)

Lemma has_slave_dec s ext i : cache_ok s ext -> has_slave s i \/ ~ has_slave s i.
Proof.
  intros Hc. destruct (cache_lookup_ok s ext (ByType LINK) Hc Logic.I) as (objs & E & Hin).
  pose proof (keeps_up_slaves s ext i None None objs (co_index _ _ Hc) (slave_change_none s) Hin) as Hup. cbn [orb] in Hup.
  destruct (existsb (keeps_up i None None) objs); [left; by apply Hup|right]. intros Hs%Hup. done.
Qed.

Lemma unsettled_dec s ext m : cache_ok s ext -> unsettled s m \/ ~ unsettled s m.
Proof.
  intros Hc. destruct (needs_toggle_ok s ext (on_stack (OBJ_LINK m)) m None None Hc eq_refl (slave_change_none s)) as (b & _ & Hb).
  destruct b; [left; by apply Hb|right; by intros Hu%Hb].
Qed.

Lemma slave_master i o l : nmp_cache_link_connected_for_slave i (boxed o (OBJ_LINK l)) = true -> link_master l = i /\ 0 < i.
Proof. unfold nmp_cache_link_connected_for_slave. cbn. intros E. bools. done. Qed.

(** nmp_cache_link_connected_needs_toggle_by_ifindex () *)
Lemma by_ifindex_ok s ext i pot ign :
  cache_ok s ext -> slave_change s pot ign ->
  exists r, nmp_cache_link_connected_needs_toggle_by_ifindex s i pot ign = Some r /\ (is_Some r -> 0 < i) /\
    forall n m, in_main s n (OBJ_LINK m) -> link_ifindex m = i -> 0 < i -> unsettled s m -> is_Some r.
Proof.
  intros Hc Hch. unfold nmp_cache_link_connected_needs_toggle_by_ifindex. destruct (Z.ltb_spec 0 i) as [Hi|Hi]; [|exists None; split; [done|]; split; [by intros []|lia]].
  unfold nmp_cache_lookup_link. pose proof (lookup_link_ok s ext i (co_index _ _ Hc) Hi) as Hl. destruct (nmp_cache_lookup_entry_link s i) as [e|].
  - destruct Hl as (od & lo & Hm & _ & _ & Ei). pose proof Hm as (h & en & hd & He & Eo & _). cbn [nm_dedup_multi_entry_get_obj]. rewrite He.
    cbn [mbind option_bind opt_obj_at]. rewrite Eo. destruct (main_val s ext e od _ (co_index _ _ Hc) Hm) as (Hv & _ & _).
    assert (obj_at s od = Some (boxed od (OBJ_LINK lo))) as -> by (unfold obj_at; by rewrite Hv). cbn [mbind option_bind].
    destruct (needs_toggle_ok s ext (boxed od (OBJ_LINK lo)) lo pot ign Hc eq_refl Hch) as (b & -> & Hb). cbn [mbind option_bind].
    eexists. split; [done|]. split; [done|]. intros n m Hmain Em _ Hu. destruct (link_unique s ext n od m lo (co_index _ _ Hc) Hmain) as [-> ->];
      [by exists e|unfold link_ifindex in Em; congruence|]. rewrite (proj2 Hb Hu). by eexists.
  - cbn. exists None. split; [done|]. split; [by intros []|]. intros n m Hmain Em _ _. exfalso. apply (Hl n (OBJ_LINK m) Hmain).
    unfold link_id, oid, object_id_key. cbn. unfold link_ifindex in Em. by rewrite Em.
Qed.

Definition as_link (x : positive * NMPObjectLink) : positive * NMPObjectData := (x.1, OBJ_LINK x.2).

(** The slaves of a master changed: one was or is the link. *)
Lemma slaves_changed s s' ext ext' k old new m :
  cache_ok s ext -> cache_ok s' ext' -> others_in s s' k -> has s k (as_link <$> old) -> has s' k (as_link <$> new) ->
  ~ unsettled s m -> unsettled s' m ->
  (exists o l, old = Some (o, l) /\ link_master l = link_ifindex m) \/ (exists n l, new = Some (n, l) /\ link_master l = link_ifindex m).
Proof.
  intros Hc Hc' Hoth Hold Hnew Hs Hs'.
  assert (Hgone : forall o l, in_main s o (OBJ_LINK l) -> ~ in_main s' o (OBJ_LINK l) -> old = Some (o, l)).
  { intros o l [e Hm] Hno. destruct (decide (oid o (OBJ_LINK l) = k)) as [Ek|Hne].
    - destruct old as [[o2 l2]|]; [|by destruct (Hold o (OBJ_LINK l)); [exists e|]]. destruct Hold as [Ek2 Hm2].
      destruct (main_ids s ext (co_index _ _ Hc) o (OBJ_LINK l) o2 (OBJ_LINK l2)) as [-> [= ->]]; [by exists e|done|cbn in Ek2; congruence|done].
    - destruct Hno. apply (Hoth o (OBJ_LINK l) Hne). by exists e. }
  assert (Hadded : forall o l, in_main s' o (OBJ_LINK l) -> ~ in_main s o (OBJ_LINK l) -> new = Some (o, l)).
  { intros o l [e Hm] Hno. destruct (decide (oid o (OBJ_LINK l) = k)) as [Ek|Hne].
    - destruct new as [[o2 l2]|]; [|by destruct (Hnew o (OBJ_LINK l)); [exists e|]]. destruct Hnew as [Ek2 Hm2].
      destruct (main_ids s' ext' (co_index _ _ Hc') o (OBJ_LINK l) o2 (OBJ_LINK l2)) as [-> [= ->]]; [by exists e|done|cbn in Ek2; congruence|done].
    - destruct Hno. apply (Hoth o (OBJ_LINK l) Hne). by exists e. }
  assert (Hflip : (has_slave s (link_ifindex m) /\ ~ has_slave s' (link_ifindex m)) \/ (~ has_slave s (link_ifindex m) /\ has_slave s' (link_ifindex m))).
  { unfold unsettled, link_ifindex in *. destruct Hs' as [Hm Hs']. destruct (has_slave_dec s ext (lk_ifindex (ol_link m)) Hc), (has_slave_dec s' ext' (lk_ifindex (ol_link m)) Hc');
      [|by left|by right|]; exfalso; apply Hs; (split; [done|]); intros E; apply Hs'; tauto. }
  destruct Hflip as [[(o & l & Hm & Hsl) Hno]|[Hno (o & l & Hm & Hsl)]]; destruct (slave_master _ _ _ Hsl) as [Em _]; [left|right];
    exists o, l; (split; [|done]); [apply Hgone|apply Hadded]; try done; intros Hm2; apply Hno; by exists o, l.
Qed.

(** What the change of a link means for its neighbours is seen in the new cache. *)
Lemma change_slaves s' ext' k old new :
  cache_ok s' ext' -> has s' k (as_link <$> new) -> (forall o l, old = Some (o, l) -> vals (heap s') !! o = Some (OBJ_LINK l) /\ oid o (OBJ_LINK l) = k) ->
  (forall x, old = Some x -> new <> Some x) ->
  slave_change s' (at_addr <$> (as_link <$> new)) (at_addr <$> (as_link <$> old)).
Proof.
  intros Hc Hnew Hold Hne. split.
  - intros p Ep. destruct new as [[n l]|]; [|done]. injection Ep as <-. exists n, l. split; [done|apply Hnew].
  - intros i o l Ei Hm. destruct old as [[p lo]|]; [|done]. injection Ei as <-. cbn. intros [= ->]. destruct (Hold o lo eq_refl) as [Hv Ek].
    destruct (in_main_pool s' ext' o _ (co_index _ _ Hc) Hm) as (_ & Hv2 & _). assert (l = lo) as -> by congruence.
    destruct new as [[n ln]|]; [|by apply (Hnew o (OBJ_LINK lo))]. destruct Hnew as [Ek2 Hm2].
    destruct (main_ids s' ext' (co_index _ _ Hc) n (OBJ_LINK ln) o (OBJ_LINK lo) Hm2 Hm) as [-> [= ->]]; [cbn in Ek2; congruence|].
    by apply (Hne (o, lo)).
Qed.

(** A master with a slave [l] is scheduled, if it is to be. *)
Definition covers s d (l : NMPObjectLink) : Prop :=
  forall n m, in_main s n (OBJ_LINK m) -> unsettled s m -> link_ifindex m = link_master l -> link_ifindex m ∈ list_master_connected d.

Lemma unsettled_ifindex s m : unsettled s m -> 0 < link_ifindex m.
Proof. intros [Hm _]. unfold is_master in Hm. bools. done. Qed.

Lemma grows_covers s d d' l : grows d d' -> covers s d l -> covers s d' l.
Proof. intros Hg Hc n m Hm Hu E. by apply (gr_masters _ _ Hg), (Hc n m). Qed.

Lemma schedule_masters_ok s ext l pot ign d :
  cache_ok s ext -> slave_change s pot ign ->
  exists d', (master ← nmp_cache_link_connected_needs_toggle_by_ifindex s (link_master l) pot ign;
              Some (match master with Some _ => schedule_master (link_master l) d | None => d end)) = Some d' /\ grows d d' /\ covers s d' l.
Proof.
  intros Hc Hch. destruct (by_ifindex_ok s ext (link_master l) pot ign Hc Hch) as (r & -> & Hpos & Hr). cbn [mbind option_bind]. eexists. split; [done|].
  split; [destruct r; [by apply schedule_master_grows, Hpos|done]|]. intros n m Hm Hu E. pose proof (unsettled_ifindex s m Hu) as Hi.
  destruct (Hr n m Hm E) as [y ->]; [by rewrite <-E|done|]. rewrite E. apply schedule_master_in.
Qed.

Lemma masters_on_change_ok s s' ext ext' k old new d :
  cache_ok s ext -> cache_ok s' ext' -> others_in s s' k -> has s k (as_link <$> old) -> has s' k (as_link <$> new) ->
  slave_change s' (at_addr <$> (as_link <$> new)) (at_addr <$> (as_link <$> old)) -> masters_ok_but s d k ->
  exists d', masters_on_change s' (at_addr <$> (as_link <$> old)) (at_addr <$> (as_link <$> new)) (snd <$> old) (snd <$> new) d = Some d' /\
    grows d d' /\ masters_ok s' d'.
Proof.
  intros Hc Hc' Hoth Hold Hnew Hch Hd. unfold masters_on_change.
  set (xo := at_addr <$> (as_link <$> old)) in *. set (xn := at_addr <$> (as_link <$> new)) in *.
  assert (exists d1, match snd <$> old with
            | Some lo => master ← nmp_cache_link_connected_needs_toggle_by_ifindex s' (link_master lo) xn xo;
                         Some (match master with Some _ => schedule_master (link_master lo) d | None => d end)
            | None => Some d end = Some d1 /\ grows d d1 /\ forall o l, old = Some (o, l) -> covers s' d1 l) as (d1 & -> & G1 & C1).
  { destruct old as [[o lo]|]; cbn [fmap option_fmap option_map snd]; [|by exists d].
    destruct (schedule_masters_ok s' ext' lo xn xo d Hc' Hch) as (d1 & ? & ? & ?). exists d1. split_and!; [done|done|by intros ? ? [= <- <-]]. }
  cbn [mbind option_bind].
  assert (exists d2, match snd <$> new with
            | Some l => if match snd <$> old with None => true | Some lo => negb (link_master lo =? link_master l) end then
                          master ← nmp_cache_link_connected_needs_toggle_by_ifindex s' (link_master l) xn xo;
                          Some (match master with Some _ => schedule_master (link_master l) d1 | None => d1 end)
                        else Some d1
            | None => Some d1 end = Some d2 /\ grows d1 d2 /\ forall n l, new = Some (n, l) -> covers s' d2 l) as (d2 & -> & G2 & C2).
  { destruct new as [[n l]|]; cbn [fmap option_fmap option_map snd]; [|by exists d1].
    destruct (match snd <$> old with None => true | Some lo => negb (link_master lo =? link_master l) end) eqn:E.
    - destruct (schedule_masters_ok s' ext' l xn xo d1 Hc' Hch) as (d2 & ? & ? & ?). exists d2. split_and!; [done|done|by intros ? ? [= <- <-]].
    - exists d1. split_and!; [done|done|]. intros ? ? [= <- <-]. destruct old as [[o lo]|]; [|done]. cbn in E. apply negb_false_iff, Z.eqb_eq in E.
      intros n2 m Hm Hu Em. apply (C1 o lo eq_refl n2 m Hm Hu). congruence. }
  cbn [mbind option_bind].
  assert (exists d3, match snd <$> new with
            | Some l => toggle ← nmp_cache_link_connected_needs_toggle s' xn xn xo; Some (if toggle : bool then schedule_master (link_ifindex l) d2 else d2)
            | None => Some d2 end = Some d3 /\ grows d2 d3 /\ forall n l, new = Some (n, l) -> unsettled s' l -> link_ifindex l ∈ list_master_connected d3) as (d3 & -> & G3 & C3).
  { destruct new as [[n l]|]; cbn [fmap option_fmap option_map snd]; [|by exists d2].
    destruct (needs_toggle_ok s' ext' (boxed n (OBJ_LINK l)) l xn xo Hc' eq_refl Hch) as (b & Eb & Hb).
    change (nmp_cache_link_connected_needs_toggle s' xn xn xo = Some b) in Eb. rewrite Eb. cbn [mbind option_bind]. eexists. split; [done|]. split; [destruct b; [apply schedule_master_grows, (unsettled_ifindex s'); by apply Hb|done]|].
    intros ? ? [= <- <-] Hu. rewrite (proj2 Hb Hu). apply schedule_master_in. }
  exists d3. split; [done|]. split; [by do 2 (etransitivity; [|done])|]. intros o m Hm Hu.
  destruct (decide (oid o (OBJ_LINK m) = k)) as [Ek|Hne].
  - destruct new as [[n l]|]; [|by destruct (Hnew o (OBJ_LINK m))]. destruct Hnew as [Ek2 Hm2]. cbn in Ek2, Hm2.
    destruct (main_ids s' ext' (co_index _ _ Hc') o (OBJ_LINK m) n (OBJ_LINK l) Hm Hm2) as [-> [= ->]]; [congruence|]. by apply (C3 n l).
  - assert (in_main s o (OBJ_LINK m)) as Hms by by apply (Hoth o (OBJ_LINK m) Hne).
    apply (gr_masters _ _ G3).
    destruct (unsettled_dec s ext m Hc) as [Hus|Hus]; [by apply (gr_masters _ _ G2), (gr_masters _ _ G1), (Hd o m)|].
    destruct (slaves_changed s s' ext ext' k old new m Hc Hc' Hoth Hold Hnew Hus Hu) as [(o2 & l & El & Em)|(n2 & l & El & Em)].
    + apply (gr_masters _ _ G2). by apply (C1 o2 l El o m Hm Hu).
    + by apply (C2 n2 l El o m Hm Hu).
Qed.

(** Without a change of links nothing changes. *)
Lemma links_same_masters s s' d : (forall o l, in_main s' o (OBJ_LINK l) <-> in_main s o (OBJ_LINK l)) -> masters_ok s d -> masters_ok s' d.
Proof.
  intros Hl Hd o l Hm [Hma Hu]. apply (Hd o l); [by apply Hl|]. split; [done|]. intros E. apply Hu. rewrite E.
  split; intros [Hup (p & z & Hp & Hs)]; (split; [done|]); exists p, z; (split; [by apply Hl|done]).
Qed.

Lemma grows_masters s d d' : grows d d' -> masters_ok s d -> masters_ok s d'.
Proof. intros Hg Hd o l Hm Hu. by apply (gr_masters _ _ Hg), (Hd o l). Qed.

Lemma other_kind_links s s' k o v : oid o v = k -> plain v -> cacheable v -> others_in s s' k ->
  forall p l, in_main s' p (OBJ_LINK l) <-> in_main s p (OBJ_LINK l).
Proof.
  intros <- Hp Hc Hoth p l. assert (Hne : oid p (OBJ_LINK l) <> oid o v).
  { intros E. destruct (same_id_link o v p l Hc (eq_sym E)) as [lo ->]. by apply (Hp lo). }
  by apply (Hoth p (OBJ_LINK l) Hne).
Qed.

(** The two objects of a change are of a class: links, or not. *)
Lemma change_kinds s s' ext ext' k old new :
  index_ok s ext -> index_ok s' ext' -> has s k old -> has s' k new ->
  (exists lo ln, old = as_link <$> lo /\ new = as_link <$> ln) \/
  (forall o v, old = Some (o, v) \/ new = Some (o, v) -> plain v).
Proof.
  intros Hok Hok' Hold Hnew.
  assert (Hcl : forall o v p l, cacheable v -> oid o v = k -> oid p (OBJ_LINK l) = k -> exists lo, v = OBJ_LINK lo).
  { intros o v p l Hc E1 E2. apply (same_id_link o v p l Hc). congruence. }
  assert (Ho : forall o v, old = Some (o, v) -> oid o v = k /\ cacheable v).
  { intros o v ->. split; [apply Hold|]. by apply (in_main_pool s ext o v Hok), Hold. }
  assert (Hn : forall o v, new = Some (o, v) -> oid o v = k /\ cacheable v).
  { intros o v ->. split; [apply Hnew|]. by apply (in_main_pool s' ext' o v Hok'), Hnew. }
  destruct old as [[o v]|], new as [[n w]|].
  - destruct (Ho o v eq_refl) as [Ek Hc], (Hn n w eq_refl) as [En Hcn]. destruct v as [lo| | | | | | | |] eqn:Ev.
    1: { left. destruct (Hcl n w o lo Hcn En Ek) as [ln ->]. by exists (Some (o, lo)), (Some (n, ln)). }
    all: right; intros o2 v2 [[= <- <-]|[= <- <-]]; [done|]; intros l ->; destruct (Hcl o _ n l Hc Ek En) as [? ?]; done.
  - destruct v as [lo| | | | | | | |]; [left; by exists (Some (o, lo)), None|right; by intros ? ? [[= <- <-]|]..].
  - destruct w as [ln| | | | | | | |]; [left; by exists None, (Some (n, ln))|right; by intros ? ? [|[= <- <-]]..].
  - right. by intros ? ? [|].
Qed.

Lemma fmap_snd_link (x : option (positive * NMPObjectLink)) : (at_addr <$> (as_link <$> x)) ≫= object_link = snd <$> x.
Proof. by destruct x as [[]|]. Qed.

Lemma cache_on_change_ok s s' ext ext' k op old new d :
  cache_ok s ext -> cache_ok s' ext' -> others_in s s' k -> has s k old -> has s' k new ->
  (forall o v, old = Some (o, v) -> vals (heap s') !! o = Some v) -> ops_of op old new -> changed_ops op = true -> masters_ok_but s d k ->
  exists d', cache_on_change s' op (at_addr <$> old) (at_addr <$> new) d = Some d' /\ grows d d' /\ masters_ok s' d'.
Proof.
  intros Hc Hc' Hoth Hold Hnew Hval Hops Hch Hd.
  destruct (change_kinds s s' ext ext' k old new (co_index _ _ Hc) (co_index _ _ Hc') Hold Hnew) as [(lo & ln & -> & ->)|Hplain].
  - assert (Hne : forall x, lo = Some x -> ln <> Some x).
    { intros [o l] -> ->. destruct op; try done. cbn in Hops. by apply Hops. }
    assert (Hs := change_slaves s' ext' k lo ln Hc' Hnew). destruct (masters_on_change_ok s s' ext ext' k lo ln d Hc Hc' Hoth Hold Hnew) as (d1 & E1 & G1 & M1); [|done|].
    { apply Hs; [|done]. intros o l ->. split; [by apply Hval|]. apply Hold. }
    unfold cache_on_change. rewrite !fmap_snd_link.
    assert (exists x l, match at_addr <$> (as_link <$> lo) with Some x => Some x | None => at_addr <$> (as_link <$> ln) end = Some x /\ at_obj x = OBJ_LINK l) as (x & l & -> & Ex).
    { destruct lo as [[o l]|]; [by exists (boxed o (OBJ_LINK l)), l|]. destruct ln as [[n l]|]; [by exists (boxed n (OBJ_LINK l)), l|by destruct op]. }
    cbn [mbind option_bind]. rewrite Ex, E1. cbn [mbind option_bind].
    set (d2 := refresh_on_removal op (snd <$> lo) (snd <$> ln) d1). pose proof (refresh_on_removal_grows op (snd <$> lo) (snd <$> ln) d1) as G2. fold d2 in G2.
    destruct (refresh_children_grows s' ext' op (snd <$> lo) (snd <$> ln) d2 Hc') as (d3 & -> & G3). cbn [mbind option_bind]. eexists. split; [done|].
    match goal with |- grows d ?d' /\ _ => assert (grows d1 d') as G4 end.
    { transitivity d3; [by transitivity d2|]. etransitivity; [apply refresh_on_down_grows|]. etransitivity; [apply refresh_incomplete_grows|apply refresh_masters_grows]. }
    split; [by transitivity d1|by apply (grows_masters s' d1)].
  - assert (exists o v, (old = Some (o, v) \/ new = Some (o, v)) /\ oid o v = k /\ cacheable v /\
      match at_addr <$> old with Some x => Some x | None => at_addr <$> new end = Some (boxed o v)) as (o & v & Hov & Ek & Hcv & Ex).
    { destruct old as [[o v]|]; [exists o, v|destruct new as [[o v]|]; [exists o, v|by destruct op]].
      - split; [by left|]. split; [apply Hold|]. split; [|done]. by apply (in_main_pool s ext o v (co_index _ _ Hc)), Hold.
      - split; [by right|]. split; [apply Hnew|]. split; [|done]. by apply (in_main_pool s' ext' o v (co_index _ _ Hc')), Hnew. }
    assert (Hds : masters_ok s d).
    { intros p l Hm. apply (Hd p l Hm). intros E. destruct (same_id_link o v p l Hcv) as [lo ->]; [congruence|]. by apply (Hplain o _ Hov lo). }
    assert (Hm : masters_ok s' d) by (apply (links_same_masters s); [|done]; by apply (other_kind_links s s' k o v Ek (Hplain o v Hov) Hcv)).
    unfold cache_on_change. rewrite Ex. cbn [mbind option_bind boxed at_obj]. pose proof (Hplain o v Hov) as Hp.
    destruct v as [l| | | | | | | |]; try (exists d; by split); [by destruct (Hp l)| |]; destruct op; try (exists d; by split);
      eexists; (split; [done|]); (split; [apply schedule_refresh_grows|]); (apply (grows_masters s' d); [apply schedule_refresh_grows|done]).
Qed.

(** ** Releasing *)

(** What holds between events; [ext]: references that are held meanwhile. *)
Record platform_ok ext pl : Prop := {
  po_cache : cache_ok (pl_index pl) ext;
  po_masters : masters_ok (pl_index pl) (delayed_action pl);
  po_delayed : delayed_ok (delayed_action pl)
}.

Lemma same_cache_masters s s' d : same_cache s s' -> masters_ok s d -> masters_ok s' d.
Proof. intros Hs. apply links_same_masters. intros o l. split; intros [e He]; exists e; by apply (same_cache_main s s' e o _ Hs). Qed.

Lemma release_ok s ext o :
  cache_ok s (with_ref o ext) -> exists s', unref_opt o s = Some s' /\ cache_ok s' ext /\ same_cache s s' /\ keeps ext s s'.
Proof.
  intros Hc. destruct (unref_opt_ok s ext o (co_index _ _ Hc)) as (hp & E & Hok & _ & Hk & Ht).
  exists (with_heap hp s). assert (same_cache s (with_heap hp s)) as Hs by by split. split_and!; [done| |done|done]. by apply (cache_ok_memory s _ _ _ Hc).
Qed.

Lemma release_update_ok u ext :
  cache_ok (updated u) (returned u ext) ->
  exists s', release_update u = Some s' /\ cache_ok s' ext /\ same_cache (updated u) s' /\ keeps ext (updated u) s'.
Proof.
  intros Hc. unfold release_update. destruct (release_ok (updated u) (with_ref (out_new u) ext) (out_old u) Hc) as (s1 & -> & Hc1 & Hs1 & Hk1).
  cbn [mbind option_bind]. destruct (release_ok s1 ext (out_new u) Hc1) as (s2 & E & Hc2 & Hs2 & Hk2). exists s2. split; [exact E|]. split; [done|].
  split; [by etransitivity|]. apply (keeps_trans _ _ s1); [|done]. apply (keeps_mono _ (with_ref (out_new u) ext)); [|done].
  intros p. destruct (out_new u); [apply add_use_le|done].
Qed.

(** What is known of the masters before an update is looked at. *)
Definition masters_for s (u : Updated) d (k : kval) : Prop :=
  masters_ok_but s d k /\ (changed_ops (ops_type u) = false -> masters_ok s d).

Lemma masters_for_all s u d k : masters_ok s d -> masters_for s u d k.
Proof. intros Hd. split; [by apply masters_but|done]. Qed.

Lemma report_change_ok s ext u k old new d :
  cache_ok s ext -> reported s ext u k old new -> masters_for s u d k ->
  exists d', report_change u d = Some d' /\ grows d d' /\ masters_ok (updated u) d'.
Proof.
  intros Hc [R1 R2 R3 [R4 R4'] [R5 R5'] R6 R7] [Hd Hd']. unfold report_change. destruct (changed_ops (ops_type u)) eqn:Ech.
  - rewrite R4', R5'. rewrite (opt_obj_at_Some (updated u) old R7). cbn [mbind option_bind]. rewrite (opt_obj_at_Some (updated u) new).
    + cbn [mbind option_bind]. by apply (cache_on_change_ok s (updated u) ext (returned u ext) k (ops_type u) old new d Hc R1 (others_stay_in _ _ _ R3)).
    + intros o v ->. by apply (in_main_pool (updated u) _ o v (co_index _ _ R1)), R5.
  - exists d. split; [done|]. split; [done|]. specialize (Hd' eq_refl). destruct (ops_type u); try done.
    assert (Hsame : forall o l, in_main (updated u) o (OBJ_LINK l) <-> in_main s o (OBJ_LINK l)); [|by apply (links_same_masters s)].
    intros o l. destruct (decide (oid o (OBJ_LINK l) = k)) as [Ek|Hne]; [|split; intros [e He]; exists e; by apply (R3 e o _ Hne)].
    destruct old as [[p v]|], new as [[q w]|]; try done; cbn in R4, R5.
    + injection R6 as -> ->. destruct R4 as [E4 M4], R5 as [E5 M5].
      split; intros Hm; [destruct (main_ids _ _ (co_index _ _ R1) o (OBJ_LINK l) q w Hm M5) as [-> ->]|destruct (main_ids _ _ (co_index _ _ Hc) o (OBJ_LINK l) q w Hm M4) as [-> ->]];
        try done; congruence.
    + split; intros Hm; [by destruct (R5 o (OBJ_LINK l) Hm)|by destruct (R4 o (OBJ_LINK l) Hm)].
Qed.

Lemma finish_update_ok s ext u k old new d pl :
  cache_ok s ext -> reported s ext u k old new -> masters_for s u d k -> delayed_ok d ->
  exists pl', finish_update u d pl = Some pl' /\ platform_ok ext pl' /\ keeps ext s (pl_index pl') /\ same_cache (updated u) (pl_index pl') /\
    use_udev (pl_cache pl') = use_udev (pl_cache pl).
Proof.
  intros Hc Hre Hd Hdok. destruct (report_change_ok s ext u k old new d Hc Hre Hd) as (d' & E & Hg & Hm). unfold finish_update. rewrite E. cbn [mbind option_bind].
  destruct (release_update_ok u ext (re_ok _ _ _ _ _ _ Hre)) as (s' & -> & Hc' & Hs' & Hk'). cbn [mbind option_bind]. eexists. split; [done|].
  split; [split; [done|by apply (same_cache_masters (updated u))|by apply (gr_ok _ _ Hg)]|]. split; [|done].
  apply (keeps_trans _ _ (updated u)); [apply Hre|done].
Qed.

(** ** The objects of messages *)

(** What the parser gives: objects of the kernel, complete. *)
Definition msg_ok (v : NMPObjectData) (lnk : option NMPObjectLnk) : Prop :=
  cacheable v /\ (forall hp, data_ok hp v) /\ (forall l, v = OBJ_LINK l -> ol_lnk l = None) /\ (forall x, lnk = Some x -> lnk_ok x).

(** The object, with its link data. *)
Definition msg_value s' (o : positive) (v w : NMPObjectData) (lnk : option NMPObjectLnk) : Prop :=
  vals (heap s') !! o = Some w /\ o ∉ idx_objs (heap s') /\ cacheable w /\
  match v, lnk with
  | OBJ_LINK l, Some lnk => exists c, w = OBJ_LINK (with_lnk (Some (mk_at c lnk)) l)
  | _, _ => w = v
  end.

Lemma new_cache_object s ext v :
  cache_ok s ext -> data_ok (heap_at (vals (heap s))) v -> (forall c, obj_holds v = Some c -> (0 < ext c)%nat) ->
  exists o s', nmp_object_new v s = (o, s') /\ cache_ok s' (add_use o (match obj_holds v with Some c => sub_use c ext | None => ext end)) /\
    same_cache s s' /\ keeps ext s s' /\ vals (heap s') = <[o := v]> (vals (heap s)) /\ o ∉ idx_objs (heap s') /\ vals (heap s) !! o = None.
Proof.
  intros Hc Hv Hx. pose proof (new_object_ok s ext v (co_index _ _ Hc) Hv Hx) as Hn. unfold nmp_object_new. destruct (obj_new v (heap s)) as [o hp].
  destruct Hn as (Hn & Hvals & Hp & Hok & Ht). exists o, (with_heap hp s). assert (same_cache s (with_heap hp s)) as Hs by by split.
  assert (Hvo : vals (heap s) !! o = None) by by rewrite vals_lookup, Hn.
  split; [done|]. split; [by apply (cache_ok_memory s _ ext)|]. split; [done|]. split; [|split; [done|split; [|done]]].
  - intros p Hxp. cbn [heap with_heap]. rewrite Hvals, Hp. split; [|done]. rewrite lookup_insert_ne; [done|]. intros <-.
    destruct (held_val s ext o (co_index _ _ Hc) Hxp) as [w Hw]. congruence.
  - cbn [heap with_heap]. rewrite Hp. intros (ob & Hob & _)%(ho_pool _ _ (ix_heap _ _ (co_index _ _ Hc))). congruence.
Qed.

Lemma message_object_ok s v lnk :
  cache_ok s (fun _ => 0%nat) -> msg_ok v lnk ->
  exists o s' w, message_object v lnk s = (o, s') /\ cache_ok s' (add_use o (fun _ => 0%nat)) /\ same_cache s s' /\ msg_value s' o v w lnk.
Proof.
  intros Hc (Hcv & Hdata & Hl & Hlnk). unfold message_object.
  assert (Hplain : obj_holds v = None -> exists o s' w, nmp_object_new v s = (o, s') /\ cache_ok s' (add_use o (fun _ => 0%nat)) /\ same_cache s s' /\
            (vals (heap s') !! o = Some w /\ o ∉ idx_objs (heap s') /\ cacheable w /\ w = v)).
  { intros Eh. destruct (new_cache_object s _ v Hc (Hdata _)) as (o & s' & E & Hc' & Hs & _ & Hv & Hp & _); [by rewrite Eh|]. rewrite Eh in Hc'.
    exists o, s', v. split_and!; [done|done|done|by rewrite Hv, lookup_insert_eq|done|done|done]. }
  destruct v as [l| | | | | | | |]; try (destruct Hplain as (o & s' & w & E & ? & ? & ? & ? & ? & ?); [done|]; exists o, s', w; by split_and!).
  destruct lnk as [x|].
  2:{ destruct Hplain as (o & s' & w & E & ? & ? & ? & ? & ? & ?); [cbn; unfold lnk_addr; by rewrite (Hl l eq_refl)|]. exists o, s', w. by split_and!. }
  destruct (new_cache_object s _ (OBJ_LNK x) Hc (Hlnk x eq_refl)) as (c & s1 & -> & Hc1 & Hs1 & _ & Hv1 & Hp1 & _); [done|]. cbn [obj_holds nmp_obj_class] in Hc1.
  set (l' := with_lnk (Some (mk_at (Zpos c) x)) l).
  assert (Hd : data_ok (heap_at (vals (heap s1))) (OBJ_LINK l')).
  { destruct (Hdata (heap_at (vals (heap s1)))) as [Hdev _]. split; [done|]. cbn. split; [|by apply Hlnk].
    unfold stored, lnk_heap. cbn [at_ptr at_obj heap_at]. by rewrite Hv1, lookup_insert_eq. }
  destruct (new_cache_object s1 _ (OBJ_LINK l') Hc1 Hd) as (o & s2 & -> & Hc2 & Hs2 & _ & Hv2 & Hp2 & _); [intros c2 [= <-]; rewrite add_use_eq; lia|].
  exists o, s2, (OBJ_LINK l'). split; [done|]. split.
  - refine (cache_ok_ext s2 _ _ _ Hc2). intros p. cbn. unfold add_use, sub_use. repeat case_decide; simplify_eq; lia.
  - split; [by etransitivity|]. split; [by rewrite Hv2, lookup_insert_eq|]. split; [done|]. split; [done|]. by exists (Zpos c).
Qed.

(** ** Events *)

Lemma event_new_ok ext o w is_dump pl :
  platform_ok ext pl -> (0 < ext o)%nat -> vals (heap (pl_index pl)) !! o = Some w -> o ∉ idx_objs (heap (pl_index pl)) -> cacheable w ->
  exists pl', event_new o is_dump pl = Some pl' /\ platform_ok ext pl'.
Proof.
  intros [Hc Hm Hd] Hx Hw Hno Hcw. unfold event_new. destruct pl as [[s use_udev] d]. cbn [pl_cache pl_index multi_idx delayed_action] in *.
  assert ((exists l, w = OBJ_LINK l) \/ plain w) as [[l ->]|Hp] by (destruct w as [l| | | | | | | |]; [left; by exists l|right; by intros ?..]).
  - destruct (toggles_ok s ext o l Hc) as (toggle & Et & _).
    destruct (link_update_ok s ext o l use_udev toggle is_dump Hc (conj Hw Hno) Hx Et) as (u & old & new & -> & [(s1 & l1 & W & Hre)] & _). cbn [mbind option_bind].
    destruct (finish_update_ok s1 ext u _ old new d {| pl_cache := {| multi_idx := s; use_udev := use_udev |}; delayed_action := d |} (wr_ok _ _ _ _ _ W) Hre) as (pl' & -> & Hpl & _);
      [by apply masters_for_all, (same_cache_masters s), Hm; apply W|done|]. by exists pl'.
  - destruct (update_netlink_ok {| multi_idx := s; use_udev := use_udev |} ext o w is_dump Hc Hw Hcw Hp) as (u & old & new & -> & Hre & _). cbn [mbind option_bind].
    destruct (finish_update_ok s ext u _ old new d {| pl_cache := {| multi_idx := s; use_udev := use_udev |}; delayed_action := d |} Hc Hre (masters_for_all _ _ _ _ Hm) Hd) as (pl' & -> & Hpl & _).
    by exists pl'.
Qed.

Lemma event_del_ok ext o w pl :
  platform_ok ext pl -> vals (heap (pl_index pl)) !! o = Some w ->
  exists pl', event_del o pl = Some pl' /\ platform_ok ext pl'.
Proof.
  intros [Hc Hm Hd] Hw. unfold event_del. destruct pl as [[s use_udev] d]. cbn [pl_cache pl_index multi_idx delayed_action] in *.
  assert (obj_at s o = Some (boxed o w)) as -> by (unfold obj_at; by rewrite Hw). cbn [mbind option_bind].
  pose proof (needle_boxed _ _ _ _ (co_index _ _ Hc) Hw) as Hx.
  destruct (object_link (boxed o w)) as [l|] eqn:El.
  - destruct (link_remove_ok s ext (boxed o w) l use_udev Hc Hx El) as (u & old & new & -> & Hre & _). cbn [mbind option_bind].
    destruct (finish_update_ok s ext u _ old new d {| pl_cache := {| multi_idx := s; use_udev := use_udev |}; delayed_action := d |} Hc Hre (masters_for_all _ _ _ _ Hm) Hd) as (pl' & -> & Hpl & _).
    by exists pl'.
  - destruct (remove_netlink_ok {| multi_idx := s; use_udev := use_udev |} ext (boxed o w) Hc Hx El) as (u & old & -> & Hre). cbn [mbind option_bind].
    destruct (finish_update_ok s ext u _ old None d {| pl_cache := {| multi_idx := s; use_udev := use_udev |}; delayed_action := d |} Hc Hre (masters_for_all _ _ _ _ Hm) Hd) as (pl' & -> & Hpl & _).
    by exists pl'.
Qed.

Lemma udev_ok ext ifindex device pl :
  platform_ok ext pl -> 0 < ifindex -> 0 <= device -> exists pl', cache_update_link_udev ifindex device pl = Some pl' /\ platform_ok ext pl'.
Proof.
  intros [Hc Hm Hd] Hi Hdev. unfold cache_update_link_udev. destruct pl as [[s use_udev] d]. cbn [pl_cache pl_index multi_idx delayed_action] in *.
  destruct (link_udev_ok s ext ifindex device use_udev Hc Hi Hdev) as (u & old & new & -> & Hre & _). cbn [mbind option_bind].
  destruct (finish_update_ok s ext u _ old new d {| pl_cache := {| multi_idx := s; use_udev := use_udev |}; delayed_action := d |} Hc Hre (masters_for_all _ _ _ _ Hm) Hd) as (pl' & -> & Hpl & _).
  by exists pl'.
Qed.

(** ** A master *)

Lemma remove_fast_elem i l : NoDup l -> i ∈ remove_index_fast l <-> i ∈ l /\ head l <> Some i.
Proof.
  destruct l as [|x l]; [cbn; split; [by intros ?%elem_of_nil|by intros [? _]]|]. intros [Hx Hl]%NoDup_cons. cbn [remove_index_fast head].
  assert (Hrev : forall y, y ∈ l <-> y ∈ rev l) by (intros y; by rewrite !list_elem_of_In, <-in_rev).
  assert (Hgo : i ∈ match rev l with [] => [] | y :: r => y :: rev r end <-> i ∈ l).
  { rewrite (Hrev i). destruct (rev l) as [|y r]; [done|]. rewrite !elem_of_cons. by rewrite !list_elem_of_In, <-in_rev. }
  rewrite Hgo, elem_of_cons. split; [intros Hi; split; [by right|intros [= ->]; by apply Hx]|]. intros [[->|?] Hne]; [by destruct Hne|done].
Qed.

Lemma remove_fast_NoDup l : NoDup l -> NoDup (remove_index_fast l).
Proof.
  destruct l as [|x l]; [done|]. intros [_ Hl]%NoDup_cons. cbn. assert (Hr : NoDup (rev l)) by (by rewrite rev_alt, <-rev_alt; apply NoDup_ListNoDup, List.NoDup_rev, NoDup_ListNoDup).
  destruct (rev l) as [|y r]; [constructor|]. apply NoDup_cons in Hr as [Hy Hr]. apply NoDup_cons. split; [by rewrite list_elem_of_In, <-in_rev, <-list_elem_of_In|].
  by apply NoDup_ListNoDup, List.NoDup_rev, NoDup_ListNoDup.
Qed.

Lemma toggled_key o p l : object_key (boxed o (OBJ_LINK l)) <> object_key (boxed p (OBJ_LINK (toggled true l))).
Proof.
  unfold object_key, object_link_key, link_key. cbn. intros E.
  assert (Z.b2z (lk_connected (ol_link l)) = Z.b2z (negb (lk_connected (ol_link l)))) as E2 by congruence.
  apply Z.b2z_inj in E2. by destruct (lk_connected (ol_link l)).
Qed.

Lemma link_id_of o l : oid o (OBJ_LINK l) = link_id (link_ifindex l).
Proof. done. Qed.

(** The master is looked at; then it is not waiting any more. *)
Lemma master_ok ext i pl :
  cache_ok (pl_index pl) ext -> masters_ok_but (pl_index pl) (delayed_action pl) (link_id i) -> delayed_ok (delayed_action pl) -> 0 < i ->
  exists pl', delayed_action_handle_MASTER_CONNECTED i pl = Some pl' /\ platform_ok ext pl'.
Proof.
  intros Hc Hm Hd Hi. unfold delayed_action_handle_MASTER_CONNECTED.
  destruct (link_master_ok (pl_index pl) ext i Hc Hi) as (u & old & new & toggle & -> & Hre & Htog & Hres). cbn [mbind option_bind].
  destruct (finish_update_ok (pl_index pl) ext u _ old new (delayed_action pl) pl Hc Hre) as (pl' & -> & Hpl & _); [|done|by exists pl'].
  split; [done|]. intros Ech o l Hin Hu. destruct (decide (oid o (OBJ_LINK l) = link_id i)) as [Ek|Hne]; [|by apply (Hm o l)]. exfalso.
  destruct Hre as [_ _ _ [R4 _] _ R6 _]. destruct (ops_type u); try done. destruct old as [[p v]|], new as [[q w]|]; try done; [|by apply (R4 o (OBJ_LINK l) Hin)].
  cbn in R6. injection R6 as <- <-. destruct R4 as [E4 M4].
  destruct (main_ids _ _ (co_index _ _ Hc) o (OBJ_LINK l) p v Hin M4) as [-> <-]; [congruence|]. cbn in Hres.
  assert (toggle = true) as -> by by apply (Htog l eq_refl). by apply (toggled_key p p l).
Qed.

Lemma waiting_master d : delayed_ok d -> Z.land (da_flags d) DELAYED_ACTION_TYPE_MASTER_CONNECTED <> 0 -> exists i, head (list_master_connected d) = Some i.
Proof.
  intros (_ & Hf & _) Hne. destruct (list_master_connected d) as [|i l] eqn:E; [|by exists i]. exfalso. unfold has_masters in Hf.
  assert (negb (Z.land (da_flags d) DELAYED_ACTION_TYPE_MASTER_CONNECTED =? 0) = false) as Hz by by apply Hf.
  apply Hne. apply negb_false_iff in Hz. by apply Z.eqb_eq.
Qed.

Lemma flag_cleared f : Z.land (Z.land f (Z.lnot DELAYED_ACTION_TYPE_MASTER_CONNECTED)) DELAYED_ACTION_TYPE_MASTER_CONNECTED = 0.
Proof. rewrite <-Z.land_assoc. replace (Z.land (Z.lnot DELAYED_ACTION_TYPE_MASTER_CONNECTED) DELAYED_ACTION_TYPE_MASTER_CONNECTED) with 0 by by vm_compute. apply Z.land_0_r. Qed.

Lemma handle_one_ok ext pl :
  platform_ok ext pl ->
  exists b pl', delayed_action_handle_one pl = Some (b, pl') /\ platform_ok ext pl' /\
    (b = false -> list_master_connected (delayed_action pl) = []).
Proof.
  intros [Hc Hm Hd]. unfold delayed_action_handle_one.
  destruct (Z.eqb_spec (Z.land (da_flags (delayed_action pl)) DELAYED_ACTION_TYPE_MASTER_CONNECTED) 0) as [Ez|Hne].
  { exists false, pl. split; [done|]. split; [done|]. intros _. apply Hd. unfold has_masters. by rewrite Ez. }
  destruct (waiting_master _ Hd Hne) as [i Ei]. rewrite Ei. cbn [mbind option_bind].
  set (l := remove_index_fast (list_master_connected (delayed_action pl))).
  match goal with |- context [delayed_action_handle_MASTER_CONNECTED i ?p] => set (pl1 := p) end.
  destruct Hd as (Hnd & Hf & Hpos).
  destruct (master_ok ext i pl1) as (pl' & -> & Hpl); [done| | | |cbn [mbind option_bind]; by exists true, pl'].
  - intros o m Hin Hk Hu. cbn. apply remove_fast_elem; [done|]. split; [by apply (Hm o m)|]. rewrite Ei. intros [= ->]. by apply Hk.
  - unfold delayed_ok. cbn [pl1 delayed_action list_master_connected]. split; [by apply remove_fast_NoDup|].
    split; [|by intros j [Hj _]%remove_fast_elem; [apply Hpos|]]. unfold has_masters. cbn [da_flags]. fold l. case_bool_decide as El.
    + rewrite El. split; [done|]. intros _. apply negb_false_iff, Z.eqb_eq, flag_cleared.
    + split; [|done]. intros Ez. apply negb_false_iff, Z.eqb_eq in Ez. done.
  - apply Hpos. destruct (list_master_connected (delayed_action pl)); [done|]. injection Ei as ->. left.
Qed.
End run.
