(* ===== verification/NmpCacheMsg.v ===== *)
(** * Platform events: messages about routes, whole messages, dumps *)

From S2P Require Export NmpCacheRun.

Section msg.
Context `{ByteOrder} `{KernelSupport} `{SipHash} `{LinkDriver}.
Implicit Types (s : Index) (ext : positive -> nat) (d : Delayed) (pl : Platform).

Abbreviation WEAK := NMP_CACHE_ID_TYPE_ROUTES_BY_WEAK_ID.

(** ** Removing an object that the caller has *)

Lemma lookup_main_at s ext o v :
  index_ok s ext -> in_main s o v -> exists e, _lookup_entry s (boxed o v) = Some e /\ main s e o v.
Proof.
  intros Hok Hm. destruct (in_main_pool s ext o v Hok Hm) as (_ & Hv & _).
  pose proof (lookup_main s ext _ Hok (needle_boxed _ _ _ _ Hok Hv)) as Hl. destruct (_lookup_entry s (boxed o v)) as [e|].
  - destruct Hl as (p & w & Hmp & Eid). exists e. split; [done|].
    destruct (main_ids s ext Hok p w o v) as [-> ->]; [by exists e|done|exact Eid|done].
  - destruct Hm as [e He]. by destruct (Hl e o v He).
Qed.

Lemma remove_marked_ok s ext e o v :
  cache_ok s ext -> main s e o v -> dirty_of s e = Some true ->
  exists u, nmp_cache_remove s (boxed o v) true true = Some u /\ reported s ext u (oid o v) (Some (o, v)) None.
Proof.
  intros Hc Hm Hd. destruct (main_val s ext e o v (co_index _ _ Hc) Hm) as (Hv & _ & _).
  destruct (remove_ok s ext (boxed o v) true true Hc (needle_boxed _ _ _ _ (co_index _ _ Hc) Hv)) as (u & E & Hu). exists u. split; [done|].
  destruct (lookup_main_at s ext o v (co_index _ _ Hc)) as (e2 & El & Hm2); [by exists e|]. rewrite El in Hu.
  assert (e2 = e) as -> by by apply (main_unique s ext e2 e o o v v); [apply Hc|..].
  destruct Hu as (p & w & Hmp & _ & Hu). destruct (main_fun _ _ _ _ _ _ Hm Hmp) as [<- <-].
  rewrite (bool_decide_eq_true_2 _ Hd) in Hu. cbn [boxed at_ptr negb andb orb] in Hu. by rewrite Z.eqb_refl in Hu.
Qed.

Lemma removed_changed s ext u k x : reported s ext u k (Some x) None -> ops_type u = NMP_CACHE_OPS_REMOVED.
Proof. intros Hre. pose proof (re_ops _ _ _ _ _ _ Hre) as Ho. by destruct (ops_type u). Qed.

(** The route that was replaced goes, and the reference of the caller. *)
Lemma remove_replaced_ok s ext d e o v :
  cache_ok s (add_use o ext) -> main s e o v -> dirty_of s e = Some true -> masters_ok s d ->
  exists s' d', remove_replaced (Some o) true s d = Some (s', d') /\ cache_ok s' ext /\ grows d d' /\ masters_ok s' d' /\
    others_stay s s' (oid o v) /\ has s' (oid o v) None /\ keeps ext s s'.
Proof.
  intros Hc Hm Hd Hmd. destruct (main_val s _ e o v (co_index _ _ Hc) Hm) as (Hv & _ & _). unfold remove_replaced.
  assert (obj_at s o = Some (boxed o v)) as -> by (unfold obj_at; by rewrite Hv). cbn [mbind option_bind].
  destruct (remove_marked_ok s _ e o v Hc Hm Hd) as (u & -> & Hre). cbn [mbind option_bind]. rewrite (removed_changed _ _ _ _ _ Hre). cbn [changed_ops].
  pose proof Hre as [R1 R2 R3 [R4 R4'] [R5 R5'] R6 R7]. rewrite (removed_changed _ _ _ _ _ Hre) in R6.
  destruct (cache_on_change_ok s (updated u) _ _ _ NMP_CACHE_OPS_REMOVED _ _ d Hc R1 (others_stay_in _ _ _ R3) R4 R5 R7 R6 eq_refl (masters_but _ _ _ Hmd)) as (d' & Ed & Hg & Hmd').
  change (at_addr <$> Some (o, v)) with (Some (boxed o v)) in Ed. change (at_addr <$> None) with (@None NMPObject) in Ed. rewrite Ed. cbn [mbind option_bind].
  unfold returned in R1. rewrite R5' in R1. cbn [fmap option_fmap option_map with_ref] in R1.
  destruct (release_ok (updated u) (add_use o ext) (out_old u) R1) as (s1 & -> & Hc1 & Hs1 & Hk1). cbn [mbind option_bind].
  destruct (release_ok s1 ext (Some o) Hc1) as (s2 & E2 & Hc2 & Hs2 & Hk2). cbn [unref_opt] in E2. rewrite E2. cbn [mbind option_bind].
  assert (same_cache (updated u) s2) as Hs by by etransitivity.
  exists s2, d'. split_and!; [done|done|done|by apply (same_cache_masters (updated u))| | |].
  - by apply (others_stay_trans _ (updated u)), same_cache_others.
  - apply (same_has (updated u) s2 _ None); [|done]. intros. by apply same_cache_main.
  - apply (keeps_trans _ _ s1); [|done]. apply (keeps_mono _ (add_use o ext)); [apply add_use_le|]. by apply (keeps_trans _ _ (updated u)).
Qed.

(** ** Messages about routes *)

Lemma replaced_main s ext fl o v p resync :
  cache_ok s ext -> route_ordered s fl o v (Some p) resync -> exists e z, main s e p z /\ is_route z.
Proof.
  intros Hc (e & h & l & rep & Ht & Hl & Ho & Hr). destruct rep as [r|]; [|done]. destruct Hr as (q & z & Hr & [= <-]).
  destruct (proj1 (co_synced _ _ Hc WEAK ltac:(done) p z)) as [[e2 Hm] [Hin _]]; [by exists r, h|]. exists e2, z. split; [done|].
  destruct z; try done; cbn in Hin; set_solver.
Qed.

Lemma route_plain v : is_route v -> plain v.
Proof. intros Hr l ->. done. Qed.

(** What the caller has after the mark of the route that was replaced. *)
Record marked_route s1 ext (u : Updated) (rep : option positive) (only_dirty : bool) : Prop := {
  mk_ok : cache_ok s1 (with_ref rep (returned u ext));
  mk_heap : heap s1 = heap (updated u);
  mk_main e o v : main s1 e o v <-> main (updated u) e o v;
  mk_none : rep = None -> s1 = updated u;
  mk_replaced p : rep = Some p -> only_dirty = true /\ exists e z, main s1 e p z /\ dirty_of s1 e = Some true /\ is_route z
}.

Lemma mark_replaced_ok s ext r n w is_dump fl old new :
  route_reported s ext r n w is_dump fl old new ->
  exists b s1,
    (if changed_ops (ops_type (route_updated r)) then
       match obj_replace r with
       | Some p =>
           x ← obj_at (updated (route_updated r)) p;
           entry_replace ← nmp_cache_lookup_entry (updated (route_updated r)) x;
           Some (true, nm_dedup_multi_entry_set_dirty entry_replace true (updated (route_updated r)))
       | None => Some (false, updated (route_updated r))
       end
     else Some (false, updated (route_updated r))) = Some (b, s1) /\ marked_route s1 ext (route_updated r) (obj_replace r) b.
Proof.
  intros [R1 R2 R3 R4 R5 R6 R7 R8 R9]. set (u := route_updated r) in *.
  assert (Hsame : obj_replace r = None -> marked_route (updated u) ext u (obj_replace r) false) by (intros E; by split; rewrite ?E in *).
  destruct (obj_replace r) as [p|] eqn:Ep; [|exists false, (updated u); split; [by destruct (changed_ops _)|by apply Hsame]].
  assert (exists e z, main (updated u) e p z /\ is_route z /\ changed_ops (ops_type u) = true) as (e & z & Hm & Hz & ->).
  { destruct (ops_type u), new as [[n' w']|]; try (by destruct R9 as (_ & ? & _)); destruct is_dump; try (by destruct R9 as (_ & ? & _));
      destruct R9 as [_ Ho]; destruct (replaced_main _ _ _ _ _ _ _ R1 Ho) as (e & z & Hm & Hz); by exists e, z. }
  destruct (main_val _ _ e p z (co_index _ _ R1) Hm) as (Hv & _ & _).
  assert (obj_at (updated u) p = Some (boxed p z)) as -> by (unfold obj_at; by rewrite Hv). cbn [mbind option_bind].
  destruct (lookup_main_at (updated u) _ p z (co_index _ _ R1)) as (e2 & El & Hm2); [by exists e|]. unfold nmp_cache_lookup_entry. rewrite El. cbn [mbind option_bind].
  destruct (set_dirty_cache (updated u) _ e2 true R1) as (Hc' & Hh & Hmain & Hd). eexists true, _. split; [done|]. split; [done|done|done|done|].
  intros ? [= <-]. split; [done|]. exists e2, z. split; [by apply Hmain|]. split; [|done]. rewrite Hd, decide_True by done.
  destruct Hm2 as (h & en & hd & He & _). unfold dirty_of. by rewrite He.
Qed.

Lemma marked_in_main s1 ext u rep b o v : marked_route s1 ext u rep b -> in_main s1 o v <-> in_main (updated u) o v.
Proof. intros Hm. split; intros [e He]; exists e; by apply (mk_main _ _ _ _ _ Hm). Qed.

Lemma marked_has s1 ext u rep b k x : marked_route s1 ext u rep b -> has (updated u) k x -> has s1 k x.
Proof. intros Hm. apply same_has. apply Hm. Qed.

(** Where something changed, the caller has the object of the cache. *)
Lemma route_out_new s ext r n w is_dump fl old new :
  route_reported s ext r n w is_dump fl old new -> changed_ops (ops_type (route_updated r)) = true -> out_new (route_updated r) = fst <$> new.
Proof.
  intros [R1 R2 R3 R4 R5 R6 R7 R8 R9] Hch. destruct (ops_type (route_updated r)); try done; destruct old as [[]|], new as [[]|]; try done; apply R9.
Qed.

Lemma route_change_ok s ext r n w is_dump fl old new s1 b d :
  cache_ok s ext -> is_route w -> route_reported s ext r n w is_dump fl old new -> marked_route s1 ext (route_updated r) (obj_replace r) b -> masters_ok s d ->
  exists d', report_change {| ops_type := ops_type (route_updated r); out_old := out_old (route_updated r); out_new := out_new (route_updated r); updated := s1 |} d = Some d' /\
    grows d d' /\ masters_ok s1 d'.
Proof.
  intros Hc Hw Hre Hm Hd. pose proof Hre as [R1 R2 R3 [R4 R4'] R5 R6 R7 R8 R9]. set (u := route_updated r) in *.
  assert (Hoth : others_in s s1 (oid n w)).
  { intros o v Hne. rewrite (marked_in_main _ _ _ _ _ o v Hm). by apply (others_stay_in _ _ _ R3). }
  pose proof (marked_has _ _ _ _ _ _ _ Hm R5) as Hnew. unfold report_change. cbn [ops_type out_old out_new updated].
  destruct (changed_ops (ops_type u)) eqn:Ech.
  - pose proof (route_out_new _ _ _ _ _ _ _ _ _ Hre Ech) as Eo. fold u in Eo. rewrite R4', Eo. rewrite (opt_obj_at_Some s1 old) by (rewrite (mk_heap _ _ _ _ _ Hm); exact R7). cbn [mbind option_bind].
    rewrite (opt_obj_at_Some s1 new) by (intros o v ->; apply (in_main_pool s1 _ o v (co_index _ _ (mk_ok _ _ _ _ _ Hm))), Hnew). cbn [mbind option_bind].
    apply (cache_on_change_ok s s1 ext _ (oid n w) (ops_type u) old new d Hc (mk_ok _ _ _ _ _ Hm) Hoth R4 Hnew); [|done|done|by apply masters_but].
    rewrite (mk_heap _ _ _ _ _ Hm). exact R7.
  - exists d. split; [done|]. split; [done|]. apply (links_same_masters s); [|done].
    by apply (other_kind_links s s1 (oid n w) n w eq_refl (route_plain w Hw) (route_cacheable w Hw)).
Qed.

Lemma replaced_gone_ok s1 ext u rep b d :
  marked_route s1 ext u rep b -> masters_ok s1 d ->
  exists s2 d', remove_replaced rep b s1 d = Some (s2, d') /\ cache_ok s2 (returned u ext) /\ grows d d' /\ masters_ok s2 d' /\ keeps (returned u ext) s1 s2 /\
    (rep = None -> s2 = s1).
Proof.
  intros Hm Hd. destruct rep as [p|].
  - destruct (mk_replaced _ _ _ _ _ Hm p eq_refl) as (-> & e & z & He & Hdirty & _).
    destruct (remove_replaced_ok s1 (returned u ext) d e p z (mk_ok _ _ _ _ _ Hm) He Hdirty Hd) as (s2 & d' & ? & ? & ? & ? & _ & _ & ?). exists s2, d'. by split_and!.
  - exists s1, d. split_and!; [done|apply Hm|done|done|apply keeps_refl|done].
Qed.

Lemma refresh_flag x : Z.land (delayed_action_refresh_from_needle_object x) DELAYED_ACTION_TYPE_MASTER_CONNECTED = 0.
Proof. unfold delayed_action_refresh_from_needle_object. destruct (refresh_all_type_from_needle_object x) as [t|]; [by destruct t|done]. Qed.

Lemma with_ref_le o ext p : (ext p <= with_ref o ext p)%nat.
Proof. destruct o; [apply add_use_le|done]. Qed.

Lemma event_newroute_ok ext o w is_dump fl pl :
  platform_ok ext pl -> (0 < ext o)%nat -> vals (heap (pl_index pl)) !! o = Some w -> is_route w ->
  exists pl' r old new, event_newroute o is_dump fl pl = Some pl' /\ platform_ok ext pl' /\
    route_reported (pl_index pl) ext r o w is_dump fl old new /\
    (obj_replace r = None -> same_cache (updated (route_updated r)) (pl_index pl')).
Proof.
  intros [Hc Hm Hd] Hx Hv Hw. unfold event_newroute. set (s := pl_index pl) in *.
  destruct (update_netlink_route_ok s ext o w is_dump fl Hc Hv Hw Hx) as (r & old & new & -> & Hre). cbn [mbind option_bind].
  destruct (mark_replaced_ok _ _ _ _ _ _ _ _ _ Hre) as (b & s1 & -> & Hmk). cbn [mbind option_bind].
  destruct (route_change_ok _ _ _ _ _ _ _ _ _ s1 b (delayed_action pl) Hc Hw Hre Hmk Hm) as (d1 & -> & G1 & M1). cbn [mbind option_bind].
  destruct (replaced_gone_ok s1 ext _ _ _ d1 Hmk M1) as (s2 & d2 & -> & Hc2 & G2 & M2 & K2 & N2). cbn [mbind option_bind].
  assert (Hv2 : vals (heap s2) !! o = Some w).
  { rewrite (proj1 (K2 o ltac:(unfold returned; pose proof (with_ref_le (out_new (route_updated r)) ext o);
      pose proof (with_ref_le (out_old (route_updated r)) (with_ref (out_new (route_updated r)) ext) o); lia))).
    rewrite (mk_heap _ _ _ _ _ Hmk), (proj1 (rr_keeps _ _ _ _ _ _ _ _ _ Hre o Hx)). done. }
  assert (obj_at s2 o = Some (boxed o w)) as -> by (unfold obj_at; by rewrite Hv2). cbn [mbind option_bind]. cbv zeta.
  match goal with |- context [with_pl _ ?x _] => set (d3 := x) end.
  assert (G3 : grows d2 d3) by (unfold d3; destruct (resync_required r); [apply schedule_grows; left; apply refresh_flag|done]).
  cbn [ops_type out_old out_new].
  destruct (release_update_ok {| ops_type := ops_type (route_updated r); out_old := out_old (route_updated r); out_new := out_new (route_updated r); updated := s2 |} ext)
    as (s3 & -> & Hc3 & Hs3 & _); [exact Hc2|]. cbn [mbind option_bind]. cbn [updated] in Hs3. eexists _, r, old, new. split; [done|].
  split; [|split; [done|intros E; by rewrite <-(mk_none _ _ _ _ _ Hmk E), <-(N2 E)]].
  split; cbn [with_pl pl_index pl_cache delayed_action multi_idx with_idx].
  - exact Hc3.
  - apply (same_cache_masters s2 s3 _ Hs3). by apply (grows_masters s2 d2).
  - by apply (gr_ok _ _ G3), (gr_ok _ _ G2), (gr_ok _ _ G1).
Qed.

(** ** Messages *)

(** The objects that messages of a type are about. *)
Definition type_ok (type : MsgType) (v : NMPObjectData) : Prop :=
  match type with RTM_NEWROUTE _ => is_route v | _ => True end.

Lemma with_heap_platform s' ext ext' pl :
  platform_ok ext pl -> cache_ok s' ext' -> same_cache (pl_index pl) s' -> platform_ok ext' (with_pl s' (delayed_action pl) pl).
Proof. intros [Hc Hm Hd] Hc' Hs. split; [done|by apply (same_cache_masters (pl_index pl))|done]. Qed.

(** The object of the message is released at the end. *)
Lemma release_message_ok ext o pl :
  platform_ok (add_use o ext) pl ->
  exists s', nmp_object_unref o (pl_index pl) = Some s' /\ platform_ok ext (with_pl s' (delayed_action pl) pl) /\ same_cache (pl_index pl) s'.
Proof.
  intros Hpl. destruct (release_ok (pl_index pl) ext (Some o) (po_cache _ _ Hpl)) as (s' & E & Hc' & Hs & _). exists s'.
  split; [exact E|]. split; [|done]. by apply (with_heap_platform s' (add_use o ext)).
Qed.

Definition nobody : positive -> nat := fun _ => 0%nat.

Lemma message_platform_ok pl v lnk :
  platform_ok nobody pl -> msg_ok v lnk ->
  exists o s' w, message_object v lnk (pl_index pl) = (o, s') /\ platform_ok (add_use o nobody) (with_pl s' (delayed_action pl) pl) /\
    same_cache (pl_index pl) s' /\ msg_value s' o v w lnk.
Proof.
  intros Hpl Hv. destruct (message_object_ok (pl_index pl) v lnk (po_cache _ _ Hpl) Hv) as (o & s' & w & E & Hc & Hs & Hw).
  exists o, s', w. split; [done|]. split; [|done]. by apply (with_heap_platform s' nobody).
Qed.

Lemma event_valid_msg_ok type v lnk is_dump pl :
  platform_ok nobody pl -> msg_ok v lnk -> type_ok type v ->
  exists pl', event_valid_msg type v lnk is_dump pl = Some pl' /\ platform_ok nobody pl'.
Proof.
  intros Hpl Hv Ht. destruct (message_platform_ok pl v lnk Hpl Hv) as (o & s' & w & E & Hpl1 & _ & Hw & Hno & Hcw & Hval).
  unfold event_valid_msg. rewrite E. set (pl1 := with_pl s' (delayed_action pl) pl) in *.
  assert (Hx : (0 < add_use o nobody o)%nat) by (rewrite add_use_eq; lia).
  assert (exists pl2, match type with RTM_NEW => event_new o is_dump pl1 | RTM_NEWROUTE fl => event_newroute o is_dump fl pl1 | RTM_DEL => event_del o pl1 end = Some pl2 /\
    platform_ok (add_use o nobody) pl2) as (pl2 & -> & Hpl2).
  { destruct type as [|fl|].
    - by apply (event_new_ok _ o w is_dump pl1 Hpl1 Hx Hw Hno Hcw).
    - assert (is_route w) as Hr by (destruct v; try done; cbn in Hval; by subst w).
      destruct (event_newroute_ok _ o w is_dump fl pl1 Hpl1 Hx Hw Hr) as (pl2 & _ & _ & _ & ? & ? & _). by exists pl2.
    - by apply (event_del_ok _ o w pl1 Hpl1 Hw). }
  cbn [mbind option_bind]. destruct (release_message_ok nobody o pl2 Hpl2) as (s3 & -> & Hpl3 & _). cbn [mbind option_bind]. by eexists.
Qed.

(** ** Dumped objects *)

(** The cache has the object that was dumped, unmarked; the others are as before. *)
Record delivered s s' (n : positive) (w : NMPObjectData) : Prop := {
  dl_others : others_stay s s' (oid n w);
  dl_object : if nmp_object_is_alive (boxed n w) then exists y, has s' (oid n w) (Some y) /\ same_object y (n, w) /\ unmarked s' (oid n w)
              else has s' (oid n w) None
}.

Lemma delivered_same s0 s s' s1 n w : same_cache s0 s -> same_cache s' s1 -> delivered s s' n w -> delivered s0 s1 n w.
Proof.
  intros Hs0 Hs1 [Ho Hd]. split.
  - apply (others_stay_trans _ s); [by apply same_cache_others|]. by apply (others_stay_trans _ s'), same_cache_others.
  - assert (Hh : forall y, has s' (oid n w) y -> has s1 (oid n w) y) by (intros y; apply same_has; intros; by apply same_cache_main).
    destruct (nmp_object_is_alive (boxed n w)); [|by apply Hh]. destruct Hd as (y & ? & ? & ?). exists y.
    split_and!; [by apply Hh|done|by apply (same_cache_unmarked s')].
Qed.

Lemma delivered_follows s u n w new : others_stay s (updated u) (oid n w) -> has (updated u) (oid n w) new -> follows u n w new -> delivered s (updated u) n w.
Proof.
  intros Ho Hh Hf. split; [done|]. unfold follows in Hf. destruct (nmp_object_is_alive (boxed n w)); [|by subst new].
  destruct Hf as (y & -> & ? & ?). by exists y.
Qed.

Definition dump_type (v : NMPObjectData) (nlmsg_flags : Z) : MsgType :=
  match v with OBJ_IP4_ROUTE _ | OBJ_IP6_ROUTE _ => RTM_NEWROUTE nlmsg_flags | _ => RTM_NEW end.

Lemma event_new_plain_ok ext o w is_dump pl :
  platform_ok ext pl -> vals (heap (pl_index pl)) !! o = Some w -> cacheable w -> plain w ->
  exists pl', event_new o is_dump pl = Some pl' /\ platform_ok ext pl' /\ delivered (pl_index pl) (pl_index pl') o w.
Proof.
  intros [Hc Hm Hd] Hw Hcw Hp. unfold event_new. destruct pl as [[s use_udev] d]. cbn [pl_cache pl_index multi_idx delayed_action] in *.
  destruct (update_netlink_ok {| multi_idx := s; use_udev := use_udev |} ext o w is_dump Hc Hw Hcw Hp) as (u & old & new & -> & Hre & Hf). cbn [mbind option_bind].
  destruct (finish_update_ok s ext u _ old new d {| pl_cache := {| multi_idx := s; use_udev := use_udev |}; delayed_action := d |} Hc Hre (masters_for_all _ _ _ _ Hm) Hd) as (pl' & -> & Hpl & _ & Hs & _).
  exists pl'. split; [done|]. split; [done|]. apply (delivered_same s s (updated u)); [done|done|]. destruct Hre as [_ _ R3 _ [R5 _] _ _].
  by apply (delivered_follows s u o w new).
Qed.

Lemma event_newroute_dump_ok ext o w fl pl :
  platform_ok ext pl -> (0 < ext o)%nat -> vals (heap (pl_index pl)) !! o = Some w -> is_route w ->
  exists pl', event_newroute o true fl pl = Some pl' /\ platform_ok ext pl' /\ delivered (pl_index pl) (pl_index pl') o w.
Proof.
  intros Hpl Hx Hw Hr. destruct (event_newroute_ok ext o w true fl pl Hpl Hx Hw Hr) as (pl' & r & old & new & E & Hpl' & Hre & Hs).
  exists pl'. split; [done|]. split; [done|]. destruct Hre as [R1 R2 R3 R4 R5 R6 R7 R8 R9].
  assert (Hnone : obj_replace r = None) by (destruct (ops_type (route_updated r)), new as [[]|]; try (by destruct R9 as (_ & ? & _)); by destruct R9 as (_ & ?)).
  apply (delivered_same _ (pl_index pl) (updated (route_updated r))); [done|by apply Hs|]. by apply (delivered_follows _ _ o w new).
Qed.

(** A message of a dump about an object that is not a link. *)
Lemma dump_message_ok v fl pl :
  platform_ok nobody pl -> msg_ok v None -> plain v ->
  exists pl' o, event_valid_msg (dump_type v fl) v None true pl = Some pl' /\ platform_ok nobody pl' /\ delivered (pl_index pl) (pl_index pl') o v.
Proof.
  intros Hpl Hv Hp. destruct (message_platform_ok pl v None Hpl Hv) as (o & s' & w & E & Hpl1 & Hs1 & Hw & Hno & Hcw & Hval).
  assert (w = v) as -> by by destruct v. clear Hval. unfold event_valid_msg. rewrite E. set (pl1 := with_pl s' (delayed_action pl) pl) in *.
  assert (exists pl2, match dump_type v fl with RTM_NEW => event_new o true pl1 | RTM_NEWROUTE fl => event_newroute o true fl pl1 | RTM_DEL => event_del o pl1 end = Some pl2 /\
    platform_ok (add_use o nobody) pl2 /\ delivered (pl_index pl1) (pl_index pl2) o v) as (pl2 & -> & Hpl2 & Hd).
  { assert (Hx : (0 < add_use o nobody o)%nat) by (rewrite add_use_eq; lia).
    destruct v; try (by apply (event_new_plain_ok _ o _ true pl1 Hpl1 Hw Hcw Hp)); by apply (event_newroute_dump_ok _ o _ fl pl1 Hpl1 Hx Hw). }
  cbn [mbind option_bind]. destruct (release_message_ok nobody o pl2 Hpl2) as (s3 & -> & Hpl3 & Hs3). cbn [mbind option_bind].
  eexists _, o. split; [done|]. split; [done|]. by apply (delivered_same _ (pl_index pl1) (pl_index pl2)).
Qed.
End msg.
