(* ===== verification/NmpCacheDump.v ===== *)
(** * Platform events: dumps

    A refresh marks the objects of a type, the messages of the dump unmark those that
    the kernel has, and what is still marked is removed.  Then the cache has what the
    kernel dumped. *)

From S2P Require Export NmpCacheMsg.

Section dump.
Context `{ByteOrder} `{KernelSupport} `{SipHash} `{LinkDriver}.
Implicit Types (s : Index) (ext : positive -> nat) (d : Delayed) (pl : Platform).

(** ** The entries of a lookup *)

Lemma handle_object s ext e t h o v :
  cache_ok s ext -> tracked s e t h o v ->
  in_main s o v /\ nmp_object_is_alive (boxed o v) = true /\ cacheable v /\ t ∈ supported_cache_ids v.
Proof.
  intros Hc Ht. assert (in_main s o v /\ (t <> OT -> t ∈ supported_cache_ids v)) as [[em Hm] Hsup].
  { destruct (decide (t = OT)) as [->|Hne]; [split; [by exists e, h|done]|].
    destruct (proj1 (co_synced _ _ Hc t Hne o v)) as [Hm [Hin _]]; [by exists e, h|by split]. }
  destruct (main_val s ext em o v (co_index _ _ Hc) Hm) as (_ & _ & Hcv). split; [by exists em|]. split; [by apply (co_alive _ _ Hc em)|].
  split; [done|]. destruct (decide (t = OT)) as [->|Hne]; [destruct v; try done; cbn; set_solver|by apply Hsup].
Qed.

Lemma lookup_entries_ok s ext sel :
  cache_ok s ext -> selector_ok sel ->
  exists es, lookup_entries s (selector_lookup sel) = Some es /\ NoDup es /\
    forall e, e ∈ es <-> exists h o v, tracked s e (lookup_id sel) h o v /\ selects sel v.
Proof.
  intros Hc Hsel. pose proof (co_index _ _ Hc) as Hok. unfold lookup_entries, nmp_cache_lookup, nmp_cache_lookup_all, nm_dedup_multi_index_lookup_head.
  set (x := selector_obj (selector_lookup sel)). change (cache_id_type (selector_lookup sel)) with (lookup_id sel).
  assert (Hpart : forall e h o v, tracked s e (lookup_id sel) h o v -> NmpObject.part_key (lookup_id sel) (boxed o v) = NmpObject.part_key (lookup_id sel) x <-> selects sel v).
  { intros e h o v Ht. destruct (handle_object s ext e _ h o v Hc Ht) as (_ & Ha & Hcv & Hsup). rewrite <-(selects_part sel o v Hsel Ha Hcv). by split; [|intros []]. }
  destruct (_entry_lookup_head s (lookup_id sel) (Some x)) as [h|] eqn:El.
  - apply (lookup_head_spec s ext _ x h Hok (selector_needle s sel)) in El as (e0 & o0 & v0 & Ht0 & Ep0).
    pose proof Ht0 as (en0 & hd & _ & _ & _ & Hhd & Et & _). rewrite Hhd. cbn [mbind option_bind].
    destruct (tracked_member s ext _ _ _ _ _ hd Hok Ht0 Hhd) as (_ & Hnd & _). exists (lst_entries_head hd). split; [done|]. split; [done|].
    intros e. split.
    + intros He. destruct (head_tracked s ext h hd e Hok Hhd He) as (en & v & _ & _ & Ht). rewrite Et in Ht. exists h, (en_obj en), v. split; [done|].
      apply (Hpart e h _ v Ht). transitivity (NmpObject.part_key (lookup_id sel) (boxed o0 v0)); [|exact Ep0]. by apply (ix_same _ _ Hok _ _ _ _ _ _ _ _ _ Ht Ht0).
    + intros (h2 & o & v & Ht & Hs). apply (Hpart e h2 o v Ht) in Hs.
      assert (h2 = h) as -> by (apply (ix_same _ _ Hok _ _ _ _ _ _ _ _ _ Ht Ht0); etransitivity; [exact Hs|by symmetry]).
      by apply (tracked_member s ext e _ h o v hd Hok Ht Hhd).
  - exists []. split; [done|]. split; [constructor|]. intros e. split; [by intros ?%elem_of_nil|]. intros (h & o & v & Ht & Hs).
    assert (_entry_lookup_head s (lookup_id sel) (Some x) = Some h); [|congruence].
    apply (lookup_head_spec s ext _ x h Hok (selector_needle s sel)). exists e, o, v. split; [done|]. by apply (Hpart e h o v Ht).
Qed.

(** Each main entry of an object that is selected has one. *)
Lemma selected_entry s ext sel e o v :
  cache_ok s ext -> selector_ok sel -> main s e o v -> selects sel v -> exists e2 h, tracked s e2 (lookup_id sel) h o v.
Proof.
  intros Hc Hsel Hm Hs. destruct (decide (lookup_id sel = OT)) as [->|Hne]; [destruct Hm as [h Ht]; by exists e, h|].
  destruct (main_val s ext e o v (co_index _ _ Hc) Hm) as (_ & _ & Hcv).
  destruct (proj2 (selects_part sel o v Hsel (co_alive _ _ Hc e o v Hm) Hcv) Hs) as [Hsup Ep].
  apply (co_synced _ _ Hc _ Hne). split; [by exists e|]. split; [done|]. rewrite Ep. by apply selector_part_some.
Qed.

(** ** Marking *)

Lemma reresolve_ok s ext sel e h o v :
  cache_ok s ext -> tracked s e (lookup_id sel) h o v ->
  exists m, nmp_cache_reresolve_main_entry s e (selector_lookup sel) = Some m /\ main s m o v.
Proof.
  intros Hc Ht. unfold nmp_cache_reresolve_main_entry. change (cache_id_type (selector_lookup sel)) with (lookup_id sel). case_bool_decide as Et.
  - exists e. split; [done|]. rewrite Et in Ht. by exists h.
  - destruct (handle_object s ext e _ h o v Hc Ht) as (Hm & _). destruct (lookup_main_at s ext o v (co_index _ _ Hc) Hm) as (m & El & Hmm).
    exists m. split; [|done]. pose proof Ht as (en & hd & He & Eo & _). rewrite He. cbn [mbind option_bind].
    rewrite Eo, (tracked_at _ _ _ _ _ _ Ht). cbn [mbind option_bind]. exact El.
Qed.

(** Objects that entries of a list stand for. *)
Definition listed s sel (es : list positive) (o : positive) (v : NMPObjectData) : Prop := exists e h, e ∈ es /\ tracked s e (lookup_id sel) h o v.

Lemma dirty_main_ok s ext sel es :
  cache_ok s ext -> (forall e, e ∈ es -> exists h o v, tracked s e (lookup_id sel) h o v) ->
  exists s', dirty_main (selector_lookup sel) es s = Some s' /\ cache_ok s' ext /\ heap s' = heap s /\
    (forall e i h o v, tracked s e i h o v <-> tracked s' e i h o v) /\
    forall e o v, main s e o v -> (listed s sel es o v -> dirty_of s' e = Some true) /\ (~ listed s sel es o v -> dirty_of s' e = dirty_of s e).
Proof.
  revert s. induction es as [|e es IH]; intros s Hc Hes.
  { exists s. split_and!; [done|done|done|done|]. intros e o v _. split; [by intros (? & ? & ?%elem_of_nil & _)|done]. }
  destruct (Hes e) as (h & o & v & Ht); [left|]. destruct (reresolve_ok s ext sel e h o v Hc Ht) as (m & Em & Hm).
  cbn [dirty_main]. rewrite Em. cbn [mbind option_bind]. set (s1 := nm_dedup_multi_entry_set_dirty m true s).
  destruct (set_dirty_ok s ext m true (co_index _ _ Hc)) as (Hok1 & Hh1 & Ht1 & _ & _ & Hd1). fold s1 in Hok1, Hh1, Ht1, Hd1.
  assert (Hc1 : cache_ok s1 ext) by by apply (cache_ok_same s _ ext).
  assert (Hlist : forall p w, listed s1 sel es p w <-> listed s sel es p w) by (intros p w; split; intros (e2 & h2 & ? & ?); exists e2, h2; (split; [done|by apply Ht1])).
  destruct (IH s1 Hc1) as (s' & E & Hc' & Hh' & Ht' & Hd').
  { intros e2 He2. destruct (Hes e2) as (h2 & o2 & v2 & ?); [by right|]. exists h2, o2, v2. by apply Ht1. }
  exists s'. split; [done|]. split; [done|]. split; [congruence|]. split; [intros; by rewrite Ht1|].
  assert (Hdm : dirty_of s1 m = Some true).
  { rewrite Hd1, decide_True by done. destruct Hm as (hm & en & hd & He & _). unfold dirty_of. by rewrite He. }
  intros e2 p w Hm2. assert (main s1 e2 p w) as Hm1 by by apply (same_tracked_main s s1 Ht1). destruct (Hd' e2 p w Hm1) as [Hd2 Hd3]. rewrite Hlist in Hd2, Hd3.
  split.
  - intros (e3 & h3 & [->|He3]%elem_of_cons & Ht3); [|by apply Hd2; exists e3, h3].
    destruct (tracked_fun _ _ _ _ _ _ _ _ _ _ Ht Ht3) as (_ & _ & <- & <-). assert (e2 = m) as -> by by apply (main_unique s ext e2 m o o v v); [apply Hc|..].
    destruct (decide (dirty_of s' m = Some true)) as [|Hno]; [done|]. rewrite Hd3; [done|]. intros Hl. by apply Hno, Hd2.
  - intros Hno. rewrite Hd3 by (intros (e3 & h3 & ? & ?); apply Hno; exists e3, h3; (split; [by right|done])).
    rewrite Hd1, decide_False; [done|]. intros ->. apply Hno. destruct (main_fun _ _ _ _ _ _ Hm Hm2) as [<- <-]. exists e, h. split; [left|done].
Qed.

(** What is marked for a selector. *)
Record marked s s' sel : Prop := {
  mr_tracked e i h o v : tracked s e i h o v <-> tracked s' e i h o v;
  mr_dirty e o v : main s e o v -> selects sel v -> dirty_of s' e = Some true;
  mr_others e o v : main s e o v -> ~ selects sel v -> dirty_of s' e = dirty_of s e
}.

Lemma dirty_set_all_main_ok s ext sel :
  cache_ok s ext -> selector_ok sel ->
  exists s', nmp_cache_dirty_set_all_main s (selector_lookup sel) = Some s' /\ cache_ok s' ext /\ heap s' = heap s /\ marked s s' sel.
Proof.
  intros Hc Hsel. unfold nmp_cache_dirty_set_all_main. destruct (lookup_entries_ok s ext sel Hc Hsel) as (es & -> & _ & Hes). cbn [mbind option_bind].
  destruct (dirty_main_ok s ext sel es Hc) as (s' & E & Hc' & Hh & Ht & Hd); [by intros e (h & o & v & ? & _)%Hes; exists h, o, v|].
  exists s'. split; [exact E|]. split; [done|]. split; [done|]. split; [done| |].
  - intros e o v Hm Hs. apply (Hd e o v Hm). destruct (selected_entry s ext sel e o v Hc Hsel Hm Hs) as (e2 & h & Ht2). exists e2, h. split; [|done].
    apply Hes. by exists h, o, v.
  - intros e o v Hm Hno. apply (Hd e o v Hm). intros (e2 & h & (h2 & o2 & v2 & Ht2 & Hs)%Hes & Ht3).
    by destruct (tracked_fun _ _ _ _ _ _ _ _ _ _ Ht2 Ht3) as (_ & _ & _ & <-).
Qed.

(** ** Refreshes *)

Definition refresh_selector (t : RefreshAllType) : Selector :=
  match t with
  | REFRESH_ALL_TYPE_LINKS => ByType LINK
  | REFRESH_ALL_TYPE_IP4_ADDRESSES => ByType IP4_ADDRESS
  | REFRESH_ALL_TYPE_IP6_ADDRESSES => ByType IP6_ADDRESS
  | REFRESH_ALL_TYPE_IP4_ROUTES => ByType IP4_ROUTE
  | REFRESH_ALL_TYPE_IP6_ROUTES => ByType IP6_ROUTE
  | REFRESH_ALL_TYPE_ROUTING_RULES_IP4 => ByFamily AF_INET
  | REFRESH_ALL_TYPE_ROUTING_RULES_IP6 => ByFamily AF_INET6
  | REFRESH_ALL_TYPE_QDISCS => ByType QDISC
  | REFRESH_ALL_TYPE_TFILTERS => ByType TFILTER
  end.

Lemma refresh_lookup t : refresh_all_type_init_lookup t = selector_lookup (refresh_selector t).
Proof. by destruct t. Qed.

Lemma refresh_selector_ok t : selector_ok (refresh_selector t).
Proof. by destruct t. Qed.

Lemma refresh_all_mark_ok ext t pl :
  platform_ok ext pl ->
  exists pl', refresh_all_mark t pl = Some pl' /\ platform_ok ext pl' /\ marked (pl_index pl) (pl_index pl') (refresh_selector t).
Proof.
  intros [Hc Hm Hd]. unfold refresh_all_mark. rewrite refresh_lookup.
  destruct (dirty_set_all_main_ok (pl_index pl) ext (refresh_selector t) Hc (refresh_selector_ok t)) as (s' & -> & Hc' & _ & Hmr). cbn [mbind option_bind].
  eexists. split; [done|]. split; [|done]. split; [done| |done]. apply (links_same_masters (pl_index pl)); [|done].
  assert (Hmain := same_tracked_main _ _ (mr_tracked _ _ _ Hmr)). intros o l. split; intros [e He]; exists e; by apply Hmain.
Qed.

(** ** Pruning *)

Lemma prune_step_ok ext e o v pl :
  platform_ok ext pl -> main (pl_index pl) e o v -> dirty_of (pl_index pl) e = Some true ->
  exists u pl', nmp_cache_remove (pl_index pl) (boxed o v) true true = Some u /\ finish_update u (delayed_action pl) pl = Some pl' /\ platform_ok ext pl' /\
    forall e2 p w, (main (pl_index pl') e2 p w <-> main (pl_index pl) e2 p w /\ e2 <> e) /\
      (main (pl_index pl') e2 p w -> dirty_of (pl_index pl') e2 = dirty_of (pl_index pl) e2).
Proof.
  intros [Hc Hm Hd] He Hdirty. destruct (remove_marked_ok _ ext e o v Hc He Hdirty) as (u & E & Hre). exists u.
  destruct (finish_update_ok (pl_index pl) ext u _ _ _ (delayed_action pl) pl Hc Hre (masters_for_all _ _ _ _ Hm) Hd) as (pl' & Ef & Hpl & _ & Hs & _).
  exists pl'. split_and!; [done|done|done|]. destruct Hre as [_ _ R3 _ [R5 _] _ _]. pose proof (co_index _ _ Hc) as Hok.
  assert (Hid : forall e2 p w, main (pl_index pl) e2 p w -> oid p w = oid o v -> e2 = e) by (intros; by eapply (main_unique (pl_index pl))).
  intros e2 p w. rewrite (same_cache_main _ _ e2 p w Hs). split.
  - split.
    + intros Hm2. assert (oid p w <> oid o v) as Hne by (apply R5; by exists e2). destruct (proj1 (R3 e2 p w Hne)) as [Hm1 _].
      split; [by apply R3|]. intros ->. apply Hne. destruct (main_fun _ _ _ _ _ _ He (proj1 (proj1 (R3 e p w Hne)) Hm2)) as [-> ->]. done.
    + intros [Hm1 Hne]. apply R3; [|done]. intros Eid. by apply Hne, (Hid e2 p w).
  - intros Hm2. assert (oid p w <> oid o v) as Hne by (apply R5; by exists e2). rewrite (sc_dirty _ _ Hs). apply (R3 e2 p w Hne). by apply R3.
Qed.

(** Pruning the main handle removes what is marked. *)
Lemma prune_main_ok ext lookup es pl :
  cache_id_type lookup = OT -> platform_ok ext pl -> NoDup es -> (forall e, e ∈ es -> exists o v, main (pl_index pl) e o v) ->
  exists pl', prune_main lookup es pl = Some pl' /\ platform_ok ext pl' /\
    forall e o v, main (pl_index pl') e o v <-> main (pl_index pl) e o v /\ ~ (e ∈ es /\ dirty_of (pl_index pl) e = Some true).
Proof.
  intros Hot. revert pl. induction es as [|e es IH]; intros pl Hpl Hnd Hes.
  { exists pl. split_and!; [done|done|]. intros e o v. split; [|by intros []]. intros Hm. split; [done|]. by intros [?%elem_of_nil _]. }
  apply NoDup_cons in Hnd as [Hnin Hnd]. destruct (Hes e) as (o & v & He); [left|].
  pose proof He as (h & en & hd & Hen & Eo & _). cbn [prune_main]. unfold nmp_cache_reresolve_main_entry. rewrite Hot, bool_decide_eq_true_2 by done.
  cbn [mbind option_bind]. rewrite Hen. cbn [mbind option_bind].
  assert (Hdm : dirty_of (pl_index pl) e = Some (en_dirty en)) by (unfold dirty_of; by rewrite Hen).
  destruct (en_dirty en) eqn:Edirty; cbn [negb].
  - destruct (main_val _ ext e o v (co_index _ _ (po_cache _ _ Hpl)) He) as (Hv & _ & _).
    assert (obj_at (pl_index pl) (en_obj en) = Some (boxed o v)) as -> by (unfold obj_at; by rewrite Eo, Hv). cbn [mbind option_bind].
    destruct (prune_step_ok ext e o v pl Hpl He Hdm) as (u & pl1 & -> & E1 & Hpl1 & Hm1). cbn [mbind option_bind]. rewrite E1. cbn [mbind option_bind].
    destruct (IH pl1 Hpl1 Hnd) as (pl' & E & Hpl' & Hm').
    { intros e2 He2. destruct (Hes e2) as (p & w & Hm2); [by right|]. exists p, w. apply (Hm1 e2 p w). split; [done|]. by intros ->. }
    exists pl'. split; [done|]. split; [done|]. intros e2 p w. rewrite Hm'. destruct (Hm1 e2 p w) as [Hmain Hd1]. split.
    + intros [Hm2 Hno]. rewrite (Hd1 Hm2) in Hno. apply Hmain in Hm2 as [Hm2 Hne]. split; [done|].
      intros [[->|Hin]%elem_of_cons Hd2]; [done|]. by apply Hno.
    + intros [Hm2 Hno]. assert (main (pl_index pl1) e2 p w) as Hm3.
      { apply Hmain. split; [done|]. intros ->. apply Hno. split; [left|done]. }
      split; [done|]. rewrite (Hd1 Hm3). intros [Hin Hd2]. apply Hno. split; [by right|done].
  - destruct (IH pl Hpl Hnd) as (pl' & E & Hpl' & Hm'); [intros e2 He2; apply Hes; by right|].
    exists pl'. split; [done|]. split; [done|]. intros e2 p w. rewrite Hm'. apply and_iff_compat_l. split; intros Hno [Hin Hd2]; apply Hno; (split; [|done]).
    + apply elem_of_cons in Hin as [->|]; [congruence|done].
    + by right.
Qed.

Lemma prune_type_ok ext type pl :
  platform_ok ext pl ->
  exists pl', cache_prune_one_type (nmp_lookup_init_obj_type type) pl = Some pl' /\ platform_ok ext pl' /\
    forall e o v, main (pl_index pl') e o v <-> main (pl_index pl) e o v /\ ~ (main_type v = Some type /\ dirty_of (pl_index pl) e = Some true).
Proof.
  intros Hpl. unfold cache_prune_one_type.
  destruct (lookup_entries_ok (pl_index pl) ext (ByType type) (po_cache _ _ Hpl) Logic.I) as (es & E & Hnd & Hes).
  change (selector_lookup (ByType type)) with (nmp_lookup_init_obj_type type) in E. rewrite E. cbn [mbind option_bind].
  destruct (prune_main_ok ext (nmp_lookup_init_obj_type type) es pl eq_refl Hpl Hnd) as (pl' & E2 & Hpl' & Hm).
  { intros e (h & o & v & Ht & _)%Hes. exists o, v. by exists h. }
  exists pl'. split; [done|]. split; [done|]. intros e o v. rewrite Hm. split; intros [Hm2 Hno]; (split; [done|]); intros [Ht Hd]; apply Hno; (split; [|done]).
  - apply Hes. destruct Hm2 as [h Hm2]. by exists h, o, v.
  - apply Hes in Ht as (h & p & w & Ht & Hs). destruct (main_fun (pl_index pl) e p o w v) as [-> ->]; [by exists h|done|exact Hs].
Qed.
End dump.
