(* ===== verification/NmpCacheKernel.v ===== *)
(** * Platform events: after a dump the cache has what the kernel dumped

    For the types other than links and rules: a refresh of a type, the messages of
    its dump, and pruning, in this order. *)

From S2P Require Export NmpCacheDump.

Section kernel.
Context `{ByteOrder} `{KernelSupport} `{SipHash} `{LinkDriver}.
Implicit Types (s : Index) (pl : Platform) (acc vs : list NMPObjectData).

(** The identity and the content of an object that is not a link or a rule. *)
Definition data_id (v : NMPObjectData) : kval := object_id_key (on_stack v).
Definition same_data (v w : NMPObjectData) : Prop := object_key (on_stack v) = object_key (on_stack w).
Definition data_alive (v : NMPObjectData) : bool := nmp_object_is_alive (on_stack v).

Definition dumped (v : NMPObjectData) : Prop :=
  match v with OBJ_LINK _ | OBJ_ROUTING_RULE _ | OBJ_LNK _ => False | _ => True end.

Lemma dumped_plain v : dumped v -> plain v.
Proof. intros Hd l ->. done. Qed.

Lemma dumped_id o v : dumped v -> oid o v = data_id v.
Proof. by destruct v. Qed.

Lemma dumped_key o v : dumped v -> object_key (boxed o v) = object_key (on_stack v).
Proof. by destruct v. Qed.

Lemma dumped_alive o v : nmp_object_is_alive (boxed o v) = data_alive v.
Proof. done. Qed.

Lemma dumped_type type v : main_type v = Some type -> type <> LINK -> type <> ROUTING_RULE -> dumped v.
Proof. destruct v; cbn; try done; by intros [= <-]. Qed.

Lemma same_id_type o v p w : cacheable v -> cacheable w -> oid o v = oid p w -> main_type v = main_type w.
Proof. intros Hv Hw E%oid_type. destruct v as [| | | | | | | |[]], w as [| | | | | | | |[]]; try done. Qed.

(** The messages of a dump, one after the other. *)
Fixpoint dump_messages (nlmsg_flags : Z) (vs : list NMPObjectData) pl : option Platform :=
  match vs with
  | [] => Some pl
  | v :: vs => pl ← event_valid_msg (dump_type v nlmsg_flags) v None true pl; dump_messages nlmsg_flags vs pl
  end.

(** The latest message about an identity, the messages in reverse order. *)
Definition latest (k : kval) (acc : list NMPObjectData) : option NMPObjectData := List.find (fun w => bool_decide (data_id w = k)) acc.

Lemma latest_cons k v acc : latest k (v :: acc) = if bool_decide (data_id v = k) then Some v else latest k acc.
Proof. done. Qed.

(** During the dump: what was not in a message is marked. *)
Record dumping s0 s type acc : Prop := {
  du_others o v : main_type v <> Some type -> in_main s o v <-> in_main s0 o v;
  du_type e o v : main s e o v -> main_type v = Some type ->
    match latest (data_id v) acc with
    | Some w => data_alive w = true /\ same_data v w /\ dirty_of s e = Some false
    | None => dirty_of s e = Some true
    end;
  du_all w : latest (data_id w) acc = Some w -> main_type w = Some type -> data_alive w = true -> exists o v, in_main s o v /\ oid o v = data_id w
}.

Lemma dumping_start s s' ext type : cache_ok s ext -> marked s s' (ByType type) -> dumping s s' type [].
Proof.
  intros Hc [Ht Hd _]. assert (Hm := same_tracked_main s s' Ht). split; [| |done].
  - intros o v _. split; intros [e He]; exists e; by apply Hm.
  - intros e o v Hm2 Htype. cbn. apply (Hd e o v); [by apply Hm|done].
Qed.

Lemma dumping_message s0 s s' ext ext' type acc n v :
  cache_ok s ext -> cache_ok s' ext' -> type <> LINK -> type <> ROUTING_RULE -> main_type v = Some type -> cacheable v ->
  delivered s s' n v -> dumping s0 s type acc -> dumping s0 s' type (v :: acc).
Proof.
  intros Hc Hc' Hl Hr Htype Hcv [Hoth Hob] [D1 D2 D3]. assert (Hdv := dumped_type type v Htype Hl Hr).
  rewrite (dumped_alive n v) in Hob. set (k := oid n v) in *. assert (Ek : k = data_id v) by by apply dumped_id. split.
  - intros o w Hw. rewrite <-(D1 o w Hw). assert (Hcw : in_main s' o w \/ in_main s o w -> cacheable w) by (intros [Hm|Hm]; eapply in_main_pool; try apply Hm; [apply Hc'|apply Hc]).
    assert (Hne : cacheable w -> oid o w <> k) by (intros Hcw2 E; apply Hw; by rewrite (same_id_type o w n v Hcw2 Hcv E)).
    split; intros Hm; (apply (others_stay_in _ _ _ Hoth); [by apply Hne, Hcw; auto|done]).
  - intros e o w Hm Hw. assert (Hdw := dumped_type type w Hw Hl Hr). rewrite latest_cons. case_bool_decide as E.
    + assert (Eow : oid o w = k) by (rewrite dumped_id by done; congruence). destruct (data_alive v) eqn:Ea.
      * destruct Hob as ([p z] & [Ep Hp] & Hso & Hun). destruct (main_ids s' ext' (co_index _ _ Hc') o w p z) as [-> ->]; [by exists e|done|congruence|].
        split; [done|]. split; [|by apply (Hun e p z)]. unfold same_object, at_addr in Hso. cbn [fst snd] in Hso. unfold same_data.
        by rewrite <-(dumped_key p z), <-(dumped_key n v).
      * exfalso. apply (Hob o w); [by exists e|done].
    + assert (Hne : oid o w <> k) by (rewrite dumped_id by done; congruence). destruct (Hoth e o w Hne) as [Hmain Hdirty].
      apply Hmain in Hm. specialize (D2 e o w Hm Hw). by rewrite (Hdirty Hm).
  - intros w. rewrite latest_cons. case_bool_decide as E.
    + intros [= <-] _ Ha. rewrite Ha in Hob. destruct Hob as ([p z] & [Ep Hp] & _). exists p, z. split; [done|]. by rewrite Ep.
    + intros Hlat Hw Ha. destruct (D3 w Hlat Hw Ha) as (o & z & Hm & Eid). exists o, z. split; [|done].
      apply (others_stay_in _ _ _ Hoth); [congruence|done].
Qed.

Lemma dump_messages_ok fl vs type s0 acc pl :
  type <> LINK -> type <> ROUTING_RULE -> Forall (fun v => msg_ok v None /\ main_type v = Some type) vs ->
  platform_ok nobody pl -> dumping s0 (pl_index pl) type acc ->
  exists pl', dump_messages fl vs pl = Some pl' /\ platform_ok nobody pl' /\ dumping s0 (pl_index pl') type (rev vs ++ acc).
Proof.
  intros Hl Hr. revert acc pl. induction vs as [|v vs IH]; intros acc pl Hvs Hpl Hd; [by exists pl|].
  apply Forall_cons in Hvs as [[Hv Ht] Hvs]. cbn [dump_messages].
  destruct (dump_message_ok v fl pl Hpl Hv) as (pl1 & n & -> & Hpl1 & Hdel); [by apply dumped_plain, (dumped_type type)|]. cbn [mbind option_bind].
  destruct (IH (v :: acc) pl1 Hvs Hpl1) as (pl' & E & Hpl' & Hd').
  { eapply dumping_message; [apply Hpl|apply Hpl1|done|done|done|apply Hv|done|done]. }
  exists pl'. split; [done|]. split; [done|]. cbn [rev]. by rewrite <-app_assoc.
Qed.

(** The refresh of a type: marking, the messages, pruning. *)
Definition refresh (t : RefreshAllType) (nlmsg_flags : Z) (vs : list NMPObjectData) pl : option Platform :=
  pl ← refresh_all_mark t pl;
  pl ← dump_messages nlmsg_flags vs pl;
  cache_prune_one_type (refresh_all_type_init_lookup t) pl.

(** The cache has, of the type, what the latest messages say, and else what it had. *)
Record mirrors s0 s type vs : Prop := {
  mi_others o v : main_type v <> Some type -> in_main s o v <-> in_main s0 o v;
  mi_only o v : in_main s o v -> main_type v = Some type ->
    exists w, latest (data_id v) (rev vs) = Some w /\ data_alive w = true /\ same_data v w;
  mi_all w : latest (data_id w) (rev vs) = Some w -> main_type w = Some type -> data_alive w = true ->
    exists o v, in_main s o v /\ main_type v = Some type /\ same_data v w
}.

Lemma latest_id k acc w : latest k acc = Some w -> data_id w = k.
Proof. intros E. apply List.find_some in E as [_ E]. by apply bool_decide_eq_true in E. Qed.

Lemma refresh_ok t type fl vs pl :
  refresh_all_type_get_info t = (type, 0) -> type <> LINK -> Forall (fun v => msg_ok v None /\ main_type v = Some type) vs ->
  platform_ok nobody pl ->
  exists pl', refresh t fl vs pl = Some pl' /\ platform_ok nobody pl' /\ mirrors (pl_index pl) (pl_index pl') type vs.
Proof.
  intros Hinfo Hl Hvs Hpl. assert (Hr : type <> ROUTING_RULE) by (intros ->; by destruct t).
  assert (Hsel : refresh_selector t = ByType type) by (destruct t; try done; by injection Hinfo as <-).
  unfold refresh. destruct (refresh_all_mark_ok nobody t pl Hpl) as (pl1 & -> & Hpl1 & Hmk). cbn [mbind option_bind]. rewrite Hsel in Hmk.
  destruct (dump_messages_ok fl vs type (pl_index pl) [] pl1 Hl Hr Hvs Hpl1) as (pl2 & -> & Hpl2 & [D1 D2 D3]).
  { by apply (dumping_start _ _ nobody), Hmk; apply Hpl. }
  cbn [mbind option_bind]. rewrite app_nil_r in *. rewrite refresh_lookup, Hsel. destruct (prune_type_ok nobody type pl2 Hpl2) as (pl3 & E3 & Hpl3 & Hm3).
  exists pl3. split; [exact E3|]. split; [done|]. split.
  - intros o v Hv. rewrite <-(D1 o v Hv). split; intros [e He]; exists e; apply Hm3 in He || apply Hm3; [by apply He|]. split; [done|]. by intros [].
  - intros o v [e He] Hv. apply Hm3 in He as [He Hno]. specialize (D2 e o v He Hv). destruct (latest (data_id v) (rev vs)) as [w|]; [|by destruct Hno].
    destruct D2 as (Ha & Hs & _). by exists w.
  - intros w Hlat Hw Ha. destruct (D3 w Hlat Hw Ha) as (o & v & [e He] & Eid).
    assert (Hdw := dumped_type type w Hw Hl Hr). destruct (main_val _ nobody e o v (co_index _ _ (po_cache _ _ Hpl2)) He) as (_ & _ & Hcv).
    assert (Hv : main_type v = Some type).
    { rewrite <-Hw. apply (same_id_type o v 1%positive w Hcv); [by destruct w|]. by rewrite (dumped_id 1%positive w). }
    specialize (D2 e o v He Hv). rewrite <-(dumped_id o v), Eid, Hlat in D2 by by apply (dumped_type type). destruct D2 as (_ & Hs & Hd2).
    exists o, v. split; [|done]. exists e. apply Hm3. split; [done|]. intros [_ Hd3]. congruence.
Qed.

End kernel.
