(* ===== verification/NmpCacheProps.v ===== *)
(** * The platform cache: theorems

    What the cache and the events of the platform promise, for whatever the kernel
    and udev tell, in whatever order. *)

From S2P Require Export NmpCacheKernel.

(** ** The events of a platform *)

(** A message of the kernel, a device of udev, a master that is scheduled, and the
    start and the end of a refresh. *)
Inductive PlatformEvent :=
| Message (type : MsgType) (v : NMPObjectData) (lnk : option NMPObjectLnk) (is_dump : bool)
| Udev (ifindex udevice : Z)
| HandleMaster
| RefreshMark (t : RefreshAllType)
| PruneType (type : MainType).

Definition new_platform (use_udev : bool) : Platform :=
  {| pl_cache := nmp_cache_new (nm_dedup_multi_index_new {| objs := ∅; idx_objs := ∅ |}) use_udev;
     delayed_action := {| da_flags := DELAYED_ACTION_TYPE_NONE; list_master_connected := []; list_refresh_link := [] |} |}.

Section props.
Context `{ByteOrder} `{KernelSupport} `{SipHash} `{LinkDriver}.
Implicit Types (s : Index) (ext : positive -> nat) (pl : Platform).

Definition platform_event (ev : PlatformEvent) pl : option Platform :=
  match ev with
  | Message type v lnk is_dump => event_valid_msg type v lnk is_dump pl
  | Udev ifindex udevice => cache_update_link_udev ifindex udevice pl
  | HandleMaster => snd <$> delayed_action_handle_one pl
  | RefreshMark t => refresh_all_mark t pl
  | PruneType type => cache_prune_one_type (nmp_lookup_init_obj_type type) pl
  end.

(** Messages have objects of the kernel, devices are of an interface. *)
Definition event_ok (ev : PlatformEvent) : Prop :=
  match ev with
  | Message type v lnk _ => msg_ok v lnk /\ type_ok type v
  | Udev ifindex udevice => 0 < ifindex /\ 0 <= udevice
  | _ => True
  end.

Fixpoint platform_events (evs : list PlatformEvent) pl : option Platform :=
  match evs with [] => Some pl | ev :: evs => pl ← platform_event ev pl; platform_events evs pl end.

Lemma new_platform_ok use_udev : platform_ok nobody (new_platform use_udev).
Proof.
  assert (Hok : index_ok (pl_index (new_platform use_udev)) nobody) by apply (used_ok _ _ used_new).
  assert (Hno : forall e o v, ~ main (pl_index (new_platform use_udev)) e o v) by (intros e o v (h & en & hd & He & _); done).
  split; [split; [done|by intros e o v ?%Hno|]|by intros o l [e ?%Hno]|].
  - intros t _ o v. split; [by intros (e & h & en & hd & He & _)|by intros [[e ?%Hno] _]].
  - split; [constructor|]. split; [done|]. by intros i ?%elem_of_nil.
Qed.

Lemma platform_event_ok ev pl : platform_ok nobody pl -> event_ok ev -> exists pl', platform_event ev pl = Some pl' /\ platform_ok nobody pl'.
Proof.
  intros Hpl Hev. destruct ev as [type v lnk is_dump|ifindex udevice| |t|type]; cbn in Hev |- *.
  - destruct Hev. by apply event_valid_msg_ok.
  - destruct Hev. by apply udev_ok.
  - destruct (handle_one_ok nobody pl Hpl) as (b & pl' & -> & ? & _). by exists pl'.
  - destruct (refresh_all_mark_ok nobody t pl Hpl) as (pl' & -> & ? & _). by exists pl'.
  - destruct (prune_type_ok nobody type pl Hpl) as (pl' & -> & ? & _). by exists pl'.
Qed.

Lemma platform_events_ok evs pl : platform_ok nobody pl -> Forall event_ok evs -> exists pl', platform_events evs pl = Some pl' /\ platform_ok nobody pl'.
Proof.
  revert pl. induction evs as [|ev evs IH]; intros pl Hpl Hevs; [by exists pl|]. apply Forall_cons in Hevs as [Hev Hevs]. cbn [platform_events].
  destruct (platform_event_ok ev pl Hpl Hev) as (pl1 & -> & Hpl1). cbn [mbind option_bind]. by apply IH.
Qed.

(** ** Theorems *)

(** C5: Whatever the kernel and udev tell, no event reaches memory that is gone, and
    after each of them the handles of the cache agree on which objects there are, an
    object has exactly the references that the cache has (nothing leaks), and each
    master whose connected flag is not what its slaves tell is scheduled, once. *)
Theorem platform_events_safe evs use_udev :
  Forall event_ok evs ->
  exists pl, platform_events evs (new_platform use_udev) = Some pl /\
    cache_ok (pl_index pl) nobody /\ masters_ok (pl_index pl) (delayed_action pl) /\ delayed_ok (delayed_action pl).
Proof.
  intros Hevs. destruct (platform_events_ok evs _ (new_platform_ok use_udev) Hevs) as (pl & E & [Hc Hm Hd]).
  exists pl. by split_and!.
Qed.

(** C6: A refresh of a type (of addresses, routes, qdiscs or filters: the mark, the
    messages of the dump, the removal of what is still marked) leaves of the type
    exactly what the latest messages say for their identities, as they say it, and
    of other types what there was. *)
Theorem platform_refresh_mirrors t type fl vs pl :
  refresh_all_type_get_info t = (type, 0) -> type <> LINK -> platform_ok nobody pl ->
  Forall (fun v => msg_ok v None /\ main_type v = Some type) vs ->
  exists pl', refresh t fl vs pl = Some pl' /\ platform_ok nobody pl' /\ mirrors (pl_index pl) (pl_index pl') type vs.
Proof. intros Hinfo Hl Hpl Hvs. by apply refresh_ok. Qed.

(** C8: When no master is scheduled, the connected flag of each master in the cache is
    what its slaves tell: set if it has carrier and a slave that is connected. *)
Theorem platform_masters_settled evs use_udev pl o m :
  Forall event_ok evs -> platform_events evs (new_platform use_udev) = Some pl -> list_master_connected (delayed_action pl) = [] ->
  in_main (pl_index pl) o (OBJ_LINK m) -> is_master (on_stack (OBJ_LINK m)) m = true ->
  lk_connected (ol_link m) = true <-> lower_up m = true /\ has_slave (pl_index pl) (lk_ifindex (ol_link m)).
Proof.
  intros Hevs E Hno Hm Hma. destruct (platform_events_ok evs _ (new_platform_ok use_udev) Hevs) as (pl2 & E2 & [Hc Hmo _]).
  assert (pl2 = pl) as -> by congruence.
  assert (Hs : ~ unsettled (pl_index pl) m) by (intros Hu; apply (Hmo o m Hm) in Hu; rewrite Hno in Hu; by apply elem_of_nil in Hu).
  destruct (has_slave_dec (pl_index pl) nobody (lk_ifindex (ol_link m)) Hc) as [Hsl|Hsl], (lower_up m) eqn:El, (lk_connected (ol_link m)) eqn:Ec;
    try (split; [done|by intros []]); try (by split); exfalso; apply Hs; (split; [done|]); rewrite El, Ec; intros [A B]; try (by destruct (A eq_refl)); by assert (false = true) by (by apply B).
Qed.

(** C7: What the cache has of a link is what netlink and udev tell together: a message
    keeps the device (and the driver of udev), a deletion keeps the link that has a
    device, a device keeps what netlink told; without both the link goes.  The
    result tells the link before and after, and how they differ. *)
Theorem cache_link_merges s ext use_udev :
  cache_ok s ext ->
  (forall o l is_dump, private s o l -> (0 < ext o)%nat ->
     exists u old new toggle, nmp_cache_update_netlink {| multi_idx := s; use_udev := use_udev |} o is_dump = Some u /\ toggles s l toggle /\
       link_reported s ext u o l old new /\ link_result new (netlink_link use_udev toggle (the_link old) l)) /\
  (forall o l, vals (heap s) !! o = Some (OBJ_LINK l) ->
     exists u old new, nmp_cache_remove_netlink {| multi_idx := s; use_udev := use_udev |} (boxed o (OBJ_LINK l)) = Some u /\
       reported s ext u (oid o (OBJ_LINK l)) old new /\ link_result new (the_link old ≫= unlinked use_udev)) /\
  (forall ifindex device, 0 < ifindex -> 0 <= device ->
     exists u old new, nmp_cache_update_link_udev {| multi_idx := s; use_udev := use_udev |} ifindex device = Some u /\
       reported s ext u (link_id ifindex) old new /\ link_result new (udev_link use_udev ifindex device (the_link old))).
Proof.
  intros Hc. split_and!.
  - intros o l is_dump Hp Hx. destruct (toggles_ok s ext o l Hc) as (toggle & Et & Htog).
    destruct (link_update_ok s ext o l use_udev toggle is_dump Hc Hp Hx Et) as (u & old & new & ? & ? & ?). by exists u, old, new, toggle.
  - intros o l Hv. by apply (link_remove_ok s ext (boxed o (OBJ_LINK l)) l use_udev Hc (needle_boxed _ _ _ _ (co_index _ _ Hc) Hv)).
  - intros ifindex device Hi Hd. by apply link_udev_ok.
Qed.

(** C35: A lookup (by type, interface, name, default routes, family of rules) finds
    exactly the objects of the cache that its caller means. *)
Theorem cache_lookup_finds s ext sel :
  cache_ok s ext -> selector_ok sel ->
  exists objs, nmp_cache_iter_for_each s (nmp_cache_lookup s (selector_lookup sel)) = Some objs /\
    forall y, y ∈ objs <-> exists o v, in_main s o v /\ y = boxed o v /\ selects sel v.
Proof. apply cache_lookup_ok. Qed.

(** C36: A message about a route replaces, adds or removes the object of its identity,
    and moves a route that is new or changed to where the kernel has it among those
    of its weak id: before the first other one, which it replaces (and the caller is
    told so), at the end, or at the start, by the flags; for other flags a resync is
    asked for. *)
Theorem cache_route_order s ext n w is_dump nlmsgflags :
  cache_ok s ext -> vals (heap s) !! n = Some w -> is_route w -> (0 < ext n)%nat ->
  exists r old new, nmp_cache_update_netlink_route s n is_dump nlmsgflags = Some r /\ route_reported s ext r n w is_dump nlmsgflags old new.
Proof. apply update_netlink_route_ok. Qed.
End props.

(** ** A sample *)

#[local] Instance sample_byte_order : ByteOrder := false.
#[local] Instance sample_kernel : KernelSupport := fun _ => true.
#[local] Instance sample_siphash : SipHash := fun _ _ => 0.
#[local] Instance sample_driver : LinkDriver := {| nmp_utils_udev_get_driver _ := None; nmp_utils_ethtool_get_driver_info _ := None |}.

(** A link with carrier; the bond 5 and its slave 6, an address and two routes. *)
Definition sample_link (ifindex type master : Z) (connected : bool) : NMPObjectLink :=
  with_netlink true (link_object {|
    lk_ifindex := ifindex; lk_name := bs "eth"; lk_type := type; lk_kind := None; lk_driver := None;
    lk_master := master; lk_parent := 0; lk_n_ifi_flags := IFF_LOWER_UP; lk_mtu := 1500; lk_arptype := 1;
    lk_l_address := {| la_data := []; la_len := 0 |}; lk_l_broadcast := {| la_data := []; la_len := 0 |};
    lk_inet6_token := replicate 8 x00; lk_inet6_addr_gen_mode_inv := 0;
    lk_rx_packets := 0; lk_rx_bytes := 0; lk_tx_packets := 0; lk_tx_bytes := 0;
    lk_connected := connected; lk_initialized := false |}).

Definition sample_bond : NMPObjectLink := sample_link 5 NM_LINK_TYPE_BOND 0 false.
Definition sample_slave : NMPObjectLink := sample_link 6 NM_LINK_TYPE_ETHERNET 5 true.

Definition sample_address (addr : Z) : NMPObjectData :=
  OBJ_IP4_ADDRESS {| a4_ax := zero_ax 6 24; a4_address := addr; a4_peer_address := addr; a4_label := [] |}.
Definition sample_route (ifindex : Z) : NMPObjectData :=
  OBJ_IP4_ROUTE {| r4_rx := zero_rx ifindex 24 100; r4_network := 0x0a; r4_gateway := 0; r4_pref_src := 0; r4_tos := 0; r4_scope_inv := 0 |}.

Definition sample_events : list PlatformEvent :=
  [Message RTM_NEW (OBJ_LINK sample_bond) None false; Udev 6 1; Message RTM_NEW (OBJ_LINK sample_slave) None false; HandleMaster;
   Message RTM_NEW (sample_address 10) None false; Message (RTM_NEWROUTE NLM_F_CREATE) (sample_route 5) None false;
   Message (RTM_NEWROUTE NLM_F_CREATE) (sample_route 6) None false].

Definition sample_platform : Platform := default (new_platform true) (platform_events sample_events (new_platform true)).

Lemma sample_msg_ok v : (forall l, v = OBJ_LINK l -> ol_lnk l = None) -> cacheable v -> (forall hp, data_ok hp v) -> msg_ok v None.
Proof. by intros. Qed.

Lemma sample_link_msg ifindex type master connected : msg_ok (OBJ_LINK (sample_link ifindex type master connected)) None.
Proof. apply sample_msg_ok; [by intros l [= <-]|done|]. intros hp. by split. Qed.

Lemma sample_address_msg addr : 0 <= addr < 2 ^ 32 -> msg_ok (sample_address addr) None.
Proof. intros Ha. apply sample_msg_ok; [done|done|]. intros hp. by split. Qed.

Lemma sample_route_msg ifindex : msg_ok (sample_route ifindex) None.
Proof. apply sample_msg_ok; [done|done|]. intros hp. by split. Qed.

Lemma sample_events_ok : Forall event_ok sample_events.
Proof.
  assert (Hl : forall i t m c, event_ok (Message RTM_NEW (OBJ_LINK (sample_link i t m c)) None false)) by (intros; split; [apply sample_link_msg|done]).
  assert (Hr : forall i, event_ok (Message (RTM_NEWROUTE NLM_F_CREATE) (sample_route i) None false)) by (intros; split; [apply sample_route_msg|done]).
  unfold sample_events. rewrite !Forall_cons.
  refine (conj (Hl _ _ _ _) (conj _ (conj (Hl _ _ _ _) (conj I (conj (conj (sample_address_msg _ _) I) (conj (Hr _) (conj (Hr _) (List.Forall_nil _)))))))); done.
Qed.

Lemma sample_reached : platform_events sample_events (new_platform true) = Some sample_platform.
Proof. unfold sample_platform. destruct (platform_events sample_events (new_platform true)) eqn:E; [done|]. vm_compute in E. done. Qed.

Lemma sample_platform_ok : platform_ok nobody sample_platform.
Proof.
  destruct (platform_events_ok sample_events _ (new_platform_ok true) sample_events_ok) as (pl & E & Hpl). rewrite sample_reached in E. apply Some_inj in E. rewrite E. exact Hpl.
Qed.

Lemma platform_events_safe_witness :
  exists pl, platform_events sample_events (new_platform true) = Some pl /\ cache_ok (pl_index pl) nobody.
Proof.
  destruct (platform_events_safe sample_events true sample_events_ok) as (pl & E & Hc & _). exists pl. split; [exact E|exact Hc].
Defined.

(** The address of the sample is not in the dump. *)
Lemma platform_refresh_mirrors_witness :
  exists pl, refresh REFRESH_ALL_TYPE_IP4_ADDRESSES 2 [sample_address 11; sample_address 12] sample_platform = Some pl /\
    mirrors (pl_index sample_platform) (pl_index pl) IP4_ADDRESS [sample_address 11; sample_address 12].
Proof.
  destruct (platform_refresh_mirrors REFRESH_ALL_TYPE_IP4_ADDRESSES IP4_ADDRESS 2 [sample_address 11; sample_address 12] sample_platform)
    as (pl & E & _ & Hm); [reflexivity|discriminate|exact sample_platform_ok| |exists pl; split; [exact E|exact Hm]].
  rewrite !Forall_cons. split; [|split; [|constructor]]; (split; [apply sample_address_msg; lia|reflexivity]).
Defined.

(** The bond with its slave. *)
Definition sample_master : NMPObjectLink :=
  match vals (heap (pl_index sample_platform)) !! 4%positive with Some (OBJ_LINK l) => l | _ => sample_bond end.

Lemma platform_masters_settled_witness :
  lk_connected (ol_link sample_master) = true <->
  lower_up sample_master = true /\ has_slave (pl_index sample_platform) (lk_ifindex (ol_link sample_master)).
Proof.
  apply (platform_masters_settled sample_events true sample_platform 4%positive sample_master sample_events_ok sample_reached).
  - vm_compute. reflexivity.
  - exists 1%positive, 1%positive. eexists _, _. split_and!; vm_compute; reflexivity.
  - vm_compute. reflexivity.
Defined.

(** udev removes the device of the slave. *)
Lemma cache_link_merges_witness :
  exists u old new, nmp_cache_update_link_udev {| multi_idx := pl_index sample_platform; use_udev := true |} 6 0 = Some u /\
    reported (pl_index sample_platform) nobody u (link_id 6) old new /\ link_result new (udev_link true 6 0 (the_link old)).
Proof.
  destruct (cache_link_merges (pl_index sample_platform) nobody true (po_cache _ _ sample_platform_ok)) as (_ & _ & Hudev).
  apply Hudev; lia.
Defined.

Lemma cache_lookup_finds_witness :
  exists objs, nmp_cache_iter_for_each (pl_index sample_platform) (nmp_cache_lookup (pl_index sample_platform) (selector_lookup (ByIfindex IP4_ROUTE 6))) = Some objs /\
    forall y, y ∈ objs <-> exists o v, in_main (pl_index sample_platform) o v /\ y = boxed o v /\ selects (ByIfindex IP4_ROUTE 6) v.
Proof.
  apply (cache_lookup_finds (pl_index sample_platform) nobody (ByIfindex IP4_ROUTE 6) (po_cache _ _ sample_platform_ok)).
  split; [lia|split; discriminate].
Defined.

(** A third route of the weak id replaces the first one. *)
Lemma cache_route_order_witness :
  exists o s r old new, cache_ok s (add_use o nobody) /\
    nmp_cache_update_netlink_route s o false NLM_F_REPLACE = Some r /\ route_reported s (add_use o nobody) r o (sample_route 7) false NLM_F_REPLACE old new.
Proof.
  destruct (message_platform_ok sample_platform (sample_route 7) None sample_platform_ok (sample_route_msg 7)) as (o & s & w & _ & [Hc _ _] & _ & Hw & _ & _ & ->).
  destruct (cache_route_order s (add_use o nobody) o (sample_route 7) false NLM_F_REPLACE Hc Hw Logic.I) as (r & old & new & E & Hr).
  - rewrite add_use_eq. lia.
  - exists o, s, r, old, new. split; [exact Hc|]. split; [exact E|exact Hr].
Defined.

(** The selector for the weak id of a route does not have its table: a route of
    another table does not find itself. *)
Example weak_id_selector_loses_table :
  let r := {| r4_rx := {| rx_ifindex := 5; rx_rt_source := 0; rx_plen := 24; rx_lock_window := false; rx_lock_cwnd := false;
                          rx_lock_initcwnd := false; rx_lock_initrwnd := false; rx_lock_mtu := false; rx_r_rtm_flags := 0; rx_mss := 0;
                          rx_window := 0; rx_cwnd := 0; rx_initcwnd := 0; rx_initrwnd := 0; rx_mtu := 0; rx_metric := 100;
                          rx_table_coerced := 200 |};
              r4_network := 0x0a; r4_gateway := 0; r4_pref_src := 0; r4_tos := 0; r4_scope_inv := 0 |} in
  (fun lookup => bool_decide (NmpObject.part_key NMP_CACHE_ID_TYPE_ROUTES_BY_WEAK_ID (selector_obj lookup)
                              = NmpObject.part_key NMP_CACHE_ID_TYPE_ROUTES_BY_WEAK_ID (on_stack (OBJ_IP4_ROUTE r))))
    <$> nmp_lookup_init_route_by_weak_id (on_stack (OBJ_IP4_ROUTE r)) = Some false.
Proof. vm_compute. reflexivity. Qed.

(** A message about a route that the cache has as it is asks for a resync if it has
    NLM_F_REPLACE, although the route is alive. *)
Example route_unchanged_resync :
  (let '(o, s) := nmp_object_new (sample_route 6) (pl_index sample_platform) in
   r ← nmp_cache_update_netlink_route s o false NLM_F_REPLACE;
   Some (ops_type (route_updated r), resync_required r, out_new (route_updated r))) = Some (NMP_CACHE_OPS_UNCHANGED, true, None).
Proof. vm_compute. reflexivity. Qed.
