(* ===== verification/NlRequest.v ===== *)
(** * Netlink requests: what the platform waits for

    src/platform/nm-linux-platform.c: the requests whose answers are waited for, the
    refreshes in progress, and how answers, errors and timeouts complete them.  The
    flags and the links that are scheduled are those of [Delayed].

    The assertions (nm_assert ()) are checked if [more_asserts]; a program that stops
    at one, or reads out of an array, is None.  The variables of callers that get an
    answer are addresses of maps; a variable that is not there is not set yet. *)

From S2P Require Export NmpCacheEvents.

(** ** Data *)

(** NM_MORE_ASSERTS *)
Class NmAsserts := more_asserts : bool.

Definition nm_assert `{NmAsserts} (b : bool) : option unit := if more_asserts && negb b then None else Some tt.

Definition DELAYED_ACTION_TYPE_READ_NETLINK : Z := Z.shiftl 1 11.
Definition DELAYED_ACTION_TYPE_WAIT_FOR_NL_RESPONSE : Z := Z.shiftl 1 12.

#[export] Instance RefreshAllType_eq_dec : EqDecision RefreshAllType.
Proof. solve_decision. Defined.

Definition all_refresh_types : list RefreshAllType :=
  [REFRESH_ALL_TYPE_LINKS; REFRESH_ALL_TYPE_IP4_ADDRESSES; REFRESH_ALL_TYPE_IP6_ADDRESSES; REFRESH_ALL_TYPE_IP4_ROUTES;
   REFRESH_ALL_TYPE_IP6_ROUTES; REFRESH_ALL_TYPE_ROUTING_RULES_IP4; REFRESH_ALL_TYPE_ROUTING_RULES_IP6;
   REFRESH_ALL_TYPE_QDISCS; REFRESH_ALL_TYPE_TFILTERS].

Definition DELAYED_ACTION_TYPE_REFRESH_ALL : Z :=
  foldr (fun t => Z.lor (delayed_action_type_from_refresh_all_type t)) 0 all_refresh_types.

(** WaitForNlResponseResult; negative values are errors of the kernel. *)
Definition WAIT_FOR_NL_RESPONSE_RESULT_UNKNOWN : Z := 0.
Definition WAIT_FOR_NL_RESPONSE_RESULT_RESPONSE_OK : Z := 1.
Definition WAIT_FOR_NL_RESPONSE_RESULT_RESPONSE_UNKNOWN : Z := 2.
Definition WAIT_FOR_NL_RESPONSE_RESULT_FAILED_RESYNC : Z := 3.
Definition WAIT_FOR_NL_RESPONSE_RESULT_FAILED_POLL : Z := 4.
Definition WAIT_FOR_NL_RESPONSE_RESULT_FAILED_TIMEOUT : Z := 5.
Definition WAIT_FOR_NL_RESPONSE_RESULT_FAILED_SETNS : Z := 7.

(** response_type and response; a pointer that was used is NULL. *)
Inductive NlResponse :=
| RESPONSE_VOID
| RESPONSE_REFRESH_ALL_IN_PROGRESS (out_refresh_all_in_progress : option RefreshAllType)
| RESPONSE_ROUTE_GET (out_route_get : option positive).

(** DelayedActionWaitForNlResponseData *)
Record WaitData := {
  wd_seq_number : Z; wd_seq_result : Z; wd_timeout_abs_ns : Z;
  wd_out_seq_result : option positive; wd_out_errmsg : option positive; wd_response : NlResponse
}.

Definition with_result (seq_result : Z) (data : WaitData) : WaitData := {|
  wd_seq_number := wd_seq_number data; wd_seq_result := seq_result; wd_timeout_abs_ns := wd_timeout_abs_ns data;
  wd_out_seq_result := wd_out_seq_result data; wd_out_errmsg := wd_out_errmsg data; wd_response := wd_response data |}.
Definition with_response (response : NlResponse) (data : WaitData) : WaitData := {|
  wd_seq_number := wd_seq_number data; wd_seq_result := wd_seq_result data; wd_timeout_abs_ns := wd_timeout_abs_ns data;
  wd_out_seq_result := wd_out_seq_result data; wd_out_errmsg := wd_out_errmsg data; wd_response := response |}.

(** What the platform has of requests (the counters of the refreshes, and those of
    the types that are to be pruned, by type), and the variables of the callers. *)
Record Requests := {
  scheduled : Delayed; refresh_all_in_progress : RefreshAllType -> Z; list_wait_for_nl_response : list WaitData;
  nlh_seq_next : Z; nlh_seq_last_seen : Z; pruning : RefreshAllType -> Z; msg_buf_size : Z;
  seq_results : gmap positive Z; errmsgs : gmap positive (list byte); route_gets : gmap positive NMPObjectData
}.

Section requests.
Context `{NmAsserts}.
Implicit Types (rq : Requests) (t : RefreshAllType).

Definition with_scheduled (d : Delayed) rq : Requests := {|
  scheduled := d; refresh_all_in_progress := refresh_all_in_progress rq; list_wait_for_nl_response := list_wait_for_nl_response rq;
  nlh_seq_next := nlh_seq_next rq; nlh_seq_last_seen := nlh_seq_last_seen rq; pruning := pruning rq; msg_buf_size := msg_buf_size rq;
  seq_results := seq_results rq; errmsgs := errmsgs rq; route_gets := route_gets rq |}.
Definition with_progress (p : RefreshAllType -> Z) rq : Requests := {|
  scheduled := scheduled rq; refresh_all_in_progress := p; list_wait_for_nl_response := list_wait_for_nl_response rq;
  nlh_seq_next := nlh_seq_next rq; nlh_seq_last_seen := nlh_seq_last_seen rq; pruning := pruning rq; msg_buf_size := msg_buf_size rq;
  seq_results := seq_results rq; errmsgs := errmsgs rq; route_gets := route_gets rq |}.
Definition with_waits (l : list WaitData) rq : Requests := {|
  scheduled := scheduled rq; refresh_all_in_progress := refresh_all_in_progress rq; list_wait_for_nl_response := l;
  nlh_seq_next := nlh_seq_next rq; nlh_seq_last_seen := nlh_seq_last_seen rq; pruning := pruning rq; msg_buf_size := msg_buf_size rq;
  seq_results := seq_results rq; errmsgs := errmsgs rq; route_gets := route_gets rq |}.
Definition with_seqs (next last_seen : Z) rq : Requests := {|
  scheduled := scheduled rq; refresh_all_in_progress := refresh_all_in_progress rq; list_wait_for_nl_response := list_wait_for_nl_response rq;
  nlh_seq_next := next; nlh_seq_last_seen := last_seen; pruning := pruning rq; msg_buf_size := msg_buf_size rq;
  seq_results := seq_results rq; errmsgs := errmsgs rq; route_gets := route_gets rq |}.
Definition with_pruning (p : RefreshAllType -> Z) (buf_size : Z) rq : Requests := {|
  scheduled := scheduled rq; refresh_all_in_progress := refresh_all_in_progress rq; list_wait_for_nl_response := list_wait_for_nl_response rq;
  nlh_seq_next := nlh_seq_next rq; nlh_seq_last_seen := nlh_seq_last_seen rq; pruning := p; msg_buf_size := buf_size;
  seq_results := seq_results rq; errmsgs := errmsgs rq; route_gets := route_gets rq |}.
Definition with_answers (results : gmap positive Z) (msgs : gmap positive (list byte)) (routes : gmap positive NMPObjectData) rq : Requests := {|
  scheduled := scheduled rq; refresh_all_in_progress := refresh_all_in_progress rq; list_wait_for_nl_response := list_wait_for_nl_response rq;
  nlh_seq_next := nlh_seq_next rq; nlh_seq_last_seen := nlh_seq_last_seen rq; pruning := pruning rq; msg_buf_size := msg_buf_size rq;
  seq_results := results; errmsgs := msgs; route_gets := routes |}.

(** A counter of a type changes by [n]. *)
Definition add_at t (n : Z) (f : RefreshAllType -> Z) : RefreshAllType -> Z := fun t' => if decide (t' = t) then f t + n else f t'.
Definition add_progress t (n : Z) rq : Requests := with_progress (add_at t n (refresh_all_in_progress rq)) rq.

Definition has_flag (action_type : Z) rq : bool := negb (Z.land (da_flags (scheduled rq)) action_type =? 0).
Definition clear_flag (action_type : Z) rq : Requests :=
  with_scheduled {| da_flags := Z.land (da_flags (scheduled rq)) (Z.lnot action_type);
                    list_master_connected := list_master_connected (scheduled rq); list_refresh_link := list_refresh_link (scheduled rq) |} rq.
Definition schedule (action_type user_data : Z) rq : Requests := with_scheduled (delayed_action_schedule action_type user_data (scheduled rq)) rq.

(** Whether a message about an object of the type is part of a dump. *)
Definition delayed_action_refresh_all_in_progress rq t : bool :=
  has_flag (delayed_action_type_from_refresh_all_type t) rq || (0 <? refresh_all_in_progress rq t).

(** ** Sending *)

(** A new sequence number is never zero. *)
Definition _nlh_seq_next_get rq : Z * Requests :=
  let seq := u32 (nlh_seq_next rq + 1) in
  let seq := if seq =? 0 then u32 (seq + 1) else seq in
  (seq, with_seqs seq (nlh_seq_last_seen rq) rq).

(** The clock says [now] (in nanoseconds). *)
Definition delayed_action_schedule_WAIT_FOR_NL_RESPONSE (now seq_number : Z) (out_seq_result out_errmsg : option positive) (response : NlResponse) rq : Requests :=
  let data := {| wd_seq_number := seq_number; wd_seq_result := WAIT_FOR_NL_RESPONSE_RESULT_UNKNOWN; wd_timeout_abs_ns := now + 200 * (1000000000 / 1000);
                 wd_out_seq_result := out_seq_result; wd_out_errmsg := out_errmsg; wd_response := response |} in
  schedule DELAYED_ACTION_TYPE_WAIT_FOR_NL_RESPONSE 0 (with_waits (list_wait_for_nl_response rq ++ [data]) rq).

(** What the system does with a message: whether there is memory for it, what
    nl_send_auto () returns, and the time after that. *)
Record SendEnv := { se_allocated : bool; se_nle : Z; se_now : Z }.

Definition _nl_send_nlmsg (env : SendEnv) (out_seq_result out_errmsg : option positive) (response : NlResponse) rq : Z * Requests :=
  let '(seq, rq) := _nlh_seq_next_get rq in
  if se_nle env <? 0 then (se_nle env, rq)
  else (0, delayed_action_schedule_WAIT_FOR_NL_RESPONSE (se_now env) seq out_seq_result out_errmsg response rq).

(** ** Sequence numbers *)

(** The first element for which there is a change is changed. *)
Fixpoint change_first {A} (f : A -> option A) (l : list A) : option (A * list A) :=
  match l with
  | [] => None
  | x :: l =>
      match f x with
      | Some y => Some (x, y :: l)
      | None => match change_first f l with Some (z, l') => Some (z, x :: l') | None => None end
      end
  end.

(** The last seen number has changed: a dump with that number is complete. *)
Definition complete_refresh rq : Requests :=
  match change_first (fun data => match wd_response data with
                                  | RESPONSE_REFRESH_ALL_IN_PROGRESS (Some _) =>
                                      if wd_seq_number data =? nlh_seq_last_seen rq
                                      then Some (with_response (RESPONSE_REFRESH_ALL_IN_PROGRESS None) data) else None
                                  | _ => None
                                  end) (list_wait_for_nl_response rq) with
  | Some (data, l) =>
      match wd_response data with
      | RESPONSE_REFRESH_ALL_IN_PROGRESS (Some t) => add_progress t (-1) (with_waits l rq)
      | _ => rq
      end
  | None => rq
  end.

Definition event_seq_check_refresh_all (seq_number : Z) rq : option Requests :=
  if (seq_number =? 0) || (seq_number =? nlh_seq_last_seen rq) then Some rq
  else
    rq ← (if has_flag DELAYED_ACTION_TYPE_WAIT_FOR_NL_RESPONSE rq then
            _ ← nm_assert (0 <? length (list_wait_for_nl_response rq))%nat;
            Some (complete_refresh rq)
          else Some rq);
    Some (with_seqs (nlh_seq_next rq) seq_number rq).

(** The result of a request is kept until it is collected; an error stays. *)
Definition seq_check_result (seq_result : Z) (data : WaitData) : WaitData :=
  if wd_seq_result data <? 0 then data
  else if negb (seq_result =? WAIT_FOR_NL_RESPONSE_RESULT_RESPONSE_UNKNOWN) || (wd_seq_result data =? WAIT_FOR_NL_RESPONSE_RESULT_UNKNOWN)
  then with_result seq_result data
  else data.

(** g_strdup () of NULL is NULL. *)
Definition set_errmsg (out_errmsg : option positive) (msg : option (list byte)) rq : Requests :=
  match out_errmsg, msg with
  | Some p, Some msg =>
      match errmsgs rq !! p with
      | None => with_answers (seq_results rq) (<[p := msg]> (errmsgs rq)) (route_gets rq) rq
      | Some _ => rq
      end
  | _, _ => rq
  end.

Definition event_seq_check (seq_number seq_result : Z) (msg : option (list byte)) rq : option Requests :=
  if (seq_number =? 0) || negb (has_flag DELAYED_ACTION_TYPE_WAIT_FOR_NL_RESPONSE rq) then Some rq
  else
    _ ← nm_assert (0 <? length (list_wait_for_nl_response rq))%nat;
    match change_first (fun data => if wd_seq_number data =? seq_number then Some (seq_check_result seq_result data) else None)
            (list_wait_for_nl_response rq) with
    | Some (data, l) => Some (set_errmsg (wd_out_errmsg data) msg (with_waits l rq))
    | None => Some rq
    end.

(** A route that someone asked for: the first request of it gets a copy. *)
Fixpoint route_get_loop (seq_number : Z) (v : NMPObjectData) (l : list WaitData) (routes : gmap positive NMPObjectData)
  : option (list WaitData * gmap positive NMPObjectData) :=
  match l with
  | [] => Some ([], routes)
  | data :: l =>
      match wd_response data with
      | RESPONSE_ROUTE_GET (Some p) =>
          _ ← nm_assert (bool_decide (routes !! p = None));
          if wd_seq_number data =? seq_number then Some (with_response (RESPONSE_ROUTE_GET None) data :: l, <[p := v]> routes)
          else '(l, routes) ← route_get_loop seq_number v l routes; Some (data :: l, routes)
      | _ => '(l, routes) ← route_get_loop seq_number v l routes; Some (data :: l, routes)
      end
  end.

(** An IPv4 route is only the answer to a request if it is cloned. *)
Definition route_may_answer (v : NMPObjectData) : bool :=
  match v with
  | OBJ_IP6_ROUTE _ => true
  | OBJ_IP4_ROUTE r => negb (Z.land (rx_r_rtm_flags (r4_rx r)) RTM_F_CLONED =? 0)
  | _ => false
  end.

Definition route_get_response (seq_number : Z) (v : NMPObjectData) rq : option Requests :=
  if route_may_answer v && has_flag DELAYED_ACTION_TYPE_WAIT_FOR_NL_RESPONSE rq then
    _ ← nm_assert (0 <? length (list_wait_for_nl_response rq))%nat;
    '(l, routes) ← route_get_loop seq_number v (list_wait_for_nl_response rq) (route_gets rq);
    Some (with_answers (seq_results rq) (errmsgs rq) routes (with_waits l rq))
  else Some rq.

(** ** Completion *)

(** g_array_remove_index_fast (): the last one takes the place. *)
Definition array_remove_fast {A} (idx : nat) (l : list A) : list A :=
  let n := pred (length l) in
  match last l with
  | Some x => if (idx =? n)%nat then take n l else <[idx := x]> (take n l)
  | None => l
  end.

Definition set_seq_result (out_seq_result : option positive) (seq_result : Z) rq : Requests :=
  match out_seq_result with Some p => with_answers (<[p := seq_result]> (seq_results rq)) (errmsgs rq) (route_gets rq) rq | None => rq end.

(** The response is for nobody any more. *)
Definition finish_response (response : NlResponse) rq : option Requests :=
  match response with
  | RESPONSE_REFRESH_ALL_IN_PROGRESS (Some t) =>
      _ ← nm_assert (0 <? refresh_all_in_progress rq t);
      Some (add_progress t (-1) rq)
  | RESPONSE_ROUTE_GET (Some p) =>
      _ ← nm_assert (bool_decide (route_gets rq !! p = None));
      Some rq
  | _ => Some rq
  end.

Definition delayed_action_wait_for_nl_response_complete (idx : nat) (seq_result : Z) rq : option Requests :=
  _ ← nm_assert (has_flag DELAYED_ACTION_TYPE_WAIT_FOR_NL_RESPONSE rq && (idx <? length (list_wait_for_nl_response rq))%nat && negb (seq_result =? 0));
  data ← list_wait_for_nl_response rq !! idx;
  let rq := if (length (list_wait_for_nl_response rq) <=? 1)%nat then clear_flag DELAYED_ACTION_TYPE_WAIT_FOR_NL_RESPONSE rq else rq in
  rq ← finish_response (wd_response data) (set_seq_result (wd_out_seq_result data) seq_result rq);
  Some (with_waits (array_remove_fast idx (list_wait_for_nl_response rq)) rq).

(** The conversion of a 64-bit integer to int. *)
Definition int_of (z : Z) : Z := (z + 2147483648) mod 4294967296 - 2147483648.

(** What the check tells: the next timeout, and when it is. *)
Record NextTimeout := { next_seq_number : Z; next_timeout_abs_ns : Z; next_now_ns : Z }.

(** The clock is read when the first timeout is looked at (again while it says zero,
    during one check it stays as it is); now_ns is an int. *)
Definition read_now (clock : Z) (next : NextTimeout) : NextTimeout := {|
  next_seq_number := next_seq_number next; next_timeout_abs_ns := next_timeout_abs_ns next;
  next_now_ns := if next_now_ns next =? 0 then int_of clock else next_now_ns next |}.

Definition next_timeout (data : WaitData) (next : NextTimeout) : NextTimeout :=
  if (next_seq_number next =? 0) || (wd_timeout_abs_ns data <? next_timeout_abs_ns next)
  then {| next_seq_number := wd_seq_number data; next_timeout_abs_ns := wd_timeout_abs_ns data; next_now_ns := next_now_ns next |}
  else next.

(** What becomes of a request: the result that completes it, if any.  [clock] is the
    time, if timeouts are to be checked (p_now_ns). *)
Definition check_result (force_result : Z) (clock : option Z) (data : WaitData) (next : NextTimeout) : option Z * NextTimeout :=
  if negb (wd_seq_result data =? 0) then (Some (wd_seq_result data), next)
  else
    let next := match clock with Some clock => read_now clock next | None => next end in
    if match clock with Some _ => wd_timeout_abs_ns data <=? next_now_ns next | None => false end
    then (Some WAIT_FOR_NL_RESPONSE_RESULT_FAILED_TIMEOUT, next)
    else if negb (force_result =? WAIT_FOR_NL_RESPONSE_RESULT_UNKNOWN) then (Some force_result, next)
    else (None, next_timeout data next).

(** The loop, with the [n] elements from [i] on to look at. *)
Fixpoint complete_check_loop (n i : nat) (force_result : Z) (clock : option Z) (next : NextTimeout) rq : option (NextTimeout * Requests) :=
  match n with
  | O => Some (next, rq)
  | S n =>
      data ← list_wait_for_nl_response rq !! i;
      match check_result force_result clock data next with
      | (Some result, next) =>
          rq ← delayed_action_wait_for_nl_response_complete i result rq;
          complete_check_loop n i force_result clock next rq
      | (None, next) => complete_check_loop n (S i) force_result clock next rq
      end
  end.

Definition delayed_action_wait_for_nl_response_complete_check (force_result : Z) (clock : option Z) rq : option (NextTimeout * Requests) :=
  '(next, rq) ← complete_check_loop (length (list_wait_for_nl_response rq)) 0 force_result clock
                  {| next_seq_number := 0; next_timeout_abs_ns := 0; next_now_ns := 0 |} rq;
  _ ← nm_assert ((force_result =? WAIT_FOR_NL_RESPONSE_RESULT_UNKNOWN)
                 || (negb (has_flag DELAYED_ACTION_TYPE_WAIT_FOR_NL_RESPONSE rq) && (length (list_wait_for_nl_response rq) =? 0)%nat));
  Some (next, rq).

Definition delayed_action_wait_for_nl_response_complete_all (fallback_result : Z) rq : option Requests :=
  '(_, rq) ← delayed_action_wait_for_nl_response_complete_check fallback_result None rq;
  Some rq.

(** ** Messages *)

Definition NLM_F_MULTI : Z := 2.
Definition NLM_F_DUMP_INTR : Z := 16.
Definition EINTR : Z := 4.
Definition EAGAIN : Z := 11.
Definition ENOBUFS : Z := 105.
Definition NME_NL_MSG_TRUNC : Z := 100004.
Definition NME_NL_DUMP_INTR : Z := 100006.
Definition NME_NL_MSG_OVERFLOW : Z := 100010.

Definition nm_errno_native (errsv : Z) : Z :=
  if errsv =? 0 then 2147483646 else if errsv =? -2147483648 then 2147483647 else Z.abs errsv.

(** The calls of delayed_action_schedule () for changes of the cache. *)
Inductive Sched :=
| SCHEDULE_MASTER (ifindex : Z)
| SCHEDULE_LINK (ifindex : Z)
| SCHEDULE_REFRESH (ts : list RefreshAllType).

Definition run_sched (c : Sched) rq : Requests :=
  match c with
  | SCHEDULE_MASTER ifindex => schedule DELAYED_ACTION_TYPE_MASTER_CONNECTED ifindex rq
  | SCHEDULE_LINK ifindex => schedule DELAYED_ACTION_TYPE_REFRESH_LINK ifindex rq
  | SCHEDULE_REFRESH ts => with_scheduled (schedule_refresh ts (scheduled rq)) rq
  end.

Definition run_scheds (cs : list Sched) rq : Requests := fold_left (fun rq c => run_sched c rq) cs rq.

(** The types of messages.  An error tells its code and its text, or is truncated; of
    a message for the cache there is the route of a new route, and what is scheduled
    for the change of the cache (NmpCacheEvents). *)
Inductive MsgBody :=
| MSG_DONE
| MSG_NOOP
| MSG_OVERRUN
| MSG_ERROR (e : option (Z * option (list byte)))
| MSG_VALID (route : option NMPObjectData) (changes : list Sched).

Record NlMsg := { nlmsg_flags : Z; nlmsg_seq : Z; nlmsg_body : MsgBody }.

(** The result of the request, and the text of an error. *)
Definition message_result (body : MsgBody) : Z * option (list byte) :=
  match body with
  | MSG_DONE => (WAIT_FOR_NL_RESPONSE_RESULT_RESPONSE_OK, None)
  | MSG_NOOP | MSG_OVERRUN | MSG_ERROR None => (WAIT_FOR_NL_RESPONSE_RESULT_RESPONSE_UNKNOWN, None)
  | MSG_ERROR (Some (error, text)) =>
      if error =? 0 then (WAIT_FOR_NL_RESPONSE_RESULT_RESPONSE_OK, None) else (- nm_errno_native error, text)
  | MSG_VALID _ _ => (WAIT_FOR_NL_RESPONSE_RESULT_RESPONSE_OK, None)
  end.

(** The error with which parsing is aborted. *)
Definition message_abort (body : MsgBody) : option Z :=
  match body with
  | MSG_OVERRUN => Some (- NME_NL_MSG_OVERFLOW)
  | MSG_ERROR None => Some (- NME_NL_MSG_TRUNC)
  | _ => None
  end.

(** event_valid_msg (), as far as requests are concerned. *)
Definition event_valid_requests (seq_number : Z) (route : option NMPObjectData) (changes : list Sched) (handle_events : bool) rq : option Requests :=
  if handle_events then
    rq ← match route with Some v => route_get_response seq_number v rq | None => Some rq end;
    Some (run_scheds changes rq)
  else Some rq.

Definition event_message (handle_events : bool) (m : NlMsg) rq : option Requests :=
  rq ← event_seq_check_refresh_all (nlmsg_seq m) rq;
  rq ← match nlmsg_body m with MSG_VALID route changes => event_valid_requests (nlmsg_seq m) route changes handle_events rq | _ => Some rq end;
  let '(seq_result, extack_msg) := message_result (nlmsg_body m) in
  event_seq_check (nlmsg_seq m) seq_result extack_msg rq.

(** ** Receiving *)

(** What nl_recv () gives: an error, or a buffer of messages, from the kernel or not. *)
Inductive Recv :=
| RECV_ERROR (n : Z)
| RECV_BUFFER (from_kernel : bool) (msgs : list NlMsg).

(** The variables of event_handler_recvmsgs (). *)
Record RecvState := { multipart : bool; interrupted : bool; recv_err : Z }.

Definition note_flags (m : NlMsg) (st : RecvState) : RecvState := {|
  multipart := match nlmsg_body m with MSG_DONE => false | _ => multipart st || negb (Z.land (nlmsg_flags m) NLM_F_MULTI =? 0) end;
  interrupted := interrupted st || negb (Z.land (nlmsg_flags m) NLM_F_DUMP_INTR =? 0);
  recv_err := recv_err st |}.
Definition with_err (err : Z) (st : RecvState) : RecvState := {| multipart := multipart st; interrupted := interrupted st; recv_err := err |}.

(** The messages of a buffer; whether to go to stop. *)
Fixpoint recv_messages (handle_events from_kernel : bool) (msgs : list NlMsg) (st : RecvState) rq : option (bool * RecvState * Requests) :=
  match msgs with
  | [] => Some (false, st, rq)
  | m :: msgs =>
      if negb from_kernel then Some (true, with_err 0 st, rq)
      else
        rq ← event_message handle_events m rq;
        match message_abort (nlmsg_body m) with
        | Some err => Some (true, with_err err (note_flags m st), rq)
        | None => recv_messages handle_events from_kernel msgs (with_err 0 (note_flags m st)) rq
        end
  end.

(** [stream] is what there is to be received; then EAGAIN.  With what is left. *)
Fixpoint event_handler_recvmsgs (handle_events : bool) (st : RecvState) (stream : list Recv) rq : option (Z * list Recv * Requests) :=
  match stream with
  | [] => Some (- EAGAIN, [], rq)
  | RECV_ERROR n :: stream =>
      if (n =? - NME_NL_MSG_TRUNC) && (msg_buf_size rq <? 512 * 1024) then
        let rq := with_pruning (pruning rq) (msg_buf_size rq * 2) rq in
        if handle_events then Some (n, stream, rq) else event_handler_recvmsgs handle_events st stream rq
      else Some (n, stream, rq)
  | RECV_BUFFER from_kernel msgs :: stream =>
      '(stop, st, rq) ← recv_messages handle_events from_kernel msgs st rq;
      if (negb stop && multipart st) || negb handle_events then event_handler_recvmsgs handle_events st stream rq
      else Some (if interrupted st then - NME_NL_DUMP_INTR else recv_err st, stream, rq)
  end.

Definition recv_start : RecvState := {| multipart := false; interrupted := false; recv_err := 0 |}.

(** Reading until there is nothing more; it gets shorter each time.  Whether there was
    anything. *)
Fixpoint read_all (fuel : nat) (any : bool) (stream : list Recv) rq : option (bool * Requests) :=
  match fuel with
  | O => None
  | S fuel =>
      '(nle, stream, rq) ← event_handler_recvmsgs true recv_start stream rq;
      if nle =? - EAGAIN then Some (any, rq)
      else if (nle =? - NME_NL_MSG_TRUNC) || (nle =? - ENOBUFS) then
        '(_, stream, rq) ← event_handler_recvmsgs false recv_start stream rq;
        rq ← delayed_action_wait_for_nl_response_complete_all WAIT_FOR_NL_RESPONSE_RESULT_FAILED_RESYNC rq;
        read_all fuel true stream (schedule DELAYED_ACTION_TYPE_REFRESH_ALL 0 rq)
      else read_all fuel true stream rq
  end.

(** ** Waiting for answers *)

Inductive Poll := POLL_READY | POLL_TIMEOUT | POLL_INTERRUPTED | POLL_ERROR.

(** What there is to be received until EAGAIN, the time then, and how poll () with a
    timeout ends. *)
Record Round := { received : list Recv; clock : Z; poll : Z -> Poll }.

(** timeout_ms is an int, too. *)
Definition poll_timeout (next : NextTimeout) : Z := Z.max 1 (int_of (Z.quot (next_timeout_abs_ns next - next_now_ns next) (1000000000 / 1000))).

Inductive ReadResult := RETURNED (any : bool) | POLLING.

(** The rounds one after the other; [skip] after a timeout, when nothing is read.  The
    platform is still polling after the last one. *)
Fixpoint read_rounds (wait_for_acks skip any : bool) (rounds : list Round) rq : option (ReadResult * Requests) :=
  match rounds with
  | [] => Some (POLLING, rq)
  | r :: rounds =>
      '(any, rq) ← (if skip then Some (any, rq) else read_all (S (length (received r))) any (received r) rq);
      if negb (has_flag DELAYED_ACTION_TYPE_WAIT_FOR_NL_RESPONSE rq) then Some (RETURNED any, rq)
      else
        '(next, rq) ← delayed_action_wait_for_nl_response_complete_check WAIT_FOR_NL_RESPONSE_RESULT_UNKNOWN (Some (clock r)) rq;
        if negb wait_for_acks || negb (has_flag DELAYED_ACTION_TYPE_WAIT_FOR_NL_RESPONSE rq) then Some (RETURNED any, rq)
        else
          _ ← nm_assert (negb (next_seq_number next =? 0) && (0 <? next_now_ns next) && (next_now_ns next <? next_timeout_abs_ns next));
          match poll r (poll_timeout next) with
          | POLL_READY | POLL_INTERRUPTED => read_rounds wait_for_acks false any rounds rq
          | POLL_TIMEOUT => read_rounds wait_for_acks true any rounds rq
          | POLL_ERROR =>
              rq ← delayed_action_wait_for_nl_response_complete_all WAIT_FOR_NL_RESPONSE_RESULT_FAILED_POLL rq;
              Some (RETURNED any, rq)
          end
  end.

(** Whether the namespace can be entered, and the rounds (one at least). *)
Record ReadEnv := { re_netns : bool; re_first : Round; re_more : list Round }.

Definition event_handler_read_netlink (env : ReadEnv) (wait_for_acks : bool) rq : option (ReadResult * Requests) :=
  if negb (re_netns env) then
    rq ← delayed_action_wait_for_nl_response_complete_all WAIT_FOR_NL_RESPONSE_RESULT_FAILED_SETNS rq;
    Some (RETURNED false, rq)
  else read_rounds wait_for_acks false false (re_first env :: re_more env) rq.

(** ** Requests *)

(** do_request_link_no_delayed_actions (), of an interface by its index; whether the
    cache has the link. *)
Definition do_request_link_no_delayed_actions (ifindex : Z) (known : bool) (env : ReadEnv) (send : SendEnv) rq : option Requests :=
  if negb (0 <? ifindex) then Some rq
  else
    let rq := if known then with_pruning (add_at REFRESH_ALL_TYPE_LINKS 1 (pruning rq)) (msg_buf_size rq) rq else rq in
    '(_, rq) ← event_handler_read_netlink env false rq;
    if se_allocated send then Some (_nl_send_nlmsg send None None RESPONSE_VOID rq).2 else Some rq.

(** The refresh of links makes the refreshes of single links needless. *)
Definition clear_refresh_link rq : option Requests :=
  _ ← nm_assert (eqb (0 <? length (list_refresh_link (scheduled rq)))%nat (has_flag DELAYED_ACTION_TYPE_REFRESH_LINK rq));
  if has_flag DELAYED_ACTION_TYPE_REFRESH_LINK rq then
    let rq := clear_flag DELAYED_ACTION_TYPE_REFRESH_LINK rq in
    Some (with_scheduled {| da_flags := da_flags (scheduled rq); list_master_connected := list_master_connected (scheduled rq); list_refresh_link := [] |} rq)
  else Some rq.

(** The request of the dump of a type. *)
Definition request_dump t (env : ReadEnv) (send : SendEnv) rq : option Requests :=
  _ ← nm_assert (0 <=? refresh_all_in_progress rq t);
  let rq := clear_flag (delayed_action_type_from_refresh_all_type t) (add_progress t 1 rq) in
  rq ← (if decide (t = REFRESH_ALL_TYPE_LINKS) then clear_refresh_link rq else Some rq);
  '(_, rq) ← event_handler_read_netlink env false rq;
  let '(nle, rq) := if se_allocated send then _nl_send_nlmsg send None None (RESPONSE_REFRESH_ALL_IN_PROGRESS (Some t)) rq else (-1, rq) in
  if nle <? 0 then
    _ ← nm_assert (0 <? refresh_all_in_progress rq t);
    Some (add_progress t (-1) rq)
  else Some rq.

Fixpoint request_dumps (ts : list RefreshAllType) (envs : RefreshAllType -> ReadEnv) (sends : RefreshAllType -> SendEnv) rq : option Requests :=
  match ts with
  | [] => Some rq
  | t :: ts => rq ← request_dump t (envs t) (sends t) rq; request_dumps ts envs sends rq
  end.

(** FOR_EACH_DELAYED_ACTION () of the types of refreshes. *)
Definition refresh_types (action_type : Z) : list RefreshAllType :=
  List.filter (fun t => negb (Z.land action_type (delayed_action_type_from_refresh_all_type t) =? 0)) all_refresh_types.

(** What is marked for that in the cache: [refresh_all_mark]. *)
Definition do_request_all_no_delayed_actions (action_type : Z) (envs : RefreshAllType -> ReadEnv) (sends : RefreshAllType -> SendEnv) rq : option Requests :=
  let ts := refresh_types action_type in
  request_dumps ts envs sends (with_pruning (fold_left (fun f t => add_at t 1 f) ts (pruning rq)) (msg_buf_size rq) rq).

(** ** Handling what is scheduled *)

(** What the system and the cache do while an action is handled. *)
Record OneEnv := {
  oe_master : list Sched; oe_read : ReadEnv; oe_known : bool; oe_send : SendEnv;
  oe_reads : RefreshAllType -> ReadEnv; oe_sends : RefreshAllType -> SendEnv
}.

Inductive OneResult := HANDLED | NOTHING_LEFT | STILL_POLLING.

Definition read_result (r : ReadResult) : OneResult := match r with RETURNED _ => HANDLED | POLLING => STILL_POLLING end.

(** The first of an array is taken; the flag is cleared with the last one. *)
Definition take_master rq : option (Z * Requests) :=
  let d := scheduled rq in
  _ ← nm_assert (0 <? length (list_master_connected d))%nat;
  user_data ← head (list_master_connected d);
  let l := remove_index_fast (list_master_connected d) in
  let rq := with_scheduled {| da_flags := da_flags d; list_master_connected := l; list_refresh_link := list_refresh_link d |} rq in
  let rq := if bool_decide (l = []) then clear_flag DELAYED_ACTION_TYPE_MASTER_CONNECTED rq else rq in
  _ ← nm_assert (negb (existsb (Z.eqb user_data) l));
  Some (user_data, rq).

Definition take_link rq : option (Z * Requests) :=
  let d := scheduled rq in
  _ ← nm_assert (0 <? length (list_refresh_link d))%nat;
  user_data ← head (list_refresh_link d);
  let l := remove_index_fast (list_refresh_link d) in
  let rq := with_scheduled {| da_flags := da_flags d; list_master_connected := list_master_connected d; list_refresh_link := l |} rq in
  let rq := if bool_decide (l = []) then clear_flag DELAYED_ACTION_TYPE_REFRESH_LINK rq else rq in
  _ ← nm_assert (negb (existsb (Z.eqb user_data) l));
  Some (user_data, rq).

Definition handle_one_request (env : OneEnv) rq : option (OneResult * Requests) :=
  if da_flags (scheduled rq) =? DELAYED_ACTION_TYPE_NONE then Some (NOTHING_LEFT, rq)
  else if has_flag DELAYED_ACTION_TYPE_MASTER_CONNECTED rq then
    '(_, rq) ← take_master rq;
    Some (HANDLED, run_scheds (oe_master env) rq)
  else
    _ ← nm_assert (length (list_master_connected (scheduled rq)) =? 0)%nat;
    if has_flag DELAYED_ACTION_TYPE_READ_NETLINK rq then
      '(r, rq) ← event_handler_read_netlink (oe_read env) false (clear_flag DELAYED_ACTION_TYPE_READ_NETLINK rq);
      Some (read_result r, rq)
    else if has_flag DELAYED_ACTION_TYPE_REFRESH_ALL rq then
      let flags := Z.land (da_flags (scheduled rq)) DELAYED_ACTION_TYPE_REFRESH_ALL in
      rq ← do_request_all_no_delayed_actions flags (oe_reads env) (oe_sends env) (clear_flag DELAYED_ACTION_TYPE_REFRESH_ALL rq);
      Some (HANDLED, rq)
    else if has_flag DELAYED_ACTION_TYPE_REFRESH_LINK rq then
      '(user_data, rq) ← take_link rq;
      rq ← do_request_link_no_delayed_actions user_data (oe_known env) (oe_read env) (oe_send env) rq;
      Some (HANDLED, rq)
    else if has_flag DELAYED_ACTION_TYPE_WAIT_FOR_NL_RESPONSE rq then
      _ ← nm_assert (0 <? length (list_wait_for_nl_response rq))%nat;
      '(r, rq) ← event_handler_read_netlink (oe_read env) true rq;
      Some (read_result r, rq)
    else Some (NOTHING_LEFT, rq).

(** Actions as long as there are some, or until there is nothing more to tell of the
    system; with whether there were any, if it came to the end. *)
Fixpoint handle_loop (any : bool) (envs : list OneEnv) rq : option (option bool * Requests) :=
  match envs with
  | [] => Some (None, rq)
  | env :: envs =>
      '(r, rq) ← handle_one_request env rq;
      match r with
      | HANDLED => handle_loop true envs rq
      | NOTHING_LEFT => Some (Some any, rq)
      | STILL_POLLING => Some (None, rq)
      end
  end.

(** cache_prune_all (): the types that are to be pruned now. *)
Definition prune_counters (p : RefreshAllType -> Z) : RefreshAllType -> Z := fun t => if p t =? 0 then 0 else p t - 1.
Definition pruned_types (p : RefreshAllType -> Z) : list RefreshAllType := List.filter (fun t => p t =? 1) all_refresh_types.

(** [changes] is what pruning a type schedules. *)
Definition cache_prune_all (changes : RefreshAllType -> list Sched) rq : Requests :=
  run_scheds (flat_map changes (pruned_types (pruning rq))) (with_pruning (prune_counters (pruning rq)) (msg_buf_size rq) rq).

Definition delayed_action_handle_all (read_netlink : bool) (envs : list OneEnv) (changes : RefreshAllType -> list Sched) rq : option (option bool * Requests) :=
  let rq := if read_netlink then schedule DELAYED_ACTION_TYPE_READ_NETLINK 0 rq else rq in
  '(any, rq) ← handle_loop false envs rq;
  Some (any, match any with Some _ => cache_prune_all changes rq | None => rq end).

(** The platform when it is constructed. *)
Definition no_requests : Requests := {|
  scheduled := {| da_flags := 0; list_master_connected := []; list_refresh_link := [] |};
  refresh_all_in_progress := fun _ => 0; list_wait_for_nl_response := []; nlh_seq_next := 0; nlh_seq_last_seen := 0;
  pruning := fun _ => 0; msg_buf_size := 32 * 1024; seq_results := ∅; errmsgs := ∅; route_gets := ∅ |}.
End requests.
