(* ===== verification/NlRequestInv.v ===== *)
(** * Netlink requests: the bookkeeping agrees with itself

    The flags agree with the arrays, the counters with the requests that wait, and
    each request that has a variable for its result keeps it until it has the result. *)

From S2P Require Export NlRequest NmpCacheRun.

(** ** Flags *)

Lemma shiftl_1_testbit k i : 0 <= k -> Z.testbit (Z.shiftl 1 k) i = (i =? k).
Proof. intros Hk. rewrite Z.shiftl_1_l. rewrite Z.pow2_bits_eqb by done. apply Z.eqb_sym. Qed.

Lemma land_shiftl_1 f k : 0 <= k -> negb (Z.land f (Z.shiftl 1 k) =? 0) = Z.testbit f k.
Proof.
  intros Hk. destruct (Z.testbit f k) eqn:E.
  - apply negb_true_iff, Z.eqb_neq. intros E2. assert (Z.testbit (Z.land f (Z.shiftl 1 k)) k = false) as E3 by (rewrite E2; apply Z.bits_0).
    rewrite Z.land_spec, shiftl_1_testbit, E, Z.eqb_refl in E3; done.
  - apply negb_false_iff, Z.eqb_eq, Z.bits_inj'. intros i Hi. rewrite Z.land_spec, shiftl_1_testbit, Z.bits_0 by done.
    destruct (Z.eqb_spec i k) as [->|_]; [by rewrite E|apply andb_false_r].
Qed.

Lemma clear_testbit f m i : 0 <= i -> Z.testbit (Z.land f (Z.lnot m)) i = Z.testbit f i && negb (Z.testbit m i).
Proof. intros Hi. by rewrite Z.land_spec, Z.lnot_spec. Qed.

(** The flag of an array is set if there is something in it. *)
Definition array_ok (flags k : Z) (l : list Z) : Prop := NoDup l /\ (Z.testbit flags k = true <-> l <> []).

Record scheduled_ok (d : Delayed) : Prop := {
  so_known i : 13 <= i -> Z.testbit (da_flags d) i = false;
  so_masters : array_ok (da_flags d) 10 (list_master_connected d);
  so_links : array_ok (da_flags d) 9 (list_refresh_link d)
}.

(** Flags of other actions do not matter. *)
Lemma array_flags f f' k l : Z.testbit f' k = Z.testbit f k -> array_ok f k l -> array_ok f' k l.
Proof. intros E [Hn Hf]. split; [done|]. by rewrite E. Qed.

Lemma add_once_array f f' k x l : Z.testbit f' k = true -> array_ok f k l -> array_ok f' k (add_once x l).
Proof.
  intros E [Hn Hf]. split; [by apply add_once_NoDup|]. split; [intros _ E2|done].
  assert (x ∈ add_once x l) as Hx by (apply elem_of_add_once; by left). rewrite E2 in Hx. by apply elem_of_nil in Hx.
Qed.

(** Actions without an array. *)
Definition plain_action (m : Z) : Prop := Z.testbit m 9 = false /\ Z.testbit m 10 = false /\ (forall i, 13 <= i -> Z.testbit m i = false).

Lemma plain_or m m' : plain_action m -> plain_action m' -> plain_action (Z.lor m m').
Proof. intros (A & B & C) (A' & B' & C'). split_and!; try (rewrite Z.lor_spec; apply orb_false_iff; by split). intros i Hi. rewrite Z.lor_spec, C, C'; done. Qed.

Lemma plain_refresh t : plain_action (delayed_action_type_from_refresh_all_type t).
Proof.
  unfold delayed_action_type_from_refresh_all_type, plain_action. rewrite !shiftl_1_testbit by (by destruct t).
  split_and!; try by destruct t. intros i Hi. rewrite shiftl_1_testbit by (by destruct t). apply Z.eqb_neq. destruct t; cbn; lia.
Qed.

Lemma plain_refreshes ts : plain_action (foldr (fun t => Z.lor (delayed_action_type_from_refresh_all_type t)) 0 ts).
Proof.
  induction ts as [|t ts IH]; cbn [foldr]; [|by apply plain_or; [apply plain_refresh|]]. split_and!; [done|done|]. intros i _. apply Z.bits_0.
Qed.

Lemma refreshes_testbit ts k : 9 <= k -> Z.testbit (foldr (fun t => Z.lor (delayed_action_type_from_refresh_all_type t)) 0 ts) k = false.
Proof.
  intros Hk. induction ts as [|t ts IH]; cbn [foldr]; [apply Z.bits_0|]. rewrite Z.lor_spec, IH, orb_false_r.
  unfold delayed_action_type_from_refresh_all_type. rewrite shiftl_1_testbit by (by destruct t). apply Z.eqb_neq. destruct t; cbn; lia.
Qed.

Lemma plain_flag k : 0 <= k < 13 -> k <> 9 -> k <> 10 -> plain_action (Z.shiftl 1 k).
Proof. intros Hk H9 H10. unfold plain_action. split_and!; try intros i Hi; rewrite shiftl_1_testbit by lia; apply Z.eqb_neq; lia. Qed.

Lemma plain_not_arrays m : plain_action m -> m <> DELAYED_ACTION_TYPE_MASTER_CONNECTED /\ m <> DELAYED_ACTION_TYPE_REFRESH_LINK.
Proof. intros (A & B & _). split; intros ->; done. Qed.

(** What becomes of the flag of requests. *)
Lemma schedule_plain_ok m d : plain_action m -> scheduled_ok d -> scheduled_ok (delayed_action_schedule m 0 d).
Proof.
  intros Hm [K M L]. destruct (plain_not_arrays m Hm) as [N1%Z.eqb_neq N2%Z.eqb_neq]. destruct Hm as (A & B & C).
  unfold delayed_action_schedule. rewrite N1, N2. split; cbn [da_flags list_master_connected list_refresh_link].
  - intros i Hi. by rewrite Z.lor_spec, K, C.
  - apply (array_flags (da_flags d)); [|done]. by rewrite Z.lor_spec, B, orb_false_r.
  - apply (array_flags (da_flags d)); [|done]. by rewrite Z.lor_spec, A, orb_false_r.
Qed.

Lemma schedule_master_ok i d : scheduled_ok d -> scheduled_ok (delayed_action_schedule DELAYED_ACTION_TYPE_MASTER_CONNECTED i d).
Proof.
  intros [K M L]. unfold delayed_action_schedule, DELAYED_ACTION_TYPE_MASTER_CONNECTED. split; cbn [da_flags list_master_connected list_refresh_link].
  - intros j Hj. rewrite Z.lor_spec, K, shiftl_1_testbit by lia. apply Z.eqb_neq. lia.
  - rewrite Z.eqb_refl. apply (add_once_array (da_flags d)); [|done]. by rewrite Z.lor_spec, orb_comm.
  - apply (array_flags (da_flags d)); [|done]. by rewrite Z.lor_spec, orb_comm.
Qed.

Lemma schedule_link_ok i d : scheduled_ok d -> scheduled_ok (delayed_action_schedule DELAYED_ACTION_TYPE_REFRESH_LINK i d).
Proof.
  intros [K M L]. unfold delayed_action_schedule, DELAYED_ACTION_TYPE_REFRESH_LINK. split; cbn [da_flags list_master_connected list_refresh_link].
  - intros j Hj. rewrite Z.lor_spec, K, shiftl_1_testbit by lia. apply Z.eqb_neq. lia.
  - apply (array_flags (da_flags d)); [|done]. by rewrite Z.lor_spec, orb_comm.
  - rewrite Z.eqb_refl. apply (add_once_array (da_flags d)); [|done]. by rewrite Z.lor_spec, orb_comm.
Qed.

Lemma clear_plain_ok m d :
  Z.testbit m 9 = false -> Z.testbit m 10 = false -> scheduled_ok d ->
  scheduled_ok {| da_flags := Z.land (da_flags d) (Z.lnot m); list_master_connected := list_master_connected d; list_refresh_link := list_refresh_link d |}.
Proof.
  intros A B [K M L]. split; cbn [da_flags list_master_connected list_refresh_link].
  - intros i Hi. by rewrite clear_testbit, K by lia.
  - apply (array_flags (da_flags d)); [|done]. by rewrite clear_testbit, B, andb_true_r.
  - apply (array_flags (da_flags d)); [|done]. by rewrite clear_testbit, A, andb_true_r.
Qed.

(** The first of an array is taken, the flag goes with the last. *)
Lemma take_array_ok f k l i :
  0 <= k -> array_ok f k l -> head l = Some i ->
  let l' := remove_index_fast l in
  array_ok (if bool_decide (l' = []) then Z.land f (Z.lnot (Z.shiftl 1 k)) else f) k l' /\ existsb (Z.eqb i) l' = false.
Proof.
  intros Hk [Hn Hf] Hi. cbv zeta. split; [split; [by apply remove_fast_NoDup|]|].
  - case_bool_decide as E; [rewrite clear_testbit, shiftl_1_testbit, Z.eqb_refl, andb_false_r, E by done; done|].
    rewrite Hf. split; [done|]. intros _ ->. done.
  - apply not_true_iff_false. intros (j & Hj & ->%Z.eqb_eq)%existsb_exists. apply list_elem_of_In, remove_fast_elem in Hj as [_ Hne]; done.
Qed.

(** ** Arrays *)

Lemma array_remove_fast_app {A} (pre : list A) x rest :
  exists rest', array_remove_fast (length pre) (pre ++ x :: rest) = pre ++ rest' /\ rest' ≡ₚ rest.
Proof.
  unfold array_remove_fast. rewrite length_app. cbn [length]. replace (pred (length pre + S (length rest))) with (length pre + length rest)%nat by lia.
  destruct rest as [|y l _] using rev_ind.
  - exists []. split; [|done]. rewrite last_snoc. cbn [length]. by rewrite Nat.add_0_r, Nat.eqb_refl, take_app_length, app_nil_r.
  - exists (y :: l). split; [|by rewrite Permutation_app_comm].
    assert (last (pre ++ x :: l ++ [y]) = Some y) as -> by (rewrite app_comm_cons, app_assoc; apply last_snoc).
    rewrite length_app. cbn [length]. destruct (Nat.eqb_spec (length pre) (length pre + (length l + 1))); [lia|].
    rewrite take_app_add. replace (length l + 1)%nat with (S (length l)) by lia. cbn [take]. rewrite take_app_length.
    rewrite insert_app_r_alt by lia. by rewrite Nat.sub_diag.
Qed.

Lemma array_remove_fast_Permutation {A} (l : list A) i x : l !! i = Some x -> x :: array_remove_fast i l ≡ₚ l.
Proof.
  intros E. pose proof (lookup_lt_Some _ _ _ E) as Hlt. rewrite <-(take_drop_middle l i x E) at 1 2.
  replace i with (length (take i l)) at 1 by (rewrite length_take; lia).
  destruct (array_remove_fast_app (take i l) x (drop (S i) l)) as (r & -> & Hr). rewrite Hr. apply Permutation_middle.
Qed.

Lemma array_remove_fast_nil {A} (l : list A) i x : l !! i = Some x -> array_remove_fast i l = [] <-> (length l <= 1)%nat.
Proof.
  intros E%array_remove_fast_Permutation. apply Permutation_length in E. cbn in E. rewrite <-length_zero_iff_nil. lia.
Qed.

Lemma change_first_spec {A} (f : A -> option A) l :
  match change_first f l with
  | Some (x, l') => exists l1 l2 y, l = l1 ++ x :: l2 /\ f x = Some y /\ l' = l1 ++ y :: l2 /\ Forall (fun z => f z = None) l1
  | None => Forall (fun z => f z = None) l
  end.
Proof.
  induction l as [|x l IH]; cbn [change_first]; [constructor|]. destruct (f x) as [y|] eqn:E; [by exists [], l, y|].
  destruct (change_first f l) as [[z l']|]; [|by constructor]. destruct IH as (l1 & l2 & y & -> & Ey & -> & Hf). exists (x :: l1), l2, y. split_and!; [done..|by constructor].
Qed.

(** ** The invariant *)

(** The requests that are counted for a type. *)
Definition refreshing (t : RefreshAllType) (data : WaitData) : bool :=
  match wd_response data with RESPONSE_REFRESH_ALL_IN_PROGRESS (Some t') => bool_decide (t' = t) | _ => false end.
Definition waiting (t : RefreshAllType) (l : list WaitData) : Z := foldr (fun data n => Z.b2z (refreshing t data) + n) 0 l.

(** The variables that wait for a route. *)
Definition route_var (data : WaitData) : option positive := match wd_response data with RESPONSE_ROUTE_GET r => r | _ => None end.
Definition route_vars (l : list WaitData) : list positive := omap route_var l.

(** A bound of the timeouts of requests. *)
Class TimeoutBound := timeout_ok : Z -> Prop.

(** While the dump of [open] is requested, its counter is one more. *)
Record requests_ok `{TimeoutBound} (open : option RefreshAllType) (rq : Requests) : Prop := {
  ro_scheduled : scheduled_ok (scheduled rq);
  ro_waits : Z.testbit (da_flags (scheduled rq)) 12 = true <-> list_wait_for_nl_response rq <> [];
  ro_progress t : refresh_all_in_progress rq t = waiting t (list_wait_for_nl_response rq) + Z.b2z (bool_decide (open = Some t));
  ro_seqs : Forall (fun data => 0 < wd_seq_number data < 2 ^ 32) (list_wait_for_nl_response rq);
  ro_timeouts : Forall (fun data => timeout_ok (wd_timeout_abs_ns data)) (list_wait_for_nl_response rq);
  ro_routes : NoDup (route_vars (list_wait_for_nl_response rq));
  ro_unset p : p ∈ route_vars (list_wait_for_nl_response rq) -> route_gets rq !! p = None
}.

(** A variable waits for its result, or has it. *)
Definition asks (rq : Requests) (p : positive) : Prop := exists data, data ∈ list_wait_for_nl_response rq /\ wd_out_seq_result data = Some p.
Definition answered (rq : Requests) (p : positive) : Prop := exists r, seq_results rq !! p = Some r /\ r <> 0.

Record carries (rq rq' : Requests) : Prop := {
  ca_asks p : asks rq p -> asks rq' p \/ answered rq' p;
  ca_answered p : answered rq p -> answered rq' p
}.

#[export] Instance carries_refl : Reflexive carries.
Proof. split; auto. Qed.
#[export] Instance carries_trans : Transitive carries.
Proof. intros r1 r2 r3 [A1 B1] [A2 B2]. split; [|by auto]. intros p [Hp|Hp]%A1; [by apply A2|right; by apply B2]. Qed.

(** Nothing happens to what waits. *)
Lemma carries_same rq rq' : list_wait_for_nl_response rq' = list_wait_for_nl_response rq -> seq_results rq' = seq_results rq -> carries rq rq'.
Proof. intros E1 E2. split; unfold asks, answered; rewrite ?E1, ?E2; auto. Qed.

Lemma waiting_app t l1 l2 : waiting t (l1 ++ l2) = waiting t l1 + waiting t l2.
Proof. induction l1 as [|x l1 IH]; cbn [app waiting foldr]; [done|]. unfold waiting in *. rewrite IH. lia. Qed.

Lemma waiting_Permutation t l1 l2 : l1 ≡ₚ l2 -> waiting t l1 = waiting t l2.
Proof. induction 1 as [|x l l' _ IH|x y l|l l' l'' _ IH1 _ IH2]; cbn [waiting foldr] in *; try unfold waiting in *; try lia; congruence. Qed.

Lemma waiting_nonneg t l : 0 <= waiting t l.
Proof. induction l as [|x l IH]; cbn [waiting foldr]; [done|]. unfold waiting in *. destruct (refreshing t x); cbn; lia. Qed.

#[export] Instance route_vars_Permutation : Proper (Permutation ==> Permutation) route_vars.
Proof. intros l l' Hl. unfold route_vars. by rewrite Hl. Qed.

Lemma route_vars_app l1 l2 : route_vars (l1 ++ l2) = route_vars l1 ++ route_vars l2.
Proof. apply omap_app. Qed.

(** The fields of changed requests. *)
Ltac rq_cbn := cbn [with_scheduled with_progress with_waits with_seqs with_pruning with_answers add_progress
  scheduled refresh_all_in_progress list_wait_for_nl_response nlh_seq_next nlh_seq_last_seen pruning msg_buf_size seq_results errmsgs route_gets
  da_flags list_master_connected list_refresh_link].

(** What is scheduled changes, but not whether there are requests. *)
Lemma requests_ok_scheduled `{TimeoutBound} open rq d :
  requests_ok open rq -> scheduled_ok d -> Z.testbit (da_flags d) 12 = Z.testbit (da_flags (scheduled rq)) 12 -> requests_ok open (with_scheduled d rq).
Proof. intros [S W P Q T R U] Hd E. split; rq_cbn; try done. by rewrite E. Qed.

(** ** Computations that keep it *)

Definition gives `{TimeoutBound} {A} (get : A -> Requests) (open : option RefreshAllType) (rq : Requests) (m : option A) : Prop :=
  exists x, m = Some x /\ requests_ok open (get x) /\ carries rq (get x).

Abbreviation gives_rq := (gives (A := Requests) id).

Lemma gives_ret `{TimeoutBound} {A} (get : A -> Requests) open rq x : requests_ok open (get x) -> carries rq (get x) -> gives get open rq (Some x).
Proof. intros Ho Hc. by exists x. Qed.

Lemma gives_bind `{TimeoutBound} {A B} (get : A -> Requests) (get' : B -> Requests) open open' rq (m : option A) (k : A -> option B) :
  gives get open rq m -> (forall x, requests_ok open (get x) -> gives get' open' (get x) (k x)) -> gives get' open' rq (m ≫= k).
Proof.
  intros (x & -> & Ho & Hc) Hk. cbn. destruct (Hk x Ho) as (y & -> & Ho' & Hc'). exists y. split; [done|]. split; [done|by etransitivity].
Qed.

Lemma gives_carries `{TimeoutBound} {A} (get : A -> Requests) open rq0 rq m : carries rq0 rq -> gives get open rq m -> gives get open rq0 m.
Proof. intros Hc (x & -> & Ho & Hc'). exists x. split; [done|]. split; [done|by etransitivity]. Qed.

Section inv.
Context `{NmAsserts} `{TimeoutBound}.
Implicit Types (rq : Requests) (t : RefreshAllType).

Lemma nm_assert_ok b : b = true -> nm_assert b = Some tt.
Proof. intros ->. unfold nm_assert. by rewrite andb_false_r. Qed.

Lemma has_wait_flag rq : has_flag DELAYED_ACTION_TYPE_WAIT_FOR_NL_RESPONSE rq = Z.testbit (da_flags (scheduled rq)) 12.
Proof. by apply land_shiftl_1. Qed.

(** The flag of requests is set if there are some. *)
Lemma has_wait open rq : requests_ok open rq -> has_flag DELAYED_ACTION_TYPE_WAIT_FOR_NL_RESPONSE rq = (0 <? length (list_wait_for_nl_response rq))%nat.
Proof.
  intros Hok. rewrite has_wait_flag. destruct (ro_waits _ _ Hok) as [W1 W2]. destruct (Z.testbit _ 12), (list_wait_for_nl_response rq) eqn:E; try done.
  - by destruct W1.
  - by rewrite W2.
Qed.

(** ** Scheduling *)

Lemma schedule_plain_gives open m rq : plain_action m -> Z.testbit m 12 = false -> requests_ok open rq -> requests_ok open (schedule m 0 rq).
Proof.
  intros Hm E Hok. apply requests_ok_scheduled; [done|by apply schedule_plain_ok, Hok|]. cbn [delayed_action_schedule da_flags]. by rewrite Z.lor_spec, E, orb_false_r.
Qed.

Lemma run_sched_ok open c rq : requests_ok open rq -> requests_ok open (run_sched c rq).
Proof.
  intros Hok. destruct c as [i|i|ts]; cbn [run_sched]; apply requests_ok_scheduled; try done.
  - apply schedule_master_ok, Hok.
  - cbn [delayed_action_schedule da_flags]. rewrite Z.lor_spec. apply orb_false_r.
  - apply schedule_link_ok, Hok.
  - cbn [delayed_action_schedule da_flags]. rewrite Z.lor_spec. apply orb_false_r.
  - apply schedule_plain_ok; [apply plain_refreshes|apply Hok].
  - cbn [schedule_refresh delayed_action_schedule da_flags]. rewrite Z.lor_spec, refreshes_testbit by lia. apply orb_false_r.
Qed.

Lemma run_sched_carries c rq : carries rq (run_sched c rq).
Proof. by apply carries_same; destruct c. Qed.

Lemma run_scheds_ok open cs rq : requests_ok open rq -> requests_ok open (run_scheds cs rq) /\ carries rq (run_scheds cs rq).
Proof.
  revert rq. induction cs as [|c cs IH]; intros rq Hok; [by split|]. cbn [run_scheds fold_left].
  destruct (IH (run_sched c rq)) as [Ho Hc]; [by apply run_sched_ok|]. split; [done|]. etransitivity; [apply run_sched_carries|done].
Qed.

Lemma clear_plain_gives open m rq :
  Z.testbit m 9 = false -> Z.testbit m 10 = false -> Z.testbit m 12 = false -> requests_ok open rq -> requests_ok open (clear_flag m rq).
Proof.
  intros A B C Hok. apply requests_ok_scheduled; [done|by apply clear_plain_ok, Hok|]. rq_cbn. by rewrite clear_testbit, C, andb_true_r.
Qed.

(** ** Sending *)

Lemma seq_next_range rq : 0 < (_nlh_seq_next_get rq).1 < 2 ^ 32.
Proof.
  unfold _nlh_seq_next_get. cbv zeta. cbn [fst]. pose proof (u32_range (nlh_seq_next rq + 1)) as Hr.
  destruct (Z.eqb_spec (u32 (nlh_seq_next rq + 1)) 0) as [->|Hne]; [by vm_compute|lia].
Qed.

(** What a request may wait for: the dump that is open, a route for a new variable. *)
Definition response_ok (open : option RefreshAllType) (response : NlResponse) rq : Prop :=
  match response with
  | RESPONSE_VOID => open = None
  | RESPONSE_REFRESH_ALL_IN_PROGRESS r => r <> None /\ open = r
  | RESPONSE_ROUTE_GET None => open = None
  | RESPONSE_ROUTE_GET (Some p) => open = None /\ p ∉ route_vars (list_wait_for_nl_response rq) /\ route_gets rq !! p = None
  end.

Lemma with_seqs_ok open a b rq : requests_ok open rq -> requests_ok open (with_seqs a b rq).
Proof. by intros []. Qed.
Lemma with_pruning_ok open p n rq : requests_ok open rq -> requests_ok open (with_pruning p n rq).
Proof. by intros []. Qed.

Lemma schedule_wait_ok open now seq p q response rq :
  requests_ok open rq -> 0 < seq < 2 ^ 32 -> timeout_ok (now + 200 * (1000000000 / 1000)) -> response_ok open response rq ->
  requests_ok None (delayed_action_schedule_WAIT_FOR_NL_RESPONSE now seq p q response rq).
Proof.
  intros [S W P Q T R U] Hseq Ht Hre. unfold delayed_action_schedule_WAIT_FOR_NL_RESPONSE. cbv zeta.
  set (data := Build_WaitData _ _ _ _ _ _). split; unfold schedule; rq_cbn.
  - apply schedule_plain_ok; [by apply plain_flag|done].
  - cbn [delayed_action_schedule da_flags]. rewrite Z.lor_spec, (orb_comm (Z.testbit _ 12)). split; [|done]. intros _. by destruct (list_wait_for_nl_response rq).
  - intros t. rewrite waiting_app, P. cbn [waiting foldr]. unfold refreshing. cbn [data wd_response].
    destruct response as [|r|[v|]]; cbn [response_ok] in Hre; [subst open|destruct Hre as [Hr ->]; destruct r as [r|]; [|done]|destruct Hre as (-> & _)|subst open]; cbn [Z.b2z]; try (rewrite bool_decide_eq_false_2 by done; cbn; lia).
    rewrite (bool_decide_eq_false_2 (None = Some t)) by done. assert (bool_decide (Some r = Some t) = bool_decide (r = t)) as -> by (apply bool_decide_ext; split; [by intros [= ->]|by intros ->]). cbn. lia.
  - apply Forall_app. split; [done|]. by apply Forall_singleton.
  - apply Forall_app. split; [done|]. by apply Forall_singleton.
  - rewrite route_vars_app. destruct response as [|r|[v|]]; cbn [route_vars omap list_omap route_var data wd_response]; rewrite ?app_nil_r; try done.
    destruct Hre as (_ & Hn & _). apply NoDup_app. split_and!; [done| |apply NoDup_singleton]. by intros x Hx ->%list_elem_of_singleton.
  - intros v. rewrite route_vars_app, elem_of_app. intros [Hv|Hv]; [by apply U|]. destruct response as [|r|[v'|]]; cbn [route_vars omap list_omap route_var data wd_response] in Hv; try by apply elem_of_nil in Hv.
    apply list_elem_of_singleton in Hv as ->. apply Hre.
Qed.

Lemma asks_app rq l l' p : asks (with_waits l rq) p -> asks (with_waits (l ++ l') rq) p.
Proof. intros (data & Hd & E). exists data. split; [|done]. rq_cbn. apply elem_of_app. by left. Qed.

Lemma schedule_wait_carries now seq p q response rq : carries rq (delayed_action_schedule_WAIT_FOR_NL_RESPONSE now seq p q response rq).
Proof.
  split; [|done]. intros v Hv. left. unfold delayed_action_schedule_WAIT_FOR_NL_RESPONSE. cbv zeta.
  apply (asks_app rq _ [_]). destruct Hv as (data & Hd & E). by exists data.
Qed.

Lemma send_ok env p q response open rq :
  requests_ok open rq -> timeout_ok (se_now env + 200 * (1000000000 / 1000)) -> response_ok open response rq ->
  let r := _nl_send_nlmsg env p q response rq in
  carries rq r.2 /\
  if r.1 <? 0 then requests_ok open r.2
  else requests_ok None r.2 /\ forall v, p = Some v -> asks r.2 v.
Proof.
  intros Hok Ht Hre. unfold _nl_send_nlmsg, _nlh_seq_next_get. cbv zeta. pose proof (seq_next_range rq) as Hseq. unfold _nlh_seq_next_get in Hseq. cbn [fst] in Hseq.
  set (seq := if _ =? 0 then _ else _) in *. set (rq1 := with_seqs _ _ _). assert (Hok1 : requests_ok open rq1) by by apply with_seqs_ok.
  destruct (Z.ltb_spec (se_nle env) 0) as [Hn|Hn]; cbn [fst snd].
  - rewrite (proj2 (Z.ltb_lt _ _) Hn). split; [by apply carries_same|done].
  - cbn [Z.ltb Z.compare]. split; [|split].
    + etransitivity; [by apply (carries_same rq rq1)|apply schedule_wait_carries].
    + by apply (schedule_wait_ok open).
    + intros v ->. eexists. split; [apply elem_of_app; right; by apply list_elem_of_singleton|done].
Qed.

(** ** Sequence numbers *)

(** A request that stays as it is, but for its result or its response. *)
Record same_request (x y : WaitData) : Prop := {
  sr_seq : wd_seq_number y = wd_seq_number x;
  sr_out : wd_out_seq_result y = wd_out_seq_result x;
  sr_errmsg : wd_out_errmsg y = wd_out_errmsg x;
  sr_timeout : wd_timeout_abs_ns y = wd_timeout_abs_ns x
}.

Lemma carries_changed rq rq' l1 l2 x y :
  list_wait_for_nl_response rq = l1 ++ x :: l2 -> list_wait_for_nl_response rq' = l1 ++ y :: l2 -> same_request x y -> seq_results rq' = seq_results rq -> carries rq rq'.
Proof.
  intros E E' Hs Er. split; [|unfold answered; by rewrite Er]. intros p (data & Hd & Ep). left. rewrite E in Hd.
  apply elem_of_app in Hd as [Hd|[->|Hd]%elem_of_cons].
  - exists data. split; [|done]. rewrite E'. apply elem_of_app. by left.
  - exists y. rewrite E', (sr_out _ _ Hs). split; [|done]. apply elem_of_app. right. left.
  - exists data. split; [|done]. rewrite E'. apply elem_of_app. right. by right.
Qed.

(** One request changes: its response as [after] tells. *)
Lemma requests_ok_changed open rq rq' l1 l2 x y :
  requests_ok open rq -> list_wait_for_nl_response rq = l1 ++ x :: l2 -> list_wait_for_nl_response rq' = l1 ++ y :: l2 -> same_request x y ->
  scheduled rq' = scheduled rq ->
  (forall t, refresh_all_in_progress rq' t = refresh_all_in_progress rq t + Z.b2z (refreshing t y) - Z.b2z (refreshing t x)) ->
  (route_var y = route_var x /\ route_gets rq' = route_gets rq \/
   route_var y = None /\ forall p, route_var x <> Some p -> route_gets rq' !! p = route_gets rq !! p) ->
  requests_ok open rq'.
Proof.
  intros [S W P Q T R U] E E' Hs Es Hp Hr. rewrite E in *. split; rewrite ?Es, ?E'; try done.
  - rewrite W. by destruct l1.
  - intros t. rewrite Hp, P, !waiting_app. cbn [waiting foldr]. lia.
  - apply Forall_app in Q as [Q1 Q2]. apply Forall_cons in Q2 as [Q2 Q3]. apply Forall_app. split; [done|]. apply Forall_cons. by rewrite (sr_seq _ _ Hs).
  - apply Forall_app in T as [T1 T2]. apply Forall_cons in T2 as [T2 T3]. apply Forall_app. split; [done|]. apply Forall_cons. by rewrite (sr_timeout _ _ Hs).
  - rewrite route_vars_app in *. cbn [route_vars omap list_omap] in *. destruct Hr as [[-> _]|[-> _]]; [done|]. destruct (route_var x); [|done].
    rewrite <-Permutation_middle in R. by apply NoDup_cons in R as [_ R].
  - intros p Hin. rewrite route_vars_app in *. cbn [route_vars omap list_omap] in *. destruct Hr as [[Er Eg]|[Er Eg]]; rewrite Er in Hin; [rewrite Eg; by apply U|].
    rewrite Eg; [apply U; destruct (route_var x); [rewrite elem_of_app in *; rewrite elem_of_cons; tauto|done]|].
    intros Ex. rewrite Ex, <-Permutation_middle in R. by apply NoDup_cons in R as [R _].
Qed.

Lemma response_same response x : same_request x (with_response response x).
Proof. done. Qed.

Lemma complete_refresh_ok open rq : requests_ok open rq -> requests_ok open (complete_refresh rq) /\ carries rq (complete_refresh rq).
Proof.
  intros Hok. unfold complete_refresh. match goal with |- context [change_first ?f ?l] => pose proof (change_first_spec f l) as Hf; destruct (change_first f l) as [[data l']|] end; [|done].
  destruct Hf as (l1 & l2 & y & E & Ey & -> & _). destruct (wd_response data) as [|[t|]|] eqn:Er; try done.
  destruct (wd_seq_number data =? nlh_seq_last_seen rq); [|done]. injection Ey as <-. split.
  - eapply (requests_ok_changed open rq _ l1 l2 data); [done|done|done|done|done| |].
    + intros t'. unfold add_progress, add_at. rq_cbn. unfold refreshing. rewrite Er. cbn [with_response wd_response]. destruct (decide (t' = t)) as [->|Hne].
      * rewrite bool_decide_eq_true_2 by done. cbn. lia.
      * rewrite bool_decide_eq_false_2 by done. cbn. lia.
    + left. split; [|done]. unfold route_var. by rewrite Er.
  - by apply (carries_changed rq _ l1 l2 data (with_response (RESPONSE_REFRESH_ALL_IN_PROGRESS None) data)).
Qed.

Lemma event_seq_check_refresh_all_ok seq open rq : requests_ok open rq -> gives_rq open rq (event_seq_check_refresh_all seq rq).
Proof.
  intros Hok. unfold event_seq_check_refresh_all. destruct (_ || _); [by apply gives_ret|]. apply (gives_bind id id open open).
  - rewrite (has_wait _ _ Hok). destruct (0 <? _)%nat eqn:E; [|by apply gives_ret]. rewrite nm_assert_ok by done. cbn. apply gives_ret; by apply (complete_refresh_ok open).
  - intros rq' Hok'. apply gives_ret; [by apply with_seqs_ok|by apply carries_same].
Qed.

Lemma result_same seq_result x : same_request x (seq_check_result seq_result x) /\ wd_response (seq_check_result seq_result x) = wd_response x.
Proof. unfold seq_check_result. destruct (_ <? 0); [done|]. by destruct (_ || _). Qed.

Lemma set_errmsg_same p msg rq : exists m, set_errmsg p msg rq = with_answers (seq_results rq) m (route_gets rq) rq.
Proof.
  assert (Hsame : rq = with_answers (seq_results rq) (errmsgs rq) (route_gets rq) rq) by by destruct rq.
  destruct p as [p|], msg as [msg|]; cbn; try (by exists (errmsgs rq)). destruct (errmsgs rq !! p); [by exists (errmsgs rq)|by eexists].
Qed.

Lemma event_seq_check_ok seq res msg open rq : requests_ok open rq -> gives_rq open rq (event_seq_check seq res msg rq).
Proof.
  intros Hok. unfold event_seq_check. rewrite (has_wait _ _ Hok). destruct (_ || _) eqn:Eo; [by apply gives_ret|].
  apply orb_false_iff in Eo as [_ Eo%negb_false_iff]. rewrite nm_assert_ok by done. cbn [mbind option_bind].
  match goal with |- context [change_first ?f ?l] => pose proof (change_first_spec f l) as Hf; destruct (change_first f l) as [[data l']|] end; [|by apply gives_ret].
  destruct Hf as (l1 & l2 & y & E & Ey & -> & _). destruct (_ =? seq); [|done]. injection Ey as <-. destruct (result_same res data) as [Hs Hr].
  destruct (set_errmsg_same (wd_out_errmsg data) msg (with_waits (l1 ++ seq_check_result res data :: l2) rq)) as [m ->]. apply gives_ret.
  - eapply (requests_ok_changed open rq _ l1 l2 data); [done|done|done|done|done| |].
    + intros t. unfold refreshing. rewrite Hr. unfold id. rq_cbn. lia.
    + left. split; [|done]. unfold route_var. by rewrite Hr.
  - by apply (carries_changed rq _ l1 l2 data (seq_check_result res data)).
Qed.

(** ** Routes *)

Lemma route_var_Some x p : route_var x = Some p <-> wd_response x = RESPONSE_ROUTE_GET (Some p).
Proof. unfold route_var. destruct (wd_response x) as [|?|[?|]]; split; congruence. Qed.

Lemma route_get_loop_spec seq v l routes :
  (forall p, p ∈ route_vars l -> routes !! p = None) ->
  route_get_loop seq v l routes = Some (l, routes) \/
  exists l1 x l2 p, l = l1 ++ x :: l2 /\ route_var x = Some p /\
    route_get_loop seq v l routes = Some (l1 ++ with_response (RESPONSE_ROUTE_GET None) x :: l2, <[p := v]> routes).
Proof.
  induction l as [|x l IH]; intros Hno; [by left|]. cbn [route_get_loop].
  assert (Hrest : forall p, p ∈ route_vars l -> routes !! p = None).
  { intros p Hp. apply Hno. unfold route_vars in *. cbn [omap list_omap]. destruct (route_var x); [by right|done]. }
  assert (Hstep : ('(l', r) ← route_get_loop seq v l routes; Some (x :: l', r)) = Some (x :: l, routes) \/
    exists l1 y l2 p, x :: l = l1 ++ y :: l2 /\ route_var y = Some p /\
      ('(l', r) ← route_get_loop seq v l routes; Some (x :: l', r)) = Some (l1 ++ with_response (RESPONSE_ROUTE_GET None) y :: l2, <[p := v]> routes)).
  { destruct (IH Hrest) as [->|(l1 & y & l2 & p & -> & Hp & ->)]; [by left|]. right. by exists (x :: l1), y, l2, p. }
  destruct (wd_response x) as [|?|[p|]] eqn:Er; try exact Hstep. apply route_var_Some in Er.
  rewrite nm_assert_ok. 2: { apply bool_decide_eq_true_2, Hno. unfold route_vars. cbn [omap list_omap]. rewrite Er. left. }
  cbn [mbind option_bind]. destruct (_ =? seq); [|exact Hstep]. right. by exists [], x, l, p.
Qed.

Lemma route_get_response_ok seq v open rq : requests_ok open rq -> gives_rq open rq (route_get_response seq v rq).
Proof.
  intros Hok. unfold route_get_response. rewrite (has_wait _ _ Hok). destruct (_ && _) eqn:E; [|by apply gives_ret].
  apply andb_true_iff in E as [_ E]. rewrite nm_assert_ok by done. cbn [mbind option_bind].
  destruct (route_get_loop_spec seq v (list_wait_for_nl_response rq) (route_gets rq)) as [->|(l1 & x & l2 & p & El & Ep & ->)]; [apply Hok| |]; cbn [mbind option_bind].
  - apply gives_ret; [by destruct Hok|by apply carries_same].
  - pose proof (proj1 (route_var_Some x p) Ep) as Er. apply gives_ret.
    + eapply (requests_ok_changed open rq _ l1 l2 x); [done|done|done|done|done| |].
      * intros t. unfold id, refreshing. rq_cbn. rewrite Er. cbn [with_response wd_response]. cbn. lia.
      * right. split; [done|]. intros q Hq. unfold id. rq_cbn. rewrite lookup_insert_ne; [done|]. congruence.
    + by apply (carries_changed rq _ l1 l2 x (with_response (RESPONSE_ROUTE_GET None) x)).
Qed.
End inv.
