(* ===== verification/NlRequestCheck.v ===== *)
(** * Netlink requests: what completes them

    A check completes exactly the requests that have a result or whose time is over,
    tells their callers, and finds the first timeout of the others. *)

From S2P Require Export NlRequestInv.

Section check.
Context `{NmAsserts} `{TimeoutBound}.
Implicit Types (rq : Requests) (t : RefreshAllType).

(** ** Completion *)

Definition set_result (p : option positive) (r : Z) (results : gmap positive Z) : gmap positive Z :=
  match p with Some p => <[p := r]> results | None => results end.

Lemma set_seq_result_eq p r rq : set_seq_result p r rq = with_answers (set_result p r (seq_results rq)) (errmsgs rq) (route_gets rq) rq.
Proof. by destruct p, rq. Qed.

Lemma waiting_cons t x l : waiting t (x :: l) = Z.b2z (refreshing t x) + waiting t l.
Proof. done. Qed.

Lemma refreshing_of t t' x : wd_response x = RESPONSE_REFRESH_ALL_IN_PROGRESS (Some t') -> refreshing t x = bool_decide (t' = t).
Proof. intros E. unfold refreshing. by rewrite E. Qed.

(** The counter of the request goes down. *)
Lemma finish_response_ok open data rq l :
  (forall t, refresh_all_in_progress rq t = waiting t (data :: l) + Z.b2z (bool_decide (open = Some t))) -> (forall p, route_var data = Some p -> route_gets rq !! p = None) ->
  exists f, finish_response (wd_response data) rq = Some (with_progress f rq) /\ forall t, f t = waiting t l + Z.b2z (bool_decide (open = Some t)).
Proof.
  intros Hp Hu. assert (Hsame : with_progress (refresh_all_in_progress rq) rq = rq) by by destruct rq.
  assert (Hkeep : (forall t, refreshing t data = false) -> exists f, Some rq = Some (with_progress f rq) /\ forall t, f t = waiting t l + Z.b2z (bool_decide (open = Some t))).
  { intros Hn. exists (refresh_all_in_progress rq). rewrite Hsame. split; [done|]. intros t. by rewrite Hp, waiting_cons, Hn. }
  destruct (wd_response data) as [|[t|]|[p|]] eqn:Er; cbn [finish_response]; try (apply Hkeep; intros t; unfold refreshing; by rewrite Er).
  - pose proof (waiting_nonneg t l) as Hw. rewrite nm_assert_ok.
    + eexists. split; [done|]. intros t'. unfold add_at. rewrite !Hp, !waiting_cons, !(refreshing_of _ t data Er).
      destruct (decide (t' = t)) as [->|Hne]; [rewrite bool_decide_eq_true_2 by done|rewrite bool_decide_eq_false_2 by congruence]; cbn [Z.b2z]; lia.
    + apply Z.ltb_lt. rewrite Hp, waiting_cons, (refreshing_of _ t data Er), bool_decide_eq_true_2 by done. destruct (bool_decide (open = Some t)); cbn [Z.b2z]; lia.
  - rewrite nm_assert_ok; [apply Hkeep; intros t; unfold refreshing; by rewrite Er|]. apply bool_decide_eq_true_2, Hu. by apply route_var_Some.
Qed.

Lemma set_result_answered p r results q : r <> 0 ->
  (exists r', results !! q = Some r' /\ r' <> 0) -> exists r', set_result p r results !! q = Some r' /\ r' <> 0.
Proof.
  intros Hr Hq. destruct p as [p|]; [|done]. cbn. destruct (decide (p = q)) as [->|Hne]; [exists r; by rewrite lookup_insert_eq|by rewrite lookup_insert_ne].
Qed.

Lemma complete_ok idx r data open rq :
  requests_ok open rq -> list_wait_for_nl_response rq !! idx = Some data -> r <> 0 ->
  exists rq', delayed_action_wait_for_nl_response_complete idx r rq = Some rq' /\ requests_ok open rq' /\ carries rq rq' /\
    list_wait_for_nl_response rq' = array_remove_fast idx (list_wait_for_nl_response rq) /\
    seq_results rq' = set_result (wd_out_seq_result data) r (seq_results rq).
Proof.
  intros Hok E Hr. pose proof (lookup_lt_Some _ _ _ E) as Hlt. unfold delayed_action_wait_for_nl_response_complete.
  rewrite nm_assert_ok. 2: { rewrite (has_wait _ _ Hok), !andb_true_iff, negb_true_iff, Z.eqb_neq, !Nat.ltb_lt. split_and!; [lia|done|done]. }
  cbn [mbind option_bind]. rewrite E. cbn [mbind option_bind]. rewrite set_seq_result_eq.
  set (l := list_wait_for_nl_response rq) in *. set (l' := array_remove_fast idx l). pose proof (array_remove_fast_Permutation l idx data E) as Hl. fold l' in Hl.
  set (rq1 := if (length l <=? 1)%nat then clear_flag DELAYED_ACTION_TYPE_WAIT_FOR_NL_RESPONSE rq else rq).
  destruct Hok as [S W P Q T R U].
  assert (Hs : scheduled_ok (scheduled rq1) /\ (Z.testbit (da_flags (scheduled rq1)) 12 = true <-> l' <> [])).
  { unfold l'. rewrite (array_remove_fast_nil l idx data E). unfold rq1. destruct (Nat.leb_spec (length l) 1) as [Hle|Hgt].
    - split; [by apply clear_plain_ok|]. unfold clear_flag. rq_cbn. rewrite clear_testbit by done. cbn. rewrite andb_false_r. split; [done|]. lia.
    - split; [done|]. rewrite W. fold l. split; [lia|]. intros _ El. rewrite El in Hgt. cbn in Hgt. lia. }
  assert (E1 : rq1 = with_scheduled (scheduled rq1) rq) by (unfold rq1; destruct (_ <=? 1)%nat; [done|by destruct rq]). rewrite E1.
  destruct (finish_response_ok open data (with_answers (set_result (wd_out_seq_result data) r (seq_results (with_scheduled (scheduled rq1) rq))) (errmsgs (with_scheduled (scheduled rq1) rq))
    (route_gets (with_scheduled (scheduled rq1) rq)) (with_scheduled (scheduled rq1) rq)) l') as (f & -> & Hf); rq_cbn.
  - intros t. rewrite P. by rewrite (waiting_Permutation t _ _ Hl).
  - intros p Hp. apply U. change (p ∈ route_vars l). rewrite <-Hl. unfold route_vars. cbn [omap list_omap]. rewrite Hp. left.
  - cbn [mbind option_bind]. eexists. split; [done|]. rq_cbn. fold l l'.
    assert (Hv : forall p, p ∈ route_vars l' -> p ∈ route_vars l) by (intros p Hp; rewrite <-Hl; unfold route_vars in *; cbn [omap list_omap]; destruct (route_var data); [by right|done]).
    split_and!; [|split|done|done].
    + split; rq_cbn; try apply Hs; try done.
      * change (list_wait_for_nl_response rq) with l in Q. rewrite <-Hl in Q. by apply Forall_cons in Q as [_ Q].
      * change (list_wait_for_nl_response rq) with l in T. rewrite <-Hl in T. by apply Forall_cons in T as [_ T].
      * change (list_wait_for_nl_response rq) with l in R. rewrite <-Hl in R. unfold route_vars in R. cbn [omap list_omap] in R. destruct (route_var data); [by apply NoDup_cons in R as [_ R]|done].
      * intros p Hp. by apply U, Hv.
    + intros p (x & Hx & Ep). change (list_wait_for_nl_response rq) with l in Hx. rewrite <-Hl in Hx. apply elem_of_cons in Hx as [->|Hx].
      * right. unfold answered. rq_cbn. rewrite Ep. cbn. exists r. by rewrite lookup_insert_eq.
      * left. by exists x.
    + intros p Hp. unfold answered. rq_cbn. by apply set_result_answered.
Qed.

(** ** The check *)

(** [now] is the time, if timeouts are checked. *)
Definition timed_out (now : option Z) (data : WaitData) : bool :=
  match now with Some now => wd_timeout_abs_ns data <=? now | None => false end.

(** The result that completes a request, if any. *)
Definition decided (force_result : Z) (now : option Z) (data : WaitData) : option Z :=
  if negb (wd_seq_result data =? 0) then Some (wd_seq_result data)
  else if timed_out now data then Some WAIT_FOR_NL_RESPONSE_RESULT_FAILED_TIMEOUT
  else if negb (force_result =? 0) then Some force_result else None.

Definition undecided (force_result : Z) (now : option Z) (data : WaitData) : bool := bool_decide (decided force_result now data = None).

(** The time is not read, or as it is. *)
Definition now_ok (now : option Z) (next : NextTimeout) : Prop :=
  match now with Some now => next_now_ns next = 0 \/ next_now_ns next = now | None => next_now_ns next = 0 end.

(** The first timeout of requests. *)
Definition earliest (now : option Z) (l : list WaitData) (next : NextTimeout) : Prop :=
  now_ok now next /\
  match l with
  | [] => next_seq_number next = 0
  | _ => (exists data, data ∈ l /\ next_seq_number next = wd_seq_number data /\ next_timeout_abs_ns next = wd_timeout_abs_ns data) /\
         (forall data, data ∈ l -> next_timeout_abs_ns next <= wd_timeout_abs_ns data) /\
         (forall n, now = Some n -> next_now_ns next = n)
  end.

Lemma decided_nonzero force now data r : decided force now data = Some r -> r <> 0.
Proof.
  unfold decided. destruct (Z.eqb_spec (wd_seq_result data) 0) as [E|E]; cbn [negb]; [|congruence].
  destruct (timed_out now data); [by intros [= <-]|]. destruct (Z.eqb_spec force 0); cbn [negb]; congruence.
Qed.

Lemma read_now_eq clk next : now_ok (Some (int_of clk)) next -> next_now_ns (read_now clk next) = int_of clk.
Proof. intros [E|E]; cbn [read_now next_now_ns]; rewrite E; [done|]. destruct (Z.eqb_spec (int_of clk) 0); congruence. Qed.

(** The time of a check: the clock, as an int has it. *)
Definition check_now (clock : option Z) : option Z := int_of <$> clock.

Lemma check_result_eq force clock data next :
  let now := check_now clock in
  now_ok now next ->
  (check_result force clock data next).1 = decided force now data /\ now_ok now (check_result force clock data next).2 /\
  (decided force now data <> None ->
     next_seq_number (check_result force clock data next).2 = next_seq_number next /\
     next_timeout_abs_ns (check_result force clock data next).2 = next_timeout_abs_ns next /\
     forall n, now = Some n -> next_now_ns next = n -> next_now_ns (check_result force clock data next).2 = n) /\
  (decided force now data = None ->
     exists next1, (check_result force clock data next).2 = next_timeout data next1 /\
       next_seq_number next1 = next_seq_number next /\ next_timeout_abs_ns next1 = next_timeout_abs_ns next /\
       forall n, now = Some n -> next_now_ns next1 = n).
Proof.
  intros now Hn. unfold check_result, decided, timed_out, WAIT_FOR_NL_RESPONSE_RESULT_UNKNOWN. destruct (negb (wd_seq_result data =? 0)); [by split_and!|].
  destruct clock as [clk|]; cbn [check_now fmap option_fmap option_map] in *; subst now.
  - rewrite (read_now_eq clk next Hn). pose proof (read_now_eq clk next Hn) as Er. destruct (_ <=? int_of clk); cbn [fst snd].
    { split_and!; [done|by right|intros _; split_and!; [done|done|congruence]|done]. }
    destruct (negb (force =? 0)); cbn [fst snd].
    + split_and!; [done|by right|intros _; split_and!; [done|done|congruence]|done].
    + split_and!; [done| |done|intros _; exists (read_now clk next); split_and!; try done; congruence]. right. unfold next_timeout. by destruct (_ || _).
  - destruct (negb (force =? 0)); cbn [fst snd]; (split_and!; [done| |done|]); try done.
    + unfold now_ok, next_timeout. by destruct (_ || _).
    + intros _. by exists next.
Qed.

(** One more request that stays. *)
Lemma earliest_snoc now pre data next next1 :
  0 < wd_seq_number data -> Forall (fun d => 0 < wd_seq_number d) pre -> earliest now pre next ->
  next_seq_number next1 = next_seq_number next -> next_timeout_abs_ns next1 = next_timeout_abs_ns next ->
  (forall n, now = Some n -> next_now_ns next1 = n) -> now_ok now (next_timeout data next1) ->
  earliest now (pre ++ [data]) (next_timeout data next1).
Proof.
  intros Hs Hpre [_ He] E1 E2 En Hok. split; [done|].
  assert (Hnow : forall n, now = Some n -> next_now_ns (next_timeout data next1) = n) by (intros n ->; unfold next_timeout; destruct (_ || _); by apply En).
  destruct pre as [|x pre]; cbn [app].
  - unfold next_timeout in *. rewrite E1, He in *. cbn [Z.eqb orb next_seq_number next_timeout_abs_ns] in *.
    split_and!; [exists data; split_and!; try done; left|intros d ->%list_elem_of_singleton; cbn; lia|exact Hnow].
  - destruct He as ((d & Hd & Es & Et) & Hmin & _). assert (Hd0 : next_seq_number next <> 0).
    { rewrite Forall_forall in Hpre. specialize (Hpre d Hd). lia. }
    unfold next_timeout in *. rewrite E1, E2 in *. apply Z.eqb_neq in Hd0. rewrite Hd0 in *. cbn [orb] in *.
    assert (Hlast : data ∈ x :: pre ++ [data]) by (rewrite app_comm_cons; apply elem_of_app; right; by apply list_elem_of_singleton).
    assert (Hin : forall d', d' ∈ x :: pre ++ [data] -> d' ∈ x :: pre \/ d' = data) by (intros d'; rewrite app_comm_cons, elem_of_app, list_elem_of_singleton; tauto).
    destruct (Z.ltb_spec (wd_timeout_abs_ns data) (next_timeout_abs_ns next)) as [Hlt|Hge]; cbn [next_seq_number next_timeout_abs_ns] in *; (split_and!; [| |exact Hnow]).
    + by exists data.
    + intros d' [Hd'| -> ]%Hin; [specialize (Hmin d' Hd')|]; lia.
    + exists d. rewrite E1, E2. split; [rewrite app_comm_cons; apply elem_of_app; by left|done].
    + intros d' [Hd'| -> ]%Hin; [specialize (Hmin d' Hd')|]; lia.
Qed.

(** A request with the variable gets an answer. *)
Definition tells (force : Z) (now : option Z) (l : list WaitData) (p : positive) (r : Z) : Prop :=
  exists data, data ∈ l /\ wd_out_seq_result data = Some p /\ decided force now data = Some r.

(** Who has an answer after the check; the variables of others stay. *)
Record delivered_results (force : Z) (now : option Z) (l : list WaitData) (res res' : gmap positive Z) : Prop := {
  dr_decided p : (exists r, tells force now l p r) -> exists r, tells force now l p r /\ res' !! p = Some r;
  dr_others p : ~ (exists r, tells force now l p r) -> res' !! p = res !! p
}.

Lemma tells_cons force now x l p r :
  tells force now (x :: l) p r <-> wd_out_seq_result x = Some p /\ decided force now x = Some r \/ tells force now l p r.
Proof.
  unfold tells. split.
  - intros (d & [->|Hd]%elem_of_cons & E); [by left|right; by exists d].
  - intros [E|(d & Hd & E)]; [exists x; split; [left|done]|exists d; split; [by right|done]].
Qed.

Lemma tells_Permutation force now l l' p r : l ≡ₚ l' -> tells force now l p r -> tells force now l' p r.
Proof. intros Hl (d & Hd & E). exists d. by rewrite <-Hl. Qed.

Lemma tells_dec force now l p : {exists r, tells force now l p r} + {~ exists r, tells force now l p r}.
Proof.
  induction l as [|x l [IH|IH]]; [right; by intros (r & d & Hd%elem_of_nil & _)|left; destruct IH as [r Hr]; exists r; apply tells_cons; by right|].
  destruct (decide (wd_out_seq_result x = Some p)) as [Ep|Ep], (decided force now x) as [r|] eqn:Ed;
    [left; exists r; apply tells_cons; by left|right; intros (r' & [[? ?]|?]%tells_cons); [congruence|apply IH; by exists r']..].
Qed.

Lemma delivered_skip force now x l res res' :
  decided force now x = None -> delivered_results force now l res res' -> delivered_results force now (x :: l) res res'.
Proof.
  intros Hx [D O]. assert (Ht : forall p r, tells force now (x :: l) p r <-> tells force now l p r).
  { intros p r. rewrite tells_cons. split; [intros [[_ ?]|?]; [congruence|done]|by right]. }
  split; intros p; setoid_rewrite Ht; [apply D|apply O].
Qed.

Lemma delivered_cons force now x l l' r res res' :
  decided force now x = Some r -> l' ≡ₚ l -> delivered_results force now l' (set_result (wd_out_seq_result x) r res) res' ->
  delivered_results force now (x :: l) res res'.
Proof.
  intros Hx Hl [D O]. assert (Hin : forall p r', tells force now l' p r' -> tells force now (x :: l) p r').
  { intros p r' Ht. apply tells_cons. right. by apply (tells_Permutation _ _ l'). }
  split; intros p.
  - intros Hp. destruct (tells_dec force now l' p) as [Hp'|Hn]; [destruct (D p Hp') as (r' & Ht & E); exists r'; split; [by apply Hin|done]|].
    destruct Hp as (r' & [[Ep _]|Ht]%tells_cons); [|destruct Hn; exists r'; by apply (tells_Permutation _ _ l)].
    exists r. split; [apply tells_cons; by left|]. rewrite (O p Hn), Ep. apply lookup_insert_eq.
  - intros Hn. rewrite O by (intros (r' & Ht); apply Hn; exists r'; by apply Hin).
    destruct (wd_out_seq_result x) as [q|] eqn:Eq; [|done]. cbn. rewrite lookup_insert_ne; [done|]. intros ->. apply Hn. exists r. apply tells_cons. by left.
Qed.

Lemma filter_Permutation_bool {A} (f : A -> bool) l l' : l ≡ₚ l' -> List.filter f l ≡ₚ List.filter f l'.
Proof.
  induction 1 as [|x l l' _ IH|x y l|l l' l'' _ IH1 _ IH2]; cbn [List.filter]; [done|by destruct (f x); [apply perm_skip|]| |by etransitivity].
  destruct (f x), (f y); try done. apply perm_swap.
Qed.

Record checked (force : Z) (now : option Z) (open : option RefreshAllType) rq (pre rest : list WaitData) (next : NextTimeout) (rq' : Requests) : Prop := {
  ck_ok : requests_ok open rq';
  ck_carries : carries rq rq';
  ck_left : list_wait_for_nl_response rq' ≡ₚ pre ++ List.filter (undecided force now) rest;
  ck_next : earliest now (list_wait_for_nl_response rq') next;
  ck_results : delivered_results force now rest (seq_results rq) (seq_results rq')
}.

Lemma complete_check_loop_ok force clock open n pre rest next rq :
  requests_ok open rq -> list_wait_for_nl_response rq = pre ++ rest -> length rest = n -> earliest (check_now clock) pre next ->
  exists next' rq', complete_check_loop n (length pre) force clock next rq = Some (next', rq') /\ checked force (check_now clock) open rq pre rest next' rq'.
Proof.
  revert pre rest next rq. induction n as [|n IH]; intros pre rest next rq Hok E Hn He.
  { destruct rest; [|done]. rewrite app_nil_r in E. exists next, rq. split; [done|]. split; [done|done|by rewrite E, app_nil_r|by rewrite E|by split; [intros p (r & d & Hd%elem_of_nil & _)|]]. }
  destruct rest as [|x rest]; [done|]. injection Hn as Hn. cbn [complete_check_loop].
  assert (El : list_wait_for_nl_response rq !! length pre = Some x) by (rewrite E; apply list_lookup_middle; done). rewrite El. cbn [mbind option_bind].
  destruct (check_result_eq force clock x next (proj1 He)) as (Er & Hnow & Hyes & Hno). destruct (check_result force clock x next) as [o next1]. cbn [fst snd] in *. subst o.
  assert (Hseq : 0 < wd_seq_number x /\ Forall (fun d => 0 < wd_seq_number d) pre).
  { pose proof (ro_seqs _ _ Hok) as Hq. rewrite E in Hq. apply Forall_app in Hq as [Hq [Hx _]%Forall_cons]. split; [lia|]. eapply Forall_impl; [exact Hq|]. cbn. lia. }
  destruct (decided force (check_now clock) x) as [r|] eqn:Ed.
  - destruct (complete_ok (length pre) r x open rq Hok El (decided_nonzero _ _ _ _ Ed)) as (rq1 & -> & Hok1 & Hc1 & E1 & R1). cbn [mbind option_bind].
    destruct (array_remove_fast_app pre x rest) as (rest' & Ea & Hp). rewrite E, Ea in E1. destruct (Hyes ltac:(done)) as (Y1 & Y2 & Y3).
    destruct (IH pre rest' next1 rq1 Hok1 E1) as (next' & rq' & -> & [K1 K2 K3 K4 K5]); [by rewrite Hp| |].
    { split; [done|]. destruct He as [_ He]. destruct pre; [congruence|]. rewrite Y1, Y2. destruct He as (? & ? & He). split_and!; [done|done|]. intros n' En. by apply Y3, He. }
    exists next', rq'. split; [done|]. split; [done|by etransitivity| |done|rewrite R1 in K5; by apply (delivered_cons _ _ x rest rest' r)].
    rewrite K3. cbn [List.filter]. unfold undecided at 2. rewrite bool_decide_eq_false_2 by congruence. by apply Permutation_app_head, filter_Permutation_bool.
  - destruct (Hno eq_refl) as (next2 & -> & N1 & N2 & N3).
    destruct (IH (pre ++ [x]) rest (next_timeout x next2) rq Hok) as (next' & rq' & Eq & [K1 K2 K3 K4 K5]); [by rewrite E, <-app_assoc|done|by apply (earliest_snoc _ _ _ next); try apply Hseq|].
    rewrite length_app, Nat.add_1_r in Eq. exists next', rq'. split; [exact Eq|]. split; [done|done| |done|by apply delivered_skip].
    rewrite K3, <-app_assoc. cbn [List.filter app]. unfold undecided at 2. by rewrite bool_decide_eq_true_2.
Qed.

Lemma decided_force force now data : force <> 0 -> undecided force now data = false.
Proof.
  intros Hf. apply bool_decide_eq_false_2. unfold decided. destruct (negb _); [done|]. destruct (timed_out now data); [done|]. apply Z.eqb_neq in Hf. by rewrite Hf.
Qed.

Lemma filter_all_false {A} (f : A -> bool) l : (forall x, f x = false) -> List.filter f l = [].
Proof. intros Hf. induction l as [|x l IH]; cbn; [done|]. by rewrite Hf. Qed.

Lemma complete_check_ok force clock open rq :
  requests_ok open rq ->
  exists next rq', delayed_action_wait_for_nl_response_complete_check force clock rq = Some (next, rq') /\
    checked force (check_now clock) open rq [] (list_wait_for_nl_response rq) next rq'.
Proof.
  intros Hok. unfold delayed_action_wait_for_nl_response_complete_check.
  destruct (complete_check_loop_ok force clock open (length (list_wait_for_nl_response rq)) [] (list_wait_for_nl_response rq)
    {| next_seq_number := 0; next_timeout_abs_ns := 0; next_now_ns := 0 |} rq Hok eq_refl eq_refl) as (next & rq' & E & Hk).
  { split; [destruct clock; [by left|done]|done]. }
  cbn [length] in E. rewrite E. cbn [mbind option_bind]. rewrite nm_assert_ok; [by exists next, rq'|].
  destruct (Z.eqb_spec force WAIT_FOR_NL_RESPONSE_RESULT_UNKNOWN) as [_|Hf]; [done|]. cbn [orb].
  pose proof (ck_left _ _ _ _ _ _ _ _ Hk) as Hl. rewrite filter_all_false in Hl by (intros x; by apply decided_force). apply Permutation_nil_r in Hl.
  by rewrite (has_wait _ _ (ck_ok _ _ _ _ _ _ _ _ Hk)), Hl.
Qed.

(** Then nothing waits any more. *)
Lemma complete_all_ok result open rq :
  requests_ok open rq -> result <> 0 ->
  exists rq', delayed_action_wait_for_nl_response_complete_all result rq = Some rq' /\ requests_ok open rq' /\ carries rq rq' /\
    list_wait_for_nl_response rq' = [] /\ delivered_results result None (list_wait_for_nl_response rq) (seq_results rq) (seq_results rq').
Proof.
  intros Hok Hr. unfold delayed_action_wait_for_nl_response_complete_all.
  destruct (complete_check_ok result None open rq Hok) as (next & rq' & -> & [K1 K2 K3 K4 K5]). cbn [mbind option_bind]. exists rq'. split_and!; try done.
  rewrite filter_all_false in K3 by (intros x; by apply decided_force). by apply Permutation_nil_r in K3.
Qed.
End check.
