(* ===== verification/NlRequestRun.v ===== *)
(** * Netlink requests: receiving, waiting, handling

    What is received, how the platform waits, and how it handles what is scheduled:
    all of it keeps the bookkeeping. *)

From S2P Require Export NlRequestCheck.

Section run.
Context `{NmAsserts} `{TimeoutBound}.
Implicit Types (rq : Requests) (t : RefreshAllType).

(** ** Messages *)

Lemma event_valid_requests_ok seq route changes handle_events open rq :
  requests_ok open rq -> gives_rq open rq (event_valid_requests seq route changes handle_events rq).
Proof.
  intros Hok. unfold event_valid_requests. destruct handle_events; [|by apply gives_ret]. apply (gives_bind id id open open).
  - destruct route as [v|]; [by apply route_get_response_ok|by apply gives_ret].
  - intros rq' Hok'. destruct (run_scheds_ok open changes rq' Hok'). by apply gives_ret.
Qed.

Lemma event_message_ok handle_events m open rq : requests_ok open rq -> gives_rq open rq (event_message handle_events m rq).
Proof.
  intros Hok. unfold event_message. apply (gives_bind id id open open); [by apply event_seq_check_refresh_all_ok|]. intros rq1 Hok1.
  apply (gives_bind id id open open).
  - destruct (nlmsg_body m); try by apply gives_ret. by apply event_valid_requests_ok.
  - intros rq2 Hok2. destruct (message_result (nlmsg_body m)). by apply event_seq_check_ok.
Qed.

Lemma recv_messages_ok handle_events from_kernel msgs st open rq :
  requests_ok open rq -> gives (fun x => x.2) open rq (recv_messages handle_events from_kernel msgs st rq).
Proof.
  revert st rq. induction msgs as [|m msgs IH]; intros st rq Hok; [by apply gives_ret|]. cbn [recv_messages]. destruct from_kernel; cbn [negb]; [|by apply gives_ret].
  apply (gives_bind id _ open open); [by apply event_message_ok|]. intros rq1 Hok1. destruct (message_abort (nlmsg_body m)); [by apply gives_ret|by apply IH].
Qed.

(** What is received gets less, if there is something. *)
Lemma recvmsgs_ok handle_events st stream open rq :
  requests_ok open rq ->
  exists n stream' rq', event_handler_recvmsgs handle_events st stream rq = Some (n, stream', rq') /\ requests_ok open rq' /\ carries rq rq' /\
    (stream = [] /\ n = - EAGAIN /\ stream' = [] \/ (length stream' < length stream)%nat).
Proof.
  revert st rq. induction stream as [|r stream IH]; intros st rq Hok; [exists (- EAGAIN), [], rq; split_and!; try done; by left|]. cbn [event_handler_recvmsgs].
  assert (Hret : forall n rq1, requests_ok open rq1 -> carries rq rq1 -> exists n' stream' rq', Some (n, stream, rq1) = Some (n', stream', rq') /\ requests_ok open rq' /\ carries rq rq' /\
    (r :: stream = [] /\ n' = - EAGAIN /\ stream' = [] \/ (length stream' < length (r :: stream))%nat)).
  { intros n rq1 Hok1 Hc1. exists n, stream, rq1. split_and!; try done. right. cbn. lia. }
  assert (Hrec : forall st1 rq1, requests_ok open rq1 -> carries rq rq1 -> exists n' stream' rq', event_handler_recvmsgs handle_events st1 stream rq1 = Some (n', stream', rq') /\
    requests_ok open rq' /\ carries rq rq' /\ (r :: stream = [] /\ n' = - EAGAIN /\ stream' = [] \/ (length stream' < length (r :: stream))%nat)).
  { intros st1 rq1 Hok1 Hc1. destruct (IH st1 rq1 Hok1) as (n' & stream' & rq' & -> & Hok' & Hc' & Hl). exists n', stream', rq'. split_and!; try done; [by etransitivity|].
    right. destruct Hl as [(-> & _ & ->)|Hl]; cbn in *; lia. }
  destruct r as [n|from_kernel msgs].
  - destruct (_ && _); [|by apply Hret]. assert (Hok1 := with_pruning_ok open (pruning rq) (msg_buf_size rq * 2) rq Hok).
    destruct handle_events; [by apply Hret; [|apply carries_same]|by apply Hrec; [|apply carries_same]].
  - destruct (recv_messages_ok handle_events from_kernel msgs st open rq Hok) as ([[stop st1] rq1] & -> & Hok1 & Hc1). cbn [mbind option_bind snd] in *.
    destruct (_ || _); [by apply Hrec|by apply Hret].
Qed.

Lemma refresh_all_plain : plain_action DELAYED_ACTION_TYPE_REFRESH_ALL /\ Z.testbit DELAYED_ACTION_TYPE_REFRESH_ALL 12 = false.
Proof. split; [apply plain_refreshes|by apply refreshes_testbit]. Qed.

Lemma read_all_ok fuel any stream open rq :
  requests_ok open rq -> (length stream < fuel)%nat -> gives snd open rq (read_all fuel any stream rq).
Proof.
  revert any stream rq. induction fuel as [|fuel IH]; intros any stream rq Hok Hlen; [lia|]. cbn [read_all].
  destruct (recvmsgs_ok true recv_start stream open rq Hok) as (n & stream1 & rq1 & -> & Hok1 & Hc1 & Hl1). cbn [mbind option_bind].
  destruct (Z.eqb_spec n (- EAGAIN)) as [_|Hn]; [by apply gives_ret|]. destruct Hl1 as [(_ & ? & _)|Hl1]; [done|].
  destruct (_ || _); [|apply (gives_carries _ _ _ rq1); [done|apply IH; [done|lia]]].
  destruct (recvmsgs_ok false recv_start stream1 open rq1 Hok1) as (n2 & stream2 & rq2 & -> & Hok2 & Hc2 & Hl2). cbn [mbind option_bind].
  destruct (complete_all_ok WAIT_FOR_NL_RESPONSE_RESULT_FAILED_RESYNC open rq2 Hok2) as (rq3 & -> & Hok3 & Hc3 & _ & _); [done|]. cbn [mbind option_bind].
  apply (gives_carries _ _ _ (schedule DELAYED_ACTION_TYPE_REFRESH_ALL 0 rq3)).
  - etransitivity; [exact Hc1|]. etransitivity; [exact Hc2|]. etransitivity; [exact Hc3|by apply carries_same].
  - apply IH; [by apply schedule_plain_gives; try apply refresh_all_plain|]. destruct Hl2 as [(_ & _ & ->)|Hl2]; cbn; lia.
Qed.

(** ** Waiting *)

(** Where assertions are checked, the time is positive as an int has it. *)
Definition clock_ok (r : Round) : Prop := more_asserts = true -> 0 < int_of (clock r).

Lemma int_of_small z : 0 <= z < 2 ^ 31 -> int_of z = z.
Proof. intros Hz. unfold int_of. rewrite Z.mod_small; lia. Qed.

Lemma nm_assert_unless b : (more_asserts = true -> b = true) -> nm_assert b = Some tt.
Proof. unfold nm_assert. destruct more_asserts; [|done]. intros Hb. by rewrite Hb. Qed.

(** What is waited for has a timeout in the future. *)
Lemma next_asserts clk open rq rq' next :
  (more_asserts = true -> 0 < int_of clk) -> checked WAIT_FOR_NL_RESPONSE_RESULT_UNKNOWN (check_now (Some clk)) open rq [] (list_wait_for_nl_response rq) next rq' ->
  list_wait_for_nl_response rq' <> [] ->
  nm_assert (negb (next_seq_number next =? 0) && (0 <? next_now_ns next) && (next_now_ns next <? next_timeout_abs_ns next)) = Some tt.
Proof.
  intros Hclk [K1 _ K3 [_ K4] _] Hne. apply nm_assert_unless. intros Hm. specialize (Hclk Hm). destruct (list_wait_for_nl_response rq') as [|x l] eqn:E; [done|].
  destruct K4 as ((d & Hd & Es & Et) & _ & Hnow). rewrite (Hnow (int_of clk) eq_refl), Es, Et.
  pose proof (ro_seqs _ _ K1) as Hq. rewrite Forall_forall in Hq. rewrite E in Hq. specialize (Hq d Hd).
  assert (Hu : undecided WAIT_FOR_NL_RESPONSE_RESULT_UNKNOWN (check_now (Some clk)) d = true) by (rewrite K3 in Hd; apply list_elem_of_In, filter_In in Hd; apply Hd).
  apply bool_decide_eq_true_1 in Hu. unfold decided, timed_out in Hu. cbn [check_now fmap option_fmap option_map] in Hu. destruct (negb (wd_seq_result d =? 0)); [done|].
  destruct (Z.leb_spec (wd_timeout_abs_ns d) (int_of clk)); [done|]. rewrite !andb_true_iff, negb_true_iff, Z.eqb_neq, !Z.ltb_lt. lia.
Qed.

Lemma read_rounds_ok wait_for_acks skip any rounds open rq :
  requests_ok open rq -> (wait_for_acks = true -> Forall clock_ok rounds) -> gives snd open rq (read_rounds wait_for_acks skip any rounds rq).
Proof.
  revert skip any rq. induction rounds as [|r rounds IH]; intros skip any rq Hok Hr; [by apply gives_ret|]. cbn [read_rounds].
  apply (gives_bind snd snd open open); [destruct skip; [by apply gives_ret|apply read_all_ok; [done|lia]]|]. intros [any1 rq1] Hok1. cbn [snd] in *.
  destruct (negb (has_flag _ rq1)); [by apply gives_ret|].
  destruct (complete_check_ok WAIT_FOR_NL_RESPONSE_RESULT_UNKNOWN (Some (clock r)) open rq1 Hok1) as (next & rq2 & -> & Hk). cbn [mbind option_bind].
  pose proof Hk as [Hok2 Hc2 _ _ _]. rewrite (has_wait _ _ Hok2). destruct (negb wait_for_acks || _) eqn:Ew; [by apply gives_ret|].
  apply orb_false_iff in Ew as [->%negb_false_iff Ew%negb_false_iff%Nat.ltb_lt]. destruct (proj1 (Forall_cons _ _ _) (Hr eq_refl)) as [Hr1 Hrs]. rewrite (next_asserts (clock r) open rq1 rq2 next); [|done|done|by intros E; rewrite E in Ew; cbn in Ew; lia].
  cbn [mbind option_bind]. destruct (poll r (poll_timeout next)); try (apply (gives_carries _ _ _ rq2); [done|by apply IH]).
  destruct (complete_all_ok WAIT_FOR_NL_RESPONSE_RESULT_FAILED_POLL open rq2 Hok2) as (rq3 & -> & Hok3 & Hc3 & _ & _); [done|]. cbn [mbind option_bind].
  apply gives_ret; [done|]. by transitivity rq2.
Qed.

Definition read_env_ok (env : ReadEnv) : Prop := clock_ok (re_first env) /\ Forall clock_ok (re_more env).

Lemma read_netlink_ok env wait_for_acks open rq :
  requests_ok open rq -> (wait_for_acks = true -> read_env_ok env) -> gives snd open rq (event_handler_read_netlink env wait_for_acks rq).
Proof.
  intros Hok Henv. unfold event_handler_read_netlink. destruct (re_netns env); cbn [negb].
  - apply read_rounds_ok; [done|]. intros [H1 H2]%Henv. by constructor.
  - destruct (complete_all_ok WAIT_FOR_NL_RESPONSE_RESULT_FAILED_SETNS open rq Hok) as (rq1 & -> & Hok1 & Hc1 & _ & _); [done|]. cbn [mbind option_bind]. by apply gives_ret.
Qed.

(** ** Requests *)

(** Requests are sent at a time that is fine for their timeouts. *)
Definition send_env_ok (send : SendEnv) : Prop := timeout_ok (se_now send + 200 * (1000000000 / 1000)).

Lemma do_request_link_ok ifindex known env send rq :
  requests_ok None rq -> send_env_ok send -> gives_rq None rq (do_request_link_no_delayed_actions ifindex known env send rq).
Proof.
  intros Hok Hsend. unfold do_request_link_no_delayed_actions. destruct (negb _); [by apply gives_ret|]. cbv zeta.
  set (rq1 := if known then _ else rq). assert (Hok1 : requests_ok None rq1) by (unfold rq1; destruct known; [by apply with_pruning_ok|done]).
  apply (gives_carries _ _ _ rq1); [unfold rq1; destruct known; [by apply carries_same|done]|].
  apply (gives_bind snd id None None); [by apply read_netlink_ok|]. intros [r rq2] Hok2. cbn [snd] in *. destruct (se_allocated send); [|by apply gives_ret].
  destruct (send_ok send None None RESPONSE_VOID None rq2 Hok2 Hsend eq_refl) as [Hc Hs]. apply gives_ret; [|done]. unfold id. destruct (_ <? 0); [done|apply Hs].
Qed.

Lemma add_progress_open t rq : requests_ok None rq -> requests_ok (Some t) (add_progress t 1 rq).
Proof.
  intros [S W P Q T R U]. split; try done. intros t'. unfold add_progress, add_at. rq_cbn. rewrite !P. destruct (decide (t' = t)) as [->|Hne].
  - rewrite (bool_decide_eq_true_2 (Some t = Some t)), (bool_decide_eq_false_2 (None = Some t)) by done. cbn. lia.
  - by rewrite (bool_decide_eq_false_2 (Some t = Some t')), (bool_decide_eq_false_2 (None = Some t')) by congruence.
Qed.

Lemma add_progress_close t rq : requests_ok (Some t) rq -> 0 < refresh_all_in_progress rq t /\ requests_ok None (add_progress t (-1) rq).
Proof.
  intros [S W P Q T R U]. split; [rewrite P, bool_decide_eq_true_2 by done; pose proof (waiting_nonneg t (list_wait_for_nl_response rq)); cbn; lia|].
  split; try done. intros t'. unfold add_progress, add_at. rq_cbn. rewrite !P. destruct (decide (t' = t)) as [->|Hne].
  - rewrite (bool_decide_eq_true_2 (Some t = Some t)), (bool_decide_eq_false_2 (None = Some t)) by done. cbn. lia.
  - by rewrite (bool_decide_eq_false_2 (Some t = Some t')), (bool_decide_eq_false_2 (None = Some t')) by congruence.
Qed.

Lemma has_flag_shiftl k rq : 0 <= k -> has_flag (Z.shiftl 1 k) rq = Z.testbit (da_flags (scheduled rq)) k.
Proof. apply land_shiftl_1. Qed.

Lemma array_ok_flag f k l : array_ok f k l -> Z.testbit f k = (0 <? length l)%nat.
Proof.
  intros [_ [H1 H2]]. destruct l as [|x l]; cbn [length Nat.ltb Nat.leb].
  - apply not_true_iff_false. intros E. by apply H1.
  - by apply H2.
Qed.

Lemma clear_refresh_link_ok open rq : requests_ok open rq -> gives_rq open rq (clear_refresh_link rq).
Proof.
  intros Hok. unfold clear_refresh_link. pose proof (ro_scheduled _ _ Hok) as [K M L]. unfold DELAYED_ACTION_TYPE_REFRESH_LINK. rewrite has_flag_shiftl, (array_ok_flag _ _ _ L) by done.
  rewrite nm_assert_ok by apply eqb_reflx. cbn [mbind option_bind]. destruct (0 <? _)%nat; [|by apply gives_ret].
  apply gives_ret; [|by apply carries_same]. unfold id, clear_flag. rq_cbn. apply (requests_ok_scheduled open rq); [done| |rq_cbn; by rewrite clear_testbit, andb_true_r].
  split; rq_cbn.
  - intros i Hi. by rewrite clear_testbit, K by lia.
  - apply (array_flags (da_flags (scheduled rq))); [by rewrite clear_testbit, andb_true_r|done].
  - split; [constructor|]. rewrite clear_testbit by done. cbn. by rewrite andb_false_r.
Qed.

Lemma refresh_type_bits t k : 9 <= k -> Z.testbit (delayed_action_type_from_refresh_all_type t) k = false.
Proof. intros Hk. unfold delayed_action_type_from_refresh_all_type. rewrite shiftl_1_testbit by (by destruct t). apply Z.eqb_neq. destruct t; cbn; lia. Qed.

Lemma request_dump_ok t env send rq : requests_ok None rq -> send_env_ok send -> gives_rq None rq (request_dump t env send rq).
Proof.
  intros Hok Hsend. unfold request_dump. rewrite nm_assert_ok. 2: { rewrite (ro_progress _ _ Hok). apply Z.leb_le. pose proof (waiting_nonneg t (list_wait_for_nl_response rq)). cbn. lia. }
  cbn [mbind option_bind]. set (rq1 := clear_flag _ _).
  assert (Hok1 : requests_ok (Some t) rq1) by (apply clear_plain_gives; try (by apply refresh_type_bits); by apply add_progress_open).
  apply (gives_carries _ _ _ rq1); [by apply carries_same|].
  apply (gives_bind id id (Some t) None); [destruct (decide _); [by apply clear_refresh_link_ok|by apply gives_ret]|]. intros rq2 Hok2. unfold id in Hok2.
  apply (gives_bind snd id (Some t) None); [by apply read_netlink_ok|]. intros [r rq3] Hok3. cbn [snd] in *.
  assert (Hfail : forall rq4, requests_ok (Some t) rq4 -> gives_rq None rq4 (_ ← nm_assert (0 <? refresh_all_in_progress rq4 t); Some (add_progress t (-1) rq4))).
  { intros rq4 Hok4. destruct (add_progress_close t rq4 Hok4) as [Hp Hok5]. rewrite nm_assert_ok by by apply Z.ltb_lt. apply gives_ret; [done|by apply carries_same]. }
  destruct (se_allocated send); [|by apply Hfail].
  destruct (send_ok send None None (RESPONSE_REFRESH_ALL_IN_PROGRESS (Some t)) (Some t) rq3 Hok3 Hsend) as [Hc Hs]; [done|].
  destruct (_nl_send_nlmsg _ _ _ _ _) as [nle rq4]. cbn [fst snd] in *. destruct (nle <? 0).
  - by apply (gives_carries _ _ _ rq4), Hfail.
  - destruct Hs as [Hs _]. by apply gives_ret.
Qed.

Lemma request_dumps_ok ts envs sends rq : requests_ok None rq -> (forall t, send_env_ok (sends t)) -> gives_rq None rq (request_dumps ts envs sends rq).
Proof.
  intros Hok Hsend. revert rq Hok. induction ts as [|t ts IH]; intros rq Hok; [by apply gives_ret|]. cbn [request_dumps].
  apply (gives_bind id id None None); [by apply request_dump_ok|]. intros rq1 Hok1. by apply IH.
Qed.

Lemma do_request_all_ok action_type envs sends rq :
  requests_ok None rq -> (forall t, send_env_ok (sends t)) -> gives_rq None rq (do_request_all_no_delayed_actions action_type envs sends rq).
Proof.
  intros Hok Hsend. unfold do_request_all_no_delayed_actions. cbv zeta. match goal with |- context [request_dumps _ _ _ ?r] => apply (gives_carries _ _ _ r); [by apply carries_same|] end.
  apply request_dumps_ok; [by apply with_pruning_ok|done].
Qed.

(** ** Handling *)

Record one_env_ok (env : OneEnv) : Prop := {
  oo_read : read_env_ok (oe_read env);
  oo_send : send_env_ok (oe_send env); oo_sends t : send_env_ok (oe_sends env t)
}.

Lemma array_ok_head f k l : array_ok f k l -> Z.testbit f k = true -> exists i, head l = Some i /\ (0 <? length l)%nat = true.
Proof. intros [_ Ha] Hf. apply Ha in Hf. destruct l as [|i l]; [done|]. by exists i. Qed.

Lemma take_master_ok rq : requests_ok None rq -> has_flag DELAYED_ACTION_TYPE_MASTER_CONNECTED rq = true -> gives snd None rq (take_master rq).
Proof.
  intros Hok Hf. unfold DELAYED_ACTION_TYPE_MASTER_CONNECTED in Hf. rewrite has_flag_shiftl in Hf by done. pose proof (ro_scheduled _ _ Hok) as [K M L].
  destruct (array_ok_head _ _ _ M Hf) as (i & Ei & Hlen). unfold take_master. rewrite nm_assert_ok by done. cbn [mbind option_bind]. rewrite Ei. cbn [mbind option_bind].
  destruct (take_array_ok (da_flags (scheduled rq)) 10 (list_master_connected (scheduled rq)) i ltac:(done) M Ei) as [Ha Hn]. rewrite nm_assert_ok by by rewrite Hn. cbn [mbind option_bind].
  set (l := remove_index_fast _) in *. apply gives_ret; [|by destruct (bool_decide _); apply carries_same]. cbn [snd]. destruct (bool_decide (l = [])); unfold clear_flag; rq_cbn.
  - apply (requests_ok_scheduled None rq); [done| |rq_cbn; by rewrite clear_testbit, andb_true_r]. split; rq_cbn; [|done|].
    + intros j Hj. by rewrite clear_testbit, K by lia.
    + apply (array_flags (da_flags (scheduled rq))); [by rewrite clear_testbit, andb_true_r|done].
  - by apply requests_ok_scheduled.
Qed.

Lemma take_link_ok rq : requests_ok None rq -> has_flag DELAYED_ACTION_TYPE_REFRESH_LINK rq = true -> gives snd None rq (take_link rq).
Proof.
  intros Hok Hf. unfold DELAYED_ACTION_TYPE_REFRESH_LINK in Hf. rewrite has_flag_shiftl in Hf by done. pose proof (ro_scheduled _ _ Hok) as [K M L].
  destruct (array_ok_head _ _ _ L Hf) as (i & Ei & Hlen). unfold take_link. rewrite nm_assert_ok by done. cbn [mbind option_bind]. rewrite Ei. cbn [mbind option_bind].
  destruct (take_array_ok (da_flags (scheduled rq)) 9 (list_refresh_link (scheduled rq)) i ltac:(done) L Ei) as [Ha Hn]. rewrite nm_assert_ok by by rewrite Hn. cbn [mbind option_bind].
  set (l := remove_index_fast _) in *. apply gives_ret; [|by destruct (bool_decide _); apply carries_same]. cbn [snd]. destruct (bool_decide (l = [])); unfold clear_flag; rq_cbn.
  - apply (requests_ok_scheduled None rq); [done| |rq_cbn; by rewrite clear_testbit, andb_true_r]. split; rq_cbn; [| |done].
    + intros j Hj. by rewrite clear_testbit, K by lia.
    + apply (array_flags (da_flags (scheduled rq))); [by rewrite clear_testbit, andb_true_r|done].
  - by apply requests_ok_scheduled.
Qed.

(** Nothing is scheduled. *)
Definition idle rq : Prop := da_flags (scheduled rq) = 0.

Lemma array_ok_zero k l : array_ok 0 k l -> l = [].
Proof. intros [_ [_ Hl]]. rewrite Z.bits_0 in Hl. destruct l; [done|]. assert (false = true) by by apply Hl. done. Qed.

(** Then nothing waits, and nothing is counted. *)
Lemma idle_nothing rq : requests_ok None rq -> idle rq ->
  list_master_connected (scheduled rq) = [] /\ list_refresh_link (scheduled rq) = [] /\ list_wait_for_nl_response rq = [] /\ forall t, refresh_all_in_progress rq t = 0.
Proof.
  intros [[K M L] W P Q _ R U] Hi. unfold idle in Hi. rewrite Hi in *. assert (list_wait_for_nl_response rq = []) as E.
  { destruct W as [_ W]. rewrite Z.bits_0 in W. destruct (list_wait_for_nl_response rq); [done|]. assert (false = true) by by apply W. done. }
  split_and!; [by apply (array_ok_zero 10)|by apply (array_ok_zero 9)|done|]. intros t. by rewrite P, E.
Qed.

Lemma no_flags_zero rq :
  requests_ok None rq -> has_flag DELAYED_ACTION_TYPE_MASTER_CONNECTED rq = false -> has_flag DELAYED_ACTION_TYPE_READ_NETLINK rq = false ->
  has_flag DELAYED_ACTION_TYPE_REFRESH_ALL rq = false -> has_flag DELAYED_ACTION_TYPE_REFRESH_LINK rq = false ->
  has_flag DELAYED_ACTION_TYPE_WAIT_FOR_NL_RESPONSE rq = false -> idle rq.
Proof.
  intros [[K _ _] _ _ _ _ _ _] F10 F11 FA F9 F12. unfold DELAYED_ACTION_TYPE_MASTER_CONNECTED, DELAYED_ACTION_TYPE_READ_NETLINK, DELAYED_ACTION_TYPE_REFRESH_LINK,
    DELAYED_ACTION_TYPE_WAIT_FOR_NL_RESPONSE in *. rewrite has_flag_shiftl in F10, F11, F9, F12 by done.
  unfold has_flag in FA. apply negb_false_iff, Z.eqb_eq in FA. unfold idle. apply Z.bits_inj'. intros i Hi. rewrite Z.bits_0.
  destruct (decide (13 <= i)) as [|Hlt]; [by apply K|].
  destruct (decide (i < 9)) as [H9|H9].
  - assert (Z.testbit (Z.land (da_flags (scheduled rq)) DELAYED_ACTION_TYPE_REFRESH_ALL) i = false) as E by (rewrite FA; apply Z.bits_0).
    rewrite Z.land_spec in E. replace (Z.testbit DELAYED_ACTION_TYPE_REFRESH_ALL i) with true in E; [by rewrite andb_true_r in E|].
    symmetry. change DELAYED_ACTION_TYPE_REFRESH_ALL with (Z.ones 9). apply Z.ones_spec_low. lia.
  - assert (i = 9 \/ i = 10 \/ i = 11 \/ i = 12) as [->|[->|[->| ->]]] by lia; done.
Qed.

Lemma handle_one_request_ok env rq :
  requests_ok None rq -> one_env_ok env ->
  exists r rq', handle_one_request env rq = Some (r, rq') /\ requests_ok None rq' /\ carries rq rq' /\ (r = NOTHING_LEFT -> idle rq').
Proof.
  intros Hok [Hread Hsend Hsends]. unfold handle_one_request, DELAYED_ACTION_TYPE_NONE.
  destruct (Z.eqb_spec (da_flags (scheduled rq)) 0) as [Ez|Hnz]; [by exists NOTHING_LEFT, rq|].
  destruct (has_flag DELAYED_ACTION_TYPE_MASTER_CONNECTED rq) eqn:F10.
  { destruct (take_master_ok rq Hok F10) as ([i rq1] & -> & Hok1 & Hc1). cbn [mbind option_bind snd] in *. destruct (run_scheds_ok None (oe_master env) rq1 Hok1) as [Hok2 Hc2].
    eexists _, _. split_and!; [done|done|by transitivity rq1|done]. }
  rewrite (nm_assert_ok (length (list_master_connected (scheduled rq)) =? 0)%nat).
  2: { pose proof (so_masters _ (ro_scheduled _ _ Hok)) as M. pose proof (array_ok_flag _ _ _ M) as E. unfold DELAYED_ACTION_TYPE_MASTER_CONNECTED in F10.
       rewrite has_flag_shiftl in F10 by done. rewrite F10 in E. destruct (list_master_connected (scheduled rq)); [done|by cbn in E]. }
  cbn [mbind option_bind]. destruct (has_flag DELAYED_ACTION_TYPE_READ_NETLINK rq) eqn:F11.
  { assert (Hok1 : requests_ok None (clear_flag DELAYED_ACTION_TYPE_READ_NETLINK rq)) by by apply clear_plain_gives.
    destruct (read_netlink_ok (oe_read env) false None _ Hok1 ltac:(done)) as ([r rq1] & -> & Hok2 & Hc2). cbn [mbind option_bind snd] in *.
    eexists _, _. split_and!; [done|done|by etransitivity; [|exact Hc2]; apply carries_same|by destruct r]. }
  destruct (has_flag DELAYED_ACTION_TYPE_REFRESH_ALL rq) eqn:FA.
  { assert (Hok1 : requests_ok None (clear_flag DELAYED_ACTION_TYPE_REFRESH_ALL rq)) by (apply clear_plain_gives; [..|done]; by apply refreshes_testbit).
    destruct (do_request_all_ok (Z.land (da_flags (scheduled rq)) DELAYED_ACTION_TYPE_REFRESH_ALL) (oe_reads env) _ _ Hok1 Hsends) as (rq1 & -> & Hok2 & Hc2). cbn [mbind option_bind].
    eexists _, _. split_and!; [done|done|by etransitivity; [|exact Hc2]; apply carries_same|done]. }
  destruct (has_flag DELAYED_ACTION_TYPE_REFRESH_LINK rq) eqn:F9.
  { destruct (take_link_ok rq Hok F9) as ([i rq1] & -> & Hok1 & Hc1). cbn [mbind option_bind snd] in *.
    destruct (do_request_link_ok i (oe_known env) (oe_read env) (oe_send env) rq1 Hok1 Hsend) as (rq2 & -> & Hok2 & Hc2). cbn [mbind option_bind].
    eexists _, _. split_and!; [done|done|by transitivity rq1|done]. }
  destruct (has_flag DELAYED_ACTION_TYPE_WAIT_FOR_NL_RESPONSE rq) eqn:F12.
  - rewrite nm_assert_ok by by rewrite <-(has_wait _ _ Hok). cbn [mbind option_bind].
    destruct (read_netlink_ok (oe_read env) true None rq Hok (fun _ => Hread)) as ([r rq1] & -> & Hok1 & Hc1). cbn [mbind option_bind snd] in *.
    eexists _, _. split_and!; [done|done|done|by destruct r].
  - destruct Hnz. by apply no_flags_zero.
Qed.

Lemma handle_loop_ok any envs rq :
  requests_ok None rq -> Forall one_env_ok envs ->
  exists any' rq', handle_loop any envs rq = Some (any', rq') /\ requests_ok None rq' /\ carries rq rq' /\ (any' <> None -> idle rq').
Proof.
  revert any rq. induction envs as [|env envs IH]; intros any rq Hok Henvs; [by exists None, rq|]. apply Forall_cons in Henvs as [Henv Henvs]. cbn [handle_loop].
  destruct (handle_one_request_ok env rq Hok Henv) as (r & rq1 & -> & Hok1 & Hc1 & Hi). cbn [mbind option_bind]. destruct r.
  - destruct (IH true rq1 Hok1 Henvs) as (any' & rq' & -> & Hok' & Hc' & Hi'). exists any', rq'. split_and!; try done. by transitivity rq1.
  - exists (Some any), rq1. split_and!; try done. intros _. by apply Hi.
  - by exists None, rq1.
Qed.

Lemma handle_all_ok read_netlink envs changes rq :
  requests_ok None rq -> Forall one_env_ok envs ->
  exists any rq', delayed_action_handle_all read_netlink envs changes rq = Some (any, rq') /\ requests_ok None rq' /\ carries rq rq' /\
    (any <> None -> list_wait_for_nl_response rq' = [] /\ (forall t, refresh_all_in_progress rq' t = 0) /\ ((forall t, changes t = []) -> idle rq')).
Proof.
  intros Hok Henvs. unfold delayed_action_handle_all. cbv zeta. set (rq1 := if read_netlink then _ else rq).
  assert (Hok1 : requests_ok None rq1) by (unfold rq1; destruct read_netlink; [by apply schedule_plain_gives; [apply plain_flag|..]|done]).
  assert (Hc1 : carries rq rq1) by (unfold rq1; destruct read_netlink; [by apply carries_same|done]).
  destruct (handle_loop_ok false envs rq1 Hok1 Henvs) as (any & rq2 & -> & Hok2 & Hc2 & Hi). cbn [mbind option_bind]. destruct any as [any|].
  - specialize (Hi ltac:(done)). unfold cache_prune_all. set (rq3 := with_pruning _ _ rq2). assert (Hok3 : requests_ok None rq3) by by apply with_pruning_ok.
    set (cs := flat_map changes _). destruct (run_scheds_ok None cs rq3 Hok3) as [Hok4 Hc4].
    destruct (idle_nothing rq2 Hok2 Hi) as (_ & _ & Hw & Hp). eexists _, _. split; [done|]. split_and!; [done|etransitivity; [exact Hc1|]; etransitivity; [exact Hc2|]; etransitivity; [|exact Hc4]; by apply carries_same|].
    intros _. assert (Hsame : forall cs rq, list_wait_for_nl_response (run_scheds cs rq) = list_wait_for_nl_response rq /\ refresh_all_in_progress (run_scheds cs rq) = refresh_all_in_progress rq).
    { clear. intros cs. induction cs as [|c cs IH]; intros rq; [done|]. cbn [run_scheds fold_left]. destruct (IH (run_sched c rq)) as [E1 E2]. unfold run_scheds in *. rewrite E1, E2. by destruct c. }
    destruct (Hsame cs rq3) as [E1 E2]. rewrite E1, E2. split_and!; [done|done|]. intros Hno. assert (cs = []) as ->; [|done].
    unfold cs. clear -Hno. induction (pruned_types _) as [|t ts IH]; cbn; [done|]. by rewrite Hno.
  - exists None, rq2. split_and!; try done. by transitivity rq1.
Qed.

Lemma no_requests_ok : requests_ok None no_requests.
Proof.
  split; try done.
  - split; [intros i _; apply Z.bits_0| |]; (split; [constructor|done]).
  - constructor.
Qed.
End run.
