(* ===== verification/NlRequestEnd.v ===== *)
(** * Netlink requests: handling comes to an end

    When the system only tells answers, and each wait comes to its end (by answers, an
    error of poll (), or the time), what is scheduled is handled in a bounded number of
    steps. *)

From S2P Require Export NlRequestRun.

(** Less or the same is scheduled, requests that wait apart. *)
Record calm (rq rq' : Requests) : Prop := {
  cm_masters : list_master_connected (scheduled rq') = list_master_connected (scheduled rq);
  cm_links : (length (list_refresh_link (scheduled rq')) <= length (list_refresh_link (scheduled rq)))%nat;
  cm_read : Z.testbit (da_flags (scheduled rq')) 11 = Z.testbit (da_flags (scheduled rq)) 11;
  cm_refresh i : 0 <= i < 9 -> Z.testbit (da_flags (scheduled rq')) i = true -> Z.testbit (da_flags (scheduled rq)) i = true
}.

#[export] Instance calm_refl : Reflexive calm.
Proof. by split. Qed.
#[export] Instance calm_trans : Transitive calm.
Proof. intros r1 r2 r3 [A1 B1 C1 D1] [A2 B2 C2 D2]. split; [congruence|lia|congruence|]. intros i Hi E. by apply D1, D2. Qed.

Lemma calm_same rq rq' : scheduled rq' = scheduled rq -> calm rq rq'.
Proof. intros E. by split; rewrite E. Qed.

(** Computations that keep it. *)
Definition calmly {A} (get : A -> Requests) (rq : Requests) (m : option A) : Prop := forall x, m = Some x -> calm rq (get x).

Lemma calmly_ret {A} (get : A -> Requests) rq x : calm rq (get x) -> calmly get rq (Some x).
Proof. by intros Hc ? [= <-]. Qed.

Lemma calmly_bind {A B} (get : A -> Requests) (get' : B -> Requests) rq (m : option A) (k : A -> option B) :
  calmly get rq m -> (forall x, calmly get' (get x) (k x)) -> calmly get' rq (m ≫= k).
Proof. intros Hm Hk y E. destruct m as [x|]; [|done]. etransitivity; [by apply Hm|by apply (Hk x)]. Qed.

Lemma calmly_from {A} (get : A -> Requests) rq0 rq m : calm rq0 rq -> calmly get rq m -> calmly get rq0 m.
Proof. intros Hc Hm x E. etransitivity; [exact Hc|by apply Hm]. Qed.

Section end_.
Context `{NmAsserts} `{TimeoutBound}.
Implicit Types (rq : Requests) (t : RefreshAllType).

Lemma nm_assert_inv {B} b (k : unit -> option B) y : nm_assert b ≫= k = Some y -> k tt = Some y.
Proof. unfold nm_assert. by destruct (_ && _). Qed.

Lemma calmly_assert {B} (get : B -> Requests) rq b (k : unit -> option B) : calmly get rq (k tt) -> calmly get rq (nm_assert b ≫= k).
Proof. intros Hk y E. by apply Hk, (nm_assert_inv b). Qed.

(** ** What changes no schedules *)

Lemma clear_calm m rq : Z.testbit m 11 = false -> calm rq (clear_flag m rq).
Proof.
  intros E. split; unfold clear_flag; rq_cbn; [done|lia|by rewrite clear_testbit, E, andb_true_r|].
  intros i Hi. rewrite clear_testbit by lia. by intros [? _]%andb_true_iff.
Qed.

Lemma complete_calm idx r rq : calmly id rq (delayed_action_wait_for_nl_response_complete idx r rq).
Proof.
  unfold delayed_action_wait_for_nl_response_complete. apply calmly_assert. destruct (list_wait_for_nl_response rq !! idx) as [data|]; [|done].
  cbn [mbind option_bind]. cbv zeta. rewrite set_seq_result_eq. set (rq1 := if (_ <=? 1)%nat then _ else rq).
  assert (Hc : calm rq rq1) by (unfold rq1; destruct (_ <=? 1)%nat; [by apply clear_calm|done]).
  apply (calmly_bind id id); [|intros rq2; by apply calmly_ret, calm_same].
  apply (calmly_from _ _ rq1); [done|]. destruct (wd_response data) as [|[t|]|[p|]]; cbn [finish_response]; try (by apply calmly_ret, calm_same);
    apply calmly_assert; by apply calmly_ret, calm_same.
Qed.

Lemma check_loop_calm n i force clock next rq : calmly snd rq (complete_check_loop n i force clock next rq).
Proof.
  revert i next rq. induction n as [|n IH]; intros i next rq; cbn [complete_check_loop]; [by apply calmly_ret|].
  destruct (list_wait_for_nl_response rq !! i) as [data|]; [|done]. cbn [mbind option_bind].
  destruct (check_result force clock data next) as [[r|] next1]; [|apply IH]. apply (calmly_bind id snd); [apply complete_calm|]. intros rq1. apply IH.
Qed.

Lemma check_calm force clock rq : calmly snd rq (delayed_action_wait_for_nl_response_complete_check force clock rq).
Proof.
  unfold delayed_action_wait_for_nl_response_complete_check. apply (calmly_bind snd snd); [apply check_loop_calm|]. intros [next rq1]. apply calmly_assert. by apply calmly_ret.
Qed.

Lemma complete_all_calm result rq : calmly id rq (delayed_action_wait_for_nl_response_complete_all result rq).
Proof.
  unfold delayed_action_wait_for_nl_response_complete_all. apply (calmly_bind snd id); [apply check_calm|]. intros [next rq1]. by apply calmly_ret.
Qed.

(** ** Answers *)

(** What is received tells answers, and nothing of it changes the cache or is lost. *)
Definition quiet_message (m : NlMsg) : Prop :=
  match nlmsg_body m with MSG_OVERRUN | MSG_ERROR None => False | MSG_VALID _ changes => changes = [] | _ => True end.
Definition quiet_recv (r : Recv) : Prop := match r with RECV_ERROR _ => False | RECV_BUFFER _ msgs => Forall quiet_message msgs end.
Definition quiet_round (r : Round) : Prop := Forall quiet_recv (received r).

(** The numbers of the requests that are answered. *)
Definition answers (stream : list Recv) : list Z :=
  flat_map (fun r => match r with RECV_BUFFER true msgs => nlmsg_seq <$> msgs | _ => [] end) stream.

Definition numbers rq : list Z := wd_seq_number <$> list_wait_for_nl_response rq.

(** The requests that wait can be told apart. *)
Record numbered rq : Prop := {
  nu_flag : has_flag DELAYED_ACTION_TYPE_WAIT_FOR_NL_RESPONSE rq = (0 <? length (list_wait_for_nl_response rq))%nat;
  nu_distinct : NoDup (numbers rq);
  nu_positive : Forall (fun n => 0 < n) (numbers rq)
}.

Record handled (ss : list Z) (x y : WaitData) : Prop := {
  ha_same : same_request x y;
  ha_result : wd_seq_result y = 0 -> wd_seq_result x = 0 /\ wd_seq_number x ∉ ss
}.

(** The requests with these numbers have a result. *)
Record answering (ss : list Z) rq rq' : Prop := {
  an_scheduled : scheduled rq' = scheduled rq;
  an_handled : numbered rq -> Forall2 (handled ss) (list_wait_for_nl_response rq) (list_wait_for_nl_response rq')
}.

Lemma Forall2_same {A} (P : A -> A -> Prop) l : (forall x, x ∈ l -> P x x) -> Forall2 P l l.
Proof. induction l as [|x l IH]; intros Hp; constructor; [apply Hp; left|apply IH; intros y Hy; apply Hp; by right]. Qed.

Lemma Forall2_compose {A} (P Q R : A -> A -> Prop) l1 l2 l3 :
  (forall x y z, P x y -> Q y z -> R x z) -> Forall2 P l1 l2 -> Forall2 Q l2 l3 -> Forall2 R l1 l3.
Proof. intros Hr Hp. revert l3. induction Hp as [|x y l1 l2 Hxy _ IH]; intros l3 Hq; inversion Hq; subst; constructor; eauto. Qed.

Lemma handled_keep x : handled [] x x.
Proof. split; [done|]. intros E. split; [done|]. by intros ?%elem_of_nil. Qed.

Lemma handled_numbers ss l l' : Forall2 (handled ss) l l' -> wd_seq_number <$> l' = wd_seq_number <$> l.
Proof. induction 1 as [|x y l l' [Hs _] _ IH]; [done|]. cbn. by rewrite IH, (sr_seq _ _ Hs). Qed.

Lemma answering_same rq rq' : scheduled rq' = scheduled rq -> list_wait_for_nl_response rq' = list_wait_for_nl_response rq -> answering [] rq rq'.
Proof. intros E1 E2. split; [done|]. intros _. rewrite E2. apply Forall2_same. intros x _. apply handled_keep. Qed.

Lemma answering_numbered ss rq rq' : answering ss rq rq' -> numbered rq -> numbered rq'.
Proof.
  intros [Es Hh] Hn. specialize (Hh Hn). destruct Hn as [A B C]. unfold numbers in *. split; unfold numbers; rewrite ?(handled_numbers _ _ _ Hh); try done.
  rewrite <-(Forall2_length _ _ _ Hh), <-A. unfold has_flag. by rewrite Es.
Qed.

Lemma answering_trans ss1 ss2 rq1 rq2 rq3 : answering ss1 rq1 rq2 -> answering ss2 rq2 rq3 -> answering (ss1 ++ ss2) rq1 rq3.
Proof.
  intros A1 A2. split; [by rewrite (an_scheduled _ _ _ A2), (an_scheduled _ _ _ A1)|]. intros Hn. pose proof (answering_numbered _ _ _ A1 Hn) as Hn2.
  eapply Forall2_compose; [|apply (an_handled _ _ _ A1 Hn)|apply (an_handled _ _ _ A2 Hn2)]. intros x y z [Sx Rx] [Sy Ry]. destruct Sx, Sy. split; [split; congruence|].
  intros E. destruct (Ry E) as [Ey Hy], (Rx Ey) as [Ex Hx]. split; [done|]. rewrite elem_of_app. intros [|]; [done|]. apply Hy. congruence.
Qed.

(** One request changes, the one with the number if there is one. *)
Lemma answering_changed ss rq rq' l1 l2 x y :
  scheduled rq' = scheduled rq -> list_wait_for_nl_response rq = l1 ++ x :: l2 -> list_wait_for_nl_response rq' = l1 ++ y :: l2 -> handled ss x y ->
  (forall n, n ∈ ss -> n = wd_seq_number x) -> answering ss rq rq'.
Proof.
  intros Es E E' Hh Hss. split; [done|]. intros [_ Hd _]. unfold numbers in Hd. rewrite E in *. rewrite E'. rewrite fmap_app in Hd. cbn in Hd.
  rewrite <-Permutation_middle in Hd. apply NoDup_cons in Hd as [Hx _].
  assert (Hrest : forall z, z ∈ l1 ++ l2 -> handled ss z z).
  { intros z Hz. split; [done|]. intros Ez. split; [done|]. intros Hin%Hss. apply Hx. rewrite <-Hin, <-fmap_app. by apply list_elem_of_fmap_2. }
  apply Forall2_app; [|constructor; [done|]]; apply Forall2_same; intros z Hz; apply Hrest, elem_of_app; first [by left|by right].
Qed.

Definition answers_to {A} (get : A -> Requests) (ss : list Z) rq (m : option A) : Prop := forall x, m = Some x -> answering ss rq (get x).

Lemma answers_to_bind {A B} (get : A -> Requests) (get' : B -> Requests) ss1 ss2 rq (m : option A) (k : A -> option B) :
  answers_to get ss1 rq m -> (forall x, answers_to get' ss2 (get x) (k x)) -> answers_to get' (ss1 ++ ss2) rq (m ≫= k).
Proof. intros Hm Hk y E. destruct m as [x|]; [|done]. eapply answering_trans; [by apply Hm|by apply (Hk x)]. Qed.

Lemma refresh_answers seq rq : answers_to id [] rq (event_seq_check_refresh_all seq rq).
Proof.
  unfold event_seq_check_refresh_all. destruct (_ || _); [by intros ? [= <-]; apply answering_same|]. apply (answers_to_bind id id [] []); [|by intros rq1 ? [= <-]; apply answering_same].
  destruct (has_flag _ rq); [|by intros ? [= <-]; apply answering_same]. intros x E%nm_assert_inv. injection E as <-. unfold complete_refresh, id.
  match goal with |- context [change_first ?f ?l] => pose proof (change_first_spec f l) as Hf; destruct (change_first f l) as [[data l']|] end; [|by apply answering_same].
  destruct Hf as (l1 & l2 & y & E & Ey & -> & _). destruct (wd_response data) as [|[t|]|] eqn:Er; try done. destruct (wd_seq_number data =? nlh_seq_last_seen rq); [|done]. injection Ey as <-.
  apply (answering_changed [] rq _ l1 l2 data (with_response (RESPONSE_REFRESH_ALL_IN_PROGRESS None) data)); try done; [|by intros n ?%elem_of_nil].
  destruct (handled_keep data) as [_ Hk]. by split.
Qed.

Lemma route_loop_same seq v l routes l' routes' : route_get_loop seq v l routes = Some (l', routes') -> Forall2 (handled []) l l'.
Proof.
  revert l'. induction l as [|x l IH]; intros l' E; cbn [route_get_loop] in E; [by injection E as <- _|].
  assert (Hstep : ('(l', r) ← route_get_loop seq v l routes; Some (x :: l', r)) = Some (l', routes') -> Forall2 (handled []) (x :: l) l').
  { destruct (route_get_loop seq v l routes) as [[l1 r1]|]; [|done]. cbn. intros [= <- ->]. constructor; [apply handled_keep|by apply IH]. }
  destruct (wd_response x) as [|?|[p|]] eqn:Er; try by apply Hstep. apply nm_assert_inv in E. destruct (_ =? seq); [|by apply Hstep].
  injection E as <- _. constructor; [destruct (handled_keep x) as [_ Hk]; by split|]. apply Forall2_same. intros y _. apply handled_keep.
Qed.

Lemma route_answers seq v rq : answers_to id [] rq (route_get_response seq v rq).
Proof.
  unfold route_get_response. intros x E. destruct (_ && _); [|injection E as <-; by apply answering_same]. apply nm_assert_inv in E.
  destruct (route_get_loop _ _ _ _) as [[l routes]|] eqn:Er; [|done]. cbn in E. injection E as <-. split; [done|]. intros _. by apply route_loop_same in Er.
Qed.

Lemma message_result_nonzero body : (message_result body).1 <> 0.
Proof.
  destruct body as [| | |[[error text]|]|]; cbn; try done. destruct (Z.eqb_spec error 0) as [->|Hne]; cbn; [done|]. unfold nm_errno_native.
  apply Z.eqb_neq in Hne as E. rewrite E. destruct (_ =? -2147483648); lia.
Qed.

Lemma check_result_nonzero r data : r <> 0 -> wd_seq_result (seq_check_result r data) <> 0.
Proof.
  intros Hr. unfold seq_check_result. destruct (Z.ltb_spec (wd_seq_result data) 0); [lia|]. destruct (_ || _) eqn:E; [done|].
  apply orb_false_iff in E as [_ E%Z.eqb_neq]. done.
Qed.

Lemma seq_check_answers seq r msg rq : r <> 0 -> answers_to id [seq] rq (event_seq_check seq r msg rq).
Proof.
  intros Hr x E. unfold event_seq_check in E. destruct (_ || _) eqn:Eo.
  { injection E as <-. split; [done|]. intros [Hf _ Hp]. apply Forall2_same. intros y Ey.
    split; [done|]. intros Ez. split; [done|]. intros Es%list_elem_of_singleton. apply (list_elem_of_fmap_2 wd_seq_number) in Ey as Hin. rewrite Forall_forall in Hp. specialize (Hp _ Hin). cbn in Hp.
    apply orb_true_iff in Eo as [Eo%Z.eqb_eq|Eo%negb_true_iff]; [lia|]. rewrite Hf in Eo. apply Nat.ltb_ge in Eo. unfold id in *. destruct (list_wait_for_nl_response rq); [by apply elem_of_nil in Ey|cbn in Eo; lia]. }
  apply nm_assert_inv in E. revert E.
  match goal with |- context [change_first ?f ?l] => pose proof (change_first_spec f l) as Hf; destruct (change_first f l) as [[data l']|] end; intros [= <-].
  - destruct Hf as (l1 & l2 & y & E & Ey & -> & _). destruct (Z.eqb_spec (wd_seq_number data) seq) as [<-|]; [|done]. injection Ey as <-.
    destruct (set_errmsg_same (wd_out_errmsg data) msg (with_waits (l1 ++ seq_check_result r data :: l2) rq)) as [m ->].
    apply (answering_changed _ rq _ l1 l2 data (seq_check_result r data)); try done; [|by intros n ->%list_elem_of_singleton].
    split; [apply result_same|]. intros Ez. by apply check_result_nonzero in Ez.
  - split; [done|]. intros _. apply Forall2_same. intros y Ey.
    rewrite Forall_forall in Hf. specialize (Hf y Ey). cbn in Hf. destruct (wd_seq_number y =? seq) eqn:Es; [done|]. apply Z.eqb_neq in Es. split; [done|]. intros Ez. split; [done|]. by intros ?%list_elem_of_singleton.
Qed.

Lemma message_answers m rq : quiet_message m -> answers_to id [nlmsg_seq m] rq (event_message true m rq).
Proof.
  intros Hq. unfold event_message. apply (answers_to_bind id id [] [_]); [apply refresh_answers|]. intros rq1. apply (answers_to_bind id id [] [_]).
  - unfold quiet_message in Hq. destruct (nlmsg_body m) as [| | |?|route changes]; try by intros ? [= <-]; apply answering_same. subst changes. unfold event_valid_requests.
    apply (answers_to_bind id id [] []); [destruct route; [apply route_answers|by intros ? [= <-]; apply answering_same]|]. intros rq2 ? [= <-]. by apply answering_same.
  - intros rq2. pose proof (message_result_nonzero (nlmsg_body m)) as Hr. destruct (message_result (nlmsg_body m)). by apply seq_check_answers.
Qed.

Lemma recv_messages_answers from_kernel msgs st rq stop st' rq' :
  Forall quiet_message msgs -> recv_err st = 0 -> recv_messages true from_kernel msgs st rq = Some (stop, st', rq') ->
  recv_err st' = 0 /\ answering (if from_kernel then nlmsg_seq <$> msgs else []) rq rq'.
Proof.
  revert st rq. induction msgs as [|m msgs IH]; intros st rq Hq Hst E; cbn [recv_messages] in E.
  { injection E as <- <- <-. split; [done|]. by destruct from_kernel; apply answering_same. }
  destruct from_kernel; cbn [negb] in E; [|injection E as <- <- <-; split; [done|by apply answering_same]].
  apply Forall_cons in Hq as [Hm Hq]. destruct (event_message true m rq) as [rq1|] eqn:Em; [|done]. cbn [mbind option_bind] in E.
  assert (message_abort (nlmsg_body m) = None) as Ea by (unfold quiet_message in Hm; destruct (nlmsg_body m) as [| | |[?|]|]; done). rewrite Ea in E.
  destruct (IH (with_err 0 (note_flags m st)) rq1 Hq eq_refl E) as [Hs Ha]. split; [done|]. change (nlmsg_seq <$> m :: msgs) with ([nlmsg_seq m] ++ (nlmsg_seq <$> msgs)). apply (answering_trans [nlmsg_seq m] (nlmsg_seq <$> msgs) rq rq1 rq'); [|done]. by apply (message_answers m rq Hm rq1 Em).
Qed.

Lemma recvmsgs_answers st stream rq n stream' rq' :
  Forall quiet_recv stream -> recv_err st = 0 -> event_handler_recvmsgs true st stream rq = Some (n, stream', rq') ->
  exists pre, stream = pre ++ stream' /\ answering (answers pre) rq rq' /\ (n = - EAGAIN -> stream' = []) /\ n <> - NME_NL_MSG_TRUNC /\ n <> - ENOBUFS.
Proof.
  revert st rq. induction stream as [|r stream IH]; intros st rq Hq Hst E; cbn [event_handler_recvmsgs] in E.
  { injection E as <- <- <-. exists []. split_and!; [done|by apply answering_same|done..]. }
  apply Forall_cons in Hq as [Hr Hq]. destruct r as [|from_kernel msgs]; [done|].
  destruct (recv_messages _ _ _ _ _) as [[[stop st1] rq1]|] eqn:Er; [|done]. cbn [mbind option_bind] in E. destruct (recv_messages_answers _ _ _ _ _ _ _ Hr Hst Er) as [Hst1 Ha].
  destruct (_ || _).
  - destruct (IH _ _ Hq Hst1 E) as (pre & -> & Hp & Hn). exists (RECV_BUFFER from_kernel msgs :: pre). split; [done|]. split; [|done]. by apply (answering_trans _ _ _ rq1).
  - injection E as <- <- <-. exists [RECV_BUFFER from_kernel msgs]. split; [done|]. unfold answers. cbn [flat_map]. rewrite app_nil_r. split; [done|]. rewrite Hst1. by destruct (interrupted st1).
Qed.

Lemma answers_app s1 s2 : answers (s1 ++ s2) = answers s1 ++ answers s2.
Proof. apply flat_map_app. Qed.

Lemma read_all_answers fuel any stream rq : Forall quiet_recv stream -> answers_to snd (answers stream) rq (read_all fuel any stream rq).
Proof.
  revert any stream rq. induction fuel as [|fuel IH]; intros any stream rq Hq x E; [done|]. cbn [read_all] in E.
  destruct (event_handler_recvmsgs true recv_start stream rq) as [[[n stream1] rq1]|] eqn:Er; [|done]. cbn [mbind option_bind] in E.
  destruct (recvmsgs_answers recv_start _ _ _ _ _ Hq eq_refl Er) as (pre & -> & Ha & Hn & N1%Z.eqb_neq & N2%Z.eqb_neq). destruct (Z.eqb_spec n (- EAGAIN)) as [En|_].
  - injection E as <-. by rewrite (Hn En), app_nil_r.
  - rewrite N1, N2 in E. cbn [orb] in E. rewrite answers_app. apply (answering_trans _ _ _ rq1); [done|]. apply Forall_app in Hq as [_ Hq]. by apply (IH true stream1 rq1 Hq).
Qed.

Lemma read_rounds_calm wait skip any rounds rq : Forall quiet_round rounds -> calmly snd rq (read_rounds wait skip any rounds rq).
Proof.
  revert skip any rq. induction rounds as [|r rounds IH]; intros skip any rq Hq; cbn [read_rounds]; [by apply calmly_ret|].
  apply Forall_cons in Hq as [Hr Hq]. apply (calmly_bind snd snd); [destruct skip; [by apply calmly_ret|]; intros x E; apply calm_same, (an_scheduled (answers (received r))), (read_all_answers (S (length (received r))) any); [exact Hr|exact E]|]. intros [any1 rq1]. cbn [snd].
  destruct (negb (has_flag _ rq1)); [by apply calmly_ret|]. apply (calmly_bind snd snd); [apply check_calm|]. intros [next rq2]. cbn [snd].
  destruct (negb wait || _); [by apply calmly_ret|]. apply calmly_assert. destruct (poll r _); try by apply IH.
  apply (calmly_bind id snd); [apply complete_all_calm|]. intros rq3. by apply calmly_ret.
Qed.

Definition quiet_read (env : ReadEnv) : Prop := quiet_round (re_first env) /\ Forall quiet_round (re_more env).

Lemma read_netlink_calm env wait rq : quiet_read env -> calmly snd rq (event_handler_read_netlink env wait rq).
Proof.
  intros [H1 H2]. unfold event_handler_read_netlink. destruct (negb _); [|by apply read_rounds_calm; constructor].
  apply (calmly_bind id snd); [apply complete_all_calm|]. intros rq1. by apply calmly_ret.
Qed.

Lemma send_calm env p q response rq : calm rq (_nl_send_nlmsg env p q response rq).2.
Proof.
  unfold _nl_send_nlmsg, _nlh_seq_next_get. cbv zeta. destruct (se_nle env <? 0); cbn [snd]; [by apply calm_same|].
  split; unfold delayed_action_schedule_WAIT_FOR_NL_RESPONSE, schedule; rq_cbn; cbn [delayed_action_schedule da_flags list_master_connected list_refresh_link]; try done.
  - rewrite Z.lor_spec. apply orb_false_r.
  - intros i Hi. rewrite Z.lor_spec. unfold DELAYED_ACTION_TYPE_WAIT_FOR_NL_RESPONSE. rewrite shiftl_1_testbit by done.
    destruct (Z.eqb_spec i 12); [lia|]. by rewrite orb_false_r.
Qed.

Lemma request_link_calm ifindex known env send rq : quiet_read env -> calmly id rq (do_request_link_no_delayed_actions ifindex known env send rq).
Proof.
  intros Hq. unfold do_request_link_no_delayed_actions. destruct (negb _); [by apply calmly_ret|]. cbv zeta.
  apply (calmly_from _ _ (if known then with_pruning (add_at REFRESH_ALL_TYPE_LINKS 1 (pruning rq)) (msg_buf_size rq) rq else rq)); [by destruct known; apply calm_same|].
  apply (calmly_bind snd id); [by apply read_netlink_calm|]. intros [r rq1]. destruct (se_allocated send); apply calmly_ret; [apply send_calm|done].
Qed.

Lemma clear_link_calm rq : calmly id rq (clear_refresh_link rq).
Proof.
  unfold clear_refresh_link. apply calmly_assert. destruct (has_flag _ rq); [|by apply calmly_ret]. apply calmly_ret.
  destruct (clear_calm DELAYED_ACTION_TYPE_REFRESH_LINK rq eq_refl) as [A B C D]. split; try done. unfold id. rq_cbn. cbn. lia.
Qed.

Lemma request_dump_calm t env send rq : quiet_read env -> calmly id rq (request_dump t env send rq).
Proof.
  intros Hq. unfold request_dump. apply calmly_assert. cbv zeta.
  apply (calmly_from _ _ (clear_flag (delayed_action_type_from_refresh_all_type t) (add_progress t 1 rq))); [etransitivity; [by apply (calm_same rq (add_progress t 1 rq))|apply clear_calm; by apply refresh_type_bits]|].
  apply (calmly_bind id id); [destruct (decide _); [apply clear_link_calm|by apply calmly_ret]|]. intros rq1.
  apply (calmly_bind snd id); [by apply read_netlink_calm|]. intros [r rq2]. cbn [snd].
  assert (Hfin : forall nle rq3, calmly id rq3 (if nle <? 0 then _ ← nm_assert (0 <? refresh_all_in_progress rq3 t); Some (add_progress t (-1) rq3) else Some rq3)).
  { intros nle rq3. destruct (nle <? 0); [apply calmly_assert|]; by apply calmly_ret, calm_same. }
  destruct (se_allocated send); [|by apply Hfin]. pose proof (send_calm send None None (RESPONSE_REFRESH_ALL_IN_PROGRESS (Some t)) rq2) as Hs.
  destruct (_nl_send_nlmsg _ _ _ _ _) as [nle rq3]. by apply (calmly_from _ _ rq3).
Qed.

Lemma request_dumps_calm ts envs sends rq : (forall t, quiet_read (envs t)) -> calmly id rq (request_dumps ts envs sends rq).
Proof.
  intros Hq. revert rq. induction ts as [|t ts IH]; intros rq; [by apply calmly_ret|]. cbn [request_dumps]. apply (calmly_bind id id); [by apply request_dump_calm|]. intros rq1. apply IH.
Qed.

(** ** What there is to do *)

Lemma has_flag_clear m m' rq : Z.land (Z.lnot m) m' = m' -> has_flag m' (clear_flag m rq) = has_flag m' rq.
Proof. intros E. unfold has_flag, clear_flag. rq_cbn. by rewrite <-Z.land_assoc, E. Qed.

Lemma has_flag_cleared m rq : has_flag m (clear_flag m rq) = false.
Proof.
  unfold has_flag, clear_flag. rq_cbn. apply negb_false_iff, Z.eqb_eq, Z.bits_inj'. intros i Hi. rewrite Z.land_spec, clear_testbit, Z.bits_0 by done. destruct (Z.testbit m i); cbn; [by rewrite andb_false_r|apply andb_false_r].
Qed.

Lemma has_refresh_all rq : has_flag DELAYED_ACTION_TYPE_REFRESH_ALL rq = true <-> exists i, 0 <= i < 9 /\ Z.testbit (da_flags (scheduled rq)) i = true.
Proof.
  unfold has_flag. rewrite negb_true_iff, Z.eqb_neq. change DELAYED_ACTION_TYPE_REFRESH_ALL with (Z.ones 9). split.
  - intros Hne. destruct (existsb (fun i => Z.testbit (da_flags (scheduled rq)) i) (seqZ 0 9)) eqn:E.
    + apply existsb_exists in E as (i & Hi & Ei). apply list_elem_of_In, elem_of_seqZ in Hi. exists i. split; [lia|done].
    + destruct Hne. apply Z.bits_inj'. intros i Hi. rewrite Z.land_spec, Z.bits_0. destruct (decide (i < 9)) as [Hlt|Hge]; [|rewrite Z.ones_spec_high by lia; apply andb_false_r].
      apply andb_false_iff. left. apply not_true_iff_false. intros Eb. apply not_true_iff_false in E. apply E, existsb_exists. exists i. split; [|done]. apply list_elem_of_In, elem_of_seqZ. lia.
  - intros (i & Hi & E) Ez. assert (Z.testbit (Z.land (da_flags (scheduled rq)) (Z.ones 9)) i = false) as E2 by (rewrite Ez; apply Z.bits_0).
    rewrite Z.land_spec, E, Z.ones_spec_low in E2 by lia. done.
Qed.

(** The steps that are scheduled, requests that wait apart: reading and refreshing may
    leave one. *)
Definition work_scheduled rq : nat :=
  length (list_master_connected (scheduled rq)) + 2 * length (list_refresh_link (scheduled rq)) +
  2 * Nat.b2n (has_flag DELAYED_ACTION_TYPE_READ_NETLINK rq) + 2 * Nat.b2n (has_flag DELAYED_ACTION_TYPE_REFRESH_ALL rq).
Definition work rq : nat := work_scheduled rq + Nat.b2n (has_flag DELAYED_ACTION_TYPE_WAIT_FOR_NL_RESPONSE rq).

Lemma b2n_le b : (Nat.b2n b <= 1)%nat.
Proof. destruct b; cbn; lia. Qed.

Lemma b2n_mono b b' : (b' = true -> b = true) -> (Nat.b2n b' <= Nat.b2n b)%nat.
Proof. destruct b, b'; cbn; lia. Qed.

Lemma calm_work rq rq' : calm rq rq' -> (work_scheduled rq' <= work_scheduled rq)%nat.
Proof.
  intros [A B C D]. unfold work_scheduled. rewrite A. unfold DELAYED_ACTION_TYPE_READ_NETLINK. rewrite !has_flag_shiftl, C by done.
  assert (Nat.b2n (has_flag DELAYED_ACTION_TYPE_REFRESH_ALL rq') <= Nat.b2n (has_flag DELAYED_ACTION_TYPE_REFRESH_ALL rq))%nat; [|lia].
  apply b2n_mono. rewrite !has_refresh_all. intros (i & Hi & E). exists i. split; [done|by apply D].
Qed.

Lemma calm_work_step rq rq1 rq' : calm rq1 rq' -> (work_scheduled rq1 + 2 <= work_scheduled rq)%nat -> (work rq' < work rq)%nat.
Proof. intros Hc%calm_work Hl. unfold work. pose proof (b2n_le (has_flag DELAYED_ACTION_TYPE_WAIT_FOR_NL_RESPONSE rq')). lia. Qed.

Lemma remove_fast_length l : length (remove_index_fast l) = pred (length l).
Proof.
  destruct l as [|x l]; [done|]. cbn [remove_index_fast length pred]. rewrite <-(length_rev l). destruct (rev l) as [|y r]; [done|]. cbn. by rewrite length_rev.
Qed.

Lemma take_master_work rq i rq' : take_master rq = Some (i, rq') -> list_master_connected (scheduled rq) <> [] -> (work rq' < work rq)%nat.
Proof.
  intros E%nm_assert_inv Hne. revert E. destruct (head _) as [x|]; [|done]. cbn [mbind option_bind].
  set (l := remove_index_fast _). set (rq1 := if bool_decide (l = []) then _ else _). intros E%nm_assert_inv. revert E. intros [= _ <-].
  assert (Hl : (length l < length (list_master_connected (scheduled rq)))%nat) by (unfold l; rewrite remove_fast_length; destruct (list_master_connected (scheduled rq)); [done|cbn; lia]).
  assert (Hf : forall m, Z.land (Z.lnot DELAYED_ACTION_TYPE_MASTER_CONNECTED) m = m -> has_flag m rq1 = has_flag m rq).
  { intros m Em. unfold rq1. destruct (bool_decide (l = [])); [|done]. rewrite has_flag_clear by done. done. }
  assert (list_master_connected (scheduled rq1) = l /\ list_refresh_link (scheduled rq1) = list_refresh_link (scheduled rq)) as [E1 E2] by (unfold rq1; by destruct (bool_decide (l = []))).
  unfold work, work_scheduled. rewrite E1, E2, !Hf by done. lia.
Qed.

Lemma take_link_work rq i rq' : take_link rq = Some (i, rq') -> list_refresh_link (scheduled rq) <> [] -> (work_scheduled rq' + 2 <= work_scheduled rq)%nat.
Proof.
  intros E%nm_assert_inv Hne. revert E. destruct (head _) as [x|]; [|done]. cbn [mbind option_bind].
  set (l := remove_index_fast _). set (rq1 := if bool_decide (l = []) then _ else _). intros E%nm_assert_inv. revert E. intros [= _ <-].
  assert (Hl : (length l < length (list_refresh_link (scheduled rq)))%nat) by (unfold l; rewrite remove_fast_length; destruct (list_refresh_link (scheduled rq)); [done|cbn; lia]).
  assert (Hf : forall m, Z.land (Z.lnot DELAYED_ACTION_TYPE_REFRESH_LINK) m = m -> has_flag m rq1 = has_flag m rq).
  { intros m Em. unfold rq1. destruct (bool_decide (l = [])); [|done]. rewrite has_flag_clear by done. done. }
  assert (list_refresh_link (scheduled rq1) = l /\ list_master_connected (scheduled rq1) = list_master_connected (scheduled rq)) as [E1 E2] by (unfold rq1; by destruct (bool_decide (l = []))).
  unfold work_scheduled. rewrite E1, E2, !Hf by done. lia.
Qed.

Lemma clear_work m rq :
  has_flag m rq = true -> m = DELAYED_ACTION_TYPE_READ_NETLINK \/ m = DELAYED_ACTION_TYPE_REFRESH_ALL -> (work_scheduled (clear_flag m rq) + 2 <= work_scheduled rq)%nat.
Proof.
  intros Hf Hm. unfold work_scheduled. unfold clear_flag at 1 2. rq_cbn. destruct Hm as [-> | ->]; rewrite Hf, has_flag_cleared, has_flag_clear by done; cbn; lia.
Qed.
End end_.

(** ** Waits end *)

Section wait.
Context `{NmAsserts} `{TimeoutBound}.
Implicit Types (rq : Requests) (t : RefreshAllType) (l : list WaitData).

(** The requests that still wait after a round: they are not answered in it, and their
    time is not over, as an int has it. *)
Definition left_after (skip : bool) (r : Round) l : list WaitData :=
  List.filter (fun data => negb (negb skip && existsb (Z.eqb (wd_seq_number data)) (answers (received r))) && (int_of (clock r) <? wd_timeout_abs_ns data)) l.

(** The wait for these requests comes to its end in one of the rounds. *)
Fixpoint wait_over (skip : bool) l (rounds : list Round) : Prop :=
  match rounds with
  | [] => False
  | r :: rounds =>
      let l := left_after skip r l in
      l = [] \/ forall timeout, match poll r timeout with
                               | POLL_ERROR => True
                               | POLL_TIMEOUT => wait_over true l rounds
                               | POLL_READY | POLL_INTERRUPTED => wait_over false l rounds
                               end
  end.

(** The platform does not enter the namespace, or the requests have different numbers
    and the wait for them ends. *)
Definition wait_ends (env : ReadEnv) rq : Prop :=
  re_netns env = false \/ NoDup (numbers rq) /\ wait_over false (list_wait_for_nl_response rq) (re_first env :: re_more env).

(** Those of the requests that have no result are among [l]. *)
Definition pending l rq : Prop :=
  forall data, data ∈ list_wait_for_nl_response rq -> wd_seq_result data = 0 ->
  exists data', data' ∈ l /\ wd_seq_number data' = wd_seq_number data /\ wd_timeout_abs_ns data' = wd_timeout_abs_ns data.

Lemma requests_numbered open rq : requests_ok open rq -> NoDup (numbers rq) -> numbered rq.
Proof.
  intros Hok Hd. split; [by apply (has_wait open)|done|]. unfold numbers. apply Forall_fmap. eapply Forall_impl; [apply (ro_seqs _ _ Hok)|]. cbn. lia.
Qed.

Lemma sub_filter_numbers (f : WaitData -> bool) l : NoDup (wd_seq_number <$> l) -> NoDup (wd_seq_number <$> List.filter f l).
Proof.
  induction l as [|x l IH]; intros Hd; cbn; [constructor|]. apply NoDup_cons in Hd as [Hx Hd]. destruct (f x); [|by apply IH]. cbn. apply NoDup_cons. split; [|by apply IH].
  intros (y & E & [Hy _]%list_elem_of_In%filter_In)%list_elem_of_fmap. apply Hx. rewrite E. by apply list_elem_of_fmap_2, list_elem_of_In.
Qed.

Lemma elem_of_existsb n ns : existsb (Z.eqb n) ns = true <-> n ∈ ns.
Proof. rewrite existsb_exists. split; [by intros (m & Hm%list_elem_of_In & ->%Z.eqb_eq)|]. intros Hn. exists n. by rewrite <-list_elem_of_In, Z.eqb_refl. Qed.

(** What is left when a round has read and checked. *)
Lemma round_left (skip : bool) r l ss open rq rq1 rq2 next :
  numbered rq -> pending l rq -> answering ss rq rq1 -> ss = (if skip then [] else answers (received r)) ->
  checked WAIT_FOR_NL_RESPONSE_RESULT_UNKNOWN (check_now (Some (clock r))) open rq1 [] (list_wait_for_nl_response rq1) next rq2 ->
  pending (left_after skip r l) rq2 /\ NoDup (numbers rq2) /\ (left_after skip r l = [] -> list_wait_for_nl_response rq2 = []).
Proof.
  intros Hn Hp Ha Hss [_ _ Hl _ _]. cbn [app] in Hl. pose proof (an_handled _ _ _ Ha Hn) as Hh.
  assert (Hleft : forall data, data ∈ list_wait_for_nl_response rq2 -> exists data', data' ∈ left_after skip r l /\ wd_seq_number data' = wd_seq_number data /\ wd_timeout_abs_ns data' = wd_timeout_abs_ns data).
  { intros y Hy. rewrite Hl in Hy. apply list_elem_of_In, filter_In in Hy as [Hy%list_elem_of_In Hu]. apply bool_decide_eq_true_1 in Hu. unfold decided, timed_out in Hu. cbn [check_now fmap option_fmap option_map] in Hu.
    destruct (Z.eqb_spec (wd_seq_result y) 0) as [Ey|]; [|done]. cbn [negb] in Hu. destruct (Z.leb_spec (wd_timeout_abs_ns y) (int_of (clock r))) as [|Ht]; [done|].
    apply list_elem_of_lookup in Hy as [k Ek]. destruct (Forall2_lookup_r _ _ _ _ _ Hh Ek) as (x & Ex & [Hs Hr]). destruct (Hr Ey) as [E0 Hns].
    destruct (Hp x) as (z & Hz & Es & Et); [by apply list_elem_of_lookup_2 in Ex|done|]. destruct Hs as [S1 _ _ S2]. exists z. split; [|split; congruence].
    unfold left_after. apply list_elem_of_In, filter_In. split; [by apply list_elem_of_In|]. apply andb_true_iff. split; [|apply Z.ltb_lt; lia].
    apply negb_true_iff, not_true_iff_false. intros [Hk%negb_true_iff Hin%elem_of_existsb]%andb_true_iff. rewrite Hk in Hss. subst ss. by rewrite Es in Hin. }
  split_and!.
  - intros y Hy _. by apply Hleft.
  - unfold numbers. rewrite Hl. apply sub_filter_numbers, (answering_numbered _ _ _ Ha Hn).
  - intros E. destruct (list_wait_for_nl_response rq2) as [|y l2]; [done|]. destruct (Hleft y) as (z & Hz & _); [left|]. rewrite E in Hz. by apply elem_of_nil in Hz.
Qed.

Lemma wait_flag open rq : requests_ok open rq -> has_flag DELAYED_ACTION_TYPE_WAIT_FOR_NL_RESPONSE rq = true /\ list_wait_for_nl_response rq <> [] \/
  has_flag DELAYED_ACTION_TYPE_WAIT_FOR_NL_RESPONSE rq = false /\ list_wait_for_nl_response rq = [].
Proof. intros Hok. rewrite (has_wait _ _ Hok). destruct (list_wait_for_nl_response rq); [by right|by left]. Qed.

Lemma read_rounds_end skip any rounds l rq :
  requests_ok None rq -> NoDup (numbers rq) -> Forall clock_ok rounds -> Forall quiet_round rounds -> wait_over skip l rounds -> pending l rq ->
  exists any' rq', read_rounds true skip any rounds rq = Some (RETURNED any', rq') /\ list_wait_for_nl_response rq' = [].
Proof.
  revert skip any l rq. induction rounds as [|r rounds IH]; intros skip any l rq Hok Hnd Hr Hq Hw Hp; [done|].
  apply Forall_cons in Hr as [Hr Hrs]. apply Forall_cons in Hq as [Hq Hqs]. cbn [read_rounds]. pose proof (requests_numbered None rq Hok Hnd) as Hn.
  assert (exists any1 rq1, (if skip then Some (any, rq) else read_all (S (length (received r))) any (received r) rq) = Some (any1, rq1) /\ requests_ok None rq1 /\
    answering (if skip then [] else answers (received r)) rq rq1) as (any1 & rq1 & -> & Hok1 & Ha).
  { destruct skip; [exists any, rq; split_and!; [done|done|by apply answering_same]|].
    destruct (read_all_ok (S (length (received r))) any (received r) None rq Hok) as ([any1 rq1] & E & Hok1 & _); [lia|]. exists any1, rq1. split_and!; [done|done|]. by apply (read_all_answers _ _ _ _ Hq _ E). }
  cbn [mbind option_bind]. destruct (wait_flag None rq1 Hok1) as [[-> _]|[-> El]]; cbn [negb]; [|by exists any1, rq1].
  destruct (complete_check_ok WAIT_FOR_NL_RESPONSE_RESULT_UNKNOWN (Some (clock r)) None rq1 Hok1) as (next & rq2 & -> & Hk). cbn [mbind option_bind orb negb].
  destruct (round_left skip r l _ None rq rq1 rq2 next Hn Hp Ha eq_refl Hk) as (Hp2 & Hnd2 & He). pose proof (ck_ok _ _ _ _ _ _ _ _ Hk) as Hok2.
  destruct (wait_flag None rq2 Hok2) as [[-> Hne]|[-> El]]; cbn [negb]; [|by exists any1, rq2].
  rewrite (next_asserts (clock r) None rq1 rq2 next Hr Hk Hne). cbn [mbind option_bind]. cbn [wait_over] in Hw. destruct Hw as [E|Hw]; [by apply He in E|].
  specialize (Hw (poll_timeout next)). destruct (poll r (poll_timeout next)); try by apply (IH _ _ (left_after skip r l)).
  destruct (complete_all_ok WAIT_FOR_NL_RESPONSE_RESULT_FAILED_POLL None rq2 Hok2) as (rq3 & -> & _ & _ & E & _); [done|]. cbn [mbind option_bind]. by exists any1, rq3.
Qed.

Lemma read_netlink_end env rq :
  requests_ok None rq -> read_env_ok env -> quiet_read env -> wait_ends env rq ->
  exists any rq', event_handler_read_netlink env true rq = Some (RETURNED any, rq') /\ requests_ok None rq' /\ carries rq rq' /\ list_wait_for_nl_response rq' = [].
Proof.
  intros Hok Henv [Q1 Q2] Ht. pose proof (read_netlink_ok env true None rq Hok (fun _ => Henv)) as ([r rq1] & E & Hok1 & Hc). cbn [snd] in *. rewrite E.
  assert (exists any rq', event_handler_read_netlink env true rq = Some (RETURNED any, rq') /\ list_wait_for_nl_response rq' = []) as (any & rq' & E' & Hl).
  { destruct Henv as [H1 H2]. unfold event_handler_read_netlink. destruct (re_netns env) eqn:En; cbn [negb].
    - destruct Ht as [|[Hd Hw]]; [congruence|]. eapply read_rounds_end; [done|done|by constructor|by constructor|exact Hw|]. intros data Hdata _. by exists data.
    - destruct (complete_all_ok WAIT_FOR_NL_RESPONSE_RESULT_FAILED_SETNS None rq Hok) as (rq2 & -> & _ & _ & El & _); [done|]. cbn [mbind option_bind]. by exists false, rq2. }
  rewrite E in E'. injection E' as -> ->. by exists any, rq'.
Qed.

Lemma read_returns env rq r rq' : event_handler_read_netlink env false rq = Some (r, rq') -> r <> POLLING.
Proof.
  unfold event_handler_read_netlink. destruct (negb (re_netns env)); [destruct (delayed_action_wait_for_nl_response_complete_all _ rq); [by intros [= <- _]|done]|].
  cbn [read_rounds]. destruct (read_all _ _ _ rq) as [[any1 rq1]|]; [|done]. cbn [mbind option_bind]. destruct (negb (has_flag _ rq1)); [by intros [= <- _]|].
  destruct (delayed_action_wait_for_nl_response_complete_check _ _ rq1) as [[next rq2]|]; [|done]. cbn. by intros [= <- _].
Qed.

(** ** Handling ends *)

(** While an action is handled the system only tells answers, and what masters are
    does not change. *)
Record quiet_env (env : OneEnv) : Prop := {
  qe_master : oe_master env = []; qe_read : quiet_read (oe_read env); qe_reads t : quiet_read (oe_reads env t)
}.

(** There is nothing to do but to wait. *)
Definition awaits rq : bool :=
  negb (has_flag DELAYED_ACTION_TYPE_MASTER_CONNECTED rq || has_flag DELAYED_ACTION_TYPE_READ_NETLINK rq ||
        has_flag DELAYED_ACTION_TYPE_REFRESH_ALL rq || has_flag DELAYED_ACTION_TYPE_REFRESH_LINK rq) &&
  has_flag DELAYED_ACTION_TYPE_WAIT_FOR_NL_RESPONSE rq.

(** Each time the platform waits, the wait ends. *)
Fixpoint waits_end (envs : list OneEnv) rq : Prop :=
  match envs with
  | [] => True
  | env :: envs =>
      (awaits rq = true -> wait_ends (oe_read env) rq) /\
      match handle_one_request env rq with Some (HANDLED, rq') => waits_end envs rq' | _ => True end
  end.

Lemma handle_one_less env rq r rq' :
  requests_ok None rq -> one_env_ok env -> quiet_env env -> (awaits rq = true -> wait_ends (oe_read env) rq) -> handle_one_request env rq = Some (r, rq') ->
  r = HANDLED /\ (work rq' < work rq)%nat \/ r = NOTHING_LEFT.
Proof.
  intros Hok Henv [Qm Qr Qrs] Qw E. unfold handle_one_request in E. destruct (_ =? DELAYED_ACTION_TYPE_NONE); [injection E as <- _; by right|]. unfold awaits in Qw.
  destruct (has_flag DELAYED_ACTION_TYPE_MASTER_CONNECTED rq) eqn:F10.
  { destruct (take_master rq) as [[i rq1]|] eqn:Et; [|done]. cbn [mbind option_bind] in E. rewrite Qm in E. injection E as <- <-. left. split; [done|]. apply (take_master_work rq i rq1 Et).
    pose proof (ro_scheduled _ _ Hok) as [_ M _]. unfold DELAYED_ACTION_TYPE_MASTER_CONNECTED in F10. rewrite has_flag_shiftl in F10 by done. by apply M. }
  apply nm_assert_inv in E.
  destruct (has_flag DELAYED_ACTION_TYPE_READ_NETLINK rq) eqn:F11.
  { destruct (event_handler_read_netlink _ _ _) as [[r1 rq1]|] eqn:Er; [|done]. cbn [mbind option_bind] in E. injection E as <- <-.
    pose proof (read_returns _ _ _ _ Er) as Hr. left. split; [by destruct r1|]. pose proof (read_netlink_calm _ _ _ Qr _ Er) as Hc. cbn [snd] in Hc.
    apply (calm_work_step _ _ _ Hc), clear_work; [done|by left]. }
  destruct (has_flag DELAYED_ACTION_TYPE_REFRESH_ALL rq) eqn:FA.
  { destruct (do_request_all_no_delayed_actions _ _ _ _) as [rq1|] eqn:Er; [|done]. cbn [mbind option_bind] in E. injection E as <- <-. left. split; [done|].
    unfold do_request_all_no_delayed_actions in Er. cbv zeta in Er. pose proof (request_dumps_calm _ _ _ _ Qrs _ Er) as Hc. unfold id in Hc.
    apply (calm_work_step _ (clear_flag DELAYED_ACTION_TYPE_REFRESH_ALL rq)); [etransitivity; [|exact Hc]; by apply calm_same|]. apply clear_work; [done|by right]. }
  destruct (has_flag DELAYED_ACTION_TYPE_REFRESH_LINK rq) eqn:F9.
  { destruct (take_link rq) as [[i rq1]|] eqn:Et; [|done]. cbn [mbind option_bind] in E. destruct (do_request_link_no_delayed_actions _ _ _ _ _) as [rq2|] eqn:Er; [|done].
    cbn [mbind option_bind] in E. injection E as <- <-. left. split; [done|]. pose proof (request_link_calm _ _ _ _ _ Qr _ Er) as Hc. apply (calm_work_step _ _ _ Hc), (take_link_work rq i rq1 Et).
    pose proof (ro_scheduled _ _ Hok) as [_ _ L]. unfold DELAYED_ACTION_TYPE_REFRESH_LINK in F9. rewrite has_flag_shiftl in F9 by done. by apply L. }
  destruct (has_flag DELAYED_ACTION_TYPE_WAIT_FOR_NL_RESPONSE rq) eqn:F12; [|injection E as <- _; by right].
  apply nm_assert_inv in E. revert E. destruct (read_netlink_end (oe_read env) rq Hok) as (any & rq1 & Er & Hok1 & _ & El); [apply Henv|done|by apply Qw|].
  rewrite Er. cbn [mbind option_bind]. intros [= <- <-]. left. split; [done|]. unfold work. rewrite F12, (has_wait _ _ Hok1), El.
  pose proof (calm_work _ _ (read_netlink_calm _ _ _ Qr _ Er)). cbn [snd] in *. cbn. lia.
Qed.

Lemma handle_loop_end any envs rq :
  requests_ok None rq -> Forall (fun env => one_env_ok env /\ quiet_env env) envs -> waits_end envs rq -> (work rq < length envs)%nat ->
  exists any' rq', handle_loop any envs rq = Some (Some any', rq').
Proof.
  revert any rq. induction envs as [|env envs IH]; intros any rq Hok Henvs Hw Hlen; [cbn in Hlen; lia|]. apply Forall_cons in Henvs as [[Henv Hq] Henvs]. cbn [handle_loop].
  destruct (handle_one_request_ok env rq Hok Henv) as (r & rq1 & E & Hok1 & _ & _). cbn [waits_end] in Hw. rewrite E in *. destruct Hw as [Hw Hws]. cbn [mbind option_bind].
  destruct (handle_one_less env rq r rq1 Hok Henv Hq Hw E) as [[-> Hl]| ->]; [|by exists any, rq1]. apply IH; [done|done|done|]. cbn in Hlen. lia.
Qed.

Lemma schedule_read_work rq : (work (schedule DELAYED_ACTION_TYPE_READ_NETLINK 0 rq) <= work rq + 2)%nat.
Proof.
  unfold work, work_scheduled, schedule. rq_cbn.
  assert (Hf : forall m, Z.land DELAYED_ACTION_TYPE_READ_NETLINK m = 0 ->
    has_flag m (with_scheduled (delayed_action_schedule DELAYED_ACTION_TYPE_READ_NETLINK 0 (scheduled rq)) rq) = has_flag m rq).
  { intros m E. unfold has_flag. rq_cbn. cbn [delayed_action_schedule da_flags]. by rewrite Z.land_lor_distr_l, E, Z.lor_0_r. }
  rewrite (Hf DELAYED_ACTION_TYPE_REFRESH_ALL), (Hf DELAYED_ACTION_TYPE_WAIT_FOR_NL_RESPONSE) by done.
  assert (list_master_connected (delayed_action_schedule DELAYED_ACTION_TYPE_READ_NETLINK 0 (scheduled rq)) = list_master_connected (scheduled rq) /\
    list_refresh_link (delayed_action_schedule DELAYED_ACTION_TYPE_READ_NETLINK 0 (scheduled rq)) = list_refresh_link (scheduled rq)) as [-> ->] by done.
  pose proof (b2n_le (has_flag DELAYED_ACTION_TYPE_READ_NETLINK (with_scheduled (delayed_action_schedule DELAYED_ACTION_TYPE_READ_NETLINK 0 (scheduled rq)) rq))). lia.
Qed.

Lemma handle_all_end (read_netlink : bool) envs changes rq :
  requests_ok None rq -> Forall (fun env => one_env_ok env /\ quiet_env env) envs ->
  waits_end envs (if read_netlink then schedule DELAYED_ACTION_TYPE_READ_NETLINK 0 rq else rq) -> (work rq + 2 < length envs)%nat ->
  exists any rq', delayed_action_handle_all read_netlink envs changes rq = Some (Some any, rq').
Proof.
  intros Hok Henvs Hw Hlen. unfold delayed_action_handle_all. cbv zeta. destruct read_netlink.
  - destruct (handle_loop_end false envs (schedule DELAYED_ACTION_TYPE_READ_NETLINK 0 rq)) as (any & rq' & ->); [by apply schedule_plain_gives; [apply plain_flag|..]|done|done| |by eexists _, _].
    pose proof (schedule_read_work rq). lia.
  - destruct (handle_loop_end false envs rq Hok Henvs Hw) as (any & rq' & ->); [lia|]. by eexists _, _.
Qed.
End wait.
