(* ===== verification/NlRequestProps.v ===== *)
(** * Netlink requests: what holds

    The theorems about the requests of the platform, and concrete requests that show
    that they say something. *)

From S2P Require Export NlRequestEnd.

(** Timeouts without a bound. *)
#[local] Instance any_time : TimeoutBound := fun _ => True.

Section props.
Context `{NmAsserts}.
Implicit Types (rq : Requests) (t : RefreshAllType).

Lemma any_send (send : SendEnv) : send_env_ok send.
Proof. done. Qed.

(** Where assertions are checked, the time while the platform waits is positive as an
    int has it; it is any time where they are not. *)
Definition timely (env : OneEnv) : Prop := read_env_ok (oe_read env).

Lemma timely_ok env : timely env -> one_env_ok env.
Proof. by split. Qed.

Lemma timely_unchecked env : more_asserts = false -> timely env.
Proof. intros E. split; [|apply Forall_forall; intros r _]; intros E2; congruence. Qed.

Lemma timely_all envs : Forall timely envs -> Forall one_env_ok envs.
Proof. intros Hf. eapply Forall_impl; [exact Hf|]. by apply timely_ok. Qed.

(** What the platform gets to: changes of the cache schedule actions, requests are
    sent (for a route with a variable that is not in use), and handled. *)
Inductive reached : Requests -> Prop :=
| reached_start : reached no_requests
| reached_changes cs rq : reached rq -> reached (run_scheds cs rq)
| reached_send env p q response rq : reached rq -> response_ok None response rq -> reached (_nl_send_nlmsg env p q response rq).2
| reached_request_all action_type envs sends rq rq' :
    reached rq -> do_request_all_no_delayed_actions action_type envs sends rq = Some rq' -> reached rq'
| reached_request_link ifindex known env send rq rq' :
    reached rq -> do_request_link_no_delayed_actions ifindex known env send rq = Some rq' -> reached rq'
| reached_handle read_netlink envs changes rq any rq' :
    reached rq -> Forall timely envs -> delayed_action_handle_all read_netlink envs changes rq = Some (any, rq') -> reached rq'.

Lemma reached_ok rq : reached rq -> requests_ok None rq.
Proof.
  induction 1 as [|cs rq _ IH|env p q response rq _ IH Hre|a envs sends rq rq' _ IH E|i known env send rq rq' _ IH E|read envs changes rq any rq' _ IH Henvs E].
  - apply no_requests_ok.
  - by apply run_scheds_ok.
  - destruct (send_ok env p q response None rq IH Logic.I Hre) as [_ Hs]. by destruct (_ <? 0); [|destruct Hs].
  - destruct (do_request_all_ok a envs sends rq IH) as (x & Ex & Hx & _); [done|]. rewrite E in Ex. by injection Ex as ->.
  - destruct (do_request_link_ok i known env send rq IH) as (x & Ex & Hx & _); [done|]. rewrite E in Ex. by injection Ex as ->.
  - destruct (handle_all_ok read envs changes rq IH (timely_all _ Henvs)) as (y & x & Ex & Hx & _). rewrite E in Ex. by injection Ex as -> ->.
Qed.

(** ** Theorems *)

(** C9: In every state that the platform gets to, the flags agree with the arrays, each
    counter of refreshes is the number of requests that wait for their dump, and a
    route is only waited for with a variable that is not set.  To request a dump or a
    link fails no assertion and reads out of no array, whatever the system tells and
    the clock says.  Neither does the handling of what is scheduled, at any time of the
    clock if assertions are compiled out (as by default); if they are checked, as long
    as the clock, truncated to an int as the code does, is positive while the platform
    waits.  (Otherwise one of them fails: [late_request_asserts].) *)
Theorem requests_safe rq :
  reached rq ->
  requests_ok None rq /\
  (forall read_netlink envs changes, (more_asserts = true -> Forall timely envs) ->
     exists any rq', delayed_action_handle_all read_netlink envs changes rq = Some (any, rq') /\ requests_ok None rq') /\
  (forall action_type envs sends, exists rq', do_request_all_no_delayed_actions action_type envs sends rq = Some rq' /\ requests_ok None rq') /\
  (forall ifindex known env send, exists rq', do_request_link_no_delayed_actions ifindex known env send rq = Some rq' /\ requests_ok None rq').
Proof.
  intros Hok%reached_ok. split_and!; [done|..].
  - intros read envs changes Henvs. assert (Ht : Forall timely envs).
    { destruct more_asserts eqn:E; [by apply Henvs|]. apply Forall_forall. intros env _. by apply timely_unchecked. }
    destruct (handle_all_ok read envs changes rq Hok (timely_all _ Ht)) as (any & rq' & E & Hok' & _). by exists any, rq'.
  - intros a envs sends. destruct (do_request_all_ok a envs sends rq Hok) as (rq' & E & Hok' & _); [done|]. by exists rq'.
  - intros i known env send. destruct (do_request_link_ok i known env send rq Hok) as (rq' & E & Hok' & _); [done|]. by exists rq'.
Qed.

(** C10: A caller that sends a request and handles what is scheduled has a result when
    that came to the end, whatever the system told; so has everyone who waited, no
    refresh is in progress, and nothing is scheduled but what pruning scheduled. *)
Theorem requests_answered rq env p q response read_netlink envs changes any rq' :
  reached rq -> response_ok None response rq -> 0 <= se_nle env -> Forall timely envs ->
  delayed_action_handle_all read_netlink envs changes (_nl_send_nlmsg env (Some p) q response rq).2 = Some (Some any, rq') ->
  answered rq' p /\ (forall v, asks rq v \/ answered rq v -> answered rq' v) /\
  list_wait_for_nl_response rq' = [] /\ (forall t, refresh_all_in_progress rq' t = 0) /\ ((forall t, changes t = []) -> idle rq').
Proof.
  intros Hr Hre Hn Henvs E. pose proof (reached_ok rq Hr) as Hok. destruct (send_ok env (Some p) q response None rq Hok Logic.I Hre) as [Hc Hs].
  assert (Hn0 : (_nl_send_nlmsg env (Some p) q response rq).1 <? 0 = false).
  { unfold _nl_send_nlmsg, _nlh_seq_next_get. cbv zeta. destruct (Z.ltb_spec (se_nle env) 0); [lia|done]. }
  rewrite Hn0 in Hs. destruct Hs as [Hok1 Hp].
  destruct (handle_all_ok read_netlink envs changes _ Hok1 (timely_all _ Henvs)) as (y & x & Ex & Hx & Hc' & Hend). rewrite E in Ex. injection Ex as <- <-.
  destruct (Hend ltac:(done)) as (Hl & Hprog & Hi).
  assert (Hans : forall v, asks (_nl_send_nlmsg env (Some p) q response rq).2 v \/ answered (_nl_send_nlmsg env (Some p) q response rq).2 v -> answered rq' v).
  { intros v [Hv|Hv]; [|by apply (ca_answered _ _ Hc')]. destruct (ca_asks _ _ Hc' v Hv) as [(data & Hd & _)|]; [|done]. rewrite Hl in Hd. by apply elem_of_nil in Hd. }
  split_and!; try done; [by apply Hans; left; apply Hp|]. intros v [Hv|Hv]; apply Hans; [by apply (ca_asks _ _ Hc v)|right; by apply (ca_answered _ _ Hc)].
Qed.

(** C12: Handling what is scheduled ends, in a number of steps that is bounded by what is
    scheduled, if the system only tells answers while it runs (nothing that changes the
    cache, nothing that is lost) and each wait ends: the namespace cannot be entered,
    poll () fails, or each request that waits (no two with one number) is answered by its
    number or has its time over.  The time is the clock truncated to an int, as the code has
    it, so that past 2 ^ 31 nanoseconds a request may only end by its answer
    ([late_requests_wait]); where assertions are checked, the truncated clock is
    positive while the platform waits.  In the end everyone who waited has a result,
    and nothing is scheduled but what pruning scheduled. *)
Theorem handling_ends rq (read_netlink : bool) envs changes :
  reached rq -> Forall timely envs -> Forall quiet_env envs ->
  waits_end envs (if read_netlink then schedule DELAYED_ACTION_TYPE_READ_NETLINK 0 rq else rq) ->
  (work rq + 2 < length envs)%nat ->
  exists any rq', delayed_action_handle_all read_netlink envs changes rq = Some (Some any, rq') /\
    list_wait_for_nl_response rq' = [] /\ (forall v, asks rq v -> answered rq' v) /\ ((forall t, changes t = []) -> idle rq').
Proof.
  intros Hr%reached_ok Ht%timely_all Hq Hw Hlen. destruct (handle_all_end read_netlink envs changes rq Hr) as (any & rq' & E); [|done..|].
  { apply Forall_and. by split. }
  exists any, rq'. split; [done|]. destruct (handle_all_ok read_netlink envs changes rq Hr Ht) as (y & x & Ex & Hx & Hc & Hend).
  rewrite E in Ex. injection Ex as <- <-. destruct (Hend ltac:(done)) as (Hl & _ & Hi). split_and!; [done| |done].
  intros v Hv. destruct (ca_asks _ _ Hc v Hv) as [(data & Hd & _)|]; [|done]. rewrite Hl in Hd. by apply elem_of_nil in Hd.
Qed.

(** A request that has no result, and whose timeout no int reaches. *)
Definition late (data : WaitData) : Prop := wd_seq_result data = 0 /\ 2 ^ 31 <= wd_timeout_abs_ns data.

Lemma int_of_range z : - 2 ^ 31 <= int_of z < 2 ^ 31.
Proof. unfold int_of. pose proof (Z.mod_pos_bound (z + 2147483648) 4294967296 ltac:(lia)). lia. Qed.

Lemma late_undecided clock data : late data -> undecided WAIT_FOR_NL_RESPONSE_RESULT_UNKNOWN (check_now clock) data = true.
Proof.
  intros [E Ht]. apply bool_decide_eq_true_2. unfold decided, timed_out. rewrite E. cbn [Z.eqb negb]. destruct clock as [clk|]; [|done].
  cbn [check_now fmap option_fmap option_map]. pose proof (int_of_range clk). replace (wd_timeout_abs_ns data <=? int_of clk) with false by (symmetry; apply Z.leb_gt; lia). done.
Qed.

(** C13: A check completes exactly the requests that have a result, those whose time is
    over at the time of the check and, if it is forced, all; each variable of those is
    told the result, the time-out or what is forced of one that has it, the variables
    of others stay, and the check tells the first timeout of those that are left.  The
    time of the check is the clock truncated to an int, as the code has it: that is
    the clock for the first 2 ^ 31 nanoseconds, but a request whose timeout is later
    is never over, whatever the clock says. *)
Theorem check_completes force clock rq :
  reached rq ->
  exists next rq', delayed_action_wait_for_nl_response_complete_check force clock rq = Some (next, rq') /\
    let l := list_wait_for_nl_response rq in
    let now := check_now clock in
    list_wait_for_nl_response rq' ≡ₚ List.filter (undecided force now) l /\
    (forall p, (exists r, tells force now l p r) -> exists r, tells force now l p r /\ seq_results rq' !! p = Some r) /\
    (forall p, ~ (exists r, tells force now l p r) -> seq_results rq' !! p = seq_results rq !! p) /\
    earliest now (list_wait_for_nl_response rq') next /\
    (forall time, clock = Some time -> 0 <= time < 2 ^ 31 -> now = Some time) /\
    (forall data, data ∈ l -> late data -> force = WAIT_FOR_NL_RESPONSE_RESULT_UNKNOWN -> data ∈ list_wait_for_nl_response rq').
Proof.
  intros Hok%reached_ok. destruct (complete_check_ok force clock None rq Hok) as (next & rq' & E & [_ _ Hl He [Hd Ho]]). cbn [app] in Hl. exists next, rq'.
  split; [done|]. cbv zeta. split_and!; try done.
  - intros time -> Ht. cbn. by rewrite int_of_small.
  - intros data Hin Hlate ->. rewrite Hl. apply list_elem_of_In, filter_In. split; [by apply list_elem_of_In|]. by apply late_undecided.
Qed.

(** ** Timeouts past what an int holds *)

(** Nothing is received until poll () times out. *)
Definition silent (r : Round) : Prop := received r = [] /\ forall timeout, poll r timeout = POLL_TIMEOUT.

Lemma filter_all_true {A} (f : A -> bool) l : (forall x, x ∈ l -> f x = true) -> List.filter f l = l.
Proof.
  induction l as [|x l IH]; intros Hf; [done|]. cbn [List.filter]. rewrite Hf by left. rewrite IH; [done|]. intros y Hy. apply Hf. by right.
Qed.

(** Such requests wait as long as the platform polls, whatever the clock says. *)
Theorem late_requests_wait skip any rounds rq :
  more_asserts = false -> requests_ok None rq -> list_wait_for_nl_response rq <> [] -> Forall late (list_wait_for_nl_response rq) -> Forall silent rounds ->
  exists rq', read_rounds true skip any rounds rq = Some (POLLING, rq') /\ list_wait_for_nl_response rq' ≡ₚ list_wait_for_nl_response rq /\
    forall p, seq_results rq' !! p = seq_results rq !! p.
Proof.
  intros Hm. revert skip any rq. induction rounds as [|r rounds IH]; intros skip any rq Hok Hne Hl Hs; [by exists rq|].
  apply Forall_cons in Hs as [[Hr Hp] Hs]. cbn [read_rounds]. rewrite Hr.
  assert ((if skip then Some (any, rq) else read_all (S (length ([] : list Recv))) any [] rq) = Some (any, rq)) as -> by by destruct skip.
  cbn [mbind option_bind]. assert (Hw : forall rq1, requests_ok None rq1 -> list_wait_for_nl_response rq1 <> [] -> has_flag DELAYED_ACTION_TYPE_WAIT_FOR_NL_RESPONSE rq1 = true).
  { intros rq1 Hok1 Hne1. rewrite (has_wait _ _ Hok1). by destruct (list_wait_for_nl_response rq1). }
  rewrite Hw by done. cbn [negb]. destruct (complete_check_ok WAIT_FOR_NL_RESPONSE_RESULT_UNKNOWN (Some (clock r)) None rq Hok) as (next & rq2 & -> & [Hok2 _ Hl2 _ [_ Ho]]).
  cbn [mbind option_bind app] in *. rewrite Forall_forall in Hl. rewrite filter_all_true in Hl2 by (intros x Hx; by apply late_undecided, Hl).
  assert (Hne2 : list_wait_for_nl_response rq2 <> []) by (intros E; rewrite E in Hl2; by apply Permutation_nil_l in Hl2).
  rewrite Hw by done. cbn [negb orb]. rewrite nm_assert_unless by congruence. cbn [mbind option_bind]. rewrite Hp.
  destruct (IH true any rq2 Hok2 Hne2) as (rq' & E & Hp' & Hr'); [by rewrite Hl2; apply Forall_forall|done|]. exists rq'. split; [done|]. split; [by etransitivity|].
  intros p. rewrite Hr'. apply Ho. intros (r1 & data & Hd & _ & Er). pose proof (late_undecided (Some (clock r)) data (Hl data Hd)) as Hu. apply bool_decide_eq_true_1 in Hu. congruence.
Qed.
End props.

(** ** A platform with requests *)

(** Assertions are checked. *)
Definition asserting : NmAsserts := true.

Definition error_text : list byte := [Byte.x6e; Byte.x6f].

Definition quiet_request (now : Z) : Round := {| received := []; clock := now; poll := fun _ => POLL_TIMEOUT |}.
Definition request_reads (now : Z) : ReadEnv := {| re_netns := true; re_first := quiet_request now; re_more := [] |}.
Definition request_send (now : Z) : SendEnv := {| se_allocated := true; se_nle := 0; se_now := now |}.
Definition request_env (now : Z) : OneEnv := {|
  oe_master := []; oe_read := request_reads now; oe_known := true; oe_send := request_send now;
  oe_reads := fun _ => request_reads now; oe_sends := fun _ => request_send now |}.

Definition request_message (seq flags : Z) (body : MsgBody) : NlMsg := {| nlmsg_flags := flags; nlmsg_seq := seq; nlmsg_body := body |}.

(** A route is asked for, addresses and a link are to be refreshed. *)
Definition sample_scheduled : Requests := run_scheds [SCHEDULE_REFRESH [REFRESH_ALL_TYPE_IP4_ADDRESSES]; SCHEDULE_MASTER 5; SCHEDULE_LINK 6] no_requests.
Definition sample_requests : Requests :=
  (_nl_send_nlmsg (request_send 1000000000) (Some 2%positive) (Some 3%positive) (RESPONSE_ROUTE_GET (Some 1%positive)) sample_scheduled).2.

Lemma requests_reached : @reached asserting sample_requests.
Proof.
  unfold sample_requests. apply (@reached_send asserting).
  - apply (@reached_changes asserting), reached_start.
  - split; [done|]. split; [|done]. by intros Hp%elem_of_nil.
Qed.

Lemma request_timely now : 0 < int_of now -> @timely asserting (request_env now).
Proof. intros Hn. split; [by intros _|constructor]. Qed.

(** The dump of the addresses, the route, an error, and an error that nobody is told. *)
Definition sample_answers : list Recv :=
  [RECV_BUFFER true [request_message 3 NLM_F_MULTI (MSG_VALID None []); request_message 3 NLM_F_MULTI MSG_DONE];
   RECV_BUFFER true [request_message 1 0 (MSG_VALID (Some (zero_object IP6_ROUTE 6)) []); request_message 1 0 (MSG_ERROR (Some (0, None)))];
   RECV_BUFFER true [request_message 2 0 (MSG_ERROR (Some (-19, Some error_text)))];
   RECV_BUFFER true [request_message 4 0 (MSG_ERROR (Some (-1, Some error_text)))]].

Definition answering_env : OneEnv := {|
  oe_master := []; oe_read := {| re_netns := true; re_first := {| received := sample_answers; clock := 1200000000; poll := fun _ => POLL_READY |}; re_more := [] |};
  oe_known := true; oe_send := request_send 1200000000; oe_reads := fun _ => request_reads 1100000000; oe_sends := fun _ => request_send 1100000000 |}.

Definition answering_envs : list OneEnv := [request_env 1100000000; request_env 1100000000; request_env 1100000000; answering_env; request_env 1300000000].

Lemma answering_timely : Forall (@timely asserting) answering_envs.
Proof. unfold answering_envs. rewrite !Forall_cons, Forall_nil. split_and!; try done; by apply request_timely. Qed.

(** One more request for an answer, and all is handled. *)
Definition sample_sent : Requests := (_nl_send_nlmsg (request_send 1050000000) (Some 4%positive) (Some 5%positive) RESPONSE_VOID sample_requests).2.
Abbreviation sample_handled := (@delayed_action_handle_all asserting false answering_envs (fun _ => []) sample_sent).

Example requests_results :
  match sample_handled with
  | Some (Some any, rq) => (any, seq_results rq !! 2%positive, seq_results rq !! 4%positive, errmsgs rq !! 5%positive, bool_decide (is_Some (route_gets rq !! 1%positive)))
  | _ => (false, None, None, None, false)
  end = (true, Some 1, Some (-19), Some error_text, true).
Proof. vm_compute. reflexivity. Qed.

Lemma requests_safe_witness : @requests_ok any_time None sample_requests.
Proof. exact (proj1 (@requests_safe asserting sample_requests requests_reached)). Defined.

Lemma requests_ended : exists any rq, sample_handled = Some (Some any, rq).
Proof.
  destruct sample_handled as [[[any|] rq]|] eqn:E; [by exists any, rq| |].
  - assert (Hf : match sample_handled with Some (Some _, _) => true | _ => false end = true) by (vm_compute; reflexivity). by rewrite E in Hf.
  - assert (Hf : match sample_handled with Some (Some _, _) => true | _ => false end = true) by (vm_compute; reflexivity). by rewrite E in Hf.
Qed.

Lemma requests_answered_witness : exists any rq, sample_handled = Some (Some any, rq) /\ answered rq 4 /\ list_wait_for_nl_response rq = [].
Proof.
  destruct requests_ended as (any & rq & E). exists any, rq.
  destruct (@requests_answered asserting sample_requests (request_send 1050000000) 4%positive (Some 5%positive) RESPONSE_VOID false answering_envs (fun _ => []) any rq
    requests_reached eq_refl ltac:(discriminate) answering_timely E) as (Ha & _ & Hl & _).
  split; [exact E|]. split; [exact Ha|exact Hl].
Defined.

(** About an hour later: the kernel answers the three requests (that of the route, the
    dump of the addresses and that of the link). *)
Definition hour : Z := 838 * 2 ^ 32 + 500000000.
Definition kernel_answers : list Recv :=
  [RECV_BUFFER true [request_message 1 0 (MSG_ERROR (Some (-19, Some error_text)))];
   RECV_BUFFER true [request_message 2 NLM_F_MULTI (MSG_VALID None []); request_message 2 NLM_F_MULTI MSG_DONE];
   RECV_BUFFER true [request_message 3 0 (MSG_ERROR (Some (0, None)))]].
Definition kernel_env : OneEnv := {|
  oe_master := []; oe_read := {| re_netns := true; re_first := {| received := kernel_answers; clock := hour; poll := fun _ => POLL_READY |}; re_more := [] |};
  oe_known := true; oe_send := request_send hour; oe_reads := fun _ => request_reads hour; oe_sends := fun _ => request_send hour |}.
Definition kernel_envs : list OneEnv := replicate 12 kernel_env.

Lemma kernel_timely : Forall (@timely asserting) kernel_envs.
Proof. apply Forall_replicate. split; [by intros _|constructor]. Qed.

Lemma kernel_quiet : Forall quiet_env kernel_envs.
Proof.
  apply Forall_replicate. split; [done| |intros t; split; constructor]. split; [|constructor].
  repeat constructor.
Qed.

Lemma kernel_waits_end : @waits_end asserting kernel_envs (schedule DELAYED_ACTION_TYPE_READ_NETLINK 0 sample_requests).
Proof.
  vm_compute. repeat match goal with |- _ /\ _ => split end; try done. intros _. right. split; [apply NoDup_singleton|by left].
Qed.

Lemma handling_ends_witness :
  exists any rq, @delayed_action_handle_all asserting true kernel_envs (fun _ => []) sample_requests = Some (Some any, rq) /\ answered rq 2 /\ idle rq.
Proof.
  destruct (@handling_ends asserting sample_requests true kernel_envs (fun _ => []) requests_reached kernel_timely kernel_quiet kernel_waits_end) as (any & rq & E & _ & Ha & Hi).
  - vm_compute. lia.
  - exists any, rq. split; [exact E|]. split; [|by apply Hi]. apply Ha. eexists. split; [left|reflexivity].
Defined.

Lemma check_completes_witness :
  exists next rq, @delayed_action_wait_for_nl_response_complete_check asserting 0 (Some 1300000000) sample_requests = Some (next, rq) /\ list_wait_for_nl_response rq ≡ₚ [] /\
    seq_results rq !! 2%positive = Some WAIT_FOR_NL_RESPONSE_RESULT_FAILED_TIMEOUT.
Proof.
  destruct (@check_completes asserting 0 (Some 1300000000) sample_requests requests_reached) as (next & rq & E & Hl & Hd & _).
  exists next, rq. split; [exact E|]. split; [exact Hl|]. destruct (Hd 2%positive) as (r & (data & Hdata & Ep & Er) & ->).
  - eexists _, _. split; [left|]. split; reflexivity.
  - apply list_elem_of_singleton in Hdata as ->. f_equal. vm_compute in Er. by injection Er as <-.
Defined.

(** ** After some seconds *)

Definition late_requests : Requests := (_nl_send_nlmsg (request_send 3000000000) (Some 2%positive) None RESPONSE_VOID no_requests).2.

Definition late_reads : ReadEnv := {| re_netns := true; re_first := quiet_request 3000000000; re_more := quiet_request <$> [3300000000; 4000000000; 5000000000] |}.

(** The request should have timed out at 3.2 seconds; the platform polls, and where
    assertions are checked one of them fails. *)
Example late_request_waits :
  match @event_handler_read_netlink false late_reads true late_requests with Some (POLLING, rq) => length (list_wait_for_nl_response rq) | _ => 0%nat end = 1%nat.
Proof. vm_compute. reflexivity. Qed.

Example late_request_asserts : @event_handler_read_netlink asserting late_reads true late_requests = None.
Proof. vm_compute. reflexivity. Qed.

(** A type that is requested twice is not pruned when the handling ends. *)
Example refreshed_twice_not_pruned :
  match @do_request_all_no_delayed_actions asserting 2 (fun _ => request_reads 1100000000) (fun _ => request_send 1100000000) no_requests with
  | Some rq =>
      match @do_request_all_no_delayed_actions asserting 2 (fun _ => request_reads 1100000000) (fun _ => request_send 1100000000) rq with
      | Some rq2 => (pruned_types (pruning rq), pruned_types (pruning rq2))
      | None => ([], [])
      end
  | None => ([], [])
  end = ([REFRESH_ALL_TYPE_IP4_ADDRESSES], []).
Proof. vm_compute. reflexivity. Qed.
